(* ===== verification/_CoqProject ===== *)
-Q . S2P
Prelude.v
Platform.v
QdmaList.v
ResMgmt.v
FreeList.v
ResMgmtInv.v
ResMgmtThms.v
ResMgmtFrame.v
Bits.v
RegIO.v
IndCtxt.v
SoftReg.v
CtxtTypes.v
SoftCtxt.v
SoftCtxtThms.v
SoftAccess.v
SoftAccessThms.v
RegList.v
QueueTypes.v
HwAccess.v
MboxMsg.v
MboxStruct.v
MboxCompose.v
MboxHandler.v
MboxSafe.v
MboxThms.v
MboxProto.v
MboxIO.v
MboxLimits.v
MboxConfine.v
MboxProgram.v
MboxGaps.v
DescRing.v
Descq.v
DescqProc.v
DescqFill.v
DescqInv.v
DescqCmpl.v
DescqLoop.v
DescqMm.v
DescqSubmit.v
DescqSys.v
DescqThms.v
DescqConf.v
DescqConfThms.v
DescqEx.v
Threads.v
CtxtSetup.v
CtxtSetupThms.v
QueueLife.v
Intr.v
QueueLifeThms.v
QueueStop.v
QueueLifeInv.v
QueueLifeEx.v
IntrThms.v
MboxQueue.v
MboxQueueInv.v
MboxQueueThms.v
MboxEnds.v
MboxQueueEx.v
StC2H.v
StC2HCmpt.v
StC2HRead.v
StC2HThms.v
StC2HPkt.v
StC2HAlloc.v
StC2HEx.v
ErrProc.v
SoftErr.v
EqdmaErr.v
Cpm5Err.v
Cpm4Err.v
ErrThms.v
ErrIntr.v
ErrIps.v
EqdmaAccess.v
Cpm5Access.v
Cpm4Access.v
HwInit.v
