(* ===== verification/Prelude.v ===== *)
(** * Verification of the QDMA driver core

    This library models the Linux driver library of the Xilinx/AMD QDMA,
    src/QDMA/linux-kernel/driver/libqdma/: its hardware access layer
    (qdma_access/, which the Linux, DPDK and Windows drivers of the repository
    share), the platform functions that layer calls (qdma_platform.c), and the
    descriptor queues, their life cycle and their interrupts above it.

    *** The program

    A QDMA device offers a few thousand DMA queues to several PCI functions.
    - The _resource manager_ (qdma_resource_mgmt.c) keeps, per device, the range
      of queue ids each function owns and a list of free ranges.
    - The _access layer_ (qdma_soft_access.c, qdma_access_common.c) translates
      queue, completion, prefetch, interrupt and function-map contexts to
      register words and moves them through one set of indirect registers that
      is guarded by a spin lock and a busy flag.
      Three further devices, EQDMA, CPM5 and CPM4, have layers of their own
      with other layouts; qdma_hw_access_init finds out which device it is and
      fills the table struct qdma_hw_access with the functions of its layer.
    - The _mailbox_ (qdma_mbox_protocol.c) connects the two: a virtual function
      has no access to the contexts and asks the physical function for queues
      and contexts with messages of 32 words through mailbox registers.  The
      handler of the physical function decodes a message, calls the resource
      manager and, through the table struct qdma_hw_access, the access layer,
      and composes the answer.
    - The _mailbox queues_ (qdma_mbox.c) carry the messages: senders put them on
      a list and may wait for the answer, a work queue sends them, receives
      others, hands out answers and calls the handlers, driven by an interrupt
      or a timer.
    - A _descriptor queue_ (qdma_descq.c, with the submission functions of
      libqdma_export.c) turns requests, scatter lists with a byte count, into
      descriptors on a ring in host memory, tells the engine how many there
      are through a doorbell, and completes requests when the engine has
      consumed their descriptors.  Its life cycle (add, configure, start, stop,
      remove: libqdma_export.c, qdma_device.c) counts it with the resource
      manager, allocates its rings, and programs its contexts
      (qdma_context.c) through the access layer or, for a virtual function,
      through the mailbox.
    - A _streaming queue from card to host_ (qdma_st_c2h.c) has a free list of
      pages instead of request descriptors: the device writes packets to the
      buffers and reports them on a completion ring; the driver copies them to
      the requests that wait and gives the buffers back.
    - _Hardware errors_: each access layer (qdma_soft_access.c,
      eqdma_soft_access.c, eqdma_cpm5_access.c, qdma_cpm4_access.c) has a table
      of errors with their status and mask registers; the error interrupt, or
      a delayed work in polled mode, logs and clears what is pending.
    - _Interrupts_ (qdma_intr.c) and _threads_ (qdma_thread.c) call the service
      function of the queues the device reports.
    - All stand on an intrusive doubly linked list (qdma_list.c), on error
      codes (qdma_access_errors.h) and on platform calls for memory, register
      access, delay and locking (qdma_platform.c).

    *** The files

    - [Prelude]: machine integers as [Z] with explicit wrap-around
      ([u8] ... [u64], [s32]), tactics, shared lemmas.
    - [Platform]: the error enumeration, the errno table, the allocator.  An
      allocator state is the list of outcomes of the coming allocations, so a
      theorem quantified over it covers every pattern of failures.
    - [QdmaList]: qdma_list.c on a heap of nodes with NULL and dangling
      pointers ([None] is an access to memory that is not a node), refined to
      list operations by the predicate [is_list].
    - [ResMgmt]: every function of qdma_resource_mgmt.c as a state transformer
      of the list of master resources.  The intrusive lists are Rocq lists
      here; [QdmaList] justifies that.  [FreeList]: lemmas on the free list
      (insert, defragment, choose, fragment).  [ResMgmtInv]: the invariant and
      the transition system whose steps are the driver's calls.
      [ResMgmtThms]: the theorems.  [ResMgmtFrame]: what a call does to other
      functions, as the mailbox needs it.
    - [Bits]: GENMASK, FIELD_SHIFT, FIELD_SET and FIELD_GET, and the portable
      count-trailing-zeros loop.
    - [RegIO]: the device as a class [Device] (read, write, delay), the state
      monad [hwm] of the driver with its register lock, [hw_monitor_reg] and
      the CSR array loops.
    - [IndCtxt]: the indirect context commands of qdma_soft_access.c, and two
      interfaces, [IndirectCtxt] (what the hardware documentation says the
      indirect registers do: a store of context words) and [TimelyDevice] (the
      busy flag clears in time), with a simulated device that has both.
    - [SoftReg]: the register offsets and field masks of qdma_soft_reg.h.
      [CtxtTypes]: the context structures of qdma_access_common.h.
    - [SoftCtxt], [SoftCtxtThms]: packing, unpacking and the access functions of
      the seven context kinds.
    - [EqdmaAccess], [Cpm5Access]: the context functions, initialisation,
      default configuration, BAR lookup and register list of those layers, on
      the indirect block of [IndCtxt], with what each packs and unpacks.
      [Cpm4Access]: the same for the CPM4, with its own indirect commands, the
      vector table and the function map registers.
    - [SoftAccess], [SoftAccessThms]: device attributes, BAR lookup, default
      configuration, doorbells, legacy interrupts, context initialisation and
      global CSR arrays.  [RegList]: the register table of the soft IP and
      qdma_read_reg_list.
    - [HwAccess]: struct qdma_hw_access as a class of the entries the mailbox
      calls; the soft IP is an instance.  [HwAccessOk] is what the handlers
      rely on (entries return and leave the lock free); the soft IP has it.
    - [HwInit]: qdma_hw_access_init (qdma_access_common.c), which reads the
      version registers and chooses among the four tables; each of them has
      [HwAccessOk].  It also states once, for a layer and a kind of context as
      arguments, what programming a context promises.
    - [MboxMsg]: opcodes, messages as byte buffers, the layout of
      union qdma_mbox_txrx (64-bit little-endian).  [MboxStruct]: C structures
      and bit fields in a buffer, laws of reading and writing members.
    - [MboxCompose]: the functions that compose requests and decode answers.
      [MboxHandler]: the context functions of the mailbox and the two message
      handlers, case by case, on the state hardware, resource manager, received
      message, response.
    - [MboxSafe], [MboxThms]: safety of the handler, answers, effect on the
      resource manager.  [MboxProto]: exchanges from end to end.  [MboxIO]: the
      mailbox registers (send, receive, acknowledgement, interrupts).
      [MboxLimits], [MboxConfine]: what a message cannot change in the hardware.
      [MboxProgram]: what a context message programs.  [MboxGaps]: concrete
      exchanges, the gaps and the instances of the theorems.
    - [MboxQueue]: qdma_mbox.c and the functions of qdma_sriov.c it calls.  The
      state [qdma_mbox] has the store of messages, the two lists and the flags;
      each function is cut where it gives up the list lock, and [mstep] is the
      step of the system of senders, work queue, timer and interrupt.  The
      hardware and the handlers are the class [MboxEnd].  [MboxQueueInv]: the
      invariant.  [MboxQueueThms]: it holds in every calm run; the theorems.
      [MboxEnds]: the mailbox registers and handlers of physical and virtual
      functions have what the theorems ask for.  [MboxQueueEx]: exchanges
      through a mailbox, and the interleavings that go wrong.
    - [QueueTypes]: struct qdma_queue_conf, qdma_request, qdma_sgt_req_cb,
      qdma_descq, xlnx_dma_dev and the descriptors as records; the state of a
      queue ([qst]: queue, device structure, store of requests, engine, log of
      callbacks) and the monad of its functions.  [DescRing]: the index
      arithmetic of the rings.
    - [Descq], [DescqProc]: qdma_descq.c, completion and processing of
      requests, service and pointers; [DescqSubmit]: submission
      (libqdma_export.c); [DescqConf]: configuration and ring allocation.
    - [DescqFill]: which bytes the descriptors of a request move.  [DescqInv]:
      what an engine promises ([DescEngine], and [PromptEngine] for progress)
      and the invariant of a queue, stated with the unbounded counts of
      descriptors written, posted and consumed.  [DescqCmpl], [DescqLoop],
      [DescqMm]: the functions keep it; [DescqCmpl] also has an engine with the
      promised behaviour.  [DescqSys], [DescqThms]: the transition system of a
      queue and the theorems on its runs.  [DescqConfThms]: configuration and
      ring allocation leave a fresh queue.  [DescqEx]: instances and defects.
    - [Threads]: the assignment of queues to processors and polling threads.
    - [CtxtSetup], [CtxtSetupThms]: qdma_context.c, and what a started queue
      finds in its contexts.
    - [QueueLife]: the life cycle on the three queue arrays of a device
      ([dst]), each operation a transformer of the device's state.
      [QueueLifeThms]: the life cycle machine and the refinement.
      [QueueStop]: the requests a stopped queue fails.  [QueueLifeInv]: modes
      of the queues of an index, and what a started queue is.  [QueueLifeEx]:
      instances and defects.
    - [Intr], [IntrThms]: data interrupts, direct and aggregated.
    - [ErrProc]: error processing and enabling over a record [err_ip] of what
      differs between the access layers; [SoftErr], [EqdmaErr], [Cpm5Err],
      [Cpm4Err]: enumeration, table and handlers of each.  [ErrThms]: status
      registers with errors raised at any access, processing, the masks.
      [ErrIntr]: the vectors, the error interrupt, the interrupt setup of a
      device, the delayed work and its cancellation.  [ErrIps]: the four
      layers, a device, instances, defects.
    - [StC2H]: the free list of qdma_st_c2h.c, its pages with their reference
      counts and bytes, refilling and reading, over the hardware state [c2h].
      [StC2HCmpt]: the completion ring, the adaptive counter, the calls of the
      library.  [StC2HRead]: bytes of memory as pairs of page and offset, what
      the copying loops do.  [StC2HThms]: the read.  [StC2HPkt]: packets.
      [StC2HAlloc]: the pages of the free list.  [StC2HEx]: a device, packets
      from arrival to callback, instances and defects.

    *** What the theorems show

    - Resource manager: in every reachable state, whatever allocations fail,
      functions own disjoint ranges inside the device's range and no owned queue
      is free; a function with active queues is not resized.  When no
      allocation fails, every call but the destruction of a whole master is a
      step of an abstract specification that moves sets of queue ids between a
      pool and the functions, no queue is lost, and a request of a function
      without active queues that owns queues, or any request when the free
      list is coalesced, is granted exactly when a large enough block exists
      ([qdma_dev_update_fragments] shows why this is needed).  The hypothesis
      [op_ok] on requests (the sum of base and size does not exceed 32 bits) is
      needed everywhere: [qdma_dev_update_overflow] shows what happens without
      it.
    - Lists: each pointer operation implements the list operation, and the safe
      traversal may unlink and free the node it visits.
    - Access layers: the table a device gets is a function of its version word,
      and whatever the registers hold the mailbox handler can be run on it, on
      the messages it handles safely (below).
    - Contexts: in the soft IP, EQDMA and CPM5 layers what is written through
      the indirect registers reads back field by field, up to what the layer
      cannot hold ([ctx_held]), and every other context, of the same kind or
      another, is untouched; for an arbitrary device every
      access function returns and leaves the lock free; a device that stays
      busy gives the time-out error.
    - Configuration: CSR slices round trip and bad slices are rejected; doorbell
      addresses do not collide; initialisation clears exactly the contexts of
      the device's queues and functions.
    - Mailbox: for every device and every access table an arbitrary message is
      handled without access outside the driver's buffers, and a request is
      answered to its sender, apart from the messages named below and from a
      function map the hardware fails to write ([fmap_unanswered]); a message
      changes the resource manager only on behalf of its sender, and keeps its
      state reachable if it is no queue request that overflows; on a device
      that behaves as documented it changes no context but those of the
      sender's queues and its function map, with two kinds of messages
      excepted; a context write of the owner programs the contexts composed
      from the message; a queue request, composed, handled and decoded, gives
      the sender the block the resource manager recorded; the source of a
      received message is the one the hardware reports.
    - Mailbox queues: in every run in which no sender gives up a message the
      work queue holds, the device is not offline and a physical function
      waits for no answer ([calm]), no thread touches a freed message or
      unlinks one twice; messages are sent in order, each once; a sender that
      returns with success holds a received message with the operation code
      that answers its request, which is all the code compares ([late_answer]:
      it may answer another request with the same code); the send work empties
      its list when the hardware takes the messages.
    - Memory mapped queues: in every state reached by submitting requests and
      servicing the queue, for every engine that behaves as documented, the
      ring is accounted for descriptor by descriptor, requests complete once
      and in the order of submission with the result they should have,
      processing returns, and with a prompt engine a polled queue drains; a
      round of processing writes descriptors that move exactly the next bytes
      of the request; a queue that qdma_queue_start has started is in the
      initial state of the invariant whatever its indices, credits and counters
      were before, the requests apart that were left on its lists: those stay,
      and only without them the invariant holds.
    - Contexts of a queue: on the soft IP, starting a queue programs the contexts
      composed from its configuration and leaves every context it has not, of
      the same queue or another, as it was; a virtual function gets the same ones
      through the mailbox, up to the members the message lacks.
    - Life cycle: each operation is one step of an abstract machine of
      disabled, enabled and online queues, or returns an error and changes
      nothing; streaming and memory mapped queues of an index never mix; a
      stopped queue ends each of its requests.  The first two do not cover
      adding a queue at an index of the driver's choice ([life_op_ok]): there
      the code takes another queue than the one it returns
      ([auto_index_takes_wrong_queue]).
    - Interrupts: every entry of the aggregation ring is served once, in order.
    - Streaming from card to host: setting up the free list gives each
      descriptor a buffer of its own, at the bus address the descriptor has, in
      new pages, or leaves none behind, and freeing it restores memory.  The
      completion entries of some packets append exactly the bytes the device
      wrote them to, in order, to the unread bytes of the ring ([recv_ok]: no
      packet handler of an upper layer, the free buffers have their whole
      length and are read where the descriptors point to).  A partial read
      moves the offset of a buffer for good and breaks this
      ([partial_read_shifts_buffer]); with a buffer size that is no power of
      two, as the default of 3968 bytes, so does a packet longer than a buffer
      whose length is a power of two ([splits], [bufsz_3968_loses_bytes]).  A
      read copies the first unread bytes to what is left of the request, as many
      as both have, and touches nothing else ([can_read]: the request copies,
      the queue measures no ping-pong times, the scatter list names bytes that
      exist, once each, outside the ring); when the doorbell fails after the
      copying, the request does not move on and the bytes are lost
      ([failed_doorbell_loses_bytes]).
    - Hardware errors, relative to the table of the layer: an entry with a
      status bit of its mask set is logged or the bit is kept, and an entry is
      logged only when such a bit was raised, whatever is raised meanwhile; a
      status bit in no entry's mask is cleared unlogged and entries with one
      mask are logged together ([eqdma_same_bit], [cpm4_same_bit]).  Setting up
      the error interrupt gives every block its mask.  The vectors are shared
      out completely or not at all, or none are wanted (polled and legacy mode,
      no MSI-X).  The delayed work is gone when going offline has finished; a
      run that goes on for ever never grants going offline the lock, which is
      free again and again.  What the tables of the layers have to satisfy for
      this is a boolean ([ip_check], [mask_check]) that is evaluated for each.
    - The remaining properties state defects found while modelling (32-bit
      wrap-around in the range check, unguarded counter, fragmentation after a
      failed request, read-modify-write without clearing a field, messages
      larger than their buffer, unchecked ring counts, completion contexts and
      function maps, requests given up on time-out, scatter lists shorter than
      the byte count, automatic choice of a queue index, errors translated
      twice).

    *** Hypotheses on the messages

    The handler theorems hold for the buffers of the driver, 128 bytes each, and
    for larger ones, with two exceptions that are defects of the code.  The
    answer to a context read that includes the completion context needs a
    response of the size of the union, 152 bytes ([resp_size],
    [ctxt_read_overruns]); and interrupt messages may name one ring, the size of
    their arrays ([rings_ok], [intr_ctxt_read_overruns]).  The composing
    functions zero 152 bytes ([message_overruns_registers]), so the theorems on
    them take buffers of that size.
    The mailbox queues take the size of a message as a parameter: 128 bytes do
    for a virtual function ([vf_end_ok]), and for a physical function on the
    messages that are no exception ([pf_end_ok]).  What [calm] leaves out goes wrong:
    [interrupted_before_send] and the examples that follow it are runs of the
    code that read or free a message twice.

    *** Hypotheses on queues and engines

    [DescEngine] states what the driver relies on: the consumer index the
    engine reports is that of a count between what it reported before and what
    was posted.  [PromptEngine] adds that it reports everything posted.
    Requests are taken to have scatter lists whose lengths add up to the byte
    count, with non-empty entries ([mm_req_ok]); without that processing may not return
    ([mm_short_list_never_returns]).  The state of a queue with a request given up
    on time-out is outside the reachable states of the theorems
    ([timeout_completes_next_early] shows why).  The life cycle theorems take
    the legacy interrupt setup, the context functions, the allocation and the
    release of the C2H free list as parameters that leave the queue states
    alone.

    *** Hypotheses on the error registers

    [ErrorUnit]: a status register keeps an error until a one is written to its
    bit, a mask register keeps what is written to it, and errors may be raised
    at every access; reading a register does not change it.  Nothing is assumed
    of other registers.

    *** Bounds and fuel

    Loops are structural: lists are traversed by recursion on the list, the
    safe traversal by fuel that is proved sufficient when it is at least the
    number of nodes, and the polling loop by its own iteration count
    (500000 us / 10 us = 50000 iterations for the default time-out), computed
    as the code computes it, including the wrap of a zero count.  The loop over
    the work list and the loop over the interrupt ring have no bound in the
    code and run on fuel: [mm_proc_terminates] and
    [ring_interrupts_exactly_once] give amounts that suffice.  The endless loops
    of the mailbox work are cut into steps and need no fuel;
    [send_work_empties] counts them.

    *** Not modelled

    The mutex around the resource manager (its calls are atomic steps), the
    text of register and context dumps (string formatting), the global
    configuration functions of the EQDMA and CPM5 layers (no table installs
    them), the legacy interrupt handler, kernel threads, and the
    character-device, network and user-space parts.  The indirect commands of
    the CPM4 layer are modelled and keep the lock, but no round trip over a
    device is proved for them: the block has other registers than the one
    [IndirectCtxt] describes. *)

From Stdlib Require Export ZArith Lia.
From stdpp Require Export base numbers list list_numbers gmap sets tactics.
Export stdpp.list_basics.list stdpp.list_relations.list stdpp.list_monad.list.
Export stdpp.list_misc.list stdpp.list_numbers.list.

(** Everything in the development is about C integers, kept in [Z]. *)
#[export] Set Default Goal Selector "!".
Open Scope Z_scope.

(** ** Machine integers *)

(** Conversion to the unsigned types of the C code: reduction modulo 2^w. *)
Definition wrap (w z : Z) : Z := z mod 2 ^ w.
Notation u8 := (wrap 8).
Notation u16 := (wrap 16).
Notation u32 := (wrap 32).
Notation u64 := (wrap 64).

(** Conversion to a signed type of [w] bits (two's complement, as gcc
    defines it). *)
Definition sext (w z : Z) : Z := (z + 2 ^ (w - 1)) mod 2 ^ w - 2 ^ (w - 1).
Notation s8 := (sext 8).
Notation s32 := (sext 32).

(** [is_u w z]: [z] is a value of the unsigned [w]-bit type. *)
Definition is_u (w z : Z) : Prop := 0 <= z < 2 ^ w.

(** Bitwise or, as the C code writes it. *)
Declare Scope qdma_scope.
Infix ".|" := Z.lor (at level 50, left associativity) : qdma_scope.
Open Scope qdma_scope.

Create HintDb qdma.

Section machine_ints.
Context (w : Z) (Hw : 0 <= w).
Implicit Types z : Z.

Lemma wrap_small z : is_u w z -> wrap w z = z.
Proof using. unfold is_u, wrap. intros. by apply Z.mod_small. Qed.

Lemma wrap_range z : is_u w (wrap w z).
Proof using Hw.
  unfold is_u, wrap. apply Z.mod_pos_bound, Z.pow_pos_nonneg; lia.
Qed.

Lemma wrap_wrap z : wrap w (wrap w z) = wrap w z.
Proof using Hw. apply wrap_small, wrap_range. Qed.

Lemma wrap_land_ones z : wrap w z = Z.land z (Z.ones w).
Proof using Hw. unfold wrap. by rewrite Z.land_ones by lia. Qed.
End machine_ints.

Lemma sext_small w z : 0 < w -> - 2 ^ (w - 1) <= z < 2 ^ (w - 1) -> sext w z = z.
Proof.
  intros Hw Hz. unfold sext. rewrite Z.mod_small; [lia|].
  replace (2 ^ w) with (2 * 2 ^ (w - 1)); [lia|].
  rewrite <- Z.pow_succ_r by lia. f_equal; lia.
Qed.

Lemma s32_small z : - 2147483648 <= z < 2147483648 -> s32 z = z.
Proof. intros. apply sext_small; [lia|]. change (2 ^ (32 - 1)) with 2147483648. lia. Qed.

Lemma u32_small z : 0 <= z < 4294967296 -> u32 z = z.
Proof. intros. apply wrap_small. unfold is_u. change (2 ^ 32) with 4294967296. lia. Qed.

Lemma testbit_u w a n : is_u w a → 0 <= w <= n → Z.testbit a n = false.
Proof.
  unfold is_u. intros Ha Hn. destruct (decide (a = 0)) as [->|]; [apply Z.bits_0|].
  apply Z.bits_above_log2; [lia|]. assert (Z.log2 a < w) by (apply Z.log2_lt_pow2; lia). lia.
Qed.

#[export] Hint Resolve wrap_range : qdma.

(** ** Record update *)

(** A structure type registers its eta expansion as [Settable]; the update
    [d <| f := v |>] of a member is found by abstracting the projection in it. *)
Class Settable (R : Type) := eta : R → R.
Class Setter {R T : Type} (f : R → T) := set : (T → T) → R → R.
Arguments set {R T} f {_} _ _ /.

Ltac solve_setter :=
  match goal with
  | |- @Setter ?R ?T ?f =>
      let e := constr:(@eta R _) in
      let e := eval hnf in e in
      match eval pattern f in e with
      | ?c _ => let u := eval cbv beta in (λ (g : T → T) (r : R), c (λ x, g (f x)) r) in exact u
      end
  end.
#[export] Hint Extern 1 (Setter _) => solve_setter : typeclass_instances.

Notation "d <| f := v |>" := (set f (λ _, v) d)
  (at level 11, left associativity, f at next level) : qdma_scope.

(** ** Lists *)

Lemma elem_ne {A} (l : list A) (a b : A) : a ∈ l → b ∉ l → a ≠ b.
Proof. by intros ?? ->. Qed.
