(* ===== verification/Platform.v ===== *)
(** * Platform layer: error codes and memory allocation

    The error codes of qdma_access_errors.h, their translation to errno values
    (qdma_platform.c), and the allocator [qdma_calloc], whose outcome the
    driver does not control. *)

From S2P Require Import Prelude.

(** ** Error codes ([enum qdma_access_error_codes]) *)

Inductive qdma_access_error_codes :=
  | QDMA_SUCCESS_CODE
  | QDMA_ERR_INV_PARAM
  | QDMA_ERR_NO_MEM
  | QDMA_ERR_HWACC_BUSY_TIMEOUT
  | QDMA_ERR_HWACC_INV_CONFIG_BAR
  | QDMA_ERR_HWACC_NO_PEND_LEGCY_INTR
  | QDMA_ERR_HWACC_BAR_NOT_FOUND
  | QDMA_ERR_HWACC_FEATURE_NOT_SUPPORTED
  | QDMA_ERR_RM_RES_EXISTS
  | QDMA_ERR_RM_RES_NOT_EXISTS
  | QDMA_ERR_RM_DEV_EXISTS
  | QDMA_ERR_RM_DEV_NOT_EXISTS
  | QDMA_ERR_RM_NO_QUEUES_LEFT
  | QDMA_ERR_RM_QMAX_CONF_REJECTED
  | QDMA_ERR_MBOX_FMAP_WR_FAILED
  | QDMA_ERR_MBOX_NUM_QUEUES
  | QDMA_ERR_MBOX_INV_QID
  | QDMA_ERR_MBOX_INV_RINGSZ
  | QDMA_ERR_MBOX_INV_BUFSZ
  | QDMA_ERR_MBOX_INV_CNTR_TH
  | QDMA_ERR_MBOX_INV_TMR_TH
  | QDMA_ERR_MBOX_INV_MSG
  | QDMA_ERR_MBOX_SEND_BUSY
  | QDMA_ERR_MBOX_NO_MSG_IN
  | QDMA_ERR_MBOX_REG_READ_FAILED
  | QDMA_ERR_MBOX_ALL_ZERO_MSG.

#[export] Instance qdma_access_error_codes_eq_dec : EqDecision qdma_access_error_codes.
Proof. solve_decision. Defined.

(** The enumerators in order: the position of a code is its value. *)
Definition all_codes : list qdma_access_error_codes :=
  [ QDMA_SUCCESS_CODE; QDMA_ERR_INV_PARAM; QDMA_ERR_NO_MEM;
    QDMA_ERR_HWACC_BUSY_TIMEOUT; QDMA_ERR_HWACC_INV_CONFIG_BAR;
    QDMA_ERR_HWACC_NO_PEND_LEGCY_INTR; QDMA_ERR_HWACC_BAR_NOT_FOUND;
    QDMA_ERR_HWACC_FEATURE_NOT_SUPPORTED; QDMA_ERR_RM_RES_EXISTS;
    QDMA_ERR_RM_RES_NOT_EXISTS; QDMA_ERR_RM_DEV_EXISTS; QDMA_ERR_RM_DEV_NOT_EXISTS;
    QDMA_ERR_RM_NO_QUEUES_LEFT; QDMA_ERR_RM_QMAX_CONF_REJECTED;
    QDMA_ERR_MBOX_FMAP_WR_FAILED; QDMA_ERR_MBOX_NUM_QUEUES; QDMA_ERR_MBOX_INV_QID;
    QDMA_ERR_MBOX_INV_RINGSZ; QDMA_ERR_MBOX_INV_BUFSZ; QDMA_ERR_MBOX_INV_CNTR_TH;
    QDMA_ERR_MBOX_INV_TMR_TH; QDMA_ERR_MBOX_INV_MSG; QDMA_ERR_MBOX_SEND_BUSY;
    QDMA_ERR_MBOX_NO_MSG_IN; QDMA_ERR_MBOX_REG_READ_FAILED; QDMA_ERR_MBOX_ALL_ZERO_MSG ].

Definition err_val (e : qdma_access_error_codes) : Z :=
  match e with
  | QDMA_SUCCESS_CODE => 0
  | QDMA_ERR_INV_PARAM => 1
  | QDMA_ERR_NO_MEM => 2
  | QDMA_ERR_HWACC_BUSY_TIMEOUT => 3
  | QDMA_ERR_HWACC_INV_CONFIG_BAR => 4
  | QDMA_ERR_HWACC_NO_PEND_LEGCY_INTR => 5
  | QDMA_ERR_HWACC_BAR_NOT_FOUND => 6
  | QDMA_ERR_HWACC_FEATURE_NOT_SUPPORTED => 7
  | QDMA_ERR_RM_RES_EXISTS => 8
  | QDMA_ERR_RM_RES_NOT_EXISTS => 9
  | QDMA_ERR_RM_DEV_EXISTS => 10
  | QDMA_ERR_RM_DEV_NOT_EXISTS => 11
  | QDMA_ERR_RM_NO_QUEUES_LEFT => 12
  | QDMA_ERR_RM_QMAX_CONF_REJECTED => 13
  | QDMA_ERR_MBOX_FMAP_WR_FAILED => 14
  | QDMA_ERR_MBOX_NUM_QUEUES => 15
  | QDMA_ERR_MBOX_INV_QID => 16
  | QDMA_ERR_MBOX_INV_RINGSZ => 17
  | QDMA_ERR_MBOX_INV_BUFSZ => 18
  | QDMA_ERR_MBOX_INV_CNTR_TH => 19
  | QDMA_ERR_MBOX_INV_TMR_TH => 20
  | QDMA_ERR_MBOX_INV_MSG => 21
  | QDMA_ERR_MBOX_SEND_BUSY => 22
  | QDMA_ERR_MBOX_NO_MSG_IN => 23
  | QDMA_ERR_MBOX_REG_READ_FAILED => 24
  | QDMA_ERR_MBOX_ALL_ZERO_MSG => 25
  end.

Definition QDMA_SUCCESS : Z := 0.
(** The value a C function returns for [-QDMA_ERR_x]. *)
Definition ERR (e : qdma_access_error_codes) : Z := - err_val e.

(** ** errno translation *)

Definition EPERM : Z := 1.
Definition EIO : Z := 5.
Definition ENOMEM : Z := 12.
Definition EBUSY : Z := 16.
Definition EINVAL : Z := 22.

(** [error_code_map_list]: pairs of access code and errno. *)
Definition error_code_map_list : list (qdma_access_error_codes * Z) :=
  [ (QDMA_SUCCESS_CODE, 0); (QDMA_ERR_INV_PARAM, EINVAL); (QDMA_ERR_NO_MEM, ENOMEM);
    (QDMA_ERR_HWACC_BUSY_TIMEOUT, EBUSY); (QDMA_ERR_HWACC_INV_CONFIG_BAR, EINVAL);
    (QDMA_ERR_HWACC_NO_PEND_LEGCY_INTR, EINVAL); (QDMA_ERR_HWACC_BAR_NOT_FOUND, EINVAL);
    (QDMA_ERR_HWACC_FEATURE_NOT_SUPPORTED, EINVAL); (QDMA_ERR_RM_RES_EXISTS, EPERM);
    (QDMA_ERR_RM_RES_NOT_EXISTS, EINVAL); (QDMA_ERR_RM_DEV_EXISTS, EPERM);
    (QDMA_ERR_RM_DEV_NOT_EXISTS, EINVAL); (QDMA_ERR_RM_NO_QUEUES_LEFT, EPERM);
    (QDMA_ERR_RM_QMAX_CONF_REJECTED, EPERM); (QDMA_ERR_MBOX_FMAP_WR_FAILED, EIO);
    (QDMA_ERR_MBOX_NUM_QUEUES, EINVAL); (QDMA_ERR_MBOX_INV_QID, EINVAL);
    (QDMA_ERR_MBOX_INV_RINGSZ, EINVAL); (QDMA_ERR_MBOX_INV_BUFSZ, EINVAL);
    (QDMA_ERR_MBOX_INV_CNTR_TH, EINVAL); (QDMA_ERR_MBOX_INV_TMR_TH, EINVAL);
    (QDMA_ERR_MBOX_INV_MSG, EINVAL); (QDMA_ERR_MBOX_SEND_BUSY, EBUSY);
    (QDMA_ERR_MBOX_NO_MSG_IN, EINVAL); (QDMA_ERR_MBOX_REG_READ_FAILED, EIO);
    (QDMA_ERR_MBOX_ALL_ZERO_MSG, EINVAL) ].

(** [qdma_get_err_code]: the table is indexed by the negated argument; [None]
    is a read outside the table. *)
Definition qdma_get_err_code (acc_err_code : Z) : option Z :=
  let acc_err_code := acc_err_code * -1 in
  if (acc_err_code <? 0) then None
  else e ← error_code_map_list !! Z.to_nat acc_err_code; Some (- e.2).

(** The errno table is aligned with the enumeration: for every error code
    of the access layer, [qdma_get_err_code] finds that code's own row and
    returns a negative errno, and 0 exactly for success. *)
Theorem qdma_get_err_code_total (e : qdma_access_error_codes) :
  ∃ errno, error_code_map_list !! Z.to_nat (err_val e) = Some (e, errno) ∧
           qdma_get_err_code (ERR e) = Some (- errno) ∧
           0 <= errno ∧ (errno = 0 ↔ e = QDMA_SUCCESS_CODE).
Proof. destruct e; eexists; (split; [reflexivity|]); (split; [reflexivity|]);
  unfold EPERM, EIO, ENOMEM, EBUSY, EINVAL; (split; [lia|]); split; (lia || done). Qed.

(** ** Memory allocation *)

(** The outcomes of the coming [kzalloc] calls; once the list is exhausted
    calls succeed, so every finite run is described by some list and [[]] is a
    run in which memory never runs out. *)
Definition mem := list bool.

Definition qdma_calloc (m : mem) : bool * mem :=
  match m with
  | [] => (true, [])
  | b :: m => (b, m)
  end.
