(* ===== verification/QdmaList.v ===== *)
(** * The intrusive doubly linked list (qdma_access/qdma_list.c, qdma_list.h)

    The circular list every bookkeeping structure of the resource manager is
    built on, modelled at pointer level: a heap maps addresses to nodes, each
    C function is a heap transformer that fails ([None]) when it dereferences
    an address that is not allocated.  [dll h head l] says that in [h] the
    circular list anchored at [head] links exactly the nodes [l], in order.
    The theorems show that each function refines the corresponding operation
    on Rocq lists and leaves the rest of the heap alone, and that
    [qdma_list_for_each_safe] visits exactly [l] even when its body unlinks
    the node being visited. *)

From S2P Require Import Prelude.

(** Addresses: 0 is NULL. *)
Notation loc := Z (only parsing).
Definition NULL : loc := 0.

(** [struct qdma_list_head] *)
Record qdma_list_head := mk_node { prev : loc; next : loc; priv : Z }.

Notation heap := (gmap Z qdma_list_head).

(** ** Pointer writes *)

Definition set_next (p v : loc) (h : heap) : option heap :=
  n ← h !! p; Some (<[p := mk_node (prev n) v (priv n)]> h).
Definition set_prev (p v : loc) (h : heap) : option heap :=
  n ← h !! p; Some (<[p := mk_node v (next n) (priv n)]> h).
Definition get_next (p : loc) (h : heap) : option loc := next <$> h !! p.
Definition get_prev (p : loc) (h : heap) : option loc := prev <$> h !! p.

(** ** The functions of qdma_list.c *)

Definition QDMA_LIST_SET_DATA (node : loc) (data : Z) (h : heap) : option heap :=
  n ← h !! node; Some (<[node := mk_node (prev n) (next n) data]> h).
Definition QDMA_LIST_GET_DATA (node : loc) (h : heap) : option Z := priv <$> h !! node.

Definition qdma_list_is_last_entry (entry head : loc) (h : heap) : option bool :=
  n ← get_next entry h; Some (n =? head).
Definition qdma_list_is_empty (head : loc) (h : heap) : option bool :=
  n ← get_next head h; Some (n =? head).

Definition qdma_list_init_head (head : loc) (h : heap) : option heap :=
  if head =? NULL then Some h
  else h ← set_next head head h; set_prev head head h.

Definition qdma_list_add_tail (node head : loc) (h : heap) : option heap :=
  hp ← get_prev head h;
  h ← set_next hp node h;
  h ← set_next node head h;
  hp ← get_prev head h;
  h ← set_prev node hp h;
  set_prev head node h.

Definition qdma_list_insert_before (new_node node : loc) (h : heap) : option heap :=
  np ← get_prev node h;
  h ← set_next np new_node h;
  np ← get_prev node h;
  h ← set_prev new_node np h;
  h ← set_next new_node node h;
  set_prev node new_node h.

Definition qdma_list_insert_after (new_node node : loc) (h : heap) : option heap :=
  h ← set_prev new_node node h;
  nn ← get_next node h;
  h ← set_next new_node nn h;
  nn ← get_next node h;
  h ← set_prev nn new_node h;
  set_next node new_node h.

Definition qdma_list_del (node : loc) (h : heap) : option heap :=
  if node =? NULL then Some h
  else
    p ← get_prev node h;
    h ← (if p =? NULL then Some h
         else n ← get_next node h; set_next p n h);
    n ← get_next node h;
    if n =? NULL then Some h
    else p ← get_prev node h; set_prev n p h.

(** [qdma_list_for_each_safe(pos, n, head) body]: [n] is read before the body
    runs.  The body transforms the heap and an accumulator.  [fuel] bounds the
    number of iterations. *)
Fixpoint for_each_loop {A} (fuel : nat) (pos n head : loc)
    (body : loc -> heap * A -> option (heap * A)) (s : heap * A) : option (heap * A) :=
  if pos =? head then Some s
  else match fuel with
       | O => None
       | S fuel =>
           s ← body pos s;
           n' ← get_next n s.1;
           for_each_loop fuel n n' head body s
       end.

Definition qdma_list_for_each_safe {A} (fuel : nat) (head : loc)
    (body : loc -> heap * A -> option (heap * A)) (s : heap * A) : option (heap * A) :=
  pos ← get_next head s.1;
  n ← get_next pos s.1;
  for_each_loop fuel pos n head body s.

(** ** The abstraction relation *)

(** [p] and [q] are neighbours. *)
Definition linked (h : heap) (p q : loc) : Prop :=
  get_next p h = Some q ∧ get_prev q h = Some p.

(** Following [next] from [p] one meets [l] and then [q]. *)
Fixpoint chain (h : heap) (p : loc) (l : list loc) (q : loc) : Prop :=
  match l with
  | [] => linked h p q
  | x :: l => linked h p x ∧ chain h x l q
  end.

Definition dll (h : heap) (head : loc) (l : list loc) : Prop :=
  NoDup (head :: l) ∧ NULL ∉ head :: l ∧ chain h head l head.

(** Heaps agree outside a set of addresses, and no payload changed. *)
Definition frame (ps : list loc) (h h' : heap) : Prop :=
  (∀ p, p ∉ ps → h' !! p = h !! p) ∧
  (∀ p, priv <$> h' !! p = priv <$> h !! p).

(** The list operations the C functions implement. *)
Definition insert_before_at (i : nat) {A} (x : A) (l : list A) : list A :=
  take i l ++ x :: drop i l.
Definition insert_after_at (i : nat) {A} (x : A) (l : list A) : list A :=
  take (S i) l ++ x :: drop (S i) l.

(** ** Pointer-level lemmas *)

Definition upd_next (p v : loc) (h : heap) : heap :=
  alter (λ n, mk_node (prev n) v (priv n)) p h.
Definition upd_prev (p v : loc) (h : heap) : heap :=
  alter (λ n, mk_node v (next n) (priv n)) p h.

Definition alloc (h : heap) (p : loc) : Prop := is_Some (h !! p).

Section updates.
Implicit Types (h : heap) (p q v : loc).

Lemma set_next_upd p v h : alloc h p → set_next p v h = Some (upd_next p v h).
Proof.
  intros [n Hn]. unfold set_next, upd_next. rewrite Hn; simpl. f_equal.
  apply map_eq. intros y. rewrite lookup_insert, lookup_alter.
  case_decide; by simplify_map_eq.
Qed.
Lemma set_prev_upd p v h : alloc h p → set_prev p v h = Some (upd_prev p v h).
Proof.
  intros [n Hn]. unfold set_prev, upd_prev. rewrite Hn; simpl. f_equal.
  apply map_eq. intros y. rewrite lookup_insert, lookup_alter.
  case_decide; by simplify_map_eq.
Qed.

Lemma alloc_upd_next p v h q : alloc (upd_next p v h) q ↔ alloc h q.
Proof. unfold alloc, upd_next. by rewrite lookup_alter_is_Some. Qed.
Lemma alloc_upd_prev p v h q : alloc (upd_prev p v h) q ↔ alloc h q.
Proof. unfold alloc, upd_prev. by rewrite lookup_alter_is_Some. Qed.

Lemma get_next_upd_next p v h : alloc h p → get_next p (upd_next p v h) = Some v.
Proof.
  intros [n Hn]. unfold get_next, upd_next. rewrite lookup_alter, decide_True by done.
  by rewrite Hn.
Qed.
Lemma get_prev_upd_prev p v h : alloc h p → get_prev p (upd_prev p v h) = Some v.
Proof.
  intros [n Hn]. unfold get_prev, upd_prev. rewrite lookup_alter, decide_True by done.
  by rewrite Hn.
Qed.
Lemma get_next_upd_next_ne p v h q :
  q ≠ p → get_next q (upd_next p v h) = get_next q h.
Proof. intros. unfold get_next, upd_next. by rewrite lookup_alter_ne. Qed.
Lemma get_prev_upd_prev_ne p v h q :
  q ≠ p → get_prev q (upd_prev p v h) = get_prev q h.
Proof. intros. unfold get_prev, upd_prev. by rewrite lookup_alter_ne. Qed.
Lemma get_next_upd_prev p v h q : get_next q (upd_prev p v h) = get_next q h.
Proof.
  unfold get_next, upd_prev. rewrite lookup_alter. case_decide; [subst|done].
  by destruct (h !! q).
Qed.
Lemma get_prev_upd_next p v h q : get_prev q (upd_next p v h) = get_prev q h.
Proof.
  unfold get_prev, upd_next. rewrite lookup_alter. case_decide; [subst|done].
  by destruct (h !! q).
Qed.

Lemma get_next_alloc p q h : get_next p h = Some q → alloc h p.
Proof. unfold get_next, alloc. destruct (h !! p); naive_solver. Qed.
Lemma get_prev_alloc p q h : get_prev p h = Some q → alloc h p.
Proof. unfold get_prev, alloc. destruct (h !! p); naive_solver. Qed.

Lemma frame_refl ps h : frame ps h h.
Proof. done. Qed.
Lemma frame_upd_next ps p v h h' : p ∈ ps → frame ps h h' → frame ps h (upd_next p v h').
Proof.
  intros Hp [H1 H2]. unfold upd_next. split; intros y; rewrite lookup_alter;
    case_decide; subst; [done|auto| |auto].
  rewrite <- H2. by destruct (h' !! y).
Qed.
Lemma frame_upd_prev ps p v h h' : p ∈ ps → frame ps h h' → frame ps h (upd_prev p v h').
Proof.
  intros Hp [H1 H2]. unfold upd_prev. split; intros y; rewrite lookup_alter;
    case_decide; subst; [done|auto| |auto].
  rewrite <- H2. by destruct (h' !! y).
Qed.
Lemma frame_mono ps qs h h' : ps ⊆ qs → frame ps h h' → frame qs h h'.
Proof. intros Hs [H1 H2]. split; [|done]. intros p Hp. apply H1. set_solver. Qed.
End updates.

#[export] Hint Rewrite alloc_upd_next alloc_upd_prev : qdma_heap.
#[export] Hint Resolve get_next_alloc get_prev_alloc : qdma.
#[export] Hint Resolve frame_refl frame_upd_next frame_upd_prev : qdma.

Ltac heap_alloc := autorewrite with qdma_heap; eauto with qdma.
(** Symbolic execution of pointer reads and writes. *)
Ltac heap_eval :=
  repeat (simpl; first
    [ rewrite set_next_upd by heap_alloc
    | rewrite set_prev_upd by heap_alloc
    | rewrite get_next_upd_next by heap_alloc
    | rewrite get_prev_upd_prev by heap_alloc
    | rewrite get_next_upd_prev
    | rewrite get_prev_upd_next
    | rewrite get_next_upd_next_ne by (done || congruence)
    | rewrite get_prev_upd_prev_ne by (done || congruence)
    | match goal with
      | H : get_next ?p ?h = Some _ |- context [get_next ?p ?h] => rewrite H
      | H : get_prev ?p ?h = Some _ |- context [get_prev ?p ?h] => rewrite H
      end ]).

(** What the three insertions do to the links: [x] is put between the
    neighbours [p] and [q]; nothing else moves. *)
Record spliced (p x q : loc) (h h' : heap) : Prop := {
  sp_next_p : get_next p h' = Some x;
  sp_next_x : get_next x h' = Some q;
  sp_prev_x : get_prev x h' = Some p;
  sp_prev_q : get_prev q h' = Some x;
  sp_next_other y : y ≠ p → y ≠ x → get_next y h' = get_next y h;
  sp_prev_other y : y ≠ x → y ≠ q → get_prev y h' = get_prev y h;
  sp_frame : frame [p; x; q] h h';
}.

(** What deletion does: [p] and [q] become neighbours. *)
Record unlinked (p q : loc) (h h' : heap) : Prop := {
  ul_next_p : get_next p h' = Some q;
  ul_prev_q : get_prev q h' = Some p;
  ul_next_other y : y ≠ p → get_next y h' = get_next y h;
  ul_prev_other y : y ≠ q → get_prev y h' = get_prev y h;
  ul_frame : frame [p; q] h h';
}.

Ltac links_solve :=
  eexists; split; [reflexivity|];
  constructor; intros; heap_eval; try done;
  repeat first [apply frame_upd_next; [set_solver|]
               |apply frame_upd_prev; [set_solver|]]; done.

Section link_ops.
Context (h : heap) (p q x : loc).

Lemma add_tail_spliced :
  linked h p q → alloc h x → x ≠ p → x ≠ q →
  ∃ h', qdma_list_add_tail x q h = Some h' ∧ spliced p x q h h'.
Proof.
  intros [Hp Hq] Hx ??. unfold qdma_list_add_tail. heap_eval. links_solve.
Qed.

Lemma insert_before_spliced :
  linked h p q → alloc h x → x ≠ p → x ≠ q →
  ∃ h', qdma_list_insert_before x q h = Some h' ∧ spliced p x q h h'.
Proof.
  intros [Hp Hq] Hx ??. unfold qdma_list_insert_before. heap_eval. links_solve.
Qed.

Lemma insert_after_spliced :
  linked h p q → alloc h x → x ≠ p → x ≠ q →
  ∃ h', qdma_list_insert_after x p h = Some h' ∧ spliced p x q h h'.
Proof.
  intros [Hp Hq] Hx ??. unfold qdma_list_insert_after. heap_eval. links_solve.
Qed.

Lemma del_unlinked :
  linked h p x → linked h x q → x ≠ NULL → p ≠ NULL → q ≠ NULL → x ≠ p → x ≠ q →
  ∃ h', qdma_list_del x h = Some h' ∧ unlinked p q h h'.
Proof.
  intros [Hp Hx] [Hx' Hq] ?????. unfold qdma_list_del.
  rewrite (proj2 (Z.eqb_neq x NULL)) by done. rewrite Hx. simpl.
  rewrite (proj2 (Z.eqb_neq p NULL)) by done. heap_eval.
  rewrite (proj2 (Z.eqb_neq q NULL)) by done. heap_eval. links_solve.
Qed.
End link_ops.

(** ** Chains *)

Section chains.
Implicit Types (h : heap) (a b x : loc) (l : list loc).

Lemma chain_app h a l1 x l2 b :
  chain h a (l1 ++ x :: l2) b ↔ chain h a l1 x ∧ chain h x l2 b.
Proof. revert a. induction l1 as [|y l1 IH]; intros a; simpl; [done|]. rewrite IH. tauto. Qed.

Lemma chain_frame h h' a l b :
  chain h a l b →
  (∀ p, p ∈ a :: l → get_next p h' = get_next p h) →
  (∀ p, p ∈ l ++ [b] → get_prev p h' = get_prev p h) →
  chain h' a l b.
Proof.
  revert a. induction l as [|y l IH]; intros a; simpl.
  - intros [Hn Hp] H1 H2. split; [rewrite H1|rewrite H2]; set_solver.
  - intros [[Hn Hp] Hc] H1 H2. split.
    + split; [rewrite H1|rewrite H2]; set_solver.
    + apply IH; [done| |]; set_solver.
Qed.

Lemma last_default_cons l y a : List.last (y :: l) a = List.last l y.
Proof.
  revert y a. induction l as [|z l IH]; intros y a; [done|].
  change (List.last (z :: l) a = List.last (z :: l) y). by rewrite !IH.
Qed.

(** First and last links. *)
Lemma chain_first h a l b : chain h a l b → linked h a (List.hd b l).
Proof. destruct l; simpl; tauto. Qed.
Lemma chain_last h a l b : chain h a l b → linked h (List.last l a) b.
Proof.
  revert a. induction l as [|y l IH]; intros a; [done|].
  intros [_ Hc]. rewrite last_default_cons. by apply IH.
Qed.

Lemma last_in l a : List.last l a ∈ a :: l.
Proof.
  revert a. induction l as [|z l IH]; intros a; [set_solver|].
  rewrite last_default_cons. specialize (IH z). set_solver.
Qed.
Lemma hd_in l b : List.hd b l ∈ l ++ [b].
Proof. destruct l; set_solver. Qed.

Lemma chain_splice h h' a l1 l2 b x :
  chain h a (l1 ++ l2) b →
  NoDup (a :: l1 ++ l2) → b ∉ l1 ++ l2 → x ∉ a :: l1 ++ l2 → x ≠ b →
  spliced (List.last l1 a) x (List.hd b l2) h h' →
  chain h' a (l1 ++ x :: l2) b.
Proof.
  revert a. induction l1 as [|y l1 IH]; intros a; cbn [app chain List.hd].
  - intros Hc Hnd Hb Hx Hxb Hsp. split; [split; apply Hsp|].
    destruct l2 as [|y l2]; simpl in *; [split; apply Hsp|].
    destruct Hc as [_ Hc]. split; [split; apply Hsp|].
    apply NoDup_cons in Hnd as [Ha Hnd]. apply NoDup_cons in Hnd as [Hy _].
    apply (chain_frame h); [done| |]; intros p Hp.
    + apply Hsp; set_solver.
    + apply Hsp; set_solver.
  - rewrite last_default_cons. intros [[Hn Hp] Hc] Hnd Hb Hx Hxb Hsp.
    apply NoDup_cons in Hnd as [Ha Hnd].
    pose proof (last_in l1 y) as Hl. pose proof (hd_in l2 b) as Hh.
    apply NoDup_cons in Hnd as Hnd'. destruct Hnd' as [Hy _].
    split; [split|].
    + rewrite (sp_next_other _ _ _ _ _ Hsp); set_solver.
    + rewrite (sp_prev_other _ _ _ _ _ Hsp); set_solver.
    + apply IH; try done; set_solver.
Qed.

Lemma chain_unlink h h' a l1 l2 b x :
  chain h a (l1 ++ x :: l2) b →
  NoDup (a :: l1 ++ x :: l2) → b ∉ l1 ++ x :: l2 →
  unlinked (List.last l1 a) (List.hd b l2) h h' →
  chain h' a (l1 ++ l2) b.
Proof.
  revert a. induction l1 as [|y l1 IH]; intros a; cbn [app chain List.hd].
  - intros [_ Hc] Hnd Hb Hul.
    destruct l2 as [|y l2]; simpl in *; [split; apply Hul|].
    destruct Hc as [_ Hc]. split; [split; apply Hul|].
    apply NoDup_cons in Hnd as [Ha Hnd]. apply NoDup_cons in Hnd as [Hx Hnd].
    apply NoDup_cons in Hnd as [Hy _].
    apply (chain_frame h); [done| |]; intros p Hp; apply Hul; set_solver.
  - rewrite last_default_cons. intros [[Hn Hp] Hc] Hnd Hb Hul.
    apply NoDup_cons in Hnd as [Ha Hnd].
    pose proof (last_in l1 y) as Hl. pose proof (hd_in l2 b) as Hh.
    apply NoDup_cons in Hnd as Hnd'. destruct Hnd' as [Hy _].
    split; [split|].
    + rewrite (ul_next_other _ _ _ _ Hul); set_solver.
    + rewrite (ul_prev_other _ _ _ _ Hul); set_solver.
    + apply IH; try done; set_solver.
Qed.

(** The neighbours of a position inside the list. *)
Lemma dll_neighbours h a l1 x l2 b :
  chain h a (l1 ++ x :: l2) b →
  linked h (List.last l1 a) x ∧ linked h x (List.hd b l2).
Proof.
  intros [H1 H2]%chain_app. split; [by apply chain_last|by apply chain_first].
Qed.

Lemma chain_alloc h a l b : chain h a l b → ∀ p, p ∈ a :: l → alloc h p.
Proof.
  revert a. induction l as [|y l IH]; intros a; simpl.
  - intros [??] p Hp. set_unfold. destruct Hp as [->|[]]. eauto with qdma.
  - intros [[??] Hc] p [->|Hp]%elem_of_cons; eauto with qdma.
Qed.

(** A chain spliced at the end of [l1] keeps the list anchored at [head]
    well formed. *)
Lemma dll_splice h h' head l1 l2 x :
  dll h head (l1 ++ l2) → x ∉ head :: l1 ++ l2 → x ≠ NULL →
  spliced (List.last l1 head) x (List.hd head l2) h h' →
  dll h' head (l1 ++ x :: l2) ∧ frame (x :: head :: l1 ++ l2) h h'.
Proof.
  intros (Hnd & Hnull & Hc) Hx Hxn Hsp. apply NoDup_cons in Hnd as Hnd'.
  pose proof (last_in l1 head). pose proof (hd_in l2 head). repeat split.
  - rewrite <- Permutation_middle. apply NoDup_cons. rewrite NoDup_cons. set_solver.
  - set_solver.
  - apply (chain_splice h); try done; set_solver.
  - intros p Hp. apply (sp_frame _ _ _ _ _ Hsp). set_solver.
  - intros p. apply (sp_frame _ _ _ _ _ Hsp).
Qed.
End chains.

(** ** Refinement: each C function implements a list operation *)

(** [qdma_list_init_head] makes its argument the anchor of an empty
    list. *)
Lemma qdma_list_init_head_refines (h : heap) (head : loc) :
  alloc h head → head ≠ NULL →
  ∃ h', qdma_list_init_head head h = Some h' ∧ dll h' head [] ∧ frame [head] h h'.
Proof.
  intros Ha Hn. unfold qdma_list_init_head.
  rewrite (proj2 (Z.eqb_neq head NULL)) by done. heap_eval.
  eexists; split; [done|]. split.
  - split; [apply NoDup_singleton|]. split; [set_solver|]. simpl. split; by heap_eval.
  - eauto 10 using frame_upd_next, frame_upd_prev, frame_refl, list_elem_of_here.
Qed.

(** C35. [qdma_list_add_tail] appends the node to the list and changes no
    address outside the list and no payload. *)
Theorem qdma_list_add_tail_refines (h : heap) (head node : loc) (l : list loc) :
  dll h head l → alloc h node → node ∉ head :: l → node ≠ NULL →
  ∃ h', qdma_list_add_tail node head h = Some h' ∧
        dll h' head (l ++ [node]) ∧ frame (node :: head :: l) h h'.
Proof.
  intros Hd Ha Hx Hn. pose proof Hd as (Hnd & Hnull & Hc).
  pose proof (last_in l head) as Hl.
  destruct (add_tail_spliced h (List.last l head) head node) as (h' & E & Hsp);
    [by apply chain_last|done|set_solver|set_solver|].
  exists h'. split; [done|].
  destruct (dll_splice h h' head l [] node) as [Hd' Hf]; rewrite ?app_nil_r; try done.
  by rewrite app_nil_r in Hf.
Qed.

(** [qdma_list_insert_before] puts the new node immediately before a node
    of the list (the list operation [insert_before_at]). *)
Theorem qdma_list_insert_before_refines (h : heap) (head new_node node : loc)
    (l : list loc) (i : nat) :
  dll h head l → l !! i = Some node → alloc h new_node →
  new_node ∉ head :: l → new_node ≠ NULL →
  ∃ h', qdma_list_insert_before new_node node h = Some h' ∧
        dll h' head (insert_before_at i new_node l) ∧ frame (new_node :: head :: l) h h'.
Proof.
  intros Hd Hi Ha Hx Hn. pose proof Hd as (Hnd & Hnull & Hc).
  unfold insert_before_at. pose proof (take_drop_middle l i node Hi) as El.
  assert (∀ p, p ∈ take i l ++ node :: drop (S i) l → p ∈ l) as Hin by (by rewrite El).
  assert (drop i l = node :: drop (S i) l) as Ed by (by apply drop_S).
  rewrite <- El in Hc. apply dll_neighbours in Hc as [Hc1 Hc2].
  pose proof (last_in (take i l) head) as Hl.
  destruct (insert_before_spliced h (List.last (take i l) head) node new_node)
    as (h' & E & Hsp); [done|done| | |].
  { set_solver. }
  { set_solver. }
  exists h'. split; [done|].
  destruct (dll_splice h h' head (take i l) (drop i l) new_node) as [??];
    rewrite ?take_drop in *; try done. by rewrite Ed.
Qed.

(** [qdma_list_insert_after] puts the new node immediately after a node of
    the list (the list operation [insert_after_at]). *)
Theorem qdma_list_insert_after_refines (h : heap) (head new_node node : loc)
    (l : list loc) (i : nat) :
  dll h head l → l !! i = Some node → alloc h new_node →
  new_node ∉ head :: l → new_node ≠ NULL →
  ∃ h', qdma_list_insert_after new_node node h = Some h' ∧
        dll h' head (insert_after_at i new_node l) ∧ frame (new_node :: head :: l) h h'.
Proof.
  intros Hd Hi Ha Hx Hn. pose proof Hd as (Hnd & Hnull & Hc).
  unfold insert_after_at. pose proof (take_drop_middle l i node Hi) as El.
  assert (∀ p, p ∈ take i l ++ node :: drop (S i) l → p ∈ l) as Hin by (by rewrite El).
  assert (take (S i) l = take i l ++ [node]) as Et by (by apply take_S_r).
  rewrite <- El in Hc. apply dll_neighbours in Hc as [Hc1 Hc2].
  pose proof (hd_in (drop (S i) l) head) as Hl.
  destruct (insert_after_spliced h node (List.hd head (drop (S i) l)) new_node)
    as (h' & E & Hsp); [done|done| | |].
  { set_solver. }
  { set_solver. }
  exists h'. split; [done|].
  destruct (dll_splice h h' head (take (S i) l) (drop (S i) l) new_node) as [??];
    rewrite ?take_drop in *; try done. by rewrite Et, List.last_last.
Qed.

(** [qdma_list_del] removes the node from the list it is in. *)
Lemma qdma_list_del_refines (h : heap) (head node : loc) (l : list loc) (i : nat) :
  dll h head l → l !! i = Some node →
  ∃ h', qdma_list_del node h = Some h' ∧
        dll h' head (delete i l) ∧ frame (head :: l) h h'.
Proof.
  intros (Hnd & Hnull & Hc) Hi.
  pose proof (take_drop_middle l i node Hi) as El.
  assert (∀ p, p ∈ take i l ++ node :: drop (S i) l → p ∈ l) as Hin by (by rewrite El).
  rewrite <- El in Hc, Hnd, Hnull.
  pose proof (last_in (take i l) head). pose proof (hd_in (drop (S i) l) head).
  pose proof Hc as Hc'. apply dll_neighbours in Hc' as [Hc1 Hc2].
  assert (node ∉ head :: take i l ++ drop (S i) l) as Hni.
  { apply NoDup_cons in Hnd as [Hh Hnd].
    rewrite <- Permutation_middle in Hnd. apply NoDup_cons in Hnd as [Hnode _]. set_solver. }
  destruct (del_unlinked h (List.last (take i l) head) (List.hd head (drop (S i) l)) node)
    as (h' & E & Hul); [done|done| | | | | |].
  { set_solver. }
  { apply (elem_ne (head :: take i l)); set_solver. }
  { apply (elem_ne (drop (S i) l ++ [head])); set_solver. }
  { apply not_eq_sym, (elem_ne (head :: take i l)); set_solver. }
  { apply not_eq_sym, (elem_ne (drop (S i) l ++ [head])); set_solver. }
  exists h'. split; [done|]. rewrite delete_take_drop. split.
  - split; [|split].
    + apply NoDup_cons in Hnd as [Hh Hnd]. rewrite <- Permutation_middle in Hnd.
      apply NoDup_cons in Hnd as [_ Hnd]. apply NoDup_cons; split; [set_solver|done].
    + set_solver.
    + eapply (chain_unlink h); [done|done| |done].
      apply NoDup_cons in Hnd as [Hh _]. set_solver.
  - destruct Hul as [_ _ _ _ [F1 F2]]. split; [|done]. intros p Hp. apply F1.
    set_solver.
Qed.

(** ** Traversal *)

(** The forward pointers of the nodes still to be visited are intact. *)
Fixpoint forward (h : heap) (l : list loc) (head : loc) : Prop :=
  match l with
  | [] => alloc h head
  | x :: l => x ≠ head ∧ get_next x h = Some (List.hd head l) ∧ forward h l head
  end.

Lemma forward_hd_alloc h l head : forward h l head → alloc h (List.hd head l).
Proof. destruct l; simpl; [done|]. intros (_ & H & _). eauto with qdma. Qed.

Lemma chain_forward h a l head : chain h a l head → head ∉ l → forward h l head.
Proof.
  revert a. induction l as [|x l IH]; intros a; simpl.
  - intros [_ ?] _. eauto with qdma.
  - intros [_ Hc] Hn. split; [set_solver|]. split.
    + by destruct (chain_first _ _ _ _ Hc).
    + eapply IH; [done|set_solver].
Qed.

Lemma alloc_get_next h p : alloc h p → ∃ q, get_next p h = Some q.
Proof. intros [n Hn]. exists (next n). unfold get_next. by rewrite Hn. Qed.

Section traversal.
Context {A : Type} (head : loc) (body : loc -> heap * A -> option (heap * A)).
(** [I rest s]: the loop invariant when [rest] is still to be visited. *)
Context (I : list loc -> heap * A -> Prop).
Context (I_forward : ∀ rest s, I rest s → forward s.1 rest head).
Context (I_body : ∀ x rest s, I (x :: rest) s → ∃ s', body x s = Some s' ∧ I rest s').

Lemma for_each_loop_inv rest : ∀ fuel n s,
  (length rest <= fuel)%nat → I rest s →
  (rest ≠ [] → get_next (List.hd head rest) s.1 = Some n) →
  ∃ s', for_each_loop fuel (List.hd head rest) n head body s = Some s' ∧ I [] s'.
Proof using All.
  induction rest as [|x rest IH]; intros fuel n s Hf HI Hn.
  - exists s. split; [|done]. destruct fuel; simpl; by rewrite Z.eqb_refl.
  - pose proof (I_forward _ _ HI) as (Hx & Hnx & Hfw). cbn [List.hd] in Hn |- *.
    destruct fuel as [|fuel]; [simpl in Hf; lia|]. cbn [for_each_loop].
    rewrite (proj2 (Z.eqb_neq x head)) by done.
    destruct (I_body _ _ _ HI) as (s' & Eb & HI'). rewrite Eb. cbn [mbind option_bind].
    assert (n = List.hd head rest) as -> by (specialize (Hn ltac:(done)); congruence).
    pose proof (forward_hd_alloc _ _ _ (I_forward _ _ HI')) as Ha.
    destruct (alloc_get_next _ _ Ha) as [q Hq]. rewrite Hq. cbn [mbind option_bind].
    apply IH; [simpl in Hf; lia|done|done].
Qed.

(** The macro runs its body once per node, in order. *)
Lemma for_each_safe_inv l fuel (s : heap * A) :
  (length l <= fuel)%nat → I l s → get_next head s.1 = Some (List.hd head l) →
  ∃ s', qdma_list_for_each_safe fuel head body s = Some s' ∧ I [] s'.
Proof using All.
  intros Hf HI Hh. unfold qdma_list_for_each_safe. rewrite Hh. cbn [mbind option_bind].
  pose proof (forward_hd_alloc _ _ _ (I_forward _ _ HI)) as Ha.
  destruct (alloc_get_next _ _ Ha) as [q Hq]. rewrite Hq. cbn [mbind option_bind].
  by apply for_each_loop_inv.
Qed.
End traversal.

(** Visiting every node and recording it. *)
Definition visit_body (pos : loc) (s : heap * list loc) : option (heap * list loc) :=
  Some (s.1, s.2 ++ [pos]).
(** Visiting every node, unlinking and freeing it, as the destructor of a
    master resource does with the free list. *)
Definition unlink_body (pos : loc) (s : heap * list loc) : option (heap * list loc) :=
  h ← qdma_list_del pos s.1; Some (delete pos h, s.2 ++ [pos]).

Lemma dll_free h head l x : dll h head l → x ∉ head :: l → dll (delete x h) head l.
Proof.
  intros (? & ? & Hc) Hx. split; [done|]. split; [done|].
  apply (chain_frame h); [done| |]; intros p Hp; unfold get_next, get_prev;
    rewrite lookup_delete_ne; set_solver.
Qed.

(** A traversal with [qdma_list_for_each_safe] visits exactly the nodes of
    the list, in order, and terminates after as many iterations as the list
    has nodes. *)
Lemma qdma_list_for_each_safe_visits (h : heap) (head : loc) (l : list loc) (fuel : nat) :
  dll h head l → (length l <= fuel)%nat →
  qdma_list_for_each_safe fuel head visit_body (h, []) = Some (h, l).
Proof.
  intros (Hnd & Hnull & Hc) Hf. apply NoDup_cons in Hnd as [Hh Hnd].
  destruct (for_each_safe_inv head visit_body
    (λ rest s, s.1 = h ∧ s.2 ++ rest = l ∧ forward h rest head)) with (l := l)
      (fuel := fuel) (s := (h, @nil loc)) as (s' & E & Es' & El & _).
  - intros rest s (-> & _ & ?). done.
  - intros x rest s (Es & El & Hfw). eexists; split; [done|]. simpl. split; [done|].
    rewrite <- app_assoc. split; [done|]. by destruct Hfw as (_ & _ & ?).
  - done.
  - split; [done|]. split; [done|]. by eapply chain_forward.
  - by destruct (chain_first _ _ _ _ Hc).
  - rewrite E. f_equal. destruct s' as [h' l']. simpl in *. by rewrite app_nil_r in El; subst.
Qed.

(** Unlinking and freeing each visited node inside
    [qdma_list_for_each_safe] (the loop of [qdma_master_resource_destroy]) never
    touches freed memory: the traversal visits every node once, leaves an empty
    list, and every node has been freed. *)
Theorem qdma_list_for_each_safe_unlink (h : heap) (head : loc) (l : list loc) (fuel : nat) :
  dll h head l → (length l <= fuel)%nat →
  ∃ h', qdma_list_for_each_safe fuel head unlink_body (h, []) = Some (h', l) ∧
        dll h' head [] ∧ ∀ p, p ∈ l → h' !! p = None.
Proof.
  intros Hd Hf.
  destruct (for_each_safe_inv head unlink_body
    (λ rest s, s.2 ++ rest = l ∧ dll s.1 head rest ∧ ∀ p, p ∈ s.2 → s.1 !! p = None))
    with (l := l) (fuel := fuel) (s := (h, @nil loc)) as (s' & E & El & Hd' & Hfree).
  - intros rest s (_ & (Hnd & _ & Hc) & _). apply NoDup_cons in Hnd as [??].
    by eapply chain_forward.
  - intros x rest s (El & Hd' & Hfree). unfold unlink_body.
    destruct (qdma_list_del_refines s.1 head x (x :: rest) O Hd' eq_refl)
      as (h' & Eh & Hd'' & Hfr & _).
    rewrite Eh. simpl. eexists; split; [done|]. simpl. rewrite <- app_assoc.
    destruct Hd' as (Hnd & _ & Hc'). apply NoDup_cons in Hnd as [Hh Hnd].
    apply NoDup_cons in Hnd as [Hx _].
    split; [done|]. split; [apply dll_free; [done|set_solver]|].
    intros p Hp. destruct (decide (p = x)) as [->|Hne]; [apply lookup_delete_eq|].
    rewrite lookup_delete_ne by done.
    assert (s.1 !! p = None) as Hpn by (apply Hfree; set_solver). rewrite Hfr; [done|].
    intros Hin. destruct (chain_alloc _ _ _ _ Hc' p Hin) as [? ?]. congruence.
  - done.
  - split; [done|]. split; [done|]. set_solver.
  - destruct Hd as (_ & _ & Hc). by destruct (chain_first _ _ _ _ Hc).
  - exists s'.1. rewrite E. destruct s' as [h' l']. simpl in *. rewrite app_nil_r in El; subst.
    done.
Qed.

(** ** A concrete list *)

(** Anchor 1, nodes 2 and 3, and a node 4 that is in no list. *)
Definition demo_heap : heap :=
  {[ 1 := mk_node 3 2 0; 2 := mk_node 1 3 20; 3 := mk_node 2 1 30; 4 := mk_node 0 0 40 ]}.

Lemma demo_dll : dll demo_heap 1 [2; 3].
Proof.
  split; [|split; [|vm_compute; done]]; apply (bool_decide_unpack _); vm_compute; exact I.
Qed.

Lemma demo_fresh : 4 ∉ [1; 2; 3].
Proof. apply (bool_decide_unpack _). vm_compute. exact I. Qed.

Lemma qdma_list_add_tail_refines_witness :
  ∃ h', qdma_list_add_tail 4 1 demo_heap = Some h' ∧ dll h' 1 [2; 3; 4] ∧
        frame [4; 1; 2; 3] demo_heap h'.
Proof.
  apply (qdma_list_add_tail_refines demo_heap 1 4 [2; 3] demo_dll).
  - vm_compute. eexists. reflexivity.
  - exact demo_fresh.
  - discriminate.
Defined.

Lemma qdma_list_insert_before_refines_witness :
  ∃ h', qdma_list_insert_before 4 3 demo_heap = Some h' ∧ dll h' 1 [2; 4; 3] ∧
        frame [4; 1; 2; 3] demo_heap h'.
Proof.
  apply (qdma_list_insert_before_refines demo_heap 1 4 3 [2; 3] 1 demo_dll).
  - reflexivity.
  - vm_compute. eexists. reflexivity.
  - exact demo_fresh.
  - discriminate.
Defined.

Lemma qdma_list_insert_after_refines_witness :
  ∃ h', qdma_list_insert_after 4 2 demo_heap = Some h' ∧ dll h' 1 [2; 4; 3] ∧
        frame [4; 1; 2; 3] demo_heap h'.
Proof.
  apply (qdma_list_insert_after_refines demo_heap 1 4 2 [2; 3] 0 demo_dll).
  - reflexivity.
  - vm_compute. eexists. reflexivity.
  - exact demo_fresh.
  - discriminate.
Defined.

Lemma qdma_list_for_each_safe_unlink_witness :
  ∃ h', qdma_list_for_each_safe 2 1 unlink_body (demo_heap, []) = Some (h', [2; 3]) ∧
        dll h' 1 [] ∧ ∀ p, p ∈ [2; 3] → h' !! p = None.
Proof.
  apply (qdma_list_for_each_safe_unlink demo_heap 1 [2; 3] 2 demo_dll). simpl. lia.
Defined.
