(* ===== verification/ResMgmt.v ===== *)
(** * The queue resource manager (qdma_access/qdma_resource_mgmt.c)

    One [qdma_resource_master] per DMA device hands out contiguous ranges of
    hardware queue ids to the PCIe functions that ask for them.  It keeps a
    free list of ranges (sorted, coalesced), a list of functions with their
    range and their active-queue counters, and a global active count.

    The circular lists of the C code are Rocq lists here; [QdmaList] justifies
    that: a pointer to a node is its position, and the list operations used
    below are the ones the functions of qdma_list.c refine.  [int] and
    [uint32_t] arithmetic keeps its wrap-around.  Every allocation may fail. *)

From S2P Require Import Prelude Platform QdmaList.

(** ** Data *)

(** [struct qdma_resource_entry]: a range of queue ids. *)
Record qdma_resource_entry := mk_entry { qbase : Z; total_q : Z }.

(** [struct qdma_dev_entry]: one PCIe function. *)
Record qdma_dev_entry := mk_dev {
  func_id : Z;
  active_h2c_qcnt : Z;
  active_c2h_qcnt : Z;
  active_cmpt_qcnt : Z;
  entry : qdma_resource_entry;
}.

(** [struct qdma_resource_master]: one DMA device. *)
Record qdma_resource_master := mk_master {
  dma_device_index : Z;
  pci_bus_start : Z;
  pci_bus_end : Z;
  rm_total_q : Z;
  rm_qbase : Z;
  dev_list : list qdma_dev_entry;
  free_list : list qdma_resource_entry;
  active_qcnt : Z;
}.

(** The file-scope state: [master_resource_list], the static [index] of
    [qdma_master_resource_create], and the allocator. *)
Record rm_state := mk_rm {
  master_resource_list : list qdma_resource_master;
  rm_index : Z;
  rm_mem : mem;
}.

Definition rm_init (m : mem) : rm_state := mk_rm [] 0 m.

(** [enum qdma_dev_q_type] *)
Inductive qdma_dev_q_type :=
  QDMA_DEV_Q_TYPE_H2C | QDMA_DEV_Q_TYPE_C2H | QDMA_DEV_Q_TYPE_CMPT | QDMA_DEV_Q_TYPE_MAX.

(** [enum qdma_dev_q_range] *)
Inductive qdma_dev_q_range := QDMA_DEV_Q_IN_RANGE | QDMA_DEV_Q_OUT_OF_RANGE.

#[export] Instance qdma_resource_entry_eq_dec : EqDecision qdma_resource_entry.
Proof. solve_decision. Defined.
#[export] Instance qdma_dev_entry_eq_dec : EqDecision qdma_dev_entry.
Proof. solve_decision. Defined.
#[export] Instance qdma_dev_q_type_eq_dec : EqDecision qdma_dev_q_type.
Proof. solve_decision. Defined.
#[export] Instance qdma_dev_q_range_eq_dec : EqDecision qdma_dev_q_range.
Proof. solve_decision. Defined.

(** Field updates. *)
Definition set_entry (e : qdma_resource_entry) (d : qdma_dev_entry) : qdma_dev_entry :=
  mk_dev (func_id d) (active_h2c_qcnt d) (active_c2h_qcnt d) (active_cmpt_qcnt d) e.
Definition set_lists (devs : list qdma_dev_entry) (free : list qdma_resource_entry)
    (r : qdma_resource_master) : qdma_resource_master :=
  mk_master (dma_device_index r) (pci_bus_start r) (pci_bus_end r) (rm_total_q r)
    (rm_qbase r) devs free (active_qcnt r).
Definition set_active (devs : list qdma_dev_entry) (n : Z) (r : qdma_resource_master) :
    qdma_resource_master :=
  mk_master (dma_device_index r) (pci_bus_start r) (pci_bus_end r) (rm_total_q r)
    (rm_qbase r) devs (free_list r) n.
Definition set_master (i : nat) (r : qdma_resource_master) (m : mem) (s : rm_state) : rm_state :=
  mk_rm (<[i := r]> (master_resource_list s)) (rm_index s) m.

(** ** Lookups *)

(** The first position whose element satisfies [f], with the element. *)
Fixpoint find_first {A} (f : A -> bool) (l : list A) : option (nat * A) :=
  match l with
  | [] => None
  | x :: l => if f x then Some (O, x) else p ← find_first f l; Some (S p.1, p.2)
  end.

Definition qdma_find_master_resource_entry (bus_start bus_end : Z) (s : rm_state) :
    option (nat * qdma_resource_master) :=
  find_first (λ r, (pci_bus_start r =? bus_start) && (pci_bus_end r =? bus_end))
    (master_resource_list s).

Definition qdma_get_master_resource_entry (index : Z) (s : rm_state) :
    option (nat * qdma_resource_master) :=
  find_first (λ r, dma_device_index r =? index) (master_resource_list s).

Definition qdma_get_dev_entry (index fid : Z) (s : rm_state) : option (nat * qdma_dev_entry) :=
  r ← qdma_get_master_resource_entry index s;
  find_first (λ d, func_id d =? fid) (dev_list r.2).

(** ** The free list *)

Definition qdma_free_entry_create (q_base total : Z) (m : mem) :
    option qdma_resource_entry * mem :=
  let '(ok, m) := qdma_calloc m in
  if ok then (Some (mk_entry q_base total), m) else (None, m).

(** The insertion loop of [qdma_submit_to_free_list]: [None] when the new node
    cannot be allocated. *)
Fixpoint free_list_insert (qb tq : Z) (l : list qdma_resource_entry) (m : mem) :
    option (list qdma_resource_entry) * mem :=
  match l with
  | [] => (Some [], m)
  | node :: rest =>
      let is_last := match rest with [] => true | _ => false end in
      if (qbase node >? qb) || is_last then
        match qdma_free_entry_create qb tq m with
        | (None, m) => (None, m)
        | (Some new_node, m) =>
            if qbase node >? qb then (Some (new_node :: node :: rest), m)
            else (Some ((node :: rest) ++ [new_node]), m)
        end
      else
        match free_list_insert qb tq rest m with
        | (None, m) => (None, m)
        | (Some rest, m) => (Some (node :: rest), m)
        end
  end.

(** The de-fragmentation loop; [streach_node] is the range being extended. *)
Fixpoint defragment (streach_node : qdma_resource_entry) (l : list qdma_resource_entry) :
    list qdma_resource_entry :=
  match l with
  | [] => [streach_node]
  | node :: rest =>
      if u32 (qbase streach_node + total_q streach_node) =? u32 (qbase node) then
        defragment (mk_entry (qbase streach_node)
                      (u32 (total_q streach_node + total_q node))) rest
      else streach_node :: defragment node rest
  end.
Definition defragment_list (l : list qdma_resource_entry) : list qdma_resource_entry :=
  match l with [] => [] | node :: rest => defragment node rest end.

(** Returns the function's entry and the free list after the call. *)
Definition qdma_submit_to_free_list (e : qdma_resource_entry)
    (head : list qdma_resource_entry) (m : mem) :
    qdma_resource_entry * list qdma_resource_entry * mem :=
  if total_q e =? 0 then (e, head, m)
  else
    let '(inserted, m) :=
      match head with
      | [] => match qdma_free_entry_create (qbase e) (total_q e) m with
              | (None, m) => (None, m)
              | (Some new_node, m) => (Some ([] ++ [new_node]), m)
              end
      | _ => free_list_insert (qbase e) (total_q e) head m
      end in
    match inserted with
    | None => (e, head, m)
    | Some head => (mk_entry (-1) 0, defragment_list head, m)
    end.

(** *** Choosing a free range *)

(** "try to honor requested qbase": the first node that contains the range. *)
Definition contains_range (qmax qb : Z) (node : qdma_resource_entry) : bool :=
  (qb >=? qbase node) && (u32 (qbase node + total_q node) >=? u32 (qb + qmax)).

(** "find a best node": the last of the smallest nodes that are large enough. *)
Fixpoint find_best_fit (qmax : Z) (l : list qdma_resource_entry) (i : nat)
    (best : option (nat * qdma_resource_entry)) : option (nat * qdma_resource_entry) :=
  match l with
  | [] => best
  | node :: rest =>
      let best :=
        if total_q node >=? qmax then
          match best with
          | None => Some (i, node)
          | Some b => if total_q b.2 >=? total_q node then Some (i, node) else best
          end
        else best in
      find_best_fit qmax rest (S i) best
  end.

(** The node chosen, its position, and the base the caller will get. *)
Definition choose_node (qmax qb : Z) (free : list qdma_resource_entry) :
    option (nat * qdma_resource_entry * Z) :=
  match (if qb >=? 0 then find_first (contains_range qmax qb) free else None) with
  | Some (i, node) => Some (i, node, qb)
  | None =>
      match find_best_fit qmax free O None with
      | Some (i, node) => Some (i, node, qbase node)
      | None => None
      end
  end.

(** [fragment_free_list]: cut the range [[qb, qb+qmax)] out of the chosen
    node.  The result is the position of the node that now is exactly that
    range ([None] when an allocation failed on the way). *)
Definition fragment_free_list (qmax qb : Z) (i : nat) (node : qdma_resource_entry)
    (free : list qdma_resource_entry) (m : mem) :
    option nat * list qdma_resource_entry * mem :=
  if (qb =? qbase node) && (qmax =? total_q node) then (Some i, free, m)
  else if (qb =? qbase node) && negb (qmax =? total_q node) then
    let lqbase := s32 (qbase node + qmax) in
    let lqmax := u32 (total_q node - qmax) in
    match qdma_free_entry_create lqbase lqmax m with
    | (None, m) => (None, free, m)
    | (Some new_entry, m) =>
        let node' := mk_entry (qbase node) (u32 (total_q node - lqmax)) in
        (Some i, insert_after_at i new_entry (<[i := node']> free), m)
    end
  else if (qb >? qbase node) && (u32 (qb + qmax) =? u32 (qbase node + total_q node)) then
    let lqbase := qbase node in
    let lqmax := u32 (qb - qbase node) in
    match qdma_free_entry_create lqbase lqmax m with
    | (None, m) => (None, free, m)
    | (Some new_entry, m) =>
        let node' := mk_entry qb qmax in
        (Some (S i), insert_before_at i new_entry (<[i := node']> free), m)
    end
  else
    let lqbase := qbase node in
    let lqmax := u32 (qb - qbase node) in
    match qdma_free_entry_create lqbase lqmax m with
    | (None, m) => (None, free, m)
    | (Some new_entry, m) =>
        let node' := mk_entry qb (u32 (total_q node - lqmax)) in
        let free := insert_before_at i new_entry (<[i := node']> free) in
        let lqbase := s32 (qbase node' + qmax) in
        let lqmax := u32 (total_q node' - qmax) in
        match qdma_free_entry_create lqbase lqmax m with
        | (None, m) => (None, free, m)
        | (Some new_entry, m) =>
            let node'' := mk_entry (qbase node') qmax in
            (Some (S i), insert_after_at (S i) new_entry (<[S i := node'']> free), m)
        end
    end.

Definition qdma_get_resource_node (qmax qb : Z) (free : list qdma_resource_entry) (m : mem) :
    option nat * list qdma_resource_entry * mem :=
  match choose_node qmax qb free with
  | None => (None, free, m)
  | Some (i, node, qb) => fragment_free_list qmax qb i node free m
  end.

(** Take the node at [i] off the free list. *)
Definition take_node (i : nat) (free : list qdma_resource_entry) :
    option (qdma_resource_entry * list qdma_resource_entry) :=
  node ← free !! i; Some (node, delete i free).

(** Returns the return value, the function's entry and the free list. *)
Definition qdma_request_q_resource (e : qdma_resource_entry) (new_qmax new_qbase : Z)
    (free : list qdma_resource_entry) (m : mem) :
    Z * qdma_resource_entry * list qdma_resource_entry * mem :=
  let qmax := total_q e in
  let qb := qbase e in
  let '(e, free, m) := qdma_submit_to_free_list e free m in
  if new_qmax =? 0 then (QDMA_SUCCESS, e, free, m)
  else
    let '(node, free, m) := qdma_get_resource_node new_qmax new_qbase free m in
    match node ≫= λ i, take_node i free with
    | Some (n, free) => (QDMA_SUCCESS, mk_entry (qbase n) (total_q n), free, m)
    | None =>
        let '(node, free, m) := qdma_get_resource_node qmax qb free m in
        match node ≫= λ i, take_node i free with
        | Some (n, free) =>
            (ERR QDMA_ERR_RM_NO_QUEUES_LEFT, mk_entry (qbase n) (total_q n), free, m)
        | None => (ERR QDMA_ERR_RM_NO_QUEUES_LEFT, mk_entry (-1) 0, free, m)
        end
    end.

(** ** The interface *)

(** Returns the return value and [*dma_device_index]. *)
Definition qdma_master_resource_create (bus_start bus_end q_base total : Z) (s : rm_state) :
    Z * Z * rm_state :=
  match qdma_find_master_resource_entry bus_start bus_end s with
  | Some (_, r) => (ERR QDMA_ERR_RM_RES_EXISTS, dma_device_index r, s)
  | None =>
      let index := u32 (rm_index s) in
      let '(ok, m) := qdma_calloc (rm_mem s) in
      if negb ok then
        (ERR QDMA_ERR_NO_MEM, index, mk_rm (master_resource_list s) (rm_index s) m)
      else
        let '(ok, m) := qdma_calloc m in
        if negb ok then
          (ERR QDMA_ERR_NO_MEM, index, mk_rm (master_resource_list s) (rm_index s) m)
        else
          let r := mk_master index bus_start bus_end total q_base []
                     ([] ++ [mk_entry q_base total]) 0 in
          (QDMA_SUCCESS, index,
           mk_rm (master_resource_list s ++ [r]) (s32 (rm_index s + 1)) m)
  end.

Definition qdma_master_resource_destroy (index : Z) (s : rm_state) : rm_state :=
  match qdma_get_master_resource_entry index s with
  | None => s
  | Some (i, r) =>
      match dev_list r with
      | _ :: _ => s
      | [] => mk_rm (delete i (master_resource_list s)) (rm_index s) (rm_mem s)
      end
  end.

Definition qdma_dev_entry_create (index fid : Z) (s : rm_state) : Z * rm_state :=
  match qdma_get_master_resource_entry index s with
  | None => (ERR QDMA_ERR_RM_RES_NOT_EXISTS, s)
  | Some (i, r) =>
      match qdma_get_dev_entry index fid s with
      | Some _ => (ERR QDMA_ERR_RM_DEV_EXISTS, s)
      | None =>
          let '(ok, m) := qdma_calloc (rm_mem s) in
          if negb ok then
            (ERR QDMA_ERR_NO_MEM, mk_rm (master_resource_list s) (rm_index s) m)
          else
            let d := mk_dev fid 0 0 0 (mk_entry (-1) 0) in
            (QDMA_SUCCESS,
             set_master i (set_lists (dev_list r ++ [d]) (free_list r) r) m s)
      end
  end.

Definition qdma_dev_entry_destroy (index fid : Z) (s : rm_state) : rm_state :=
  match qdma_get_master_resource_entry index s with
  | None => s
  | Some (i, r) =>
      match qdma_get_dev_entry index fid s with
      | None => s
      | Some (j, d) =>
          let '(_, free, m) := qdma_submit_to_free_list (entry d) (free_list r) (rm_mem s) in
          set_master i (set_lists (delete j (dev_list r)) free r) m s
      end
  end.

(** Returns the return value and [*qbase]. *)
Definition qdma_dev_update (index fid qmax qb : Z) (s : rm_state) : Z * Z * rm_state :=
  match qdma_get_master_resource_entry index s with
  | None => (ERR QDMA_ERR_RM_RES_NOT_EXISTS, qb, s)
  | Some (i, r) =>
      match qdma_get_dev_entry index fid s with
      | None => (ERR QDMA_ERR_RM_DEV_NOT_EXISTS, qb, s)
      | Some (j, d) =>
          if negb (active_h2c_qcnt d =? 0) || negb (active_c2h_qcnt d =? 0) ||
             negb (active_cmpt_qcnt d =? 0) then
            (ERR QDMA_ERR_RM_QMAX_CONF_REJECTED, qb, s)
          else
            let '(rv, e, free, m) :=
              qdma_request_q_resource (entry d) qmax qb (free_list r) (rm_mem s) in
            (rv, qbase e,
             set_master i (set_lists (<[j := set_entry e d]> (dev_list r)) free r) m s)
      end
  end.

(** Returns the return value, [*qbase] and [*qmax]; the out parameters keep
    their previous values [qb], [qm] on error. *)
Definition qdma_dev_qinfo_get (index fid qb qm : Z) (s : rm_state) : Z * Z * Z :=
  match qdma_get_master_resource_entry index s with
  | None => (ERR QDMA_ERR_RM_RES_NOT_EXISTS, qb, qm)
  | Some _ =>
      match qdma_get_dev_entry index fid s with
      | None => (ERR QDMA_ERR_RM_DEV_NOT_EXISTS, qb, qm)
      | Some (_, d) => (QDMA_SUCCESS, qbase (entry d), total_q (entry d))
      end
  end.

Definition qdma_dev_is_queue_in_range (index fid qid_hw : Z) (s : rm_state) :
    qdma_dev_q_range :=
  match qdma_get_master_resource_entry index s with
  | None => QDMA_DEV_Q_OUT_OF_RANGE
  | Some _ =>
      match qdma_get_dev_entry index fid s with
      | None => QDMA_DEV_Q_OUT_OF_RANGE
      | Some (_, d) =>
          let qmax := u32 (qbase (entry d) + total_q (entry d)) in
          if negb (total_q (entry d) =? 0) && (qid_hw <? qmax) &&
             (s32 qid_hw >=? qbase (entry d))
          then QDMA_DEV_Q_IN_RANGE else QDMA_DEV_Q_OUT_OF_RANGE
      end
  end.

(** The counter a queue type selects; [None] for any other value. *)
Definition active_cnt (d : qdma_dev_entry) (t : qdma_dev_q_type) : option Z :=
  match t with
  | QDMA_DEV_Q_TYPE_H2C => Some (active_h2c_qcnt d)
  | QDMA_DEV_Q_TYPE_C2H => Some (active_c2h_qcnt d)
  | QDMA_DEV_Q_TYPE_CMPT => Some (active_cmpt_qcnt d)
  | QDMA_DEV_Q_TYPE_MAX => None
  end.
Definition set_active_cnt (t : qdma_dev_q_type) (n : Z) (d : qdma_dev_entry) : qdma_dev_entry :=
  match t with
  | QDMA_DEV_Q_TYPE_H2C =>
      mk_dev (func_id d) n (active_c2h_qcnt d) (active_cmpt_qcnt d) (entry d)
  | QDMA_DEV_Q_TYPE_C2H =>
      mk_dev (func_id d) (active_h2c_qcnt d) n (active_cmpt_qcnt d) (entry d)
  | QDMA_DEV_Q_TYPE_CMPT =>
      mk_dev (func_id d) (active_h2c_qcnt d) (active_c2h_qcnt d) n (entry d)
  | QDMA_DEV_Q_TYPE_MAX => d
  end.

Definition qdma_dev_increment_active_queue (index fid : Z) (t : qdma_dev_q_type)
    (s : rm_state) : Z * rm_state :=
  match qdma_get_master_resource_entry index s with
  | None => (ERR QDMA_ERR_RM_RES_NOT_EXISTS, s)
  | Some (i, r) =>
      match qdma_get_dev_entry index fid s with
      | None => (ERR QDMA_ERR_RM_DEV_NOT_EXISTS, s)
      | Some (j, d) =>
          match active_cnt d t with
          | None => (ERR QDMA_ERR_RM_DEV_NOT_EXISTS, s)
          | Some n =>
              if total_q (entry d) <? u32 (n + 1) then (ERR QDMA_ERR_RM_NO_QUEUES_LEFT, s)
              else
                (QDMA_SUCCESS,
                 set_master i
                   (set_active (<[j := set_active_cnt t (u32 (n + 1)) d]> (dev_list r))
                      (u32 (active_qcnt r + 1)) r) (rm_mem s) s)
          end
      end
  end.

(** The counter of the function is guarded against going below zero; the
    counter of the master is decremented in every case. *)
Definition qdma_dev_decrement_active_queue (index fid : Z) (t : qdma_dev_q_type)
    (s : rm_state) : Z * rm_state :=
  match qdma_get_master_resource_entry index s with
  | None => (ERR QDMA_ERR_RM_RES_NOT_EXISTS, s)
  | Some (i, r) =>
      match qdma_get_dev_entry index fid s with
      | None => (ERR QDMA_ERR_RM_DEV_NOT_EXISTS, s)
      | Some (j, d) =>
          let '(rv, d') :=
            match active_cnt d t with
            | None => (ERR QDMA_ERR_RM_DEV_NOT_EXISTS, d)
            | Some n => (QDMA_SUCCESS, if n =? 0 then d else set_active_cnt t (u32 (n - 1)) d)
            end in
          (rv, set_master i
                 (set_active (<[j := d']> (dev_list r)) (u32 (active_qcnt r - 1)) r)
                 (rm_mem s) s)
      end
  end.

Definition qdma_get_active_queue_count (index : Z) (s : rm_state) : Z :=
  match qdma_get_master_resource_entry index s with
  | None => QDMA_SUCCESS
  | Some (_, r) => active_qcnt r
  end.

Definition qdma_get_device_active_queue_count (index fid : Z) (t : qdma_dev_q_type)
    (s : rm_state) : Z :=
  match qdma_get_master_resource_entry index s with
  | None => ERR QDMA_ERR_RM_RES_NOT_EXISTS
  | Some _ =>
      match qdma_get_dev_entry index fid s with
      | None => ERR QDMA_ERR_RM_DEV_NOT_EXISTS
      | Some (_, d) =>
          s32 (match active_cnt d t with Some n => n | None => 0 end)
      end
  end.

(** ** A run *)

(** Device 0 owns queues 0..2047; two functions take 8 and 16 queues, the
    first one grows to 32, the second leaves. *)
Example rm_run :
  let '(rv0, idx, s) := qdma_master_resource_create 5 5 0 2048 (rm_init []) in
  let '(rv1, s) := qdma_dev_entry_create idx 0 s in
  let '(rv2, s) := qdma_dev_entry_create idx 4 s in
  let '(rv3, b0, s) := qdma_dev_update idx 0 8 (-1) s in
  let '(rv4, b4, s) := qdma_dev_update idx 4 16 (-1) s in
  let '(rv5, b0', s) := qdma_dev_update idx 0 32 (-1) s in
  let s := qdma_dev_entry_destroy idx 4 s in
  (rv0, rv1, rv2, rv3, rv4, rv5) = (0, 0, 0, 0, 0, 0) ∧
  (b0, b4, b0') = (0, 8, 24) ∧
  (free_list <$> master_resource_list s)
    = [[mk_entry 0 24; mk_entry 56 1992]].
Proof. vm_compute. done. Qed.
