(* ===== verification/FreeList.v ===== *)
(** * The free list of the resource manager

    What the free-list routines of qdma_resource_mgmt.c promise: the list is a
    sorted sequence of disjoint non-empty ranges, [qdma_submit_to_free_list]
    gives a range back and coalesces, [qdma_get_resource_node] cuts the
    requested range out of one node.  Everything is stated on the queue ids a
    list of ranges stands for. *)

From S2P Require Import Prelude Platform QdmaList ResMgmt.

(** ** Ranges of queue ids *)

(** The queue ids of an entry. *)
Definition qids (e : qdma_resource_entry) : list Z := seqZ (qbase e) (total_q e).
Definition free_ids (l : list qdma_resource_entry) : list Z := l ≫= qids.
Arguments free_ids : simpl never.

(** [ranges g lo hi l]: the ranges of [l] are non-empty, increasing, at least
    [g] apart, and inside [[lo, hi)].  [g = 0] is "sorted and disjoint",
    [g = 1] is "sorted and coalesced". *)
Fixpoint ranges (g lo hi : Z) (l : list qdma_resource_entry) : Prop :=
  match l with
  | [] => True
  | e :: l => lo <= qbase e ∧ 0 < total_q e ∧ qbase e + total_q e <= hi ∧
              ranges g (qbase e + total_q e + g) hi l
  end.

(** The lower bound left for what follows [l]. *)
Fixpoint range_end (g lo : Z) (l : list qdma_resource_entry) : Z :=
  match l with
  | [] => lo
  | e :: l => range_end g (qbase e + total_q e + g) l
  end.

Definition INT_MAX : Z := 2147483647.
Definition UINT_MAX : Z := 4294967295.

Lemma elem_of_qids x e : x ∈ qids e ↔ qbase e <= x < qbase e + total_q e.
Proof. unfold qids. rewrite elem_of_seqZ. lia. Qed.

Lemma free_ids_cons e l : free_ids (e :: l) = qids e ++ free_ids l.
Proof. done. Qed.
Lemma free_ids_app l1 l2 : free_ids (l1 ++ l2) = free_ids l1 ++ free_ids l2.
Proof. apply bind_app. Qed.
Lemma qids_nil b : qids (mk_entry b 0) = [].
Proof. done. Qed.
Lemma qids_split b n1 n2 :
  0 <= n1 → 0 <= n2 → qids (mk_entry b (n1 + n2)) = qids (mk_entry b n1) ++ qids (mk_entry (b + n1) n2).
Proof. intros. unfold qids. simpl. by rewrite seqZ_app. Qed.
Lemma NoDup_qids e : NoDup (qids e).
Proof. apply NoDup_seqZ. Qed.

Lemma ranges_mono g lo lo' hi l : lo' <= lo → ranges g lo hi l → ranges g lo' hi l.
Proof. destruct l; simpl; [done|]. intros ? (? & ? & ? & ?). repeat split; try done; lia. Qed.

Lemma ranges_weaken lo hi l : ranges 1 lo hi l → ranges 0 lo hi l.
Proof.
  revert lo. induction l as [|e l IH]; intros lo; simpl; [done|].
  intros (? & ? & ? & ?). repeat split; [done..|]. eapply ranges_mono; [|by apply IH]. lia.
Qed.

Lemma ranges_app g lo hi l1 l2 :
  ranges g lo hi (l1 ++ l2) ↔ ranges g lo hi l1 ∧ ranges g (range_end g lo l1) hi l2.
Proof.
  revert lo. induction l1 as [|e l1 IH]; intros lo; simpl; [tauto|]. rewrite IH. tauto.
Qed.

Lemma range_end_ge g lo hi l : 0 <= g → ranges g lo hi l → lo <= range_end g lo l.
Proof.
  intros Hg. revert lo. induction l as [|e l IH]; intros lo; simpl; [lia|].
  intros (? & ? & ? & H). specialize (IH _ H). lia.
Qed.

Lemma ranges_bounds g lo hi l x : 0 <= g → ranges g lo hi l → x ∈ free_ids l → lo <= x < hi.
Proof.
  intros Hg. revert lo. induction l as [|e l IH]; intros lo; simpl.
  - intros _ Hx. by apply elem_of_nil in Hx.
  - intros (? & ? & ? & H). rewrite free_ids_cons, elem_of_app, elem_of_qids.
    intros [?|Hx]; [lia|]. specialize (IH _ H Hx). lia.
Qed.

Lemma ranges_NoDup g lo hi l : 0 <= g → ranges g lo hi l → NoDup (free_ids l).
Proof.
  intros Hg. revert lo. induction l as [|e l IH]; intros lo; simpl; [constructor|].
  intros (? & ? & ? & H). rewrite free_ids_cons. apply NoDup_app.
  split; [apply NoDup_qids|]. split; [|by eapply IH].
  intros x Hx Hx'. rewrite elem_of_qids in Hx.
  pose proof (ranges_bounds _ _ _ _ _ Hg H Hx'). lia.
Qed.

(** In a coalesced list a contiguous block of free ids lies in one node. *)
Lemma ranges_block lo hi l b (n : Z) :
  ranges 1 lo hi l → 0 < n → (∀ x, b <= x < b + n → x ∈ free_ids l) →
  ∃ i node, l !! i = Some node ∧ qbase node <= b ∧ b + n <= qbase node + total_q node.
Proof.
  revert lo. induction l as [|e l IH]; intros lo; simpl.
  - intros _ Hn Hb. specialize (Hb b ltac:(lia)). by apply elem_of_nil in Hb.
  - intros (H1 & H2 & H3 & H4) Hn Hb. setoid_rewrite free_ids_cons in Hb.
    setoid_rewrite elem_of_app in Hb. setoid_rewrite elem_of_qids in Hb.
    assert (∀ x, x ∈ free_ids l → qbase e + total_q e < x) as Hl.
    { intros x Hx. pose proof (ranges_bounds 1 _ _ _ _ ltac:(lia) H4 Hx). lia. }
    destruct (decide (qbase e <= b < qbase e + total_q e)) as [Hin|Hout].
    + exists O, e. split; [done|]. split; [lia|].
      destruct (decide (b + n <= qbase e + total_q e)) as [?|Hgt]; [done|].
      destruct (Hb (qbase e + total_q e) ltac:(lia)) as [?|Hx]; [lia|].
      specialize (Hl _ Hx). lia.
    + destruct (IH _ H4 Hn) as (i & node & Hi & ?); [|by exists (S i), node].
      intros x Hx. destruct (Hb b ltac:(lia)) as [?|Hb']; [lia|].
      specialize (Hl _ Hb'). destruct (Hb x Hx) as [?|?]; [lia|done].
Qed.

(** ** Giving a range back *)

(** A range that can be handed back: inside the master's range and not free. *)
Definition returnable (lo hi : Z) (l : list qdma_resource_entry) (e : qdma_resource_entry) :=
  lo <= qbase e ∧ 0 < total_q e ∧ qbase e + total_q e <= hi ∧
  ∀ x, x ∈ qids e → x ∉ free_ids l.

Lemma free_entry_create_Some b n m e m' :
  qdma_free_entry_create b n m = (Some e, m') → e = mk_entry b n.
Proof. unfold qdma_free_entry_create, qdma_calloc. destruct m as [|[]]; naive_solver. Qed.

Lemma free_entry_create_nomem b n : qdma_free_entry_create b n [] = (Some (mk_entry b n), []).
Proof. done. Qed.

Lemma free_list_insert_ok lo hi l e m l' m' :
  l ≠ [] → ranges 0 lo hi l → returnable lo hi l e →
  free_list_insert (qbase e) (total_q e) l m = (Some l', m') →
  ranges 0 lo hi l' ∧ free_ids l' ≡ₚ qids e ++ free_ids l.
Proof.
  destruct e as [b n]. unfold returnable. simpl.
  revert lo l' m. induction l as [|node l IH]; [done|]. intros lo l' m _ Hr (Hb & Hn & Hhi & Hd).
  cbn [free_list_insert]. destruct Hr as (H1 & H2 & H3 & H4).
  destruct (Z.gtb_spec (qbase node) b) as [Hgt|Hle]; cbn [orb].
  - destruct (qdma_free_entry_create b n m) as [[e|] m1] eqn:E; [|naive_solver].
    apply free_entry_create_Some in E as ->. intros [= <- <-]. split.
    + simpl. repeat split; try lia; [|done].
      destruct (decide (b + n <= qbase node)) as [?|Hno]; [lia|].
      exfalso. apply (Hd (qbase node)); [rewrite elem_of_qids; simpl; lia|].
      rewrite free_ids_cons, elem_of_app, elem_of_qids. lia.
    + done.
  - assert (qbase node + total_q node <= b) as Hend.
    { destruct (decide (qbase node + total_q node <= b)) as [?|Hno]; [done|].
      exfalso. apply (Hd b); [rewrite elem_of_qids; simpl; lia|].
      rewrite free_ids_cons, elem_of_app, elem_of_qids. lia. }
    destruct l as [|node' l].
    + destruct (qdma_free_entry_create b n m) as [[e|] m1] eqn:E; [|naive_solver].
      apply free_entry_create_Some in E as ->. intros [= <- <-]. simpl.
      split; [repeat split; lia|]. rewrite !free_ids_cons. unfold free_ids at 1 2. simpl.
      rewrite !app_nil_r. apply Permutation_app_comm.
    + destruct (free_list_insert b n (node' :: l) m) as [[r|] m1] eqn:E; [|naive_solver].
      intros [= <- <-].
      destruct (IH (qbase node + total_q node + 0) r m) as [Hr' Hp]; [done|done| |done|].
      { repeat split; try lia. intros x Hx Hf. apply (Hd x Hx).
        rewrite free_ids_cons, elem_of_app. by right. }
      split; [simpl; repeat split; done|].
      rewrite free_ids_cons, Hp, (free_ids_cons node). rewrite !app_assoc.
      by rewrite (Permutation_app_comm (qids node)).
Qed.

Lemma free_list_insert_nomem b n l :
  l ≠ [] → ∃ l', free_list_insert b n l [] = (Some l', []).
Proof.
  induction l as [|node l IH]; [done|]. intros _. cbn [free_list_insert].
  rewrite free_entry_create_nomem.
  destruct (qbase node >? b); cbn [orb]; [by eexists|].
  destruct l as [|node' l]; [by eexists|].
  destruct (IH ltac:(done)) as [r ->]. by eexists.
Qed.

Lemma defragment_ok lo hi s l :
  0 <= lo → hi <= INT_MAX → ranges 0 lo hi (s :: l) →
  ranges 1 lo hi (defragment s l) ∧ free_ids (defragment s l) = free_ids (s :: l).
Proof.
  intros Hlo Hhi. unfold INT_MAX in Hhi. revert lo Hlo s.
  induction l as [|node l IH]; intros lo Hlo s Hr; [done|].
  cbn [defragment]. destruct Hr as (H1 & H2 & H3 & H4). pose proof H4 as (H5 & H6 & H7 & H8).
  rewrite !u32_small by lia. destruct (Z.eqb_spec (qbase s + total_q s) (qbase node)) as [e|Hne].
  - destruct (IH lo Hlo (mk_entry (qbase s) (total_q s + total_q node))) as [Ha Hb].
    { simpl. repeat split; try lia. eapply ranges_mono; [|done]. lia. }
    split; [done|]. rewrite Hb, !free_ids_cons, app_assoc. f_equal.
    destruct s as [sb sn], node as [nb nn]. simpl in *. rewrite qids_split by lia. by subst.
  - destruct (IH (qbase s + total_q s + 1) ltac:(lia) node) as [Ha Hb].
    { simpl. repeat split; try lia. done. }
    split.
    + simpl. repeat split; try lia. done.
    + by rewrite free_ids_cons, Hb, (free_ids_cons s).
Qed.

Lemma defragment_list_ok lo hi l :
  0 <= lo → hi <= INT_MAX → ranges 0 lo hi l →
  ranges 1 lo hi (defragment_list l) ∧ free_ids (defragment_list l) = free_ids l.
Proof. destruct l; [done|]. apply defragment_ok. Qed.

(** What a call of [qdma_submit_to_free_list] does to a function's range and
    to the free list; [None]-allocations leave both alone. *)
Inductive submit_result (lo hi : Z) (e : qdma_resource_entry) (free : list qdma_resource_entry) :
    qdma_resource_entry → list qdma_resource_entry → Prop :=
  | submit_noop : (* nothing to give back, or no memory *)
      submit_result lo hi e free e free
  | submit_done free' :
      0 < total_q e → ranges 1 lo hi free' → free_ids free' ≡ₚ qids e ++ free_ids free →
      submit_result lo hi e free (mk_entry (-1) 0) free'.

Lemma submit_to_free_list_ok lo hi e free m e' free' m' :
  0 <= lo → hi <= INT_MAX → ranges 0 lo hi free →
  total_q e = 0 ∨ returnable lo hi free e →
  qdma_submit_to_free_list e free m = (e', free', m') →
  submit_result lo hi e free e' free' ∧
  (m = [] → m' = [] ∧ (total_q e = 0 ∧ e' = e ∧ free' = free ∨ e' = mk_entry (-1) 0)).
Proof.
  intros Hlo Hhi Hr He. unfold qdma_submit_to_free_list.
  destruct (Z.eqb_spec (total_q e) 0) as [Hz|Hnz].
  { intros [= <- <- <-]. split; [constructor|]. intros ->. naive_solver. }
  destruct He as [?|He]; [lia|]. pose proof He as (? & ? & ? & ?).
  destruct free as [|node free].
  - destruct (qdma_free_entry_create (qbase e) (total_q e) m) as [[n|] m1] eqn:E.
    + apply free_entry_create_Some in E as E'. subst n. intros [= <- <- <-]. split.
      * apply submit_done; [done| |].
        -- simpl. repeat split; lia.
        -- unfold free_ids. simpl. destruct e. simpl. by rewrite !app_nil_r.
      * intros ->. rewrite free_entry_create_nomem in E. naive_solver.
    + intros [= <- <- <-]. split; [constructor|]. intros ->. by rewrite free_entry_create_nomem in E.
  - destruct (free_list_insert (qbase e) (total_q e) (node :: free) m) as [[l|] m1] eqn:E.
    + destruct (free_list_insert_ok lo hi (node :: free) e m l m1) as [Hl Hp]; [done..|].
      destruct (defragment_list_ok lo hi l Hlo Hhi Hl) as [Hd Hi].
      intros [= <- <- <-]. split.
      * apply submit_done; [done|done|by rewrite Hi].
      * intros ->. destruct (free_list_insert_nomem (qbase e) (total_q e) (node :: free)) as [? E2];
          [done|]. rewrite E2 in E. naive_solver.
    + intros [= <- <- <-]. split; [constructor|]. intros ->.
      destruct (free_list_insert_nomem (qbase e) (total_q e) (node :: free)) as [? E2]; [done|].
      by rewrite E2 in E.
Qed.

(** ** Choosing a node *)

Lemma find_first_Some {A} (f : A → bool) l i x :
  find_first f l = Some (i, x) →
  l !! i = Some x ∧ f x = true ∧ ∀ j y, (j < i)%nat → l !! j = Some y → f y = false.
Proof.
  revert i. induction l as [|y l IH]; intros i; simpl; [done|].
  destruct (f y) eqn:Ef.
  - intros [= <- <-]. repeat split; [done|]. intros; lia.
  - destruct (find_first f l) as [[k z]|] eqn:E; [|done]. intros [= <- <-].
    destruct (IH k eq_refl) as (? & ? & Hj). repeat split; [done..|].
    intros [|j] w ?; simpl; [naive_solver|]. apply Hj. lia.
Qed.

Lemma find_first_None {A} (f : A → bool) l :
  find_first f l = None → ∀ x, x ∈ l → f x = false.
Proof.
  induction l as [|y l IH]; simpl; [set_solver|].
  destruct (f y) eqn:Ef; [done|]. destruct (find_first f l) as [[k z]|]; [done|].
  intros _ x [->|?]%elem_of_cons; [done|]. by apply IH.
Qed.

Lemma find_first_elem {A} (f : A → bool) l x :
  x ∈ l → f x = true → ∃ i y, find_first f l = Some (i, y).
Proof.
  intros Hx Hf. destruct (find_first f l) as [[i y]|] eqn:E; [eauto|].
  by rewrite (find_first_None f l E x Hx) in Hf.
Qed.

(** A request that cannot overflow the 32-bit sum [qbase + qmax]. *)
Definition request_ok (qmax qb : Z) : Prop :=
  0 <= qmax <= UINT_MAX ∧ qb <= INT_MAX ∧ (0 <= qb → qb + qmax <= UINT_MAX).

Lemma contains_range_spec lo hi node qmax qb :
  0 <= lo → hi <= INT_MAX → lo <= qbase node → 0 <= total_q node →
  qbase node + total_q node <= hi → request_ok qmax qb → 0 <= qb →
  contains_range qmax qb node = true ↔
  qbase node <= qb ∧ qb + qmax <= qbase node + total_q node.
Proof.
  unfold request_ok, INT_MAX, UINT_MAX. intros. unfold contains_range.
  rewrite !u32_small by lia. rewrite andb_true_iff, !Z.geb_le. lia.
Qed.

Definition large_enough (qmax : Z) (node : qdma_resource_entry) : Prop := qmax <= total_q node.

Lemma find_best_fit_spec qmax l i best :
  match find_best_fit qmax l i best with
  | None => best = None ∧ ∀ node, node ∈ l → total_q node < qmax
  | Some (k, n) =>
      (best = Some (k, n) ∨
       (i <= k)%nat ∧ l !! (k - i)%nat = Some n ∧ large_enough qmax n) ∧
      (∀ node, node ∈ l → large_enough qmax node → total_q n <= total_q node) ∧
      (∀ b, best = Some b → total_q n <= total_q b.2)
  end.
Proof.
  unfold large_enough. revert i best. induction l as [|e l IH]; intros i best; cbn [find_best_fit].
  - destruct best as [[k n]|].
    + split; [by left|]. split; [set_solver|]. by intros b [= <-].
    + split; [done|]. set_solver.
  - set (best' := if total_q e >=? qmax then _ else best).
    specialize (IH (S i) best').
    assert ((best' = best ∧ (total_q e < qmax ∨ ∃ b, best = Some b ∧ total_q b.2 < total_q e)) ∨
            (best' = Some (i, e) ∧ qmax <= total_q e ∧
             ∀ b, best = Some b → total_q e <= total_q b.2)) as Hb.
    { unfold best'. destruct (Z.geb_spec (total_q e) qmax); [|left; split; [done|lia]].
      destruct best as [b|]; [|right; naive_solver].
      destruct (Z.geb_spec (total_q b.2) (total_q e)); [right|left].
      - split; [done|]. split; [lia|]. intros b' [= <-]. lia.
      - split; [done|]. right. exists b. split; [done|lia]. }
    clearbody best'. destruct (find_best_fit qmax l (S i) best') as [[k n]|].
    + destruct IH as (Hk & Hmin & Hbest). split; [|split].
      * destruct Hk as [Hk|(? & Hk & ?)].
        -- destruct Hb as [[-> ?]|(-> & ? & ?)]; [by left|]. simplify_eq. right.
           split; [done|]. by rewrite Nat.sub_diag.
        -- right. split; [lia|]. replace (k - i)%nat with (S (k - S i)) by lia. done.
      * intros node [->|Hin]%elem_of_cons Hle; [|by apply Hmin].
        destruct Hb as [[-> [?|(b & -> & ?)]]|(-> & ? & ?)]; [lia| |by apply (Hbest (i, e))].
        specialize (Hbest b eq_refl). lia.
      * intros b Eb. destruct Hb as [[-> ?]|(-> & ? & Hb)]; [by apply Hbest|].
        specialize (Hbest _ eq_refl). specialize (Hb _ Eb). simpl in *. lia.
    + destruct IH as [Eb Hl]. destruct Hb as [[-> Hb]|(-> & ?)]; [|done].
      split; [done|]. intros node [->|?]%elem_of_cons; [|by apply Hl].
      destruct Hb as [?|(b & ? & ?)]; [done|congruence].
Qed.

Lemma ranges_lookup g lo hi l i node :
  0 <= g → ranges g lo hi l → l !! i = Some node →
  lo <= qbase node ∧ 0 < total_q node ∧ qbase node + total_q node <= hi.
Proof.
  intros Hg. revert lo i. induction l as [|e l IH]; intros lo i; [done|].
  intros (? & ? & ? & H). destruct i as [|i]; simpl; [naive_solver|].
  intros Hi. specialize (IH _ _ H Hi). lia.
Qed.

(** The node chosen holds the range that will be cut out of it. *)
Lemma choose_node_ok lo hi free qmax qb i node b :
  0 <= lo → hi <= INT_MAX → ranges 0 lo hi free → request_ok qmax qb →
  choose_node qmax qb free = Some (i, node, b) →
  free !! i = Some node ∧ qbase node <= b ∧ b + qmax <= qbase node + total_q node ∧
  (b = qb ∧ 0 <= qb ∨ b = qbase node).
Proof.
  intros Hlo Hhi Hr Hq. unfold choose_node.
  destruct (if qb >=? 0 then find_first (contains_range qmax qb) free else None)
    as [[j n]|] eqn:E.
  - destruct (Z.geb_spec qb 0); [|done]. intros [= <- <- <-].
    apply find_first_Some in E as (Hj & Hc & _).
    destruct (ranges_lookup 0 _ _ _ _ _ ltac:(lia) Hr Hj) as (? & ? & ?).
    apply (contains_range_spec lo hi) in Hc; try done; [|lia]. split; [done|]. lia.
  - pose proof (find_best_fit_spec qmax free O None) as Hb.
    destruct (find_best_fit qmax free O None) as [[j n]|]; [|done]. intros [= <- <- <-].
    destruct Hb as ([?|(_ & Hj & Hn)] & _ & _); [done|]. rewrite Nat.sub_0_r in Hj.
    unfold large_enough in Hn. split; [done|]. lia.
Qed.

(** No node is chosen only when no node is large enough. *)
Lemma choose_node_None qmax qb free :
  choose_node qmax qb free = None → ∀ node, node ∈ free → total_q node < qmax.
Proof.
  unfold choose_node.
  destruct (if qb >=? 0 then find_first (contains_range qmax qb) free else None)
    as [[j n]|]; [done|].
  pose proof (find_best_fit_spec qmax free O None) as Hb.
  destruct (find_best_fit qmax free O None) as [[j n]|]; [done|]. by destruct Hb.
Qed.

(** ** Cutting a range out of a node *)

(** What remains of [node] to the left and right of [[b, b+qmax)]. *)
Definition left_part (node : qdma_resource_entry) (b : Z) : list qdma_resource_entry :=
  if b =? qbase node then [] else [mk_entry (qbase node) (b - qbase node)].
Definition right_part (node : qdma_resource_entry) (b qmax : Z) : list qdma_resource_entry :=
  let e := qbase node + total_q node in
  if b + qmax =? e then [] else [mk_entry (b + qmax) (e - (b + qmax))].

Lemma insert_after_update {A} i (x y : A) l :
  (i < length l)%nat → insert_after_at i x (<[i := y]> l) = take i l ++ y :: x :: drop (S i) l.
Proof.
  intros Hi. unfold insert_after_at.
  rewrite (take_S_r _ i y) by (by apply list_lookup_insert_eq).
  rewrite take_insert_ge, drop_insert_lt by lia. by rewrite <- app_assoc.
Qed.
Lemma insert_before_update {A} i (x y : A) l :
  (i < length l)%nat → insert_before_at i x (<[i := y]> l) = take i l ++ x :: y :: drop (S i) l.
Proof.
  intros Hi. unfold insert_before_at. rewrite take_insert_ge by lia.
  rewrite (drop_S _ y) by (by apply list_lookup_insert_eq). by rewrite drop_insert_lt by lia.
Qed.

Lemma fragment_free_list_ok lo hi qmax b i node free m o free' m' :
  0 <= lo → hi <= INT_MAX → lo <= qbase node → 0 < total_q node →
  qbase node + total_q node <= hi → free !! i = Some node →
  0 <= qmax → qbase node <= b → b + qmax <= qbase node + total_q node →
  fragment_free_list qmax b i node free m = (o, free', m') →
  (m = [] → m' = []) ∧
  (o = Some (i + length (left_part node b))%nat ∧
   free' = take i free ++ left_part node b ++ mk_entry b qmax :: right_part node b qmax
             ++ drop (S i) free
   ∨ o = None ∧ m ≠ [] ∧
     (free' = free ∨
      qbase node < b < qbase node + total_q node ∧
      free' = take i free ++ mk_entry (qbase node) (b - qbase node)
                :: mk_entry b (qbase node + total_q node - b) :: drop (S i) free)).
Proof.
  unfold INT_MAX. intros ????? Hi ???. pose proof (lookup_lt_Some _ _ _ Hi) as Hlen.
  unfold fragment_free_list, left_part, right_part. destruct node as [nb nt]. simpl in *.
  destruct (Z.eqb_spec b nb) as [->|Hb]; cbn [andb].
  - destruct (Z.eqb_spec qmax nt) as [->|Hne]; cbn [negb andb].
    + intros [= <- <- <-]. split; [done|]. left. rewrite Nat.add_0_r. split; [done|].
      rewrite Z.eqb_refl. simpl. by rewrite take_drop_middle.
    + rewrite (proj2 (Z.eqb_neq _ _)) by lia.
      rewrite s32_small, !u32_small by (rewrite ?u32_small; lia).
      destruct (qdma_free_entry_create _ _ m) as [[e|] m1] eqn:E.
      * apply free_entry_create_Some in E as E'. subst e. intros [= <- <- <-].
        split; [intros ->; rewrite free_entry_create_nomem in E; naive_solver|].
        left. rewrite Nat.add_0_r. split; [done|]. rewrite insert_after_update by done. simpl.
        do 3 f_equal; f_equal; lia.
      * intros [= <- <- <-]. split; [intros ->; by rewrite free_entry_create_nomem in E|].
        right. split; [done|]. split; [|by left]. intros ->. by rewrite free_entry_create_nomem in E.
  - rewrite !u32_small by lia. replace (b >? nb) with true by lia. cbn [andb].
    destruct (Z.eqb_spec (b + qmax) (nb + nt)) as [He|He].
    + destruct (qdma_free_entry_create _ _ m) as [[e|] m1] eqn:E.
      * apply free_entry_create_Some in E as E'. subst e. intros [= <- <- <-].
        split; [intros ->; rewrite free_entry_create_nomem in E; naive_solver|].
        left. rewrite Nat.add_1_r. split; [done|]. by rewrite insert_before_update.
      * intros [= <- <- <-]. split; [intros ->; by rewrite free_entry_create_nomem in E|].
        right. split; [done|]. split; [|by left]. intros ->. by rewrite free_entry_create_nomem in E.
    + destruct (qdma_free_entry_create nb _ m) as [[e|] m1] eqn:E.
      * apply free_entry_create_Some in E as E'. subst e. cbv zeta.
        rewrite insert_before_update by done. simpl. rewrite s32_small by lia.
        rewrite (u32_small (nt - (b - nb))), (u32_small (nt - (b - nb) - qmax)) by lia.
        destruct (qdma_free_entry_create (b + qmax) _ m1) as [[e|] m2] eqn:E2.
        -- apply free_entry_create_Some in E2 as E'. subst e. intros [= <- <- <-].
           split.
           { intros ->. rewrite free_entry_create_nomem in E. simplify_eq.
             rewrite free_entry_create_nomem in E2. naive_solver. }
           left. rewrite Nat.add_1_r. split; [done|].
           assert (length (take i free) = i) as Hti by (rewrite length_take; lia).
           rewrite insert_after_update by (rewrite length_app, length_take; simpl; lia).
           rewrite take_app, drop_app, Hti, (take_ge (take i free)), (drop_ge (take i free)) by lia.
           replace (S i - i)%nat with 1%nat by lia. replace (S (S i) - i)%nat with 2%nat by lia.
           simpl. rewrite <- app_assoc. simpl. do 4 f_equal; f_equal; lia.
        -- intros [= <- <- <-].
           assert (m ≠ []) as Hm.
           { intros ->. rewrite free_entry_create_nomem in E. simplify_eq. }
           split; [done|]. right. split; [done|]. split; [done|]. right. split; [lia|].
           do 3 f_equal; f_equal; lia.
      * intros [= <- <- <-]. split; [intros ->; by rewrite free_entry_create_nomem in E|].
        right. split; [done|]. split; [|by left]. intros ->. by rewrite free_entry_create_nomem in E.
Qed.

(** Removing [[b, b+qmax)] from a node keeps the list well formed. *)
Lemma ranges_cut g lo hi l1 node l2 b qmax :
  0 <= g <= qmax → ranges g lo hi (l1 ++ node :: l2) →
  qbase node <= b → b + qmax <= qbase node + total_q node →
  ranges g lo hi (l1 ++ left_part node b ++ right_part node b qmax ++ l2).
Proof.
  intros Hg (Hl1 & H1 & H2 & H3 & H4)%ranges_app Hb He. apply ranges_app. split; [done|].
  unfold left_part, right_part.
  destruct (Z.eqb_spec b (qbase node)), (Z.eqb_spec (b + qmax) (qbase node + total_q node));
    simpl; repeat split; try lia; (eapply ranges_mono; [|done]; lia).
Qed.

Lemma qids_cut node b qmax :
  0 <= qmax → qbase node <= b → b + qmax <= qbase node + total_q node →
  qids node ≡ₚ qids (mk_entry b qmax) ++
    free_ids (left_part node b) ++ free_ids (right_part node b qmax).
Proof.
  intros. destruct node as [nb nt]. simpl in *.
  replace nt with ((b - nb) + (qmax + (nb + nt - (b + qmax)))) at 1 by lia.
  rewrite !qids_split by lia. replace (nb + (b - nb)) with b by lia.
  assert (free_ids (left_part (mk_entry nb nt) b) = qids (mk_entry nb (b - nb))) as ->.
  { unfold left_part. simpl. destruct (Z.eqb_spec b nb) as [->|]; [by rewrite Z.sub_diag|].
    unfold free_ids. simpl. by rewrite app_nil_r. }
  assert (free_ids (right_part (mk_entry nb nt) b qmax)
          = qids (mk_entry (b + qmax) (nb + nt - (b + qmax)))) as ->.
  { unfold right_part. simpl. destruct (Z.eqb_spec (b + qmax) (nb + nt)) as [->|];
      [by rewrite Z.sub_diag|]. unfold free_ids. simpl. by rewrite app_nil_r. }
  rewrite !app_assoc. by rewrite (Permutation_app_comm (qids (mk_entry nb (b - nb)))).
Qed.

Lemma take_node_app l1 (n : qdma_resource_entry) l2 :
  take_node (length l1) (l1 ++ n :: l2) = Some (n, l1 ++ l2).
Proof.
  unfold take_node. rewrite list_lookup_middle by done. simpl.
  by rewrite (delete_middle l1 l2 n).
Qed.

(** What a call of [qdma_get_resource_node] followed by taking the node off
    the list does: it yields a range of exactly [qmax] ids inside the free
    ids, or leaves the free ids as they were. *)
Inductive get_result (lo hi qmax : Z) (free : list qdma_resource_entry) (m : mem) :
    option (qdma_resource_entry * list qdma_resource_entry) →
    list qdma_resource_entry → Prop :=
  | get_none free' :
      ranges 0 lo hi free' → free_ids free' = free_ids free →
      (m = [] → free' = free ∧ ∀ node, node ∈ free → total_q node < qmax) →
      get_result lo hi qmax free m None free'
  | get_some b free' rest :
      lo <= b → b + qmax <= hi → ranges 0 lo hi rest →
      (0 < qmax → ranges 1 lo hi free → ranges 1 lo hi rest) →
      free_ids free ≡ₚ qids (mk_entry b qmax) ++ free_ids rest →
      get_result lo hi qmax free m (Some (mk_entry b qmax, rest)) free'.

Lemma get_resource_node_ok lo hi free qmax qb m o free' m' :
  0 <= lo → hi <= INT_MAX → ranges 0 lo hi free → request_ok qmax qb →
  qdma_get_resource_node qmax qb free m = (o, free', m') →
  (m = [] → m' = []) ∧ get_result lo hi qmax free m (o ≫= λ i, take_node i free') free'.
Proof.
  intros Hlo Hhi Hr Hq. unfold qdma_get_resource_node.
  destruct (choose_node qmax qb free) as [[[i node] b]|] eqn:E.
  2:{ intros [= <- <- <-]. split; [done|]. apply get_none; [done..|].
      intros _. split; [done|]. by eapply choose_node_None. }
  pose proof (choose_node_ok _ _ _ _ _ _ _ _ Hlo Hhi Hr Hq E) as (Hi & Hb & He & _).
  destruct (ranges_lookup 0 _ _ _ _ _ ltac:(lia) Hr Hi) as (H1 & H2 & H3).
  destruct Hq as ((Hq1 & Hq2) & _). intros Hf.
  destruct (fragment_free_list_ok lo hi qmax b i node free m o free' m') as [Hm Hres]; [done..|].
  split; [done|]. pose proof (take_drop_middle _ _ _ Hi) as Hmid.
  destruct Hres as [[-> ->]|(-> & Hne & Hfree')].
  - simpl. rewrite <- (length_take_le free i) at 1
      by (apply lookup_lt_Some in Hi; lia).
    rewrite <- length_app, !(app_assoc (take i free)), take_node_app.
    apply get_some; [lia..| | |].
    + rewrite <- app_assoc. apply ranges_cut; [lia|by rewrite Hmid|done..].
    + intros ??. rewrite <- app_assoc. apply ranges_cut; [lia|by rewrite Hmid|done..].
    + rewrite <- Hmid at 1. rewrite !free_ids_app, free_ids_cons.
      rewrite (qids_cut node b qmax) by lia. solve_Permutation.
  - destruct Hfree' as [->|[Hin ->]]; [by apply get_none|].
    apply get_none; [| |done].
    + rewrite <- Hmid in Hr. apply ranges_app in Hr as (? & ? & ? & ? & Hr). apply ranges_app.
      split; [done|]. simpl in *. repeat split; try lia. eapply ranges_mono; [|done]. lia.
    + rewrite <- Hmid at 3. rewrite !free_ids_app, !free_ids_cons. f_equal. rewrite app_assoc.
      f_equal. destruct node as [nb nt]. simpl in *.
      replace nt with ((b - nb) + (nb + nt - b)) at 2 by lia. rewrite qids_split by lia.
      do 3 f_equal. lia.
Qed.

(** A requested base is honoured whenever one node holds the range. *)
Lemma get_resource_node_honours lo hi free qmax qb node :
  0 <= lo → hi <= INT_MAX → ranges 0 lo hi free → request_ok qmax qb →
  node ∈ free → 0 <= qb → qbase node <= qb → qb + qmax <= qbase node + total_q node →
  ∃ i free' rest, qdma_get_resource_node qmax qb free [] = (Some i, free', []) ∧
    take_node i free' = Some (mk_entry qb qmax, rest).
Proof.
  intros Hlo Hhi Hr Hq Hin H0 Hb He. apply list_elem_of_lookup in Hin as [k Hk].
  destruct (ranges_lookup 0 _ _ _ _ _ ltac:(lia) Hr Hk) as (H1 & H2 & H3).
  destruct (find_first_elem (contains_range qmax qb) free node) as (i & n & Hf).
  { by eapply list_elem_of_lookup_2. }
  { apply (contains_range_spec lo hi); try done; lia. }
  assert (choose_node qmax qb free = Some (i, n, qb)) as E.
  { unfold choose_node. replace (qb >=? 0) with true by lia. by rewrite Hf. }
  pose proof (choose_node_ok _ _ _ _ _ _ _ _ Hlo Hhi Hr Hq E) as (Hi & Hb' & He' & _).
  destruct (ranges_lookup 0 _ _ _ _ _ ltac:(lia) Hr Hi) as (? & ? & ?).
  unfold qdma_get_resource_node. rewrite E.
  destruct (fragment_free_list qmax qb i n free []) as [[o free'] m'] eqn:Hfr.
  destruct (fragment_free_list_ok lo hi qmax qb i n free [] o free' m') as [Hm Hres];
    try done; [destruct Hq; lia|].
  rewrite (Hm eq_refl) in *. destruct Hres as [[-> ->]|(? & ? & ?)]; [|done].
  eexists _, _, _. split; [done|].
  rewrite <- (length_take_le free i) at 1 by (apply lookup_lt_Some in Hi; lia).
  by rewrite <- length_app, (app_assoc (take i free)), take_node_app.
Qed.

(** ** A request *)

(** The range of a function: empty, or inside the master's range. *)
Definition entry_ok (lo hi : Z) (e : qdma_resource_entry) : Prop :=
  total_q e = 0 ∧ -1 <= qbase e <= hi ∨ lo <= qbase e ∧ 0 < total_q e ∧ qbase e + total_q e <= hi.

Lemma entry_ok_request lo hi e :
  0 <= lo → hi <= INT_MAX → entry_ok lo hi e → request_ok (total_q e) (qbase e).
Proof. unfold entry_ok, request_ok, INT_MAX, UINT_MAX. lia. Qed.

Lemma entry_ok_got lo hi b n :
  0 <= lo → 0 <= n → lo <= b → b + n <= hi → entry_ok lo hi (mk_entry b n).
Proof. unfold entry_ok. simpl. lia. Qed.

Lemma entry_ok_none lo hi : 0 <= lo → lo <= hi → entry_ok lo hi (mk_entry (-1) 0).
Proof. unfold entry_ok. simpl. lia. Qed.

Lemma entry_ok_returnable lo hi e free :
  entry_ok lo hi e → NoDup (qids e ++ free_ids free) → total_q e = 0 ∨ returnable lo hi free e.
Proof.
  intros [[? ?]|(? & ? & ?)] (_ & Hd & _)%NoDup_app; [by left|]. right.
  unfold returnable. split_and!; done.
Qed.

(** After the first step of a request the function owns nothing, or still
    owns its range because its node could not be allocated. *)
Lemma submit_step lo hi e free m e1 free1 m1 :
  0 <= lo → lo <= hi → hi <= INT_MAX → ranges 0 lo hi free → entry_ok lo hi e →
  NoDup (qids e ++ free_ids free) →
  qdma_submit_to_free_list e free m = (e1, free1, m1) →
  ranges 0 lo hi free1 ∧ entry_ok lo hi e1 ∧
  qids e1 ++ free_ids free1 ≡ₚ qids e ++ free_ids free ∧
  (m = [] → m1 = [] ∧ total_q e1 = 0 ∧
            (0 < total_q e ∨ ranges 1 lo hi free → ranges 1 lo hi free1)).
Proof.
  intros Hlo Hlh Hhi Hr He Hnd Hs.
  pose proof (entry_ok_returnable _ _ _ _ He Hnd) as Hret.
  destruct (submit_to_free_list_ok _ _ _ _ _ _ _ _ Hlo Hhi Hr Hret Hs) as [Hres Hm].
  destruct Hres as [|free' Hpos Hr' Hp].
  - split_and!; [done..|]. intros Em. destruct (Hm Em) as [? [(? & _ & _)|Heq]].
    + split_and!; [done..|]. intros [?|?]; [lia|done].
    + subst e. simpl. split_and!; [done..|]. intros [?|?]; [simpl in *; lia|done].
  - split_and!; [by apply ranges_weaken|by apply entry_ok_none|by rewrite Hp|].
    intros Em. by destruct (Hm Em).
Qed.

Lemma qids_empty e : total_q e = 0 → qids e = [].
Proof. destruct e as [b n]. simpl. by intros ->. Qed.

Lemma submseteq_skip_l {A} (l k1 k2 : list A) : k1 ⊆+ k2 → k1 ⊆+ l ++ k2.
Proof. intros. by apply submseteq_app_r; exists [], k1; split_and!; [|apply submseteq_nil_l|]. Qed.

(** Soundness of a request under any allocation failures: queue ids may be
    lost but never duplicated, and a success has the size asked for. *)
Lemma request_sound lo hi e nq nb free m rv e' free' m' :
  0 <= lo → lo <= hi → hi <= INT_MAX → ranges 0 lo hi free → entry_ok lo hi e →
  NoDup (qids e ++ free_ids free) → request_ok nq nb →
  qdma_request_q_resource e nq nb free m = (rv, e', free', m') →
  ranges 0 lo hi free' ∧ entry_ok lo hi e' ∧
  qids e' ++ free_ids free' ⊆+ qids e ++ free_ids free ∧
  (rv = QDMA_SUCCESS → nq ≠ 0 → total_q e' = nq).
Proof.
  intros Hlo Hlh Hhi Hr He Hnd Hq. unfold qdma_request_q_resource.
  destruct (qdma_submit_to_free_list e free m) as [[e1 free1] m1] eqn:Es.
  destruct (submit_step _ _ _ _ _ _ _ _ Hlo Hlh Hhi Hr He Hnd Es) as (Hr1 & He1 & Hp1 & _).
  destruct (Z.eqb_spec nq 0) as [->|Hnq].
  { intros [= <- <- <- <-]. split_and!; [done..|by rewrite Hp1|done]. }
  destruct (qdma_get_resource_node nq nb free1 m1) as [[o2 free2] m2] eqn:Eg.
  destruct (get_resource_node_ok _ _ _ _ _ _ _ _ _ Hlo Hhi Hr1 Hq Eg) as [_ Hg].
  destruct Hg as [free2 Hr2 Hf2 _|b free2 rest Hb He2 Hr2 _ Hp2].
  2:{ intros [= <- <- <- <-]. split_and!; [done| |..|done].
      - apply entry_ok_got; try done. by destruct Hq as [? _]; lia.
      - simpl. rewrite <- Hp1, <- Hp2. by apply submseteq_skip_l. }
  destruct (qdma_get_resource_node (total_q e) (qbase e) free2 m2) as [[o3 free3] m3] eqn:Eg3.
  pose proof (entry_ok_request _ _ _ Hlo Hhi He) as Hqe.
  destruct (get_resource_node_ok _ _ _ _ _ _ _ _ _ Hlo Hhi Hr2 Hqe Eg3) as [_ Hg].
  destruct Hg as [free3 Hr3 Hf3 _|b free3 rest Hb He2 Hr3 _ Hp3]; intros [= <- <- <- <-].
  - split_and!; [done|by apply entry_ok_none|..|done].
    rewrite qids_nil, Hf3, Hf2, <- Hp1. by apply submseteq_skip_l.
  - split_and!; [done| |..|done].
    + apply entry_ok_got; try done. destruct Hqe; lia.
    + simpl. rewrite <- Hp1, <- Hp3, Hf2. by apply submseteq_skip_l.
Qed.

(** Without allocation failures nothing is lost, a successful request leaves
    the free list coalesced, and a failed one gives a function that owned
    queues its very range back; it fails only when no block of the size asked
    for is available among the function's own and the free queues. *)
Lemma request_nomem lo hi e nq nb free rv e' free' m' :
  0 <= lo → lo <= hi → hi <= INT_MAX → ranges 0 lo hi free → entry_ok lo hi e →
  NoDup (qids e ++ free_ids free) → request_ok nq nb →
  qdma_request_q_resource e nq nb free [] = (rv, e', free', m') →
  m' = [] ∧ qids e' ++ free_ids free' ≡ₚ qids e ++ free_ids free ∧
  (0 < total_q e ∨ ranges 1 lo hi free →
   rv = QDMA_SUCCESS ∧ total_q e' = nq ∧ ranges 1 lo hi free' ∨
   rv = ERR QDMA_ERR_RM_NO_QUEUES_LEFT ∧ 0 < nq ∧
   (0 < total_q e → e' = e ∧ ranges 1 lo hi free') ∧
   ∀ b, ¬ (∀ x, b <= x < b + nq → x ∈ qids e ++ free_ids free)).
Proof.
  intros Hlo Hlh Hhi Hr He Hnd Hq. unfold qdma_request_q_resource.
  destruct (qdma_submit_to_free_list e free []) as [[e1 free1] m1] eqn:Es.
  destruct (submit_step _ _ _ _ _ _ _ _ Hlo Hlh Hhi Hr He Hnd Es) as (Hr1 & He1 & Hp1 & Hm1).
  destruct (Hm1 eq_refl) as (-> & Hz1 & Hc1). rewrite (qids_empty e1 Hz1) in Hp1. simpl in Hp1.
  destruct (Z.eqb_spec nq 0) as [->|Hnq].
  { intros [= <- <- <- <-]. rewrite (qids_empty e1 Hz1), <- Hp1. split_and!; [done..|]. auto. }
  destruct (qdma_get_resource_node nq nb free1 []) as [[o2 free2] m2] eqn:Eg.
  assert (0 < nq) as Hpos by (destruct Hq; lia).
  destruct (get_resource_node_ok _ _ _ _ _ _ _ _ _ Hlo Hhi Hr1 Hq Eg) as [Hm2 Hg].
  rewrite (Hm2 eq_refl) in *. destruct Hg as [free2 Hr2 Hf2 Hno|b free2 rest Hb He2 Hr2 Hc2 Hp2].
  2:{ intros [= <- <- <- <-]. simpl. rewrite <- Hp1, <- Hp2. split_and!; [done..|].
      intros Hc. left. auto. }
  destruct (Hno eq_refl) as [-> Hsmall].
  assert (0 < total_q e ∨ ranges 1 lo hi free →
    ∀ b, ¬ (∀ x, b <= x < b + nq → x ∈ qids e ++ free_ids free)) as Hnone.
  { intros Hc b Hb. setoid_rewrite <- Hp1 in Hb.
    destruct (ranges_block lo hi free1 b nq) as (i & node & Hi & ? & ?); [auto..|].
    apply list_elem_of_lookup_2, Hsmall in Hi. lia. }
  destruct (qdma_get_resource_node (total_q e) (qbase e) free1 []) as [[o3 free3] m3] eqn:Eg3.
  pose proof (entry_ok_request _ _ _ Hlo Hhi He) as Hqe.
  destruct (get_resource_node_ok _ _ _ _ _ _ _ _ _ Hlo Hhi Hr1 Hqe Eg3) as [Hm3 Hg].
  rewrite (Hm3 eq_refl) in *.
  assert (0 < total_q e → ∃ rest, o3 ≫= (λ i, take_node i free3) = Some (e, rest)) as Hback.
  { intros Hpe. destruct (ranges_block lo hi free1 (qbase e) (total_q e)) as
      (i & node & Hi & ? & ?); [auto..| |].
    { intros x Hx. rewrite Hp1, elem_of_app, elem_of_qids. by left. }
    destruct (get_resource_node_honours lo hi free1 (total_q e) (qbase e) node)
      as (j & fr & rest & Ej & Et); try done.
    { by eapply list_elem_of_lookup_2. }
    { destruct He as [[? ?]|?]; lia. }
    rewrite Ej in Eg3. simplify_eq. simpl. rewrite Et. destruct e; eauto. }
  destruct Hg as [free3 Hr3 Hf3 _|b free3 rest Hb He2 Hr3 Hc3 Hp3]; intros [= <- <- <- <-].
  - destruct (decide (0 < total_q e)) as [Hpe|Hpe]; [by destruct (Hback Hpe)|].
    rewrite qids_nil, Hf3. split_and!; [done|by rewrite <- Hp1|].
    intros Hc. right. split_and!; auto. lia.
  - split_and!; [done|by rewrite <- Hp1, <- Hp3|]. intros Hc. right. split_and!; auto.
    intros Hpe. destruct (Hback Hpe) as [rest' [= He' _]]. destruct e. simpl in *. subst. auto.
Qed.
