(* ===== verification/ResMgmtInv.v ===== *)
(** * Invariant of the resource manager

    What holds of the resource manager in every state its interface can
    reach: the ranges of the functions and the free ranges of a master never
    overlap and stay inside the master's range, function ids and device
    indices are unique, and no function has more active queues of a type than
    queues. *)

From S2P Require Import Prelude Platform QdmaList ResMgmt FreeList.

(** ** The invariant *)

Definition dev_ids (devs : list qdma_dev_entry) : list Z := devs ≫= λ d, qids (entry d).
Arguments dev_ids : simpl never.

Definition counters_ok (d : qdma_dev_entry) : Prop :=
  0 <= active_h2c_qcnt d <= total_q (entry d) ∧
  0 <= active_c2h_qcnt d <= total_q (entry d) ∧
  0 <= active_cmpt_qcnt d <= total_q (entry d).

Definition dev_ok (lo hi : Z) (d : qdma_dev_entry) : Prop :=
  entry_ok lo hi (entry d) ∧ counters_ok d.

Definition rm_end (r : qdma_resource_master) : Z := rm_qbase r + rm_total_q r.

Record master_ok (r : qdma_resource_master) : Prop := {
  mo_lo : 0 <= rm_qbase r;
  mo_total : 0 < rm_total_q r;
  mo_hi : rm_end r <= INT_MAX;
  mo_free : ranges 0 (rm_qbase r) (rm_end r) (free_list r);
  mo_devs : Forall (dev_ok (rm_qbase r) (rm_end r)) (dev_list r);
  mo_disjoint : NoDup (dev_ids (dev_list r) ++ free_ids (free_list r));
  mo_funcs : NoDup (func_id <$> dev_list r);
}.

Definition bus (r : qdma_resource_master) : Z * Z := (pci_bus_start r, pci_bus_end r).

Record rm_ok (s : rm_state) : Prop := {
  ro_masters : Forall master_ok (master_resource_list s);
  ro_index : 0 <= rm_index s <= INT_MAX;
  ro_below : Forall (λ r, 0 <= dma_device_index r < rm_index s) (master_resource_list s);
  ro_unique : NoDup (dma_device_index <$> master_resource_list s);
  ro_bus : NoDup (bus <$> master_resource_list s);
}.

(** No queue id of a master is lost. *)
Definition conserved (r : qdma_resource_master) : Prop :=
  dev_ids (dev_list r) ++ free_ids (free_list r) ≡ₚ seqZ (rm_qbase r) (rm_total_q r).

(** ** Operations as steps *)

Inductive rm_op :=
  | OpCreate (bus_start bus_end q_base total : Z)
  | OpDestroy (index : Z)
  | OpDevCreate (index fid : Z)
  | OpDevDestroy (index fid : Z)
  | OpDevUpdate (index fid qmax qb : Z)
  | OpIncrement (index fid : Z) (t : qdma_dev_q_type)
  | OpDecrement (index fid : Z) (t : qdma_dev_q_type).

Definition rm_exec (op : rm_op) (s : rm_state) : rm_state :=
  match op with
  | OpCreate bs be qb tq => (qdma_master_resource_create bs be qb tq s).2
  | OpDestroy i => qdma_master_resource_destroy i s
  | OpDevCreate i f => (qdma_dev_entry_create i f s).2
  | OpDevDestroy i f => qdma_dev_entry_destroy i f s
  | OpDevUpdate i f qmax qb => (qdma_dev_update i f qmax qb s).2
  | OpIncrement i f t => (qdma_dev_increment_active_queue i f t s).2
  | OpDecrement i f t => (qdma_dev_decrement_active_queue i f t s).2
  end.

(** The arguments a caller may pass: a master's range of positive ids, a
    request that does not overflow 32 bits, and fewer than 2^31 - 1 masters
    (the [int] index would overflow). *)
Definition op_ok (op : rm_op) (s : rm_state) : Prop :=
  match op with
  | OpCreate _ _ qb tq => 0 <= qb ∧ 0 < tq ∧ qb + tq <= INT_MAX ∧ rm_index s < INT_MAX
  | OpDevUpdate _ _ qmax qb => request_ok qmax qb
  | _ => True
  end.

Inductive rm_step (s : rm_state) : rm_state → Prop :=
  | rm_step_op op : op_ok op s → rm_step s (rm_exec op s).

(** The states reachable from the start, for every pattern of allocation
    failures. *)
Inductive reachable (m : mem) : rm_state → Prop :=
  | reachable_init : reachable m (rm_init m)
  | reachable_step s s' : reachable m s → rm_step s s' → reachable m s'.

(** ** Lookups *)

Lemma get_master_Some index s i r :
  qdma_get_master_resource_entry index s = Some (i, r) →
  master_resource_list s !! i = Some r ∧ dma_device_index r = index.
Proof.
  intros (? & ? & _)%find_first_Some. split; [done|]. by apply Z.eqb_eq.
Qed.

Lemma get_dev_Some index fid s i r j d :
  qdma_get_master_resource_entry index s = Some (i, r) →
  qdma_get_dev_entry index fid s = Some (j, d) →
  dev_list r !! j = Some d ∧ func_id d = fid.
Proof.
  intros Hr. unfold qdma_get_dev_entry. rewrite Hr. simpl.
  intros (? & ? & _)%find_first_Some. split; [done|]. by apply Z.eqb_eq.
Qed.

Lemma get_dev_None index fid s i r :
  qdma_get_master_resource_entry index s = Some (i, r) →
  qdma_get_dev_entry index fid s = None → fid ∉ func_id <$> dev_list r.
Proof.
  intros Hr. unfold qdma_get_dev_entry. rewrite Hr. simpl. intros Hn.
  intros (d & -> & Hd)%list_elem_of_fmap.
  pose proof (find_first_None _ _ Hn d Hd) as He. simpl in He. by rewrite Z.eqb_refl in He.
Qed.

(** With unique keys a lookup finds exactly the element with the key. *)
Lemma find_first_key {A} (f : A → Z) (l : list A) i x k :
  NoDup (f <$> l) → l !! i = Some x → f x = k →
  find_first (λ y, f y =? k) l = Some (i, x).
Proof.
  revert i. induction l as [|y l IH]; intros i; [done|]. simpl.
  intros [Hn Hd]%NoDup_cons Hi Hk. destruct i as [|i]; simpl in Hi.
  - simplify_eq. by rewrite Z.eqb_refl.
  - destruct (Z.eqb_spec (f y) k) as [E|_].
    + destruct Hn. apply list_elem_of_fmap. exists x. split; [congruence|].
      by eapply list_elem_of_lookup_2.
    + by rewrite (IH i Hd Hi Hk).
Qed.

Lemma get_master_key s i r :
  rm_ok s → master_resource_list s !! i = Some r →
  qdma_get_master_resource_entry (dma_device_index r) s = Some (i, r).
Proof. intros Hs Hi. by apply find_first_key; [apply ro_unique| |]. Qed.

Lemma get_dev_key index s i r j d :
  rm_ok s → qdma_get_master_resource_entry index s = Some (i, r) →
  dev_list r !! j = Some d → qdma_get_dev_entry index (func_id d) s = Some (j, d).
Proof.
  intros Hs Hr Hd. unfold qdma_get_dev_entry. rewrite Hr. simpl.
  apply find_first_key; [|done..]. apply get_master_Some in Hr as [Hi _].
  pose proof (ro_masters s Hs) as Hm. rewrite Forall_lookup in Hm. by apply (mo_funcs r (Hm _ _ Hi)).
Qed.

(** ** Preservation, one master at a time *)

Lemma dev_ids_app l1 l2 : dev_ids (l1 ++ l2) = dev_ids l1 ++ dev_ids l2.
Proof. apply bind_app. Qed.
Lemma dev_ids_cons d l : dev_ids (d :: l) = qids (entry d) ++ dev_ids l.
Proof. done. Qed.

Lemma dev_ids_middle devs j d :
  devs !! j = Some d →
  dev_ids devs ≡ₚ qids (entry d) ++ dev_ids (delete j devs).
Proof.
  intros Hj. rewrite delete_take_drop, <- (take_drop_middle devs j d Hj) at 1.
  rewrite !dev_ids_app, dev_ids_cons. solve_Permutation.
Qed.

Lemma dev_ids_update devs j d d' :
  devs !! j = Some d →
  dev_ids (<[j := d']> devs) ≡ₚ qids (entry d') ++ dev_ids (delete j devs).
Proof.
  intros Hj. rewrite delete_take_drop, insert_take_drop by (by eapply lookup_lt_Some).
  rewrite !dev_ids_app, dev_ids_cons. solve_Permutation.
Qed.

Lemma submseteq_NoDup {A} (l k : list A) : l ⊆+ k → NoDup k → NoDup l.
Proof. intros [x ->]%submseteq_Permutation. by intros (? & _ & _)%NoDup_app. Qed.

Lemma NoDup_fmap_delete {A B} (f : A → B) l j : NoDup (f <$> l) → NoDup (f <$> delete j l).
Proof. apply submseteq_NoDup, sublist_submseteq, fmap_sublist, sublist_delete. Qed.

(** The ids that a function and the free list hold together are fresh for
    the other functions. *)
Lemma master_own r j d :
  master_ok r → dev_list r !! j = Some d →
  dev_ok (rm_qbase r) (rm_end r) d ∧ NoDup (qids (entry d) ++ free_ids (free_list r)).
Proof.
  intros Hr Hj. split; [by eapply Forall_lookup_1, Hj; apply mo_devs|].
  eapply submseteq_NoDup, mo_disjoint, Hr. rewrite (dev_ids_middle _ _ _ Hj).
  rewrite <- app_assoc. apply submseteq_app; [done|]. by apply submseteq_skip_l.
Qed.

Lemma master_ids_shrink r j d e' free' :
  master_ok r → dev_list r !! j = Some d →
  qids e' ++ free_ids free' ⊆+ qids (entry d) ++ free_ids (free_list r) →
  NoDup ((qids e' ++ dev_ids (delete j (dev_list r))) ++ free_ids free').
Proof.
  intros Hr Hj Hsub. eapply submseteq_NoDup, mo_disjoint, Hr.
  rewrite (dev_ids_middle _ _ _ Hj).
  rewrite !(Permutation_app_comm _ (dev_ids (delete j _))), <- !app_assoc.
  by apply submseteq_app.
Qed.

(** A new range for a function. *)
Lemma master_ok_update r j d e' free' :
  master_ok r → dev_list r !! j = Some d →
  ranges 0 (rm_qbase r) (rm_end r) free' → dev_ok (rm_qbase r) (rm_end r) (set_entry e' d) →
  qids e' ++ free_ids free' ⊆+ qids (entry d) ++ free_ids (free_list r) →
  master_ok (set_lists (<[j := set_entry e' d]> (dev_list r)) free' r).
Proof.
  intros Hr Hj Hf Hd Hsub. pose proof (master_ids_shrink _ _ _ _ _ Hr Hj Hsub) as Hnd.
  destruct Hr. constructor; try done; simpl.
  - by apply Forall_insert.
  - by rewrite (dev_ids_update _ _ _ _ Hj).
  - by rewrite list_fmap_insert, list_insert_id by (by rewrite list_lookup_fmap, Hj).
Qed.

Lemma master_ok_remove r j d e' free' :
  master_ok r → dev_list r !! j = Some d →
  ranges 0 (rm_qbase r) (rm_end r) free' →
  qids e' ++ free_ids free' ⊆+ qids (entry d) ++ free_ids (free_list r) →
  master_ok (set_lists (delete j (dev_list r)) free' r).
Proof.
  intros Hr Hj Hf Hsub. pose proof (master_ids_shrink _ _ _ _ _ Hr Hj Hsub) as Hnd.
  destruct Hr. constructor; try done; simpl.
  - by apply Forall_delete.
  - rewrite <- app_assoc in Hnd. by apply NoDup_app in Hnd as (_ & _ & ?).
  - by apply NoDup_fmap_delete.
Qed.

Lemma master_ok_add r fid :
  master_ok r → fid ∉ func_id <$> dev_list r →
  master_ok (set_lists (dev_list r ++ [mk_dev fid 0 0 0 (mk_entry (-1) 0)]) (free_list r) r).
Proof.
  intros [] Hn. constructor; try done; simpl.
  - apply Forall_app. split; [done|]. apply Forall_singleton. split.
    + apply entry_ok_none; [done|]. unfold rm_end. simpl. lia.
    + unfold counters_ok. simpl. lia.
  - rewrite dev_ids_app. change (dev_ids [_]) with (@nil Z). by rewrite app_nil_r.
  - rewrite fmap_app. apply NoDup_app. split; [done|]. simpl.
    split; [|apply NoDup_singleton]. intros x Hx ->%list_elem_of_singleton. done.
Qed.

Lemma master_ok_counters r j d d' n :
  master_ok r → dev_list r !! j = Some d → entry d' = entry d → func_id d' = func_id d →
  counters_ok d' → master_ok (set_active (<[j := d']> (dev_list r)) n r).
Proof.
  intros Hr Hj He Hf Hc. pose proof (master_own _ _ _ Hr Hj) as [[Ho _] _].
  destruct Hr. constructor; try done; simpl.
  - apply Forall_insert; [done|]. split; [by rewrite He|done].
  - by rewrite (dev_ids_update _ _ _ _ Hj), He, <- (dev_ids_middle _ _ _ Hj).
  - rewrite list_fmap_insert, list_insert_id by (by rewrite list_lookup_fmap, Hj, Hf). done.
Qed.

(** ** Preservation, the whole state *)

Definition same_master (r r' : qdma_resource_master) : Prop :=
  dma_device_index r' = dma_device_index r ∧ bus r' = bus r ∧
  rm_qbase r' = rm_qbase r ∧ rm_total_q r' = rm_total_q r.

Lemma rm_ok_set_master s i r r' m :
  rm_ok s → master_resource_list s !! i = Some r → same_master r r' → master_ok r' →
  rm_ok (set_master i r' m s).
Proof.
  intros [] Hi (Hx & Hb & _) Hr'. constructor; simpl; [by apply Forall_insert|done|..].
  - apply Forall_insert; [done|]. rewrite Hx. exact (Forall_lookup_1 _ _ _ _ ro_below0 Hi).
  - rewrite list_fmap_insert, list_insert_id by (by rewrite list_lookup_fmap, Hi, Hx). done.
  - rewrite list_fmap_insert, list_insert_id by (by rewrite list_lookup_fmap, Hi, Hb). done.
Qed.

Lemma rm_ok_mem s m : rm_ok s → rm_ok (mk_rm (master_resource_list s) (rm_index s) m).
Proof. intros []. by constructor. Qed.

Lemma rm_ok_master s index i r :
  rm_ok s → qdma_get_master_resource_entry index s = Some (i, r) →
  master_resource_list s !! i = Some r ∧ master_ok r.
Proof.
  intros Hs [Hi _]%get_master_Some. split; [done|].
  by eapply Forall_lookup_1; [apply ro_masters|].
Qed.

Lemma bus_fresh s bs be :
  qdma_find_master_resource_entry bs be s = None → (bs, be) ∉ bus <$> master_resource_list s.
Proof.
  intros Hn (r & Hb & Hr)%list_elem_of_fmap. pose proof (find_first_None _ _ Hn r Hr) as Hf.
  unfold bus in Hb. simplify_eq. simpl in Hf. by rewrite !Z.eqb_refl in Hf.
Qed.

Lemma master_ok_new index bs be qb tq :
  0 <= qb → 0 < tq → qb + tq <= INT_MAX →
  master_ok (mk_master index bs be tq qb [] [mk_entry qb tq] 0).
Proof.
  intros. constructor; simpl; try done; unfold rm_end; simpl; try lia.
  - unfold dev_ids, free_ids. simpl. rewrite app_nil_r. apply NoDup_qids.
  - constructor.
Qed.

Lemma create_ok s bs be qb tq :
  rm_ok s → op_ok (OpCreate bs be qb tq) s → rm_ok (qdma_master_resource_create bs be qb tq s).2.
Proof.
  intros Hs (H1 & H2 & H3 & H4). unfold qdma_master_resource_create.
  destruct (qdma_find_master_resource_entry bs be s) as [[i r]|] eqn:Ef; [done|].
  destruct (qdma_calloc (rm_mem s)) as [[] m1]; [|by apply rm_ok_mem].
  destruct (qdma_calloc m1) as [[] m2]; [|by apply rm_ok_mem]. simpl.
  pose proof (bus_fresh _ _ _ Ef) as Hbus. destruct Hs. unfold INT_MAX in *.
  rewrite u32_small, s32_small by lia. constructor; simpl.
  - apply Forall_app_2; [done|]. apply Forall_singleton. by apply master_ok_new.
  - unfold INT_MAX. lia.
  - apply Forall_app_2; [eapply Forall_impl; [done|]; simpl; lia|].
    apply Forall_singleton. simpl. lia.
  - rewrite fmap_app, NoDup_app. split; [done|]. split; [|apply NoDup_singleton].
    intros x (r & -> & Hr)%list_elem_of_fmap Hx%list_elem_of_singleton. simpl in Hx.
    rewrite Forall_forall in ro_below0. specialize (ro_below0 r Hr). lia.
  - rewrite fmap_app, NoDup_app. split; [done|]. split; [|apply NoDup_singleton].
    by intros x Hx ->%list_elem_of_singleton.
Qed.

Lemma destroy_ok s index : rm_ok s → rm_ok (qdma_master_resource_destroy index s).
Proof.
  intros Hs. unfold qdma_master_resource_destroy.
  destruct (qdma_get_master_resource_entry index s) as [[i r]|]; [|done].
  destruct (dev_list r); [|done]. destruct Hs. constructor; simpl; try done.
  - by apply Forall_delete.
  - by apply Forall_delete.
  - by apply NoDup_fmap_delete.
  - by apply NoDup_fmap_delete.
Qed.

(** The lookups every operation starts with: the master [r] at position [i],
    and in it the function [d] at position [j]. *)
Ltac find_master Hs :=
  match goal with
  | |- context [qdma_get_master_resource_entry ?index ?s] =>
      destruct (qdma_get_master_resource_entry index s) as [[i r]|] eqn:Er; [|done]
  end;
  match goal with
  | Er : qdma_get_master_resource_entry _ _ = Some _ |- _ =>
      destruct (rm_ok_master _ _ _ _ Hs Er) as [Hi Hr]
  end.
Ltac find_function Hs :=
  find_master Hs;
  match goal with
  | |- context [qdma_get_dev_entry ?index ?fid ?s] =>
      destruct (qdma_get_dev_entry index fid s) as [[j d]|] eqn:Ed; [|done]
  end;
  match goal with
  | Er : qdma_get_master_resource_entry _ _ = Some _,
    Ed : qdma_get_dev_entry _ _ _ = Some _ |- _ =>
      destruct (get_dev_Some _ _ _ _ _ _ _ Er Ed) as [Hj Hfid]
  end;
  match goal with
  | Hr : master_ok _, Hj : dev_list _ !! _ = Some _ |- _ =>
      destruct (master_own _ _ _ Hr Hj) as [[He Hc] Hnd]
  end.

Lemma dev_create_ok s index fid : rm_ok s → rm_ok (qdma_dev_entry_create index fid s).2.
Proof.
  intros Hs. unfold qdma_dev_entry_create.
  find_master Hs.
  destruct (qdma_get_dev_entry index fid s) as [[j d]|] eqn:Ed; [done|].
  destruct (qdma_calloc (rm_mem s)) as [[] m]; simpl; [|by apply rm_ok_mem].
  eapply rm_ok_set_master; [done..|]. apply master_ok_add; [done|]. by eapply get_dev_None.
Qed.

Lemma dev_destroy_ok s index fid : rm_ok s → rm_ok (qdma_dev_entry_destroy index fid s).
Proof.
  intros Hs. unfold qdma_dev_entry_destroy.
  find_function Hs.
  destruct (qdma_submit_to_free_list (entry d) (free_list r) (rm_mem s))
    as [[e' free'] m] eqn:Es.
  destruct (submit_step (rm_qbase r) (rm_end r) _ _ _ _ _ _ ltac:(by apply mo_lo)
    ltac:(destruct Hr; unfold rm_end; lia) (mo_hi r Hr) (mo_free r Hr) He Hnd Es)
    as (Hf & _ & Hp & _).
  eapply rm_ok_set_master; [done..|]. eapply master_ok_remove; [done..|]. by rewrite Hp.
Qed.

(** A request on behalf of a function without active queues. *)
Lemma dev_request_ok r j d qmax qb m rv e' free' m' :
  master_ok r → dev_list r !! j = Some d → request_ok qmax qb →
  active_h2c_qcnt d = 0 → active_c2h_qcnt d = 0 → active_cmpt_qcnt d = 0 →
  qdma_request_q_resource (entry d) qmax qb (free_list r) m = (rv, e', free', m') →
  master_ok (set_lists (<[j := set_entry e' d]> (dev_list r)) free' r) ∧
  (rv = QDMA_SUCCESS → qmax ≠ 0 → total_q e' = qmax).
Proof.
  intros Hr Hj Hq H1 H2 H3 Hreq. destruct (master_own _ _ _ Hr Hj) as [[He _] Hnd].
  destruct (request_sound (rm_qbase r) (rm_end r) (entry d) qmax qb (free_list r) m rv e' free' m')
    as (Hf & He' & Hsub & Hsz); try done; try (destruct Hr; unfold rm_end in *; lia || done).
  split; [|done]. eapply master_ok_update; [done..| |done]. split; [done|].
  unfold counters_ok, set_entry. simpl. rewrite H1, H2, H3. destruct He' as [[? ?]|?]; lia.
Qed.

Lemma dev_update_ok s index fid qmax qb :
  rm_ok s → request_ok qmax qb → rm_ok (qdma_dev_update index fid qmax qb s).2.
Proof.
  intros Hs Hq. unfold qdma_dev_update.
  find_function Hs.
  destruct (Z.eqb_spec (active_h2c_qcnt d) 0); [|done].
  destruct (Z.eqb_spec (active_c2h_qcnt d) 0); [|done].
  destruct (Z.eqb_spec (active_cmpt_qcnt d) 0); [|done]. simpl.
  destruct (qdma_request_q_resource (entry d) qmax qb (free_list r) (rm_mem s))
    as [[[rv e'] free'] m] eqn:Eq.
  eapply rm_ok_set_master; [done..|]. by eapply dev_request_ok.
Qed.

(** The counters stay within [[0, total_q]]. *)
Lemma active_cnt_bound d t n :
  counters_ok d → active_cnt d t = Some n → 0 <= n <= total_q (entry d).
Proof. unfold counters_ok. destruct t; simpl; intros ? [=]; lia. Qed.

Lemma set_active_cnt_ok d t n :
  counters_ok d → 0 <= n <= total_q (entry d) →
  counters_ok (set_active_cnt t n d) ∧ entry (set_active_cnt t n d) = entry d ∧
  func_id (set_active_cnt t n d) = func_id d.
Proof. unfold counters_ok. destruct t; simpl; intros; split_and!; lia || done. Qed.

Lemma entry_ok_int lo hi e : 0 <= lo → hi <= INT_MAX → entry_ok lo hi e → 0 <= total_q e <= INT_MAX.
Proof. unfold entry_ok, INT_MAX. lia. Qed.

Lemma increment_ok s index fid t :
  rm_ok s → rm_ok (qdma_dev_increment_active_queue index fid t s).2.
Proof.
  intros Hs. unfold qdma_dev_increment_active_queue.
  find_function Hs.
  destruct (active_cnt d t) as [n|] eqn:En; [|done].
  pose proof (active_cnt_bound _ _ _ Hc En) as Hn.
  pose proof (entry_ok_int _ _ _ (mo_lo r Hr) (mo_hi r Hr) He) as Hmax. unfold INT_MAX in Hmax.
  rewrite u32_small by lia. destruct (Z.ltb_spec (total_q (entry d)) (n + 1)); [done|].
  destruct (set_active_cnt_ok d t (n + 1) Hc) as (? & ? & ?); [lia|].
  eapply rm_ok_set_master; [done..|]. by eapply master_ok_counters.
Qed.

Lemma decrement_ok s index fid t :
  rm_ok s → rm_ok (qdma_dev_decrement_active_queue index fid t s).2.
Proof.
  intros Hs. unfold qdma_dev_decrement_active_queue.
  find_function Hs.
  pose proof (entry_ok_int _ _ _ (mo_lo r Hr) (mo_hi r Hr) He) as Hmax. unfold INT_MAX in Hmax.
  destruct (active_cnt d t) as [n|] eqn:En; simpl.
  2:{ eapply rm_ok_set_master; [done..|]. by eapply master_ok_counters. }
  pose proof (active_cnt_bound _ _ _ Hc En) as Hn.
  eapply rm_ok_set_master; [done..|]. destruct (Z.eqb_spec n 0).
  - by eapply master_ok_counters.
  - rewrite u32_small by lia.
    destruct (set_active_cnt_ok d t (n - 1) Hc) as (? & ? & ?); [lia|].
    by eapply master_ok_counters.
Qed.

Lemma rm_exec_ok s op : rm_ok s → op_ok op s → rm_ok (rm_exec op s).
Proof.
  destruct op; simpl; intros.
  - by apply create_ok.
  - by apply destroy_ok.
  - by apply dev_create_ok.
  - by apply dev_destroy_ok.
  - by apply dev_update_ok.
  - by apply increment_ok.
  - by apply decrement_ok.
Qed.

Lemma rm_init_ok m : rm_ok (rm_init m).
Proof. constructor; simpl; try constructor; unfold INT_MAX; lia. Qed.

Lemma reachable_ok m s : reachable m s → rm_ok s.
Proof.
  induction 1 as [|s s' _ IH Hstep]; [apply rm_init_ok|].
  destruct Hstep. by apply rm_exec_ok.
Qed.
