(* ===== verification/ResMgmtThms.v ===== *)
(** * What the resource manager guarantees

    The theorems about the interface of qdma_resource_mgmt.c: safety in every
    reachable state, conservation of queues, the exact behaviour of
    [qdma_dev_update] and of the lookups, and the cases where the code does
    not do what its clients expect. *)

From S2P Require Import Prelude Platform QdmaList ResMgmt FreeList ResMgmtInv.

(** ** Conservation *)

Section conservation.
Context (r : qdma_resource_master) (j : nat) (d : qdma_dev_entry).
Context (Hj : dev_list r !! j = Some d) (Hc : conserved r).

Lemma conserved_update e' free' :
  qids e' ++ free_ids free' ≡ₚ qids (entry d) ++ free_ids (free_list r) →
  conserved (set_lists (<[j := set_entry e' d]> (dev_list r)) free' r).
Proof using Hj Hc.
  intros Hp. unfold conserved in *. simpl. rewrite <- Hc.
  rewrite (dev_ids_update _ _ _ _ Hj), (dev_ids_middle _ _ _ Hj). simpl.
  rewrite !(Permutation_app_comm _ (dev_ids (delete j _))), <- !app_assoc. by f_equiv.
Qed.

Lemma conserved_remove e' free' :
  qids e' = [] →
  qids e' ++ free_ids free' ≡ₚ qids (entry d) ++ free_ids (free_list r) →
  conserved (set_lists (delete j (dev_list r)) free' r).
Proof using Hj Hc.
  intros He Hp. unfold conserved in *. simpl. rewrite <- Hc, (dev_ids_middle _ _ _ Hj).
  rewrite He in Hp. simpl in Hp. rewrite Hp. solve_Permutation.
Qed.

Lemma conserved_counters d' n :
  entry d' = entry d → conserved (set_active (<[j := d']> (dev_list r)) n r).
Proof using Hj Hc.
  intros He. unfold conserved in *. simpl.
  by rewrite (dev_ids_update _ _ _ _ Hj), He, <- (dev_ids_middle _ _ _ Hj).
Qed.
End conservation.

(** A state no allocation failed in. *)
Definition rm_full (s : rm_state) : Prop :=
  rm_mem s = [] ∧ Forall conserved (master_resource_list s).

Lemma rm_full_set_master s i r' :
  rm_full s → conserved r' → rm_full (set_master i r' [] s).
Proof. intros [Hm Hf] Hc. split; [done|]. simpl. by apply Forall_insert. Qed.

Lemma rm_full_master s index i r :
  rm_full s → qdma_get_master_resource_entry index s = Some (i, r) → conserved r.
Proof. intros [_ Hf] [Hi _]%get_master_Some. by eapply Forall_lookup_1. Qed.

Lemma entry_none_or_empty lo hi e free e' free' m :
  0 <= lo → hi <= INT_MAX → ranges 0 lo hi free → entry_ok lo hi e →
  NoDup (qids e ++ free_ids free) →
  qdma_submit_to_free_list e free [] = (e', free', m) → m = [] ∧ qids e' = [].
Proof.
  intros Hlo Hhi Hr He Hnd Hs. pose proof (entry_ok_returnable _ _ _ _ He Hnd) as Hret.
  destruct (submit_to_free_list_ok _ _ _ _ _ _ _ _ Hlo Hhi Hr Hret Hs) as [_ Hm].
  destruct (Hm eq_refl) as [? [(Hz & -> & _)| ->]]; split; try done. by apply qids_empty.
Qed.

Lemma dev_destroy_full s index fid :
  rm_ok s → rm_full s → rm_full (qdma_dev_entry_destroy index fid s).
Proof.
  intros Hs Hf. pose proof Hf as [Hm _]. unfold qdma_dev_entry_destroy. find_function Hs.
  rewrite Hm.
  destruct (qdma_submit_to_free_list (entry d) (free_list r) []) as [[e' free'] m] eqn:Es.
  destruct (entry_none_or_empty _ _ _ _ _ _ _ (mo_lo r Hr) (mo_hi r Hr) (mo_free r Hr) He Hnd Es)
    as [-> He'].
  destruct (submit_step (rm_qbase r) (rm_end r) _ _ _ _ _ _ ltac:(by apply mo_lo)
    ltac:(destruct Hr; unfold rm_end; lia) (mo_hi r Hr) (mo_free r Hr) He Hnd Es)
    as (_ & _ & Hp & _).
  apply rm_full_set_master; [done|].
  eapply conserved_remove; [done|by eapply rm_full_master|done..].
Qed.

Lemma dev_update_full s index fid qmax qb :
  rm_ok s → rm_full s → request_ok qmax qb → rm_full (qdma_dev_update index fid qmax qb s).2.
Proof.
  intros Hs Hf Hop. pose proof Hf as [Hm _]. unfold qdma_dev_update. find_function Hs.
  rewrite Hm. destruct (_ || _ || _); [done|].
  destruct (qdma_request_q_resource (entry d) qmax qb (free_list r) [])
    as [[[rv e'] free'] m] eqn:Eq.
  destruct (request_nomem (rm_qbase r) (rm_end r) (entry d) qmax qb (free_list r) rv e' free' m)
    as (-> & Hp & _); try done; try (destruct Hr; unfold rm_end in *; lia || done).
  simpl. apply rm_full_set_master; [done|].
  eapply conserved_update; [done|by eapply rm_full_master|done].
Qed.

Lemma counter_full s index fid t :
  rm_ok s → rm_full s →
  rm_full (qdma_dev_increment_active_queue index fid t s).2 ∧
  rm_full (qdma_dev_decrement_active_queue index fid t s).2.
Proof.
  intros Hs Hf. pose proof Hf as [Hm _].
  unfold qdma_dev_increment_active_queue, qdma_dev_decrement_active_queue. find_function Hs.
  rewrite Hm. split; destruct (active_cnt d t) as [n|]; try done; simpl.
  - destruct (_ <? _); [done|]. apply rm_full_set_master; [done|].
    eapply conserved_counters; [done|by eapply rm_full_master|]. by destruct t.
  - apply rm_full_set_master; [done|].
    eapply conserved_counters; [done|by eapply rm_full_master|].
    destruct (n =? 0); [done|]. by destruct t.
  - apply rm_full_set_master; [done|].
    eapply conserved_counters; [done|by eapply rm_full_master|done].
Qed.

Lemma rm_exec_full s op : rm_ok s → rm_full s → op_ok op s → rm_full (rm_exec op s).
Proof.
  intros Hs Hf Hop. pose proof Hf as [Hm Hall].
  destruct op as [bs be qb tq|ix|ix fid|ix fid|ix fid qmax qb|ix fid t|ix fid t]; simpl.
  - unfold qdma_master_resource_create.
    destruct (qdma_find_master_resource_entry bs be s) as [[i r]|]; [done|].
    rewrite Hm. simpl. split; [done|]. simpl. apply Forall_app_2; [done|].
    apply Forall_singleton. unfold conserved, dev_ids, free_ids. simpl. by rewrite app_nil_r.
  - unfold qdma_master_resource_destroy. find_master Hs.
    destruct (dev_list r); [|done]. split; [done|]. simpl. by apply Forall_delete.
  - unfold qdma_dev_entry_create. find_master Hs.
    destruct (qdma_get_dev_entry ix fid s) as [[j d]|] eqn:Ed; [done|]. rewrite Hm. simpl.
    apply rm_full_set_master; [done|]. apply (rm_full_master _ _ _ _ Hf) in Er.
    unfold conserved in *. simpl. rewrite dev_ids_app.
    change (dev_ids [_]) with (@nil Z). by rewrite app_nil_r.
  - by apply dev_destroy_full.
  - by apply dev_update_full.
  - by apply counter_full.
  - by apply counter_full.
Qed.

Lemma reachable_full s : reachable [] s → rm_full s.
Proof.
  induction 1 as [|s s' Hre IH Hstep]; [done|]. destruct Hstep.
  apply rm_exec_full; [by eapply reachable_ok|done..].
Qed.

(** ** A concrete manager

    One device with 2048 queues and three functions, the first two of them
    with a range; used to show that the hypotheses below can hold. *)

Definition demo_ops : list rm_op :=
  [OpCreate 5 5 0 2048; OpDevCreate 0 0; OpDevCreate 0 1; OpDevCreate 0 2;
   OpDevUpdate 0 0 8 (-1); OpDevUpdate 0 1 16 32; OpIncrement 0 1 QDMA_DEV_Q_TYPE_H2C].

Definition rm_exec_all (ops : list rm_op) (s : rm_state) : rm_state :=
  fold_left (λ s op, rm_exec op s) ops s.

Definition demo : rm_state := Eval vm_compute in rm_exec_all demo_ops (rm_init []).
Definition demo_master : qdma_resource_master :=
  Eval vm_compute in default (mk_master 0 0 0 0 0 [] [] 0) (head (master_resource_list demo)).

Lemma reachable_exec m s op : reachable m s → op_ok op s → reachable m (rm_exec op s).
Proof. intros Hs Hop. eapply reachable_step; [done|by constructor]. Qed.

Ltac op_ok_compute :=
  simpl; unfold request_ok, INT_MAX, UINT_MAX; first [done | lia | split_and!; lia].

Lemma demo_reachable : reachable [] demo.
Proof.
  change demo with (rm_exec_all demo_ops (rm_init [])). unfold demo_ops, rm_exec_all. cbn [fold_left].
  repeat (apply reachable_exec; [|op_ok_compute]). apply reachable_init.
Qed.

(** ** Safety *)

Lemma master_ok_apart r j k d d' x :
  master_ok r → j ≠ k → dev_list r !! j = Some d → dev_list r !! k = Some d' →
  x ∈ qids (entry d) → x ∉ qids (entry d').
Proof.
  intros Hr Hjk Hj Hk Hx Hx'. pose proof (mo_disjoint r Hr) as Hnd.
  rewrite (dev_ids_middle _ _ _ Hj), <- app_assoc in Hnd.
  apply NoDup_app in Hnd as (_ & Hd & _). apply (Hd x Hx). apply elem_of_app. left.
  apply list_elem_of_bind. exists d'. split; [done|].
  rewrite delete_take_drop. apply elem_of_app.
  destruct (decide (k < j)%nat) as [?|?].
  - left. apply list_elem_of_lookup. exists k. by rewrite lookup_take_lt.
  - right. apply list_elem_of_lookup. exists (k - S j)%nat. rewrite lookup_drop.
    by replace (S j + (k - S j))%nat with k by lia.
Qed.

(** C1. Isolation: in every state the interface can reach, whatever
    allocations failed on the way, a queue id of a function lies in the range
    of its master, is not in the free list and belongs to no other function;
    function ids are unique and no function has more active queues of a type
    than queues. *)
Theorem rm_reachable_isolated m s i r :
  reachable m s → master_resource_list s !! i = Some r →
  (∀ j d x, dev_list r !! j = Some d → x ∈ qids (entry d) →
    rm_qbase r <= x < rm_end r ∧ x ∉ free_ids (free_list r) ∧
    ∀ k d', j ≠ k → dev_list r !! k = Some d' → x ∉ qids (entry d')) ∧
  NoDup (func_id <$> dev_list r) ∧ Forall counters_ok (dev_list r).
Proof.
  intros Hs%reachable_ok Hi. pose proof (Forall_lookup_1 _ _ _ _ (ro_masters s Hs) Hi) as Hr.
  split_and!; [|by apply mo_funcs|].
  - intros j d x Hj Hx. destruct (master_own _ _ _ Hr Hj) as [[He _] Hnd]. split_and!.
    + destruct He as [[Hz _]|?]; [by rewrite (qids_empty _ Hz) in Hx; apply elem_of_nil in Hx|].
      apply elem_of_qids in Hx. lia.
    + destruct He as [[Hz _]|?]; [by rewrite (qids_empty _ Hz) in Hx; apply elem_of_nil in Hx|].
      apply elem_of_qids in Hx. lia.
    + apply NoDup_app in Hnd as (_ & Hd & _). by apply Hd.
    + intros k d' ??. by eapply master_ok_apart.
  - eapply Forall_impl; [by apply mo_devs|]. by intros ? [].
Qed.

Lemma rm_reachable_isolated_witness :
  NoDup (func_id <$> dev_list demo_master) ∧ Forall counters_ok (dev_list demo_master).
Proof. apply (rm_reachable_isolated [] demo 0%nat demo_master demo_reachable eq_refl). Defined.

(** C25. Conservation: as long as no allocation fails, the ranges of the
    functions and the free ranges of a master together are exactly the queue
    ids it was created with, each once. *)
Theorem rm_reachable_conserved s i r :
  reachable [] s → master_resource_list s !! i = Some r →
  dev_ids (dev_list r) ++ free_ids (free_list r) ≡ₚ seqZ (rm_qbase r) (rm_total_q r).
Proof. intros [_ Hf]%reachable_full Hi. exact (Forall_lookup_1 _ _ _ _ Hf Hi). Qed.

Lemma rm_reachable_conserved_witness :
  dev_ids (dev_list demo_master) ++ free_ids (free_list demo_master) ≡ₚ seqZ 0 2048.
Proof. apply (rm_reachable_conserved demo 0%nat demo_master demo_reachable eq_refl). Defined.

(** ** Resizing a function *)

(** C23. [qdma_dev_update] on a function without active queues, no allocation
    failing, and the function owning queues or the free list coalesced: it
    gives the function a range of exactly [qmax] queues, or reports
    QDMA_ERR_RM_NO_QUEUES_LEFT, leaves the range of a function that owned
    queues as it was, and does so only when no [qmax] consecutive queues
    exist among the function's and the free ones.  The other functions are
    untouched, and no queue is lost. *)
Theorem qdma_dev_update_spec s index fid qmax qb i r j d rv b s' :
  rm_ok s → rm_mem s = [] → request_ok qmax qb →
  qdma_get_master_resource_entry index s = Some (i, r) →
  qdma_get_dev_entry index fid s = Some (j, d) →
  active_h2c_qcnt d = 0 → active_c2h_qcnt d = 0 → active_cmpt_qcnt d = 0 →
  0 < total_q (entry d) ∨ ranges 1 (rm_qbase r) (rm_end r) (free_list r) →
  qdma_dev_update index fid qmax qb s = (rv, b, s') →
  ∃ e' free',
    s' = set_master i (set_lists (<[j := set_entry e' d]> (dev_list r)) free' r) [] s ∧
    b = qbase e' ∧
    qids e' ++ free_ids free' ≡ₚ qids (entry d) ++ free_ids (free_list r) ∧
    (rv = QDMA_SUCCESS ∧ total_q e' = qmax ∧ ranges 1 (rm_qbase r) (rm_end r) free' ∨
     rv = ERR QDMA_ERR_RM_NO_QUEUES_LEFT ∧ 0 < qmax ∧ (0 < total_q (entry d) → e' = entry d) ∧
     ∀ b, ¬ (∀ x, b <= x < b + qmax → x ∈ qids (entry d) ++ free_ids (free_list r))).
Proof.
  intros Hs Hm Hq Er Ed H1 H2 H3 Hc. destruct (rm_ok_master _ _ _ _ Hs Er) as [Hi Hr].
  destruct (get_dev_Some _ _ _ _ _ _ _ Er Ed) as [Hj _].
  destruct (master_own _ _ _ Hr Hj) as [[He _] Hnd].
  unfold qdma_dev_update. rewrite Er, Ed, H1, H2, H3, Hm. simpl.
  destruct (qdma_request_q_resource (entry d) qmax qb (free_list r) [])
    as [[[rv' e'] free'] m] eqn:Eq. intros [= <- <- <-].
  destruct (request_nomem (rm_qbase r) (rm_end r) (entry d) qmax qb (free_list r) rv' e' free' m)
    as (-> & Hp & Hres); try done; try (destruct Hr; unfold rm_end in *; lia || done).
  exists e', free'. split_and!; [done..|]. destruct (Hres Hc) as [?|(? & ? & Hb & ?)]; [by left|].
  right. split_and!; try done. intros Hpos. by apply (Hb Hpos).
Qed.

Lemma qdma_dev_update_spec_witness :
  ∃ e' free',
    (qdma_dev_update 0 0 64 (-1) demo).2 =
      set_master 0 (set_lists (<[0%nat := set_entry e' (mk_dev 0 0 0 0 (mk_entry 0 8))]>
        (dev_list demo_master)) free' demo_master) [] demo ∧
    qbase e' = 48 ∧ total_q e' = 64.
Proof.
  destruct (qdma_dev_update_spec demo 0 0 64 (-1) 0 demo_master 0 (mk_dev 0 0 0 0 (mk_entry 0 8))
    0 48 (qdma_dev_update 0 0 64 (-1) demo).2) as (e' & free' & Hs & Hb & _ & Hrv).
  1: exact (reachable_ok _ _ demo_reachable).
  1: reflexivity.
  1: op_ok_compute.
  1-5: reflexivity.
  1: left; reflexivity.
  1: reflexivity.
  exists e', free'. split; [exact Hs|]. split; [by symmetry|].
  destruct Hrv as [(_ & Ht & _)|(Hrv & _)]; [exact Ht|discriminate Hrv].
Defined.

(** A function with an active queue of any type is not resized: the call
    returns QDMA_ERR_RM_QMAX_CONF_REJECTED and changes nothing. *)
Theorem qdma_dev_update_rejects_active s index fid qmax qb i r j d :
  qdma_get_master_resource_entry index s = Some (i, r) →
  qdma_get_dev_entry index fid s = Some (j, d) →
  active_h2c_qcnt d ≠ 0 ∨ active_c2h_qcnt d ≠ 0 ∨ active_cmpt_qcnt d ≠ 0 →
  qdma_dev_update index fid qmax qb s = (ERR QDMA_ERR_RM_QMAX_CONF_REJECTED, qb, s).
Proof.
  intros Er Ed Ha. unfold qdma_dev_update. rewrite Er, Ed.
  destruct (Z.eqb_spec (active_h2c_qcnt d) 0); simpl; [|done].
  destruct (Z.eqb_spec (active_c2h_qcnt d) 0); simpl; [|done].
  destruct (Z.eqb_spec (active_cmpt_qcnt d) 0); simpl; [|done]. tauto.
Qed.

Lemma qdma_dev_update_rejects_active_witness :
  qdma_dev_update 0 1 4 (-1) demo = (ERR QDMA_ERR_RM_QMAX_CONF_REJECTED, -1, demo).
Proof.
  apply (qdma_dev_update_rejects_active demo 0 1 4 (-1) 0 demo_master 1
           (mk_dev 1 1 0 0 (mk_entry 32 16))); [reflexivity..|]. left. discriminate.
Defined.

(** ** Queries *)

(** [qdma_dev_is_queue_in_range] answers "in range" for exactly the queue
    ids of the function's current range, although it compares a signed base
    with an unsigned id and an unsigned end. *)
Theorem qdma_dev_is_queue_in_range_spec m s index fid qid_hw :
  reachable m s → is_u 32 qid_hw →
  qdma_dev_is_queue_in_range index fid qid_hw s = QDMA_DEV_Q_IN_RANGE ↔
  ∃ i r j d, qdma_get_master_resource_entry index s = Some (i, r) ∧
    qdma_get_dev_entry index fid s = Some (j, d) ∧ qid_hw ∈ qids (entry d).
Proof.
  intros Hs%reachable_ok Hq. unfold is_u in Hq. change (2 ^ 32) with 4294967296 in Hq.
  unfold qdma_dev_is_queue_in_range.
  destruct (qdma_get_master_resource_entry index s) as [[i r]|] eqn:Er; [|naive_solver].
  destruct (rm_ok_master _ _ _ _ Hs Er) as [Hi Hr].
  destruct (qdma_get_dev_entry index fid s) as [[j d]|] eqn:Ed; [|naive_solver].
  destruct (get_dev_Some _ _ _ _ _ _ _ Er Ed) as [Hj _].
  destruct (master_own _ _ _ Hr Hj) as [[He _] _].
  trans (qid_hw ∈ qids (entry d)); [|naive_solver]. rewrite elem_of_qids.
  pose proof (mo_lo r Hr). pose proof (mo_hi r Hr). unfold INT_MAX, entry_ok in *.
  destruct (Z.eqb_spec (total_q (entry d)) 0) as [Hz|Hz]; simpl; [split; [done|lia]|].
  rewrite u32_small by lia. destruct (Z.ltb_spec qid_hw (qbase (entry d) + total_q (entry d)));
    simpl; [|split; [done|lia]].
  rewrite s32_small by lia. destruct (Z.geb_spec qid_hw (qbase (entry d)));
    split; done || lia.
Qed.

Lemma qdma_dev_is_queue_in_range_witness :
  ∃ i r j d, qdma_get_master_resource_entry 0 demo = Some (i, r) ∧
    qdma_get_dev_entry 0 1 demo = Some (j, d) ∧ 47 ∈ qids (entry d).
Proof.
  apply (qdma_dev_is_queue_in_range_spec [] demo 0 1 47 demo_reachable).
  1: unfold is_u; lia.
  reflexivity.
Defined.

(** Best fit: without a requested base the range is cut from the start of
    a free node that is large enough and no larger than any other free node
    that is; the request finds a node whenever one is large enough. *)
Theorem qdma_get_resource_node_best_fit qmax free :
  match choose_node qmax (-1) free with
  | Some (i, node, b) =>
      free !! i = Some node ∧ b = qbase node ∧ qmax <= total_q node ∧
      ∀ n, n ∈ free → qmax <= total_q n → total_q node <= total_q n
  | None => ∀ n, n ∈ free → total_q n < qmax
  end.
Proof.
  unfold choose_node. simpl. pose proof (find_best_fit_spec qmax free O None) as Hb.
  destruct (find_best_fit qmax free O None) as [[j n]|]; [|by destruct Hb].
  destruct Hb as ([?|(_ & Hj & Hn)] & Hmin & _); [done|]. rewrite Nat.sub_0_r in Hj. done.
Qed.

(** ** Refinement of an ownership specification

    The contract of the manager without its data structure: a pool of free
    queue ids and the set each function owns. *)

Record ownership := mk_ownership { pool : gset Z; own : gmap Z (gset Z) }.

Inductive ownership_step : ownership → ownership → Prop :=
  | own_join p o f : o !! f = None → ownership_step (mk_ownership p o) (mk_ownership p (<[f := ∅]> o))
  | own_leave p o f S :
      o !! f = Some S → ownership_step (mk_ownership p o) (mk_ownership (p ∪ S) (delete f o))
  | own_resize p o f S S' :
      o !! f = Some S → S' ⊆ p ∪ S →
      ownership_step (mk_ownership p o) (mk_ownership ((p ∪ S) ∖ S') (<[f := S']> o)).

Definition owned (d : qdma_dev_entry) : Z * gset Z := (func_id d, list_to_set (qids (entry d))).

(** The specification state a master stands for. *)
Definition abs (r : qdma_resource_master) : ownership :=
  mk_ownership (list_to_set (free_ids (free_list r)))
    (list_to_map (owned <$> dev_list r)).

Lemma owned_fst l : (owned <$> l).*1 = func_id <$> l.
Proof. rewrite <- list_fmap_compose. done. Qed.

Lemma abs_own r j d :
  NoDup (func_id <$> dev_list r) → dev_list r !! j = Some d →
  own (abs r) = <[func_id d := (owned d).2]> (list_to_map (owned <$> delete j (dev_list r))) ∧
  (list_to_map (owned <$> delete j (dev_list r)) : gmap Z (gset Z)) !! func_id d = None.
Proof.
  intros Hnd Hj. pose proof (delete_Permutation _ _ _ Hj) as Hp. split.
  - simpl. rewrite (list_to_map_proper _ (owned d :: (owned <$> delete j (dev_list r)))); [done|..].
    + by rewrite owned_fst.
    + rewrite Hp at 1. done.
  - apply not_elem_of_list_to_map_1. rewrite owned_fst. rewrite Hp in Hnd.
    by apply NoDup_cons in Hnd as [? _].
Qed.

Lemma abs_own_update r j d d' :
  NoDup (func_id <$> dev_list r) → dev_list r !! j = Some d → func_id d' = func_id d →
  (list_to_map (owned <$> <[j := d']> (dev_list r)) : gmap Z (gset Z)) =
  <[func_id d := (owned d').2]> (own (abs r)).
Proof.
  intros Hnd Hj Hf. set (r' := set_lists (<[j := d']> (dev_list r)) [] r).
  assert (dev_list r' !! j = Some d') as Hj'.
  { apply list_lookup_insert_eq. by eapply lookup_lt_Some. }
  assert (NoDup (func_id <$> dev_list r')) as Hnd'.
  { simpl. by rewrite list_fmap_insert, list_insert_id by (by rewrite list_lookup_fmap, Hj, Hf). }
  change (own (abs r') = <[func_id d := (owned d').2]> (own (abs r))).
  destruct (abs_own r j d Hnd Hj) as [-> _], (abs_own r' j d' Hnd' Hj') as [-> _].
  rewrite Hf, insert_insert_eq. simpl.
  by rewrite !delete_take_drop, take_insert_ge, drop_insert_lt by lia.
Qed.

Definition refines (r r' : qdma_resource_master) : Prop :=
  abs r' = abs r ∨ ownership_step (abs r) (abs r').

Lemma refines_join r fid :
  NoDup (func_id <$> dev_list r) → fid ∉ func_id <$> dev_list r →
  refines r (set_lists (dev_list r ++ [mk_dev fid 0 0 0 (mk_entry (-1) 0)]) (free_list r) r).
Proof.
  intros Hnd Hn. right. unfold abs. simpl.
  set (d := mk_dev fid 0 0 0 (mk_entry (-1) 0)).
  rewrite (list_to_map_proper (owned <$> dev_list r ++ [d]) (owned d :: (owned <$> dev_list r))).
  - apply (own_join _ _ fid). apply not_elem_of_list_to_map_1. by rewrite owned_fst.
  - rewrite owned_fst, fmap_app, NoDup_app. split_and!; [done| |apply NoDup_singleton].
    by intros x Hx ->%list_elem_of_singleton.
  - rewrite fmap_app. simpl. by rewrite Permutation_app_comm.
Qed.

Lemma refines_leave r j d free' :
  NoDup (func_id <$> dev_list r) → dev_list r !! j = Some d →
  free_ids free' ≡ₚ qids (entry d) ++ free_ids (free_list r) →
  refines r (set_lists (delete j (dev_list r)) free' r).
Proof.
  intros Hnd Hj Hp. right. destruct (abs_own _ _ _ Hnd Hj) as [Ho Hn]. unfold abs. simpl in *.
  rewrite Ho. revert Hn. generalize (list_to_map (owned <$> delete j (dev_list r)) : gmap Z (gset Z)).
  intros o Hn.
  assert (list_to_set (free_ids free') =
          (list_to_set (free_ids (free_list r)) ∪ list_to_set (qids (entry d)) : gset Z)) as ->.
  { rewrite Hp. rewrite list_to_set_app_L. set_solver. }
  pose proof (own_leave (list_to_set (free_ids (free_list r))) _ _ _
    (lookup_insert_eq o (func_id d) (list_to_set (qids (entry d))))) as Hl.
  by rewrite delete_insert_id in Hl by done.
Qed.

Lemma refines_resize r j d e' free' :
  NoDup (func_id <$> dev_list r) → dev_list r !! j = Some d →
  NoDup (qids (entry d) ++ free_ids (free_list r)) →
  qids e' ++ free_ids free' ≡ₚ qids (entry d) ++ free_ids (free_list r) →
  refines r (set_lists (<[j := set_entry e' d]> (dev_list r)) free' r).
Proof.
  intros Hnd Hj Hids Hp. right. rewrite <- Hp in Hids. apply NoDup_app in Hids as (_ & Hdis & _).
  assert (∀ x, x ∈ qids e' ∨ x ∈ free_ids free' ↔ x ∈ qids (entry d) ∨ x ∈ free_ids (free_list r))
    as Hx by (intros x; rewrite <- !elem_of_app, Hp; done).
  unfold abs at 2. simpl. rewrite (abs_own_update _ _ d) by done. simpl.
  assert (list_to_set (free_ids free') =
    (pool (abs r) ∪ list_to_set (qids (entry d))) ∖ list_to_set (qids e')) as ->.
  { apply set_eq. intros x. simpl.
    rewrite elem_of_difference, elem_of_union, !elem_of_list_to_set. naive_solver. }
  destruct (abs_own _ _ _ Hnd Hj) as [Ho _]. unfold abs in *. simpl in *.
  apply (own_resize _ _ (func_id d) (list_to_set (qids (entry d)))).
  - rewrite Ho. by rewrite lookup_insert_eq.
  - intros x. rewrite elem_of_union, !elem_of_list_to_set. naive_solver.
Qed.

Lemma refines_counters r j d d' n :
  dev_list r !! j = Some d → entry d' = entry d → func_id d' = func_id d →
  refines r (set_active (<[j := d']> (dev_list r)) n r).
Proof.
  intros Hj He Hf. left. unfold abs. simpl. f_equal.
  rewrite list_fmap_insert, list_insert_id; [done|].
  rewrite list_lookup_fmap, Hj. unfold owned. simpl. by rewrite He, Hf.
Qed.

(** Every operation replaces at most one master. *)
Lemma refines_set_master s i0 r0 r0' m i r :
  master_resource_list s !! i0 = Some r0 → master_resource_list s !! i = Some r →
  refines r0 r0' →
  ∃ r', master_resource_list (set_master i0 r0' m s) !! i = Some r' ∧ refines r r'.
Proof.
  intros H0 Hi Href. simpl. destruct (decide (i0 = i)) as [->|Hne].
  - simplify_eq. exists r0'. rewrite list_lookup_insert_eq by (by eapply lookup_lt_Some). done.
  - exists r. rewrite list_lookup_insert_ne by done. split; [done|by left].
Qed.

(** The master at position [i], before and after. *)
Definition refines_at (i : nat) (r : qdma_resource_master) (s' : rm_state) : Prop :=
  ∃ r', master_resource_list s' !! i = Some r' ∧ refines r r'.

Lemma refines_at_same s i r : master_resource_list s !! i = Some r → refines_at i r s.
Proof. intros. exists r. split; [done|by left]. Qed.

Section refinement.
Context (s : rm_state) (k : nat) (r1 : qdma_resource_master).
Context (Hs : rm_ok s) (Hm : rm_mem s = []) (Hk : master_resource_list s !! k = Some r1).

Lemma create_refines bs be qb tq :
  refines_at k r1 (qdma_master_resource_create bs be qb tq s).2.
Proof using Hm Hk.
  unfold qdma_master_resource_create. rewrite Hm.
  destruct (qdma_find_master_resource_entry bs be s) as [[i x]|]; [by apply refines_at_same|].
  exists r1. simpl. split; [|by left]. by rewrite lookup_app_l by (by eapply lookup_lt_Some).
Qed.

Lemma dev_create_refines ix fid : refines_at k r1 (qdma_dev_entry_create ix fid s).2.
Proof using Hs Hm Hk.
  pose proof (refines_at_same _ _ _ Hk). unfold qdma_dev_entry_create. find_master Hs.
  destruct (qdma_get_dev_entry ix fid s) as [[j d]|] eqn:Ed; [done|]. rewrite Hm.
  eapply refines_set_master; [done..|].
  apply refines_join; [by apply mo_funcs|by eapply get_dev_None].
Qed.

Lemma dev_destroy_refines ix fid : refines_at k r1 (qdma_dev_entry_destroy ix fid s).
Proof using Hs Hm Hk.
  pose proof (refines_at_same _ _ _ Hk). unfold qdma_dev_entry_destroy. find_function Hs.
  rewrite Hm.
  destruct (qdma_submit_to_free_list (entry d) (free_list r) []) as [[e' free'] m] eqn:Es.
  destruct (entry_none_or_empty _ _ _ _ _ _ _ (mo_lo r Hr) (mo_hi r Hr) (mo_free r Hr) He Hnd Es)
    as [-> He'].
  destruct (submit_step (rm_qbase r) (rm_end r) _ _ _ _ _ _ ltac:(by apply mo_lo)
    ltac:(destruct Hr; unfold rm_end; lia) (mo_hi r Hr) (mo_free r Hr) He Hnd Es)
    as (_ & _ & Hp & _). rewrite He' in Hp.
  eapply refines_set_master; [done..|]. by eapply refines_leave; [apply mo_funcs| |].
Qed.

Lemma dev_update_refines ix fid qmax qb :
  request_ok qmax qb → refines_at k r1 (qdma_dev_update ix fid qmax qb s).2.
Proof using Hs Hm Hk.
  intros Hq. pose proof (refines_at_same _ _ _ Hk). unfold qdma_dev_update. find_function Hs.
  rewrite Hm. destruct (_ || _ || _); [done|].
  destruct (qdma_request_q_resource (entry d) qmax qb (free_list r) [])
    as [[[rv e'] free'] m] eqn:Eq.
  destruct (request_nomem (rm_qbase r) (rm_end r) (entry d) qmax qb (free_list r) rv e' free' m)
    as (-> & Hp & _); try done; try (destruct Hr; unfold rm_end in *; lia || done).
  eapply refines_set_master; [done..|]. by apply refines_resize; [apply mo_funcs|..].
Qed.

Lemma counter_refines ix fid t :
  refines_at k r1 (qdma_dev_increment_active_queue ix fid t s).2 ∧
  refines_at k r1 (qdma_dev_decrement_active_queue ix fid t s).2.
Proof using Hs Hk.
  pose proof (refines_at_same _ _ _ Hk).
  unfold qdma_dev_increment_active_queue, qdma_dev_decrement_active_queue. find_function Hs.
  split; destruct (active_cnt d t) as [n|]; try done; simpl; try destruct (_ <? _); try done;
    (eapply refines_set_master; [done..|]); apply (refines_counters _ _ d);
    try done; try destruct (n =? 0); by try destruct t.
Qed.
End refinement.

(** C12. Refinement: every operation of the interface (destroying a whole
    master apart), no allocation failing, acts on each master as a step of
    the ownership specification: a function joins with no queues, leaves and
    returns its queues to the pool, or exchanges its set for another one
    taken from the pool and its own queues; or nothing changes. *)
Theorem rm_refines_ownership s op i r :
  rm_ok s → rm_mem s = [] → op_ok op s → (∀ index, op ≠ OpDestroy index) →
  master_resource_list s !! i = Some r →
  ∃ r', master_resource_list (rm_exec op s) !! i = Some r' ∧
    (abs r' = abs r ∨ ownership_step (abs r) (abs r')).
Proof.
  intros Hs Hm Hop Hnd Hi. destruct op; simpl.
  - by apply create_refines.
  - by edestruct Hnd.
  - by apply dev_create_refines.
  - by apply dev_destroy_refines.
  - by apply dev_update_refines.
  - by apply counter_refines.
  - by apply counter_refines.
Qed.

Lemma rm_refines_ownership_witness :
  ∃ r', master_resource_list (rm_exec (OpDevUpdate 0 0 64 (-1)) demo) !! 0%nat = Some r' ∧
    (abs r' = abs demo_master ∨ ownership_step (abs demo_master) (abs r')).
Proof.
  apply (rm_refines_ownership demo (OpDevUpdate 0 0 64 (-1)) 0 demo_master).
  1: exact (reachable_ok _ _ demo_reachable).
  1: reflexivity.
  1: op_ok_compute.
  1: discriminate.
  reflexivity.
Defined.

(** ** Active-queue counters *)

Lemma set_master_twice s i r r' m :
  master_resource_list s !! i = Some r → rm_mem s = m →
  set_master i r m (set_master i r' m s) = s.
Proof.
  intros Hi <-. unfold set_master. simpl. rewrite list_insert_insert_eq, list_insert_id by done.
  by destruct s.
Qed.

Lemma set_active_cnt_back d t n k :
  active_cnt d t = Some n → set_active_cnt t n (set_active_cnt t k d) = d.
Proof. destruct d, t; simpl; by intros [= <-]. Qed.

Lemma active_cnt_set d t n k :
  active_cnt d t = Some n → active_cnt (set_active_cnt t k d) t = Some k.
Proof. by destruct t. Qed.

(** A queue is counted once: starting a queue of a function adds one to
    the count of the device, and stopping it again gives back the exact state
    before, the counters of the function and of the master included. *)
Theorem qdma_dev_active_queue_roundtrip m s index fid t i r s1 :
  reachable m s → qdma_get_master_resource_entry index s = Some (i, r) →
  0 <= active_qcnt r < UINT_MAX →
  qdma_dev_increment_active_queue index fid t s = (QDMA_SUCCESS, s1) →
  qdma_get_active_queue_count index s1 = qdma_get_active_queue_count index s + 1 ∧
  qdma_dev_decrement_active_queue index fid t s1 = (QDMA_SUCCESS, s).
Proof.
  intros Hs%reachable_ok Er Ha Hinc. pose proof (increment_ok s index fid t Hs) as Hs1.
  rewrite Hinc in Hs1. simpl in Hs1. revert Hinc. unfold qdma_dev_increment_active_queue.
  unfold qdma_get_active_queue_count at 2. rewrite Er.
  destruct (qdma_get_dev_entry index fid s) as [[j d]|] eqn:Ed; [|done].
  destruct (active_cnt d t) as [n|] eqn:En; [|done]. destruct (_ <? _); [done|].
  destruct (rm_ok_master _ _ _ _ Hs Er) as [Hi Hr].
  destruct (get_dev_Some _ _ _ _ _ _ _ Er Ed) as [Hj Hfid].
  destruct (master_own _ _ _ Hr Hj) as [[He Hc] _].
  pose proof (active_cnt_bound _ _ _ Hc En) as Hn.
  pose proof (entry_ok_int _ _ _ (mo_lo r Hr) (mo_hi r Hr) He) as Hmax.
  unfold INT_MAX, UINT_MAX in *. rewrite !u32_small by lia.
  set (d1 := set_active_cnt t (n + 1) d). set (r1 := set_active _ _ r). intros [= <-].
  assert (qdma_get_master_resource_entry index (set_master i r1 (rm_mem s) s) = Some (i, r1)) as Er1.
  { rewrite <- (proj2 (get_master_Some _ _ _ _ Er)).
    apply (get_master_key _ i r1 Hs1). apply list_lookup_insert_eq. by eapply lookup_lt_Some. }
  assert (dev_list r1 !! j = Some d1) as Hj1.
  { apply list_lookup_insert_eq. by eapply lookup_lt_Some. }
  pose proof (get_dev_key _ _ _ _ _ _ Hs1 Er1 Hj1) as Ed1.
  replace (func_id d1) with fid in Ed1 by (rewrite <- Hfid; by destruct t).
  unfold qdma_get_active_queue_count, qdma_dev_decrement_active_queue. rewrite Er1, Ed1.
  rewrite (active_cnt_set d t n (n + 1) En : active_cnt d1 t = _). split; [done|].
  replace (n + 1 =? 0) with false by lia. rewrite Z.add_simpl_r, !u32_small by (simpl; lia).
  unfold d1. rewrite set_active_cnt_back by done. f_equal. simpl. rewrite Z.add_simpl_r.
  rewrite list_insert_insert_eq, list_insert_id by done. unfold r1. simpl.
  replace (set_active _ _ (set_active _ _ r)) with r by (by destruct r).
  by apply set_master_twice.
Qed.

Lemma qdma_dev_active_queue_roundtrip_witness :
  qdma_get_active_queue_count 0
    (qdma_dev_increment_active_queue 0 0 QDMA_DEV_Q_TYPE_CMPT demo).2 = 1 + 1 ∧
  qdma_dev_decrement_active_queue 0 0 QDMA_DEV_Q_TYPE_CMPT
    (qdma_dev_increment_active_queue 0 0 QDMA_DEV_Q_TYPE_CMPT demo).2 = (QDMA_SUCCESS, demo).
Proof.
  apply (qdma_dev_active_queue_roundtrip [] demo 0 0 QDMA_DEV_Q_TYPE_CMPT 0 demo_master).
  1: exact demo_reachable.
  1: reflexivity.
  1: simpl; unfold UINT_MAX; lia.
  reflexivity.
Defined.

(** ** Where the code departs from what its clients expect *)

(** Stopping a queue a function does not have leaves the function's
    counter at zero, yet it takes one off the count of the device, here from
    0 to 2^32 - 1. *)
Theorem qdma_dev_decrement_underflows :
  let s := rm_exec_all [OpCreate 5 5 0 2048; OpDevCreate 0 0; OpDevUpdate 0 0 8 (-1)] (rm_init []) in
  let '(rv, s') := qdma_dev_decrement_active_queue 0 0 QDMA_DEV_Q_TYPE_H2C s in
  qdma_get_active_queue_count 0 s = 0 ∧ rv = QDMA_SUCCESS ∧
  qdma_get_device_active_queue_count 0 0 QDMA_DEV_Q_TYPE_H2C s' = 0 ∧
  qdma_get_active_queue_count 0 s' = UINT_MAX.
Proof. vm_compute. done. Qed.

(** A request whose end [qbase + qmax] wraps at 2^32 is granted although
    the device has 2048 queues: the free list overlaps itself afterwards, and
    two further functions are both given queues 14 to 17. *)
Theorem qdma_dev_update_overflow :
  let s := rm_exec_all [OpCreate 5 5 0 2048; OpDevCreate 0 1; OpDevCreate 0 2; OpDevCreate 0 3]
             (rm_init []) in
  let '(rv1, b1, s) := qdma_dev_update 0 1 4294967290 20 s in
  let '(rv2, b2, s) := qdma_dev_update 0 2 4 14 s in
  let '(rv3, b3, s) := qdma_dev_update 0 3 4 14 s in
  (rv1, b1) = (QDMA_SUCCESS, 20) ∧ (rv2, b2) = (QDMA_SUCCESS, 14) ∧ (rv3, b3) = (QDMA_SUCCESS, 14).
Proof. vm_compute. done. Qed.

(** Two failed requests of a function that owns no queues leave a free
    list with two adjacent nodes, which nothing merges: a request for all
    2048 queues then fails although all 2048 are free. *)
Theorem qdma_dev_update_fragments :
  let s := rm_exec_all [OpCreate 5 5 0 2048; OpDevCreate 0 1; OpDevCreate 0 2;
             OpDevUpdate 0 1 8 (-1); OpDevUpdate 0 2 4096 (-1); OpDevUpdate 0 1 0 (-1);
             OpDevUpdate 0 2 4096 (-1)] (rm_init []) in
  (free_list <$> master_resource_list s) = [[mk_entry 0 8; mk_entry 8 2040]] ∧
  (qdma_dev_update 0 1 2048 (-1) s).1.1 = ERR QDMA_ERR_RM_NO_QUEUES_LEFT.
Proof. vm_compute. done. Qed.
