(* ===== verification/ResMgmtFrame.v ===== *)
(** * Operations of one function do not affect another

    The operations a function can cause leave the entry of every other
    function, and of every function of another device, as it is: its queue
    range and its counters.  No hypothesis on the arguments or on the state is
    needed. *)

From S2P Require Import Prelude Platform ResMgmt FreeList ResMgmtInv.

(** The entry of a function. *)
Definition dev_of (index fid : Z) (s : rm_state) : option qdma_dev_entry :=
  snd <$> qdma_get_dev_entry index fid s.

(** The operations on behalf of one function. *)
Definition op_of_function (index fid : Z) (op : rm_op) : Prop :=
  match op with
  | OpCreate _ _ _ _ | OpDestroy _ => False
  | OpDevCreate i f | OpDevDestroy i f | OpDevUpdate i f _ _
  | OpIncrement i f _ | OpDecrement i f _ => i = index ∧ f = fid
  end.

Lemma find_first_head {A} (p : A → bool) (l : list A) :
  snd <$> find_first p l = head (filter (λ x, p x = true) l).
Proof.
  induction l as [|x l IH]; [done|]. cbn [find_first]. rewrite filter_cons.
  destruct (p x) eqn:E; [by rewrite decide_True|]. rewrite decide_False by congruence.
  rewrite <- IH. by destruct (find_first p l).
Qed.

Section updates.
Context {A : Type} (p : A → bool) (l : list A) (i : nat) (x : A).
Context (Hx : l !! i = Some x) (Hp : p x = false).

Lemma filter_delete_other : filter (λ y, p y = true) (delete i l) = filter (λ y, p y = true) l.
Proof using Hx Hp.
  rewrite <- (take_drop_middle l i x) at 2 by done.
  rewrite delete_take_drop, !filter_app, filter_cons_False by congruence. done.
Qed.

Lemma filter_insert_other x' :
  p x' = false → filter (λ y, p y = true) (<[i := x']> l) = filter (λ y, p y = true) l.
Proof using Hx Hp.
  intros Hp'. rewrite insert_take_drop by (by eapply lookup_lt_Some).
  rewrite <- (take_drop_middle l i x) at 3 by done.
  by rewrite !filter_app, !filter_cons_False by congruence.
Qed.
End updates.

Lemma find_first_insert {A} (p : A → bool) (l : list A) i x x' :
  find_first p l = Some (i, x) → p x' = true → find_first p (<[i := x']> l) = Some (i, x').
Proof.
  intros Hf Hp. revert i Hf. induction l as [|y l IH]; intros i; cbn [find_first]; [done|].
  destruct (p y) eqn:E.
  - intros [= <- <-]. cbn. by rewrite Hp.
  - destruct (find_first p l) as [[j z]|] eqn:Ej; [|done]. intros [= <- <-].
    change (<[S j := x']> (y :: l)) with (y :: <[j := x']> l). cbn [find_first].
    by rewrite E, (IH j eq_refl).
Qed.

(** The entry of a function after a master was replaced. *)
Lemma dev_of_set_master index fid s i r r' m index' fid' :
  qdma_get_master_resource_entry index s = Some (i, r) →
  dma_device_index r' = dma_device_index r →
  (fid' ≠ fid → filter (λ d, (func_id d =? fid') = true) (dev_list r') =
                filter (λ d, (func_id d =? fid') = true) (dev_list r)) →
  (index', fid') ≠ (index, fid) →
  dev_of index' fid' (set_master i r' m s) = dev_of index' fid' s.
Proof.
  intros Hr Hi Hd Hne. destruct (get_master_Some _ _ _ _ Hr) as [Hl Hix].
  unfold dev_of, qdma_get_dev_entry. destruct (decide (index' = index)) as [->|Hn].
  - assert (qdma_get_master_resource_entry index (set_master i r' m s) = Some (i, r')) as ->.
    { eapply find_first_insert; [exact Hr|]. apply Z.eqb_eq. congruence. }
    rewrite Hr. cbn. rewrite !find_first_head. rewrite Hd by congruence. done.
  - assert (Hsame : snd <$> qdma_get_master_resource_entry index' (set_master i r' m s) =
                    snd <$> qdma_get_master_resource_entry index' s).
    { unfold qdma_get_master_resource_entry, set_master. cbn [master_resource_list].
      rewrite !find_first_head, (filter_insert_other _ _ _ r Hl); [done|..];
        apply Z.eqb_neq; congruence. }
    destruct (qdma_get_master_resource_entry index' (set_master i r' m s)) as [[? ?]|],
      (qdma_get_master_resource_entry index' s) as [[? ?]|]; cbn in Hsame; simplify_eq; done.
Qed.

Lemma dev_of_mem index fid s m :
  dev_of index fid (mk_rm (master_resource_list s) (rm_index s) m) = dev_of index fid s.
Proof. done. Qed.

(** The four ways an operation changes the list of functions. *)
Section changes.
Context (index fid : Z) (s : rm_state) (i : nat) (r : qdma_resource_master).
Context (index' fid' : Z) (Hne : (index', fid') ≠ (index, fid)).
Context (Hr : qdma_get_master_resource_entry index s = Some (i, r)).

Lemma frame_add d m free :
  func_id d = fid →
  dev_of index' fid' (set_master i (set_lists (dev_list r ++ [d]) free r) m s)
    = dev_of index' fid' s.
Proof using Hne Hr.
  intros Hd. apply (dev_of_set_master index fid s i r); [done..| |done].
  intros Hf. cbn. rewrite filter_app, filter_cons_False, filter_nil by (rewrite Z.eqb_eq; congruence).
  apply app_nil_r.
Qed.

Context (j : nat) (d : qdma_dev_entry) (Hj : qdma_get_dev_entry index fid s = Some (j, d)).

Lemma frame_remove m free :
  dev_of index' fid' (set_master i (set_lists (delete j (dev_list r)) free r) m s)
    = dev_of index' fid' s.
Proof using Hne Hr Hj.
  destruct (get_dev_Some _ _ _ _ _ _ _ Hr Hj) as [Hd Hf].
  apply (dev_of_set_master index fid s i r); [done..| |done]. intros Hn. cbn.
  apply (filter_delete_other (λ d, func_id d =? fid') _ _ d Hd). apply Z.eqb_neq. congruence.
Qed.

Lemma frame_change r' d' m :
  dma_device_index r' = dma_device_index r → dev_list r' = <[j := d']> (dev_list r) →
  func_id d' = func_id d →
  dev_of index' fid' (set_master i r' m s) = dev_of index' fid' s.
Proof using Hne Hr Hj.
  intros Hi Hl Hd'. destruct (get_dev_Some _ _ _ _ _ _ _ Hr Hj) as [Hd Hf].
  apply (dev_of_set_master index fid s i r); [done..| |done]. intros Hn. rewrite Hl.
  apply (filter_insert_other (λ d, func_id d =? fid') _ _ d Hd); apply Z.eqb_neq; congruence.
Qed.
End changes.

Lemma set_active_cnt_func t n d : func_id (set_active_cnt t n d) = func_id d.
Proof. by destruct t. Qed.

(** An operation of one function leaves every other function's entry alone. *)
Lemma rm_exec_frame op index fid index' fid' s :
  op_of_function index fid op → (index', fid') ≠ (index, fid) →
  dev_of index' fid' (rm_exec op s) = dev_of index' fid' s.
Proof.
  intros Hop Hne. destruct op; cbn in Hop; [done..|destruct Hop as [-> ->]|destruct Hop as [-> ->]
    |destruct Hop as [-> ->]|destruct Hop as [-> ->]|destruct Hop as [-> ->]]; cbn [rm_exec].
  - unfold qdma_dev_entry_create.
    destruct (qdma_get_master_resource_entry index s) as [[i r]|] eqn:Hr; [|done].
    destruct (qdma_get_dev_entry index fid s); [done|].
    destruct (qdma_calloc (rm_mem s)) as [[] m]; [|done]. by eapply frame_add.
  - unfold qdma_dev_entry_destroy.
    destruct (qdma_get_master_resource_entry index s) as [[i r]|] eqn:Hr; [|done].
    destruct (qdma_get_dev_entry index fid s) as [[j d]|] eqn:Hj; [|done].
    destruct (qdma_submit_to_free_list _ _ _) as [[? free] m]. by eapply frame_remove.
  - unfold qdma_dev_update.
    destruct (qdma_get_master_resource_entry index s) as [[i r]|] eqn:Hr; [|done].
    destruct (qdma_get_dev_entry index fid s) as [[j d]|] eqn:Hj; [|done].
    destruct (_ || _); [done|].
    destruct (qdma_request_q_resource _ _ _ _ _) as [[[rv e] free] m]. by eapply frame_change.
  - unfold qdma_dev_increment_active_queue.
    destruct (qdma_get_master_resource_entry index s) as [[i r]|] eqn:Hr; [|done].
    destruct (qdma_get_dev_entry index fid s) as [[j d]|] eqn:Hj; [|done].
    destruct (active_cnt d t) as [n|]; [|done]. destruct (_ <? _); [done|].
    eapply frame_change; [done..|]. apply set_active_cnt_func.
  - unfold qdma_dev_decrement_active_queue.
    destruct (qdma_get_master_resource_entry index s) as [[i r]|] eqn:Hr; [|done].
    destruct (qdma_get_dev_entry index fid s) as [[j d]|] eqn:Hj; [|done].
    destruct (active_cnt d t) as [n|]; [|by eapply frame_change].
    eapply frame_change; [done..|]. destruct (n =? 0); [done|]. apply set_active_cnt_func.
Qed.

(** ** The function's own entry *)

Lemma get_dev_set_master index fid s i r r' m :
  qdma_get_master_resource_entry index s = Some (i, r) →
  dma_device_index r' = dma_device_index r →
  qdma_get_dev_entry index fid (set_master i r' m s) =
    find_first (λ d, func_id d =? fid) (dev_list r').
Proof.
  intros Hr Hi. destruct (get_master_Some _ _ _ _ Hr) as [_ Hix]. unfold qdma_get_dev_entry.
  assert (qdma_get_master_resource_entry index (set_master i r' m s) = Some (i, r')) as ->; [|done].
  eapply find_first_insert; [exact Hr|]. apply Z.eqb_eq. congruence.
Qed.

(** A successful request: the function's entry is the block it asked for. *)
Lemma dev_update_success s index fid qmax qb b s' :
  rm_ok s → request_ok qmax qb → 0 < qmax →
  qdma_dev_update index fid qmax qb s = (QDMA_SUCCESS, b, s') →
  0 <= b <= INT_MAX ∧
  ∃ j d, qdma_get_dev_entry index fid s' = Some (j, d) ∧ entry d = mk_entry b qmax.
Proof.
  intros Hs Hq Hpos. unfold qdma_dev_update.
  destruct (qdma_get_master_resource_entry index s) as [[i r]|] eqn:Er; [|done].
  destruct (qdma_get_dev_entry index fid s) as [[j d]|] eqn:Ed; [|done].
  destruct (rm_ok_master _ _ _ _ Hs Er) as [Hi Hr].
  destruct (get_dev_Some _ _ _ _ _ _ _ Er Ed) as [Hj Hf].
  destruct (Z.eqb_spec (active_h2c_qcnt d) 0) as [A1|]; [|done].
  destruct (Z.eqb_spec (active_c2h_qcnt d) 0) as [A2|]; [|done].
  destruct (Z.eqb_spec (active_cmpt_qcnt d) 0) as [A3|]; [|done]. cbn [negb orb].
  destruct (qdma_request_q_resource (entry d) qmax qb (free_list r) (rm_mem s))
    as [[[rv e'] free'] m] eqn:Eq. intros [= -> <- <-].
  destruct (dev_request_ok _ _ _ _ _ _ _ _ _ _ Hr Hj Hq A1 A2 A3 Eq) as [Hm Hsz].
  specialize (Hsz eq_refl ltac:(lia)). assert (e' = mk_entry (qbase e') qmax) as He.
  { destruct e'. cbn in *. by subst. }
  split.
  - assert (dev_ok (rm_qbase r) (rm_end r) (set_entry e' d)) as [Ho _].
    { eapply Forall_lookup_1; [exact (mo_devs _ Hm)|]. cbn. apply list_lookup_insert_eq.
      by eapply lookup_lt_Some. }
    destruct Hr. unfold entry_ok in Ho. cbn in Ho. lia.
  - exists j, (set_entry e' d). split; [|done]. rewrite (get_dev_set_master _ _ _ _ r) by done.
    cbn [set_lists dev_list]. eapply find_first_insert; [|cbn; by apply Z.eqb_eq].
    unfold qdma_get_dev_entry in Ed. rewrite Er in Ed. exact Ed.
Qed.

Lemma dev_update_rv s index fid qmax qb :
  (qdma_dev_update index fid qmax qb s).1.1 = QDMA_SUCCESS ∨
  (qdma_dev_update index fid qmax qb s).1.1 < 0.
Proof.
  unfold qdma_dev_update.
  destruct (qdma_get_master_resource_entry index s) as [[i r]|]; [|by right].
  destruct (qdma_get_dev_entry index fid s) as [[j d]|]; [|by right].
  destruct (_ || _); [by right|]. unfold qdma_request_q_resource.
  destruct (qdma_submit_to_free_list _ _ _) as [[e1 free1] m1].
  destruct (qmax =? 0); [by left|].
  destruct (qdma_get_resource_node qmax _ _ _) as [[o1 free2] m2].
  destruct (o1 ≫= _) as [[n free3]|]; [by left|].
  destruct (qdma_get_resource_node _ _ free2 _) as [[o2 free4] m3].
  destruct (o2 ≫= _) as [[n' free5]|]; by right.
Qed.

(** A destroyed function has no entry. *)
Lemma dev_destroy_gone s index fid :
  rm_ok s → dev_of index fid (qdma_dev_entry_destroy index fid s) = None.
Proof.
  intros Hs. unfold qdma_dev_entry_destroy.
  destruct (qdma_get_master_resource_entry index s) as [[i r]|] eqn:Er.
  2: { unfold dev_of, qdma_get_dev_entry. by rewrite Er. }
  destruct (qdma_get_dev_entry index fid s) as [[j d]|] eqn:Ed.
  2: { unfold dev_of. by rewrite Ed. }
  destruct (qdma_submit_to_free_list _ _ _) as [[e1 free1] m1].
  destruct (rm_ok_master _ _ _ _ Hs Er) as [Hi Hr].
  destruct (get_dev_Some _ _ _ _ _ _ _ Er Ed) as [Hj Hf].
  unfold dev_of. rewrite (get_dev_set_master _ _ _ _ r) by done. cbn [set_lists dev_list].
  rewrite find_first_head. destruct (head _) as [d'|] eqn:Eh; [|done].
  assert (Hd' : d' ∈ filter (λ d, (func_id d =? fid) = true) (delete j (dev_list r))).
  { destruct (filter _ _); [done|]. cbn in Eh. simplify_eq. by left. }
  apply list_elem_of_filter in Hd' as [Hfd Hin]. apply Z.eqb_eq in Hfd.
  pose proof (mo_funcs _ Hr) as Hnd. rewrite <- (take_drop_middle _ _ _ Hj), fmap_app in Hnd.
  rewrite delete_take_drop in Hin. apply NoDup_app in Hnd as (_ & Hno & Hnd).
  cbn in Hnd. apply NoDup_cons in Hnd as [Hnot _].
  apply elem_of_app in Hin as [Hin|Hin].
  - destruct (Hno fid). { apply list_elem_of_fmap. by exists d'. }
    cbn. rewrite Hf. by left.
  - destruct Hnot. rewrite Hf. apply list_elem_of_fmap. by exists d'.
Qed.
