(* ===== verification/Bits.v ===== *)
(** * Register fields (qdma_access_common.h, qdma_soft_reg.h)

    [get_trailing_zeros] and the FIELD_SET / FIELD_GET / BIT / GENMASK macros
    through which every hardware word of the driver is packed and unpacked,
    with the lemmas and the [fields] tactic that evaluate a field read from a
    word built by FIELD_SET. *)

From S2P Require Import Prelude.

(** ** The macros *)

(** One test of [get_trailing_zeros]: [(pos, value)] before and after. *)
Definition ctz_step (k : Z) (st : Z * Z) : Z * Z :=
  let '(pos, value) := st in
  if Z.land value (Z.ones k) =? 0 then (u32 (pos + k), Z.shiftr value k) else (pos, value).

(** The portable [get_trailing_zeros] (the gcc build uses a builtin). *)
Definition get_trailing_zeros (value : Z) : Z :=
  let st := (0, value) in
  let st := ctz_step 32 st in
  let st := ctz_step 16 st in
  let st := ctz_step 8 st in
  let st := ctz_step 4 st in
  let '(pos, value) := ctz_step 2 st in
  if Z.land value 1 =? 0 then u32 (pos + 1) else pos.

Definition FIELD_SHIFT (mask : Z) : Z := get_trailing_zeros mask.

(** The shift of [val] is not reduced to a width: the mask does it
    ([FIELD_SET_wrap]). *)
Definition FIELD_SET (mask val : Z) : Z := Z.land (Z.shiftl val (FIELD_SHIFT mask)) mask.
Definition FIELD_GET (mask reg : Z) : Z := Z.shiftr (Z.land reg mask) (FIELD_SHIFT mask).

Definition BIT (n : Z) : Z := u32 (Z.shiftl 1 n).
Definition GENMASK (h l : Z) : Z :=
  Z.land (u32 (Z.shiftl 0xFFFFFFFF l)) (Z.shiftr 0xFFFFFFFF (31 - h)).
Definition GENMASK_ULL (h l : Z) : Z :=
  Z.land (u64 (Z.shiftl 0xFFFFFFFFFFFFFFFF l)) (Z.shiftr 0xFFFFFFFFFFFFFFFF (63 - h)).

Arguments FIELD_SET : simpl never.
Arguments FIELD_GET : simpl never.
Arguments BIT : simpl never.
Arguments GENMASK : simpl never.
Arguments GENMASK_ULL : simpl never.

(** The number of bits of a mask, and the values a field can hold. *)
Definition mask_width (mask : Z) : Z := Z.log2 mask + 1 - FIELD_SHIFT mask.
Definition fits (mask val : Z) : Prop := 0 <= val < 2 ^ mask_width mask.

(** A mask whose set bits are contiguous. *)
Definition mask_ok (mask : Z) : bool :=
  (mask =? Z.shiftl (Z.ones (mask_width mask)) (FIELD_SHIFT mask)) &&
  (0 <=? FIELD_SHIFT mask) && (0 <=? mask_width mask).

(** ** Counting trailing zeros *)

Lemma ctz_step_ok k pos v :
  0 < k <= 32 → 0 <= pos <= 64 → v mod 2 ^ (2 * k) ≠ 0 →
  let '(pos', v') := ctz_step k (pos, v) in
  pos <= pos' <= pos + k ∧ v' mod 2 ^ k ≠ 0 ∧ v' * 2 ^ pos' = v * 2 ^ pos.
Proof.
  intros Hk Hp Hv. unfold ctz_step. rewrite Z.land_ones by lia.
  destruct (Z.eqb_spec (v mod 2 ^ k) 0) as [Hz|Hnz]; [|lia].
  rewrite u32_small by lia. rewrite Z.shiftr_div_pow2 by lia.
  assert (0 < 2 ^ k) as Hpos by (apply Z.pow_pos_nonneg; lia).
  pose proof (Z.div_mod v (2 ^ k) ltac:(lia)) as Hdiv. rewrite Hz, Z.add_0_r in Hdiv.
  split; [lia|]. split.
  - intros Hq. apply Hv. rewrite Hdiv. replace (2 * k) with (k + k) by lia.
    rewrite Z.pow_add_r, Z.mul_mod_distr_l by lia. rewrite Hq. lia.
  - rewrite Z.pow_add_r by lia. rewrite Hdiv at 2. lia.
Qed.

(** The portable [get_trailing_zeros] returns the position of the lowest
    set bit of every non-zero 64-bit value: the value is an odd multiple of 2
    to that power (what the gcc builtin the other branch uses computes). *)
Theorem get_trailing_zeros_ok x :
  0 < x < 2 ^ 64 →
  0 <= get_trailing_zeros x < 64 ∧
  ∃ q, x = (2 * q + 1) * 2 ^ get_trailing_zeros x.
Proof.
  intros Hx. unfold get_trailing_zeros.
  assert (x mod 2 ^ (2 * 32) ≠ 0) as H0 by (rewrite Z.mod_small; lia).
  pose proof (ctz_step_ok 32 0 x ltac:(lia) ltac:(lia) H0) as H1.
  destruct (ctz_step 32 (0, x)) as [p1 v1]. destruct H1 as (B1 & H1 & E1).
  pose proof (ctz_step_ok 16 p1 v1 ltac:(lia) ltac:(lia) H1) as H2.
  destruct (ctz_step 16 (p1, v1)) as [p2 v2]. destruct H2 as (B2 & H2 & E2).
  pose proof (ctz_step_ok 8 p2 v2 ltac:(lia) ltac:(lia) H2) as H3.
  destruct (ctz_step 8 (p2, v2)) as [p3 v3]. destruct H3 as (B3 & H3 & E3).
  pose proof (ctz_step_ok 4 p3 v3 ltac:(lia) ltac:(lia) H3) as H4.
  destruct (ctz_step 4 (p3, v3)) as [p4 v4]. destruct H4 as (B4 & H4 & E4).
  pose proof (ctz_step_ok 2 p4 v4 ltac:(lia) ltac:(lia) H4) as H5.
  destruct (ctz_step 2 (p4, v4)) as [p5 v5]. destruct H5 as (B5 & H5 & E5).
  pose proof (ctz_step_ok 1 p5 v5 ltac:(lia) ltac:(lia) H5) as H6.
  unfold ctz_step in H6. change (Z.ones 1) with 1 in H6. rewrite Z.pow_0_r in E1.
  assert (∀ v, v mod 2 ^ 1 ≠ 0 → v = 2 * (v / 2) + 1) as Hodd.
  { intros v Hv. change (2 ^ 1) with 2 in Hv. pose proof (Z.div_mod v 2). 
    pose proof (Z.mod_pos_bound v 2). lia. }
  clear H0 H1 H2 H3 H4 H5 Hx.
  destruct (Z.land v5 1 =? 0); destruct H6 as (B6 & Ho & E6); (split; [clear - B1 B2 B3 B4 B5 B6; lia|]);
    (eexists; rewrite <- (Hodd _ Ho); try rewrite E6; rewrite E5, E4, E3, E2, E1; symmetry; apply Z.mul_1_r).
Qed.

Lemma get_trailing_zeros_ok_witness :
  0 <= get_trailing_zeros 0x1C000 < 64 ∧ ∃ q, 0x1C000 = (2 * q + 1) * 2 ^ get_trailing_zeros 0x1C000.
Proof. apply (get_trailing_zeros_ok 0x1C000). lia. Defined.

(** ** Fields *)

Lemma FIELD_SET_wrap w m v :
  0 <= m < 2 ^ w → 0 <= w → Z.land (wrap w (Z.shiftl v (FIELD_SHIFT m))) m = FIELD_SET m v.
Proof.
  intros Hm Hw. unfold FIELD_SET. rewrite wrap_land_ones by done.
  rewrite <- Z.land_assoc, (Z.land_comm (Z.ones w)), Z.land_ones, Z.mod_small by lia. done.
Qed.

Lemma mask_ok_spec m :
  mask_ok m = true →
  m = Z.shiftl (Z.ones (mask_width m)) (FIELD_SHIFT m) ∧ 0 <= FIELD_SHIFT m ∧ 0 <= mask_width m.
Proof.
  unfold mask_ok. rewrite !andb_true_iff, Z.eqb_eq, !Z.leb_le. tauto.
Qed.

Lemma FIELD_GET_eq m r :
  mask_ok m = true → FIELD_GET m r = Z.land (Z.shiftr r (FIELD_SHIFT m)) (Z.ones (mask_width m)).
Proof.
  intros (Hm & Hs & Hw)%mask_ok_spec. unfold FIELD_GET. rewrite Hm at 1.
  by rewrite Z.shiftr_land, Z.shiftr_shiftl_l, Z.sub_diag, Z.shiftl_0_r by lia.
Qed.

Lemma FIELD_SET_eq m v :
  mask_ok m = true → FIELD_SET m v = Z.shiftl (Z.land v (Z.ones (mask_width m))) (FIELD_SHIFT m).
Proof.
  intros (Hm & Hs & Hw)%mask_ok_spec. unfold FIELD_SET. rewrite Hm at 2.
  by rewrite Z.shiftl_land.
Qed.

Lemma FIELD_GET_SET m v :
  mask_ok m = true → FIELD_GET m (FIELD_SET m v) = Z.land v (Z.ones (mask_width m)).
Proof.
  intros Hm. rewrite FIELD_GET_eq, FIELD_SET_eq by done. apply mask_ok_spec in Hm as (_ & ? & _).
  rewrite Z.shiftr_shiftl_l, Z.sub_diag, Z.shiftl_0_r by lia. by rewrite <- Z.land_assoc, Z.land_diag.
Qed.

Lemma FIELD_GET_fits m r : mask_ok m = true → fits m (FIELD_GET m r).
Proof.
  intros Hm. rewrite FIELD_GET_eq by done. apply mask_ok_spec in Hm as (_ & _ & ?). unfold fits.
  rewrite Z.land_ones by done. apply Z.mod_pos_bound, Z.pow_pos_nonneg; lia.
Qed.

Lemma FIELD_GET_SET_fit m v :
  mask_ok m = true → fits m v → FIELD_GET m (FIELD_SET m v) = v.
Proof.
  intros Hm Hv. rewrite FIELD_GET_SET by done. apply mask_ok_spec in Hm as (_ & _ & Hw).
  rewrite Z.land_ones by done. by apply Z.mod_small.
Qed.

Lemma FIELD_GET_SET_other m m' v : Z.land m m' = 0 → FIELD_GET m (FIELD_SET m' v) = 0.
Proof.
  intros Hd. unfold FIELD_GET, FIELD_SET. rewrite <- Z.land_assoc, (Z.land_comm m'), Hd.
  by rewrite Z.land_0_r, Z.shiftr_0_l.
Qed.

Lemma FIELD_GET_lor m a b : FIELD_GET m (Z.lor a b) = Z.lor (FIELD_GET m a) (FIELD_GET m b).
Proof. unfold FIELD_GET. by rewrite Z.land_lor_distr_l, Z.shiftr_lor. Qed.

Lemma FIELD_SET_GET m v : mask_ok m = true → FIELD_SET m (FIELD_GET m v) = Z.land v m.
Proof.
  intros Hm. rewrite FIELD_SET_eq, FIELD_GET_eq by done. apply mask_ok_spec in Hm as (Hm & ? & ?).
  rewrite <- Z.land_assoc, Z.land_diag. rewrite Hm at 4. apply Z.bits_inj'. intros n Hn.
  rewrite Z.land_spec, !Z.shiftl_spec, Z.land_spec by done.
  destruct (Z.ltb_spec n (FIELD_SHIFT m)).
  - rewrite (Z.testbit_neg_r (Z.ones _)) by lia. by rewrite !andb_false_r.
  - rewrite Z.shiftr_spec by lia. by replace (n - FIELD_SHIFT m + FIELD_SHIFT m) with n by lia.
Qed.

Lemma FIELD_GET_wrap w m v :
  0 <= m < 2 ^ w → 0 <= w → FIELD_GET m (wrap w v) = FIELD_GET m v.
Proof.
  intros Hm Hw. unfold FIELD_GET. rewrite wrap_land_ones by done.
  rewrite <- Z.land_assoc, (Z.land_comm (Z.ones w)), Z.land_ones, Z.mod_small by lia. done.
Qed.

(** ** Automation *)

(** [fields] reads fields of words built by FIELD_SET: the field itself when
    the value fits (the hypothesis is looked up in the context), 0 for the
    others. *)
Ltac mask_compute :=
  vm_compute; repeat match goal with |- _ ∧ _ => split end; first [reflexivity | discriminate].
Ltac field_step :=
  match goal with
  | |- context [FIELD_GET ?m (wrap ?w ?v)] => rewrite (FIELD_GET_wrap w m v) by mask_compute
  | |- context [FIELD_GET ?m (Z.lor ?a ?b)] => rewrite (FIELD_GET_lor m a b)
  | H : fits ?m ?v |- context [FIELD_GET ?m (FIELD_SET ?m ?v)] =>
      rewrite (FIELD_GET_SET_fit m v ltac:(vm_compute; reflexivity) H)
  | |- context [FIELD_GET ?m (FIELD_SET ?m' ?v)] =>
      rewrite (FIELD_GET_SET_other m m' v) by (vm_compute; reflexivity)
  end.
Ltac fields := repeat field_step; rewrite ?Z.lor_0_r, ?Z.lor_0_l.

Lemma fits_wrap w m v : mask_width m <= w → 0 <= mask_width m → fits m v → wrap w v = v.
Proof.
  intros Hw Hm Hv. apply wrap_small. unfold fits, is_u in *.
  assert (2 ^ mask_width m <= 2 ^ w) by (apply Z.pow_le_mono_r; lia). lia.
Qed.

Lemma fits_width m m' v : mask_width m = mask_width m' → fits m v → fits m' v.
Proof. unfold fits. by intros ->. Qed.

(** Splitting a value over two fields and putting it together again. *)
Lemma FIELD_split2 m1 m2 w v :
  mask_ok m1 = true → mask_ok m2 = true → m1 .| m2 = Z.ones w → 0 <= w → is_u w v →
  FIELD_SET m1 (FIELD_GET m1 v) .| FIELD_SET m2 (FIELD_GET m2 v) = v.
Proof.
  intros H1 H2 H Hw Hv. rewrite !FIELD_SET_GET, <- Z.land_lor_distr_r, H by done.
  rewrite Z.land_ones by done. by apply Z.mod_small.
Qed.

(** [wraps]: conversions to a narrower type that do not change the value. *)
Ltac wraps :=
  repeat match goal with
  | H : fits ?m ?v |- context [wrap ?w ?v] =>
      rewrite (fits_wrap w m v ltac:(mask_compute) ltac:(mask_compute) H)
  | H : is_u ?w ?v |- context [wrap ?w ?v] => rewrite (wrap_small w v H)
  end.
