(* ===== verification/RegIO.v ===== *)
(** * Register access and polling (qdma_platform.c, qdma_access_common.c)

    The device is a parameter: registers that can be read and written and a
    clock that advances while the driver waits.  The driver's own state is the
    spin lock [hw_prg_lock] that serialises indirect accesses.  A computation
    is a state transformer that has no result when it would spin on a lock it
    already holds. *)

From S2P Require Import Prelude Platform Bits.

(** ** The device and the driver's view of it *)

(** What [readl], [writel] and [udelay] do to the device. *)
Class Device (dev : Type) := {
  dev_read : Z → dev → Z * dev;
  dev_write : Z → Z → dev → dev;
  dev_delay : Z → dev → dev;
}.

Record hw_state (dev : Type) := mk_hw { hw : dev; hw_prg_lock : bool }.
Arguments mk_hw {dev} _ _.
Arguments hw {dev} _.
Arguments hw_prg_lock {dev} _.

(** Computations: [None] is a call that never returns. *)
Definition hwm (dev A : Type) : Type := hw_state dev → option (A * hw_state dev).

#[export] Instance hwm_ret {dev} : MRet (hwm dev) := λ A a s, Some (a, s).
#[export] Instance hwm_bind {dev} : MBind (hwm dev) := λ A B k m s,
  match m s with
  | Some (a, s) => k a s
  | None => None
  end.

Section platform.
Context {dev : Type} `{Device dev}.

Definition qdma_reg_read (reg_offst : Z) : hwm dev Z := λ s,
  let '(v, d) := dev_read (u32 reg_offst) (hw s) in Some (v, mk_hw d (hw_prg_lock s)).

Definition qdma_reg_write (reg_offst val : Z) : hwm dev () := λ s,
  Some (tt, mk_hw (dev_write (u32 reg_offst) (u32 val) (hw s)) (hw_prg_lock s)).

Definition qdma_udelay (delay_us : Z) : hwm dev () := λ s,
  Some (tt, mk_hw (dev_delay delay_us (hw s)) (hw_prg_lock s)).

(** A spin lock is not recursive: taking it twice spins forever. *)
Definition qdma_reg_access_lock : hwm dev Z := λ s,
  if hw_prg_lock s then None else Some (0, mk_hw (hw s) true).

Definition qdma_reg_access_release : hwm dev Z := λ s,
  Some (0, mk_hw (hw s) false).
End platform.

(** ** Polling *)

Definition QDMA_REG_POLL_DFLT_INTERVAL_US : Z := 10.
Definition QDMA_REG_POLL_DFLT_TIMEOUT_US : Z := 500 * 1000.

(** How often the body of [do ... while (--count)] runs. *)
Definition poll_iterations (count : Z) : nat :=
  Z.to_nat (if u32 count =? 0 then 2 ^ 32 else u32 count).

Section polling.
Context {dev : Type} `{Device dev}.

(** The [do]-loop: [true] when the register had the value in time. *)
Fixpoint monitor_loop (n : nat) (reg mask val interval_us : Z) : hwm dev bool :=
  match n with
  | O => mret false
  | S n =>
      v ← qdma_reg_read reg;
      if Z.land v mask =? val then mret true
      else qdma_udelay interval_us;; monitor_loop n reg mask val interval_us
  end.

Definition hw_monitor_reg (reg mask val interval_us timeout_us : Z) : hwm dev Z :=
  let interval_us :=
    if interval_us =? 0 then QDMA_REG_POLL_DFLT_INTERVAL_US else interval_us in
  let timeout_us := if timeout_us =? 0 then QDMA_REG_POLL_DFLT_TIMEOUT_US else timeout_us in
  let count := timeout_us / interval_us in
  found ← monitor_loop (poll_iterations count) reg mask val interval_us;
  if found : bool then mret QDMA_SUCCESS
  else
    v ← qdma_reg_read reg;
    if Z.land v mask =? val then mret QDMA_SUCCESS
    else mret (ERR QDMA_ERR_HWACC_BUSY_TIMEOUT).

(** *** Register arrays *)

(** Consecutive 32-bit registers from [reg_addr] on. *)
Fixpoint write_words (reg_addr : Z) (values : list Z) : hwm dev () :=
  match values with
  | [] => mret tt
  | v :: values => qdma_reg_write reg_addr v;; write_words (reg_addr + 4) values
  end.
Fixpoint read_words (reg_addr : Z) (cnt : nat) : hwm dev (list Z) :=
  match cnt with
  | O => mret []
  | S cnt => v ← qdma_reg_read reg_addr; l ← read_words (reg_addr + 4) cnt; mret (v :: l)
  end.

Definition qdma_write_csr_values (reg_offst idx : Z) (values : list Z) : hwm dev () :=
  write_words (reg_offst + idx * 4) values.
Definition qdma_read_csr_values (reg_offst idx cnt : Z) : hwm dev (list Z) :=
  read_words (reg_offst + idx * 4) (Z.to_nat cnt).
End polling.

(** ** What a computation does to the lock *)

(** [keeps b m]: from any state whose lock is [b], [m] returns and leaves the
    lock as it was.  The device is arbitrary. *)
Section keeps.
Context {dev : Type} `{Device dev}.

Definition keeps {A} (b : bool) (m : hwm dev A) : Prop :=
  ∀ s, hw_prg_lock s = b → ∃ a s', m s = Some (a, s') ∧ hw_prg_lock s' = b.

(** A critical section: takes the free lock, returns and gives it back. *)
Definition releases {A} (m : hwm dev A) : Prop :=
  ∀ s, hw_prg_lock s = true → ∃ a s', m s = Some (a, s') ∧ hw_prg_lock s' = false.

Lemma keeps_ret {A} b (a : A) : keeps b (mret a).
Proof using. intros s Hs. by exists a, s. Qed.

Lemma keeps_bind {A B} b (m : hwm dev A) (k : A → hwm dev B) :
  keeps b m → (∀ a, keeps b (k a)) → keeps b (m ≫= k).
Proof using.
  intros Hm Hk s Hs. destruct (Hm s Hs) as (a & s1 & E1 & Hs1).
  destruct (Hk a s1 Hs1) as (c & s2 & E2 & Hs2). exists c, s2.
  unfold mbind, hwm_bind. by rewrite E1, E2.
Qed.

Lemma keeps_read b reg : keeps b (qdma_reg_read reg).
Proof using.
  intros s Hs. unfold qdma_reg_read. destruct (dev_read (u32 reg) (hw s)) as [v d].
  by eexists _, _.
Qed.

Lemma keeps_write b reg v : keeps b (qdma_reg_write reg v).
Proof using. intros s Hs. by eexists _, _. Qed.

Lemma keeps_delay b us : keeps b (qdma_udelay us).
Proof using. intros s Hs. by eexists _, _. Qed.

Lemma releases_release : releases qdma_reg_access_release.
Proof using. intros s Hs. by eexists _, _. Qed.

Lemma releases_bind {A B} (m : hwm dev A) (k : A → hwm dev B) :
  keeps true m → (∀ a, releases (k a)) → releases (m ≫= k).
Proof using.
  intros Hm Hk s Hs. destruct (Hm s Hs) as (a & s1 & E1 & Hs1).
  destruct (Hk a s1 Hs1) as (c & s2 & E2 & Hs2). exists c, s2.
  unfold mbind, hwm_bind. by rewrite E1, E2.
Qed.

Lemma releases_then {A B} (m : hwm dev A) (k : A → hwm dev B) :
  releases m → (∀ a, keeps false (k a)) → releases (m ≫= k).
Proof using.
  intros Hm Hk s Hs. destruct (Hm s Hs) as (a & s1 & E1 & Hs1).
  destruct (Hk a s1 Hs1) as (c & s2 & E2 & Hs2). exists c, s2.
  unfold mbind, hwm_bind. by rewrite E1, E2.
Qed.

Lemma keeps_critical {B} (k : Z → hwm dev B) :
  (∀ a, releases (k a)) → keeps false (qdma_reg_access_lock ≫= k).
Proof using.
  intros Hk s Hs. unfold mbind, hwm_bind, qdma_reg_access_lock. rewrite Hs.
  by apply (Hk 0 (mk_hw (hw s) true)).
Qed.

Lemma keeps_monitor_loop b n reg mask val us : keeps b (monitor_loop n reg mask val us).
Proof using.
  induction n as [|n IH]; simpl; [apply keeps_ret|].
  apply keeps_bind; [apply keeps_read|]. intros v. destruct (_ =? _); [apply keeps_ret|].
  apply keeps_bind; [apply keeps_delay|]. done.
Qed.

Lemma keeps_monitor b reg mask val us timeout :
  keeps b (hw_monitor_reg reg mask val us timeout).
Proof using.
  unfold hw_monitor_reg. apply keeps_bind; [apply keeps_monitor_loop|]. intros [].
  - apply keeps_ret.
  - apply keeps_bind; [apply keeps_read|]. intros v. destruct (_ =? _); apply keeps_ret.
Qed.

Lemma keeps_write_words b reg l : keeps b (write_words reg l).
Proof using.
  revert reg. induction l as [|v l IH]; intros reg; simpl; [apply keeps_ret|].
  apply keeps_bind; [apply keeps_write|]. done.
Qed.

Lemma keeps_read_words b reg n : keeps b (read_words reg n).
Proof using.
  revert reg. induction n as [|n IH]; intros reg; simpl; [apply keeps_ret|].
  apply keeps_bind; [apply keeps_read|]. intros v. apply keeps_bind; [apply IH|].
  intros l. apply keeps_ret.
Qed.

Lemma keeps_if {A} b (c : bool) (m1 m2 : hwm dev A) :
  keeps b m1 → keeps b m2 → keeps b (if c then m1 else m2).
Proof using. by destruct c. Qed.
Lemma releases_if {A} (c : bool) (m1 m2 : hwm dev A) :
  releases m1 → releases m2 → releases (if c then m1 else m2).
Proof using. by destruct c. Qed.
End keeps.

#[export] Hint Resolve keeps_ret keeps_read keeps_write keeps_delay keeps_monitor
  keeps_write_words keeps_read_words releases_release keeps_if releases_if : qdma.
#[export] Hint Extern 4 (keeps _ (_ ≫= _)) => apply keeps_bind; [|intros ?] : qdma.
