(* ===== verification/IndCtxt.v ===== *)
(** * Indirect context access (qdma_soft_access.c)

    Queue contexts are not memory mapped: the driver fills eight data and
    eight mask registers, writes a command with a selector and a queue id, and
    polls the busy bit.  [IndirectCtxt] is what the hardware documentation
    says those registers do; the theorems show that the four helpers of
    qdma_soft_access.c implement clear, write, read and invalidate of a
    context memory over any such device, and that they never leave the
    register lock taken, whatever the device does. *)

From S2P Require Import Prelude Platform Bits RegIO.

(** ** Commands *)

Inductive ind_ctxt_cmd_op :=
  QDMA_CTXT_CMD_CLR | QDMA_CTXT_CMD_WR | QDMA_CTXT_CMD_RD | QDMA_CTXT_CMD_INV.
Definition op_val (op : ind_ctxt_cmd_op) : Z :=
  match op with
  | QDMA_CTXT_CMD_CLR => 0 | QDMA_CTXT_CMD_WR => 1 | QDMA_CTXT_CMD_RD => 2
  | QDMA_CTXT_CMD_INV => 3
  end.

Inductive ind_ctxt_cmd_sel :=
  | QDMA_CTXT_SEL_SW_C2H | QDMA_CTXT_SEL_SW_H2C | QDMA_CTXT_SEL_HW_C2H
  | QDMA_CTXT_SEL_HW_H2C | QDMA_CTXT_SEL_CR_C2H | QDMA_CTXT_SEL_CR_H2C
  | QDMA_CTXT_SEL_CMPT | QDMA_CTXT_SEL_PFTCH | QDMA_CTXT_SEL_INT_COAL
  | QDMA_CTXT_SEL_PASID_RAM_LOW | QDMA_CTXT_SEL_PASID_RAM_HIGH | QDMA_CTXT_SEL_TIMER
  | QDMA_CTXT_SEL_FMAP.
Definition sel_val (sel : ind_ctxt_cmd_sel) : Z :=
  match sel with
  | QDMA_CTXT_SEL_SW_C2H => 0 | QDMA_CTXT_SEL_SW_H2C => 1 | QDMA_CTXT_SEL_HW_C2H => 2
  | QDMA_CTXT_SEL_HW_H2C => 3 | QDMA_CTXT_SEL_CR_C2H => 4 | QDMA_CTXT_SEL_CR_H2C => 5
  | QDMA_CTXT_SEL_CMPT => 6 | QDMA_CTXT_SEL_PFTCH => 7 | QDMA_CTXT_SEL_INT_COAL => 8
  | QDMA_CTXT_SEL_PASID_RAM_LOW => 9 | QDMA_CTXT_SEL_PASID_RAM_HIGH => 10
  | QDMA_CTXT_SEL_TIMER => 11 | QDMA_CTXT_SEL_FMAP => 12
  end.

#[export] Instance ind_ctxt_cmd_sel_eq_dec : EqDecision ind_ctxt_cmd_sel.
Proof. solve_decision. Defined.
#[export] Instance ind_ctxt_cmd_op_eq_dec : EqDecision ind_ctxt_cmd_op.
Proof. solve_decision. Defined.

Lemma sel_val_inj sel sel' : sel_val sel = sel_val sel' → sel = sel'.
Proof. by destruct sel, sel'. Qed.

Definition QDMA_OFFSET_IND_CTXT_DATA : Z := 0x804.
Definition QDMA_OFFSET_IND_CTXT_MASK : Z := 0x824.
Definition QDMA_OFFSET_IND_CTXT_CMD : Z := 0x844.
Definition QDMA_IND_CTXT_CMD_BUSY_MASK : Z := 0x1.
Definition QDMA_IND_CTXT_DATA_NUM_REGS : nat := 8.

(** The bit-fields of [union qdma_ind_ctxt_cmd]: busy:1, sel:4, op:2, qid:12. *)
Definition CMD_SEL_MASK : Z := GENMASK 4 1.
Definition CMD_OP_MASK : Z := GENMASK 6 5.
Definition CMD_QID_MASK : Z := GENMASK 18 7.

(** [cmd.word = 0; cmd.bits.qid = ...; cmd.bits.op = ...; cmd.bits.sel = ...] *)
Definition qdma_ind_ctxt_cmd (sel : ind_ctxt_cmd_sel) (op : ind_ctxt_cmd_op) (qid : Z) : Z :=
  Z.lor (Z.lor (FIELD_SET CMD_QID_MASK qid) (FIELD_SET CMD_OP_MASK (op_val op)))
    (FIELD_SET CMD_SEL_MASK (sel_val sel)).

(** The queue id the twelve-bit field holds. *)
Definition cmd_qid (qid : Z) : Z := qid mod 4096.

(** ** The four helpers *)

Section helpers.
Context {dev : Type} `{Device dev}.

Definition monitor_busy : hwm dev Z :=
  hw_monitor_reg QDMA_OFFSET_IND_CTXT_CMD QDMA_IND_CTXT_CMD_BUSY_MASK 0
    QDMA_REG_POLL_DFLT_INTERVAL_US QDMA_REG_POLL_DFLT_TIMEOUT_US.

Definition qdma_indirect_reg_invalidate (sel : ind_ctxt_cmd_sel) (hw_qid : Z) : hwm dev Z :=
  qdma_reg_access_lock;;
  qdma_reg_write QDMA_OFFSET_IND_CTXT_CMD (qdma_ind_ctxt_cmd sel QDMA_CTXT_CMD_INV hw_qid);;
  rv ← monitor_busy;
  if negb (rv =? 0) then
    qdma_reg_access_release;; mret (ERR QDMA_ERR_HWACC_BUSY_TIMEOUT)
  else qdma_reg_access_release;; mret QDMA_SUCCESS.

Definition qdma_indirect_reg_clear (sel : ind_ctxt_cmd_sel) (hw_qid : Z) : hwm dev Z :=
  qdma_reg_access_lock;;
  qdma_reg_write QDMA_OFFSET_IND_CTXT_CMD (qdma_ind_ctxt_cmd sel QDMA_CTXT_CMD_CLR hw_qid);;
  rv ← monitor_busy;
  if negb (rv =? 0) then
    qdma_reg_access_release;; mret (ERR QDMA_ERR_HWACC_BUSY_TIMEOUT)
  else qdma_reg_access_release;; mret QDMA_SUCCESS.

(** Returns the return value and [data]; on a timeout [data] keeps the
    zeroes its callers initialise it with. *)
Definition qdma_indirect_reg_read (sel : ind_ctxt_cmd_sel) (hw_qid : Z) (cnt : nat) :
    hwm dev (Z * list Z) :=
  qdma_reg_access_lock;;
  qdma_reg_write QDMA_OFFSET_IND_CTXT_CMD (qdma_ind_ctxt_cmd sel QDMA_CTXT_CMD_RD hw_qid);;
  rv ← monitor_busy;
  if negb (rv =? 0) then
    qdma_reg_access_release;; mret (ERR QDMA_ERR_HWACC_BUSY_TIMEOUT, replicate cnt 0)
  else
    data ← read_words QDMA_OFFSET_IND_CTXT_DATA cnt;
    qdma_reg_access_release;; mret (QDMA_SUCCESS, data).

(** [wr_data]: [struct qdma_indirect_ctxt_regs] seen as seventeen words; [data]
    has [cnt] elements. *)
Definition qdma_indirect_ctxt_regs (sel : ind_ctxt_cmd_sel) (hw_qid : Z) (data : list Z) : list Z :=
  ((λ index, default 0 (data !! index)) <$> seq 0 QDMA_IND_CTXT_DATA_NUM_REGS) ++
  replicate QDMA_IND_CTXT_DATA_NUM_REGS 0xFFFFFFFF ++
  [qdma_ind_ctxt_cmd sel QDMA_CTXT_CMD_WR hw_qid].

Definition qdma_indirect_reg_write (sel : ind_ctxt_cmd_sel) (hw_qid : Z) (data : list Z) :
    hwm dev Z :=
  qdma_reg_access_lock;;
  write_words QDMA_OFFSET_IND_CTXT_DATA (qdma_indirect_ctxt_regs sel hw_qid data);;
  rv ← monitor_busy;
  if negb (rv =? 0) then
    qdma_reg_access_release;; mret (ERR QDMA_ERR_HWACC_BUSY_TIMEOUT)
  else qdma_reg_access_release;; mret QDMA_SUCCESS.
End helpers.

(** ** The lock is always given back *)

Section lock.
Context {dev : Type} `{Device dev}.

Lemma releases_return {A} (a : A) : releases (dev := dev) (qdma_reg_access_release;; mret a).
Proof using. apply releases_then; [apply releases_release|]. intros _. apply keeps_ret. Qed.

Lemma releases_poll {A} (k : Z → hwm dev A) (m : hwm dev ()) :
  keeps true m → (∀ rv, releases (k rv)) → releases (m;; monitor_busy ≫= k).
Proof using.
  intros Hm Hk. apply releases_bind; [done|]. intros _. apply releases_bind; [|done].
  apply keeps_monitor.
Qed.

Lemma keeps_indirect_invalidate sel qid : keeps false (qdma_indirect_reg_invalidate sel qid).
Proof using.
  apply keeps_critical. intros _. apply releases_poll; [apply keeps_write|].
  intros rv. apply releases_if; apply releases_return.
Qed.

Lemma keeps_indirect_clear sel qid : keeps false (qdma_indirect_reg_clear sel qid).
Proof using.
  apply keeps_critical. intros _. apply releases_poll; [apply keeps_write|].
  intros rv. apply releases_if; apply releases_return.
Qed.

Lemma keeps_indirect_write sel qid data : keeps false (qdma_indirect_reg_write sel qid data).
Proof using.
  apply keeps_critical. intros _. apply releases_poll; [apply keeps_write_words|].
  intros rv. apply releases_if; apply releases_return.
Qed.

Lemma keeps_indirect_read sel qid cnt : keeps false (qdma_indirect_reg_read sel qid cnt).
Proof using.
  apply keeps_critical. intros _. apply releases_poll; [apply keeps_write|].
  intros rv. apply releases_if; [apply releases_return|].
  apply releases_bind; [apply keeps_read_words|]. intros l. apply releases_return.
Qed.
End lock.

#[export] Hint Resolve keeps_indirect_invalidate keeps_indirect_clear keeps_indirect_write
  keeps_indirect_read : qdma.

(** ** The device *)

Definition data_reg (i : nat) : Z := QDMA_OFFSET_IND_CTXT_DATA + 4 * Z.of_nat i.
Definition mask_reg (i : nat) : Z := QDMA_OFFSET_IND_CTXT_MASK + 4 * Z.of_nat i.

(** What the indirect context registers of the hardware do.  [ctxt_ram] is
    the memory behind them (selector, queue id, word), [ctxt_busy] the number
    of polling intervals until the command in progress is complete and
    [ctxt_latency] a bound on it.  A command acts on the entry named by the
    selector and queue-id fields of the command word. *)
Class IndirectCtxt (dev : Type) `{Device dev} := {
  ctxt_data : dev → nat → Z;
  ctxt_mask : dev → nat → Z;
  ctxt_ram : dev → Z → Z → nat → Z;
  ctxt_busy : dev → nat;
  ctxt_latency : nat;

  read_data_reg d i : (i < 8)%nat → dev_read (data_reg i) d = (ctxt_data d i, d);
  read_cmd_reg d : ∃ v, dev_read QDMA_OFFSET_IND_CTXT_CMD d = (v, d) ∧
    Z.land v QDMA_IND_CTXT_CMD_BUSY_MASK = if decide (ctxt_busy d = O) then 0 else 1;

  delay_busy d us : ctxt_busy (dev_delay us d) = pred (ctxt_busy d);
  delay_data d us i : ctxt_data (dev_delay us d) i = ctxt_data d i;
  delay_ram d us sel qid i : ctxt_ram (dev_delay us d) sel qid i = ctxt_ram d sel qid i;

  write_data_reg d i v j : (i < 8)%nat →
    ctxt_data (dev_write (data_reg i) v d) j = if decide (i = j) then u32 v else ctxt_data d j;
  write_data_mask d i v j : (i < 8)%nat → ctxt_mask (dev_write (data_reg i) v d) j = ctxt_mask d j;
  write_data_ram d i v sel qid k : (i < 8)%nat →
    ctxt_ram (dev_write (data_reg i) v d) sel qid k = ctxt_ram d sel qid k;
  write_data_busy d i v : (i < 8)%nat → ctxt_busy (dev_write (data_reg i) v d) = ctxt_busy d;

  write_mask_reg d i v j : (i < 8)%nat →
    ctxt_mask (dev_write (mask_reg i) v d) j = if decide (i = j) then u32 v else ctxt_mask d j;
  write_mask_data d i v j : (i < 8)%nat → ctxt_data (dev_write (mask_reg i) v d) j = ctxt_data d j;
  write_mask_ram d i v sel qid k : (i < 8)%nat →
    ctxt_ram (dev_write (mask_reg i) v d) sel qid k = ctxt_ram d sel qid k;
  write_mask_busy d i v : (i < 8)%nat → ctxt_busy (dev_write (mask_reg i) v d) = ctxt_busy d;

  cmd_latency d w : ctxt_busy d = O →
    (ctxt_busy (dev_write QDMA_OFFSET_IND_CTXT_CMD w d) <= ctxt_latency)%nat;
  cmd_clear d w sel qid i : ctxt_busy d = O → (i < 8)%nat →
    FIELD_GET CMD_OP_MASK w = op_val QDMA_CTXT_CMD_CLR →
    ctxt_ram (dev_write QDMA_OFFSET_IND_CTXT_CMD w d) sel qid i =
    if decide (FIELD_GET CMD_SEL_MASK w = sel ∧ FIELD_GET CMD_QID_MASK w = qid)
    then 0 else ctxt_ram d sel qid i;
  cmd_write d w sel qid i : ctxt_busy d = O → (i < 8)%nat →
    FIELD_GET CMD_OP_MASK w = op_val QDMA_CTXT_CMD_WR →
    ctxt_ram (dev_write QDMA_OFFSET_IND_CTXT_CMD w d) sel qid i =
    if decide (FIELD_GET CMD_SEL_MASK w = sel ∧ FIELD_GET CMD_QID_MASK w = qid)
    then Z.lor (Z.land (ctxt_data d i) (ctxt_mask d i))
               (Z.ldiff (ctxt_ram d sel qid i) (ctxt_mask d i))
    else ctxt_ram d sel qid i;
  cmd_read_data d w i : ctxt_busy d = O → (i < 8)%nat →
    FIELD_GET CMD_OP_MASK w = op_val QDMA_CTXT_CMD_RD →
    ctxt_data (dev_write QDMA_OFFSET_IND_CTXT_CMD w d) i =
    ctxt_ram d (FIELD_GET CMD_SEL_MASK w) (FIELD_GET CMD_QID_MASK w) i;
  cmd_read_ram d w sel qid i : ctxt_busy d = O → (i < 8)%nat →
    FIELD_GET CMD_OP_MASK w = op_val QDMA_CTXT_CMD_RD →
    ctxt_ram (dev_write QDMA_OFFSET_IND_CTXT_CMD w d) sel qid i = ctxt_ram d sel qid i;
  cmd_inv_other d w sel qid i : ctxt_busy d = O → (i < 8)%nat →
    FIELD_GET CMD_OP_MASK w = op_val QDMA_CTXT_CMD_INV →
    ¬ (FIELD_GET CMD_SEL_MASK w = sel ∧ FIELD_GET CMD_QID_MASK w = qid) →
    ctxt_ram (dev_write QDMA_OFFSET_IND_CTXT_CMD w d) sel qid i = ctxt_ram d sel qid i;
  ram_u32 d sel qid i : is_u 32 (ctxt_ram d sel qid i);
}.

(** The driver's time-out covers the device's latency. *)
Class TimelyDevice (dev : Type) `{IndirectCtxt dev} :=
  timely : (Z.of_nat ctxt_latency <= 50000).

Lemma cmd_fields sel op qid :
  FIELD_GET CMD_SEL_MASK (u32 (qdma_ind_ctxt_cmd sel op qid)) = sel_val sel ∧
  FIELD_GET CMD_OP_MASK (u32 (qdma_ind_ctxt_cmd sel op qid)) = op_val op ∧
  FIELD_GET CMD_QID_MASK (u32 (qdma_ind_ctxt_cmd sel op qid)) = cmd_qid qid.
Proof.
  assert (fits CMD_SEL_MASK (sel_val sel)) by (destruct sel; mask_compute).
  assert (fits CMD_OP_MASK (op_val op)) by (destruct op; mask_compute).
  unfold qdma_ind_ctxt_cmd. split_and!; fields; [done..|].
  rewrite FIELD_GET_SET by (vm_compute; done). change (mask_width CMD_QID_MASK) with 12.
  by rewrite Z.land_ones.
Qed.

Section busy.
Context {dev : Type} `{IndirectCtxt dev}.
Implicit Types d : dev.

(** *** Polling the busy bit *)

Lemma reg_read_cmd d l :
  ∃ v, qdma_reg_read QDMA_OFFSET_IND_CTXT_CMD (mk_hw d l) = Some (v, mk_hw d l) ∧
    (Z.land v QDMA_IND_CTXT_CMD_BUSY_MASK =? 0) = bool_decide (ctxt_busy d = O).
Proof using Type*.
  destruct (read_cmd_reg d) as (v & Hv & Hb). exists v. unfold qdma_reg_read. simpl.
  change (u32 QDMA_OFFSET_IND_CTXT_CMD) with QDMA_OFFSET_IND_CTXT_CMD. rewrite Hv.
  split; [done|]. rewrite Hb. by destruct (decide (ctxt_busy d = O)) as [->|]; case_bool_decide.
Qed.

(** What waiting may change: nothing but the busy count. *)
Definition settled (d d' : dev) : Prop :=
  ctxt_busy d' = O ∧ (∀ i, ctxt_data d' i = ctxt_data d i) ∧
  ∀ sel qid i, ctxt_ram d' sel qid i = ctxt_ram d sel qid i.

Lemma monitor_loop_settles n us d l :
  (ctxt_busy d < n)%nat →
  ∃ d', monitor_loop n QDMA_OFFSET_IND_CTXT_CMD QDMA_IND_CTXT_CMD_BUSY_MASK 0 us (mk_hw d l) =
    Some (true, mk_hw d' l) ∧ settled d d'.
Proof using Type*.
  revert d. induction n as [|n IH]; intros d Hn; [lia|]. simpl. unfold mbind, hwm_bind.
  destruct (reg_read_cmd d l) as (v & -> & Hb). rewrite Hb.
  case_bool_decide as Hz; [by exists d|]. simpl.
  destruct (IH (dev_delay us d)) as (d' & Hl & Hs1 & Hs2 & Hs3); [rewrite delay_busy; lia|].
  exists d'. split; [done|]. split; [done|]. split; intros.
  - by rewrite Hs2, delay_data.
  - by rewrite Hs3, delay_ram.
Qed.

Lemma monitor_loop_busy n us d l :
  (n <= ctxt_busy d)%nat →
  ∃ d', monitor_loop n QDMA_OFFSET_IND_CTXT_CMD QDMA_IND_CTXT_CMD_BUSY_MASK 0 us (mk_hw d l) =
    Some (false, mk_hw d' l) ∧ ctxt_busy d' = (ctxt_busy d - n)%nat ∧
    (∀ i, ctxt_data d' i = ctxt_data d i) ∧
    ∀ sel qid i, ctxt_ram d' sel qid i = ctxt_ram d sel qid i.
Proof using Type*.
  revert d. induction n as [|n IH]; intros d Hn.
  { exists d. simpl. split; [done|]. by rewrite Nat.sub_0_r. }
  simpl. unfold mbind, hwm_bind. destruct (reg_read_cmd d l) as (v & -> & Hb). rewrite Hb.
  case_bool_decide as Hz; [lia|]. simpl.
  destruct (IH (dev_delay us d)) as (d' & Hl & Hs1 & Hs2 & Hs3); [rewrite delay_busy; lia|].
  exists d'. split; [done|]. rewrite delay_busy in Hs1. split; [lia|]. split; intros.
  - by rewrite Hs2, delay_data.
  - by rewrite Hs3, delay_ram.
Qed.

Lemma poll_count : poll_iterations (QDMA_REG_POLL_DFLT_TIMEOUT_US / QDMA_REG_POLL_DFLT_INTERVAL_US)
  = Z.to_nat 50000.
Proof using. reflexivity. Qed.

Lemma monitor_busy_eq (s : hw_state dev) :
  monitor_busy s =
  match monitor_loop (Z.to_nat 50000) QDMA_OFFSET_IND_CTXT_CMD QDMA_IND_CTXT_CMD_BUSY_MASK 0
          QDMA_REG_POLL_DFLT_INTERVAL_US s with
  | None => None
  | Some (true, s) => Some (QDMA_SUCCESS, s)
  | Some (false, s) =>
      match qdma_reg_read QDMA_OFFSET_IND_CTXT_CMD s with
      | None => None
      | Some (v, s) =>
          Some (if Z.land v QDMA_IND_CTXT_CMD_BUSY_MASK =? 0 then QDMA_SUCCESS
                else ERR QDMA_ERR_HWACC_BUSY_TIMEOUT, s)
      end
  end.
Proof using.
  unfold monitor_busy, hw_monitor_reg.
  change (QDMA_REG_POLL_DFLT_INTERVAL_US =? 0) with false.
  change (QDMA_REG_POLL_DFLT_TIMEOUT_US =? 0) with false. cbv iota zeta.
  rewrite poll_count. unfold mbind, hwm_bind.
  destruct (monitor_loop _ _ _ _ _ s) as [[[] s1]|]; try done.
  destruct (qdma_reg_read _ s1) as [[v s2]|]; [|done]. by destruct (_ =? 0).
Qed.

Lemma monitor_busy_ok d l :
  (Z.of_nat (ctxt_busy d) <= 50000) →
  ∃ d', monitor_busy (mk_hw d l) = Some (QDMA_SUCCESS, mk_hw d' l) ∧ settled d d'.
Proof using Type*.
  intros Hb. rewrite monitor_busy_eq. destruct (decide (ctxt_busy d < Z.to_nat 50000)%nat) as [Hlt|Hge].
  - destruct (monitor_loop_settles _ QDMA_REG_POLL_DFLT_INTERVAL_US d l Hlt) as (d' & -> & ?).
    by exists d'.
  - destruct (monitor_loop_busy (Z.to_nat 50000) QDMA_REG_POLL_DFLT_INTERVAL_US d l)
      as (d' & -> & Hd & ?); [lia|].
    destruct (reg_read_cmd d' l) as (v & -> & ->). rewrite bool_decide_eq_true_2 by lia.
    exists d'. split; [done|]. split; [lia|done].
Qed.

Lemma monitor_busy_timeout d l :
  (50000 < Z.of_nat (ctxt_busy d)) →
  ∃ d', monitor_busy (mk_hw d l) = Some (ERR QDMA_ERR_HWACC_BUSY_TIMEOUT, mk_hw d' l).
Proof using Type*.
  intros Hb. rewrite monitor_busy_eq.
  destruct (monitor_loop_busy (Z.to_nat 50000) QDMA_REG_POLL_DFLT_INTERVAL_US d l)
    as (d' & -> & Hd & ?); [lia|].
  destruct (reg_read_cmd d' l) as (v & -> & ->). rewrite bool_decide_eq_false_2 by lia.
  by exists d'.
Qed.

Lemma reg_write_cmd d w l :
  qdma_reg_write QDMA_OFFSET_IND_CTXT_CMD w (mk_hw d l) =
  Some (tt, mk_hw (dev_write QDMA_OFFSET_IND_CTXT_CMD (u32 w) d) l).
Proof using. done. Qed.

(** A device that stays busy longer than the time-out: the error is
    reported and the lock is free again. *)
Lemma indirect_clear_timeout sel qid d :
  50000 < Z.of_nat (ctxt_busy (dev_write QDMA_OFFSET_IND_CTXT_CMD
    (u32 (qdma_ind_ctxt_cmd sel QDMA_CTXT_CMD_CLR qid)) d)) →
  ∃ d', qdma_indirect_reg_clear sel qid (mk_hw d false) =
    Some (ERR QDMA_ERR_HWACC_BUSY_TIMEOUT, mk_hw d' false).
Proof using Type*.
  intros Hb. unfold qdma_indirect_reg_clear, mbind, hwm_bind, qdma_reg_access_lock.
  cbn [hw hw_prg_lock]. rewrite reg_write_cmd.
  destruct (monitor_busy_timeout _ true Hb) as (d' & ->). by eexists.
Qed.
End busy.

(** *** Commands *)

Section device.
Context {dev : Type} `{TimelyDevice dev}.
Implicit Types d : dev.

Lemma command_ok d w l :
  ctxt_busy d = O →
  ∃ d', monitor_busy (mk_hw (dev_write QDMA_OFFSET_IND_CTXT_CMD w d) l) =
    Some (QDMA_SUCCESS, mk_hw d' l) ∧ settled (dev_write QDMA_OFFSET_IND_CTXT_CMD w d) d'.
Proof using Type*.
  intros Hb. apply monitor_busy_ok. pose proof (cmd_latency d w Hb). unfold TimelyDevice in *. lia.
Qed.

Lemma u32_data_reg i : (i < 8)%nat → u32 (data_reg i) = data_reg i.
Proof using. intros. apply u32_small. unfold data_reg, QDMA_OFFSET_IND_CTXT_DATA. lia. Qed.
Lemma u32_mask_reg i : (i < 8)%nat → u32 (mask_reg i) = mask_reg i.
Proof using. intros. apply u32_small. unfold mask_reg, QDMA_OFFSET_IND_CTXT_MASK. lia. Qed.

Lemma write_data_words l i0 d b :
  (i0 + length l <= 8)%nat →
  ∃ d', write_words (data_reg i0) l (mk_hw d b) = Some (tt, mk_hw d' b) ∧
    ctxt_busy d' = ctxt_busy d ∧ (∀ j, ctxt_mask d' j = ctxt_mask d j) ∧
    (∀ sel qid j, ctxt_ram d' sel qid j = ctxt_ram d sel qid j) ∧
    (∀ k v, l !! k = Some v → ctxt_data d' (i0 + k)%nat = u32 v) ∧
    (∀ j, (j < i0)%nat → ctxt_data d' j = ctxt_data d j).
Proof using Type*.
  revert i0 d. induction l as [|v l IH]; intros i0 d Hlen; simpl in Hlen.
  { exists d. by split_and!. }
  destruct (IH (S i0) (dev_write (data_reg i0) (u32 v) d)) as (d' & E & Q1 & Q2 & Q3 & Q4 & Q5);
    [lia|]. exists d'. split.
  { simpl. unfold mbind, hwm_bind, qdma_reg_write. simpl. rewrite u32_data_reg by lia.
    rewrite <- E. f_equal. unfold data_reg. lia. }
  split_and!.
  - by rewrite Q1, write_data_busy by lia.
  - intros j. by rewrite Q2, write_data_mask by lia.
  - intros. by rewrite Q3, write_data_ram by lia.
  - intros [|k] x Hk; simpl in Hk.
    + simplify_eq. rewrite Nat.add_0_r, Q5, write_data_reg by lia.
      rewrite decide_True by done. by apply wrap_wrap.
    + replace (i0 + S k)%nat with (S i0 + k)%nat by lia. by apply Q4.
  - intros j Hj. rewrite Q5, write_data_reg by lia. by rewrite decide_False by lia.
Qed.

Lemma write_mask_words l i0 d b :
  (i0 + length l <= 8)%nat →
  ∃ d', write_words (mask_reg i0) l (mk_hw d b) = Some (tt, mk_hw d' b) ∧
    ctxt_busy d' = ctxt_busy d ∧ (∀ j, ctxt_data d' j = ctxt_data d j) ∧
    (∀ sel qid j, ctxt_ram d' sel qid j = ctxt_ram d sel qid j) ∧
    (∀ k v, l !! k = Some v → ctxt_mask d' (i0 + k)%nat = u32 v) ∧
    (∀ j, (j < i0)%nat → ctxt_mask d' j = ctxt_mask d j).
Proof using Type*.
  revert i0 d. induction l as [|v l IH]; intros i0 d Hlen; simpl in Hlen.
  { exists d. by split_and!. }
  destruct (IH (S i0) (dev_write (mask_reg i0) (u32 v) d)) as (d' & E & Q1 & Q2 & Q3 & Q4 & Q5);
    [lia|]. exists d'. split.
  { simpl. unfold mbind, hwm_bind, qdma_reg_write. simpl. rewrite u32_mask_reg by lia.
    rewrite <- E. f_equal. unfold mask_reg. lia. }
  split_and!.
  - by rewrite Q1, write_mask_busy by lia.
  - intros j. by rewrite Q2, write_mask_data by lia.
  - intros. by rewrite Q3, write_mask_ram by lia.
  - intros [|k] x Hk; simpl in Hk.
    + simplify_eq. rewrite Nat.add_0_r, Q5, write_mask_reg by lia.
      rewrite decide_True by done. by apply wrap_wrap.
    + replace (i0 + S k)%nat with (S i0 + k)%nat by lia. by apply Q4.
  - intros j Hj. rewrite Q5, write_mask_reg by lia. by rewrite decide_False by lia.
Qed.

Lemma write_words_app a l1 l2 (s : hw_state dev) :
  write_words a (l1 ++ l2) s =
  match write_words a l1 s with
  | Some (_, s) => write_words (a + 4 * Z.of_nat (length l1)) l2 s
  | None => None
  end.
Proof using.
  revert a s. induction l1 as [|v l1 IH]; intros a s; simpl; [f_equal; lia|].
  unfold mbind, hwm_bind. simpl. rewrite IH. destruct (write_words (a + 4) l1 _) as [[_ s']|]; [|done].
  f_equal. lia.
Qed.

Lemma read_data_words n i0 d b :
  (i0 + n <= 8)%nat →
  read_words (data_reg i0) n (mk_hw d b) = Some (ctxt_data d <$> seq i0 n, mk_hw d b).
Proof using Type*.
  revert i0. induction n as [|n IH]; intros i0 Hn; [done|]. simpl.
  unfold mbind, hwm_bind. unfold qdma_reg_read at 1. simpl. rewrite u32_data_reg by lia.
  rewrite read_data_reg by lia.
  replace (data_reg i0 + 4) with (data_reg (S i0)) by (unfold data_reg; lia).
  by rewrite IH by lia.
Qed.

(** *** The helpers implement the context memory *)

(** No command in progress and the lock free. *)
Definition idle (s : hw_state dev) : Prop := hw_prg_lock s = false ∧ ctxt_busy (hw s) = O.

(** The entry a helper was called for. *)
Definition addressed (sel : ind_ctxt_cmd_sel) (qid sel' qid' : Z) : Prop :=
  sel' = sel_val sel ∧ qid' = cmd_qid qid.

Lemma cmd_addressed sel op qid sel' qid' :
  FIELD_GET CMD_SEL_MASK (u32 (qdma_ind_ctxt_cmd sel op qid)) = sel' ∧
  FIELD_GET CMD_QID_MASK (u32 (qdma_ind_ctxt_cmd sel op qid)) = qid' ↔
  addressed sel qid sel' qid'.
Proof using.
  destruct (cmd_fields sel op qid) as (-> & _ & ->). unfold addressed. naive_solver.
Qed.

#[local] Opaque FIELD_GET qdma_ind_ctxt_cmd wrap.

Lemma indirect_write_ok sel qid data s :
  idle s →
  ∃ s', qdma_indirect_reg_write sel qid data s = Some (QDMA_SUCCESS, s') ∧ idle s' ∧
    ∀ sel' qid' i, (i < 8)%nat →
      (addressed sel qid sel' qid' → ctxt_ram (hw s') sel' qid' i = u32 (default 0 (data !! i))) ∧
      (¬ addressed sel qid sel' qid' → ctxt_ram (hw s') sel' qid' i = ctxt_ram (hw s) sel' qid' i).
Proof using Type*.
  destruct s as [d l]. intros [Hl Hb]. simpl in *. subst l.
  unfold qdma_indirect_reg_write, mbind, hwm_bind, qdma_reg_access_lock. cbn [hw hw_prg_lock].
  change QDMA_OFFSET_IND_CTXT_DATA with (data_reg 0). unfold qdma_indirect_ctxt_regs.
  set (ws := (λ index, default 0 (data !! index)) <$> seq 0 QDMA_IND_CTXT_DATA_NUM_REGS).
  set (w := qdma_ind_ctxt_cmd sel QDMA_CTXT_CMD_WR qid).
  rewrite write_words_app.
  destruct (write_data_words ws 0 d true) as (d1 & -> & B1 & M1 & R1 & D1 & _); [done|].
  rewrite write_words_app. change (data_reg 0 + 4 * Z.of_nat (length ws)) with (mask_reg 0).
  destruct (write_mask_words (replicate QDMA_IND_CTXT_DATA_NUM_REGS 0xFFFFFFFF) 0 d1 true)
    as (d2 & -> & B2 & D2 & R2 & M2 & _); [done|].
  change (mask_reg 0 + 4 * Z.of_nat (length (replicate QDMA_IND_CTXT_DATA_NUM_REGS 0xFFFFFFFF)))
    with QDMA_OFFSET_IND_CTXT_CMD.
  cbn [write_words]. unfold mbind, hwm_bind. rewrite reg_write_cmd. cbn [mret hwm_ret].
  destruct (command_ok d2 (u32 w) true) as (d3 & E3 & B3 & D3 & R3); [congruence|].
  unfold mret, hwm_ret. rewrite E3. simpl. eexists. split; [done|]. split; [done|].
  intros sel' qid' i Hi. simpl. rewrite R3.
  rewrite cmd_write; [|congruence|done|exact (proj1 (proj2 (cmd_fields _ _ _)))]. split; intros Ha.
  - rewrite decide_True by (by apply cmd_addressed). rewrite D2.
    assert (ctxt_data d1 i = u32 (default 0 (data !! i))) as ->.
    { apply (D1 i). unfold ws. rewrite list_lookup_fmap, lookup_seq_lt by done. done. }
    assert (ctxt_mask d2 i = Z.ones 32) as ->.
    { etrans; [apply (M2 i 0xFFFFFFFF), lookup_replicate; done|]. by rewrite u32_small by lia. }
    rewrite <- wrap_land_ones, wrap_wrap by lia.
    assert (Z.ldiff (ctxt_ram d2 sel' qid' i) (Z.ones 32) = 0) as ->; [|by rewrite Z.lor_0_r].
    rewrite Z.ldiff_ones_r by lia. pose proof (ram_u32 d2 sel' qid' i) as Hu. unfold is_u in Hu.
    rewrite Z.shiftr_div_pow2, Z.div_small by lia. done.
  - rewrite decide_False by (by intros ?%cmd_addressed). by rewrite R2, R1.
Qed.

Lemma indirect_clear_ok sel qid s :
  idle s →
  ∃ s', qdma_indirect_reg_clear sel qid s = Some (QDMA_SUCCESS, s') ∧ idle s' ∧
    ∀ sel' qid' i, (i < 8)%nat →
      (addressed sel qid sel' qid' → ctxt_ram (hw s') sel' qid' i = 0) ∧
      (¬ addressed sel qid sel' qid' → ctxt_ram (hw s') sel' qid' i = ctxt_ram (hw s) sel' qid' i).
Proof using Type*.
  destruct s as [d l]. intros [Hl Hb]. simpl in *. subst l.
  unfold qdma_indirect_reg_clear, mbind, hwm_bind, qdma_reg_access_lock. cbn [hw hw_prg_lock]. rewrite reg_write_cmd.
  destruct (command_ok d (u32 (qdma_ind_ctxt_cmd sel QDMA_CTXT_CMD_CLR qid)) true)
    as (d3 & -> & B3 & D3 & R3); [done|].
  simpl. eexists. split; [done|]. split; [done|]. intros sel' qid' i Hi. simpl.
  rewrite R3, cmd_clear; [|done|done|apply cmd_fields]. split; intros Ha.
  - by rewrite decide_True by (by apply cmd_addressed).
  - by rewrite decide_False by (by intros ?%cmd_addressed).
Qed.

Lemma indirect_invalidate_ok sel qid s :
  idle s →
  ∃ s', qdma_indirect_reg_invalidate sel qid s = Some (QDMA_SUCCESS, s') ∧ idle s' ∧
    ∀ sel' qid' i, (i < 8)%nat → ¬ addressed sel qid sel' qid' →
      ctxt_ram (hw s') sel' qid' i = ctxt_ram (hw s) sel' qid' i.
Proof using Type*.
  destruct s as [d l]. intros [Hl Hb]. simpl in *. subst l.
  unfold qdma_indirect_reg_invalidate, mbind, hwm_bind, qdma_reg_access_lock. cbn [hw hw_prg_lock]. rewrite reg_write_cmd.
  destruct (command_ok d (u32 (qdma_ind_ctxt_cmd sel QDMA_CTXT_CMD_INV qid)) true)
    as (d3 & -> & B3 & D3 & R3); [done|].
  simpl. eexists. split; [done|]. split; [done|]. intros sel' qid' i Hi Ha. simpl.
  rewrite R3, cmd_inv_other; [done|done|done|apply cmd_fields|by intros ?%cmd_addressed].
Qed.

Lemma indirect_read_ok sel qid cnt s :
  idle s → (cnt <= 8)%nat →
  ∃ s', qdma_indirect_reg_read sel qid cnt s =
      Some ((QDMA_SUCCESS, ctxt_ram (hw s) (sel_val sel) (cmd_qid qid) <$> seq 0 cnt), s') ∧
    idle s' ∧ ∀ sel' qid' i, (i < 8)%nat →
      ctxt_ram (hw s') sel' qid' i = ctxt_ram (hw s) sel' qid' i.
Proof using Type*.
  destruct s as [d l]. intros [Hl Hb] Hcnt. simpl in *. subst l.
  unfold qdma_indirect_reg_read, mbind, hwm_bind, qdma_reg_access_lock. cbn [hw hw_prg_lock]. rewrite reg_write_cmd.
  set (w := u32 (qdma_ind_ctxt_cmd sel QDMA_CTXT_CMD_RD qid)).
  destruct (command_ok d w true) as (d3 & -> & B3 & D3 & R3); [done|]. simpl.
  change QDMA_OFFSET_IND_CTXT_DATA with (data_reg 0). rewrite read_data_words by done.
  unfold qdma_reg_access_release. simpl. exists (mk_hw d3 false). split_and!; [|done..|].
  - unfold mret, hwm_ret. do 3 f_equal. apply list_fmap_ext. intros j i Hj. apply lookup_seq in Hj as [-> Hj].
    simpl. rewrite D3, cmd_read_data; [|done|lia|apply cmd_fields]. unfold w.
    destruct (cmd_fields sel QDMA_CTXT_CMD_RD qid) as (-> & _ & ->). done.
  - intros sel' qid' i Hi. simpl. rewrite R3, cmd_read_ram; [done|done|done|apply cmd_fields].
Qed.
End device.

(** ** A simulated device

    A device that behaves as documented and completes a command after two
    polling intervals (one that is already busy stays so); the remaining
    registers are plain storage. *)

Record sim := mk_sim {
  sim_data : nat → Z;
  sim_mask : nat → Z;
  sim_ram : Z → Z → nat → Z;
  sim_busy : nat;
  sim_regs : Z → Z;
}.

(** The register an address names. *)
Inductive sim_reg := SimData (i : nat) | SimMask (i : nat) | SimCmd | SimOther.
Definition sim_decode (a : Z) : sim_reg :=
  if a =? QDMA_OFFSET_IND_CTXT_CMD then SimCmd
  else if (QDMA_OFFSET_IND_CTXT_DATA <=? a) && (a <? QDMA_OFFSET_IND_CTXT_MASK) && (a mod 4 =? 0)
  then SimData (Z.to_nat ((a - QDMA_OFFSET_IND_CTXT_DATA) / 4))
  else if (QDMA_OFFSET_IND_CTXT_MASK <=? a) && (a <? QDMA_OFFSET_IND_CTXT_CMD) && (a mod 4 =? 0)
  then SimMask (Z.to_nat ((a - QDMA_OFFSET_IND_CTXT_MASK) / 4))
  else SimOther.

Definition upd {A} (f : nat → A) (i : nat) (v : A) : nat → A :=
  λ j, if decide (i = j) then v else f j.

Definition sim_command (w : Z) (d : sim) : sim :=
  let sel := FIELD_GET CMD_SEL_MASK w in
  let qid := FIELD_GET CMD_QID_MASK w in
  let op := FIELD_GET CMD_OP_MASK w in
  let ram f sel' qid' i :=
    if decide (sel = sel' ∧ qid = qid') then f i : Z else sim_ram d sel' qid' i in
  let busy := if decide (sim_busy d = O) then 2%nat else sim_busy d in
  if op =? op_val QDMA_CTXT_CMD_RD then
    mk_sim (sim_ram d sel qid) (sim_mask d) (sim_ram d) busy (sim_regs d)
  else if op =? op_val QDMA_CTXT_CMD_WR then
    mk_sim (sim_data d) (sim_mask d)
      (ram (λ i, Z.lor (Z.land (sim_data d i) (sim_mask d i))
                       (Z.ldiff (sim_ram d sel qid i) (sim_mask d i)))) busy (sim_regs d)
  else mk_sim (sim_data d) (sim_mask d) (ram (λ _, 0)) busy (sim_regs d).

#[export] Instance sim_device : Device sim := {|
  dev_read a d :=
    match sim_decode a with
    | SimData i => (u32 (sim_data d i), d)
    | SimMask i => (u32 (sim_mask d i), d)
    | SimCmd => (if decide (sim_busy d = O) then 0 else 1, d)
    | SimOther => (sim_regs d a, d)
    end;
  dev_write a v d :=
    match sim_decode a with
    | SimData i => mk_sim (upd (sim_data d) i v) (sim_mask d) (sim_ram d) (sim_busy d) (sim_regs d)
    | SimMask i => mk_sim (sim_data d) (upd (sim_mask d) i v) (sim_ram d) (sim_busy d) (sim_regs d)
    | SimCmd => sim_command v d
    | SimOther => mk_sim (sim_data d) (sim_mask d) (sim_ram d) (sim_busy d)
                    (λ a', if decide (a = a') then v else sim_regs d a')
    end;
  dev_delay _ d := mk_sim (sim_data d) (sim_mask d) (sim_ram d) (pred (sim_busy d)) (sim_regs d);
|}.

Lemma sim_decode_data i : (i < 8)%nat → sim_decode (data_reg i) = SimData i.
Proof. intros Hi. do 8 (destruct i as [|i]; [done|]). lia. Qed.
Lemma sim_decode_mask i : (i < 8)%nat → sim_decode (mask_reg i) = SimMask i.
Proof. intros Hi. do 8 (destruct i as [|i]; [done|]). lia. Qed.

Lemma sim_decode_cmd : sim_decode QDMA_OFFSET_IND_CTXT_CMD = SimCmd.
Proof. done. Qed.

Section sim_commands.
Context (w : Z) (d : sim).
#[local] Opaque FIELD_GET.

Lemma sim_command_rd :
  FIELD_GET CMD_OP_MASK w = op_val QDMA_CTXT_CMD_RD →
  sim_command w d =
  mk_sim (sim_ram d (FIELD_GET CMD_SEL_MASK w) (FIELD_GET CMD_QID_MASK w))
    (sim_mask d) (sim_ram d) (if decide (sim_busy d = O) then 2 else sim_busy d)%nat (sim_regs d).
Proof using. unfold sim_command. by intros ->. Qed.

Lemma sim_command_wr sel qid i :
  FIELD_GET CMD_OP_MASK w = op_val QDMA_CTXT_CMD_WR →
  sim_ram (sim_command w d) sel qid i =
  if decide (FIELD_GET CMD_SEL_MASK w = sel ∧ FIELD_GET CMD_QID_MASK w = qid)
  then Z.lor (Z.land (sim_data d i) (sim_mask d i))
         (Z.ldiff (sim_ram d (FIELD_GET CMD_SEL_MASK w) (FIELD_GET CMD_QID_MASK w) i)
            (sim_mask d i))
  else sim_ram d sel qid i.
Proof using. unfold sim_command. by intros ->. Qed.

Lemma sim_command_clr sel qid i :
  FIELD_GET CMD_OP_MASK w = op_val QDMA_CTXT_CMD_CLR →
  sim_ram (sim_command w d) sel qid i =
  if decide (FIELD_GET CMD_SEL_MASK w = sel ∧ FIELD_GET CMD_QID_MASK w = qid)
  then 0 else sim_ram d sel qid i.
Proof using. unfold sim_command. by intros ->. Qed.

Lemma sim_command_inv sel qid i :
  FIELD_GET CMD_OP_MASK w = op_val QDMA_CTXT_CMD_INV →
  sim_ram (sim_command w d) sel qid i =
  if decide (FIELD_GET CMD_SEL_MASK w = sel ∧ FIELD_GET CMD_QID_MASK w = qid)
  then 0 else sim_ram d sel qid i.
Proof using. unfold sim_command. by intros ->. Qed.
End sim_commands.

Lemma u32_merge a m r :
  u32 (Z.lor (Z.land a m) (Z.ldiff r m)) = Z.lor (Z.land (u32 a) (u32 m)) (Z.ldiff (u32 r) (u32 m)).
Proof.
  rewrite !wrap_land_ones by lia. apply Z.bits_inj'. intros n Hn.
  repeat rewrite ?Z.land_spec, ?Z.lor_spec, ?Z.ldiff_spec.
  by destruct (Z.testbit a n), (Z.testbit m n), (Z.testbit r n), (Z.testbit (Z.ones 32) n).
Qed.

#[export] Program Instance sim_indirect : IndirectCtxt sim := {|
  ctxt_data d i := u32 (sim_data d i);
  ctxt_mask d i := u32 (sim_mask d i);
  ctxt_ram d sel qid i := u32 (sim_ram d sel qid i);
  ctxt_busy := sim_busy;
  ctxt_latency := 2;
|}.
Next Obligation. intros d i Hi. simpl. by rewrite sim_decode_data. Qed.
Next Obligation. intros d. simpl. eexists. split; [done|]. by destruct (decide _). Qed.
Next Obligation. done. Qed.
Next Obligation. done. Qed.
Next Obligation. done. Qed.
Next Obligation.
  intros d i v j Hi. simpl. rewrite sim_decode_data by done. simpl. unfold upd.
  by destruct (decide (i = j)).
Qed.
Next Obligation. intros d i v j Hi. simpl. by rewrite sim_decode_data. Qed.
Next Obligation. intros d i v sel qid k Hi. simpl. by rewrite sim_decode_data. Qed.
Next Obligation. intros d i v Hi. simpl. by rewrite sim_decode_data. Qed.
Next Obligation.
  intros d i v j Hi. simpl. rewrite sim_decode_mask by done. simpl. unfold upd.
  by destruct (decide (i = j)).
Qed.
Next Obligation. intros d i v j Hi. simpl. by rewrite sim_decode_mask. Qed.
Next Obligation. intros d i v sel qid k Hi. simpl. by rewrite sim_decode_mask. Qed.
Next Obligation. intros d i v Hi. simpl. by rewrite sim_decode_mask. Qed.
Next Obligation.
  intros d w Hb. cbn [dev_write sim_device]. rewrite sim_decode_cmd. unfold sim_command.
  rewrite decide_True by done. by repeat case_match.
Qed.
Next Obligation.
  intros d w sel qid i Hb Hi Hop. cbn [dev_write sim_device]. rewrite sim_decode_cmd.
  rewrite sim_command_clr by done. by destruct (decide _).
Qed.
Next Obligation.
  intros d w sel qid i Hb Hi Hop. cbn [dev_write sim_device]. rewrite sim_decode_cmd.
  rewrite sim_command_wr by done. destruct (decide _) as [[<- <-]|]; [|done]. apply u32_merge.
Qed.
Next Obligation.
  intros d w i Hb Hi Hop. cbn [dev_write sim_device]. rewrite sim_decode_cmd.
  by rewrite sim_command_rd.
Qed.
Next Obligation.
  intros d w sel qid i Hb Hi Hop. cbn [dev_write sim_device]. rewrite sim_decode_cmd.
  by rewrite sim_command_rd.
Qed.
Next Obligation.
  intros d w sel qid i Hb Hi Hop Hn. cbn [dev_write sim_device]. rewrite sim_decode_cmd.
  rewrite sim_command_inv by done. by rewrite decide_False.
Qed.
Next Obligation. intros. by apply wrap_range. Qed.

#[export] Instance sim_timely : TimelyDevice sim.
Proof. unfold TimelyDevice. simpl. lia. Qed.

Definition sim_init : sim := mk_sim (λ _, 0) (λ _, 0) (λ _ _ _, 0) 0 (λ _, 0).
