(* ===== verification/SoftReg.v ===== *)
(** * Register map of the soft IP (qdma_soft_reg.h, qdma_access_common.h)

    The register offsets, field masks and constants the modelled functions
    use, as the headers define them. *)

From S2P Require Import Prelude Bits.

Definition QDMA_H2C_THROT_DATA_THRESH : Z := 0x4000.
Definition QDMA_THROT_EN_DATA : Z := 1.
Definition QDMA_THROT_EN_REQ : Z := 0.
Definition QDMA_H2C_THROT_REQ_THRESH : Z := 0x60.
Definition QDMA_FMAP_CTXT_W1_QID_MAX_MASK : Z := GENMASK 11 0.
Definition QDMA_FMAP_CTXT_W0_QID_MASK : Z := GENMASK 10 0.
Definition QDMA_SW_CTXT_W4_INTR_AGGR_MASK : Z := BIT 11.
Definition QDMA_SW_CTXT_W4_VEC_MASK : Z := GENMASK 10 0.
Definition QDMA_SW_CTXT_W1_IS_MM_MASK : Z := BIT 31.
Definition QDMA_SW_CTXT_W1_MRKR_DIS_MASK : Z := BIT 30.
Definition QDMA_SW_CTXT_W1_IRQ_REQ_MASK : Z := BIT 29.
Definition QDMA_SW_CTXT_W1_ERR_WB_SENT_MASK : Z := BIT 28.
Definition QDMA_SW_CTXT_W1_ERR_MASK : Z := GENMASK 27 26.
Definition QDMA_SW_CTXT_W1_IRQ_NO_LAST_MASK : Z := BIT 25.
Definition QDMA_SW_CTXT_W1_PORT_ID_MASK : Z := GENMASK 24 22.
Definition QDMA_SW_CTXT_W1_IRQ_EN_MASK : Z := BIT 21.
Definition QDMA_SW_CTXT_W1_WBK_EN_MASK : Z := BIT 20.
Definition QDMA_SW_CTXT_W1_MM_CHN_MASK : Z := BIT 19.
Definition QDMA_SW_CTXT_W1_BYP_MASK : Z := BIT 18.
Definition QDMA_SW_CTXT_W1_DSC_SZ_MASK : Z := GENMASK 17 16.
Definition QDMA_SW_CTXT_W1_RNG_SZ_MASK : Z := GENMASK 15 12.
Definition QDMA_SW_CTXT_W1_FETCH_MAX_MASK : Z := GENMASK 7 5.
Definition QDMA_SW_CTXT_W1_AT_MASK : Z := BIT 4.
Definition QDMA_SW_CTXT_W1_WB_INT_EN_MASK : Z := BIT 3.
Definition QDMA_SW_CTXT_W1_WBI_CHK_MASK : Z := BIT 2.
Definition QDMA_SW_CTXT_W1_FCRD_EN_MASK : Z := BIT 1.
Definition QDMA_SW_CTXT_W1_QEN_MASK : Z := BIT 0.
Definition QDMA_SW_CTXT_W0_FUNC_ID_MASK : Z := GENMASK 24 17.
Definition QDMA_SW_CTXT_W0_IRQ_ARM_MASK : Z := BIT 16.
Definition QDMA_SW_CTXT_W0_PIDX : Z := GENMASK 15 0.
Definition QDMA_PFTCH_CTXT_W1_VALID_MASK : Z := BIT 13.
Definition QDMA_PFTCH_CTXT_W1_SW_CRDT_H_MASK : Z := GENMASK 12 0.
Definition QDMA_PFTCH_CTXT_W0_SW_CRDT_L_MASK : Z := GENMASK 31 29.
Definition QDMA_PFTCH_CTXT_W0_Q_IN_PFETCH_MASK : Z := BIT 28.
Definition QDMA_PFTCH_CTXT_W0_PFETCH_EN_MASK : Z := BIT 27.
Definition QDMA_PFTCH_CTXT_W0_ERR_MASK : Z := BIT 26.
Definition QDMA_PFTCH_CTXT_W0_PORT_ID_MASK : Z := GENMASK 7 5.
Definition QDMA_PFTCH_CTXT_W0_BUF_SIZE_IDX_MASK : Z := GENMASK 4 1.
Definition QDMA_PFTCH_CTXT_W0_BYPASS_MASK : Z := BIT 0.
Definition QDMA_COMPL_CTXT_W4_INTR_AGGR_MASK : Z := BIT 15.
Definition QDMA_COMPL_CTXT_W4_INTR_VEC_MASK : Z := GENMASK 14 4.
Definition QDMA_COMPL_CTXT_W4_AT_MASK : Z := BIT 3.
Definition QDMA_COMPL_CTXT_W4_OVF_CHK_DIS_MASK : Z := BIT 2.
Definition QDMA_COMPL_CTXT_W4_FULL_UPDT_MASK : Z := BIT 1.
Definition QDMA_COMPL_CTXT_W4_TMR_RUN_MASK : Z := BIT 0.
Definition QDMA_COMPL_CTXT_W3_USR_TRG_PND_MASK : Z := BIT 31.
Definition QDMA_COMPL_CTXT_W3_ERR_MASK : Z := GENMASK 30 29.
Definition QDMA_COMPL_CTXT_W3_VALID_MASK : Z := BIT 28.
Definition QDMA_COMPL_CTXT_W3_CIDX_MASK : Z := GENMASK 27 12.
Definition QDMA_COMPL_CTXT_W3_PIDX_H_MASK : Z := GENMASK 11 0.
Definition QDMA_COMPL_CTXT_W2_PIDX_L_MASK : Z := GENMASK 31 28.
Definition QDMA_COMPL_CTXT_W2_DESC_SIZE_MASK : Z := GENMASK 27 26.
Definition QDMA_COMPL_CTXT_W2_BADDR_64_H_MASK : Z := GENMASK 25 0.
Definition QDMA_COMPL_CTXT_W1_BADDR_64_L_MASK : Z := GENMASK 31 6.
Definition QDMA_COMPL_CTXT_W0_RING_SZ_MASK : Z := GENMASK 31 28.
Definition QDMA_COMPL_CTXT_W0_COLOR_MASK : Z := BIT 27.
Definition QDMA_COMPL_CTXT_W0_INT_ST_MASK : Z := GENMASK 26 25.
Definition QDMA_COMPL_CTXT_W0_TIMER_IDX_MASK : Z := GENMASK 24 21.
Definition QDMA_COMPL_CTXT_W0_COUNTER_IDX_MASK : Z := GENMASK 20 17.
Definition QDMA_COMPL_CTXT_W0_FNC_ID_MASK : Z := GENMASK 12 5.
Definition QDMA_COMPL_CTXT_W0_TRIG_MODE_MASK : Z := GENMASK 4 2.
Definition QDMA_COMPL_CTXT_W0_EN_INT_MASK : Z := BIT 1.
Definition QDMA_COMPL_CTXT_W0_EN_STAT_DESC_MASK : Z := BIT 0.
Definition QDMA_HW_CTXT_W1_FETCH_PEND_MASK : Z := GENMASK 14 11.
Definition QDMA_HW_CTXT_W1_EVENT_PEND_MASK : Z := BIT 10.
Definition QDMA_HW_CTXT_W1_IDL_STP_B_MASK : Z := BIT 9.
Definition QDMA_HW_CTXT_W1_DSC_PND_MASK : Z := BIT 8.
Definition QDMA_HW_CTXT_W0_CRD_USE_MASK : Z := GENMASK 31 16.
Definition QDMA_HW_CTXT_W0_CIDX_MASK : Z := GENMASK 15 0.
Definition QDMA_CR_CTXT_W0_CREDT_MASK : Z := GENMASK 15 0.
Definition QDMA_INTR_CTXT_W2_AT_MASK : Z := BIT 18.
Definition QDMA_INTR_CTXT_W2_PIDX_MASK : Z := GENMASK 17 6.
Definition QDMA_INTR_CTXT_W2_PAGE_SIZE_MASK : Z := GENMASK 5 3.
Definition QDMA_INTR_CTXT_W2_BADDR_64_MASK : Z := GENMASK 2 0.
Definition QDMA_INTR_CTXT_W1_BADDR_64_MASK : Z := GENMASK 31 0.
Definition QDMA_INTR_CTXT_W0_BADDR_64_MASK : Z := GENMASK 31 15.
Definition QDMA_INTR_CTXT_W0_COLOR_MASK : Z := BIT 14.
Definition QDMA_INTR_CTXT_W0_INT_ST_MASK : Z := BIT 13.
Definition QDMA_INTR_CTXT_W0_VEC_ID_MASK : Z := GENMASK 11 1.
Definition QDMA_INTR_CTXT_W0_VALID_MASK : Z := BIT 0.
Definition QDMA_OFFSET_GLBL_RNG_SZ : Z := 0x204.
Definition QDMA_OFFSET_GLBL_DSC_CFG : Z := 0x250.
Definition QDMA_GLBL_DSC_CFG_WB_ACC_INT_MASK : Z := GENMASK 2 0.
Definition QDMA_GLBL_DSC_CFG_MAX_DSC_FETCH_MASK : Z := GENMASK 5 3.
Definition QDMA_OFFSET_GLBL_INTERRUPT_CFG : Z := 0x2C4.
Definition QDMA_GLBL_INTR_CFG_EN_LGCY_INTR_MASK : Z := BIT 0.
Definition QDMA_GLBL_INTR_LGCY_INTR_PEND_MASK : Z := BIT 1.
Definition QDMA_OFFSET_C2H_TIMER_CNT : Z := 0xA00.
Definition QDMA_OFFSET_C2H_CNT_TH : Z := 0xA40.
Definition QDMA_OFFSET_C2H_BUF_SZ : Z := 0xAB0.
Definition QDMA_OFFSET_C2H_PFETCH_CFG : Z := 0xB08.
Definition QDMA_C2H_EVT_QCNT_TH_MASK : Z := GENMASK 31 25.
Definition QDMA_C2H_PFCH_QCNT_MASK : Z := GENMASK 24 18.
Definition QDMA_C2H_NUM_PFCH_MASK : Z := GENMASK 17 9.
Definition QDMA_C2H_PFCH_FL_TH_MASK : Z := GENMASK 8 0.
Definition QDMA_OFFSET_C2H_INT_TIMER_TICK : Z := 0xB0C.
Definition QDMA_OFFSET_C2H_WRB_COAL_CFG : Z := 0xB50.
Definition QDMA_C2H_MAX_BUF_SZ_MASK : Z := GENMASK 31 26.
Definition QDMA_C2H_TICK_VAL_MASK : Z := GENMASK 25 14.
Definition QDMA_C2H_TICK_CNT_MASK : Z := GENMASK 13 2.
Definition QDMA_OFFSET_C2H_PFETCH_CACHE_DEPTH : Z := 0xBE0.
Definition QDMA_OFFSET_C2H_CMPT_COAL_BUF_DEPTH : Z := 0xBE4.
Definition QDMA_OFFSET_H2C_REQ_THROT : Z := 0xE24.
Definition QDMA_H2C_REQ_THROT_EN_REQ_MASK : Z := BIT 31.
Definition QDMA_H2C_REQ_THRESH_MASK : Z := GENMASK 25 17.
Definition QDMA_H2C_REQ_THROT_EN_DATA_MASK : Z := BIT 16.
Definition QDMA_H2C_DATA_THRESH_MASK : Z := GENMASK 15 0.
Definition QDMA_OFFSET_H2C_MM_CONTROL : Z := 0x1204.
Definition QDMA_OFFSET_C2H_MM_CONTROL : Z := 0x1004.
Definition QDMA_OFFSET_GLBL2_PF_BARLITE_INT : Z := 0x104.
Definition QDMA_GLBL2_PF3_BAR_MAP_MASK : Z := GENMASK 23 18.
Definition QDMA_GLBL2_PF2_BAR_MAP_MASK : Z := GENMASK 17 12.
Definition QDMA_GLBL2_PF1_BAR_MAP_MASK : Z := GENMASK 11 6.
Definition QDMA_GLBL2_PF0_BAR_MAP_MASK : Z := GENMASK 5 0.
Definition QDMA_OFFSET_GLBL2_PF_BARLITE_EXT : Z := 0x10C.
Definition QDMA_OFFSET_GLBL2_CHANNEL_MDMA : Z := 0x118.
Definition QDMA_GLBL2_ST_C2H_MASK : Z := BIT 17.
Definition QDMA_GLBL2_ST_H2C_MASK : Z := BIT 16.
Definition QDMA_GLBL2_MM_C2H_MASK : Z := BIT 8.
Definition QDMA_GLBL2_MM_H2C_MASK : Z := BIT 0.
Definition QDMA_OFFSET_GLBL2_CHANNEL_QDMA_CAP : Z := 0x120.
Definition QDMA_GLBL2_MULTQ_MAX_MASK : Z := GENMASK 11 0.
Definition QDMA_OFFSET_GLBL2_MISC_CAP : Z := 0x134.
Definition QDMA_OFFSET_VF_USER_BAR_ID : Z := 0x1018.
Definition QDMA_OFFSET_DMAP_SEL_INT_CIDX : Z := 0x18000.
Definition QDMA_OFFSET_DMAP_SEL_H2C_DSC_PIDX : Z := 0x18004.
Definition QDMA_OFFSET_DMAP_SEL_C2H_DSC_PIDX : Z := 0x18008.
Definition QDMA_OFFSET_DMAP_SEL_CMPT_CIDX : Z := 0x1800C.
Definition QDMA_OFFSET_VF_DMAP_SEL_INT_CIDX : Z := 0x3000.
Definition QDMA_OFFSET_VF_DMAP_SEL_H2C_DSC_PIDX : Z := 0x3004.
Definition QDMA_OFFSET_VF_DMAP_SEL_C2H_DSC_PIDX : Z := 0x3008.
Definition QDMA_OFFSET_VF_DMAP_SEL_CMPT_CIDX : Z := 0x300C.
Definition QDMA_DMA_SEL_INT_SW_CIDX_MASK : Z := GENMASK 15 0.
Definition QDMA_DMA_SEL_INT_RING_IDX_MASK : Z := GENMASK 23 16.
Definition QDMA_DMA_SEL_DESC_PIDX_MASK : Z := GENMASK 15 0.
Definition QDMA_DMA_SEL_IRQ_EN_MASK : Z := BIT 16.
Definition QDMA_DMAP_SEL_CMPT_IRQ_EN_MASK : Z := BIT 28.
Definition QDMA_DMAP_SEL_CMPT_STS_DESC_EN_MASK : Z := BIT 27.
Definition QDMA_DMAP_SEL_CMPT_TRG_MODE_MASK : Z := GENMASK 26 24.
Definition QDMA_DMAP_SEL_CMPT_TMR_CNT_MASK : Z := GENMASK 23 20.
Definition QDMA_DMAP_SEL_CMPT_CNT_THRESH_MASK : Z := GENMASK 19 16.
Definition QDMA_DMAP_SEL_CMPT_WRB_CIDX_MASK : Z := GENMASK 15 0.
Definition DEFAULT_MAX_DSC_FETCH : Z := 6.
Definition DEFAULT_PFCH_NUM_ENTRIES_PER_Q : Z := 8.
Definition DEFAULT_C2H_INTR_TIMER_TICK : Z := 25.
Definition DEFAULT_CMPT_COAL_TIMER_CNT : Z := 5.
Definition DEFAULT_CMPT_COAL_TIMER_TICK : Z := 25.
Definition QDMA_BAR_NUM : Z := 6.
Definition QDMA_MM_CONTROL_STEP : Z := 0x100.
Definition QDMA_PIDX_STEP : Z := 0x10.
Definition QDMA_CMPT_CIDX_STEP : Z := 0x10.
Definition QDMA_INT_CIDX_STEP : Z := 0x10.
Definition QDMA_PFTCH_CTXT_SW_CRDT_GET_H_MASK : Z := GENMASK 15 3.
Definition QDMA_PFTCH_CTXT_SW_CRDT_GET_L_MASK : Z := GENMASK 2 0.
Definition QDMA_COMPL_CTXT_BADDR_GET_H_MASK : Z := GENMASK_ULL 63 38.
Definition QDMA_COMPL_CTXT_BADDR_GET_L_MASK : Z := GENMASK_ULL 37 12.
Definition QDMA_COMPL_CTXT_PIDX_GET_H_MASK : Z := GENMASK 15 4.
Definition QDMA_COMPL_CTXT_PIDX_GET_L_MASK : Z := GENMASK 3 0.
Definition QDMA_INTR_CTXT_BADDR_GET_H_MASK : Z := GENMASK_ULL 63 61.
Definition QDMA_INTR_CTXT_BADDR_GET_M_MASK : Z := GENMASK_ULL 60 29.
Definition QDMA_INTR_CTXT_BADDR_GET_L_MASK : Z := GENMASK_ULL 28 12.
Definition QDMA_GLBL2_MM_CMPT_EN_MASK : Z := BIT 2.
Definition QDMA_GLBL2_FLR_PRESENT_MASK : Z := BIT 1.
Definition QDMA_GLBL2_MAILBOX_EN_MASK : Z := BIT 0.
Definition QDMA_DEFAULT_PFCH_STOP_THRESH : Z := 256.
