(* ===== verification/CtxtTypes.v ===== *)
(** * Queue context structures (qdma_access_common.h)

    The structures that describe a queue to the hardware, with the source's
    field names (prefixed by the structure), and the access types of the
    context interface. *)

From S2P Require Import Prelude.

(** [struct qdma_fmap_cfg]: the queue range of a function. *)
Record qdma_fmap_cfg := mk_fmap {
  fmap_qbase : Z; fmap_qmax : Z;
}.

(** [struct qdma_descq_sw_ctxt]: what software programs for a descriptor queue. *)
Record qdma_descq_sw_ctxt := mk_sw {
  sw_ring_bs_addr : Z; sw_vec : Z; sw_pidx : Z; sw_irq_arm : Z; sw_fnc_id : Z; sw_qen : Z;
  sw_frcd_en : Z; sw_wbi_chk : Z; sw_wbi_intvl_en : Z; sw_at : Z; sw_fetch_max : Z;
  sw_rngsz_idx : Z; sw_desc_sz : Z; sw_bypass : Z; sw_mm_chn : Z; sw_wbk_en : Z;
  sw_irq_en : Z; sw_port_id : Z; sw_irq_no_last : Z; sw_err : Z; sw_err_wb_sent : Z;
  sw_irq_req : Z; sw_mrkr_dis : Z; sw_is_mm : Z; sw_intr_aggr : Z; sw_pasid_en : Z;
  sw_dis_intr_on_vf : Z; sw_virtio_en : Z; sw_pack_byp_out : Z; sw_irq_byp : Z;
  sw_host_id : Z; sw_pasid : Z; sw_virtio_dsc_base : Z;
}.

(** [struct qdma_descq_hw_ctxt]: what the hardware keeps for it. *)
Record qdma_descq_hw_ctxt := mk_hwc {
  hwc_cidx : Z; hwc_crd_use : Z; hwc_dsc_pend : Z; hwc_idl_stp_b : Z; hwc_evt_pnd : Z;
  hwc_fetch_pnd : Z;
}.

(** [struct qdma_descq_credit_ctxt]: its fetch credits. *)
Record qdma_descq_credit_ctxt := mk_cr {
  cr_credit : Z;
}.

(** [struct qdma_descq_prefetch_ctxt]: C2H prefetch. *)
Record qdma_descq_prefetch_ctxt := mk_pf {
  pf_sw_crdt : Z; pf_bypass : Z; pf_bufsz_idx : Z; pf_port_id : Z; pf_var_desc : Z;
  pf_num_pftch : Z; pf_err : Z; pf_pfch_en : Z; pf_pfch : Z; pf_valid : Z;
}.

(** [struct qdma_descq_cmpt_ctxt]: the completion ring. *)
Record qdma_descq_cmpt_ctxt := mk_cmpt {
  cmpt_bs_addr : Z; cmpt_vec : Z; cmpt_pidx : Z; cmpt_cidx : Z; cmpt_en_stat_desc : Z;
  cmpt_en_int : Z; cmpt_trig_mode : Z; cmpt_fnc_id : Z; cmpt_counter_idx : Z;
  cmpt_timer_idx : Z; cmpt_in_st : Z; cmpt_color : Z; cmpt_ringsz_idx : Z; cmpt_desc_sz : Z;
  cmpt_valid : Z; cmpt_err : Z; cmpt_user_trig_pend : Z; cmpt_timer_running : Z;
  cmpt_full_upd : Z; cmpt_ovf_chk_dis : Z; cmpt_at : Z; cmpt_int_aggr : Z;
  cmpt_dis_intr_on_vf : Z; cmpt_vio : Z; cmpt_dir_c2h : Z; cmpt_host_id : Z; cmpt_pasid : Z;
  cmpt_pasid_en : Z; cmpt_vio_eop : Z; cmpt_sh_cmpt : Z;
}.

(** [struct qdma_indirect_intr_ctxt]: an interrupt aggregation ring. *)
Record qdma_indirect_intr_ctxt := mk_intr {
  intr_baddr_4k : Z; intr_vec : Z; intr_pidx : Z; intr_valid : Z; intr_int_st : Z;
  intr_color : Z; intr_page_size : Z; intr_at : Z; intr_host_id : Z; intr_pasid : Z;
  intr_pasid_en : Z; intr_func_id : Z;
}.

(** [struct qdma_qid2vec]: the vectors of a queue. *)
Record qdma_qid2vec := mk_qid2vec {
  q2v_c2h_vector : Z; q2v_c2h_en_coal : Z; q2v_h2c_vector : Z; q2v_h2c_en_coal : Z;
}.

(** [enum qdma_hw_access_type] *)
Inductive qdma_hw_access_type :=
  | QDMA_HW_ACCESS_READ | QDMA_HW_ACCESS_WRITE | QDMA_HW_ACCESS_CLEAR
  | QDMA_HW_ACCESS_INVALIDATE | QDMA_HW_ACCESS_MAX.

(** The data vectors of a function with an interrupt ring, and the elements of
    the arrays of an interrupt message. *)
Definition QDMA_NUM_DATA_VEC_FOR_INTR_CXT : Z := 1.

(** Element [i] of a zero-initialised word array. *)
Definition word (ws : list Z) (i : nat) : Z := default 0 (ws !! i).
