(* ===== verification/SoftCtxt.v ===== *)
(** * Queue contexts of the soft IP (qdma_soft_access.c)

    Packing and unpacking of the function map, software, prefetch, completion,
    hardware, credit and interrupt-aggregation contexts, and the
    [..._ctx_conf] functions that dispatch on the access type.  A NULL pointer
    is [None] (for [dev_hndl]: [false]); a function that fills a structure
    returns it next to its return value. *)

From S2P Require Import Prelude Platform Bits RegIO IndCtxt CtxtTypes SoftReg.

Definition INV_PARAM : Z := ERR QDMA_ERR_INV_PARAM.

Section soft_contexts.
Context {dev : Type} `{Device dev}.

(** ** Function map *)

Definition fmap_words (config : qdma_fmap_cfg) : list Z :=
  [FIELD_SET QDMA_FMAP_CTXT_W0_QID_MASK (fmap_qbase config);
   FIELD_SET QDMA_FMAP_CTXT_W1_QID_MAX_MASK (fmap_qmax config)].

Definition fmap_of_words (ws : list Z) : qdma_fmap_cfg :=
  mk_fmap (u16 (FIELD_GET QDMA_FMAP_CTXT_W0_QID_MASK (word ws 0)))
    (u16 (FIELD_GET QDMA_FMAP_CTXT_W1_QID_MAX_MASK (word ws 1))).

Definition qdma_fmap_write (dev_hndl : bool) (func_id : Z) (config : option qdma_fmap_cfg) :
    hwm dev Z :=
  match dev_hndl, config with
  | true, Some config => qdma_indirect_reg_write QDMA_CTXT_SEL_FMAP func_id (fmap_words config)
  | _, _ => mret INV_PARAM
  end.

Definition qdma_fmap_read (dev_hndl : bool) (func_id : Z) (config : option qdma_fmap_cfg) :
    hwm dev (Z * option qdma_fmap_cfg) :=
  match dev_hndl, config with
  | true, Some old =>
      r ← qdma_indirect_reg_read QDMA_CTXT_SEL_FMAP func_id 2;
      if r.1 <? 0 then mret (r.1, Some old) else mret (QDMA_SUCCESS, Some (fmap_of_words r.2))
  | _, _ => mret (INV_PARAM, config)
  end.

Definition qdma_fmap_clear (dev_hndl : bool) (func_id : Z) : hwm dev Z :=
  if negb dev_hndl then mret INV_PARAM
  else qdma_indirect_reg_clear QDMA_CTXT_SEL_FMAP func_id.

Definition qdma_fmap_conf (dev_hndl : bool) (func_id : Z) (config : option qdma_fmap_cfg)
    (access_type : qdma_hw_access_type) : hwm dev (Z * option qdma_fmap_cfg) :=
  match access_type with
  | QDMA_HW_ACCESS_READ => qdma_fmap_read dev_hndl func_id config
  | QDMA_HW_ACCESS_WRITE => rv ← qdma_fmap_write dev_hndl func_id config; mret (rv, config)
  | QDMA_HW_ACCESS_CLEAR => rv ← qdma_fmap_clear dev_hndl func_id; mret (rv, config)
  | _ => mret (INV_PARAM, config)
  end.

(** ** Software context *)

Definition sw_sel (c2h : Z) : ind_ctxt_cmd_sel :=
  if c2h =? 0 then QDMA_CTXT_SEL_SW_H2C else QDMA_CTXT_SEL_SW_C2H.

Definition sw_words (ctxt : qdma_descq_sw_ctxt) : list Z :=
  [FIELD_SET QDMA_SW_CTXT_W0_PIDX (sw_pidx ctxt) .|
   FIELD_SET QDMA_SW_CTXT_W0_IRQ_ARM_MASK (sw_irq_arm ctxt) .|
   FIELD_SET QDMA_SW_CTXT_W0_FUNC_ID_MASK (sw_fnc_id ctxt);
   FIELD_SET QDMA_SW_CTXT_W1_QEN_MASK (sw_qen ctxt) .|
   FIELD_SET QDMA_SW_CTXT_W1_FCRD_EN_MASK (sw_frcd_en ctxt) .|
   FIELD_SET QDMA_SW_CTXT_W1_WBI_CHK_MASK (sw_wbi_chk ctxt) .|
   FIELD_SET QDMA_SW_CTXT_W1_WB_INT_EN_MASK (sw_wbi_intvl_en ctxt) .|
   FIELD_SET QDMA_SW_CTXT_W1_AT_MASK (sw_at ctxt) .|
   FIELD_SET QDMA_SW_CTXT_W1_FETCH_MAX_MASK (sw_fetch_max ctxt) .|
   FIELD_SET QDMA_SW_CTXT_W1_RNG_SZ_MASK (sw_rngsz_idx ctxt) .|
   FIELD_SET QDMA_SW_CTXT_W1_DSC_SZ_MASK (sw_desc_sz ctxt) .|
   FIELD_SET QDMA_SW_CTXT_W1_BYP_MASK (sw_bypass ctxt) .|
   FIELD_SET QDMA_SW_CTXT_W1_MM_CHN_MASK (sw_mm_chn ctxt) .|
   FIELD_SET QDMA_SW_CTXT_W1_WBK_EN_MASK (sw_wbk_en ctxt) .|
   FIELD_SET QDMA_SW_CTXT_W1_IRQ_EN_MASK (sw_irq_en ctxt) .|
   FIELD_SET QDMA_SW_CTXT_W1_PORT_ID_MASK (sw_port_id ctxt) .|
   FIELD_SET QDMA_SW_CTXT_W1_IRQ_NO_LAST_MASK (sw_irq_no_last ctxt) .|
   FIELD_SET QDMA_SW_CTXT_W1_ERR_MASK (sw_err ctxt) .|
   FIELD_SET QDMA_SW_CTXT_W1_ERR_WB_SENT_MASK (sw_err_wb_sent ctxt) .|
   FIELD_SET QDMA_SW_CTXT_W1_IRQ_REQ_MASK (sw_irq_req ctxt) .|
   FIELD_SET QDMA_SW_CTXT_W1_MRKR_DIS_MASK (sw_mrkr_dis ctxt) .|
   FIELD_SET QDMA_SW_CTXT_W1_IS_MM_MASK (sw_is_mm ctxt);
   Z.land (sw_ring_bs_addr ctxt) 0xffffffff;
   Z.land (Z.shiftr (sw_ring_bs_addr ctxt) 32) 0xffffffff;
   FIELD_SET QDMA_SW_CTXT_W4_VEC_MASK (sw_vec ctxt) .|
   FIELD_SET QDMA_SW_CTXT_W4_INTR_AGGR_MASK (sw_intr_aggr ctxt)].

(** The fields the soft IP does not have keep their previous value. *)
Definition sw_of_words (ws : list Z) (old : qdma_descq_sw_ctxt) : qdma_descq_sw_ctxt :=
  let w0 := word ws 0 in let w1 := word ws 1 in let w4 := word ws 4 in
  {| sw_pidx := u16 (FIELD_GET QDMA_SW_CTXT_W0_PIDX w0);
     sw_irq_arm := u8 (FIELD_GET QDMA_SW_CTXT_W0_IRQ_ARM_MASK w0);
     sw_fnc_id := u8 (FIELD_GET QDMA_SW_CTXT_W0_FUNC_ID_MASK w0);
     sw_qen := u8 (FIELD_GET QDMA_SW_CTXT_W1_QEN_MASK w1);
     sw_frcd_en := u8 (FIELD_GET QDMA_SW_CTXT_W1_FCRD_EN_MASK w1);
     sw_wbi_chk := u8 (FIELD_GET QDMA_SW_CTXT_W1_WBI_CHK_MASK w1);
     sw_wbi_intvl_en := u8 (FIELD_GET QDMA_SW_CTXT_W1_WB_INT_EN_MASK w1);
     sw_at := u8 (FIELD_GET QDMA_SW_CTXT_W1_AT_MASK w1);
     sw_fetch_max := u8 (FIELD_GET QDMA_SW_CTXT_W1_FETCH_MAX_MASK w1);
     sw_rngsz_idx := u8 (FIELD_GET QDMA_SW_CTXT_W1_RNG_SZ_MASK w1);
     sw_desc_sz := u8 (FIELD_GET QDMA_SW_CTXT_W1_DSC_SZ_MASK w1);
     sw_bypass := u8 (FIELD_GET QDMA_SW_CTXT_W1_BYP_MASK w1);
     sw_mm_chn := u8 (FIELD_GET QDMA_SW_CTXT_W1_MM_CHN_MASK w1);
     sw_wbk_en := u8 (FIELD_GET QDMA_SW_CTXT_W1_WBK_EN_MASK w1);
     sw_irq_en := u8 (FIELD_GET QDMA_SW_CTXT_W1_IRQ_EN_MASK w1);
     sw_port_id := u8 (FIELD_GET QDMA_SW_CTXT_W1_PORT_ID_MASK w1);
     sw_irq_no_last := u8 (FIELD_GET QDMA_SW_CTXT_W1_IRQ_NO_LAST_MASK w1);
     sw_err := u8 (FIELD_GET QDMA_SW_CTXT_W1_ERR_MASK w1);
     sw_err_wb_sent := u8 (FIELD_GET QDMA_SW_CTXT_W1_ERR_WB_SENT_MASK w1);
     sw_irq_req := u8 (FIELD_GET QDMA_SW_CTXT_W1_IRQ_REQ_MASK w1);
     sw_mrkr_dis := u8 (FIELD_GET QDMA_SW_CTXT_W1_MRKR_DIS_MASK w1);
     sw_is_mm := u8 (FIELD_GET QDMA_SW_CTXT_W1_IS_MM_MASK w1);
     sw_ring_bs_addr := Z.lor (Z.shiftl (word ws 3) 32) (word ws 2);
     sw_vec := u16 (FIELD_GET QDMA_SW_CTXT_W4_VEC_MASK w4);
     sw_intr_aggr := u8 (FIELD_GET QDMA_SW_CTXT_W4_INTR_AGGR_MASK w4);
     sw_pasid_en := sw_pasid_en old; sw_dis_intr_on_vf := sw_dis_intr_on_vf old;
     sw_virtio_en := sw_virtio_en old; sw_pack_byp_out := sw_pack_byp_out old;
     sw_irq_byp := sw_irq_byp old; sw_host_id := sw_host_id old; sw_pasid := sw_pasid old;
     sw_virtio_dsc_base := sw_virtio_dsc_base old |}.

Definition qdma_sw_context_write (dev_hndl : bool) (c2h hw_qid : Z)
    (ctxt : option qdma_descq_sw_ctxt) : hwm dev Z :=
  match dev_hndl, ctxt with
  | true, Some ctxt => qdma_indirect_reg_write (sw_sel c2h) hw_qid (sw_words ctxt)
  | _, _ => mret INV_PARAM
  end.

Definition qdma_sw_context_read (dev_hndl : bool) (c2h hw_qid : Z)
    (ctxt : option qdma_descq_sw_ctxt) : hwm dev (Z * option qdma_descq_sw_ctxt) :=
  match dev_hndl, ctxt with
  | true, Some old =>
      r ← qdma_indirect_reg_read (sw_sel c2h) hw_qid 5;
      if r.1 <? 0 then mret (r.1, Some old) else mret (QDMA_SUCCESS, Some (sw_of_words r.2 old))
  | _, _ => mret (INV_PARAM, ctxt)
  end.

Definition qdma_sw_context_clear (dev_hndl : bool) (c2h hw_qid : Z) : hwm dev Z :=
  if negb dev_hndl then mret INV_PARAM else qdma_indirect_reg_clear (sw_sel c2h) hw_qid.

Definition qdma_sw_context_invalidate (dev_hndl : bool) (c2h hw_qid : Z) : hwm dev Z :=
  if negb dev_hndl then mret INV_PARAM else qdma_indirect_reg_invalidate (sw_sel c2h) hw_qid.

Definition qdma_sw_ctx_conf (dev_hndl : bool) (c2h hw_qid : Z)
    (ctxt : option qdma_descq_sw_ctxt) (access_type : qdma_hw_access_type) :
    hwm dev (Z * option qdma_descq_sw_ctxt) :=
  if c2h >? 1 then mret (INV_PARAM, ctxt)
  else
    match access_type with
    | QDMA_HW_ACCESS_READ => qdma_sw_context_read dev_hndl c2h hw_qid ctxt
    | QDMA_HW_ACCESS_WRITE => rv ← qdma_sw_context_write dev_hndl c2h hw_qid ctxt; mret (rv, ctxt)
    | QDMA_HW_ACCESS_CLEAR => rv ← qdma_sw_context_clear dev_hndl c2h hw_qid; mret (rv, ctxt)
    | QDMA_HW_ACCESS_INVALIDATE =>
        rv ← qdma_sw_context_invalidate dev_hndl c2h hw_qid; mret (rv, ctxt)
    | QDMA_HW_ACCESS_MAX => mret (INV_PARAM, ctxt)
    end.

(** ** Prefetch context *)

Definition pfetch_words (ctxt : qdma_descq_prefetch_ctxt) : list Z :=
  let sw_crdt_l := FIELD_GET QDMA_PFTCH_CTXT_SW_CRDT_GET_L_MASK (pf_sw_crdt ctxt) in
  let sw_crdt_h := FIELD_GET QDMA_PFTCH_CTXT_SW_CRDT_GET_H_MASK (pf_sw_crdt ctxt) in
  [FIELD_SET QDMA_PFTCH_CTXT_W0_BYPASS_MASK (pf_bypass ctxt) .|
   FIELD_SET QDMA_PFTCH_CTXT_W0_BUF_SIZE_IDX_MASK (pf_bufsz_idx ctxt) .|
   FIELD_SET QDMA_PFTCH_CTXT_W0_PORT_ID_MASK (pf_port_id ctxt) .|
   FIELD_SET QDMA_PFTCH_CTXT_W0_ERR_MASK (pf_err ctxt) .|
   FIELD_SET QDMA_PFTCH_CTXT_W0_PFETCH_EN_MASK (pf_pfch_en ctxt) .|
   FIELD_SET QDMA_PFTCH_CTXT_W0_Q_IN_PFETCH_MASK (pf_pfch ctxt) .|
   FIELD_SET QDMA_PFTCH_CTXT_W0_SW_CRDT_L_MASK sw_crdt_l;
   FIELD_SET QDMA_PFTCH_CTXT_W1_SW_CRDT_H_MASK sw_crdt_h .|
   FIELD_SET QDMA_PFTCH_CTXT_W1_VALID_MASK (pf_valid ctxt)].

Definition pfetch_of_words (ws : list Z) (old : qdma_descq_prefetch_ctxt) :
    qdma_descq_prefetch_ctxt :=
  let w0 := word ws 0 in let w1 := word ws 1 in
  let sw_crdt_l := FIELD_GET QDMA_PFTCH_CTXT_W0_SW_CRDT_L_MASK w0 in
  let sw_crdt_h := FIELD_GET QDMA_PFTCH_CTXT_W1_SW_CRDT_H_MASK w1 in
  {| pf_bypass := u8 (FIELD_GET QDMA_PFTCH_CTXT_W0_BYPASS_MASK w0);
     pf_bufsz_idx := u8 (FIELD_GET QDMA_PFTCH_CTXT_W0_BUF_SIZE_IDX_MASK w0);
     pf_port_id := u8 (FIELD_GET QDMA_PFTCH_CTXT_W0_PORT_ID_MASK w0);
     pf_err := u8 (FIELD_GET QDMA_PFTCH_CTXT_W0_ERR_MASK w0);
     pf_pfch_en := u8 (FIELD_GET QDMA_PFTCH_CTXT_W0_PFETCH_EN_MASK w0);
     pf_pfch := u8 (FIELD_GET QDMA_PFTCH_CTXT_W0_Q_IN_PFETCH_MASK w0);
     pf_valid := u8 (FIELD_GET QDMA_PFTCH_CTXT_W1_VALID_MASK w1);
     pf_sw_crdt := u16 (FIELD_SET QDMA_PFTCH_CTXT_SW_CRDT_GET_L_MASK sw_crdt_l .|
                        FIELD_SET QDMA_PFTCH_CTXT_SW_CRDT_GET_H_MASK sw_crdt_h);
     pf_var_desc := pf_var_desc old; pf_num_pftch := pf_num_pftch old |}.

Definition qdma_pfetch_context_write (dev_hndl : bool) (hw_qid : Z)
    (ctxt : option qdma_descq_prefetch_ctxt) : hwm dev Z :=
  match dev_hndl, ctxt with
  | true, Some ctxt => qdma_indirect_reg_write QDMA_CTXT_SEL_PFTCH hw_qid (pfetch_words ctxt)
  | _, _ => mret INV_PARAM
  end.

Definition qdma_pfetch_context_read (dev_hndl : bool) (hw_qid : Z)
    (ctxt : option qdma_descq_prefetch_ctxt) : hwm dev (Z * option qdma_descq_prefetch_ctxt) :=
  match dev_hndl, ctxt with
  | true, Some old =>
      r ← qdma_indirect_reg_read QDMA_CTXT_SEL_PFTCH hw_qid 2;
      if r.1 <? 0 then mret (r.1, Some old)
      else mret (QDMA_SUCCESS, Some (pfetch_of_words r.2 old))
  | _, _ => mret (INV_PARAM, ctxt)
  end.

Definition qdma_pfetch_context_clear (dev_hndl : bool) (hw_qid : Z) : hwm dev Z :=
  if negb dev_hndl then mret INV_PARAM else qdma_indirect_reg_clear QDMA_CTXT_SEL_PFTCH hw_qid.

Definition qdma_pfetch_context_invalidate (dev_hndl : bool) (hw_qid : Z) : hwm dev Z :=
  if negb dev_hndl then mret INV_PARAM
  else qdma_indirect_reg_invalidate QDMA_CTXT_SEL_PFTCH hw_qid.

Definition qdma_pfetch_ctx_conf (dev_hndl : bool) (hw_qid : Z)
    (ctxt : option qdma_descq_prefetch_ctxt) (access_type : qdma_hw_access_type) :
    hwm dev (Z * option qdma_descq_prefetch_ctxt) :=
  match access_type with
  | QDMA_HW_ACCESS_READ => qdma_pfetch_context_read dev_hndl hw_qid ctxt
  | QDMA_HW_ACCESS_WRITE => rv ← qdma_pfetch_context_write dev_hndl hw_qid ctxt; mret (rv, ctxt)
  | QDMA_HW_ACCESS_CLEAR => rv ← qdma_pfetch_context_clear dev_hndl hw_qid; mret (rv, ctxt)
  | QDMA_HW_ACCESS_INVALIDATE =>
      rv ← qdma_pfetch_context_invalidate dev_hndl hw_qid; mret (rv, ctxt)
  | QDMA_HW_ACCESS_MAX => mret (INV_PARAM, ctxt)
  end.

(** ** Completion context *)

Definition cmpt_words (ctxt : qdma_descq_cmpt_ctxt) : list Z :=
  let baddr_l := u32 (FIELD_GET QDMA_COMPL_CTXT_BADDR_GET_L_MASK (cmpt_bs_addr ctxt)) in
  let baddr_h := u32 (FIELD_GET QDMA_COMPL_CTXT_BADDR_GET_H_MASK (cmpt_bs_addr ctxt)) in
  let pidx_l := FIELD_GET QDMA_COMPL_CTXT_PIDX_GET_L_MASK (cmpt_pidx ctxt) in
  let pidx_h := FIELD_GET QDMA_COMPL_CTXT_PIDX_GET_H_MASK (cmpt_pidx ctxt) in
  [FIELD_SET QDMA_COMPL_CTXT_W0_EN_STAT_DESC_MASK (cmpt_en_stat_desc ctxt) .|
   FIELD_SET QDMA_COMPL_CTXT_W0_EN_INT_MASK (cmpt_en_int ctxt) .|
   FIELD_SET QDMA_COMPL_CTXT_W0_TRIG_MODE_MASK (cmpt_trig_mode ctxt) .|
   FIELD_SET QDMA_COMPL_CTXT_W0_FNC_ID_MASK (cmpt_fnc_id ctxt) .|
   FIELD_SET QDMA_COMPL_CTXT_W0_COUNTER_IDX_MASK (cmpt_counter_idx ctxt) .|
   FIELD_SET QDMA_COMPL_CTXT_W0_TIMER_IDX_MASK (cmpt_timer_idx ctxt) .|
   FIELD_SET QDMA_COMPL_CTXT_W0_INT_ST_MASK (cmpt_in_st ctxt) .|
   FIELD_SET QDMA_COMPL_CTXT_W0_COLOR_MASK (cmpt_color ctxt) .|
   FIELD_SET QDMA_COMPL_CTXT_W0_RING_SZ_MASK (cmpt_ringsz_idx ctxt);
   FIELD_SET QDMA_COMPL_CTXT_W1_BADDR_64_L_MASK baddr_l;
   FIELD_SET QDMA_COMPL_CTXT_W2_BADDR_64_H_MASK baddr_h .|
   FIELD_SET QDMA_COMPL_CTXT_W2_DESC_SIZE_MASK (cmpt_desc_sz ctxt) .|
   FIELD_SET QDMA_COMPL_CTXT_W2_PIDX_L_MASK pidx_l;
   FIELD_SET QDMA_COMPL_CTXT_W3_PIDX_H_MASK pidx_h .|
   FIELD_SET QDMA_COMPL_CTXT_W3_CIDX_MASK (cmpt_cidx ctxt) .|
   FIELD_SET QDMA_COMPL_CTXT_W3_VALID_MASK (cmpt_valid ctxt) .|
   FIELD_SET QDMA_COMPL_CTXT_W3_ERR_MASK (cmpt_err ctxt) .|
   FIELD_SET QDMA_COMPL_CTXT_W3_USR_TRG_PND_MASK (cmpt_user_trig_pend ctxt);
   FIELD_SET QDMA_COMPL_CTXT_W4_TMR_RUN_MASK (cmpt_timer_running ctxt) .|
   FIELD_SET QDMA_COMPL_CTXT_W4_FULL_UPDT_MASK (cmpt_full_upd ctxt) .|
   FIELD_SET QDMA_COMPL_CTXT_W4_OVF_CHK_DIS_MASK (cmpt_ovf_chk_dis ctxt) .|
   FIELD_SET QDMA_COMPL_CTXT_W4_AT_MASK (cmpt_at ctxt) .|
   FIELD_SET QDMA_COMPL_CTXT_W4_INTR_VEC_MASK (cmpt_vec ctxt) .|
   FIELD_SET QDMA_COMPL_CTXT_W4_INTR_AGGR_MASK (cmpt_int_aggr ctxt)].

Definition cmpt_of_words (ws : list Z) (old : qdma_descq_cmpt_ctxt) : qdma_descq_cmpt_ctxt :=
  let w0 := word ws 0 in let w1 := word ws 1 in let w2 := word ws 2 in
  let w3 := word ws 3 in let w4 := word ws 4 in
  let baddr_l := FIELD_GET QDMA_COMPL_CTXT_W1_BADDR_64_L_MASK w1 in
  let baddr_h := FIELD_GET QDMA_COMPL_CTXT_W2_BADDR_64_H_MASK w2 in
  let pidx_l := FIELD_GET QDMA_COMPL_CTXT_W2_PIDX_L_MASK w2 in
  let pidx_h := FIELD_GET QDMA_COMPL_CTXT_W3_PIDX_H_MASK w3 in
  {| cmpt_en_stat_desc := u8 (FIELD_GET QDMA_COMPL_CTXT_W0_EN_STAT_DESC_MASK w0);
     cmpt_en_int := u8 (FIELD_GET QDMA_COMPL_CTXT_W0_EN_INT_MASK w0);
     cmpt_trig_mode := u8 (FIELD_GET QDMA_COMPL_CTXT_W0_TRIG_MODE_MASK w0);
     cmpt_fnc_id := u8 (FIELD_GET QDMA_COMPL_CTXT_W0_FNC_ID_MASK w0);
     cmpt_counter_idx := u8 (FIELD_GET QDMA_COMPL_CTXT_W0_COUNTER_IDX_MASK w0);
     cmpt_timer_idx := u8 (FIELD_GET QDMA_COMPL_CTXT_W0_TIMER_IDX_MASK w0);
     cmpt_in_st := u8 (FIELD_GET QDMA_COMPL_CTXT_W0_INT_ST_MASK w0);
     cmpt_color := u8 (FIELD_GET QDMA_COMPL_CTXT_W0_COLOR_MASK w0);
     cmpt_ringsz_idx := u8 (FIELD_GET QDMA_COMPL_CTXT_W0_RING_SZ_MASK w0);
     cmpt_desc_sz := u8 (FIELD_GET QDMA_COMPL_CTXT_W2_DESC_SIZE_MASK w2);
     cmpt_cidx := u16 (FIELD_GET QDMA_COMPL_CTXT_W3_CIDX_MASK w3);
     cmpt_valid := u8 (FIELD_GET QDMA_COMPL_CTXT_W3_VALID_MASK w3);
     cmpt_err := u8 (FIELD_GET QDMA_COMPL_CTXT_W3_ERR_MASK w3);
     cmpt_user_trig_pend := u8 (FIELD_GET QDMA_COMPL_CTXT_W3_USR_TRG_PND_MASK w3);
     cmpt_timer_running := u8 (FIELD_GET QDMA_COMPL_CTXT_W4_TMR_RUN_MASK w4);
     cmpt_full_upd := u8 (FIELD_GET QDMA_COMPL_CTXT_W4_FULL_UPDT_MASK w4);
     cmpt_ovf_chk_dis := u8 (FIELD_GET QDMA_COMPL_CTXT_W4_OVF_CHK_DIS_MASK w4);
     cmpt_at := u8 (FIELD_GET QDMA_COMPL_CTXT_W4_AT_MASK w4);
     cmpt_vec := u16 (FIELD_GET QDMA_COMPL_CTXT_W4_INTR_VEC_MASK w4);
     cmpt_int_aggr := u8 (FIELD_GET QDMA_COMPL_CTXT_W4_INTR_AGGR_MASK w4);
     cmpt_bs_addr := FIELD_SET QDMA_COMPL_CTXT_BADDR_GET_L_MASK baddr_l .|
                     FIELD_SET QDMA_COMPL_CTXT_BADDR_GET_H_MASK baddr_h;
     cmpt_pidx := u16 (FIELD_SET QDMA_COMPL_CTXT_PIDX_GET_L_MASK pidx_l .|
                       FIELD_SET QDMA_COMPL_CTXT_PIDX_GET_H_MASK pidx_h);
     cmpt_dis_intr_on_vf := cmpt_dis_intr_on_vf old; cmpt_vio := cmpt_vio old;
     cmpt_dir_c2h := cmpt_dir_c2h old; cmpt_host_id := cmpt_host_id old;
     cmpt_pasid := cmpt_pasid old; cmpt_pasid_en := cmpt_pasid_en old;
     cmpt_vio_eop := cmpt_vio_eop old; cmpt_sh_cmpt := cmpt_sh_cmpt old |}.

Definition QDMA_CMPT_UPDATE_TRIG_MODE_TMR_CNTR : Z := 5.

Definition qdma_cmpt_context_write (dev_hndl : bool) (hw_qid : Z)
    (ctxt : option qdma_descq_cmpt_ctxt) : hwm dev Z :=
  match dev_hndl, ctxt with
  | true, Some ctxt =>
      if cmpt_trig_mode ctxt >? QDMA_CMPT_UPDATE_TRIG_MODE_TMR_CNTR then mret INV_PARAM
      else qdma_indirect_reg_write QDMA_CTXT_SEL_CMPT hw_qid (cmpt_words ctxt)
  | _, _ => mret INV_PARAM
  end.

Definition qdma_cmpt_context_read (dev_hndl : bool) (hw_qid : Z)
    (ctxt : option qdma_descq_cmpt_ctxt) : hwm dev (Z * option qdma_descq_cmpt_ctxt) :=
  match dev_hndl, ctxt with
  | true, Some old =>
      r ← qdma_indirect_reg_read QDMA_CTXT_SEL_CMPT hw_qid 5;
      if r.1 <? 0 then mret (r.1, Some old)
      else mret (QDMA_SUCCESS, Some (cmpt_of_words r.2 old))
  | _, _ => mret (INV_PARAM, ctxt)
  end.

Definition qdma_cmpt_context_clear (dev_hndl : bool) (hw_qid : Z) : hwm dev Z :=
  if negb dev_hndl then mret INV_PARAM else qdma_indirect_reg_clear QDMA_CTXT_SEL_CMPT hw_qid.

Definition qdma_cmpt_context_invalidate (dev_hndl : bool) (hw_qid : Z) : hwm dev Z :=
  if negb dev_hndl then mret INV_PARAM
  else qdma_indirect_reg_invalidate QDMA_CTXT_SEL_CMPT hw_qid.

Definition qdma_cmpt_ctx_conf (dev_hndl : bool) (hw_qid : Z)
    (ctxt : option qdma_descq_cmpt_ctxt) (access_type : qdma_hw_access_type) :
    hwm dev (Z * option qdma_descq_cmpt_ctxt) :=
  match access_type with
  | QDMA_HW_ACCESS_READ => qdma_cmpt_context_read dev_hndl hw_qid ctxt
  | QDMA_HW_ACCESS_WRITE => rv ← qdma_cmpt_context_write dev_hndl hw_qid ctxt; mret (rv, ctxt)
  | QDMA_HW_ACCESS_CLEAR => rv ← qdma_cmpt_context_clear dev_hndl hw_qid; mret (rv, ctxt)
  | QDMA_HW_ACCESS_INVALIDATE =>
      rv ← qdma_cmpt_context_invalidate dev_hndl hw_qid; mret (rv, ctxt)
  | QDMA_HW_ACCESS_MAX => mret (INV_PARAM, ctxt)
  end.

(** ** Hardware and credit contexts *)

Definition hw_sel (c2h : Z) : ind_ctxt_cmd_sel :=
  if c2h =? 0 then QDMA_CTXT_SEL_HW_H2C else QDMA_CTXT_SEL_HW_C2H.
Definition cr_sel (c2h : Z) : ind_ctxt_cmd_sel :=
  if c2h =? 0 then QDMA_CTXT_SEL_CR_H2C else QDMA_CTXT_SEL_CR_C2H.

Definition hw_of_words (ws : list Z) : qdma_descq_hw_ctxt :=
  let w0 := word ws 0 in let w1 := word ws 1 in
  {| hwc_cidx := u16 (FIELD_GET QDMA_HW_CTXT_W0_CIDX_MASK w0);
     hwc_crd_use := u16 (FIELD_GET QDMA_HW_CTXT_W0_CRD_USE_MASK w0);
     hwc_dsc_pend := u8 (FIELD_GET QDMA_HW_CTXT_W1_DSC_PND_MASK w1);
     hwc_idl_stp_b := u8 (FIELD_GET QDMA_HW_CTXT_W1_IDL_STP_B_MASK w1);
     hwc_evt_pnd := u8 (FIELD_GET QDMA_HW_CTXT_W1_EVENT_PEND_MASK w1);
     hwc_fetch_pnd := u8 (FIELD_GET QDMA_HW_CTXT_W1_FETCH_PEND_MASK w1) |}.

Definition cr_of_words (ws : list Z) : qdma_descq_credit_ctxt :=
  mk_cr (FIELD_GET QDMA_CR_CTXT_W0_CREDT_MASK (word ws 0)).

Definition qdma_hw_context_read (dev_hndl : bool) (c2h hw_qid : Z)
    (ctxt : option qdma_descq_hw_ctxt) : hwm dev (Z * option qdma_descq_hw_ctxt) :=
  match dev_hndl, ctxt with
  | true, Some old =>
      r ← qdma_indirect_reg_read (hw_sel c2h) hw_qid 2;
      if r.1 <? 0 then mret (r.1, Some old) else mret (QDMA_SUCCESS, Some (hw_of_words r.2))
  | _, _ => mret (INV_PARAM, ctxt)
  end.

Definition qdma_hw_context_clear (dev_hndl : bool) (c2h hw_qid : Z) : hwm dev Z :=
  if negb dev_hndl then mret INV_PARAM else qdma_indirect_reg_clear (hw_sel c2h) hw_qid.

Definition qdma_hw_context_invalidate (dev_hndl : bool) (c2h hw_qid : Z) : hwm dev Z :=
  if negb dev_hndl then mret INV_PARAM else qdma_indirect_reg_invalidate (hw_sel c2h) hw_qid.

Definition qdma_hw_ctx_conf (dev_hndl : bool) (c2h hw_qid : Z)
    (ctxt : option qdma_descq_hw_ctxt) (access_type : qdma_hw_access_type) :
    hwm dev (Z * option qdma_descq_hw_ctxt) :=
  if c2h >? 1 then mret (INV_PARAM, ctxt)
  else
    match access_type with
    | QDMA_HW_ACCESS_READ => qdma_hw_context_read dev_hndl c2h hw_qid ctxt
    | QDMA_HW_ACCESS_CLEAR => rv ← qdma_hw_context_clear dev_hndl c2h hw_qid; mret (rv, ctxt)
    | QDMA_HW_ACCESS_INVALIDATE =>
        rv ← qdma_hw_context_invalidate dev_hndl c2h hw_qid; mret (rv, ctxt)
    | QDMA_HW_ACCESS_WRITE | QDMA_HW_ACCESS_MAX => mret (INV_PARAM, ctxt)
    end.

Definition qdma_credit_context_read (dev_hndl : bool) (c2h hw_qid : Z)
    (ctxt : option qdma_descq_credit_ctxt) : hwm dev (Z * option qdma_descq_credit_ctxt) :=
  match dev_hndl, ctxt with
  | true, Some old =>
      r ← qdma_indirect_reg_read (cr_sel c2h) hw_qid 1;
      if r.1 <? 0 then mret (r.1, Some old) else mret (QDMA_SUCCESS, Some (cr_of_words r.2))
  | _, _ => mret (INV_PARAM, ctxt)
  end.

Definition qdma_credit_context_clear (dev_hndl : bool) (c2h hw_qid : Z) : hwm dev Z :=
  if negb dev_hndl then mret INV_PARAM else qdma_indirect_reg_clear (cr_sel c2h) hw_qid.

Definition qdma_credit_context_invalidate (dev_hndl : bool) (c2h hw_qid : Z) : hwm dev Z :=
  if negb dev_hndl then mret INV_PARAM else qdma_indirect_reg_invalidate (cr_sel c2h) hw_qid.

Definition qdma_credit_ctx_conf (dev_hndl : bool) (c2h hw_qid : Z)
    (ctxt : option qdma_descq_credit_ctxt) (access_type : qdma_hw_access_type) :
    hwm dev (Z * option qdma_descq_credit_ctxt) :=
  if c2h >? 1 then mret (INV_PARAM, ctxt)
  else
    match access_type with
    | QDMA_HW_ACCESS_READ => qdma_credit_context_read dev_hndl c2h hw_qid ctxt
    | QDMA_HW_ACCESS_CLEAR =>
        rv ← qdma_credit_context_clear dev_hndl c2h hw_qid; mret (rv, ctxt)
    | QDMA_HW_ACCESS_INVALIDATE =>
        rv ← qdma_credit_context_invalidate dev_hndl c2h hw_qid; mret (rv, ctxt)
    | QDMA_HW_ACCESS_WRITE | QDMA_HW_ACCESS_MAX => mret (INV_PARAM, ctxt)
    end.

(** ** Interrupt aggregation context *)

Definition intr_words (ctxt : qdma_indirect_intr_ctxt) : list Z :=
  let baddr_l := u32 (FIELD_GET QDMA_INTR_CTXT_BADDR_GET_L_MASK (intr_baddr_4k ctxt)) in
  let baddr_m := u32 (FIELD_GET QDMA_INTR_CTXT_BADDR_GET_M_MASK (intr_baddr_4k ctxt)) in
  let baddr_h := u32 (FIELD_GET QDMA_INTR_CTXT_BADDR_GET_H_MASK (intr_baddr_4k ctxt)) in
  [FIELD_SET QDMA_INTR_CTXT_W0_VALID_MASK (intr_valid ctxt) .|
   FIELD_SET QDMA_INTR_CTXT_W0_VEC_ID_MASK (intr_vec ctxt) .|
   FIELD_SET QDMA_INTR_CTXT_W0_INT_ST_MASK (intr_int_st ctxt) .|
   FIELD_SET QDMA_INTR_CTXT_W0_COLOR_MASK (intr_color ctxt) .|
   FIELD_SET QDMA_INTR_CTXT_W0_BADDR_64_MASK baddr_l;
   FIELD_SET QDMA_INTR_CTXT_W1_BADDR_64_MASK baddr_m;
   FIELD_SET QDMA_INTR_CTXT_W2_BADDR_64_MASK baddr_h .|
   FIELD_SET QDMA_INTR_CTXT_W2_PAGE_SIZE_MASK (intr_page_size ctxt) .|
   FIELD_SET QDMA_INTR_CTXT_W2_PIDX_MASK (intr_pidx ctxt) .|
   FIELD_SET QDMA_INTR_CTXT_W2_AT_MASK (intr_at ctxt)].

Definition intr_of_words (ws : list Z) (old : qdma_indirect_intr_ctxt) :
    qdma_indirect_intr_ctxt :=
  let w0 := word ws 0 in let w1 := word ws 1 in let w2 := word ws 2 in
  let baddr_l := FIELD_GET QDMA_INTR_CTXT_W0_BADDR_64_MASK w0 in
  let baddr_m := FIELD_GET QDMA_INTR_CTXT_W1_BADDR_64_MASK w1 in
  let baddr_h := FIELD_GET QDMA_INTR_CTXT_W2_BADDR_64_MASK w2 in
  {| intr_valid := u8 (FIELD_GET QDMA_INTR_CTXT_W0_VALID_MASK w0);
     intr_vec := u16 (FIELD_GET QDMA_INTR_CTXT_W0_VEC_ID_MASK w0);
     intr_int_st := u8 (FIELD_GET QDMA_INTR_CTXT_W0_INT_ST_MASK w0);
     intr_color := u8 (FIELD_GET QDMA_INTR_CTXT_W0_COLOR_MASK w0);
     intr_page_size := u8 (FIELD_GET QDMA_INTR_CTXT_W2_PAGE_SIZE_MASK w2);
     intr_pidx := u16 (FIELD_GET QDMA_INTR_CTXT_W2_PIDX_MASK w2);
     intr_at := u8 (FIELD_GET QDMA_INTR_CTXT_W2_AT_MASK w2);
     intr_baddr_4k := FIELD_SET QDMA_INTR_CTXT_BADDR_GET_L_MASK baddr_l .|
                      FIELD_SET QDMA_INTR_CTXT_BADDR_GET_M_MASK baddr_m .|
                      FIELD_SET QDMA_INTR_CTXT_BADDR_GET_H_MASK baddr_h;
     intr_host_id := intr_host_id old; intr_pasid := intr_pasid old;
     intr_pasid_en := intr_pasid_en old; intr_func_id := intr_func_id old |}.

Definition qdma_indirect_intr_context_write (dev_hndl : bool) (ring_index : Z)
    (ctxt : option qdma_indirect_intr_ctxt) : hwm dev Z :=
  match dev_hndl, ctxt with
  | true, Some ctxt =>
      qdma_indirect_reg_write QDMA_CTXT_SEL_INT_COAL ring_index (intr_words ctxt)
  | _, _ => mret INV_PARAM
  end.

Definition qdma_indirect_intr_context_read (dev_hndl : bool) (ring_index : Z)
    (ctxt : option qdma_indirect_intr_ctxt) : hwm dev (Z * option qdma_indirect_intr_ctxt) :=
  match dev_hndl, ctxt with
  | true, Some old =>
      r ← qdma_indirect_reg_read QDMA_CTXT_SEL_INT_COAL ring_index 3;
      if r.1 <? 0 then mret (r.1, Some old)
      else mret (QDMA_SUCCESS, Some (intr_of_words r.2 old))
  | _, _ => mret (INV_PARAM, ctxt)
  end.

Definition qdma_indirect_intr_context_clear (dev_hndl : bool) (ring_index : Z) : hwm dev Z :=
  if negb dev_hndl then mret INV_PARAM
  else qdma_indirect_reg_clear QDMA_CTXT_SEL_INT_COAL ring_index.

Definition qdma_indirect_intr_context_invalidate (dev_hndl : bool) (ring_index : Z) : hwm dev Z :=
  if negb dev_hndl then mret INV_PARAM
  else qdma_indirect_reg_invalidate QDMA_CTXT_SEL_INT_COAL ring_index.

Definition qdma_indirect_intr_ctx_conf (dev_hndl : bool) (ring_index : Z)
    (ctxt : option qdma_indirect_intr_ctxt) (access_type : qdma_hw_access_type) :
    hwm dev (Z * option qdma_indirect_intr_ctxt) :=
  match access_type with
  | QDMA_HW_ACCESS_READ => qdma_indirect_intr_context_read dev_hndl ring_index ctxt
  | QDMA_HW_ACCESS_WRITE =>
      rv ← qdma_indirect_intr_context_write dev_hndl ring_index ctxt; mret (rv, ctxt)
  | QDMA_HW_ACCESS_CLEAR =>
      rv ← qdma_indirect_intr_context_clear dev_hndl ring_index; mret (rv, ctxt)
  | QDMA_HW_ACCESS_INVALIDATE =>
      rv ← qdma_indirect_intr_context_invalidate dev_hndl ring_index; mret (rv, ctxt)
  | QDMA_HW_ACCESS_MAX => mret (INV_PARAM, ctxt)
  end.
End soft_contexts.
