(* ===== verification/SoftCtxtThms.v ===== *)
(** * Queue contexts: what is programmed is what is read back

    Over any device that follows the documented indirect-access protocol,
    writing a context and reading it back gives the context, for every
    context kind the soft IP can write; contexts of other queues, and of other
    kinds, are not touched. *)

From S2P Require Import Prelude Platform Bits RegIO IndCtxt CtxtTypes SoftReg SoftCtxt.

(** ** Contexts the hardware can hold *)

Definition fmap_wf (c : qdma_fmap_cfg) : Prop :=
  fits QDMA_FMAP_CTXT_W0_QID_MASK (fmap_qbase c) ∧ fits QDMA_FMAP_CTXT_W1_QID_MAX_MASK (fmap_qmax c).

Record sw_wf (c : qdma_descq_sw_ctxt) : Prop := {
  swf_addr : is_u 64 (sw_ring_bs_addr c);
  swf_pidx : fits QDMA_SW_CTXT_W0_PIDX (sw_pidx c);
  swf_irq_arm : fits QDMA_SW_CTXT_W0_IRQ_ARM_MASK (sw_irq_arm c);
  swf_fnc_id : fits QDMA_SW_CTXT_W0_FUNC_ID_MASK (sw_fnc_id c);
  swf_qen : fits QDMA_SW_CTXT_W1_QEN_MASK (sw_qen c);
  swf_frcd_en : fits QDMA_SW_CTXT_W1_FCRD_EN_MASK (sw_frcd_en c);
  swf_wbi_chk : fits QDMA_SW_CTXT_W1_WBI_CHK_MASK (sw_wbi_chk c);
  swf_wbi_intvl : fits QDMA_SW_CTXT_W1_WB_INT_EN_MASK (sw_wbi_intvl_en c);
  swf_at : fits QDMA_SW_CTXT_W1_AT_MASK (sw_at c);
  swf_fetch_max : fits QDMA_SW_CTXT_W1_FETCH_MAX_MASK (sw_fetch_max c);
  swf_rngsz : fits QDMA_SW_CTXT_W1_RNG_SZ_MASK (sw_rngsz_idx c);
  swf_desc_sz : fits QDMA_SW_CTXT_W1_DSC_SZ_MASK (sw_desc_sz c);
  swf_bypass : fits QDMA_SW_CTXT_W1_BYP_MASK (sw_bypass c);
  swf_mm_chn : fits QDMA_SW_CTXT_W1_MM_CHN_MASK (sw_mm_chn c);
  swf_wbk_en : fits QDMA_SW_CTXT_W1_WBK_EN_MASK (sw_wbk_en c);
  swf_irq_en : fits QDMA_SW_CTXT_W1_IRQ_EN_MASK (sw_irq_en c);
  swf_port_id : fits QDMA_SW_CTXT_W1_PORT_ID_MASK (sw_port_id c);
  swf_irq_no_last : fits QDMA_SW_CTXT_W1_IRQ_NO_LAST_MASK (sw_irq_no_last c);
  swf_err : fits QDMA_SW_CTXT_W1_ERR_MASK (sw_err c);
  swf_err_wb : fits QDMA_SW_CTXT_W1_ERR_WB_SENT_MASK (sw_err_wb_sent c);
  swf_irq_req : fits QDMA_SW_CTXT_W1_IRQ_REQ_MASK (sw_irq_req c);
  swf_mrkr_dis : fits QDMA_SW_CTXT_W1_MRKR_DIS_MASK (sw_mrkr_dis c);
  swf_is_mm : fits QDMA_SW_CTXT_W1_IS_MM_MASK (sw_is_mm c);
  swf_vec : fits QDMA_SW_CTXT_W4_VEC_MASK (sw_vec c);
  swf_intr_aggr : fits QDMA_SW_CTXT_W4_INTR_AGGR_MASK (sw_intr_aggr c);
}.

(** The part of [c] the soft IP holds, the rest from [old]. *)
Definition sw_keep (old c : qdma_descq_sw_ctxt) : qdma_descq_sw_ctxt :=
  mk_sw (sw_ring_bs_addr c) (sw_vec c) (sw_pidx c) (sw_irq_arm c) (sw_fnc_id c) (sw_qen c)
    (sw_frcd_en c) (sw_wbi_chk c) (sw_wbi_intvl_en c) (sw_at c) (sw_fetch_max c)
    (sw_rngsz_idx c) (sw_desc_sz c) (sw_bypass c) (sw_mm_chn c) (sw_wbk_en c)
    (sw_irq_en c) (sw_port_id c) (sw_irq_no_last c) (sw_err c) (sw_err_wb_sent c)
    (sw_irq_req c) (sw_mrkr_dis c) (sw_is_mm c) (sw_intr_aggr c) (sw_pasid_en old)
    (sw_dis_intr_on_vf old) (sw_virtio_en old) (sw_pack_byp_out old) (sw_irq_byp old)
    (sw_host_id old) (sw_pasid old) (sw_virtio_dsc_base old).

Lemma addr64_split a :
  is_u 64 a →
  Z.shiftl (u32 (Z.land (Z.shiftr a 32) 0xffffffff)) 32 .| u32 (Z.land a 0xffffffff) = a.
Proof.
  intros Ha. change 0xffffffff with (Z.ones 32). rewrite <- !wrap_land_ones by lia.
  rewrite !wrap_wrap by lia. rewrite !wrap_land_ones by lia. apply Z.bits_inj'. intros n Hn.
  rewrite Z.lor_spec, Z.shiftl_spec, (Z.land_spec a), (Z.testbit_ones_nonneg 32 n) by lia.
  destruct (Z.ltb_spec n 32).
  - rewrite Z.testbit_neg_r by lia. simpl. by rewrite andb_true_r.
  - rewrite Z.land_spec, Z.shiftr_spec, Z.testbit_ones_nonneg by lia.
    rewrite andb_false_r, orb_false_r. replace (n - 32 + 32) with n by lia.
    destruct (Z.ltb_spec (n - 32) 32); [by rewrite andb_true_r|].
    rewrite andb_false_r. symmetry. apply (testbit_u 64); [done|lia..].
Qed.

Lemma fmap_of_words_words c ws :
  fmap_wf c → (∀ i, (i < 2)%nat → word ws i = u32 (word (fmap_words c) i)) → fmap_of_words ws = c.
Proof.
  intros [H1 H2] Hw. unfold fmap_of_words. rewrite !Hw by lia. unfold word. simpl.
  destruct c as [qb qm]; simpl in *. f_equal; fields; by wraps.
Qed.

Lemma sw_of_words_words c old ws :
  sw_wf c → (∀ i, (i < 5)%nat → word ws i = u32 (word (sw_words c) i)) →
  sw_of_words ws old = sw_keep old c.
Proof.
  intros [] Hw. unfold sw_of_words, sw_keep. rewrite !Hw by lia. unfold word, sw_words. simpl default.
  f_equal; try (fields; wraps; reflexivity). by apply addr64_split.
Qed.

Record pfetch_wf (c : qdma_descq_prefetch_ctxt) : Prop := {
  pff_crdt : is_u 16 (pf_sw_crdt c);
  pff_bypass : fits QDMA_PFTCH_CTXT_W0_BYPASS_MASK (pf_bypass c);
  pff_bufsz : fits QDMA_PFTCH_CTXT_W0_BUF_SIZE_IDX_MASK (pf_bufsz_idx c);
  pff_port : fits QDMA_PFTCH_CTXT_W0_PORT_ID_MASK (pf_port_id c);
  pff_err : fits QDMA_PFTCH_CTXT_W0_ERR_MASK (pf_err c);
  pff_en : fits QDMA_PFTCH_CTXT_W0_PFETCH_EN_MASK (pf_pfch_en c);
  pff_pfch : fits QDMA_PFTCH_CTXT_W0_Q_IN_PFETCH_MASK (pf_pfch c);
  pff_valid : fits QDMA_PFTCH_CTXT_W1_VALID_MASK (pf_valid c);
}.

Definition pfetch_keep (old c : qdma_descq_prefetch_ctxt) : qdma_descq_prefetch_ctxt :=
  mk_pf (pf_sw_crdt c) (pf_bypass c) (pf_bufsz_idx c) (pf_port_id c) (pf_var_desc old)
    (pf_num_pftch old) (pf_err c) (pf_pfch_en c) (pf_pfch c) (pf_valid c).

(** A part cut out of a value fits a field as wide as the part. *)
Ltac part_fits m m' v :=
  let H := fresh "Hpart" in
  assert (fits m' (FIELD_GET m v)) as H
    by (apply (fits_width m); [mask_compute|apply FIELD_GET_fits; mask_compute]).

Lemma pfetch_of_words_words c old ws :
  pfetch_wf c → (∀ i, (i < 2)%nat → word ws i = u32 (word (pfetch_words c) i)) →
  pfetch_of_words ws old = pfetch_keep old c.
Proof.
  intros [] Hw. unfold pfetch_of_words, pfetch_keep. rewrite !Hw by lia.
  unfold word, pfetch_words. simpl default.
  part_fits QDMA_PFTCH_CTXT_SW_CRDT_GET_L_MASK QDMA_PFTCH_CTXT_W0_SW_CRDT_L_MASK (pf_sw_crdt c).
  part_fits QDMA_PFTCH_CTXT_SW_CRDT_GET_H_MASK QDMA_PFTCH_CTXT_W1_SW_CRDT_H_MASK (pf_sw_crdt c).
  f_equal; fields; wraps; try reflexivity.
  rewrite (FIELD_split2 _ _ 16) by (done || mask_compute). by wraps.
Qed.

Record cmpt_wf (c : qdma_descq_cmpt_ctxt) : Prop := {
  cmf_addr : is_u 64 (cmpt_bs_addr c);
  cmf_align : cmpt_bs_addr c mod 4096 = 0;
  cmf_pidx : is_u 16 (cmpt_pidx c);
  cmf_trig : cmpt_trig_mode c <= QDMA_CMPT_UPDATE_TRIG_MODE_TMR_CNTR;
  cmf_stat : fits QDMA_COMPL_CTXT_W0_EN_STAT_DESC_MASK (cmpt_en_stat_desc c);
  cmf_int : fits QDMA_COMPL_CTXT_W0_EN_INT_MASK (cmpt_en_int c);
  cmf_trig_mode : fits QDMA_COMPL_CTXT_W0_TRIG_MODE_MASK (cmpt_trig_mode c);
  cmf_fnc : fits QDMA_COMPL_CTXT_W0_FNC_ID_MASK (cmpt_fnc_id c);
  cmf_counter : fits QDMA_COMPL_CTXT_W0_COUNTER_IDX_MASK (cmpt_counter_idx c);
  cmf_timer : fits QDMA_COMPL_CTXT_W0_TIMER_IDX_MASK (cmpt_timer_idx c);
  cmf_in_st : fits QDMA_COMPL_CTXT_W0_INT_ST_MASK (cmpt_in_st c);
  cmf_color : fits QDMA_COMPL_CTXT_W0_COLOR_MASK (cmpt_color c);
  cmf_ringsz : fits QDMA_COMPL_CTXT_W0_RING_SZ_MASK (cmpt_ringsz_idx c);
  cmf_desc_sz : fits QDMA_COMPL_CTXT_W2_DESC_SIZE_MASK (cmpt_desc_sz c);
  cmf_cidx : fits QDMA_COMPL_CTXT_W3_CIDX_MASK (cmpt_cidx c);
  cmf_valid : fits QDMA_COMPL_CTXT_W3_VALID_MASK (cmpt_valid c);
  cmf_err : fits QDMA_COMPL_CTXT_W3_ERR_MASK (cmpt_err c);
  cmf_user : fits QDMA_COMPL_CTXT_W3_USR_TRG_PND_MASK (cmpt_user_trig_pend c);
  cmf_tmr : fits QDMA_COMPL_CTXT_W4_TMR_RUN_MASK (cmpt_timer_running c);
  cmf_full : fits QDMA_COMPL_CTXT_W4_FULL_UPDT_MASK (cmpt_full_upd c);
  cmf_ovf : fits QDMA_COMPL_CTXT_W4_OVF_CHK_DIS_MASK (cmpt_ovf_chk_dis c);
  cmf_at : fits QDMA_COMPL_CTXT_W4_AT_MASK (cmpt_at c);
  cmf_vec : fits QDMA_COMPL_CTXT_W4_INTR_VEC_MASK (cmpt_vec c);
  cmf_aggr : fits QDMA_COMPL_CTXT_W4_INTR_AGGR_MASK (cmpt_int_aggr c);
}.

Definition cmpt_keep (old c : qdma_descq_cmpt_ctxt) : qdma_descq_cmpt_ctxt :=
  mk_cmpt (cmpt_bs_addr c) (cmpt_vec c) (cmpt_pidx c) (cmpt_cidx c) (cmpt_en_stat_desc c)
    (cmpt_en_int c) (cmpt_trig_mode c) (cmpt_fnc_id c) (cmpt_counter_idx c) (cmpt_timer_idx c)
    (cmpt_in_st c) (cmpt_color c) (cmpt_ringsz_idx c) (cmpt_desc_sz c) (cmpt_valid c)
    (cmpt_err c) (cmpt_user_trig_pend c) (cmpt_timer_running c) (cmpt_full_upd c)
    (cmpt_ovf_chk_dis c) (cmpt_at c) (cmpt_int_aggr c) (cmpt_dis_intr_on_vf old) (cmpt_vio old)
    (cmpt_dir_c2h old) (cmpt_host_id old) (cmpt_pasid old) (cmpt_pasid_en old)
    (cmpt_vio_eop old) (cmpt_sh_cmpt old).

(** An address aligned to [2 ^ k] has no bits below [k]. *)
Lemma land_low_mask k a m :
  0 <= k <= 64 → is_u 64 a → a mod 2 ^ k = 0 → m = Z.ldiff (Z.ones 64) (Z.ones k) → Z.land a m = a.
Proof.
  intros Hk Ha Hm ->. apply Z.bits_inj'. intros n Hn.
  rewrite Z.land_spec, Z.ldiff_spec, !Z.testbit_ones_nonneg by lia.
  destruct (Z.ltb_spec n 64); destruct (Z.ltb_spec n k); simpl; try lia.
  - rewrite andb_false_r. symmetry. rewrite <- (Z.mod_pow2_bits_low a k n) by lia.
    rewrite Hm. apply Z.bits_0.
  - apply andb_true_r.
  - rewrite (testbit_u 64 a) by (done || lia). done.
Qed.

Lemma cmpt_of_words_words c old ws :
  cmpt_wf c → (∀ i, (i < 5)%nat → word ws i = u32 (word (cmpt_words c) i)) →
  cmpt_of_words ws old = cmpt_keep old c.
Proof.
  intros [] Hw. unfold cmpt_of_words, cmpt_keep. rewrite !Hw by lia.
  unfold word, cmpt_words. simpl default.
  part_fits QDMA_COMPL_CTXT_BADDR_GET_L_MASK QDMA_COMPL_CTXT_W1_BADDR_64_L_MASK (cmpt_bs_addr c).
  part_fits QDMA_COMPL_CTXT_BADDR_GET_H_MASK QDMA_COMPL_CTXT_W2_BADDR_64_H_MASK (cmpt_bs_addr c).
  part_fits QDMA_COMPL_CTXT_PIDX_GET_L_MASK QDMA_COMPL_CTXT_W2_PIDX_L_MASK (cmpt_pidx c).
  part_fits QDMA_COMPL_CTXT_PIDX_GET_H_MASK QDMA_COMPL_CTXT_W3_PIDX_H_MASK (cmpt_pidx c).
  wraps. f_equal; fields; wraps; try reflexivity.
  - rewrite !FIELD_SET_GET, <- Z.land_lor_distr_r by mask_compute.
    by apply (land_low_mask 12); [lia|done..|mask_compute].
  - rewrite (FIELD_split2 _ _ 16) by (done || mask_compute). by wraps.
Qed.

Record intr_wf (c : qdma_indirect_intr_ctxt) : Prop := {
  inf_addr : is_u 64 (intr_baddr_4k c);
  inf_align : intr_baddr_4k c mod 4096 = 0;
  inf_valid : fits QDMA_INTR_CTXT_W0_VALID_MASK (intr_valid c);
  inf_vec : fits QDMA_INTR_CTXT_W0_VEC_ID_MASK (intr_vec c);
  inf_int_st : fits QDMA_INTR_CTXT_W0_INT_ST_MASK (intr_int_st c);
  inf_color : fits QDMA_INTR_CTXT_W0_COLOR_MASK (intr_color c);
  inf_page : fits QDMA_INTR_CTXT_W2_PAGE_SIZE_MASK (intr_page_size c);
  inf_pidx : fits QDMA_INTR_CTXT_W2_PIDX_MASK (intr_pidx c);
  inf_at : fits QDMA_INTR_CTXT_W2_AT_MASK (intr_at c);
}.

Definition intr_keep (old c : qdma_indirect_intr_ctxt) : qdma_indirect_intr_ctxt :=
  mk_intr (intr_baddr_4k c) (intr_vec c) (intr_pidx c) (intr_valid c) (intr_int_st c)
    (intr_color c) (intr_page_size c) (intr_at c) (intr_host_id old) (intr_pasid old)
    (intr_pasid_en old) (intr_func_id old).

Lemma intr_of_words_words c old ws :
  intr_wf c → (∀ i, (i < 3)%nat → word ws i = u32 (word (intr_words c) i)) →
  intr_of_words ws old = intr_keep old c.
Proof.
  intros [] Hw. unfold intr_of_words, intr_keep. rewrite !Hw by lia.
  unfold word, intr_words. simpl default.
  part_fits QDMA_INTR_CTXT_BADDR_GET_L_MASK QDMA_INTR_CTXT_W0_BADDR_64_MASK (intr_baddr_4k c).
  part_fits QDMA_INTR_CTXT_BADDR_GET_M_MASK QDMA_INTR_CTXT_W1_BADDR_64_MASK (intr_baddr_4k c).
  part_fits QDMA_INTR_CTXT_BADDR_GET_H_MASK QDMA_INTR_CTXT_W2_BADDR_64_MASK (intr_baddr_4k c).
  wraps. f_equal; fields; wraps; try reflexivity.
  rewrite !FIELD_SET_GET, <- !Z.land_lor_distr_r by mask_compute.
  by apply (land_low_mask 12); [lia|done..|mask_compute].
Qed.

Lemma pfetch_keep_refl c : pfetch_keep c c = c.
Proof. by destruct c. Qed.

Lemma cmpt_keep_refl c : cmpt_keep c c = c.
Proof. by destruct c. Qed.

(** *** Values the EQDMA and CPM5 layers read back altered *)

(** The virtio base those layers read back: the low 53 bits, and above them
    the low bits of the middle part, because the top part is taken from the
    sixth word of the context instead of the seventh. *)
Definition virtio_base_read (b : Z) : Z :=
  Z.land b (Z.ones 53) .| Z.shiftl (Z.land (Z.shiftr b 21) (Z.ones 11)) 53.

Lemma virtio_parts b :
  FIELD_SET (GENMASK_ULL 20 0) (FIELD_GET (GENMASK_ULL 20 0) b) .|
  FIELD_SET (GENMASK_ULL 52 21) (FIELD_GET (GENMASK_ULL 52 21) b) .|
  FIELD_SET (GENMASK_ULL 63 53) (FIELD_GET (GENMASK 10 0)
    (FIELD_SET (GENMASK 31 0) (FIELD_GET (GENMASK_ULL 52 21) b))) = virtio_base_read b.
Proof.
  unfold virtio_base_read. rewrite !FIELD_SET_GET, <- Z.land_lor_distr_r by mask_compute. f_equal.
  rewrite FIELD_SET_eq, !FIELD_GET_eq, FIELD_SET_eq by mask_compute.
  change (FIELD_SHIFT (GENMASK 10 0)) with 0. change (FIELD_SHIFT (GENMASK 31 0)) with 0.
  rewrite Z.shiftl_0_r, Z.shiftr_0_r.
  rewrite <- !Z.land_assoc. reflexivity.
Qed.

(** A 22-bit PASID put together from nine low bits cut to eight and thirteen
    high ones: bit 8 is lost. *)
Lemma pasid_parts p :
  is_u 22 p →
  FIELD_SET (GENMASK 8 0) (u8 (FIELD_GET (GENMASK 8 0) p)) .|
  FIELD_SET (GENMASK 21 9) (FIELD_GET (GENMASK 21 9) p) = Z.ldiff p 0x100.
Proof.
  intros Hp. rewrite FIELD_SET_GET, FIELD_SET_eq, FIELD_GET_eq, wrap_land_ones by (lia || mask_compute).
  change (FIELD_SHIFT (GENMASK 8 0)) with 0. rewrite Z.shiftl_0_r, Z.shiftr_0_r, <- !Z.land_assoc.
  rewrite <- Z.land_lor_distr_r. transitivity (Z.land (Z.land p (Z.ones 22)) (Z.lnot 0x100)).
  - by rewrite <- Z.land_assoc.
  - rewrite Z.land_ones, Z.mod_small by (done || lia). by rewrite Z.ldiff_land.
Qed.

(** ** Write, then read *)

Section roundtrip.
Context {dev : Type} `{TimelyDevice dev}.
Implicit Types s : hw_state dev.

Lemma word_fmap_seq f n i : (i < n)%nat → word (f <$> seq 0 n) i = f i.
Proof using.
  intros Hi. unfold word. by rewrite list_lookup_fmap, lookup_seq_lt by done.
Qed.

Lemma write_then_read sel qid data cnt s :
  idle s → (cnt <= 8)%nat →
  ∃ s1 s2 ws, qdma_indirect_reg_write sel qid data s = Some (QDMA_SUCCESS, s1) ∧
    qdma_indirect_reg_read sel qid cnt s1 = Some ((QDMA_SUCCESS, ws), s2) ∧ idle s2 ∧
    ∀ i, (i < cnt)%nat → word ws i = u32 (word data i).
Proof using Type*.
  intros Hs Hc. destruct (indirect_write_ok sel qid data s Hs) as (s1 & E1 & Hs1 & Hr1).
  destruct (indirect_read_ok sel qid cnt s1 Hs1 Hc) as (s2 & E2 & Hs2 & _).
  exists s1, s2. eexists. split_and!; [done..|]. intros i Hi. rewrite word_fmap_seq by done.
  by apply Hr1; [lia|].
Qed.

(** Reading another entry gives the same words before and after a write. *)
Lemma write_read_other sel qid data sel' qid' cnt s :
  idle s → (cnt <= 8)%nat → sel' ≠ sel ∨ cmd_qid qid' ≠ cmd_qid qid →
  ∃ s1 s2 s3 ws, qdma_indirect_reg_write sel qid data s = Some (QDMA_SUCCESS, s1) ∧
    qdma_indirect_reg_read sel' qid' cnt s = Some ((QDMA_SUCCESS, ws), s2) ∧
    qdma_indirect_reg_read sel' qid' cnt s1 = Some ((QDMA_SUCCESS, ws), s3).
Proof using Type*.
  intros Hs Hc Hne. destruct (indirect_write_ok sel qid data s Hs) as (s1 & E1 & Hs1 & Hr1).
  destruct (indirect_read_ok sel' qid' cnt s Hs Hc) as (s2 & E2 & _ & _).
  destruct (indirect_read_ok sel' qid' cnt s1 Hs1 Hc) as (s3 & E3 & _ & _).
  exists s1, s2, s3. eexists. split; [done|]. split; [done|]. rewrite E3. do 3 f_equal.
  apply list_fmap_ext. intros j i [-> Hj]%lookup_seq. apply Hr1; [lia|].
  intros [Hsel%sel_val_inj Hq]. destruct Hne; congruence.
Qed.

(** A software context programmed through [qdma_sw_ctx_conf] for a queue
    and direction is read back unchanged, both calls succeed, and the device
    is idle with the register lock free afterwards. *)
Theorem qdma_sw_ctx_conf_roundtrip s c2h hw_qid c old :
  idle s → c2h = 0 ∨ c2h = 1 → sw_wf c →
  ∃ s1 s2,
    qdma_sw_ctx_conf true c2h hw_qid (Some c) QDMA_HW_ACCESS_WRITE s =
      Some ((QDMA_SUCCESS, Some c), s1) ∧
    qdma_sw_ctx_conf true c2h hw_qid (Some old) QDMA_HW_ACCESS_READ s1 =
      Some ((QDMA_SUCCESS, Some (sw_keep old c)), s2) ∧ idle s2.
Proof using Type*.
  intros Hs Hc Hwf.
  destruct (write_then_read (sw_sel c2h) hw_qid (sw_words c) 5 s Hs ltac:(lia))
    as (s1 & s2 & ws & E1 & E2 & Hs2 & Hw).
  exists s1, s2. unfold qdma_sw_ctx_conf. replace (c2h >? 1) with false by lia.
  unfold qdma_sw_context_write, qdma_sw_context_read, mbind, hwm_bind. rewrite E1, E2.
  split; [done|]. split; [|done]. simpl. by rewrite (sw_of_words_words c).
Qed.

(** A prefetch context programmed through [qdma_pfetch_ctx_conf] is read
    back unchanged, the 16-bit credit split over two words included. *)
Theorem qdma_pfetch_ctx_conf_roundtrip s hw_qid c old :
  idle s → pfetch_wf c →
  ∃ s1 s2,
    qdma_pfetch_ctx_conf true hw_qid (Some c) QDMA_HW_ACCESS_WRITE s =
      Some ((QDMA_SUCCESS, Some c), s1) ∧
    qdma_pfetch_ctx_conf true hw_qid (Some old) QDMA_HW_ACCESS_READ s1 =
      Some ((QDMA_SUCCESS, Some (pfetch_keep old c)), s2) ∧ idle s2.
Proof using Type*.
  intros Hs Hwf.
  destruct (write_then_read QDMA_CTXT_SEL_PFTCH hw_qid (pfetch_words c) 2 s Hs ltac:(lia))
    as (s1 & s2 & ws & E1 & E2 & Hs2 & Hw).
  exists s1, s2. unfold qdma_pfetch_ctx_conf, qdma_pfetch_context_write, qdma_pfetch_context_read.
  unfold mbind, hwm_bind. rewrite E1, E2. split; [done|]. split; [|done]. simpl.
  by rewrite (pfetch_of_words_words c).
Qed.

(** A completion context with a 4 KiB aligned ring is read back unchanged:
    the address and the producer index split over two words included. *)
Theorem qdma_cmpt_ctx_conf_roundtrip s hw_qid c old :
  idle s → cmpt_wf c →
  ∃ s1 s2,
    qdma_cmpt_ctx_conf true hw_qid (Some c) QDMA_HW_ACCESS_WRITE s =
      Some ((QDMA_SUCCESS, Some c), s1) ∧
    qdma_cmpt_ctx_conf true hw_qid (Some old) QDMA_HW_ACCESS_READ s1 =
      Some ((QDMA_SUCCESS, Some (cmpt_keep old c)), s2) ∧ idle s2.
Proof using Type*.
  intros Hs Hwf. pose proof (cmf_trig c Hwf) as Ht.
  destruct (write_then_read QDMA_CTXT_SEL_CMPT hw_qid (cmpt_words c) 5 s Hs ltac:(lia))
    as (s1 & s2 & ws & E1 & E2 & Hs2 & Hw).
  exists s1, s2. unfold qdma_cmpt_ctx_conf, qdma_cmpt_context_write, qdma_cmpt_context_read.
  replace (cmpt_trig_mode c >? QDMA_CMPT_UPDATE_TRIG_MODE_TMR_CNTR) with false by lia.
  unfold mbind, hwm_bind. rewrite E1, E2. split; [done|]. split; [|done]. simpl.
  by rewrite (cmpt_of_words_words c).
Qed.

(** An interrupt-aggregation context with a 4 KiB aligned ring is read
    back unchanged: the address split over three words included. *)
Theorem qdma_indirect_intr_ctx_conf_roundtrip s ring_index c old :
  idle s → intr_wf c →
  ∃ s1 s2,
    qdma_indirect_intr_ctx_conf true ring_index (Some c) QDMA_HW_ACCESS_WRITE s =
      Some ((QDMA_SUCCESS, Some c), s1) ∧
    qdma_indirect_intr_ctx_conf true ring_index (Some old) QDMA_HW_ACCESS_READ s1 =
      Some ((QDMA_SUCCESS, Some (intr_keep old c)), s2) ∧ idle s2.
Proof using Type*.
  intros Hs Hwf.
  destruct (write_then_read QDMA_CTXT_SEL_INT_COAL ring_index (intr_words c) 3 s Hs ltac:(lia))
    as (s1 & s2 & ws & E1 & E2 & Hs2 & Hw).
  exists s1, s2. unfold qdma_indirect_intr_ctx_conf, qdma_indirect_intr_context_write,
    qdma_indirect_intr_context_read.
  unfold mbind, hwm_bind. rewrite E1, E2. split; [done|]. split; [|done]. simpl.
  by rewrite (intr_of_words_words c).
Qed.

(** The queue range of a function programmed through [qdma_fmap_conf] is
    read back unchanged, and the map of every other function (of the 4096 the
    command word can name) reads as before. *)
Theorem qdma_fmap_conf_roundtrip s func_id c old func_id' :
  idle s → fmap_wf c → cmd_qid func_id' ≠ cmd_qid func_id →
  ∃ s1 s2 s3 s4 r,
    qdma_fmap_conf true func_id (Some c) QDMA_HW_ACCESS_WRITE s =
      Some ((QDMA_SUCCESS, Some c), s1) ∧
    qdma_fmap_conf true func_id (Some old) QDMA_HW_ACCESS_READ s1 =
      Some ((QDMA_SUCCESS, Some c), s2) ∧
    qdma_fmap_conf true func_id' (Some old) QDMA_HW_ACCESS_READ s = Some (r, s3) ∧
    qdma_fmap_conf true func_id' (Some old) QDMA_HW_ACCESS_READ s1 = Some (r, s4).
Proof using Type*.
  intros Hs Hwf Hne.
  destruct (write_then_read QDMA_CTXT_SEL_FMAP func_id (fmap_words c) 2 s Hs ltac:(lia))
    as (s1 & s2 & ws & E1 & E2 & Hs2 & Hw).
  destruct (write_read_other QDMA_CTXT_SEL_FMAP func_id (fmap_words c) QDMA_CTXT_SEL_FMAP func_id' 2
    s Hs ltac:(lia) (or_intror Hne)) as (s1' & s3 & s4 & ws' & E1' & E3 & E4).
  rewrite E1 in E1'. simplify_eq.
  exists s1', s2, s3, s4, (QDMA_SUCCESS, Some (fmap_of_words ws')).
  unfold qdma_fmap_conf, qdma_fmap_write, qdma_fmap_read, mbind, hwm_bind.
  rewrite E1, E2, E3, E4. simpl. by rewrite (fmap_of_words_words c).
Qed.
End roundtrip.

(** ** Locking and errors *)

Ltac keeps_conf :=
  repeat match goal with
  | |- keeps _ (mbind _ _) => apply keeps_bind; [|intros ?]
  | |- keeps _ (mret _) => apply keeps_ret
  | |- keeps _ (qdma_indirect_reg_read _ _ _) => apply keeps_indirect_read
  | |- keeps _ (qdma_indirect_reg_write _ _ _) => apply keeps_indirect_write
  | |- keeps _ (qdma_indirect_reg_clear _ _) => apply keeps_indirect_clear
  | |- keeps _ (qdma_indirect_reg_invalidate _ _) => apply keeps_indirect_invalidate
  | |- keeps _ (match ?x with _ => _ end) => destruct x
  end.

(** Whatever the device answers (no assumption on it, time-outs
    included), every context function returns, and returns with the register
    lock free if it was free before: no path keeps the spin lock. *)
Theorem soft_ctx_conf_releases_lock {dev : Type} `{Device dev} c2h qid access :
  (∀ c, keeps false (qdma_fmap_conf (dev := dev) true qid c access)) ∧
  (∀ c, keeps false (qdma_sw_ctx_conf (dev := dev) true c2h qid c access)) ∧
  (∀ c, keeps false (qdma_pfetch_ctx_conf (dev := dev) true qid c access)) ∧
  (∀ c, keeps false (qdma_cmpt_ctx_conf (dev := dev) true qid c access)) ∧
  (∀ c, keeps false (qdma_hw_ctx_conf (dev := dev) true c2h qid c access)) ∧
  (∀ c, keeps false (qdma_credit_ctx_conf (dev := dev) true c2h qid c access)) ∧
  (∀ c, keeps false (qdma_indirect_intr_ctx_conf (dev := dev) true qid c access)).
Proof.
  split_and!; intros c.
  - unfold qdma_fmap_conf, qdma_fmap_read, qdma_fmap_write, qdma_fmap_clear. keeps_conf.
  - unfold qdma_sw_ctx_conf, qdma_sw_context_read, qdma_sw_context_write, qdma_sw_context_clear,
      qdma_sw_context_invalidate. keeps_conf.
  - unfold qdma_pfetch_ctx_conf, qdma_pfetch_context_read, qdma_pfetch_context_write,
      qdma_pfetch_context_clear, qdma_pfetch_context_invalidate. keeps_conf.
  - unfold qdma_cmpt_ctx_conf, qdma_cmpt_context_read, qdma_cmpt_context_write,
      qdma_cmpt_context_clear, qdma_cmpt_context_invalidate. keeps_conf.
  - unfold qdma_hw_ctx_conf, qdma_hw_context_read, qdma_hw_context_clear,
      qdma_hw_context_invalidate. keeps_conf.
  - unfold qdma_credit_ctx_conf, qdma_credit_context_read, qdma_credit_context_clear,
      qdma_credit_context_invalidate. keeps_conf.
  - unfold qdma_indirect_intr_ctx_conf, qdma_indirect_intr_context_read,
      qdma_indirect_intr_context_write, qdma_indirect_intr_context_clear,
      qdma_indirect_intr_context_invalidate. keeps_conf.
Qed.

(** A device that is still busy 50000 polling intervals (half a second)
    after the command: clearing a software context reports
    QDMA_ERR_HWACC_BUSY_TIMEOUT, and the register lock is free again. *)
Theorem qdma_sw_ctx_clear_timeout {dev : Type} `{IndirectCtxt dev} (d : dev) c2h hw_qid c :
  c2h = 0 ∨ c2h = 1 →
  50000 < Z.of_nat (ctxt_busy (dev_write QDMA_OFFSET_IND_CTXT_CMD
    (u32 (qdma_ind_ctxt_cmd (sw_sel c2h) QDMA_CTXT_CMD_CLR hw_qid)) d)) →
  ∃ d', qdma_sw_ctx_conf true c2h hw_qid c QDMA_HW_ACCESS_CLEAR (mk_hw d false) =
    Some ((ERR QDMA_ERR_HWACC_BUSY_TIMEOUT, c), mk_hw d' false).
Proof.
  intros Hc Hb. destruct (indirect_clear_timeout _ _ _ Hb) as (d' & E). exists d'.
  unfold qdma_sw_ctx_conf, qdma_sw_context_clear. replace (c2h >? 1) with false by lia. simpl.
  unfold mbind, hwm_bind. by rewrite E.
Qed.

(** ** Instances *)

(** A device whose command unit hangs. *)
Definition sim_hang : sim := mk_sim (λ _, 0) (λ _, 0) (λ _ _ _, 0) (Z.to_nat 60000) (λ _, 0).

Definition sw_zero : qdma_descq_sw_ctxt :=
  mk_sw 0 0 0 0 0 0 0 0 0 0 0 0 0 0 0 0 0 0 0 0 0 0 0 0 0 0 0 0 0 0 0 0 0.
Definition sw_example : qdma_descq_sw_ctxt :=
  mk_sw 0x123456789000 5 1024 1 3 1 1 1 1 0 7 9 2 0 0 1 1 3 0 0 0 0 0 0 1 0 0 0 0 0 0 0 0.
Definition cmpt_zero : qdma_descq_cmpt_ctxt :=
  mk_cmpt 0 0 0 0 0 0 0 0 0 0 0 0 0 0 0 0 0 0 0 0 0 0 0 0 0 0 0 0 0 0.
Definition cmpt_example : qdma_descq_cmpt_ctxt :=
  mk_cmpt 0xFEDCBA9876543000 7 0xABCD 0x1234 1 1 5 3 2 4 0 1 9 1 1 0 0 0 0 1 0 1 0 0 0 0 0 0 0 0.
Definition pf_example : qdma_descq_prefetch_ctxt := mk_pf 0x1234 1 5 2 0 0 0 1 0 1.
Definition intr_example : qdma_indirect_intr_ctxt :=
  mk_intr 0xFEDCBA9876543000 33 100 1 0 1 2 0 0 0 0 0.

Lemma sim_idle : idle (mk_hw sim_init false).
Proof. split; reflexivity. Qed.

Ltac wf_compute := constructor; mask_compute.

Lemma qdma_sw_ctx_conf_roundtrip_witness :
  ∃ s1 s2,
    qdma_sw_ctx_conf true 1 77 (Some sw_example) QDMA_HW_ACCESS_WRITE (mk_hw sim_init false) =
      Some ((QDMA_SUCCESS, Some sw_example), s1) ∧
    qdma_sw_ctx_conf true 1 77 (Some sw_zero) QDMA_HW_ACCESS_READ s1 =
      Some ((QDMA_SUCCESS, Some sw_example), s2) ∧ idle s2.
Proof.
  apply (qdma_sw_ctx_conf_roundtrip (mk_hw sim_init false) 1 77 sw_example sw_zero sim_idle).
  - right. reflexivity.
  - wf_compute.
Defined.

Lemma qdma_pfetch_ctx_conf_roundtrip_witness :
  ∃ s1 s2,
    qdma_pfetch_ctx_conf true 77 (Some pf_example) QDMA_HW_ACCESS_WRITE (mk_hw sim_init false) =
      Some ((QDMA_SUCCESS, Some pf_example), s1) ∧
    qdma_pfetch_ctx_conf true 77 (Some pf_example) QDMA_HW_ACCESS_READ s1 =
      Some ((QDMA_SUCCESS, Some pf_example), s2) ∧ idle s2.
Proof.
  apply (qdma_pfetch_ctx_conf_roundtrip (mk_hw sim_init false) 77 pf_example pf_example sim_idle).
  wf_compute.
Defined.

Lemma qdma_cmpt_ctx_conf_roundtrip_witness :
  ∃ s1 s2,
    qdma_cmpt_ctx_conf true 77 (Some cmpt_example) QDMA_HW_ACCESS_WRITE (mk_hw sim_init false) =
      Some ((QDMA_SUCCESS, Some cmpt_example), s1) ∧
    qdma_cmpt_ctx_conf true 77 (Some cmpt_zero) QDMA_HW_ACCESS_READ s1 =
      Some ((QDMA_SUCCESS, Some cmpt_example), s2) ∧ idle s2.
Proof.
  apply (qdma_cmpt_ctx_conf_roundtrip (mk_hw sim_init false) 77 cmpt_example cmpt_zero sim_idle).
  wf_compute.
Defined.

Lemma qdma_indirect_intr_ctx_conf_roundtrip_witness :
  ∃ s1 s2,
    qdma_indirect_intr_ctx_conf true 3 (Some intr_example) QDMA_HW_ACCESS_WRITE
      (mk_hw sim_init false) = Some ((QDMA_SUCCESS, Some intr_example), s1) ∧
    qdma_indirect_intr_ctx_conf true 3 (Some intr_example) QDMA_HW_ACCESS_READ s1 =
      Some ((QDMA_SUCCESS, Some intr_example), s2) ∧ idle s2.
Proof.
  apply (qdma_indirect_intr_ctx_conf_roundtrip (mk_hw sim_init false) 3 intr_example intr_example
    sim_idle).
  wf_compute.
Defined.

Lemma qdma_fmap_conf_roundtrip_witness :
  ∃ s1 s2 s3 s4 r,
    qdma_fmap_conf true 2 (Some (mk_fmap 64 32)) QDMA_HW_ACCESS_WRITE (mk_hw sim_init false) =
      Some ((QDMA_SUCCESS, Some (mk_fmap 64 32)), s1) ∧
    qdma_fmap_conf true 2 (Some (mk_fmap 0 0)) QDMA_HW_ACCESS_READ s1 =
      Some ((QDMA_SUCCESS, Some (mk_fmap 64 32)), s2) ∧
    qdma_fmap_conf true 3 (Some (mk_fmap 0 0)) QDMA_HW_ACCESS_READ (mk_hw sim_init false) =
      Some (r, s3) ∧
    qdma_fmap_conf true 3 (Some (mk_fmap 0 0)) QDMA_HW_ACCESS_READ s1 = Some (r, s4).
Proof.
  apply (qdma_fmap_conf_roundtrip (mk_hw sim_init false) 2 (mk_fmap 64 32) (mk_fmap 0 0) 3 sim_idle).
  - split; mask_compute.
  - vm_compute. discriminate.
Defined.

Lemma qdma_sw_ctx_clear_timeout_witness :
  ∃ d', qdma_sw_ctx_conf true 1 5 None QDMA_HW_ACCESS_CLEAR (mk_hw sim_hang false) =
    Some ((ERR QDMA_ERR_HWACC_BUSY_TIMEOUT, None), mk_hw d' false).
Proof.
  apply (qdma_sw_ctx_clear_timeout sim_hang 1 5 None).
  - right. reflexivity.
  - vm_compute. reflexivity.
Defined.
