(* ===== verification/SoftAccess.v ===== *)
(** * Global configuration of the soft IP (qdma_soft_access.c)

    Device attributes, BAR lookup, default configuration, doorbells, global
    CSR arrays, writeback interval, legacy interrupt, context memory
    initialisation and MM channels. *)

From S2P Require Import Prelude Platform Bits RegIO IndCtxt CtxtTypes SoftReg SoftCtxt.

(** [struct qdma_dev_attributes] *)
Record qdma_dev_attributes := mk_attr {
  num_pfs : Z; num_qs : Z; flr_present : Z; st_en : Z; mm_en : Z; mm_cmpt_en : Z;
  mailbox_en : Z; debug_mode : Z; desc_eng_mode : Z; mm_channel_max : Z; qid2vec_ctx : Z;
  cmpt_ovf_chk_dis : Z; mailbox_intr : Z; sw_desc_64b : Z; cmpt_desc_64b : Z;
  dynamic_bar : Z; legacy_intr : Z; cmpt_trig_count_timer : Z;
}.
Definition attr_uninit : qdma_dev_attributes := mk_attr 0 0 0 0 0 0 0 0 0 0 0 0 0 0 0 0 0 0.

(** [struct qdma_q_pidx_reg_info], [struct qdma_intr_cidx_reg_info] and
    [struct qdma_q_cmpt_cidx_reg_info] *)
Record qdma_q_pidx_reg_info := mk_pidx_info { pri_pidx : Z; pri_irq_en : Z }.
Record qdma_intr_cidx_reg_info := mk_intr_info { ici_sw_cidx : Z; ici_rng_idx : Z }.
Record qdma_q_cmpt_cidx_reg_info := mk_cmpt_info {
  cci_wrb_cidx : Z; cci_counter_idx : Z; cci_timer_idx : Z; cci_trig_mode : Z;
  cci_wrb_en : Z; cci_irq_en : Z;
}.

(** [enum qdma_global_csr_type] *)
Inductive qdma_global_csr_type :=
  QDMA_CSR_RING_SZ | QDMA_CSR_TIMER_CNT | QDMA_CSR_CNT_TH | QDMA_CSR_BUF_SZ | QDMA_CSR_MAX.

(** Entries of a table of sizes or thresholds. *)
Definition QDMA_GLOBAL_CSR_ARRAY_SZ : Z := 16.

Definition QDMA_WRB_INTERVAL_128 : Z := 5.
Definition QDMA_NUM_WRB_INTERVALS : Z := 8.
Definition DEFAULT_WRB_INT : Z := QDMA_WRB_INTERVAL_128.
Definition NOT_SUPPORTED : Z := ERR QDMA_ERR_HWACC_FEATURE_NOT_SUPPORTED.

Definition b2z (b : bool) : Z := if b then 1 else 0.
Definition nz (z : Z) : bool := negb (z =? 0).

Section soft_access.
Context {dev : Type} `{Device dev}.

(** ** Attributes *)

Definition qdma_get_device_attributes (dev_hndl : bool) (dev_info : option qdma_dev_attributes) :
    hwm dev (Z * option qdma_dev_attributes) :=
  match dev_hndl, dev_info with
  | true, Some _ =>
      pfs ← qdma_reg_read QDMA_OFFSET_GLBL2_PF_BARLITE_INT;
      let count :=
        b2z (nz (FIELD_GET QDMA_GLBL2_PF0_BAR_MAP_MASK pfs)) +
        b2z (nz (FIELD_GET QDMA_GLBL2_PF1_BAR_MAP_MASK pfs)) +
        b2z (nz (FIELD_GET QDMA_GLBL2_PF2_BAR_MAP_MASK pfs)) +
        b2z (nz (FIELD_GET QDMA_GLBL2_PF3_BAR_MAP_MASK pfs)) in
      qs ← qdma_reg_read QDMA_OFFSET_GLBL2_CHANNEL_QDMA_CAP;
      misc ← qdma_reg_read QDMA_OFFSET_GLBL2_MISC_CAP;
      mdma ← qdma_reg_read QDMA_OFFSET_GLBL2_CHANNEL_MDMA;
      mret (QDMA_SUCCESS, Some
        {| num_pfs := count;
           num_qs := u16 (FIELD_GET QDMA_GLBL2_MULTQ_MAX_MASK qs);
           mailbox_en := FIELD_GET QDMA_GLBL2_MAILBOX_EN_MASK misc;
           flr_present := FIELD_GET QDMA_GLBL2_FLR_PRESENT_MASK misc;
           mm_cmpt_en := FIELD_GET QDMA_GLBL2_MM_CMPT_EN_MASK misc;
           mm_en := b2z (nz (FIELD_GET QDMA_GLBL2_MM_C2H_MASK mdma) &&
                         nz (FIELD_GET QDMA_GLBL2_MM_H2C_MASK mdma));
           st_en := b2z (nz (FIELD_GET QDMA_GLBL2_ST_C2H_MASK mdma) &&
                         nz (FIELD_GET QDMA_GLBL2_ST_H2C_MASK mdma));
           mm_channel_max := 1; debug_mode := 0; desc_eng_mode := 0; qid2vec_ctx := 0;
           cmpt_ovf_chk_dis := 1; mailbox_intr := 1; sw_desc_64b := 1; cmpt_desc_64b := 1;
           dynamic_bar := 1; legacy_intr := 1; cmpt_trig_count_timer := 1 |})
  | _, _ => mret (INV_PARAM, dev_info)
  end.

(** The calls that ignore the return value: [dev_cap] on the stack. *)
Definition get_dev_cap : hwm dev qdma_dev_attributes :=
  r ← qdma_get_device_attributes true (Some attr_uninit); mret (default attr_uninit r.2).

(** ** User BAR *)

(** The loop over the six BARs: the first bit set in [user_bar_id]. *)
Fixpoint find_bar (user_bar_id : Z) (bar_idx n : nat) : option Z :=
  match n with
  | O => None
  | S n => if nz (Z.land user_bar_id (Z.shiftl 1 (Z.of_nat bar_idx)))
           then Some (Z.of_nat bar_idx) else find_bar user_bar_id (S bar_idx) n
  end.

(** Returns the return value and [*user_bar]. *)
Definition qdma_get_user_bar (dev_hndl : bool) (is_vf func_id : Z) (user_bar : option Z) :
    hwm dev (Z * option Z) :=
  let reg_addr := if nz is_vf then QDMA_OFFSET_VF_USER_BAR_ID
                  else QDMA_OFFSET_GLBL2_PF_BARLITE_EXT in
  match dev_hndl, user_bar with
  | true, Some _ =>
      user_bar_id ← qdma_reg_read reg_addr;
      let user_bar_id :=
        if negb (nz is_vf) then Z.land (Z.shiftr user_bar_id (6 * func_id)) 0x3F
        else Z.land user_bar_id 0x3F in
      match find_bar user_bar_id 0 (Z.to_nat QDMA_BAR_NUM) with
      | Some bar => mret (QDMA_SUCCESS, Some bar)
      | None => mret (ERR QDMA_ERR_HWACC_BAR_NOT_FOUND, Some 0)
      end
  | _, _ => mret (INV_PARAM, user_bar)
  end.

(** ** Default configuration *)

Definition rng_sz : list Z :=
  [2049; 65; 129; 193; 257; 385; 513; 769; 1025; 1537; 3073; 4097; 6145; 8193; 12289; 16385].
Definition tmr_cnt : list Z := [1; 2; 4; 5; 8; 10; 15; 20; 25; 30; 50; 75; 100; 125; 150; 200].
Definition cnt_th : list Z :=
  [2; 4; 8; 16; 24; 32; 48; 64; 80; 96; 112; 128; 144; 160; 176; 192].
Definition buf_sz : list Z :=
  [4096; 256; 512; 1024; 2048; 3968; 4096; 4096; 4096; 4096; 4096; 4096; 4096; 8192; 9018; 16384].

Definition qdma_set_default_global_csr (dev_hndl : bool) : hwm dev Z :=
  if negb dev_hndl then mret INV_PARAM
  else
    dev_cap ← get_dev_cap;
    qdma_write_csr_values QDMA_OFFSET_GLBL_RNG_SZ 0 rng_sz;;
    (if nz (st_en dev_cap) || nz (mm_cmpt_en dev_cap) then
       qdma_write_csr_values QDMA_OFFSET_C2H_CNT_TH 0 cnt_th;;
       qdma_write_csr_values QDMA_OFFSET_C2H_TIMER_CNT 0 tmr_cnt;;
       qdma_reg_write QDMA_OFFSET_GLBL_DSC_CFG
         (FIELD_SET QDMA_GLBL_DSC_CFG_MAX_DSC_FETCH_MASK DEFAULT_MAX_DSC_FETCH .|
          FIELD_SET QDMA_GLBL_DSC_CFG_WB_ACC_INT_MASK DEFAULT_WRB_INT)
     else mret tt);;
    (if nz (st_en dev_cap) then
       qdma_write_csr_values QDMA_OFFSET_C2H_BUF_SZ 0 buf_sz;;
       cfg_val ← qdma_reg_read QDMA_OFFSET_C2H_PFETCH_CACHE_DEPTH;
       qdma_reg_write QDMA_OFFSET_C2H_PFETCH_CFG
         (FIELD_SET QDMA_C2H_PFCH_FL_TH_MASK QDMA_DEFAULT_PFCH_STOP_THRESH .|
          FIELD_SET QDMA_C2H_NUM_PFCH_MASK DEFAULT_PFCH_NUM_ENTRIES_PER_Q .|
          FIELD_SET QDMA_C2H_PFCH_QCNT_MASK (Z.shiftr cfg_val 1) .|
          FIELD_SET QDMA_C2H_EVT_QCNT_TH_MASK (u32 (Z.shiftr cfg_val 1 - 2)));;
       qdma_reg_write QDMA_OFFSET_C2H_INT_TIMER_TICK DEFAULT_C2H_INTR_TIMER_TICK;;
       cfg_val ← qdma_reg_read QDMA_OFFSET_C2H_CMPT_COAL_BUF_DEPTH;
       qdma_reg_write QDMA_OFFSET_C2H_WRB_COAL_CFG
         (FIELD_SET QDMA_C2H_TICK_CNT_MASK DEFAULT_CMPT_COAL_TIMER_CNT .|
          FIELD_SET QDMA_C2H_TICK_VAL_MASK DEFAULT_CMPT_COAL_TIMER_TICK .|
          FIELD_SET QDMA_C2H_MAX_BUF_SZ_MASK cfg_val);;
       qdma_reg_write QDMA_OFFSET_H2C_REQ_THROT
         (FIELD_SET QDMA_H2C_DATA_THRESH_MASK QDMA_H2C_THROT_DATA_THRESH .|
          FIELD_SET QDMA_H2C_REQ_THROT_EN_DATA_MASK QDMA_THROT_EN_DATA .|
          FIELD_SET QDMA_H2C_REQ_THRESH_MASK QDMA_H2C_THROT_REQ_THRESH .|
          FIELD_SET QDMA_H2C_REQ_THROT_EN_REQ_MASK QDMA_THROT_EN_REQ)
     else mret tt);;
    mret QDMA_SUCCESS.

(** ** Doorbells *)

Definition pidx_reg_addr (is_vf qid is_c2h : Z) : Z :=
  (if negb (nz is_vf) then
     if nz is_c2h then QDMA_OFFSET_DMAP_SEL_C2H_DSC_PIDX else QDMA_OFFSET_DMAP_SEL_H2C_DSC_PIDX
   else if nz is_c2h then QDMA_OFFSET_VF_DMAP_SEL_C2H_DSC_PIDX
        else QDMA_OFFSET_VF_DMAP_SEL_H2C_DSC_PIDX) + qid * QDMA_PIDX_STEP.

Definition pidx_reg_val (reg_info : qdma_q_pidx_reg_info) : Z :=
  FIELD_SET QDMA_DMA_SEL_DESC_PIDX_MASK (pri_pidx reg_info) .|
  FIELD_SET QDMA_DMA_SEL_IRQ_EN_MASK (pri_irq_en reg_info).

Definition qdma_queue_pidx_update (dev_hndl : bool) (is_vf qid is_c2h : Z)
    (reg_info : option qdma_q_pidx_reg_info) : hwm dev Z :=
  match dev_hndl, reg_info with
  | true, Some reg_info =>
      qdma_reg_write (pidx_reg_addr is_vf qid is_c2h) (pidx_reg_val reg_info);;
      mret QDMA_SUCCESS
  | _, _ => mret INV_PARAM
  end.

Definition cmpt_cidx_reg_addr (is_vf qid : Z) : Z :=
  (if nz is_vf then QDMA_OFFSET_VF_DMAP_SEL_CMPT_CIDX else QDMA_OFFSET_DMAP_SEL_CMPT_CIDX) +
  qid * QDMA_CMPT_CIDX_STEP.

Definition cmpt_cidx_reg_val (reg_info : qdma_q_cmpt_cidx_reg_info) : Z :=
  FIELD_SET QDMA_DMAP_SEL_CMPT_WRB_CIDX_MASK (cci_wrb_cidx reg_info) .|
  FIELD_SET QDMA_DMAP_SEL_CMPT_CNT_THRESH_MASK (cci_counter_idx reg_info) .|
  FIELD_SET QDMA_DMAP_SEL_CMPT_TMR_CNT_MASK (cci_timer_idx reg_info) .|
  FIELD_SET QDMA_DMAP_SEL_CMPT_TRG_MODE_MASK (cci_trig_mode reg_info) .|
  FIELD_SET QDMA_DMAP_SEL_CMPT_STS_DESC_EN_MASK (cci_wrb_en reg_info) .|
  FIELD_SET QDMA_DMAP_SEL_CMPT_IRQ_EN_MASK (cci_irq_en reg_info).

Definition qdma_queue_cmpt_cidx_update (dev_hndl : bool) (is_vf qid : Z)
    (reg_info : option qdma_q_cmpt_cidx_reg_info) : hwm dev Z :=
  match dev_hndl, reg_info with
  | true, Some reg_info =>
      qdma_reg_write (cmpt_cidx_reg_addr is_vf qid) (cmpt_cidx_reg_val reg_info);;
      mret QDMA_SUCCESS
  | _, _ => mret INV_PARAM
  end.

Definition intr_cidx_reg_addr (is_vf qid : Z) : Z :=
  (if nz is_vf then QDMA_OFFSET_VF_DMAP_SEL_INT_CIDX else QDMA_OFFSET_DMAP_SEL_INT_CIDX) +
  qid * QDMA_INT_CIDX_STEP.

Definition intr_cidx_reg_val (reg_info : qdma_intr_cidx_reg_info) : Z :=
  FIELD_SET QDMA_DMA_SEL_INT_SW_CIDX_MASK (ici_sw_cidx reg_info) .|
  FIELD_SET QDMA_DMA_SEL_INT_RING_IDX_MASK (ici_rng_idx reg_info).

Definition qdma_queue_intr_cidx_update (dev_hndl : bool) (is_vf qid : Z)
    (reg_info : option qdma_intr_cidx_reg_info) : hwm dev Z :=
  match dev_hndl, reg_info with
  | true, Some reg_info =>
      qdma_reg_write (intr_cidx_reg_addr is_vf qid) (intr_cidx_reg_val reg_info);;
      mret QDMA_SUCCESS
  | _, _ => mret INV_PARAM
  end.

(** ** Legacy interrupts *)

Definition qdma_is_legacy_intr_pend (dev_hndl : bool) : hwm dev Z :=
  if negb dev_hndl then mret INV_PARAM
  else
    reg_val ← qdma_reg_read QDMA_OFFSET_GLBL_INTERRUPT_CFG;
    if nz (FIELD_GET QDMA_GLBL_INTR_LGCY_INTR_PEND_MASK reg_val) then mret QDMA_SUCCESS
    else mret (ERR QDMA_ERR_HWACC_NO_PEND_LEGCY_INTR).

Definition qdma_clear_pend_legacy_intr (dev_hndl : bool) : hwm dev Z :=
  if negb dev_hndl then mret INV_PARAM
  else
    reg_val ← qdma_reg_read QDMA_OFFSET_GLBL_INTERRUPT_CFG;
    qdma_reg_write QDMA_OFFSET_GLBL_INTERRUPT_CFG
      (reg_val .| FIELD_SET QDMA_GLBL_INTR_LGCY_INTR_PEND_MASK 1);;
    mret QDMA_SUCCESS.

Definition qdma_legacy_intr_conf (dev_hndl : bool) (enable : Z) : hwm dev Z :=
  if negb dev_hndl then mret INV_PARAM
  else
    reg_val ← qdma_reg_read QDMA_OFFSET_GLBL_INTERRUPT_CFG;
    qdma_reg_write QDMA_OFFSET_GLBL_INTERRUPT_CFG
      (reg_val .| FIELD_SET QDMA_GLBL_INTR_CFG_EN_LGCY_INTR_MASK enable);;
    mret QDMA_SUCCESS.

(** ** Context memory *)

(** Clear one context after the other until one fails. *)
Fixpoint clear_ctxts (l : list (ind_ctxt_cmd_sel * Z)) : hwm dev Z :=
  match l with
  | [] => mret QDMA_SUCCESS
  | (sel, qid) :: l =>
      rv ← qdma_indirect_reg_clear sel qid;
      if rv <? 0 then mret rv else clear_ctxts l
  end.

(** The loop over the functions ignores errors. *)
Fixpoint clear_fmaps (l : list Z) : hwm dev () :=
  match l with
  | [] => mret tt
  | i :: l => qdma_indirect_reg_clear QDMA_CTXT_SEL_FMAP i;; clear_fmaps l
  end.

(** [sel] from QDMA_CTXT_SEL_SW_C2H to QDMA_CTXT_SEL_PFTCH, without the
    completion and prefetch contexts when ST mode is not enabled. *)
Definition init_sels (dev_info : qdma_dev_attributes) : list ind_ctxt_cmd_sel :=
  [QDMA_CTXT_SEL_SW_C2H; QDMA_CTXT_SEL_SW_H2C; QDMA_CTXT_SEL_HW_C2H; QDMA_CTXT_SEL_HW_H2C;
   QDMA_CTXT_SEL_CR_C2H; QDMA_CTXT_SEL_CR_H2C] ++
  (if st_en dev_info =? 0 then [] else [QDMA_CTXT_SEL_CMPT; QDMA_CTXT_SEL_PFTCH]).

Definition qids_below (n : Z) : list Z := Z.of_nat <$> seq 0 (Z.to_nat n).

Definition init_list (dev_info : qdma_dev_attributes) : list (ind_ctxt_cmd_sel * Z) :=
  i ← qids_below (num_qs dev_info); sel ← init_sels dev_info; [(sel, i)].

Definition qdma_init_ctxt_memory (dev_hndl : bool) : hwm dev Z :=
  if negb dev_hndl then mret INV_PARAM
  else
    dev_info ← get_dev_cap;
    rv ← clear_ctxts (init_list dev_info);
    if rv <? 0 then mret rv
    else clear_fmaps (qids_below (num_pfs dev_info));; mret QDMA_SUCCESS.

(** ** Global CSR arrays *)

(** The checks every accessor starts with. *)
Definition csr_args_bad (dev_hndl : bool) (index count : Z) (val : option (list Z)) : bool :=
  negb dev_hndl || negb (if val is Some _ then true else false) || (count =? 0) ||
  (index + count >? 16).

Definition csr_write (offst index count : Z) (val : option (list Z)) : hwm dev Z :=
  qdma_write_csr_values offst index (take (Z.to_nat count) (default [] val));;
  mret QDMA_SUCCESS.
Definition csr_read (offst index count : Z) (val : option (list Z)) :
    hwm dev (Z * option (list Z)) :=
  l ← qdma_read_csr_values offst index count;
  mret (QDMA_SUCCESS, Some (l ++ drop (Z.to_nat count) (default [] val))).

Definition st_or_mm_cmpt (dev_cap : qdma_dev_attributes) : bool :=
  nz (st_en dev_cap) || nz (mm_cmpt_en dev_cap).

Definition qdma_write_global_ring_sizes (dev_hndl : bool) (index count : Z)
    (glbl_rng_sz : option (list Z)) : hwm dev Z :=
  if csr_args_bad dev_hndl index count glbl_rng_sz then mret INV_PARAM
  else csr_write QDMA_OFFSET_GLBL_RNG_SZ index count glbl_rng_sz.

Definition qdma_read_global_ring_sizes (dev_hndl : bool) (index count : Z)
    (glbl_rng_sz : option (list Z)) : hwm dev (Z * option (list Z)) :=
  if csr_args_bad dev_hndl index count glbl_rng_sz then mret (INV_PARAM, glbl_rng_sz)
  else csr_read QDMA_OFFSET_GLBL_RNG_SZ index count glbl_rng_sz.

Definition qdma_write_global_timer_count (dev_hndl : bool) (index count : Z)
    (glbl_tmr_cnt : option (list Z)) : hwm dev Z :=
  if csr_args_bad dev_hndl index count glbl_tmr_cnt then mret INV_PARAM
  else
    dev_cap ← get_dev_cap;
    if st_or_mm_cmpt dev_cap then csr_write QDMA_OFFSET_C2H_TIMER_CNT index count glbl_tmr_cnt
    else mret NOT_SUPPORTED.

Definition qdma_read_global_timer_count (dev_hndl : bool) (index count : Z)
    (glbl_tmr_cnt : option (list Z)) : hwm dev (Z * option (list Z)) :=
  if csr_args_bad dev_hndl index count glbl_tmr_cnt then mret (INV_PARAM, glbl_tmr_cnt)
  else
    dev_cap ← get_dev_cap;
    if st_or_mm_cmpt dev_cap then csr_read QDMA_OFFSET_C2H_TIMER_CNT index count glbl_tmr_cnt
    else mret (NOT_SUPPORTED, glbl_tmr_cnt).

Definition qdma_write_global_counter_threshold (dev_hndl : bool) (index count : Z)
    (glbl_cnt_th : option (list Z)) : hwm dev Z :=
  if csr_args_bad dev_hndl index count glbl_cnt_th then mret INV_PARAM
  else
    dev_cap ← get_dev_cap;
    if st_or_mm_cmpt dev_cap then csr_write QDMA_OFFSET_C2H_CNT_TH index count glbl_cnt_th
    else mret NOT_SUPPORTED.

Definition qdma_read_global_counter_threshold (dev_hndl : bool) (index count : Z)
    (glbl_cnt_th : option (list Z)) : hwm dev (Z * option (list Z)) :=
  if csr_args_bad dev_hndl index count glbl_cnt_th then mret (INV_PARAM, glbl_cnt_th)
  else
    dev_cap ← get_dev_cap;
    if st_or_mm_cmpt dev_cap then csr_read QDMA_OFFSET_C2H_CNT_TH index count glbl_cnt_th
    else mret (NOT_SUPPORTED, glbl_cnt_th).

Definition qdma_write_global_buffer_sizes (dev_hndl : bool) (index count : Z)
    (glbl_buf_sz : option (list Z)) : hwm dev Z :=
  if csr_args_bad dev_hndl index count glbl_buf_sz then mret INV_PARAM
  else
    dev_cap ← get_dev_cap;
    if nz (st_en dev_cap) then csr_write QDMA_OFFSET_C2H_BUF_SZ index count glbl_buf_sz
    else mret NOT_SUPPORTED.

Definition qdma_read_global_buffer_sizes (dev_hndl : bool) (index count : Z)
    (glbl_buf_sz : option (list Z)) : hwm dev (Z * option (list Z)) :=
  if csr_args_bad dev_hndl index count glbl_buf_sz then mret (INV_PARAM, glbl_buf_sz)
  else
    dev_cap ← get_dev_cap;
    if nz (st_en dev_cap) then csr_read QDMA_OFFSET_C2H_BUF_SZ index count glbl_buf_sz
    else mret (NOT_SUPPORTED, glbl_buf_sz).

(** Returns the return value and the array [csr_val] points to. *)
Definition qdma_global_csr_conf (dev_hndl : bool) (index count : Z) (csr_val : option (list Z))
    (csr_type : qdma_global_csr_type) (access_type : qdma_hw_access_type) :
    hwm dev (Z * option (list Z)) :=
  match csr_type, access_type with
  | QDMA_CSR_RING_SZ, QDMA_HW_ACCESS_READ =>
      qdma_read_global_ring_sizes dev_hndl index count csr_val
  | QDMA_CSR_RING_SZ, QDMA_HW_ACCESS_WRITE =>
      rv ← qdma_write_global_ring_sizes dev_hndl index count csr_val; mret (rv, csr_val)
  | QDMA_CSR_TIMER_CNT, QDMA_HW_ACCESS_READ =>
      qdma_read_global_timer_count dev_hndl index count csr_val
  | QDMA_CSR_TIMER_CNT, QDMA_HW_ACCESS_WRITE =>
      rv ← qdma_write_global_timer_count dev_hndl index count csr_val; mret (rv, csr_val)
  | QDMA_CSR_CNT_TH, QDMA_HW_ACCESS_READ =>
      qdma_read_global_counter_threshold dev_hndl index count csr_val
  | QDMA_CSR_CNT_TH, QDMA_HW_ACCESS_WRITE =>
      rv ← qdma_write_global_counter_threshold dev_hndl index count csr_val; mret (rv, csr_val)
  | QDMA_CSR_BUF_SZ, QDMA_HW_ACCESS_READ =>
      qdma_read_global_buffer_sizes dev_hndl index count csr_val
  | QDMA_CSR_BUF_SZ, QDMA_HW_ACCESS_WRITE =>
      rv ← qdma_write_global_buffer_sizes dev_hndl index count csr_val; mret (rv, csr_val)
  | _, _ => mret (INV_PARAM, csr_val)
  end.

(** ** Writeback interval *)

Definition qdma_global_writeback_interval_write (dev_hndl : bool) (wb_int : Z) : hwm dev Z :=
  if negb dev_hndl then mret INV_PARAM
  else if wb_int >=? QDMA_NUM_WRB_INTERVALS then mret INV_PARAM
  else
    dev_cap ← get_dev_cap;
    if st_or_mm_cmpt dev_cap then
      reg_val ← qdma_reg_read QDMA_OFFSET_GLBL_DSC_CFG;
      qdma_reg_write QDMA_OFFSET_GLBL_DSC_CFG
        (reg_val .| FIELD_SET QDMA_GLBL_DSC_CFG_WB_ACC_INT_MASK wb_int);;
      mret QDMA_SUCCESS
    else mret NOT_SUPPORTED.

Definition qdma_global_writeback_interval_read (dev_hndl : bool) (wb_int : option Z) :
    hwm dev (Z * option Z) :=
  match dev_hndl, wb_int with
  | true, Some _ =>
      dev_cap ← get_dev_cap;
      if st_or_mm_cmpt dev_cap then
        reg_val ← qdma_reg_read QDMA_OFFSET_GLBL_DSC_CFG;
        mret (QDMA_SUCCESS, Some (FIELD_GET QDMA_GLBL_DSC_CFG_WB_ACC_INT_MASK reg_val))
      else mret (NOT_SUPPORTED, wb_int)
  | _, _ => mret (INV_PARAM, wb_int)
  end.

(** [*wb_int] is read without a check on a write: [None] for a NULL pointer
    has no behaviour, so the value itself is the argument. *)
Definition qdma_global_writeback_interval_conf (dev_hndl : bool) (wb_int : Z)
    (access_type : qdma_hw_access_type) : hwm dev (Z * option Z) :=
  match access_type with
  | QDMA_HW_ACCESS_READ => qdma_global_writeback_interval_read dev_hndl (Some wb_int)
  | QDMA_HW_ACCESS_WRITE =>
      rv ← qdma_global_writeback_interval_write dev_hndl wb_int; mret (rv, Some wb_int)
  | _ => mret (INV_PARAM, Some wb_int)
  end.

(** ** MM channels *)

Definition qdma_mm_channel_conf (dev_hndl : bool) (channel is_c2h enable : Z) : hwm dev Z :=
  let reg_addr := if nz is_c2h then QDMA_OFFSET_C2H_MM_CONTROL else QDMA_OFFSET_H2C_MM_CONTROL in
  if negb dev_hndl then mret INV_PARAM
  else
    dev_cap ← get_dev_cap;
    (if nz (mm_en dev_cap) then
       qdma_reg_write (reg_addr + channel * QDMA_MM_CONTROL_STEP) enable
     else mret tt);;
    mret QDMA_SUCCESS.
End soft_access.
