(* ===== verification/SoftAccessThms.v ===== *)
(** * Global configuration: theorems

    Round trips of the global CSR arrays, what the context initialisation
    leaves behind, the doorbell address map, and two configuration functions
    that cannot clear what they once set. *)

From S2P Require Import Prelude Platform Bits RegIO IndCtxt CtxtTypes SoftReg SoftCtxt SoftAccess.

(** ** Configuration registers as storage *)

(** The registers used below that simply hold what was last written. *)
Definition plain_reg (a : Z) : bool :=
  (a mod 4 =? 0) &&
  ((0x100 <=? a) && (a <? 0x140) ||  (* capabilities *)
   (0x204 <=? a) && (a <? 0x244) ||  (* ring sizes *)
   (a =? QDMA_OFFSET_GLBL_DSC_CFG) ||
   (0xA00 <=? a) && (a <? 0xA80) ||  (* timers and counter thresholds *)
   (0xAB0 <=? a) && (a <? 0xAF0)).   (* buffer sizes *)

Class PlainRegs (dev : Type) `{Device dev} := {
  csr : dev → Z → Z;
  read_plain d a : plain_reg a = true → dev_read a d = (csr d a, d);
  write_plain d a v b : plain_reg a = true → is_u 32 v →
    csr (dev_write a v d) b = if decide (a = b) then v else csr d b;
}.

Section plain.
Context {dev : Type} `{PlainRegs dev}.
Implicit Types d : dev.

Lemma reg_read_plain d l a :
  is_u 32 a → plain_reg a = true → qdma_reg_read a (mk_hw d l) = Some (csr d a, mk_hw d l).
Proof using Type*.
  intros Ha Hp. unfold qdma_reg_read. rewrite wrap_small by done. simpl. by rewrite read_plain.
Qed.

(** The attributes as a function of the capability registers. *)
Definition attrs_of (d : dev) : qdma_dev_attributes :=
  let pfs := csr d QDMA_OFFSET_GLBL2_PF_BARLITE_INT in
  let misc := csr d QDMA_OFFSET_GLBL2_MISC_CAP in
  let mdma := csr d QDMA_OFFSET_GLBL2_CHANNEL_MDMA in
  {| num_pfs := b2z (nz (FIELD_GET QDMA_GLBL2_PF0_BAR_MAP_MASK pfs)) +
       b2z (nz (FIELD_GET QDMA_GLBL2_PF1_BAR_MAP_MASK pfs)) +
       b2z (nz (FIELD_GET QDMA_GLBL2_PF2_BAR_MAP_MASK pfs)) +
       b2z (nz (FIELD_GET QDMA_GLBL2_PF3_BAR_MAP_MASK pfs));
     num_qs := u16 (FIELD_GET QDMA_GLBL2_MULTQ_MAX_MASK (csr d QDMA_OFFSET_GLBL2_CHANNEL_QDMA_CAP));
     mailbox_en := FIELD_GET QDMA_GLBL2_MAILBOX_EN_MASK misc;
     flr_present := FIELD_GET QDMA_GLBL2_FLR_PRESENT_MASK misc;
     mm_cmpt_en := FIELD_GET QDMA_GLBL2_MM_CMPT_EN_MASK misc;
     mm_en := b2z (nz (FIELD_GET QDMA_GLBL2_MM_C2H_MASK mdma) &&
                   nz (FIELD_GET QDMA_GLBL2_MM_H2C_MASK mdma));
     st_en := b2z (nz (FIELD_GET QDMA_GLBL2_ST_C2H_MASK mdma) &&
                   nz (FIELD_GET QDMA_GLBL2_ST_H2C_MASK mdma));
     mm_channel_max := 1; debug_mode := 0; desc_eng_mode := 0; qid2vec_ctx := 0;
     cmpt_ovf_chk_dis := 1; mailbox_intr := 1; sw_desc_64b := 1; cmpt_desc_64b := 1;
     dynamic_bar := 1; legacy_intr := 1; cmpt_trig_count_timer := 1 |}.

Lemma get_dev_cap_plain d l : get_dev_cap (mk_hw d l) = Some (attrs_of d, mk_hw d l).
Proof using Type*.
  unfold get_dev_cap, qdma_get_device_attributes, mbind, hwm_bind.
  by rewrite !reg_read_plain by mask_compute.
Qed.

(** *** Arrays *)

Lemma read_words_plain n a d l :
  (∀ i, (i < n)%nat → is_u 32 (a + 4 * Z.of_nat i) ∧ plain_reg (a + 4 * Z.of_nat i) = true) →
  read_words a n (mk_hw d l) =
  Some ((λ i, csr d (a + 4 * Z.of_nat i)) <$> seq 0 n, mk_hw d l).
Proof using Type*.
  revert a. induction n as [|n IH]; intros a Ha; [done|]. simpl. unfold mbind, hwm_bind.
  destruct (Ha O ltac:(lia)) as [H1 H2]. rewrite Z.add_0_r in H1, H2. rewrite reg_read_plain by done.
  rewrite IH.
  - unfold mret, hwm_ret. do 3 f_equal; [f_equal; lia|]. rewrite <- fmap_S_seq, <- list_fmap_compose.
    apply list_fmap_ext. intros j i Hj. simpl. f_equal. lia.
  - intros i Hi. replace (a + 4 + 4 * Z.of_nat i) with (a + 4 * Z.of_nat (S i)) by lia.
    apply Ha. lia.
Qed.

Lemma write_words_plain vs a d l :
  (∀ i, (i < length vs)%nat →
     is_u 32 (a + 4 * Z.of_nat i) ∧ plain_reg (a + 4 * Z.of_nat i) = true) →
  ∃ d', write_words a vs (mk_hw d l) = Some (tt, mk_hw d' l) ∧
    (∀ i v, vs !! i = Some v → csr d' (a + 4 * Z.of_nat i) = u32 v) ∧
    (∀ b, (∀ i, (i < length vs)%nat → b ≠ a + 4 * Z.of_nat i) → csr d' b = csr d b).
Proof using Type*.
  revert a d. induction vs as [|v vs IH]; intros a d Ha.
  { exists d. split_and!; [done..|]. done. }
  destruct (Ha O) as [H1 H2]; [simpl; lia|]. rewrite Z.add_0_r in H1, H2.
  destruct (IH (a + 4) (dev_write a (u32 v) d)) as (d' & E & Hv & Ho).
  { intros i Hi. replace (a + 4 + 4 * Z.of_nat i) with (a + 4 * Z.of_nat (S i)) by lia.
    apply Ha. simpl. lia. }
  exists d'. split_and!.
  - simpl. unfold mbind, hwm_bind, qdma_reg_write. rewrite wrap_small by done. apply E.
  - intros [|i] x Hi; simpl in Hi.
    + simplify_eq. rewrite Z.add_0_r, Ho by (intros; lia).
      rewrite write_plain by (done || apply wrap_range; lia). by rewrite decide_True.
    + replace (a + 4 * Z.of_nat (S i)) with (a + 4 + 4 * Z.of_nat i) by lia. by apply Hv.
  - intros b Hb. rewrite Ho, write_plain; [|done|apply wrap_range; lia|].
    + rewrite decide_False; [done|]. specialize (Hb O). simpl in Hb. lia.
    + intros i Hi. specialize (Hb (S i)). simpl in Hb. lia.
Qed.

(** *** The four CSR arrays *)

Definition csr_offset (t : qdma_global_csr_type) : Z :=
  match t with
  | QDMA_CSR_RING_SZ => QDMA_OFFSET_GLBL_RNG_SZ
  | QDMA_CSR_TIMER_CNT => QDMA_OFFSET_C2H_TIMER_CNT
  | QDMA_CSR_CNT_TH => QDMA_OFFSET_C2H_CNT_TH
  | QDMA_CSR_BUF_SZ => QDMA_OFFSET_C2H_BUF_SZ
  | QDMA_CSR_MAX => 0
  end.

(** The capabilities an array needs. *)
Definition csr_supported (t : qdma_global_csr_type) (a : qdma_dev_attributes) : bool :=
  match t with
  | QDMA_CSR_RING_SZ => true
  | QDMA_CSR_TIMER_CNT | QDMA_CSR_CNT_TH => st_or_mm_cmpt a
  | QDMA_CSR_BUF_SZ => nz (st_en a)
  | QDMA_CSR_MAX => false
  end.

Definition is_array (offst : Z) : bool :=
  forallb (λ i, let a := offst + 4 * Z.of_nat i in plain_reg a && (0x140 <=? a) && (a <? 2 ^ 32)) (seq 0 16).

Lemma is_array_lookup offst i :
  is_array offst = true → (i < 16)%nat →
  let a := offst + 4 * Z.of_nat i in is_u 32 a ∧ plain_reg a = true ∧ 0x140 <= a.
Proof using.
  unfold is_array. rewrite forallb_forall. intros Ha Hi.
  specialize (Ha i ltac:(apply in_seq; lia)). simpl in *. unfold is_u.
  apply andb_true_iff in Ha as [[? ?%Z.leb_le]%andb_true_iff ?%Z.ltb_lt]. split; [|done].
  change (2 ^ 32) with 4294967296 in *. lia.
Qed.

Lemma csr_offset_array t : t ≠ QDMA_CSR_MAX → is_array (csr_offset t) = true.
Proof using. by destruct t. Qed.

Section array.
Context (offst index count : Z) (vals : list Z) (d : dev) (l : bool).
Context (Ho : is_array offst = true) (Hidx : 0 <= index) (Hcnt : 0 < count)
  (Hlim : index + count <= 16) (Hlen : Z.of_nat (length vals) = count)
  (Hvals : Forall (is_u 32) vals).

Lemma array_slot i :
  (i < length vals)%nat →
  let a := offst + index * 4 + 4 * Z.of_nat i in is_u 32 a ∧ plain_reg a = true ∧ 0x140 <= a.
Proof using Ho Hidx Hcnt Hlim Hlen.
  intros Hi. pose proof (is_array_lookup offst (Z.to_nat index + i) Ho ltac:(lia)) as Ha.
  simpl in *. replace (offst + 4 * Z.of_nat (Z.to_nat index + i))
    with (offst + index * 4 + 4 * Z.of_nat i) in Ha by lia. done.
Qed.

(** Writing the array keeps the attributes and reads back. *)
Lemma array_write_read :
  ∃ d', csr_write offst index count (Some vals) (mk_hw d l) = Some (QDMA_SUCCESS, mk_hw d' l) ∧
    attrs_of d' = attrs_of d ∧
    (∀ old, Z.of_nat (length old) = count →
      csr_read offst index count (Some old) (mk_hw d' l) =
        Some ((QDMA_SUCCESS, Some vals), mk_hw d' l)) ∧
    ∀ b, (∀ i, (i < length vals)%nat → b ≠ offst + index * 4 + 4 * Z.of_nat i) → csr d' b = csr d b.
Proof using Type*.
  unfold csr_write, csr_read, qdma_write_csr_values, qdma_read_csr_values. simpl default.
  rewrite take_ge by lia.
  destruct (write_words_plain vals (offst + index * 4) d l) as (d' & E & Hv & Hother).
  { intros i Hi. destruct (array_slot i Hi) as (? & ? & _). done. }
  exists d'. unfold mbind, hwm_bind. rewrite E. split_and!; [done| |..|done].
  - unfold attrs_of. rewrite !Hother; [done|..];
      intros i Hi; destruct (array_slot i Hi) as (_ & _ & ?);
      unfold QDMA_OFFSET_GLBL2_PF_BARLITE_INT, QDMA_OFFSET_GLBL2_MISC_CAP,
        QDMA_OFFSET_GLBL2_CHANNEL_MDMA, QDMA_OFFSET_GLBL2_CHANNEL_QDMA_CAP; lia.
  - intros old Hold. rewrite read_words_plain.
    2:{ intros i Hi. destruct (array_slot i) as (? & ? & _); [lia|done]. }
    rewrite drop_ge by lia. rewrite app_nil_r. unfold mret, hwm_ret. do 4 f_equal.
    apply list_eq. intros i. rewrite list_lookup_fmap.
    destruct (decide (i < length vals)%nat) as [Hi|Hi].
    + rewrite lookup_seq_lt by lia. destruct (lookup_lt_is_Some_2 vals i Hi) as [v Ev].
      rewrite Ev. simpl. rewrite (Hv i v Ev). f_equal. apply wrap_small.
      by eapply Forall_lookup_1 in Ev.
    + rewrite lookup_seq_ge by lia. simpl. symmetry. apply lookup_ge_None. lia.
Qed.
End array.

(** Global CSR arrays (ring sizes, timers, counter thresholds, buffer
    sizes): a slice written with [qdma_global_csr_conf] on a device that
    supports the array reads back as written, and no register outside the
    slice changes. *)
Theorem qdma_global_csr_conf_roundtrip d l t index count vals :
  csr_supported t (attrs_of d) = true → 0 <= index → 0 < count → index + count <= 16 →
  Z.of_nat (length vals) = count → Forall (is_u 32) vals →
  ∃ d', qdma_global_csr_conf true index count (Some vals) t QDMA_HW_ACCESS_WRITE (mk_hw d l) =
      Some ((QDMA_SUCCESS, Some vals), mk_hw d' l) ∧
    (∀ old, Z.of_nat (length old) = count →
      qdma_global_csr_conf true index count (Some old) t QDMA_HW_ACCESS_READ (mk_hw d' l) =
        Some ((QDMA_SUCCESS, Some vals), mk_hw d' l)) ∧
    ∀ b, (∀ i, (i < length vals)%nat → b ≠ csr_offset t + index * 4 + 4 * Z.of_nat i) →
      csr d' b = csr d b.
Proof using Type*.
  intros Hsup H1 H2 H3 H4 H5.
  assert (is_array (csr_offset t) = true) as Ha by (apply csr_offset_array; by destruct t).
  destruct (array_write_read (csr_offset t) index count vals d l) as (d' & Ew & Hat & Er & Hother);
    [done..|]. exists d'.
  assert (∀ v, csr_args_bad true index count (Some v) = false) as Hargs.
  { intros v. unfold csr_args_bad. simpl. lia. }
  rewrite <- Hat in Hsup. split_and!; [|intros old Hold|done].
  - destruct t; cbn [csr_offset csr_supported] in Ew, Hsup; try discriminate Hsup; unfold qdma_global_csr_conf,
      qdma_write_global_ring_sizes, qdma_write_global_timer_count,
      qdma_write_global_counter_threshold, qdma_write_global_buffer_sizes;
      rewrite Hargs; unfold mbind, hwm_bind; rewrite ?get_dev_cap_plain, <- ?Hat, ?Hsup, Ew; reflexivity.
  - specialize (Er old Hold). destruct t; cbn [csr_offset csr_supported] in Er, Hsup; try discriminate Hsup; unfold qdma_global_csr_conf,
      qdma_read_global_ring_sizes, qdma_read_global_timer_count,
      qdma_read_global_counter_threshold, qdma_read_global_buffer_sizes;
      rewrite Hargs; unfold mbind, hwm_bind; rewrite ?get_dev_cap_plain, ?Hsup, Er; reflexivity.
Qed.

(** The writeback interval is ORed into the register: after a write the
    interval reads as the bitwise or of the old and the new one, so it can
    only be raised, and it is what was written only when every bit of the old
    value is also in the new one. *)
Theorem qdma_global_writeback_interval_or d l wb_int :
  st_or_mm_cmpt (attrs_of d) = true → 0 <= wb_int < 8 →
  is_u 32 (csr d QDMA_OFFSET_GLBL_DSC_CFG) →
  let old := FIELD_GET QDMA_GLBL_DSC_CFG_WB_ACC_INT_MASK (csr d QDMA_OFFSET_GLBL_DSC_CFG) in
  ∃ d', qdma_global_writeback_interval_conf true wb_int QDMA_HW_ACCESS_WRITE (mk_hw d l) =
      Some ((QDMA_SUCCESS, Some wb_int), mk_hw d' l) ∧
    qdma_global_writeback_interval_conf true wb_int QDMA_HW_ACCESS_READ (mk_hw d' l) =
      Some ((QDMA_SUCCESS, Some (old .| wb_int)), mk_hw d' l).
Proof using Type*.
  intros Hsup Hwb Hu old. unfold qdma_global_writeback_interval_conf,
    qdma_global_writeback_interval_write, qdma_global_writeback_interval_read.
  assert (fits QDMA_GLBL_DSC_CFG_WB_ACC_INT_MASK wb_int) as Hfit by exact Hwb.
  set (v := csr d QDMA_OFFSET_GLBL_DSC_CFG .| FIELD_SET QDMA_GLBL_DSC_CFG_WB_ACC_INT_MASK wb_int).
  set (d' := dev_write QDMA_OFFSET_GLBL_DSC_CFG (u32 v) d).
  assert (∀ b, csr d' b = if decide (QDMA_OFFSET_GLBL_DSC_CFG = b) then u32 v else csr d b) as Hd'.
  { intros b. apply write_plain; [reflexivity|apply wrap_range; lia]. }
  assert (attrs_of d' = attrs_of d) as Hat by (unfold attrs_of; rewrite !Hd'; reflexivity).
  exists d'. replace (wb_int >=? QDMA_NUM_WRB_INTERVALS) with false
    by (unfold QDMA_NUM_WRB_INTERVALS; lia).
  unfold mbind, hwm_bind. cbn [negb]. rewrite !get_dev_cap_plain, Hat, Hsup.
  rewrite !reg_read_plain by mask_compute. split; [reflexivity|].
  rewrite Hd', decide_True by done. unfold mret, hwm_ret. do 4 f_equal. unfold v, old. by fields.
Qed.
End plain.

(** ** Argument checks *)

(** A slice that does not fit the sixteen entries of an array, an empty
    slice or a NULL array is rejected with QDMA_ERR_INV_PARAM before the
    device is touched, for every array and access type. *)
Theorem qdma_global_csr_conf_rejects {dev : Type} `{Device dev} (s : hw_state dev)
    index count val t access :
  val = None ∨ count = 0 ∨ 16 < index + count →
  qdma_global_csr_conf true index count val t access s = Some ((INV_PARAM, val), s).
Proof.
  intros Hbad. assert (csr_args_bad true index count val = true) as Hargs.
  { unfold csr_args_bad. destruct val; simpl; [|done]. destruct Hbad as [?|?]; [done|]. lia. }
  destruct t, access; try reflexivity;
    unfold qdma_global_csr_conf, qdma_write_global_ring_sizes, qdma_read_global_ring_sizes,
      qdma_write_global_timer_count, qdma_read_global_timer_count,
      qdma_write_global_counter_threshold, qdma_read_global_counter_threshold,
      qdma_write_global_buffer_sizes, qdma_read_global_buffer_sizes;
    rewrite Hargs; reflexivity.
Qed.

Lemma qdma_global_csr_conf_rejects_witness :
  qdma_global_csr_conf true 10 7 (Some [1;2;3;4;5;6;7]) QDMA_CSR_TIMER_CNT QDMA_HW_ACCESS_WRITE
    (mk_hw sim_init false) = Some ((INV_PARAM, Some [1;2;3;4;5;6;7]), mk_hw sim_init false).
Proof.
  apply (qdma_global_csr_conf_rejects (mk_hw sim_init false)). right. right. reflexivity.
Defined.

(** ** Legacy interrupt *)

(** [qdma_legacy_intr_conf] with DISABLE writes back the enable bit it
    read: legacy interrupts that are enabled stay enabled, on any device. *)
Theorem qdma_legacy_intr_conf_cannot_disable {dev : Type} `{Device dev} (d : dev) l v d1 :
  dev_read QDMA_OFFSET_GLBL_INTERRUPT_CFG d = (v, d1) →
  ∃ v', qdma_legacy_intr_conf true 0 (mk_hw d l) =
      Some (QDMA_SUCCESS, mk_hw (dev_write QDMA_OFFSET_GLBL_INTERRUPT_CFG v' d1) l) ∧
    FIELD_GET QDMA_GLBL_INTR_CFG_EN_LGCY_INTR_MASK v' =
    FIELD_GET QDMA_GLBL_INTR_CFG_EN_LGCY_INTR_MASK v.
Proof.
  intros Hr.
  exists (u32 (v .| FIELD_SET QDMA_GLBL_INTR_CFG_EN_LGCY_INTR_MASK 0)). split.
  - unfold qdma_legacy_intr_conf, mbind, hwm_bind, qdma_reg_read. cbn [negb hw hw_prg_lock].
    change (u32 QDMA_OFFSET_GLBL_INTERRUPT_CFG) with QDMA_OFFSET_GLBL_INTERRUPT_CFG.
    by rewrite Hr.
  - rewrite FIELD_GET_wrap, FIELD_GET_lor by mask_compute.
    rewrite FIELD_GET_SET by mask_compute. apply Z.lor_0_r.
Qed.

Lemma qdma_legacy_intr_conf_cannot_disable_witness :
  ∃ v', qdma_legacy_intr_conf true 0 (mk_hw (dev_write QDMA_OFFSET_GLBL_INTERRUPT_CFG 1 sim_init) false) =
      Some (QDMA_SUCCESS, mk_hw (dev_write QDMA_OFFSET_GLBL_INTERRUPT_CFG v'
        (dev_write QDMA_OFFSET_GLBL_INTERRUPT_CFG 1 sim_init)) false) ∧
    FIELD_GET QDMA_GLBL_INTR_CFG_EN_LGCY_INTR_MASK v' = 1.
Proof.
  apply (qdma_legacy_intr_conf_cannot_disable (dev_write QDMA_OFFSET_GLBL_INTERRUPT_CFG 1 sim_init)
    false 1).
  reflexivity.
Defined.

(** ** Doorbells *)

(** The doorbell registers of a function never collide: the producer
    index registers of two queues or of the two directions, the completion
    and the interrupt index registers all have different addresses, and the
    value written holds the producer index and the interrupt bit. *)
Theorem doorbells_disjoint is_vf qid qid' c2h c2h' info :
  c2h = 0 ∨ c2h = 1 → c2h' = 0 ∨ c2h' = 1 → (qid, c2h) ≠ (qid', c2h') →
  fits QDMA_DMA_SEL_DESC_PIDX_MASK (pri_pidx info) → fits QDMA_DMA_SEL_IRQ_EN_MASK (pri_irq_en info) →
  pidx_reg_addr is_vf qid c2h ≠ pidx_reg_addr is_vf qid' c2h' ∧
  pidx_reg_addr is_vf qid c2h ≠ cmpt_cidx_reg_addr is_vf qid' ∧
  pidx_reg_addr is_vf qid c2h ≠ intr_cidx_reg_addr is_vf qid' ∧
  cmpt_cidx_reg_addr is_vf qid ≠ intr_cidx_reg_addr is_vf qid' ∧
  FIELD_GET QDMA_DMA_SEL_DESC_PIDX_MASK (pidx_reg_val info) = pri_pidx info ∧
  FIELD_GET QDMA_DMA_SEL_IRQ_EN_MASK (pidx_reg_val info) = pri_irq_en info.
Proof.
  intros Hc Hc' Hne Hp Hi.
  assert (qid ≠ qid' ∨ c2h ≠ c2h') as Hd.
  { destruct (decide (qid = qid')); [|by left]. right. congruence. }
  unfold pidx_reg_val. split_and!; [..|by fields|by fields];
    unfold pidx_reg_addr, cmpt_cidx_reg_addr, intr_cidx_reg_addr,
      QDMA_OFFSET_DMAP_SEL_C2H_DSC_PIDX, QDMA_OFFSET_DMAP_SEL_H2C_DSC_PIDX,
      QDMA_OFFSET_VF_DMAP_SEL_C2H_DSC_PIDX, QDMA_OFFSET_VF_DMAP_SEL_H2C_DSC_PIDX,
      QDMA_OFFSET_VF_DMAP_SEL_CMPT_CIDX, QDMA_OFFSET_DMAP_SEL_CMPT_CIDX,
      QDMA_OFFSET_VF_DMAP_SEL_INT_CIDX, QDMA_OFFSET_DMAP_SEL_INT_CIDX,
      QDMA_PIDX_STEP, QDMA_CMPT_CIDX_STEP, QDMA_INT_CIDX_STEP;
    destruct (nz is_vf), Hc, Hc'; subst; simpl; lia.
Qed.

Lemma doorbells_disjoint_witness :
  pidx_reg_addr 0 3 1 ≠ pidx_reg_addr 0 4 0 ∧
  FIELD_GET QDMA_DMA_SEL_DESC_PIDX_MASK (pidx_reg_val (mk_pidx_info 77 1)) = 77.
Proof.
  destruct (doorbells_disjoint 0 3 4 1 0 (mk_pidx_info 77 1)) as (H1 & _ & _ & _ & H2 & _).
  - right. reflexivity.
  - left. reflexivity.
  - discriminate.
  - split; mask_compute.
  - split; mask_compute.
  - split; [exact H1|exact H2].
Defined.

(** ** Context memory initialisation *)

Section init.
Context {dev : Type} `{TimelyDevice dev}.
Implicit Types s : hw_state dev.

(** Some entry of [l] is the one at [sel'], [qid']. *)
Definition covers (l : list (ind_ctxt_cmd_sel * Z)) (sel' qid' : Z) : Prop :=
  Exists (λ p, addressed p.1 p.2 sel' qid') l.

#[local] Instance covers_dec l sel' qid' : Decision (covers l sel' qid').
Proof using. unfold covers. apply Exists_dec. intros p. unfold addressed. apply _. Defined.

(** [s'] is [s] with the entries of [l] cleared. *)
Definition cleared (l : list (ind_ctxt_cmd_sel * Z)) (s s' : hw_state dev) : Prop :=
  ∀ sel' qid' i, (i < 8)%nat →
    (covers l sel' qid' → ctxt_ram (hw s') sel' qid' i = 0) ∧
    (¬ covers l sel' qid' → ctxt_ram (hw s') sel' qid' i = ctxt_ram (hw s) sel' qid' i).

Lemma cleared_nil s : cleared [] s s.
Proof using. intros sel' qid' i Hi. split; [by intros ?%Exists_nil|done]. Qed.

Lemma cleared_cons sel qid l s s1 s2 :
  (∀ sel' qid' i, (i < 8)%nat →
     (addressed sel qid sel' qid' → ctxt_ram (hw s1) sel' qid' i = 0) ∧
     (¬ addressed sel qid sel' qid' → ctxt_ram (hw s1) sel' qid' i = ctxt_ram (hw s) sel' qid' i)) →
  cleared l s1 s2 → cleared ((sel, qid) :: l) s s2.
Proof using.
  intros Q1 Q2 sel' qid' i Hi. destruct (Q1 sel' qid' i Hi) as [A1 B1].
  destruct (Q2 sel' qid' i Hi) as [A2 B2]. unfold covers. rewrite Exists_cons. split.
  - intros Hc. destruct (decide (covers l sel' qid')) as [Ht|Ht]; [by apply A2|].
    rewrite B2 by done. apply A1. destruct Hc as [?|?]; [done|]. by destruct Ht.
  - intros Hn. rewrite B2, B1 by tauto. done.
Qed.

Lemma clear_ctxts_ok l s :
  idle s → ∃ s', clear_ctxts l s = Some (QDMA_SUCCESS, s') ∧ idle s' ∧ cleared l s s'.
Proof using Type*.
  revert s. induction l as [|[sel qid] l IH]; intros s Hs.
  { exists s. split_and!; [done..|apply cleared_nil]. }
  destruct (indirect_clear_ok sel qid s Hs) as (s1 & E1 & Hs1 & Q1).
  destruct (IH s1 Hs1) as (s2 & E2 & Hs2 & Q2). exists s2.
  split; [|split; [done|by eapply cleared_cons]].
  cbn [clear_ctxts]. unfold mbind, hwm_bind. by rewrite E1.
Qed.

Lemma clear_fmaps_ok l s :
  idle s → ∃ s', clear_fmaps l s = Some (tt, s') ∧ idle s' ∧
    cleared (pair QDMA_CTXT_SEL_FMAP <$> l) s s'.
Proof using Type*.
  revert s. induction l as [|i l IH]; intros s Hs.
  { exists s. split_and!; [done..|apply cleared_nil]. }
  destruct (indirect_clear_ok QDMA_CTXT_SEL_FMAP i s Hs) as (s1 & E1 & Hs1 & Q1).
  destruct (IH s1 Hs1) as (s2 & E2 & Hs2 & Q2). exists s2.
  split; [|split; [done|by eapply cleared_cons]].
  cbn [clear_fmaps]. unfold mbind, hwm_bind. by rewrite E1.
Qed.

Lemma elem_qids_below n q : q ∈ qids_below n ↔ 0 <= q < n.
Proof using.
  unfold qids_below. rewrite list_elem_of_fmap. setoid_rewrite elem_of_seq. split.
  - intros (i & -> & ?). lia.
  - intros ?. exists (Z.to_nat q). lia.
Qed.

(** [qdma_init_ctxt_memory] succeeds and leaves every context of every
    queue the device reports (completion and prefetch contexts when ST mode
    is enabled) and the map of every function all zero, and no other entry
    of the context memories changed. *)
Theorem qdma_init_ctxt_memory_clears s cap s1 :
  get_dev_cap s = Some (cap, s1) → idle s1 → num_qs cap <= 4096 → num_pfs cap <= 4096 →
  ∃ s', qdma_init_ctxt_memory true s = Some (QDMA_SUCCESS, s') ∧ idle s' ∧
    (∀ sel q i, sel ∈ init_sels cap → 0 <= q < num_qs cap → (i < 8)%nat →
       ctxt_ram (hw s') (sel_val sel) q i = 0) ∧
    (∀ f i, 0 <= f < num_pfs cap → (i < 8)%nat →
       ctxt_ram (hw s') (sel_val QDMA_CTXT_SEL_FMAP) f i = 0) ∧
    (∀ sel q i, (i < 8)%nat → sel ≠ sel_val QDMA_CTXT_SEL_FMAP →
       (∀ sel', sel' ∈ init_sels cap → sel_val sel' ≠ sel) →
       ctxt_ram (hw s') sel q i = ctxt_ram (hw s1) sel q i).
Proof using Type*.
  intros Hcap Hs1 Hq Hp. destruct (clear_ctxts_ok (init_list cap) s1 Hs1) as (s2 & E2 & Hs2 & C2).
  destruct (clear_fmaps_ok (qids_below (num_pfs cap)) s2 Hs2) as (s3 & E3 & Hs3 & C3).
  exists s3. split_and!; [|done|..].
  - unfold qdma_init_ctxt_memory, mbind, hwm_bind. cbn [negb]. rewrite Hcap, E2. simpl. by rewrite E3.
  - intros sel q i Hsel Hqq Hi. destruct (C3 (sel_val sel) q i Hi) as [_ B3]. rewrite B3.
    + apply C2; [done|]. apply Exists_exists. exists (sel, q). split.
      * unfold init_list. apply list_elem_of_bind. exists q. split; [|by apply elem_qids_below].
        apply list_elem_of_bind. exists sel. split; [by apply list_elem_of_singleton|done].
      * split; [done|]. symmetry. apply Z.mod_small. lia.
    + intros ([sel' q'] & (f & [= -> ->] & _)%list_elem_of_fmap & [Hv _])%Exists_exists.
      apply sel_val_inj in Hv as ->. unfold init_sels in Hsel. by destruct (st_en cap =? 0); set_solver.
  - intros f i Hf Hi. apply C3; [done|]. apply Exists_exists. exists (QDMA_CTXT_SEL_FMAP, f). split.
    + apply list_elem_of_fmap. exists f. split; [done|by apply elem_qids_below].
    + split; [done|]. symmetry. apply Z.mod_small. lia.
  - intros sel q i Hi Hnf Hns. destruct (C3 sel q i Hi) as [_ B3]. rewrite B3.
    + apply C2; [done|].
      intros ([sel' q'] & (x & Hx & _)%list_elem_of_bind & [Hv _])%Exists_exists.
      apply list_elem_of_bind in Hx as (y & [= -> ->]%list_elem_of_singleton & Hy). by apply (Hns y).
    + by intros ([sel' q'] & (f & [= -> ->] & _)%list_elem_of_fmap & [Hv _])%Exists_exists.
Qed.
End init.

(** ** The simulated device as storage *)

Lemma sim_decode_plain a : plain_reg a = true → sim_decode a = SimOther.
Proof.
  unfold plain_reg, sim_decode, QDMA_OFFSET_GLBL_DSC_CFG, QDMA_OFFSET_IND_CTXT_CMD,
    QDMA_OFFSET_IND_CTXT_DATA, QDMA_OFFSET_IND_CTXT_MASK. intros Hp.
  destruct (Z.eqb_spec a 0x844) as [->|]; [done|].
  destruct ((0x804 <=? a) && (a <? 0x824) && (a mod 4 =? 0)) eqn:E1; [lia|].
  destruct ((0x824 <=? a) && (a <? 0x844) && (a mod 4 =? 0)) eqn:E2; [lia|]. done.
Qed.

#[export] Program Instance sim_plain : PlainRegs sim := {| csr := sim_regs |}.
Next Obligation. intros d a Ha. simpl. by rewrite sim_decode_plain. Qed.
Next Obligation. intros d a v b Ha _. simpl. by rewrite sim_decode_plain. Qed.

(** A simulated device with ST mode and two queues. *)
Definition sim_st : sim :=
  mk_sim (λ _, 0) (λ _, 0) (λ _ _ _, 7) 0
    (λ a, if a =? 0x118 then 0x30101 else if a =? 0x120 then 2 else if a =? 0x104 then 1
          else if a =? 0x250 then 5 else 0).

Lemma qdma_global_csr_conf_roundtrip_witness :
  ∃ d', qdma_global_csr_conf true 3 2 (Some [100; 200]) QDMA_CSR_BUF_SZ QDMA_HW_ACCESS_WRITE
      (mk_hw sim_st false) = Some ((QDMA_SUCCESS, Some [100; 200]), mk_hw d' false).
Proof.
  destruct (qdma_global_csr_conf_roundtrip sim_st false QDMA_CSR_BUF_SZ 3 2 [100; 200])
    as (d' & E & _).
  - reflexivity.
  - lia.
  - lia.
  - lia.
  - reflexivity.
  - repeat constructor; unfold is_u; lia.
  - exists d'. exact E.
Defined.

Lemma qdma_global_writeback_interval_or_witness :
  ∃ d', qdma_global_writeback_interval_conf true 2 QDMA_HW_ACCESS_WRITE (mk_hw sim_st false) =
      Some ((QDMA_SUCCESS, Some 2), mk_hw d' false) ∧
    qdma_global_writeback_interval_conf true 2 QDMA_HW_ACCESS_READ (mk_hw d' false) =
      Some ((QDMA_SUCCESS, Some 7), mk_hw d' false).
Proof.
  destruct (qdma_global_writeback_interval_or sim_st false 2) as (d' & E1 & E2).
  - reflexivity.
  - lia.
  - split; mask_compute.
  - exists d'. split; [exact E1|]. rewrite E2. vm_compute. reflexivity.
Defined.

Lemma qdma_init_ctxt_memory_clears_witness :
  ∃ s', qdma_init_ctxt_memory true (mk_hw sim_st false) = Some (QDMA_SUCCESS, s') ∧
    ctxt_ram (hw s') (sel_val QDMA_CTXT_SEL_CMPT) 1 0 = 0.
Proof.
  destruct (qdma_init_ctxt_memory_clears (mk_hw sim_st false)
    (mk_attr 1 2 0 1 1 0 0 0 0 1 0 1 1 1 1 1 1 1) (mk_hw sim_st false)) as (s' & E & _ & Hc & _).
  - vm_compute. reflexivity.
  - split; reflexivity.
  - simpl. lia.
  - simpl. lia.
  - exists s'. split; [exact E|]. apply (Hc QDMA_CTXT_SEL_CMPT 1 0%nat).
    + apply (list_elem_of_lookup_2 _ 6). reflexivity.
    + simpl. lia.
    + lia.
Defined.
