(* ===== verification/RegList.v ===== *)
(** * Register lists for virtual functions (qdma_soft_access.c)

    The register table [qdma_config_regs] of the soft IP and
    [qdma_read_reg_list], which reads the registers a virtual function may see,
    starting from one of four groups. *)

From S2P Require Import Prelude Platform Bits RegIO IndCtxt CtxtTypes SoftReg SoftCtxt SoftAccess.

(** [enum qdma_reg_read_type] *)
Inductive qdma_reg_read_type :=
  QDMA_REG_READ_PF_ONLY | QDMA_REG_READ_VF_ONLY | QDMA_REG_READ_PF_VF | QDMA_REG_READ_MAX.

Definition QDMA_MM_MODE : Z := Z.shiftl 1 0.
Definition QDMA_COMPLETION_MODE : Z := Z.shiftl 1 1.
Definition QDMA_ST_MODE : Z := Z.shiftl 1 2.
Definition QDMA_MAILBOX : Z := Z.shiftl 1 3.
Definition QDMA_MM_ST_MODE : Z := QDMA_MM_MODE .| QDMA_COMPLETION_MODE .| QDMA_ST_MODE.

Definition GET_CAPABILITY_MASK (mm_en st_en mm_cmpt_en mailbox_en : Z) : Z :=
  Z.shiftl mm_en 0 .| Z.shiftl (mm_cmpt_en .| st_en) 1 .| Z.shiftl st_en 2 .|
  Z.shiftl mailbox_en 3.

(** [struct xreg_info], without what only the text dumps use (the name, kept
    as a comment, and the bit fields). *)
Record xreg_info := mk_xreg {
  xr_addr : Z; xr_repeat : Z; xr_mode : Z; xr_read_type : qdma_reg_read_type;
}.

Definition qdma_config_regs : list xreg_info :=
  [
    mk_xreg 0x00 1 QDMA_MM_ST_MODE QDMA_REG_READ_PF_ONLY; (* CFG_BLOCK_ID *)
    mk_xreg 0x04 1 QDMA_MM_ST_MODE QDMA_REG_READ_PF_ONLY; (* CFG_BUSDEV *)
    mk_xreg 0x08 1 QDMA_MM_ST_MODE QDMA_REG_READ_PF_ONLY; (* CFG_PCIE_MAX_PL_SZ *)
    mk_xreg 0x0c 1 QDMA_MM_ST_MODE QDMA_REG_READ_PF_ONLY; (* CFG_PCIE_MAX_RDRQ_SZ *)
    mk_xreg 0x10 1 QDMA_MM_ST_MODE QDMA_REG_READ_PF_ONLY; (* CFG_SYS_ID *)
    mk_xreg 0x14 1 QDMA_MM_ST_MODE QDMA_REG_READ_PF_ONLY; (* CFG_MSI_EN *)
    mk_xreg 0x18 1 QDMA_MM_ST_MODE QDMA_REG_READ_PF_ONLY; (* CFG_PCIE_DATA_WIDTH *)
    mk_xreg 0x1c 1 QDMA_MM_ST_MODE QDMA_REG_READ_PF_ONLY; (* CFG_PCIE_CTRL *)
    mk_xreg 0x40 1 QDMA_MM_ST_MODE QDMA_REG_READ_PF_ONLY; (* CFG_AXI_USR_MAX_PL_SZ *)
    mk_xreg 0x44 1 QDMA_MM_ST_MODE QDMA_REG_READ_PF_ONLY; (* CFG_AXI_USR_MAX_RDRQ_SZ *)
    mk_xreg 0x4c 1 QDMA_MM_ST_MODE QDMA_REG_READ_PF_ONLY; (* CFG_MISC_CTRL *)
    mk_xreg 0x80 8 QDMA_MM_ST_MODE QDMA_REG_READ_PF_ONLY; (* CFG_SCRATCH_REG *)
    mk_xreg 0xf0 1 QDMA_MM_ST_MODE QDMA_REG_READ_PF_ONLY; (* QDMA_RAM_SBE_MSK_A *)
    mk_xreg 0xf4 1 QDMA_MM_ST_MODE QDMA_REG_READ_PF_ONLY; (* QDMA_RAM_SBE_STS_A *)
    mk_xreg 0xf8 1 QDMA_MM_ST_MODE QDMA_REG_READ_PF_ONLY; (* QDMA_RAM_DBE_MSK_A *)
    mk_xreg 0xfc 1 QDMA_MM_ST_MODE QDMA_REG_READ_PF_ONLY; (* QDMA_RAM_DBE_STS_A *)
    mk_xreg 0x100 1 QDMA_MM_ST_MODE QDMA_REG_READ_PF_ONLY; (* GLBL2_ID *)
    mk_xreg 0x104 1 QDMA_MM_ST_MODE QDMA_REG_READ_PF_ONLY; (* GLBL2_PF_BL_INT *)
    mk_xreg 0x108 1 QDMA_MM_ST_MODE QDMA_REG_READ_PF_ONLY; (* GLBL2_PF_VF_BL_INT *)
    mk_xreg 0x10c 1 QDMA_MM_ST_MODE QDMA_REG_READ_PF_ONLY; (* GLBL2_PF_BL_EXT *)
    mk_xreg 0x110 1 QDMA_MM_ST_MODE QDMA_REG_READ_PF_ONLY; (* GLBL2_PF_VF_BL_EXT *)
    mk_xreg 0x114 1 QDMA_MM_ST_MODE QDMA_REG_READ_PF_ONLY; (* GLBL2_CHNL_INST *)
    mk_xreg 0x118 1 QDMA_MM_ST_MODE QDMA_REG_READ_PF_ONLY; (* GLBL2_CHNL_QDMA *)
    mk_xreg 0x11c 1 QDMA_MM_ST_MODE QDMA_REG_READ_PF_ONLY; (* GLBL2_CHNL_STRM *)
    mk_xreg 0x120 1 QDMA_MM_ST_MODE QDMA_REG_READ_PF_ONLY; (* GLBL2_QDMA_CAP *)
    mk_xreg 0x128 1 QDMA_MM_ST_MODE QDMA_REG_READ_PF_ONLY; (* GLBL2_PASID_CAP *)
    mk_xreg 0x12c 1 QDMA_MM_ST_MODE QDMA_REG_READ_PF_ONLY; (* GLBL2_FUNC_RET *)
    mk_xreg 0x130 1 QDMA_MM_ST_MODE QDMA_REG_READ_PF_ONLY; (* GLBL2_SYS_ID *)
    mk_xreg 0x134 1 QDMA_MM_ST_MODE QDMA_REG_READ_PF_ONLY; (* GLBL2_MISC_CAP *)
    mk_xreg 0x1b8 2 QDMA_MM_ST_MODE QDMA_REG_READ_PF_ONLY; (* GLBL2_DBG_PCIE_RQ *)
    mk_xreg 0x1c0 2 QDMA_MM_ST_MODE QDMA_REG_READ_PF_ONLY; (* GLBL2_DBG_AXIMM_WR *)
    mk_xreg 0x1c8 2 QDMA_MM_ST_MODE QDMA_REG_READ_PF_ONLY; (* GLBL2_DBG_AXIMM_RD *)
    mk_xreg 0x204 16 QDMA_MM_ST_MODE QDMA_REG_READ_PF_ONLY; (* GLBL_RNGSZ *)
    mk_xreg 0x248 1 QDMA_MM_ST_MODE QDMA_REG_READ_PF_VF; (* GLBL_ERR_STAT *)
    mk_xreg 0x24c 1 QDMA_MM_ST_MODE QDMA_REG_READ_PF_VF; (* GLBL_ERR_MASK *)
    mk_xreg 0x250 1 QDMA_MM_ST_MODE QDMA_REG_READ_PF_VF; (* GLBL_DSC_CFG *)
    mk_xreg 0x254 1 QDMA_MM_ST_MODE QDMA_REG_READ_PF_VF; (* GLBL_DSC_ERR_STS *)
    mk_xreg 0x258 1 QDMA_MM_ST_MODE QDMA_REG_READ_PF_VF; (* GLBL_DSC_ERR_MSK *)
    mk_xreg 0x25c 2 QDMA_MM_ST_MODE QDMA_REG_READ_PF_VF; (* GLBL_DSC_ERR_LOG *)
    mk_xreg 0x264 1 QDMA_MM_ST_MODE QDMA_REG_READ_PF_VF; (* GLBL_TRQ_ERR_STS *)
    mk_xreg 0x268 1 QDMA_MM_ST_MODE QDMA_REG_READ_PF_VF; (* GLBL_TRQ_ERR_MSK *)
    mk_xreg 0x26c 1 QDMA_MM_ST_MODE QDMA_REG_READ_PF_VF; (* GLBL_TRQ_ERR_LOG *)
    mk_xreg 0x270 2 QDMA_MM_ST_MODE QDMA_REG_READ_PF_VF; (* GLBL_DSC_DBG_DAT *)
    mk_xreg 0x27c 1 QDMA_MM_ST_MODE QDMA_REG_READ_PF_VF; (* GLBL_DSC_ERR_LOG2 *)
    mk_xreg 0x288 1 QDMA_MM_ST_MODE QDMA_REG_READ_PF_VF; (* GLBL_INTERRUPT_CFG *)
    mk_xreg 0x400 4 QDMA_MM_ST_MODE QDMA_REG_READ_PF_ONLY; (* TRQ_SEL_FMAP *)
    mk_xreg 0x804 8 QDMA_MM_ST_MODE QDMA_REG_READ_PF_ONLY; (* IND_CTXT_DATA *)
    mk_xreg 0x824 8 QDMA_MM_ST_MODE QDMA_REG_READ_PF_ONLY; (* IND_CTXT_MASK *)
    mk_xreg 0x844 1 QDMA_MM_ST_MODE QDMA_REG_READ_PF_ONLY; (* IND_CTXT_CMD *)
    mk_xreg 0xa00 16 QDMA_COMPLETION_MODE QDMA_REG_READ_PF_ONLY; (* C2H_TIMER_CNT *)
    mk_xreg 0xa40 16 QDMA_COMPLETION_MODE QDMA_REG_READ_PF_ONLY; (* C2H_CNT_THRESH *)
    mk_xreg 0xa88 1 QDMA_ST_MODE QDMA_REG_READ_PF_VF; (* C2H_STAT_S_AXIS_C2H_ACCEPTED *)
    mk_xreg 0xa8c 1 QDMA_ST_MODE QDMA_REG_READ_PF_VF; (* C2H_STAT_S_AXIS_CMPT_ACCEPTED *)
    mk_xreg 0xa90 1 QDMA_ST_MODE QDMA_REG_READ_PF_VF; (* C2H_STAT_DESC_RSP_PKT_ACCEPTED *)
    mk_xreg 0xa94 1 QDMA_ST_MODE QDMA_REG_READ_PF_VF; (* C2H_STAT_AXIS_PKG_CMP *)
    mk_xreg 0xa98 1 QDMA_ST_MODE QDMA_REG_READ_PF_VF; (* C2H_STAT_DESC_RSP_ACCEPTED *)
    mk_xreg 0xa9c 1 QDMA_ST_MODE QDMA_REG_READ_PF_ONLY; (* C2H_STAT_DESC_RSP_CMP *)
    mk_xreg 0xaa0 1 QDMA_ST_MODE QDMA_REG_READ_PF_ONLY; (* C2H_STAT_WRQ_OUT *)
    mk_xreg 0xaa4 1 QDMA_ST_MODE QDMA_REG_READ_PF_ONLY; (* C2H_STAT_WPL_REN_ACCEPTED *)
    mk_xreg 0xaa8 1 QDMA_ST_MODE QDMA_REG_READ_PF_ONLY; (* C2H_STAT_TOTAL_WRQ_LEN *)
    mk_xreg 0xaac 1 QDMA_ST_MODE QDMA_REG_READ_PF_ONLY; (* C2H_STAT_TOTAL_WPL_LEN *)
    mk_xreg 0xab0 16 QDMA_ST_MODE QDMA_REG_READ_PF_ONLY; (* C2H_BUF_SZ *)
    mk_xreg 0xaf0 1 QDMA_ST_MODE QDMA_REG_READ_PF_VF; (* C2H_ERR_STAT *)
    mk_xreg 0xaf4 1 QDMA_ST_MODE QDMA_REG_READ_PF_VF; (* C2H_ERR_MASK *)
    mk_xreg 0xaf8 1 QDMA_ST_MODE QDMA_REG_READ_PF_VF; (* C2H_FATAL_ERR_STAT *)
    mk_xreg 0xafc 1 QDMA_ST_MODE QDMA_REG_READ_PF_VF; (* C2H_FATAL_ERR_MASK *)
    mk_xreg 0xb00 1 QDMA_ST_MODE QDMA_REG_READ_PF_VF; (* C2H_FATAL_ERR_ENABLE *)
    mk_xreg 0xb04 1 QDMA_ST_MODE QDMA_REG_READ_PF_VF; (* GLBL_ERR_INT *)
    mk_xreg 0xb08 1 QDMA_ST_MODE QDMA_REG_READ_PF_ONLY; (* C2H_PFCH_CFG *)
    mk_xreg 0xb0c 1 QDMA_ST_MODE QDMA_REG_READ_PF_ONLY; (* C2H_INT_TIMER_TICK *)
    mk_xreg 0xb10 1 QDMA_ST_MODE QDMA_REG_READ_PF_VF; (* C2H_STAT_DESC_RSP_DROP_ACCEPTED *)
    mk_xreg 0xb14 1 QDMA_ST_MODE QDMA_REG_READ_PF_VF; (* C2H_STAT_DESC_RSP_ERR_ACCEPTED *)
    mk_xreg 0xb18 1 QDMA_ST_MODE QDMA_REG_READ_PF_ONLY; (* C2H_STAT_DESC_REQ *)
    mk_xreg 0xb1c 4 QDMA_ST_MODE QDMA_REG_READ_PF_ONLY; (* C2H_STAT_DEBUG_DMA_ENG *)
    mk_xreg 0xb2c 1 QDMA_ST_MODE QDMA_REG_READ_PF_ONLY; (* C2H_DBG_PFCH_ERR_CTXT *)
    mk_xreg 0xb30 1 QDMA_ST_MODE QDMA_REG_READ_PF_VF; (* C2H_FIRST_ERR_QID *)
    mk_xreg 0xb34 1 QDMA_ST_MODE QDMA_REG_READ_PF_ONLY; (* STAT_NUM_CMPT_IN *)
    mk_xreg 0xb38 1 QDMA_ST_MODE QDMA_REG_READ_PF_ONLY; (* STAT_NUM_CMPT_OUT *)
    mk_xreg 0xb3c 1 QDMA_ST_MODE QDMA_REG_READ_PF_ONLY; (* STAT_NUM_CMPT_DRP *)
    mk_xreg 0xb40 1 QDMA_ST_MODE QDMA_REG_READ_PF_ONLY; (* STAT_NUM_STAT_DESC_OUT *)
    mk_xreg 0xb44 1 QDMA_ST_MODE QDMA_REG_READ_PF_ONLY; (* STAT_NUM_DSC_CRDT_SENT *)
    mk_xreg 0xb48 1 QDMA_ST_MODE QDMA_REG_READ_PF_ONLY; (* STAT_NUM_FCH_DSC_RCVD *)
    mk_xreg 0xb4c 1 QDMA_ST_MODE QDMA_REG_READ_PF_ONLY; (* STAT_NUM_BYP_DSC_RCVD *)
    mk_xreg 0xb50 1 QDMA_ST_MODE QDMA_REG_READ_PF_ONLY; (* C2H_CMPT_COAL_CFG *)
    mk_xreg 0xb54 1 QDMA_ST_MODE QDMA_REG_READ_PF_VF; (* C2H_INTR_H2C_REQ *)
    mk_xreg 0xb58 1 QDMA_ST_MODE QDMA_REG_READ_PF_VF; (* C2H_INTR_C2H_MM_REQ *)
    mk_xreg 0xb5c 1 QDMA_ST_MODE QDMA_REG_READ_PF_VF; (* C2H_INTR_ERR_INT_REQ *)
    mk_xreg 0xb60 1 QDMA_ST_MODE QDMA_REG_READ_PF_VF; (* C2H_INTR_C2H_ST_REQ *)
    mk_xreg 0xb64 1 QDMA_ST_MODE QDMA_REG_READ_PF_ONLY; (* C2H_INTR_H2C_ERR_MM_MSIX_ACK *)
    mk_xreg 0xb68 1 QDMA_ST_MODE QDMA_REG_READ_PF_ONLY; (* C2H_INTR_H2C_ERR_MM_MSIX_FAIL *)
    mk_xreg 0xb6c 1 QDMA_ST_MODE QDMA_REG_READ_PF_ONLY; (* C2H_INTR_H2C_ERR_MM_NO_MSIX *)
    mk_xreg 0xb70 1 QDMA_ST_MODE QDMA_REG_READ_PF_ONLY; (* C2H_INTR_H2C_ERR_MM_CTXT_INVAL *)
    mk_xreg 0xb74 1 QDMA_ST_MODE QDMA_REG_READ_PF_VF; (* C2H_INTR_C2H_ST_MSIX_ACK *)
    mk_xreg 0xb78 1 QDMA_ST_MODE QDMA_REG_READ_PF_VF; (* C2H_INTR_C2H_ST_MSIX_FAIL *)
    mk_xreg 0xb7c 1 QDMA_ST_MODE QDMA_REG_READ_PF_ONLY; (* C2H_INTR_C2H_ST_NO_MSIX *)
    mk_xreg 0xb80 1 QDMA_ST_MODE QDMA_REG_READ_PF_ONLY; (* C2H_INTR_C2H_ST_CTXT_INVAL *)
    mk_xreg 0xb84 1 QDMA_ST_MODE QDMA_REG_READ_PF_ONLY; (* C2H_STAT_WR_CMP *)
    mk_xreg 0xb88 1 QDMA_ST_MODE QDMA_REG_READ_PF_ONLY; (* C2H_STAT_DEBUG_DMA_ENG_4 *)
    mk_xreg 0xb8c 1 QDMA_ST_MODE QDMA_REG_READ_PF_ONLY; (* C2H_STAT_DEBUG_DMA_ENG_5 *)
    mk_xreg 0xb90 1 QDMA_ST_MODE QDMA_REG_READ_PF_ONLY; (* C2H_DBG_PFCH_QID *)
    mk_xreg 0xb94 1 QDMA_ST_MODE QDMA_REG_READ_PF_ONLY; (* C2H_DBG_PFCH *)
    mk_xreg 0xb98 1 QDMA_ST_MODE QDMA_REG_READ_PF_ONLY; (* C2H_INT_DEBUG *)
    mk_xreg 0xb9c 1 QDMA_ST_MODE QDMA_REG_READ_PF_ONLY; (* C2H_STAT_IMM_ACCEPTED *)
    mk_xreg 0xba0 1 QDMA_ST_MODE QDMA_REG_READ_PF_ONLY; (* C2H_STAT_MARKER_ACCEPTED *)
    mk_xreg 0xba4 1 QDMA_ST_MODE QDMA_REG_READ_PF_ONLY; (* C2H_STAT_DISABLE_CMP_ACCEPTED *)
    mk_xreg 0xba8 1 QDMA_ST_MODE QDMA_REG_READ_PF_ONLY; (* C2H_C2H_PAYLOAD_FIFO_CRDT_CNT *)
    mk_xreg 0xbac 1 QDMA_ST_MODE QDMA_REG_READ_PF_ONLY; (* C2H_INTR_DYN_REQ *)
    mk_xreg 0xbb0 1 QDMA_ST_MODE QDMA_REG_READ_PF_ONLY; (* C2H_INTR_DYN_MSIX *)
    mk_xreg 0xbb4 1 QDMA_ST_MODE QDMA_REG_READ_PF_ONLY; (* C2H_DROP_LEN_MISMATCH *)
    mk_xreg 0xbb8 1 QDMA_ST_MODE QDMA_REG_READ_PF_ONLY; (* C2H_DROP_DESC_RSP_LEN *)
    mk_xreg 0xbbc 1 QDMA_ST_MODE QDMA_REG_READ_PF_ONLY; (* C2H_DROP_QID_FIFO_LEN *)
    mk_xreg 0xbc0 1 QDMA_ST_MODE QDMA_REG_READ_PF_ONLY; (* C2H_DROP_PAYLOAD_CNT *)
    mk_xreg 0xbc4 7 QDMA_ST_MODE QDMA_REG_READ_PF_ONLY; (* QDMA_C2H_CMPT_FORMAT *)
    mk_xreg 0xbe0 1 QDMA_ST_MODE QDMA_REG_READ_PF_ONLY; (* C2H_PFCH_CACHE_DEPTH *)
    mk_xreg 0xbe4 1 QDMA_ST_MODE QDMA_REG_READ_PF_ONLY; (* C2H_CMPT_COAL_BUF_DEPTH *)
    mk_xreg 0xbe8 1 QDMA_ST_MODE QDMA_REG_READ_PF_ONLY; (* C2H_PFCH_CRDT *)
    mk_xreg 0xe00 1 QDMA_ST_MODE QDMA_REG_READ_PF_VF; (* H2C_ERR_STAT *)
    mk_xreg 0xe04 1 QDMA_ST_MODE QDMA_REG_READ_PF_VF; (* H2C_ERR_MASK *)
    mk_xreg 0xe08 1 QDMA_ST_MODE QDMA_REG_READ_PF_VF; (* H2C_FIRST_ERR_QID *)
    mk_xreg 0xe0c 5 QDMA_ST_MODE QDMA_REG_READ_PF_ONLY; (* H2C_DBG_REG *)
    mk_xreg 0xe20 1 QDMA_ST_MODE QDMA_REG_READ_PF_ONLY; (* H2C_FATAL_ERR_EN *)
    mk_xreg 0xe24 1 QDMA_ST_MODE QDMA_REG_READ_PF_ONLY; (* H2C_REQ_THROT *)
    mk_xreg 0xe28 1 QDMA_ST_MODE QDMA_REG_READ_PF_ONLY; (* H2C_ALN_DBG_REG0 *)
    mk_xreg 0x1004 3 QDMA_MM_MODE QDMA_REG_READ_PF_ONLY; (* C2H_MM_CONTROL *)
    mk_xreg 0x1040 2 QDMA_MM_MODE QDMA_REG_READ_PF_ONLY; (* C2H_MM_STATUS *)
    mk_xreg 0x1048 1 QDMA_MM_MODE QDMA_REG_READ_PF_ONLY; (* C2H_MM_CMPL_DSC_CNT *)
    mk_xreg 0x1054 1 QDMA_MM_MODE QDMA_REG_READ_PF_ONLY; (* C2H_MM_ERR_CODE_EN_MASK *)
    mk_xreg 0x1058 1 QDMA_MM_MODE QDMA_REG_READ_PF_ONLY; (* C2H_MM_ERR_CODE *)
    mk_xreg 0x105c 1 QDMA_MM_MODE QDMA_REG_READ_PF_ONLY; (* C2H_MM_ERR_INFO *)
    mk_xreg 0x10c0 1 QDMA_MM_MODE QDMA_REG_READ_PF_ONLY; (* C2H_MM_PERF_MON_CTRL *)
    mk_xreg 0x10c4 2 QDMA_MM_MODE QDMA_REG_READ_PF_ONLY; (* C2H_MM_PERF_MON_CY_CNT *)
    mk_xreg 0x10cc 2 QDMA_MM_MODE QDMA_REG_READ_PF_ONLY; (* C2H_MM_PERF_MON_DATA_CNT *)
    mk_xreg 0x10e8 2 QDMA_MM_MODE QDMA_REG_READ_PF_ONLY; (* C2H_MM_DBG_INFO *)
    mk_xreg 0x1204 3 QDMA_MM_MODE QDMA_REG_READ_PF_ONLY; (* H2C_MM_CONTROL *)
    mk_xreg 0x1240 1 QDMA_MM_MODE QDMA_REG_READ_PF_ONLY; (* H2C_MM_STATUS *)
    mk_xreg 0x1248 1 QDMA_MM_MODE QDMA_REG_READ_PF_ONLY; (* H2C_MM_CMPL_DSC_CNT *)
    mk_xreg 0x1254 1 QDMA_MM_MODE QDMA_REG_READ_PF_ONLY; (* H2C_MM_ERR_CODE_EN_MASK *)
    mk_xreg 0x1258 1 QDMA_MM_MODE QDMA_REG_READ_PF_ONLY; (* H2C_MM_ERR_CODE *)
    mk_xreg 0x125c 1 QDMA_MM_MODE QDMA_REG_READ_PF_ONLY; (* H2C_MM_ERR_INFO *)
    mk_xreg 0x12c0 1 QDMA_MM_MODE QDMA_REG_READ_PF_ONLY; (* H2C_MM_PERF_MON_CTRL *)
    mk_xreg 0x12c4 2 QDMA_MM_MODE QDMA_REG_READ_PF_ONLY; (* H2C_MM_PERF_MON_CY_CNT *)
    mk_xreg 0x12cc 2 QDMA_MM_MODE QDMA_REG_READ_PF_ONLY; (* H2C_MM_PERF_MON_DATA_CNT *)
    mk_xreg 0x12e8 1 QDMA_MM_MODE QDMA_REG_READ_PF_ONLY; (* H2C_MM_DBG_INFO *)
    mk_xreg 0x12ec 1 QDMA_MM_MODE QDMA_REG_READ_PF_ONLY; (* H2C_MM_REQ_THROT *)
    mk_xreg 0x2400 1 QDMA_MAILBOX QDMA_REG_READ_PF_ONLY; (* FUNC_STATUS *)
    mk_xreg 0x2404 1 QDMA_MAILBOX QDMA_REG_READ_PF_ONLY; (* FUNC_CMD *)
    mk_xreg 0x2408 1 QDMA_MAILBOX QDMA_REG_READ_PF_ONLY; (* FUNC_INTR_VEC *)
    mk_xreg 0x240c 1 QDMA_MAILBOX QDMA_REG_READ_PF_ONLY; (* TARGET_FUNC *)
    mk_xreg 0x2410 1 QDMA_MAILBOX QDMA_REG_READ_PF_ONLY; (* INTR_CTRL *)
    mk_xreg 0x2420 8 QDMA_MAILBOX QDMA_REG_READ_PF_ONLY; (* PF_ACK *)
    mk_xreg 0x2500 1 QDMA_MAILBOX QDMA_REG_READ_PF_ONLY; (* FLR_CTRL_STATUS *)
    mk_xreg 0x2800 32 QDMA_MAILBOX QDMA_REG_READ_PF_ONLY; (* MSG_IN *)
    mk_xreg 0x2c00 32 QDMA_MAILBOX QDMA_REG_READ_PF_ONLY; (* MSG_OUT *)
    mk_xreg 0 0 0 QDMA_REG_READ_PF_ONLY ]. (* end of the table *)

Definition QDMA_REG_GROUP_1_START_ADDR : Z := 0x000.
Definition QDMA_REG_GROUP_2_START_ADDR : Z := 0x400.
Definition QDMA_REG_GROUP_3_START_ADDR : Z := 0xb00.
Definition QDMA_REG_GROUP_4_START_ADDR : Z := 0x1014.
Definition QDMA_MAX_REGISTER_DUMP : nat := 14.

(** [struct qdma_reg_data]: address and value. *)
Definition qdma_reg_data : Type := Z * Z.

(** The entries the loops look at: [i < num_regs - 1] leaves out the last. *)
Definition listed_regs : list xreg_info := removelast qdma_config_regs.

(** The position of the first entry with the address. *)
Fixpoint find_addr (reg_addr : Z) (l : list xreg_info) (i : nat) : option nat :=
  match l with
  | [] => None
  | r :: l => if xr_addr r =? reg_addr then Some i else find_addr reg_addr l (S i)
  end.

(** Returns the return value and [*reg_entry]. *)
Definition get_reg_entry (reg_addr : Z) : Z * Z :=
  match find_addr reg_addr listed_regs O with
  | Some i => (0, Z.of_nat i)
  | None => (INV_PARAM, -1)
  end.

Definition group_start (reg_rd_group : Z) : option Z :=
  if reg_rd_group =? 0 then Some QDMA_REG_GROUP_1_START_ADDR
  else if reg_rd_group =? 1 then Some QDMA_REG_GROUP_2_START_ADDR
  else if reg_rd_group =? 2 then Some QDMA_REG_GROUP_3_START_ADDR
  else if reg_rd_group =? 3 then Some QDMA_REG_GROUP_4_START_ADDR
  else None.

(** [true] for the registers the loop does not skip. *)
Definition vf_readable (dev_cap : qdma_dev_attributes) (r : xreg_info) : bool :=
  negb ((Z.land (GET_CAPABILITY_MASK (mm_en dev_cap) (st_en dev_cap) (mm_cmpt_en dev_cap)
                   (mailbox_en dev_cap)) (xr_mode r) =? 0) ||
        match xr_read_type r with QDMA_REG_READ_PF_ONLY => true | _ => false end).

Section read_reg_list.
Context {dev : Type} `{Device dev}.

(** The inner loop: [n] consecutive registers. *)
Fixpoint read_run (addr : Z) (n : nat) : hwm dev (list qdma_reg_data) :=
  match n with
  | O => mret []
  | S n => v ← qdma_reg_read addr; l ← read_run (addr + 4) n; mret ((addr, v) :: l)
  end.

(** The outer loop; [room] is what is left of [QDMA_MAX_REGISTER_DUMP]. *)
Fixpoint read_regs (dev_cap : qdma_dev_attributes) (l : list xreg_info) (room : nat) :
    hwm dev (list qdma_reg_data) :=
  match l with
  | [] => mret []
  | r :: l =>
      if (room =? 0)%nat then mret []
      else if negb (vf_readable dev_cap r) then read_regs dev_cap l room
      else
        let n := Nat.min (Z.to_nat (xr_repeat r)) room in
        l1 ← read_run (xr_addr r) n;
        l2 ← read_regs dev_cap l (room - n); mret (l1 ++ l2)
  end.

(** Returns the return value and what was stored in [*total_regs] and
    [reg_list] ([None]: nothing). *)
Definition qdma_read_reg_list (dev_hndl : bool) (is_vf reg_rd_group : Z) (reg_list : bool) :
    hwm dev (Z * option (list qdma_reg_data)) :=
  if is_vf =? 0 then mret (NOT_SUPPORTED, None)
  else if negb dev_hndl then mret (INV_PARAM, None)
  else if negb reg_list then mret (INV_PARAM, None)
  else
    dev_cap ← get_dev_cap;
    match group_start reg_rd_group with
    | None => mret (INV_PARAM, None)
    | Some reg_start_addr =>
        let '(rv, reg_index) := get_reg_entry reg_start_addr in
        if rv <? 0 then mret (rv, None)
        else
          l ← read_regs dev_cap (drop (Z.to_nat reg_index) listed_regs) QDMA_MAX_REGISTER_DUMP;
          mret (rv, Some l)
    end.

(** *** Properties *)

Lemma read_run_spec addr n s :
  ∃ l s', read_run addr n s = Some (l, s') ∧ hw_prg_lock s' = hw_prg_lock s ∧ length l = n ∧
          l.*1 = (λ j, addr + 4 * Z.of_nat j) <$> seq 0 n.
Proof using.
  revert addr s. induction n as [|n IH]; intros addr s; [by eexists _, _|].
  cbn [read_run]. unfold mbind, hwm_bind, qdma_reg_read, mret, hwm_ret.
  destruct (dev_read (u32 addr) (hw s)) as [v d] eqn:E.
  destruct (IH (addr + 4) (mk_hw d (hw_prg_lock s))) as (l & s' & -> & Hl & Hn & Ha).
  eexists _, _. split; [done|]. split; [done|]. cbn [length]. split; [by rewrite Hn|].
  cbn [seq]. rewrite !fmap_cons, Ha, <- fmap_S_seq, <- list_fmap_compose.
  f_equal; [cbn; lia|]. apply list_fmap_ext. intros ? ? _. cbn. lia.
Qed.

(** The addresses of a table entry. *)
Definition xreg_addrs (r : xreg_info) : list Z :=
  (λ j, xr_addr r + 4 * Z.of_nat j) <$> seq 0 (Z.to_nat (xr_repeat r)).

Lemma read_regs_spec dev_cap l room s :
  ∃ rl s', read_regs dev_cap l room s = Some (rl, s') ∧ hw_prg_lock s' = hw_prg_lock s ∧
    (length rl ≤ room)%nat ∧
    rl.*1 = take room (filter (λ r, vf_readable dev_cap r = true) l ≫= xreg_addrs).
Proof using.
  revert room s. induction l as [|r l IH]; intros room s.
  { eexists _, _. split; [done|]. split; [done|]. split; [cbn; lia|]. by destruct room. }
  cbn [read_regs]. destruct (Nat.eqb_spec room 0) as [->|Hroom].
  { eexists _, _. split; [done|]. split; [done|]. split; [cbn; lia|]. done. }
  rewrite filter_cons. destruct (vf_readable dev_cap r) eqn:E; cbn [negb].
  2: { rewrite decide_False by done. apply IH. }
  rewrite decide_True by done. rewrite bind_cons.
  unfold mbind, hwm_bind.
  destruct (read_run_spec (xr_addr r) (Nat.min (Z.to_nat (xr_repeat r)) room) s)
    as (l1 & s1 & -> & Hs1 & Hn1 & Ha1).
  destruct (IH (room - Nat.min (Z.to_nat (xr_repeat r)) room)%nat s1)
    as (l2 & s2 & -> & Hs2 & Hn2 & Ha2).
  eexists _, _. split; [done|]. split; [congruence|]. rewrite length_app, Hn1.
  split; [lia|]. rewrite fmap_app, Ha1, Ha2, take_app. f_equal.
  - unfold xreg_addrs. rewrite <- fmap_take, take_seq. f_equal. f_equal. lia.
  - unfold xreg_addrs at 2. rewrite length_fmap, length_seq. f_equal. lia.
Qed.

(** *** Tables with debug registers

    The newer layers mark the registers to leave out when debug mode is off
    ([is_debug_reg], next to the entry). *)

Definition debug_hidden (dev_cap : qdma_dev_attributes) (is_debug_reg : Z) : bool :=
  (debug_mode dev_cap =? 0) && (is_debug_reg =? 1).

Fixpoint read_dbg_regs (dev_cap : qdma_dev_attributes) (l : list (xreg_info * Z)) (room : nat) :
    hwm dev (list qdma_reg_data) :=
  match l with
  | [] => mret []
  | (r, is_debug_reg) :: l =>
      if (room =? 0)%nat then mret []
      else if negb (vf_readable dev_cap r) then read_dbg_regs dev_cap l room
      else if debug_hidden dev_cap is_debug_reg then read_dbg_regs dev_cap l room
      else
        let n := Nat.min (Z.to_nat (xr_repeat r)) room in
        l1 ← read_run (xr_addr r) n;
        l2 ← read_dbg_regs dev_cap l (room - n); mret (l1 ++ l2)
  end.

(** The entries that are not hidden. *)
Definition dbg_shown (dev_cap : qdma_dev_attributes) (l : list (xreg_info * Z)) : list xreg_info :=
  (filter (λ x, debug_hidden dev_cap x.2 = false) l).*1.

Lemma read_dbg_regs_none dev_cap l s : read_dbg_regs dev_cap l 0 s = Some ([], s).
Proof using. by destruct l as [|[r g] l]. Qed.

Lemma read_dbg_regs_shown dev_cap l room s :
  read_dbg_regs dev_cap l room s = read_regs dev_cap (dbg_shown dev_cap l) room s.
Proof using.
  revert room s. induction l as [|[r g] l IH]; intros room s; [done|].
  cbn [read_dbg_regs]. unfold dbg_shown. rewrite filter_cons. cbn [snd].
  destruct (Nat.eqb_spec room 0) as [->|Hroom].
  { destruct (decide _); [done|]. by rewrite <- (IH 0%nat), (read_dbg_regs_none dev_cap l). }
  destruct (debug_hidden dev_cap g) eqn:Eg.
  - rewrite decide_False by done. destruct (vf_readable dev_cap r); apply IH.
  - rewrite decide_True by done. cbn [read_regs fmap list_fmap fst].
    rewrite (proj2 (Nat.eqb_neq room 0)) by done.
    destruct (vf_readable dev_cap r); cbn [negb]; [|apply IH].
    unfold mbind, hwm_bind. destruct (read_run _ _ s) as [[l1 s1]|]; [|done]. by rewrite IH.
Qed.
End read_reg_list.

Definition is_pf_only (r : xreg_info) : bool :=
  match xr_read_type r with QDMA_REG_READ_PF_ONLY => true | _ => false end.

(** The registers of a group that a virtual function may read, in table order. *)
Definition group_addrs (dev_cap : qdma_dev_attributes) (start : nat) : list Z :=
  filter (λ r, vf_readable dev_cap r = true) (drop start listed_regs) ≫= xreg_addrs.

Lemma group_addrs_shared dev_cap start a :
  a ∈ group_addrs dev_cap start →
  ∃ r, r ∈ qdma_config_regs ∧ is_pf_only r = false ∧ a ∈ xreg_addrs r.
Proof.
  unfold group_addrs. rewrite list_elem_of_bind. intros (r & Ha & Hr).
  apply list_elem_of_filter in Hr as [Hv Hr]. exists r. split_and!; [| |done].
  - apply subseteq_drop in Hr. rewrite (app_removelast_last r (l := qdma_config_regs)) by done.
    apply elem_of_app. by left.
  - unfold vf_readable in Hv. unfold is_pf_only. destruct (xr_read_type r); [|done..].
    by rewrite orb_true_r in Hv.
Qed.

Lemma keeps_get_dev_cap {dev} `{Device dev} b : keeps b get_dev_cap.
Proof.
  unfold get_dev_cap, qdma_get_device_attributes.
  repeat (apply keeps_bind; [|intros ?]); auto with qdma.
Qed.

(** For every device, a virtual function that asks for one of the first three
    register groups gets at most fourteen registers: the first of that group
    in the table's order, and none that is reserved to physical functions. *)
Theorem qdma_read_reg_list_spec {dev} `{Device dev} (s : hw_state dev) is_vf group :
  is_vf ≠ 0 → 0 <= group <= 2 →
  ∃ dev_cap start a rl s',
    qdma_read_reg_list true is_vf group true s = Some ((QDMA_SUCCESS, Some rl), s') ∧
    group_start group = Some a ∧
    (xr_addr <$> listed_regs) !! start = Some a ∧
    (length rl ≤ QDMA_MAX_REGISTER_DUMP)%nat ∧
    rl.*1 = take QDMA_MAX_REGISTER_DUMP (group_addrs dev_cap start) ∧
    hw_prg_lock s' = hw_prg_lock s ∧
    ∀ x, x ∈ rl → ∃ r, r ∈ qdma_config_regs ∧ is_pf_only r = false ∧ x.1 ∈ xreg_addrs r.
Proof.
  intros Hvf Hg. destruct (keeps_get_dev_cap (hw_prg_lock s) s eq_refl) as (cap & s1 & E1 & L1).
  assert (∃ a start, group_start group = Some a ∧ get_reg_entry a = (0, Z.of_nat start) ∧
            (xr_addr <$> listed_regs) !! start = Some a) as (a & start & Ea & Ee & El).
  { assert (group = 0 ∨ group = 1 ∨ group = 2) as [-> | [-> | ->]] by lia.
    - by exists 0, O.
    - by exists 0x400, 45%nat.
    - by exists 0xb00, 66%nat. }
  destruct (read_regs_spec cap (drop start listed_regs) QDMA_MAX_REGISTER_DUMP s1)
    as (rl & s2 & E2 & L2 & Hn & Ha).
  exists cap, start, a, rl, s2. split_and!; [|done..|congruence|].
  - unfold qdma_read_reg_list. rewrite (proj2 (Z.eqb_neq _ _) Hvf).
    unfold mbind, hwm_bind. cbn [negb]. rewrite E1, Ea, Ee.
    change (0 <? 0) with false. cbn iota. rewrite Nat2Z.id, E2. done.
  - intros x Hx. apply (group_addrs_shared cap start).
    assert (Hx' : x.1 ∈ rl.*1) by (apply list_elem_of_fmap; by exists x).
    rewrite Ha in Hx'. by apply subseteq_take in Hx'.
Qed.

(** The start address of the fourth group is not in the table of the soft IP,
    so asking for that group always fails. *)
Theorem qdma_read_reg_list_group4 {dev} `{Device dev} (s : hw_state dev) is_vf :
  is_vf ≠ 0 →
  ∃ s', qdma_read_reg_list true is_vf 3 true s = Some ((ERR QDMA_ERR_INV_PARAM, None), s').
Proof.
  intros Hvf. unfold qdma_read_reg_list. rewrite (proj2 (Z.eqb_neq _ _) Hvf).
  unfold mbind, hwm_bind. cbn [negb].
  destruct (keeps_get_dev_cap (hw_prg_lock s) s eq_refl) as (cap & s1 & -> & _).
  by eexists.
Qed.

Lemma qdma_read_reg_list_spec_witness :
  ∃ rl s', qdma_read_reg_list true 1 1 true (mk_hw sim_init false)
             = Some ((QDMA_SUCCESS, Some rl), s') ∧ (length rl ≤ 14)%nat.
Proof.
  destruct (qdma_read_reg_list_spec (mk_hw sim_init false) 1 1) as (? & ? & ? & rl & s' & E & _ & _ & Hn & _).
  - discriminate.
  - lia.
  - exists rl, s'. by split.
Defined.

Lemma qdma_read_reg_list_group4_witness :
  ∃ s', qdma_read_reg_list true 1 3 true (mk_hw sim_init false)
          = Some ((ERR QDMA_ERR_INV_PARAM, None), s').
Proof. apply (qdma_read_reg_list_group4 (mk_hw sim_init false) 1). discriminate. Defined.
