(* ===== verification/QueueTypes.v ===== *)
(** * Data of the descriptor queues

    struct qdma_queue_conf, struct qdma_sw_sg and struct qdma_request
    (libqdma_export.h), struct qdma_descq and struct qdma_sgt_req_cb
    (qdma_descq.h), the descriptor formats (qdma_regs.h) and the part of
    struct xlnx_dma_dev (xdev.h) the queues use.

    Flags and bit fields are [Z] or [bool]; a function pointer of a
    configuration is the [bool] that tells whether it is set.  Requests live
    in a store indexed by [Z]; the control block [qdma_sgt_req_cb] is the
    first member of its request, so the lists of control blocks are lists of
    request indices.  [sgl] is the array of [sgcnt] entries the pointer of the
    same name points to; pointers into it are indices.  [mm_desc] and
    [h2c_desc] are the two views the code takes of the descriptor ring. *)

From S2P Require Import Prelude Platform SoftAccess.

(** [enum q_state_t], [enum qdma_drv_mode] *)
Inductive q_state_t := Q_STATE_DISABLED | Q_STATE_ENABLED | Q_STATE_ONLINE.
Inductive qdma_drv_mode_t :=
  AUTO_MODE | POLL_MODE | DIRECT_INTR_MODE | INDIRECT_INTR_MODE | LEGACY_INTR_MODE.
#[export] Instance q_state_eq : EqDecision q_state_t.
Proof. solve_decision. Defined.
#[export] Instance drv_mode_eq : EqDecision qdma_drv_mode_t.
Proof. solve_decision. Defined.

(** [enum queue_type_t] *)
Definition Q_H2C : Z := 0.
Definition Q_C2H : Z := 1.
Definition Q_CMPT : Z := 2.

Definition PAGE_SHIFT : Z := 12.
Definition PAGE_SIZE : Z := 4096.
Definition QDMA_DESC_BLEN_MAX : Z := 2 ^ 28 - 1.
Definition S_DESC_F_DV : Z := 28.
Definition S_DESC_F_SOP : Z := 29.
Definition S_DESC_F_EOP : Z := 30.
Definition S_H2C_DESC_F_SOP : Z := 1.
Definition S_H2C_DESC_F_EOP : Z := 2.
Definition S_H2C_DESC_F_ZERO_CDH : Z := 13.
Definition ENODEV : Z := 19.
Definition ENODATA : Z := 61.
(** [TRIG_MODE_COMBO] of [enum tigger_mode_t] *)
Definition TRIG_MODE_COMBO : Z := 5.

(** [struct qdma_mm_desc], [struct qdma_h2c_desc] *)
Record qdma_mm_desc := mk_mm_desc {
  mm_src_addr : Z; mm_flag_len : Z; mm_rsvd0 : Z; mm_dst_addr : Z; mm_rsvd1 : Z;
}.
Record qdma_h2c_desc := mk_h2c_desc {
  h2c_cdh_flags : Z; h2c_pld_len : Z; h2c_len : Z; h2c_flags : Z; h2c_src_addr : Z;
}.
Definition mm_desc0 : qdma_mm_desc := mk_mm_desc 0 0 0 0 0.
Definition h2c_desc0 : qdma_h2c_desc := mk_h2c_desc 0 0 0 0 0.

(** [struct qdma_queue_conf], without the name and the handle of the upper layer. *)
Record qdma_queue_conf := mk_qdma_queue_conf {
  qc_qidx : Z; qc_st : Z; qc_q_type : Z; qc_pipe : Z; qc_irq_en : Z;
  qc_desc_rng_sz_idx : Z; qc_wb_status_en : Z; qc_cmpl_status_acc_en : Z;
  qc_cmpl_status_pend_chk : Z; qc_desc_bypass : Z; qc_pfetch_en : Z; qc_fetch_credit : Z;
  qc_st_pkt_mode : Z; qc_c2h_buf_sz_idx : Z; qc_cmpl_rng_sz_idx : Z; qc_cmpl_desc_sz : Z;
  qc_cmpl_stat_en : Z; qc_cmpl_udd_en : Z; qc_cmpl_timer_idx : Z; qc_cmpl_cnt_th_idx : Z;
  qc_cmpl_trig_mode : Z; qc_cmpl_en_intr : Z; qc_sw_desc_sz : Z; qc_pfetch_bypass : Z;
  qc_cmpl_ovf_chk_dis : Z; qc_port_id : Z; qc_at : Z; qc_adaptive_rx : Z;
  qc_latency_optimize : Z; qc_init_pidx_dis : Z; qc_mm_channel : Z; qc_pidx_acc : Z;
  qc_fp_descq_isr_top : bool; qc_fp_descq_c2h_packet : bool; qc_fp_bypass_desc_fill : bool;
  qc_fp_proc_ul_cmpt_entry : bool; qc_rngsz : Z; qc_rngsz_cmpt : Z; qc_c2h_bufsz : Z;
  qc_ping_pong_en : Z; qc_aperture_size : Z;
}.
#[export] Instance eta_qdma_queue_conf : Settable qdma_queue_conf := λ d, mk_qdma_queue_conf
  (qc_qidx d) (qc_st d) (qc_q_type d) (qc_pipe d) (qc_irq_en d) (qc_desc_rng_sz_idx d)
  (qc_wb_status_en d) (qc_cmpl_status_acc_en d) (qc_cmpl_status_pend_chk d) (qc_desc_bypass
  d) (qc_pfetch_en d) (qc_fetch_credit d) (qc_st_pkt_mode d) (qc_c2h_buf_sz_idx d)
  (qc_cmpl_rng_sz_idx d) (qc_cmpl_desc_sz d) (qc_cmpl_stat_en d) (qc_cmpl_udd_en d)
  (qc_cmpl_timer_idx d) (qc_cmpl_cnt_th_idx d) (qc_cmpl_trig_mode d) (qc_cmpl_en_intr d)
  (qc_sw_desc_sz d) (qc_pfetch_bypass d) (qc_cmpl_ovf_chk_dis d) (qc_port_id d) (qc_at d)
  (qc_adaptive_rx d) (qc_latency_optimize d) (qc_init_pidx_dis d) (qc_mm_channel d)
  (qc_pidx_acc d) (qc_fp_descq_isr_top d) (qc_fp_descq_c2h_packet d) (qc_fp_bypass_desc_fill
  d) (qc_fp_proc_ul_cmpt_entry d) (qc_rngsz d) (qc_rngsz_cmpt d) (qc_c2h_bufsz d)
  (qc_ping_pong_en d) (qc_aperture_size d).

(** [struct qdma_sw_sg]; [sg_pg] is 0 for NULL. *)
Record qdma_sw_sg := mk_qdma_sw_sg {
  sg_pg : Z; sg_offset : Z; sg_len : Z; sg_dma_addr : Z;
}.
#[export] Instance eta_qdma_sw_sg : Settable qdma_sw_sg := λ d, mk_qdma_sw_sg (sg_pg d)
  (sg_offset d) (sg_len d) (sg_dma_addr d).

(** [struct qdma_sgt_req_cb] *)
Record qdma_sgt_req_cb := mk_qdma_sgt_req_cb {
  cb_desc_nr : Z; cb_offset : Z; cb_sg_offset : Z; cb_sg : option Z; cb_sg_idx : Z; cb_left : Z;
  cb_status : Z; cb_done : bool; cb_unmap_needed : bool;
}.
#[export] Instance eta_qdma_sgt_req_cb : Settable qdma_sgt_req_cb := λ d, mk_qdma_sgt_req_cb
  (cb_desc_nr d) (cb_offset d) (cb_sg_offset d) (cb_sg d) (cb_sg_idx d) (cb_left d) (cb_status d) (cb_done
  d) (cb_unmap_needed d).

(** [struct qdma_request] *)
Record qdma_request := mk_qdma_request {
  rq_cb : qdma_sgt_req_cb; rq_fp_done : bool; rq_timeout_ms : Z; rq_count : Z;
  rq_ep_addr : Z; rq_no_memcpy : bool; rq_write : bool; rq_dma_mapped : bool;
  rq_h2c_eot : bool; rq_check_qstate_disabled : bool; rq_udd_len : Z;
  rq_sgl : list qdma_sw_sg;
}.
#[export] Instance eta_qdma_request : Settable qdma_request := λ d, mk_qdma_request (rq_cb
  d) (rq_fp_done d) (rq_timeout_ms d) (rq_count d) (rq_ep_addr d) (rq_no_memcpy d) (rq_write
  d) (rq_dma_mapped d) (rq_h2c_eot d) (rq_check_qstate_disabled d) (rq_udd_len d) (rq_sgl
  d).

(** [struct qdma_descq] *)
Record qdma_descq := mk_qdma_descq {
  dq_conf : qdma_queue_conf; dq_lock : bool; dq_channel : Z; dq_err : bool; dq_color : Z;
  dq_proc_req_running : bool; dq_q_state : q_state_t; dq_qidx_hw : Z; dq_intr_id : Z;
  dq_work_list : list Z; dq_work_req_pend : Z; dq_cmplthp : bool; dq_pend_list : list Z;
  dq_pend_list_empty : bool; dq_q_stop_wait : bool; dq_avail : Z; dq_pidx : Z; dq_cidx : Z;
  dq_credit : Z; dq_mm_desc : list qdma_mm_desc; dq_h2c_desc : list qdma_h2c_desc;
  dq_cmpt_entry_len : Z; dq_pidx_cmpt : Z; dq_cidx_cmpt : Z; dq_total_cmpl_descs : Z;
  dq_desc_pend : Z; dq_pidx_info : qdma_q_pidx_reg_info;
  dq_cmpt_cidx_info : qdma_q_cmpt_cidx_reg_info; dq_c2h_pend_pkt_moving_avg : Z;
  dq_c2h_pend_pkt_avg_thr_hi : Z; dq_c2h_pend_pkt_avg_thr_lo : Z;
  dq_sorted_c2h_cntr_idx : Z; dq_c2h_cntr_monitor_cnt : Z; dq_desc_bus : Z;
  dq_desc_cmpt_bus : Z; dq_cpu_assigned : bool; dq_intr_work_cpu : Z;
}.
#[export] Instance eta_qdma_descq : Settable qdma_descq := λ d, mk_qdma_descq (dq_conf d)
  (dq_lock d) (dq_channel d) (dq_err d) (dq_color d) (dq_proc_req_running d) (dq_q_state d)
  (dq_qidx_hw d) (dq_intr_id d) (dq_work_list d) (dq_work_req_pend d) (dq_cmplthp d)
  (dq_pend_list d) (dq_pend_list_empty d) (dq_q_stop_wait d) (dq_avail d) (dq_pidx d)
  (dq_cidx d) (dq_credit d) (dq_mm_desc d) (dq_h2c_desc d) (dq_cmpt_entry_len d)
  (dq_pidx_cmpt d) (dq_cidx_cmpt d) (dq_total_cmpl_descs d) (dq_desc_pend d) (dq_pidx_info
  d) (dq_cmpt_cidx_info d) (dq_c2h_pend_pkt_moving_avg d) (dq_c2h_pend_pkt_avg_thr_hi d)
  (dq_c2h_pend_pkt_avg_thr_lo d) (dq_sorted_c2h_cntr_idx d) (dq_c2h_cntr_monitor_cnt d)
  (dq_desc_bus d) (dq_desc_cmpt_bus d) (dq_cpu_assigned d) (dq_intr_work_cpu d).

(** The members of [struct xlnx_dma_dev] the queues use. *)
Record xlnx_dma_dev := mk_xlnx_dma_dev {
  xd_qdma_drv_mode : qdma_drv_mode_t; xd_csr_ring_sz : list Z;
  xd_csr_c2h_timer_cnt : list Z; xd_csr_c2h_cnt_th : list Z; xd_csr_c2h_buf_sz : list Z;
  xd_sorted_c2h_cntr : list Z; xd_versal_hard_ip : bool; xd_num_vecs : Z;
  xd_dvec_start_idx : Z; xd_intr_list_cnt : list Z; xd_total_mm_h2c_pkts : Z;
  xd_total_mm_c2h_pkts : Z; xd_total_st_h2c_pkts : Z; xd_total_st_c2h_pkts : Z;
  xd_func_id : Z; xd_intr_moderation : bool;
}.
#[export] Instance eta_xlnx_dma_dev : Settable xlnx_dma_dev := λ d, mk_xlnx_dma_dev
  (xd_qdma_drv_mode d) (xd_csr_ring_sz d) (xd_csr_c2h_timer_cnt d) (xd_csr_c2h_cnt_th d)
  (xd_csr_c2h_buf_sz d) (xd_sorted_c2h_cntr d) (xd_versal_hard_ip d) (xd_num_vecs d)
  (xd_dvec_start_idx d) (xd_intr_list_cnt d) (xd_total_mm_h2c_pkts d) (xd_total_mm_c2h_pkts
  d) (xd_total_st_h2c_pkts d) (xd_total_st_c2h_pkts d) (xd_func_id d)
  (xd_intr_moderation d).

(** * The state of a descriptor queue and its device

    [qst H] is what the queue code of libqdma reads and writes: the queue, the
    device structure, the store of requests, the hardware [H] and a log of the
    calls that leave the driver (completion callbacks and wake-ups).  A
    computation is a function from a state to a result and a state; [None] is
    a call that never returns or an access through a dangling pointer: taking
    a lock twice, releasing a free lock, deleting a control block that is on
    no list, adding one that is on a list, reading a request that does not
    exist. *)

(** The entries of struct qdma_hw_access the queues call, and the completion
    status the hardware writes to host memory. *)
Class QueueHw (H : Type) := {
  queue_pidx_update : Z → Z → qdma_q_pidx_reg_info → H → Z * H;
  queue_cmpt_cidx_update : Z → qdma_q_cmpt_cidx_reg_info → H → Z * H;
  desc_cmpl_status_cidx : H → Z * H;
}.

(** Calls out of the driver. *)
Inductive q_event :=
  | EvDone (req bytes_done err : Z)   (* req->fp_done *)
  | EvWake (req : Z)                  (* wake-up of the waiter of a request *)
  | EvPendEmpty                       (* wake-up of the waiter of a queue stop *)
  | EvThread                          (* wake-up of the completion thread *)
  | EvPingPong.                       (* transmit time stamped *)

Record qst (H : Type) := mk_qst {
  s_q : qdma_descq; s_xdev : xlnx_dma_dev; s_reqs : gmap Z qdma_request; s_hw : H;
  s_ev : list q_event;
}.
Arguments mk_qst {H} _ _ _ _ _.
Arguments s_q {H} _.
Arguments s_xdev {H} _.
Arguments s_reqs {H} _.
Arguments s_hw {H} _.
Arguments s_ev {H} _.
#[export] Instance eta_qst H : Settable (qst H) := λ s,
  mk_qst (s_q s) (s_xdev s) (s_reqs s) (s_hw s) (s_ev s).

Definition qm (H A : Type) : Type := qst H → option (A * qst H).
#[export] Instance qm_ret {H} : MRet (qm H) := λ A a s, Some (a, s).
#[export] Instance qm_bind {H} : MBind (qm H) := λ A B k m s,
  match m s with
  | Some (a, s) => k a s
  | None => None
  end.

Section prim.
Context {H : Type}.

Definition qfail {A} : qm H A := λ _, None.
Definition getq : qm H qdma_descq := λ s, Some (s_q s, s).
Definition modq (f : qdma_descq → qdma_descq) : qm H unit := λ s, Some (tt, s <| s_q := f (s_q s) |>).
Definition getx : qm H xlnx_dma_dev := λ s, Some (s_xdev s, s).
Definition modx (f : xlnx_dma_dev → xlnx_dma_dev) : qm H unit :=
  λ s, Some (tt, s <| s_xdev := f (s_xdev s) |>).
Definition getreq (r : Z) : qm H qdma_request := λ s,
  match s_reqs s !! r with Some rq => Some (rq, s) | None => None end.
Definition putreq (r : Z) (rq : qdma_request) : qm H unit :=
  λ s, Some (tt, s <| s_reqs := <[r := rq]> (s_reqs s) |>).
Definition hwcall {A} (f : H → A * H) : qm H A :=
  λ s, let '(a, h) := f (s_hw s) in Some (a, s <| s_hw := h |>).
Definition qevent (e : q_event) : qm H unit := λ s, Some (tt, s <| s_ev := s_ev s ++ [e] |>).
Definition qwhen (b : bool) (m : qm H unit) : qm H unit := if b then m else mret tt.

(** Replace the control block of a request. *)
Definition modcb (r : Z) (f : qdma_sgt_req_cb → qdma_sgt_req_cb) : qm H unit :=
  rq ← getreq r; putreq r (rq <| rq_cb := f (rq_cb rq) |>).

(** [lock_descq], [unlock_descq] *)
Definition lock_descq : qm H unit :=
  q ← getq; if dq_lock q then qfail else modq (λ q, q <| dq_lock := true |>).
Definition unlock_descq : qm H unit :=
  q ← getq; if dq_lock q then modq (λ q, q <| dq_lock := false |>) else qfail.

(** A control block is on the work list, on the pending list or on none. *)
Definition cb_linked (q : qdma_descq) (r : Z) : bool :=
  bool_decide (r ∈ dq_work_list q) || bool_decide (r ∈ dq_pend_list q).

(** [list_del(&cb->list)] *)
Definition cb_list_del (r : Z) : qm H unit :=
  q ← getq;
  if cb_linked q r then
    modq (λ q, q <| dq_work_list := filter (λ x, x ≠ r) (dq_work_list q) |>
                 <| dq_pend_list := filter (λ x, x ≠ r) (dq_pend_list q) |>)
  else qfail.

(** [list_add_tail(&cb->list, &descq->work_list)] and to the pending list *)
Definition work_list_add_tail (r : Z) : qm H unit :=
  q ← getq;
  if cb_linked q r then qfail else modq (λ q, q <| dq_work_list := dq_work_list q ++ [r] |>).
Definition pend_list_add_tail (r : Z) : qm H unit :=
  q ← getq;
  if cb_linked q r then qfail else modq (λ q, q <| dq_pend_list := dq_pend_list q ++ [r] |>).
End prim.

(** ** Running the monad *)

Lemma qm_bind_run {H A B} (m : qm H A) (k : A → qm H B) s :
  (m ≫= k) s = match m s with Some (a, s') => k a s' | None => None end.
Proof. done. Qed.

Lemma qm_bind_eq {H A B} (m : qm H A) (k : A → qm H B) s a s' :
  m s = Some (a, s') → (m ≫= k) s = k a s'.
Proof. intros Hm. unfold mbind, qm_bind. by rewrite Hm. Qed.

(** Invert a successful run of a bind. *)
Lemma qm_bind_some {H A B} (m : qm H A) (k : A → qm H B) s b s2 :
  (m ≫= k) s = Some (b, s2) → ∃ a s1, m s = Some (a, s1) ∧ k a s1 = Some (b, s2).
Proof. unfold mbind, qm_bind. intros. case_match; [|done]. destruct p. eauto. Qed.

(** Replace the continuation of a bind. *)
Lemma qm_bind_impl {H A B} (m : qm H A) (k k' : A → qm H B) s x :
  (∀ a s1, m s = Some (a, s1) → k a s1 = Some x → k' a s1 = Some x) →
  (m ≫= k) s = Some x → (m ≫= k') s = Some x.
Proof. intros Hk. unfold mbind, qm_bind. destruct (m s) as [[a s1]|]; [|done]. by apply Hk. Qed.

Lemma modq_bind {H B} f (k : unit → qm H B) s : (modq f ≫= k) s = k tt (s <| s_q := f (s_q s) |>).
Proof. done. Qed.

Lemma getx_bind {H B} (k : xlnx_dma_dev → qm H B) s : (getx ≫= k) s = k (s_xdev s) s.
Proof. done. Qed.

Lemma getq_bind {H B} (k : qdma_descq → qm H B) s : (getq ≫= k) s = k (s_q s) s.
Proof. done. Qed.

Lemma lock_run {H} (s : qst H) : dq_lock (s_q s) = false →
  lock_descq s = Some (tt, s <| s_q := s_q s <| dq_lock := true |> |>).
Proof. intros Hl. unfold lock_descq. rewrite getq_bind. by rewrite Hl. Qed.

Lemma unlock_run {H} (s : qst H) : dq_lock (s_q s) = true →
  unlock_descq s = Some (tt, s <| s_q := s_q s <| dq_lock := false |> |>).
Proof. intros Hl. unfold unlock_descq. rewrite getq_bind. by rewrite Hl. Qed.
