(* ===== verification/HwAccess.v ===== *)
(** * The hardware access interface ([struct qdma_hw_access])

    The mailbox handlers reach the hardware through a table of functions that
    [qdma_hw_access_init] fills according to the IP of the device.  The table
    is a class with the entries the handlers use; the soft IP is an instance.
    [HwAccessOk] is what the handlers rely on: an entry returns, and it leaves
    the register lock free. *)

From S2P Require Import Prelude Platform Bits RegIO IndCtxt CtxtTypes SoftReg SoftCtxt.
From S2P Require Import SoftAccess RegList.

(** ** What the version register tells *)

(** [enum qdma_device_type], [enum qdma_ip_type]; releases by their number. *)
Inductive qdma_device_type :=
  QDMA_DEVICE_SOFT | QDMA_DEVICE_VERSAL_CPM4 | QDMA_DEVICE_VERSAL_CPM5 | QDMA_DEVICE_NONE.
Inductive qdma_ip_type :=
  QDMA_VERSAL_HARD_IP | QDMA_VERSAL_SOFT_IP | QDMA_SOFT_IP | EQDMA_SOFT_IP | QDMA_NONE_IP.
#[export] Instance device_type_eq : EqDecision qdma_device_type.
Proof. solve_decision. Defined.
#[export] Instance ip_type_eq : EqDecision qdma_ip_type.
Proof. solve_decision. Defined.
Definition QDMA_VIVADO_2018_3 : Z := 0.
Definition QDMA_VIVADO_2019_1 : Z := 1.
Definition QDMA_VIVADO_2019_2 : Z := 2.
Definition QDMA_VIVADO_2020_1 : Z := 3.
Definition QDMA_VIVADO_2020_2 : Z := 4.
Definition QDMA_VIVADO_2021_1 : Z := 5.
Definition QDMA_VIVADO_2022_1 : Z := 6.
Definition QDMA_VIVADO_NONE : Z := 7.

(** ** The table *)

(** The device handle is never NULL here and is not an argument. *)
Class HwAccess (dev : Type) := {
  ha_mbox_base_pf : Z;
  ha_mbox_base_vf : Z;
  ha_fmap_conf : Z → option qdma_fmap_cfg → qdma_hw_access_type →
    hwm dev (Z * option qdma_fmap_cfg);
  ha_sw_ctx_conf : Z → Z → option qdma_descq_sw_ctxt → qdma_hw_access_type →
    hwm dev (Z * option qdma_descq_sw_ctxt);
  ha_pfetch_ctx_conf : Z → option qdma_descq_prefetch_ctxt → qdma_hw_access_type →
    hwm dev (Z * option qdma_descq_prefetch_ctxt);
  ha_cmpt_ctx_conf : Z → option qdma_descq_cmpt_ctxt → qdma_hw_access_type →
    hwm dev (Z * option qdma_descq_cmpt_ctxt);
  ha_hw_ctx_conf : Z → Z → option qdma_descq_hw_ctxt → qdma_hw_access_type →
    hwm dev (Z * option qdma_descq_hw_ctxt);
  ha_credit_ctx_conf : Z → Z → option qdma_descq_credit_ctxt → qdma_hw_access_type →
    hwm dev (Z * option qdma_descq_credit_ctxt);
  ha_indirect_intr_ctx_conf : Z → option qdma_indirect_intr_ctxt → qdma_hw_access_type →
    hwm dev (Z * option qdma_indirect_intr_ctxt);
  ha_global_csr_conf : Z → Z → option (list Z) → qdma_global_csr_type → qdma_hw_access_type →
    hwm dev (Z * option (list Z));
  ha_get_device_attributes : option qdma_dev_attributes →
    hwm dev (Z * option qdma_dev_attributes);
  ha_read_reg_list : Z → Z → hwm dev (Z * option (list qdma_reg_data));
}.

(** ** The table of the soft IP *)

Definition QDMA_OFFSET_MBOX_BASE_VF : Z := 0x1000.
Definition QDMA_OFFSET_MBOX_BASE_PF : Z := 0x2400.

#[export] Instance soft_hw_access {dev} `{Device dev} : HwAccess dev := {|
  ha_mbox_base_pf := QDMA_OFFSET_MBOX_BASE_PF;
  ha_mbox_base_vf := QDMA_OFFSET_MBOX_BASE_VF;
  ha_fmap_conf := qdma_fmap_conf true;
  ha_sw_ctx_conf := qdma_sw_ctx_conf true;
  ha_pfetch_ctx_conf := qdma_pfetch_ctx_conf true;
  ha_cmpt_ctx_conf := qdma_cmpt_ctx_conf true;
  ha_hw_ctx_conf := qdma_hw_ctx_conf true;
  ha_credit_ctx_conf := qdma_credit_ctx_conf true;
  ha_indirect_intr_ctx_conf := qdma_indirect_intr_ctx_conf true;
  ha_global_csr_conf := qdma_global_csr_conf true;
  ha_get_device_attributes := qdma_get_device_attributes true;
  ha_read_reg_list is_vf group := qdma_read_reg_list true is_vf group true;
|}.

(** ** What the handlers rely on *)

Class HwAccessOk (dev : Type) `{HwAccess dev} := {
  fmap_conf_keeps f c t : keeps false (ha_fmap_conf f c t);
  sw_ctx_conf_keeps d q c t : keeps false (ha_sw_ctx_conf d q c t);
  pfetch_ctx_conf_keeps q c t : keeps false (ha_pfetch_ctx_conf q c t);
  cmpt_ctx_conf_keeps q c t : keeps false (ha_cmpt_ctx_conf q c t);
  hw_ctx_conf_keeps d q c t : keeps false (ha_hw_ctx_conf d q c t);
  credit_ctx_conf_keeps d q c t : keeps false (ha_credit_ctx_conf d q c t);
  intr_ctx_conf_keeps r c t : keeps false (ha_indirect_intr_ctx_conf r c t);
  global_csr_conf_keeps i n v k t : keeps false (ha_global_csr_conf i n v k t);
  get_device_attributes_keeps a : keeps false (ha_get_device_attributes a);
  read_reg_list_keeps v g : keeps false (ha_read_reg_list v g);
  read_reg_list_bound v g s rv l s' :
    ha_read_reg_list v g s = Some ((rv, Some l), s') → (length l ≤ QDMA_MAX_REGISTER_DUMP)%nat;
}.

#[export] Hint Resolve fmap_conf_keeps sw_ctx_conf_keeps pfetch_ctx_conf_keeps
  cmpt_ctx_conf_keeps hw_ctx_conf_keeps credit_ctx_conf_keeps intr_ctx_conf_keeps
  global_csr_conf_keeps get_device_attributes_keeps read_reg_list_keeps : qdma.

Ltac keeps_tac :=
  repeat match goal with
  | |- keeps _ (_ ≫= _) => apply keeps_bind; [|intros ?]
  | |- keeps _ (match ?x with _ => _ end) => destruct x
  | |- keeps _ (if ?x then _ else _) => destruct x
  end; auto with qdma.

(** *** The soft IP has it *)

Section soft.
Context {dev : Type} `{Device dev}.

#[local] Hint Resolve keeps_indirect_invalidate keeps_indirect_clear keeps_indirect_write
  keeps_indirect_read keeps_get_dev_cap : qdma.

Lemma keeps_attributes b a : keeps b (qdma_get_device_attributes true a).
Proof using. unfold qdma_get_device_attributes. keeps_tac. Qed.

Lemma keeps_csr_conf b i n v k t : keeps b (qdma_global_csr_conf true i n v k t).
Proof using.
  unfold qdma_global_csr_conf, qdma_read_global_ring_sizes, qdma_write_global_ring_sizes,
    qdma_read_global_timer_count, qdma_write_global_timer_count,
    qdma_read_global_counter_threshold, qdma_write_global_counter_threshold,
    qdma_read_global_buffer_sizes, qdma_write_global_buffer_sizes, csr_read, csr_write,
    qdma_read_csr_values, qdma_write_csr_values.
  keeps_tac; apply keeps_get_dev_cap.
Qed.

Lemma keeps_read_run b a n : keeps b (read_run a n).
Proof using.
  intros s <-. destruct (read_run_spec a n s) as (l & s' & E & Hl & _). by exists l, s'.
Qed.

Lemma keeps_read_regs b cap l n : keeps b (read_regs cap l n).
Proof using.
  intros s <-. destruct (read_regs_spec cap l n s) as (r & s' & E & Hl & _). by exists r, s'.
Qed.

Lemma read_regs_le cap l n s r s' : read_regs cap l n s = Some (r, s') → (length r ≤ n)%nat.
Proof using.
  destruct (read_regs_spec cap l n s) as (r' & s1 & -> & _ & Hn & _). by intros [= <- <-].
Qed.

Lemma keeps_reg_list b v g : keeps b (qdma_read_reg_list true v g true).
Proof using.
  unfold qdma_read_reg_list. apply keeps_if; [apply keeps_ret|]. cbn [negb].
  apply keeps_bind; [apply keeps_get_dev_cap|]. intros cap. destruct (group_start g); [|apply keeps_ret].
  destruct (get_reg_entry z) as [rv ix]. apply keeps_if; [apply keeps_ret|].
  apply keeps_bind; [apply keeps_read_regs|intros ?; apply keeps_ret].
Qed.

Lemma reg_list_bound v g s rv l s' :
  qdma_read_reg_list true v g true s = Some ((rv, Some l), s') →
  (length l ≤ QDMA_MAX_REGISTER_DUMP)%nat.
Proof using.
  unfold qdma_read_reg_list. destruct (v =? 0); [done|]. cbn [negb].
  unfold mbind, hwm_bind. destruct (get_dev_cap s) as [[cap s1]|]; [|done].
  destruct (group_start g); [|done]. destruct (get_reg_entry z) as [rv0 ix].
  destruct (rv0 <? 0); [done|].
  destruct (read_regs _ _ _ s1) as [[l' s2]|] eqn:E; [|done]. intros [= <- <- <-].
  by eapply read_regs_le.
Qed.

#[export] Instance soft_hw_access_ok : HwAccessOk dev.
Proof using.
  split; cbn [soft_hw_access ha_fmap_conf ha_sw_ctx_conf ha_pfetch_ctx_conf ha_cmpt_ctx_conf
    ha_hw_ctx_conf ha_credit_ctx_conf ha_indirect_intr_ctx_conf ha_global_csr_conf
    ha_get_device_attributes ha_read_reg_list]; intros.
  - unfold qdma_fmap_conf, qdma_fmap_read, qdma_fmap_write, qdma_fmap_clear. keeps_tac.
  - unfold qdma_sw_ctx_conf, qdma_sw_context_read, qdma_sw_context_write,
      qdma_sw_context_clear, qdma_sw_context_invalidate. keeps_tac.
  - unfold qdma_pfetch_ctx_conf, qdma_pfetch_context_read, qdma_pfetch_context_write,
      qdma_pfetch_context_clear, qdma_pfetch_context_invalidate. keeps_tac.
  - unfold qdma_cmpt_ctx_conf, qdma_cmpt_context_read, qdma_cmpt_context_write,
      qdma_cmpt_context_clear, qdma_cmpt_context_invalidate. keeps_tac.
  - unfold qdma_hw_ctx_conf, qdma_hw_context_read, qdma_hw_context_clear,
      qdma_hw_context_invalidate. keeps_tac.
  - unfold qdma_credit_ctx_conf, qdma_credit_context_read, qdma_credit_context_clear,
      qdma_credit_context_invalidate. keeps_tac.
  - unfold qdma_indirect_intr_ctx_conf, qdma_indirect_intr_context_read,
      qdma_indirect_intr_context_write, qdma_indirect_intr_context_clear,
      qdma_indirect_intr_context_invalidate. keeps_tac.
  - apply keeps_csr_conf.
  - apply keeps_attributes.
  - apply keeps_reg_list.
  - by eapply reg_list_bound.
Qed.
End soft.
