(* ===== verification/MboxMsg.v ===== *)
(** * Mailbox messages (qdma_mbox_protocol.c)

    A message is a buffer of bytes that the code accesses through the members
    of [union qdma_mbox_txrx].  A member is a position and a size in the buffer
    (the layout of the structures on a 64-bit little-endian target), a bit
    field additionally a range of bits; members of different structures of the
    union overlap.  An access outside the buffer has no result. *)

From S2P Require Import Prelude Platform CtxtTypes.

(** ** Opcodes ([enum mbox_msg_op]) *)

Inductive mbox_msg_op :=
  | MBOX_OP_VF_BYE
  | MBOX_OP_HELLO
  | MBOX_OP_FMAP
  | MBOX_OP_CSR
  | MBOX_OP_QREQ
  | MBOX_OP_QNOTIFY_ADD
  | MBOX_OP_QNOTIFY_DEL
  | MBOX_OP_GET_QACTIVE_CNT
  | MBOX_OP_QCTXT_WRT
  | MBOX_OP_QCTXT_RD
  | MBOX_OP_QCTXT_CLR
  | MBOX_OP_QCTXT_INV
  | MBOX_OP_INTR_CTXT_WRT
  | MBOX_OP_INTR_CTXT_RD
  | MBOX_OP_INTR_CTXT_CLR
  | MBOX_OP_INTR_CTXT_INV
  | MBOX_OP_RESET_PREPARE
  | MBOX_OP_RESET_DONE
  | MBOX_OP_REG_LIST_READ
  | MBOX_OP_PF_BYE
  | MBOX_OP_PF_RESET_VF_BYE
  | MBOX_OP_HELLO_RESP
  | MBOX_OP_FMAP_RESP
  | MBOX_OP_CSR_RESP
  | MBOX_OP_QREQ_RESP
  | MBOX_OP_QNOTIFY_ADD_RESP
  | MBOX_OP_QNOTIFY_DEL_RESP
  | MBOX_OP_GET_QACTIVE_CNT_RESP
  | MBOX_OP_QCTXT_WRT_RESP
  | MBOX_OP_QCTXT_RD_RESP
  | MBOX_OP_QCTXT_CLR_RESP
  | MBOX_OP_QCTXT_INV_RESP
  | MBOX_OP_INTR_CTXT_WRT_RESP
  | MBOX_OP_INTR_CTXT_RD_RESP
  | MBOX_OP_INTR_CTXT_CLR_RESP
  | MBOX_OP_INTR_CTXT_INV_RESP
  | MBOX_OP_RESET_PREPARE_RESP
  | MBOX_OP_RESET_DONE_RESP
  | MBOX_OP_REG_LIST_READ_RESP
  | MBOX_OP_PF_BYE_RESP
  | MBOX_OP_PF_RESET_VF_BYE_RESP
  | MBOX_OP_MAX.
#[export] Instance mbox_msg_op_eq_dec : EqDecision mbox_msg_op.
Proof. solve_decision. Defined.

Definition msg_op_val (op : mbox_msg_op) : Z :=
  match op with
  | MBOX_OP_VF_BYE => 0x0
  | MBOX_OP_HELLO => 0x1
  | MBOX_OP_FMAP => 0x2
  | MBOX_OP_CSR => 0x3
  | MBOX_OP_QREQ => 0x4
  | MBOX_OP_QNOTIFY_ADD => 0x5
  | MBOX_OP_QNOTIFY_DEL => 0x6
  | MBOX_OP_GET_QACTIVE_CNT => 0x7
  | MBOX_OP_QCTXT_WRT => 0x8
  | MBOX_OP_QCTXT_RD => 0x9
  | MBOX_OP_QCTXT_CLR => 0xa
  | MBOX_OP_QCTXT_INV => 0xb
  | MBOX_OP_INTR_CTXT_WRT => 0xc
  | MBOX_OP_INTR_CTXT_RD => 0xd
  | MBOX_OP_INTR_CTXT_CLR => 0xe
  | MBOX_OP_INTR_CTXT_INV => 0xf
  | MBOX_OP_RESET_PREPARE => 0x10
  | MBOX_OP_RESET_DONE => 0x11
  | MBOX_OP_REG_LIST_READ => 0x12
  | MBOX_OP_PF_BYE => 0x13
  | MBOX_OP_PF_RESET_VF_BYE => 0x14
  | MBOX_OP_HELLO_RESP => 0x81
  | MBOX_OP_FMAP_RESP => 0x82
  | MBOX_OP_CSR_RESP => 0x83
  | MBOX_OP_QREQ_RESP => 0x84
  | MBOX_OP_QNOTIFY_ADD_RESP => 0x85
  | MBOX_OP_QNOTIFY_DEL_RESP => 0x86
  | MBOX_OP_GET_QACTIVE_CNT_RESP => 0x87
  | MBOX_OP_QCTXT_WRT_RESP => 0x88
  | MBOX_OP_QCTXT_RD_RESP => 0x89
  | MBOX_OP_QCTXT_CLR_RESP => 0x8a
  | MBOX_OP_QCTXT_INV_RESP => 0x8b
  | MBOX_OP_INTR_CTXT_WRT_RESP => 0x8c
  | MBOX_OP_INTR_CTXT_RD_RESP => 0x8d
  | MBOX_OP_INTR_CTXT_CLR_RESP => 0x8e
  | MBOX_OP_INTR_CTXT_INV_RESP => 0x8f
  | MBOX_OP_RESET_PREPARE_RESP => 0x90
  | MBOX_OP_RESET_DONE_RESP => 0x91
  | MBOX_OP_REG_LIST_READ_RESP => 0x92
  | MBOX_OP_PF_BYE_RESP => 0x93
  | MBOX_OP_PF_RESET_VF_BYE_RESP => 0x94
  | MBOX_OP_MAX => 0x95
  end.

Definition all_ops : list mbox_msg_op :=
  [ MBOX_OP_VF_BYE; MBOX_OP_HELLO; MBOX_OP_FMAP; MBOX_OP_CSR; MBOX_OP_QREQ;
    MBOX_OP_QNOTIFY_ADD; MBOX_OP_QNOTIFY_DEL; MBOX_OP_GET_QACTIVE_CNT;
    MBOX_OP_QCTXT_WRT; MBOX_OP_QCTXT_RD; MBOX_OP_QCTXT_CLR; MBOX_OP_QCTXT_INV;
    MBOX_OP_INTR_CTXT_WRT; MBOX_OP_INTR_CTXT_RD; MBOX_OP_INTR_CTXT_CLR;
    MBOX_OP_INTR_CTXT_INV; MBOX_OP_RESET_PREPARE; MBOX_OP_RESET_DONE;
    MBOX_OP_REG_LIST_READ; MBOX_OP_PF_BYE; MBOX_OP_PF_RESET_VF_BYE; MBOX_OP_HELLO_RESP;
    MBOX_OP_FMAP_RESP; MBOX_OP_CSR_RESP; MBOX_OP_QREQ_RESP; MBOX_OP_QNOTIFY_ADD_RESP;
    MBOX_OP_QNOTIFY_DEL_RESP; MBOX_OP_GET_QACTIVE_CNT_RESP; MBOX_OP_QCTXT_WRT_RESP;
    MBOX_OP_QCTXT_RD_RESP; MBOX_OP_QCTXT_CLR_RESP; MBOX_OP_QCTXT_INV_RESP;
    MBOX_OP_INTR_CTXT_WRT_RESP; MBOX_OP_INTR_CTXT_RD_RESP; MBOX_OP_INTR_CTXT_CLR_RESP;
    MBOX_OP_INTR_CTXT_INV_RESP; MBOX_OP_RESET_PREPARE_RESP; MBOX_OP_RESET_DONE_RESP;
    MBOX_OP_REG_LIST_READ_RESP; MBOX_OP_PF_BYE_RESP; MBOX_OP_PF_RESET_VF_BYE_RESP;
    MBOX_OP_MAX ].

(** The opcode a byte stands for. *)
Definition msg_op_of (v : Z) : option mbox_msg_op := list_find (λ op, msg_op_val op = v) all_ops ≫= λ p, Some p.2.

Definition MBOX_MSG_OP_RSP_OFFSET : Z := 0x80.

Lemma msg_op_of_val op : msg_op_of (msg_op_val op) = Some op.
Proof. by destruct op. Qed.

(** ** Byte buffers *)

Notation buf := (list Z).

(** Position and size of a member. *)
Definition field : Type := nat * nat.

Definition inside (off n : nat) (b : buf) : bool := (off + n <=? length b)%nat.

Definition get_bytes (off n : nat) (b : buf) : list Z := take n (drop off b).
Definition put_bytes (off : nat) (l : list Z) (b : buf) : buf :=
  take off b ++ l ++ drop (off + length l) b.

(** Unsigned little-endian members. *)
Definition get (f : field) (b : buf) : Z := little_endian_to_Z 8 (get_bytes f.1 f.2 b).
Definition le_bytes (n : nat) (v : Z) : list Z := Z_to_little_endian (Z.of_nat n) 8 v.
Definition put (f : field) (v : Z) (b : buf) : buf := put_bytes f.1 (le_bytes f.2 v) b.

(** Bits [lo .. lo + w - 1] of a storage unit. *)
Definition get_bits (lo w z : Z) : Z := Z.land (Z.shiftr z lo) (Z.ones w).
Definition set_bits (lo w v z : Z) : Z :=
  Z.lor (Z.ldiff z (Z.shiftl (Z.ones w) lo)) (Z.shiftl (Z.land v (Z.ones w)) lo).

(** A member of a structure placed at [base]. *)
Definition at_ (base : nat) (f : field) : field := ((base + f.1)%nat, f.2).

(** Computations on one buffer. *)
Definition bm (A : Type) : Type := buf → option (A * buf).
#[export] Instance bm_ret : MRet bm := λ A a b, Some (a, b).
#[export] Instance bm_bind : MBind bm := λ A B k m b,
  match m b with
  | Some (a, b) => k a b
  | None => None
  end.

Definition rd (f : field) : bm Z := λ b, if inside f.1 f.2 b then Some (get f b, b) else None.
Definition wr (f : field) (v : Z) : bm () := λ b,
  if inside f.1 f.2 b then Some (tt, put f v b) else None.
Definition rd_bits (f : field) (lo w : Z) : bm Z := v ← rd f; mret (get_bits lo w v).
Definition wr_bits (f : field) (lo w v : Z) : bm () := z ← rd f; wr f (set_bits lo w v z).

(** The byte loops; the size is passed as a [uint8_t]. *)
Definition qdma_mbox_memset (off : nat) (val size : Z) : bm () := λ b,
  let n := Z.to_nat (u8 size) in
  if inside off n b then Some (tt, put_bytes off (replicate n (u8 val)) b) else None.
Definition qdma_mbox_memcpy_to (off : nat) (from : list Z) : bm () := λ b,
  let l := take (Z.to_nat (u8 (Z.of_nat (length from)))) from in
  if inside off (length l) b then Some (tt, put_bytes off l b) else None.
Definition qdma_mbox_memcpy_from (off : nat) (size : Z) : bm (list Z) := λ b,
  let n := Z.to_nat (u8 size) in
  if inside off n b then Some (get_bytes off n b, b) else None.

(** ** The layout of [union qdma_mbox_txrx] *)

Definition sizeof_qdma_mbox_txrx : Z := 152.
Definition MBOX_MSG_REG_MAX : nat := 32.

Definition hdr_op : field := (0, 1)%nat.
Definition hdr_status : field := (1, 1)%nat.
Definition hdr_src_func_id : field := (2, 2)%nat.
Definition hdr_dst_func_id : field := (4, 2)%nat.

Definition hello_qbase : field := (8, 4)%nat.
Definition hello_qmax : field := (12, 4)%nat.
Definition hello_dev_cap : nat := 16.
Definition hello_dma_device_index : field := (24, 4)%nat.

Definition qcnt_h2c_queues : field := (8, 4)%nat.
Definition qcnt_c2h_queues : field := (12, 4)%nat.
Definition qcnt_cmpt_queues : field := (16, 4)%nat.

(** Named [fm_] because [fmap_qbase] is a member of [qdma_fmap_cfg]. *)
Definition fm_qbase : field := (8, 4)%nat.
Definition fm_qmax : field := (12, 4)%nat.

Definition csr_ringsz (i : nat) : field := (6 + 2 * i, 2)%nat.
Definition csr_bufsz (i : nat) : field := (38 + 2 * i, 2)%nat.
Definition csr_timer_cnt (i : nat) : field := (70 + i, 1)%nat.
Definition csr_cnt_thres (i : nat) : field := (86 + i, 1)%nat.
Definition csr_info : nat := 6.
Definition sizeof_qdma_csr_info : Z := 98.

Definition q_notify_qid_hw : field := (6, 2)%nat.
Definition q_notify_q_type : field := (8, 4)%nat.

Definition qctxt_qid_hw : field := (6, 2)%nat.
(** The byte of the bit fields [st], [c2h] and [cmpt_ctxt_type]. *)
Definition qctxt_flags : field := (8, 1)%nat.
Definition qctxt_descq_conf : nat := 16.
Definition qctxt_descq_ctxt : nat := 16.
Definition sizeof_mbox_descq_conf : Z := 32.
Definition sizeof_qdma_descq_context : Z := 136.

Definition intr_ctxt_ctxt : nat := 8.
Definition ictxt_num_rings : field := (8, 1)%nat.
Definition ictxt_ring_index_list (i : nat) : field := (12 + 4 * i, 4)%nat.
Definition ictxt_ictxt (i : nat) : nat := (16 + 32 * i)%nat.
Definition sizeof_mbox_msg_intr_ctxt : Z := 40.

Definition reg_group_num : field := (6, 2)%nat.
Definition reg_num_regs : field := (8, 2)%nat.
Definition reg_list_addr (i : nat) : field := (12 + 8 * i, 4)%nat.
Definition reg_list_val (i : nat) : field := (16 + 8 * i, 4)%nat.
Definition reg_list : nat := 12.

(** ** Structures inside a message *)

(** Offsets in [struct qdma_descq_context]. *)
Definition dctx_fmap : nat := 4.
Definition dctx_sw_ctxt : nat := 8.
Definition dctx_hw_ctxt : nat := 64.
Definition dctx_cr_ctxt : nat := 72.
Definition dctx_pfetch_ctxt : nat := 76.
Definition dctx_cmpt_ctxt : nat := 88.

(** Consecutive one-byte members. *)
Definition bytes_at (off n : nat) : list field := (λ i, ((off + i)%nat, 1%nat)) <$> seq 0 n.

Definition fmap_layout : list field := [(0, 2); (2, 2)]%nat.
Definition sw_layout : list field :=
  [(0, 8); (8, 2); (10, 2)]%nat ++ bytes_at 12 28 ++ [(40, 4); (48, 8)]%nat.
Definition hw_layout : list field := [(0, 2); (2, 2)]%nat ++ bytes_at 4 4.
Definition cr_layout : list field := [(0, 4)]%nat.
Definition pfetch_layout : list field :=
  [(0, 2)]%nat ++ bytes_at 2 4 ++ [(6, 2)]%nat ++ bytes_at 8 4.
Definition cmpt_layout : list field :=
  [(0, 8); (8, 2); (10, 2); (12, 2)]%nat ++ bytes_at 14 22 ++ [(36, 4)]%nat ++ bytes_at 40 3.
Definition intr_layout : list field :=
  [(0, 8); (8, 2); (10, 2)]%nat ++ bytes_at 12 6 ++ [(20, 4); (24, 1); (26, 2)]%nat.

Fixpoint rd_struct (base : nat) (layout : list field) : bm (list Z) :=
  match layout with
  | [] => mret []
  | f :: layout => v ← rd (at_ base f); vs ← rd_struct base layout; mret (v :: vs)
  end.
Fixpoint wr_struct (base : nat) (layout : list field) (vs : list Z) : bm () :=
  match layout, vs with
  | f :: layout, v :: vs => wr (at_ base f) v;; wr_struct base layout vs
  | _, _ => mret tt
  end.
