(* ===== verification/MboxStruct.v ===== *)
(** * C structures in message buffers

    How the context structures and the queue configuration lie in memory, and
    the laws of reading and writing members of a buffer. *)

From S2P Require Import Prelude Platform CtxtTypes MboxMsg.

(** ** Structures with plain members *)

(** A structure is the list of its members' values, in the order of its
    layout. *)
Class CStruct (T : Type) := {
  cs_layout : list field;
  cs_fields : T → list Z;
  cs_of : list Z → T;
}.

Definition rd_as (T : Type) `{CStruct T} (base : nat) : bm T :=
  l ← rd_struct base cs_layout; mret (cs_of l).
Definition wr_as {T : Type} `{CStruct T} (base : nat) (t : T) : bm () :=
  wr_struct base cs_layout (cs_fields t).

#[export] Instance qdma_fmap_cfg_struct : CStruct qdma_fmap_cfg := {|
  cs_layout := fmap_layout;
  cs_fields t :=
    [fmap_qbase t; fmap_qmax t];
  cs_of l :=
    mk_fmap (word l 0) (word l 1) |}.

#[export] Instance qdma_descq_sw_ctxt_struct : CStruct qdma_descq_sw_ctxt := {|
  cs_layout := sw_layout;
  cs_fields t :=
    [sw_ring_bs_addr t; sw_vec t; sw_pidx t; sw_irq_arm t; sw_fnc_id t; sw_qen t; sw_frcd_en t;
    sw_wbi_chk t; sw_wbi_intvl_en t; sw_at t; sw_fetch_max t; sw_rngsz_idx t; sw_desc_sz t;
    sw_bypass t; sw_mm_chn t; sw_wbk_en t; sw_irq_en t; sw_port_id t; sw_irq_no_last t;
    sw_err t; sw_err_wb_sent t; sw_irq_req t; sw_mrkr_dis t; sw_is_mm t; sw_intr_aggr t;
    sw_pasid_en t; sw_dis_intr_on_vf t; sw_virtio_en t; sw_pack_byp_out t; sw_irq_byp t;
    sw_host_id t; sw_pasid t; sw_virtio_dsc_base t];
  cs_of l :=
    mk_sw (word l 0) (word l 1) (word l 2) (word l 3) (word l 4) (word l 5) (word l 6)
    (word l 7) (word l 8) (word l 9) (word l 10) (word l 11) (word l 12) (word l 13) (word l 14)
    (word l 15) (word l 16) (word l 17) (word l 18) (word l 19) (word l 20) (word l 21)
    (word l 22) (word l 23) (word l 24) (word l 25) (word l 26) (word l 27) (word l 28)
    (word l 29) (word l 30) (word l 31) (word l 32) |}.

#[export] Instance qdma_descq_hw_ctxt_struct : CStruct qdma_descq_hw_ctxt := {|
  cs_layout := hw_layout;
  cs_fields t :=
    [hwc_cidx t; hwc_crd_use t; hwc_dsc_pend t; hwc_idl_stp_b t; hwc_evt_pnd t;
    hwc_fetch_pnd t];
  cs_of l :=
    mk_hwc (word l 0) (word l 1) (word l 2) (word l 3) (word l 4) (word l 5) |}.

#[export] Instance qdma_descq_credit_ctxt_struct : CStruct qdma_descq_credit_ctxt := {|
  cs_layout := cr_layout;
  cs_fields t :=
    [cr_credit t];
  cs_of l :=
    mk_cr (word l 0) |}.

#[export] Instance qdma_descq_prefetch_ctxt_struct : CStruct qdma_descq_prefetch_ctxt := {|
  cs_layout := pfetch_layout;
  cs_fields t :=
    [pf_sw_crdt t; pf_bypass t; pf_bufsz_idx t; pf_port_id t; pf_var_desc t; pf_num_pftch t;
    pf_err t; pf_pfch_en t; pf_pfch t; pf_valid t];
  cs_of l :=
    mk_pf (word l 0) (word l 1) (word l 2) (word l 3) (word l 4) (word l 5) (word l 6)
    (word l 7) (word l 8) (word l 9) |}.

#[export] Instance qdma_descq_cmpt_ctxt_struct : CStruct qdma_descq_cmpt_ctxt := {|
  cs_layout := cmpt_layout;
  cs_fields t :=
    [cmpt_bs_addr t; cmpt_vec t; cmpt_pidx t; cmpt_cidx t; cmpt_en_stat_desc t; cmpt_en_int t;
    cmpt_trig_mode t; cmpt_fnc_id t; cmpt_counter_idx t; cmpt_timer_idx t; cmpt_in_st t;
    cmpt_color t; cmpt_ringsz_idx t; cmpt_desc_sz t; cmpt_valid t; cmpt_err t;
    cmpt_user_trig_pend t; cmpt_timer_running t; cmpt_full_upd t; cmpt_ovf_chk_dis t; cmpt_at t;
    cmpt_int_aggr t; cmpt_dis_intr_on_vf t; cmpt_vio t; cmpt_dir_c2h t; cmpt_host_id t;
    cmpt_pasid t; cmpt_pasid_en t; cmpt_vio_eop t; cmpt_sh_cmpt t];
  cs_of l :=
    mk_cmpt (word l 0) (word l 1) (word l 2) (word l 3) (word l 4) (word l 5) (word l 6)
    (word l 7) (word l 8) (word l 9) (word l 10) (word l 11) (word l 12) (word l 13) (word l 14)
    (word l 15) (word l 16) (word l 17) (word l 18) (word l 19) (word l 20) (word l 21)
    (word l 22) (word l 23) (word l 24) (word l 25) (word l 26) (word l 27) (word l 28)
    (word l 29) |}.

#[export] Instance qdma_indirect_intr_ctxt_struct : CStruct qdma_indirect_intr_ctxt := {|
  cs_layout := intr_layout;
  cs_fields t :=
    [intr_baddr_4k t; intr_vec t; intr_pidx t; intr_valid t; intr_int_st t; intr_color t;
    intr_page_size t; intr_at t; intr_host_id t; intr_pasid t; intr_pasid_en t; intr_func_id t];
  cs_of l :=
    mk_intr (word l 0) (word l 1) (word l 2) (word l 3) (word l 4) (word l 5) (word l 6)
    (word l 7) (word l 8) (word l 9) (word l 10) (word l 11) |}.

(** [struct mbox_descq_conf] *)
Record mbox_descq_conf := mk_conf {
  c_ring_bs_addr : Z; c_cmpt_ring_bs_addr : Z;
  c_forced_en : Z; c_en_bypass : Z; c_irq_arm : Z; c_wbi_intvl_en : Z; c_wbi_chk : Z;
  c_at : Z; c_wbk_en : Z; c_irq_en : Z; c_pfch_en : Z; c_en_bypass_prefetch : Z;
  c_dis_overflow_check : Z; c_cmpt_int_en : Z; c_cmpt_at : Z; c_cmpt_color : Z;
  c_cmpt_full_upd : Z; c_cmpl_stat_en : Z; c_desc_sz : Z; c_cmpt_desc_sz : Z;
  c_triggermode : Z; c_rsvd : Z;
  c_func_id : Z; c_cnt_thres : Z; c_timer_thres : Z;
  c_intr_id : Z; c_intr_aggr : Z; c_filler : Z;
  c_ringsz : Z; c_bufsz : Z; c_cmpt_ringsz : Z;
}.

(** Bit fields are allocated from the low end of their unit. *)
Fixpoint pack (ws vs : list Z) : Z :=
  match ws, vs with
  | w :: ws, v :: vs => v mod 2 ^ w + 2 ^ w * pack ws vs
  | _, _ => 0
  end.
Fixpoint unpack (ws : list Z) (z : Z) : list Z :=
  match ws with
  | [] => []
  | w :: ws => z mod 2 ^ w :: unpack ws (z / 2 ^ w)
  end.

Definition conf_flag_widths : list Z := replicate 16 1 ++ [2; 2; 3; 9].
Definition conf_func_widths : list Z := [16; 8; 8].
Definition conf_intr_widths : list Z := [11; 1; 4].

Definition conf_layout : list field :=
  [(0, 8); (8, 8); (16, 4); (20, 4); (24, 2); (26, 2); (28, 2); (30, 2)]%nat.

#[export] Instance mbox_descq_conf_struct : CStruct mbox_descq_conf := {|
  cs_layout := conf_layout;
  cs_fields c :=
    [c_ring_bs_addr c; c_cmpt_ring_bs_addr c;
     pack conf_flag_widths
       [c_forced_en c; c_en_bypass c; c_irq_arm c; c_wbi_intvl_en c; c_wbi_chk c; c_at c;
        c_wbk_en c; c_irq_en c; c_pfch_en c; c_en_bypass_prefetch c; c_dis_overflow_check c;
        c_cmpt_int_en c; c_cmpt_at c; c_cmpt_color c; c_cmpt_full_upd c; c_cmpl_stat_en c;
        c_desc_sz c; c_cmpt_desc_sz c; c_triggermode c; c_rsvd c];
     pack conf_func_widths [c_func_id c; c_cnt_thres c; c_timer_thres c];
     pack conf_intr_widths [c_intr_id c; c_intr_aggr c; c_filler c];
     c_ringsz c; c_bufsz c; c_cmpt_ringsz c];
  cs_of l :=
    let a := unpack conf_flag_widths (word l 2) in
    let f := unpack conf_func_widths (word l 3) in
    let i := unpack conf_intr_widths (word l 4) in
    mk_conf (word l 0) (word l 1)
      (word a 0) (word a 1) (word a 2) (word a 3) (word a 4) (word a 5) (word a 6) (word a 7)
      (word a 8) (word a 9) (word a 10) (word a 11) (word a 12) (word a 13) (word a 14) (word a
      15) (word a 16) (word a 17) (word a 18) (word a 19)
      (word f 0) (word f 1) (word f 2) (word i 0) (word i 1) (word i 2)
      (word l 5) (word l 6) (word l 7) |}.

(** The memory image of a structure, as [memcpy] takes it (padding is zero). *)
Definition image {T : Type} `{CStruct T} (size : nat) (t : T) : option (list Z) :=
  '(_, b) ← wr_as 0 t (replicate size 0); Some b.

(** [struct mbox_msg_intr_ctxt] with its arrays of one element. *)
Record mbox_msg_intr_ctxt := mk_mictxt {
  mi_num_rings : Z; mi_ring_index : Z; mi_ictxt : qdma_indirect_intr_ctxt;
}.
#[export] Instance mbox_msg_intr_ctxt_struct : CStruct mbox_msg_intr_ctxt := {|
  cs_layout := (0, 1)%nat :: (4, 4)%nat :: (at_ 8 <$> intr_layout);
  cs_fields t := mi_num_rings t :: mi_ring_index t :: cs_fields (mi_ictxt t);
  cs_of l := mk_mictxt (word l 0) (word l 1) (cs_of (drop 2 l)) |}.

(** ** Reading and writing members *)

Definition disjoint_fields (f g : field) : Prop := (f.1 + f.2 ≤ g.1 ∨ g.1 + g.2 ≤ f.1)%nat.

Lemma inside_true off n b : inside off n b = true ↔ (off + n ≤ length b)%nat.
Proof. unfold inside. apply Nat.leb_le. Qed.

Lemma length_le_bytes n v : length (le_bytes n v) = n.
Proof.
  unfold le_bytes. pose proof (length_Z_to_little_endian (Z.of_nat n) 8 v). lia.
Qed.

Lemma length_put_bytes off l b :
  (off + length l ≤ length b)%nat → length (put_bytes off l b) = length b.
Proof.
  intros Hl. unfold put_bytes. rewrite !length_app, length_take, length_drop. lia.
Qed.

Lemma lookup_put_bytes off l b i :
  (off + length l ≤ length b)%nat →
  put_bytes off l b !! i =
    if decide (off ≤ i < off + length l)%nat then l !! (i - off)%nat else b !! i.
Proof.
  intros Hl. unfold put_bytes. case_decide as Hi.
  - rewrite lookup_app_r, length_take, Nat.min_l by (rewrite ?length_take; lia).
    by rewrite lookup_app_l by lia.
  - destruct (decide (i < off)%nat).
    + rewrite lookup_app_l by (rewrite length_take; lia). by rewrite lookup_take_lt by lia.
    + rewrite lookup_app_r, length_take, Nat.min_l by (rewrite ?length_take; lia).
      rewrite lookup_app_r, lookup_drop by lia. f_equal. lia.
Qed.

Lemma lookup_get_bytes off n b i :
  get_bytes off n b !! i = if decide (i < n)%nat then b !! (off + i)%nat else None.
Proof.
  unfold get_bytes. case_decide; [by rewrite lookup_take_lt, lookup_drop|].
  apply lookup_take_ge. lia.
Qed.

Lemma length_get_bytes off n b : (off + n ≤ length b)%nat → length (get_bytes off n b) = n.
Proof. intros Hl. unfold get_bytes. rewrite length_take, length_drop. lia. Qed.

Lemma get_put_bytes_same off l b n :
  n = length l → (off + n ≤ length b)%nat → get_bytes off n (put_bytes off l b) = l.
Proof.
  intros -> Hl. apply list_eq. intros i. rewrite lookup_get_bytes. case_decide as Hi.
  - rewrite lookup_put_bytes by done. rewrite decide_True by lia. f_equal. lia.
  - symmetry. apply lookup_ge_None. lia.
Qed.

Lemma get_put_bytes_other off l b off' n :
  (off + length l ≤ length b)%nat → (off + length l ≤ off' ∨ off' + n ≤ off)%nat →
  get_bytes off' n (put_bytes off l b) = get_bytes off' n b.
Proof.
  intros Hl Hd. apply list_eq. intros i. rewrite !lookup_get_bytes. case_decide; [|done].
  rewrite lookup_put_bytes by done. by rewrite decide_False by lia.
Qed.

Section members.
Context (f : field) (v : Z) (b : buf) (Hf : (f.1 + f.2 ≤ length b)%nat).

Lemma length_put : length (put f v b) = length b.
Proof using Hf. apply length_put_bytes. by rewrite length_le_bytes. Qed.

Lemma get_put_same : get f (put f v b) = v mod 2 ^ (8 * Z.of_nat f.2).
Proof using Hf.
  unfold get, put. rewrite get_put_bytes_same by (rewrite ?length_le_bytes; done).
  unfold le_bytes. rewrite little_endian_to_Z_to_little_endian by lia.
  f_equal. f_equal. lia.
Qed.

Lemma get_put_other g : disjoint_fields f g → get g (put f v b) = get g b.
Proof using Hf.
  intros Hd. unfold get, put. rewrite get_put_bytes_other; [done|..];
    rewrite length_le_bytes; [done|]. unfold disjoint_fields in Hd. lia.
Qed.

Lemma wr_eq : wr f v b = Some (tt, put f v b).
Proof using Hf. unfold wr. by rewrite (proj2 (inside_true _ _ _) Hf). Qed.

Lemma rd_eq : rd f b = Some (get f b, b).
Proof using Hf. unfold rd. by rewrite (proj2 (inside_true _ _ _) Hf). Qed.
End members.

(** Decides that a member lies inside a buffer it was put into. *)
Ltac in_buffer := rewrite ?length_put by in_buffer; cbn; lia.
(** Evaluates reads of members of a buffer after writes. *)
Ltac mem_simpl :=
  repeat first
    [ rewrite get_put_same by in_buffer
    | rewrite get_put_other by first [in_buffer | unfold disjoint_fields; cbn; lia] ].

(** *** Bit fields *)

Lemma get_set_bits_same lo w v z :
  0 <= lo → 0 <= w → get_bits lo w (set_bits lo w v z) = v mod 2 ^ w.
Proof.
  intros Hlo Hw. unfold get_bits, set_bits. rewrite <- Z.land_ones by done.
  apply Z.bits_inj'. intros i Hi.
  rewrite !Z.land_spec, Z.shiftr_spec, Z.lor_spec, Z.ldiff_spec, !Z.shiftl_spec, Z.land_spec
    by lia. rewrite !Z.testbit_ones_nonneg by lia.
  destruct (i + lo - lo <? w) eqn:E; replace (i + lo - lo) with i in * by lia; rewrite E;
    by rewrite ?andb_false_r, ?andb_true_r.
Qed.

Lemma get_set_bits_other lo w v z lo' w' :
  0 <= lo → 0 <= w → 0 <= lo' → 0 <= w' → lo + w <= lo' ∨ lo' + w' <= lo →
  get_bits lo' w' (set_bits lo w v z) = get_bits lo' w' z.
Proof.
  intros ???? Hd. unfold get_bits, set_bits. apply Z.bits_inj'. intros i Hi.
  rewrite !Z.land_spec, !Z.shiftr_spec, Z.lor_spec, Z.ldiff_spec, !Z.shiftl_spec, Z.land_spec
    by lia. rewrite !Z.testbit_ones by lia.
  destruct (0 <=? i + lo' - lo) eqn:E1, (i + lo' - lo <? w) eqn:E2, (0 <=? i) eqn:E3,
    (i <? w') eqn:E4; try lia; cbn; rewrite ?andb_false_r, ?andb_true_r, ?orb_false_r; done.
Qed.

(** *** Structures *)

Lemma unpack_pack ws vs :
  Forall (λ w, 0 <= w) ws → length vs = length ws →
  unpack ws (pack ws vs) = zip_with (λ w v, v mod 2 ^ w) ws vs.
Proof.
  intros Hws. revert vs. induction Hws as [|w ws Hw Hws IH]; intros [|v vs] [=]; [done|].
  cbn [pack unpack zip_with]. assert (0 < 2 ^ w) by (apply Z.pow_pos_nonneg; lia).
  f_equal.
  - rewrite Z.mul_comm, Z.mod_add by lia. by rewrite Z.mod_mod by lia.
  - rewrite Z.mul_comm, Z.div_add by lia. rewrite Z.div_small by (by apply Z.mod_pos_bound).
    by apply IH.
Qed.

Lemma pack_bound ws vs :
  Forall (λ w, 0 <= w) ws → 0 <= pack ws vs < 2 ^ foldr Z.add 0 ws.
Proof.
  intros Hws. revert vs. induction Hws as [|w ws Hw Hws IH]; intros [|v vs]; cbn [pack foldr].
  1-2: done.
  - split; [lia|]. apply Z.pow_pos_nonneg; [lia|]. clear IH. induction Hws; cbn; lia.
  - assert (0 < 2 ^ w) by (apply Z.pow_pos_nonneg; lia).
    assert (0 <= foldr Z.add 0 ws) by (clear IH; induction Hws; cbn; lia).
    rewrite Z.pow_add_r by lia. pose proof (IH vs). pose proof (Z.mod_pos_bound v (2 ^ w)). nia.
Qed.

(** What a member of the given size keeps of a value. *)
Definition trunc (f : field) (v : Z) : Z := v mod 2 ^ (8 * Z.of_nat f.2).

Fixpoint put_struct (base : nat) (layout : list field) (vs : list Z) (b : buf) : buf :=
  match layout, vs with
  | f :: layout, v :: vs => put_struct base layout vs (put (at_ base f) v b)
  | _, _ => b
  end.

(** The members of a structure lie inside [size] bytes and do not overlap. *)
Definition layout_ok (size : nat) (layout : list field) : Prop :=
  Forall (λ f, (f.1 + f.2 ≤ size)%nat) layout ∧ ForallOrdPairs disjoint_fields layout.

Lemma wr_struct_eq base layout vs b size :
  Forall (λ f : field, (f.1 + f.2 ≤ size)%nat) layout → (base + size ≤ length b)%nat →
  wr_struct base layout vs b = Some (tt, put_struct base layout vs b) ∧
  length (put_struct base layout vs b) = length b.
Proof.
  intros Hl. revert vs b. induction Hl as [|f layout Hf Hl IH]; intros [|v vs] b Hb;
    [done..|]. cbn [wr_struct put_struct]. unfold mbind, bm_bind.
  assert (Hf' : ((at_ base f).1 + (at_ base f).2 ≤ length b)%nat) by (cbn; lia).
  rewrite wr_eq by done. destruct (IH vs (put (at_ base f) v b)) as [E1 E2].
  { by rewrite length_put. }
  rewrite E1, E2. by rewrite length_put.
Qed.

Lemma get_put_struct_other base layout vs b size g :
  Forall (λ f : field, (f.1 + f.2 ≤ size)%nat) layout → (base + size ≤ length b)%nat →
  Forall (λ f, disjoint_fields (at_ base f) g) layout →
  get g (put_struct base layout vs b) = get g b.
Proof.
  intros Hl. revert vs b. induction Hl as [|f layout Hf Hl IH]; intros [|v vs] b Hb Hd;
    [done..|]. inversion_clear Hd as [|?? Hd1 Hd2]. cbn [put_struct].
  assert (Hf' : ((at_ base f).1 + (at_ base f).2 ≤ length b)%nat) by (cbn; lia).
  rewrite IH; [by apply get_put_other|by rewrite length_put|done].
Qed.

Lemma disjoint_at base f g : disjoint_fields f g → disjoint_fields (at_ base f) (at_ base g).
Proof. unfold disjoint_fields. cbn. lia. Qed.

Lemma rd_put_struct base layout vs b size :
  layout_ok size layout → (base + size ≤ length b)%nat → length vs = length layout →
  rd_struct base layout (put_struct base layout vs b) =
    Some (zip_with trunc layout vs, put_struct base layout vs b).
Proof.
  intros [Hl Hd]. revert vs b. induction Hd as [|f layout Hf Hd IH]; intros [|v vs] b Hb [=];
    [done|]. inversion_clear Hl as [|?? Hf1 Hl1].
  cbn [put_struct rd_struct zip_with]. unfold mbind, bm_bind, mret, bm_ret.
  assert (Hf' : ((at_ base f).1 + (at_ base f).2 ≤ length b)%nat) by (cbn; lia).
  assert (Hb' : (base + size ≤ length (put (at_ base f) v b))%nat) by (by rewrite length_put).
  destruct (wr_struct_eq base layout vs _ size Hl1 Hb') as [_ Hlen].
  rewrite rd_eq by (rewrite Hlen, length_put; done).
  rewrite IH by done. rewrite (get_put_struct_other _ _ _ _ size); [|done..|].
  - rewrite get_put_same by done. done.
  - eapply Forall_impl; [exact Hf|]. intros g Hg. apply disjoint_at.
    unfold disjoint_fields in *. lia.
Qed.

(** Reading a structure is reading its members. *)
Lemma rd_struct_eq base layout b size :
  Forall (λ f : field, (f.1 + f.2 ≤ size)%nat) layout → (base + size ≤ length b)%nat →
  rd_struct base layout b = Some ((λ f, get (at_ base f) b) <$> layout, b).
Proof.
  intros Hl Hb. induction Hl as [|f layout Hf Hl IH]; [done|]. cbn [rd_struct].
  unfold mbind, bm_bind, mret, bm_ret. rewrite rd_eq by (cbn; lia). by rewrite IH.
Qed.

Lemma get_put_bytes_at off l b f :
  (off + length l ≤ length b)%nat → (f.1 + f.2 ≤ length l)%nat →
  get (at_ off f) (put_bytes off l b) = get f l.
Proof.
  intros Hl Hf. unfold get. f_equal. apply list_eq. intros i. rewrite !lookup_get_bytes.
  cbn [at_ fst snd]. case_decide; [|done]. rewrite lookup_put_bytes by done.
  rewrite decide_True by lia. f_equal. lia.
Qed.

Lemma get_put_bytes_field off l b f :
  (off + length l ≤ length b)%nat → disjoint_fields (off, length l) f →
  get f (put_bytes off l b) = get f b.
Proof.
  intros Hl Hd. unfold get. f_equal. apply get_put_bytes_other; [done|].
  unfold disjoint_fields in Hd. cbn in Hd. lia.
Qed.

(** A structure whose members fit their sizes survives being written. *)
Class CStructOk (T : Type) `{CStruct T} (size : nat) (ok : T → Prop) := {
  cs_layout_ok : layout_ok size cs_layout;
  cs_length t : length (cs_fields t) = length cs_layout;
  cs_of_fields t : ok t → cs_of (zip_with trunc cs_layout (cs_fields t)) = t;
}.

Section cstruct.
Context {T : Type} `{CS : CStruct T} (size : nat) (ok : T → Prop) `{CSO : !CStructOk T size ok}.

Lemma wr_as_rd_as base (t : T) b :
  ok t → (base + size ≤ length b)%nat →
  ∃ b', wr_as base t b = Some (tt, b') ∧ length b' = length b ∧
    rd_as T base b' = Some (t, b') ∧
    (∀ g, Forall (λ f, disjoint_fields (at_ base f) g) cs_layout → get g b' = get g b).
Proof using CS CSO.
  intros Ht Hb. destruct (cs_layout_ok (T := T)) as [Hl Hd].
  destruct (wr_struct_eq base cs_layout (cs_fields t) b size Hl Hb) as [E1 L1].
  exists (put_struct base cs_layout (cs_fields t) b). split_and!; [done..| |].
  - unfold rd_as, mbind, bm_bind. rewrite (rd_put_struct _ _ _ _ size) by (done || apply cs_length).
    unfold mret, bm_ret. by rewrite cs_of_fields.
  - intros g Hg. by apply (get_put_struct_other _ _ _ _ size).
Qed.

Lemma image_eq t :
  image size t = Some (put_struct 0 cs_layout (cs_fields t) (replicate size 0)) ∧
  length (put_struct 0 cs_layout (cs_fields t) (replicate size 0)) = size.
Proof using CS CSO.
  destruct cs_layout_ok as [Hl _].
  destruct (wr_struct_eq 0 cs_layout (cs_fields t) (replicate size 0) size Hl) as [E L].
  { by rewrite length_replicate. }
  unfold image, wr_as. rewrite E, L. by rewrite length_replicate.
Qed.

Lemma image_length t img : image size t = Some img → length img = size.
Proof using CS CSO. destruct (image_eq t) as [-> L]. by intros [= <-]. Qed.

(** Copying the image of a structure into a buffer is writing the structure. *)
Lemma rd_as_image base (t : T) img b :
  ok t → image size t = Some img → (base + size ≤ length b)%nat →
  rd_as T base (put_bytes base img b) = Some (t, put_bytes base img b).
Proof using CS CSO.
  intros Ht Hi Hb. destruct (image_eq t) as [E L]. rewrite Hi in E. injection E as ->.
  set (img := put_struct 0 cs_layout (cs_fields t) (replicate size 0)) in *.
  destruct (cs_layout_ok (T := T)) as [Hl Hd].
  unfold rd_as, mbind, bm_bind. rewrite (rd_struct_eq _ _ _ size); [|done|].
  2: { rewrite length_put_bytes; [done|]. lia. }
  unfold mret, bm_ret. do 2 f_equal. rewrite <- (cs_of_fields t Ht). f_equal.
  assert (Hr : rd_struct 0 cs_layout img = Some (zip_with trunc cs_layout (cs_fields t), img)).
  { apply (rd_put_struct 0 _ _ _ size); [done| |apply cs_length]. by rewrite length_replicate. }
  rewrite (rd_struct_eq 0 _ _ size) in Hr by (done || lia). injection Hr as <-.
  apply list_fmap_ext. intros i f Hf. rewrite get_put_bytes_at; [by destruct f|lia|].
  rewrite L. apply (Forall_lookup_1 _ _ _ _ Hl Hf).
Qed.
End cstruct.

(** *** The queue configuration *)

(** The members fit their bit fields. *)
Record conf_ok (c : mbox_descq_conf) : Prop := {
  co_addr : is_u 64 (c_ring_bs_addr c); co_cmpt_addr : is_u 64 (c_cmpt_ring_bs_addr c);
  co_bits : Forall (is_u 1) [c_forced_en c; c_en_bypass c; c_irq_arm c; c_wbi_intvl_en c;
    c_wbi_chk c; c_at c; c_wbk_en c; c_irq_en c; c_pfch_en c; c_en_bypass_prefetch c;
    c_dis_overflow_check c; c_cmpt_int_en c; c_cmpt_at c; c_cmpt_color c; c_cmpt_full_upd c;
    c_cmpl_stat_en c; c_intr_aggr c];
  co_desc_sz : is_u 2 (c_desc_sz c); co_cmpt_desc_sz : is_u 2 (c_cmpt_desc_sz c);
  co_trig : is_u 3 (c_triggermode c); co_rsvd : is_u 9 (c_rsvd c);
  co_func : is_u 16 (c_func_id c); co_cnt : is_u 8 (c_cnt_thres c);
  co_timer : is_u 8 (c_timer_thres c); co_intr : is_u 11 (c_intr_id c);
  co_filler : is_u 4 (c_filler c); co_ringsz : is_u 16 (c_ringsz c);
  co_bufsz : is_u 16 (c_bufsz c); co_cmpt_ringsz : is_u 16 (c_cmpt_ringsz c);
}.

Lemma trunc_small f v : is_u (8 * Z.of_nat f.2) v → trunc f v = v.
Proof. intros Hv. unfold trunc. by apply Z.mod_small. Qed.

Lemma pack_u w ws vs : foldr Z.add 0 ws = w → Forall (λ w, 0 <= w) ws → is_u w (pack ws vs).
Proof. intros <- Hws. by apply pack_bound. Qed.

#[export] Instance mbox_descq_conf_ok : CStructOk mbox_descq_conf 32 conf_ok.
Proof.
  split.
  - split; repeat constructor; unfold disjoint_fields; cbn; lia.
  - done.
  - intros [] []. cbn -[pack unpack trunc] in *.
    repeat match goal with H : Forall _ (_ :: _) |- _ => inversion_clear H end.
    rewrite !trunc_small; try (apply pack_u; [reflexivity|repeat constructor; lia]);
      try (unfold is_u in *; cbn; lia).
    rewrite !unpack_pack by first [done | repeat constructor; lia].
    cbn. f_equal; apply Z.mod_small; unfold is_u in *; lia.
Qed.
