(* ===== verification/MboxCompose.v ===== *)
(** * Composing and decoding mailbox messages (qdma_mbox_protocol.c)

    The functions that fill a message buffer for a request and the functions
    that take a response apart.  [raw_data] is [None] for a NULL pointer;
    otherwise the buffer is returned next to the return value.  The result is
    [None] when the code accesses memory outside the buffer. *)

From S2P Require Import Prelude Platform CtxtTypes ResMgmt SoftAccess MboxMsg MboxStruct.

(** The check of [raw_data] all composing functions start with. *)
Definition with_raw (raw_data : option buf) (m : bm Z) : option (Z * option buf) :=
  match raw_data with
  | None => Some (ERR QDMA_ERR_INV_PARAM, None)
  | Some b => '(rv, b) ← m b; Some (rv, Some b)
  end.

(** The lines all of them share: zero the union, set opcode and sender. *)
Definition begin_msg (op : mbox_msg_op) (func_id : Z) : bm () :=
  qdma_mbox_memset 0 0 sizeof_qdma_mbox_txrx;;
  wr hdr_op (msg_op_val op);;
  wr hdr_src_func_id func_id.

(** ** Requests of a virtual function *)

Definition qmda_mbox_compose_vf_online (func_id qmax qbase : Z) (raw_data : option buf) :=
  with_raw raw_data
    (begin_msg MBOX_OP_HELLO func_id;;
     wr fm_qbase (u32 qbase);; wr fm_qmax qmax;; mret QDMA_SUCCESS).

Definition qdma_mbox_compose_vf_offline (func_id : Z) (raw_data : option buf) :=
  with_raw raw_data (begin_msg MBOX_OP_VF_BYE func_id;; mret QDMA_SUCCESS).

Definition qdma_mbox_compose_vf_reset_offline (func_id : Z) (raw_data : option buf) :=
  with_raw raw_data (begin_msg MBOX_OP_PF_RESET_VF_BYE func_id;; mret QDMA_SUCCESS).

Definition qdma_mbox_compose_vf_qreq (func_id qmax qbase : Z) (raw_data : option buf) :=
  with_raw raw_data
    (begin_msg MBOX_OP_QREQ func_id;;
     wr fm_qbase qbase;; wr fm_qmax qmax;; mret QDMA_SUCCESS).

(** [enum qdma_dev_q_type] as it is stored. *)
Definition q_type_val (t : qdma_dev_q_type) : Z :=
  match t with
  | QDMA_DEV_Q_TYPE_H2C => 0
  | QDMA_DEV_Q_TYPE_C2H => 1
  | QDMA_DEV_Q_TYPE_CMPT => 2
  | QDMA_DEV_Q_TYPE_MAX => 3
  end.
(** Every value that is no queue type selects no counter, like [..._MAX]. *)
Definition q_type_of (v : Z) : qdma_dev_q_type :=
  if v =? 0 then QDMA_DEV_Q_TYPE_H2C
  else if v =? 1 then QDMA_DEV_Q_TYPE_C2H
  else if v =? 2 then QDMA_DEV_Q_TYPE_CMPT
  else QDMA_DEV_Q_TYPE_MAX.

Definition qdma_mbox_compose_vf_notify_qadd (func_id qid_hw : Z) (q_type : qdma_dev_q_type)
    (raw_data : option buf) :=
  with_raw raw_data
    (begin_msg MBOX_OP_QNOTIFY_ADD func_id;;
     wr q_notify_qid_hw qid_hw;; wr q_notify_q_type (q_type_val q_type);; mret QDMA_SUCCESS).

Definition qdma_mbox_compose_vf_get_device_active_qcnt (func_id : Z) (raw_data : option buf) :=
  with_raw raw_data (begin_msg MBOX_OP_GET_QACTIVE_CNT func_id;; mret QDMA_SUCCESS).

Definition qdma_mbox_compose_vf_notify_qdel (func_id qid_hw : Z) (q_type : qdma_dev_q_type)
    (raw_data : option buf) :=
  with_raw raw_data
    (begin_msg MBOX_OP_QNOTIFY_DEL func_id;;
     wr q_notify_qid_hw qid_hw;; wr q_notify_q_type (q_type_val q_type);; mret QDMA_SUCCESS).

Definition qdma_mbox_compose_vf_fmap_prog (func_id qmax qbase : Z) (raw_data : option buf) :=
  with_raw raw_data
    (begin_msg MBOX_OP_FMAP func_id;;
     wr fm_qbase (u32 qbase);; wr fm_qmax qmax;; mret QDMA_SUCCESS).

(** [enum mbox_cmpt_ctxt_type] *)
Inductive mbox_cmpt_ctxt_type :=
  QDMA_MBOX_CMPT_CTXT_ONLY | QDMA_MBOX_CMPT_WITH_MM | QDMA_MBOX_CMPT_WITH_ST |
  QDMA_MBOX_CMPT_CTXT_NONE.
#[export] Instance mbox_cmpt_ctxt_type_eq_dec : EqDecision mbox_cmpt_ctxt_type.
Proof. solve_decision. Defined.

Definition cmpt_type_val (t : mbox_cmpt_ctxt_type) : Z :=
  match t with
  | QDMA_MBOX_CMPT_CTXT_ONLY => 0
  | QDMA_MBOX_CMPT_WITH_MM => 1
  | QDMA_MBOX_CMPT_WITH_ST => 2
  | QDMA_MBOX_CMPT_CTXT_NONE => 3
  end.
(** A two-bit field has no other values. *)
Definition cmpt_type_of (v : Z) : mbox_cmpt_ctxt_type :=
  if v =? 0 then QDMA_MBOX_CMPT_CTXT_ONLY
  else if v =? 1 then QDMA_MBOX_CMPT_WITH_MM
  else if v =? 2 then QDMA_MBOX_CMPT_WITH_ST
  else QDMA_MBOX_CMPT_CTXT_NONE.

(** The members before the union of [struct mbox_msg_qctxt]. *)
Definition set_qctxt (qid_hw st c2h : Z) (cmpt_ctxt_type : mbox_cmpt_ctxt_type) : bm () :=
  wr qctxt_qid_hw qid_hw;;
  wr_bits qctxt_flags 1 1 c2h;;
  wr_bits qctxt_flags 0 1 st;;
  wr_bits qctxt_flags 2 2 (cmpt_type_val cmpt_ctxt_type).

Definition qdma_mbox_compose_vf_qctxt_write (func_id qid_hw st c2h : Z)
    (cmpt_ctxt_type : mbox_cmpt_ctxt_type) (descq_conf : list Z) (raw_data : option buf) :=
  with_raw raw_data
    (begin_msg MBOX_OP_QCTXT_WRT func_id;;
     set_qctxt qid_hw st c2h cmpt_ctxt_type;;
     qdma_mbox_memcpy_to qctxt_descq_conf descq_conf;; mret QDMA_SUCCESS).

Definition qdma_mbox_compose_vf_qctxt_read (func_id qid_hw st c2h : Z)
    (cmpt_ctxt_type : mbox_cmpt_ctxt_type) (raw_data : option buf) :=
  with_raw raw_data
    (begin_msg MBOX_OP_QCTXT_RD func_id;;
     set_qctxt qid_hw st c2h cmpt_ctxt_type;; mret QDMA_SUCCESS).

Definition qdma_mbox_compose_vf_qctxt_invalidate (func_id qid_hw st c2h : Z)
    (cmpt_ctxt_type : mbox_cmpt_ctxt_type) (raw_data : option buf) :=
  with_raw raw_data
    (begin_msg MBOX_OP_QCTXT_INV func_id;;
     set_qctxt qid_hw st c2h cmpt_ctxt_type;; mret QDMA_SUCCESS).

Definition qdma_mbox_compose_vf_qctxt_clear (func_id qid_hw st c2h : Z)
    (cmpt_ctxt_type : mbox_cmpt_ctxt_type) (raw_data : option buf) :=
  with_raw raw_data
    (begin_msg MBOX_OP_QCTXT_CLR func_id;;
     set_qctxt qid_hw st c2h cmpt_ctxt_type;; mret QDMA_SUCCESS).

Definition qdma_mbox_compose_csr_read (func_id : Z) (raw_data : option buf) :=
  with_raw raw_data (begin_msg MBOX_OP_CSR func_id;; mret QDMA_SUCCESS).

Definition qdma_mbox_compose_reg_read (func_id group_num : Z) (raw_data : option buf) :=
  with_raw raw_data
    (begin_msg MBOX_OP_REG_LIST_READ func_id;; wr reg_group_num group_num;; mret QDMA_SUCCESS).

(** [intr_ctxt] is the memory image of the caller's structure. *)
Definition compose_intr (op : mbox_msg_op) (func_id : Z) (intr_ctxt : list Z)
    (raw_data : option buf) :=
  with_raw raw_data
    (begin_msg op func_id;; qdma_mbox_memcpy_to intr_ctxt_ctxt intr_ctxt;; mret QDMA_SUCCESS).
Definition qdma_mbox_compose_vf_intr_ctxt_write := compose_intr MBOX_OP_INTR_CTXT_WRT.
Definition qdma_mbox_compose_vf_intr_ctxt_read := compose_intr MBOX_OP_INTR_CTXT_RD.
Definition qdma_mbox_compose_vf_intr_ctxt_clear := compose_intr MBOX_OP_INTR_CTXT_CLR.
Definition qdma_mbox_compose_vf_intr_ctxt_invalidate := compose_intr MBOX_OP_INTR_CTXT_INV.

(** ** Messages of the physical function *)

Definition compose_pf (op : mbox_msg_op) (src_funcid dest_funcid : Z) (raw_data : option buf) :=
  with_raw raw_data
    (begin_msg op src_funcid;; wr hdr_dst_func_id dest_funcid;; mret 0).
Definition qdma_mbox_compose_vf_reset_message := compose_pf MBOX_OP_RESET_PREPARE.
Definition qdma_mbox_compose_pf_reset_done_message := compose_pf MBOX_OP_RESET_DONE.
Definition qdma_mbox_compose_pf_offline := compose_pf MBOX_OP_PF_BYE.

(** ** Decoding *)

(** [char] is signed. *)
Definition rd_status : bm Z := v ← rd hdr_status; mret (s8 v).

Definition qdma_mbox_is_msg_response (send_data rcv_data : buf) : option bool :=
  '(tx, _) ← rd hdr_op send_data; '(rx, _) ← rd hdr_op rcv_data;
  Some (tx + MBOX_MSG_OP_RSP_OFFSET =? rx).

Definition qdma_mbox_vf_response_status : bm Z := rd_status.

(** The [uint16_t] id is returned as a [uint8_t]. *)
Definition qdma_mbox_vf_func_id_get (is_vf : bool) : bm Z :=
  func_id ← (if is_vf then rd hdr_dst_func_id else rd hdr_src_func_id); mret (u8 func_id).

Definition qdma_mbox_vf_active_queues_get (q_type : qdma_dev_q_type) : bm Z :=
  match q_type with
  | QDMA_DEV_Q_TYPE_H2C => v ← rd qcnt_h2c_queues; mret (s32 v)
  | QDMA_DEV_Q_TYPE_C2H => v ← rd qcnt_c2h_queues; mret (s32 v)
  | QDMA_DEV_Q_TYPE_CMPT => v ← rd qcnt_cmpt_queues; mret (s32 v)
  | QDMA_DEV_Q_TYPE_MAX => mret 0
  end.

Definition qdma_mbox_vf_parent_func_id_get : bm Z := v ← rd hdr_src_func_id; mret (u8 v).

(** [struct qdma_dev_attributes] *)
Definition attr_flag_widths : list Z := [1; 1; 1; 1; 1; 1; 2].
Definition attr_feature_widths : list Z := replicate 8 1.
#[export] Instance qdma_dev_attributes_struct : CStruct qdma_dev_attributes := {|
  cs_layout := [(0, 1); (2, 2); (4, 1); (5, 1); (6, 1)]%nat;
  cs_fields a :=
    [num_pfs a; num_qs a;
     pack attr_flag_widths [flr_present a; st_en a; mm_en a; mm_cmpt_en a; mailbox_en a;
                            debug_mode a; desc_eng_mode a];
     mm_channel_max a;
     pack attr_feature_widths [qid2vec_ctx a; cmpt_ovf_chk_dis a; mailbox_intr a;
                               sw_desc_64b a; cmpt_desc_64b a; dynamic_bar a; legacy_intr a;
                               cmpt_trig_count_timer a]];
  cs_of l :=
    let x := unpack attr_flag_widths (word l 2) in
    let y := unpack attr_feature_widths (word l 4) in
    mk_attr (word l 0) (word l 1) (word x 0) (word x 1) (word x 2) (word x 3) (word x 4)
      (word x 5) (word x 6) (word l 3) (word y 0) (word y 1) (word y 2) (word y 3)
      (word y 4) (word y 5) (word y 6) (word y 7) |}.

(** Returns the return value, [*dev_cap] and [*dma_device_index]. *)
Definition qdma_mbox_vf_dev_info_get : bm (Z * qdma_dev_attributes * Z) :=
  dev_cap ← rd_as qdma_dev_attributes hello_dev_cap;
  dma_device_index ← rd hello_dma_device_index;
  status ← rd_status; mret (status, dev_cap, dma_device_index).

(** Returns the return value, [*qbase] and [*qmax] (a [uint16_t]). *)
Definition qdma_mbox_vf_qinfo_get : bm (Z * Z * Z) :=
  qbase ← rd fm_qbase; qmax ← rd fm_qmax;
  status ← rd_status; mret (status, s32 qbase, u16 qmax).

Definition qdma_mbox_vf_csr_get : bm (Z * list Z) :=
  csr ← qdma_mbox_memcpy_from csr_info sizeof_qdma_csr_info;
  status ← rd_status; mret (status, csr).

Definition qdma_mbox_vf_reg_list_get : bm (Z * Z * list Z) :=
  num_regs ← rd reg_num_regs;
  l ← qdma_mbox_memcpy_from reg_list (num_regs * 8);
  status ← rd_status; mret (status, num_regs, l).

Definition qdma_mbox_vf_context_get : bm (Z * list Z) :=
  ctxt ← qdma_mbox_memcpy_from qctxt_descq_ctxt sizeof_qdma_descq_context;
  status ← rd_status; mret (status, ctxt).

Definition qdma_mbox_vf_intr_context_get : bm (Z * list Z) :=
  ictxt ← qdma_mbox_memcpy_from intr_ctxt_ctxt sizeof_mbox_msg_intr_ctxt;
  status ← rd_status; mret (status, ictxt).
