(* ===== verification/MboxHandler.v ===== *)
(** * Message handlers (qdma_mbox_protocol.c)

    What the physical function does for a message of a virtual function, and
    the other way round.  The state holds the hardware, the resource manager
    and the two message buffers, which are distinct allocations.  A computation
    has no result when it accesses memory outside a buffer or waits for a lock
    it holds. *)

From S2P Require Import Prelude Platform RegIO CtxtTypes ResMgmt SoftAccess RegList HwAccess.
From S2P Require Import MboxMsg MboxStruct MboxCompose.

(** ** The handler's state *)

Record mbox_state (dev : Type) := mk_mst {
  ms_hw : hw_state dev; ms_rm : rm_state; ms_rcv : buf; ms_resp : buf;
}.
Arguments mk_mst {dev} _ _ _ _.
Arguments ms_hw {dev} _.
Arguments ms_rm {dev} _.
Arguments ms_rcv {dev} _.
Arguments ms_resp {dev} _.

Definition mbm (dev A : Type) : Type := mbox_state dev → option (A * mbox_state dev).
#[export] Instance mbm_ret {dev} : MRet (mbm dev) := λ A a s, Some (a, s).
#[export] Instance mbm_bind {dev} : MBind (mbm dev) := λ A B k m s,
  match m s with
  | Some (a, s) => k a s
  | None => None
  end.

Definition hwop {dev A} (m : hwm dev A) : mbm dev A := λ s,
  '(a, h) ← m (ms_hw s); Some (a, mk_mst h (ms_rm s) (ms_rcv s) (ms_resp s)).
Definition rmop {dev A} (f : rm_state → A * rm_state) : mbm dev A := λ s,
  let '(a, r) := f (ms_rm s) in Some (a, mk_mst (ms_hw s) r (ms_rcv s) (ms_resp s)).
Definition rmask {dev A} (f : rm_state → A) : mbm dev A := λ s, Some (f (ms_rm s), s).
Definition rcv {dev A} (m : bm A) : mbm dev A := λ s,
  '(a, b) ← m (ms_rcv s); Some (a, mk_mst (ms_hw s) (ms_rm s) b (ms_resp s)).
Definition resp {dev A} (m : bm A) : mbm dev A := λ s,
  '(a, b) ← m (ms_resp s); Some (a, mk_mst (ms_hw s) (ms_rm s) (ms_rcv s) b).

(** [rv = m; if (rv < 0) return rv;] *)
Notation "'CHECK' m ; k" := (m ≫= λ rv, if rv <? 0 then mret rv else k)
  (at level 100, m at next level, k at level 200, right associativity,
   format "'CHECK'  m ; '//' k") : qdma_scope.

(** ** Looking up CSR indices *)

(** The loop over the array. *)
Fixpoint find_idx (p : Z → bool) (l : list Z) (i : Z) : option Z :=
  match l with
  | [] => None
  | x :: l => if p x then Some i else find_idx p l (i + 1)
  end.

Section handlers.
Context {dev : Type} `{HwAccess dev}.

(** Reads a CSR array; the first element that satisfies [p] is the index, which
    is returned next to the return value and is 0 on error. *)
Definition csr_index (csr : qdma_global_csr_type) (p : Z → bool)
    (err : qdma_access_error_codes) : mbm dev (Z * Z) :=
  r ← hwop (ha_global_csr_conf 0 QDMA_GLOBAL_CSR_ARRAY_SZ (Some (replicate 16 0)) csr
              QDMA_HW_ACCESS_READ);
  if negb (r.1 =? 0) then mret (r.1, 0)
  else
    match find_idx p (default [] r.2) 0 with
    | Some i => mret (QDMA_SUCCESS, i)
    | None => mret (ERR err, 0)
    end.

Definition get_ring_idx (ring_sz : Z) : mbm dev (Z * Z) :=
  csr_index QDMA_CSR_RING_SZ (λ x, ring_sz =? u32 (x - 1)) QDMA_ERR_MBOX_INV_RINGSZ.
Definition get_buf_idx (buf_sz : Z) : mbm dev (Z * Z) :=
  csr_index QDMA_CSR_BUF_SZ (λ x, x =? buf_sz) QDMA_ERR_MBOX_INV_BUFSZ.
Definition get_cntr_idx (cntr_val : Z) : mbm dev (Z * Z) :=
  csr_index QDMA_CSR_CNT_TH (λ x, x =? cntr_val) QDMA_ERR_MBOX_INV_CNTR_TH.
Definition get_tmr_idx (tmr_val : Z) : mbm dev (Z * Z) :=
  csr_index QDMA_CSR_TIMER_CNT (λ x, x =? tmr_val) QDMA_ERR_MBOX_INV_TMR_TH.

(** ** Composing contexts *)

(** [struct mbox_msg_qctxt] of a context write. *)
Record mbox_msg_qctxt := mk_qctxt {
  q_qid_hw : Z; q_st : Z; q_c2h : Z; q_cmpt_ctxt_type : mbox_cmpt_ctxt_type;
  q_descq_conf : mbox_descq_conf;
}.

(** [st && c2h] *)
Definition st_c2h (st c2h : Z) : bool := nz st && nz c2h.

(** [cmpt_ctxt_type == ..._WITH_MM || cmpt_ctxt_type == ..._WITH_ST] *)
Definition with_cmpt (t : mbox_cmpt_ctxt_type) : bool :=
  bool_decide (t = QDMA_MBOX_CMPT_WITH_MM) || bool_decide (t = QDMA_MBOX_CMPT_WITH_ST).

(** The members the functions do not assign keep the zeroes of the caller's
    [memset]; [is_mm] is assigned the complement of [st]. *)
Definition sw_from_conf (qctxt : mbox_msg_qctxt) (rng_idx : Z) : qdma_descq_sw_ctxt :=
  let c := q_descq_conf qctxt in
  let off := st_c2h (q_st qctxt) (q_c2h qctxt) in
  {| sw_vec := c_intr_id c; sw_intr_aggr := c_intr_aggr c;
     sw_ring_bs_addr := c_ring_bs_addr c;
     sw_wbi_chk := if off then 0 else c_wbi_chk c;
     sw_wbi_intvl_en := c_wbi_intvl_en c; sw_rngsz_idx := u8 rng_idx;
     sw_bypass := c_en_bypass c;
     sw_wbk_en := if off then 0 else c_wbk_en c;
     sw_irq_en := if off then 0 else c_irq_en c;
     sw_is_mm := u8 (Z.lnot (q_st qctxt)); sw_mm_chn := 0; sw_qen := 1;
     sw_frcd_en := c_forced_en c; sw_desc_sz := c_desc_sz c;
     sw_fnc_id := u8 (c_func_id c);
     sw_irq_arm := if off then 0 else c_irq_arm c;
     sw_pidx := 0; sw_at := 0; sw_fetch_max := 0; sw_port_id := 0; sw_irq_no_last := 0;
     sw_err := 0; sw_err_wb_sent := 0; sw_irq_req := 0; sw_mrkr_dis := 0; sw_pasid_en := 0;
     sw_dis_intr_on_vf := 0; sw_virtio_en := 0; sw_pack_byp_out := 0; sw_irq_byp := 0;
     sw_host_id := 0; sw_pasid := 0; sw_virtio_dsc_base := 0 |}.

Definition pfetch_from_conf (qctxt : mbox_msg_qctxt) (buf_idx : Z) : qdma_descq_prefetch_ctxt :=
  let c := q_descq_conf qctxt in
  {| pf_valid := 1; pf_bypass := c_en_bypass_prefetch c; pf_bufsz_idx := u8 buf_idx;
     pf_pfch_en := c_pfch_en c; pf_sw_crdt := 0; pf_port_id := 0; pf_var_desc := 0;
     pf_num_pftch := 0; pf_err := 0; pf_pfch := 0 |}.

Definition cmpt_from_conf (qctxt : mbox_msg_qctxt) (cntr_idx tmr_idx rng_idx : Z) :
    qdma_descq_cmpt_ctxt :=
  let c := q_descq_conf qctxt in
  {| cmpt_bs_addr := c_cmpt_ring_bs_addr c; cmpt_en_stat_desc := c_cmpl_stat_en c;
     cmpt_en_int := c_cmpt_int_en c; cmpt_trig_mode := c_triggermode c;
     cmpt_fnc_id := u8 (c_func_id c); cmpt_timer_idx := tmr_idx;
     cmpt_counter_idx := cntr_idx; cmpt_color := 1; cmpt_ringsz_idx := u8 rng_idx;
     cmpt_desc_sz := c_cmpt_desc_sz c; cmpt_valid := 1;
     CtxtTypes.cmpt_ovf_chk_dis := c_dis_overflow_check c; cmpt_vec := c_intr_id c;
     cmpt_int_aggr := c_intr_aggr c;
     cmpt_pidx := 0; cmpt_cidx := 0; cmpt_in_st := 0; cmpt_err := 0; cmpt_user_trig_pend := 0;
     cmpt_timer_running := 0; cmpt_full_upd := 0; cmpt_at := 0; cmpt_dis_intr_on_vf := 0;
     cmpt_vio := 0; cmpt_dir_c2h := 0; cmpt_host_id := 0; cmpt_pasid := 0; cmpt_pasid_en := 0;
     cmpt_vio_eop := 0; cmpt_sh_cmpt := 0 |}.

Definition sw_zeroed : qdma_descq_sw_ctxt := cs_of [].
Definition pfetch_zeroed : qdma_descq_prefetch_ctxt := cs_of [].
Definition cmpt_zeroed : qdma_descq_cmpt_ctxt := cs_of [].

(** Each returns the return value and the context, which stays zero on error. *)
Definition mbox_compose_sw_context (qctxt : mbox_msg_qctxt) :
    mbm dev (Z * qdma_descq_sw_ctxt) :=
  r ← get_ring_idx (c_ringsz (q_descq_conf qctxt));
  if r.1 <? 0 then mret (r.1, sw_zeroed) else mret (QDMA_SUCCESS, sw_from_conf qctxt r.2).

Definition mbox_compose_prefetch_context (qctxt : mbox_msg_qctxt) :
    mbm dev (Z * qdma_descq_prefetch_ctxt) :=
  r ← get_buf_idx (c_bufsz (q_descq_conf qctxt));
  if r.1 <? 0 then mret (r.1, pfetch_zeroed)
  else mret (QDMA_SUCCESS, pfetch_from_conf qctxt r.2).

Definition mbox_compose_cmpt_context (qctxt : mbox_msg_qctxt) :
    mbm dev (Z * qdma_descq_cmpt_ctxt) :=
  c ← get_cntr_idx (c_cnt_thres (q_descq_conf qctxt));
  if c.1 <? 0 then mret (c.1, cmpt_zeroed)
  else
    t ← get_tmr_idx (c_timer_thres (q_descq_conf qctxt));
    if t.1 <? 0 then mret (t.1, cmpt_zeroed)
    else
      r ← get_ring_idx (c_cmpt_ringsz (q_descq_conf qctxt));
      if r.1 <? 0 then mret (r.1, cmpt_zeroed)
      else mret (QDMA_SUCCESS, cmpt_from_conf qctxt c.2 t.2 r.2).

(** ** Queue contexts *)

(** The return value of an entry of the access table. *)
Definition rv_of {A} (m : hwm dev (Z * A)) : mbm dev Z := r ← hwop m; mret r.1.

(** [qdma_dev_qinfo_get] followed by [qdma_dev_is_queue_in_range], as three
    functions do it: when the queue is out of range the value of the first
    call is returned. *)
Definition if_in_range (dma_device_index func_id qid_hw : Z) (k : mbm dev Z) : mbm dev Z :=
  r ← rmask (qdma_dev_qinfo_get dma_device_index func_id 0 0);
  let rv := r.1.1 in
  if rv <? 0 then mret rv
  else
    q_range ← rmask (qdma_dev_is_queue_in_range dma_device_index func_id qid_hw);
    match q_range with
    | QDMA_DEV_Q_IN_RANGE => k
    | QDMA_DEV_Q_OUT_OF_RANGE => mret rv
    end.

(** The body [mbox_clear_queue_contexts] and [mbox_invalidate_queue_contexts]
    share, [t] being the access type they pass. *)
Definition drop_queue_contexts (t : qdma_hw_access_type) (dma_device_index func_id qid_hw st c2h : Z)
    (cmpt_ctxt_type : mbox_cmpt_ctxt_type) : mbm dev Z :=
  if bool_decide (cmpt_ctxt_type = QDMA_MBOX_CMPT_CTXT_ONLY) then
    CHECK rv_of (ha_cmpt_ctx_conf qid_hw None t);
    mret QDMA_SUCCESS
  else
    if_in_range dma_device_index func_id qid_hw
      (CHECK rv_of (ha_sw_ctx_conf c2h qid_hw None t);
       CHECK rv_of (ha_hw_ctx_conf c2h qid_hw None t);
       CHECK rv_of (ha_credit_ctx_conf c2h qid_hw None t);
       CHECK (if st_c2h st c2h then rv_of (ha_pfetch_ctx_conf qid_hw None t)
              else mret QDMA_SUCCESS);
       CHECK (if with_cmpt cmpt_ctxt_type then rv_of (ha_cmpt_ctx_conf qid_hw None t)
              else mret QDMA_SUCCESS);
       mret QDMA_SUCCESS).

Definition mbox_clear_queue_contexts := drop_queue_contexts QDMA_HW_ACCESS_CLEAR.
Definition mbox_invalidate_queue_contexts := drop_queue_contexts QDMA_HW_ACCESS_INVALIDATE.

Definition mbox_write_queue_contexts (dma_device_index : Z) (qctxt : mbox_msg_qctxt) : mbm dev Z :=
  let qid_hw := q_qid_hw qctxt in
  let func_id := c_func_id (q_descq_conf qctxt) in
  if_in_range dma_device_index func_id qid_hw
    (if bool_decide (q_cmpt_ctxt_type qctxt = QDMA_MBOX_CMPT_CTXT_ONLY) then
       c ← mbox_compose_cmpt_context qctxt;
       if c.1 <? 0 then mret c.1
       else
         CHECK rv_of (ha_cmpt_ctx_conf qid_hw None QDMA_HW_ACCESS_CLEAR);
         CHECK rv_of (ha_cmpt_ctx_conf qid_hw (Some c.2) QDMA_HW_ACCESS_WRITE);
         mret QDMA_SUCCESS
     else
       sw ← mbox_compose_sw_context qctxt;
       if sw.1 <? 0 then mret sw.1
       else
         pf ← (if st_c2h (q_st qctxt) (q_c2h qctxt) then mbox_compose_prefetch_context qctxt
               else mret (QDMA_SUCCESS, pfetch_zeroed));
         if pf.1 <? 0 then mret pf.1
         else
           c ← (if with_cmpt (q_cmpt_ctxt_type qctxt) then mbox_compose_cmpt_context qctxt
                else mret (QDMA_SUCCESS, cmpt_zeroed));
           if c.1 <? 0 then mret c.1
           else
             CHECK mbox_clear_queue_contexts dma_device_index func_id qid_hw (q_st qctxt)
                     (q_c2h qctxt) (q_cmpt_ctxt_type qctxt);
             CHECK rv_of (ha_sw_ctx_conf (q_c2h qctxt) qid_hw (Some sw.2) QDMA_HW_ACCESS_WRITE);
             CHECK (if st_c2h (q_st qctxt) (q_c2h qctxt) then
                      rv_of (ha_pfetch_ctx_conf qid_hw (Some pf.2) QDMA_HW_ACCESS_WRITE)
                    else mret QDMA_SUCCESS);
             CHECK (if with_cmpt (q_cmpt_ctxt_type qctxt) then
                      rv_of (ha_cmpt_ctx_conf qid_hw (Some c.2) QDMA_HW_ACCESS_WRITE)
                    else mret QDMA_SUCCESS);
             mret QDMA_SUCCESS).

(** A read into a structure of the response at [base]. *)
Definition read_into {T} `{CStruct T} (base : nat) (m : option T → hwm dev (Z * option T)) :
    mbm dev Z :=
  old ← resp (rd_as T base);
  r ← hwop (m (Some old));
  resp (wr_as base (default old r.2));; mret r.1.

(** [ctxt]: position of the [struct qdma_descq_context] in the response. *)
Definition mbox_read_queue_contexts (func_id qid_hw st c2h : Z)
    (cmpt_ctxt_type : mbox_cmpt_ctxt_type) (ctxt : nat) : mbm dev Z :=
  CHECK read_into (ctxt + dctx_sw_ctxt)
          (λ c, ha_sw_ctx_conf c2h qid_hw c QDMA_HW_ACCESS_READ);
  CHECK read_into (ctxt + dctx_hw_ctxt)
          (λ c, ha_hw_ctx_conf c2h qid_hw c QDMA_HW_ACCESS_READ);
  CHECK read_into (ctxt + dctx_cr_ctxt)
          (λ c, ha_credit_ctx_conf c2h qid_hw c QDMA_HW_ACCESS_READ);
  CHECK read_into (ctxt + dctx_fmap)
          (λ c, ha_fmap_conf func_id c QDMA_HW_ACCESS_READ);
  CHECK (if st_c2h st c2h then
           read_into (ctxt + dctx_pfetch_ctxt)
             (λ c, ha_pfetch_ctx_conf qid_hw c QDMA_HW_ACCESS_READ)
         else mret QDMA_SUCCESS);
  CHECK (if with_cmpt cmpt_ctxt_type then
           read_into (ctxt + dctx_cmpt_ctxt)
             (λ c, ha_cmpt_ctx_conf qid_hw c QDMA_HW_ACCESS_READ)
         else mret QDMA_SUCCESS);
  mret QDMA_SUCCESS.

(** ** The handler of the physical function *)

Definition QDMA_MBOX_VF_ONLINE : Z := 1.
Definition QDMA_MBOX_VF_OFFLINE : Z := -1.
Definition QDMA_MBOX_VF_RESET : Z := 2.
Definition QDMA_MBOX_PF_RESET_DONE : Z := 3.
Definition QDMA_MBOX_PF_BYE : Z := 4.
Definition QDMA_MBOX_VF_RESET_BYE : Z := 5.

(** How a case of the [switch] ends: at [exit_func] with [ret] and [rv], or
    with a [return]. *)
Inductive outcome := Respond (ret rv : Z) | Return (v : Z).

Definition write_fmap (func_id qbase qmax : Z) : mbm dev Z :=
  rv_of (ha_fmap_conf func_id (Some (mk_fmap (u16 qbase) (u16 qmax))) QDMA_HW_ACCESS_WRITE).

(** [MBOX_OP_VF_BYE] and [MBOX_OP_PF_RESET_VF_BYE] *)
Definition on_bye (dma_device_index ret : Z) : mbm dev outcome :=
  src ← rcv (rd hdr_src_func_id);
  rv ← write_fmap src 0 0;
  rmop (λ r, (tt, qdma_dev_entry_destroy dma_device_index src r));;
  mret (Respond ret rv).

(** The addresses of [fmap->qbase] and [fmap->qmax], members of the received
    message, are passed to [qdma_dev_qinfo_get]. *)
Definition on_hello (dma_device_index : Z) : mbm dev outcome :=
  src ← rcv (rd hdr_src_func_id);
  qbase ← rcv (rd fm_qbase);
  qmax ← rcv (rd fm_qmax);
  r ← rmask (qdma_dev_qinfo_get dma_device_index src (s32 qbase) qmax);
  let '(rv, qbase, qmax) := r in
  rcv (wr fm_qbase qbase);;
  rcv (wr fm_qmax qmax);;
  rv ← (if rv <? 0 then rmop (qdma_dev_entry_create dma_device_index src) else mret rv);
  (if rv =? 0 then
     resp (wr hello_qbase qbase);;
     resp (wr hello_qmax qmax);;
     resp (wr hello_dma_device_index dma_device_index);;
     read_into hello_dev_cap ha_get_device_attributes;; mret tt
   else mret tt);;
  write_fmap src 0 0;;
  mret (Respond QDMA_MBOX_VF_ONLINE rv).

Definition on_fmap : mbm dev outcome :=
  src ← rcv (rd hdr_src_func_id);
  qbase ← rcv (rd fm_qbase);
  qmax ← rcv (rd fm_qmax);
  rv ← write_fmap src qbase qmax;
  if rv <? 0 then mret (Return rv) else mret (Respond 0 rv).

(** A CSR array on the stack, initialised to zero. *)
Definition read_csr (csr : qdma_global_csr_type) : mbm dev (Z * list Z) :=
  r ← hwop (ha_global_csr_conf 0 QDMA_GLOBAL_CSR_ARRAY_SZ (Some (replicate 16 0)) csr
              QDMA_HW_ACCESS_READ);
  mret (r.1, default (replicate 16 0) r.2).

(** [rv < 0 && rv != -QDMA_ERR_HWACC_FEATURE_NOT_SUPPORTED] *)
Definition csr_fatal (rv : Z) : bool := (rv <? 0) && negb (rv =? NOT_SUPPORTED).

(** The loop that fills the response, from element [i] on. *)
Fixpoint fill_csr (n i : nat) (rv : Z) (ringsz bufsz tmr_th cntr_th : list Z) : mbm dev () :=
  match n with
  | O => mret tt
  | S n =>
      resp (wr (csr_ringsz i) (Z.land (word ringsz i) 0xffff));;
      (if rv =? 0 then
         resp (wr (csr_bufsz i) (Z.land (word bufsz i) 0xffff));;
         resp (wr (csr_timer_cnt i) (Z.land (word tmr_th i) 0xff));;
         resp (wr (csr_cnt_thres i) (Z.land (word cntr_th i) 0xff))
       else mret tt);;
      fill_csr n (S i) rv ringsz bufsz tmr_th cntr_th
  end.

Definition on_csr : mbm dev outcome :=
  ring ← read_csr QDMA_CSR_RING_SZ;
  if ring.1 <? 0 then mret (Respond 0 ring.1)
  else
    a ← hwop (ha_get_device_attributes (Some attr_uninit));
    let dev_cap := default attr_uninit a.2 in
    b ← (if nz (st_en dev_cap) then read_csr QDMA_CSR_BUF_SZ
         else mret (ring.1, replicate 16 0));
    if nz (st_en dev_cap) && csr_fatal b.1 then mret (Respond 0 b.1)
    else
      let both := nz (st_en dev_cap) || nz (mm_cmpt_en dev_cap) in
      t ← (if both then read_csr QDMA_CSR_TIMER_CNT else mret (b.1, replicate 16 0));
      if both && csr_fatal t.1 then mret (Respond 0 t.1)
      else
        c ← (if both then read_csr QDMA_CSR_CNT_TH else mret (t.1, replicate 16 0));
        if both && csr_fatal c.1 then mret (Respond 0 c.1)
        else
          fill_csr 16 0 c.1 ring.2 b.2 t.2 c.2;;
          mret (Respond 0 (if c.1 =? NOT_SUPPORTED then QDMA_SUCCESS else c.1)).

Definition on_qreq (dma_device_index : Z) : mbm dev outcome :=
  src ← rcv (rd hdr_src_func_id);
  qbase ← rcv (rd fm_qbase);
  qmax ← rcv (rd fm_qmax);
  u ← rmop (qdma_dev_update dma_device_index src qmax (s32 qbase));
  rcv (wr fm_qbase u.2);;
  rv ← (if u.1 =? 0 then
          qb ← resp (rd fm_qbase);
          qm ← resp (rd fm_qmax);
          r ← rmask (qdma_dev_qinfo_get dma_device_index src (s32 qb) qm);
          resp (wr fm_qbase r.1.2);; resp (wr fm_qmax r.2);; mret r.1.1
        else mret u.1);
  if rv <? 0 then mret (Respond 0 (ERR QDMA_ERR_MBOX_NUM_QUEUES))
  else write_fmap src 0 0;; mret (Respond 0 rv).

(** [MBOX_OP_QNOTIFY_ADD] and [MBOX_OP_QNOTIFY_DEL], [count] being the function
    of the resource manager they call. *)
Definition on_qnotify (count : Z → Z → qdma_dev_q_type → rm_state → Z * rm_state)
    (dma_device_index : Z) : mbm dev outcome :=
  src ← rcv (rd hdr_src_func_id);
  qid_hw ← rcv (rd q_notify_qid_hw);
  q_range ← rmask (qdma_dev_is_queue_in_range dma_device_index src qid_hw);
  match q_range with
  | QDMA_DEV_Q_OUT_OF_RANGE => mret (Respond 0 (ERR QDMA_ERR_MBOX_INV_QID))
  | QDMA_DEV_Q_IN_RANGE =>
      q_type ← rcv (rd q_notify_q_type);
      rv ← rmop (count dma_device_index src (q_type_of q_type));
      mret (Respond 0 rv)
  end.

Definition on_get_qactive_cnt (dma_device_index : Z) : mbm dev outcome :=
  src ← rcv (rd hdr_src_func_id);
  rv ← rmask (qdma_get_device_active_queue_count dma_device_index src QDMA_DEV_Q_TYPE_H2C);
  resp (wr qcnt_h2c_queues rv);;
  rv ← rmask (qdma_get_device_active_queue_count dma_device_index src QDMA_DEV_Q_TYPE_C2H);
  resp (wr qcnt_c2h_queues rv);;
  rv ← rmask (qdma_get_device_active_queue_count dma_device_index src QDMA_DEV_Q_TYPE_CMPT);
  resp (wr qcnt_cmpt_queues rv);;
  mret (Respond 0 rv).

(** [if (rv < 0) resp->hdr.status = rv;] *)
Definition note_status (rv : Z) : mbm dev () :=
  if rv <? 0 then resp (wr hdr_status rv) else mret tt.

(** The four loops over the rings: [body i ring_index] is one iteration and
    returns [rv]; [n] iterations from [i] on. *)
Fixpoint for_rings (body : nat → Z → mbm dev Z) (n i : nat) (rv : Z) : mbm dev Z :=
  match n with
  | O => mret rv
  | S n =>
      ring_index ← rcv (rd (ictxt_ring_index_list i));
      rv ← body i ring_index;
      for_rings body n (S i) rv
  end.

Definition on_intr (body : nat → Z → mbm dev Z) : mbm dev outcome :=
  num_rings ← rcv (rd ictxt_num_rings);
  rv ← for_rings body (Z.to_nat num_rings) 0 QDMA_SUCCESS;
  mret (Respond 0 rv).

Definition intr_write (i : nat) (ring_index : Z) : mbm dev Z :=
  rv ← rv_of (ha_indirect_intr_ctx_conf ring_index None QDMA_HW_ACCESS_CLEAR);
  note_status rv;;
  ctxt ← rcv (rd_as qdma_indirect_intr_ctxt (ictxt_ictxt i));
  rv ← rv_of (ha_indirect_intr_ctx_conf ring_index (Some ctxt) QDMA_HW_ACCESS_WRITE);
  note_status rv;; mret rv.

Definition intr_read (i : nat) (ring_index : Z) : mbm dev Z :=
  rv ← read_into (ictxt_ictxt i)
         (λ c, ha_indirect_intr_ctx_conf ring_index c QDMA_HW_ACCESS_READ);
  note_status rv;; mret rv.

Definition intr_drop (t : qdma_hw_access_type) (i : nat) (ring_index : Z) : mbm dev Z :=
  rv ← rv_of (ha_indirect_intr_ctx_conf ring_index None t);
  note_status rv;; mret rv.

(** The members of [struct mbox_msg_qctxt] before the union. *)
Definition rd_qctxt : bm (Z * Z * Z * mbox_cmpt_ctxt_type) :=
  qid_hw ← rd qctxt_qid_hw;
  st ← rd_bits qctxt_flags 0 1;
  c2h ← rd_bits qctxt_flags 1 1;
  t ← rd_bits qctxt_flags 2 2;
  mret (qid_hw, st, c2h, cmpt_type_of t).

Definition on_qctxt_drop (t : qdma_hw_access_type) (dma_device_index : Z) : mbm dev outcome :=
  src ← rcv (rd hdr_src_func_id);
  q ← rcv rd_qctxt;
  let '(qid_hw, st, c2h, cmpt_ctxt_type) := q in
  rv ← drop_queue_contexts t dma_device_index src qid_hw st c2h cmpt_ctxt_type;
  mret (Respond 0 rv).

Definition on_qctxt_read : mbm dev outcome :=
  src ← rcv (rd hdr_src_func_id);
  q ← rcv rd_qctxt;
  let '(qid_hw, st, c2h, cmpt_ctxt_type) := q in
  rv ← mbox_read_queue_contexts src qid_hw st c2h cmpt_ctxt_type qctxt_descq_ctxt;
  mret (Respond 0 rv).

(** The unit of the bit fields [func_id], [cnt_thres] and [timer_thres]. *)
Definition conf_func_unit : field := at_ qctxt_descq_conf (20, 4)%nat.

Definition on_qctxt_write (dma_device_index : Z) : mbm dev outcome :=
  src ← rcv (rd hdr_src_func_id);
  rcv (wr_bits conf_func_unit 0 16 src);;
  q ← rcv rd_qctxt;
  let '(qid_hw, st, c2h, cmpt_ctxt_type) := q in
  c ← rcv (rd_as mbox_descq_conf qctxt_descq_conf);
  rv ← mbox_write_queue_contexts dma_device_index (mk_qctxt qid_hw st c2h cmpt_ctxt_type c);
  mret (Respond 0 rv).

(** Stores the registers from element [i] on. *)
Fixpoint fill_regs (l : list qdma_reg_data) (i : nat) : bm () :=
  match l with
  | [] => mret tt
  | (addr, val) :: l =>
      wr (reg_list_addr i) addr;; wr (reg_list_val i) val;; fill_regs l (S i)
  end.

Definition on_reg_list_read : mbm dev outcome :=
  group_num ← rcv (rd reg_group_num);
  r ← hwop (ha_read_reg_list 1 group_num);
  (match r.2 with
   | Some l => resp (fill_regs l 0;; wr reg_num_regs (Z.of_nat (length l)))
   | None => mret tt
   end);;
  num_regs ← resp (rd reg_num_regs);
  if (r.1 <? 0) || (num_regs =? 0) then mret (Respond 0 (ERR QDMA_ERR_MBOX_REG_READ_FAILED))
  else mret (Respond 0 r.1).

(** The [switch] over the opcode. *)
Definition pf_dispatch (dma_device_index : Z) (op : option mbox_msg_op) : mbm dev outcome :=
  match op with
  | Some MBOX_OP_VF_BYE => on_bye dma_device_index QDMA_MBOX_VF_OFFLINE
  | Some MBOX_OP_PF_RESET_VF_BYE => on_bye dma_device_index QDMA_MBOX_VF_RESET_BYE
  | Some MBOX_OP_HELLO => on_hello dma_device_index
  | Some MBOX_OP_FMAP => on_fmap
  | Some MBOX_OP_CSR => on_csr
  | Some MBOX_OP_QREQ => on_qreq dma_device_index
  | Some MBOX_OP_QNOTIFY_ADD => on_qnotify qdma_dev_increment_active_queue dma_device_index
  | Some MBOX_OP_QNOTIFY_DEL => on_qnotify qdma_dev_decrement_active_queue dma_device_index
  | Some MBOX_OP_GET_QACTIVE_CNT => on_get_qactive_cnt dma_device_index
  | Some MBOX_OP_INTR_CTXT_WRT => on_intr intr_write
  | Some MBOX_OP_INTR_CTXT_RD => on_intr intr_read
  | Some MBOX_OP_INTR_CTXT_CLR => on_intr (intr_drop QDMA_HW_ACCESS_CLEAR)
  | Some MBOX_OP_INTR_CTXT_INV => on_intr (intr_drop QDMA_HW_ACCESS_INVALIDATE)
  | Some MBOX_OP_QCTXT_INV => on_qctxt_drop QDMA_HW_ACCESS_INVALIDATE dma_device_index
  | Some MBOX_OP_QCTXT_CLR => on_qctxt_drop QDMA_HW_ACCESS_CLEAR dma_device_index
  | Some MBOX_OP_QCTXT_RD => on_qctxt_read
  | Some MBOX_OP_QCTXT_WRT => on_qctxt_write dma_device_index
  | Some MBOX_OP_RESET_PREPARE_RESP => mret (Return QDMA_MBOX_VF_RESET)
  | Some MBOX_OP_RESET_DONE_RESP => mret (Return QDMA_MBOX_PF_RESET_DONE)
  | Some MBOX_OP_REG_LIST_READ => on_reg_list_read
  | Some MBOX_OP_PF_BYE_RESP => mret (Return QDMA_MBOX_PF_BYE)
  | _ => mret (Return (ERR QDMA_ERR_MBOX_INV_MSG))
  end.

(** [exit_func] *)
Definition exit_func (func_id ret rv : Z) : mbm dev Z :=
  op ← rcv (rd hdr_op);
  resp (wr hdr_op (op + MBOX_MSG_OP_RSP_OFFSET));;
  src ← rcv (rd hdr_src_func_id);
  resp (wr hdr_dst_func_id src);;
  resp (wr hdr_src_func_id func_id);;
  resp (wr hdr_status rv);;
  mret ret.

Definition qdma_mbox_pf_rcv_msg_handler (dma_device_index func_id : Z) : mbm dev Z :=
  op ← rcv (rd hdr_op);
  o ← pf_dispatch dma_device_index (msg_op_of op);
  match o with
  | Respond ret rv => exit_func func_id ret rv
  | Return v => mret v
  end.

(** ** The handler of a virtual function *)

Definition vf_reply (rv : Z) : mbm dev Z :=
  op ← rcv (rd hdr_op);
  resp (wr hdr_op (op + MBOX_MSG_OP_RSP_OFFSET));;
  src ← rcv (rd hdr_src_func_id);
  resp (wr hdr_dst_func_id src);;
  dst ← rcv (rd hdr_dst_func_id);
  resp (wr hdr_src_func_id dst);;
  mret rv.

Definition qdma_mbox_vf_rcv_msg_handler : mbm dev Z :=
  op ← rcv (rd hdr_op);
  match msg_op_of op with
  | Some MBOX_OP_RESET_PREPARE => vf_reply QDMA_MBOX_VF_RESET
  | Some MBOX_OP_RESET_DONE => vf_reply QDMA_MBOX_PF_RESET_DONE
  | Some MBOX_OP_PF_BYE => vf_reply QDMA_MBOX_PF_BYE
  | _ => mret 0
  end.
End handlers.
