(* ===== verification/MboxSafe.v ===== *)
(** * What message handling leaves intact

    [safe m]: from every state whose register lock is free and whose buffers
    hold the 32 words of the message registers, [m] returns, accesses no memory
    outside the buffers, gives the lock back, and leaves the header of the
    received message alone.  [safe_in n m] asks for a response of [n] bytes: the
    union of the messages has 152 and one of its members needs more than 128.  [rm_same m]: [m] does not change the resource
    manager.  Both are proved for every part of the handlers and for every
    access table that satisfies [HwAccessOk]. *)

From S2P Require Import Prelude Platform RegIO CtxtTypes ResMgmt SoftAccess RegList HwAccess.
From S2P Require Import MboxMsg MboxStruct MboxCompose MboxHandler.

(** [sizeof_qdma_mbox_txrx] *)
Notation txrx_size := 152%nat.
(** [raw] of struct mbox_msg, the buffer the callers pass. *)
Notation msg_size := 128%nat.

Section safe.
Context {dev : Type}.
Implicit Types s : mbox_state dev.

Definition good_in (n : nat) s : Prop :=
  hw_prg_lock (ms_hw s) = false ∧ (msg_size ≤ length (ms_rcv s))%nat ∧
  (n ≤ length (ms_resp s))%nat.
Notation good := (good_in msg_size).

Lemma good_in_good n s : (msg_size ≤ n)%nat → good_in n s → good s.
Proof using. intros ? (? & ? & ?). split_and!; [done|lia..]. Qed.

Definition same_hdr (b b' : buf) : Prop :=
  get hdr_op b' = get hdr_op b ∧ get hdr_src_func_id b' = get hdr_src_func_id b ∧
  get hdr_dst_func_id b' = get hdr_dst_func_id b.

Definition step_ok s s' : Prop :=
  hw_prg_lock (ms_hw s') = false ∧ length (ms_rcv s') = length (ms_rcv s) ∧
  length (ms_resp s') = length (ms_resp s) ∧ same_hdr (ms_rcv s) (ms_rcv s').

Lemma step_ok_refl n s : good_in n s → step_ok s s.
Proof using. by intros (? & ? & ?). Qed.
Lemma step_ok_good n s s' : good_in n s → step_ok s s' → good_in n s'.
Proof using. intros (? & ? & ?) (? & E1 & E2 & _). unfold good_in. by rewrite E1, E2. Qed.
Lemma step_ok_trans s s1 s2 : step_ok s s1 → step_ok s1 s2 → step_ok s s2.
Proof using.
  intros (_ & ? & ? & ? & ? & ?) (? & ? & ? & ? & ? & ?).
  split_and!; [done|congruence|congruence|]. split_and!; congruence.
Qed.

Definition safe_in (n : nat) {A} (m : mbm dev A) : Prop :=
  ∀ s, good_in n s → ∃ a s', m s = Some (a, s') ∧ step_ok s s'.
Notation safe := (safe_in msg_size).

(** A larger response does no harm. *)
Lemma safe_in_safe n {A} (m : mbm dev A) : (msg_size ≤ n)%nat → safe m → safe_in n m.
Proof using. intros Hn Hm s Hs. by eapply Hm, good_in_good. Qed.

Lemma safe_ret n {A} (a : A) : safe_in n (mret a).
Proof using. intros s Hs. exists a, s. split; [done|]. by eapply step_ok_refl. Qed.

Lemma safe_bind n {A B} (m : mbm dev A) (k : A → mbm dev B) :
  safe_in n m → (∀ a, safe_in n (k a)) → safe_in n (m ≫= k).
Proof using.
  intros Hm Hk s Hs. destruct (Hm s Hs) as (a & s1 & E1 & H1).
  destruct (Hk a s1) as (c & s2 & E2 & H2); [by eapply step_ok_good|].
  exists c, s2. unfold mbind, mbm_bind. rewrite E1. split; [done|]. by eapply step_ok_trans.
Qed.

Lemma safe_hwop n {A} (m : hwm dev A) : keeps false m → safe_in n (hwop m).
Proof using.
  intros Hm s (Hl & Hr & Hp). destruct (Hm (ms_hw s) Hl) as (a & h & E & Hh).
  exists a, (mk_mst h (ms_rm s) (ms_rcv s) (ms_resp s)). unfold hwop. rewrite E.
  split; [done|]. by split_and!.
Qed.

Lemma safe_rmop n {A} (f : rm_state → A * rm_state) : safe_in n (rmop f).
Proof using.
  intros s (Hl & Hr & Hp). unfold rmop. destruct (f (ms_rm s)) as [a r].
  eexists _, _. split; [done|]. by split_and!.
Qed.

Lemma safe_rmask n {A} (f : rm_state → A) : safe_in n (rmask f).
Proof using. intros s Hs. eexists _, _. split; [done|]. by eapply step_ok_refl. Qed.

(** Buffer computations that stay inside any buffer of [n] bytes. *)
Definition bsafe_in (n : nat) {A} (m : bm A) : Prop :=
  ∀ b, (n ≤ length b)%nat → ∃ a b', m b = Some (a, b') ∧ length b' = length b.
(** The same, and they leave the header alone. *)
Definition bframe {A} (m : bm A) : Prop :=
  ∀ b, (msg_size ≤ length b)%nat →
    ∃ a b', m b = Some (a, b') ∧ length b' = length b ∧ same_hdr b b'.

Lemma bsafe_ret n {A} (a : A) : bsafe_in n (mret a).
Proof using. intros b Hb. by exists a, b. Qed.
Lemma bsafe_bind n {A B} (m : bm A) (k : A → bm B) :
  bsafe_in n m → (∀ a, bsafe_in n (k a)) → bsafe_in n (m ≫= k).
Proof using.
  intros Hm Hk b Hb. destruct (Hm b Hb) as (a & b1 & E1 & L1).
  destruct (Hk a b1) as (c & b2 & E2 & L2); [lia|].
  exists c, b2. unfold mbind, bm_bind. rewrite E1. split; [done|lia].
Qed.
Lemma bframe_ret {A} (a : A) : bframe (mret a).
Proof using. intros b Hb. by exists a, b. Qed.
Lemma bframe_bind {A B} (m : bm A) (k : A → bm B) :
  bframe m → (∀ a, bframe (k a)) → bframe (m ≫= k).
Proof using.
  intros Hm Hk b Hb. destruct (Hm b Hb) as (a & b1 & E1 & L1 & G1).
  destruct (Hk a b1) as (c & b2 & E2 & L2 & G2); [lia|].
  exists c, b2. unfold mbind, bm_bind. rewrite E1. split; [done|]. split; [lia|].
  destruct G1 as (? & ? & ?), G2 as (? & ? & ?). split_and!; congruence.
Qed.

(** Members inside the first [n] bytes, inside the words of the registers, and
    those behind the header. *)
Definition in_first (n : nat) (f : field) : bool := (f.1 + f.2 <=? n)%nat.
Notation in_union := (in_first msg_size).
Definition in_body (f : field) : bool := (6 <=? f.1)%nat && in_union f.

Lemma bframe_rd f : in_union f = true → bframe (rd f).
Proof using.
  intros Hf%Nat.leb_le b Hb. exists (get f b), b. rewrite rd_eq by lia. done.
Qed.
Lemma bsafe_wr n f v : in_first n f = true → bsafe_in n (wr f v).
Proof using.
  intros Hf%Nat.leb_le b Hb. eexists _, _. rewrite wr_eq by lia.
  split; [done|]. apply length_put. lia.
Qed.
Lemma bframe_wr f v : in_body f = true → bframe (wr f v).
Proof using.
  intros [Hf1%Nat.leb_le Hf2%Nat.leb_le]%andb_prop b Hb. eexists _, _.
  rewrite wr_eq by lia. split; [done|]. rewrite length_put by lia. split; [done|].
  unfold same_hdr. rewrite !get_put_other; [done|lia|..]; unfold disjoint_fields; cbn; lia.
Qed.
Lemma bsafe_rd n f : in_first n f = true → bsafe_in n (rd f).
Proof using. intros Hf%Nat.leb_le b Hb. exists (get f b), b. rewrite rd_eq by lia. done. Qed.

Lemma safe_rcv n {A} (m : bm A) : bframe m → safe_in n (rcv m).
Proof using.
  intros Hm s (Hl & Hr & Hp). destruct (Hm (ms_rcv s) Hr) as (a & b & E & L & G).
  exists a, (mk_mst (ms_hw s) (ms_rm s) b (ms_resp s)). unfold rcv. rewrite E.
  split; [done|]. by split_and!.
Qed.
Lemma safe_resp n {A} (m : bm A) : bsafe_in n m → safe_in n (resp m).
Proof using.
  intros Hm s (Hl & Hr & Hp). destruct (Hm (ms_resp s) Hp) as (a & b & E & L).
  exists a, (mk_mst (ms_hw s) (ms_rm s) (ms_rcv s) b). unfold resp. rewrite E.
  split; [done|]. by split_and!.
Qed.

Lemma safe_if n {A} (c : bool) (m1 m2 : mbm dev A) :
  safe_in n m1 → safe_in n m2 → safe_in n (if c then m1 else m2).
Proof using. by destruct c. Qed.

(** ** The resource manager *)

Definition rm_same {A} (m : mbm dev A) : Prop :=
  ∀ s a s', m s = Some (a, s') → ms_rm s' = ms_rm s.

Lemma rm_same_ret {A} (a : A) : rm_same (mret a).
Proof using. by intros s a' s' [= _ <-]. Qed.
Lemma rm_same_bind {A B} (m : mbm dev A) (k : A → mbm dev B) :
  rm_same m → (∀ a, rm_same (k a)) → rm_same (m ≫= k).
Proof using.
  intros Hm Hk s c s'. unfold mbind, mbm_bind. destruct (m s) as [[a s1]|] eqn:E1; [|done].
  intros E2. rewrite (Hk a s1 c s' E2). by apply (Hm s a).
Qed.
Lemma rm_same_hwop {A} (m : hwm dev A) : rm_same (hwop m).
Proof using. intros s a s'. unfold hwop. by destruct (m (ms_hw s)) as [[? ?]|]; intros [= _ <-]. Qed.
Lemma rm_same_rmask {A} (f : rm_state → A) : rm_same (rmask f).
Proof using. by intros s a s' [= _ <-]. Qed.
Lemma rm_same_rcv {A} (m : bm A) : rm_same (rcv m).
Proof using. intros s a s'. unfold rcv. by destruct (m (ms_rcv s)) as [[? ?]|]; intros [= _ <-]. Qed.
Lemma rm_same_resp {A} (m : bm A) : rm_same (resp m).
Proof using. intros s a s'. unfold resp. by destruct (m (ms_resp s)) as [[? ?]|]; intros [= _ <-]. Qed.
Lemma rm_same_if {A} (c : bool) (m1 m2 : mbm dev A) :
  rm_same m1 → rm_same m2 → rm_same (if c then m1 else m2).
Proof using. by destruct c. Qed.
End safe.
Notation good := (good_in msg_size).
Notation safe := (safe_in msg_size).
Notation bsafe := (bsafe_in msg_size).
Notation in_union := (in_first msg_size).

#[export] Hint Resolve safe_ret safe_rmop safe_rmask bsafe_ret bframe_ret safe_if
  rm_same_ret rm_same_hwop rm_same_rmask rm_same_rcv rm_same_resp rm_same_if : qdma.
#[export] Hint Extern 4 (safe_in _ (_ ≫= _)) => apply safe_bind; [|intros ?] : qdma.
#[export] Hint Extern 4 (safe_in _ (hwop _)) => apply safe_hwop : qdma.
#[export] Hint Extern 4 (safe_in _ (rcv _)) => apply safe_rcv : qdma.
#[export] Hint Extern 4 (safe_in _ (resp _)) => apply safe_resp : qdma.
#[export] Hint Extern 4 (bsafe_in _ (_ ≫= _)) => apply bsafe_bind; [|intros ?] : qdma.
#[export] Hint Extern 4 (bframe (_ ≫= _)) => apply bframe_bind; [|intros ?] : qdma.
#[export] Hint Extern 4 (bframe (rd _)) => apply bframe_rd; reflexivity : qdma.
#[export] Hint Extern 4 (bframe (wr _ _)) => apply bframe_wr; reflexivity : qdma.
#[export] Hint Extern 4 (bsafe_in _ (rd _)) => apply bsafe_rd; reflexivity : qdma.
#[export] Hint Extern 4 (bsafe_in _ (wr _ _)) => apply bsafe_wr; reflexivity : qdma.
#[export] Hint Extern 4 (rm_same (_ ≫= _)) => apply rm_same_bind; [|intros ?] : qdma.

(** Takes a computation apart along its structure. *)
Ltac mbox_walk :=
  repeat (match goal with
  | |- safe_in _ (_ ≫= _) => apply safe_bind; [|intros ?]
  | |- rm_same (_ ≫= _) => apply rm_same_bind; [|intros ?]
  | |- _ (match ?x with _ => _ end) => destruct x
  | |- _ (if ?x then _ else _) => destruct x
  end; cbn beta iota zeta); auto 8 with qdma.
