(* ===== verification/MboxThms.v ===== *)
(** * Theorems on the message handlers

    For every device and every access table with the properties of
    [HwAccessOk]. *)

From S2P Require Import Prelude Platform RegIO CtxtTypes.
From S2P Require Import ResMgmt FreeList ResMgmtInv ResMgmtFrame.
From S2P Require Import SoftAccess RegList HwAccess.
From S2P Require Import MboxMsg MboxStruct MboxCompose MboxHandler MboxSafe.

(** ** The parts of the handlers are safe *)

Section parts.
Context {dev : Type} `{HA : HwAccess dev} `{!HwAccessOk dev}.

Lemma bframe_rd_struct base layout :
  forallb (λ f, in_union (at_ base f)) layout = true → bframe (rd_struct base layout).
Proof using.
  induction layout as [|f layout IH]; cbn [forallb rd_struct]; [auto with qdma|].
  intros [Hf Hl]%andb_prop. apply bframe_bind; [by apply bframe_rd|]. intros v.
  apply bframe_bind; [by apply IH|]. auto with qdma.
Qed.

Lemma bsafe_rd_struct n base layout :
  forallb (λ f, in_first n (at_ base f)) layout = true → bsafe_in n (rd_struct base layout).
Proof using.
  induction layout as [|f layout IH]; cbn [forallb rd_struct]; [auto with qdma|].
  intros [Hf Hl]%andb_prop. apply bsafe_bind; [by apply bsafe_rd|]. intros v.
  apply bsafe_bind; [by apply IH|]. auto with qdma.
Qed.

Lemma bsafe_wr_struct n base layout vs :
  forallb (λ f, in_first n (at_ base f)) layout = true → bsafe_in n (wr_struct base layout vs).
Proof using.
  revert vs. induction layout as [|f layout IH]; intros vs; cbn [forallb wr_struct];
    [auto with qdma|]. intros [Hf Hl]%andb_prop. destruct vs as [|v vs]; [auto with qdma|].
  apply bsafe_bind; [by apply bsafe_wr|]. intros _. by apply IH.
Qed.

Lemma safe_rv_of n {A} (m : hwm dev (Z * A)) : keeps false m → safe_in n (rv_of m).
Proof using. intros Hm. unfold rv_of. auto with qdma. Qed.
Lemma rm_same_rv_of {A} (m : hwm dev (Z * A)) : rm_same (rv_of m).
Proof using. unfold rv_of. auto with qdma. Qed.

Lemma safe_read_into n {T} `{CStruct T} base (m : option T → hwm dev (Z * option T)) :
  forallb (λ f, in_first n (at_ base f)) cs_layout = true → (∀ c, keeps false (m c)) →
  safe_in n (read_into base m).
Proof using.
  intros Hl Hm. unfold read_into, rd_as, wr_as. apply safe_bind.
  { apply safe_resp, bsafe_bind; [by apply bsafe_rd_struct|]. auto with qdma. }
  intros old. apply safe_bind; [auto with qdma|]. intros r.
  apply safe_bind; [by apply safe_resp, bsafe_wr_struct|]. auto with qdma.
Qed.
Lemma rm_same_read_into {T} `{CStruct T} base (m : option T → hwm dev (Z * option T)) :
  rm_same (read_into base m).
Proof using. unfold read_into. auto 8 with qdma. Qed.

#[local] Hint Resolve safe_rv_of rm_same_rv_of rm_same_read_into : qdma.
#[local] Hint Extern 4 (safe_in _ (read_into _ _)) =>
  apply safe_read_into; [reflexivity|intros ?] : qdma.

Lemma safe_if_in_range ix f q k : safe k → safe (if_in_range (dev := dev) ix f q k).
Proof using. intros Hk. unfold if_in_range. mbox_walk. Qed.
Lemma rm_same_if_in_range ix f q k : rm_same k → rm_same (if_in_range (dev := dev) ix f q k).
Proof using. intros Hk. unfold if_in_range. mbox_walk. Qed.

Lemma safe_drop t ix f q st c2h ty : safe (drop_queue_contexts t ix f q st c2h ty).
Proof using HA HwAccessOk0.
  unfold drop_queue_contexts. apply safe_if; [mbox_walk|]. apply safe_if_in_range. mbox_walk.
Qed.
Lemma rm_same_drop t ix f q st c2h ty : rm_same (drop_queue_contexts t ix f q st c2h ty).
Proof using.
  unfold drop_queue_contexts. apply rm_same_if; [mbox_walk|].
  apply rm_same_if_in_range. mbox_walk.
Qed.
#[local] Hint Resolve safe_drop rm_same_drop : qdma.

Lemma safe_csr_index k p e : safe (csr_index k p e).
Proof using HA HwAccessOk0. unfold csr_index. mbox_walk. Qed.
Lemma rm_same_csr_index k p e : rm_same (csr_index k p e).
Proof using. unfold csr_index. mbox_walk. Qed.
#[local] Hint Resolve safe_csr_index rm_same_csr_index : qdma.

Lemma safe_compose_cmpt q : safe (mbox_compose_cmpt_context q).
Proof using HA HwAccessOk0.
  unfold mbox_compose_cmpt_context, get_cntr_idx, get_tmr_idx, get_ring_idx. mbox_walk.
Qed.
Lemma rm_same_compose_cmpt q : rm_same (mbox_compose_cmpt_context q).
Proof using.
  unfold mbox_compose_cmpt_context, get_cntr_idx, get_tmr_idx, get_ring_idx. mbox_walk.
Qed.
#[local] Hint Resolve safe_compose_cmpt rm_same_compose_cmpt : qdma.

Lemma safe_write ix q : safe (mbox_write_queue_contexts ix q).
Proof using HA HwAccessOk0.
  unfold mbox_write_queue_contexts, mbox_compose_sw_context, mbox_compose_prefetch_context,
    get_ring_idx, get_buf_idx, mbox_clear_queue_contexts.
  apply safe_if_in_range. mbox_walk.
Qed.
Lemma rm_same_write ix q : rm_same (mbox_write_queue_contexts ix q).
Proof using.
  unfold mbox_write_queue_contexts, mbox_compose_sw_context, mbox_compose_prefetch_context,
    get_ring_idx, get_buf_idx, mbox_clear_queue_contexts.
  apply rm_same_if_in_range. mbox_walk.
Qed.

(** The completion context lies beyond the words of the registers. *)
Lemma safe_read f q st c2h ty : with_cmpt ty = false →
  safe (mbox_read_queue_contexts f q st c2h ty qctxt_descq_ctxt).
Proof using HA HwAccessOk0. unfold mbox_read_queue_contexts. intros ->. mbox_walk. Qed.
Lemma safe_read_union f q st c2h ty : safe_in txrx_size (mbox_read_queue_contexts f q st c2h ty qctxt_descq_ctxt).
Proof using HA HwAccessOk0. unfold mbox_read_queue_contexts. mbox_walk. Qed.
Lemma rm_same_read f q st c2h ty : rm_same (mbox_read_queue_contexts f q st c2h ty qctxt_descq_ctxt).
Proof using. unfold mbox_read_queue_contexts. mbox_walk. Qed.

Lemma safe_write_fmap f qb qm : safe (write_fmap f qb qm).
Proof using HA HwAccessOk0. unfold write_fmap. auto with qdma. Qed.
Lemma rm_same_write_fmap f qb qm : rm_same (write_fmap f qb qm).
Proof using. unfold write_fmap. auto with qdma. Qed.
#[local] Hint Resolve safe_write rm_same_write safe_read_union rm_same_read safe_write_fmap
  rm_same_write_fmap : qdma.

Lemma safe_bye ix ret : safe (on_bye ix ret).
Proof using HA HwAccessOk0. unfold on_bye. mbox_walk. Qed.

Lemma safe_hello ix : safe (on_hello ix).
Proof using HA HwAccessOk0.
  unfold on_hello. do 4 (apply safe_bind; [auto with qdma|intros ?]).
  destruct a2 as [[rv qb] qm]. mbox_walk.
Qed.

Lemma safe_fmap : safe on_fmap.
Proof using HA HwAccessOk0. unfold on_fmap. mbox_walk. Qed.
Lemma rm_same_fmap : rm_same on_fmap.
Proof using. unfold on_fmap. mbox_walk. Qed.

Lemma safe_fill_csr n i rv l1 l2 l3 l4 : (i + n ≤ 16)%nat → @safe_in dev msg_size _ (fill_csr n i rv l1 l2 l3 l4).
Proof using.
  revert i. induction n as [|n IH]; intros i Hi; cbn [fill_csr]; [auto with qdma|].
  assert (in_union (csr_ringsz i) = true ∧ in_union (csr_bufsz i) = true ∧
          in_union (csr_timer_cnt i) = true ∧ in_union (csr_cnt_thres i) = true) as (? & ? & ? & ?).
  { unfold in_union. rewrite !Nat.leb_le. cbn. lia. }
  apply safe_bind; [by apply safe_resp, bsafe_wr|]. intros _.
  apply safe_bind; [|intros _; apply IH; lia]. apply safe_if; [|auto with qdma].
  do 2 (apply safe_bind; [by apply safe_resp, bsafe_wr|]; intros _).
  by apply safe_resp, bsafe_wr.
Qed.
Lemma rm_same_fill_csr n i rv l1 l2 l3 l4 : rm_same (dev := dev) (fill_csr n i rv l1 l2 l3 l4).
Proof using. revert i. induction n as [|n IH]; intros i; cbn [fill_csr]; mbox_walk. Qed.

Lemma safe_csr : safe on_csr.
Proof using HA HwAccessOk0.
  assert (∀ rv l1 l2 l3 l4, @safe_in dev msg_size _ (fill_csr 16 0 rv l1 l2 l3 l4))
    by (intros; apply safe_fill_csr; lia).
  unfold on_csr, read_csr. mbox_walk.
Qed.
Lemma rm_same_csr : rm_same on_csr.
Proof using.
  pose proof rm_same_fill_csr. unfold on_csr, read_csr. mbox_walk.
Qed.

Lemma safe_qreq ix : safe (on_qreq ix).
Proof using HA HwAccessOk0. unfold on_qreq. mbox_walk. Qed.

Lemma safe_qnotify count ix : @safe_in dev msg_size _ (on_qnotify count ix).
Proof using. unfold on_qnotify. mbox_walk. Qed.

Lemma safe_qcnt ix : @safe_in dev msg_size _ (on_get_qactive_cnt ix).
Proof using. unfold on_get_qactive_cnt. mbox_walk. Qed.
Lemma rm_same_qcnt ix : rm_same (dev := dev) (on_get_qactive_cnt ix).
Proof using. unfold on_get_qactive_cnt. mbox_walk. Qed.

Lemma bframe_rd_qctxt : bframe rd_qctxt.
Proof using. unfold rd_qctxt, rd_bits. repeat (apply bframe_bind; [|intros ?]); auto with qdma. Qed.
#[local] Hint Resolve bframe_rd_qctxt : qdma.

Lemma safe_qctxt_drop t ix : safe (on_qctxt_drop t ix).
Proof using HA HwAccessOk0. unfold on_qctxt_drop. mbox_walk. Qed.
Lemma rm_same_qctxt_drop t ix : rm_same (on_qctxt_drop t ix).
Proof using. unfold on_qctxt_drop. mbox_walk. Qed.

Lemma safe_qctxt_read : safe_in txrx_size on_qctxt_read.
Proof using HA HwAccessOk0. unfold on_qctxt_read. mbox_walk. Qed.
Lemma rm_same_qctxt_read : rm_same on_qctxt_read.
Proof using. unfold on_qctxt_read. mbox_walk. Qed.

Lemma bframe_rd_conf : bframe (rd_as mbox_descq_conf qctxt_descq_conf).
Proof using. unfold rd_as. apply bframe_bind; [by apply bframe_rd_struct|]. auto with qdma. Qed.
#[local] Hint Resolve bframe_rd_conf : qdma.

Lemma safe_qctxt_write ix : safe (on_qctxt_write ix).
Proof using HA HwAccessOk0. unfold on_qctxt_write, wr_bits. mbox_walk. Qed.
Lemma rm_same_qctxt_write ix : rm_same (on_qctxt_write ix).
Proof using. unfold on_qctxt_write. mbox_walk. Qed.

Lemma bsafe_fill_regs l i : (i + length l ≤ QDMA_MAX_REGISTER_DUMP)%nat → bsafe (fill_regs l i).
Proof using.
  revert i. induction l as [|[a v] l IH]; intros i Hi; cbn [fill_regs]; [auto with qdma|].
  cbn in Hi. assert (in_union (reg_list_addr i) = true ∧ in_union (reg_list_val i) = true) as [? ?].
  { unfold in_union. rewrite !Nat.leb_le. cbn. unfold QDMA_MAX_REGISTER_DUMP in Hi. lia. }
  do 2 (apply bsafe_bind; [by apply bsafe_wr|intros _]). apply IH. lia.
Qed.

Lemma safe_reg_list : safe on_reg_list_read.
Proof using HA HwAccessOk0.
  unfold on_reg_list_read. apply safe_bind; [auto with qdma|]. intros g.
  assert (Hr : ∀ s, good s → ∃ r s', hwop (ha_read_reg_list 1 g) s = Some (r, s') ∧ step_ok s s' ∧
            ∀ l, r.2 = Some l → (length l ≤ QDMA_MAX_REGISTER_DUMP)%nat).
  { intros s Hs. destruct (safe_hwop _ _ (read_reg_list_keeps 1 g) s Hs) as ([rv o] & s' & E & Hk).
    exists (rv, o), s'. split_and!; [done..|]. intros l Hl. cbn in Hl. subst o.
    unfold hwop in E. destruct (ha_read_reg_list 1 g (ms_hw s)) as [[a h]|] eqn:Eh; [|done].
    injection E as -> _. by eapply read_reg_list_bound. }
  intros s Hs. destruct (Hr s Hs) as (r & s1 & E1 & K1 & Hl). unfold mbind at 1, mbm_bind. rewrite E1.
  match goal with |- ∃ a s', ?k s1 = _ ∧ _ => assert (Hk : safe k) end.
  { apply safe_bind; [|mbox_walk]. destruct r.2 as [l|]; [|auto with qdma].
    apply safe_resp, bsafe_bind; [apply bsafe_fill_regs; apply Hl; done|auto with qdma]. }
  destruct (Hk s1) as (a & s2 & E2 & K2); [by eapply step_ok_good|].
  exists a, s2. split; [done|]. by eapply step_ok_trans.
Qed.
Lemma rm_same_reg_list : rm_same on_reg_list_read.
Proof using. unfold on_reg_list_read. mbox_walk. Qed.

Lemma safe_exit_func f ret rv : @safe_in dev msg_size _ (exit_func f ret rv).
Proof using. unfold exit_func. mbox_walk. Qed.
Lemma rm_same_exit_func f ret rv : rm_same (dev := dev) (exit_func f ret rv).
Proof using. unfold exit_func. mbox_walk. Qed.
End parts.

(** ** The physical function's handler *)

Definition is_intr_op (op : mbox_msg_op) : bool :=
  match op with
  | MBOX_OP_INTR_CTXT_WRT | MBOX_OP_INTR_CTXT_RD | MBOX_OP_INTR_CTXT_CLR
  | MBOX_OP_INTR_CTXT_INV => true
  | _ => false
  end.

(** An interrupt message names no more rings than it has room for. *)
Definition rings_ok (b : buf) : Prop :=
  ∀ op, msg_op_of (get hdr_op b) = Some op → is_intr_op op = true →
  get ictxt_num_rings b <= QDMA_NUM_DATA_VEC_FOR_INTR_CXT.

(** The completion context of a context read lies beyond the words of the
    message registers. *)
Definition reads_cmpt (b : buf) : bool := with_cmpt (cmpt_type_of (get_bits 2 2 (get qctxt_flags b))).
Definition resp_size (b : buf) : nat :=
  match msg_op_of (get hdr_op b) with
  | Some MBOX_OP_QCTXT_RD => if reads_cmpt b then txrx_size else msg_size
  | _ => msg_size
  end.

(** The requests of a virtual function. *)
Definition is_request (op : mbox_msg_op) : bool :=
  match op with
  | MBOX_OP_VF_BYE | MBOX_OP_PF_RESET_VF_BYE | MBOX_OP_HELLO | MBOX_OP_FMAP | MBOX_OP_CSR | MBOX_OP_QREQ
  | MBOX_OP_QNOTIFY_ADD | MBOX_OP_QNOTIFY_DEL | MBOX_OP_GET_QACTIVE_CNT
  | MBOX_OP_QCTXT_WRT | MBOX_OP_QCTXT_RD | MBOX_OP_QCTXT_CLR | MBOX_OP_QCTXT_INV
  | MBOX_OP_REG_LIST_READ => true
  | _ => is_intr_op op
  end.

(** [m] returns from [s]. *)
Definition safe_at {dev A} (s : mbox_state dev) (m : mbm dev A) : Prop :=
  ∃ a s', m s = Some (a, s') ∧ step_ok s s'.

Section handler.
Context {dev : Type} `{HA : HwAccess dev} `{!HwAccessOk dev}.
Implicit Types s : mbox_state dev.

Lemma safe_for_rings body n rv :
  (n ≤ 1)%nat → (∀ r, safe (body O r)) → @safe_in dev msg_size _ (for_rings body n O rv).
Proof using.
  intros Hn Hb. destruct n as [|[|n]]; cbn [for_rings]; [mbox_walk|mbox_walk|lia].
Qed.

Lemma safe_at_intr body s :
  good s → get ictxt_num_rings (ms_rcv s) <= 1 → (∀ r, safe (body O r)) →
  safe_at s (on_intr body).
Proof using.
  intros Hs Hn Hb. unfold safe_at, on_intr. unfold mbind at 1, mbm_bind, rcv.
  pose proof Hs as (_ & Hr & _). rewrite rd_eq by (cbn; lia). cbn.
  assert (Hk : safe (rv ← for_rings body (Z.to_nat (get ictxt_num_rings (ms_rcv s))) 0 QDMA_SUCCESS;
                     mret (Respond 0 rv))).
  { apply safe_bind; [apply safe_for_rings; [lia|done]|mbox_walk]. }
  destruct s as [h r b1 b2]. by apply Hk.
Qed.

Lemma rm_same_intr body : (∀ i r, rm_same (body i r)) → rm_same (dev := dev) (on_intr body).
Proof using.
  intros Hb. unfold on_intr. apply rm_same_bind; [auto with qdma|]. intros n.
  apply rm_same_bind; [|auto with qdma]. generalize QDMA_SUCCESS. generalize O.
  induction (Z.to_nat n) as [|k IH]; intros i rv; cbn [for_rings]; mbox_walk.
Qed.

Lemma bframe_rd_ictxt : bframe (rd_as qdma_indirect_intr_ctxt (ictxt_ictxt 0)).
Proof using. unfold rd_as. apply bframe_bind; [by apply bframe_rd_struct|]. auto with qdma. Qed.

#[local] Hint Resolve bframe_rd_ictxt safe_rv_of rm_same_rv_of rm_same_read_into : qdma.

Lemma safe_note rv : @safe_in dev msg_size _ (note_status rv).
Proof using. unfold note_status. mbox_walk. Qed.
Lemma rm_same_note rv : rm_same (dev := dev) (note_status rv).
Proof using. unfold note_status. mbox_walk. Qed.
#[local] Hint Resolve safe_note rm_same_note : qdma.

Lemma safe_intr_write r : safe (intr_write 0 r).
Proof using HA HwAccessOk0. unfold intr_write. mbox_walk. Qed.
Lemma safe_intr_read r : safe (intr_read 0 r).
Proof using HA HwAccessOk0.
  unfold intr_read. apply safe_bind; [|mbox_walk]. apply safe_read_into; [done|]. auto with qdma.
Qed.
Lemma safe_intr_drop t r : safe (intr_drop t 0 r).
Proof using HA HwAccessOk0. unfold intr_drop. mbox_walk. Qed.

Lemma rm_same_intr_bodies t i r :
  rm_same (intr_write i r) ∧ rm_same (intr_read i r) ∧ rm_same (intr_drop t i r).
Proof using. unfold intr_write, intr_read, intr_drop. split_and!; mbox_walk. Qed.

Lemma good_rcv s f : good s → in_union f = true → rcv (rd f) s = Some (get f (ms_rcv s), s).
Proof using.
  intros (_ & Hr & _) Hf%Nat.leb_le. unfold rcv. rewrite rd_eq by lia. by destruct s.
Qed.

Lemma good_rcv_qctxt s : good s →
  ∃ qid st c2h, rcv rd_qctxt s = Some ((qid, st, c2h, cmpt_type_of (get_bits 2 2 (get qctxt_flags (ms_rcv s)))), s).
Proof using.
  intros (_ & Hr & _). unfold rcv, rd_qctxt, rd_bits, mbind, bm_bind, mret, bm_ret.
  rewrite !rd_eq by (cbn; lia). cbn. destruct s. by eexists _, _, _.
Qed.

(** A context read whose answer fits. *)
Lemma qctxt_read_at s : good s → (reads_cmpt (ms_rcv s) = true → (txrx_size ≤ length (ms_resp s))%nat) →
  safe_at s on_qctxt_read.
Proof using HA HwAccessOk0.
  intros Hs Hc. destruct (reads_cmpt (ms_rcv s)) eqn:Er.
  { apply safe_qctxt_read. destruct Hs as (? & ? & ?). split_and!; [done..|by apply Hc]. }
  unfold safe_at, on_qctxt_read, mbind, mbm_bind. rewrite good_rcv by done.
  destruct (good_rcv_qctxt s Hs) as (qid & st & c2h & ->).
  match goal with |- ∃ a s', match ?m s with _ => _ end = _ ∧ _ =>
    destruct (safe_read _ _ _ _ _ Er s Hs : ∃ a s', m s = _ ∧ _) as (rv & s1 & -> & K) end.
  by eexists _, _.
Qed.

Lemma dispatch_safe ix s op :
  good s → (∀ o, op = Some o → is_intr_op o = true → get ictxt_num_rings (ms_rcv s) <= 1) →
  (op = Some MBOX_OP_QCTXT_RD → reads_cmpt (ms_rcv s) = true → (txrx_size ≤ length (ms_resp s))%nat) →
  safe_at s (pf_dispatch ix op).
Proof using HA HwAccessOk0.
  intros Hs Hn Hc. assert (Hret : ∀ o : outcome, safe_at s (mret o)) by (intros o; by apply (safe_ret msg_size)).
  destruct op as [[]|]; cbn [pf_dispatch]; try apply Hret;
    try (apply safe_at_intr; [done|by eapply Hn|intros r]).
  - by apply safe_bye.
  - by apply safe_hello.
  - by apply safe_fmap.
  - by apply safe_csr.
  - by apply safe_qreq.
  - by apply safe_qnotify.
  - by apply safe_qnotify.
  - by apply safe_qcnt.
  - by apply safe_qctxt_write.
  - apply qctxt_read_at; [done|]. by apply Hc.
  - by apply safe_qctxt_drop.
  - by apply safe_qctxt_drop.
  - apply safe_intr_write.
  - apply safe_intr_read.
  - apply safe_intr_drop.
  - apply safe_intr_drop.
  - by apply safe_reg_list.
  - by apply safe_bye.
Qed.

(** The message can be handled: the lock is free and the buffers hold it. *)
Record can_handle s : Prop := {
  ch_lock : hw_prg_lock (ms_hw s) = false;
  ch_rcv : (msg_size ≤ length (ms_rcv s))%nat;
  ch_resp : (resp_size (ms_rcv s) ≤ length (ms_resp s))%nat;
  ch_rings : rings_ok (ms_rcv s);
}.

Lemma resp_size_bounds b : (msg_size ≤ resp_size b ≤ txrx_size)%nat.
Proof using. unfold resp_size. repeat case_match; lia. Qed.
Lemma can_handle_good s : can_handle s → good s.
Proof using. intros [? ? ? ?]. pose proof (resp_size_bounds (ms_rcv s)). split_and!; [done|done|lia]. Qed.
Lemma union_can_handle s : hw_prg_lock (ms_hw s) = false → length (ms_rcv s) = txrx_size →
  length (ms_resp s) = txrx_size → rings_ok (ms_rcv s) → can_handle s.
Proof using. intros ? E1 E2 ?. pose proof (resp_size_bounds (ms_rcv s)). split; [done|lia..|done]. Qed.

Lemma can_dispatch ix s : can_handle s → safe_at s (pf_dispatch ix (msg_op_of (get hdr_op (ms_rcv s)))).
Proof using HA HwAccessOk0.
  intros Hs. apply dispatch_safe; [by apply can_handle_good| |].
  - intros o Ho Hi. by apply (ch_rings s Hs o).
  - intros Ho Hc. pose proof (ch_resp s Hs) as Hr. unfold resp_size in Hr. by rewrite Ho, Hc in Hr.
Qed.

(** Every message is handled without access outside the buffers, and the
    register lock is free afterwards. *)
Lemma handler_returns ix fid s :
  can_handle s →
  ∃ ret s', qdma_mbox_pf_rcv_msg_handler ix fid s = Some (ret, s') ∧ step_ok s s'.
Proof using HA HwAccessOk0.
  intros Hc. pose proof (can_handle_good s Hc) as Hs.
  unfold qdma_mbox_pf_rcv_msg_handler. unfold mbind, mbm_bind. rewrite good_rcv by done.
  destruct (can_dispatch ix s Hc) as (o & s1 & -> & K1).
  destruct o as [ret rv|v]; [|by exists v, s1].
  destruct (safe_exit_func fid ret rv s1) as (a & s2 & E2 & K2); [by eapply step_ok_good|].
  exists a, s2. split; [done|]. by eapply step_ok_trans.
Qed.

(** *** The response header *)

Definition answer (b : buf) (fid rv : Z) (r : buf) : buf :=
  put hdr_status rv (put hdr_src_func_id fid (put hdr_dst_func_id (get hdr_src_func_id b)
    (put hdr_op (get hdr_op b + MBOX_MSG_OP_RSP_OFFSET) r))).

Lemma good_resp_wr s f v :
  good s → in_union f = true →
  resp (wr f v) s = Some (tt, mk_mst (ms_hw s) (ms_rm s) (ms_rcv s) (put f v (ms_resp s))) ∧
  good (mk_mst (ms_hw s) (ms_rm s) (ms_rcv s) (put f v (ms_resp s))).
Proof using.
  intros (Hl & Hr & Hp) Hf%Nat.leb_le. unfold resp. rewrite wr_eq by lia. split; [done|].
  split_and!; [done..|]. cbn [ms_resp]. rewrite length_put; lia.
Qed.

Lemma exit_func_eq fid ret rv s :
  good s →
  exit_func fid ret rv s =
    Some (ret, mk_mst (ms_hw s) (ms_rm s) (ms_rcv s) (answer (ms_rcv s) fid rv (ms_resp s))).
Proof using.
  intros Hs. unfold exit_func, answer, mbind, mbm_bind. rewrite good_rcv by done.
  destruct (good_resp_wr s hdr_op (get hdr_op (ms_rcv s) + MBOX_MSG_OP_RSP_OFFSET) Hs eq_refl)
    as [-> H1]. rewrite good_rcv by done.
  destruct (good_resp_wr _ hdr_dst_func_id (get hdr_src_func_id (ms_rcv s)) H1 eq_refl) as [E2 H2].
  cbn [ms_rcv]. rewrite E2.
  destruct (good_resp_wr _ hdr_src_func_id fid H2 eq_refl) as [-> H3].
  destruct (good_resp_wr _ hdr_status rv H3 eq_refl) as [-> H4]. done.
Qed.

Lemma answer_fields b fid rv r :
  (msg_size ≤ length r)%nat →
  get hdr_op (answer b fid rv r) = u8 (get hdr_op b + MBOX_MSG_OP_RSP_OFFSET) ∧
  get hdr_dst_func_id (answer b fid rv r) = u16 (get hdr_src_func_id b) ∧
  get hdr_src_func_id (answer b fid rv r) = u16 fid ∧
  get hdr_status (answer b fid rv r) = u8 rv ∧
  (∀ f, in_body f = true → get f (answer b fid rv r) = get f r) ∧
  length (answer b fid rv r) = length r.
Proof using.
  intros Hr. unfold answer, wrap. split_and!; try (mem_simpl; reflexivity).
  - intros f [Hf _]%andb_prop. apply Nat.leb_le in Hf. mem_simpl. done.
  - in_buffer.
Qed.

(** [m] ends at [exit_func]. *)
Definition responds (m : mbm dev outcome) : Prop :=
  ∀ s o s', m s = Some (o, s') → ∃ ret rv, o = Respond ret rv.

Lemma responds_ret ret rv : responds (mret (Respond ret rv)).
Proof using. intros s o s' [= <- _]. eauto. Qed.
Lemma responds_bind {A} (m : mbm dev A) k : (∀ a, responds (k a)) → responds (m ≫= k).
Proof using.
  intros Hk s o s'. unfold mbind, mbm_bind. destruct (m s) as [[a s1]|]; [|done]. apply Hk.
Qed.

Lemma dispatch_responds ix op : is_request op = true → op ≠ MBOX_OP_FMAP → responds (pf_dispatch ix (Some op)).
Proof using.
  intros Ha Hf. destruct op; try discriminate Ha; try (by destruct Hf); cbn [pf_dispatch];
    unfold on_bye, on_hello, on_csr, on_qreq, on_qnotify, on_get_qactive_cnt, on_intr,
      on_qctxt_write, on_qctxt_read, on_qctxt_drop, on_reg_list_read;
    repeat (match goal with
            | |- responds (_ ≫= _) => apply responds_bind; intros ?
            | |- responds (mret _) => apply responds_ret
            | |- responds (match ?x with _ => _ end) => destruct x
            end; cbn beta iota zeta).
Qed.

(** The request to program the function map is answered when the map is
    written; the response is not touched otherwise. *)
Lemma fmap_outcome s o s' : good s → on_fmap s = Some (o, s') →
  (∃ rv, o = Respond 0 rv) ∨ ∃ v, o = Return v ∧ v < 0 ∧ ms_resp s' = ms_resp s.
Proof using.
  intros Hs. unfold on_fmap, mbind, mbm_bind. rewrite !good_rcv by done.
  destruct (write_fmap _ _ _ s) as [[rv s1]|] eqn:E; [|done]. destruct (Z.ltb_spec rv 0); intros [= <- <-]; [right|by left; exists rv].
  exists rv. split_and!; [done|lia|]. unfold write_fmap, rv_of, mbind, mbm_bind, hwop in E.
  destruct (ha_fmap_conf _ _ _ (ms_hw s)) as [[a h]|]; [|done]. by injection E as <- <-.
Qed.
End handler.

(** What the sender of [rcv] takes for its answer: [qdma_mbox_is_msg_response]
    accepts it, it is addressed to the sender and comes from [fid]. *)
Definition answered_to (rcv resp : buf) (fid : Z) : Prop :=
  qdma_mbox_is_msg_response rcv resp = Some true ∧
  get hdr_dst_func_id resp = u16 (get hdr_src_func_id rcv) ∧ get hdr_src_func_id resp = u16 fid.

Lemma answer_accepted {dev : Type} (s1 : mbox_state dev) b op fid rv :
  (msg_size ≤ length b)%nat → good s1 → same_hdr b (ms_rcv s1) →
  msg_op_of (get hdr_op b) = Some op → is_request op = true →
  answered_to b (answer (ms_rcv s1) fid rv (ms_resp s1)) fid.
Proof.
  intros Hb (_ & Hr1 & Hp1) (Ho & Hso & _) Hop Ha.
  destruct (answer_fields (ms_rcv s1) fid rv (ms_resp s1)) as (A1 & A2 & A3 & _ & _ & A6); [lia|]. split_and!.
  - unfold qdma_mbox_is_msg_response. rewrite !rd_eq by (rewrite ?A6; cbn; lia).
    change (Some (get hdr_op b + MBOX_MSG_OP_RSP_OFFSET =?
                  get hdr_op (answer (ms_rcv s1) fid rv (ms_resp s1))) = Some true).
    rewrite A1, Ho. f_equal. apply Z.eqb_eq. symmetry. apply wrap_small.
    assert (get hdr_op b = msg_op_val op) as ->.
    { unfold msg_op_of in Hop. destruct (list_find _ all_ops) as [[k o]|] eqn:E; [|done].
      cbn in Hop. injection Hop as ->. by apply list_find_Some in E as (_ & <- & _). }
    by destruct op.
  - by rewrite A2, Hso.
  - done.
Qed.

(** C28. For every device and access table, a message of a virtual function is
    handled without an access outside the message buffers, and the register
    lock is free afterwards.  The message may be arbitrary bytes; the buffers
    are those of the driver, with the 32 words of the message registers, or
    larger ones.  There are two exceptions, and both are defects of the code:
    the answer to a context read that includes the completion context needs a
    response of the size of the union (152 bytes), and an interrupt message is
    taken to name no more rings than its arrays hold. *)
Theorem qdma_mbox_pf_rcv_msg_handler_safe {dev : Type} `{HwAccessOk dev} (s : mbox_state dev)
    ix fid :
  hw_prg_lock (ms_hw s) = false →
  (msg_size ≤ length (ms_rcv s))%nat → (resp_size (ms_rcv s) ≤ length (ms_resp s))%nat →
  rings_ok (ms_rcv s) →
  ∃ ret s',
    qdma_mbox_pf_rcv_msg_handler ix fid s = Some (ret, s') ∧
    hw_prg_lock (ms_hw s') = false ∧
    length (ms_rcv s') = length (ms_rcv s) ∧ length (ms_resp s') = length (ms_resp s).
Proof.
  intros Hl Hr Hp Hn. destruct (handler_returns ix fid s) as (ret & s' & E & L & R & P & _); [done|].
  by exists ret, s'.
Qed.

(** C34. A request of a virtual function is answered: the response carries the
    opcode the sender waits for ([qdma_mbox_is_msg_response] accepts it), is
    addressed to the sender and names the physical function as its source.  The
    one exception is a request to program the function map that the hardware
    fails: the handler returns the error and leaves the response as it was.
    The conditions on the buffers and on interrupt messages are those of
    safety. *)
Theorem qdma_mbox_pf_rcv_msg_handler_answers {dev : Type} `{HwAccessOk dev}
    (s : mbox_state dev) ix fid op :
  hw_prg_lock (ms_hw s) = false →
  (msg_size ≤ length (ms_rcv s))%nat → (resp_size (ms_rcv s) ≤ length (ms_resp s))%nat →
  rings_ok (ms_rcv s) →
  msg_op_of (get hdr_op (ms_rcv s)) = Some op → is_request op = true →
  ∃ ret s',
    qdma_mbox_pf_rcv_msg_handler ix fid s = Some (ret, s') ∧
    (answered_to (ms_rcv s) (ms_resp s') fid ∨
     op = MBOX_OP_FMAP ∧ ret < 0 ∧ ms_resp s' = ms_resp s).
Proof.
  intros Hl Hr Hp Hn Hop Ha. assert (Hc : can_handle s) by done. pose proof (can_handle_good s Hc) as Hs.
  unfold qdma_mbox_pf_rcv_msg_handler. unfold mbind, mbm_bind. rewrite good_rcv by done.
  destruct (can_dispatch ix s Hc) as (o & s1 & E1 & K1). rewrite E1. rewrite Hop in E1.
  assert (Hout : (∃ ret rv, o = Respond ret rv) ∨
    op = MBOX_OP_FMAP ∧ ∃ v, o = Return v ∧ v < 0 ∧ ms_resp s1 = ms_resp s).
  { destruct (decide (op = MBOX_OP_FMAP)) as [->|Hf]; [|left; by eapply dispatch_responds].
    apply fmap_outcome in E1 as [(rv & ->)|?]; [left; by eexists _, _|by right|done]. }
  destruct Hout as [(ret & rv & ->)|(-> & v & -> & Hv & Er)]; [|exists v, s1; auto].
  pose proof (step_ok_good _ _ _ Hs K1) as Hs1. rewrite exit_func_eq by done.
  eexists _, _. split; [done|]. left. apply (answer_accepted s1 _ op); [done|done|apply K1|done|done].
Qed.

(** ** The resource manager *)

(** A change of the queue range is what a message with opcode [mop] asked for. *)
Definition asked (mop : option mbox_msg_op) (b : buf) (op : rm_op) : Prop :=
  match op with
  | OpDevUpdate _ _ qmax qb =>
      mop = Some MBOX_OP_QREQ ∧ qmax = get fm_qmax b ∧ qb = s32 (get fm_qbase b)
  | _ => True
  end.

Section effects.
Context {dev : Type} `{HA : HwAccess dev}.
Implicit Types s : mbox_state dev.

(** [m] changes the resource manager by at most one operation, on behalf of
    the sender of the message. *)
Definition rm_effect {A} (ix : Z) (mop : option mbox_msg_op) (m : mbm dev A) : Prop :=
  ∀ s a s', m s = Some (a, s') →
    ms_rm s' = ms_rm s ∨
    ∃ op, op_of_function ix (get hdr_src_func_id (ms_rcv s)) op ∧ asked mop (ms_rcv s) op ∧
          ms_rm s' = rm_exec op (ms_rm s).

Lemma rm_effect_same {A} ix mop (m : mbm dev A) : rm_same m → rm_effect ix mop m.
Proof using. intros Hm s a s' E. left. by eapply Hm. Qed.

Lemma bind_inv {A B} (m : mbm dev A) (k : A → mbm dev B) s b s' :
  (m ≫= k) s = Some (b, s') → ∃ a s1, m s = Some (a, s1) ∧ k a s1 = Some (b, s').
Proof using. unfold mbind, mbm_bind. destruct (m s) as [[a s1]|]; [eauto|done]. Qed.

Lemma rcv_rd_inv f s v s' : rcv (rd f) s = Some (v, s') → v = get f (ms_rcv s) ∧ s' = s.
Proof using.
  unfold rcv, rd. destruct (inside _ _ _); [|done]. intros [= <- <-]. by destruct s.
Qed.

Lemma rmop_inv {A} (f : rm_state → A * rm_state) s a s' :
  rmop f s = Some (a, s') → ms_rm s' = (f (ms_rm s)).2.
Proof using. unfold rmop. destruct (f (ms_rm s)). by intros [= _ <-]. Qed.

Ltac next H a s1 E := apply bind_inv in H as (a & s1 & E & H).
Ltac next_rd H v s1 := let E := fresh in next H v s1 E; apply rcv_rd_inv in E as [-> ->].

Lemma effect_bye ix mop ret : rm_effect ix mop (on_bye ix ret).
Proof using.
  intros s a s' H. unfold on_bye in H. next_rd H v s1. next H rv s2 E2. next H u s3 E3.
  apply rm_same_write_fmap in E2. apply rmop_inv in E3. apply rm_same_ret in H. right.
  exists (OpDevDestroy ix (get hdr_src_func_id (ms_rcv s))). split_and!; [done..|].
  cbn [rm_exec]. rewrite H, E3. cbn [snd]. by rewrite E2.
Qed.

Lemma effect_hello ix mop : rm_effect ix mop (on_hello ix).
Proof using.
  intros s a s' H. unfold on_hello in H. next_rd H v s1. next_rd H qb s2. next_rd H qm s3.
  next H r s4 E4. apply rm_same_rmask in E4. destruct r as [[rv qb'] qm'].
  next H u5 s5 E5. apply rm_same_rcv in E5. next H u6 s6 E6. apply rm_same_rcv in E6.
  next H rv7 s7 E7.
  assert (Hs : ms_rm s' = ms_rm s7).
  { revert H. generalize s7, a, s'. intros t b t'. apply rm_same_bind; [|].
    - destruct (rv7 =? 0); [|auto with qdma]. repeat (apply rm_same_bind; [|intros ?]);
        auto with qdma.
    - intros _. apply rm_same_bind; [apply rm_same_write_fmap|auto with qdma]. }
  destruct (rv <? 0).
  - right. exists (OpDevCreate ix (get hdr_src_func_id (ms_rcv s))). split_and!; [done..|].
    apply rmop_inv in E7. cbn [rm_exec]. by rewrite Hs, E7, E6, E5, E4.
  - left. apply rm_same_ret in E7. congruence.
Qed.

Lemma effect_qreq ix : rm_effect ix (Some MBOX_OP_QREQ) (on_qreq ix).
Proof using.
  intros s a s' H. unfold on_qreq in H. next_rd H v s1. next_rd H qb s2. next_rd H qm s3.
  next H u s4 E4. apply rmop_inv in E4.
  assert (Hs : ms_rm s' = ms_rm s4).
  { revert H. generalize s4, a, s'. intros t b t'. apply rm_same_bind; [auto with qdma|].
    intros _. apply rm_same_bind.
    - destruct (u.1 =? 0); [|auto with qdma]. repeat (apply rm_same_bind; [|intros ?]);
        auto with qdma.
    - intros rv. destruct (rv <? 0); [auto with qdma|].
      apply rm_same_bind; [apply rm_same_write_fmap|auto with qdma]. }
  right. exists (OpDevUpdate ix (get hdr_src_func_id (ms_rcv s)) (get fm_qmax (ms_rcv s))
                   (s32 (get fm_qbase (ms_rcv s)))).
  split_and!; [done..|]. cbn [rm_exec]. by rewrite Hs, E4.
Qed.

Lemma effect_qnotify ix mop (count : Z → Z → qdma_dev_q_type → rm_state → Z * rm_state)
    (mk : Z → Z → qdma_dev_q_type → rm_op) :
  (∀ i f t r, (count i f t r).2 = rm_exec (mk i f t) r) →
  (∀ i f t, op_of_function i f (mk i f t)) → (∀ b i f t, asked mop b (mk i f t)) →
  rm_effect ix mop (on_qnotify count ix).
Proof using.
  intros Hc Hf Ha s a s' H. unfold on_qnotify in H. next_rd H v s1. next_rd H q s2.
  next H g s3 E3. apply rm_same_rmask in E3 as E3'. destruct g.
  - next H t s4 E4. assert (s3 = s) as -> by (unfold rmask in E3; congruence).
    apply rcv_rd_inv in E4 as [-> ->]. next H rv s5 E5. apply rmop_inv in E5.
    apply rm_same_ret in H. right. eexists (mk _ _ _). split_and!; [apply Hf|apply Ha|].
    rewrite H, E5. apply Hc.
  - apply rm_same_ret in H. left. congruence.
Qed.

Lemma effect_dispatch ix op : rm_effect ix op (pf_dispatch ix op).
Proof using.
  assert (Hret : ∀ mop o, rm_effect ix mop (mret (Return o)))
    by (intros mop o; apply rm_effect_same; auto with qdma).
  destruct op as [[]|]; cbn [pf_dispatch]; try apply Hret;
    try (apply rm_effect_same, rm_same_intr; intros i r;
         first [ apply (rm_same_intr_bodies QDMA_HW_ACCESS_CLEAR i r)
               | apply (rm_same_intr_bodies QDMA_HW_ACCESS_INVALIDATE i r) ]).
  - apply effect_bye.
  - apply effect_hello.
  - apply rm_effect_same, rm_same_fmap.
  - apply rm_effect_same, rm_same_csr.
  - apply effect_qreq.
  - by apply effect_qnotify with (mk := OpIncrement).
  - by apply effect_qnotify with (mk := OpDecrement).
  - apply rm_effect_same, rm_same_qcnt.
  - apply rm_effect_same, rm_same_qctxt_write.
  - apply rm_effect_same, rm_same_qctxt_read.
  - apply rm_effect_same, rm_same_qctxt_drop.
  - apply rm_effect_same, rm_same_qctxt_drop.
  - apply rm_effect_same, rm_same_reg_list.
  - apply effect_bye.
Qed.

Lemma effect_handler ix fid s a s' :
  qdma_mbox_pf_rcv_msg_handler ix fid s = Some (a, s') →
  ms_rm s' = ms_rm s ∨
  ∃ op, op_of_function ix (get hdr_src_func_id (ms_rcv s)) op ∧
        asked (msg_op_of (get hdr_op (ms_rcv s))) (ms_rcv s) op ∧ ms_rm s' = rm_exec op (ms_rm s).
Proof using.
  intros H. unfold qdma_mbox_pf_rcv_msg_handler in H. next_rd H v s1.
  next H o s2 E2. apply effect_dispatch in E2.
  assert (ms_rm s' = ms_rm s2) as ->; [|done].
  destruct o; [by apply rm_same_exit_func in H|by apply rm_same_ret in H].
Qed.
End effects.

(** C21. A message of one function, whatever its content, leaves the queue range and
    the counters of every other function as they are.  The resource manager
    stays in a reachable state, so that its invariants hold after every sequence
    of messages, provided a request for queues does not overflow: its base and
    count, which the sender chooses, have a sum of at most 32 bits
    ([request_ok]); the code does not check this. *)
Theorem qdma_mbox_pf_rcv_msg_handler_isolates {dev : Type} `{HwAccess dev}
    (s : mbox_state dev) ix fid ret s' :
  qdma_mbox_pf_rcv_msg_handler ix fid s = Some (ret, s') →
  (∀ ix' fid', (ix', fid') ≠ (ix, get hdr_src_func_id (ms_rcv s)) →
     dev_of ix' fid' (ms_rm s') = dev_of ix' fid' (ms_rm s)) ∧
  ∀ m, reachable m (ms_rm s) →
    (msg_op_of (get hdr_op (ms_rcv s)) = Some MBOX_OP_QREQ →
     request_ok (get fm_qmax (ms_rcv s)) (s32 (get fm_qbase (ms_rcv s)))) →
    reachable m (ms_rm s').
Proof.
  intros E. destruct (effect_handler ix fid s ret s' E) as [-> | (op & Hop & Ha & ->)]; [done|]. split.
  - intros ix' fid' Hne. by eapply rm_exec_frame.
  - intros m Hm Hq. eapply reachable_step; [exact Hm|]. constructor. destruct op; try done.
    cbn in Ha |- *. destruct Ha as (Hop' & -> & ->). by apply Hq.
Qed.
