(* ===== verification/MboxProto.v ===== *)
(** * The mailbox protocol end to end

    What a virtual function composes is what the physical function reads, what
    the physical function answers is what the virtual function decodes, and the
    cases in which that is not so. *)

From S2P Require Import Prelude Platform RegIO CtxtTypes.
From S2P Require Import ResMgmt FreeList ResMgmtInv ResMgmtFrame.
From S2P Require Import IndCtxt SoftAccess RegList HwAccess.
From S2P Require Import MboxMsg MboxStruct MboxCompose MboxHandler MboxSafe MboxThms.

(** ** Composing *)

(** The buffer after the lines all composing functions share. *)
Definition fresh_msg (op : mbox_msg_op) (func_id : Z) (b : buf) : buf :=
  put hdr_src_func_id func_id (put hdr_op (msg_op_val op)
    (put_bytes 0 (replicate 152 0) b)).

Lemma begin_msg_eq op fid b :
  (txrx_size ≤ length b)%nat →
  begin_msg op fid b = Some (tt, fresh_msg op fid b) ∧
  length (fresh_msg op fid b) = length b.
Proof.
  intros Hb. unfold begin_msg, mbind, bm_bind, qdma_mbox_memset.
  change (Z.to_nat (u8 sizeof_qdma_mbox_txrx)) with 152%nat.
  rewrite (proj2 (inside_true _ _ _)) by lia.
  change (u8 0) with 0. set (z := put_bytes 0 (replicate 152 0) b).
  assert (Lz : length z = length b)
    by (apply length_put_bytes; rewrite length_replicate; lia).
  rewrite wr_eq by (cbn; lia). rewrite wr_eq by in_buffer. split; [done|].
  unfold fresh_msg. fold z. in_buffer.
Qed.

Lemma get_zeroed f b :
  (txrx_size ≤ length b)%nat → in_union f = true → get f (put_bytes 0 (replicate 152 0) b) = 0.
Proof.
  intros Hb Hf%Nat.leb_le. unfold get.
  assert (get_bytes f.1 f.2 (put_bytes 0 (replicate 152 0) b) = replicate f.2 0) as ->.
  { apply list_eq. intros i. rewrite lookup_get_bytes. case_decide as Hi.
    - rewrite lookup_put_bytes by (rewrite length_replicate; lia).
      rewrite length_replicate, decide_True by lia. rewrite !lookup_replicate_2 by lia. done.
    - symmetry. apply lookup_replicate_None. lia. }
  clear. generalize f.2. intros n. induction n as [|n IH]; [done|].
  change (replicate (S n) 0) with (0 :: replicate n 0). cbn [little_endian_to_Z]. by rewrite IH.
Qed.

Lemma fresh_fields op fid b :
  (txrx_size ≤ length b)%nat →
  get hdr_op (fresh_msg op fid b) = msg_op_val op ∧
  get hdr_src_func_id (fresh_msg op fid b) = u16 fid ∧
  (∀ f, in_union f = true → disjoint_fields hdr_op f → disjoint_fields hdr_src_func_id f →
     get f (fresh_msg op fid b) = 0).
Proof.
  intros Hb. unfold fresh_msg. set (z := put_bytes 0 (replicate 152 0) b).
  assert (Lz : length z = length b)
    by (apply length_put_bytes; rewrite length_replicate; lia).
  split_and!.
  - mem_simpl. by destruct op.
  - mem_simpl. done.
  - intros f Hf H1 H2. rewrite !get_put_other; [|in_buffer..|done|in_buffer|done].
    by apply get_zeroed.
Qed.

Lemma begin_msg_spec op fid b :
  (txrx_size ≤ length b)%nat →
  ∃ b0, begin_msg op fid b = Some (tt, b0) ∧ length b0 = length b ∧
    get hdr_op b0 = msg_op_val op ∧ get hdr_src_func_id b0 = u16 fid ∧
    (∀ f, in_union f = true → disjoint_fields hdr_op f → disjoint_fields hdr_src_func_id f →
       get f b0 = 0).
Proof.
  intros Hb. exists (fresh_msg op fid b). destruct (begin_msg_eq op fid b Hb) as [E L].
  destruct (fresh_fields op fid b Hb) as (F1 & F2 & F3). by split_and!.
Qed.

(** *** Queue context messages *)

Lemma wr_bits_eq f lo w v b :
  (f.1 + f.2 ≤ length b)%nat → wr_bits f lo w v b = Some (tt, put f (set_bits lo w v (get f b)) b).
Proof.
  intros Hf. unfold wr_bits, mbind, bm_bind. rewrite rd_eq by done. by rewrite wr_eq.
Qed.

Definition flags_of (st c2h : Z) (ty : mbox_cmpt_ctxt_type) : Z :=
  set_bits 2 2 (cmpt_type_val ty) (set_bits 0 1 st (set_bits 1 1 c2h 0)).

Lemma cmpt_type_of_val ty : cmpt_type_of (cmpt_type_val ty) = ty.
Proof. by destruct ty. Qed.

(** The buffer after [set_qctxt]. *)
Lemma set_qctxt_eq qid st c2h ty b :
  (txrx_size ≤ length b)%nat → is_u 1 st → is_u 1 c2h → get qctxt_flags b = 0 →
  ∃ b', set_qctxt qid st c2h ty b = Some (tt, b') ∧ length b' = length b ∧
    get qctxt_qid_hw b' = u16 qid ∧ get qctxt_flags b' = flags_of st c2h ty ∧
    (∀ f, disjoint_fields qctxt_qid_hw f → disjoint_fields qctxt_flags f → get f b' = get f b).
Proof.
  intros Hb Hst Hc Hz. unfold set_qctxt, mbind, bm_bind. rewrite wr_eq by (cbn; lia).
  do 3 (rewrite wr_bits_eq by in_buffer). eexists. split; [done|]. split; [in_buffer|].
  mem_simpl. rewrite Hz. split; [done|]. split.
  - assert (st = 0 ∨ st = 1) as Hst' by (unfold is_u in Hst; lia).
    assert (c2h = 0 ∨ c2h = 1) as Hc' by (unfold is_u in Hc; lia).
    by destruct Hst' as [-> | ->], Hc' as [-> | ->], ty.
  - intros f H1 H2. rewrite !get_put_other; try done; in_buffer.
Qed.

Lemma rd_qctxt_eq b qid st c2h ty :
  (txrx_size ≤ length b)%nat → is_u 1 st → is_u 1 c2h →
  get qctxt_qid_hw b = qid → get qctxt_flags b = flags_of st c2h ty →
  rd_qctxt b = Some ((qid, st, c2h, ty), b).
Proof.
  intros Hb Hst Hc Hq Hf. unfold rd_qctxt, rd_bits, mbind, bm_bind, mret, bm_ret.
  rewrite !rd_eq by (cbn; lia). rewrite Hq, Hf.
  assert (st = 0 ∨ st = 1) as Hst' by (unfold is_u in Hst; lia).
  assert (c2h = 0 ∨ c2h = 1) as Hc' by (unfold is_u in Hc; lia).
  by destruct Hst' as [-> | ->], Hc' as [-> | ->], ty.
Qed.

(** C31. What a virtual function asks for in a context write is what the physical
    function decodes: opcode, sender, queue, direction, mode, completion type
    and every member of the queue configuration. *)
Theorem qdma_mbox_compose_vf_qctxt_write_roundtrip func_id qid_hw st c2h ty c img raw :
  is_u 16 func_id → is_u 16 qid_hw → is_u 1 st → is_u 1 c2h → conf_ok c →
  image (Z.to_nat sizeof_mbox_descq_conf) c = Some img → length raw = txrx_size →
  ∃ b, qdma_mbox_compose_vf_qctxt_write func_id qid_hw st c2h ty img (Some raw)
         = Some (QDMA_SUCCESS, Some b) ∧
    msg_op_of (get hdr_op b) = Some MBOX_OP_QCTXT_WRT ∧
    get hdr_src_func_id b = func_id ∧
    rd_qctxt b = Some ((qid_hw, st, c2h, ty), b) ∧
    rd_as mbox_descq_conf qctxt_descq_conf b = Some (c, b).
Proof.
  intros Hfid Hqid Hst Hc2h Hc Hi Hraw. change (Z.to_nat sizeof_mbox_descq_conf) with 32%nat in Hi.
  destruct (begin_msg_spec MBOX_OP_QCTXT_WRT func_id raw) as (b1 & E1 & L1 & F1 & F2 & F3); [lia|].
  destruct (set_qctxt_eq qid_hw st c2h ty b1)
    as (b2 & E2 & L2 & Q1 & Q2 & Q3); [lia|done|done|by apply F3; unfold disjoint_fields; cbn; lia|].
  pose proof (image_length 32 conf_ok c img Hi) as Li. exists (put_bytes qctxt_descq_conf img b2).
  assert (Hlen : length (put_bytes qctxt_descq_conf img b2) = txrx_size).
  { rewrite length_put_bytes; [lia|]. rewrite Li. cbn. lia. }
  assert (Hfr : ∀ f, disjoint_fields (16, 32)%nat f →
            get f (put_bytes qctxt_descq_conf img b2) = get f b2).
  { intros f Hf. apply get_put_bytes_field; rewrite Li; [cbn; lia|done]. }
  split_and!.
  - unfold qdma_mbox_compose_vf_qctxt_write, with_raw, mbind, option_bind, bm_bind.
    rewrite E1, E2. unfold qdma_mbox_memcpy_to. rewrite Li.
    rewrite (take_ge img) by (rewrite Li; done). rewrite Li.
    by rewrite (proj2 (inside_true _ _ _)) by (cbn; lia).
  - rewrite Hfr by (unfold disjoint_fields; cbn; lia).
    rewrite Q3 by (unfold disjoint_fields; cbn; lia). by rewrite F1.
  - rewrite Hfr by (unfold disjoint_fields; cbn; lia).
    rewrite Q3 by (unfold disjoint_fields; cbn; lia). rewrite F2. by apply wrap_small.
  - apply rd_qctxt_eq; [lia|done|done|..].
    + rewrite Hfr by (unfold disjoint_fields; cbn; lia). rewrite Q1. by apply wrap_small.
    + rewrite Hfr by (unfold disjoint_fields; cbn; lia). done.
  - apply (rd_as_image 32 conf_ok); [done..|]. cbn. lia.
Qed.

(** ** Queue requests *)

Lemma compose_qreq_eq func_id qmax qb raw :
  (txrx_size ≤ length raw)%nat →
  ∃ b, qdma_mbox_compose_vf_qreq func_id qmax qb (Some raw) = Some (QDMA_SUCCESS, Some b) ∧
    length b = length raw ∧ get hdr_op b = msg_op_val MBOX_OP_QREQ ∧
    get hdr_src_func_id b = u16 func_id ∧ get fm_qbase b = u32 qb ∧ get fm_qmax b = u32 qmax.
Proof.
  intros Hraw.
  destruct (begin_msg_spec MBOX_OP_QREQ func_id raw Hraw) as (b0 & E1 & L1 & F1 & F2 & _).
  exists (put fm_qmax qmax (put fm_qbase qb b0)). split_and!.
  - unfold qdma_mbox_compose_vf_qreq, with_raw, mbind, option_bind, bm_bind. rewrite E1.
    rewrite wr_eq by (cbn; lia). by rewrite wr_eq by in_buffer.
  - in_buffer.
  - by mem_simpl.
  - by mem_simpl.
  - by mem_simpl.
  - by mem_simpl.
Qed.

Section exchange.
Context {dev : Type} `{HA : HwAccess dev} `{!HwAccessOk dev}.

Lemma good_rcv_wr (s : mbox_state dev) f v :
  good s → in_union f = true →
  rcv (wr f v) s = Some (tt, mk_mst (ms_hw s) (ms_rm s) (put f v (ms_rcv s)) (ms_resp s)) ∧
  good (mk_mst (ms_hw s) (ms_rm s) (put f v (ms_rcv s)) (ms_resp s)).
Proof using.
  intros (Hl & Hr & Hp) Hf%Nat.leb_le. unfold rcv. rewrite wr_eq by lia. split; [done|].
  split_and!; [done| |done]. cbn [ms_rcv]. rewrite length_put; lia.
Qed.

Lemma good_resp_rd (s : mbox_state dev) f :
  good s → in_union f = true → resp (rd f) s = Some (get f (ms_resp s), s).
Proof using.
  intros (_ & _ & Hp) Hf%Nat.leb_le. unfold resp. rewrite rd_eq by lia. by destruct s.
Qed.

Lemma write_fmap_eq f qb qm (s : mbox_state dev) :
  good s → ∃ rv h, write_fmap f qb qm s = Some (rv, mk_mst h (ms_rm s) (ms_rcv s) (ms_resp s)) ∧
    hw_prg_lock h = false.
Proof using HA HwAccessOk0.
  intros (Hl & _). unfold write_fmap, rv_of, mbind, mbm_bind, hwop.
  destruct (fmap_conf_keeps f (Some (mk_fmap (u16 qb) (u16 qm))) QDMA_HW_ACCESS_WRITE (ms_hw s) Hl)
    as (a & h & -> & Hh). by eexists _, _.
Qed.

Lemma bind_eq {A B} (m : mbm dev A) (k : A → mbm dev B) s a s1 :
  m s = Some (a, s1) → (m ≫= k) s = k a s1.
Proof using. intros E. unfold mbind, mbm_bind. by rewrite E. Qed.

Lemma finish_qreq src rq (s : mbox_state dev) :
  good s →
  ∃ h rv', (if rq <? 0 then mret (Respond 0 (ERR QDMA_ERR_MBOX_NUM_QUEUES))
            else write_fmap src 0 0;; mret (Respond 0 rq)) s
      = Some (Respond 0 rv', mk_mst h (ms_rm s) (ms_rcv s) (ms_resp s)) ∧
    hw_prg_lock h = false ∧ (rq = 0 → rv' = 0) ∧ (rq < 0 → rv' = ERR QDMA_ERR_MBOX_NUM_QUEUES).
Proof using HA HwAccessOk0.
  intros Hs. destruct (Z.ltb_spec rq 0).
  - exists (ms_hw s), (ERR QDMA_ERR_MBOX_NUM_QUEUES). split_and!; [by destruct s|apply Hs|lia|done].
  - destruct (write_fmap_eq src 0 0 _ Hs) as (rvf & h & E & Hh). exists h, rq.
    rewrite (bind_eq _ _ _ _ _ E). split_and!; [done..|lia].
Qed.

(** The queue request on the physical function's side. *)
Lemma on_qreq_eq ix (s : mbox_state dev) :
  good s →
  let src := get hdr_src_func_id (ms_rcv s) in
  let '(rv, b, rm') :=
    qdma_dev_update ix src (get fm_qmax (ms_rcv s)) (s32 (get fm_qbase (ms_rcv s))) (ms_rm s) in
  ∃ h r rv', on_qreq ix s = Some (Respond 0 rv', mk_mst h rm' (put fm_qbase b (ms_rcv s)) r) ∧
    good (mk_mst h rm' (put fm_qbase b (ms_rcv s)) r) ∧
    (rv < 0 → rv' = ERR QDMA_ERR_MBOX_NUM_QUEUES) ∧
    (rv = QDMA_SUCCESS → ∀ j d, qdma_get_dev_entry ix src rm' = Some (j, d) →
       rv' = QDMA_SUCCESS ∧ get fm_qbase r = u32 (qbase (entry d)) ∧
       get fm_qmax r = u32 (total_q (entry d))).
Proof using HA HwAccessOk0.
  intros Hs src. destruct (qdma_dev_update ix src _ _ (ms_rm s)) as [[rv b] rm'] eqn:Eu.
  pose proof (dev_update_rv (ms_rm s) ix src (get fm_qmax (ms_rcv s)) (s32 (get fm_qbase (ms_rcv s))))
    as Hrv. rewrite Eu in Hrv. cbn [fst] in Hrv. unfold on_qreq.
  do 3 (erewrite bind_eq; [|by apply good_rcv]). fold src.
  erewrite bind_eq; [|unfold rmop; by rewrite Eu].
  assert (Hs1 : good (mk_mst (ms_hw s) rm' (ms_rcv s) (ms_resp s))) by exact Hs.
  destruct (good_rcv_wr _ fm_qbase b Hs1 eq_refl) as [E2 Hs2].
  rewrite (bind_eq _ _ _ _ _ E2). cbn [ms_hw ms_rm ms_rcv ms_resp fst snd] in *. clear E2.
  destruct Hrv as [-> | Hneg].
  - set (s2 := mk_mst (ms_hw s) rm' (put fm_qbase b (ms_rcv s)) (ms_resp s)) in *.
    destruct (qdma_dev_qinfo_get ix src (s32 (get fm_qbase (ms_resp s))) (get fm_qmax (ms_resp s)) rm')
      as [[rq qb'] qm'] eqn:Eq.
    destruct (good_resp_wr _ fm_qbase qb' Hs2 eq_refl) as [E3 Hs3].
    destruct (good_resp_wr _ fm_qmax qm' Hs3 eq_refl) as [E4 Hs4].
    destruct (finish_qreq src rq _ Hs4) as (h & rv' & E5 & Hh & Hz & Hn).
    exists h, (put fm_qmax qm' (put fm_qbase qb' (ms_resp s))), rv'. split_and!.
    + erewrite bind_eq; [exact E5|]. change (QDMA_SUCCESS =? 0) with true. cbn iota.
      do 2 (erewrite bind_eq; [|by apply good_resp_rd]).
      erewrite bind_eq; [|unfold rmask; cbn [ms_rm s2 ms_resp]; by rewrite Eq].
      cbn [fst snd]. rewrite (bind_eq _ _ _ _ _ E3), (bind_eq _ _ _ _ _ E4). done.
    + by destruct Hs4 as (_ & ? & ?).
    + done.
    + intros _ j d Ed. unfold qdma_dev_qinfo_get in Eq. rewrite Ed in Eq.
      destruct (qdma_get_master_resource_entry ix rm') eqn:Em.
      2: { unfold qdma_get_dev_entry in Ed. by rewrite Em in Ed. }
      injection Eq as <- <- <-. destruct Hs as (_ & _ & Hp). cbn [ms_resp s2]. split_and!.
      * by apply Hz.
      * by mem_simpl.
      * by mem_simpl.
  - destruct (finish_qreq src rv _ Hs2) as (h & rv' & E5 & Hh & Hz & Hn).
    exists h, (ms_resp s), rv'. split_and!.
    + erewrite bind_eq; [exact E5|]. by destruct (Z.eqb_spec rv 0); [lia|].
    + by destruct Hs2 as (_ & ? & ?).
    + done.
    + intros ->. unfold QDMA_SUCCESS in *. lia.
Qed.
End exchange.

Lemma status_eq b : (msg_size ≤ length b)%nat → rd_status b = Some (s8 (get hdr_status b), b).
Proof.
  intros Hb. unfold rd_status, mbind, bm_bind. by rewrite rd_eq by (cbn; lia).
Qed.

Lemma s32_u32 z : - 2 ^ 31 <= z < 2 ^ 31 → s32 (u32 z) = z.
Proof.
  intros Hz. unfold sext, wrap. change (32 - 1) with 31. rewrite Zplus_mod_idemp_l.
  rewrite Z.mod_small; lia.
Qed.

(** C26. A queue request from end to end.  A virtual function composes a request
    for [qmax] queues, the physical function handles it, the virtual function
    decodes the answer: either it learns the base of a block of [qmax] queues
    that the resource manager has recorded as its own, or it learns that the
    request failed. *)
Theorem vf_queue_request {dev : Type} `{HwAccessOk dev} (h : hw_state dev) rm m ix pf func qmax qb
    raw r :
  reachable m rm → hw_prg_lock h = false → is_u 16 func → 0 < qmax < 2 ^ 16 →
  request_ok qmax qb → - 2 ^ 31 <= qb < 2 ^ 31 →
  length raw = txrx_size → length r = txrx_size →
  ∃ b s',
    qdma_mbox_compose_vf_qreq func qmax qb (Some raw) = Some (QDMA_SUCCESS, Some b) ∧
    qdma_mbox_pf_rcv_msg_handler ix pf (mk_mst h rm b r) = Some (0, s') ∧
    ((∃ base j d,
        qdma_mbox_vf_qinfo_get (ms_resp s') = Some ((QDMA_SUCCESS, base, qmax), ms_resp s') ∧
        qdma_get_dev_entry ix func (ms_rm s') = Some (j, d) ∧ entry d = mk_entry base qmax) ∨
     (qdma_dev_update ix func qmax qb rm).1.1 < 0 ∧
     qdma_mbox_vf_response_status (ms_resp s') =
       Some (ERR QDMA_ERR_MBOX_NUM_QUEUES, ms_resp s')).
Proof.
  intros Hm Hl Hf Hq Hrq Hqb Hraw Hr.
  destruct (compose_qreq_eq func qmax qb raw) as (b & E1 & L1 & B1 & B2 & B3 & B4); [lia|].
  assert (Hs : good (mk_mst h rm b r)) by (split_and!; cbn; [done|lia|lia]).
  pose proof (on_qreq_eq ix _ Hs) as Hon. cbn [ms_rcv ms_rm] in Hon.
  rewrite B2, B3, B4, s32_u32, !wrap_small in Hon by (unfold is_u in *; lia || done).
  destruct (qdma_dev_update ix func qmax qb rm) as [[rv bb] rm'] eqn:Eu.
  destruct Hon as (h' & r' & rv' & E2 & Hs' & Hneg & Hok).
  exists b. eexists. split; [exact E1|]. split.
  { unfold qdma_mbox_pf_rcv_msg_handler. erewrite bind_eq; [|by apply good_rcv].
    cbn [ms_rcv]. rewrite B1, msg_op_of_val. cbn [pf_dispatch].
    rewrite (bind_eq _ _ _ _ _ E2). by apply exit_func_eq. }
  cbn [ms_rcv ms_resp ms_rm]. set (b' := put fm_qbase bb b).
  destruct Hs' as (_ & _ & Hr'). cbn [ms_resp] in Hr'.
  destruct (answer_fields b' pf rv' r' Hr') as (_ & _ & _ & A4 & A5 & A6).
  pose proof (dev_update_rv rm ix func qmax qb) as Hrv. rewrite Eu in Hrv. cbn [fst] in *.
  destruct Hrv as [-> | Hn].
  - left. destruct (dev_update_success _ _ _ _ _ _ _ (reachable_ok _ _ Hm) Hrq ltac:(lia) Eu)
      as (Hbb & j & d & Ed & Ee). destruct (Hok eq_refl j d Ed) as (-> & R1 & R2).
    exists bb, j, d. split_and!; [|done..].
    unfold qdma_mbox_vf_qinfo_get, mbind, bm_bind. rewrite !rd_eq by (rewrite A6; cbn; lia).
    rewrite status_eq by lia. rewrite A4, !A5, R1, R2, Ee by done. cbn [qbase total_q].
    unfold mret, bm_ret. rewrite s32_u32 by (unfold INT_MAX in *; lia).
    change (s8 (u8 QDMA_SUCCESS)) with QDMA_SUCCESS.
    by rewrite (wrap_small 32 qmax), (wrap_small 16 qmax) by (unfold is_u; lia).
  - right. split; [done|]. rewrite (Hneg Hn) in *. unfold qdma_mbox_vf_response_status.
    rewrite status_eq by lia. by rewrite A4.
Qed.

(** ** Leaving *)

(** After a virtual function said goodbye the resource manager has no entry
    for it: its queues are free again and a later message that names one of
    them is refused. *)
Theorem vf_bye_releases {dev : Type} `{HwAccessOk dev} (s : mbox_state dev) m ix fid op :
  hw_prg_lock (ms_hw s) = false →
  length (ms_rcv s) = txrx_size → length (ms_resp s) = txrx_size →
  reachable m (ms_rm s) →
  msg_op_of (get hdr_op (ms_rcv s)) = Some op →
  op = MBOX_OP_VF_BYE ∨ op = MBOX_OP_PF_RESET_VF_BYE →
  ∃ ret s', qdma_mbox_pf_rcv_msg_handler ix fid s = Some (ret, s') ∧
    (ret = QDMA_MBOX_VF_OFFLINE ∨ ret = QDMA_MBOX_VF_RESET_BYE) ∧
    dev_of ix (get hdr_src_func_id (ms_rcv s)) (ms_rm s') = None ∧
    ∀ q, qdma_dev_is_queue_in_range ix (get hdr_src_func_id (ms_rcv s)) q (ms_rm s')
           = QDMA_DEV_Q_OUT_OF_RANGE.
Proof.
  intros Hl Hr Hp Hm Hop Hbye. assert (Hs : good s) by (split_and!; [done|lia..]).
  set (src := get hdr_src_func_id (ms_rcv s)).
  assert (Hd : ∀ ret, ∃ rv h, on_bye ix ret s = Some (Respond ret rv,
            mk_mst h (qdma_dev_entry_destroy ix src (ms_rm s)) (ms_rcv s) (ms_resp s)) ∧
            hw_prg_lock h = false).
  { intros ret. destruct (write_fmap_eq src 0 0 s Hs) as (rv & h & E & Hh). exists rv, h.
    split; [|done]. unfold on_bye. erewrite bind_eq; [|by apply good_rcv]. fold src.
    by rewrite (bind_eq _ _ _ _ _ E). }
  assert (Hgone : dev_of ix src (qdma_dev_entry_destroy ix src (ms_rm s)) = None)
    by (apply dev_destroy_gone; by eapply reachable_ok).
  assert (Hrange : ∀ q, qdma_dev_is_queue_in_range ix src q (qdma_dev_entry_destroy ix src (ms_rm s))
                     = QDMA_DEV_Q_OUT_OF_RANGE).
  { intros q. unfold dev_of in Hgone. unfold qdma_dev_is_queue_in_range.
    destruct (qdma_get_dev_entry ix src _); [done|].
    by destruct (qdma_get_master_resource_entry _ _). }
  unfold qdma_mbox_pf_rcv_msg_handler. erewrite bind_eq; [|by apply good_rcv]. rewrite Hop.
  destruct Hbye as [-> | ->]; cbn [pf_dispatch].
  - destruct (Hd QDMA_MBOX_VF_OFFLINE) as (rv & h & E & Hh). rewrite (bind_eq _ _ _ _ _ E).
    rewrite exit_func_eq by (by destruct Hs as (_ & ? & ?)). eexists _, _. split_and!; eauto.
  - destruct (Hd QDMA_MBOX_VF_RESET_BYE) as (rv & h & E & Hh). rewrite (bind_eq _ _ _ _ _ E).
    rewrite exit_func_eq by (by destruct Hs as (_ & ? & ?)). eexists _, _. split_and!; eauto.
Qed.
