(* ===== verification/MboxIO.v ===== *)
(** * The mailbox registers (qdma_mbox_protocol.c)

    Sending and receiving a message through the 32 message registers of a
    function, acknowledgement, initialisation and interrupt control.  Here the
    buffer is seen as an array of 32-bit words. *)

From S2P Require Import Prelude Platform Bits RegIO HwAccess.
From S2P Require Import MboxMsg MboxStruct MboxSafe.

Definition MBOX_FN_STATUS : Z := 0x0.
Definition M_MBOX_FN_STATUS_IN_MSG : Z := 0x1.
Definition F_MBOX_FN_STATUS_OUT_MSG : Z := Z.shiftl 1 1.
Definition F_MBOX_FN_STATUS_ACK : Z := Z.shiftl 1 2.
Definition S_MBOX_FN_STATUS_SRC : Z := 4.
Definition M_MBOX_FN_STATUS_SRC : Z := 0xFFF.
Definition G_MBOX_FN_STATUS_SRC (x : Z) : Z :=
  Z.land (Z.shiftr x S_MBOX_FN_STATUS_SRC) M_MBOX_FN_STATUS_SRC.
Definition MBOX_FN_CMD : Z := 0x4.
Definition F_MBOX_FN_CMD_SND : Z := Z.shiftl 1 0.
Definition F_MBOX_FN_CMD_RCV : Z := Z.shiftl 1 1.
Definition MBOX_ISR_VEC : Z := 0x8.
Definition MBOX_FN_TARGET : Z := 0xC.
Definition M_MBOX_FN_TARGET_ID : Z := 0xFFF.
Definition V_MBOX_FN_TARGET_ID (x : Z) : Z := Z.land x M_MBOX_FN_TARGET_ID.
Definition MBOX_ISR_EN : Z := 0x10.
Definition MBOX_PF_ACK_BASE : Z := 0x20.
Definition MBOX_PF_ACK_STEP : Z := 4.
Definition MBOX_PF_ACK_COUNT : nat := 8.
Definition MBOX_IN_MSG_BASE : Z := 0x800.
Definition MBOX_OUT_MSG_BASE : Z := 0xc00.
Definition MBOX_MSG_STEP : Z := 4.

(** [raw_data[i]] *)
Definition raw_word (i : nat) : field := (4 * i, 4)%nat.

Section mbox_io.
Context {dev : Type} `{Device dev} `{HA : !HwAccess dev}.

Definition get_mbox_offset (is_vf : bool) : Z :=
  if is_vf then ha_mbox_base_vf else ha_mbox_base_pf.

(** A read of the caller's buffer, and a write to it. *)
Definition rd_buf (b : buf) (f : field) : hwm dev Z := λ s,
  '(a, _) ← rd f b; Some (a, s).
Definition wr_buf (b : buf) (f : field) (v : Z) : hwm dev buf := λ s,
  '(_, b) ← wr f v b; Some (b, s).

Definition mbox_pf_hw_clear_func_ack (func_id : Z) : hwm dev () :=
  let idx := func_id / 32 in
  let bit := func_id mod 32 in
  qdma_reg_write (get_mbox_offset false + MBOX_PF_ACK_BASE + idx * MBOX_PF_ACK_STEP)
    (Z.shiftl 1 bit).

(** The loop over the acknowledgement registers. *)
Fixpoint clear_acks (n : nat) (reg : Z) : hwm dev () :=
  match n with
  | O => mret tt
  | S n =>
      v ← qdma_reg_read reg;
      (if v =? 0 then mret tt else qdma_reg_write reg v);;
      clear_acks n (reg + MBOX_PF_ACK_STEP)
  end.

Definition qdma_mbox_pf_hw_clear_ack : hwm dev () :=
  let mbox_base := get_mbox_offset false in
  v ← qdma_reg_read (mbox_base + MBOX_FN_STATUS);
  if Z.land v F_MBOX_FN_STATUS_ACK =? 0 then mret tt
  else clear_acks MBOX_PF_ACK_COUNT (mbox_base + MBOX_PF_ACK_BASE).

(** [n] words from word [i] on. *)
Fixpoint send_words (b : buf) (mbox_base : Z) (n i : nat) : hwm dev () :=
  match n with
  | O => mret tt
  | S n =>
      w ← rd_buf b (raw_word i);
      qdma_reg_write (mbox_base + (MBOX_OUT_MSG_BASE + Z.of_nat i * MBOX_MSG_STEP)) w;;
      send_words b mbox_base n (S i)
  end.

Definition qdma_mbox_send (is_vf : bool) (raw_data : buf) : hwm dev Z :=
  dst_func_id ← rd_buf raw_data hdr_dst_func_id;
  let mbox_base := get_mbox_offset is_vf in
  v ← qdma_reg_read (mbox_base + MBOX_FN_STATUS);
  if negb (Z.land v F_MBOX_FN_STATUS_OUT_MSG =? 0) then mret (ERR QDMA_ERR_MBOX_SEND_BUSY)
  else
    (if is_vf then mret tt
     else qdma_reg_write (mbox_base + MBOX_FN_TARGET) (V_MBOX_FN_TARGET_ID dst_func_id));;
    send_words raw_data mbox_base MBOX_MSG_REG_MAX 0;;
    (if is_vf then mret tt else mbox_pf_hw_clear_func_ack dst_func_id);;
    qdma_reg_write (mbox_base + MBOX_FN_CMD) F_MBOX_FN_CMD_SND;;
    mret QDMA_SUCCESS.

(** Returns the buffer and whether all words so far were zero. *)
Fixpoint rcv_words (b : buf) (mbox_base : Z) (n i : nat) (all_zero : bool) : hwm dev (buf * bool) :=
  match n with
  | O => mret (b, all_zero)
  | S n =>
      v ← qdma_reg_read (mbox_base + (MBOX_IN_MSG_BASE + Z.of_nat i * MBOX_MSG_STEP));
      b ← wr_buf b (raw_word i) v;
      rcv_words b mbox_base n (S i) (all_zero && (u32 v =? 0))
  end.

(** Returns the return value and the buffer. *)
Definition qdma_mbox_rcv (is_vf : bool) (raw_data : buf) : hwm dev (Z * buf) :=
  let mbox_base := get_mbox_offset is_vf in
  v ← qdma_reg_read (mbox_base + MBOX_FN_STATUS);
  if Z.land v M_MBOX_FN_STATUS_IN_MSG =? 0 then mret (ERR QDMA_ERR_MBOX_NO_MSG_IN, raw_data)
  else
    let from_id := if is_vf then 0 else G_MBOX_FN_STATUS_SRC v in
    (if is_vf then mret tt else qdma_reg_write (mbox_base + MBOX_FN_TARGET) from_id);;
    r ← rcv_words raw_data mbox_base MBOX_MSG_REG_MAX 0 true;
    qdma_reg_write (mbox_base + MBOX_FN_CMD) F_MBOX_FN_CMD_RCV;;
    if r.2 : bool then mret (ERR QDMA_ERR_MBOX_ALL_ZERO_MSG, r.1)
    else
      src_func_id ← rd_buf r.1 hdr_src_func_id;
      if negb is_vf && negb (from_id =? src_func_id) then
        b ← wr_buf r.1 hdr_src_func_id from_id; mret (QDMA_SUCCESS, b)
      else mret (QDMA_SUCCESS, r.1).

Definition qdma_mbox_hw_init (is_vf : bool) : hwm dev () :=
  let mbox_base := get_mbox_offset is_vf in
  if is_vf then
    v ← qdma_reg_read (mbox_base + MBOX_FN_STATUS);
    if Z.land v M_MBOX_FN_STATUS_IN_MSG =? 0 then mret tt
    else qdma_reg_write (mbox_base + MBOX_FN_CMD) F_MBOX_FN_CMD_RCV
  else qdma_mbox_pf_hw_clear_ack.

Definition qdma_mbox_enable_interrupts (is_vf : bool) : hwm dev () :=
  let mbox_base := get_mbox_offset is_vf in
  qdma_reg_write (mbox_base + MBOX_ISR_VEC) 0;;
  qdma_reg_write (mbox_base + MBOX_ISR_EN) 1.

Definition qdma_mbox_disable_interrupts (is_vf : bool) : hwm dev () :=
  qdma_reg_write (get_mbox_offset is_vf + MBOX_ISR_EN) 0.

Definition qdma_mbox_out_status (is_vf : bool) : hwm dev Z :=
  v ← qdma_reg_read (get_mbox_offset is_vf + MBOX_FN_STATUS);
  if Z.land v F_MBOX_FN_STATUS_OUT_MSG =? 0 then mret 0 else mret 1.
End mbox_io.

(** ** Receiving *)

(** The bytes a message has on the wire. *)
Definition wire_size : nat := (4 * MBOX_MSG_REG_MAX)%nat.

Section receive.
Context {dev : Type} `{Device dev} `{HA : !HwAccess dev}.
Implicit Types s : hw_state dev.

Lemma bind_hw {A B} (m : hwm dev A) (k : A → hwm dev B) s a s1 :
  m s = Some (a, s1) → (m ≫= k) s = k a s1.
Proof using. intros E. unfold mbind, hwm_bind. by rewrite E. Qed.

Lemma reg_read_eq a s :
  qdma_reg_read a s = Some ((dev_read (u32 a) (hw s)).1,
                            mk_hw (dev_read (u32 a) (hw s)).2 (hw_prg_lock s)).
Proof using. unfold qdma_reg_read. by destruct (dev_read (u32 a) (hw s)). Qed.

Lemma wr_buf_eq b f v s :
  (f.1 + f.2 ≤ length b)%nat → wr_buf b f v s = Some (put f v b, s).
Proof using. intros Hf. unfold wr_buf. by rewrite wr_eq. Qed.
Lemma rd_buf_eq b f s : (f.1 + f.2 ≤ length b)%nat → rd_buf b f s = Some (get f b, s).
Proof using. intros Hf. unfold rd_buf. by rewrite rd_eq. Qed.

Lemma rcv_words_returns b base n i z s :
  (4 * (i + n) ≤ length b)%nat →
  ∃ b' z' s', rcv_words b base n i z s = Some ((b', z'), s') ∧ length b' = length b ∧
    hw_prg_lock s' = hw_prg_lock s.
Proof using.
  revert b i z s. induction n as [|n IH]; intros b i z s Hb; cbn [rcv_words]; [by eexists _, _, _|].
  erewrite bind_hw; [|apply reg_read_eq].
  erewrite bind_hw; [|apply wr_buf_eq; cbn; lia].
  match goal with |- ∃ _ _ _, rcv_words (put _ ?v _) _ _ _ ?z' ?s' = _ ∧ _ =>
    destruct (IH (put (raw_word i) v b) (S i) z' s') as (b' & z2 & s2 & E & L & K) end.
  { rewrite length_put; cbn; lia. }
  exists b', z2, s2. split_and!; [done| |done]. rewrite L. apply length_put. cbn. lia.
Qed.

(** C32. For every device, receiving returns, and a message the physical function
    accepts carries the source the hardware reports, whatever the sender
    wrote into its header. *)
Theorem qdma_mbox_rcv_source raw s :
  (wire_size ≤ length raw)%nat →
  ∃ rv b s', qdma_mbox_rcv false raw s = Some ((rv, b), s') ∧ length b = length raw ∧
    hw_prg_lock s' = hw_prg_lock s ∧
    (rv = QDMA_SUCCESS → get hdr_src_func_id b =
       G_MBOX_FN_STATUS_SRC (dev_read (u32 (get_mbox_offset false + MBOX_FN_STATUS)) (hw s)).1).
Proof using.
  intros Hraw. unfold wire_size, MBOX_MSG_REG_MAX in Hraw. unfold qdma_mbox_rcv.
  erewrite bind_hw; [|apply reg_read_eq].
  set (v := (dev_read _ (hw s)).1). set (s1 := mk_hw _ (hw_prg_lock s)).
  destruct (Z.land v M_MBOX_FN_STATUS_IN_MSG =? 0).
  { eexists _, _, _. split; [done|]. split_and!; done. }
  set (from := G_MBOX_FN_STATUS_SRC v).
  assert (Hfrom : from mod 2 ^ 16 = from).
  { unfold from, G_MBOX_FN_STATUS_SRC. change M_MBOX_FN_STATUS_SRC with (Z.ones 12).
    rewrite Z.land_ones by lia. pose proof (Z.mod_pos_bound (Z.shiftr v S_MBOX_FN_STATUS_SRC) (2 ^ 12)).
    apply Z.mod_small. lia. }
  erewrite bind_hw; [|done].
  match goal with |- ∃ rv b s', (rcv_words ?r ?base ?n ?i ?z ≫= _) ?s0 = _ ∧ _ =>
    destruct (rcv_words_returns r base n i z s0) as (b & zz & s2 & E & L & K);
      [unfold MBOX_MSG_REG_MAX; lia|] end.
  rewrite (bind_hw _ _ _ _ _ E). erewrite bind_hw; [|done]. cbn [fst snd]. destruct zz.
  { eexists _, _, _. split; [done|]. split_and!; done. }
  erewrite bind_hw; [|apply rd_buf_eq; cbn; lia]. cbn [negb andb].
  destruct (Z.eqb_spec from (get hdr_src_func_id b)) as [Heq|Hne]; cbn [negb].
  - eexists _, _, _. split; [done|]. by split_and!.
  - erewrite bind_hw; [|apply wr_buf_eq; cbn; lia]. eexists _, _, _. split; [done|].
    split_and!; [|done|].
    + rewrite length_put; cbn; lia.
    + intros _. rewrite get_put_same by (cbn; lia). done.
Qed.
End receive.

(** ** Sending *)

(** A device together with the register writes it has seen. *)
Record logged (dev : Type) := mk_logged { ld : dev; log : list (Z * Z) }.
Arguments mk_logged {dev} _ _.
Arguments ld {dev} _.
Arguments log {dev} _.

#[export] Instance logged_device {dev} `{Device dev} : Device (logged dev) := {|
  dev_read a d := let '(v, d') := dev_read a (ld d) in (v, mk_logged d' (log d));
  dev_write a v d := mk_logged (dev_write a v (ld d)) (log d ++ [(a, v)]);
  dev_delay us d := mk_logged (dev_delay us (ld d)) (log d) |}.

(** The words of a message. *)
Definition words_of (b : buf) : list Z := (λ i, get (raw_word i) b) <$> seq 0 MBOX_MSG_REG_MAX.

Section send.
Context {dev : Type} `{Device dev} `{HA : !HwAccess (logged dev)}.
Implicit Types s : hw_state (logged dev).

Lemma reg_write_log a v s :
  ∃ s', qdma_reg_write a v s = Some (tt, s') ∧ log (hw s') = log (hw s) ++ [(u32 a, u32 v)] ∧
    hw_prg_lock s' = hw_prg_lock s.
Proof using. eexists. split; [done|]. done. Qed.

Definition out_writes (base : Z) (b : buf) (n i : nat) : list (Z * Z) :=
  (λ j, (u32 (base + (MBOX_OUT_MSG_BASE + Z.of_nat j * MBOX_MSG_STEP)),
         u32 (get (raw_word j) b))) <$> seq i n.

Lemma send_words_log b base n i s :
  (4 * (i + n) ≤ length b)%nat →
  ∃ s', send_words b base n i s = Some (tt, s') ∧
    log (hw s') = log (hw s) ++ out_writes base b n i ∧ hw_prg_lock s' = hw_prg_lock s.
Proof using.
  revert i s. induction n as [|n IH]; intros i s Hb; cbn [send_words].
  { exists s. cbn. rewrite app_nil_r. done. }
  erewrite bind_hw; [|apply rd_buf_eq; cbn; lia].
  destruct (reg_write_log (base + (MBOX_OUT_MSG_BASE + Z.of_nat i * MBOX_MSG_STEP))
              (get (raw_word i) b) s) as (s1 & E1 & L1 & K1).
  rewrite (bind_hw _ _ _ _ _ E1). destruct (IH (S i) s1) as (s2 & E2 & L2 & K2); [lia|].
  exists s2. split_and!; [done| |congruence].
  rewrite L2, L1. unfold out_writes. cbn [seq fmap list_fmap]. by rewrite <- app_assoc.
Qed.

(** The status register says that the previous message is still there. *)
Definition out_busy (is_vf : bool) s : bool :=
  negb (Z.land (dev_read (u32 (get_mbox_offset is_vf + MBOX_FN_STATUS)) (hw s)).1
          F_MBOX_FN_STATUS_OUT_MSG =? 0).

(** What sending writes, in order. *)
Definition send_log (is_vf : bool) (b : buf) : list (Z * Z) :=
  let base := get_mbox_offset is_vf in
  let dst := get hdr_dst_func_id b in
  (if is_vf then [] else [(u32 (base + MBOX_FN_TARGET), u32 (V_MBOX_FN_TARGET_ID dst))]) ++
  out_writes base b MBOX_MSG_REG_MAX 0 ++
  (if is_vf then []
   else [(u32 (base + MBOX_PF_ACK_BASE + dst / 32 * MBOX_PF_ACK_STEP),
          u32 (Z.shiftl 1 (dst mod 32)))]) ++
  [(u32 (base + MBOX_FN_CMD), u32 F_MBOX_FN_CMD_SND)].

(** Sending: while the previous message is pending nothing is written and the
    caller is told so; otherwise, on every device, the target is selected, the
    32 words are written in order, an old acknowledgement is cleared, and only
    then the send command is given. *)
Theorem qdma_mbox_send_spec is_vf raw s :
  (wire_size ≤ length raw)%nat →
  ∃ rv s', qdma_mbox_send is_vf raw s = Some (rv, s') ∧ hw_prg_lock s' = hw_prg_lock s ∧
    if out_busy is_vf s then rv = ERR QDMA_ERR_MBOX_SEND_BUSY ∧ log (hw s') = log (hw s)
    else rv = QDMA_SUCCESS ∧ log (hw s') = log (hw s) ++ send_log is_vf raw.
Proof using.
  intros Hraw. unfold wire_size, MBOX_MSG_REG_MAX in Hraw. unfold qdma_mbox_send, out_busy.
  erewrite bind_hw; [|apply rd_buf_eq; cbn; lia].
  erewrite bind_hw; [|apply reg_read_eq].
  set (v := (dev_read _ (hw s)).1). set (s1 := mk_hw _ (hw_prg_lock s)).
  assert (L1 : log (hw s1) = log (hw s)).
  { unfold s1. cbn [hw dev_read logged_device].
    by destruct (dev_read (u32 (get_mbox_offset is_vf + MBOX_FN_STATUS)) (ld (hw s))). }
  destruct (negb (Z.land v F_MBOX_FN_STATUS_OUT_MSG =? 0)); [by eexists _, _|].
  set (base := get_mbox_offset is_vf). set (dst := get hdr_dst_func_id raw).
  assert (∃ s2, (if is_vf then mret tt else qdma_reg_write (base + MBOX_FN_TARGET)
                   (V_MBOX_FN_TARGET_ID dst)) s1 = Some (tt, s2) ∧
            log (hw s2) = log (hw s) ++ (if is_vf then [] else
              [(u32 (base + MBOX_FN_TARGET), u32 (V_MBOX_FN_TARGET_ID dst))]) ∧
            hw_prg_lock s2 = hw_prg_lock s) as (s2 & E2 & L2 & K2).
  { destruct is_vf.
    - exists s1. by rewrite app_nil_r.
    - destruct (reg_write_log (base + MBOX_FN_TARGET) (V_MBOX_FN_TARGET_ID dst) s1)
        as (s2 & E & L & K). exists s2. by rewrite L, L1. }
  rewrite (bind_hw _ _ _ _ _ E2).
  destruct (send_words_log raw base MBOX_MSG_REG_MAX 0 s2) as (s3 & E3 & L3 & K3);
    [unfold MBOX_MSG_REG_MAX; lia|]. rewrite (bind_hw _ _ _ _ _ E3).
  assert (∃ s4, (if is_vf then mret tt else mbox_pf_hw_clear_func_ack dst) s3 = Some (tt, s4) ∧
            log (hw s4) = log (hw s3) ++ (if is_vf then [] else
              [(u32 (base + MBOX_PF_ACK_BASE + dst / 32 * MBOX_PF_ACK_STEP),
                u32 (Z.shiftl 1 (dst mod 32)))]) ∧
            hw_prg_lock s4 = hw_prg_lock s3) as (s4 & E4 & L4 & K4).
  { destruct is_vf.
    - exists s3. by rewrite app_nil_r.
    - apply reg_write_log. }
  rewrite (bind_hw _ _ _ _ _ E4).
  destruct (reg_write_log (base + MBOX_FN_CMD) F_MBOX_FN_CMD_SND s4) as (s5 & E5 & L5 & K5).
  rewrite (bind_hw _ _ _ _ _ E5). exists QDMA_SUCCESS, s5.
  split_and!; [done|congruence|done|]. rewrite L5, L4, L3, L2. unfold send_log.
  by rewrite <- !app_assoc.
Qed.
End send.

(** ** From sender to receiver *)

Definition bytes_ok (b : buf) : Prop := Forall (is_u 8) b.

Lemma bytes_ok_put f v b : bytes_ok b → bytes_ok (put f v b).
Proof.
  intros Hb. unfold put, put_bytes, bytes_ok in *. rewrite !Forall_app. split_and!.
  - by apply Forall_take.
  - unfold le_bytes. apply Z_to_little_endian_bound; lia.
  - by apply Forall_drop.
Qed.

(** Buffers that agree on their words agree on every member inside them. *)
Lemma words_agree b b' n f :
  bytes_ok b → bytes_ok b' → (4 * n ≤ length b)%nat → (4 * n ≤ length b')%nat →
  (∀ j, (j < n)%nat → get (raw_word j) b = get (raw_word j) b') →
  (f.1 + f.2 ≤ 4 * n)%nat → get f b = get f b'.
Proof.
  intros Hb Hb' Ln Ln' Hw Hf.
  assert (Hk : ∀ k, (k < 4 * n)%nat → b !! k = b' !! k).
  { intros k Hk. pose proof (Nat.div_mod_eq k 4). pose proof (Nat.mod_upper_bound k 4).
    specialize (Hw (k / 4)%nat ltac:(lia)). unfold get in Hw. cbn [raw_word fst snd] in Hw.
    assert (get_bytes (4 * (k / 4)) 4 b = get_bytes (4 * (k / 4)) 4 b') as Heq.
    { rewrite <- (Z_to_little_endian_to_Z 4 8 (get_bytes (4 * (k / 4)) 4 b)),
        <- (Z_to_little_endian_to_Z 4 8 (get_bytes (4 * (k / 4)) 4 b')).
      - by rewrite Hw.
      - rewrite length_get_bytes; lia.
      - lia.
      - unfold get_bytes. by apply Forall_take, Forall_drop.
      - rewrite length_get_bytes; lia.
      - lia.
      - unfold get_bytes. by apply Forall_take, Forall_drop. }
    apply (f_equal (.!! (k mod 4)%nat)) in Heq. rewrite !lookup_get_bytes, !decide_True in Heq by lia.
    by replace (4 * (k / 4) + k mod 4)%nat with k in Heq by lia. }
  unfold get. f_equal. apply list_eq. intros i. rewrite !lookup_get_bytes.
  case_decide; [|done]. apply Hk. lia.
Qed.

Section deliver.
Context {dev : Type} `{Device dev} `{HA : !HwAccess dev}.
Context (is_vf : bool) (status : Z) (b : buf).

(** A device whose incoming message is [b]: as long as [P] holds the status
    register has the value [status], the message registers have the words of
    [b], and selecting the source does not change that. *)
Definition presents (P : dev → Prop) : Prop :=
  let base := get_mbox_offset is_vf in
  (∀ d, P d → ∃ d', dev_read (u32 (base + MBOX_FN_STATUS)) d = (status, d') ∧ P d') ∧
  (∀ d i, P d → (i < MBOX_MSG_REG_MAX)%nat →
     ∃ d', dev_read (u32 (base + (MBOX_IN_MSG_BASE + Z.of_nat i * MBOX_MSG_STEP))) d =
             (get (raw_word i) b, d') ∧ P d') ∧
  (∀ d v, P d → P (dev_write (u32 (base + MBOX_FN_TARGET)) v d)).

Context (P : dev → Prop) (HP : presents P) (Hb : bytes_ok b) (Hlb : (wire_size ≤ length b)%nat).

Lemma get_word_bound i : (i < 32)%nat → is_u 32 (get (raw_word i) b).
Proof using Hb Hlb.
  intros Hi. unfold wire_size, MBOX_MSG_REG_MAX in Hlb. unfold get.
  pose proof (little_endian_to_Z_bound 8 (get_bytes (raw_word i).1 (raw_word i).2 b)) as Hbd.
  rewrite length_get_bytes in Hbd by (cbn; lia). apply Hbd; [lia|].
  unfold get_bytes. by apply Forall_take, Forall_drop.
Qed.

Lemma rcv_words_deliver x n i z d l :
  P d → bytes_ok x → (i + n ≤ 32)%nat → (wire_size ≤ length x)%nat →
  ∃ x' d', rcv_words x (get_mbox_offset is_vf) n i z (mk_hw d l) =
      Some ((x', z && forallb (λ j, get (raw_word j) b =? 0) (seq i n)), mk_hw d' l) ∧
    P d' ∧ bytes_ok x' ∧ length x' = length x ∧
    (∀ j, (i ≤ j < i + n)%nat → get (raw_word j) x' = get (raw_word j) b) ∧
    (∀ j, (j < i)%nat → get (raw_word j) x' = get (raw_word j) x).
Proof using HP Hb Hlb.
  revert x i z d. induction n as [|n IH]; intros x i z d Hd Hx Hin Hlx; cbn [rcv_words].
  { exists x, d. cbn. rewrite andb_true_r. split_and!; try done. intros j Hj. lia. }
  destruct HP as (_ & Hr & _). destruct (Hr d i Hd) as (d1 & E1 & H1); [unfold MBOX_MSG_REG_MAX; lia|].
  erewrite bind_hw; [|rewrite reg_read_eq; cbn [hw hw_prg_lock]; by rewrite E1]. cbn [fst snd].
  unfold wire_size, MBOX_MSG_REG_MAX in Hlx.
  erewrite bind_hw; [|apply wr_buf_eq; cbn; lia].
  rewrite wrap_small by (apply get_word_bound; lia).
  destruct (IH (put (raw_word i) (get (raw_word i) b) x) (S i) (z && (get (raw_word i) b =? 0)) d1)
    as (x' & d' & E & HP' & Hx' & Hlen & Hj & Ho); [done|by apply bytes_ok_put|lia| |].
  { rewrite length_put by (cbn; lia). unfold wire_size, MBOX_MSG_REG_MAX. lia. }
  exists x', d'. split_and!; try done.
  - rewrite E. cbn [seq forallb]. by rewrite andb_assoc.
  - rewrite Hlen. apply length_put. cbn. lia.
  - intros j Hij. destruct (decide (j = i)) as [->|]; [|apply Hj; lia].
    rewrite Ho by lia. rewrite get_put_same by (cbn; lia).
    apply wrap_small, get_word_bound. lia.
  - intros j Hji. rewrite Ho by lia. apply get_put_other; [cbn; lia|].
    unfold disjoint_fields. cbn. lia.
Qed.

(** C33. A message that is not all zero and announced by the status register is
    received as it was sent: every member inside the message registers has the
    value it has in the sender's buffer, except that the physical function
    replaces the source by the one the hardware reports. *)
Theorem qdma_mbox_rcv_delivers raw d l :
  P d → bytes_ok raw → (wire_size ≤ length raw)%nat →
  Z.land status M_MBOX_FN_STATUS_IN_MSG ≠ 0 →
  forallb (λ j, get (raw_word j) b =? 0) (seq 0 MBOX_MSG_REG_MAX) = false →
  ∃ b' s', qdma_mbox_rcv is_vf raw (mk_hw d l) = Some ((QDMA_SUCCESS, b'), s') ∧
    ∀ f, (f.1 + f.2 ≤ wire_size)%nat → is_vf = true ∨ disjoint_fields hdr_src_func_id f →
      get f b' = get f b.
Proof using HP Hb Hlb.
  intros Hd Hraw Hlr Hst Hnz. unfold qdma_mbox_rcv.
  pose proof HP as (Hs & _ & Ht). destruct (Hs d Hd) as (d1 & E1 & H1).
  erewrite bind_hw; [|rewrite reg_read_eq; cbn [hw hw_prg_lock]; by rewrite E1]. cbn [fst snd].
  destruct (Z.eqb_spec (Z.land status M_MBOX_FN_STATUS_IN_MSG) 0); [done|].
  set (from := if is_vf then 0 else G_MBOX_FN_STATUS_SRC status).
  assert (∃ d2, (if is_vf then mret tt else qdma_reg_write (get_mbox_offset is_vf + MBOX_FN_TARGET)
                  from) (mk_hw d1 l) = Some (tt, mk_hw d2 l) ∧ P d2) as (d2 & E2 & H2).
  { destruct is_vf; [by exists d1|]. eexists. split; [done|]. by apply Ht. }
  rewrite (bind_hw _ _ _ _ _ E2).
  destruct (rcv_words_deliver raw MBOX_MSG_REG_MAX 0 true d2 l)
    as (x & d3 & E3 & H3 & Hx & Hlx & Hw & _); [done|done|done|done|].
  rewrite (bind_hw _ _ _ _ _ E3). erewrite bind_hw; [|done]. rewrite Hnz. cbn [fst snd andb].
  unfold wire_size, MBOX_MSG_REG_MAX in *.
  assert (Hf : ∀ f, (f.1 + f.2 ≤ 4 * 32)%nat → get f x = get f b).
  { intros f Hf. apply (words_agree x b 32); [done|done|lia|lia| |done]. intros j Hj. apply Hw. lia. }
  erewrite bind_hw; [|apply rd_buf_eq; cbn; lia].
  destruct (negb is_vf && negb (from =? get hdr_src_func_id x)) eqn:Ec.
  - apply andb_prop in Ec as [Ev _]. erewrite bind_hw; [|apply wr_buf_eq; cbn; lia].
    eexists _, _. split; [done|]. intros f Hfl [Hv|Hd']; [by rewrite Hv in Ev|].
    rewrite get_put_other by (cbn; lia || done). by apply Hf.
  - eexists _, _. split; [done|]. intros f Hfl _. by apply Hf.
Qed.
End deliver.
