(* ===== verification/MboxLimits.v ===== *)
(** * What the handlers protect, and what they do not

    A context message about a queue the sender does not own does not reach the
    hardware, but is answered with success; messages about a completion
    context alone, interrupt rings and register sizes are not checked.  The
    last part applies the mailbox theorems to concrete messages. *)

From S2P Require Import Prelude Platform Bits RegIO CtxtTypes.
From S2P Require Import ResMgmt FreeList ResMgmtInv ResMgmtThms ResMgmtFrame.
From S2P Require Import IndCtxt SoftReg SoftCtxt SoftAccess RegList HwAccess.
From S2P Require Import MboxMsg MboxStruct MboxCompose MboxHandler MboxSafe MboxThms MboxProto MboxIO.

(** ** Ownership *)

Section ownership.
Context {dev : Type} `{HA : HwAccess dev}.
Implicit Types s : mbox_state dev.

Lemma if_in_range_out ix f q k s :
  qdma_dev_is_queue_in_range ix f q (ms_rm s) = QDMA_DEV_Q_OUT_OF_RANGE →
  ∃ rv, if_in_range ix f q k s = Some (rv, s) ∧
        (is_Some (dev_of ix f (ms_rm s)) → rv = QDMA_SUCCESS).
Proof using.
  intros Hq. unfold if_in_range. erewrite bind_eq; [|done].
  assert (Hrv : is_Some (dev_of ix f (ms_rm s)) →
            (qdma_dev_qinfo_get ix f 0 0 (ms_rm s)).1.1 = QDMA_SUCCESS).
  { intros [d Hd]. unfold dev_of in Hd. unfold qdma_dev_qinfo_get.
    destruct (qdma_get_dev_entry ix f (ms_rm s)) as [[j d']|] eqn:E; [|done].
    unfold qdma_get_dev_entry in E. by destruct (qdma_get_master_resource_entry ix (ms_rm s)). }
  destruct (_ <? 0); [by eexists|]. erewrite bind_eq; [|unfold rmask; by rewrite Hq]. by eexists.
Qed.

Lemma rcv_eq {A} (m : bm A) s a b :
  m (ms_rcv s) = Some (a, b) → rcv m s = Some (a, mk_mst (ms_hw s) (ms_rm s) b (ms_resp s)).
Proof using. intros E. unfold rcv. by rewrite E. Qed.

(** The message's function id is replaced by the sender's. *)
Lemma conf_func_src b src :
  (msg_size ≤ length b)%nat → is_u 16 src →
  ∃ c, rd_as mbox_descq_conf qctxt_descq_conf
         (put conf_func_unit (set_bits 0 16 src (get conf_func_unit b)) b) =
         Some (c, put conf_func_unit (set_bits 0 16 src (get conf_func_unit b)) b) ∧
       c_func_id c = src.
Proof using.
  intros Hb Hsrc. set (v := set_bits 0 16 src (get conf_func_unit b)).
  eexists. split.
  - unfold rd_as, mbind, bm_bind. rewrite (rd_struct_eq _ _ _ 32); [done| |].
    + repeat constructor; cbn; lia.
    + rewrite length_put; cbn; lia.
  - cbn -[get put unpack v]. unfold word. cbn -[get put unpack v].
    change (get (at_ qctxt_descq_conf (20, 4)%nat)) with (get conf_func_unit).
    rewrite get_put_same by (cbn; lia). unfold conf_func_widths. cbn [unpack lookup list_lookup default].
    change (2 ^ (8 * Z.of_nat conf_func_unit.2)) with (2 ^ 16 * 2 ^ 16).
    unfold id. rewrite Z.mod_mod_divide by (by exists (2 ^ 16)).
    rewrite <- Z.land_ones by lia. pose proof (get_set_bits_same 0 16 src (get conf_func_unit b)) as Hs.
    unfold get_bits in Hs. rewrite Z.shiftr_0_r in Hs. fold v in Hs. rewrite Hs by lia.
    by apply Z.mod_small.
Qed.

Lemma rd_qctxt_put f v b :
  (msg_size ≤ length b)%nat → in_union f = true →
  disjoint_fields f qctxt_qid_hw → disjoint_fields f qctxt_flags →
  ∃ q, rd_qctxt b = Some (q, b) ∧ rd_qctxt (put f v b) = Some (q, put f v b).
Proof using.
  intros Hb Hf%Nat.leb_le H1 H2. unfold rd_qctxt, rd_bits, mbind, bm_bind, mret, bm_ret.
  rewrite !rd_eq by (rewrite ?length_put by lia; cbn; lia).
  rewrite !get_put_other by (lia || done). by eexists.
Qed.

Lemma half_bound b off :
  (off + 2 ≤ length b)%nat → bytes_ok b → is_u 16 (get (off, 2)%nat b).
Proof using.
  intros Hl Hb. unfold get. pose proof (little_endian_to_Z_bound 8 (get_bytes off 2 b)) as Hbd.
  rewrite length_get_bytes in Hbd by lia. apply Hbd; [lia|].
  unfold get_bytes. by apply Forall_take, Forall_drop.
Qed.

Lemma src_bound b : (msg_size ≤ length b)%nat → bytes_ok b → is_u 16 (get hdr_src_func_id b).
Proof using. intros Hl. apply half_bound. lia. Qed.

Lemma rd_qctxt_bound b q : bytes_ok b → rd_qctxt b = Some (q, b) → is_u 16 q.1.1.1.
Proof using.
  intros Hb. unfold rd_qctxt, rd_bits, mbind, bm_bind, mret, bm_ret. unfold rd at 1.
  destruct (inside _ _ b) eqn:E; [|done]. apply inside_true in E. unfold rd.
  destruct (inside qctxt_flags.1 qctxt_flags.2 b) eqn:E2; [|done]. rewrite E2, E2.
  intros Hq. injection Hq as Hq. rewrite <- Hq. by apply half_bound.
Qed.

(** The messages that are checked against the sender's queue range. *)
Definition is_owner_checked (op : mbox_msg_op) (ty : mbox_cmpt_ctxt_type) : bool :=
  match op with
  | MBOX_OP_QCTXT_WRT => true
  | MBOX_OP_QCTXT_CLR | MBOX_OP_QCTXT_INV => bool_decide (ty ≠ QDMA_MBOX_CMPT_CTXT_ONLY)
  | _ => false
  end.

Section out_of_range.
Context (ix : Z) (s : mbox_state dev) (q : Z * Z * Z * mbox_cmpt_ctxt_type).
Context (Hs : good s) (Hb : bytes_ok (ms_rcv s)).
Context (Hq : rd_qctxt (ms_rcv s) = Some (q, ms_rcv s)).
Let src := get hdr_src_func_id (ms_rcv s).
Context (Hr : qdma_dev_is_queue_in_range ix src q.1.1.1 (ms_rm s) = QDMA_DEV_Q_OUT_OF_RANGE).

(** [o] leaves the hardware alone and answers success if the sender is known. *)
Definition ignored (m : mbm dev outcome) : Prop :=
  ∃ rv b, m s = Some (Respond 0 rv, mk_mst (ms_hw s) (ms_rm s) b (ms_resp s)) ∧
    length b = length (ms_rcv s) ∧ (is_Some (dev_of ix src (ms_rm s)) → rv = QDMA_SUCCESS).

Lemma drop_ignored t : q.2 ≠ QDMA_MBOX_CMPT_CTXT_ONLY → ignored (on_qctxt_drop t ix).
Proof using Hs Hb Hq Hr.
  intros Hty. unfold ignored, on_qctxt_drop. erewrite bind_eq; [|by apply good_rcv].
  erewrite bind_eq; [|by apply rcv_eq]. destruct q as [[[qid st] c2h] ty]. cbn [fst snd] in *.
  unfold drop_queue_contexts. rewrite bool_decide_eq_false_2 by done.
  replace (mk_mst (ms_hw s) (ms_rm s) (ms_rcv s) (ms_resp s)) with s by (by destruct s).
  match goal with |- context [if_in_range ?i ?f ?q ?k] =>
    destruct (if_in_range_out i f q k s Hr) as (rv & E & Hrv) end.
  rewrite (bind_eq _ _ _ _ _ E). exists rv, (ms_rcv s). split_and!; [by destruct s|done..].
Qed.

Lemma write_ignored : ignored (on_qctxt_write ix).
Proof using Hs Hb Hq Hr.
  pose proof Hs as (_ & Hl & _). unfold ignored, on_qctxt_write.
  erewrite bind_eq; [|by apply good_rcv]. fold src.
  set (v := set_bits 0 16 src (get conf_func_unit (ms_rcv s))).
  erewrite bind_eq; [|by apply rcv_eq, wr_bits_eq; cbn; lia]. fold v.
  destruct (rd_qctxt_put conf_func_unit v (ms_rcv s)) as (q' & E1 & E2);
    [done|done|unfold disjoint_fields; cbn; lia..|]. rewrite Hq in E1. injection E1 as <-.
  erewrite bind_eq; [|by apply rcv_eq]. destruct q as [[[qid st] c2h] ty]. cbn [fst snd] in *.
  destruct (conf_func_src (ms_rcv s) src Hl) as (c & E3 & Hc); [by apply src_bound|].
  erewrite bind_eq; [|by apply rcv_eq].
  unfold mbox_write_queue_contexts. cbn [q_qid_hw q_descq_conf ms_hw ms_rm ms_resp]. rewrite Hc.
  match goal with |- context [(if_in_range ?i ?f ?q ?k ≫= _) ?t] =>
    destruct (if_in_range_out i f q k t Hr) as (rv & E & Hrv) end.
  rewrite (bind_eq _ _ _ _ _ E). eexists rv, _. split_and!; [done| |done].
  apply length_put. cbn. lia.
Qed.

Lemma checked_ignored op : is_owner_checked op q.2 = true → ignored (pf_dispatch ix (Some op)).
Proof using Hs Hb Hq Hr.
  destruct op; intros Hop; try discriminate Hop; cbn [pf_dispatch].
  - apply write_ignored.
  - apply drop_ignored. by apply bool_decide_eq_true in Hop.
  - apply drop_ignored. by apply bool_decide_eq_true in Hop.
Qed.
End out_of_range.
End ownership.

(** A virtual function cannot program, clear or invalidate the contexts of a
    queue outside the range the resource manager gave it, whatever else its
    message says (in particular whatever function id it claims): the hardware
    and the resource manager stay as they are.  The message is answered with
    success all the same if the sender is known. *)
Theorem qctxt_of_foreign_queue_ignored {dev : Type} `{HA : HwAccess dev}
    (s : mbox_state dev) ix fid op q :
  hw_prg_lock (ms_hw s) = false →
  length (ms_rcv s) = txrx_size → length (ms_resp s) = txrx_size → bytes_ok (ms_rcv s) →
  msg_op_of (get hdr_op (ms_rcv s)) = Some op → rd_qctxt (ms_rcv s) = Some (q, ms_rcv s) →
  is_owner_checked op q.2 = true →
  qdma_dev_is_queue_in_range ix (get hdr_src_func_id (ms_rcv s)) q.1.1.1 (ms_rm s)
    = QDMA_DEV_Q_OUT_OF_RANGE →
  ∃ s', qdma_mbox_pf_rcv_msg_handler ix fid s = Some (0, s') ∧
    ms_hw s' = ms_hw s ∧ ms_rm s' = ms_rm s ∧
    (is_Some (dev_of ix (get hdr_src_func_id (ms_rcv s)) (ms_rm s)) →
     qdma_mbox_vf_response_status (ms_resp s') = Some (QDMA_SUCCESS, ms_resp s')).
Proof.
  intros Hl Hr Hp Hb Hop Hq Hc Hrange. assert (Hs : good s) by (split_and!; [done|lia..]).
  destruct (checked_ignored ix s q Hs Hb Hq Hrange op Hc) as (rv & b & E & Hlb & Hrv).
  unfold qdma_mbox_pf_rcv_msg_handler. erewrite bind_eq; [|by apply good_rcv]. rewrite Hop.
  rewrite (bind_eq _ _ _ _ _ E).
  rewrite exit_func_eq by (destruct Hs as (? & ? & ?); split_and!; cbn; lia || done).
  eexists. split; [done|]. split_and!; [done..|]. intros Hd. cbn [ms_resp ms_rcv].
  destruct (answer_fields b fid rv (ms_resp s)) as (_ & _ & _ & A4 & _ & A6); [lia|].
  unfold qdma_mbox_vf_response_status. rewrite status_eq by lia. by rewrite A4, (Hrv Hd).
Qed.
