(* ===== verification/MboxConfine.v ===== *)
(** * What a message can change in the context memory

    On a device with the soft IP that behaves as documented: the contexts a
    message of a virtual function reaches are those of its own queues and its
    own function map. *)

From S2P Require Import Prelude Platform Bits RegIO CtxtTypes.
From S2P Require Import ResMgmt FreeList ResMgmtInv ResMgmtFrame.
From S2P Require Import IndCtxt SoftReg SoftCtxt SoftAccess RegList HwAccess.
From S2P Require Import MboxMsg MboxStruct MboxCompose MboxHandler MboxSafe MboxThms MboxProto.
From S2P Require Import MboxIO MboxLimits.

(** Reading a register does not change the context memory. *)
Class QuietReads (dev : Type) `{IndirectCtxt dev} := {
  read_ram a d sel qid i : ctxt_ram (dev_read a d).2 sel qid i = ctxt_ram d sel qid i;
  read_busy a d : ctxt_busy (dev_read a d).2 = ctxt_busy d;
}.

Section confined.
Context {dev : Type} `{Device dev} `{!IndirectCtxt dev} `{!TimelyDevice dev} `{!QuietReads dev}.
(** The contexts a computation may change: selector and entry. *)
Context (own : Z → Z → Prop).

Definition kept (d d' : dev) : Prop :=
  ∀ sel qid i, (i < 8)%nat → ¬ own sel qid → ctxt_ram d' sel qid i = ctxt_ram d sel qid i.

Lemma kept_trans d1 d2 d3 : kept d1 d2 → kept d2 d3 → kept d1 d3.
Proof using. intros H12 H23 sel qid i Hi Ho. by rewrite H23, H12. Qed.

(** ** Computations on the hardware *)

Definition hw_confined {A} (m : hwm dev A) : Prop :=
  ∀ s a s', idle s → m s = Some (a, s') → idle s' ∧ kept (hw s) (hw s').

Lemma hw_confined_ret {A} (a : A) : hw_confined (mret a).
Proof using. intros s b s' Hs [= _ <-]. by split. Qed.

Lemma hw_confined_bind {A B} (m : hwm dev A) (k : A → hwm dev B) :
  hw_confined m → (∀ a, hw_confined (k a)) → hw_confined (m ≫= k).
Proof using.
  intros Hm Hk s b s' Hs. unfold mbind, hwm_bind. destruct (m s) as [[a s1]|] eqn:E1; [|done].
  intros E2. destruct (Hm _ _ _ Hs E1) as [I1 K1]. destruct (Hk _ _ _ _ I1 E2) as [I2 K2].
  split; [done|]. by eapply kept_trans.
Qed.

Lemma hw_confined_read a : hw_confined (qdma_reg_read a).
Proof using QuietReads0.
  intros s b s' [Hl Hb]. rewrite reg_read_eq. intros [= _ <-]. split; [split; [done|]|].
  - cbn [hw]. by rewrite read_busy.
  - intros sel qid i _ _. apply read_ram.
Qed.

Lemma hw_confined_read_words n a : hw_confined (read_words a n).
Proof using QuietReads0.
  revert a. induction n as [|n IH]; intros a; cbn [read_words]; [apply hw_confined_ret|].
  apply hw_confined_bind; [apply hw_confined_read|]. intros v.
  apply hw_confined_bind; [apply IH|]. intros l. apply hw_confined_ret.
Qed.

Lemma hw_confined_run n a : hw_confined (read_run a n).
Proof using QuietReads0.
  revert a. induction n as [|n IH]; intros a; cbn [read_run]; [apply hw_confined_ret|].
  apply hw_confined_bind; [apply hw_confined_read|]. intros v.
  apply hw_confined_bind; [apply IH|]. intros l. apply hw_confined_ret.
Qed.

Lemma hw_confined_regs cap l room : hw_confined (read_regs cap l room).
Proof using QuietReads0.
  revert room. induction l as [|r l IH]; intros room; cbn [read_regs]; [apply hw_confined_ret|].
  destruct (_ =? _)%nat; [apply hw_confined_ret|]. destruct (negb _); [apply IH|].
  apply hw_confined_bind; [apply hw_confined_run|]. intros l1.
  apply hw_confined_bind; [apply IH|]. intros l2. apply hw_confined_ret.
Qed.

(** *** The indirect helpers *)

Section helpers.
Context (sel : ind_ctxt_cmd_sel) (qid : Z) (Ho : own (sel_val sel) (cmd_qid qid)).

Lemma not_addressed sel' qid' : ¬ own sel' qid' → ¬ addressed sel qid sel' qid'.
Proof using Ho. intros Hn [-> ->]. done. Qed.

Lemma hw_confined_write data : hw_confined (qdma_indirect_reg_write sel qid data).
Proof using TimelyDevice0 Ho.
  intros s b s' Hs. destruct (indirect_write_ok sel qid data s Hs) as (s1 & -> & I1 & K1).
  intros [= _ <-]. split; [done|]. intros sel' qid' i Hi Hn. by apply K1, not_addressed.
Qed.
Lemma hw_confined_clear : hw_confined (qdma_indirect_reg_clear sel qid).
Proof using TimelyDevice0 Ho.
  intros s b s' Hs. destruct (indirect_clear_ok sel qid s Hs) as (s1 & -> & I1 & K1).
  intros [= _ <-]. split; [done|]. intros sel' qid' i Hi Hn. by apply K1, not_addressed.
Qed.
Lemma hw_confined_invalidate : hw_confined (qdma_indirect_reg_invalidate sel qid).
Proof using TimelyDevice0 Ho.
  intros s b s' Hs. destruct (indirect_invalidate_ok sel qid s Hs) as (s1 & -> & I1 & K1).
  intros [= _ <-]. split; [done|]. intros sel' qid' i Hi Hn. by apply K1, not_addressed.
Qed.
End helpers.

Lemma hw_confined_ind_read sel qid cnt :
  (cnt <= 8)%nat → hw_confined (qdma_indirect_reg_read sel qid cnt).
Proof using TimelyDevice0.
  intros Hc s b s' Hs. destruct (indirect_read_ok sel qid cnt s Hs Hc) as (s1 & -> & I1 & K1).
  intros [= _ <-]. split; [done|]. intros sel' qid' i Hi Hn. by apply K1.
Qed.

(** *** The entries of the access table *)

(** Reading a context is harmless. *)
Definition may_access (t : qdma_hw_access_type) (sel : ind_ctxt_cmd_sel) (qid : Z) : Prop :=
  t = QDMA_HW_ACCESS_READ ∨ own (sel_val sel) (cmd_qid qid).

Lemma may_own t sel qid :
  may_access t sel qid → t ≠ QDMA_HW_ACCESS_READ → own (sel_val sel) (cmd_qid qid).
Proof using. by intros [?|?]. Qed.

Ltac hw_tac :=
  repeat (match goal with
  | |- hw_confined (_ ≫= _) => apply hw_confined_bind; [|intros ?]
  | |- hw_confined (mret _) => apply hw_confined_ret
  | |- hw_confined (qdma_reg_read _) => apply hw_confined_read
  | |- hw_confined (read_words _ _) => apply hw_confined_read_words
  | |- hw_confined (qdma_indirect_reg_read _ _ _) => apply hw_confined_ind_read; lia
  | |- hw_confined (qdma_indirect_reg_write _ _ _) => apply hw_confined_write
  | |- hw_confined (qdma_indirect_reg_clear _ _) => apply hw_confined_clear
  | |- hw_confined (qdma_indirect_reg_invalidate _ _) => apply hw_confined_invalidate
  | |- hw_confined (match ?x with _ => _ end) => destruct x
  end; cbn beta iota zeta); try done;
  try (eapply may_own; [eauto|discriminate]).

Lemma confined_fmap f c t :
  may_access t QDMA_CTXT_SEL_FMAP f → hw_confined (qdma_fmap_conf true f c t).
Proof using TimelyDevice0.
  intros Ho. unfold qdma_fmap_conf, qdma_fmap_read, qdma_fmap_write, qdma_fmap_clear. hw_tac.
Qed.

Lemma confined_attributes a : hw_confined (qdma_get_device_attributes true a).
Proof using QuietReads0. unfold qdma_get_device_attributes. hw_tac. Qed.

Lemma confined_dev_cap : hw_confined get_dev_cap.
Proof using QuietReads0.
  unfold get_dev_cap. apply hw_confined_bind; [apply confined_attributes|].
  intros a. apply hw_confined_ret.
Qed.

Lemma confined_csr_read i n v k : hw_confined (qdma_global_csr_conf true i n v k QDMA_HW_ACCESS_READ).
Proof using QuietReads0.
  pose proof confined_dev_cap.
  unfold qdma_global_csr_conf, qdma_read_global_ring_sizes, qdma_read_global_timer_count,
    qdma_read_global_counter_threshold, qdma_read_global_buffer_sizes, csr_read,
    qdma_read_csr_values. hw_tac.
Qed.

Lemma confined_reg_list v g : hw_confined (qdma_read_reg_list true v g true).
Proof using QuietReads0.
  pose proof confined_dev_cap. pose proof hw_confined_regs.
  unfold qdma_read_reg_list. hw_tac.
Qed.

Section queue.
Context (t : qdma_hw_access_type) (qid : Z) (Ho : ∀ sel, may_access t sel qid).

Lemma confined_sw d c : hw_confined (qdma_sw_ctx_conf true d qid c t).
Proof using TimelyDevice0 Ho.
  unfold qdma_sw_ctx_conf, qdma_sw_context_read, qdma_sw_context_write, qdma_sw_context_clear,
    qdma_sw_context_invalidate. hw_tac.
Qed.
Lemma confined_hwc d c : hw_confined (qdma_hw_ctx_conf true d qid c t).
Proof using TimelyDevice0 Ho.
  unfold qdma_hw_ctx_conf, qdma_hw_context_read, qdma_hw_context_clear,
    qdma_hw_context_invalidate. hw_tac.
Qed.
Lemma confined_credit d c : hw_confined (qdma_credit_ctx_conf true d qid c t).
Proof using TimelyDevice0 Ho.
  unfold qdma_credit_ctx_conf, qdma_credit_context_read, qdma_credit_context_clear,
    qdma_credit_context_invalidate. hw_tac.
Qed.
Lemma confined_pfetch c : hw_confined (qdma_pfetch_ctx_conf true qid c t).
Proof using TimelyDevice0 Ho.
  unfold qdma_pfetch_ctx_conf, qdma_pfetch_context_read, qdma_pfetch_context_write,
    qdma_pfetch_context_clear, qdma_pfetch_context_invalidate. hw_tac.
Qed.
Lemma confined_cmpt c : hw_confined (qdma_cmpt_ctx_conf true qid c t).
Proof using TimelyDevice0 Ho.
  unfold qdma_cmpt_ctx_conf, qdma_cmpt_context_read, qdma_cmpt_context_write,
    qdma_cmpt_context_clear, qdma_cmpt_context_invalidate. hw_tac.
Qed.
End queue.

End confined.

(** ** Computations of the handlers *)

Section handlers.
Context {dev : Type} `{Device dev} `{!IndirectCtxt dev} `{!TimelyDevice dev} `{!QuietReads dev}.
Context (own : Z → Z → Prop).
Implicit Types s : mbox_state dev.

Definition confined_at {A} s (m : mbm dev A) : Prop :=
  ∀ a s', m s = Some (a, s') → idle (ms_hw s') ∧ kept own (hw (ms_hw s)) (hw (ms_hw s')).
Definition confined {A} (m : mbm dev A) : Prop := ∀ s, idle (ms_hw s) → confined_at s m.

Lemma confined_ret {A} (a : A) : confined (mret a).
Proof using. intros s Hs b s' [= _ <-]. by split. Qed.
Lemma confined_bind {A B} (m : mbm dev A) (k : A → mbm dev B) :
  confined m → (∀ a, confined (k a)) → confined (m ≫= k).
Proof using.
  intros Hm Hk s Hs b s'. unfold mbind, mbm_bind. destruct (m s) as [[a s1]|] eqn:E1; [|done].
  intros E2. destruct (Hm _ Hs _ _ E1) as [I1 K1]. destruct (Hk _ _ I1 _ _ E2) as [I2 K2].
  split; [done|]. by eapply kept_trans.
Qed.
Lemma confined_hwop {A} (m : hwm dev A) : hw_confined own m → confined (hwop m).
Proof using.
  intros Hm s Hs a s'. unfold hwop. destruct (m (ms_hw s)) as [[b h]|] eqn:E; [|done].
  intros [= _ <-]. by eapply Hm.
Qed.
Lemma confined_rmop {A} (f : rm_state → A * rm_state) : confined (rmop f).
Proof using. intros s Hs a s'. unfold rmop. destruct (f _). by intros [= _ <-]. Qed.
Lemma confined_rmask {A} (f : rm_state → A) : confined (rmask f).
Proof using. by intros s Hs a s' [= _ <-]. Qed.
Lemma confined_rcv {A} (m : bm A) : confined (rcv m).
Proof using. intros s Hs a s'. unfold rcv. by destruct (m _) as [[? ?]|]; intros [= _ <-]. Qed.
Lemma confined_resp {A} (m : bm A) : confined (resp m).
Proof using. intros s Hs a s'. unfold resp. by destruct (m _) as [[? ?]|]; intros [= _ <-]. Qed.
Lemma confined_rv_of {A} (m : hwm dev (Z * A)) : hw_confined own m → confined (rv_of m).
Proof using.
  intros Hm. unfold rv_of. apply confined_bind; [by apply confined_hwop|]. intros r.
  apply confined_ret.
Qed.

(** Takes a computation apart; leaves the calls of the access table. *)
Ltac walk :=
  repeat (match goal with
  | |- confined (_ ≫= _) => apply confined_bind; [|intros ?]
  | |- confined (mret _) => apply confined_ret
  | |- confined (hwop _) => apply confined_hwop
  | |- confined (rv_of _) => apply confined_rv_of
  | |- confined (rmop _) => apply confined_rmop
  | |- confined (rmask _) => apply confined_rmask
  | |- confined (rcv _) => apply confined_rcv
  | |- confined (resp _) => apply confined_resp
  | |- confined (match ?x with _ => _ end) => destruct x
  end; cbn beta iota zeta).
(** The calls of the access table. *)
Ltac access :=
  first [ apply confined_csr_read | apply confined_attributes | apply confined_reg_list
        | apply confined_fmap | apply confined_sw | apply confined_hwc | apply confined_credit
        | apply confined_pfetch | apply confined_cmpt ];
  unfold may_access; auto.

Lemma confined_read_into {T} `{CStruct T} base (m : option T → hwm dev (Z * option T)) :
  (∀ c, hw_confined own (m c)) → confined (read_into base m).
Proof using. intros Hm. unfold read_into. walk. apply Hm. Qed.

Lemma confined_csr_index k p e : confined (csr_index k p e).
Proof using QuietReads0. unfold csr_index. walk. access. Qed.

Section queue.
Context (qid : Z) (Ho : ∀ sel, own (sel_val sel) (cmd_qid qid)).

Lemma confined_drop t ix f st c2h ty : confined (drop_queue_contexts t ix f qid st c2h ty).
Proof using TimelyDevice0 Ho. unfold drop_queue_contexts, if_in_range. walk; access. Qed.

Lemma confined_write ix q : q_qid_hw q = qid → confined (mbox_write_queue_contexts ix q).
Proof using TimelyDevice0 QuietReads0 Ho.
  intros Hq. pose proof confined_csr_index. unfold mbox_write_queue_contexts. rewrite Hq.
  unfold if_in_range, mbox_compose_sw_context,
    mbox_compose_prefetch_context, mbox_compose_cmpt_context, get_ring_idx, get_buf_idx,
    get_cntr_idx, get_tmr_idx. walk; try done; try access; apply confined_drop.
Qed.
End queue.

Lemma confined_read f q st c2h ty ctxt : confined (mbox_read_queue_contexts f q st c2h ty ctxt).
Proof using TimelyDevice0 QuietReads0.
  unfold mbox_read_queue_contexts.
  walk; apply confined_read_into; intros c; access.
Qed.

Lemma confined_fill_csr n i rv l1 l2 l3 l4 : confined (fill_csr n i rv l1 l2 l3 l4).
Proof using. revert i. induction n as [|n IH]; intros i; cbn [fill_csr]; walk. apply IH. Qed.

Lemma confined_on_csr : confined on_csr.
Proof using QuietReads0.
  pose proof confined_fill_csr. unfold on_csr, read_csr. walk; first [access | done].
Qed.

Lemma confined_exit f ret rv : confined (exit_func f ret rv).
Proof using. unfold exit_func. walk. Qed.

Lemma confined_write_fmap f qb qm :
  own (sel_val QDMA_CTXT_SEL_FMAP) (cmd_qid f) → confined (write_fmap f qb qm).
Proof using TimelyDevice0. intros Ho. unfold write_fmap. walk. access. Qed.

(** *** Messages of one sender *)

Section sender.
Context (src : Z) (Ho : own (sel_val QDMA_CTXT_SEL_FMAP) (cmd_qid src)).

Definition confined_from {A} (m : mbm dev A) : Prop :=
  ∀ s, idle (ms_hw s) → get hdr_src_func_id (ms_rcv s) = src → confined_at s m.

Lemma confined_from_src {A} (k : Z → mbm dev A) :
  confined (k src) → confined_from (rcv (rd hdr_src_func_id) ≫= k).
Proof using.
  intros Hk s Hs Hsrc a s' (v & s1 & E1 & E2)%bind_inv. apply rcv_rd_inv in E1 as [-> ->].
  rewrite Hsrc in E2. by eapply (Hk s Hs).
Qed.

Lemma from_bye ix ret : confined_from (on_bye ix ret).
Proof using TimelyDevice0 Ho.
  unfold on_bye. apply confined_from_src. walk. by apply confined_write_fmap.
Qed.
Lemma from_hello ix : confined_from (on_hello ix).
Proof using TimelyDevice0 QuietReads0 Ho.
  unfold on_hello. apply confined_from_src. walk.
  all: first [by apply confined_write_fmap | apply confined_read_into; intros c; access].
Qed.
Lemma from_fmap : confined_from on_fmap.
Proof using TimelyDevice0 Ho.
  unfold on_fmap. apply confined_from_src. walk. by apply confined_write_fmap.
Qed.
Lemma from_qreq ix : confined_from (on_qreq ix).
Proof using TimelyDevice0 Ho.
  unfold on_qreq. apply confined_from_src. walk. by apply confined_write_fmap.
Qed.
Lemma from_qnotify count ix : confined_from (on_qnotify count ix).
Proof using. unfold on_qnotify. apply confined_from_src. walk. Qed.
Lemma from_qcnt ix : confined_from (on_get_qactive_cnt ix).
Proof using. unfold on_get_qactive_cnt. apply confined_from_src. walk. Qed.
Lemma from_qctxt_read : confined_from on_qctxt_read.
Proof using TimelyDevice0 QuietReads0.
  unfold on_qctxt_read. apply confined_from_src. walk. apply confined_read.
Qed.
Lemma from_csr : confined_from on_csr.
Proof using QuietReads0. intros s Hs _. by apply confined_on_csr. Qed.
Lemma from_reg_list : confined_from on_reg_list_read.
Proof using QuietReads0.
  intros s Hs _. revert s Hs. change (confined on_reg_list_read). unfold on_reg_list_read.
  walk. access.
Qed.
End sender.
End handlers.

(** ** The handler of the physical function *)

(** The contexts of function [func_id]: its function map and those of its
    queues, which the hardware numbers with twelve bits. *)
Definition owned_by (ix func_id : Z) (rm : rm_state) (sel entry : Z) : Prop :=
  (sel = sel_val QDMA_CTXT_SEL_FMAP ∧ entry = cmd_qid func_id) ∨
  ∃ qid, is_u 16 qid ∧ qdma_dev_is_queue_in_range ix func_id qid rm = QDMA_DEV_Q_IN_RANGE ∧
         entry = cmd_qid qid.

(** Messages whose entries the handler does not check: interrupt rings, and
    completion contexts that are cleared or invalidated alone. *)
Definition is_unchecked (op : mbox_msg_op) (ty : mbox_cmpt_ctxt_type) : bool :=
  match op with
  | MBOX_OP_QCTXT_CLR | MBOX_OP_QCTXT_INV => bool_decide (ty = QDMA_MBOX_CMPT_CTXT_ONLY)
  | _ => is_intr_op op
  end.

Section message.
Context {dev : Type} `{Device dev} `{!IndirectCtxt dev} `{!TimelyDevice dev} `{!QuietReads dev}.
Context (ix : Z) (s : mbox_state dev) (q : Z * Z * Z * mbox_cmpt_ctxt_type).
Context (Hi : idle (ms_hw s)) (Hs : good s) (Hb : bytes_ok (ms_rcv s)).
Context (Hq : rd_qctxt (ms_rcv s) = Some (q, ms_rcv s)).
Let src := get hdr_src_func_id (ms_rcv s).
Let own := owned_by ix src (ms_rm s).

Lemma ignored_confined m : ignored ix s m → confined_at own s m.
Proof using Hi. intros (rv & b & E & _) a s'. rewrite E. by intros [= _ <-]. Qed.

Lemma own_fmap : own (sel_val QDMA_CTXT_SEL_FMAP) (cmd_qid src).
Proof using. by left. Qed.

(** The queue named in the message is the sender's or not. *)
Lemma range_cases :
  (∀ sel, own (sel_val sel) (cmd_qid q.1.1.1)) ∨
  qdma_dev_is_queue_in_range ix src q.1.1.1 (ms_rm s) = QDMA_DEV_Q_OUT_OF_RANGE.
Proof using Hb Hq.
  destruct (qdma_dev_is_queue_in_range ix src q.1.1.1 (ms_rm s)) eqn:E; [left|by right].
  intros sel. right. exists q.1.1.1. split_and!; [by eapply rd_qctxt_bound|done..].
Qed.

Lemma on_drop_confined t :
  q.2 ≠ QDMA_MBOX_CMPT_CTXT_ONLY → confined_at own s (on_qctxt_drop t ix).
Proof using Hi Hs Hb Hq TimelyDevice0.
  intros Hty. destruct range_cases as [Hown|Hr].
  - unfold on_qctxt_drop. intros a s'. erewrite bind_eq; [|by apply good_rcv].
    erewrite bind_eq; [|by apply rcv_eq]. destruct q as [[[qid st] c2h] ty]. cbn [fst snd] in *.
    revert a s'. replace (mk_mst (ms_hw s) (ms_rm s) (ms_rcv s) (ms_resp s)) with s by (by destruct s).
    apply (confined_bind own); [by apply confined_drop|intros rv; apply confined_ret|done].
  - by apply ignored_confined, (drop_ignored _ _ q).
Qed.

Lemma on_write_confined : confined_at own s (on_qctxt_write ix).
Proof using Hi Hs Hb Hq TimelyDevice0 QuietReads0.
  destruct range_cases as [Hown|Hr]; [|by apply ignored_confined, (write_ignored _ _ q)].
  pose proof Hs as (_ & Hl & _). unfold on_qctxt_write. intros a s'.
  erewrite bind_eq; [|by apply good_rcv]. fold src.
  set (v := set_bits 0 16 src (get conf_func_unit (ms_rcv s))).
  erewrite bind_eq; [|by apply rcv_eq, wr_bits_eq; cbn; lia]. fold v.
  destruct (rd_qctxt_put conf_func_unit v (ms_rcv s)) as (q' & E1 & E2);
    [done|done|unfold disjoint_fields; cbn; lia..|]. rewrite Hq in E1. injection E1 as <-.
  erewrite bind_eq; [|by apply rcv_eq]. destruct q as [[[qid st] c2h] ty]. cbn [fst snd] in *.
  match goal with |- ?m ?t = _ → _ => assert (Hc : confined own m); [|by apply (Hc t)] end.
  apply confined_bind; [apply confined_rcv|]. intros c.
  apply confined_bind; [by eapply confined_write|]. intros rv. apply confined_ret.
Qed.

Lemma dispatch_confined op :
  is_unchecked op q.2 = false → confined_at own s (pf_dispatch ix (Some op)).
Proof using Hi Hs Hb Hq TimelyDevice0 QuietReads0.
  intros Hu. pose proof own_fmap as Hf.
  assert (Hret : ∀ o : outcome, confined_at own s (mret o)) by (intros o; by apply confined_ret).
  destruct op; try discriminate Hu; cbn [pf_dispatch]; try apply Hret.
  - by apply (from_bye own src).
  - by apply (from_hello own src).
  - by apply (from_fmap own src).
  - by apply (from_csr own src).
  - by apply (from_qreq own src).
  - by apply (from_qnotify own src).
  - by apply (from_qnotify own src).
  - by apply (from_qcnt own src).
  - apply on_write_confined.
  - by apply (from_qctxt_read own src).
  - apply on_drop_confined. by apply bool_decide_eq_false in Hu.
  - apply on_drop_confined. by apply bool_decide_eq_false in Hu.
  - by apply (from_reg_list own src).
  - by apply (from_bye own src).
Qed.
End message.


(** The simulated device. *)
#[export] Instance sim_quiet : QuietReads sim.
Proof.
  split.
  - intros a d sel qid i. cbn. by destruct (sim_decode a).
  - intros a d. cbn. by destruct (sim_decode a).
Qed.
