(* ===== verification/MboxProgram.v ===== *)
(** * What a context message programs

    The contexts a queue has after the physical function handled a context
    write of its owner, on a device with the soft IP that behaves as
    documented. *)

From S2P Require Import Prelude Platform Bits RegIO CtxtTypes.
From S2P Require Import ResMgmt FreeList ResMgmtInv ResMgmtThms ResMgmtFrame.
From S2P Require Import IndCtxt SoftReg SoftCtxt SoftAccess SoftAccessThms RegList HwAccess.
From S2P Require Import MboxMsg MboxStruct MboxCompose MboxHandler MboxSafe MboxThms MboxProto.

(** The contexts of one queue: selector and word. *)
Definition contexts : Type := ind_ctxt_cmd_sel → nat → Z.

(** Writing [ws], or clearing with no words. *)
Definition set_ctxt (sel : ind_ctxt_cmd_sel) (ws : list Z) (r : contexts) : contexts := λ sel' i,
  if decide (sel' = sel) then u32 (default 0 (ws !! i)) else r sel' i.
Definition set_ctxts (l : list (ind_ctxt_cmd_sel * list Z)) (r : contexts) : contexts :=
  fold_left (λ r p, set_ctxt p.1 p.2 r) l r.

(** The eight words of an entry. *)
Definition ctxts_eq (r r' : contexts) : Prop := ∀ sel i, (i < 8)%nat → r sel i = r' sel i.
#[export] Instance ctxts_eq_equiv : Equivalence ctxts_eq.
Proof.
  split.
  - by intros r sel i.
  - intros r r' Hr sel i Hi. by rewrite Hr.
  - intros r1 r2 r3 H12 H23 sel i Hi. by rewrite H12, H23.
Qed.
#[export] Instance set_ctxt_proper sel ws : Proper (ctxts_eq ==> ctxts_eq) (set_ctxt sel ws).
Proof. intros r r' Hr sel' i Hi. unfold set_ctxt. case_decide; [done|]. by apply Hr. Qed.
#[export] Instance set_ctxts_proper l : Proper (ctxts_eq ==> ctxts_eq) (set_ctxts l).
Proof.
  induction l as [|p l IH]; intros r r' Hr; [done|]. cbn. apply IH. by rewrite Hr.
Qed.

Lemma set_ctxts_app l1 l2 r : set_ctxts (l1 ++ l2) r = set_ctxts l2 (set_ctxts l1 r).
Proof. apply fold_left_app. Qed.

Section program.
Context {dev : Type} `{Device dev} `{!IndirectCtxt dev} `{!TimelyDevice dev} `{!PlainRegs dev}.
Context (ix func_id qid : Z) (rm : rm_state).
Context (Hin : qdma_dev_is_queue_in_range ix func_id qid rm = QDMA_DEV_Q_IN_RANGE).
Implicit Types s : mbox_state dev.

Definition queue_contexts s : contexts := λ sel i,
  ctxt_ram (hw (ms_hw s)) (sel_val sel) (cmd_qid qid) i.

(** [m] succeeds and sets the contexts [l] of the queue, in this order. *)
Definition programs (m : mbm dev Z) (l : list (ind_ctxt_cmd_sel * list Z)) : Prop :=
  ∀ s, idle (ms_hw s) → ms_rm s = rm →
  ∃ s', m s = Some (QDMA_SUCCESS, s') ∧ idle (ms_hw s') ∧ ms_rm s' = rm ∧
    ctxts_eq (queue_contexts s') (set_ctxts l (queue_contexts s)).

Lemma programs_nothing : programs (mret QDMA_SUCCESS) [].
Proof using. intros s Hs Hr. by exists s. Qed.

Lemma programs_check m k l1 l2 :
  programs m l1 → programs k l2 → programs (CHECK m; k) (l1 ++ l2).
Proof using.
  intros Hm Hk s Hs Hr. destruct (Hm s Hs Hr) as (s1 & E1 & I1 & R1 & K1).
  destruct (Hk s1 I1 R1) as (s2 & E2 & I2 & R2 & K2). exists s2. split_and!; [|done..|].
  - by rewrite (bind_eq _ _ _ _ _ E1).
  - by rewrite K2, K1, set_ctxts_app.
Qed.

Lemma programs_if (b : bool) m l :
  programs m l → programs (if b then m else mret QDMA_SUCCESS) (if b then l else []).
Proof using. destruct b; [done|]. intros _. apply programs_nothing. Qed.

Lemma in_range_runs k s : ms_rm s = rm → if_in_range ix func_id qid k s = k s.
Proof using Hin.
  intros Hr. unfold if_in_range. erewrite bind_eq; [|done].
  assert ((qdma_dev_qinfo_get ix func_id 0 0 rm).1.1 = 0) as Hq.
  { revert Hin. unfold qdma_dev_is_queue_in_range, qdma_dev_qinfo_get.
    destruct (qdma_get_master_resource_entry ix rm); [|done].
    by destruct (qdma_get_dev_entry ix func_id rm) as [[? ?]|]. }
  rewrite Hr, Hq. cbn [Z.ltb Z.compare]. by erewrite bind_eq; [|unfold rmask; by rewrite Hr, Hin].
Qed.

(** *** One context *)

Lemma programs_hw {A} (m : hwm dev (Z * A)) sel ws :
  (∀ h, idle h → ∃ a h', m h = Some ((QDMA_SUCCESS, a), h') ∧ idle h' ∧
     ∀ sel' qid' i, (i < 8)%nat →
       (addressed sel qid sel' qid' → ctxt_ram (hw h') sel' qid' i = u32 (default 0 (ws !! i))) ∧
       (¬ addressed sel qid sel' qid' → ctxt_ram (hw h') sel' qid' i = ctxt_ram (hw h) sel' qid' i)) →
  programs (rv_of m) [(sel, ws)].
Proof using.
  intros Hm s Hs Hr. destruct (Hm _ Hs) as (a & h' & E & I & K).
  exists (mk_mst h' (ms_rm s) (ms_rcv s) (ms_resp s)).
  split_and!; [|done..|].
  - unfold rv_of. by erewrite bind_eq; [|unfold hwop; by rewrite E].
  - intros sel' i Hi. unfold queue_contexts. cbn [set_ctxts fold_left fst snd ms_hw].
    unfold set_ctxt. case_decide as Hd; apply K; [done| |done|].
    + by rewrite Hd.
    + by intros [?%sel_val_inj _].
Qed.

Lemma hw_clear sel {A} (c : A) h :
  idle h → ∃ a h',
    (rv ← qdma_indirect_reg_clear sel qid; mret (rv, c)) h = Some ((QDMA_SUCCESS, a), h') ∧ idle h' ∧
    ∀ sel' qid' i, (i < 8)%nat →
      (addressed sel qid sel' qid' → ctxt_ram (hw h') sel' qid' i = u32 (default 0 ([] !! i))) ∧
      (¬ addressed sel qid sel' qid' → ctxt_ram (hw h') sel' qid' i = ctxt_ram (hw h) sel' qid' i).
Proof using TimelyDevice0.
  intros Hh. destruct (indirect_clear_ok sel qid h Hh) as (h' & E & I & K). exists c, h'.
  unfold mbind, hwm_bind. rewrite E. by split_and!.
Qed.

Lemma hw_write sel ws {A} (c : A) h :
  idle h → ∃ a h',
    (rv ← qdma_indirect_reg_write sel qid ws; mret (rv, c)) h = Some ((QDMA_SUCCESS, a), h') ∧ idle h' ∧
    ∀ sel' qid' i, (i < 8)%nat →
      (addressed sel qid sel' qid' → ctxt_ram (hw h') sel' qid' i = u32 (default 0 (ws !! i))) ∧
      (¬ addressed sel qid sel' qid' → ctxt_ram (hw h') sel' qid' i = ctxt_ram (hw h) sel' qid' i).
Proof using TimelyDevice0.
  intros Hh. destruct (indirect_write_ok sel qid ws h Hh) as (h' & E & I & K). exists c, h'.
  unfold mbind, hwm_bind. rewrite E. by split_and!.
Qed.

Section queue.
Context (c2h : Z) (Hc : is_u 1 c2h).

Lemma c2h_ok : (c2h >? 1) = false.
Proof using Hc. unfold is_u in Hc. lia. Qed.

Lemma clear_sw : programs (rv_of (ha_sw_ctx_conf c2h qid None QDMA_HW_ACCESS_CLEAR)) [(sw_sel c2h, [])].
Proof using TimelyDevice0 Hc.
  apply programs_hw. intros h. cbn. unfold qdma_sw_ctx_conf. rewrite c2h_ok. apply hw_clear.
Qed.
Lemma clear_hw : programs (rv_of (ha_hw_ctx_conf c2h qid None QDMA_HW_ACCESS_CLEAR)) [(hw_sel c2h, [])].
Proof using TimelyDevice0 Hc.
  apply programs_hw. intros h. cbn. unfold qdma_hw_ctx_conf. rewrite c2h_ok. apply hw_clear.
Qed.
Lemma clear_credit :
  programs (rv_of (ha_credit_ctx_conf c2h qid None QDMA_HW_ACCESS_CLEAR)) [(cr_sel c2h, [])].
Proof using TimelyDevice0 Hc.
  apply programs_hw. intros h. cbn. unfold qdma_credit_ctx_conf. rewrite c2h_ok. apply hw_clear.
Qed.
Lemma write_sw c :
  programs (rv_of (ha_sw_ctx_conf c2h qid (Some c) QDMA_HW_ACCESS_WRITE)) [(sw_sel c2h, sw_words c)].
Proof using TimelyDevice0 Hc.
  apply programs_hw. intros h. cbn. unfold qdma_sw_ctx_conf. rewrite c2h_ok. apply hw_write.
Qed.
End queue.

Lemma clear_pfetch :
  programs (rv_of (ha_pfetch_ctx_conf qid None QDMA_HW_ACCESS_CLEAR)) [(QDMA_CTXT_SEL_PFTCH, [])].
Proof using TimelyDevice0. apply programs_hw. intros h. apply hw_clear. Qed.
Lemma clear_cmpt :
  programs (rv_of (ha_cmpt_ctx_conf qid None QDMA_HW_ACCESS_CLEAR)) [(QDMA_CTXT_SEL_CMPT, [])].
Proof using TimelyDevice0. apply programs_hw. intros h. apply hw_clear. Qed.
Lemma write_pfetch c :
  programs (rv_of (ha_pfetch_ctx_conf qid (Some c) QDMA_HW_ACCESS_WRITE))
    [(QDMA_CTXT_SEL_PFTCH, pfetch_words c)].
Proof using TimelyDevice0. apply programs_hw. intros h. apply hw_write. Qed.
Lemma write_cmpt c :
  cmpt_trig_mode c <= QDMA_CMPT_UPDATE_TRIG_MODE_TMR_CNTR →
  programs (rv_of (ha_cmpt_ctx_conf qid (Some c) QDMA_HW_ACCESS_WRITE))
    [(QDMA_CTXT_SEL_CMPT, cmpt_words c)].
Proof using TimelyDevice0.
  intros Ht. apply programs_hw. intros h. cbn. unfold qdma_cmpt_context_write.
  replace (_ >? _) with false by lia. apply hw_write.
Qed.

(** *** The size tables *)

(** The sixteen registers of a table. *)
Definition csr_values (d : dev) (t : qdma_global_csr_type) : list Z :=
  (λ i, csr d (csr_offset t + 4 * Z.of_nat i)) <$> seq 0 16.

Lemma csr_values_read h t :
  csr_supported t (attrs_of (hw h)) = true →
  qdma_global_csr_conf true 0 16 (Some (replicate 16 0)) t QDMA_HW_ACCESS_READ h =
    Some ((QDMA_SUCCESS, Some (csr_values (hw h) t)), h).
Proof using PlainRegs0.
  intros Hsup. assert (Ha : is_array (csr_offset t) = true) by (apply csr_offset_array; by destruct t).
  destruct h as [d l]. cbn [hw] in *.
  assert (Er : csr_read (csr_offset t) 0 16 (Some (replicate 16 0)) (mk_hw d l) =
            Some ((QDMA_SUCCESS, Some (csr_values d t)), mk_hw d l)).
  { unfold csr_read, qdma_read_csr_values, mbind, hwm_bind. rewrite Z.mul_0_l, Z.add_0_r.
    rewrite read_words_plain; [by rewrite app_nil_r|].
    intros i Hi. destruct (is_array_lookup _ i Ha) as (? & ? & _); [lia|done]. }
  destruct t; cbn [csr_offset csr_supported] in *; try discriminate Hsup;
    unfold qdma_global_csr_conf, qdma_read_global_ring_sizes, qdma_read_global_timer_count,
      qdma_read_global_counter_threshold, qdma_read_global_buffer_sizes;
    change (csr_args_bad true 0 16 (Some (replicate 16 0))) with false; cbn iota;
    unfold mbind, hwm_bind; rewrite ?get_dev_cap_plain, ?Hsup; exact Er.
Qed.

(** The index a value has in a table. *)
Definition csr_has s (t : qdma_global_csr_type) (p : Z → bool) (i : Z) : Prop :=
  csr_supported t (attrs_of (hw (ms_hw s))) = true ∧ find_idx p (csr_values (hw (ms_hw s)) t) 0 = Some i.

Lemma csr_index_found s t p e i : csr_has s t p i → csr_index t p e s = Some ((QDMA_SUCCESS, i), s).
Proof using PlainRegs0.
  intros [Hsup Hf]. unfold csr_index. erewrite bind_eq.
  2: { unfold hwop. cbn [ha_global_csr_conf soft_hw_access]. by rewrite csr_values_read. }
  cbn [fst snd Z.eqb negb default]. unfold id. rewrite Hf. by destruct s.
Qed.

Definition has_ring s (sz i : Z) : Prop := csr_has s QDMA_CSR_RING_SZ (λ x, sz =? u32 (x - 1)) i.
Definition has_buf s (sz i : Z) : Prop := csr_has s QDMA_CSR_BUF_SZ (λ x, x =? sz) i.
Definition has_cntr s (v i : Z) : Prop := csr_has s QDMA_CSR_CNT_TH (λ x, x =? v) i.
Definition has_timer s (v i : Z) : Prop := csr_has s QDMA_CSR_TIMER_CNT (λ x, x =? v) i.

(** Goes on after a successful call. *)
Ltac composed := cbn [fst snd]; change (QDMA_SUCCESS <? 0) with false; cbn iota.

Section write.
Context (s : mbox_state dev) (q : mbox_msg_qctxt) (ring buf cntr tmr cring : Z).
Let c := q_descq_conf q.
Context (Hq : q_qid_hw q = qid) (Hf : c_func_id c = func_id) (Hc : is_u 1 (q_c2h q)).
Context (Hring : has_ring s (c_ringsz c) ring).
Context (Hbuf : st_c2h (q_st q) (q_c2h q) = true → has_buf s (c_bufsz c) buf).
Context (Hcmpt : with_cmpt (q_cmpt_ctxt_type q) = true →
  has_cntr s (c_cnt_thres c) cntr ∧ has_timer s (c_timer_thres c) tmr ∧
  has_ring s (c_cmpt_ringsz c) cring ∧ c_triggermode c <= QDMA_CMPT_UPDATE_TRIG_MODE_TMR_CNTR).

Lemma compose_sw_found :
  mbox_compose_sw_context q s = Some ((QDMA_SUCCESS, sw_from_conf q ring), s).
Proof using PlainRegs0 Hring.
  unfold mbox_compose_sw_context, get_ring_idx.
  by erewrite bind_eq; [|by apply csr_index_found].
Qed.

Lemma compose_pfetch_found b :
  b = st_c2h (q_st q) (q_c2h q) →
  (if b then mbox_compose_prefetch_context q else mret (QDMA_SUCCESS, pfetch_zeroed)) s =
    Some ((QDMA_SUCCESS, if b then pfetch_from_conf q buf else pfetch_zeroed), s).
Proof using PlainRegs0 Hbuf.
  intros Hb. destruct b; [|done]. unfold mbox_compose_prefetch_context, get_buf_idx.
  by erewrite bind_eq; [|by apply csr_index_found, Hbuf].
Qed.

Lemma compose_cmpt_found b :
  b = with_cmpt (q_cmpt_ctxt_type q) →
  (if b then mbox_compose_cmpt_context q else mret (QDMA_SUCCESS, cmpt_zeroed)) s =
    Some ((QDMA_SUCCESS, if b then cmpt_from_conf q cntr tmr cring else cmpt_zeroed), s).
Proof using PlainRegs0 Hcmpt.
  intros Hb. destruct b; [|done]. destruct (Hcmpt (eq_sym Hb)) as (H1 & H2 & H3 & _).
  unfold mbox_compose_cmpt_context, get_cntr_idx, get_tmr_idx, get_ring_idx.
  erewrite bind_eq; [|by apply csr_index_found]. composed.
  erewrite bind_eq; [|by apply csr_index_found]. composed.
  by erewrite bind_eq; [|by apply csr_index_found].
Qed.

(** What is set, in order. *)
Definition cleared : list (ind_ctxt_cmd_sel * list Z) :=
  [(sw_sel (q_c2h q), [])] ++ [(hw_sel (q_c2h q), [])] ++ [(cr_sel (q_c2h q), [])] ++
  (if st_c2h (q_st q) (q_c2h q) then [(QDMA_CTXT_SEL_PFTCH, [])] else []) ++
  (if with_cmpt (q_cmpt_ctxt_type q) then [(QDMA_CTXT_SEL_CMPT, [])] else []) ++ [].
Definition written : list (ind_ctxt_cmd_sel * list Z) :=
  cleared ++
  [(sw_sel (q_c2h q), sw_words (sw_from_conf q ring))] ++
  (if st_c2h (q_st q) (q_c2h q)
   then [(QDMA_CTXT_SEL_PFTCH, pfetch_words (pfetch_from_conf q buf))] else []) ++
  (if with_cmpt (q_cmpt_ctxt_type q)
   then [(QDMA_CTXT_SEL_CMPT, cmpt_words (cmpt_from_conf q cntr tmr cring))] else []) ++ [].

Lemma clear_programs :
  q_cmpt_ctxt_type q ≠ QDMA_MBOX_CMPT_CTXT_ONLY →
  programs (mbox_clear_queue_contexts ix func_id qid (q_st q) (q_c2h q) (q_cmpt_ctxt_type q)) cleared.
Proof using TimelyDevice0 Hin Hc.
  intros Hty. unfold mbox_clear_queue_contexts, drop_queue_contexts.
  rewrite bool_decide_eq_false_2 by done. intros s0 Hs Hr. rewrite in_range_runs by done.
  match goal with |- ∃ s', ?m s0 = _ ∧ _ => assert (Hp : programs m cleared); [|by apply Hp] end.
  repeat apply programs_check; [by apply clear_sw|by apply clear_hw|by apply clear_credit|..].
  - apply programs_if, clear_pfetch.
  - apply programs_if, clear_cmpt.
  - apply programs_nothing.
Qed.

Lemma write_programs :
  idle (ms_hw s) → ms_rm s = rm → q_cmpt_ctxt_type q ≠ QDMA_MBOX_CMPT_CTXT_ONLY →
  ∃ s', mbox_write_queue_contexts ix q s = Some (QDMA_SUCCESS, s') ∧ idle (ms_hw s') ∧
    ms_rm s' = rm ∧ ctxts_eq (queue_contexts s') (set_ctxts written (queue_contexts s)).
Proof using TimelyDevice0 PlainRegs0 Hin Hq Hf Hc Hring Hbuf Hcmpt.
  intros Hs Hr Hty. unfold mbox_write_queue_contexts. fold c. rewrite Hq, Hf.
  rewrite bool_decide_eq_false_2 by done. rewrite in_range_runs by done.
  erewrite bind_eq; [|apply compose_sw_found]. composed.
  erewrite bind_eq; [|by apply compose_pfetch_found]. composed.
  erewrite bind_eq; [|by apply compose_cmpt_found]. composed.
  match goal with |- ∃ s', ?m s = _ ∧ _ => assert (Hp : programs m written); [|by apply Hp] end.
  repeat apply programs_check; [by apply clear_programs|by apply write_sw|..|apply programs_nothing].
  - destruct (st_c2h _ _) eqn:E; [apply write_pfetch|apply programs_nothing].
  - destruct (with_cmpt _) eqn:E; [|apply programs_nothing].
    apply write_cmpt. by destruct (Hcmpt eq_refl) as (_ & _ & _ & ?).
Qed.
End write.
End program.

(** C24. Programming a queue.  A context write for a queue of the sender whose
    sizes and thresholds are in the device's tables succeeds; afterwards the
    hardware and credit contexts of the queue are zero, and its software
    context, the prefetch context of a streaming C2H queue and the completion
    context if the message asks for one have the words of the contexts composed
    from the message with the indices of its sizes and thresholds. *)
Theorem mbox_write_queue_contexts_programs {dev : Type} `{Device dev} `{!IndirectCtxt dev}
    `{!TimelyDevice dev} `{!PlainRegs dev} (s : mbox_state dev) ix q ring buf cntr tmr cring :
  let c := q_descq_conf q in
  let st := st_c2h (q_st q) (q_c2h q) in
  let wc := with_cmpt (q_cmpt_ctxt_type q) in
  idle (ms_hw s) →
  qdma_dev_is_queue_in_range ix (c_func_id c) (q_qid_hw q) (ms_rm s) = QDMA_DEV_Q_IN_RANGE →
  is_u 1 (q_c2h q) → q_cmpt_ctxt_type q ≠ QDMA_MBOX_CMPT_CTXT_ONLY →
  has_ring s (c_ringsz c) ring → (st = true → has_buf s (c_bufsz c) buf) →
  (wc = true → has_cntr s (c_cnt_thres c) cntr ∧ has_timer s (c_timer_thres c) tmr ∧
     has_ring s (c_cmpt_ringsz c) cring ∧ c_triggermode c <= QDMA_CMPT_UPDATE_TRIG_MODE_TMR_CNTR) →
  ∃ s', mbox_write_queue_contexts ix q s = Some (QDMA_SUCCESS, s') ∧ idle (ms_hw s') ∧
    ∀ i, (i < 8)%nat →
      let ctxt sel := ctxt_ram (hw (ms_hw s')) (sel_val sel) (cmd_qid (q_qid_hw q)) i in
      ctxt (sw_sel (q_c2h q)) = u32 (default 0 (sw_words (sw_from_conf q ring) !! i)) ∧
      ctxt (hw_sel (q_c2h q)) = 0 ∧ ctxt (cr_sel (q_c2h q)) = 0 ∧
      (st = true → ctxt QDMA_CTXT_SEL_PFTCH =
         u32 (default 0 (pfetch_words (pfetch_from_conf q buf) !! i))) ∧
      (wc = true → ctxt QDMA_CTXT_SEL_CMPT =
         u32 (default 0 (cmpt_words (cmpt_from_conf q cntr tmr cring) !! i))).
Proof.
  intros c st wc Hs Hin Hc Hty Hring Hbuf Hcmpt.
  destruct (write_programs ix _ _ _ Hin s q ring buf cntr tmr cring eq_refl eq_refl Hc Hring Hbuf
    Hcmpt Hs eq_refl Hty) as (s' & E & I & _ & K).
  exists s'. split; [done|]. split; [done|]. intros i Hi ctxt.
  assert (Hx : ∀ sel, ctxt sel = set_ctxts (written q ring buf cntr tmr cring)
                                 (queue_contexts (q_qid_hw q) s) sel i) by (intros sel; by apply K).
  rewrite !Hx. unfold set_ctxts, written, cleared. fold st wc.
  assert (q_c2h q = 0 ∨ q_c2h q = 1) as [-> | ->] by (unfold is_u in Hc; lia);
    destruct st, wc; split_and!; done.
Qed.
