(* ===== verification/MboxGaps.v ===== *)
(** * Mailbox: concrete exchanges

    Where the protocol code goes beyond what its messages and buffers hold, and
    the mailbox theorems applied to concrete messages. *)

From S2P Require Import Prelude Platform Bits RegIO CtxtTypes.
From S2P Require Import ResMgmt FreeList ResMgmtInv ResMgmtThms ResMgmtFrame.
From S2P Require Import IndCtxt SoftReg SoftCtxt SoftAccess RegList HwAccess.
From S2P Require Import MboxMsg MboxStruct MboxCompose MboxHandler MboxSafe MboxThms MboxProto.
From S2P Require Import MboxIO MboxLimits MboxConfine SoftAccessThms MboxProgram.

(** ** The size of a message *)

Lemma begin_msg_short op fid b : (length b < txrx_size)%nat → begin_msg op fid b = None.
Proof.
  intros Hb. unfold begin_msg, mbind, bm_bind, qdma_mbox_memset.
  change (Z.to_nat (u8 sizeof_qdma_mbox_txrx)) with 152%nat.
  destruct (inside 0 152 b) eqn:E; [|done]. apply inside_true in E. lia.
Qed.

Lemma context_get_short b : (length b < txrx_size)%nat → qdma_mbox_vf_context_get b = None.
Proof.
  intros Hb. unfold qdma_mbox_vf_context_get, mbind, bm_bind, qdma_mbox_memcpy_from.
  change (Z.to_nat (u8 sizeof_qdma_descq_context)) with 136%nat.
  destruct (inside qctxt_descq_ctxt 136 b) eqn:E; [|done]. apply inside_true in E.
  unfold qctxt_descq_ctxt in E. lia.
Qed.

(** The callers' message buffer has the 32 words of the message registers.  The
    union of the messages is larger, because of the queue contexts in it: every
    composing function zeroes more than the buffer, and taking the queue
    contexts out of a response reads more than the buffer. *)
Theorem message_overruns_registers func_id raw :
  length raw = wire_size →
  qdma_mbox_compose_csr_read func_id (Some raw) = None ∧
  (∀ qmax qbase, qmda_mbox_compose_vf_online func_id qmax qbase (Some raw) = None) ∧
  (∀ qmax qbase, qdma_mbox_compose_vf_qreq func_id qmax qbase (Some raw) = None) ∧
  (∀ qid st c2h ty c, qdma_mbox_compose_vf_qctxt_write func_id qid st c2h ty c (Some raw) = None) ∧
  qdma_mbox_vf_context_get raw = None.
Proof.
  intros Hraw. assert (Hs : (length raw < txrx_size)%nat) by (rewrite Hraw; cbn; lia).
  unfold qdma_mbox_compose_csr_read, qmda_mbox_compose_vf_online, qdma_mbox_compose_vf_qreq,
    qdma_mbox_compose_vf_qctxt_write, with_raw, mbind, option_bind, bm_bind.
  rewrite !begin_msg_short by done. split_and!; try done. by apply context_get_short.
Qed.

Lemma message_overruns_registers_witness :
  qdma_mbox_compose_csr_read 3 (Some (replicate 128 0)) = None.
Proof. apply (message_overruns_registers 3 (replicate 128 0)). reflexivity. Defined.

(** ** Messages that are not checked *)

Definition blank : buf := replicate 152 0.
Definition msg_of (o : option (Z * option buf)) : buf :=
  match o with Some (_, Some b) => b | _ => [] end.

(** A response buffer and a simulated device. *)
Definition exchange (d : sim) (b : buf) : mbox_state sim := mk_mst (mk_hw d false) demo b blank.

(** An interrupt message is believed when it names five rings: its arrays hold
    one, and the access of the fifth is outside the response buffer. *)
Theorem intr_ctxt_read_overruns :
  let b := put ictxt_num_rings 5 (put hdr_op (msg_op_val MBOX_OP_INTR_CTXT_RD) blank) in
  qdma_mbox_pf_rcv_msg_handler 0 0 (exchange sim_init b) = None.
Proof. vm_compute. done. Qed.

(** A device with a completion context in the entry of queue 3. *)
Definition sim_cmpt : sim :=
  mk_sim (λ _, 0) (λ _, 0)
    (λ sel qid i, if decide (sel = sel_val QDMA_CTXT_SEL_CMPT ∧ qid = 3) then 7 else 0) 0 (λ _, 0).

Definition cmpt_word (h : option (Z * mbox_state sim)) (qid : Z) : option Z :=
  (λ r, ctxt_ram (hw (ms_hw r.2)) (sel_val QDMA_CTXT_SEL_CMPT) qid 0) <$> h.

(** Function 1 clears the completion context of queue 3, which belongs to
    function 0: the request is for the completion context alone, and then the
    range is not checked. *)
Theorem cmpt_clear_not_checked :
  let b := msg_of (qdma_mbox_compose_vf_qctxt_clear 1 3 0 0 QDMA_MBOX_CMPT_CTXT_ONLY (Some blank)) in
  qdma_dev_is_queue_in_range 0 0 3 demo = QDMA_DEV_Q_IN_RANGE ∧
  qdma_dev_is_queue_in_range 0 1 3 demo = QDMA_DEV_Q_OUT_OF_RANGE ∧
  ctxt_ram sim_cmpt (sel_val QDMA_CTXT_SEL_CMPT) 3 0 = 7 ∧
  cmpt_word (qdma_mbox_pf_rcv_msg_handler 0 0 (exchange sim_cmpt b)) 3 = Some 0.
Proof. vm_compute. done. Qed.

(** Function 1 owns queues 32 to 47.  Its request to map all 2048 queues is
    carried out: the function map the hardware then has for it is not the
    range the resource manager has recorded. *)
Theorem fmap_not_checked :
  let b := msg_of (qdma_mbox_compose_vf_fmap_prog 1 2048 0 (Some blank)) in
  let h := qdma_mbox_pf_rcv_msg_handler 0 0 (exchange sim_init b) in
  qdma_dev_qinfo_get 0 1 0 0 demo = (QDMA_SUCCESS, 32, 16) ∧
  (λ r, (r.1, qdma_dev_qinfo_get 0 1 0 0 (ms_rm r.2),
         (qdma_fmap_conf true 1 (Some (mk_fmap 0 0)) QDMA_HW_ACCESS_READ (ms_hw r.2)) ≫= λ x, x.1.2))
    <$> h = Some (0, (QDMA_SUCCESS, 32, 16), Some (mk_fmap 0 2048)).
Proof. vm_compute. done. Qed.

(** ** Instances *)

(** A request of function 1 for 64 queues. *)
Definition qreq_msg : buf := Eval vm_compute in msg_of (qdma_mbox_compose_vf_qreq 1 64 (-1) (Some blank)).
Definition bye_msg : buf := Eval vm_compute in msg_of (qdma_mbox_compose_vf_offline 1 (Some blank)).
(** Function 1 asks to clear the contexts of queue 3, which is not its own, and
    of queue 40, which is. *)
Definition foreign_msg : buf :=
  Eval vm_compute in msg_of (qdma_mbox_compose_vf_qctxt_clear 1 3 1 1 QDMA_MBOX_CMPT_WITH_ST (Some blank)).
Definition own_msg : buf :=
  Eval vm_compute in msg_of (qdma_mbox_compose_vf_qctxt_clear 1 40 1 1 QDMA_MBOX_CMPT_WITH_ST (Some blank)).

Ltac msg_bytes := repeat first [apply Forall_nil_2 | apply Forall_cons_2; [unfold is_u; lia|]].

Lemma no_rings b op :
  msg_op_of (get hdr_op b) = Some op → is_intr_op op = false → rings_ok b.
Proof. intros Hop Hn o Ho Hi. rewrite Hop in Ho. injection Ho as <-. by rewrite Hn in Hi. Qed.

(** The same with the buffers of the driver. *)
Definition raw_exchange (d : sim) (b : buf) : mbox_state sim :=
  mk_mst (mk_hw d false) demo (take msg_size b) (replicate msg_size 0).

Lemma qdma_mbox_pf_rcv_msg_handler_safe_witness :
  ∃ ret s', qdma_mbox_pf_rcv_msg_handler 0 0 (raw_exchange sim_init qreq_msg) = Some (ret, s') ∧
    hw_prg_lock (ms_hw s') = false ∧
    length (ms_rcv s') = msg_size ∧ length (ms_resp s') = msg_size.
Proof.
  apply (qdma_mbox_pf_rcv_msg_handler_safe (raw_exchange sim_init qreq_msg) 0 0).
  1: reflexivity.
  1-2: apply Nat.leb_le; vm_compute; reflexivity.
  apply (no_rings _ MBOX_OP_QREQ); reflexivity.
Defined.

Lemma qdma_mbox_pf_rcv_msg_handler_answers_witness :
  ∃ ret s', qdma_mbox_pf_rcv_msg_handler 0 0 (raw_exchange sim_init qreq_msg) = Some (ret, s') ∧
    (answered_to (take msg_size qreq_msg) (ms_resp s') 0 ∨
     MBOX_OP_QREQ = MBOX_OP_FMAP ∧ ret < 0 ∧ ms_resp s' = replicate msg_size 0).
Proof.
  apply (qdma_mbox_pf_rcv_msg_handler_answers (raw_exchange sim_init qreq_msg) 0 0 MBOX_OP_QREQ).
  1: reflexivity.
  1-2: apply Nat.leb_le; vm_compute; reflexivity.
  1: apply (no_rings _ MBOX_OP_QREQ); reflexivity.
  all: reflexivity.
Defined.

(** With the buffers of the driver the answer to a context read that includes
    the completion context is written beyond the response; without it the read
    is answered. *)
Definition read_msg (ty : mbox_cmpt_ctxt_type) : buf :=
  msg_of (qdma_mbox_compose_vf_qctxt_read 1 40 1 1 ty (Some blank)).
Theorem ctxt_read_overruns :
  qdma_mbox_pf_rcv_msg_handler 0 0 (raw_exchange sim_init (read_msg QDMA_MBOX_CMPT_WITH_ST)) = None ∧
  is_Some (qdma_mbox_pf_rcv_msg_handler 0 0 (raw_exchange sim_init (read_msg QDMA_MBOX_CMPT_CTXT_NONE))).
Proof. split; vm_compute; [reflexivity|]. by eexists. Qed.

(** When the hardware fails to write the function map the request to program it
    is not answered: the response keeps its zeroes. *)
Definition fmap_fails : HwAccess sim := {|
  ha_mbox_base_pf := ha_mbox_base_pf; ha_mbox_base_vf := ha_mbox_base_vf;
  ha_fmap_conf _ c _ := mret (ERR QDMA_ERR_HWACC_BUSY_TIMEOUT, c);
  ha_sw_ctx_conf := ha_sw_ctx_conf; ha_pfetch_ctx_conf := ha_pfetch_ctx_conf;
  ha_cmpt_ctx_conf := ha_cmpt_ctx_conf; ha_hw_ctx_conf := ha_hw_ctx_conf;
  ha_credit_ctx_conf := ha_credit_ctx_conf; ha_indirect_intr_ctx_conf := ha_indirect_intr_ctx_conf;
  ha_global_csr_conf := ha_global_csr_conf; ha_get_device_attributes := ha_get_device_attributes;
  ha_read_reg_list := ha_read_reg_list;
|}.
Theorem fmap_unanswered :
  let b := msg_of (qdma_mbox_compose_vf_fmap_prog 1 16 32 (Some blank)) in
  (λ r, (r.1, ms_resp r.2)) <$> @qdma_mbox_pf_rcv_msg_handler sim fmap_fails 0 0 (raw_exchange sim_init b) =
    Some (ERR QDMA_ERR_HWACC_BUSY_TIMEOUT, replicate msg_size 0).
Proof. vm_compute. reflexivity. Qed.

(** The state after the request. *)
Definition after_qreq : Z * mbox_state sim :=
  default (0, exchange sim_init qreq_msg) (qdma_mbox_pf_rcv_msg_handler 0 0 (exchange sim_init qreq_msg)).

Lemma qdma_mbox_pf_rcv_msg_handler_isolates_witness :
  reachable [] (ms_rm after_qreq.2) ∧
  dev_of 0 0 (ms_rm after_qreq.2) = dev_of 0 0 demo.
Proof.
  destruct (qdma_mbox_pf_rcv_msg_handler_isolates (exchange sim_init qreq_msg) 0 0
    after_qreq.1 after_qreq.2) as [Hd Hr].
  - vm_compute. reflexivity.
  - split; [|apply Hd; vm_compute; discriminate]. apply Hr; [exact demo_reachable|].
    intros _. vm_compute. repeat split; discriminate.
Defined.

Lemma vf_queue_request_witness :
  ∃ b s',
    qdma_mbox_compose_vf_qreq 2 64 (-1) (Some blank) = Some (QDMA_SUCCESS, Some b) ∧
    qdma_mbox_pf_rcv_msg_handler 0 0 (mk_mst (mk_hw sim_init false) demo b blank) = Some (0, s') ∧
    ((∃ base j d,
        qdma_mbox_vf_qinfo_get (ms_resp s') = Some ((QDMA_SUCCESS, base, 64), ms_resp s') ∧
        qdma_get_dev_entry 0 2 (ms_rm s') = Some (j, d) ∧ entry d = mk_entry base 64) ∨
     (qdma_dev_update 0 2 64 (-1) demo).1.1 < 0 ∧
     qdma_mbox_vf_response_status (ms_resp s') =
       Some (ERR QDMA_ERR_MBOX_NUM_QUEUES, ms_resp s')).
Proof.
  apply (vf_queue_request (mk_hw sim_init false) demo [] 0 0 2 64 (-1) blank blank).
  - exact demo_reachable.
  - reflexivity.
  - unfold is_u. lia.
  - lia.
  - vm_compute. repeat split; discriminate.
  - lia.
  - reflexivity.
  - reflexivity.
Defined.

Lemma vf_bye_releases_witness :
  ∃ ret s', qdma_mbox_pf_rcv_msg_handler 0 0 (exchange sim_init bye_msg) = Some (ret, s') ∧
    (ret = QDMA_MBOX_VF_OFFLINE ∨ ret = QDMA_MBOX_VF_RESET_BYE) ∧
    dev_of 0 1 (ms_rm s') = None ∧
    ∀ q, qdma_dev_is_queue_in_range 0 1 q (ms_rm s') = QDMA_DEV_Q_OUT_OF_RANGE.
Proof.
  apply (vf_bye_releases (exchange sim_init bye_msg) [] 0 0 MBOX_OP_VF_BYE).
  1-3: reflexivity.
  1: exact demo_reachable.
  1: reflexivity.
  left. reflexivity.
Defined.

Lemma qctxt_of_foreign_queue_ignored_witness :
  ∃ s', qdma_mbox_pf_rcv_msg_handler 0 0 (exchange sim_cmpt foreign_msg) = Some (0, s') ∧
    ms_hw s' = mk_hw sim_cmpt false ∧ ms_rm s' = demo ∧
    (is_Some (dev_of 0 1 demo) →
     qdma_mbox_vf_response_status (ms_resp s') = Some (QDMA_SUCCESS, ms_resp s')).
Proof.
  apply (qctxt_of_foreign_queue_ignored (exchange sim_cmpt foreign_msg) 0 0 MBOX_OP_QCTXT_CLR
    (3, 1, 1, QDMA_MBOX_CMPT_WITH_ST)).
  1-3: reflexivity.
  1: msg_bytes.
  all: reflexivity.
Defined.

Lemma in_range_below ix f q rm :
  qdma_dev_is_queue_in_range ix f q rm = QDMA_DEV_Q_IN_RANGE →
  ∃ j d, qdma_get_dev_entry ix f rm = Some (j, d) ∧ q < u32 (qbase (entry d) + total_q (entry d)).
Proof.
  unfold qdma_dev_is_queue_in_range. destruct (qdma_get_master_resource_entry ix rm); [|done].
  destruct (qdma_get_dev_entry ix f rm) as [[j d]|]; [|done].
  destruct (Z.ltb_spec q (u32 (qbase (entry d) + total_q (entry d)))).
  - intros _. by exists j, d.
  - by rewrite andb_false_r.
Qed.


(** A configuration and its image in memory. *)
Definition conf_example : mbox_descq_conf :=
  mk_conf 0x123456000 0x456789000 1 0 1 1 1 0 1 1 1 0 0 1 0 1 0 1 2 1 5 0 9 3 4 33 1 0 1024 4096 2048.
Definition conf_image : list Z :=
  Eval vm_compute in default [] (image (Z.to_nat sizeof_mbox_descq_conf) conf_example).

Lemma qdma_mbox_compose_vf_qctxt_write_roundtrip_witness :
  ∃ b, qdma_mbox_compose_vf_qctxt_write 1 40 1 1 QDMA_MBOX_CMPT_WITH_ST conf_image (Some blank)
         = Some (QDMA_SUCCESS, Some b) ∧
    msg_op_of (get hdr_op b) = Some MBOX_OP_QCTXT_WRT ∧ get hdr_src_func_id b = 1 ∧
    rd_qctxt b = Some ((40, 1, 1, QDMA_MBOX_CMPT_WITH_ST), b) ∧
    rd_as mbox_descq_conf qctxt_descq_conf b = Some (conf_example, b).
Proof.
  apply (qdma_mbox_compose_vf_qctxt_write_roundtrip 1 40 1 1 QDMA_MBOX_CMPT_WITH_ST conf_example
    conf_image blank).
  1-4: unfold is_u; lia.
  1: constructor; cbn; first [unfold is_u; lia | msg_bytes].
  all: reflexivity.
Defined.

(** *** The mailbox registers *)

(** A device with message [b] in the inbox of the physical function. *)
Definition sim_inbox (status : Z) (b : buf) : sim :=
  mk_sim (λ _, 0) (λ _, 0) (λ _ _ _, 0) 0
    (λ a, let base := QDMA_OFFSET_MBOX_BASE_PF in
          if a =? base + MBOX_FN_STATUS then status
          else get (raw_word (Z.to_nat ((a - (base + MBOX_IN_MSG_BASE)) / 4))) b).

(** Function 1 pretends to be function 7. *)
Definition spoofed : buf := Eval vm_compute in put hdr_src_func_id 7 qreq_msg.
Definition status_from_1 : Z := 0x11.

Lemma qdma_mbox_rcv_source_witness :
  ∃ rv b s', qdma_mbox_rcv false blank (mk_hw (sim_inbox status_from_1 spoofed) false)
      = Some ((rv, b), s') ∧
    length b = length blank ∧ hw_prg_lock s' = false ∧
    (rv = QDMA_SUCCESS → get hdr_src_func_id b = 1).
Proof.
  destruct (qdma_mbox_rcv_source blank (mk_hw (sim_inbox status_from_1 spoofed) false))
    as (rv & b & s' & E & L & K & Hs); [vm_compute; lia|].
  exists rv, b, s'. split; [exact E|]. split; [exact L|]. split; [exact K|].
  intros Hrv. rewrite (Hs Hrv). vm_compute. reflexivity.
Defined.

Lemma qdma_mbox_send_spec_witness :
  ∃ rv s', qdma_mbox_send true qreq_msg (mk_hw (mk_logged sim_init []) false) = Some (rv, s') ∧
    hw_prg_lock s' = false ∧ rv = QDMA_SUCCESS ∧ log (hw s') = send_log true qreq_msg.
Proof.
  destruct (qdma_mbox_send_spec true qreq_msg (mk_hw (mk_logged sim_init []) false))
    as (rv & s' & E & K & Hs); [vm_compute; lia|].
  exists rv, s'. split; [exact E|]. split; [exact K|].
  change (out_busy true (mk_hw (mk_logged sim_init []) false)) with false in Hs. exact Hs.
Defined.

Lemma sim_decode_high a : QDMA_OFFSET_IND_CTXT_CMD < a → sim_decode a = SimOther.
Proof.
  unfold sim_decode, QDMA_OFFSET_IND_CTXT_CMD, QDMA_OFFSET_IND_CTXT_DATA, QDMA_OFFSET_IND_CTXT_MASK.
  intros Ha. rewrite (proj2 (Z.eqb_neq a 0x844)) by lia.
  rewrite (proj2 (Z.ltb_ge a 0x824)), (proj2 (Z.ltb_ge a 0x844)) by lia.
  by rewrite !andb_false_r.
Qed.

(** The device still has the message and its status. *)
Definition inbox_holds (status : Z) (b : buf) (d : sim) : Prop :=
  sim_regs d QDMA_OFFSET_MBOX_BASE_PF = status ∧
  ∀ i, (i < MBOX_MSG_REG_MAX)%nat →
    sim_regs d (QDMA_OFFSET_MBOX_BASE_PF + (MBOX_IN_MSG_BASE + Z.of_nat i * MBOX_MSG_STEP)) =
      get (raw_word i) b.

Lemma inbox_presents status b : presents false status b (inbox_holds status b).
Proof.
  unfold presents. change (get_mbox_offset false) with QDMA_OFFSET_MBOX_BASE_PF.
  unfold inbox_holds, QDMA_OFFSET_MBOX_BASE_PF, MBOX_IN_MSG_BASE, MBOX_MSG_STEP, MBOX_FN_STATUS,
    MBOX_FN_TARGET, MBOX_MSG_REG_MAX. cbn [dev_read dev_write sim_device].
  split_and!.
  - intros d [Hs Hw]. exists d. by rewrite wrap_small, sim_decode_high, Z.add_0_r, Hs
      by (unfold is_u, QDMA_OFFSET_IND_CTXT_CMD; lia).
  - intros d i [Hs Hw] Hi. exists d. rewrite wrap_small, sim_decode_high, Hw
      by (unfold is_u, QDMA_OFFSET_IND_CTXT_CMD; lia). done.
  - intros d v [Hs Hw]. rewrite wrap_small, sim_decode_high
      by (unfold is_u, QDMA_OFFSET_IND_CTXT_CMD; lia). cbn [sim_regs]. split.
    + by rewrite decide_False by lia.
    + intros i Hi. rewrite decide_False by lia. by apply Hw.
Qed.

Lemma qdma_mbox_rcv_delivers_witness :
  ∃ b' s', qdma_mbox_rcv false blank (mk_hw (sim_inbox status_from_1 spoofed) false) =
      Some ((QDMA_SUCCESS, b'), s') ∧ get fm_qmax b' = 64.
Proof.
  destruct (qdma_mbox_rcv_delivers false status_from_1 spoofed (inbox_holds status_from_1 spoofed)
    (inbox_presents status_from_1 spoofed)) with (raw := blank) (l := false)
    (d := sim_inbox status_from_1 spoofed) as (b' & s' & E & Hf).
  1: msg_bytes.
  1: vm_compute; lia.
  1: { split; [reflexivity|]. intros i Hi. do 32 (destruct i as [|i]; [reflexivity|]).
       unfold MBOX_MSG_REG_MAX in Hi. lia. }
  1: msg_bytes.
  1: vm_compute; lia.
  1: vm_compute; discriminate.
  1: reflexivity.
  exists b', s'. split; [exact E|]. rewrite (Hf fm_qmax).
  - reflexivity.
  - vm_compute. lia.
  - right. unfold disjoint_fields. cbn. lia.
Defined.

(** *** Programming a queue *)

(** A device in ST mode with the default tables. *)
Definition sim_tables : sim :=
  mk_sim (λ _, 0) (λ _, 0) (λ _ _ _, 7) 0
    (λ a, if a =? 0x118 then 0x30101 else if a =? 0x120 then 2 else if a =? 0x104 then 1
          else if (0x204 <=? a) && (a <? 0x244) then word rng_sz (Z.to_nat ((a - 0x204) / 4))
          else if (0xA00 <=? a) && (a <? 0xA40) then word tmr_cnt (Z.to_nat ((a - 0xA00) / 4))
          else if (0xA40 <=? a) && (a <? 0xA80) then word cnt_th (Z.to_nat ((a - 0xA40) / 4))
          else if (0xAB0 <=? a) && (a <? 0xAF0) then word buf_sz (Z.to_nat ((a - 0xAB0) / 4))
          else 0).

(** Queue 40 of function 1: streaming C2H with a completion ring. *)
Definition qctxt_example : mbox_msg_qctxt :=
  mk_qctxt 40 1 1 QDMA_MBOX_CMPT_WITH_ST
    (mk_conf 0x123456000 0x456789000 1 0 1 1 1 0 1 1 1 0 0 1 0 1 0 1 2 1 5 0 1 8 4 33 1 0 2048 4096 64).

Lemma mbox_write_queue_contexts_programs_witness :
  ∃ s', mbox_write_queue_contexts 0 qctxt_example (exchange sim_tables blank) =
      Some (QDMA_SUCCESS, s') ∧
    ctxt_ram (hw (ms_hw s')) (sel_val QDMA_CTXT_SEL_SW_C2H) 40 0 =
      word (sw_words (sw_from_conf qctxt_example 0)) 0.
Proof.
  destruct (mbox_write_queue_contexts_programs (exchange sim_tables blank) 0 qctxt_example 0 0 2 2 1)
    as (s' & E & _ & K).
  1: split; reflexivity.
  1: reflexivity.
  1: unfold is_u; cbn; lia.
  1: discriminate.
  1: split; reflexivity.
  1: intros _; split; reflexivity.
  1: { intros _. split; [split; reflexivity|]. split; [split; reflexivity|].
       split; [split; reflexivity|]. vm_compute. discriminate. }
  exists s'. split; [exact E|]. destruct (K 0%nat) as (Hsw & _); [lia|].
  etransitivity; [exact Hsw|]. vm_compute. reflexivity.
Defined.
