(* ===== verification/DescRing.v ===== *)
(** * Ring index arithmetic (qdma_descq.h, qdma_descq.c)

    The index functions of the descriptor and completion rings and the
    rounding of buffer sizes, on 32-bit unsigned integers, and their
    specification as arithmetic modulo the ring size. *)

From S2P Require Import Prelude.

Definition ring_idx_delta (new old rngsz : Z) : Z :=
  if old <=? new then u32 (new - old) else u32 (new + u32 (rngsz - old)).

Definition ring_idx_incr (idx cnt rngsz : Z) : Z :=
  let idx := u32 (idx + cnt) in
  if rngsz <=? idx then idx - rngsz else idx.

Definition ring_idx_decr (idx cnt rngsz : Z) : Z :=
  if cnt <=? idx then idx - cnt else u32 (rngsz - u32 (cnt - idx)).

Definition incr_pidx (pidx incr_val ring_sz : Z) : Z :=
  let pidx := u32 (pidx + incr_val) in
  if ring_sz <=? pidx then pidx - ring_sz else pidx.

(** [fls] of the kernel: the position of the last set bit, counted from 1. *)
Definition fls (x : Z) : Z := if x =? 0 then 0 else Z.log2 x + 1.

Definition get_next_powof2 (value : Z) : Z :=
  let num_bits := u32 (fls value - 1) in
  let mask := u32 (Z.shiftl 1 num_bits - 1) in
  u32 (Z.shiftl (Z.shiftr (u32 (value + mask)) num_bits) num_bits).

(** ** Specification *)

(** Index [i] of a ring of [n] entries; ring sizes are at most 2^16 in the
    hardware and far below 2^31 here. *)
Definition ring_idx (n i : Z) : Prop := 0 <= i < n.
Definition ring_sz_ok (n : Z) : Prop := 0 < n < 2 ^ 31.

Lemma mod_once a n : 0 < n → 0 <= a < 2 * n → a mod n = if n <=? a then a - n else a.
Proof.
  intros. case_match.
  - symmetry. apply Z.mod_unique with 1; lia.
  - apply Z.mod_small. lia.
Qed.

Lemma mod_once_neg a n : 0 < n → - n <= a < n → a mod n = if 0 <=? a then a else n + a.
Proof.
  intros. case_match.
  - apply Z.mod_small. lia.
  - symmetry. apply Z.mod_unique with (-1); lia.
Qed.

Section ring.
Context (n : Z) (Hn : ring_sz_ok n).
Implicit Types i j c : Z.

Lemma ring_idx_delta_mod i j :
  ring_idx n i → ring_idx n j → ring_idx_delta i j n = (i - j) mod n.
Proof using Hn.
  unfold ring_idx, ring_sz_ok, ring_idx_delta in *. intros.
  rewrite mod_once_neg by lia. repeat case_match; rewrite ?(u32_small (n - j)) by lia;
    rewrite ?u32_small; lia.
Qed.

Lemma ring_idx_incr_mod i c :
  ring_idx n i → 0 <= c <= n → ring_idx_incr i c n = (i + c) mod n.
Proof using Hn.
  unfold ring_idx, ring_sz_ok, ring_idx_incr in *. intros.
  rewrite mod_once by lia. rewrite u32_small by lia. done.
Qed.

Lemma incr_pidx_mod i c :
  ring_idx n i → 0 <= c <= n → incr_pidx i c n = (i + c) mod n.
Proof using Hn. apply ring_idx_incr_mod. Qed.

Lemma ring_idx_decr_mod i c :
  ring_idx n i → 0 <= c <= n → ring_idx_decr i c n = (i - c) mod n.
Proof using Hn.
  unfold ring_idx, ring_sz_ok, ring_idx_decr in *. intros.
  rewrite mod_once_neg by lia. repeat case_match; try lia.
  rewrite (u32_small (c - i)) by lia. rewrite u32_small; lia.
Qed.

Lemma ring_mod_idx z : ring_idx n (z mod n).
Proof using Hn. unfold ring_idx, ring_sz_ok in *. apply Z.mod_pos_bound. lia. Qed.
End ring.

(** The delta of two indices on a ring is the number of increments between
    them, and going back undoes going forward: the index functions are a
    consistent arithmetic modulo the ring size, in the ring's bounds. *)
Theorem ring_idx_laws n i c :
  ring_sz_ok n → ring_idx n i → 0 <= c < n →
  ring_idx n (ring_idx_incr i c n) ∧ ring_idx n (ring_idx_decr i c n) ∧
  ring_idx_delta (ring_idx_incr i c n) i n = c ∧
  ring_idx_decr (ring_idx_incr i c n) c n = i ∧
  ring_idx_incr (ring_idx_decr i c n) c n = i.
Proof.
  intros Hn Hi Hc. pose proof Hi as Hi'. unfold ring_idx in Hi'.
  rewrite ring_idx_incr_mod, (ring_idx_decr_mod n Hn i) by (done || lia).
  pose proof (ring_mod_idx n Hn (i + c)). pose proof (ring_mod_idx n Hn (i - c)).
  rewrite ring_idx_delta_mod by done.
  rewrite ring_idx_decr_mod, ring_idx_incr_mod by (done || lia).
  rewrite !Zminus_mod_idemp_l, Zplus_mod_idemp_l.
  replace (i + c - i) with c by lia. replace (i + c - c) with i by lia.
  replace (i - c + c) with i by lia. 
  rewrite (Z.mod_small c), (Z.mod_small i) by lia. done.
Qed.

Lemma ring_idx_laws_witness :
  ring_idx_delta (ring_idx_incr 14 5 16) 14 16 = 5 ∧ ring_idx_decr (ring_idx_incr 14 5 16) 5 16 = 14.
Proof.
  destruct (ring_idx_laws 16 14 5) as (_ & _ & ? & ? & _);
    [unfold ring_sz_ok; lia|unfold ring_idx; lia|lia|]. done.
Defined.

(** [get_next_powof2] returns the least power of two that is not smaller than
    its argument, for arguments up to 2^31. *)
Theorem get_next_powof2_least v :
  1 <= v <= 2 ^ 31 →
  ∃ k, 0 <= k ∧ get_next_powof2 v = 2 ^ k ∧ v <= 2 ^ k ∧ ∀ j, 0 <= j → v <= 2 ^ j → k <= j.
Proof.
  intros Hv. unfold get_next_powof2, fls.
  replace (v =? 0) with false by lia.
  destruct (Z.log2_spec v ltac:(lia)) as [Hlo Hhi]. set (l := Z.log2 v) in *.
  assert (0 <= l) by apply Z.log2_nonneg.
  assert (l <= 31) by (apply Z.lt_succ_r, Z.log2_lt_pow2; lia).
  assert (2 ^ l <= 2 ^ 31) by (apply Z.pow_le_mono_r; lia).
  assert (0 < 2 ^ l) by (apply Z.pow_pos_nonneg; lia).
  replace (l + 1 - 1) with l by lia. rewrite (u32_small l) by lia.
  rewrite Z.shiftl_1_l, (u32_small (2 ^ l - 1)) by lia.
  rewrite (u32_small (v + (2 ^ l - 1))) by lia.
  rewrite Z.shiftr_div_pow2, Z.shiftl_mul_pow2 by lia.
  rewrite Z.pow_succ_r in Hhi by lia.
  destruct (decide (v = 2 ^ l)) as [He|Hne].
  - exists l. rewrite He. replace ((2 ^ l + (2 ^ l - 1)) / 2 ^ l) with 1 by
      (apply Z.div_unique with (2 ^ l - 1); lia).
    rewrite u32_small by lia. repeat split; try lia.
    intros j Hj Hle. apply Z.pow_le_mono_r_iff in Hle; lia.
  - exists (Z.succ l). rewrite Z.pow_succ_r by lia.
    replace ((v + (2 ^ l - 1)) / 2 ^ l) with 2 by
      (apply Z.div_unique with (v + (2 ^ l - 1) - 2 ^ l * 2); lia).
    rewrite u32_small by lia. repeat split; try lia.
    intros j Hj Hle. destruct (decide (j < Z.succ l)); [|lia].
    assert (2 ^ j <= 2 ^ l) by (apply Z.pow_le_mono_r; lia). lia.
Qed.

Lemma get_next_powof2_witness : ∃ k, get_next_powof2 3000 = 2 ^ k ∧ 3000 <= 2 ^ k.
Proof. destruct (get_next_powof2_least 3000) as (k & ? & ? & ? & _); [lia|]. by exists k. Defined.

(** ** Writing consecutive entries *)

(** The entries of [ds] at [p], [p + 1], ... on a ring of [n] entries. *)
Fixpoint ring_write {A} (n : Z) (ring : list A) (p : Z) (ds : list A) : list A :=
  match ds with
  | [] => ring
  | d :: ds => ring_write n (<[Z.to_nat p := d]> ring) ((p + 1) mod n) ds
  end.

Section ring_write.
Context {A : Type} (n : Z) (Hn : ring_sz_ok n).
Implicit Types (ring ds : list A) (p q : Z).

Lemma ring_write_length ring p ds : length (ring_write n ring p ds) = length ring.
Proof using. revert ring p. induction ds; intros; simpl; [done|]. by rewrite IHds, length_insert. Qed.

Lemma ring_write_app ring p ds1 ds2 :
  ring_idx n p →
  ring_write n ring p (ds1 ++ ds2) =
  ring_write n (ring_write n ring p ds1) ((p + Z.of_nat (length ds1)) mod n) ds2.
Proof using Hn.
  unfold ring_sz_ok in *. revert ring p. induction ds1 as [|d ds1 IH]; intros ring p Hp; simpl.
  - by rewrite Z.add_0_r, Z.mod_small.
  - rewrite IH by (apply ring_mod_idx; done). rewrite Zplus_mod_idemp_l. do 2 f_equal. lia.
Qed.

(** Entries outside the written window keep their value. *)
Lemma ring_write_other ring p ds q :
  ring_idx n p → ring_idx n q → Z.of_nat (length ds) <= (q - p) mod n →
  ring_write n ring p ds !! Z.to_nat q = ring !! Z.to_nat q.
Proof using Hn.
  unfold ring_idx, ring_sz_ok in *. revert ring p.
  induction ds as [|d ds IH]; intros ring p Hp Hq Hlen; simpl in *; [done|].
  assert (q ≠ p) by (intros ->; rewrite Z.sub_diag, Z.mod_0_l in Hlen; lia).
  rewrite IH.
  - apply list_lookup_insert_ne. lia.
  - apply Z.mod_pos_bound. lia.
  - done.
  - rewrite Zminus_mod_idemp_r. replace (q - (p + 1)) with (q - p - 1) by lia.
    rewrite mod_once_neg in Hlen |- * by lia. repeat case_match; lia.
Qed.

(** The window holds what was written, when it fits the ring. *)
Lemma ring_write_lookup ring p ds k d :
  length ring = Z.to_nat n → ring_idx n p → Z.of_nat (length ds) <= n → ds !! k = Some d →
  ring_write n ring p ds !! Z.to_nat ((p + Z.of_nat k) mod n) = Some d.
Proof using Hn.
  revert ring p k. induction ds as [|d' ds IH]; intros ring p k Hr Hp Hlen Hk; [done|].
  unfold ring_idx, ring_sz_ok in *. simpl in *. destruct k as [|k]; simpl in Hk.
  - simplify_eq. rewrite Z.add_0_r, Z.mod_small by done.
    rewrite ring_write_other.
    + apply list_lookup_insert_eq. lia.
    + apply Z.mod_pos_bound. lia.
    + done.
    + rewrite Zminus_mod_idemp_r. replace (p - (p + 1)) with (-1) by lia.
      rewrite mod_once_neg by lia. simpl. lia.
  - replace ((p + Z.of_nat (S k)) mod n) with (((p + 1) mod n + Z.of_nat k) mod n)
      by (rewrite Zplus_mod_idemp_l; f_equal; lia).
    apply IH; [by rewrite length_insert|apply Z.mod_pos_bound; lia|lia|done].
Qed.
End ring_write.

(** The [c] entries from [p] on. *)
Definition ring_read {A} (d0 : A) (n : Z) (ring : list A) (p c : Z) : list A :=
  map (λ j, default d0 (ring !! Z.to_nat ((p + j) mod n))) (seqZ 0 c).

Lemma ring_read_write {A} (d0 : A) n ring p ds :
  ring_sz_ok n → length ring = Z.to_nat n → ring_idx n p → Z.of_nat (length ds) <= n →
  ring_read d0 n (ring_write n ring p ds) p (Z.of_nat (length ds)) = ds.
Proof.
  intros Hn Hr Hp Hlen. apply list_eq. intros i. unfold ring_read. rewrite list_lookup_fmap.
  destruct (ds !! i) as [d|] eqn:Hd.
  - pose proof (lookup_lt_Some _ _ _ Hd). rewrite lookup_seqZ_lt by lia. simpl.
    rewrite Z.add_0_l. by rewrite (ring_write_lookup n Hn ring p ds i d).
  - apply lookup_ge_None in Hd. by rewrite lookup_seqZ_ge by lia.
Qed.

(** A change of an entry that an observation does not see. *)
Lemma ring_read_alter {A B} (g : A → list B) (f : A → A) d0 n (ring : list A) x p c :
  (∀ d, g (f d) = g d) →
  ring_read d0 n (alter f x ring) p c ≫= g = ring_read d0 n ring p c ≫= g.
Proof.
  intros Hf. unfold ring_read. induction (seqZ 0 c) as [|j l IH]; [done|]. cbn [map].
  rewrite !bind_cons. f_equal; [|done].
  destruct (decide (x = Z.to_nat ((p + j) mod n))) as [->|].
  - rewrite list_lookup_alter_eq. destruct (ring !! _); simpl; [apply Hf|done].
  - by rewrite list_lookup_alter_ne.
Qed.
