(* ===== verification/Descq.v ===== *)
(** * Descriptor queues: submission and completion (qdma_descq.c, qdma_descq.h)

    Requests wait on the work list, are split into descriptors on the ring,
    move to the pending list when all their bytes have descriptors, and are
    completed when the hardware has consumed them. *)

From S2P Require Import Prelude Platform SoftAccess QueueTypes DescRing.

Definition z_of_bool (b : bool) : Z := if b then 1 else 0.

(** [min_t(unsigned int, a, b)] *)
Definition min_u32 (a b : Z) : Z := Z.min (u32 a) (u32 b).

(** ** Scatter lists *)

(** The loop of [qdma_sgl_find_offset] from entry [i] on, with [len] bytes in
    the entries before: the returned index, the entry and the offset in it. *)
Fixpoint sgl_scan (sgl : list qdma_sw_sg) (i len offset : Z) : option (Z * Z * Z) :=
  match sgl with
  | [] => None
  | sg :: sgl =>
      let len := u32 (len + sg_len sg) in
      if len =? offset then Some (i + 1, i + 1, 0)
      else if offset <? len then Some (i, i, u32 (sg_len sg - (len - offset)))
      else sgl_scan sgl (i + 1) len offset
  end.

Definition rq_sgcnt (req : qdma_request) : Z := Z.of_nat (length (rq_sgl req)).

(** The result, and the values of [sg_p] and [sg_offset], which the callers
    use only when the result is not negative. *)
Definition qdma_sgl_find_offset (req : qdma_request) : Z * Z * Z :=
  if rq_count req =? 0 then (0, 0, 0)
  else
    match sgl_scan (rq_sgl req) 0 0 (cb_offset (rq_cb req)) with
    | Some (i, sg, sg_offset) => if i <? rq_sgcnt req then (i, sg, sg_offset) else (- EINVAL, 0, 0)
    | None => (- EINVAL, 0, 0)
    end.

(** [sgl_unmap]: the mapping ends at the first entry without page. *)
Fixpoint sgl_unmap (sgl : list qdma_sw_sg) : list qdma_sw_sg :=
  match sgl with
  | [] => []
  | sg :: sgl' => if sg_pg sg =? 0 then sgl else sg <| sg_dma_addr := 0 |> :: sgl_unmap sgl'
  end.

Section descq.
Context {H : Type} `{QueueHw H}.

(** ** The work list *)

Definition qdma_work_queue_add (r : Z) : qm H unit :=
  work_list_add_tail r;;
  modq (λ q, q <| dq_work_req_pend := u32 (dq_work_req_pend q + 1) |>).

Definition qdma_work_queue_del (r : Z) : qm H unit :=
  cb_list_del r;;
  modq (λ q, q <| dq_work_req_pend := u32 (dq_work_req_pend q - 1) |>).

(** The counter is returned as an [int]. *)
Definition qdma_work_queue_len : qm H Z := q ← getq; mret (s32 (dq_work_req_pend q)).

Definition qdma_work_queue_first_entry : qm H Z :=
  q ← getq; match dq_work_list q with [] => qfail | r :: _ => mret r end.

Definition qdma_update_request (r num_desc data_cnt sg_offset : Z) (sg : option Z) : qm H unit :=
  modcb r (λ cb, cb <| cb_desc_nr := u32 (cb_desc_nr cb + num_desc) |>
                    <| cb_offset := u32 (cb_offset cb + data_cnt) |>
                    <| cb_sg_offset := sg_offset |> <| cb_sg := sg |>);;
  req ← getreq r;
  if rq_count req <=? cb_offset (rq_cb req) then
    qdma_work_queue_del r;; pend_list_add_tail r
  else mret tt.

(** ** Doorbell *)

Definition descq_pidx_doorbell : qm H Z :=
  q ← getq; hwcall (queue_pidx_update (qc_qidx (dq_conf q)) (qc_q_type (dq_conf q)) (dq_pidx_info q)).

Definition qdma_pidx_update (force : bool) : qm H Z :=
  q ← getq;
  let desc_avail_max := u32 (qc_rngsz (dq_conf q) - 1) in
  if force || (u32 (desc_avail_max - qc_pidx_acc (dq_conf q)) <? dq_avail q)
     || negb (dq_desc_pend q <? qc_pidx_acc (dq_conf q))
  then
    ret ← descq_pidx_doorbell;
    if ret <? 0 then mret (- EINVAL)
    else modq (λ q, q <| dq_desc_pend := 0 |>);; mret ret
  else mret 0.

(** ** Completion *)

Definition incr_cmpl_desc_cnt (cnt : Z) : qm H unit :=
  modq (λ q, q <| dq_total_cmpl_descs := u64 (dq_total_cmpl_descs q + cnt) |>);;
  q ← getq;
  let k := Z.lor (Z.shiftl (qc_st (dq_conf q)) 1) (qc_q_type (dq_conf q)) in
  if k =? 0 then modx (λ x, x <| xd_total_mm_h2c_pkts := u64 (xd_total_mm_h2c_pkts x + cnt) |>)
  else if k =? 1 then modx (λ x, x <| xd_total_mm_c2h_pkts := u64 (xd_total_mm_c2h_pkts x + cnt) |>)
  else if k =? 2 then modx (λ x, x <| xd_total_st_h2c_pkts := u64 (xd_total_st_h2c_pkts x + cnt) |>)
  else if k =? 3 then modx (λ x, x <| xd_total_st_c2h_pkts := u64 (xd_total_st_c2h_pkts x + cnt) |>)
  else mret tt.

(** Streaming queues of direction card to host are handled separately. *)
Definition is_st_c2h (q : qdma_descq) : bool :=
  nz (qc_st (dq_conf q)) && (qc_q_type (dq_conf q) =? Q_C2H).

Definition qdma_sgt_req_done (r error : Z) : qm H unit :=
  cb_list_del r;;
  req ← getreq r;
  qwhen (cb_unmap_needed (rq_cb req))
    (putreq r (req <| rq_sgl := sgl_unmap (rq_sgl req) |>
                   <| rq_cb := rq_cb req <| cb_unmap_needed := false |> |>));;
  req ← getreq r;
  q ← getq;
  (if rq_fp_done req then
     let error := if negb (cb_offset (rq_cb req) =? rq_count req) && negb (is_st_c2h q)
                  then - EINVAL else error in
     modcb r (λ cb, cb <| cb_status := error |> <| cb_done := true |>);;
     qevent (EvDone r (cb_offset (rq_cb req)) error)
   else
     modcb r (λ cb, cb <| cb_status := error |> <| cb_done := true |>);;
     qevent (EvWake r));;
  if negb (qc_fp_descq_c2h_packet (dq_conf q)) then
    modq (λ q, q <| dq_pend_list_empty :=
      if is_st_c2h q then dq_avail q =? 0 else dq_avail q =? u32 (qc_rngsz (dq_conf q) - 1) |>);;
    q ← getq;
    qwhen (dq_q_stop_wait q && dq_pend_list_empty q) (qevent EvPendEmpty)
  else modq (λ q, q <| dq_pend_list_empty := true |>).

(** The loop over the pending list; [n] bounds its length. *)
Fixpoint cmpl_requests (n : nat) (cr : Z) : qm H Z :=
  match n with
  | O => mret cr
  | S n =>
      q ← getq;
      match dq_pend_list q with
      | [] => mret cr
      | r :: _ =>
          req ← getreq r;
          let nr := cb_desc_nr (rq_cb req) in
          if nr <=? cr then
            qdma_sgt_req_done r 0;;
            (if cr - nr =? 0 then mret 0 else cmpl_requests n (cr - nr))
          else modcb r (λ cb, cb <| cb_desc_nr := nr - cr |>);; mret 0
      end
  end.

Definition descq_mm_n_h2c_cmpl_status : qm H Z :=
  q ← getq;
  if dq_pidx q =? dq_cidx q then mret 0
  else
    cidx_hw ← hwcall desc_cmpl_status_cidx;
    let cidx := dq_cidx q in
    if cidx_hw =? cidx then mret 0
    else
      let cr := if cidx_hw <? cidx then u32 (u32 (qc_rngsz (dq_conf q) - cidx) + cidx_hw)
                else cidx_hw - cidx in
      modq (λ q, q <| dq_cidx := cidx_hw |> <| dq_avail := u32 (dq_avail q + cr) |>
                   <| dq_credit := u32 (dq_credit q + cr) |>);;
      incr_cmpl_desc_cnt cr;;
      q ← getq;
      cr ← cmpl_requests (length (dq_pend_list q)) (dq_credit q);
      modq (λ q, q <| dq_credit := cr |>);;
      qdma_pidx_update true;;
      mret 0.

Definition descq_poll_mm_n_h2c_cmpl_status : qm H Z :=
  x ← getx;
  match xd_qdma_drv_mode x with
  | POLL_MODE | AUTO_MODE =>
      modq (λ q, q <| dq_proc_req_running := true |>);; descq_mm_n_h2c_cmpl_status
  | _ => mret 0
  end.
End descq.
