(* ===== verification/DescqProc.v ===== *)
(** * Descriptor queues: writing descriptors (qdma_descq.c)

    descq_mm_proc_request, descq_proc_st_h2c_request and
    descq_proc_st_h2c_request_qep: the loops that turn requests into
    descriptors.

    The scatter list is walked by recursion on the list, the descriptors of
    one entry are written by recursion on the number of descriptors that are
    still available, which the code counts too.  The loop over the work list
    has no bound in the code: it runs on fuel, and a run that exhausts every
    fuel never returns. *)

From S2P Require Import Prelude Platform SoftAccess QueueTypes DescRing Descq.

(** ** Memory mapped descriptors *)

(** The constants of one round of the loop over the work list. *)
Record mm_env := mk_mm_env {
  e_c2h : bool;          (* descq->conf.q_type == Q_C2H *)
  e_rngsz : Z; e_desc_max : Z; e_aperture : Z; e_keyhole : bool;
  e_req_ep : Z;          (* req->ep_addr *)
  e_ep_max : Z;          (* ep_addr_max *)
}.

(** The variables of the round: the ring and [pidx] ([desc] points to entry
    [pidx]), [ep_addr], [data_cnt], [sg_offset], [desc_cnt], [desc_end]. *)
Record mm_vars := mk_mm_vars {
  v_ring : list qdma_mm_desc; v_pidx : Z; v_ep : Z; v_data : Z; v_sg_offset : Z;
  v_cnt : Z; v_end : option Z;
}.
#[export] Instance eta_mm_vars : Settable mm_vars := λ v,
  mk_mm_vars (v_ring v) (v_pidx v) (v_ep v) (v_data v) (v_sg_offset v) (v_cnt v) (v_end v).

(** [++pidx == rngsz ? 0 : pidx] *)
Definition next_pidx (rngsz pidx : Z) : Z := if u32 (pidx + 1) =? rngsz then 0 else u32 (pidx + 1).

(** [ep_addr] and [len] of the next descriptor. *)
Definition mm_chunk (e : mm_env) (ep tlen : Z) : Z * Z :=
  let len := min_u32 tlen (e_aperture e) in
  if e_keyhole e then
    let ep := if e_ep_max e <? ep then e_req_ep e else ep in
    (ep, if e_ep_max e <? u64 (ep + len) then u32 (u64 (e_ep_max e - ep + 1)) else len)
  else (ep, len).

Definition mm_write_desc (e : mm_env) (src_addr ep len : Z) : qdma_mm_desc :=
  let flag_len := Z.lor len (Z.shiftl 1 S_DESC_F_DV) in
  if e_c2h e then mk_mm_desc ep flag_len 0 src_addr 0 else mk_mm_desc src_addr flag_len 0 ep 0.

(** One iteration of [do ... while (tlen)], without the conditions. *)
Definition mm_emit (e : mm_env) (src_addr tlen : Z) (v : mm_vars) : mm_vars * Z :=
  let '(ep, len) := mm_chunk e (v_ep v) tlen in
  (mk_mm_vars (<[Z.to_nat (v_pidx v) := mm_write_desc e src_addr ep len]> (v_ring v))
     (next_pidx (e_rngsz e) (v_pidx v)) (u64 (ep + len)) (u32 (v_data v + len))
     (u32 (v_sg_offset v + len)) (u32 (v_cnt v + 1)) (Some (v_pidx v)),
   len).

(** [do ... while (tlen)]: [n] is the number of descriptors left.  Returns the
    variables and the bytes of the entry that are left. *)
Fixpoint mm_entry (e : mm_env) (n : nat) (src_addr tlen : Z) (v : mm_vars) : mm_vars * Z :=
  match n with
  | O => (v, tlen)
  | S n =>
      let '(v, len) := mm_emit e src_addr tlen v in
      let tlen := u32 (tlen - len) in
      if v_cnt v =? e_desc_max e then (v, tlen)
      else if tlen =? 0 then (v, tlen)
      else mm_entry e n (u64 (src_addr + len)) tlen v
  end.

Definition clear_flag_len (v : mm_vars) : mm_vars :=
  v <| v_ring := alter (λ d, mk_mm_desc (mm_src_addr d) 0 (mm_rsvd0 d) (mm_dst_addr d) (mm_rsvd1 d))
                       (Z.to_nat (v_pidx v)) (v_ring v) |>.

(** The loop over the scatter entries from [i] on; returns the final [i]. *)
Fixpoint mm_entries (e : mm_env) (sgl : list qdma_sw_sg) (i : Z) (v : mm_vars) : mm_vars * Z :=
  match sgl with
  | [] => (v, i)
  | sg :: sgl =>
      if v_cnt v <? e_desc_max e then
        let v := clear_flag_len v in
        let tlen := u32 (sg_len sg - v_sg_offset v) in
        let src_addr := u64 (sg_dma_addr sg + v_sg_offset v) in
        let '(v, tlen) :=
          mm_entry e (Z.to_nat (e_desc_max e - v_cnt v)) src_addr tlen (v <| v_sg_offset := 0 |>) in
        mm_entries e sgl (i + 1) (if tlen =? 0 then v <| v_sg_offset := 0 |> else v)
      else (v, i)
  end.

Definition set_flag (b : Z) (p : Z) (ring : list qdma_mm_desc) : list qdma_mm_desc :=
  alter (λ d, mk_mm_desc (mm_src_addr d) (Z.lor (mm_flag_len d) (Z.shiftl 1 b)) (mm_rsvd0 d)
                (mm_dst_addr d) (mm_rsvd1 d)) (Z.to_nat p) ring.

(** ** Streaming host to card descriptors *)

Record h2c_vars := mk_h2c_vars {
  w_ring : list qdma_h2c_desc; w_pidx : Z; w_data : Z; w_sg_offset : Z; w_cnt : Z;
}.
#[export] Instance eta_h2c_vars : Settable h2c_vars := λ v,
  mk_h2c_vars (w_ring v) (w_pidx v) (w_data v) (w_sg_offset v) (w_cnt v).

Definition h2c_clear (p : Z) (ring : list qdma_h2c_desc) : list qdma_h2c_desc :=
  alter (λ d, mk_h2c_desc 0 (h2c_pld_len d) (h2c_len d) 0 (h2c_src_addr d)) (Z.to_nat p) ring.

(** One iteration; [sop] and [eop] tell whether the entry is the first and the
    last one of the request and the queue sends descriptors to bypass. *)
Definition h2c_emit (rngsz pktsz : Z) (sop eop : bool) (src_addr tlen : Z) (v : h2c_vars) :
    h2c_vars * Z :=
  let len := min_u32 tlen pktsz in
  let fill d := mk_h2c_desc (Z.lor (h2c_cdh_flags d) S_H2C_DESC_F_ZERO_CDH) (u16 len) (u16 len)
    (let f := if sop then Z.lor (h2c_flags d) S_H2C_DESC_F_SOP else h2c_flags d in
     if eop then Z.lor f S_H2C_DESC_F_EOP else f) src_addr in
  let ring := alter fill (Z.to_nat (w_pidx v)) (w_ring v) in
  let pidx := next_pidx rngsz (w_pidx v) in
  (mk_h2c_vars (if u32 (w_pidx v + 1) =? rngsz then ring else h2c_clear pidx ring)
     pidx (u32 (w_data v + len)) (u32 (w_sg_offset v + len)) (u32 (w_cnt v + 1)),
   len).

Fixpoint h2c_entry (rngsz pktsz desc_max : Z) (sop eop : bool) (n : nat) (src_addr tlen : Z)
    (v : h2c_vars) : h2c_vars * Z :=
  match n with
  | O => (v, tlen)
  | S n =>
      let '(v, len) := h2c_emit rngsz pktsz sop eop src_addr tlen v in
      let tlen := u32 (tlen - len) in
      if w_cnt v =? desc_max then (v, tlen)
      else if tlen =? 0 then (v, tlen)
      else h2c_entry rngsz pktsz desc_max sop eop n (u64 (src_addr + len)) tlen v
  end.

Fixpoint h2c_entries (rngsz pktsz desc_max sg_max : Z) (bypass : bool) (sgl : list qdma_sw_sg)
    (i : Z) (v : h2c_vars) : h2c_vars * Z :=
  match sgl with
  | [] => (v, i)
  | sg :: sgl =>
      if w_cnt v <? desc_max then
        let tlen := u32 (sg_len sg - w_sg_offset v) in
        let src_addr := u64 (sg_dma_addr sg + w_sg_offset v) in
        let '(v, tlen) :=
          h2c_entry rngsz pktsz desc_max (bypass && (i =? 0)) (bypass && (i =? u32 (sg_max - 1)))
            (Z.to_nat (desc_max - w_cnt v)) src_addr tlen (v <| w_sg_offset := 0 |>) in
        h2c_entries rngsz pktsz desc_max sg_max bypass sgl (i + 1)
          (if tlen =? 0 then v <| w_sg_offset := 0 |> else v)
      else (v, i)
  end.

(** ** The loops over the work list *)

Section proc.
Context {H : Type} `{QueueHw H}.

(** [conf.fp_bypass_desc_fill], supplied by the user of the library: streaming
    or memory mapped, queue type, request. *)
Variable fp_bypass_desc_fill : bool → Z → Z → qm H Z.

Definition is_ul_ext (q : qdma_descq) : bool :=
  nz (qc_desc_bypass (dq_conf q)) && qc_fp_bypass_desc_fill (dq_conf q).

(** [desc_max]: the free descriptors, polled for when there are none. *)
Definition descq_desc_max : qm H Z :=
  q ← getq;
  if dq_avail q =? 0 then
    descq_poll_mm_n_h2c_cmpl_status;; q ← getq; mret (dq_avail q)
  else mret (dq_avail q).

Definition mm_aperture (c : qdma_queue_conf) : Z :=
  if nz (qc_aperture_size c) then qc_aperture_size c else QDMA_DESC_BLEN_MAX.
Definition mm_keyhole (c : qdma_queue_conf) : bool := nz (qc_aperture_size c).

Definition mm_round_env (q : qdma_descq) (req : qdma_request) (desc_max : Z) : mm_env :=
  let aperture := mm_aperture (dq_conf q) in
  {| e_c2h := qc_q_type (dq_conf q) =? Q_C2H; e_rngsz := qc_rngsz (dq_conf q);
     e_desc_max := desc_max; e_aperture := aperture; e_keyhole := mm_keyhole (dq_conf q);
     e_req_ep := rq_ep_addr req; e_ep_max := u64 (rq_ep_addr req + aperture - 1) |}.

(** The endpoint address a round starts with. *)
Definition mm_ep_addr (c : qdma_queue_conf) (req : qdma_request) : Z :=
  if mm_keyhole c
  then u64 (rq_ep_addr req + Z.land (cb_offset (rq_cb req)) (u32 (mm_aperture c - 1)))
  else u64 (rq_ep_addr req + cb_offset (rq_cb req)).

(** The descriptors one round writes for a request: the variables at the end
    and the final index of the scatter entry. *)
Definition mm_fill (q : qdma_descq) (req : qdma_request) (desc_max pidx i sg_offset : Z) :
    mm_vars * Z :=
  mm_entries (mm_round_env q req desc_max) (drop (Z.to_nat i) (rq_sgl req)) i
    (mk_mm_vars (dq_mm_desc q) pidx (mm_ep_addr (dq_conf q) req) 0 sg_offset 0 None).

(** [while (!list_empty(&descq->work_list))]; [pidx] is the local index and
    [written] is [desc_written]. *)
Fixpoint mm_while (fuel : nat) (pidx written : Z) : qm H Z :=
  match fuel with
  | O => qfail
  | S fuel =>
      q ← getq;
      match dq_work_list q with
      | [] => mret written
      | r :: _ =>
          req ← getreq r;
          desc_max ← descq_desc_max;
          if desc_max =? 0 then mret written
          else if is_ul_ext q then
            desc_consumed ← fp_bypass_desc_fill false (qc_q_type (dq_conf q)) r;
            mm_while fuel pidx
              (if 0 <? desc_consumed then u32 (written + desc_consumed) else written)
          else
            let '(rv, _, sg_offset) := qdma_sgl_find_offset req in
            if rv <? 0 then qdma_update_request r 0 0 0 None;; mm_while fuel pidx written
            else
              q ← getq;
              let '(v, i) := mm_fill q req desc_max pidx rv sg_offset in
              match v_end v with
              | None => modq (λ q, q <| dq_mm_desc := v_ring v |>);; mret written
              | Some desc_end =>
                  let last := i =? rq_sgcnt req in
                  modq (λ q, q <| dq_mm_desc :=
                    set_flag S_DESC_F_SOP pidx (set_flag S_DESC_F_EOP desc_end (v_ring v)) |>);;
                  qdma_update_request r (v_cnt v) (v_data v)
                    (if last then 0 else v_sg_offset v) (if last then None else Some i);;
                  modq (λ q, q <| dq_pidx := v_pidx v |> <| dq_avail := u32 (dq_avail q - v_cnt v) |>);;
                  mm_while fuel (v_pidx v) (u32 (written + v_cnt v))
              end
      end
  end.

(** Post the descriptors written, if any; [false] when the doorbell failed and
    the caller returns its error. *)
Definition descq_post (written : Z) (ping_pong : bool) : qm H bool :=
  if written =? 0 then mret true
  else
    modq (λ q, q <| dq_pend_list_empty := false |>
                 <| dq_pidx_info := mk_pidx_info (u16 (dq_pidx q)) (pri_irq_en (dq_pidx_info q)) |>);;
    qwhen ping_pong (qevent EvPingPong);;
    rv ← descq_pidx_doorbell;
    if rv <? 0 then mret false else descq_poll_mm_n_h2c_cmpl_status;; mret true.

(** The checks at the start of the three functions, with the lock held: [true]
    when the caller returns 0 at once. *)
Definition descq_proc_guard (running : bool) : qm H bool :=
  q ← getq;
  if dq_q_stop_wait q then descq_mm_n_h2c_cmpl_status;; mret true
  else if negb (bool_decide (dq_q_state q = Q_STATE_ONLINE)) then mret true
  else mret (running && dq_proc_req_running q).

Definition descq_mm_proc_request (fuel : nat) : qm H Z :=
  lock_descq;;
  stop ← descq_proc_guard true;
  if (stop : bool) then unlock_descq;; mret 0
  else
    q ← getq;
    let pidx := dq_pidx q in
    descq_poll_mm_n_h2c_cmpl_status;;
    written ← mm_while fuel pidx 0;
    ok ← descq_post written false;
    if negb ok then unlock_descq;; mret (- EINVAL)
    else
      modq (λ q, q <| dq_proc_req_running := false |>);;
      unlock_descq;;
      q ← getq;
      qwhen (nz written && dq_cmplthp q) (qevent EvThread);;
      mret 0.

(** The streaming loop returns also whether a native descriptor was written
    ([tx_time_pkt_offset] is set). *)
Fixpoint h2c_while (fuel : nat) (pidx written : Z) (tx : bool) : qm H (Z * bool) :=
  match fuel with
  | O => qfail
  | S fuel =>
      q ← getq;
      match dq_work_list q with
      | [] => mret (written, tx)
      | r :: _ =>
          req ← getreq r;
          let pktsz := if nz (rq_ep_addr req) then min_u32 (rq_ep_addr req) PAGE_SIZE else PAGE_SIZE in
          desc_max ← descq_desc_max;
          if desc_max =? 0 then mret (written, tx)
          else if is_ul_ext q then
            desc_consumed ← fp_bypass_desc_fill true Q_H2C r;
            if 0 <? desc_consumed then h2c_while fuel pidx (u32 (written + desc_consumed)) tx
            else mret (written, tx)
          else
            let '(rv, _, sg_offset) := qdma_sgl_find_offset req in
            if rv <? 0 then qdma_update_request r 0 0 0 None;; h2c_while fuel pidx written tx
            else
              q ← getq;
              let '(v, i) :=
                h2c_entries (qc_rngsz (dq_conf q)) pktsz desc_max (rq_sgcnt req)
                  (nz (qc_desc_bypass (dq_conf q))) (drop (Z.to_nat rv) (rq_sgl req)) rv
                  (mk_h2c_vars (h2c_clear pidx (dq_h2c_desc q)) pidx 0 sg_offset 0) in
              let last := i =? rq_sgcnt req in
              modq (λ q, q <| dq_h2c_desc := w_ring v |>);;
              qdma_update_request r (w_cnt v) (w_data v)
                (if last then 0 else w_sg_offset v) (if last then None else Some i);;
              modq (λ q, q <| dq_pidx := w_pidx v |> <| dq_avail := u32 (dq_avail q - w_cnt v) |>);;
              (if w_cnt v =? 0 then mret (written, tx)
               else h2c_while fuel (w_pidx v) (u32 (written + w_cnt v)) true)
      end
  end.

Definition descq_proc_st_h2c_request (fuel : nat) : qm H Z :=
  lock_descq;;
  stop ← descq_proc_guard true;
  if (stop : bool) then unlock_descq;; mret 0
  else
    descq_poll_mm_n_h2c_cmpl_status;;
    q ← getq;
    '(written, tx) ← h2c_while fuel (dq_pidx q) 0 false;
    ok ← descq_post written (nz (qc_ping_pong_en (dq_conf q)) && tx);
    if negb ok then unlock_descq;; mret (- EINVAL)
    else
      modq (λ q, q <| dq_proc_req_running := false |>);;
      q ← getq;
      qwhen (nz written && dq_cmplthp q) (qevent EvThread);;
      unlock_descq;;
      mret 0.

(** The loop under [setup_desc] of the variant for bypass descriptors with
    direct interrupts. *)
Fixpoint qep_fill (fuel : nat) (written : Z) : qm H Z :=
  match fuel with
  | O => qfail
  | S fuel =>
      len ← qdma_work_queue_len;
      q ← getq;
      if nz len && nz (dq_avail q) then
        r ← qdma_work_queue_first_entry;
        cnt ← fp_bypass_desc_fill true Q_H2C r;
        let desc_cnt := u32 cnt in
        if desc_cnt =? 0 then mret written
        else
          let written := u32 (written + desc_cnt) in
          if qc_pidx_acc (dq_conf q) <=? written then mret written else qep_fill fuel written
      else mret written
  end.

(** [setup_desc:] to the end; [None] in the result is the recursive call of the
    whole function. *)
Fixpoint qep_setup (fuel : nat) : qm H (option Z) :=
  match fuel with
  | O => qfail
  | S fuel' =>
      written ← qep_fill fuel 0;
      if written =? 0 then
        len ← qdma_work_queue_len;
        q ← getq;
        unlock_descq;;
        mret (if nz len && (dq_avail q =? u32 (qc_rngsz (dq_conf q) - 1)) then None else Some 0)
      else
        modq (λ q, q <| dq_desc_pend := u8 (dq_desc_pend q + written) |>
                     <| dq_pidx_info := mk_pidx_info (u16 (dq_pidx q)) (pri_irq_en (dq_pidx_info q)) |>);;
        ret ← qdma_pidx_update false;
        if ret <? 0 then unlock_descq;; mret (Some (- EINVAL))
        else
          q ← getq;
          if nz (dq_work_req_pend q) && (qc_pidx_acc (dq_conf q) <=? written) then qep_setup fuel'
          else unlock_descq;; mret (Some ret)
  end.

Fixpoint descq_proc_st_h2c_request_qep (fuel : nat) : qm H Z :=
  match fuel with
  | O => qfail
  | S fuel' =>
      q ← getq;
      if dq_lock q then mret 0
      else
        lock_descq;;
        stop ← descq_proc_guard false;
        if (stop : bool) then unlock_descq;; mret 0
        else
          r ← qep_setup fuel;
          match r with
          | Some ret => mret ret
          | None => descq_proc_st_h2c_request_qep fuel';; mret 0
          end
  end.

Definition qdma_descq_proc_sgt_request (fuel : nat) : qm H Z :=
  q ← getq;
  x ← getx;
  if negb (nz (qc_st (dq_conf q))) then descq_mm_proc_request fuel
  else if qc_q_type (dq_conf q) =? Q_H2C then
    if qc_fp_bypass_desc_fill (dq_conf q) && nz (qc_desc_bypass (dq_conf q)) &&
       bool_decide (xd_qdma_drv_mode x = DIRECT_INTR_MODE)
    then descq_proc_st_h2c_request_qep fuel
    else descq_proc_st_h2c_request fuel
  else mret (- EINVAL).
End proc.

(** * Descriptor queues: service and pointers (qdma_descq.c)

    qdma_descq_service_cmpl_update, which the interrupt handlers and the
    completion threads call, and the functions of the bypass interface that
    hand out descriptors and write the queue pointers. *)

Section ops.
Context {H : Type} `{QueueHw H}.
Variable fp_bypass_desc_fill : bool → Z → Z → qm H Z.

(** [descq_process_completion_st_c2h], with its budget and update flag. *)
Variable process_completion_st_c2h : Z → bool → qm H Z.

Definition qdma_descq_service_cmpl_update (fuel : nat) (budget : Z) (c2h_upd_cmpl : bool) : qm H Z :=
  q ← getq;
  x ← getx;
  if is_st_c2h q then
    lock_descq;;
    q ← getq;
    rv ← (if bool_decide (dq_q_state q = Q_STATE_ONLINE)
          then process_completion_st_c2h budget c2h_upd_cmpl else mret (- EINVAL));
    unlock_descq;;
    mret rv
  else
    match xd_qdma_drv_mode x with
    | POLL_MODE | AUTO_MODE =>
        lock_descq;;
        q ← getq;
        unlock_descq;;
        (if negb (dq_proc_req_running q) then qdma_descq_proc_sgt_request fp_bypass_desc_fill fuel;; mret 0
         else mret 0)
    | _ =>
        lock_descq;;
        descq_mm_n_h2c_cmpl_status;;
        len ← qdma_work_queue_len;
        q ← getq;
        unlock_descq;;
        (if nz len || nz (dq_desc_pend q) then qdma_descq_proc_sgt_request fp_bypass_desc_fill fuel
         else mret 0)
    end.

(** [desc_list] of the bypass interface is the ring itself, so the entry
    handed out is an index. *)
Definition qdma_q_desc_get (desc_cnt : Z) : qm H (Z * option Z) :=
  q ← getq;
  if qc_rngsz (dq_conf q) <=? desc_cnt then mret (- EINVAL, None)
  else
    (if dq_avail q <? desc_cnt then descq_mm_n_h2c_cmpl_status;; mret tt else mret tt);;
    q ← getq;
    if dq_avail q <? desc_cnt then mret (- EBUSY, None)
    else
      modq (λ q, q <| dq_pidx := incr_pidx (dq_pidx q) desc_cnt (qc_rngsz (dq_conf q)) |>
                   <| dq_avail := u32 (dq_avail q - desc_cnt) |>);;
      mret (0, Some (dq_pidx q)).

(** The queues with a completion ring. *)
Definition has_cmpt (q : qdma_descq) : bool :=
  (nz (qc_st (dq_conf q)) && (qc_q_type (dq_conf q) =? Q_C2H)) ||
  (negb (nz (qc_st (dq_conf q))) && (qc_q_type (dq_conf q) =? Q_CMPT)).

Definition descq_cmpt_doorbell : qm H Z :=
  q ← getq; hwcall (queue_cmpt_cidx_update (qc_qidx (dq_conf q)) (dq_cmpt_cidx_info q)).

Definition set_wrb_cidx (v : Z) (i : qdma_q_cmpt_cidx_reg_info) : qdma_q_cmpt_cidx_reg_info :=
  mk_cmpt_info v (cci_counter_idx i) (cci_timer_idx i) (cci_trig_mode i) (cci_wrb_en i) (cci_irq_en i).

(** The pointers of a queue with a completion ring that starts: consumer index
    0 of the completion ring, and for ST C2H all but one descriptor posted. *)
Definition init_pointers : qm H Z :=
  modq (λ q, q <| dq_cmpt_cidx_info := set_wrb_cidx 0 (dq_cmpt_cidx_info q) |>);;
  rv ← descq_cmpt_doorbell;
  if rv <? 0 then mret (- EINVAL)
  else
    q ← getq;
    if qc_q_type (dq_conf q) =? Q_CMPT then mret rv
    else
      modq (λ q, q <| dq_pidx_info := mk_pidx_info (u16 (qc_rngsz (dq_conf q) - 1))
                                        (pri_irq_en (dq_pidx_info q)) |>);;
      rv ← descq_pidx_doorbell;
      if rv <? 0 then mret (- EINVAL) else mret rv.

Definition qdma_q_init_pointers : qm H Z :=
  q ← getq;
  if has_cmpt q then
    if nz (qc_init_pidx_dis (dq_conf q)) then
      rv ← init_pointers; mret (if rv <? 0 then - EINVAL else 0)
    else mret (- EINVAL)
  else mret (- EINVAL).

(** [qdma_queue_update_pointers]: the lock is taken only for ST C2H queues but
    released on every path. *)
Definition qdma_queue_update_pointers : qm H Z :=
  q ← getq;
  ret ← (if is_st_c2h q then
           lock_descq;;
           q ← getq;
           if bool_decide (dq_q_state q = Q_STATE_ONLINE) then
             ret ← descq_cmpt_doorbell;
             if ret <? 0 then mret (- EBUSY)
             else
               ret ← descq_pidx_doorbell;
               if ret <? 0 then mret (- EBUSY) else mret ret
           else mret (- ENODEV)
         else mret (- EINVAL));
  unlock_descq;;
  mret ret.

(** [qdma_descq_prog_hw] after [qdma_descq_context_setup] returned [rv]. *)
Definition qdma_descq_prog_pointers (rv : Z) : qm H Z :=
  if rv <? 0 then mret rv
  else
    q ← getq;
    if has_cmpt q && negb (nz (qc_init_pidx_dis (dq_conf q))) then init_pointers else mret rv.

Definition qdma_queue_avail_desc : qm H Z :=
  lock_descq;; q ← getq; unlock_descq;; mret (s32 (dq_avail q)).
End ops.
