(* ===== verification/DescqFill.v ===== *)
(** * What the descriptors of a request cover

    The memory mapped loop writes consecutive ring entries whose host
    addresses are the bytes of the scatter list, in order, and whose endpoint
    addresses follow the request, wrapped at the aperture in keyhole mode. *)

From S2P Require Import Prelude SoftAccess QueueTypes DescRing Descq DescqProc.

(** ** Reading a descriptor as the hardware does *)

Definition desc_len (d : qdma_mm_desc) : Z := Z.land (mm_flag_len d) (Z.ones 28).
Definition host_addr (c2h : bool) (d : qdma_mm_desc) : Z :=
  if c2h then mm_dst_addr d else mm_src_addr d.
Definition ep_addr_of (c2h : bool) (d : qdma_mm_desc) : Z :=
  if c2h then mm_src_addr d else mm_dst_addr d.

(** The host and endpoint addresses of the bytes a list of descriptors moves. *)
Definition host_bytes (c2h : bool) (ds : list qdma_mm_desc) : list Z :=
  ds ≫= λ d, seqZ (host_addr c2h d) (desc_len d).
Definition ep_bytes (c2h : bool) (ds : list qdma_mm_desc) : list Z :=
  ds ≫= λ d, seqZ (ep_addr_of c2h d) (desc_len d).

(** The host addresses of the bytes of a scatter list. *)
Definition sgl_bytes (sgl : list qdma_sw_sg) : list Z :=
  sgl ≫= λ sg, seqZ (sg_dma_addr sg) (sg_len sg).

(** The endpoint address of byte [o] of a request. *)
Definition ep_at (e : mm_env) (o : Z) : Z :=
  if e_keyhole e then e_req_ep e + o mod e_aperture e else e_req_ep e + o.

Record mm_env_ok (e : mm_env) : Prop := {
  eo_ring : ring_sz_ok (e_rngsz e);
  eo_max : e_desc_max e < 2 ^ 31;
  eo_aperture : 0 < e_aperture e < 2 ^ 28;
  eo_ep : 0 <= e_req_ep e;
  eo_keyhole : e_keyhole e = true → e_ep_max e = e_req_ep e + e_aperture e - 1 ∧
                 e_req_ep e + 2 * e_aperture e < 2 ^ 64;
}.

(** [ep] is the endpoint address of byte [o], up to the wrap that the next
    descriptor does in keyhole mode. *)
Definition ep_inv (e : mm_env) (ep o : Z) : Prop :=
  ep = ep_at e o ∨ (e_keyhole e = true ∧ o mod e_aperture e = 0 ∧ ep = e_req_ep e + e_aperture e).

Lemma min_u32_small a b : 0 <= a < 2 ^ 32 → 0 <= b < 2 ^ 32 → min_u32 a b = Z.min a b.
Proof. intros. unfold min_u32. by rewrite !u32_small by lia. Qed.

Lemma u64_small z : 0 <= z < 18446744073709551616 → u64 z = z.
Proof. intros. apply wrap_small. done. Qed.

Lemma seqZ_map_add (f : Z → Z) m o n :
  (∀ k, 0 <= k < n → f (o + k) = m + k) → map f (seqZ o n) = seqZ m n.
Proof.
  intros Hf. apply list_eq. intros i.
  destruct (decide (Z.of_nat i < n)).
  - rewrite list_lookup_fmap, !lookup_seqZ_lt by lia. simpl. f_equal. apply Hf. lia.
  - rewrite list_lookup_fmap, !lookup_seqZ_ge by lia. done.
Qed.

Lemma mod_add_small o k m : 0 < m → 0 <= k → o mod m + k < m → (o + k) mod m = o mod m + k.
Proof.
  intros. pose proof (Z.mod_pos_bound o m ltac:(lia)).
  rewrite Z.add_mod, (Z.mod_small k) by lia. by apply Z.mod_small; lia.
Qed.

(** One chunk stays in the aperture, moves at least a byte when there are any,
    and continues the endpoint addresses. *)
Lemma mm_chunk_spec e ep o tlen ep' len :
  mm_env_ok e → ep_inv e ep o → 0 <= o → 0 <= tlen < 2 ^ 32 →
  (e_keyhole e = false → e_req_ep e + o + tlen < 2 ^ 64) →
  mm_chunk e ep tlen = (ep', len) →
  0 <= len <= tlen ∧ len < 2 ^ 28 ∧ (0 < tlen → 0 < len) ∧ 0 <= ep' ∧ ep' + len < 2 ^ 64 ∧
  ep_inv e (ep' + len) (o + len) ∧ seqZ ep' len = map (ep_at e) (seqZ o len).
Proof.
  intros [Hr Hm Ha He Hk] Hep Ho Ht Hno. unfold mm_chunk.
  rewrite min_u32_small by lia. unfold ep_inv in Hep.
  destruct (e_keyhole e) eqn:Hkh.
  - destruct (Hk eq_refl) as [Hmax Hlim]. rewrite Hmax.
    pose proof (Z.mod_pos_bound o (e_aperture e) ltac:(lia)) as Hob.
    assert ((if e_req_ep e + e_aperture e - 1 <? ep then e_req_ep e else ep) = ep_at e o) as ->.
    { unfold ep_at in *. rewrite Hkh in *. destruct Hep as [->|(_ & Hz & ->)].
      - case_match; lia.
      - case_match; lia. }
    unfold ep_at at 1 2 3. rewrite Hkh. rewrite u64_small by lia.
    set (m := o mod e_aperture e) in *.
    set (l := if _ <? _ then _ else _). intros [= <- <-].
    assert (l = Z.min tlen (e_aperture e - m)) as ->.
    { unfold l. case_match; rewrite ?(u64_small (_ - _ + 1)), ?u32_small by lia; lia. }
    repeat split; try lia.
    + unfold ep_inv, ep_at. rewrite Hkh.
      destruct (decide (m + Z.min tlen (e_aperture e - m) = e_aperture e)) as [Hfull|].
      * right. repeat split; [|lia].
        pose proof (Z.div_mod o (e_aperture e) ltac:(lia)) as Hdiv. fold m in Hdiv.
        replace (o + Z.min tlen (e_aperture e - m)) with ((o / e_aperture e + 1) * e_aperture e) by lia.
        apply Z.mod_mul. lia.
      * left. rewrite mod_add_small; fold m; lia.
    + symmetry. apply seqZ_map_add. intros k Hkk. unfold ep_at. rewrite Hkh.
      rewrite mod_add_small; fold m; lia.
  - intros [= <- <-]. destruct Hep as [->|[? _]]; [|done].
    unfold ep_inv, ep_at in *. rewrite Hkh in *. specialize (Hno eq_refl).
    repeat split; try lia.
    symmetry. apply seqZ_map_add. intros. lia.
Qed.

(** ** The descriptors of one scatter entry *)

(** From [v] to [v'] the descriptors [ds] are written, they move the host bytes
    [bs], which are the bytes from [o] on of the request. *)
Record mm_wrote (e : mm_env) (v v' : mm_vars) (o : Z) (bs : list Z) (ds : list qdma_mm_desc) : Prop := {
  mw_ring : v_ring v' = ring_write (e_rngsz e) (v_ring v) (v_pidx v) ds;
  mw_pidx : v_pidx v' = (v_pidx v + Z.of_nat (length ds)) mod e_rngsz e;
  mw_cnt : v_cnt v' = v_cnt v + Z.of_nat (length ds);
  mw_data : v_data v' = v_data v + Z.of_nat (length bs);
  mw_host : host_bytes (e_c2h e) ds = bs;
  mw_ep : ep_bytes (e_c2h e) ds = map (ep_at e) (seqZ o (Z.of_nat (length bs)));
  mw_ep_inv : ep_inv e (v_ep v') (o + Z.of_nat (length bs));
  mw_end : v_end v' = match ds with
                      | [] => v_end v
                      | _ => Some ((v_pidx v + Z.of_nat (length ds) - 1) mod e_rngsz e)
                      end;
}.

Lemma next_pidx_mod n p : ring_sz_ok n → ring_idx n p → next_pidx n p = (p + 1) mod n.
Proof.
  unfold ring_sz_ok, ring_idx, next_pidx. intros. rewrite u32_small by lia.
  rewrite mod_once by lia. repeat case_match; lia.
Qed.

Lemma desc_len_write e src ep len :
  0 <= len < 2 ^ 28 → desc_len (mm_write_desc e src ep len) = len.
Proof.
  intros Hl. unfold desc_len, mm_write_desc.
  assert (Z.land (Z.lor len (Z.shiftl 1 S_DESC_F_DV)) (Z.ones 28) = len) as Hlen.
  { rewrite Z.land_lor_distr_l, Z.land_ones by lia. rewrite Z.mod_small by done.
    change (Z.land (Z.shiftl 1 S_DESC_F_DV) (Z.ones 28)) with 0. apply Z.lor_0_r. }
  by destruct (e_c2h e).
Qed.

Lemma host_addr_write e src ep len : host_addr (e_c2h e) (mm_write_desc e src ep len) = src.
Proof. unfold host_addr, mm_write_desc. by destruct (e_c2h e). Qed.

Lemma ep_addr_write e src ep len : ep_addr_of (e_c2h e) (mm_write_desc e src ep len) = ep.
Proof. unfold ep_addr_of, mm_write_desc. by destruct (e_c2h e). Qed.

Lemma mm_wrote_nil e v o :
  ring_idx (e_rngsz e) (v_pidx v) → ep_inv e (v_ep v) o → mm_wrote e v v o [] [].
Proof.
  intros Hp Hep. split; simpl; rewrite ?Z.add_0_r; try done. by rewrite Z.mod_small.
Qed.

Lemma mm_wrote_app e v v1 v2 o b1 b2 d1 d2 :
  mm_env_ok e → ring_idx (e_rngsz e) (v_pidx v) →
  mm_wrote e v v1 o b1 d1 → mm_wrote e v1 v2 (o + Z.of_nat (length b1)) b2 d2 →
  mm_wrote e v v2 o (b1 ++ b2) (d1 ++ d2).
Proof.
  intros [Hr _ _ _ _] Hp [A1 A2 A3 A4 A5 A6 A7 A8] [B1 B2 B3 B4 B5 B6 B7 B8].
  split; rewrite ?length_app, ?Nat2Z.inj_add.
  - by rewrite B1, A1, A2, ring_write_app.
  - rewrite B2, A2, Zplus_mod_idemp_l. f_equal. lia.
  - lia.
  - lia.
  - unfold host_bytes in *. by rewrite bind_app, A5, B5.
  - unfold ep_bytes in *. by rewrite bind_app, A6, B6, seqZ_app, map_app by lia.
  - by rewrite Z.add_assoc.
  - destruct d1 as [|x d1]; simpl in *.
    + rewrite B8, A8. destruct d2; [done|]. rewrite A2, Z.add_0_r. f_equal.
      by rewrite (Z.mod_small (v_pidx v)).
    + rewrite B8. destruct d2 as [|y d2]; simpl.
      * rewrite A8. do 2 f_equal; lia.
      * rewrite A2. f_equal. rewrite Zminus_mod, Zplus_mod_idemp_l, <- Zminus_mod. f_equal; lia.
Qed.

Lemma mm_emit_spec e src tlen o v v' len :
  mm_env_ok e → ring_idx (e_rngsz e) (v_pidx v) → ep_inv e (v_ep v) o → 0 <= o →
  0 <= src → src + tlen < 2 ^ 64 → 0 <= tlen → 0 <= v_data v → v_data v + tlen < 2 ^ 32 →
  (e_keyhole e = false → e_req_ep e + o + tlen < 2 ^ 64) → 0 <= v_cnt v < e_desc_max e →
  mm_emit e src tlen v = (v', len) →
  0 <= len <= tlen ∧ (0 < tlen → 0 < len) ∧
  ∃ d, mm_wrote e v v' o (seqZ src len) [d] ∧ desc_len d = len.
Proof.
  intros Hok Hp Hep Ho Hs Hst Ht Hd Hdt Hno Hc. unfold mm_emit.
  destruct (mm_chunk e (v_ep v) tlen) as [ep' l] eqn:Hch. intros [= <- <-].
  destruct (mm_chunk_spec e (v_ep v) o tlen ep' l Hok Hep Ho) as (Hl & Hl28 & Hpos & He0 & He64 & Hinv & Hseq);
    [lia|done|done|].
  split; [lia|]. split; [done|]. destruct Hok as [Hr Hm Ha He Hk]. unfold ring_sz_ok, ring_idx in *.
  eexists; split; [|apply desc_len_write; lia].
  assert (Hlen : Z.of_nat (length (seqZ src l)) = l) by (rewrite length_seqZ; lia).
  split; simpl; rewrite ?Hlen.
  - done.
  - by rewrite next_pidx_mod.
  - apply u32_small. lia.
  - apply u32_small. lia.
  - unfold host_bytes. simpl. by rewrite app_nil_r, host_addr_write, desc_len_write by lia.
  - unfold ep_bytes. simpl. by rewrite app_nil_r, ep_addr_write, desc_len_write by lia.
  - by rewrite u64_small by lia.
  - f_equal. rewrite Z.mod_small; lia.
Qed.

(** The bytes of one entry, up to the end of the entry or of the available
    descriptors. *)
Lemma mm_entry_spec e n : ∀ src tlen o v v' tlen',
  mm_env_ok e → ring_idx (e_rngsz e) (v_pidx v) → ep_inv e (v_ep v) o → 0 <= o →
  0 <= src → src + tlen < 2 ^ 64 → 0 <= tlen → 0 <= v_data v → v_data v + tlen < 2 ^ 32 →
  (e_keyhole e = false → e_req_ep e + o + tlen < 2 ^ 64) →
  0 <= v_cnt v → e_desc_max e = v_cnt v + Z.of_nat (S n) →
  mm_entry e (S n) src tlen v = (v', tlen') →
  0 <= tlen' <= tlen ∧ (tlen' = 0 ∨ v_cnt v' = e_desc_max e) ∧ v_cnt v' <= e_desc_max e ∧
  ∃ ds, ds ≠ [] ∧ mm_wrote e v v' o (seqZ src (tlen - tlen')) ds ∧
        (0 < tlen → Forall (λ d, 0 < desc_len d) ds) ∧ (length ds <= 1 + Z.to_nat (tlen - tlen'))%nat.
Proof.
  induction n as [|n IH]; intros src tlen o v v' tlen' Hok Hp Hep Ho Hs Hst Ht Hd Hdt Hno Hc Hmax.
  all: cbn [mm_entry]; destruct (mm_emit e src tlen v) as [v1 len] eqn:Hem.
  all: destruct (mm_emit_spec e src tlen o v v1 len) as (Hl & Hlpos & d & Hw & Hdl); try done; try lia.
  all: pose proof (eo_max e Hok).
  all: assert (Hlen : Z.of_nat (length (seqZ src len)) = len) by (rewrite length_seqZ; lia).
  all: pose proof (mw_cnt _ _ _ _ _ _ Hw) as Hc1; simpl in Hc1.
  all: rewrite (u32_small (tlen - len)) by lia.
  - replace (v_cnt v1 =? e_desc_max e) with true by lia. intros [= <- <-].
    split; [lia|]. split; [lia|]. split; [lia|]. exists [d]. split; [done|].
    replace (tlen - (tlen - len)) with len by lia. split; [done|].
    split; [intros; repeat constructor; lia|simpl; lia].
  - replace (v_cnt v1 =? e_desc_max e) with false by lia.
    destruct (tlen - len =? 0) eqn:Hz.
    + intros [= <- <-]. split; [lia|]. split; [lia|]. split; [lia|]. exists [d]. split; [done|].
      replace (tlen - (tlen - len)) with len by lia. split; [done|].
      split; [intros; repeat constructor; lia|simpl; lia].
    + rewrite u64_small by lia. intros Hrun.
      pose proof (mw_ep_inv _ _ _ _ _ _ Hw) as Hei. rewrite Hlen in Hei.
      pose proof (mw_data _ _ _ _ _ _ Hw) as Hda. rewrite Hlen in Hda.
      destruct (IH (src + len) (tlen - len) (o + len) v1 v' tlen') as (A & B & C & ds & Hne & Hw2 & Hf & Hlds);
        try done; try lia.
      { rewrite (mw_pidx _ _ _ _ _ _ Hw). by apply ring_mod_idx; destruct Hok. }
      { intros Hk. specialize (Hno Hk). lia. }
      split; [lia|]. split; [done|]. split; [done|].
      exists (d :: ds). split; [done|]. split.
      * replace (tlen - tlen') with (len + (tlen - len - tlen')) by lia.
        rewrite seqZ_app by lia. apply (mm_wrote_app e v v1 v' o _ _ [d] ds Hok Hp Hw).
        by rewrite Hlen.
      * split; [intros; constructor; [lia|apply Hf; lia]|simpl; lia].
Qed.

(** ** The descriptors of a scatter list *)

Definition sg_ok (sg : qdma_sw_sg) : Prop :=
  0 <= sg_len sg < 2 ^ 31 ∧ 0 <= sg_dma_addr sg ∧ sg_dma_addr sg + sg_len sg < 2 ^ 64.

Lemma sgl_bytes_cons sg sgl : sgl_bytes (sg :: sgl) = seqZ (sg_dma_addr sg) (sg_len sg) ++ sgl_bytes sgl.
Proof. done. Qed.

Lemma seqZ_drop m n k : 0 <= k <= n → drop (Z.to_nat k) (seqZ m n) = seqZ (m + k) (n - k).
Proof.
  intros Hk. replace n with (k + (n - k)) at 1 by lia. rewrite seqZ_app by lia.
  apply drop_app_length'. rewrite length_seqZ. done.
Qed.

Lemma drop_sgl_bytes sg sgl so :
  0 <= so <= sg_len sg →
  drop (Z.to_nat so) (sgl_bytes (sg :: sgl)) =
  seqZ (sg_dma_addr sg + so) (sg_len sg - so) ++ sgl_bytes sgl.
Proof.
  intros. rewrite sgl_bytes_cons, drop_app_le by (rewrite length_seqZ; lia).
  by rewrite seqZ_drop.
Qed.

Lemma insert_alter_same {A} (f : A → A) (i : nat) (x : A) (l : list A) : <[i := x]> (alter f i l) = <[i := x]> l.
Proof.
  apply list_eq. intros j. destruct (decide (i = j)) as [->|].
  - destruct (decide (j < length l)%nat).
    + by rewrite !list_lookup_insert_eq by (rewrite ?length_alter; lia).
    + rewrite !lookup_ge_None_2; [done|..]; rewrite ?length_insert, ?length_alter; lia.
  - by rewrite !list_lookup_insert_ne, list_lookup_alter_ne.
Qed.

(** Clearing the flags of the next entry does not matter: it is written. *)
Lemma mm_wrote_clear e v v' o bs ds :
  ds ≠ [] → mm_wrote e (clear_flag_len v <| v_sg_offset := 0 |>) v' o bs ds → mm_wrote e v v' o bs ds.
Proof.
  intros Hne [A B C D E F G I]. simpl in *. split; try done.
  destruct ds; [done|]. simpl in *. by rewrite insert_alter_same in A.
Qed.

Lemma mm_wrote_sg_offset e v v' o bs ds z :
  mm_wrote e v v' o bs ds → mm_wrote e v (v' <| v_sg_offset := z |>) o bs ds.
Proof. intros [A B C D E F G I]. by split. Qed.

Lemma mm_entries_spec e sgl : ∀ i o v v' i',
  mm_env_ok e → Forall sg_ok sgl → ring_idx (e_rngsz e) (v_pidx v) → ep_inv e (v_ep v) o → 0 <= o →
  0 <= v_sg_offset v → (∀ sg, head sgl = Some sg → v_sg_offset v <= sg_len sg) →
  let bs := drop (Z.to_nat (v_sg_offset v)) (sgl_bytes sgl) in
  0 <= v_data v → v_data v + Z.of_nat (length bs) < 2 ^ 32 →
  (e_keyhole e = false → e_req_ep e + o + Z.of_nat (length bs) < 2 ^ 64) →
  0 <= v_cnt v <= e_desc_max e →
  mm_entries e sgl i v = (v', i') →
  ∃ done rest ds, bs = done ++ rest ∧ mm_wrote e v v' o done ds ∧ v_cnt v' <= e_desc_max e ∧
    (rest = [] ∨ v_cnt v' = e_desc_max e) ∧ (sgl ≠ [] → v_cnt v < e_desc_max e → ds ≠ []) ∧
    ((∀ sg, head sgl = Some sg → v_sg_offset v < sg_len sg) → Forall (λ sg, 0 < sg_len sg) sgl →
     Forall (λ d, 0 < desc_len d) ds) ∧
    (length ds <= length sgl + length done)%nat.
Proof.
  induction sgl as [|sg sgl IH]; intros i o v v' i' Hok Hsg Hp Hep Ho Hso Hhd bs Hd Hdt Hno Hc; cbn [mm_entries].
  - intros [= <- <-]. exists [], [], []. unfold bs. simpl. rewrite drop_nil.
    split; [done|]. split; [by apply mm_wrote_nil|]. split; [lia|]. split; [by left|]. split; [done|]. split; [done|]. simpl; lia.
  - destruct (v_cnt v <? e_desc_max e) eqn:Hlt; cycle 1.
    { intros [= <- <-]. exists [], bs, []. split; [done|]. split; [by apply mm_wrote_nil|].
      split; [lia|]. split; [right; lia|]. split; [lia|]. split; [done|]. simpl; lia. }
    apply Forall_cons in Hsg as [(Hl & Ha & Hal) Hsg]. specialize (Hhd sg eq_refl).
    unfold bs in *. rewrite drop_sgl_bytes in * by lia.
    rewrite length_app, length_seqZ in Hdt, Hno.
    cbn [v_sg_offset clear_flag_len set v_ring v_pidx v_ep v_data v_cnt v_end].
    rewrite (u32_small (sg_len sg - v_sg_offset v)) by lia.
    rewrite (u64_small (sg_dma_addr sg + v_sg_offset v)) by lia.
    destruct (mm_entry _ _ _ _ _) as [v1 tlen'] eqn:Hent.
    destruct (Z.to_nat (e_desc_max e - v_cnt v)) as [|n] eqn:Hn; [lia|].
    eapply (mm_entry_spec e n _ _ o) in Hent; simpl; try done; try lia.
    2: { intros Hk. specialize (Hno Hk). lia. }
    destruct Hent as (Ht' & Hfin & Hc1 & ds1 & Hne1 & Hw1 & Hf1 & Hl1). intros Hrun.
    apply mm_wrote_clear in Hw1; [|done]. set (l := sg_len sg - v_sg_offset v) in *.
    destruct (decide (tlen' = 0)) as [->|Hnz].
    + rewrite Z.eqb_refl, Z.sub_0_r in *.
      apply (mm_wrote_sg_offset _ _ _ _ _ _ 0) in Hw1. set (v1' := v1 <| v_sg_offset := 0 |>) in *.
      assert (Hll : Z.of_nat (length (seqZ (sg_dma_addr sg + v_sg_offset v) l)) = l)
        by (rewrite length_seqZ; lia).
      pose proof (mw_ep_inv _ _ _ _ _ _ Hw1) as Hei. rewrite Hll in Hei.
      pose proof (mw_data _ _ _ _ _ _ Hw1) as Hda. rewrite Hll in Hda.
      pose proof (mw_cnt _ _ _ _ _ _ Hw1) as Hcn.
      assert (ring_idx (e_rngsz e) (v_pidx v1')).
      { rewrite (mw_pidx _ _ _ _ _ _ Hw1). apply ring_mod_idx. by destruct Hok. }
      assert (Hv1 : v_sg_offset v1' = 0) by done. assert (Hv1c : v_cnt v1' = v_cnt v1) by done.
      destruct (IH (i + 1) (o + l) v1' v' i') as (dn & rest & ds2 & Hbs & Hw2 & Hc2 & Hr & _ & Hf2 & Hl2);
        rewrite ?Hv1, ?drop_0; try done; try lia.
      { intros sg' Hs. destruct sgl; [done|]. simplify_eq/=.
        apply Forall_cons in Hsg as [(? & ? & ?) _]. lia. }
      { intros Hk. specialize (Hno Hk). lia. }
      exists (seqZ (sg_dma_addr sg + v_sg_offset v) l ++ dn), rest, (ds1 ++ ds2).
      rewrite Hv1, drop_0 in Hbs. split; [by rewrite Hbs, app_assoc|]. split.
      { apply (mm_wrote_app e v v1' v' o _ _ ds1 ds2 Hok Hp Hw1). by rewrite Hll. }
      split; [done|]. split; [done|]. split; [by destruct ds1|].
      split; [|rewrite !length_app, length_seqZ; simpl; lia]. intros Hh Hpos. apply Forall_app. specialize (Hh sg eq_refl).
      apply Forall_cons in Hpos as [_ Hpos]. split; [apply Hf1; lia|].
      apply Hf2; [|done]. rewrite Hv1. intros sg' Hs. destruct sgl; [done|]. simplify_eq/=.
      by apply Forall_cons in Hpos as [? _].
    + destruct Hfin as [|Hfull]; [done|]. replace (tlen' =? 0) with false in Hrun by lia.
      assert (mm_entries e sgl (i + 1) v1 = (v1, i + 1)) as Hend.
      { destruct sgl; simpl; [done|]. by replace (_ <? _) with false by lia. }
      rewrite Hend in Hrun. simplify_eq.
      exists (seqZ (sg_dma_addr sg + v_sg_offset v) (l - tlen')),
        (seqZ (sg_dma_addr sg + v_sg_offset v + (l - tlen')) tlen' ++ sgl_bytes sgl), ds1.
      split. { rewrite app_assoc, <- seqZ_app by lia. do 2 f_equal; lia. }
      split; [done|]. split; [done|]. split; [by right|]. split; [done|].
      split; [|rewrite length_seqZ; simpl; lia].
      intros Hh _. apply Hf1. specialize (Hh sg eq_refl). lia.
Qed.

(** ** Finding the place to continue *)

Definition sgl_len (sgl : list qdma_sw_sg) : Z := Z.of_nat (length (sgl_bytes sgl)).

Lemma sgl_len_cons sg sgl : 0 <= sg_len sg → sgl_len (sg :: sgl) = sg_len sg + sgl_len sgl.
Proof. intros. unfold sgl_len. rewrite sgl_bytes_cons, length_app, length_seqZ. lia. Qed.

(** An offset inside the list is found: the entry and the offset in it denote
    the same byte. *)
Lemma sgl_scan_spec sgl : ∀ i len off,
  Forall sg_ok sgl → 0 <= len <= off → off < len + sgl_len sgl → len + sgl_len sgl < 2 ^ 32 →
  ∃ k so, sgl_scan sgl i len off = Some (i + Z.of_nat k, i + Z.of_nat k, so) ∧ (k < length sgl)%nat ∧
    0 <= so ∧ (∀ sg, sgl !! k = Some sg → so <= sg_len sg ∧ (0 < sg_len sg → so < sg_len sg)) ∧
    drop (Z.to_nat (off - len)) (sgl_bytes sgl) = drop (Z.to_nat so) (sgl_bytes (drop k sgl)).
Proof.
  induction sgl as [|sg sgl IH]; intros i len off Hok Hle Hlt Hb; [unfold sgl_len in *; simpl in *; lia|].
  apply Forall_cons in Hok as [(Hl & Ha & Hal) Hok]. rewrite sgl_len_cons in * by lia.
  assert (0 <= sgl_len sgl) by (unfold sgl_len; lia).
  cbn [sgl_scan]. rewrite u32_small by lia.
  destruct (len + sg_len sg =? off) eqn:He; [|destruct (off <? len + sg_len sg) eqn:Hlo].
  - exists 1%nat, 0. split; [done|]. destruct sgl as [|sg' sgl].
    { unfold sgl_len in *. simpl in *. lia. }
    split; [simpl; lia|]. split; [done|]. split.
    + intros sg'' Hk. simpl in Hk. simplify_eq. apply Forall_cons in Hok as [(?&?&?) _]. lia.
    + rewrite sgl_bytes_cons. simpl. rewrite drop_app_length'; [done|]. rewrite length_seqZ. lia.
  - exists 0%nat, (sg_len sg - (len + sg_len sg - off)). rewrite u32_small by lia.
    split; [by rewrite Z.add_0_r|]. split; [simpl; lia|]. split; [lia|]. split.
    + intros sg' Hk. simpl in Hk. simplify_eq. lia.
    + simpl. do 2 f_equal. lia.
  - destruct (IH (i + 1) (len + sg_len sg) off) as (k & so & Hs & Hk & Hso & Hsg & Hd); [done|lia..|].
    exists (S k), so. split; [by rewrite Hs, Nat2Z.inj_succ, <- Z.add_1_l, Z.add_assoc|].
    split; [simpl; lia|]. split; [done|]. split; [done|].
    simpl drop at 2. rewrite <- Hd, sgl_bytes_cons, drop_app_ge by (rewrite length_seqZ; lia).
    f_equal. rewrite length_seqZ. lia.
Qed.

(** ** One round for a request *)

(** Requests the driver can transfer completely: the scatter list has the
    announced length and no empty entries, or is a single empty entry. *)
Record mm_req_ok (c : qdma_queue_conf) (req : qdma_request) : Prop := {
  ro_sg : Forall sg_ok (rq_sgl req);
  ro_count : rq_count req = sgl_len (rq_sgl req);
  ro_small : rq_count req < 2 ^ 31;
  ro_shape : (rq_sgl req ≠ [] ∧ Forall (λ sg, 0 < sg_len sg) (rq_sgl req)) ∨
             ∃ sg, rq_sgl req = [sg] ∧ sg_len sg = 0;
  ro_ep : 0 <= rq_ep_addr req ∧ rq_ep_addr req + rq_count req < 2 ^ 64;
  ro_keyhole : rq_ep_addr req + 2 * mm_aperture c < 2 ^ 64;
}.

(** Ring sizes are 16 bit registers; the aperture is off or a power of two. *)
Record mm_conf_ok (c : qdma_queue_conf) : Prop := {
  co_ring : 1 < qc_rngsz c < 2 ^ 16;
  co_aperture : qc_aperture_size c = 0 ∨ ∃ k, 0 <= k < 28 ∧ qc_aperture_size c = 2 ^ k;
  co_mm : qc_st c = 0;
}.

Lemma mm_conf_ring c : mm_conf_ok c → ring_sz_ok (qc_rngsz c).
Proof. intros [? _ _]. unfold ring_sz_ok. lia. Qed.

Lemma mm_aperture_ok c : mm_conf_ok c → 0 < mm_aperture c < 2 ^ 28.
Proof.
  intros [_ Ha _]. unfold mm_aperture. destruct Ha as [->|(k & Hk & ->)].
  - by vm_compute.
  - assert (0 < 2 ^ k) by (apply Z.pow_pos_nonneg; lia).
    assert (2 ^ k < 2 ^ 28) by (apply Z.pow_lt_mono_r; lia). unfold nz. case_match; lia.
Qed.

Lemma mm_round_env_ok q req m :
  mm_conf_ok (dq_conf q) → mm_req_ok (dq_conf q) req → m < 2 ^ 31 → mm_env_ok (mm_round_env q req m).
Proof.
  intros Hc Hr Hm. pose proof (mm_aperture_ok _ Hc). destruct Hr as [_ _ _ _ [? ?] ?].
  split; simpl; [by apply mm_conf_ring|done|done|done|].
  intros _. rewrite u64_small by lia. lia.
Qed.

Lemma mm_ep_addr_inv q req m :
  mm_conf_ok (dq_conf q) → mm_req_ok (dq_conf q) req → 0 <= cb_offset (rq_cb req) <= rq_count req →
  ep_inv (mm_round_env q req m) (mm_ep_addr (dq_conf q) req) (cb_offset (rq_cb req)).
Proof.
  intros Hc Hr Ho. pose proof (mm_aperture_ok _ Hc) as Hap. destruct Hr as [_ _ _ _ [? ?] ?].
  left. unfold ep_at, mm_ep_addr. simpl. unfold mm_keyhole in *.
  destruct (nz (qc_aperture_size (dq_conf q))) eqn:Hk.
  - destruct (co_aperture _ Hc) as [He|(k & Hkk & He)]; [by rewrite He in Hk|].
    assert (mm_aperture (dq_conf q) = 2 ^ k) as -> by (unfold mm_aperture; by rewrite Hk).
    pose proof (Z.mod_pos_bound (cb_offset (rq_cb req)) (2 ^ k) ltac:(apply Z.pow_pos_nonneg; lia)).
    assert (2 ^ k < 2 ^ 28) by (apply Z.pow_lt_mono_r; lia).
    rewrite (u32_small (2 ^ k - 1)) by lia.
    replace (2 ^ k - 1) with (Z.ones k) by (rewrite Z.ones_equiv; lia).
    rewrite Z.land_ones by lia. rewrite u64_small; [done|].
    pose proof (Z.mod_le (cb_offset (rq_cb req)) (2 ^ k) ltac:(lia) ltac:(apply Z.pow_pos_nonneg; lia)). lia.
  - rewrite u64_small by lia. done.
Qed.

Definition mm_start (q : qdma_descq) (req : qdma_request) (pidx so : Z) : mm_vars :=
  mk_mm_vars (dq_mm_desc q) pidx (mm_ep_addr (dq_conf q) req) 0 so 0 None.

(** A request that still has bytes without descriptor, or none at all yet. *)
Definition rq_waiting (req : qdma_request) : Prop :=
  0 <= cb_offset (rq_cb req) < rq_count req ∨ (rq_count req = 0 ∧ cb_offset (rq_cb req) = 0).

Lemma sgl_find_offset_spec c req :
  mm_req_ok c req → rq_waiting req →
  ∃ k so, qdma_sgl_find_offset req = (Z.of_nat k, Z.of_nat k, so) ∧ (k < length (rq_sgl req))%nat ∧
    0 <= so ∧ (∀ sg, rq_sgl req !! k = Some sg → so <= sg_len sg ∧ (0 < sg_len sg → so < sg_len sg)) ∧
    drop (Z.to_nat (cb_offset (rq_cb req))) (sgl_bytes (rq_sgl req)) =
    drop (Z.to_nat so) (sgl_bytes (drop k (rq_sgl req))).
Proof.
  intros [Hsg Hcnt Hsm Hsh _ _] Hw. unfold qdma_sgl_find_offset.
  destruct Hw as [Hw|[Hz Ho]].
  - replace (rq_count req =? 0) with false by lia.
    destruct (sgl_scan_spec (rq_sgl req) 0 0 (cb_offset (rq_cb req))) as (k & so & -> & Hk & Hso & Hs & Hd);
      [done|lia..|].
    rewrite Z.sub_0_r in Hd. exists k, so. rewrite Z.add_0_l. unfold rq_sgcnt.
    by replace (_ <? _) with true by lia.
  - rewrite Hz, Ho. exists 0%nat, 0. simpl. split; [done|].
    assert (rq_sgl req ≠ []) as Hne by (destruct Hsh as [[? _]|(? & -> & _)]; done).
    split; [destruct (rq_sgl req); [done|simpl; lia]|]. split; [done|]. split; [|by rewrite drop_0].
    intros sg Hl. apply list_elem_of_lookup_2 in Hl. rewrite Forall_forall in Hsg.
    destruct (Hsg _ Hl) as (? & _). lia.
Qed.

Lemma mm_fill_spec q req m pidx k so v i :
  mm_conf_ok (dq_conf q) → mm_req_ok (dq_conf q) req → ring_idx (qc_rngsz (dq_conf q)) pidx →
  0 < m < 2 ^ 31 → rq_waiting req → qdma_sgl_find_offset req = (Z.of_nat k, Z.of_nat k, so) →
  mm_fill q req m pidx (Z.of_nat k) so = (v, i) →
  ∃ sent rest ds,
    drop (Z.to_nat (cb_offset (rq_cb req))) (sgl_bytes (rq_sgl req)) = sent ++ rest ∧
    mm_wrote (mm_round_env q req m) (mm_start q req pidx so) v (cb_offset (rq_cb req)) sent ds ∧
    ds ≠ [] ∧ v_cnt v <= m ∧ (rest = [] ∨ v_cnt v = m) ∧
    (0 < rq_count req → Forall (λ d, 0 < desc_len d) ds) ∧
    (length ds <= length (rq_sgl req) + length sent)%nat.
Proof.
  intros Hc Hr Hp Hm Hw Hfo. pose proof (mm_round_env_ok q req m Hc Hr ltac:(lia)) as Hok.
  destruct (sgl_find_offset_spec _ _ Hr Hw) as (k' & so' & Hfo' & Hk & Hso & Hs & Hd).
  rewrite Hfo in Hfo'. injection Hfo' as Hkk _ <-. apply Nat2Z.inj in Hkk as <-.
  assert (Ho : 0 <= cb_offset (rq_cb req) <= rq_count req) by (destruct Hw as [?|[? ->]]; lia).
  pose proof (mm_ep_addr_inv q req m Hc Hr Ho) as Hep.
  unfold mm_fill. rewrite Nat2Z.id. intros Hrun. fold (mm_start q req pidx so) in Hrun.
  destruct Hr as [Hsg Hcnt Hsm Hsh [He1 He2] He3].
  assert (Hlen : (length (drop (Z.to_nat so) (sgl_bytes (drop k (rq_sgl req)))) <=
                  length (sgl_bytes (rq_sgl req)))%nat) by (rewrite <- Hd, length_drop; lia).
  assert (Hlen' : Z.of_nat (length (drop (Z.to_nat so) (sgl_bytes (drop k (rq_sgl req))))) =
    rq_count req - cb_offset (rq_cb req)).
  { rewrite <- Hd, length_drop. unfold sgl_len in Hcnt. lia. }
  assert (Hhd : ∀ sg, head (drop k (rq_sgl req)) = Some sg → rq_sgl req !! k = Some sg).
  { intros sg Hh. destruct (drop k (rq_sgl req)) as [|x l] eqn:Hdr; [done|]. simpl in Hh. simplify_eq.
    pose proof (lookup_drop (rq_sgl req) k 0) as Hl. rewrite Hdr, Nat.add_0_r in Hl. by rewrite <- Hl. }
  apply (mm_entries_spec _ _ (Z.of_nat k) (cb_offset (rq_cb req))) in Hrun; simpl; try done; try lia.
  2: { by apply Forall_drop. }
  2: { intros sg Hh. by apply Hs, Hhd. }
  destruct Hrun as (dn & rest & ds & Hbs & Hwr & Hcm & Hfin & Hne & Hpos & Hlds). simpl in *.
  exists dn, rest, ds. rewrite Hd. split; [done|]. split; [done|]. split.
  { apply Hne; [|lia]. intros Hnil. apply (f_equal length) in Hnil. rewrite length_drop in Hnil. simpl in *. lia. }
  split; [done|]. split; [done|]. split; [|rewrite length_drop in Hlds; lia].
  intros Hc0. destruct Hsh as [[_ Hall]|(sg & Hsgl & Hz)].
  - apply Hpos; [|by apply Forall_drop]. intros sg Hh. pose proof (Hhd _ Hh) as Hl.
    apply Hs; [done|]. apply list_elem_of_lookup_2 in Hl. rewrite Forall_forall in Hall. by apply Hall.
  - rewrite Hcnt, Hsgl in Hc0. rewrite sgl_len_cons in Hc0 by lia. unfold sgl_len in Hc0. simpl in Hc0. lia.
Qed.

Lemma land_flag_bit a b : 28 <= b → Z.land (Z.lor a (Z.shiftl 1 b)) (Z.ones 28) = Z.land a (Z.ones 28).
Proof.
  intros. rewrite Z.land_lor_distr_l. replace (Z.land (Z.shiftl 1 b) (Z.ones 28)) with 0; [apply Z.lor_0_r|].
  symmetry. rewrite Z.land_ones, Z.shiftl_1_l by lia. replace b with ((b - 28) + 28) by lia.
  rewrite Z.pow_add_r by lia. apply Z.mod_mul. lia.
Qed.

Lemma set_flag_host c2h b x n ring p c :
  28 <= b →
  host_bytes c2h (ring_read mm_desc0 n (set_flag b x ring) p c) =
  host_bytes c2h (ring_read mm_desc0 n ring p c).
Proof.
  intros. unfold host_bytes, set_flag. apply ring_read_alter. intros d. unfold host_addr, desc_len.
  simpl. by rewrite land_flag_bit.
Qed.

Lemma set_flag_ep c2h b x n ring p c :
  28 <= b →
  ep_bytes c2h (ring_read mm_desc0 n (set_flag b x ring) p c) =
  ep_bytes c2h (ring_read mm_desc0 n ring p c).
Proof.
  intros. unfold ep_bytes, set_flag. apply ring_read_alter. intros d. unfold ep_addr_of, desc_len.
  simpl. by rewrite land_flag_bit.
Qed.

Lemma set_flag_lookup b x i ring :
  set_flag b x ring !! i = (λ d, if decide (i = Z.to_nat x) then
    mk_mm_desc (mm_src_addr d) (Z.lor (mm_flag_len d) (Z.shiftl 1 b)) (mm_rsvd0 d) (mm_dst_addr d)
      (mm_rsvd1 d) else d) <$> ring !! i.
Proof.
  unfold set_flag. destruct (decide (i = Z.to_nat x)) as [->|].
  - rewrite list_lookup_alter_eq. by destruct (ring !! _).
  - rewrite list_lookup_alter_ne by done. by destruct (ring !! _).
Qed.

(** [ring] has flag [b] at entry [p]. *)
Definition flag_at (ring : list qdma_mm_desc) (p b : Z) : Prop :=
  ∃ d, ring !! Z.to_nat p = Some d ∧ Z.testbit (mm_flag_len d) b = true.

Lemma set_flag_at ring p b b' x :
  0 <= b → (Z.to_nat p < length ring)%nat → flag_at (set_flag b p ring) p b ∧
  (flag_at ring p b → flag_at (set_flag b' x ring) p b).
Proof.
  intros Hb Hp. split.
  - destruct (lookup_lt_is_Some_2 ring (Z.to_nat p) Hp) as [d Hd].
    unfold flag_at. rewrite set_flag_lookup, Hd. simpl. eexists. split; [done|].
    rewrite decide_True by done. simpl. rewrite Z.lor_spec, Z.shiftl_1_l, Z.pow2_bits_true by done. apply orb_true_r.
  - intros (d & Hd & Ht). unfold flag_at. rewrite set_flag_lookup, Hd. simpl. eexists; split; [done|].
    case_decide; [|done]. simpl. by rewrite Z.lor_spec, Ht.
Qed.

(** C17. One round of descq_mm_proc_request for a request writes consecutive
    ring entries from the producer index on that move exactly the next
    [data_cnt] bytes of the request: the host addresses are the bytes of the
    scatter list from the offset reached so far, in order, the endpoint
    addresses follow the request's address (modulo the aperture in keyhole
    mode).  The first descriptor carries SOP, the last EOP, no other ring entry
    changes, and the round stops only at the end of the request or when it has
    used every available descriptor. *)
Theorem mm_round_covers q req m pidx k so v i desc_end :
  mm_conf_ok (dq_conf q) → mm_req_ok (dq_conf q) req → rq_waiting req →
  length (dq_mm_desc q) = Z.to_nat (qc_rngsz (dq_conf q)) →
  ring_idx (qc_rngsz (dq_conf q)) pidx → 0 < m < qc_rngsz (dq_conf q) →
  qdma_sgl_find_offset req = (Z.of_nat k, Z.of_nat k, so) →
  mm_fill q req m pidx (Z.of_nat k) so = (v, i) → v_end v = Some desc_end →
  let n := qc_rngsz (dq_conf q) in
  let c2h := qc_q_type (dq_conf q) =? Q_C2H in
  let o := cb_offset (rq_cb req) in
  let ring := set_flag S_DESC_F_SOP pidx (set_flag S_DESC_F_EOP desc_end (v_ring v)) in
  let ds := ring_read mm_desc0 n ring pidx (v_cnt v) in
  host_bytes c2h ds = take (Z.to_nat (v_data v)) (drop (Z.to_nat o) (sgl_bytes (rq_sgl req))) ∧
  ep_bytes c2h ds = map (ep_at (mm_round_env q req m)) (seqZ o (v_data v)) ∧
  flag_at ring pidx S_DESC_F_SOP ∧ flag_at ring ((v_pidx v - 1) mod n) S_DESC_F_EOP ∧
  0 < v_cnt v <= m ∧ v_pidx v = (pidx + v_cnt v) mod n ∧
  (o + v_data v = rq_count req ∨ v_cnt v = m) ∧
  (∀ p, ring_idx n p → v_cnt v <= (p - pidx) mod n →
     ring !! Z.to_nat p = dq_mm_desc q !! Z.to_nat p).
Proof.
  intros Hc Hr Hw Hlen Hp Hm Hfo Hrun Hend n c2h o ring ds.
  pose proof (mm_conf_ring _ Hc) as Hn. destruct (co_ring _ Hc) as [Hn1 Hn2].
  destruct (mm_fill_spec q req m pidx k so v i) as (sent & rest & dl & Hbs & Hwr & Hne & Hcm & Hfin & _);
    try done; try lia.
  destruct Hwr as [Wr Wp Wc Wd Wh We _ Wend]. simpl in *. rewrite Z.add_0_l in *.
  assert (Hend' : desc_end = (v_pidx v - 1) mod n).
  { rewrite Wend in Hend. destruct dl; [done|]. injection Hend as <-. unfold n in *.
    rewrite Wp, Zminus_mod_idemp_l. done. }
  assert (Hl0 : 0 < v_cnt v) by (destruct dl; [done|]; simpl in Wc; lia).
  assert (Hrr : ring_read mm_desc0 n (v_ring v) pidx (v_cnt v) = dl).
  { rewrite Wr, Wc. apply ring_read_write; [done|done|done|]. unfold n in *. lia. }
  assert (Hidx : ring_idx n ((v_pidx v - 1) mod n)) by (by apply ring_mod_idx).
  assert (Hrl : length (v_ring v) = Z.to_nat n) by (rewrite Wr; by rewrite ring_write_length).
  unfold ring_idx, n in *.
  split; [|split; [|split; [|split; [|split; [|split; [|split]]]]]].
  - unfold ds, ring. rewrite !set_flag_host by (unfold S_DESC_F_SOP, S_DESC_F_EOP; lia).
    rewrite Hrr. unfold c2h, o. rewrite Wh, Hbs. rewrite take_app_length'; [done|]. lia.
  - unfold ds, ring. rewrite !set_flag_ep by (unfold S_DESC_F_SOP, S_DESC_F_EOP; lia).
    rewrite Hrr. unfold c2h, o. rewrite We, Wd. done.
  - unfold ring. apply (set_flag_at _ _ _ 0 0); [done|]. unfold set_flag. rewrite length_alter. lia.
  - unfold ring. apply set_flag_at; [done|unfold set_flag; rewrite length_alter; lia|].
    rewrite Hend'. apply (set_flag_at _ _ _ 0 0); [done|]. lia.
  - lia.
  - by rewrite Wp, Wc.
  - destruct Hfin as [->|]; [left|by right]. rewrite app_nil_r in Hbs.
    unfold o. rewrite Wd, <- Hbs, length_drop. destruct Hr as [_ Hcnt _ _ _ _].
    unfold sgl_len in Hcnt. destruct Hw as [?|[? ?]]; lia.
  - intros p Hpp Hout. unfold ring. rewrite !set_flag_lookup.
    assert (Hne1 : Z.to_nat p ≠ Z.to_nat pidx).
    { intros He. assert (p = pidx) as -> by lia. rewrite Z.sub_diag, Z.mod_0_l in Hout; lia. }
    assert (Hne2 : Z.to_nat p ≠ Z.to_nat desc_end).
    { rewrite Hend'. intros He. assert (p = (v_pidx v - 1) mod qc_rngsz (dq_conf q)) as -> by lia.
      rewrite Zminus_mod_idemp_l, Wp in Hout.
      replace ((pidx + Z.of_nat (length dl)) mod qc_rngsz (dq_conf q) - 1 - pidx) with
        ((pidx + Z.of_nat (length dl)) mod qc_rngsz (dq_conf q) - (1 + pidx)) in Hout by lia.
      rewrite Zminus_mod_idemp_l, <- Wc in Hout. replace (pidx + v_cnt v - (1 + pidx)) with (v_cnt v - 1) in Hout by lia.
      rewrite Z.mod_small in Hout; lia. }
    rewrite Wr, ring_write_other; [|done|done|done|lia].
    destruct (_ !! _); simpl; [|done]. by rewrite !decide_False by done.
Qed.
