(* ===== verification/DescqInv.v ===== *)
(** * The invariant of a descriptor queue

    [DescEngine] is what the hardware documentation promises to the driver:
    it consumes descriptors in order, never beyond the last posted producer
    index, and reports the count through the status entry.  [qinv] relates the
    queue to three counters that the code only has modulo the ring size: the
    descriptors written, posted and completed since the queue was started. *)

From S2P Require Import Prelude Platform SoftAccess QueueTypes DescRing Descq.

Class DescEngine (H : Type) `{QueueHw H} := {
  (** [eng n h P C]: on a ring of [n] entries, [P] descriptors were posted and
      [C] reported as completed. *)
  eng : Z → H → Z → Z → Prop;
  eng_post n h P C P' qid qt info r h' :
    eng n h P C → P <= P' → P' - C <= n - 1 → pri_pidx info = P' mod n →
    queue_pidx_update qid qt info h = (r, h') → eng n h' (if r <? 0 then P else P') C;
  eng_read n h P C c h' :
    eng n h P C → desc_cmpl_status_cidx h = (c, h') →
    ∃ C', C <= C' <= P ∧ c = C' mod n ∧ eng n h' P C';
}.

(** The doorbell never fails. *)
Definition doorbell_works (H : Type) `{QueueHw H} : Prop :=
  ∀ qid qt info (h : H), 0 <= fst (queue_pidx_update qid qt info h).

(** An engine that has always completed what was posted when its status is
    read. *)
Class PromptEngine (H : Type) `{DescEngine H} := {
  prompt_post : doorbell_works H;
  prompt_read n (h : H) P C c h' : eng n h P C → desc_cmpl_status_cidx h = (c, h') → c = P mod n;
}.

(** ** Observations *)

Definition sumz (l : list Z) : Z := foldr Z.add 0 l.

Lemma sumz_app l1 l2 : sumz (l1 ++ l2) = sumz l1 + sumz l2.
Proof. induction l1; simpl; lia. Qed.

Lemma sumz_nonneg l : Forall (λ x, 0 <= x) l → 0 <= sumz l.
Proof. induction 1; simpl; lia. Qed.

(** The descriptors a request has on the ring, as far as they are accounted. *)
Definition req_nr (reqs : gmap Z qdma_request) (r : Z) : Z :=
  match reqs !! r with Some rq => cb_desc_nr (rq_cb rq) | None => 0 end.

(** The requests whose completion was signalled, in order. *)
Definition ev_completed (e : q_event) : option Z :=
  match e with EvDone r _ _ | EvWake r => Some r | _ => None end.
Definition completed (evs : list q_event) : list Z := omap ev_completed evs.

Lemma completed_app e1 e2 : completed (e1 ++ e2) = completed e1 ++ completed e2.
Proof. apply omap_app. Qed.

(** Requests written completely, in part, and not at all. *)
Definition rq_written (rq : qdma_request) : Prop :=
  cb_offset (rq_cb rq) = rq_count rq ∧ 0 < cb_desc_nr (rq_cb rq) <= Z.max 1 (rq_count rq).
Definition rq_partial (rq : qdma_request) : Prop :=
  0 <= cb_desc_nr (rq_cb rq) <= cb_offset (rq_cb rq) ∧
  (cb_offset (rq_cb rq) < rq_count rq ∨ (rq_count rq = 0 ∧ cb_offset (rq_cb rq) = 0)).
Definition rq_fresh (rq : qdma_request) : Prop :=
  cb_desc_nr (rq_cb rq) = 0 ∧ cb_offset (rq_cb rq) = 0.

(** ** The invariant *)

Section inv.
Context {H : Type} `{DescEngine H}.

(** Requests the queue can serve; only the control block of a listed request
    changes. *)
Variable R : qdma_queue_conf → qdma_request → Prop.

Definition has_req (s : qst H) (P : qdma_request → Prop) (r : Z) : Prop :=
  ∃ rq, s_reqs s !! r = Some rq ∧ R (dq_conf (s_q s)) rq ∧ 0 <= rq_count rq < 2 ^ 31 ∧ P rq.

Record qinv (s : qst H) (S P C : Z) : Prop := {
  qi_ring : 1 < qc_rngsz (dq_conf (s_q s)) < 2 ^ 16;
  qi_dir : is_st_c2h (s_q s) = false;
  qi_eng : eng (qc_rngsz (dq_conf (s_q s))) (s_hw s) P C;
  qi_order : 0 <= C <= P ∧ P <= S ∧ S - C <= qc_rngsz (dq_conf (s_q s)) - 1;
  qi_pidx : dq_pidx (s_q s) = S mod qc_rngsz (dq_conf (s_q s));
  qi_cidx : dq_cidx (s_q s) = C mod qc_rngsz (dq_conf (s_q s));
  qi_avail : dq_avail (s_q s) = qc_rngsz (dq_conf (s_q s)) - 1 - (S - C);
  qi_info : P = 0 ∨
    ∃ Q, P <= Q <= S ∧ pri_pidx (dq_pidx_info (s_q s)) = Q mod qc_rngsz (dq_conf (s_q s));
  qi_pend : Forall (has_req s rq_written) (dq_pend_list (s_q s));
  qi_work : match dq_work_list (s_q s) with
            | [] => True
            | r :: rs => has_req s rq_partial r ∧ Forall (has_req s rq_fresh) rs
            end;
  qi_nodup : NoDup (dq_pend_list (s_q s) ++ dq_work_list (s_q s));
  qi_credit : 0 <= dq_credit (s_q s) ∧
    dq_credit (s_q s) + (S - C) =
    sumz (map (req_nr (s_reqs s)) (dq_pend_list (s_q s) ++ dq_work_list (s_q s)));
  qi_first : match dq_pend_list (s_q s), dq_work_list (s_q s) with
             | r :: _, _ => dq_credit (s_q s) < req_nr (s_reqs s) r
             | [], r :: _ => dq_credit (s_q s) <= req_nr (s_reqs s) r
             | [], [] => True
             end;
  qi_work_cnt : dq_work_req_pend (s_q s) = Z.of_nat (length (dq_work_list (s_q s)));
  qi_work_len : Z.of_nat (length (dq_work_list (s_q s))) < 2 ^ 31;
}.
End inv.
