(* ===== verification/DescqCmpl.v ===== *)
(** * Completion of requests

    descq_mm_n_h2c_cmpl_status completes requests in the order in which they
    were written to the ring, exactly those whose descriptors the hardware has
    consumed, and keeps the invariant of the queue. *)

From S2P Require Import Prelude Platform SoftAccess QueueTypes DescRing Descq DescqInv.

Lemma filter_ne_notin (l : list Z) r : r ∉ l → filter (λ x, x ≠ r) l = l.
Proof.
  induction l as [|x l IH]; intros Hr; [done|]. apply not_elem_of_cons in Hr as [? ?].
  rewrite filter_cons_True by done. by rewrite IH.
Qed.

Lemma filter_ne_cons (l : list Z) r : r ∉ l → filter (λ x, x ≠ r) (r :: l) = l.
Proof. intros. rewrite filter_cons_False by (intros Hn; by apply Hn). by apply filter_ne_notin. Qed.

Lemma elem_of_take_in {A} (x : A) k l : x ∈ take k l → x ∈ l.
Proof. intros. rewrite <- (take_drop k l). apply elem_of_app. by left. Qed.

Lemma elem_of_drop_in {A} (x : A) k l : x ∈ drop k l → x ∈ l.
Proof. intros. rewrite <- (take_drop k l). apply elem_of_app. by right. Qed.

Section cmpl.
Context {H : Type} `{DescEngine H}.
Implicit Types s : qst H.

(** What completing requests leaves of a queue: a shorter pending list. *)
Definition q_completed (q : qdma_descq) (pend : list Z) (b : bool) : qdma_descq :=
  q <| dq_pend_list := pend |> <| dq_pend_list_empty := b |>.

(** The log of a successful completion of [r] with [n] bytes. *)
Definition done_log (r n : Z) (evs : list q_event) : Prop :=
  completed evs = [r] ∧ ∀ r' n' e, EvDone r' n' e ∈ evs → r' = r ∧ n' = n ∧ e = 0.

Lemma cb_list_del_pend s r rest :
  dq_pend_list (s_q s) = r :: rest → r ∉ rest → r ∉ dq_work_list (s_q s) →
  cb_list_del r s = Some (tt, s <| s_q := s_q s <| dq_pend_list := rest |> |>).
Proof.
  intros Hp Hr Hw. unfold cb_list_del, getq, modq, cb_linked, mbind, qm_bind.
  rewrite Hp, bool_decide_eq_false_2, bool_decide_eq_true_2 by (done || by left). simpl.
  rewrite Hp, filter_ne_notin, filter_ne_cons by done. by destruct s as [[] ? ? ? ?].
Qed.

Lemma qdma_sgt_req_done_run s r rest rq :
  dq_pend_list (s_q s) = r :: rest → r ∉ rest → r ∉ dq_work_list (s_q s) →
  s_reqs s !! r = Some rq → is_st_c2h (s_q s) = false → cb_offset (rq_cb rq) = rq_count rq →
  ∃ rq' b evs,
    qdma_sgt_req_done r 0 s =
    Some (tt, mk_qst (q_completed (s_q s) rest b) (s_xdev s) (<[r := rq']> (s_reqs s)) (s_hw s)
                (s_ev s ++ evs)) ∧
    done_log r (rq_count rq) evs ∧ cb_done (rq_cb rq') = true ∧ cb_status (rq_cb rq') = 0 ∧
    rq_count rq' = rq_count rq.
Proof.
  intros Hp Hr Hw Hrq Hd Ho. unfold qdma_sgt_req_done.
  erewrite qm_bind_eq by by apply cb_list_del_pend. unfold is_st_c2h in *.
  unfold getreq, putreq, modcb, getreq, getq, modq, qwhen, qevent, putreq, mbind, qm_bind, mret, qm_ret.
  simpl. rewrite Hrq. simpl.
  destruct (cb_unmap_needed (rq_cb rq)); simpl; rewrite ?lookup_insert_eq, ?Hrq; simpl;
    (destruct (rq_fp_done rq); simpl; rewrite ?lookup_insert_eq, ?Hrq, ?Ho, ?Z.eqb_refl; simpl;
     rewrite ?insert_insert_eq;
     (destruct (qc_fp_descq_c2h_packet (dq_conf (s_q s))); simpl; rewrite ?Hd;
      [|destruct (dq_q_stop_wait (s_q s) && _)]);
     simpl; rewrite <- ?app_assoc; simpl; do 3 eexists; (split; [reflexivity|]); (split; [|done]);
     (split; [done|intros ???; set_solver])).
Qed.

Variable R : qdma_queue_conf → qdma_request → Prop.
Hypothesis R_cb : ∀ c rq cb, R c rq → R c (rq <| rq_cb := cb |>).

Lemma req_nr_insert reqs r rq r' :
  req_nr (<[r := rq]> reqs) r' = if decide (r = r') then cb_desc_nr (rq_cb rq) else req_nr reqs r'.
Proof.
  unfold req_nr. case_decide; simplify_eq; [by rewrite lookup_insert_eq|by rewrite lookup_insert_ne].
Qed.

Lemma map_req_nr_insert reqs r rq l :
  r ∉ l → map (req_nr (<[r := rq]> reqs)) l = map (req_nr reqs) l.
Proof.
  intros Hr. apply map_ext_in. intros r' Hr'. rewrite req_nr_insert, decide_False; [done|].
  intros ->. apply Hr. by apply list_elem_of_In.
Qed.

Lemma has_req_ext s s' P r :
  dq_conf (s_q s') = dq_conf (s_q s) → s_reqs s' !! r = s_reqs s !! r → has_req R s P r → has_req R s' P r.
Proof. intros Hc Hr (rq & ? & ? & ? & ?). exists rq. rewrite Hc, Hr. done. Qed.

Lemma has_req_nr s r : has_req R s rq_written r → 0 < req_nr (s_reqs s) r <= 2 ^ 31.
Proof. intros (rq & Hrq & _ & ? & _ & ?). unfold req_nr. rewrite Hrq. lia. Qed.

Lemma sumz_fresh s l : Forall (has_req R s rq_fresh) l → sumz (map (req_nr (s_reqs s)) l) = 0.
Proof.
  induction 1 as [|r l (rq & Hrq & _ & _ & Hn & _) _ IH]; [done|]. simpl. rewrite IH. unfold req_nr.
  by rewrite Hrq, Hn.
Qed.

(** [evs] are successful completions with all bytes of the requests of [s]. *)
Definition all_done (s : qst H) (l : list Z) (evs : list q_event) : Prop :=
  completed evs = l ∧
  ∀ r n e, EvDone r n e ∈ evs → e = 0 ∧ ∃ rq, s_reqs s !! r = Some rq ∧ n = rq_count rq.

(** The announced sizes of the requests are the same. *)
Definition same_counts (s s' : qst H) : Prop :=
  ∀ r, rq_count <$> s_reqs s' !! r = rq_count <$> s_reqs s !! r.

Lemma same_counts_insert s s' r rq rq' reqs :
  s_reqs s' = <[r := rq']> reqs → reqs = s_reqs s → s_reqs s !! r = Some rq →
  rq_count rq' = rq_count rq → same_counts s s'.
Proof.
  intros Hs' -> Hrq Hc r0. rewrite Hs'. destruct (decide (r = r0)) as [<-|].
  - rewrite lookup_insert_eq, Hrq. simpl. by rewrite Hc.
  - by rewrite lookup_insert_ne.
Qed.

(** [k] requests of the pending list are completed: as many as the credits
    [cr] pay for; the rest of the credits is taken from the next one. *)
Record cmpl_post (s : qst H) (cr : Z) (cr' : Z) (s' : qst H) (k : nat) : Prop := {
  cp_q : ∃ b, s_q s' = q_completed (s_q s) (drop k (dq_pend_list (s_q s))) b;
  cp_xdev : s_xdev s' = s_xdev s;
  cp_hw : s_hw s' = s_hw s;
  cp_ev : ∃ evs, s_ev s' = s_ev s ++ evs ∧ all_done s (take k (dq_pend_list (s_q s))) evs;
  cp_other : ∀ r, r ∉ dq_pend_list (s_q s) → s_reqs s' !! r = s_reqs s !! r;
  cp_rest : Forall (has_req R s' rq_written) (drop k (dq_pend_list (s_q s)));
  cp_cr : 0 <= cr' ∧ (cr' = 0 ∨ drop k (dq_pend_list (s_q s)) = []);
  cp_sum : sumz (map (req_nr (s_reqs s')) (drop k (dq_pend_list (s_q s)))) + (cr - cr') =
           sumz (map (req_nr (s_reqs s)) (dq_pend_list (s_q s)));
  cp_le : Forall (λ r, req_nr (s_reqs s') r <= req_nr (s_reqs s) r) (drop k (dq_pend_list (s_q s)));
  cp_paid : sumz (map (req_nr (s_reqs s)) (take k (dq_pend_list (s_q s)))) <= cr;
  cp_done : Forall (λ r, ∃ rq, s_reqs s' !! r = Some rq ∧ cb_done (rq_cb rq) = true ∧
                               cb_status (rq_cb rq) = 0) (take k (dq_pend_list (s_q s)));
  cp_count : same_counts s s';
}.

Lemma q_completed_refl q : q = q_completed q (dq_pend_list q) (dq_pend_list_empty q).
Proof. by destruct q. Qed.

Lemma cmpl_post_refl s cr :
  Forall (has_req R s rq_written) (dq_pend_list (s_q s)) → 0 <= cr →
  cr = 0 ∨ dq_pend_list (s_q s) = [] → cmpl_post s cr cr s 0.
Proof.
  intros Hall Hcr Hz. split; rewrite ?drop_0, ?take_0; try done.
  - eexists. apply q_completed_refl.
  - exists []. rewrite app_nil_r. split; [done|]. split; [done|]. set_solver.
  - lia.
  - apply Forall_forall. lia.
Qed.

(** The first pending request is not paid for completely. *)
Lemma cmpl_post_short s r rest rq cr :
  dq_pend_list (s_q s) = r :: rest → r ∉ rest → s_reqs s !! r = Some rq →
  has_req R s rq_written r → Forall (has_req R s rq_written) rest →
  0 <= cr < cb_desc_nr (rq_cb rq) →
  cmpl_post s cr 0 (s <| s_reqs := <[r := rq <| rq_cb := rq_cb rq <| cb_desc_nr :=
    cb_desc_nr (rq_cb rq) - cr |> |>]> (s_reqs s) |>) 0.
Proof using R_cb.
  intros Hp Hnr Hrq (rq0 & Hrq0 & HR & Hcnt & Ho & Hn) Hrest Hcr. simplify_eq.
  split; rewrite ?drop_0, ?take_0; try done.
  - simpl. eexists. apply q_completed_refl.
  - exists []. simpl. rewrite app_nil_r. split; [done|]. split; [done|]. set_solver.
  - intros r'. rewrite Hp. intros [? ?]%not_elem_of_cons. simpl. by rewrite lookup_insert_ne.
  - rewrite Hp. constructor.
    + eexists. simpl. rewrite lookup_insert_eq. split; [done|]. split; [by apply R_cb|].
      split; [done|]. split; simpl; [done|lia].
    + eapply Forall_impl; [exact Hrest|]. intros r' Hr'. simpl in Hr'.
      destruct (decide (r' = r)) as [->|Hne].
      * eexists. simpl. rewrite lookup_insert_eq. split; [done|]. split; [by apply R_cb|].
        split; [done|]. split; simpl; [done|lia].
      * apply (has_req_ext s); [done|simpl; by rewrite lookup_insert_ne|done].
  - split; [lia|by left].
  - rewrite Hp. simpl. rewrite map_req_nr_insert by done. rewrite req_nr_insert, decide_True by done.
    simpl. assert (req_nr (s_reqs s) r = cb_desc_nr (rq_cb rq)) as -> by (unfold req_nr; by rewrite Hrq). lia.
  - apply Forall_forall. intros r' _. simpl. rewrite req_nr_insert. case_decide; simplify_eq/=; [|lia].
    unfold req_nr. rewrite Hrq. lia.
  - simpl. lia.
  - by eapply same_counts_insert.
Qed.

(** The first pending request is completed. *)
Lemma cmpl_post_step s r rest rq rq' b evs cr cr' s' k :
  dq_pend_list (s_q s) = r :: rest → r ∉ rest → s_reqs s !! r = Some rq →
  done_log r (rq_count rq) evs → cb_done (rq_cb rq') = true → cb_status (rq_cb rq') = 0 → rq_count rq' = rq_count rq →
  let s1 := mk_qst (q_completed (s_q s) rest b) (s_xdev s) (<[r := rq']> (s_reqs s)) (s_hw s)
              (s_ev s ++ evs) in
  cmpl_post s1 (cr - cb_desc_nr (rq_cb rq)) cr' s' k → cmpl_post s cr cr' s' (S k).
Proof.
  intros Hp Hnr Hrq [Hc He] Hd Hst Hct s1 [A1 A2 A3 A4 A5 A6 A7 A8 A9 A10 A11 A12].
  assert (Hn : req_nr (s_reqs s) r = cb_desc_nr (rq_cb rq)) by (unfold req_nr; by rewrite Hrq).
  unfold s1 in *. simpl in *. split; rewrite ?Hp; simpl; try done.
  - destruct A4 as (evs' & -> & Hc' & Hdn). exists (evs ++ evs'). rewrite app_assoc. split; [done|].
    split; [by rewrite completed_app, Hc, Hc'|]. intros r0 n e [Hin|Hin]%elem_of_app.
    + destruct (He _ _ _ Hin) as (-> & -> & ->). split; [done|]. by exists rq.
    + destruct (Hdn _ _ _ Hin) as (-> & rq0 & Hl & ->). split; [done|].
      assert (r0 ∈ take k rest) as Hr0.
      { rewrite <- Hc'. unfold completed. apply list_elem_of_omap. exists (EvDone r0 (rq_count rq0) 0). done. }
      exists rq0. split; [|done]. simpl in Hl. rewrite lookup_insert_ne in Hl; [done|].
      intros <-. apply Hnr. by eapply elem_of_take_in.
  - intros r0 [? ?]%not_elem_of_cons. rewrite A5 by done. by rewrite lookup_insert_ne.
  - rewrite map_req_nr_insert in A8 by done. lia.
  - rewrite Forall_forall in A9 |- *. intros r0 Hr0. specialize (A9 r0 Hr0).
    rewrite req_nr_insert, decide_False in A9; [done|]. intros <-. apply Hnr.
    by eapply elem_of_drop_in.
  - rewrite map_req_nr_insert in A10.
    + lia.
    + intros Hr0. apply Hnr. by eapply elem_of_take_in.
  - constructor; [|done]. rewrite A5 by done. rewrite lookup_insert_eq. by exists rq'.
  - intros r0. rewrite A12. simpl. destruct (decide (r = r0)) as [<-|].
    + rewrite lookup_insert_eq, Hrq. simpl. by rewrite Hct.
    + by rewrite lookup_insert_ne.
Qed.

Lemma cmpl_requests_run n : ∀ s cr,
  (length (dq_pend_list (s_q s)) <= n)%nat → is_st_c2h (s_q s) = false → 0 <= cr →
  dq_pend_list (s_q s) = [] ∨ 0 < cr →
  NoDup (dq_pend_list (s_q s) ++ dq_work_list (s_q s)) →
  Forall (has_req R s rq_written) (dq_pend_list (s_q s)) →
  ∃ k cr' s', cmpl_requests n cr s = Some (cr', s') ∧ cmpl_post s cr cr' s' k.
Proof using R_cb.
  induction n as [|n IH]; intros s cr Hlen Hdir Hcr Hcr0 Hnd Hall.
  - assert (dq_pend_list (s_q s) = []) by (destruct (dq_pend_list _); [done|simpl in *; lia]).
    exists 0%nat, cr, s. split; [done|]. apply cmpl_post_refl; [done|lia|by right].
  - cbn [cmpl_requests]. erewrite qm_bind_eq by done.
    destruct (dq_pend_list (s_q s)) as [|r rest] eqn:Hp.
    { exists 0%nat, cr, s. split; [done|]. apply cmpl_post_refl; [by rewrite Hp|lia|by right]. }
    destruct Hcr0 as [|Hcr0]; [done|].
    apply Forall_cons in Hall as [Hr Hrest]. pose proof Hr as (rq & Hrq & HR & Hcnt & Hoff & Hpos).
    simpl in Hnd. apply NoDup_cons in Hnd as [Hnr Hnd]. apply not_elem_of_app in Hnr as [Hnr Hnw].
    erewrite qm_bind_eq by (unfold getreq; by rewrite Hrq).
    destruct (cb_desc_nr (rq_cb rq) <=? cr) eqn:Hle.
    + destruct (qdma_sgt_req_done_run s r rest rq) as (rq' & b & evs & Hrun & Hlog & Hd & Hst & Hct); try done.
      erewrite qm_bind_eq by exact Hrun. set (s1 := mk_qst _ _ _ _ _).
      assert (Hall1 : Forall (has_req R s1 rq_written) (dq_pend_list (s_q s1))).
      { unfold s1. simpl. rewrite Forall_forall in Hrest |- *. intros r0 Hr0.
        apply (has_req_ext s); [done| |by apply Hrest]. simpl. rewrite lookup_insert_ne; [done|].
        intros <-. done. }
      destruct (cr - cb_desc_nr (rq_cb rq) =? 0) eqn:Hz.
      * exists 1%nat, 0, s1. split; [done|]. eapply cmpl_post_step; try done.
        replace (cr - _) with 0 by lia. apply cmpl_post_refl; [done|lia|by left].
      * destruct (IH s1 (cr - cb_desc_nr (rq_cb rq))) as (k & cr' & s' & Hs' & Hpost); try done; try lia.
        { simpl in *. lia. }
        exists (S k), cr', s'. split; [done|]. by eapply cmpl_post_step.
    + exists 0%nat, 0, (s <| s_reqs := <[r := rq <| rq_cb := rq_cb rq <| cb_desc_nr :=
        cb_desc_nr (rq_cb rq) - cr |> |>]> (s_reqs s) |>). split.
      * unfold modcb, getreq, putreq, mbind, qm_bind. rewrite Hrq. done.
      * eapply cmpl_post_short; try done. lia.
Qed.

(** ** The status entry *)

(** The members that completion processing leaves alone. *)
Definition same_queue (s s' : qst H) : Prop :=
  dq_conf (s_q s') = dq_conf (s_q s) ∧ dq_lock (s_q s') = dq_lock (s_q s) ∧
  dq_q_state (s_q s') = dq_q_state (s_q s) ∧ dq_q_stop_wait (s_q s') = dq_q_stop_wait (s_q s) ∧
  dq_cmplthp (s_q s') = dq_cmplthp (s_q s) ∧ dq_mm_desc (s_q s') = dq_mm_desc (s_q s) ∧
  dq_h2c_desc (s_q s') = dq_h2c_desc (s_q s) ∧
  xd_qdma_drv_mode (s_xdev s') = xd_qdma_drv_mode (s_xdev s).

(** [s'] has completed the first [k] pending requests of [s]. *)
Record progress (s s' : qst H) : Prop := {
  pr_same : same_queue s s';
  pr_run : dq_proc_req_running (s_q s') = dq_proc_req_running (s_q s);
  pr_pidx : dq_pidx (s_q s') = dq_pidx (s_q s) ∧ dq_pidx_info (s_q s') = dq_pidx_info (s_q s);
  pr_work : dq_work_list (s_q s') = dq_work_list (s_q s);
  pr_reqs : ∀ r, r ∉ dq_pend_list (s_q s) → s_reqs s' !! r = s_reqs s !! r;
  pr_count : same_counts s s';
  pr_fifo : ∃ k evs, dq_pend_list (s_q s') = drop k (dq_pend_list (s_q s)) ∧
    s_ev s' = s_ev s ++ evs ∧ all_done s (take k (dq_pend_list (s_q s))) evs;
}.

Lemma progress_refl s : progress s s.
Proof using.
  split; try done. exists 0%nat, []. rewrite drop_0, app_nil_r. split; [done|]. split; [done|].
  split; [done|]. by intros ??? ?%elem_of_nil.
Qed.

Lemma progress_hw s h : progress s (s <| s_hw := h |>).
Proof using. destruct (progress_refl s) as [A B C D E F G]. by split. Qed.

Lemma all_done_counts s s' l evs : same_counts s s' → all_done s' l evs → all_done s l evs.
Proof.
  intros Hc [Hl He]. split; [done|]. intros r n e Hin. destruct (He _ _ _ Hin) as (-> & rq & Hrq & ->).
  split; [done|]. specialize (Hc r). rewrite Hrq in Hc. destruct (s_reqs s !! r) as [rq0|]; [|done].
  simplify_eq/=. by exists rq0.
Qed.

Lemma progress_trans s1 s2 s3 : progress s1 s2 → progress s2 s3 → progress s1 s3.
Proof.
  intros [A1 A2 A3 A4 A5 A6 A7] [B1 B2 B3 B4 B5 B6 B7]. unfold same_queue in *.
  destruct A7 as (k1 & e1 & Hp1 & He1 & Hd1). destruct B7 as (k2 & e2 & Hp2 & He2 & Hd2).
  split; [|by rewrite B2| |by rewrite B4| | |].
  - unfold same_queue. destruct_and!. split_and!; congruence.
  - destruct_and!. split; congruence.
  - intros r Hr. rewrite B5, A5; [done|done|]. rewrite Hp1. intros Hin. apply Hr. by eapply elem_of_drop_in.
  - intros r. by rewrite B6, A6.
  - exists (k1 + k2)%nat, (e1 ++ e2). rewrite Hp2, Hp1, drop_drop. split; [done|].
    split; [by rewrite He2, He1, app_assoc|].
    apply (all_done_counts _ _ _ _ A6) in Hd2 as [Hl2 Hb2]. destruct Hd1 as [Hl1 Hb1].
    split. { rewrite completed_app, Hl1, Hl2, Hp1. by rewrite take_take_drop. }
    intros r n e [?|?]%elem_of_app; eauto.
Qed.

Lemma ring_delta n a b : ring_sz_ok n → 0 <= b - a < n →
  (if b mod n <? a mod n then n - a mod n + b mod n else b mod n - a mod n) = b - a.
Proof.
  unfold ring_sz_ok. intros Hn Hab.
  pose proof (Z.mod_pos_bound a n ltac:(lia)). pose proof (Z.mod_pos_bound b n ltac:(lia)).
  assert (b mod n = (a mod n + (b - a)) mod n) as Hb by (rewrite Zplus_mod_idemp_l; f_equal; lia).
  rewrite (mod_once (a mod n + (b - a)) n) in Hb by lia.
  destruct (n <=? a mod n + (b - a)) eqn:?; destruct (b mod n <? a mod n) eqn:?; lia.
Qed.

(** The same difference, computed in 32 bits. *)
Lemma ring_delta_u32 n a b : ring_sz_ok n → n < 2 ^ 16 → 0 <= b - a < n →
  (if b mod n <? a mod n then u32 (u32 (n - a mod n) + b mod n) else b mod n - a mod n) = b - a.
Proof.
  intros Hn H16 Hab. rewrite <- (ring_delta n a b) by done. unfold ring_sz_ok in Hn.
  pose proof (Z.mod_pos_bound a n ltac:(lia)). pose proof (Z.mod_pos_bound b n ltac:(lia)).
  case_match; [|done].
  rewrite (u32_small (n - a mod n)) by lia. apply u32_small. lia.
Qed.

(** ** Preservation of the invariant *)

Lemma qinv_ring s S P C : qinv R s S P C → ring_sz_ok (qc_rngsz (dq_conf (s_q s))).
Proof. intros Hi. destruct (qi_ring _ _ _ _ _ Hi). unfold ring_sz_ok. lia. Qed.

(** The doorbell posts what the last one announced. *)
Lemma pidx_update_force_inv s S P C :
  qinv R s S P C → 0 < P →
  ∃ ret s' P', qdma_pidx_update true s = Some (ret, s') ∧ P <= P' ∧ qinv R s' S P' C ∧ progress s s'.
Proof.
  intros Hi HP0. unfold qdma_pidx_update, descq_pidx_doorbell, getq, hwcall, modq, mbind, qm_bind, mret, qm_ret.
  simpl. destruct (queue_pidx_update _ _ _ _) as [r h'] eqn:Hpost.
  destruct Hi as [A1 A2 He Ho A5 A6 A7 Hinf0 A9 A10 A11 A12 A13 A14 A15].
  destruct Hinf0 as [?|(Q & HQ & Hinf)]; [lia|].
  pose proof (eng_post _ _ _ _ Q _ _ _ _ _ He ltac:(lia) ltac:(lia) Hinf Hpost) as Hh'.
  destruct (r <? 0); simpl.
  - do 2 eexists. exists P. split; [done|]. split; [lia|]. split; [|apply progress_hw].
    split; try done. right. by exists Q.
  - do 2 eexists. exists Q. split; [done|]. split; [lia|]. split.
    + split; try done; simpl; [lia|]. right. exists Q. split; [lia|done].
    + destruct (progress_refl s) as [A B D E F G I]. by split.
Qed.

Lemma incr_cmpl_desc_cnt_run s cnt :
  ∃ t x, incr_cmpl_desc_cnt cnt s = Some (tt, s <| s_q := s_q s <| dq_total_cmpl_descs := t |> |> <| s_xdev := x |>) ∧
         xd_qdma_drv_mode x = xd_qdma_drv_mode (s_xdev s).
Proof.
  unfold incr_cmpl_desc_cnt, getq, modq, modx, mbind, qm_bind, mret, qm_ret. simpl.
  repeat case_match; do 2 eexists; (split; [reflexivity|]); reflexivity.
Qed.

(** The state once the completed count [C'] was read, before it is credited to
    the pending requests. *)
Definition status_read (s : qst H) (C C' t : Z) (x : xlnx_dma_dev) (h' : H) : qst H :=
  s <| s_hw := h' |>
    <| s_q := s_q s <| dq_cidx := C' mod qc_rngsz (dq_conf (s_q s)) |>
                    <| dq_avail := dq_avail (s_q s) + (C' - C) |>
                    <| dq_credit := dq_credit (s_q s) + (C' - C) |> <| dq_total_cmpl_descs := t |> |>
    <| s_xdev := x |>.

(** Crediting the completed descriptors keeps the invariant. *)
Lemma credit_inv s S P C C' t x h' cr' s2 k :
  qinv R s S P C → C < C' <= P → eng (qc_rngsz (dq_conf (s_q s))) h' P C' →
  cmpl_post (status_read s C C' t x h') (dq_credit (s_q s) + (C' - C)) cr' s2 k →
  qinv R (s2 <| s_q := s_q s2 <| dq_credit := cr' |> |>) S P C'.
Proof using R_cb.
  intros Hi HCC He' Hpost. destruct Hi as [Hr Hdir He Ho Hp Hc Ha Hinf Hpe Hw Hnd Hcr Hf Hwc Hwl].
  destruct Hpost as [[b Q] X Hh _ Oth Rest [Hc0 Hc1] Sum Le _ _ _].
  unfold status_read in *. simpl in Oth, Rest, Hc1, Sum, Le.
  assert (Hwr : ∀ r, r ∈ dq_work_list (s_q s) → s_reqs s2 !! r = s_reqs s !! r).
  { intros r Hr0. apply Oth. intros Hin. apply NoDup_app in Hnd as (_ & Hd & _). by apply (Hd r). }
  assert (Hwn : map (req_nr (s_reqs s2)) (dq_work_list (s_q s)) = map (req_nr (s_reqs s)) (dq_work_list (s_q s))).
  { apply map_ext_in. intros r Hr0%list_elem_of_In. unfold req_nr. by rewrite Hwr. }
  rewrite map_app, sumz_app in Hcr.
  assert (Hcf : dq_conf (s_q s2) = dq_conf (s_q s)) by by rewrite Q.
  assert (Hext : ∀ P0 r, r ∈ dq_work_list (s_q s) → has_req R s P0 r →
    has_req R (s2 <| s_q := s_q s2 <| dq_credit := cr' |> |>) P0 r).
  { intros P0 r Hr0. apply has_req_ext; [done|by apply Hwr]. }
  assert (Hcw : cr' + (S - C') = sumz (map (req_nr (s_reqs s2)) (drop k (dq_pend_list (s_q s)))) +
    sumz (map (req_nr (s_reqs s)) (dq_work_list (s_q s)))) by lia.
  split; simpl; [by rewrite Q|by rewrite Q|by rewrite Q, Hh|rewrite Q|by rewrite Q|by rewrite Q|rewrite Q|
    by rewrite Q| | |rewrite Q|rewrite Q|rewrite Q|by rewrite Q|by rewrite Q]; simpl.
  - lia.
  - rewrite Ha. lia.
  - assert (dq_pend_list (s_q s2) = drop k (dq_pend_list (s_q s))) as -> by by rewrite Q.
    eapply Forall_impl; [exact Rest|]. intros r. by apply has_req_ext.
  - assert (dq_work_list (s_q s2) = dq_work_list (s_q s)) as -> by by rewrite Q.
    clear Hf Hwc Hwl Hwn Hcw Sum Hcr Hnd.
    destruct (dq_work_list (s_q s)) as [|r rs]; [done|]. destruct Hw as [Hw1 Hw2]. split.
    + apply Hext; [by left|done].
    + rewrite Forall_forall in Hw2 |- *. intros r0 Hr0. apply Hext; [by right|]. by apply Hw2.
  - simpl. rewrite <- (take_drop k (dq_pend_list (s_q s))), <- app_assoc in Hnd.
    by apply NoDup_app in Hnd as (_ & _ & ?).
  - simpl. by rewrite map_app, sumz_app, Hwn.
  - destruct (drop k (dq_pend_list (s_q s))) as [|r rs].
    + destruct (dq_work_list (s_q s)) as [|r rs]; [done|]. simpl in Hcw, Hwn.
      injection Hwn as Hwn _. rewrite Hwn. destruct Hw as [_ Hw]. rewrite (sumz_fresh s) in Hcw by done. lia.
    + destruct Hc1 as [->|]; [|done]. apply Forall_cons in Rest as [Hr0 _]. apply has_req_nr in Hr0. lia.
Qed.

(** Credits of a queue fit in 32 bits. *)
Lemma qinv_credit_bound s S P C : qinv R s S P C → dq_credit (s_q s) < 2 ^ 31.
Proof.
  intros [_ _ _ Ho _ _ _ _ Hpe Hw _ Hcr Hf _ _]. destruct (dq_pend_list (s_q s)) as [|r rs].
  2: { apply Forall_cons in Hpe as [Hr0 _]. apply has_req_nr in Hr0. lia. }
  destruct (dq_work_list (s_q s)) as [|r rs].
  - simpl in Hcr. lia.
  - destruct Hw as [(rq & Hrq & _ & Hct & Hpa & Hlt) _]. unfold req_nr in Hf. rewrite Hrq in Hf. lia.
Qed.

(** Processing the status entry always returns and keeps the invariant. *)
Lemma cmpl_status_run s S P C :
  qinv R s S P C →
  ∃ s' P' C', descq_mm_n_h2c_cmpl_status s = Some (0, s') ∧ P <= P' ∧ C <= C' ∧ qinv R s' S P' C' ∧
              progress s s' ∧
              (dq_pidx (s_q s) = dq_cidx (s_q s) ∨
               fst (desc_cmpl_status_cidx (s_hw s)) = C' mod qc_rngsz (dq_conf (s_q s))).
Proof using R_cb.
  intros Hi. pose proof (qinv_ring _ _ _ _ Hi) as Hn. pose proof Hi as Hi0.
  destruct Hi as [Hr Hdir He Ho Hp Hc Ha Hinf Hpe Hw Hnd Hcr Hf Hwc Hwl].
  unfold descq_mm_n_h2c_cmpl_status. erewrite qm_bind_eq by done.
  destruct (dq_pidx (s_q s) =? dq_cidx (s_q s)) eqn:Hempty.
  { exists s, P, C. split; [done|]. split; [lia|]. split; [lia|]. split; [done|].
    split; [apply progress_refl|left; lia]. }
  unfold hwcall at 1. rewrite qm_bind_run.
  destruct (desc_cmpl_status_cidx (s_hw s)) as [c h'] eqn:Hrd.
  destruct (eng_read _ _ _ _ _ _ He Hrd) as (C' & HC & -> & He').
  pose proof (ring_delta _ C C' Hn ltac:(lia)) as Hdelta. rewrite <- Hc in Hdelta.
  set (n := qc_rngsz (dq_conf (s_q s))) in *.
  destruct (C' mod n =? dq_cidx (s_q s)) eqn:Hsame.
  { assert (C' = C) as ->.
    { assert (C' mod n = dq_cidx (s_q s)) as Hs by lia. rewrite Hs in Hdelta.
      rewrite Z.ltb_irrefl in Hdelta. lia. }
    exists (s <| s_hw := h' |>), P, C. split; [done|]. split; [lia|]. split; [lia|]. split; [by split|].
    split; [apply progress_hw|by right]. }
  assert (C < C').
  { destruct (decide (C' = C)) as [->|]; [|lia]. rewrite Hc in Hsame. lia. }
  rewrite Hc in Hsame |- *. rewrite (ring_delta_u32 n C C') by (done || lia).
  pose proof (qinv_credit_bound _ _ _ _ Hi0) as Hcb.
  erewrite qm_bind_eq by done. cbn [s_q set].
  rewrite (u32_small (dq_avail (s_q s) + (C' - C))) by (rewrite Ha; lia).
  rewrite (u32_small (dq_credit (s_q s) + (C' - C))) by lia.
  destruct (incr_cmpl_desc_cnt_run (s <| s_hw := h' |> <| s_q := s_q s <| dq_cidx := C' mod n |>
    <| dq_avail := dq_avail (s_q s) + (C' - C) |> <| dq_credit := dq_credit (s_q s) + (C' - C) |> |>)
    (C' - C)) as (t & x & Hinc & Hx).
  erewrite qm_bind_eq by exact Hinc. erewrite qm_bind_eq by done.
  match goal with |- ∃ _ _ _, (_ ≫= _) ?st = _ ∧ _ => set (s1 := st) end.
  destruct (cmpl_requests_run (length (dq_pend_list (s_q s1))) s1 (dq_credit (s_q s1)))
    as (k & cr' & s2 & Hrun & Hpost); try done; [unfold s1; simpl; lia|right; unfold s1; simpl; lia|].
  erewrite qm_bind_eq by exact Hrun. erewrite qm_bind_eq by done.
  assert (Hi2 : qinv R (s2 <| s_q := s_q s2 <| dq_credit := cr' |> |>) S P C')
    by (apply (credit_inv s S P C C' t x h' cr' s2 k); [done|lia|done|exact Hpost]).
  destruct (pidx_update_force_inv _ _ _ _ Hi2 ltac:(lia)) as (ret & s3 & P' & Hup & HP & Hi3 & Hpr).
  erewrite qm_bind_eq by exact Hup.
  exists s3, P', C'. split; [done|]. split; [lia|]. split; [lia|]. split; [done|].
  split; [|by right]. eapply progress_trans; [|exact Hpr].
  destruct Hpost as [[b Q] X Hh Ev Oth Rest Hc0 Sum Le _ _ Cnt].
  split; unfold same_queue; simpl; rewrite ?Q, ?X; unfold s1; simpl; try done.
  destruct Ev as (evs & ? & ?). by exists k, evs.
Qed.

Lemma cmpl_status_inv s S P C :
  qinv R s S P C →
  ∃ s' P' C', descq_mm_n_h2c_cmpl_status s = Some (0, s') ∧ P <= P' ∧ C <= C' ∧ qinv R s' S P' C' ∧
              progress s s'.
Proof using R_cb.
  intros Hi. destruct (cmpl_status_run s S P C Hi) as (s' & P' & C' & ? & ? & ? & ? & ? & _). by exists s', P', C'.
Qed.
End cmpl.

(** * A simulated descriptor engine

    Completes the posted descriptors in steps given by a schedule, and all of
    them once the schedule is used up.  It shows that the hypotheses on the
    engine can hold, and runs the examples. *)

Record sim_engine := mk_sim {
  sim_n : Z; sim_posted : Z; sim_done : Z; sim_sched : list nat; sim_fail : bool;
}.

#[export] Instance sim_hw : QueueHw sim_engine := {
  queue_pidx_update _ _ info h :=
    if sim_fail h then (-1, h)
    else (0, mk_sim (sim_n h) (sim_posted h + (pri_pidx info - sim_posted h) mod sim_n h) (sim_done h)
           (sim_sched h) (sim_fail h));
  queue_cmpt_cidx_update _ _ h := (0, h);
  desc_cmpl_status_cidx h :=
    let c := match sim_sched h with
             | [] => sim_posted h
             | k :: _ => Z.min (sim_posted h) (sim_done h + Z.of_nat k)
             end in
    (c mod sim_n h, mk_sim (sim_n h) (sim_posted h) c (tail (sim_sched h)) (sim_fail h));
}.

(** The prompt engine: an empty schedule and a doorbell that works. *)
Record prompt_sim := mk_prompt { pm_n : Z; pm_posted : Z; pm_done : Z }.

#[export] Instance prompt_hw : QueueHw prompt_sim := {
  queue_pidx_update _ _ info h :=
    (0, mk_prompt (pm_n h) (pm_posted h + (pri_pidx info - pm_posted h) mod pm_n h) (pm_done h));
  queue_cmpt_cidx_update _ _ h := (0, h);
  desc_cmpl_status_cidx h := (pm_posted h mod pm_n h, mk_prompt (pm_n h) (pm_posted h) (pm_posted h));
}.

#[export] Program Instance prompt_desc_engine : DescEngine prompt_sim := {
  eng n h P C := 0 < n ∧ pm_n h = n ∧ pm_posted h = P ∧ pm_done h = C ∧ C <= P;
}.
Next Obligation.
  intros n h P C P' qid qt info r h' (Hn & Hsn & HP & HC & HCP) Hle Hlim Hinfo. simpl.
  intros [= <- <-]; simpl. rewrite Hsn, HP, Hinfo.
  replace (P + (P' mod n - P) mod n) with P'; [lia|].
  rewrite Zminus_mod_idemp_l, Z.mod_small; lia.
Qed.
Next Obligation.
  intros n h P C c h' (Hn & Hsn & HP & HC & HCP). simpl. intros [= <- <-]. rewrite Hsn, HP.
  exists P. split; [lia|]. done.
Qed.

#[export] Instance prompt_prompt : PromptEngine prompt_sim.
Proof.
  split; [intros ????; simpl; lia|].
  intros n h P C c h' (Hn & Hsn & HP & HC & HCP). simpl. intros [= <- <-]. by rewrite Hsn, HP.
Qed.

#[export] Program Instance sim_desc_engine : DescEngine sim_engine := {
  eng n h P C := 0 < n ∧ sim_n h = n ∧ sim_posted h = P ∧ sim_done h = C ∧ C <= P;
}.
Next Obligation.
  intros n h P C P' qid qt info r h' (Hn & Hsn & HP & HC & HCP) Hle Hlim Hinfo. simpl.
  destruct (sim_fail h); intros [= <- <-]; simpl; [done|]. rewrite Hsn, HP, Hinfo.
  replace (P + (P' mod n - P) mod n) with P'; [lia|].
  rewrite Zminus_mod_idemp_l, Z.mod_small; lia.
Qed.
Next Obligation.
  intros n h P C c h' (Hn & Hsn & HP & HC & HCP). simpl. intros [= <- <-]. rewrite Hsn, HP, HC.
  eexists. split; [|split; [reflexivity|simpl; repeat split; try done]]; destruct (sim_sched h); lia.
Qed.
