(* ===== verification/DescqLoop.v ===== *)
(** * The loop over the work list

    With requests the queue can serve, the loops of descq_mm_proc_request and
    descq_proc_st_h2c_request return, keep the invariant of the queue, and
    never reorder requests. *)

From S2P Require Import Prelude Platform SoftAccess QueueTypes DescRing Descq.
From S2P Require Import DescqProc DescqInv DescqCmpl.

Section loop.
Context {H : Type} `{DescEngine H}.
Implicit Types s : qst H.
Variable R : qdma_queue_conf → qdma_request → Prop.
Hypothesis R_cb : ∀ c rq cb, R c rq → R c (rq <| rq_cb := cb |>).

(** ** What a run of the queue code keeps *)

(** All requests of the queue, in the order of their submission: those
    completed, those on the ring, those waiting. *)
Definition line (s : qst H) : list Z :=
  completed (s_ev s) ++ dq_pend_list (s_q s) ++ dq_work_list (s_q s).

(** From [s] to [s'] the queue has moved requests along its line: the order is
    the same, new completions report success and the size of their request. *)
Record adv (s s' : qst H) : Prop := {
  ad_conf : dq_conf (s_q s') = dq_conf (s_q s);
  ad_lock : dq_lock (s_q s') = dq_lock (s_q s);
  ad_state : dq_q_state (s_q s') = dq_q_state (s_q s);
  ad_stop : dq_q_stop_wait (s_q s') = dq_q_stop_wait (s_q s);
  ad_mode : xd_qdma_drv_mode (s_xdev s') = xd_qdma_drv_mode (s_xdev s);
  ad_counts : same_counts s s';
  ad_line : line s' = line s;
  ad_ev : ∃ evs, s_ev s' = s_ev s ++ evs ∧
    ∀ r n e, EvDone r n e ∈ evs → e = 0 ∧ ∃ rq, s_reqs s !! r = Some rq ∧ n = rq_count rq;
}.

Lemma adv_refl s : adv s s.
Proof using. split; try done. exists []. rewrite app_nil_r. split; [done|]. by intros ??? ?%elem_of_nil. Qed.

Lemma adv_trans s1 s2 s3 : adv s1 s2 → adv s2 s3 → adv s1 s3.
Proof.
  intros [A1 A2 A3 A4 A5 A6 A7 A8] [B1 B2 B3 B4 B5 B6 B7 B8].
  split; try congruence. destruct A8 as (e1 & Ha & He1), B8 as (e2 & Hb & He2).
  exists (e1 ++ e2). split; [by rewrite Hb, Ha, app_assoc|].
  intros r n e [Hin|Hin]%elem_of_app; [by apply He1|]. destruct (He2 _ _ _ Hin) as (-> & rq & Hrq & ->).
  split; [done|]. specialize (A6 r). rewrite Hrq in A6. destruct (s_reqs s1 !! r) as [rq1|]; [|done].
  exists rq1. by simplify_eq/=.
Qed.

(** Members that [adv] does not mention, and the lock around a call. *)
Lemma adv_locked s s' q b :
  adv (s <| s_q := s_q s <| dq_lock := b |> |>) s' → dq_lock q = dq_lock (s_q s) →
  dq_conf q = dq_conf (s_q s') → dq_q_state q = dq_q_state (s_q s') →
  dq_q_stop_wait q = dq_q_stop_wait (s_q s') → dq_pend_list q = dq_pend_list (s_q s') →
  dq_work_list q = dq_work_list (s_q s') → adv s (s' <| s_q := q |>).
Proof using.
  intros [A1 A2 A3 A4 A5 A6 A7 A8] Hl Hc Hs Ht Hp Hw. split; simpl in *; try congruence.
  - done.
  - unfold line in *. simpl in *. by rewrite Hp, Hw.
Qed.

Lemma progress_adv s s' : progress s s' → adv s s'.
Proof.
  intros [(A1 & A2 & A3 & A4 & A5 & A6 & A7 & A8) _ _ Hw _ Hc (k & evs & Hp & He & Hd & Hb)].
  split; try done.
  - unfold line. rewrite He, completed_app, Hp, Hw, Hd. rewrite <- app_assoc. f_equal.
    by rewrite app_assoc, take_drop.
  - exists evs. done.
Qed.

(** ** Accounting for the descriptors of one round *)

Definition q_advanced (q : qdma_descq) (cnt pidx : Z) : qdma_descq :=
  q <| dq_pidx := pidx |> <| dq_avail := u32 (dq_avail q - cnt) |>.

Definition cb_advanced (cb : qdma_sgt_req_cb) (cnt data so : Z) (sg : option Z) : qdma_sgt_req_cb :=
  cb <| cb_desc_nr := u32 (cb_desc_nr cb + cnt) |> <| cb_offset := u32 (cb_offset cb + data) |>
     <| cb_sg_offset := so |> <| cb_sg := sg |>.

Lemma cb_list_del_work s r rs :
  dq_work_list (s_q s) = r :: rs → r ∉ rs → r ∉ dq_pend_list (s_q s) →
  cb_list_del r s = Some (tt, s <| s_q := s_q s <| dq_work_list := rs |> |>).
Proof.
  intros Hw Hr Hp. unfold cb_list_del, getq, modq, cb_linked, mbind, qm_bind.
  rewrite Hw, bool_decide_eq_true_2 by by left. simpl.
  rewrite Hw, filter_ne_cons, filter_ne_notin by done. by destruct s as [[] ? ? ? ?].
Qed.

(** [qdma_update_request] for the first waiting request. *)
Lemma update_request_run s r rs rq cnt data so sg :
  dq_work_list (s_q s) = r :: rs → r ∉ rs → r ∉ dq_pend_list (s_q s) → s_reqs s !! r = Some rq →
  0 < dq_work_req_pend (s_q s) < 2 ^ 32 →
  let rq' := rq <| rq_cb := cb_advanced (rq_cb rq) cnt data so sg |> in
  qdma_update_request r cnt data so sg s =
  Some (tt, mk_qst
    (if rq_count rq <=? u32 (cb_offset (rq_cb rq) + data)
     then s_q s <| dq_work_list := rs |> <| dq_work_req_pend := dq_work_req_pend (s_q s) - 1 |>
                <| dq_pend_list := dq_pend_list (s_q s) ++ [r] |>
     else s_q s) (s_xdev s) (<[r := rq']> (s_reqs s)) (s_hw s) (s_ev s)).
Proof.
  intros Hw Hr Hp Hrq Hc rq'. unfold qdma_update_request, modcb.
  set (s1 := s <| s_reqs := <[r := rq']> (s_reqs s) |>).
  assert (modcb (H := H) r (λ cb, cb_advanced cb cnt data so sg) s = Some (tt, s1)) as Hm.
  { unfold modcb, getreq, putreq, mbind, qm_bind. by rewrite Hrq. }
  unfold modcb in Hm. erewrite qm_bind_eq by exact Hm.
  erewrite qm_bind_eq by (unfold getreq, s1; simpl; by rewrite lookup_insert_eq).
  unfold rq' at 1. simpl. destruct (rq_count rq <=? _) eqn:Hle; [|by destruct s].
  unfold qdma_work_queue_del.
  rewrite qm_bind_run. erewrite qm_bind_eq by (by apply (cb_list_del_work s1 r rs)).
  unfold modq. simpl. unfold pend_list_add_tail, getq, modq, cb_linked, mbind, qm_bind. simpl.
  rewrite !bool_decide_eq_false_2 by done. simpl. by rewrite u32_small by lia.
Qed.

(** The bytes that have no descriptor yet, plus one per waiting request. *)
Definition req_left (reqs : gmap Z qdma_request) (r : Z) : Z :=
  match reqs !! r with Some rq => rq_count rq - cb_offset (rq_cb rq) + 1 | None => 0 end.
Definition work_left (s : qst H) : Z := sumz (map (req_left (s_reqs s)) (dq_work_list (s_q s))).

Lemma map_req_left_insert reqs r rq l :
  r ∉ l → map (req_left (<[r := rq]> reqs)) l = map (req_left reqs) l.
Proof.
  intros Hr. apply map_ext_in. intros r' Hr'%list_elem_of_In. unfold req_left.
  rewrite lookup_insert_ne; [done|]. by intros ->.
Qed.

Lemma has_req_insert s s' P l r rq :
  dq_conf (s_q s') = dq_conf (s_q s) → s_reqs s' = <[r := rq]> (s_reqs s) → r ∉ l →
  Forall (has_req R s P) l → Forall (has_req R s' P) l.
Proof.
  intros Hc Hs Hr. rewrite !Forall_forall. intros Hall r0 Hr0. apply (has_req_ext R s); [done| |by apply Hall].
  rewrite Hs, lookup_insert_ne; [done|]. by intros ->.
Qed.

Lemma fresh_partial s r : has_req R s rq_fresh r → has_req R s rq_partial r.
Proof.
  intros (rq & Hrq & HR & Hc & Hn & Ho). exists rq. split; [done|]. split; [done|]. split; [done|].
  unfold rq_partial. rewrite Hn, Ho. lia.
Qed.

(** A round writes [cnt] descriptors for [data] bytes of the first waiting
    request. *)
Record round_ok (s : qst H) (r : Z) (rs : list Z) (rq : qdma_request) (cnt data : Z) : Prop := {
  rk_work : dq_work_list (s_q s) = r :: rs;
  rk_req : s_reqs s !! r = Some rq;
  rk_cnt : 0 < cnt <= dq_avail (s_q s);
  rk_data : 0 <= data ∧ cb_offset (rq_cb rq) + data <= rq_count rq;
  rk_byte : cnt <= data ∨ (rq_count rq = 0 ∧ cnt = 1);
}.

Definition round_rq (rq : qdma_request) (cnt data so : Z) (sg : option Z) : qdma_request :=
  rq <| rq_cb := cb_advanced (rq_cb rq) cnt data so sg |>.

(** The state after [qdma_update_request]. *)
Definition round_mid (s : qst H) (r : Z) (rs : list Z) (rq : qdma_request) (cnt data so : Z)
    (sg : option Z) : qst H :=
  mk_qst
    (if rq_count rq <=? u32 (cb_offset (rq_cb rq) + data)
     then s_q s <| dq_work_list := rs |> <| dq_work_req_pend := dq_work_req_pend (s_q s) - 1 |>
                <| dq_pend_list := dq_pend_list (s_q s) ++ [r] |>
     else s_q s) (s_xdev s) (<[r := round_rq rq cnt data so sg]> (s_reqs s)) (s_hw s) (s_ev s).

Section round.
Context (s : qst H) (S P C : Z) (r : Z) (rs : list Z) (rq : qdma_request) (cnt data : Z).
Context (Hi : qinv R s S P C) (Hk : round_ok s r rs rq cnt data).

Lemma round_facts :
  R (dq_conf (s_q s)) rq ∧ 0 <= rq_count rq < 2 ^ 31 ∧ rq_partial rq ∧ r ∉ rs ∧
  r ∉ dq_pend_list (s_q s) ∧ Forall (has_req R s rq_fresh) rs ∧ NoDup rs.
Proof using Hi Hk.
  destruct Hi as [_ _ _ _ _ _ _ _ _ Hwk Hnd _ _ _ _], Hk as [Hw Hrq _ _ _]. rewrite Hw in *.
  destruct Hwk as [(rq0 & Hrq0 & HR & Hc & Hp) Hf]. rewrite Hrq in Hrq0. injection Hrq0 as <-.
  apply NoDup_app in Hnd as (_ & Hd & [Hn1 Hn2]%NoDup_cons).
  repeat split; try done; try lia; try (apply Hp). intros Hin. apply (Hd r Hin). by left.
Qed.

Lemma round_run so sg :
  qdma_update_request r cnt data so sg s = Some (tt, round_mid s r rs rq cnt data so sg).
Proof using Hi Hk.
  destruct round_facts as (_ & _ & _ & Hn1 & Hn2 & _). destruct Hk as [Hw Hrq _ _ _].
  apply update_request_run; try done.
  destruct Hi as [_ _ _ _ _ _ _ _ _ _ _ _ _ Hwc Hwl]. rewrite Hwc, Hw in *. simpl in *. lia.
Qed.

(** The control block after the round. *)
Lemma round_cb so sg :
  cb_desc_nr (rq_cb (round_rq rq cnt data so sg)) = cb_desc_nr (rq_cb rq) + cnt ∧
  cb_offset (rq_cb (round_rq rq cnt data so sg)) = cb_offset (rq_cb rq) + data ∧
  u32 (cb_offset (rq_cb rq) + data) = cb_offset (rq_cb rq) + data.
Proof using Hi Hk.
  destruct round_facts as (_ & Hc & [Hp _] & _). destruct Hi as [Hr _ _ Ho _ _ Ha _ _ _ _ _ _ _ _].
  destruct Hk as [_ _ Hcnt Hdata _]. simpl. rewrite !u32_small by lia. done.
Qed.

(** The round keeps the invariant: the request stays first in line, or has all
    its descriptors and becomes pending. *)
Lemma round_inv so sg pidx' :
  pidx' = (dq_pidx (s_q s) + cnt) mod qc_rngsz (dq_conf (s_q s)) →
  let s1 := round_mid s r rs rq cnt data so sg in
  let s2 := s1 <| s_q := q_advanced (s_q s1) cnt pidx' |> in
  qinv R s2 (S + cnt) P C ∧ adv s s2 ∧ work_left s2 + cnt <= work_left s.
Proof using Hi Hk R_cb.
  intros Hpx s1 s2.
  destruct round_facts as (HR & Hc & [Hnr Hoff] & Hn1 & Hn2 & Hfr & Hnd).
  destruct (round_cb so sg) as (Hnr' & Ho' & Hu). destruct Hk as [Hw Hrq Hcnt Hdata Hbyte].
  set (rq' := round_rq rq cnt data so sg) in *.
  assert (Hs2r : s_reqs s2 = <[r := rq']> (s_reqs s)) by done.
  assert (Hs2q : s_q s2 = q_advanced (s_q s1) cnt pidx') by done.
  assert (Hs1q : s_q s1 = if rq_count rq <=? u32 (cb_offset (rq_cb rq) + data)
     then s_q s <| dq_work_list := rs |> <| dq_work_req_pend := dq_work_req_pend (s_q s) - 1 |>
                <| dq_pend_list := dq_pend_list (s_q s) ++ [r] |>
     else s_q s) by done.
  assert (Hs2e : s_ev s2 = s_ev s) by done. assert (Hs2h : s_hw s2 = s_hw s) by done.
  assert (Hs2x : s_xdev s2 = s_xdev s) by done. clearbody s2. clearbody s1.
  assert (Hs2c : dq_conf (s_q s2) = dq_conf (s_q s)) by (rewrite Hs2q, Hs1q; simpl; by case_match).
  assert (Hnr0 : req_nr (s_reqs s) r = cb_desc_nr (rq_cb rq)) by (unfold req_nr; by rewrite Hrq).
  assert (Hnr1 : req_nr (s_reqs s2) r = cb_desc_nr (rq_cb rq) + cnt).
  { rewrite Hs2r, req_nr_insert, decide_True by done. done. }
  assert (Hsum : sumz (map (req_nr (s_reqs s2)) (dq_pend_list (s_q s) ++ r :: rs)) =
                 sumz (map (req_nr (s_reqs s)) (dq_pend_list (s_q s) ++ r :: rs)) + cnt).
  { rewrite !map_app, !sumz_app. simpl. rewrite Hnr0, Hnr1, Hs2r, !map_req_nr_insert by done. lia. }
  assert (Hreq : ∀ P0 : _ → Prop, P0 rq' → has_req R s2 P0 r).
  { intros P0 HP0. exists rq'. rewrite Hs2r, Hs2c, lookup_insert_eq. split; [done|].
    split; [by apply R_cb|]. done. }
  pose proof (qinv_ring R _ _ _ _ Hi) as Hrs.
  destruct Hi as [Hr Hdir He Ho Hp Hci Ha Hinf Hpe Hwk Hndl Hcr Hf Hwc Hwl].
  assert (Hpe2 : Forall (has_req R s2 rq_written) (dq_pend_list (s_q s))) by (eapply has_req_insert; done).
  assert (Hfr2 : Forall (has_req R s2 rq_fresh) rs) by (eapply has_req_insert; done).
  assert (Hadv : completed (s_ev s2) = completed (s_ev s) ∧ same_counts s s2).
  { split; [by rewrite Hs2e|]. by eapply same_counts_insert. }
  assert (Hpx2 : pidx' = (S + cnt) mod qc_rngsz (dq_conf (s_q s))).
  { rewrite Hpx, Hp. apply Zplus_mod_idemp_l. }
  assert (Hav : u32 (dq_avail (s_q s) - cnt) = dq_avail (s_q s) - cnt) by (apply u32_small; lia).
  rewrite Hw in Hndl, Hcr, Hf, Hwc, Hwl. simpl in Hwc, Hwl. rewrite Hu in *.
  destruct (rq_count rq <=? cb_offset (rq_cb rq) + data) eqn:Hfin.
  - assert (Hend : cb_offset (rq_cb rq) + data = rq_count rq) by lia.
    assert (Hl2 : dq_pend_list (s_q s2) = dq_pend_list (s_q s) ++ [r] ∧ dq_work_list (s_q s2) = rs)
      by by rewrite Hs2q, Hs1q.
    destruct Hl2 as [Hl2 Hl3].
    split; [|split].
    + split; rewrite ?Hs2c; try done; rewrite ?Hl2, ?Hl3, <- ?app_assoc; simpl; try done;
        try (rewrite Hs2q, Hs1q; simpl; try done; lia).
      * by rewrite Hs2h.
      * lia.
      * destruct Hinf as [?|(Q & ? & ?)]; [by left|right]. exists Q. rewrite Hs2q, Hs1q. split; [lia|done].
      * apply Forall_app. split; [done|]. constructor; [|done]. apply Hreq.
        unfold rq_written. rewrite Hnr', Ho'. change (rq_count rq') with (rq_count rq). lia.
      * clear -Hfr2; destruct rs as [|r2 rs2]; [done|]. apply Forall_cons in Hfr2 as [Hr2 ?]. split; [|done].
        by apply fresh_partial.
      * rewrite Hs2q, Hs1q. simpl.
        destruct (dq_pend_list (s_q s)) as [|r2 l] eqn:Hpl; simpl; [lia|].
        assert (r2 ≠ r) by set_solver. by rewrite Hs2r, req_nr_insert, decide_False by done.
      * lia.
    + split; rewrite ?Hs2x; try done; try (rewrite Hs2q, Hs1q; done); [apply Hadv| |].
      * unfold line. rewrite Hs2e, Hl2, Hl3, Hw. by rewrite <- app_assoc.
      * exists []. rewrite app_nil_r. split; [done|]. set_solver.
    + unfold work_left. rewrite Hl3, Hw, Hs2r, map_req_left_insert by done. simpl. unfold req_left at 2.
      rewrite Hrq. lia.
  - assert (Hl2 : dq_pend_list (s_q s2) = dq_pend_list (s_q s) ∧ dq_work_list (s_q s2) = r :: rs)
      by by rewrite Hs2q, Hs1q.
    destruct Hl2 as [Hl2 Hl3].
    split; [|split].
    + split; rewrite ?Hs2c; try done; rewrite ?Hl2, ?Hl3; simpl; try done;
        try (rewrite Hs2q, Hs1q; simpl; try done; lia).
      * by rewrite Hs2h.
      * lia.
      * destruct Hinf as [?|(Q & ? & ?)]; [by left|right]. exists Q. rewrite Hs2q, Hs1q. split; [lia|done].
      * split; [|done]. apply Hreq. unfold rq_partial. rewrite Hnr', Ho'.
        change (rq_count rq') with (rq_count rq). lia.
      * rewrite Hs2q, Hs1q. simpl.
        destruct (dq_pend_list (s_q s)) as [|r2 l] eqn:Hpl; simpl; [lia|].
        assert (r2 ≠ r) by set_solver. by rewrite Hs2r, req_nr_insert, decide_False by done.
    + split; rewrite ?Hs2x; try done; try (rewrite Hs2q, Hs1q; done); [apply Hadv| |].
      * unfold line. by rewrite Hs2e, Hl2, Hl3, Hw.
      * exists []. rewrite app_nil_r. split; [done|]. set_solver.
    + unfold work_left. rewrite Hl3, Hw, Hs2r. simpl. rewrite map_req_left_insert by done.
      unfold req_left at 1 3. rewrite lookup_insert_eq, Hrq, Ho'. change (rq_count rq') with (rq_count rq). lia.
Qed.
End round.

(** ** Polling *)

(** Polling moves the line and leaves the waiting requests alone. *)
Record polled (s s' : qst H) : Prop := {
  po_adv : adv s s';
  po_work : dq_work_list (s_q s') = dq_work_list (s_q s);
  po_reqs : ∀ r, r ∉ dq_pend_list (s_q s) → s_reqs s' !! r = s_reqs s !! r;
  po_pidx : dq_pidx (s_q s') = dq_pidx (s_q s);
  po_mm : dq_mm_desc (s_q s') = dq_mm_desc (s_q s);
  po_h2c : dq_h2c_desc (s_q s') = dq_h2c_desc (s_q s);
}.

Lemma polled_refl s : polled s s.
Proof using. split; try done. apply adv_refl. Qed.

Lemma progress_polled s s' : progress s s' → polled s s'.
Proof.
  intros Hp. split; [by apply progress_adv|..]; destruct Hp as [(?&?&?&?&?&?&?&?) ? [? ?] ? ? ? ?]; done.
Qed.

Lemma poll_inv s S P C :
  qinv R s S P C →
  ∃ rv s' P' C', descq_poll_mm_n_h2c_cmpl_status s = Some (rv, s') ∧ P <= P' ∧ C <= C' ∧
                 qinv R s' S P' C' ∧ polled s s'.
Proof using R_cb.
  intros Hi. unfold descq_poll_mm_n_h2c_cmpl_status. erewrite qm_bind_eq by done.
  set (s1 := s <| s_q := s_q s <| dq_proc_req_running := true |> |>).
  assert (Hi1 : qinv R s1 S P C) by (destruct Hi; by split).
  assert (Hp1 : ∀ s', progress s1 s' → polled s s').
  { intros s' Hp%progress_polled. destruct Hp as [[A1 A2 A3 A4 A5 A6 A7 A8] B C0 D E F]. by repeat split. }
  destruct (cmpl_status_inv R R_cb _ _ _ _ Hi1) as (s' & P' & C' & Hrun & HP & HC & Hi' & Hpr).
  destruct (xd_qdma_drv_mode (s_xdev s)); try (exists 0, s, P, C; split; [done|];
    split; [lia|]; split; [lia|]; split; [done|]; apply polled_refl).
  all: erewrite qm_bind_eq by done; exists 0, s', P', C'; split; [exact Hrun|]; split; [lia|];
    split; [lia|]; split; [done|]; by apply Hp1.
Qed.

Lemma desc_max_inv s S P C :
  qinv R s S P C →
  ∃ s' P' C', descq_desc_max s = Some (dq_avail (s_q s'), s') ∧ P <= P' ∧ C <= C' ∧
              qinv R s' S P' C' ∧ polled s s'.
Proof using R_cb.
  intros Hi. unfold descq_desc_max. erewrite qm_bind_eq by done.
  destruct (dq_avail (s_q s) =? 0) eqn:Ha.
  - destruct (poll_inv _ _ _ _ Hi) as (rv & s' & P' & C' & Hrun & HP & HC & Hi' & Hpo).
    exists s', P', C'. erewrite qm_bind_eq by exact Hrun. done.
  - exists s, P, C. split; [done|]. split; [lia|]. split; [lia|]. split; [done|]. apply polled_refl.
Qed.

(** ** The first waiting request after polling *)

Lemma polled_first s s' S P C r rs :
  qinv R s S P C → polled s s' → dq_work_list (s_q s) = r :: rs →
  dq_work_list (s_q s') = r :: rs ∧
  ∃ rq, s_reqs s !! r = Some rq ∧ s_reqs s' !! r = Some rq ∧ R (dq_conf (s_q s')) rq ∧ rq_partial rq ∧
        0 <= rq_count rq < 2 ^ 31.
Proof.
  intros Hi [Ha Hw Hr _ _ _] Hwl. rewrite Hw, Hwl. split; [done|].
  destruct Hi as [_ _ _ _ _ _ _ _ _ Hwk Hnd _ _ _ _]. rewrite Hwl in *.
  destruct Hwk as [(rq & Hrq & HR & Hc & Hp) _]. exists rq. split; [done|].
  rewrite Hr, (ad_conf _ _ Ha); [done|]. intros Hin. apply NoDup_app in Hnd as (_ & Hd & _).
  apply (Hd r Hin). by left.
Qed.

Lemma polled_work_left s s' S P C : qinv R s S P C → polled s s' → work_left s' = work_left s.
Proof.
  intros Hi [Ha Hw Hr _ _ _]. unfold work_left. rewrite Hw. f_equal. apply map_ext_in.
  intros r Hin%list_elem_of_In. unfold req_left. rewrite Hr; [done|]. intros Hp.
  destruct Hi as [_ _ _ _ _ _ _ _ _ _ Hnd _ _ _ _]. apply NoDup_app in Hnd as (_ & Hd & _). by apply (Hd r Hp).
Qed.

(** A change of the ring memory. *)
Lemma qinv_ring_write s S P C mm h2c :
  qinv R s S P C → qinv R (s <| s_q := s_q s <| dq_mm_desc := mm |> <| dq_h2c_desc := h2c |> |>) S P C.
Proof. intros []. by split. Qed.

(** ** Posting *)

(** The descriptors written are posted, unless the doorbell fails. *)
Lemma descq_post_inv s S P C w pp :
  qinv R s S P C →
  ∃ ok s' P' C', descq_post w pp s = Some (ok, s') ∧ P <= P' ∧ C <= C' ∧ qinv R s' S P' C' ∧ adv s s' ∧
                 (ok = true → w ≠ 0 ∨ P = S → P' = S) ∧ dq_work_list (s_q s') = dq_work_list (s_q s) ∧
                 dq_mm_desc (s_q s') = dq_mm_desc (s_q s) ∧ dq_h2c_desc (s_q s') = dq_h2c_desc (s_q s) ∧
                 work_left s' = work_left s ∧ (doorbell_works H → ok = true).
Proof using R_cb.
  intros Hi. unfold descq_post. destruct (w =? 0) eqn:Hw.
  { exists true, s, P, C. split; [done|]. split; [lia|]. split; [lia|]. split; [done|].
    split; [apply adv_refl|]. split; [intros; lia|done]. }
  erewrite qm_bind_eq by done. pose proof (qinv_ring R _ _ _ _ Hi) as Hn.
  match goal with |- ∃ _ _ _ _, (_ ≫= _) ?st = _ ∧ _ => set (s1 := st) end.
  assert (Hp1 : pri_pidx (dq_pidx_info (s_q s1)) = S mod qc_rngsz (dq_conf (s_q s))).
  { unfold s1. simpl. rewrite (qi_pidx _ _ _ _ _ Hi). destruct (qi_ring _ _ _ _ _ Hi).
    apply wrap_small. unfold is_u. pose proof (Z.mod_pos_bound S (qc_rngsz (dq_conf (s_q s))) ltac:(lia)). lia. }
  assert (Hi1 : qinv R s1 S P C).
  { destruct Hi as [? ? ? ? ? ? ? _ ? ? ? ? ? ? ?]. split; try done. right. exists S. split; [lia|]. done. }
  assert (Ha1 : adv s s1).
  { split; try done. exists []. rewrite app_nil_r. set_solver. }
  destruct (qwhen pp (qevent EvPingPong) s1) as [[u s2]|] eqn:Hpp; cycle 1.
  { destruct pp; discriminate Hpp. }
  assert (Hx2 : qinv R s2 S P C ∧ adv s1 s2 ∧ s_q s2 = s_q s1 ∧ s_reqs s2 = s_reqs s1).
  { destruct pp; injection Hpp as <- <-.
    - split; [destruct Hi1; by split|]. split; [|done].
      split; try done; simpl.
      + unfold line. simpl. by rewrite completed_app, app_nil_r.
      + exists [EvPingPong]. split; [done|]. set_solver.
    - split; [done|]. split; [apply adv_refl|done]. }
  destruct Hx2 as (Hi2 & Ha2 & Hq2 & Hh2). rewrite qm_bind_run, Hpp.
  unfold descq_pidx_doorbell. rewrite qm_bind_run. erewrite qm_bind_eq by done. unfold hwcall.
  destruct (queue_pidx_update _ _ _ _) as [rv h'] eqn:Hpost.
  assert (Hinf2 : pri_pidx (dq_pidx_info (s_q s2)) = S mod qc_rngsz (dq_conf (s_q s2))).
  { rewrite Hq2. done. }
  assert (Hi3 : qinv R (s2 <| s_hw := h' |>) S (if rv <? 0 then P else S) C).
  { destruct Hi2 as [A1 A2 A3 Ho A5 A6 A7 _ A9 A10 A11 A12 A13 A14 A15].
    pose proof (eng_post _ _ _ _ S _ _ _ _ _ A3 ltac:(lia) ltac:(lia) Hinf2 Hpost) as He.
    split; try done; simpl; [destruct (rv <? 0); lia|]. right. exists S. split; [destruct (rv <? 0); lia|done]. }
  assert (Ha3 : adv s (s2 <| s_hw := h' |>)).
  { eapply adv_trans; [exact Ha1|]. eapply adv_trans; [exact Ha2|].
    destruct (adv_refl s2) as [B1 B2 B3 B4 B5 B6 B7 B8]. by split. }
  assert (Hpord : P <= S) by apply (qi_order _ _ _ _ _ Hi).
  destruct (rv <? 0) eqn:Hrv.
  - exists false, (s2 <| s_hw := h' |>), P, C. split; [done|]. split; [lia|]. split; [lia|]. split; [done|].
    split; [done|]. split; [done|]. unfold work_left. simpl. rewrite Hq2, Hh2. repeat (split; [done|]).
    intros Hdb. specialize (Hdb (qc_qidx (dq_conf (s_q s2))) (qc_q_type (dq_conf (s_q s2)))
      (dq_pidx_info (s_q s2)) (s_hw s2)). rewrite Hpost in Hdb. simpl in Hdb. lia.
  - destruct (poll_inv _ _ _ _ Hi3) as (rv' & s4 & P' & C' & Hrun & HP & HC & Hi4 & Hpo).
    exists true, s4, P', C'. erewrite qm_bind_eq by exact Hrun. split; [done|]. split; [lia|]. split; [lia|].
    split; [done|]. split; [eapply adv_trans; [exact Ha3|apply Hpo]|]. split.
    + intros _ _. pose proof (qi_order _ _ _ _ _ Hi4). lia.
    + rewrite (polled_work_left _ _ _ _ _ Hi3 Hpo), (po_work _ _ Hpo), (po_mm _ _ Hpo), (po_h2c _ _ Hpo).
      unfold work_left. simpl. by rewrite Hq2, Hh2.
Qed.
End loop.
