(* ===== verification/DescqMm.v ===== *)
(** * Memory mapped queues: descq_mm_proc_request

    The function returns, keeps the invariant, posts what it has written and
    stops only when no request waits or the ring is full. *)

From S2P Require Import Prelude Platform SoftAccess QueueTypes DescRing Descq.
From S2P Require Import DescqProc DescqFill DescqInv DescqCmpl DescqLoop.

(** Every descriptor of a list with a positive length moves at least a byte. *)
Lemma descs_le_bytes c2h ds : Forall (λ d, 0 < desc_len d) ds → (length ds <= length (host_bytes c2h ds))%nat.
Proof.
  unfold host_bytes. induction 1 as [|d ds Hd _ IH]; [done|].
  rewrite bind_cons, length_app, length_seqZ. simpl. lia.
Qed.

Section mm.
Context {H : Type} `{DescEngine H}.
Implicit Types s : qst H.
Variable fp_bypass_desc_fill : bool → Z → Z → qm H Z.

Lemma mm_req_ok_cb c rq cb : mm_req_ok c rq → mm_req_ok c (rq <| rq_cb := cb |>).
Proof. intros []. by split. Qed.

Notation R := mm_req_ok.

(** The invariant of a memory mapped queue. *)
Definition mm_inv s (S P C : Z) : Prop :=
  qinv R s S P C ∧ mm_conf_ok (dq_conf (s_q s)) ∧ is_ul_ext (s_q s) = false ∧
  length (dq_mm_desc (s_q s)) = Z.to_nat (qc_rngsz (dq_conf (s_q s))).

(** What one round writes satisfies the accounting of [round_inv]. *)
Lemma mm_round_ok s S P C r rs rq k so v i :
  mm_inv s S P C → dq_work_list (s_q s) = r :: rs → s_reqs s !! r = Some rq → R (dq_conf (s_q s)) rq →
  rq_partial rq → 0 < dq_avail (s_q s) → qdma_sgl_find_offset rq = (Z.of_nat k, Z.of_nat k, so) →
  mm_fill (s_q s) rq (dq_avail (s_q s)) (dq_pidx (s_q s)) (Z.of_nat k) so = (v, i) →
  round_ok s r rs rq (v_cnt v) (v_data v) ∧ (∃ e, v_end v = Some e) ∧
  v_pidx v = (dq_pidx (s_q s) + v_cnt v) mod qc_rngsz (dq_conf (s_q s)) ∧
  length (v_ring v) = length (dq_mm_desc (s_q s)) ∧
  (cb_offset (rq_cb rq) + v_data v = rq_count rq ∨ v_cnt v = dq_avail (s_q s)).
Proof.
  intros (Hi & Hco & _ & _) Hw Hrq HR [Hnr Hoff] Hav Hfo Hfill.
  assert (Hwt : rq_waiting rq) by (unfold rq_waiting; lia).
  assert (Hp : ring_idx (qc_rngsz (dq_conf (s_q s))) (dq_pidx (s_q s))).
  { rewrite (qi_pidx _ _ _ _ _ Hi). apply ring_mod_idx. by eapply qinv_ring. }
  destruct (mm_fill_spec (s_q s) rq (dq_avail (s_q s)) (dq_pidx (s_q s)) k so v i)
    as (sent & rest & ds & Hbs & Hwr & Hne & Hcm & Hfin & Hpos & Hlen); try done.
  { pose proof (qi_avail _ _ _ _ _ Hi). pose proof (qi_order _ _ _ _ _ Hi). pose proof (qi_ring _ _ _ _ _ Hi). lia. }
  destruct Hwr as [Wr Wp Wc Wd Wh We _ Wend]. simpl in *. rewrite Z.add_0_l in *.
  pose proof (ro_count _ _ HR) as Hcnt. unfold sgl_len in Hcnt.
  assert (Hlb : Z.of_nat (length sent) + Z.of_nat (length rest) = rq_count rq - cb_offset (rq_cb rq)).
  { apply (f_equal length) in Hbs. rewrite length_drop, length_app in Hbs. lia. }
  assert (Hc0 : 0 < v_cnt v) by (destruct ds; [done|]; simpl in Wc; lia).
  split; [|split; [|split; [|split]]].
  - split; try done; try lia.
    destruct (decide (rq_count rq = 0)) as [Hz|].
    + right. split; [done|]. destruct (ro_shape _ _ HR) as [[Hn Hp0]|(sg & Hsg & _)].
      * exfalso. destruct (rq_sgl rq) as [|sg sgl]; [done|]. apply Forall_cons in Hp0 as [? _].
        rewrite sgl_bytes_cons, length_app, length_seqZ in Hcnt. lia.
      * rewrite Hsg in Hlen. simpl in Hlen. lia.
    + left. rewrite Wc, Wd, <- Wh. 
      pose proof (descs_le_bytes (qc_q_type (dq_conf (s_q s)) =? Q_C2H) ds (Hpos ltac:(lia))). lia.
  - destruct ds; [done|]. by eexists.
  - by rewrite Wp, Wc.
  - by rewrite Wr, ring_write_length.
  - destruct Hfin as [->|]; [left|by right]. simpl in Hlb. lia.
Qed.

Lemma mm_inv_polled s s' S P C P' C' :
  mm_inv s S P C → polled s s' → qinv R s' S P' C' → mm_inv s' S P' C'.
Proof.
  intros (_ & Hc & Hu & Hl) [Ha _ _ _ Hm _] Hi'. unfold mm_inv, is_ul_ext in *.
  by rewrite (ad_conf _ _ Ha), Hm.
Qed.

Lemma work_left_nonneg s S P C : qinv R s S P C → 0 <= work_left s.
Proof.
  intros [_ _ _ _ _ _ _ _ _ Hw _ _ _ _ _]. unfold work_left. apply sumz_nonneg.
  assert (Forall (λ r, 0 <= req_left (s_reqs s) r) (dq_work_list (s_q s))) as Hall.
  { destruct (dq_work_list (s_q s)) as [|r rs]; [done|]. destruct Hw as [(rq & Hrq & _ & Hc & Hn & Ho) Hf].
    constructor; [unfold req_left; rewrite Hrq; lia|]. eapply Forall_impl; [exact Hf|].
    intros r' (rq' & Hrq' & _ & ? & ? & ?). unfold req_left. rewrite Hrq'. lia. }
  by rewrite Forall_fmap.
Qed.

(** ** The loop *)

(** With fuel for the bytes to transfer the loop returns; it has written
    [S' - S] descriptors and stops when no request waits or no descriptor is
    free. *)
Lemma mm_while_inv fuel : ∀ s S P C w,
  mm_inv s S P C → work_left s < Z.of_nat fuel → 0 <= w → w + work_left s < 2 ^ 32 →
  ∃ w' s' S' P' C', mm_while fp_bypass_desc_fill fuel (dq_pidx (s_q s)) w s = Some (w', s') ∧
    S <= S' ∧ P <= P' ∧ C <= C' ∧ mm_inv s' S' P' C' ∧ adv s s' ∧ w' = w + (S' - S) ∧
    work_left s' + (S' - S) <= work_left s ∧ (dq_work_list (s_q s') = [] ∨ dq_avail (s_q s') = 0).
Proof.
  induction fuel as [|fuel IH]; intros s S P C w Hm Hfuel Hw0 Hw32; [exfalso|].
  { pose proof (work_left_nonneg s S P C (proj1 Hm)). lia. }
  cbn [mm_while]. erewrite qm_bind_eq by done.
  destruct (dq_work_list (s_q s)) as [|r rs] eqn:Hwl.
  { exists w, s, S, P, C. split; [done|]. repeat (split; [done || lia|]). split; [apply adv_refl|].
    split; [lia|]. split; [lia|by left]. }
  pose proof Hm as (Hi & Hco & Hul & Hlen).
  destruct (desc_max_inv R mm_req_ok_cb _ _ _ _ Hi) as (s1 & P1 & C1 & Hdm & HP1 & HC1 & Hi1 & Hpo).
  destruct (polled_first R _ _ _ _ _ _ _ Hi Hpo Hwl) as (Hwl1 & rq & Hrq & Hrq1 & HR & Hpart & Hcnt).
  erewrite qm_bind_eq by (unfold getreq; by rewrite Hrq).
  erewrite qm_bind_eq by exact Hdm.
  assert (Hm1 : mm_inv s1 S P1 C1) by (by eapply mm_inv_polled).
  pose proof (polled_work_left R _ _ _ _ _ Hi Hpo) as Hleft.
  destruct (dq_avail (s_q s1) =? 0) eqn:Hav.
  { exists w, s1, S, P1, C1. split; [done|]. repeat (split; [done || lia|]). split; [apply Hpo|].
    split; [lia|]. split; [lia|right; lia]. }
  rewrite Hul.
  assert (Hwt : rq_waiting rq) by (destruct Hpart as [Hn Ho]; unfold rq_waiting; lia).
  destruct (sgl_find_offset_spec _ _ HR Hwt) as (k & so & Hfo & _).
  rewrite Hfo. cbv beta iota. rewrite (proj2 (Z.ltb_ge (Z.of_nat k) 0)) by lia.
  erewrite qm_bind_eq by done. rewrite <- (po_pidx _ _ Hpo).
  destruct (mm_fill (s_q s1) rq _ _ _ _) as [v i] eqn:Hfill.
  assert (Hav1 : 0 < dq_avail (s_q s1)).
  { pose proof (qi_avail _ _ _ _ _ Hi1). pose proof (qi_order _ _ _ _ _ Hi1). lia. }
  destruct (mm_round_ok s1 S P1 C1 r rs rq k so v i) as (Hk & (e & He) & Hpx & Hrl & _); try done.
  rewrite He. erewrite qm_bind_eq by done.
  match goal with |- ∃ _ _ _ _ _, (_ ≫= _) ?st = _ ∧ _ => set (s2 := st) end.
  assert (Hi2 : qinv R s2 S P1 C1) by (destruct Hi1; by split).
  assert (Hk2 : round_ok s2 r rs rq (v_cnt v) (v_data v)) by (destruct Hk; by split).
  erewrite qm_bind_eq by (by apply (round_run R s2 S P1 C1)).
  erewrite qm_bind_eq by done.
  match goal with |- ∃ _ _ _ _ _, mm_while _ _ _ _ ?st = _ ∧ _ => set (s3 := st) end.
  assert (Hr3 : qinv R s3 (S + v_cnt v) P1 C1 ∧ adv s2 s3 ∧ work_left s3 + v_cnt v <= work_left s2)
    by exact (round_inv R mm_req_ok_cb s2 S P1 C1 r rs rq _ _ Hi2 Hk2 _ _ _ Hpx).
  destruct Hr3 as (Hi3 & Ha3 & Hl3).
  assert (Hl2 : work_left s2 = work_left s1) by done.
  assert (Ha2 : adv s1 s2) by (destruct (adv_refl s1); by split).
  assert (Hc3 : dq_conf (s_q s3) = dq_conf (s_q s)).
  { by rewrite (ad_conf _ _ Ha3), (ad_conf _ _ Ha2), (ad_conf _ _ (po_adv _ _ Hpo)). }
  assert (Hmm3 : dq_mm_desc (s_q s3) = dq_mm_desc (s_q s2)).
  { unfold s3, round_mid. simpl. by case_match. }
  assert (Hm3 : mm_inv s3 (S + v_cnt v) P1 C1).
  { split; [done|]. unfold is_ul_ext in *. rewrite Hc3. split; [done|]. split; [done|].
    rewrite Hmm3. unfold s2. simpl. unfold set_flag. rewrite !length_alter, Hrl, (po_mm _ _ Hpo). done. }
  destruct Hk as [_ _ Hkc _ _]. rewrite u32_small by (pose proof (work_left_nonneg s3 _ _ _ Hi3); lia).
  assert (v_pidx v = dq_pidx (s_q s3)) as -> by done.
  destruct (IH s3 _ _ _ (w + v_cnt v) Hm3) as (w' & s' & S' & P' & C' & Hrun & HS & HP & HC & Hm' & Ha' & Hw' & Hlf' & Hend);
    try lia.
  exists w', s', S', P', C'. split; [exact Hrun|]. repeat (split; [done || lia|]).
  split; [|split; [lia|split; [lia|done]]].
  eapply adv_trans; [apply Hpo|]. eapply adv_trans; [exact Ha2|]. by eapply adv_trans.
Qed.

(** ** The whole function *)

(** The queue accepts work. *)
Definition ready s : Prop :=
  dq_q_stop_wait (s_q s) = false ∧ dq_q_state (s_q s) = Q_STATE_ONLINE ∧
  dq_proc_req_running (s_q s) = false.

Lemma mm_inv_q s q S P C :
  mm_inv s S P C →
  (dq_conf q = dq_conf (s_q s) ∧ dq_pidx q = dq_pidx (s_q s) ∧ dq_cidx q = dq_cidx (s_q s) ∧
   dq_avail q = dq_avail (s_q s) ∧ dq_pidx_info q = dq_pidx_info (s_q s) ∧
   dq_pend_list q = dq_pend_list (s_q s) ∧ dq_work_list q = dq_work_list (s_q s) ∧
   dq_credit q = dq_credit (s_q s) ∧ dq_work_req_pend q = dq_work_req_pend (s_q s) ∧
   dq_mm_desc q = dq_mm_desc (s_q s)) → mm_inv (s <| s_q := q |>) S P C.
Proof using.
  intros (Hi & Hc & Hu & Hl) (E1 & E2 & E3 & E4 & E5 & E6 & E7 & E8 & E9 & E10).
  unfold mm_inv, is_ul_ext, is_st_c2h in *. simpl. rewrite E1, E10. split; [|done].
  destruct Hi as [A1 A2 A3 A4 A5 A6 A7 A8 A9 A10 A11 A12 A13 A14 A15]. unfold is_st_c2h in *.
  assert (Hhr : ∀ P0 r, has_req R s P0 r → has_req R (s <| s_q := q |>) P0 r).
  { intros P0 r. by apply has_req_ext. }
  split; simpl; rewrite ?E1, ?E2, ?E3, ?E4, ?E5, ?E6, ?E7, ?E8, ?E9; try done.
  - unfold is_st_c2h. by rewrite E1.
  - eapply Forall_impl; [exact A9|]. apply Hhr.
  - destruct (dq_work_list (s_q s)); [done|]. destruct A10 as [? Hf]. split; [by apply Hhr|].
    eapply Forall_impl; [exact Hf|]. apply Hhr.
Qed.

(** The status read at the start of the call reports everything written. *)
Definition caught_up s : Prop :=
  match descq_poll_mm_n_h2c_cmpl_status (s <| s_q := s_q s <| dq_lock := true |> |>) with
  | Some (_, s') => dq_cidx (s_q s') = dq_pidx (s_q s')
  | None => False
  end.

(** The invariant determines the completed count. *)
Lemma qinv_caught_up s S P C : qinv R s S P C → dq_cidx (s_q s) = dq_pidx (s_q s) → C = S.
Proof using.
  intros Hi. destruct Hi as [Hr _ _ Ho Hp Hc _ _ _ _ _ _ _ _ _]. rewrite Hp, Hc. intros Heq.
  assert ((S - C) mod qc_rngsz (dq_conf (s_q s)) = 0) as Hz.
  { rewrite Zminus_mod, Heq, Z.sub_diag. apply Zmod_0_l. }
  rewrite Z.mod_small in Hz; lia.
Qed.

(** The outcome of a call on the counters: the lock is free again, the line is
    kept, and when the call was accepted and the doorbell worked, everything
    written is posted and no request waits unless the ring was full. *)
Record mm_outcome (s : qst H) (S P C : Z) (rv : Z) (s' : qst H) (S' P' C' : Z) : Prop := {
  mo_inv : mm_inv s' S' P' C';
  mo_mono : S <= S' ∧ P <= P' ∧ C <= C';
  mo_adv : adv s s';
  mo_left : work_left s' + (S' - S) <= work_left s;
  mo_rv : (rv = 0 ∨ rv = - EINVAL) ∧ (doorbell_works H → rv = 0);
  mo_post : doorbell_works H → P = S → P' = S';
  mo_done : ready s → rv = 0 → (P = S → P' = S') ∧ (caught_up s → S <= C') ∧
    (dq_work_list (s_q s') = [] ∨
     ∃ C1, C <= C1 <= C' ∧ S' - C1 = qc_rngsz (dq_conf (s_q s)) - 1 ∧ (caught_up s → S <= C1));
  mo_ready : ready s → rv = 0 → ready s';
}.

Lemma proc_guard_inv s S P C :
  mm_inv s S P C →
  ∃ b s' P' C', descq_proc_guard true s = Some (b, s') ∧ P <= P' ∧ C <= C' ∧ mm_inv s' S P' C' ∧ polled s s' ∧
    (ready s → b = false ∧ s' = s) ∧ (b = false → ready s).
Proof.
  intros Hm. pose proof Hm as (Hi & _). unfold descq_proc_guard, ready. erewrite qm_bind_eq by done.
  destruct (dq_q_stop_wait (s_q s)).
  - destruct (cmpl_status_inv R mm_req_ok_cb _ _ _ _ Hi) as (s' & P' & C' & Hrun & HP & HC & Hi' & Hpr).
    erewrite qm_bind_eq by exact Hrun. exists true, s', P', C'. apply progress_polled in Hpr.
    split; [done|]. split; [done|]. split; [done|]. split; [by eapply mm_inv_polled|]. split; [done|].
    split; [|done]. intros (? & _). done.
  - destruct (bool_decide (dq_q_state (s_q s) = Q_STATE_ONLINE)) eqn:Hon; simpl.
    + apply bool_decide_eq_true in Hon. exists (dq_proc_req_running (s_q s)), s, P, C.
      split; [done|]. split; [lia|]. split; [lia|]. split; [done|]. split; [apply polled_refl|].
      split; [intros (_ & _ & ->); done|]. done.
    + apply bool_decide_eq_false in Hon. exists true, s, P, C.
      split; [done|]. split; [lia|]. split; [lia|]. split; [done|]. split; [apply polled_refl|].
      split; [intros (_ & ? & _); done|done].
Qed.

(** The state with the lock held, before it is released. *)
Definition locked s : qst H := s <| s_q := s_q s <| dq_lock := true |> |>.

Record ran (s : qst H) (S P C : Z) (s' : qst H) (S' P' C' : Z) : Prop := {
  rn_inv : mm_inv s' S' P' C';
  rn_mono : S <= S' ∧ P <= P' ∧ C <= C';
  rn_adv : adv (locked s) s';
  rn_left : work_left s' + (S' - S) <= work_left s;
}.

(** The function clears or keeps its running flag, releases the lock and may
    wake the completion thread. *)
Lemma ran_outcome s S P C s' S' P' C' b evs rv :
  ran s S P C s' S' P' C' → dq_lock (s_q s) = false → evs = [] ∨ evs = [EvThread] →
  (rv = 0 ∨ rv = - EINVAL) ∧ (doorbell_works H → rv = 0) →
  (doorbell_works H → P = S → P' = S') →
  (ready s → rv = 0 → b = false ∧ (P = S → P' = S') ∧ (caught_up s → S <= C') ∧
     (dq_work_list (s_q s') = [] ∨
      ∃ C1, C <= C1 <= C' ∧ S' - C1 = qc_rngsz (dq_conf (s_q s)) - 1 ∧ (caught_up s → S <= C1))) →
  mm_outcome s S P C rv
    (s' <| s_q := s_q s' <| dq_proc_req_running := b |> <| dq_lock := false |> |> <| s_ev := s_ev s' ++ evs |>)
    S' P' C'.
Proof.
  intros [Hm Hmono Ha Hleft] Hl Hevs Hrv Hdb Hd.
  assert (Hev : completed evs = [] ∧ ∀ r n e, EvDone r n e ∉ evs).
  { destruct Hevs as [->| ->]; (split; [done|]); intros ???; set_solver. }
  destruct Hev as [Hev1 Hev2]. split; try done.
  - apply (mm_inv_q _ (s_q s' <| dq_proc_req_running := b |> <| dq_lock := false |>)) in Hm; [|done].
    destruct Hm as (Hi7 & ?). split; [destruct Hi7; by split|done].
  - eapply adv_trans.
    { exact (adv_locked s s' (s_q s' <| dq_proc_req_running := b |> <| dq_lock := false |>) true
        Ha (eq_sym Hl) eq_refl eq_refl eq_refl eq_refl eq_refl). }
    match goal with |- adv ?x _ => destruct (adv_refl x) as [A1 A2 A3 A4 A5 A6 A7 A8] end.
    split; try done.
    + unfold line. simpl. by rewrite completed_app, Hev1, app_nil_r.
    + exists evs. split; [done|]. intros r n e Hin. by apply Hev2 in Hin.
  - intros Hr ->. destruct (Hd Hr eq_refl) as [_ Hd']. exact Hd'.
  - intros Hr ->. destruct (Hd Hr eq_refl) as [-> _], Hr as (Hs & Ho & _). unfold ready. simpl.
    by rewrite (ad_stop _ _ Ha), (ad_state _ _ Ha).
Qed.

Lemma unlock_same s : dq_lock (s_q s) = true →
  unlock_descq s = Some (tt, s <| s_q := s_q s <| dq_proc_req_running := dq_proc_req_running (s_q s) |>
                                           <| dq_lock := false |> |> <| s_ev := s_ev s ++ [] |>).
Proof using.
  intros Hl. rewrite unlock_run by done. destruct s as [q ? ? ? ev]. simpl. rewrite app_nil_r. by destruct q.
Qed.

(** The part between taking and releasing the lock, for a call that is not
    turned away. *)
Lemma mm_proc_body s S P C fuel :
  mm_inv (locked s) S P C → work_left s < Z.of_nat fuel → work_left s < 2 ^ 32 →
  ∃ rv3 s3 w s4 ok s5 S' P' C', descq_poll_mm_n_h2c_cmpl_status (locked s) = Some (rv3, s3) ∧
    mm_while fp_bypass_desc_fill fuel (dq_pidx (s_q (locked s))) 0 s3 = Some (w, s4) ∧
    descq_post w false s4 = Some (ok, s5) ∧ ran s S P C s5 S' P' C' ∧ (doorbell_works H → ok = true) ∧
    (ok = true → (P = S → P' = S') ∧ (caught_up s → S <= C') ∧
       (dq_work_list (s_q s5) = [] ∨
        ∃ C1, C <= C1 <= C' ∧ S' - C1 = qc_rngsz (dq_conf (s_q s)) - 1 ∧ (caught_up s → S <= C1))).
Proof.
  intros Hm Hfuel H32. pose proof Hm as (Hi & _).
  destruct (poll_inv R mm_req_ok_cb _ _ _ _ Hi) as (rv & s3 & P3 & C3 & Hpoll & HP3 & HC3 & Hi3 & Hpo3).
  assert (Hm3 : mm_inv s3 S P3 C3) by (by eapply mm_inv_polled).
  assert (Hl3 : work_left s3 = work_left s) by (by rewrite (polled_work_left R _ _ _ _ _ Hi Hpo3)).
  assert (Hcu : caught_up s → S <= C3).
  { unfold caught_up. fold (locked s). rewrite Hpoll. intros Hc. by rewrite (qinv_caught_up _ _ _ _ Hi3 Hc). }
  destruct (mm_while_inv fuel s3 S P3 C3 0 Hm3)
    as (w & s4 & S4 & P4 & C4 & Hwh & HS4 & HP4 & HC4 & Hm4 & Ha4 & Hw & Hlf4 & Hend); try lia.
  pose proof Hm4 as (Hi4 & Hco4 & Hul4 & Hlen4).
  destruct (descq_post_inv R mm_req_ok_cb _ _ _ _ w false Hi4) as
    (ok & s5 & P5 & C5 & Hpost & HP5 & HC5 & Hi5 & Ha5 & Hok & Hwl5 & Hmm5 & _ & Hlf5 & Hdb).
  exists rv, s3, w, s4, ok, s5, S4, P5, C5. rewrite <- (po_pidx _ _ Hpo3).
  split; [done|]. split; [done|]. split; [done|]. split.
  { split; [|lia| |lia].
    - split; [done|]. unfold is_ul_ext in *. by rewrite Hmm5, (ad_conf _ _ Ha5).
    - eapply adv_trans; [apply Hpo3|]. by eapply adv_trans. }
  split; [done|]. intros ->. pose proof (qi_order _ _ _ _ _ Hi4).
  split; [intros ->; apply Hok; [done|lia]|]. split; [intros Hc%Hcu; lia|].
  destruct Hend as [He|He]; [left; by rewrite Hwl5|right]. exists C4. split; [lia|].
  rewrite (qi_avail _ _ _ _ _ Hi4), (ad_conf _ _ Ha4), (ad_conf _ _ (po_adv _ _ Hpo3)) in He.
  unfold locked in He. simpl in He. split; [lia|]. intros Hc%Hcu. lia.
Qed.

Lemma descq_mm_proc_request_run s S P C fuel :
  mm_inv s S P C → dq_lock (s_q s) = false → work_left s < Z.of_nat fuel → work_left s < 2 ^ 32 →
  ∃ rv s' S' P' C', descq_mm_proc_request fp_bypass_desc_fill fuel s = Some (rv, s') ∧
                    mm_outcome s S P C rv s' S' P' C'.
Proof.
  intros Hm Hlock Hfuel H32. unfold descq_mm_proc_request.
  erewrite qm_bind_eq by (by apply lock_run). fold (locked s).
  assert (Hm1 : mm_inv (locked s) S P C) by (by apply mm_inv_q).
  destruct (proc_guard_inv _ _ _ _ Hm1) as (b & s2 & P2 & C2 & Hg & HP2 & HC2 & Hm2 & Hpo & Hrd & Hb).
  erewrite qm_bind_eq by exact Hg. destruct b.
  { erewrite qm_bind_eq by (apply unlock_same; by rewrite (ad_lock _ _ (po_adv _ _ Hpo))).
    eexists 0, _, S, P2, C2. split; [done|]. pose proof (qi_order _ _ _ _ _ (proj1 Hm2)).
    apply ran_outcome; try done; [|by left|by split; [left|]|lia|].
    - split; [done|lia|apply Hpo|].
      assert (work_left s2 = work_left (locked s)) as -> by (eapply polled_work_left; [apply Hm1|done]).
      unfold work_left, locked. simpl. lia.
    - intros Hr. by destruct (Hrd Hr). }
  destruct (Hrd (Hb eq_refl)) as [_ ->]. clear Hrd Hpo Hg.
  destruct (mm_proc_body s S P C fuel Hm1 Hfuel H32)
    as (rv3 & s3 & w & s4 & ok & s5 & S' & P' & C' & Hpoll & Hwh & Hpost & Hran & Hdb & Hok).
  erewrite qm_bind_eq by done. erewrite qm_bind_eq by exact Hpoll. erewrite qm_bind_eq by exact Hwh.
  erewrite qm_bind_eq by exact Hpost.
  assert (Hlk5 : dq_lock (s_q s5) = true) by (by rewrite (ad_lock _ _ (rn_adv _ _ _ _ _ _ _ _ Hran))).
  destruct ok; cbn [negb].
  - erewrite qm_bind_eq by done. erewrite qm_bind_eq by (by apply unlock_run). erewrite qm_bind_eq by done.
    match goal with |- ∃ _ _ _ _ _, (_ ≫= _) ?st = _ ∧ _ => set (s7 := st) end.
    assert (Hout : ∀ evs, evs = [] ∨ evs = [EvThread] →
      mm_outcome s S P C 0 (s7 <| s_ev := s_ev s7 ++ evs |>) S' P' C').
    { intros evs Hevs. apply (ran_outcome s S P C s5 S' P' C' false evs 0); try done; [by split; [left|]|by intros _; apply Hok|].
      intros _ _. split; [done|]. by apply Hok. }
    exists 0. destruct (nz w && dq_cmplthp (s_q s7)).
    + eexists _, S', P', C'. split; [done|]. apply Hout. by right.
    + exists s7, S', P', C'. split; [done|]. specialize (Hout [] (or_introl eq_refl)).
      by rewrite app_nil_r in Hout.
  - erewrite qm_bind_eq by (by apply unlock_same). eexists (- EINVAL), _, S', P', C'. split; [done|].
    apply ran_outcome; try done; [by left| |].
    + split; [by right|]. intros Hd. discriminate (Hdb Hd).
    + intros Hd. discriminate (Hdb Hd).
Qed.
End mm.
