(* ===== verification/DescqSubmit.v ===== *)
(** * Submission of requests (libqdma_export.c, qdma_descq.c)

    qdma_request_submit, qdma_batch_request_submit, qdma_queue_packet_write and
    the wait for completion, for the queues whose requests go through the work
    list.  The argument checks that need the device table (handles and queue
    ids) are left to the caller.  A call that blocks is split at the wait:
    [SubmitWait] says that the caller sleeps until the request is done or its
    time-out expires, [qdma_request_wait_for_cmpl] is what it does then. *)

From S2P Require Import Prelude Platform SoftAccess QueueTypes DescRing Descq DescqProc.

(** [memset(cb, 0, QDMA_REQ_OPAQUE_SIZE)] *)
Definition cb_zero : qdma_sgt_req_cb := mk_qdma_sgt_req_cb 0 0 0 None 0 0 0 false false.

Inductive submit_return := SubmitRet (rv : Z) | SubmitWait.

Section submit.
Context {H : Type} `{QueueHw H}.
Variable fp_bypass_desc_fill : bool → Z → Z → qm H Z.

(** [pci_map_page] of the first PAGE_SIZE bytes of a page and
    [pci_dma_mapping_error] *)
Variable pci_map_page : Z → Z.
Variable pci_dma_mapping_error : Z → bool.

(** [qdma_request_submit_st_c2h], which has its own data path. *)
Variable submit_st_c2h : Z → qm H submit_return.

(** [sgl_map]; [pre] are the entries mapped so far. *)
Fixpoint sgl_map (pre sgl : list qdma_sw_sg) : Z * list qdma_sw_sg :=
  match sgl with
  | [] => (0, pre)
  | sg :: sgl =>
      let dma_addr := pci_map_page (sg_pg sg) in
      if pci_dma_mapping_error dma_addr then
        (- EIO, sgl_unmap pre ++ sg <| sg_dma_addr := dma_addr |> :: sgl)
      else sgl_map (pre ++ [sg <| sg_dma_addr := u64 (dma_addr + sg_offset sg) |>]) sgl
  end.

(** [sgl_map] on the list of a request; [unmap_needed] is set on success. *)
Definition req_sgl_map (r : Z) : qm H Z :=
  req ← getreq r;
  let '(rv, sgl) := sgl_map [] (rq_sgl req) in
  putreq r (req <| rq_sgl := sgl |>);;
  qwhen (negb (rv <? 0)) (modcb r (λ cb, cb <| cb_unmap_needed := true |>));;
  mret rv.

Definition req_sgl_unmap (r : Z) : qm H unit :=
  req ← getreq r; putreq r (req <| rq_sgl := sgl_unmap (rq_sgl req) |>).

(** The direction of the request does not fit the queue. *)
Definition bad_direction (q : qdma_descq) (req : qdma_request) : bool :=
  (rq_write req && negb (qc_q_type (dq_conf q) =? Q_H2C)) ||
  (negb (rq_write req) && negb (qc_q_type (dq_conf q) =? Q_C2H)).

Definition submit_fail (r rv : Z) : qm H submit_return :=
  req ← getreq r; qwhen (negb (rq_dma_mapped req)) (req_sgl_unmap r);; mret (SubmitRet rv).

Definition qdma_request_submit (fuel : nat) (r : Z) : qm H submit_return :=
  req ← getreq r;
  q ← getq;
  if qc_q_type (dq_conf q) =? Q_CMPT then mret (SubmitRet (- EINVAL))
  else if bad_direction q req then mret (SubmitRet (- EINVAL))
  else
    putreq r (req <| rq_cb := cb_zero |>);;
    if is_st_c2h q then submit_st_c2h r
    else
      rv ← (if rq_dma_mapped req then mret 0 else req_sgl_map r);
      if rv <? 0 then submit_fail r rv
      else
        lock_descq;;
        q ← getq;
        if negb (bool_decide (dq_q_state q = Q_STATE_ONLINE)) then
          unlock_descq;; submit_fail r (- EINVAL)
        else
          qdma_work_queue_add r;;
          unlock_descq;;
          qdma_descq_proc_sgt_request fp_bypass_desc_fill fuel;;
          mret (if rq_fp_done req then SubmitRet 0 else SubmitWait).

(** After the wait: a request that is not done is taken off its list. *)
Definition qdma_request_wait_for_cmpl (r : Z) : qm H Z :=
  lock_descq;;
  req ← getreq r;
  let cb := rq_cb req in
  qwhen (negb (cb_done cb)) (cb_list_del r);;
  unlock_descq;;
  mret (if negb (cb_done cb) || nz (cb_status cb) then - EIO else 0).

(** The end of [qdma_request_submit] after the wait: the number of bytes. *)
Definition qdma_request_submit_waited (r : Z) : qm H submit_return :=
  rv ← qdma_request_wait_for_cmpl r;
  if rv <? 0 then submit_fail r rv
  else req ← getreq r; mret (SubmitRet (cb_offset (rq_cb req))).

(** ** Batches *)

(** Mapping of the requests of a batch. *)
Fixpoint batch_map (rs : list Z) : qm H unit :=
  match rs with
  | [] => mret tt
  | r :: rs =>
      req ← getreq r;
      putreq r (req <| rq_cb := cb_zero |>);;
      (if rq_dma_mapped req then mret tt
       else
         req ← getreq r;
         let '(rv, sgl) := sgl_map [] (rq_sgl req) in
         putreq r (req <| rq_sgl := sgl |>);;
         qwhen (rv <? 0) (qevent (EvDone r 0 rv));;
         modcb r (λ cb, cb <| cb_unmap_needed := true |>));;
      batch_map rs
  end.

(** [list_add_tail] of every request, without the counter. *)
Fixpoint batch_add (rs : list Z) : qm H unit :=
  match rs with [] => mret tt | r :: rs => work_list_add_tail r;; batch_add rs end.

Fixpoint batch_st_c2h (rs : list Z) : qm H unit :=
  match rs with
  | [] => mret tt
  | r :: rs =>
      req ← getreq r;
      putreq r (req <| rq_cb := cb_zero |>);;
      res ← submit_st_c2h r;
      match res with
      | SubmitRet rv =>
          qwhen ((rv <? 0) || (rv =? rq_count req)) (qevent (EvDone r (u32 rv) rv));; batch_st_c2h rs
      | SubmitWait => qfail
      end
  end.

Definition qdma_batch_request_submit (fuel : nat) (reqv : list Z) : qm H Z :=
  q ← getq;
  if qc_q_type (dq_conf q) =? Q_CMPT then mret (- EINVAL)
  else
    match reqv with
    | [] => qfail
    | r0 :: _ =>
        req ← getreq r0;
        if bad_direction q req then mret (- EINVAL)
        else if negb (rq_fp_done req) then mret (- EINVAL)
        else if is_st_c2h q then batch_st_c2h reqv;; mret 0
        else
          batch_map reqv;;
          lock_descq;;
          q ← getq;
          if negb (bool_decide (dq_q_state q = Q_STATE_ONLINE)) then unlock_descq;; mret (- EINVAL)
          else
            batch_add reqv;;
            unlock_descq;;
            qdma_descq_proc_sgt_request fp_bypass_desc_fill fuel;;
            mret 0
    end.

(** ** Packets *)

Definition qdma_queue_packet_write (fuel : nat) (r : Z) : qm H Z :=
  q ← getq;
  if negb (nz (qc_st (dq_conf q))) || (qc_q_type (dq_conf q) =? Q_C2H) then mret (- EINVAL)
  else
    qdma_work_queue_add r;;
    req ← getreq r;
    rv ← (if rq_dma_mapped req then mret 0 else req_sgl_map r);
    let fail rv :=
      req ← getreq r; qwhen (cb_unmap_needed (rq_cb req)) (req_sgl_unmap r);; mret rv in
    if rv <? 0 then fail rv
    else
      online ← (if rq_check_qstate_disabled req then mret true
                else
                  lock_descq;;
                  q ← getq;
                  unlock_descq;;
                  mret (bool_decide (dq_q_state q = Q_STATE_ONLINE)));
      if negb online then fail (- EINVAL)
      else
        qdma_descq_proc_sgt_request fp_bypass_desc_fill fuel;;
        mret (s32 (rq_count req)).
End submit.
