(* ===== verification/DescqSys.v ===== *)
(** * The memory mapped queue as a transition system

    The states a queue reaches by submitting requests, processing them and
    servicing completions, for every engine that behaves as documented. *)

From S2P Require Import Prelude Platform SoftAccess QueueTypes DescRing Descq.
From S2P Require Import DescqProc DescqFill DescqInv DescqCmpl DescqLoop DescqMm DescqSubmit.
From S2P Require Import DescqCmpl.

Section sys.
Context {H : Type} `{DescEngine H}.
Implicit Types s : qst H.
Variable fp_bypass_desc_fill : bool → Z → Z → qm H Z.
Variable pci_map_page : Z → Z.
Variable pci_dma_mapping_error : Z → bool.
Variable submit_st_c2h : Z → qm H submit_return.

Notation R := mm_req_ok.
Notation submit := (qdma_request_submit fp_bypass_desc_fill pci_map_page pci_dma_mapping_error submit_st_c2h).

(** ** Requests that are on no list *)

Lemma mm_inv_req s S P C r rq :
  mm_inv s S P C → r ∉ dq_pend_list (s_q s) → r ∉ dq_work_list (s_q s) →
  mm_inv (s <| s_reqs := <[r := rq]> (s_reqs s) |>) S P C ∧
  work_left (s <| s_reqs := <[r := rq]> (s_reqs s) |>) = work_left s.
Proof.
  intros (Hi & Hc & Hu & Hl) Hp Hw. split; cycle 1.
  { unfold work_left. simpl. by rewrite map_req_left_insert. }
  split; [|done]. destruct Hi as [A1 A2 A3 A4 A5 A6 A7 A8 A9 A10 A11 A12 A13 A14 A15].
  assert (Hn : ∀ l, r ∉ l → map (req_nr (<[r := rq]> (s_reqs s))) l = map (req_nr (s_reqs s)) l).
  { intros. by apply map_req_nr_insert. }
  assert (Hh : ∀ P0 l, r ∉ l → Forall (has_req R s P0) l →
    Forall (has_req R (s <| s_reqs := <[r := rq]> (s_reqs s) |>) P0) l).
  { intros P0 l Hr. by eapply has_req_insert. }
  split; try done; simpl.
  - by apply Hh.
  - destruct (dq_work_list (s_q s)) as [|r0 rs]; [done|]. destruct A10 as [B1 B2].
    apply not_elem_of_cons in Hw as [Hw1 Hw2]. split; [|by apply Hh].
    assert (Hb : Forall (has_req R s rq_partial) [r0]) by (by constructor).
    apply Hh in Hb; [by apply Forall_cons in Hb as [? _]|]. apply not_elem_of_cons. split; [done|].
    apply not_elem_of_nil.
  - rewrite Hn; [done|]. apply not_elem_of_app. done.
  - destruct (dq_pend_list (s_q s)) as [|r0 l].
    + destruct (dq_work_list (s_q s)) as [|r0 rs]; [done|]. rewrite req_nr_insert, decide_False; [done|].
      intros ->. apply Hw. by left.
    + rewrite req_nr_insert, decide_False; [done|]. intros ->. apply Hp. by left.
Qed.

(** A request the queue can take: on no list, with a transferable scatter list. *)
Definition can_submit s (r : Z) (rq : qdma_request) : Prop :=
  s_reqs s !! r = Some rq ∧ r ∉ dq_pend_list (s_q s) ∧ r ∉ dq_work_list (s_q s) ∧
  (rq_dma_mapped rq = true → R (dq_conf (s_q s)) rq) ∧
  (rq_dma_mapped rq = false → ∀ sgl, sgl_map pci_map_page pci_dma_mapping_error [] (rq_sgl rq) = (0, sgl) →
     R (dq_conf (s_q s)) (rq <| rq_sgl := sgl |>)) ∧
  0 <= rq_count rq < 2 ^ 31 ∧ work_left s + rq_count rq + 1 < 2 ^ 32 ∧
  Z.of_nat (length (dq_work_list (s_q s))) + 1 < 2 ^ 31.

Lemma mm_work_add s S P C r rq :
  mm_inv s S P C → r ∉ dq_pend_list (s_q s) → r ∉ dq_work_list (s_q s) → s_reqs s !! r = Some rq →
  R (dq_conf (s_q s)) rq → rq_fresh rq → 0 <= rq_count rq < 2 ^ 31 →
  Z.of_nat (length (dq_work_list (s_q s))) + 1 < 2 ^ 31 →
  ∃ s', qdma_work_queue_add r s = Some (tt, s') ∧ mm_inv s' S P C ∧
    work_left s' = work_left s + rq_count rq + 1 ∧ line s' = line s ++ [r] ∧ s_reqs s' = s_reqs s ∧
    s_ev s' = s_ev s ∧ s_xdev s' = s_xdev s ∧ dq_lock (s_q s') = dq_lock (s_q s) ∧
    dq_conf (s_q s') = dq_conf (s_q s) ∧ (ready s → ready s').
Proof.
  intros (Hi & Hc & Hu & Hl) Hp Hw Hrq HR [Hf1 Hf2] Hcnt Hlen.
  unfold qdma_work_queue_add, work_list_add_tail, getq, modq, cb_linked, mbind, qm_bind.
  rewrite !bool_decide_eq_false_2 by done. simpl. eexists. split; [done|].
  assert (Hnr : req_nr (s_reqs s) r = 0) by (unfold req_nr; by rewrite Hrq).
  split; [split; [|done]|split; [|split; [|done]]].
  - destruct Hi as [A1 A2 A3 A4 A5 A6 A7 A8 A9 A10 A11 A12 A13 A14 A15].
    split; try done; simpl.
    + destruct (dq_work_list (s_q s)) as [|r0 rs]; simpl.
      * split; [|done]. apply fresh_partial. by exists rq.
      * destruct A10 as [B1 B2]. split; [done|]. apply Forall_app. split; [done|].
        constructor; [|done]. by exists rq.
    + rewrite app_assoc. apply NoDup_app. split; [done|]. split; [|apply NoDup_singleton].
      intros x [?|?]%elem_of_app ->%list_elem_of_singleton; done.
    + rewrite app_assoc, map_app, sumz_app. simpl. rewrite Hnr. lia.
    + destruct (dq_pend_list (s_q s)); [|done]. destruct (dq_work_list (s_q s)); [|done]. simpl in *. lia.
    + rewrite length_app. simpl. rewrite u32_small by lia. lia.
    + rewrite length_app. simpl. lia.
  - unfold work_left. simpl. rewrite map_app, sumz_app. simpl. unfold req_left at 2. rewrite Hrq. lia.
  - unfold line. simpl. by rewrite !app_assoc.
Qed.

(** ** Fuel *)

(** A run that returns does not depend on its fuel. *)
Lemma mm_while_mono f : ∀ f' p w s x, (f <= f')%nat →
  mm_while fp_bypass_desc_fill f p w s = Some x → mm_while fp_bypass_desc_fill f' p w s = Some x.
Proof using.
  induction f as [|f IH]; intros [|f'] p w s x Hle Hrun; [done..|lia|].
  cbn [mm_while] in *. unfold mbind, qm_bind in *. unfold getq in *.
  destruct (dq_work_list (s_q s)) as [|r rs]; [done|].
  destruct (getreq r s) as [[rq s1]|]; [|done].
  destruct (descq_desc_max s1) as [[m s2]|]; [|done].
  destruct (m =? 0); [done|]. destruct (is_ul_ext (s_q s)).
  { destruct (fp_bypass_desc_fill _ _ _ _) as [[n s3]|]; [|done]. apply (IH f'); [lia|done]. }
  destruct (qdma_sgl_find_offset rq) as [[rv sg] so]. destruct (rv <? 0).
  { destruct (qdma_update_request _ _ _ _ _ _) as [[u s3]|]; [|done]. apply (IH f'); [lia|done]. }
  destruct (mm_fill _ _ _ _ _ _) as [v i]. destruct (v_end v) as [e|]; [|done].
  unfold modq in *. destruct (qdma_update_request _ _ _ _ _ _) as [[u s3]|]; [|done].
  apply (IH f'); [lia|done].
Qed.

Lemma descq_mm_proc_request_mono f f' s x : (f <= f')%nat →
  descq_mm_proc_request fp_bypass_desc_fill f s = Some x →
  descq_mm_proc_request fp_bypass_desc_fill f' s = Some x.
Proof using.
  intros Hle. unfold descq_mm_proc_request, mbind, qm_bind.
  destruct (lock_descq s) as [[u s1]|]; [|done].
  destruct (descq_proc_guard true s1) as [[[] s2]|]; [done| |done]. unfold getq.
  destruct (descq_poll_mm_n_h2c_cmpl_status s2) as [[v s3]|]; [|done].
  destruct (mm_while _ f _ _ s3) as [[w s4]|] eqn:Hw; [|done].
  by rewrite (mm_while_mono f f' _ _ _ _ Hle Hw).
Qed.

(** The function returns with some fuel and always with the same result. *)
Lemma descq_mm_proc_request_outcome s S P C fuel rv s' :
  mm_inv s S P C → dq_lock (s_q s) = false → work_left s < 2 ^ 32 →
  descq_mm_proc_request fp_bypass_desc_fill fuel s = Some (rv, s') →
  ∃ S' P' C', mm_outcome s S P C rv s' S' P' C'.
Proof.
  intros Hm Hl Hw Hrun.
  destruct (descq_mm_proc_request_run fp_bypass_desc_fill s S P C (fuel + Z.to_nat (work_left s + 1)))
    as (rv' & s2 & S' & P' & C' & Hrun' & Hout); try done; try lia.
  apply (descq_mm_proc_request_mono _ (fuel + Z.to_nat (work_left s + 1))) in Hrun; [|lia].
  rewrite Hrun' in Hrun. simplify_eq. eauto.
Qed.

(** ** Submission *)

(** The result does not report an error. *)
Definition accepted (res : submit_return) : bool :=
  match res with SubmitRet rv => negb (rv <? 0) | SubmitWait => true end.

(** The line grows by the submitted request, unless an error is reported. *)
Record submitted s (S P C : Z) (r : Z) (res : submit_return) (s' : qst H) : Prop := {
  sb_inv : ∃ S' P' C', mm_inv s' S' P' C' ∧ (doorbell_works H → P = S → P' = S');
  sb_lock : dq_lock (s_q s') = false;
  sb_conf : dq_conf (s_q s') = dq_conf (s_q s);
  sb_left : work_left s' < 2 ^ 32;
  sb_line : line s' = line s ++ (if accepted res then [r] else []);
  sb_ev : ∃ evs, s_ev s' = s_ev s ++ evs ∧ ∀ r' n e, EvDone r' n e ∈ evs →
    e = 0 ∧ ∃ rq, s_reqs s !! r' = Some rq ∧ n = rq_count rq;
  sb_counts : same_counts s s';
}.

(** Only request [r], which is on no list, has changed. *)
Record prepared s (S P C : Z) (r : Z) (rq : qdma_request) (s1 : qst H) (rq1 : qdma_request) : Prop := {
  pp_q : s_q s1 = s_q s;
  pp_ev : s_ev s1 = s_ev s;
  pp_xdev : s_xdev s1 = s_xdev s;
  pp_req : s_reqs s1 !! r = Some rq1;
  pp_count : rq_count rq1 = rq_count rq;
  pp_counts : same_counts s s1;
  pp_inv : mm_inv s1 S P C;
  pp_left : work_left s1 = work_left s;
}.

Lemma prepared_put s S P C r rq s1 rq1 rq2 :
  r ∉ dq_pend_list (s_q s) → r ∉ dq_work_list (s_q s) → s_reqs s !! r = Some rq →
  prepared s S P C r rq s1 rq1 → rq_count rq2 = rq_count rq →
  ∃ s2, putreq r rq2 s1 = Some (tt, s2) ∧ prepared s S P C r rq s2 rq2.
Proof.
  intros Hp Hw Hrq [A1 A2 A3 A4 A5 A6 A7 A8] Hc. eexists. split; [done|].
  destruct (mm_inv_req s1 S P C r rq2) as [Hi Hl]; [done|by rewrite A1..|].
  split; try done.
  - simpl. by rewrite lookup_insert_eq.
  - intros r0. simpl. destruct (decide (r = r0)) as [<-|].
    + rewrite lookup_insert_eq, Hrq. simpl. by rewrite Hc.
    + rewrite lookup_insert_ne by done. apply A6.
  - by rewrite Hl.
Qed.

Lemma prepared_modcb s S P C r rq s1 rq1 f :
  r ∉ dq_pend_list (s_q s) → r ∉ dq_work_list (s_q s) → s_reqs s !! r = Some rq →
  prepared s S P C r rq s1 rq1 →
  ∃ s2, modcb r f s1 = Some (tt, s2) ∧ prepared s S P C r rq s2 (rq1 <| rq_cb := f (rq_cb rq1) |>).
Proof.
  intros Hp Hw Hrq Hpp. unfold modcb.
  erewrite qm_bind_eq by (unfold getreq; by rewrite (pp_req _ _ _ _ _ _ _ _ Hpp)).
  eapply prepared_put; try done. apply Hpp.
Qed.

Lemma prepared_submitted s S P C r rq s1 rq1 rv :
  dq_lock (s_q s) = false → work_left s < 2 ^ 32 → prepared s S P C r rq s1 rq1 → rv < 0 →
  submitted s S P C r (SubmitRet rv) s1.
Proof.
  intros Hl Hw [A1 A2 A3 A4 A5 A6 A7 A8] Hrv. split.
  - eauto.
  - by rewrite A1.
  - by rewrite A1.
  - by rewrite A8.
  - unfold line, accepted. rewrite A1, A2, (proj2 (Z.ltb_lt rv 0)) by done. by rewrite app_nil_r.
  - exists []. rewrite A2, app_nil_r. split; [done|]. by intros ??? ?%elem_of_nil.
  - done.
Qed.

Lemma submit_fail_ok s S P C r rq s1 rq1 rv :
  dq_lock (s_q s) = false → work_left s < 2 ^ 32 → r ∉ dq_pend_list (s_q s) → r ∉ dq_work_list (s_q s) →
  s_reqs s !! r = Some rq → prepared s S P C r rq s1 rq1 → rv < 0 →
  ∃ s2, submit_fail r rv s1 = Some (SubmitRet rv, s2) ∧ submitted s S P C r (SubmitRet rv) s2.
Proof.
  intros Hl Hw Hp1 Hp2 Hrq Hpp Hrv. unfold submit_fail.
  erewrite qm_bind_eq by (unfold getreq; by rewrite (pp_req _ _ _ _ _ _ _ _ Hpp)).
  destruct (rq_dma_mapped rq1).
  - exists s1. split; [done|]. by eapply prepared_submitted.
  - destruct (prepared_put s S P C r rq s1 rq1 (rq1 <| rq_sgl := sgl_unmap (rq_sgl rq1) |>))
      as (s2 & Hrun & Hpp2); try done; [apply Hpp|].
    exists s2. split; [|by eapply prepared_submitted].
    unfold qwhen, req_sgl_unmap. cbn [negb]. rewrite qm_bind_run.
    erewrite qm_bind_eq by (unfold getreq; by rewrite (pp_req _ _ _ _ _ _ _ _ Hpp)). by rewrite Hrun.
Qed.

(** Mapping the scatter list of a prepared request. *)
Lemma req_sgl_map_ok s S P C r rq s1 rq1 :
  r ∉ dq_pend_list (s_q s) → r ∉ dq_work_list (s_q s) → s_reqs s !! r = Some rq →
  prepared s S P C r rq s1 rq1 →
  let m := sgl_map pci_map_page pci_dma_mapping_error [] (rq_sgl rq1) in
  ∃ s2 rq2, req_sgl_map pci_map_page pci_dma_mapping_error r s1 = Some (fst m, s2) ∧
    prepared s S P C r rq s2 rq2 ∧ rq_sgl rq2 = snd m ∧
    rq2 = rq1 <| rq_sgl := snd m |> <| rq_cb := rq_cb rq1 <| cb_unmap_needed :=
      if fst m <? 0 then cb_unmap_needed (rq_cb rq1) else true |> |>.
Proof.
  intros Hp1 Hp2 Hrq Hpp m. unfold req_sgl_map.
  erewrite qm_bind_eq by (unfold getreq; by rewrite (pp_req _ _ _ _ _ _ _ _ Hpp)). fold m.
  destruct m as [rv sgl]. simpl.
  destruct (prepared_put s S P C r rq s1 rq1 (rq1 <| rq_sgl := sgl |>)) as (s2 & Hrun & Hpp2); try done.
  { apply Hpp. }
  erewrite qm_bind_eq by exact Hrun. unfold qwhen. destruct (rv <? 0); cbn [negb].
  - exists s2. eexists. split; [done|]. split; [exact Hpp2|]. by destruct rq1 as [[]].
  - destruct (prepared_modcb s S P C r rq s2 _ (λ cb, cb <| cb_unmap_needed := true |>) Hp1 Hp2 Hrq Hpp2)
      as (s3 & Hrun3 & Hpp3).
    exists s3. eexists. erewrite qm_bind_eq by exact Hrun3. split; [done|]. split; [exact Hpp3|done].
Qed.

Lemma sgl_map_rv pre sgl rv sgl' :
  sgl_map pci_map_page pci_dma_mapping_error pre sgl = (rv, sgl') → rv = 0 ∨ rv = - EIO.
Proof using.
  revert pre. induction sgl as [|sg sgl IH]; intros pre; simpl; [intros [= <- <-]; by left|].
  destruct (pci_dma_mapping_error _); [intros [= <- <-]; by right|apply IH].
Qed.

Lemma prepared_refl s S P C r rq :
  mm_inv s S P C → s_reqs s !! r = Some rq → prepared s S P C r rq s rq.
Proof using. by split. Qed.

Lemma lock_unlock_id s : dq_lock (s_q s) = false →
  s <| s_q := s_q s <| dq_lock := true |> |>
    <| s_q := s_q (s <| s_q := s_q s <| dq_lock := true |> |>) <| dq_lock := false |> |> = s.
Proof using. destruct s as [[] ? ? ? ?]. simpl. by intros ->. Qed.

(** A request that is ready for the work list. *)
Definition submit_enqueue (fuel : nat) (r : Z) (res : submit_return) : qm H submit_return :=
  lock_descq;;
  q ← getq;
  if negb (bool_decide (dq_q_state q = Q_STATE_ONLINE)) then unlock_descq;; submit_fail r (- EINVAL)
  else
    qdma_work_queue_add r;;
    unlock_descq;;
    qdma_descq_proc_sgt_request fp_bypass_desc_fill fuel;;
    mret res.

Lemma submit_enqueue_ok s S P C r rq s1 rq1 fuel res res' s' :
  dq_lock (s_q s) = false → can_submit s r rq → prepared s S P C r rq s1 rq1 →
  R (dq_conf (s_q s)) rq1 → rq_fresh rq1 → accepted res = true →
  submit_enqueue fuel r res s1 = Some (res', s') → submitted s S P C r res' s'.
Proof.
  intros Hl (Hrq & Hp1 & Hp2 & _ & _ & Hc & Hlf & Hln) Hpp HR Hf Hacc Hrun.
  pose proof Hpp as [A1 A2 A3 A4 A5 A6 A7 A8]. unfold submit_enqueue in Hrun.
  assert (Hl1 : dq_lock (s_q s1) = false) by (by rewrite A1).
  erewrite qm_bind_eq in Hrun by (by apply lock_run).
  set (s2 := s1 <| s_q := s_q s1 <| dq_lock := true |> |>) in *.
  erewrite qm_bind_eq in Hrun by done.
  destruct (bool_decide (dq_q_state (s_q s2) = Q_STATE_ONLINE)); cbn [negb] in Hrun; cycle 1.
  { erewrite qm_bind_eq in Hrun by (by apply unlock_run). unfold s2 in Hrun. rewrite lock_unlock_id in Hrun by done.
    destruct (submit_fail_ok s S P C r rq s1 rq1 (- EINVAL)) as (s3 & Hf3 & Hs3); try done; [lia..|].
    rewrite Hf3 in Hrun. by simplify_eq. }
  assert (Hm2 : mm_inv s2 S P C) by (by apply mm_inv_q).
  assert (Hs2 : r ∉ dq_pend_list (s_q s2) ∧ r ∉ dq_work_list (s_q s2) ∧ dq_conf (s_q s2) = dq_conf (s_q s) ∧
    dq_work_list (s_q s2) = dq_work_list (s_q s)) by (unfold s2; simpl; by rewrite A1).
  destruct Hs2 as (Hs2p & Hs2w & Hs2c & Hs2l).
  destruct (mm_work_add s2 S P C r rq1) as (s3 & Hadd & Hm3 & Hl3 & Hln3 & Hr3 & He3 & Hx3 & Hlk3 & Hcf3 & _);
    try done; [by rewrite Hs2c|lia|by rewrite Hs2l|].
  erewrite qm_bind_eq in Hrun by exact Hadd.
  erewrite qm_bind_eq in Hrun by (apply unlock_run; by rewrite Hlk3).
  set (s4 := s3 <| s_q := s_q s3 <| dq_lock := false |> |>) in *.
  assert (Hm4 : mm_inv s4 S P C) by (by apply mm_inv_q).
  assert (Hw4 : work_left s4 < 2 ^ 32).
  { assert (work_left s4 = work_left s3) as -> by done. assert (work_left s2 = work_left s1) by done. lia. }
  rewrite qm_bind_run in Hrun. unfold qdma_descq_proc_sgt_request in Hrun.
  do 2 erewrite qm_bind_eq in Hrun by done.
  assert (Hst : qc_st (dq_conf (s_q s4)) = 0) by apply Hm4. rewrite Hst in Hrun. cbn [nz Z.eqb negb] in Hrun.
  destruct (descq_mm_proc_request fp_bypass_desc_fill fuel s4) as [[rv s5]|] eqn:Hproc; [|done].
  injection Hrun as <- <-.
  destruct (descq_mm_proc_request_outcome s4 S P C fuel rv s5) as (S' & P' & C' & [O1 O2 O3 O4 O5 Opost O6 O7]);
    try done.
  assert (Hln4 : line s4 = line s ++ [r]).
  { assert (line s4 = line s3) as -> by done. rewrite Hln3. unfold line, s2. simpl. by rewrite A1, A2. }
  assert (Hr4 : s_reqs s4 = s_reqs s1) by (unfold s4; simpl; by rewrite Hr3).
  assert (Hc4 : same_counts s s4) by (intros r0; rewrite Hr4; apply A6).
  split.
  - eauto.
  - by rewrite (ad_lock _ _ O3).
  - rewrite (ad_conf _ _ O3). unfold s4. simpl.
    by rewrite Hcf3.
  - lia.
  - by rewrite (ad_line _ _ O3), Hacc.
  - destruct (ad_ev _ _ O3) as (evs & He & Hd). exists evs.
    split. { rewrite He. unfold s4. simpl. rewrite He3. unfold s2. simpl. by rewrite A2. }
    intros r0 n e Hin. destruct (Hd _ _ _ Hin) as (-> & rq0 & Hq0 & ->). split; [done|].
    specialize (Hc4 r0). rewrite Hq0 in Hc4. destruct (s_reqs s !! r0) as [rq2|]; [|done]. simplify_eq/=. eauto.
  - intros r0. rewrite (ad_counts _ _ O3). apply Hc4.
Qed.

Lemma qdma_request_submit_ok s S P C r rq fuel res s' :
  mm_inv s S P C → dq_lock (s_q s) = false → work_left s < 2 ^ 32 → can_submit s r rq →
  submit fuel r s = Some (res, s') → submitted s S P C r res s'.
Proof.
  intros Hm Hl Hw Hcs Hrun. pose proof Hcs as (Hrq & Hp1 & Hp2 & Hmap & Hnomap & Hc & Hlf & Hln).
  pose proof (prepared_refl s S P C r rq Hm Hrq) as Hpp0.
  pose proof (λ rv, prepared_submitted s S P C r rq s rq rv Hl Hw Hpp0) as Hsame.
  unfold qdma_request_submit in Hrun.
  erewrite qm_bind_eq in Hrun by (unfold getreq; by rewrite Hrq). erewrite qm_bind_eq in Hrun by done.
  destruct (qc_q_type (dq_conf (s_q s)) =? Q_CMPT); [injection Hrun as <- <-; by apply Hsame|].
  destruct (bad_direction (s_q s) rq); [injection Hrun as <- <-; by apply Hsame|].
  destruct (prepared_put s S P C r rq s rq (rq <| rq_cb := cb_zero |>)) as (s1 & Hput & Hpp1); try done.
  erewrite qm_bind_eq in Hrun by exact Hput. rewrite (qi_dir _ _ _ _ _ (proj1 Hm)) in Hrun.
  destruct (rq_dma_mapped rq) eqn:Hdm.
  - erewrite qm_bind_eq in Hrun by done. cbn [Z.ltb Z.compare] in Hrun.
    eapply submit_enqueue_ok; try done; [|by destruct (rq_fp_done rq)]. apply mm_req_ok_cb. by apply Hmap.
  - destruct (req_sgl_map_ok s S P C r rq s1 (rq <| rq_cb := cb_zero |>) Hp1 Hp2 Hrq Hpp1)
      as (s2 & rq2 & Hrm & Hpp2 & Hsgl & Hrq2).
    simpl in Hrm, Hsgl, Hrq2. destruct (sgl_map _ _ [] (rq_sgl rq)) as [rv sgl] eqn:Hsm. simpl in *.
    erewrite qm_bind_eq in Hrun by exact Hrm.
    destruct (sgl_map_rv _ _ _ _ Hsm) as [->| ->].
    + cbn [Z.ltb Z.compare] in Hrun. eapply submit_enqueue_ok; try done.
      * rewrite Hrq2. specialize (Hnomap eq_refl sgl eq_refl). by destruct Hnomap.
      * by rewrite Hrq2.
      * by destruct (rq_fp_done rq).
    + change (- EIO <? 0) with true in Hrun. cbv iota in Hrun.
      destruct (submit_fail_ok s S P C r rq s2 rq2 (- EIO)) as (s3 & Hf3 & Hs3); try done.
      rewrite Hf3 in Hrun. by simplify_eq.
Qed.
End sys.
