(* ===== verification/DescqThms.v ===== *)
(** * Memory mapped queues: what every run guarantees

    The states a queue reaches by submitting requests and servicing
    completions, for every engine that behaves as documented, and the theorems
    on these runs: the accounting of the ring, completion in the order of
    submission, termination, and progress when the engine is prompt. *)

From S2P Require Import Prelude Platform SoftAccess QueueTypes DescRing Descq.
From S2P Require Import DescqProc DescqFill DescqInv DescqCmpl DescqLoop DescqMm.
From S2P Require Import DescqSubmit DescqSys DescqCmpl.

Section thms.
Context {H : Type} `{DescEngine H}.
Implicit Types s : qst H.
Variable fp_bypass_desc_fill : bool → Z → Z → qm H Z.
Variable pci_map_page : Z → Z.
Variable pci_dma_mapping_error : Z → bool.
Variable submit_st_c2h : Z → qm H submit_return.
Variable process_completion_st_c2h : Z → bool → qm H Z.

Notation R := mm_req_ok.
Notation submit := (qdma_request_submit fp_bypass_desc_fill pci_map_page pci_dma_mapping_error submit_st_c2h).
Notation service := (qdma_descq_service_cmpl_update fp_bypass_desc_fill process_completion_st_c2h).

(** ** Service *)

Lemma adv_lock_cycle s s1 :
  dq_lock (s_q s) = false → adv (locked s) s1 → adv s (s1 <| s_q := s_q s1 <| dq_lock := false |> |>).
Proof using.
  intros Hl Ha. exact (adv_locked s s1 (s_q s1 <| dq_lock := false |>) true Ha (eq_sym Hl)
    eq_refl eq_refl eq_refl eq_refl eq_refl).
Qed.

(** On a memory mapped queue a request is processed by descq_mm_proc_request. *)
Lemma proc_sgt_mm s fuel :
  qc_st (dq_conf (s_q s)) = 0 →
  qdma_descq_proc_sgt_request fp_bypass_desc_fill fuel s = descq_mm_proc_request fp_bypass_desc_fill fuel s.
Proof using.
  intros Hst. unfold qdma_descq_proc_sgt_request. do 2 erewrite qm_bind_eq by done. by rewrite Hst.
Qed.

(** A polled queue that is not busy is processed. *)
Definition polling (m : qdma_drv_mode_t) : Prop := m = POLL_MODE ∨ m = AUTO_MODE.

Lemma service_poll s fuel budget upd :
  is_st_c2h (s_q s) = false → qc_st (dq_conf (s_q s)) = 0 → dq_lock (s_q s) = false →
  polling (xd_qdma_drv_mode (s_xdev s)) →
  service fuel budget upd s =
    if dq_proc_req_running (s_q s) then Some (0, s)
    else (descq_mm_proc_request fp_bypass_desc_fill fuel;; mret 0) s.
Proof using.
  intros Hd Hst Hl Hm. unfold qdma_descq_service_cmpl_update.
  do 2 erewrite qm_bind_eq by done. rewrite Hd.
  assert ((lock_descq;; q ← getq; unlock_descq;;
     (if negb (dq_proc_req_running q) then qdma_descq_proc_sgt_request fp_bypass_desc_fill fuel;; mret 0
      else mret 0)) s = (if dq_proc_req_running (s_q s) then Some (0, s)
    else (descq_mm_proc_request fp_bypass_desc_fill fuel;; mret 0) s)) as Hb.
  { erewrite qm_bind_eq by (by apply lock_run). erewrite qm_bind_eq by done.
    erewrite qm_bind_eq by (by apply unlock_run). rewrite lock_unlock_id by done. simpl.
    destruct (dq_proc_req_running (s_q s)); [done|]. cbn [negb]. by rewrite !qm_bind_run, proc_sgt_mm. }
  by destruct Hm as [-> | ->].
Qed.

Definition serviced s (S P : Z) (s' : qst H) : Prop :=
  (∃ S' P' C', mm_inv s' S' P' C' ∧ (doorbell_works H → P = S → P' = S')) ∧ adv s s' ∧
  work_left s' <= work_left s.

Lemma outcome_serviced s S P C rv s' S' P' C' : mm_outcome s S P C rv s' S' P' C' → serviced s S P s'.
Proof using. intros [Hm Hmono Ha Hl _ Hp _ _]. split; [eauto|]. split; [done|lia]. Qed.

(** On an interrupt driven queue the status is read first. *)
Lemma service_intr s S P C fuel budget upd :
  mm_inv s S P C → dq_lock (s_q s) = false → work_left s < Z.of_nat fuel → work_left s < 2 ^ 32 →
  ¬ polling (xd_qdma_drv_mode (s_xdev s)) →
  ∃ rv s', service fuel budget upd s = Some (rv, s') ∧ serviced s S P s'.
Proof.
  intros Hm Hl Hf Hw Hp. unfold qdma_descq_service_cmpl_update.
  do 2 erewrite qm_bind_eq by done. rewrite (qi_dir _ _ _ _ _ (proj1 Hm)).
  assert (∃ rv s', (lock_descq;; descq_mm_n_h2c_cmpl_status;; len ← qdma_work_queue_len; q ← getq; unlock_descq;;
     (if nz len || nz (dq_desc_pend q) then qdma_descq_proc_sgt_request fp_bypass_desc_fill fuel else mret 0)) s =
    Some (rv, s') ∧ serviced s S P s') as Hb; cycle 1.
  { destruct (xd_qdma_drv_mode (s_xdev s)) eqn:Hx; try exact Hb; destruct Hp; first [by left|by right]. }
  erewrite qm_bind_eq by (by apply lock_run). fold (locked s).
  assert (Hm1 : mm_inv (locked s) S P C) by (by apply mm_inv_q).
  destruct (cmpl_status_inv R mm_req_ok_cb _ _ _ _ (proj1 Hm1)) as (s1 & P1 & C1 & Hrun & HP & HC & Hi1 & Hpr).
  pose proof (qi_order _ _ _ _ _ Hi1) as Hord. apply progress_polled in Hpr. erewrite qm_bind_eq by exact Hrun. do 2 erewrite qm_bind_eq by done.
  assert (Hl1 : dq_lock (s_q s1) = true) by (by rewrite (ad_lock _ _ (po_adv _ _ Hpr))).
  erewrite qm_bind_eq by (by apply unlock_run).
  match goal with |- ∃ _ _, _ ?st = _ ∧ _ => set (s2 := st) end.
  assert (Hm2 : mm_inv s2 S P1 C1) by (apply mm_inv_q; [by eapply mm_inv_polled|done]).
  assert (Ha2 : adv s s2) by (apply adv_lock_cycle; [done|apply Hpr]).
  assert (Hw2 : work_left s2 = work_left s) by exact (polled_work_left R _ _ _ _ _ (proj1 Hm1) Hpr).
  destruct (_ || _).
  - destruct (descq_mm_proc_request_run fp_bypass_desc_fill s2 S P1 C1 fuel)
      as (rv & s' & S' & P' & C' & Hrun' & Ho); try done; [lia..|].
    exists rv, s'. rewrite proc_sgt_mm by (by rewrite (co_mm _ (proj1 (proj2 Hm2)))). split; [done|].
    destruct (outcome_serviced _ _ _ _ _ _ _ _ _ Ho) as ((S2 & P2 & C2 & ? & Hp2) & ? & ?).
    split; [exists S2, P2, C2; split; [done|]; intros; apply Hp2; [done|lia]|]. split; [by eapply adv_trans|lia].
  - exists 0, s2. split; [done|]. split; [exists S, P1, C1; split; [done|lia]|]. split; [done|lia].
Qed.

(** Servicing the completions of a queue returns and keeps the invariant. *)
Lemma service_run s S P C fuel budget upd :
  mm_inv s S P C → dq_lock (s_q s) = false → work_left s < Z.of_nat fuel → work_left s < 2 ^ 32 →
  ∃ rv s', service fuel budget upd s = Some (rv, s') ∧ serviced s S P s'.
Proof.
  intros Hm Hl Hf Hw. destruct (decide (xd_qdma_drv_mode (s_xdev s) = POLL_MODE ∨
    xd_qdma_drv_mode (s_xdev s) = AUTO_MODE)) as [Hp|Hp]; [|by eapply service_intr].
  rewrite service_poll; [|by apply Hm..|done|done].
  destruct (dq_proc_req_running (s_q s)).
  { exists 0, s. split; [done|]. split; [eauto|]. split; [apply adv_refl|lia]. }
  destruct (descq_mm_proc_request_run fp_bypass_desc_fill s S P C fuel)
    as (rv & s' & S' & P' & C' & Hrun & Ho); try done.
  exists 0, s'. rewrite qm_bind_run, Hrun. split; [done|]. by eapply outcome_serviced.
Qed.
(** A run that returns does not depend on its fuel. *)
Lemma proc_sgt_mono s f f' x : (f <= f')%nat → qc_st (dq_conf (s_q s)) = 0 →
  qdma_descq_proc_sgt_request fp_bypass_desc_fill f s = Some x →
  qdma_descq_proc_sgt_request fp_bypass_desc_fill f' s = Some x.
Proof using. intros Hle Hst. rewrite !proc_sgt_mm by done. by apply descq_mm_proc_request_mono. Qed.

Lemma lock_conf s s' : lock_descq s = Some (tt, s') → s' = locked s.
Proof using. unfold lock_descq. rewrite qm_bind_run. simpl. destruct (dq_lock (s_q s)); [done|]. by intros [= <-]. Qed.

Lemma unlock_conf s s' : unlock_descq s = Some (tt, s') → s' = s <| s_q := s_q s <| dq_lock := false |> |>.
Proof using. unfold unlock_descq. rewrite qm_bind_run. simpl. destruct (dq_lock (s_q s)); [|done]. by intros [= <-]. Qed.

Lemma service_mono s S P C f f' budget upd x :
  mm_inv s S P C → (f <= f')%nat → service f budget upd s = Some x → service f' budget upd s = Some x.
Proof.
  intros (Hi & Hc & _) Hle. pose proof (co_mm _ Hc) as Hst. unfold qdma_descq_service_cmpl_update.
  do 4 erewrite qm_bind_eq by done. rewrite (qi_dir _ _ _ _ _ Hi).
  destruct (xd_qdma_drv_mode (s_xdev s)); apply qm_bind_impl; intros [] s1 ->%lock_conf.
  1-2: apply qm_bind_impl; intros q s2 [= <- <-]; apply qm_bind_impl; intros [] s3 ->%unlock_conf;
    destruct (negb _); [|done]; rewrite !qm_bind_run;
    match goal with |- match ?m with _ => _ end = _ → _ => destruct m as [[u s4]|] eqn:Hr; [|done] end;
    apply (proc_sgt_mono _ f f') in Hr; [|done..]; by rewrite Hr.
  all: apply qm_bind_impl; intros rv s2 Hs;
    assert (Hm1 : qinv R (locked s) S P C) by (destruct Hi; by split);
    destruct (cmpl_status_inv R mm_req_ok_cb _ _ _ _ Hm1) as (s3 & P1 & C1 & Hrun & _ & _ & _ & Hpr);
    rewrite Hs in Hrun; injection Hrun as -> ->; apply progress_polled in Hpr;
    apply qm_bind_impl; intros l s4 [= <- <-]; apply qm_bind_impl; intros q s5 [= <- <-];
    apply qm_bind_impl; intros [] s6 ->%unlock_conf; destruct (_ || _); [|done];
    apply proc_sgt_mono; [done|]; simpl; by rewrite (ad_conf _ _ (po_adv _ _ Hpr)).
Qed.

(** ** Runs *)

(** [mm_reach s subs]: the queue was started empty and reached [s] by accepting
    the requests [subs], with their byte counts, in this order.  A request
    object that is on no list may be prepared anew; the queue may be stopped or
    restarted by its control path; completions are serviced at any time. *)
Inductive mm_reach : qst H → list (Z * Z) → Prop :=
  | reach_init s : mm_inv s 0 0 0 → dq_lock (s_q s) = false → dq_pend_list (s_q s) = [] →
      dq_work_list (s_q s) = [] → s_ev s = [] → mm_reach s []
  | reach_request s subs r rq : mm_reach s subs → r ∉ dq_pend_list (s_q s) → r ∉ dq_work_list (s_q s) →
      mm_reach (s <| s_reqs := <[r := rq]> (s_reqs s) |>) subs
  | reach_submit s subs r rq fuel res s' : mm_reach s subs →
      can_submit pci_map_page pci_dma_mapping_error s r rq → submit fuel r s = Some (res, s') →
      mm_reach s' (if accepted res then subs ++ [(r, rq_count rq)] else subs)
  | reach_service s subs fuel budget upd rv s' : mm_reach s subs →
      service fuel budget upd s = Some (rv, s') → mm_reach s' subs
  | reach_control s subs stop st : mm_reach s subs →
      mm_reach (s <| s_q := s_q s <| dq_q_stop_wait := stop |> <| dq_q_state := st |> |>) subs.

(** Every request on a list is one of [subs], with its byte count. *)
Definition listed (subs : list (Z * Z)) s : Prop :=
  ∀ r, r ∈ dq_pend_list (s_q s) ++ dq_work_list (s_q s) →
  ∃ rq, s_reqs s !! r = Some rq ∧ (r, rq_count rq) ∈ subs.

Definition reports (subs : list (Z * Z)) (evs : list q_event) : Prop :=
  ∀ r n e, EvDone r n e ∈ evs → e = 0 ∧ (r, n) ∈ subs.

Record run_ok (s : qst H) (subs : list (Z * Z)) : Prop := {
  ru_inv : ∃ S P C, mm_inv s S P C ∧ (doorbell_works H → P = S);
  ru_lock : dq_lock (s_q s) = false;
  ru_left : work_left s < 2 ^ 32;
  ru_line : line s = map fst subs;
  ru_listed : listed subs s;
  ru_reports : reports subs (s_ev s);
}.

(** A step that keeps the line, but for the requests [new] added at its end,
    reports only requests on the lists or among the new ones. *)
Lemma line_new s s' evs new :
  s_ev s' = s_ev s ++ evs → line s' = line s ++ new →
  (∀ r, r ∈ completed evs → r ∈ dq_pend_list (s_q s) ++ dq_work_list (s_q s) ++ new) ∧
  (∀ r, r ∈ dq_pend_list (s_q s') ++ dq_work_list (s_q s') →
        r ∈ dq_pend_list (s_q s) ++ dq_work_list (s_q s) ++ new).
Proof using.
  unfold line. intros He. rewrite He, completed_app, <- !app_assoc. intros Hl%app_inv_head.
  rewrite <- Hl. split; intros r Hr; apply elem_of_app; [by left|by right].
Qed.

Lemma elem_of_completed r n e evs : EvDone r n e ∈ evs → r ∈ completed evs.
Proof using. intros Hin. apply list_elem_of_omap. by exists (EvDone r n e). Qed.

(** A step preserves [run_ok] if it keeps the invariant and the line. *)
Lemma run_step s subs s' evs new :
  run_ok s subs → (∃ S P C, mm_inv s' S P C ∧ (doorbell_works H → P = S)) →
  dq_lock (s_q s') = false → work_left s' < 2 ^ 32 → line s' = line s ++ map fst new →
  (∀ r c, (r, c) ∈ new → ∃ rq, s_reqs s !! r = Some rq ∧ c = rq_count rq) →
  s_ev s' = s_ev s ++ evs →
  (∀ r n e, EvDone r n e ∈ evs → e = 0 ∧ ∃ rq, s_reqs s !! r = Some rq ∧ n = rq_count rq) →
  same_counts s s' → run_ok s' (subs ++ new).
Proof using.
  intros [A1 A2 A3 A4 A5 A6] Hi Hl Hw Hline Hnew Hev Hd Hc.
  destruct (line_new _ _ _ _ Hev Hline) as [Hn1 Hn2].
  assert (Hcnt : ∀ r, r ∈ dq_pend_list (s_q s) ++ dq_work_list (s_q s) ++ map fst new →
    ∃ rq, s_reqs s !! r = Some rq ∧ (r, rq_count rq) ∈ subs ++ new).
  { intros r. rewrite app_assoc, elem_of_app. intros [Hr|Hr].
    - destruct (A5 r Hr) as (rq & ? & ?). exists rq. split; [done|]. apply elem_of_app. by left.
    - apply list_elem_of_fmap in Hr as ([r1 c] & -> & Hr). destruct (Hnew _ _ Hr) as (rq & ? & ->).
      exists rq. split; [done|]. apply elem_of_app. by right. }
  split; try done.
  - by rewrite Hline, A4, map_app.
  - intros r Hr. destruct (Hcnt r (Hn2 r Hr)) as (rq & Hrq & Hin). specialize (Hc r). rewrite Hrq in Hc.
    destruct (s_reqs s' !! r) as [rq'|]; [|done]. simpl in Hc. injection Hc as Hc. exists rq'. by rewrite Hc.
  - intros r n e. rewrite Hev, elem_of_app. intros [Hin|Hin].
    + destruct (A6 _ _ _ Hin). split; [done|]. apply elem_of_app. by left.
    + destruct (Hd _ _ _ Hin) as (-> & rq & Hrq & ->). split; [done|].
      destruct (Hcnt r (Hn1 r (elem_of_completed _ _ _ _ Hin))) as (rq2 & Hrq2 & ?). by simplify_eq.
Qed.

Lemma run_adv s subs s' : run_ok s subs → adv s s' →
  (∃ S P C, mm_inv s' S P C ∧ (doorbell_works H → P = S)) → work_left s' < 2 ^ 32 → run_ok s' subs.
Proof using.
  intros Hr Ha Hi Hw. rewrite <- (app_nil_r subs). destruct Ha as [A1 A2 A3 A4 A5 A6 A7 (evs & He & Hd)].
  eapply run_step; try done.
  - rewrite A2. apply Hr.
  - by rewrite app_nil_r.
  - by intros ?? ?%elem_of_nil.
Qed.

Lemma reach_ok s subs : mm_reach s subs → run_ok s subs.
Proof.
  induction 1 as [s Hm Hl Hp Hw He|s subs r rq _ IH Hp Hw|s subs r rq fuel res s' _ IH Hcs Hrun|
    s subs fuel budget upd rv s' _ IH Hrun|s subs stop st _ IH].
  - split; try done.
    + by exists 0, 0, 0.
    + unfold work_left. by rewrite Hw.
    + unfold line. by rewrite He, Hp, Hw.
    + intros r. rewrite Hp, Hw. by intros ?%elem_of_nil.
    + intros ???. rewrite He. by intros ?%elem_of_nil.
  - destruct IH as [(S & P & C & Hm & Hdb) A2 A3 A4 A5 A6].
    destruct (mm_inv_req s S P C r rq Hm Hp Hw) as [Hm' Hl']. split; try done.
    + eauto.
    + by rewrite Hl'.
    + intros r0 Hr0. destruct (A5 r0 Hr0) as (rq0 & Hrq0 & ?). exists rq0. split; [|done]. simpl.
      rewrite lookup_insert_ne; [done|]. intros ->. apply elem_of_app in Hr0. tauto.
  - pose proof IH as [(S & P & C & Hm & Hdb) A2 A3 A4 A5 A6].
    destruct (qdma_request_submit_ok _ _ _ _ s S P C r rq fuel res s' Hm A2 A3 Hcs Hrun)
      as [(S' & P' & C' & B1 & Bdb) B2 B3 B4 B5 (evs & B6 & B7) B8].
    replace (if accepted res then _ else subs)
      with (subs ++ if accepted res then [(r, rq_count rq)] else []) by (case_match; [done|apply app_nil_r]).
    eapply run_step; try done.
    + exists S', P', C'. split; [done|]. auto.
    + rewrite B5. by destruct (accepted res).
    + destruct (accepted res); [|by intros ?? ?%elem_of_nil]. intros r0 c [= -> ->]%list_elem_of_singleton.
      exists rq. split; [apply Hcs|done].
  - pose proof IH as [(S & P & C & Hm & Hdb) A2 A3 A4 A5 A6].
    apply (service_mono s S P C fuel (fuel + Z.to_nat (work_left s + 1))) in Hrun; [|done|lia].
    destruct (service_run s S P C (fuel + Z.to_nat (work_left s + 1)) budget upd) as
      (rv' & s2 & Hrun2 & (S' & P' & C' & Hm' & Hdb') & Ha & Hl); try done; [lia|].
    rewrite Hrun in Hrun2. injection Hrun2 as -> ->. eapply run_adv; try done; [|lia].
    exists S', P', C'. split; [done|]. auto.
  - destruct IH as [(S & P & C & Hm & Hdb) A2 A3 A4 A5 A6]. split; try done.
    exists S, P, C. split; [|done]. by apply mm_inv_q.
Qed.

(** ** Theorems *)

Lemma qinv_outstanding s S P C : qinv R s S P C →
  (dq_pidx (s_q s) - dq_cidx (s_q s)) mod qc_rngsz (dq_conf (s_q s)) = S - C.
Proof using.
  intros Hi. destruct Hi as [Hr _ _ Ho -> -> _ _ _ _ _ _ _ _ _].
  rewrite <- Zminus_mod. apply Z.mod_small. lia.
Qed.

(** C2. Accounting of the ring in every reachable state: the indices are inside the
    ring, the available count is the ring size less one less the descriptors
    between consumer and producer index, the descriptors of the listed requests
    are exactly those outstanding plus the completed ones not yet credited to a
    request, the counter of waiting requests is the length of the work list,
    and the lock is free. *)
Theorem ring_accounting s subs :
  mm_reach s subs →
  let q := s_q s in
  let n := qc_rngsz (dq_conf q) in
  let outstanding := (dq_pidx q - dq_cidx q) mod n in
  ring_idx n (dq_pidx q) ∧ ring_idx n (dq_cidx q) ∧
  dq_avail q = n - 1 - outstanding ∧ 0 <= dq_avail q ∧
  dq_credit q + outstanding = sumz (map (req_nr (s_reqs s)) (dq_pend_list q ++ dq_work_list q)) ∧
  dq_work_req_pend q = Z.of_nat (length (dq_work_list q)) ∧ dq_lock q = false.
Proof.
  intros Hre. cbv zeta. apply reach_ok in Hre as [(S & P & C & (Hi & _) & _) Hl _ _ _ _].
  pose proof (qinv_ring R _ _ _ _ Hi) as Hn. rewrite (qinv_outstanding _ _ _ _ Hi).
  destruct Hi as [_ _ _ Ho Hp Hc Ha _ _ _ _ Hcr _ Hw _]. rewrite Hp, Hc.
  repeat split; try (apply ring_mod_idx; done); try done; try lia.
Qed.

(** C3. Requests complete in the order of their submission: at every moment the
    completed requests, the pending ones and the waiting ones, in this order,
    are the accepted requests in the order of acceptance; a request is on the
    lists once; every completion callback reports success and the byte count
    the request was submitted with. *)
Theorem completion_fifo s subs :
  mm_reach s subs →
  completed (s_ev s) ++ dq_pend_list (s_q s) ++ dq_work_list (s_q s) = map fst subs ∧
  NoDup (dq_pend_list (s_q s) ++ dq_work_list (s_q s)) ∧
  (∀ r n e, EvDone r n e ∈ s_ev s → e = 0 ∧ (r, n) ∈ subs).
Proof.
  intros [(S & P & C & (Hi & _) & _) _ _ Hln _ Hrep]%reach_ok.
  split; [exact Hln|]. split; [apply Hi|exact Hrep].
Qed.

(** C22. Processing the requests of a reachable queue returns: with more fuel than the
    bytes and requests that wait, the function gives a result, 0 or the error of
    the doorbell; a call that was accepted stops only when no request waits or
    the descriptors free at its start are used up, and leaves the queue ready
    for the next call. *)
Theorem mm_proc_terminates s subs fuel :
  mm_reach s subs → work_left s < Z.of_nat fuel →
  ∃ rv s' w, descq_mm_proc_request fp_bypass_desc_fill fuel s = Some (rv, s') ∧
    (rv = 0 ∨ rv = - EINVAL) ∧ 0 <= w ∧ work_left s' + w <= work_left s ∧
    (ready s → rv = 0 → ready s' ∧ (dq_work_list (s_q s') = [] ∨ dq_avail (s_q s) <= w)).
Proof.
  intros [(S & P & C & Hm & _) Hl Hw _ _ _]%reach_ok Hf.
  destruct (descq_mm_proc_request_run fp_bypass_desc_fill s S P C fuel Hm Hl Hf Hw)
    as (rv & s' & S' & P' & C' & Hrun & [O1 O2 O3 O4 [O5 _] _ O6 O7]).
  exists rv, s', (S' - S). split; [done|]. split; [done|]. split; [lia|]. split; [done|].
  intros Hr Hrv. split; [by apply O7|].
  destruct (O6 Hr Hrv) as (_ & _ & [?|(C1 & ? & ? & _)]); [by left|right].
  rewrite (qi_avail _ _ _ _ _ (proj1 Hm)). lia.
Qed.

(** ** Progress *)

Section progress.
Context `{!PromptEngine H}.

(** Reading the status of a prompt engine completes everything posted. *)
Lemma cmpl_status_prompt s S C :
  qinv R s S S C → ∃ s' P', descq_mm_n_h2c_cmpl_status s = Some (0, s') ∧ qinv R s' S P' S.
Proof.
  intros Hi.
  destruct (cmpl_status_run R mm_req_ok_cb _ _ _ _ Hi) as (s' & P' & C' & Hrun & HP & HC & Hi' & Hpr & Hc).
  exists s', P'. split; [done|]. enough (C' = S) as <- by done.
  destruct Hc as [Hc|Hc].
  - pose proof (qinv_caught_up s S S C Hi (eq_sym Hc)). pose proof (qi_order _ _ _ _ _ Hi'). lia.
  - apply (qinv_caught_up s' S P' C' Hi'). rewrite (qi_pidx _ _ _ _ _ Hi'), (qi_cidx _ _ _ _ _ Hi').
    assert (dq_conf (s_q s') = dq_conf (s_q s)) as -> by apply (pr_same _ _ Hpr).
    rewrite <- Hc. destruct (desc_cmpl_status_cidx (s_hw s)) as [c h'] eqn:Hrd.
    exact (prompt_read _ _ _ _ _ _ (qi_eng _ _ _ _ _ Hi) Hrd).
Qed.

Lemma prompt_caught_up s S C :
  mm_inv s S S C → polling (xd_qdma_drv_mode (s_xdev s)) → caught_up s.
Proof.
  intros (Hi & _) Hp. unfold caught_up. fold (locked s).
  assert (Hi1 : qinv R (locked s <| s_q := s_q (locked s) <| dq_proc_req_running := true |> |>) S S C)
    by (destruct Hi; by split).
  destruct (cmpl_status_prompt _ _ _ Hi1) as (s' & P' & Hrun & Hi').
  assert (dq_cidx (s_q s') = dq_pidx (s_q s')) as Hc
    by (by rewrite (qi_cidx _ _ _ _ _ Hi'), (qi_pidx _ _ _ _ _ Hi')).
  assert (descq_poll_mm_n_h2c_cmpl_status (locked s) = Some (0, s')) as ->; [|done].
  unfold descq_poll_mm_n_h2c_cmpl_status. erewrite qm_bind_eq by done.
  assert (xd_qdma_drv_mode (s_xdev (locked s)) = xd_qdma_drv_mode (s_xdev s)) as -> by done.
  destruct Hp as [-> | ->]; erewrite qm_bind_eq by done; exact Hrun.
Qed.

(** A queue whose descriptors are all completed has no pending request. *)
Lemma qinv_no_pending s S P : qinv R s S P S → dq_pend_list (s_q s) = [].
Proof.
  intros [_ _ _ _ _ _ _ _ Hpe Hw _ [_ Hcr] Hf _ _]. destruct (dq_pend_list (s_q s)) as [|r l]; [done|exfalso].
  rewrite map_app, sumz_app in Hcr. simpl in Hcr. apply Forall_cons in Hpe as [_ Hpe].
  assert (0 <= sumz (map (req_nr (s_reqs s)) l)).
  { apply sumz_nonneg. apply Forall_fmap. eapply Forall_impl; [exact Hpe|]. intros r0 ?%has_req_nr. simpl. lia. }
  assert (0 <= sumz (map (req_nr (s_reqs s)) (dq_work_list (s_q s)))); [|lia].
  destruct (dq_work_list (s_q s)) as [|r0 rs]; [simpl; lia|]. destruct Hw as [(rq & Hrq & _ & _ & Hn & _) Hfr].
  simpl. rewrite (sumz_fresh R s) by done. unfold req_nr. rewrite Hrq. lia.
Qed.

(** One service call of a polled queue: the pending requests complete, the
    waiting ones advance. *)
Lemma drain_step s S C fuel budget upd :
  mm_inv s S S C → dq_lock (s_q s) = false → ready s → polling (xd_qdma_drv_mode (s_xdev s)) →
  work_left s < Z.of_nat fuel → work_left s < 2 ^ 32 →
  ∃ s' S' C', service fuel budget upd s = Some (0, s') ∧ mm_inv s' S' S' C' ∧ adv s s' ∧ ready s' ∧
    (dq_work_list (s_q s') = [] ∨ work_left s' < work_left s) ∧
    (dq_work_list (s_q s) = [] → dq_work_list (s_q s') = [] ∧ dq_pend_list (s_q s') = []).
Proof.
  intros Hm Hl Hr Hp Hf Hw. pose proof Hm as (Hi & Hc & _). rewrite service_poll; [|apply Hi|apply Hc|done..].
  rewrite (proj2 (proj2 Hr)).
  destruct (descq_mm_proc_request_run fp_bypass_desc_fill s S S C fuel Hm Hl Hf Hw)
    as (rv & s' & S' & P' & C' & Hrun & [O1 O2 O3 O4 [_ O5] _ O6 O7]).
  specialize (O5 prompt_post) as ->. destruct (O6 Hr eq_refl) as (Hps & Hcu & Hend).
  specialize (Hps eq_refl) as ->. pose proof (prompt_caught_up s S C Hm Hp) as Hcau. specialize (Hcu Hcau).
  exists s', S', C'. rewrite qm_bind_run, Hrun. split; [done|]. split; [done|]. split; [done|]. split; [by apply O7|].
  pose proof (co_ring _ Hc) as Hrs. split.
  { destruct Hend as [?|(C1 & ? & Hn & Hc1)]; [by left|right]. specialize (Hc1 Hcau).
    pose proof (qi_order _ _ _ _ _ (proj1 O1)). lia. }
  intros Hwl. assert (HS : S' = S).
  { pose proof (work_left_nonneg s' _ _ _ (proj1 O1)). assert (work_left s = 0) by (unfold work_left; by rewrite Hwl).
    lia. }
  assert (C' = S') as -> by (pose proof (qi_order _ _ _ _ _ (proj1 O1)); lia).
  split; [|by eapply qinv_no_pending; apply O1].
  destruct Hend as [?|(C1 & ? & Hn & Hc1)]; [done|]. specialize (Hc1 Hcau). lia.
Qed.

(** The service function called [k] times. *)
Fixpoint service_n (k fuel : nat) (budget : Z) (upd : bool) s : option (qst H) :=
  match k with
  | O => Some s
  | S k => match service fuel budget upd s with
           | Some (_, s') => service_n k fuel budget upd s'
           | None => None
           end
  end.

Lemma work_left_nil s S P C : mm_inv s S P C → work_left s <= 0 → dq_work_list (s_q s) = [].
Proof.
  intros (Hi & _) Hw. pose proof (qi_work _ _ _ _ _ Hi) as Hwk. unfold work_left in Hw.
  destruct (dq_work_list (s_q s)) as [|r rs]; [done|exfalso].
  destruct Hwk as [(rq & Hrq & _ & Hc & Hn & Ho) Hf]. simpl in Hw. unfold req_left at 1 in Hw. rewrite Hrq in Hw.
  assert (0 <= sumz (map (req_left (s_reqs s)) rs)); [|lia]. apply sumz_nonneg, Forall_fmap.
  eapply Forall_impl; [exact Hf|]. intros r' (rq' & Hrq' & _ & ? & ? & ?). simpl. unfold req_left.
  rewrite Hrq'. lia.
Qed.

Lemma drain k : ∀ s S C fuel budget upd,
  mm_inv s S S C → dq_lock (s_q s) = false → ready s → polling (xd_qdma_drv_mode (s_xdev s)) →
  work_left s < Z.of_nat fuel → work_left s < 2 ^ 32 → work_left s <= Z.of_nat k →
  ∃ s', service_n (k + 1) fuel budget upd s = Some s' ∧ adv s s' ∧
    dq_work_list (s_q s') = [] ∧ dq_pend_list (s_q s') = [].
Proof.
  induction k as [|k IH]; intros s S C fuel budget upd Hm Hl Hr Hp Hf Hw Hk;
    destruct (drain_step s S C fuel budget upd Hm Hl Hr Hp Hf Hw)
      as (s' & S' & C' & Hrun & Hm' & Ha & Hr' & Hdec & Hfin); cbn [service_n Nat.add]; rewrite Hrun.
  - exists s'. split; [done|]. split; [done|]. apply Hfin. eapply work_left_nil; [done|lia].
  - assert (Hle : work_left s' <= Z.of_nat k).
    { destruct Hdec as [He|]; [|lia]. unfold work_left. rewrite He. simpl. lia. }
    assert (work_left s' <= work_left s).
    { destruct Hdec as [He|]; [|lia]. pose proof (work_left_nonneg s _ _ _ (proj1 Hm)).
      unfold work_left at 1. rewrite He. simpl. lia. }
    destruct (IH s' S' C' fuel budget upd) as (s2 & Hrun2 & Ha2 & Hw2 & Hp2); try done; try lia.
    + by rewrite (ad_lock _ _ Ha).
    + by rewrite (ad_mode _ _ Ha).
    + exists s2. split; [done|]. split; [by eapply adv_trans|done].
Qed.

(** C16. Progress: on a polled queue whose engine is prompt, the service function
    called once more than there are bytes and requests waiting completes every
    accepted request, in order, and leaves both lists empty. *)
Theorem polled_queue_drains s subs fuel budget upd :
  mm_reach s subs → ready s → polling (xd_qdma_drv_mode (s_xdev s)) → work_left s < Z.of_nat fuel →
  ∃ s', service_n (Z.to_nat (work_left s) + 1) fuel budget upd s = Some s' ∧
    dq_work_list (s_q s') = [] ∧ dq_pend_list (s_q s') = [] ∧ completed (s_ev s') = map fst subs.
Proof.
  intros [(S & P & C & Hm & Hdb) Hl Hw Hln _ _]%reach_ok Hr Hp Hf. rewrite (Hdb prompt_post) in Hm.
  destruct (drain (Z.to_nat (work_left s)) s S C fuel budget upd) as (s' & Hrun & Ha & Hw' & Hp'); try done; [lia|].
  exists s'. split; [done|]. split; [done|]. split; [done|].
  rewrite <- Hln, <- (ad_line _ _ Ha). unfold line. by rewrite Hw', Hp', !app_nil_r.
Qed.
End progress.
End thms.
