(* ===== verification/DescqConf.v ===== *)
(** * Configuration and resources of a descriptor queue (qdma_descq.c)

    Initialisation, configuration, the choice of ring sizes and interrupt
    vector, and the allocation of the rings. *)

From S2P Require Import Prelude Platform SoftAccess QueueTypes DescRing Descq DescqProc.

Definition DESC_SZ_64B : Z := 3.
Definition DESC_SZ_64B_BYTES : Z := 64.

(** sizeof struct qdma_mm_desc, qdma_c2h_desc, qdma_h2c_desc,
    qdma_desc_cmpl_status and qdma_c2h_cmpt_cmpl_status *)
Definition MM_DESC_SIZE : Z := 32.
Definition C2H_DESC_SIZE : Z := 8.
Definition H2C_DESC_SIZE : Z := 16.
Definition CMPL_STATUS_SIZE : Z := 8.
Definition C2H_CMPT_CMPL_STATUS_SIZE : Z := 8.

Definition get_desc_size (c : qdma_queue_conf) : Z :=
  if nz (qc_desc_bypass c) && (qc_sw_desc_sz c =? DESC_SZ_64B) then DESC_SZ_64B_BYTES
  else if negb (nz (qc_st c)) then MM_DESC_SIZE
  else if qc_q_type c =? Q_C2H then C2H_DESC_SIZE
  else H2C_DESC_SIZE.

Definition get_desc_cmpl_status_size : Z := CMPL_STATUS_SIZE.

(** An element of an array; the indices used are bit fields that fit. *)
Definition arr (l : list Z) (i : Z) : Z := nth (Z.to_nat i) l 0.

(** ** Interrupt vector *)

(** The loop over the vectors [i], [i+1], ... with their queue counts. *)
Fixpoint irq_scan (cnts : list Z) (i idx min : Z) : Z :=
  match cnts with
  | [] => idx
  | c :: cnts =>
      if c =? 0 then i
      else
        let min := if min <? 0 then c else min in
        if c <? min then irq_scan cnts (i + 1) i c else irq_scan cnts (i + 1) idx min
  end.

Definition desc_alloc_irq (x : xlnx_dma_dev) (q : qdma_descq) : qdma_descq :=
  if xd_num_vecs x =? 0 then q
  else
    let start := xd_dvec_start_idx x in
    let idx :=
      match xd_qdma_drv_mode x with
      | DIRECT_INTR_MODE =>
          irq_scan (take (Z.to_nat (xd_num_vecs x - start)) (drop (Z.to_nat start) (xd_intr_list_cnt x)))
            start start (-1)
      | _ => start
      end in
    q <| dq_intr_id := idx |>.

(** ** Initialisation and configuration *)

Definition zero_pidx_info : qdma_q_pidx_reg_info := mk_pidx_info 0 0.
Definition zero_cmpt_info : qdma_q_cmpt_cidx_reg_info := mk_cmpt_info 0 0 0 0 0 0.

Definition conf_zero : qdma_queue_conf :=
  mk_qdma_queue_conf 0 0 0 0 0 0 0 0 0 0 0 0 0 0 0 0 0 0 0 0 0 0 0 0 0 0 0 0 0 0 0 0
    false false false false 0 0 0 0 0.

Definition qdma_descq_init (qbase idx_hw idx_sw : Z) : qdma_descq :=
  mk_qdma_descq (conf_zero <| qc_qidx := idx_sw |>) false 0 false 0 false Q_STATE_DISABLED
    (u32 (qbase + idx_hw)) 0 [] 0 false [] false false 0 0 0 0 [] [] 0 0 0 0 0
    zero_pidx_info zero_cmpt_info 0 0 0 0 0 0 0 false 0.

(** [reconfig] keeps the mode, type and index of the queue; without it the
    whole configuration is copied. *)
Definition qdma_descq_config (x : xlnx_dma_dev) (qconf : qdma_queue_conf) (reconfig : bool)
    (q : qdma_descq) : qdma_descq :=
  if negb reconfig then q <| dq_conf := qconf |>
  else
    let irq_en := match xd_qdma_drv_mode x with POLL_MODE => 0 | _ => 1 end in
    let c := dq_conf q in
    let c := c <| qc_desc_rng_sz_idx := qc_desc_rng_sz_idx qconf |>
               <| qc_cmpl_rng_sz_idx := qc_cmpl_rng_sz_idx qconf |>
               <| qc_c2h_buf_sz_idx := qc_c2h_buf_sz_idx qconf |>
               <| qc_irq_en := irq_en |> <| qc_cmpl_en_intr := irq_en |>
               <| qc_wb_status_en := qc_wb_status_en qconf |>
               <| qc_cmpl_status_acc_en := qc_cmpl_status_acc_en qconf |>
               <| qc_cmpl_status_pend_chk := qc_cmpl_status_pend_chk qconf |>
               <| qc_cmpl_stat_en := qc_cmpl_stat_en qconf |>
               <| qc_cmpl_trig_mode := qc_cmpl_trig_mode qconf |>
               <| qc_cmpl_timer_idx := qc_cmpl_timer_idx qconf |>
               <| qc_fetch_credit := qc_fetch_credit qconf |>
               <| qc_cmpl_cnt_th_idx := qc_cmpl_cnt_th_idx qconf |> in
    let q := if xd_versal_hard_ip x then q <| dq_channel := qc_mm_channel qconf |> else q in
    q <| dq_conf :=
      c <| qc_desc_bypass := qc_desc_bypass qconf |> <| qc_pfetch_bypass := qc_pfetch_bypass qconf |>
        <| qc_pfetch_en := qc_pfetch_en qconf |> <| qc_cmpl_udd_en := qc_cmpl_udd_en qconf |>
        <| qc_cmpl_desc_sz := qc_cmpl_desc_sz qconf |> <| qc_sw_desc_sz := qc_sw_desc_sz qconf |>
        <| qc_cmpl_ovf_chk_dis := qc_cmpl_ovf_chk_dis qconf |>
        <| qc_adaptive_rx := qc_adaptive_rx qconf |> <| qc_ping_pong_en := qc_ping_pong_en qconf |>
        <| qc_aperture_size := qc_aperture_size qconf |> <| qc_pidx_acc := qc_pidx_acc qconf |> |>.

(** ** Completion of the configuration *)

(** The loop that looks for the smallest ring size above [v]. *)
Fixpoint best_fit (ring_sz : list Z) (i : Z) (v : Z) (best : option (Z * Z)) : option (Z * Z) :=
  match ring_sz with
  | [] => best
  | sz :: ring_sz =>
      let best :=
        if v <? sz then
          match best with
          | None => Some (i, sz)
          | Some (_, b) => if sz <? b then Some (i, sz) else best
          end
        else best in
      best_fit ring_sz (i + 1) v best
  end.

Definition cmpt_ring_conf (x : xlnx_dma_dev) (c : qdma_queue_conf) : qdma_queue_conf :=
  let v := arr (xd_csr_ring_sz x) (qc_cmpl_rng_sz_idx c) in
  let c := match best_fit (take (Z.to_nat QDMA_GLOBAL_CSR_ARRAY_SZ) (xd_csr_ring_sz x)) 0 v None with
           | Some (i, _) => c <| qc_cmpl_rng_sz_idx := i |>
           | None => c
           end in
  c <| qc_rngsz_cmpt := u32 (arr (xd_csr_ring_sz x) (qc_cmpl_rng_sz_idx c) - 1) |>
    <| qc_c2h_bufsz := arr (xd_csr_c2h_buf_sz x) (qc_c2h_buf_sz_idx c) |>.

(** The index of the counter threshold in the sorted list; the old value when
    it is not found. *)
Fixpoint sorted_idx (sorted : list Z) (i th old : Z) : Z :=
  match sorted with
  | [] => old
  | y :: sorted => if th =? y then i else sorted_idx sorted (i + 1) th old
  end.

(** The thresholds of the adaptive completion counter. *)
Definition cntr_thresholds (x : xlnx_dma_dev) (q : qdma_descq) : qdma_descq :=
  let c := dq_conf q in
  let avg := arr (xd_csr_c2h_cnt_th x) (qc_cmpl_cnt_th_idx c) in
  let si := sorted_idx (take (Z.to_nat QDMA_GLOBAL_CSR_ARRAY_SZ) (xd_sorted_c2h_cntr x)) 0
              (qc_cmpl_cnt_th_idx c) (dq_sorted_c2h_cntr_idx q) in
  let hi_idx := if si =? QDMA_GLOBAL_CSR_ARRAY_SZ - 1 then si else si + 1 in
  let low_idx := if si =? 0 then 0 else si - 1 in
  let th j := arr (xd_csr_c2h_cnt_th x) (arr (xd_sorted_c2h_cntr x) j) in
  q <| dq_cmpt_entry_len := 8 * 2 ^ qc_cmpl_desc_sz c |> <| dq_c2h_pend_pkt_moving_avg := avg |>
    <| dq_sorted_c2h_cntr_idx := si |>
    <| dq_c2h_pend_pkt_avg_thr_hi := Z.shiftr (u32 (avg + th hi_idx)) 1 |>
    <| dq_c2h_pend_pkt_avg_thr_lo := Z.shiftr (u32 (avg + th low_idx)) 1 |>.

(** The ring sizes and the completion settings. *)
Definition config_rings (x : xlnx_dma_dev) (q : qdma_descq) : qdma_descq :=
  let c := dq_conf q <| qc_rngsz := u32 (arr (xd_csr_ring_sz x) (qc_desc_rng_sz_idx (dq_conf q)) - 1) |> in
  if has_cmpt q then
    let c := cmpt_ring_conf x c in
    q <| dq_conf := c |>
      <| dq_cmpt_cidx_info :=
           mk_cmpt_info (cci_wrb_cidx (dq_cmpt_cidx_info q)) (qc_cmpl_cnt_th_idx c) (qc_cmpl_timer_idx c)
             (qc_cmpl_trig_mode c) (qc_cmpl_stat_en c) (qc_cmpl_en_intr c) |>
  else q <| dq_conf := c |>.

(** The pointers of an empty ring.  One entry of the ring is never used. *)
Definition config_pointers (q : qdma_descq) : qdma_descq :=
  q <| dq_pidx_info := mk_pidx_info (pri_pidx (dq_pidx_info q))
                         (if is_st_c2h q then 0 else qc_irq_en (dq_conf q)) |>
    <| dq_avail := u32 (qc_rngsz (dq_conf q) - 1) |> <| dq_pend_list_empty := true |>
    <| dq_pidx := 0 |> <| dq_cidx := 0 |> <| dq_cidx_cmpt := 0 |> <| dq_pidx_cmpt := 0 |>
    <| dq_credit := 0 |> <| dq_work_req_pend := 0 |>.

Definition qdma_descq_config_complete (x : xlnx_dma_dev) (q : qdma_descq) : qdma_descq :=
  let q := config_pointers (config_rings x q) in
  if has_cmpt q then cntr_thresholds x q else q.

(** ** Rings *)

Section alloc.
Context {H : Type} `{QueueHw H}.

(** [dma_alloc_coherent]: the bus address of [len] bytes, when they are
    available; [kcalloc] likewise. *)
Variable dma_alloc : Z → H → option Z * H.
(** [descq_flq_alloc_resource], which fills the free list of an ST C2H queue. *)
Variable descq_flq_alloc_resource : qm H Z.
(** [descq_flq_free_resource] and [descq_flq_free_page_resource], which free it. *)
Variable descq_flq_free : qm H unit.

(** Ring pointers are NULL exactly when the lists are empty and the bus address
    is zero. *)
Definition qdma_descq_free_resource : qm H unit :=
  q ← getq;
  (if nz (dq_desc_bus q) && is_st_c2h q then descq_flq_free else mret tt);;
  modq (λ q, q <| dq_mm_desc := [] |> <| dq_h2c_desc := [] |> <| dq_desc_bus := 0 |> <| dq_desc_cmpt_bus := 0 |>).

Definition desc_ring_alloc (ring_sz desc_sz cs_sz : Z) : qm H (option Z) :=
  hwcall (dma_alloc (u32 (ring_sz * desc_sz + cs_sz))).

(** The zeroed descriptor ring. *)
Definition ring_clear (q : qdma_descq) : qdma_descq :=
  let n := Z.to_nat (qc_rngsz (dq_conf q)) in
  if negb (nz (qc_st (dq_conf q))) then q <| dq_mm_desc := replicate n mm_desc0 |>
  else if qc_q_type (dq_conf q) =? Q_C2H then q
  else q <| dq_h2c_desc := replicate n h2c_desc0 |>.

Definition err_out : qm H Z := qdma_descq_free_resource;; mret (- ENOMEM).

Definition qdma_descq_alloc_resource : qm H Z :=
  q ← getq;
  x ← getx;
  let c := dq_conf q in
  ok ← (if qc_q_type c =? Q_CMPT then mret true
        else
          bus ← desc_ring_alloc (qc_rngsz c) (get_desc_size c) get_desc_cmpl_status_size;
          match bus with
          | None => mret false
          | Some bus => modq (λ q, ring_clear q <| dq_desc_bus := bus |>);; mret true
          end);
  if negb ok then err_out
  else
    rv ← (if is_st_c2h q then descq_flq_alloc_resource
          else if is_ul_ext q then
            p ← hwcall (dma_alloc (qc_rngsz c * 16)); mret (if (p : option Z) then 0 else - ENOMEM)
          else mret 0);
    if rv <? 0 then err_out
    else
      ok ← (if has_cmpt q then
              modq (λ q, q <| dq_color := 1 |>);;
              bus ← desc_ring_alloc (qc_rngsz_cmpt c) (dq_cmpt_entry_len q) C2H_CMPT_CMPL_STATUS_SIZE;
              match bus with
              | None => mret false
              | Some bus => modq (λ q, q <| dq_desc_cmpt_bus := bus |>);; mret true
              end
            else mret true);
      if negb ok then err_out
      else modq (desc_alloc_irq x);; mret 0.
End alloc.
