(* ===== verification/DescqConfThms.v ===== *)
(** * Configuration of a descriptor queue: theorems

    The completion ring is the next larger one, the interrupt vector is the
    least loaded one, and a configured queue with its ring is one into which
    nothing was written, whatever its history. *)

From S2P Require Import Prelude Platform SoftAccess QueueTypes DescRing Descq.
From S2P Require Import DescqProc DescqFill DescqInv DescqCmpl DescqLoop DescqMm.
From S2P Require Import DescqCmpl DescqConf.

(** ** Completion ring *)

(** The result of the search in the entries before [i]. *)
Definition best_ok (l : list Z) (v : Z) (best : option (Z * Z)) : Prop :=
  match best with
  | None => Forall (λ sz, sz <= v) l
  | Some (i, b) => 0 <= i ∧ l !! Z.to_nat i = Some b ∧ v < b ∧ ∀ j sz, l !! j = Some sz → v < sz → b <= sz
  end.

Lemma best_fit_ok l : ∀ pre v best,
  best_ok pre v best → best_ok (pre ++ l) v (best_fit l (Z.of_nat (length pre)) v best).
Proof.
  induction l as [|sz l IH]; intros pre v best Hb; simpl.
  { by rewrite app_nil_r. }
  replace (Z.of_nat (length pre) + 1) with (Z.of_nat (length (pre ++ [sz])))
    by (rewrite length_app; simpl; lia).
  rewrite cons_middle, app_assoc. apply IH. clear IH.
  assert (Hlast : (pre ++ [sz]) !! Z.to_nat (Z.of_nat (length pre)) = Some sz).
  { rewrite Nat2Z.id, lookup_app_r, Nat.sub_diag by lia. done. }
  assert (Hin : ∀ j s, (pre ++ [sz]) !! j = Some s → pre !! j = Some s ∨ s = sz).
  { intros j s [?|[_ Hj]]%lookup_app_Some; [by left|right]. by apply list_lookup_singleton_Some in Hj as [_ ->]. }
  destruct best as [[i b]|]; simpl in Hb |- *.
  - destruct Hb as (Hi & Hl & Hv & Hmin).
    assert (Hl' : (pre ++ [sz]) !! Z.to_nat i = Some b) by by apply lookup_app_l_Some.
    destruct (v <? sz) eqn:Hs; [destruct (sz <? b) eqn:Hb|]; simpl.
    + split; [lia|]. split; [done|]. split; [lia|].
      intros j s [Hj| ->]%Hin Hvs; [|lia]. specialize (Hmin j s Hj Hvs). lia.
    + split; [done|]. split; [done|]. split; [done|].
      intros j s [Hj| ->]%Hin Hvs; [|lia]. exact (Hmin j s Hj Hvs).
    + split; [done|]. split; [done|]. split; [done|].
      intros j s [Hj| ->]%Hin Hvs; [|lia]. exact (Hmin j s Hj Hvs).
  - destruct (v <? sz) eqn:Hs; simpl.
    + split; [lia|]. split; [done|]. split; [lia|]. intros j s [Hj| ->]%Hin Hvs; [|lia].
      eapply (Forall_lookup_1 _ _ _ _ Hb) in Hj. simpl in Hj. lia.
    + apply Forall_app. split; [done|]. constructor; [lia|done].
Qed.

(** The completion ring of a queue is given the smallest configured ring size
    above the requested one, and the requested one when none is larger; its
    entries then never run out before those of the requested ring. *)
Theorem cmpt_ring_next_larger x c :
  length (xd_csr_ring_sz x) = Z.to_nat QDMA_GLOBAL_CSR_ARRAY_SZ →
  Forall (λ sz, 0 < sz < 2 ^ 32) (xd_csr_ring_sz x) → 0 <= qc_cmpl_rng_sz_idx c < QDMA_GLOBAL_CSR_ARRAY_SZ →
  let v := arr (xd_csr_ring_sz x) (qc_cmpl_rng_sz_idx c) in
  let c' := cmpt_ring_conf x c in
  0 <= qc_cmpl_rng_sz_idx c' < QDMA_GLOBAL_CSR_ARRAY_SZ ∧
  qc_rngsz_cmpt c' = arr (xd_csr_ring_sz x) (qc_cmpl_rng_sz_idx c') - 1 ∧
  v - 1 <= qc_rngsz_cmpt c' ∧
  (∀ sz, sz ∈ xd_csr_ring_sz x → v < sz → v <= qc_rngsz_cmpt c' < sz).
Proof.
  intros Hlen Hall Hidx v c'.
  pose proof (best_fit_ok (xd_csr_ring_sz x) [] v None (Forall_nil_2 _)) as Hb.
  change (Z.of_nat (length [])) with 0 in Hb. cbn [app] in Hb.
  assert (Hsz : ∀ i, 0 <= i < QDMA_GLOBAL_CSR_ARRAY_SZ → ∃ sz, xd_csr_ring_sz x !! Z.to_nat i = Some sz ∧
    arr (xd_csr_ring_sz x) i = sz ∧ 0 < sz < 2 ^ 32).
  { intros i Hi. destruct (lookup_lt_is_Some_2 (xd_csr_ring_sz x) (Z.to_nat i)) as [sz Hsz];
      [unfold QDMA_GLOBAL_CSR_ARRAY_SZ in *; lia|].
    exists sz. split; [done|]. split; [by apply nth_lookup_Some|]. by apply (Forall_lookup_1 _ _ _ _ Hall Hsz). }
  unfold c', cmpt_ring_conf. rewrite take_ge by lia. fold v.
  destruct (best_fit (xd_csr_ring_sz x) 0 v None) as [[i b]|]; simpl.
  - destruct Hb as (Hi & Hl & Hv & Hmin). pose proof (lookup_lt_Some _ _ _ Hl) as Hlt.
    assert (Hi16 : 0 <= i < QDMA_GLOBAL_CSR_ARRAY_SZ) by (unfold QDMA_GLOBAL_CSR_ARRAY_SZ in *; lia).
    destruct (Hsz i Hi16) as (sz & Hsz' & -> & Hr). rewrite Hl in Hsz'. injection Hsz' as <-.
    rewrite u32_small by lia. split; [done|]. split; [done|]. split; [lia|].
    intros sz (j & Hj)%list_elem_of_lookup Hvs. specialize (Hmin j sz Hj Hvs). lia.
  - destruct (Hsz _ Hidx) as (sz & Hsz' & Hv & Hr). fold v in Hv. fold v. rewrite Hv, u32_small by lia.
    split; [done|]. split; [done|]. split; [lia|].
    intros s Hs Hvs. unfold best_ok in Hb. rewrite Forall_forall in Hb. apply Hb in Hs. lia.
Qed.

(** ** Interrupt vector *)

Lemma irq_scan_ok cnts : ∀ pre start idx min,
  Forall (λ c, 0 <= c) cnts → start <= idx →
  (pre = [] ∧ min < 0 ∧ idx = start ∨
   pre ≠ [] ∧ 0 < min ∧ pre !! Z.to_nat (idx - start) = Some min ∧ Forall (λ c, min <= c) pre) →
  cnts ≠ [] ∨ pre ≠ [] →
  let i := irq_scan cnts (start + Z.of_nat (length pre)) idx min in
  start <= i ∧ ∃ m, (pre ++ cnts) !! Z.to_nat (i - start) = Some m ∧ ∀ c, c ∈ pre ++ cnts → m <= c.
Proof.
  induction cnts as [|c cnts IH]; intros pre start idx min Hnn Hst Hpre Hne; simpl.
  { destruct Hpre as [(-> & _)|(_ & _ & Hl & Hall)]; [by destruct Hne|]. rewrite app_nil_r.
    split; [done|]. exists min. split; [done|]. intros c Hc. by rewrite Forall_forall in Hall; apply Hall. }
  apply Forall_cons in Hnn as [Hc Hnn].
  assert (Hlast : ∀ l : list Z, (pre ++ c :: l) !! Z.to_nat (start + Z.of_nat (length pre) - start) = Some c).
  { intros l. replace (Z.to_nat (start + Z.of_nat (length pre) - start)) with (length pre) by lia.
    by rewrite list_lookup_middle. }
  destruct (c =? 0) eqn:Hz.
  { split; [lia|]. exists c. split; [done|]. assert (c = 0) as -> by lia.
    intros c' [Hp|Hp]%elem_of_app.
    - destruct Hpre as [(-> & _)|(_ & ? & _ & Hall)]; [by apply elem_of_nil in Hp|].
      rewrite Forall_forall in Hall. specialize (Hall _ Hp). lia.
    - apply elem_of_cons in Hp as [->|Hp]; [done|]. rewrite Forall_forall in Hnn. by apply Hnn. }
  rewrite cons_middle, app_assoc.
  replace (start + Z.of_nat (length pre) + 1) with (start + Z.of_nat (length (pre ++ [c])))
    by (rewrite length_app; simpl; lia).
  assert (Hne' : pre ++ [c] ≠ []) by (by destruct pre).
  destruct (c <? (if min <? 0 then c else min)) eqn:Hlt; apply IH; try done; try lia; try (by right); right.
  - split; [done|]. split; [lia|]. split; [apply Hlast|]. destruct Hpre as [(-> & ? & _)|(_ & ? & _ & Hall)].
    { replace (min <? 0) with true in Hlt by lia. lia. }
    replace (min <? 0) with false in Hlt by lia. apply Forall_app. split; [|by constructor].
    eapply Forall_impl; [exact Hall|]. simpl. lia.
  - split; [done|]. destruct Hpre as [(-> & Hm & ->)|(_ & Hm & Hl & Hall)].
    + replace (min <? 0) with true by lia. rewrite Z.sub_diag. split; [lia|]. split; [done|]. by constructor.
    + replace (min <? 0) with false in * by lia. split; [done|]. split; [by apply lookup_app_l_Some|].
      apply Forall_app. split; [done|]. constructor; [lia|done].
Qed.

(** In direct interrupt mode a queue gets one of the data vectors with the fewest
    queues, vectors below the first data vector are never used. *)
Theorem desc_alloc_irq_least_loaded x q :
  xd_qdma_drv_mode x = DIRECT_INTR_MODE → 0 <= xd_dvec_start_idx x < xd_num_vecs x →
  length (xd_intr_list_cnt x) = Z.to_nat (xd_num_vecs x) → Forall (λ c, 0 <= c) (xd_intr_list_cnt x) →
  let v := dq_intr_id (desc_alloc_irq x q) in
  xd_dvec_start_idx x <= v < xd_num_vecs x ∧
  ∀ i, xd_dvec_start_idx x <= i < xd_num_vecs x → arr (xd_intr_list_cnt x) v <= arr (xd_intr_list_cnt x) i.
Proof.
  intros Hm Hs Hlen Hnn v. unfold v, desc_alloc_irq. rewrite (proj2 (Z.eqb_neq _ _)) by lia. rewrite Hm. simpl.
  set (start := xd_dvec_start_idx x) in *. set (n := xd_num_vecs x) in *. set (l := xd_intr_list_cnt x) in *.
  rewrite take_ge by (rewrite length_drop; lia).
  destruct (irq_scan_ok (drop (Z.to_nat start) l) [] start start (-1)) as (Hi & m & Hm' & Hmin).
  - by apply Forall_drop.
  - lia.
  - by left.
  - left. intros He. apply (f_equal length) in He. rewrite length_drop in He. simpl in He. lia.
  - simpl in Hi, Hm'. rewrite Z.add_0_r in Hi, Hm'. set (r := irq_scan _ start start (-1)) in *.
    pose proof (lookup_lt_Some _ _ _ Hm') as Hlt. rewrite length_drop in Hlt.
    split; [lia|]. intros i Hr. rewrite lookup_drop in Hm'.
    replace (Z.to_nat start + Z.to_nat (r - start))%nat with (Z.to_nat r) in Hm' by lia.
    unfold arr at 1. rewrite (nth_lookup_Some _ _ _ _ Hm'). apply Hmin. simpl.
    apply list_elem_of_lookup. exists (Z.to_nat (i - start)). rewrite lookup_drop.
    replace (Z.to_nat start + Z.to_nat (i - start))%nat with (Z.to_nat i) by lia.
    unfold arr. rewrite nth_lookup. destruct (lookup_lt_is_Some_2 l (Z.to_nat i)) as [y Hy]; [lia|]. by rewrite Hy.
Qed.

(** ** Start *)

Section start.
Context {H : Type} `{DescEngine H}.
Implicit Types s : qst H.
Variable dma_alloc : Z → H → option Z * H.
Variable descq_flq_alloc_resource : qm H Z.
Variable descq_flq_free : qm H unit.

(** The configuration part of qdma_queue_start and the rings. *)
Definition start_queue : qm H Z :=
  x ← getx;
  modq (qdma_descq_config_complete x);;
  qdma_descq_alloc_resource dma_alloc descq_flq_alloc_resource descq_flq_free.

Lemma start_queue_run s :
  start_queue s = qdma_descq_alloc_resource dma_alloc descq_flq_alloc_resource descq_flq_free
                    (s <| s_q := qdma_descq_config_complete (s_xdev s) (s_q s) |>).
Proof using.
  assert (start_queue = (getx ≫= λ x, modq (qdma_descq_config_complete x) ≫= λ _,
    qdma_descq_alloc_resource dma_alloc descq_flq_alloc_resource descq_flq_free)) as -> by reflexivity.
  by rewrite getx_bind, modq_bind.
Qed.

(** A memory mapped queue as qdma_queue_start accepts it: not a completion
    queue, without own descriptor fill, with a ring of at least two usable
    entries and an aperture the descriptors can carry. *)
Record startable (x : xlnx_dma_dev) (q : qdma_descq) : Prop := {
  sa_mm : qc_st (dq_conf q) = 0;
  sa_type : qc_q_type (dq_conf q) ≠ Q_CMPT;
  sa_native : is_ul_ext q = false;
  sa_ring : 2 < arr (xd_csr_ring_sz x) (qc_desc_rng_sz_idx (dq_conf q)) <= 2 ^ 16;
  sa_aperture : qc_aperture_size (dq_conf q) = 0 ∨ ∃ k, 0 <= k < 28 ∧ qc_aperture_size (dq_conf q) = 2 ^ k;
}.

(** A memory mapped queue with a ring of [n] usable entries into which nothing
    was written; its request lists are left open. *)
Record fresh_queue (n : Z) (q : qdma_descq) : Prop := {
  fq_size : 2 <= n < 2 ^ 16;
  fq_rngsz : qc_rngsz (dq_conf q) = n;
  fq_mm : qc_st (dq_conf q) = 0;
  fq_native : is_ul_ext q = false;
  fq_aperture : qc_aperture_size (dq_conf q) = 0 ∨ ∃ k, 0 <= k < 28 ∧ qc_aperture_size (dq_conf q) = 2 ^ k;
  fq_indices : dq_pidx q = 0 ∧ dq_cidx q = 0;
  fq_credit : dq_credit q = 0 ∧ dq_work_req_pend q = 0 ∧ dq_avail q = n - 1;
  fq_ring : length (dq_mm_desc q) = Z.to_nat n;
}.

(** A queue without the requests on its lists. *)
Definition no_requests (q : qdma_descq) : qdma_descq := q <| dq_pend_list := [] |> <| dq_work_list := [] |>.

Lemma mm_no_cmpt q : qc_st (dq_conf q) = 0 → qc_q_type (dq_conf q) ≠ Q_CMPT → has_cmpt q = false ∧ is_st_c2h q = false.
Proof using.
  unfold has_cmpt, is_st_c2h. intros -> Ht. split; [|done]. simpl. by apply Z.eqb_neq.
Qed.

Lemma config_complete_mm x q :
  startable x q →
  let q' := qdma_descq_config_complete x q in
  qc_rngsz (dq_conf q') = arr (xd_csr_ring_sz x) (qc_desc_rng_sz_idx (dq_conf q)) - 1 ∧
  (qc_st (dq_conf q') = qc_st (dq_conf q) ∧ qc_q_type (dq_conf q') = qc_q_type (dq_conf q) ∧
   qc_aperture_size (dq_conf q') = qc_aperture_size (dq_conf q) ∧ is_ul_ext q' = is_ul_ext q) ∧
  dq_pidx q' = 0 ∧ dq_cidx q' = 0 ∧ dq_credit q' = 0 ∧ dq_work_req_pend q' = 0 ∧
  dq_avail q' = arr (xd_csr_ring_sz x) (qc_desc_rng_sz_idx (dq_conf q)) - 2 ∧
  dq_pend_list q' = dq_pend_list q ∧ dq_work_list q' = dq_work_list q.
Proof using.
  intros [Hst Ht _ Hr _]. destruct (mm_no_cmpt q Hst Ht) as [Hc _].
  assert (Hrs : config_rings x q = q <| dq_conf := dq_conf q <| qc_rngsz :=
    u32 (arr (xd_csr_ring_sz x) (qc_desc_rng_sz_idx (dq_conf q)) - 1) |> |>)
    by (unfold config_rings; by rewrite Hc).
  cbv zeta. unfold qdma_descq_config_complete. rewrite Hrs. set (q1 := q <| dq_conf := _ |>).
  assert (has_cmpt (config_pointers q1) = false) as -> by exact Hc.
  unfold is_ul_ext. simpl. rewrite !u32_small by (rewrite ?u32_small by lia; lia).
  repeat split. lia.
Qed.

(** What the allocation does to the queue of a memory mapped queue. *)
Lemma alloc_resource_mm s rv s' :
  qc_st (dq_conf (s_q s)) = 0 → qc_q_type (dq_conf (s_q s)) ≠ Q_CMPT → is_ul_ext (s_q s) = false →
  qdma_descq_alloc_resource dma_alloc descq_flq_alloc_resource descq_flq_free s = Some (rv, s') → 0 <= rv →
  ∃ bus, s' = s <| s_q := desc_alloc_irq (s_xdev s) (s_q s <| dq_mm_desc :=
             replicate (Z.to_nat (qc_rngsz (dq_conf (s_q s)))) mm_desc0 |> <| dq_desc_bus := bus |>) |>
             <| s_hw := s_hw s' |>.
Proof using.
  intros Hst Ht Hu Hrun Hrv. revert Hrun. destruct (mm_no_cmpt _ Hst Ht) as [Hc Hd].
  unfold qdma_descq_alloc_resource. do 2 erewrite qm_bind_eq by done. rewrite (proj2 (Z.eqb_neq _ _)) by done.
  rewrite qm_bind_run. unfold desc_ring_alloc, hwcall.
  rewrite qm_bind_run. destruct (dma_alloc _ (s_hw s)) as [[bus|] h]; cycle 1.
  { cbn [mret qm_ret negb]. unfold err_out. intros (? & ? & _ & [= <- <-])%qm_bind_some. done. }
  rewrite modq_bind. cbn [mret qm_ret negb]. rewrite Hd, Hu, Hc. erewrite qm_bind_eq by done. cbn [Z.ltb Z.compare].
  erewrite qm_bind_eq by done. cbn [negb]. erewrite qm_bind_eq by done. intros [= <- <-].
  exists bus. destruct s as [q x r hw ev]. simpl in *. unfold ring_clear. simpl. by rewrite Hst.
Qed.

(** A fresh queue without requests and an idle engine satisfy the invariant. *)
Lemma fresh_inv s n :
  fresh_queue n (s_q s) → dq_pend_list (s_q s) = [] → dq_work_list (s_q s) = [] → eng n (s_hw s) 0 0 →
  mm_inv s 0 0 0.
Proof using.
  intros [Hn Ern Est Eul Eap [Ep Eci] (Ecr & Ewp & Eav) Elen] Epl Ewl He.
  assert (Hd : is_st_c2h (s_q s) = false) by (unfold is_st_c2h; by rewrite Est).
  split; [split; rewrite ?Ern, ?Ep, ?Eci, ?Ecr, ?Ewp, ?Eav, ?Epl, ?Ewl|].
  all: try done; try lia; try (rewrite Z.mod_0_l; lia).
  - by left.
  - split; [split; rewrite ?Ern, ?Est, ?Eap; [lia|done|done]|]. split; [done|]. by rewrite Elen, Ern.
Qed.

Lemma alloc_irq_id x q : ∃ i, desc_alloc_irq x q = q <| dq_intr_id := i |>.
Proof using. unfold desc_alloc_irq. case_match; [exists (dq_intr_id q); by destruct q|by eexists]. Qed.

(** The fields of a queue that was given a ring and a vector. *)
Lemma given_ring q q' ring bus i :
  q' = q <| dq_mm_desc := ring |> <| dq_desc_bus := bus |> <| dq_intr_id := i |> →
  dq_conf q' = dq_conf q ∧ dq_q_state q' = dq_q_state q ∧ is_ul_ext q' = is_ul_ext q ∧ dq_pidx q' = dq_pidx q ∧
  dq_cidx q' = dq_cidx q ∧ dq_credit q' = dq_credit q ∧ dq_work_req_pend q' = dq_work_req_pend q ∧
  dq_avail q' = dq_avail q ∧ dq_pend_list q' = dq_pend_list q ∧ dq_work_list q' = dq_work_list q ∧
  dq_mm_desc q' = ring.
Proof using. intros ->. by destruct q. Qed.

(** Configuration and allocation of a memory mapped queue leave a fresh queue with
    the requests that were on its lists, whatever the queue was before. *)
Lemma start_queue_fresh s rv s' :
  startable (s_xdev s) (s_q s) → start_queue s = Some (rv, s') → 0 <= rv →
  fresh_queue (arr (xd_csr_ring_sz (s_xdev s)) (qc_desc_rng_sz_idx (dq_conf (s_q s))) - 1) (s_q s') ∧
  qc_q_type (dq_conf (s_q s')) = qc_q_type (dq_conf (s_q s)) ∧
  dq_pend_list (s_q s') = dq_pend_list (s_q s) ∧ dq_work_list (s_q s') = dq_work_list (s_q s) ∧
  s' = s <| s_q := s_q s' |> <| s_hw := s_hw s' |>.
Proof using.
  intros Hsa Hrun Hrv. rewrite start_queue_run in Hrun.
  destruct (config_complete_mm _ _ Hsa) as (Ern & (Est & Ety & Eap & Eul) & Ep & Eci & Ecr & Ewp & Eav & Epl & Ewl).
  set (q1 := qdma_descq_config_complete (s_xdev s) (s_q s)) in *. clearbody q1.
  destruct Hsa as [Hst Ht Hul Hr Hap].
  set (s1 := s <| s_q := q1 |>) in Hrun. assert (Hs1 : s_q s1 = q1) by done.
  assert (Hx1 : ∀ q h, s1 <| s_q := q |> <| s_hw := h |> = s <| s_q := q |> <| s_hw := h |>) by done. clearbody s1.
  apply alloc_resource_mm in Hrun; [|rewrite ?Hs1; congruence..]. rewrite Hs1 in Hrun. destruct Hrun as [bus Hrun].
  rewrite Hx1 in Hrun.
  destruct (alloc_irq_id (s_xdev s1) (q1 <| dq_mm_desc := replicate (Z.to_nat (qc_rngsz (dq_conf q1))) mm_desc0 |>
    <| dq_desc_bus := bus |>)) as [i Hi]. rewrite Hi in Hrun.
  assert (Hq : s_q s' = q1 <| dq_mm_desc := replicate (Z.to_nat (qc_rngsz (dq_conf q1))) mm_desc0 |>
    <| dq_desc_bus := bus |> <| dq_intr_id := i |>) by by rewrite Hrun.
  assert (Hs' : s' = s <| s_q := s_q s' |> <| s_hw := s_hw s' |>) by by rewrite Hrun.
  clear Hrun Hi Hx1.
  apply given_ring in Hq as (Fc & _ & Fu & Fp & Fi & Fcr & Fw & Fa & Fpl & Fwl & Fl). rewrite Fc, Fpl, Fwl.
  split; [|done]. split; rewrite ?Fc, ?Fu, ?Fp, ?Fi, ?Fcr, ?Fw, ?Fa, ?Fl, ?length_replicate, ?Eap, ?Eul, ?Ern, ?Est; try done; lia.
Qed.
End start.
