(* ===== verification/DescqEx.v ===== *)
(** * Memory mapped queues: runs on concrete inputs

    A queue with three usable descriptors, two requests that do not fit
    together, and the states they reach.  The witnesses of the theorems on
    every run, and runs that show what the code does outside them. *)

From S2P Require Import Prelude Platform SoftAccess QueueTypes DescRing Descq.
From S2P Require Import DescqProc DescqFill DescqInv DescqCmpl DescqLoop DescqMm.
From S2P Require Import DescqSubmit DescqSys DescqCmpl DescqThms DescqConf DescqConfThms.

(** ** The sample queue *)

Definition ex_ring_sz : list Z := [5; 9; 17; 33; 65; 129; 257; 513; 1025; 2049; 4097; 8193; 12; 20; 40; 80].
Definition ex_x (m : qdma_drv_mode_t) : xlnx_dma_dev :=
  mk_xlnx_dma_dev m ex_ring_sz (replicate 16 1) (replicate 16 2) (replicate 16 4096)
    (seqZ 0 16) false 4 1 [0; 3; 1; 2] 0 0 0 0 0 false.

(** A host to card queue on the ring of four entries. *)
Definition ex_conf : qdma_queue_conf := conf_zero <| qc_q_type := Q_H2C |> <| qc_pidx_acc := 1 |>.

Definition ex_sg (addr len : Z) : qdma_sw_sg := mk_qdma_sw_sg 1 0 len addr.
Definition ex_rq (done : bool) (count ep : Z) (sgl : list qdma_sw_sg) : qdma_request :=
  mk_qdma_request cb_zero done 0 count ep false true true false false 0 sgl.

Definition ex_r1 : qdma_request := ex_rq true 10 0 [ex_sg 4096 6; ex_sg 8192 4].
Definition ex_r2 : qdma_request := 
  ex_rq true 9 64 [ex_sg 12288 1; ex_sg 12292 2; ex_sg 12296 3; ex_sg 12300 1; ex_sg 12304 2].
Definition ex_reqs : gmap Z qdma_request := <[1 := ex_r1]> (<[2 := ex_r2]> ∅).

Section ex.
Context {H : Type} `{DescEngine H}.

(** No allocation fails; no own descriptor fill; no ST C2H queue. *)
Definition ex_alloc (len : Z) (h : H) : option Z * H := (Some 65536, h).
Definition ex_fill (_ : bool) (_ _ : Z) : qm H Z := mret 0.
Definition ex_map (pg : Z) : Z := pg * 4096.
Definition ex_map_err (_ : Z) : bool := false.
Definition ex_c2h (_ : Z) : qm H submit_return := qfail.
Definition ex_proc_c2h (_ : Z) (_ : bool) : qm H Z := qfail.
Definition ex_flq : qm H Z := qfail.
Definition ex_flq_free : qm H unit := qfail.

(** The queue as initialisation, configuration and start leave it, set online. *)
Definition ex_state (m : qdma_drv_mode_t) (h : H) : qst H :=
  let s := mk_qst (qdma_descq_config (ex_x m) ex_conf false (qdma_descq_init 0 0 0)) (ex_x m) ex_reqs h [] in
  match start_queue ex_alloc ex_flq ex_flq_free s with
  | Some (_, s) => s <| s_q := s_q s <| dq_q_state := Q_STATE_ONLINE |> |>
  | None => s
  end.

Definition run {A} (m : qm H A) (s : qst H) : qst H := match m s with Some (_, s') => s' | None => s end.
End ex.

Notation ex_submit := (qdma_request_submit ex_fill ex_map ex_map_err ex_c2h).
Notation ex_service := (qdma_descq_service_cmpl_update ex_fill ex_proc_c2h).
Notation ex_reaches := (mm_reach ex_fill ex_map ex_map_err ex_c2h ex_proc_c2h).

(** ** The run on the prompt engine *)

Definition ps0 : qst prompt_sim := ex_state POLL_MODE (mk_prompt 4 0 0).
Definition ps1 := run (ex_submit 100 1) ps0.
Definition ps2 := run (ex_submit 100 2) ps1.

(** The started queue, evaluated. *)
Definition ex_q0 : qdma_descq := Eval vm_compute in s_q ps0.

Lemma ex_state_eq {H} `{DescEngine H} (h : H) :
  ex_state POLL_MODE h = mk_qst ex_q0 (ex_x POLL_MODE) ex_reqs h [].
Proof. vm_compute. reflexivity. Qed.

Lemma ex_inv_ok {H} `{DescEngine H} (h : H) : eng 4 h 0 0 → mm_inv (ex_state POLL_MODE h) 0 0 0.
Proof.
  intros He. rewrite ex_state_eq.
  apply (fresh_inv _ 4); [|reflexivity|reflexivity|exact He].
  split; try (vm_compute; reflexivity); [lia|left; reflexivity|vm_compute; tauto..].
Qed.

(** The sample requests have a transferable scatter list. *)
Ltac solve_sgl := cbn [rq_sgl ex_rq ex_r1 ex_r2]; repeat (apply List.Forall_cons; [unfold sg_ok; simpl; lia|]); apply List.Forall_nil.
Ltac solve_req_ok :=
  split; [solve_sgl|reflexivity|by vm_compute|left; split; [done|solve_sgl]|simpl; lia|by vm_compute].

Lemma ex_rq1_ok : mm_req_ok (dq_conf ex_q0) ex_r1.
Proof. solve_req_ok. Qed.

Lemma ex_rq2_ok : mm_req_ok (dq_conf ex_q0) ex_r2.
Proof. solve_req_ok. Qed.

(** A mapped request that is on no list can be submitted. *)
Ltac solve_can_submit Hok :=
  split; [vm_compute; reflexivity|];
  split; [apply (bool_decide_eq_false_1 _); vm_compute; reflexivity|];
  split; [apply (bool_decide_eq_false_1 _); vm_compute; reflexivity|];
  split; [intros _; exact Hok|]; split; [done|];
  split; [simpl; lia|]; split; [vm_compute; reflexivity|vm_compute; reflexivity].

(** The run on any engine: the accepted requests and the states. *)
Ltac solve_reach0 := apply reach_init; try (vm_compute; reflexivity); apply ex_inv_ok; by repeat split.
Ltac solve_reach1 s0 s1 H0 :=
  apply (reach_submit _ _ _ _ _ s0 [] 1 ex_r1 100 (SubmitRet 0) s1);
    [exact H0|solve_can_submit ex_rq1_ok|vm_compute; reflexivity].
Ltac solve_reach2 s1 s2 H1 :=
  apply (reach_submit _ _ _ _ _ s1 [(1, 10)] 2 ex_r2 100 (SubmitRet 0) s2);
    [exact H1|solve_can_submit ex_rq2_ok|vm_compute; reflexivity].

Lemma ex_reach0 : ex_reaches ps0 [].
Proof. solve_reach0. Qed.
Lemma ex_reach1 : ex_reaches ps1 [(1, 10)].
Proof. solve_reach1 ps0 ps1 ex_reach0. Qed.
Lemma ex_reach2 : ex_reaches ps2 [(1, 10); (2, 9)].
Proof. solve_reach2 ps1 ps2 ex_reach1. Qed.

(** ** The run on a slow engine *)

Definition ss0 : qst sim_engine := ex_state POLL_MODE (mk_sim 4 0 0 [0; 0; 1; 0; 1; 0; 0; 0]%nat false).
Definition ss1 := run (ex_submit 100 1) ss0.
Definition ss2 := run (ex_submit 100 2) ss1.
Definition ss3 := run (ex_service 100 0 false) ss2.

Lemma ss_reach0 : ex_reaches ss0 [].
Proof. solve_reach0. Qed.
Lemma ss_reach1 : ex_reaches ss1 [(1, 10)].
Proof. solve_reach1 ss0 ss1 ss_reach0. Qed.
Lemma ss_reach2 : ex_reaches ss2 [(1, 10); (2, 9)].
Proof. solve_reach2 ss1 ss2 ss_reach1. Qed.
Lemma ss_reach3 : ex_reaches ss3 [(1, 10); (2, 9)].
Proof.
  apply (reach_service _ _ _ _ _ ss2 _ 100 0 false 0 ss3); [exact ss_reach2|vm_compute; reflexivity].
Qed.

(** ** Witnesses *)

Lemma ring_accounting_witness :
  ex_reaches ss2 [(1, 10); (2, 9)] ∧
  dq_credit (s_q ss2) + (dq_pidx (s_q ss2) - dq_cidx (s_q ss2)) mod 4 =
    sumz (map (req_nr (s_reqs ss2)) (dq_pend_list (s_q ss2) ++ dq_work_list (s_q ss2))) ∧
  dq_avail (s_q ss2) = 1 ∧ dq_work_list (s_q ss2) = [2].
Proof.
  split; [exact ss_reach2|]. split; [|split; vm_compute; reflexivity].
  destruct (ring_accounting ex_fill ex_map ex_map_err ex_c2h ex_proc_c2h ss2 _ ss_reach2)
    as (_ & _ & _ & _ & Hc & _). exact Hc.
Defined.

Lemma completion_fifo_witness :
  ex_reaches ss3 [(1, 10); (2, 9)] ∧
  completed (s_ev ss3) ++ dq_pend_list (s_q ss3) ++ dq_work_list (s_q ss3) = [1; 2] ∧
  completed (s_ev ss3) = [1].
Proof.
  split; [exact ss_reach3|]. split; [|vm_compute; reflexivity].
  destruct (completion_fifo ex_fill ex_map ex_map_err ex_c2h ex_proc_c2h ss3 _ ss_reach3) as [Hl _]. exact Hl.
Defined.

Lemma mm_proc_terminates_witness :
  work_left ss2 < Z.of_nat 8 ∧
  ∃ rv s' w, descq_mm_proc_request ex_fill 8 ss2 = Some (rv, s') ∧ (rv = 0 ∨ rv = - EINVAL) ∧ 0 <= w ∧
    work_left s' + w <= work_left ss2 ∧
    (ready ss2 → rv = 0 → ready s' ∧ (dq_work_list (s_q s') = [] ∨ dq_avail (s_q ss2) <= w)).
Proof.
  split; [vm_compute; reflexivity|].
  apply (mm_proc_terminates ex_fill ex_map ex_map_err ex_c2h ex_proc_c2h ss2 [(1, 10); (2, 9)] 8);
    [exact ss_reach2|vm_compute; reflexivity].
Defined.

Lemma polled_queue_drains_witness :
  dq_work_list (s_q ps2) = [2] ∧
  ∃ s', service_n ex_fill ex_proc_c2h 5 100 0 false ps2 = Some s' ∧
    dq_work_list (s_q s') = [] ∧ dq_pend_list (s_q s') = [] ∧ completed (s_ev s') = [1; 2].
Proof.
  split; [vm_compute; reflexivity|].
  apply (polled_queue_drains ex_fill ex_map ex_map_err ex_c2h ex_proc_c2h ps2 [(1, 10); (2, 9)] 100 0 false).
  - exact ex_reach2.
  - vm_compute. tauto.
  - left. vm_compute. reflexivity.
  - vm_compute. reflexivity.
Defined.

Lemma cmpt_ring_next_larger_witness :
  let x := ex_x POLL_MODE in
  let c := conf_zero <| qc_cmpl_rng_sz_idx := 2 |> in
  qc_rngsz_cmpt (cmpt_ring_conf x c) = 19 ∧
  ∀ sz, sz ∈ xd_csr_ring_sz x → 17 < sz → 17 <= qc_rngsz_cmpt (cmpt_ring_conf x c) < sz.
Proof.
  split; [vm_compute; reflexivity|].
  destruct (cmpt_ring_next_larger (ex_x POLL_MODE) (conf_zero <| qc_cmpl_rng_sz_idx := 2 |>)) as (_ & _ & _ & Hn).
  - reflexivity.
  - repeat (apply List.Forall_cons; [lia|]); apply List.Forall_nil.
  - vm_compute. split; [discriminate|reflexivity].
  - exact Hn.
Defined.

Lemma desc_alloc_irq_least_loaded_witness :
  let x := ex_x DIRECT_INTR_MODE in
  dq_intr_id (desc_alloc_irq x (qdma_descq_init 0 0 0)) = 2 ∧
  ∀ i, 1 <= i < 4 → 1 <= arr (xd_intr_list_cnt x) i.
Proof.
  split; [vm_compute; reflexivity|].
  destruct (desc_alloc_irq_least_loaded (ex_x DIRECT_INTR_MODE) (qdma_descq_init 0 0 0)) as [_ Hn].
  - reflexivity.
  - simpl. lia.
  - reflexivity.
  - repeat (apply List.Forall_cons; [lia|]); apply List.Forall_nil.
  - exact Hn.
Defined.

(** The first request on an empty ring, from the last entry on. *)
Lemma mm_round_covers_witness :
  let '(v, _) := mm_fill ex_q0 ex_r1 3 3 0 0 in
  let ring := set_flag S_DESC_F_SOP 3 (set_flag S_DESC_F_EOP 0 (v_ring v)) in
  v_cnt v = 2 ∧ host_bytes false (ring_read mm_desc0 4 ring 3 2) = seqZ 4096 6 ++ seqZ 8192 4.
Proof.
  split; [vm_compute; reflexivity|].
  refine (proj1 (mm_round_covers ex_q0 ex_r1 3 3 0 0 _ (snd (mm_fill ex_q0 ex_r1 3 3 0 0)) 0 _ _ _ _ _ _ _ _ _)).
  - split; [vm_compute; split; reflexivity|left; reflexivity|reflexivity].
  - exact ex_rq1_ok.
  - left. vm_compute. split; [discriminate|reflexivity].
  - reflexivity.
  - vm_compute. split; [discriminate|reflexivity].
  - vm_compute; split; reflexivity.
  - reflexivity.
  - reflexivity.
  - reflexivity.
Defined.

(** ** Outside the theorems *)

(** A request that times out is taken off its list, but its descriptors stay
    on the ring.  When they complete, the credits go to the next request, which
    is reported as done although none of its descriptors was consumed. *)
Definition ex_sync : gmap Z qdma_request :=
  <[1 := ex_rq false 10 0 [ex_sg 4096 6; ex_sg 8192 4]]>
  (<[2 := ex_rq true 4 64 [ex_sg 12288 4]]> ∅).

Definition ts0 : qst sim_engine :=
  ex_state POLL_MODE (mk_sim 4 0 0 [0; 0; 2]%nat false) <| s_reqs := ex_sync |>.
Definition ts1 := run (ex_submit 100 1) ts0.
Definition ts2 := run (qdma_request_submit_waited 1) ts1.
Definition ts3 := run (ex_submit 100 2) ts2.

(** Time-out of a waiting request: the request is given up with -EIO while its
    two descriptors are still outstanding, and the request submitted after it
    is reported as complete once these two are consumed, before the engine has
    touched the request's own descriptor. *)
Theorem timeout_completes_next_early :
  ex_submit 100 1 ts0 = Some (SubmitWait, ts1) ∧
  qdma_request_submit_waited 1 ts1 = Some (SubmitRet (- EIO), ts2) ∧
  ex_submit 100 2 ts2 = Some (SubmitRet 0, ts3) ∧
  sim_posted (s_hw ts1) = 2 ∧ sim_posted (s_hw ts3) = 3 ∧ sim_done (s_hw ts3) = 2 ∧
  s_ev ts3 = [EvDone 2 4 0].
Proof. vm_compute. repeat split. Qed.

(** A batch of two requests is put on the work list without being counted, so the
    counter of waiting requests is below zero once they are processed. *)
Theorem batch_submit_counter_underflow :
  ∃ s', qdma_batch_request_submit ex_fill ex_map ex_map_err ex_c2h 100 [1; 2] ps0 = Some (0, s') ∧
        dq_work_list (s_q s') = [2] ∧ dq_work_req_pend (s_q s') = 2 ^ 32 - 1 ∧
        qdma_work_queue_len s' = Some (-1, s').
Proof. eexists. split; [vm_compute; reflexivity|]. by vm_compute. Qed.

(** ** Scatter lists shorter than the request *)

(** At the end of the list the search gives no entry. *)
Lemma sgl_scan_end sgl : ∀ i len,
  Forall sg_ok sgl → Forall (λ sg, 0 < sg_len sg) sgl → sgl ≠ [] → 0 <= len → len + sgl_len sgl < 2 ^ 32 →
  sgl_scan sgl i len (len + sgl_len sgl) = Some (i + Z.of_nat (length sgl), i + Z.of_nat (length sgl), 0).
Proof.
  induction sgl as [|sg sgl IH]; intros i len Hok Hpos Hne Hl Hb; [done|].
  apply Forall_cons in Hok as [(Hsl & _) Hok]. apply Forall_cons in Hpos as [Hp Hpos].
  rewrite sgl_len_cons in * by lia. assert (0 <= sgl_len sgl) by (unfold sgl_len; lia).
  cbn [sgl_scan]. rewrite u32_small by lia. destruct sgl as [|sg' sgl].
  { unfold sgl_len. simpl. rewrite (proj2 (Z.eqb_eq _ _)) by lia. done. }
  assert (0 < sgl_len (sg' :: sgl)).
  { apply Forall_cons in Hpos as [? _]. apply Forall_cons in Hok as [(? & _) _]. rewrite sgl_len_cons by lia.
    assert (0 <= sgl_len sgl) by (unfold sgl_len; lia). lia. }
  rewrite (proj2 (Z.eqb_neq _ _)) by lia. rewrite (proj2 (Z.ltb_ge _ _)) by lia.
  replace (len + (sg_len sg + sgl_len (sg' :: sgl))) with (len + sg_len sg + sgl_len (sg' :: sgl)) by lia.
  rewrite IH by (done || lia). cbn [length]. by rewrite !Nat2Z.inj_succ, <- !Z.add_1_l, !Z.add_assoc.
Qed.

(** Adding nothing to a request that is not finished changes only its cursor. *)
Lemma update_request_zero {H} (s : qst H) r rq :
  s_reqs s !! r = Some rq → 0 <= cb_offset (rq_cb rq) < rq_count rq → rq_count rq < 2 ^ 32 →
  ∃ rq', qdma_update_request r 0 0 0 None s = Some (tt, s <| s_reqs := <[r := rq']> (s_reqs s) |>) ∧
    rq_count rq' = rq_count rq ∧ rq_sgl rq' = rq_sgl rq ∧ cb_offset (rq_cb rq') = cb_offset (rq_cb rq).
Proof.
  intros Hr Ho Hc. exists (rq <| rq_cb := cb_advanced (rq_cb rq) 0 0 0 None |>).
  split; [|split; [done|split; [done|]]]; cycle 1.
  { simpl. rewrite Z.add_0_r. apply u32_small. lia. }
  unfold qdma_update_request. set (s1 := s <| s_reqs := _ |>).
  assert (modcb (H := H) r (λ cb, cb_advanced cb 0 0 0 None) s = Some (tt, s1)) as Hm.
  { unfold modcb, getreq, putreq, mbind, qm_bind. by rewrite Hr. }
  erewrite qm_bind_eq by exact Hm.
  erewrite qm_bind_eq by (unfold getreq, s1; simpl; by rewrite lookup_insert_eq).
  simpl. rewrite u32_small by lia. by rewrite (proj2 (Z.leb_gt _ _)) by lia.
Qed.

Section short.
Context {H : Type} `{QueueHw H}.
Variable fp_bypass_desc_fill : bool → Z → Z → qm H Z.

(** A request whose scatter list ends before its byte count: once all entries have
    descriptors and the ring has a free one, the loop of descq_mm_proc_request
    finds no entry for the next byte, adds nothing, keeps the request first in
    line and starts over; it returns for no amount of fuel. *)
Theorem mm_short_list_never_returns fuel : ∀ pidx w (s : qst H) r rs rq,
  dq_work_list (s_q s) = r :: rs → s_reqs s !! r = Some rq → is_ul_ext (s_q s) = false →
  0 < dq_avail (s_q s) → cb_offset (rq_cb rq) = sgl_len (rq_sgl rq) →
  sgl_len (rq_sgl rq) < rq_count rq < 2 ^ 32 → Forall sg_ok (rq_sgl rq) →
  Forall (λ sg, 0 < sg_len sg) (rq_sgl rq) →
  mm_while fp_bypass_desc_fill fuel pidx w s = None.
Proof.
  induction fuel as [|fuel IH]; intros pidx w s r rs rq Hw Hr Hu Ha Ho Hs Hsg Hpos; [done|].
  assert (0 <= sgl_len (rq_sgl rq)) by (unfold sgl_len; lia).
  assert (Hf : qdma_sgl_find_offset rq = (- EINVAL, 0, 0)).
  { unfold qdma_sgl_find_offset. rewrite (proj2 (Z.eqb_neq _ _)) by lia. rewrite Ho.
    destruct (decide (rq_sgl rq = [])) as [->|Hne]; [done|].
    pose proof (sgl_scan_end (rq_sgl rq) 0 0 Hsg Hpos Hne) as He. rewrite !Z.add_0_l in He.
    rewrite He by lia. unfold rq_sgcnt. by rewrite Z.ltb_irrefl. }
  cbn [mm_while]. erewrite qm_bind_eq by done. rewrite Hw.
  erewrite qm_bind_eq by (unfold getreq; by rewrite Hr).
  erewrite (qm_bind_eq descq_desc_max) by (unfold descq_desc_max; erewrite qm_bind_eq by done;
    rewrite (proj2 (Z.eqb_neq (dq_avail (s_q s)) 0)) by lia; reflexivity).
  rewrite (proj2 (Z.eqb_neq (dq_avail (s_q s)) 0)) by lia. rewrite Hu, Hf. cbv beta iota.
  change (- EINVAL <? 0) with true. cbv iota.
  destruct (update_request_zero s r rq Hr) as (rq' & Hrun & Ec & Esg & Eo); [lia..|].
  erewrite qm_bind_eq by exact Hrun. apply (IH _ _ _ r rs rq'); try done; simpl.
  - by rewrite lookup_insert_eq.
  - by rewrite Eo, Esg.
  - by rewrite Ec, Esg.
  - by rewrite Esg.
  - by rewrite Esg.
Qed.
End short.

(** Ten bytes announced, six in the list. *)
Definition ex_short : qdma_request := ex_rq true 10 0 [ex_sg 4096 6].
Definition hs0 : qst prompt_sim :=
  ps0 <| s_reqs := <[3 := ex_short <| rq_cb := cb_zero <| cb_offset := 6 |> |>]> ∅ |>
      <| s_q := s_q ps0 <| dq_work_list := [3] |> |>.

Lemma mm_short_list_never_returns_witness : mm_while ex_fill 1000 1 1 hs0 = None.
Proof.
  apply (mm_short_list_never_returns ex_fill 1000 1 1 hs0 3 [] (ex_short <| rq_cb := cb_zero <| cb_offset := 6 |> |>)).
  - reflexivity.
  - vm_compute. reflexivity.
  - reflexivity.
  - vm_compute. reflexivity.
  - reflexivity.
  - vm_compute. split; reflexivity.
  - repeat (apply List.Forall_cons; [unfold sg_ok; simpl; lia|]). apply List.Forall_nil.
  - repeat (apply List.Forall_cons; [simpl; lia|]). apply List.Forall_nil.
Defined.
