(* ===== verification/Threads.v ===== *)
(** * Assignment of queues to threads (qdma_thread.c)

    A queue that starts is given a processor for its interrupt work or, in
    polled mode, a completion status thread; a queue that stops gives it back. *)

From S2P Require Import Prelude Platform SoftAccess QueueTypes DescRing Descq.
From S2P Require Import DescqProc DescqConf.

(** [per_cpu_qcnt], and [work_cnt] of every element of [cs_threads]; their
    lengths are [cpu_count] and [thread_cnt]. *)
Record th_state := mk_th { th_cpu : list Z; th_work : list Z }.

(** The loop from processor [i] down to 0, as long as [v] is not 0. *)
Fixpoint cpu_scan (l : list Z) (n : nat) (idx v : Z) : Z :=
  match n with
  | O => idx
  | S i =>
      if v =? 0 then idx
      else
        let c := arr l (Z.of_nat i) in
        if c <? v then cpu_scan l i (Z.of_nat i) c else cpu_scan l i idx v
  end.

Definition cpu_pick (l : list Z) : Z :=
  let last := Z.of_nat (length l) - 1 in cpu_scan l (Z.to_nat last) last (arr l last).

(** The loop over the threads from [i] on; [None] stands for [idx = thread_cnt],
    before any thread was looked at.  The count [v] is that of the first one. *)
Fixpoint thread_scan (l : list Z) (i : Z) (idx : option Z) (v : Z) : option Z :=
  match l with
  | [] => idx
  | c :: l =>
      match idx with
      | None => thread_scan l (i + 1) (Some i) c
      | Some _ =>
          if c =? 0 then Some i
          else if c <? v then thread_scan l (i + 1) (Some i) v
          else thread_scan l (i + 1) idx v
      end
  end.

Definition thread_pick (l : list Z) : option Z := thread_scan l 0 None 0.

Definition bump (d : Z) (i : Z) (l : list Z) : list Z := alter (λ c, u32 (c + d)) (Z.to_nat i) l.

(** [None]: the write behind [cs_threads] when there is no thread. *)
Definition qdma_thread_add_work (m : qdma_drv_mode_t) (t : th_state) (q : qdma_descq) :
    option (th_state * qdma_descq) :=
  match m with
  | POLL_MODE =>
      match thread_pick (th_work t) with
      | None => None
      | Some idx =>
          Some (mk_th (th_cpu t) (bump 1 idx (th_work t)), q <| dq_intr_work_cpu := idx |> <| dq_cmplthp := true |>)
      end
  | _ =>
      let idx := cpu_pick (th_cpu t) in
      Some (mk_th (bump 1 idx (th_cpu t)) (th_work t), q <| dq_cpu_assigned := true |> <| dq_intr_work_cpu := idx |>)
  end.

(** The thread of a queue is the one its work was added to, [intr_work_cpu]. *)
Definition qdma_thread_remove_work (t : th_state) (q : qdma_descq) : th_state * qdma_descq :=
  let cpu :=
    if dq_cpu_assigned q && (dq_intr_work_cpu q <? Z.of_nat (length (th_cpu t)))
    then bump (-1) (dq_intr_work_cpu q) (th_cpu t) else th_cpu t in
  let work := if dq_cmplthp q then bump (-1) (dq_intr_work_cpu q) (th_work t) else th_work t in
  (mk_th cpu work, q <| dq_cmplthp := false |> <| dq_cpu_assigned := false |>).

(** ** Theorems *)

Lemma cpu_scan_ok l n : ∀ idx v,
  Forall (λ c, 0 <= c) l → (n <= length l)%nat → 0 <= idx < Z.of_nat (length l) → v = arr l idx →
  (∀ j, Z.of_nat n <= j < Z.of_nat (length l) → v <= arr l j) →
  0 <= cpu_scan l n idx v < Z.of_nat (length l) ∧
  ∀ j, 0 <= j < Z.of_nat (length l) → arr l (cpu_scan l n idx v) <= arr l j.
Proof.
  assert (Hnn : ∀ j, Forall (λ c, 0 <= c) l → 0 <= arr l j).
  { intros j Hl. unfold arr. destruct (nth_in_or_default (Z.to_nat j) l 0) as [Hin|Hd]; [|by rewrite Hd].
    rewrite Forall_forall in Hl. apply Hl. by apply list_elem_of_In. }
  induction n as [|n IH]; intros idx v Hl Hn Hi Hv Hmin; simpl.
  { split; [done|]. intros j Hj. rewrite <- Hv. apply Hmin. lia. }
  destruct (v =? 0) eqn:Hz.
  { split; [done|]. intros j Hj. rewrite <- Hv. specialize (Hnn j Hl). lia. }
  destruct (arr l (Z.of_nat n) <? v) eqn:Hc; apply IH; try done; try lia.
  - intros j Hj. destruct (decide (j = Z.of_nat n)) as [->|]; [lia|]. specialize (Hmin j). lia.
  - intros j Hj. destruct (decide (j = Z.of_nat n)) as [->|]; [lia|]. apply Hmin. lia.
Qed.

Lemma bump_back i l : Forall (λ c, 0 <= c < 2 ^ 32 - 1) l → bump (-1) i (bump 1 i l) = l.
Proof.
  intros Hl. unfold bump. apply list_eq. intros j.
  destruct (decide (Z.to_nat i = j)) as [->|]; [|by rewrite !list_lookup_alter_ne].
  rewrite !list_lookup_alter_eq. destruct (l !! j) as [c|] eqn:Hj; [|done]. simpl.
  apply (Forall_lookup_1 _ _ _ _ Hl) in Hj. simpl in Hj. rewrite (u32_small (c + 1)) by lia.
  rewrite u32_small by lia. f_equal. lia.
Qed.

(** Interrupt driven queues go to a processor with the fewest queues, and
    stopping the queue restores every count of processors and threads. *)
Theorem thread_work_roundtrip m t q t' q' :
  Forall (λ c, 0 <= c < 2 ^ 32 - 1) (th_cpu t) → Forall (λ c, 0 <= c < 2 ^ 32 - 1) (th_work t) →
  th_cpu t ≠ [] → dq_cpu_assigned q = false → dq_cmplthp q = false →
  qdma_thread_add_work m t q = Some (t', q') →
  qdma_thread_remove_work t' q' = (t, q <| dq_intr_work_cpu := dq_intr_work_cpu q' |>) ∧
  (m ≠ POLL_MODE → ∀ j, 0 <= j < Z.of_nat (length (th_cpu t)) →
     0 <= dq_intr_work_cpu q' < Z.of_nat (length (th_cpu t)) ∧
     arr (th_cpu t) (dq_intr_work_cpu q') <= arr (th_cpu t) j).
Proof.
  intros Hc Hw Hne Ha Ht Hadd.
  assert (Hlen : 0 < Z.of_nat (length (th_cpu t))) by (destruct (th_cpu t); [done|simpl; lia]).
  assert (Hnn : Forall (λ c, 0 <= c) (th_cpu t)) by (eapply Forall_impl; [exact Hc|]; simpl; lia).
  destruct (cpu_scan_ok (th_cpu t) (Z.to_nat (Z.of_nat (length (th_cpu t)) - 1)) (Z.of_nat (length (th_cpu t)) - 1)
    (arr (th_cpu t) (Z.of_nat (length (th_cpu t)) - 1)) Hnn) as [Hr Hmin]; [lia|lia|done|..].
  { intros j Hj. assert (j = Z.of_nat (length (th_cpu t)) - 1) as -> by lia. done. }
  fold (cpu_pick (th_cpu t)) in Hr, Hmin.
  assert (Hcpu : m ≠ POLL_MODE → t' = mk_th (bump 1 (cpu_pick (th_cpu t)) (th_cpu t)) (th_work t) ∧
    q' = q <| dq_cpu_assigned := true |> <| dq_intr_work_cpu := cpu_pick (th_cpu t) |>).
  { intros Hm. destruct m; try done; by injection Hadd as <- <-. }
  destruct (decide (m = POLL_MODE)) as [->|Hm].
  - split; [|done]. simpl in Hadd. destruct (thread_pick (th_work t)) as [i|]; [|done]. injection Hadd as <- <-.
    unfold qdma_thread_remove_work. simpl. rewrite Ha, bump_back by done. simpl.
    destruct t, q. simpl in *. by subst.
  - destruct (Hcpu Hm) as [-> ->]. split.
    + unfold qdma_thread_remove_work. simpl. unfold bump at 1. rewrite length_alter.
      rewrite (proj2 (Z.ltb_lt _ _)) by lia. rewrite Ht, bump_back by done. destruct t, q. simpl in *. by subst.
    + intros _ j Hj. simpl. split; [done|]. by apply Hmin.
Qed.

(** In polled mode the least loaded thread is not always found: the count a
    thread is compared with stays that of the first thread. *)
Theorem thread_pick_not_least_loaded :
  thread_pick [3; 1; 2] = Some 2 ∧ arr [3; 1; 2] 1 < arr [3; 1; 2] 2.
Proof. by vm_compute. Qed.

Lemma thread_work_roundtrip_witness :
  ∃ t q, qdma_thread_add_work DIRECT_INTR_MODE (mk_th [2; 0; 1] [1]) (qdma_descq_init 0 0 0) = Some (t, q) ∧
  fst (qdma_thread_remove_work t q) = mk_th [2; 0; 1] [1].
Proof.
  eexists _, _. split; [reflexivity|].
  refine (f_equal fst (proj1 (thread_work_roundtrip DIRECT_INTR_MODE (mk_th [2; 0; 1] [1]) (qdma_descq_init 0 0 0)
    _ _ _ _ _ _ _ eq_refl))); [repeat (apply List.Forall_cons; [lia|]); apply List.Forall_nil..|done|done|done].
Defined.
