(* ===== verification/CtxtSetup.v ===== *)
(** * Queue contexts from the configuration of a queue (qdma_context.c)

    The physical function composes the software, prefetch and completion
    contexts of a queue from its configuration and programs them through the
    access table, after clearing what was there.  A virtual function sends the
    configuration to the physical function instead; [vf_descq_conf] is what it
    sends. *)

From S2P Require Import Prelude Platform Bits RegIO CtxtTypes.
From S2P Require Import IndCtxt SoftReg SoftCtxt SoftAccess RegList HwAccess ResMgmt.
From S2P Require Import MboxMsg MboxStruct MboxCompose MboxHandler.
From S2P Require Import QueueTypes DescRing Descq DescqProc DescqConf.

Definition FETCH_MAX_NUM : Z := 7.
Definition DESC_SZ_8B : Z := 0.
Definition DESC_SZ_16B : Z := 1.
Definition DESC_SZ_32B : Z := 2.

(** The interrupt ring of a vector. *)
Definition get_intr_ring_index (x : xlnx_dma_dev) (vector_index : Z) : Z :=
  s32 (vector_index - xd_dvec_start_idx x + xd_func_id x * QDMA_NUM_DATA_VEC_FOR_INTR_CXT).

(** [qdma_drv_mode == INDIRECT_INTR_MODE || qdma_drv_mode == AUTO_MODE] *)
Definition intr_aggregated (x : xlnx_dma_dev) : bool :=
  match xd_qdma_drv_mode x with INDIRECT_INTR_MODE | AUTO_MODE => true | _ => false end.

(** The vector or ring a queue interrupts. *)
Definition queue_vec (x : xlnx_dma_dev) (q : qdma_descq) : Z :=
  if intr_aggregated x then get_intr_ring_index x (dq_intr_id q) else dq_intr_id q.

(** ** Composing contexts *)

(** [descq->conf.desc_bypass && (descq->conf.sw_desc_sz == DESC_SZ_64B)] *)
Definition bypass_64b (c : qdma_queue_conf) : bool := nz (qc_desc_bypass c) && (qc_sw_desc_sz c =? DESC_SZ_64B).

(** Members that are not assigned keep the zero of the [memset]. *)
Definition make_sw_context (x : xlnx_dma_dev) (q : qdma_descq) : qdma_descq_sw_ctxt :=
  let c := dq_conf q in
  let st := nz (qc_st c) in
  let bypass := bypass_64b c in
  let off := st && (qc_q_type c =? Q_C2H) in
  {| sw_vec := u16 (queue_vec x q); sw_intr_aggr := if intr_aggregated x then 1 else 0;
     sw_ring_bs_addr := dq_desc_bus q;
     sw_wbi_chk := if off then 0 else qc_cmpl_status_pend_chk c;
     sw_wbi_intvl_en := qc_cmpl_status_acc_en c; sw_rngsz_idx := qc_desc_rng_sz_idx c;
     sw_bypass := qc_desc_bypass c;
     sw_wbk_en := if off then 0 else qc_wb_status_en c;
     sw_irq_en := if off then 0 else qc_irq_en c;
     sw_is_mm := u8 (Z.lnot (qc_st c)); sw_qen := 1;
     sw_desc_sz :=
       if bypass then qc_sw_desc_sz c
       else if negb st then DESC_SZ_32B
       else if qc_q_type c =? Q_C2H then DESC_SZ_8B
       else DESC_SZ_16B;
     sw_fetch_max := if bypass then 0 else FETCH_MAX_NUM;
     sw_mm_chn := if bypass then 0 else if negb st then dq_channel q else 0;
     sw_host_id := if bypass then 0 else if negb st then dq_channel q else 0;
     sw_frcd_en :=
       if bypass then 0
       else if negb st then 0
       else if (qc_q_type c =? Q_C2H) || (qc_q_type c =? Q_H2C) then qc_fetch_credit c
       else 0;
     sw_fnc_id := u8 (xd_func_id x);
     sw_irq_arm := if off then 0 else qc_irq_en c;
     sw_mrkr_dis := if negb (nz (qc_desc_bypass c)) && (negb st || (qc_q_type c =? Q_H2C)) then 1 else 0;
     sw_pidx := 0; sw_at := 0; sw_port_id := 0; sw_irq_no_last := 0; sw_err := 0;
     sw_err_wb_sent := 0; sw_irq_req := 0; sw_pasid_en := 0; sw_dis_intr_on_vf := 0;
     sw_virtio_en := 0; sw_pack_byp_out := 0; sw_irq_byp := 0; sw_pasid := 0;
     sw_virtio_dsc_base := 0 |}.

Definition make_qid2vec_context (x : xlnx_dma_dev) (q : qdma_descq) : qdma_qid2vec :=
  let vec_num := u8 (queue_vec x q) in
  let en_coal := if intr_aggregated x then 1 else 0 in
  if qc_q_type (dq_conf q) =? Q_C2H then mk_qid2vec vec_num en_coal 0 0
  else if qc_q_type (dq_conf q) =? Q_H2C then mk_qid2vec 0 0 vec_num en_coal
  else mk_qid2vec 0 0 0 0.

Definition make_prefetch_context (q : qdma_descq) : qdma_descq_prefetch_ctxt :=
  let c := dq_conf q in
  {| pf_valid := 1; pf_bypass := qc_pfetch_bypass c; pf_bufsz_idx := qc_c2h_buf_sz_idx c;
     pf_pfch_en := qc_pfetch_en c; pf_sw_crdt := 0; pf_port_id := 0; pf_var_desc := 0;
     pf_num_pftch := 0; pf_err := 0; pf_pfch := 0 |}.

Definition make_cmpt_context (x : xlnx_dma_dev) (q : qdma_descq) : qdma_descq_cmpt_ctxt :=
  let c := dq_conf q in
  {| cmpt_en_stat_desc := qc_cmpl_stat_en c; cmpt_en_int := qc_cmpl_en_intr c;
     cmpt_trig_mode := qc_cmpl_trig_mode c; cmpt_fnc_id := u8 (xd_func_id x);
     cmpt_timer_idx := qc_cmpl_timer_idx c; cmpt_counter_idx := qc_cmpl_cnt_th_idx c;
     cmpt_color := 1; cmpt_ringsz_idx := qc_cmpl_rng_sz_idx c;
     cmpt_bs_addr := dq_desc_cmpt_bus q; cmpt_desc_sz := qc_cmpl_desc_sz c;
     cmpt_full_upd := qc_adaptive_rx c; cmpt_valid := 1;
     CtxtTypes.cmpt_ovf_chk_dis := qc_cmpl_ovf_chk_dis c;
     cmpt_vec := u16 (queue_vec x q); cmpt_int_aggr := if intr_aggregated x then 1 else 0;
     cmpt_pidx := 0; cmpt_cidx := 0; cmpt_in_st := 0; cmpt_err := 0; cmpt_user_trig_pend := 0;
     cmpt_timer_running := 0; cmpt_at := 0; cmpt_dis_intr_on_vf := 0;
     cmpt_vio := 0; cmpt_dir_c2h := 0; cmpt_host_id := 0; cmpt_pasid := 0; cmpt_pasid_en := 0;
     cmpt_vio_eop := 0; cmpt_sh_cmpt := 0 |}.

(** ** What a virtual function sends *)

(** The configuration in the message of a virtual function; its flags are bit
    fields of the same widths on both sides. *)
Definition vf_descq_conf (x : xlnx_dma_dev) (q : qdma_descq) : mbox_descq_conf :=
  let c := dq_conf q in
  let st := nz (qc_st c) in
  let own := negb (bypass_64b c) && negb (qc_q_type c =? Q_CMPT) in
  {| c_ring_bs_addr := dq_desc_bus q; c_cmpt_ring_bs_addr := dq_desc_cmpt_bus q;
     c_en_bypass := qc_desc_bypass c; c_irq_arm := qc_irq_en c;
     c_wbi_intvl_en := qc_cmpl_status_acc_en c; c_wbi_chk := qc_cmpl_status_pend_chk c;
     c_at := qc_at c; c_wbk_en := qc_wb_status_en c; c_irq_en := qc_irq_en c;
     c_pfch_en := qc_pfetch_en c; c_en_bypass_prefetch := qc_pfetch_bypass c;
     c_dis_overflow_check := qc_cmpl_ovf_chk_dis c; c_cmpt_int_en := qc_cmpl_en_intr c;
     c_cmpl_stat_en := qc_cmpl_stat_en c;
     c_desc_sz :=
       if bypass_64b c then qc_sw_desc_sz c
       else if own then
         if negb st then DESC_SZ_32B else if nz (qc_q_type c) then DESC_SZ_8B else DESC_SZ_16B
       else 0;
     c_forced_en := if own && st && nz (qc_q_type c) then qc_fetch_credit c else 0;
     c_cmpt_desc_sz := qc_cmpl_desc_sz c; c_triggermode := qc_cmpl_trig_mode c;
     c_cmpt_at := qc_at c; c_cmpt_color := 1; c_cmpt_full_upd := 0; c_func_id := xd_func_id x;
     c_cnt_thres := u8 (arr (xd_csr_c2h_cnt_th x) (qc_cmpl_cnt_th_idx c));
     c_timer_thres := u8 (arr (xd_csr_c2h_timer_cnt x) (qc_cmpl_timer_idx c));
     c_ringsz := u16 (qc_rngsz c); c_bufsz := u16 (qc_c2h_bufsz c); c_cmpt_ringsz := u16 (qc_rngsz_cmpt c);
     c_intr_id :=
       wrap 11 (if intr_aggregated x then Z.land (get_intr_ring_index x (dq_intr_id q)) 0xFFF
                else dq_intr_id q);
     c_intr_aggr := if intr_aggregated x then 1 else 0; c_rsvd := 0; c_filler := 0 |}.

Definition vf_cmpt_ctxt_type (st : bool) (q_type : Z) : mbox_cmpt_ctxt_type :=
  if negb st then if q_type =? Q_CMPT then QDMA_MBOX_CMPT_CTXT_ONLY else QDMA_MBOX_CMPT_CTXT_NONE
  else if q_type =? Q_C2H then QDMA_MBOX_CMPT_WITH_ST else QDMA_MBOX_CMPT_CTXT_NONE.

(** ** Programming *)

Section program.
Context {dev : Type} `{HwAccess dev}.

(** The entry for qid2vec contexts, which the hard IP has, and the capability. *)
Variable qid2vec_ctx : bool.
Variable ha_qid2vec_conf : Z → Z → qdma_qid2vec → qdma_hw_access_type → hwm dev Z.

(** An entry of the access table, called from the code of a queue. *)
Definition qhw {A} (m : hwm dev (Z * A)) : qm (hw_state dev) Z := λ s,
  match m (s_hw s) with
  | None => None
  | Some ((rv, _), h) => Some (rv, s <| s_hw := h |>)
  end.

(** [qdma_get_error_code], which reads outside its table for other values. *)
Definition get_error_code (rv : Z) : qm (hw_state dev) Z :=
  match qdma_get_err_code rv with Some e => mret e | None => qfail end.

(** Call, and return the translated error. *)
Definition checked (m k : qm (hw_state dev) Z) : qm (hw_state dev) Z :=
  rv ← m; if rv <? 0 then get_error_code rv else k.

Definition has_cmpt_ctxt (st : bool) (type : Z) : bool :=
  (st && (type =? Q_C2H)) || (negb st && (type =? Q_CMPT)).

(** Both branches of the code make the same calls, with the access type [t]. *)
Definition qdma_descq_context_clear (qid_hw : Z) (st : bool) (type : Z) (clr : bool) : qm (hw_state dev) Z :=
  let t := if clr then QDMA_HW_ACCESS_CLEAR else QDMA_HW_ACCESS_INVALIDATE in
  let cmpt :=
    if has_cmpt_ctxt st type then checked (qhw (ha_cmpt_ctx_conf qid_hw None t)) (mret 0) else mret 0 in
  if negb (type =? Q_CMPT) then
    checked (qhw (ha_sw_ctx_conf type qid_hw None t))
    (checked (qhw (ha_hw_ctx_conf type qid_hw None t))
    (checked (qhw (ha_credit_ctx_conf type qid_hw None t))
    (if st && (type =? Q_C2H) then checked (qhw (ha_pfetch_ctx_conf qid_hw None t)) cmpt else cmpt)))
  else cmpt.

(** The members of [struct qdma_descq_context] that are programmed. *)
Record descq_context := mk_context {
  dc_sw : qdma_descq_sw_ctxt; dc_qid2vec : qdma_qid2vec; dc_pfetch : qdma_descq_prefetch_ctxt;
  dc_cmpt : qdma_descq_cmpt_ctxt;
}.

Definition qdma_descq_context_program (qid_hw : Z) (st : bool) (type : Z) (ctx : descq_context) :
    qm (hw_state dev) Z :=
  checked (qdma_descq_context_clear qid_hw st type true) (
    let cmpt :=
      if has_cmpt_ctxt st type
      then checked (qhw (ha_cmpt_ctx_conf qid_hw (Some (dc_cmpt ctx)) QDMA_HW_ACCESS_WRITE)) (mret 0) else mret 0 in
    if negb (type =? Q_CMPT) then
      checked (qhw (ha_sw_ctx_conf type qid_hw (Some (dc_sw ctx)) QDMA_HW_ACCESS_WRITE)) (
        x ← getx;
        (if qid2vec_ctx && negb (bool_decide (xd_qdma_drv_mode x = POLL_MODE))
         then qhw (rv ← ha_qid2vec_conf type qid_hw (dc_qid2vec ctx) QDMA_HW_ACCESS_WRITE; mret (rv, tt))
         else mret 0);;
        if st && nz type
        then checked (qhw (ha_pfetch_ctx_conf qid_hw (Some (dc_pfetch ctx)) QDMA_HW_ACCESS_WRITE)) cmpt else cmpt)
    else cmpt).

(** A context that is not composed keeps the zeroes of the [memset]. *)
Definition queue_context (x : xlnx_dma_dev) (q : qdma_descq) : descq_context :=
  let st := nz (qc_st (dq_conf q)) in
  let type := qc_q_type (dq_conf q) in
  let own := negb (type =? Q_CMPT) in
  {| dc_sw := if own then make_sw_context x q else sw_zeroed;
     dc_qid2vec :=
       if own && qid2vec_ctx && negb (bool_decide (xd_qdma_drv_mode x = POLL_MODE))
       then make_qid2vec_context x q else mk_qid2vec 0 0 0 0;
     dc_pfetch := if own && st && (type =? Q_C2H) then make_prefetch_context q else pfetch_zeroed;
     dc_cmpt := if has_cmpt_ctxt st type then make_cmpt_context x q else cmpt_zeroed |}.

Definition qdma_descq_context_setup : qm (hw_state dev) Z :=
  q ← getq;
  x ← getx;
  qdma_descq_context_program (dq_qidx_hw q) (nz (qc_st (dq_conf q))) (qc_q_type (dq_conf q)) (queue_context x q).

(** The clear of a stop ([clr] = 0) and of a failed start ([clr] = 1). *)
Definition queue_context_clear (clr : bool) : qm (hw_state dev) Z :=
  q ← getq;
  qdma_descq_context_clear (dq_qidx_hw q) (nz (qc_st (dq_conf q))) (qc_q_type (dq_conf q)) clr.
End program.
