(* ===== verification/CtxtSetupThms.v ===== *)
(** * Queue contexts: theorems

    What qdma_descq_context_setup programs on a device with the soft IP, how a
    virtual function's contexts differ from those of the physical function, and
    the error codes of the two calls. *)

From S2P Require Import Prelude Platform Bits RegIO CtxtTypes.
From S2P Require Import IndCtxt SoftReg SoftCtxt SoftCtxtThms SoftAccess RegList HwAccess ResMgmt.
From S2P Require Import MboxMsg MboxStruct MboxCompose MboxHandler MboxProgram.
From S2P Require Import QueueTypes DescRing Descq DescqProc DescqConf CtxtSetup.

(** ** Programming *)

(** All contexts: selector, queue and word. *)
Definition ram : Type := Z → Z → nat → Z.
Definition set_ram (qid : Z) (p : ind_ctxt_cmd_sel * list Z) (r : ram) : ram := λ sel' qid' i,
  if decide (addressed p.1 qid sel' qid') then u32 (default 0 (p.2 !! i)) else r sel' qid' i.
Definition set_rams (qid : Z) (l : list (ind_ctxt_cmd_sel * list Z)) (r : ram) : ram :=
  fold_left (λ r p, set_ram qid p r) l r.

Definition ram_eq (r r' : ram) : Prop := ∀ sel qid i, (i < 8)%nat → r sel qid i = r' sel qid i.
#[export] Instance ram_eq_equiv : Equivalence ram_eq.
Proof.
  split.
  - by intros r sel qid i.
  - intros r r' Hr sel qid i Hi. by rewrite Hr.
  - intros r1 r2 r3 H12 H23 sel qid i Hi. by rewrite H12, H23.
Qed.
#[export] Instance addressed_dec sel qid sel' qid' : Decision (addressed sel qid sel' qid') := and_dec _ _.
#[export] Instance set_ram_proper qid p : Proper (ram_eq ==> ram_eq) (set_ram qid p).
Proof. intros r r' Hr sel' qid' i Hi. unfold set_ram. case_decide; [done|]. by apply Hr. Qed.
#[export] Instance set_rams_proper qid l : Proper (ram_eq ==> ram_eq) (set_rams qid l).
Proof. induction l as [|p l IH]; intros r r' Hr; [done|]. cbn. apply IH. by rewrite Hr. Qed.

(** The contexts of the queue itself, and those of the others. *)
Lemma set_rams_own qid l sel i : ∀ (r : ram) r',
  (∀ sel i, r (sel_val sel) (cmd_qid qid) i = r' sel i) →
  set_rams qid l r (sel_val sel) (cmd_qid qid) i = set_ctxts l r' sel i.
Proof.
  induction l as [|p l IH]; intros r r' Hr; [apply Hr|].
  change (set_rams qid l (set_ram qid p r) (sel_val sel) (cmd_qid qid) i = set_ctxts l (set_ctxt p.1 p.2 r') sel i).
  apply IH. intros sel0 i0. unfold set_ram, set_ctxt. destruct (decide (sel0 = p.1)) as [->|Hne].
  - by rewrite decide_True.
  - rewrite decide_False; [apply Hr|]. by intros [?%sel_val_inj _].
Qed.

Lemma set_rams_frame qid l sel' qid' i :
  ¬ (qid' = cmd_qid qid ∧ ∃ sel, sel ∈ l.*1 ∧ sel' = sel_val sel) →
  ∀ r : ram, set_rams qid l r sel' qid' i = r sel' qid' i.
Proof.
  induction l as [|p l IH]; intros Hn r; [done|].
  change (set_rams qid l (set_ram qid p r) sel' qid' i = r sel' qid' i).
  rewrite IH by set_solver. unfold set_ram. rewrite decide_False; [done|]. intros [-> ->]. set_solver.
Qed.

Section program.
Context {dev : Type} `{Device dev} `{!IndirectCtxt dev} `{!TimelyDevice dev}.
Context (qid : Z).
Implicit Types s : qst (hw_state dev).

Definition rams s : ram := ctxt_ram (hw (s_hw s)).

(** [m] succeeds, changes the hardware only and sets these contexts of the queue. *)
Definition qprograms (m : qm (hw_state dev) Z) (l : list (ind_ctxt_cmd_sel * list Z)) : Prop :=
  ∀ s, idle (s_hw s) →
  ∃ h, m s = Some (0, s <| s_hw := h |>) ∧ idle h ∧ ram_eq (ctxt_ram (hw h)) (set_rams qid l (rams s)).

Lemma qprograms_nothing : qprograms (mret 0) [].
Proof using. intros s Hs. exists (s_hw s). by destruct s. Qed.

Lemma qprograms_try m k l1 l2 : qprograms m l1 → qprograms k l2 → qprograms (checked m k) (l1 ++ l2).
Proof using.
  intros Hm Hk s Hs. destruct (Hm s Hs) as (h1 & E1 & I1 & R1).
  assert (I1' : idle (s_hw (s <| s_hw := h1 |>))) by done.
  destruct (Hk _ I1') as (h2 & E2 & I2 & R2). exists h2. split_and!; [|done|].
  - unfold checked. by rewrite (qm_bind_eq _ _ _ _ _ E1).
  - unfold set_rams. rewrite fold_left_app. rewrite R2. apply (set_rams_proper qid l2). exact R1.
Qed.

Lemma qprograms_hw {A} (m : hwm dev (Z * A)) sel ws :
  (∀ h, idle h → ∃ a h', m h = Some ((QDMA_SUCCESS, a), h') ∧ idle h' ∧
     ∀ sel' qid' i, (i < 8)%nat →
       (addressed sel qid sel' qid' → ctxt_ram (hw h') sel' qid' i = u32 (default 0 (ws !! i))) ∧
       (¬ addressed sel qid sel' qid' → ctxt_ram (hw h') sel' qid' i = ctxt_ram (hw h) sel' qid' i)) →
  qprograms (qhw m) [(sel, ws)].
Proof using.
  intros Hm s Hs. destruct (Hm _ Hs) as (a & h' & E & I & K). exists h'. split_and!; [|done|].
  - unfold qhw. by rewrite E.
  - intros sel' qid' i Hi. cbn [set_rams fold_left]. unfold set_ram. cbn [fst snd].
    case_decide; by apply K.
Qed.

Lemma qprograms_opt (b : bool) m k (l1 l2 : list (ind_ctxt_cmd_sel * list Z)) :
  qprograms m l1 → qprograms k l2 → qprograms (if b then checked m k else k) ((if b then l1 else []) ++ l2).
Proof using. intros Hm Hk. destruct b; [|done]. by apply qprograms_try. Qed.

Lemma qprograms_last (b : bool) m (l : list (ind_ctxt_cmd_sel * list Z)) :
  qprograms m l → qprograms (if b then checked m (mret 0) else mret 0) (if b then l else []).
Proof using.
  intros Hm. destruct b; [|apply qprograms_nothing]. rewrite <- (app_nil_r l).
  apply qprograms_try; [done|apply qprograms_nothing].
Qed.

Lemma qprograms_getx (k : xlnx_dma_dev → qm (hw_state dev) Z) (l : list (ind_ctxt_cmd_sel * list Z)) :
  (∀ x, qprograms (k x) l) → qprograms (getx ≫= k) l.
Proof using. intros Hk s Hs. by apply Hk. Qed.
Lemma qprograms_skip m (l : list (ind_ctxt_cmd_sel * list Z)) : qprograms m l → qprograms (mret 0;; m) l.
Proof using. done. Qed.

(** *** One context of a queue of direction [c2h] *)

Section direction.
Context (c2h : Z) (Hc : is_u 1 c2h).

Lemma q_clear_sw : qprograms (qhw (ha_sw_ctx_conf c2h qid None QDMA_HW_ACCESS_CLEAR)) [(sw_sel c2h, [])].
Proof using TimelyDevice0 Hc.
  apply qprograms_hw. intros h. cbn. unfold qdma_sw_ctx_conf. rewrite c2h_ok by done. apply hw_clear.
Qed.
Lemma q_clear_hw : qprograms (qhw (ha_hw_ctx_conf c2h qid None QDMA_HW_ACCESS_CLEAR)) [(hw_sel c2h, [])].
Proof using TimelyDevice0 Hc.
  apply qprograms_hw. intros h. cbn. unfold qdma_hw_ctx_conf. rewrite c2h_ok by done. apply hw_clear.
Qed.
Lemma q_clear_credit :
  qprograms (qhw (ha_credit_ctx_conf c2h qid None QDMA_HW_ACCESS_CLEAR)) [(cr_sel c2h, [])].
Proof using TimelyDevice0 Hc.
  apply qprograms_hw. intros h. cbn. unfold qdma_credit_ctx_conf. rewrite c2h_ok by done. apply hw_clear.
Qed.
Lemma q_write_sw c :
  qprograms (qhw (ha_sw_ctx_conf c2h qid (Some c) QDMA_HW_ACCESS_WRITE)) [(sw_sel c2h, sw_words c)].
Proof using TimelyDevice0 Hc.
  apply qprograms_hw. intros h. cbn. unfold qdma_sw_ctx_conf. rewrite c2h_ok by done. apply hw_write.
Qed.
End direction.

Lemma q_clear_pfetch : qprograms (qhw (ha_pfetch_ctx_conf qid None QDMA_HW_ACCESS_CLEAR)) [(QDMA_CTXT_SEL_PFTCH, [])].
Proof using TimelyDevice0. apply qprograms_hw. intros h. apply hw_clear. Qed.
Lemma q_clear_cmpt : qprograms (qhw (ha_cmpt_ctx_conf qid None QDMA_HW_ACCESS_CLEAR)) [(QDMA_CTXT_SEL_CMPT, [])].
Proof using TimelyDevice0. apply qprograms_hw. intros h. apply hw_clear. Qed.
Lemma q_write_pfetch c :
  qprograms (qhw (ha_pfetch_ctx_conf qid (Some c) QDMA_HW_ACCESS_WRITE)) [(QDMA_CTXT_SEL_PFTCH, pfetch_words c)].
Proof using TimelyDevice0. apply qprograms_hw. intros h. apply hw_write. Qed.
Lemma q_write_cmpt c :
  cmpt_trig_mode c <= QDMA_CMPT_UPDATE_TRIG_MODE_TMR_CNTR →
  qprograms (qhw (ha_cmpt_ctx_conf qid (Some c) QDMA_HW_ACCESS_WRITE)) [(QDMA_CTXT_SEL_CMPT, cmpt_words c)].
Proof using TimelyDevice0.
  intros Ht. apply qprograms_hw. intros h. cbn. unfold qdma_cmpt_context_write.
  replace (_ >? _) with false by lia. apply hw_write.
Qed.

(** *** All contexts of a queue *)

Section setup.
Context (st : bool) (type : Z) (Ht : 0 <= type <= 2).

Definition cleared_ctxts : list (ind_ctxt_cmd_sel * list Z) :=
  let cmpt := if has_cmpt_ctxt st type then [(QDMA_CTXT_SEL_CMPT, [])] else [] in
  if negb (type =? Q_CMPT) then
    [(sw_sel type, [])] ++ [(hw_sel type, [])] ++ [(cr_sel type, [])] ++
    (if st && (type =? Q_C2H) then [(QDMA_CTXT_SEL_PFTCH, [])] else []) ++ cmpt
  else cmpt.

Definition written_ctxts (c : descq_context) : list (ind_ctxt_cmd_sel * list Z) :=
  let cmpt := if has_cmpt_ctxt st type then [(QDMA_CTXT_SEL_CMPT, cmpt_words (dc_cmpt c))] else [] in
  if negb (type =? Q_CMPT) then
    [(sw_sel type, sw_words (dc_sw c))] ++
    (if st && nz type then [(QDMA_CTXT_SEL_PFTCH, pfetch_words (dc_pfetch c))] else []) ++ cmpt
  else cmpt.

Lemma is_dir : negb (type =? Q_CMPT) = true → is_u 1 type.
Proof using Ht. unfold Q_CMPT, is_u. lia. Qed.

Lemma q_clear : qprograms (qdma_descq_context_clear qid st type true) cleared_ctxts.
Proof using TimelyDevice0 Ht.
  unfold qdma_descq_context_clear, cleared_ctxts. cbv zeta. pose proof is_dir as Hd.
  destruct (negb (type =? Q_CMPT)).
  - specialize (Hd eq_refl).
    apply qprograms_try; [by apply q_clear_sw|]. apply qprograms_try; [by apply q_clear_hw|].
    apply qprograms_try; [by apply q_clear_credit|]. apply qprograms_opt; [apply q_clear_pfetch|].
    apply qprograms_last, q_clear_cmpt.
  - apply qprograms_last, q_clear_cmpt.
Qed.

Lemma q_program fc c :
  cmpt_trig_mode (dc_cmpt c) <= QDMA_CMPT_UPDATE_TRIG_MODE_TMR_CNTR →
  qprograms (qdma_descq_context_program false fc qid st type c) (cleared_ctxts ++ written_ctxts c).
Proof using TimelyDevice0 Ht.
  intros Htm. unfold qdma_descq_context_program, written_ctxts. apply qprograms_try; [apply q_clear|].
  pose proof is_dir as Hd. cbv zeta. destruct (negb (type =? Q_CMPT)).
  - specialize (Hd eq_refl). apply qprograms_try; [by apply q_write_sw|].
    apply qprograms_getx. intros x. cbn [andb]. apply qprograms_skip.
    apply qprograms_opt; [apply q_write_pfetch|]. apply qprograms_last. by apply q_write_cmpt.
  - apply qprograms_last. by apply q_write_cmpt.
Qed.
End setup.
End program.

(** The contexts that belong to a queue of the type and mode. *)
Definition own_sels (st : bool) (type : Z) : list ind_ctxt_cmd_sel :=
  (if type =? Q_CMPT then [] else [sw_sel type; hw_sel type; cr_sel type]) ++
  (if st && (type =? Q_C2H) then [QDMA_CTXT_SEL_PFTCH] else []) ++
  (if has_cmpt_ctxt st type then [QDMA_CTXT_SEL_CMPT] else []).

Lemma programmed_own st type c sel : 0 <= type <= 2 →
  sel ∈ (cleared_ctxts st type ++ written_ctxts st type c).*1 → sel ∈ own_sels st type.
Proof.
  intros Ht. assert (type = 0 ∨ type = 1 ∨ type = 2) as [-> |[-> | ->]] by lia; destruct st;
    unfold cleared_ctxts, written_ctxts, own_sels; cbn; set_solver.
Qed.

(** C18. Starting a queue programs its contexts.  On a device with the soft IP
    that executes its commands in time, qdma_descq_context_setup succeeds and
    changes nothing but the hardware: the queue of a direction has the software
    context composed from its configuration and zero hardware and credit
    contexts, a streaming C2H queue its prefetch context, a queue with a
    completion ring its completion context, and every other context is as it
    was: those of other queues, those of the other direction of the queue, and
    its prefetch, completion and other contexts where it has none of its own
    ([own_sels] lists the contexts a queue has). *)
Theorem context_setup_programs {dev : Type} `{Device dev} `{!IndirectCtxt dev} `{!TimelyDevice dev} fc
    (s : qst (hw_state dev)) :
  let q := s_q s in let c := dq_conf q in let x := s_xdev s in
  let st := nz (qc_st c) in let type := qc_q_type c in
  idle (s_hw s) → 0 <= type <= 2 → qc_cmpl_trig_mode c <= QDMA_CMPT_UPDATE_TRIG_MODE_TMR_CNTR →
  ∃ h, qdma_descq_context_setup false fc s = Some (0, s <| s_hw := h |>) ∧ idle h ∧ ∀ i, (i < 8)%nat →
    let ctxt sel := ctxt_ram (hw h) (sel_val sel) (cmd_qid (dq_qidx_hw q)) i in
    (type ≠ Q_CMPT →
       ctxt (sw_sel type) = u32 (default 0 (sw_words (make_sw_context x q) !! i)) ∧
       ctxt (hw_sel type) = 0 ∧ ctxt (cr_sel type) = 0) ∧
    (st && (type =? Q_C2H) = true →
       ctxt QDMA_CTXT_SEL_PFTCH = u32 (default 0 (pfetch_words (make_prefetch_context q) !! i))) ∧
    (has_cmpt_ctxt st type = true →
       ctxt QDMA_CTXT_SEL_CMPT = u32 (default 0 (cmpt_words (make_cmpt_context x q) !! i))) ∧
    ∀ sel qid, ¬ (qid = cmd_qid (dq_qidx_hw q) ∧ ∃ k, k ∈ own_sels st type ∧ sel = sel_val k) →
      ctxt_ram (hw h) sel qid i = ctxt_ram (hw (s_hw s)) sel qid i.
Proof.
  intros q c x st type Hs Ht Htm.
  destruct (q_program (dq_qidx_hw q) st type Ht fc (queue_context false x q)) with (s := s)
    as (h & E & I & K); [|done|].
  { unfold queue_context. cbn [dc_cmpt]. fold c st type. destruct (has_cmpt_ctxt st type); [done|]. by vm_compute. }
  exists h. split; [exact E|]. split; [done|]. intros i Hi ctxt.
  assert (Hx : ∀ sel qid, ctxt_ram (hw h) sel qid i = set_rams (dq_qidx_hw q)
    (cleared_ctxts st type ++ written_ctxts st type (queue_context false x q)) (rams s) sel qid i).
  { intros. by apply K. }
  assert (Hc : ∀ sel, ctxt sel = set_ctxts (cleared_ctxts st type ++ written_ctxts st type (queue_context false x q))
    (λ sel i, rams s (sel_val sel) (cmd_qid (dq_qidx_hw q)) i) sel i).
  { intros sel. unfold ctxt. rewrite Hx. by apply set_rams_own. }
  rewrite !Hc. split_and!; cycle 3.
  { intros sel qid Hn. rewrite Hx. apply set_rams_frame. intros [Hq (k & Hk & Es)]. apply Hn.
    split; [done|]. exists k. split; [by eapply programmed_own|done]. }
  all: unfold cleared_ctxts, written_ctxts, queue_context; fold c st type; clearbody st.
  all: assert (type = 0 ∨ type = 1 ∨ type = 2) as [-> |[-> | ->]] by lia; destruct st; try done.
Qed.

(** ** Virtual and physical functions *)

#[export] Instance eta_sw : Settable qdma_descq_sw_ctxt := λ d,
  mk_sw (sw_ring_bs_addr d) (sw_vec d) (sw_pidx d) (sw_irq_arm d) (sw_fnc_id d) (sw_qen d) (sw_frcd_en d)
    (sw_wbi_chk d) (sw_wbi_intvl_en d) (sw_at d) (sw_fetch_max d) (sw_rngsz_idx d) (sw_desc_sz d) (sw_bypass d)
    (sw_mm_chn d) (sw_wbk_en d) (sw_irq_en d) (sw_port_id d) (sw_irq_no_last d) (sw_err d) (sw_err_wb_sent d)
    (sw_irq_req d) (sw_mrkr_dis d) (sw_is_mm d) (sw_intr_aggr d) (sw_pasid_en d) (sw_dis_intr_on_vf d)
    (sw_virtio_en d) (sw_pack_byp_out d) (sw_irq_byp d) (sw_host_id d) (sw_pasid d) (sw_virtio_dsc_base d).
#[export] Instance eta_cmpt : Settable qdma_descq_cmpt_ctxt := λ d,
  mk_cmpt (cmpt_bs_addr d) (cmpt_vec d) (cmpt_pidx d) (cmpt_cidx d) (cmpt_en_stat_desc d) (cmpt_en_int d)
    (cmpt_trig_mode d) (cmpt_fnc_id d) (cmpt_counter_idx d) (cmpt_timer_idx d) (cmpt_in_st d) (cmpt_color d)
    (cmpt_ringsz_idx d) (cmpt_desc_sz d) (cmpt_valid d) (cmpt_err d) (cmpt_user_trig_pend d)
    (cmpt_timer_running d) (cmpt_full_upd d) (CtxtTypes.cmpt_ovf_chk_dis d) (cmpt_at d) (cmpt_int_aggr d)
    (cmpt_dis_intr_on_vf d) (cmpt_vio d) (cmpt_dir_c2h d) (cmpt_host_id d) (cmpt_pasid d) (cmpt_pasid_en d)
    (cmpt_vio_eop d) (cmpt_sh_cmpt d).

(** The queue part of the message a virtual function sends. *)
Definition vf_qctxt (x : xlnx_dma_dev) (q : qdma_descq) : mbox_msg_qctxt :=
  mk_qctxt (dq_qidx_hw q) (qc_st (dq_conf q)) (qc_q_type (dq_conf q))
    (vf_cmpt_ctxt_type (nz (qc_st (dq_conf q))) (qc_q_type (dq_conf q))) (vf_descq_conf x q).

Lemma vf_vec x q : is_u 11 (queue_vec x q) → c_intr_id (vf_descq_conf x q) = queue_vec x q ∧ u16 (queue_vec x q) = queue_vec x q.
Proof.
  unfold queue_vec. cbn [vf_descq_conf c_intr_id]. intros Hv. split; [|apply wrap_small; unfold is_u in *; lia].
  destruct (intr_aggregated x); [|by apply wrap_small].
  change 0xFFF with (Z.ones 12). rewrite <- wrap_land_ones by lia. rewrite (wrap_small 12) by (unfold is_u in *; lia).
  by apply wrap_small.
Qed.

(** C30. A queue of a virtual function gets the contexts the physical function
    would give it, when its sizes and thresholds are found at the indices of
    its configuration: the prefetch context is the same, the completion context
    differs in the adaptive moderation only, and the software context in the
    number of fetches, the channel, the marker response and the forced credits
    of a streaming H2C queue, which a virtual function does not get. *)
Theorem vf_contexts_match (x : xlnx_dma_dev) (q : qdma_descq) :
  let c := dq_conf q in let m := vf_qctxt x q in let sw := make_sw_context x q in
  0 <= qc_q_type c <= 1 → is_u 11 (queue_vec x q) → is_u 4 (qc_desc_rng_sz_idx c) →
  is_u 4 (qc_c2h_buf_sz_idx c) → is_u 4 (qc_cmpl_rng_sz_idx c) →
  sw_from_conf m (qc_desc_rng_sz_idx c) =
    sw <| sw_fetch_max := 0 |> <| sw_mm_chn := 0 |> <| sw_host_id := 0 |> <| sw_mrkr_dis := 0 |>
       <| sw_frcd_en := if qc_q_type c =? Q_H2C then 0 else sw_frcd_en sw |> ∧
  pfetch_from_conf m (qc_c2h_buf_sz_idx c) = make_prefetch_context q ∧
  cmpt_from_conf m (qc_cmpl_cnt_th_idx c) (qc_cmpl_timer_idx c) (qc_cmpl_rng_sz_idx c) =
    make_cmpt_context x q <| cmpt_full_upd := 0 |>.
Proof.
  intros c m sw Ht Hv Hr Hb Hcr. destruct (vf_vec x q Hv) as [E1 E2].
  assert (∀ z, is_u 4 z → u8 z = z) as Hu by (intros z Hz; apply wrap_small; unfold is_u in *; lia).
  split; [|split].
  - unfold sw_from_conf, sw, make_sw_context, m, vf_qctxt. cbn [q_descq_conf]. rewrite E1, E2, (Hu (qc_desc_rng_sz_idx c)) by done.
    unfold vf_descq_conf, st_c2h. cbn [q_st q_c2h c_ring_bs_addr c_intr_aggr c_wbi_chk c_wbi_intvl_en c_en_bypass
      c_wbk_en c_irq_en c_forced_en c_desc_sz c_func_id c_irq_arm]. fold c.
    assert (qc_q_type c = 0 ∨ qc_q_type c = 1) as [-> | ->] by lia;
      destruct (nz (qc_st c)), (bypass_64b c), (intr_aggregated x); reflexivity.
  - unfold pfetch_from_conf, m, vf_qctxt. cbn [q_descq_conf]. by rewrite (Hu (qc_c2h_buf_sz_idx c)) by done.
  - unfold cmpt_from_conf, make_cmpt_context, m, vf_qctxt. cbn [q_descq_conf]. by rewrite E1, E2, (Hu (qc_cmpl_rng_sz_idx c)) by done.
Qed.

(** ** Errors *)

(** The errors of the clear that precedes the programming are translated
    twice: when the command to clear the software context times out,
    qdma_descq_context_clear returns -EBUSY, and qdma_descq_context_setup, which
    takes that for a code of the access layer, returns -EINVAL. *)
Theorem context_error_translated_twice {dev : Type} `{HwAccess dev} q2v fc (s : qst (hw_state dev)) r h :
  let type := qc_q_type (dq_conf (s_q s)) in
  type ≠ Q_CMPT →
  ha_sw_ctx_conf type (dq_qidx_hw (s_q s)) None QDMA_HW_ACCESS_CLEAR (s_hw s) =
    Some ((ERR QDMA_ERR_HWACC_BUSY_TIMEOUT, r), h) →
  queue_context_clear true s = Some (- EBUSY, s <| s_hw := h |>) ∧
  qdma_descq_context_setup q2v fc s = Some (- EINVAL, s <| s_hw := h |>).
Proof.
  intros type Ht%Z.eqb_neq Hc.
  assert (Hcl : qdma_descq_context_clear (dq_qidx_hw (s_q s)) (nz (qc_st (dq_conf (s_q s)))) type true s =
    Some (- EBUSY, s <| s_hw := h |>)).
  { assert (Hq : qhw (ha_sw_ctx_conf type (dq_qidx_hw (s_q s)) None QDMA_HW_ACCESS_CLEAR) s =
      Some (ERR QDMA_ERR_HWACC_BUSY_TIMEOUT, s <| s_hw := h |>)) by (unfold qhw; by rewrite Hc).
    unfold qdma_descq_context_clear. rewrite Ht. cbn [negb]. unfold checked at 1. by rewrite (qm_bind_eq _ _ _ _ _ Hq). }
  split; [exact Hcl|]. change (qdma_descq_context_program q2v fc (dq_qidx_hw (s_q s))
    (nz (qc_st (dq_conf (s_q s)))) type (queue_context q2v (s_xdev s) (s_q s)) s = Some (- EINVAL, s <| s_hw := h |>)).
  unfold qdma_descq_context_program, checked at 1. by rewrite (qm_bind_eq _ _ _ _ _ Hcl).
Qed.

(** ** Witnesses *)

Definition cx_x : xlnx_dma_dev :=
  mk_xlnx_dma_dev INDIRECT_INTR_MODE (replicate 16 65) (replicate 16 1) (replicate 16 2) (replicate 16 4096)
    (seqZ 0 16) false 4 1 [0; 3; 1; 2] 0 0 0 0 3 false.
(** A streaming C2H queue. *)
Definition cx_q : qdma_descq :=
  qdma_descq_init 0 5 5 <| dq_conf := conf_zero <| qc_st := 1 |> <| qc_q_type := Q_C2H |> <| qc_irq_en := 1 |>
    <| qc_desc_rng_sz_idx := 7 |> <| qc_c2h_buf_sz_idx := 4 |> <| qc_pfetch_en := 1 |> <| qc_cmpl_trig_mode := 5 |> |>
    <| dq_desc_bus := 65536 |> <| dq_desc_cmpt_bus := 131072 |> <| dq_intr_id := 2 |>.
Definition cx_s {dev} (d : dev) : qst (hw_state dev) := mk_qst cx_q cx_x ∅ (mk_hw d false) [].
Definition cx_q2v {dev} (_ _ : Z) (_ : qdma_qid2vec) (_ : qdma_hw_access_type) : hwm dev Z := mret 0.

Lemma context_setup_programs_witness :
  ∃ h, qdma_descq_context_setup false cx_q2v (cx_s sim_init) = Some (0, cx_s sim_init <| s_hw := h |>) ∧
    ctxt_ram (hw h) (sel_val QDMA_CTXT_SEL_PFTCH) 5 0%nat =
      u32 (default 0 (pfetch_words (make_prefetch_context cx_q) !! 0%nat)) ∧
    ctxt_ram (hw h) (sel_val QDMA_CTXT_SEL_HW_C2H) 5 0%nat = 0.
Proof.
  destruct (context_setup_programs cx_q2v (cx_s sim_init)) as (h & E & _ & K).
  - exact sim_idle.
  - vm_compute. split; discriminate.
  - vm_compute. discriminate.
  - exists h. split; [exact E|]. destruct (K 0%nat ltac:(lia)) as (Ks & Kp & _).
    split; [apply Kp; reflexivity|]. apply Ks. discriminate.
Defined.

Lemma vf_contexts_match_witness :
  pfetch_from_conf (vf_qctxt cx_x cx_q) 4 = make_prefetch_context cx_q ∧
  cmpt_from_conf (vf_qctxt cx_x cx_q) 0 0 0 = make_cmpt_context cx_x cx_q <| cmpt_full_upd := 0 |> ∧
  queue_vec cx_x cx_q = 4.
Proof.
  destruct (vf_contexts_match cx_x cx_q) as (_ & Hp & Hc).
  - vm_compute. split; discriminate.
  - vm_compute. split; [discriminate|reflexivity].
  - vm_compute. split; [discriminate|reflexivity].
  - vm_compute. split; [discriminate|reflexivity].
  - vm_compute. split; [discriminate|reflexivity].
  - split; [exact Hp|]. split; [exact Hc|reflexivity].
Defined.

Lemma context_error_translated_twice_witness :
  ∃ h, queue_context_clear true (cx_s sim_hang) = Some (- EBUSY, cx_s sim_hang <| s_hw := h |>) ∧
    qdma_descq_context_setup false cx_q2v (cx_s sim_hang) = Some (- EINVAL, cx_s sim_hang <| s_hw := h |>).
Proof.
  destruct (indirect_clear_timeout (sw_sel 1) 5 sim_hang) as (d' & E); [vm_compute; reflexivity|].
  exists (mk_hw d' false). apply (context_error_translated_twice false cx_q2v (cx_s sim_hang) None).
  - discriminate.
  - change (dq_qidx_hw (s_q (cx_s sim_hang))) with 5. change (qc_q_type (dq_conf (s_q (cx_s sim_hang)))) with 1.
    cbn [ha_sw_ctx_conf soft_hw_access s_hw cx_s]. unfold qdma_sw_ctx_conf, qdma_sw_context_clear.
    cbn [Z.gtb Z.compare Pos.compare Pos.compare_cont negb]. unfold mbind, hwm_bind. by rewrite E.
Defined.
