(* ===== verification/QueueLife.v ===== *)
(** * Life cycle of the queues of a device (libqdma_export.c, qdma_device.c)

    qdma_queue_add, qdma_queue_config, qdma_queue_start, qdma_queue_stop and
    qdma_queue_remove of the physical function driver on the queue arrays of a
    device, with the active queue counts of the resource manager.  The checks
    of the device handle and of the message buffer, which fail only for NULL
    arguments, and the texts written to the buffer are left out. *)

From S2P Require Import Prelude Platform QdmaList ResMgmt SoftAccess QueueTypes.
From S2P Require Import DescRing Descq DescqProc DescqConf Threads.

Definition QDMA_QUEUE_IDX_INVALID : Z := 65535.
Definition ENXIO : Z := 6.
Definition ERANGE : Z := 34.
Definition CMPT_DESC_SZ_64B : Z := 3.
Definition QDMA_DESC_ENG_BYPASS_ONLY : Z := 1.
Definition QDMA_DESC_ENG_INTERNAL_ONLY : Z := 2.

(** The queue arrays of [struct qdma_dev]; a queue is an array and an index. *)
Inductive pool := PH2C | PC2H | PCMPT.
#[export] Instance pool_eq : EqDecision pool.
Proof. solve_decision. Defined.
Definition qref : Type := pool * Z.

Definition pool_of (q_type : Z) : pool :=
  if q_type =? Q_C2H then PC2H else if q_type =? Q_H2C then PH2C else PCMPT.

Definition dev_type (q_type : Z) : qdma_dev_q_type :=
  if q_type =? Q_C2H then QDMA_DEV_Q_TYPE_C2H else if q_type =? Q_H2C then QDMA_DEV_Q_TYPE_H2C
  else QDMA_DEV_Q_TYPE_CMPT.

(** Capabilities and version of the device: [cap_cpm4] is a Versal hard IP on a
    CPM4 device, [cap_eqdma] an EQDMA soft IP of release 2020.2 or later. *)
Record dev_caps := mk_caps {
  cap_mm_en : bool; cap_st_en : bool; cap_mm_cmpt_en : bool; cap_desc_eng_mode : Z;
  cap_cpm4 : bool; cap_eqdma : bool; cap_dma_device_index : Z;
}.

(** The device: queue arrays, the queues on the list of every interrupt vector,
    the resource manager, the threads and the state the queues share. *)
Record dst (H : Type) := mk_dst {
  ds_h2c : list qdma_descq; ds_c2h : list qdma_descq; ds_cmpt : list qdma_descq;
  ds_qmax : Z; ds_init_qrange : bool; ds_caps : dev_caps; ds_intr : list (list qref);
  ds_rm : rm_state; ds_th : th_state; ds_xdev : xlnx_dma_dev; ds_reqs : gmap Z qdma_request;
  ds_hw : H; ds_ev : list q_event;
}.
Arguments mk_dst {H} _ _ _ _ _ _ _ _ _ _ _ _ _.
Arguments ds_h2c {H} _.
Arguments ds_c2h {H} _.
Arguments ds_cmpt {H} _.
Arguments ds_qmax {H} _.
Arguments ds_init_qrange {H} _.
Arguments ds_caps {H} _.
Arguments ds_intr {H} _.
Arguments ds_rm {H} _.
Arguments ds_th {H} _.
Arguments ds_xdev {H} _.
Arguments ds_reqs {H} _.
Arguments ds_hw {H} _.
Arguments ds_ev {H} _.
#[export] Instance eta_dst H : Settable (dst H) := λ s,
  mk_dst (ds_h2c s) (ds_c2h s) (ds_cmpt s) (ds_qmax s) (ds_init_qrange s) (ds_caps s) (ds_intr s)
    (ds_rm s) (ds_th s) (ds_xdev s) (ds_reqs s) (ds_hw s) (ds_ev s).

(** Computations on a device; [None] as in [qm], or an access outside an array. *)
Definition dm (H A : Type) : Type := dst H → option (A * dst H).
#[export] Instance dm_ret {H} : MRet (dm H) := λ A a s, Some (a, s).
#[export] Instance dm_bind {H} : MBind (dm H) := λ A B k m s,
  match m s with
  | Some (a, s) => k a s
  | None => None
  end.

Section dev.
Context {H : Type} `{QueueHw H}.

Definition dfail {A} : dm H A := λ _, None.
Definition getd : dm H (dst H) := λ s, Some (s, s).
Definition modd (f : dst H → dst H) : dm H unit := λ s, Some (tt, f s).
Definition dwhen (b : bool) (m : dm H unit) : dm H unit := if b then m else mret tt.

Definition pool_list (p : pool) (s : dst H) : list qdma_descq :=
  match p with PH2C => ds_h2c s | PC2H => ds_c2h s | PCMPT => ds_cmpt s end.
Definition set_pool (p : pool) (l : list qdma_descq) (s : dst H) : dst H :=
  match p with
  | PH2C => s <| ds_h2c := l |> | PC2H => s <| ds_c2h := l |> | PCMPT => s <| ds_cmpt := l |>
  end.
Definition get_queue (r : qref) (s : dst H) : option qdma_descq :=
  if snd r <? 0 then None else pool_list (fst r) s !! Z.to_nat (snd r).
Definition put_queue (r : qref) (q : qdma_descq) (s : dst H) : dst H :=
  set_pool (fst r) (<[Z.to_nat (snd r) := q]> (pool_list (fst r) s)) s.

(** Run a queue operation on one of the queues. *)
Definition on_queue {A} (r : qref) (m : qm H A) : dm H A := λ s,
  match get_queue r s with
  | None => None
  | Some q =>
      match m (mk_qst q (ds_xdev s) (ds_reqs s) (ds_hw s) (ds_ev s)) with
      | None => None
      | Some (a, t) =>
          Some (a, put_queue r (s_q t) s <| ds_xdev := s_xdev t |> <| ds_reqs := s_reqs t |>
                     <| ds_hw := s_hw t |> <| ds_ev := s_ev t |>)
      end
  end.

Definition queue (r : qref) : dm H qdma_descq := on_queue r getq.
Definition locked_queue (r : qref) : dm H qdma_descq := on_queue r (lock_descq;; q ← getq; unlock_descq;; mret q).

(** The counters of the resource manager. *)
Definition rm_count (f : Z → Z → qdma_dev_q_type → rm_state → Z * rm_state) (t : qdma_dev_q_type) : dm H Z :=
  s ← getd;
  let '(rv, rm) := f (cap_dma_device_index (ds_caps s)) (xd_func_id (ds_xdev s)) t (ds_rm s) in
  modd (λ s, s <| ds_rm := rm |>);; mret rv.

(** ** Finding a queue *)

Definition q_state_is (r : qref) (st : q_state_t) : dm H bool :=
  on_queue r (lock_descq;; q ← getq; unlock_descq;; mret (bool_decide (dq_q_state q = st))).

Definition set_q_state (r : qref) (st : q_state_t) : dm H unit :=
  on_queue r (lock_descq;; modq (λ q, q <| dq_q_state := st |>);; unlock_descq).

(** The array and index a handle denotes. *)
Definition id_ref (qmax idx : Z) : option qref :=
  if idx <? qmax then Some (PH2C, idx)
  else if idx - qmax <? qmax then Some (PC2H, idx - qmax)
  else if idx - qmax - qmax <? qmax then Some (PCMPT, idx - qmax - qmax)
  else None.

Definition qdma_device_get_descq_by_id (idx : Z) (init : bool) : dm H (option qref) :=
  s ← getd;
  match id_ref (ds_qmax s) idx with
  | None => mret None
  | Some r =>
      if init then
        dis ← q_state_is r Q_STATE_DISABLED;
        mret (if (dis : bool) then None else Some r)
      else mret (Some r)
  end.

(** ** Checks *)

Definition qdma_validate_qconfig (c : dev_caps) (qconf : qdma_queue_conf) : Z :=
  if TRIG_MODE_COMBO <? qc_cmpl_trig_mode qconf then - EINVAL
  else if cap_cpm4 c then
    if (qc_cmpl_desc_sz qconf =? CMPT_DESC_SZ_64B) || (qc_sw_desc_sz qconf =? DESC_SZ_64B) then - EINVAL
    else if qc_cmpl_trig_mode qconf =? TRIG_MODE_COMBO then - EINVAL
    else 0
  else 0.

Definition Q_PRESENT_H2C_MASK : Z := Z.shiftl 1 Q_H2C.
Definition Q_PRESENT_C2H_MASK : Z := Z.shiftl 1 Q_C2H.
Definition Q_PRESENT_CMPT_MASK : Z := Z.shiftl 1 Q_CMPT.
Definition Q_MODE_MASK : Z := Z.shiftl 1 3.

(** The bits a queue sets in [refmask]. *)
Definition ref_bits (present : Z) (with_mode : bool) (q : qdma_descq) : Z :=
  match dq_q_state q with
  | Q_STATE_DISABLED => 0
  | _ => Z.lor present (if with_mode && nz (qc_st (dq_conf q)) then Q_MODE_MASK else 0)
  end.

Definition usable (refmask q_type st : Z) : bool :=
  let has m := negb (Z.land refmask m =? 0) in
  if q_type =? Q_CMPT then negb (has (Z.lor Q_PRESENT_CMPT_MASK Q_MODE_MASK))
  else
    let other := if q_type =? Q_H2C then Q_PRESENT_C2H_MASK else Q_PRESENT_H2C_MASK in
    let self := if q_type =? Q_H2C then Q_PRESENT_H2C_MASK else Q_PRESENT_C2H_MASK in
    let chkmask := Z.lor other Q_MODE_MASK in
    negb ((nz st && has Q_PRESENT_CMPT_MASK)
       || (nz st && has other && (Z.land refmask chkmask =? other))
       || (negb (nz st) && has other && (Z.land refmask chkmask =? chkmask))
       || has self).

Definition is_usable_queue (qidx q_type st : Z) : dm H bool :=
  h ← locked_queue (PH2C, qidx);
  c ← locked_queue (PC2H, qidx);
  w ← locked_queue (PCMPT, qidx);
  mret (usable (Z.lor (Z.lor (ref_bits Q_PRESENT_H2C_MASK true h) (ref_bits Q_PRESENT_C2H_MASK true c))
                      (ref_bits Q_PRESENT_CMPT_MASK false w)) q_type st).

(** ** What the operations call *)

(** qdma_csr_read, which fills the ring sizes of the device, and
    device_set_qrange, which programs the queue range. *)
Variable qdma_csr_read : xlnx_dma_dev → H → Z * (xlnx_dma_dev * H).
Variable device_set_qrange : H → Z * H.
(** The legacy interrupt of a queue. *)
Variable intr_legacy_setup : qm H Z.
Variable intr_legacy_clear : qm H unit.
(** The contexts of a queue; the flag tells clear from invalidate. *)
Variable qdma_descq_context_setup : qm H Z.
Variable qdma_descq_context_clear : bool → qm H Z.
Variable dma_alloc : Z → H → option Z * H.
Variable descq_flq_alloc_resource : qm H Z.
Variable descq_flq_free : qm H unit.

Definition qdma_device_prep_q_resource : dm H Z :=
  s ← getd;
  if ds_init_qrange s then mret 0
  else
    let '(rv, (x, h)) := qdma_csr_read (ds_xdev s) (ds_hw s) in
    modd (λ s, s <| ds_xdev := x |> <| ds_hw := h |>);;
    if rv <? 0 then mret rv
    else
      let '(rv, h) := device_set_qrange h in
      modd (λ s, s <| ds_hw := h |>);;
      dwhen (negb (rv <? 0)) (modd (λ s, s <| ds_init_qrange := true |>));;
      mret rv.

(** ** Adding a queue *)

(** The result, the handle and the configuration as the caller sees it. *)
Definition add_result : Type := Z * Z * qdma_queue_conf.

(** The search for a free index; [n] iterations are left from [i] on.  The
    pointer [descq] has been advanced with [i] and is advanced by [i] again. *)
Fixpoint find_free (n : nat) (i q_type st : Z) : dm H (option (qref * Z)) :=
  match n with
  | O => mret None
  | S n =>
      ok ← is_usable_queue i q_type st;
      if (ok : bool) then
        let r := (pool_of q_type, i + i) in
        set_q_state r Q_STATE_ENABLED;; mret (Some (r, i))
      else find_free n (i + 1) q_type st
  end.

(** The queue that is taken and its index. *)
Definition take_queue (qconf : qdma_queue_conf) : dm H (option (qref * Z)) :=
  s ← getd;
  if qc_qidx qconf =? QDMA_QUEUE_IDX_INVALID then
    find_free (Z.to_nat (ds_qmax s)) 0 (qc_q_type qconf) (qc_st qconf)
  else
    ok ← is_usable_queue (qc_qidx qconf) (qc_q_type qconf) (qc_st qconf);
    if (ok : bool) then
      let r := (pool_of (qc_q_type qconf), qc_qidx qconf) in
      set_q_state r Q_STATE_ENABLED;; mret (Some (r, qc_qidx qconf))
    else mret None.

(** An ST C2H queue is also counted as a completion queue. *)
Definition count_queue (qconf : qdma_queue_conf) : dm H Z :=
  rv ← rm_count qdma_dev_increment_active_queue (dev_type (qc_q_type qconf));
  if rv <? 0 then mret rv
  else if nz (qc_st qconf) && (qc_q_type qconf =? Q_C2H) then
    rv ← rm_count qdma_dev_increment_active_queue QDMA_DEV_Q_TYPE_CMPT;
    if rv <? 0 then
      rm_count qdma_dev_decrement_active_queue (dev_type (qc_q_type qconf));; mret rv
    else mret 0
  else mret 0.

Definition queue_handle (qmax : Z) (qconf : qdma_queue_conf) (qidx : Z) : Z :=
  qidx + (if qc_q_type qconf =? Q_C2H then qmax else 0)
       + (if qc_q_type qconf =? Q_CMPT then 2 * qmax else 0).

Definition legacy_add (r : qref) : dm H Z :=
  s ← getd;
  match xd_qdma_drv_mode (ds_xdev s) with
  | LEGACY_INTR_MODE =>
      rv ← on_queue r intr_legacy_setup;
      if rv =? 0 then mret 0
      else
        dwhen (0 <? rv) (on_queue r intr_legacy_clear);;
        on_queue r (modq (λ q, q <| dq_q_state := Q_STATE_DISABLED |>));;
        mret (- EINVAL)
  | _ => mret 0
  end.

(** The checks before a queue is taken, in the order of the code. *)
Definition add_checks (s : dst H) (qconf : qdma_queue_conf) : Z :=
  let c := ds_caps s in
  if Q_CMPT <? qc_q_type qconf then - EINVAL
  else if nz (qc_st qconf) && (qc_q_type qconf =? Q_CMPT) then - EINVAL
  else if (qc_q_type qconf =? Q_CMPT) && negb (cap_mm_cmpt_en c) then - EINVAL
  else if (nz (qc_st qconf) && negb (cap_st_en c)) || (negb (nz (qc_st qconf)) && negb (cap_mm_en c)) then - EINVAL
  else if qdma_validate_qconfig c qconf <? 0 then - EINVAL
  else if negb (qc_qidx qconf =? QDMA_QUEUE_IDX_INVALID) && (ds_qmax s <=? qc_qidx qconf) then - EINVAL
  else if ds_qmax s <=? u32 (qdma_get_device_active_queue_count (cap_dma_device_index c)
                               (xd_func_id (ds_xdev s)) (dev_type (qc_q_type qconf)) (ds_rm s)) then - EIO
  else 0.

Definition qdma_queue_add (qconf : qdma_queue_conf) : dm H add_result :=
  s ← getd;
  let bad rv := (rv, QDMA_QUEUE_IDX_INVALID, qconf) in
  if add_checks s qconf <? 0 then mret (bad (add_checks s qconf))
  else
    t ← take_queue qconf;
    match t with
    | None => mret (bad (- EPERM))
    | Some (r, qidx) =>
        let qconf := qconf <| qc_qidx := qidx |> in
        let bad rv := (rv, QDMA_QUEUE_IDX_INVALID, qconf) in
        rv ← qdma_device_prep_q_resource;
        if rv <? 0 then mret (bad rv)
        else
          rv ← legacy_add r;
          if rv <? 0 then mret (bad rv)
          else
            s ← getd;
            on_queue r (modq (qdma_descq_config (ds_xdev s) qconf false));;
            rv ← count_queue qconf;
            if rv <? 0 then mret (bad rv)
            else mret (0, queue_handle (ds_qmax s) qconf qidx, qconf)
    end.

(** ** Removing and configuring a queue *)

Definition uncount_queue (conf : qdma_queue_conf) : dm H Z :=
  rv ← rm_count qdma_dev_decrement_active_queue (dev_type (qc_q_type conf));
  if rv <? 0 then mret rv
  else if nz (qc_st conf) && (qc_q_type conf =? Q_C2H) then
    rv ← rm_count qdma_dev_decrement_active_queue QDMA_DEV_Q_TYPE_CMPT;
    if rv <? 0 then
      rm_count qdma_dev_increment_active_queue (dev_type (qc_q_type conf));; mret rv
    else mret 0
  else mret 0.

Definition qdma_queue_remove (id : Z) : dm H Z :=
  d ← qdma_device_get_descq_by_id id true;
  match d with
  | None => mret (- EINVAL)
  | Some r =>
      q ← queue r;
      if negb (bool_decide (dq_q_state q = Q_STATE_ENABLED)) then mret (- EINVAL)
      else
        rv ← uncount_queue (dq_conf q);
        if rv <? 0 then mret rv
        else
          set_q_state r Q_STATE_DISABLED;;
          s ← getd;
          match xd_qdma_drv_mode (ds_xdev s) with
          | LEGACY_INTR_MODE => on_queue r intr_legacy_clear;; mret 0
          | _ => mret 0
          end
  end.

Definition qdma_queue_config (id : Z) (qconf : qdma_queue_conf) : dm H Z :=
  d ← qdma_device_get_descq_by_id id false;
  match d with
  | None => mret (- EINVAL)
  | Some r =>
      en ← q_state_is r Q_STATE_ENABLED;
      if negb en then mret (- EINVAL)
      else
        s ← getd;
        let rv := qdma_validate_qconfig (ds_caps s) qconf in
        if negb (rv =? 0) then mret rv
        else on_queue r (modq (qdma_descq_config (ds_xdev s) qconf true));; mret 0
  end.

(** ** Starting a queue *)

(** The checks of qdma_queue_start under the lock. *)
Definition start_checks (c : dev_caps) (q : qdma_descq) : Z :=
  let conf := dq_conf q in
  if negb (bool_decide (dq_q_state q = Q_STATE_ENABLED)) then - EINVAL
  else if cap_eqdma c && ((cap_desc_eng_mode c =? QDMA_DESC_ENG_BYPASS_ONLY)
       || (nz (qc_desc_bypass conf) && (cap_desc_eng_mode c =? QDMA_DESC_ENG_INTERNAL_ONLY))) then - EINVAL
  else if nz (qc_aperture_size conf)
       && nz (Z.land (qc_aperture_size conf) (u32 (qc_aperture_size conf - 1))) then - ERANGE
  else 0.

(** [list_add_tail] of the queue on the list of its vector. *)
Definition intr_list_add (r : qref) (vec : Z) : dm H unit :=
  s ← getd;
  match ds_intr s !! Z.to_nat vec with
  | None => dfail
  | Some l =>
      modd (λ s, s <| ds_intr := <[Z.to_nat vec := l ++ [r]]> (ds_intr s) |>
                   <| ds_xdev := ds_xdev s <| xd_intr_list_cnt :=
                        alter (λ c, c + 1) (Z.to_nat vec) (xd_intr_list_cnt (ds_xdev s)) |> |>)
  end.

(** [list_del] and the count; there is no list when the device has no vectors. *)
Definition intr_list_del (r : qref) (vec : Z) : dm H unit :=
  s ← getd;
  match ds_intr s !! Z.to_nat vec with
  | None => dfail
  | Some l =>
      modd (λ s, s <| ds_intr := <[Z.to_nat vec := filter (λ x, x ≠ r) l]> (ds_intr s) |>
                   <| ds_xdev := ds_xdev s <| xd_intr_list_cnt :=
                        alter (λ c, c - 1) (Z.to_nat vec) (xd_intr_list_cnt (ds_xdev s)) |> |>)
  end.

Definition thread_add (r : qref) : dm H unit :=
  s ← getd;
  q ← queue r;
  match qdma_thread_add_work (xd_qdma_drv_mode (ds_xdev s)) (ds_th s) q with
  | None => dfail
  | Some (t, q) => modd (λ s, put_queue r q s <| ds_th := t |>)
  end.

Definition thread_remove (r : qref) : dm H unit :=
  q ← queue r;
  modd (λ s, let '(t, q) := qdma_thread_remove_work (ds_th s) q in put_queue r q s <| ds_th := t |>).

(** qdma_descq_prog_hw *)
Definition qdma_descq_prog_hw : qm H Z :=
  rv ← qdma_descq_context_setup; qdma_descq_prog_pointers rv.

Definition qdma_queue_start (id : Z) : dm H Z :=
  d ← qdma_device_get_descq_by_id id true;
  match d with
  | None => mret (- EINVAL)
  | Some r =>
      s ← getd;
      rv ← on_queue r (lock_descq;; q ← getq; unlock_descq;; mret (start_checks (ds_caps s) q));
      if rv <? 0 then mret rv
      else
        on_queue r (modq (qdma_descq_config_complete (ds_xdev s)));;
        rv ← on_queue r (qdma_descq_alloc_resource dma_alloc descq_flq_alloc_resource descq_flq_free);
        if rv <? 0 then mret rv
        else
          rv ← on_queue r qdma_descq_prog_hw;
          if rv <? 0 then
            on_queue r (qdma_descq_context_clear true);;
            on_queue r (qdma_descq_free_resource descq_flq_free);;
            mret rv
          else
            q ← queue r;
            dwhen (nz (xd_num_vecs (ds_xdev s))) (intr_list_add r (dq_intr_id q));;
            thread_add r;;
            set_q_state r Q_STATE_ONLINE;;
            mret 0
  end.

(** ** Stopping a queue *)

(** The first part: either the result, or whether the caller waits until the
    pending list is reported empty or a second has passed. *)
Definition qdma_queue_stop_begin (id : Z) : dm H (Z + qref * bool) :=
  d ← qdma_device_get_descq_by_id id true;
  match d with
  | None => mret (inl (- EINVAL))
  | Some r =>
      on_queue r (
        lock_descq;;
        q ← getq;
        if negb (bool_decide (dq_q_state q = Q_STATE_ONLINE)) then unlock_descq;; mret (inl (- EINVAL))
        else
          modq (λ q, q <| dq_q_stop_wait := true |>);;
          unlock_descq;;
          mret (inr (r, negb (dq_pend_list_empty q))))
  end.

Definition stop_request (del : Z → qm H unit) (r : Z) : qm H unit :=
  modcb r (λ cb, cb <| cb_done := true |> <| cb_status := - ENXIO |>);;
  req ← getreq r;
  if rq_fp_done req then del r;; qevent (EvDone r 0 (- ENXIO)) else qevent (EvWake r).

Fixpoint stop_requests (del : Z → qm H unit) (rs : list Z) : qm H unit :=
  match rs with
  | [] => mret tt
  | r :: rs => stop_request del r;; stop_requests del rs
  end.

(** What happens under the lock after the wait. *)
Definition stop_queue : qm H unit :=
  lock_descq;;
  modq (λ q, q <| dq_q_state := Q_STATE_ENABLED |> <| dq_q_stop_wait := false |>);;
  q ← getq;
  stop_requests cb_list_del (dq_pend_list q);;
  q ← getq;
  stop_requests qdma_work_queue_del (dq_work_list q);;
  unlock_descq.

Definition qdma_queue_stop_finish (r : qref) : dm H Z :=
  on_queue r stop_queue;;
  thread_remove r;;
  on_queue r (qdma_descq_context_clear false);;
  s ← getd;
  q ← queue r;
  match xd_qdma_drv_mode (ds_xdev s) with
  | POLL_MODE | LEGACY_INTR_MODE => mret tt
  | _ => intr_list_del r (dq_intr_id q)
  end;;
  on_queue r (qdma_descq_free_resource descq_flq_free;; modq (λ q, q <| dq_total_cmpl_descs := 0 |>));;
  mret 0.

(** The stop of a queue nothing else happens to during the wait. *)
Definition qdma_queue_stop (id : Z) : dm H Z :=
  b ← qdma_queue_stop_begin id;
  match b with inl rv => mret rv | inr (r, _) => qdma_queue_stop_finish r end.

(** ** The whole device *)

Fixpoint cleanup_loop (n : nat) (i : Z) (p : pool) (st : q_state_t) (act : Z → dm H Z) : dm H unit :=
  match n with
  | O => mret tt
  | S n =>
      q ← queue (p, i);
      (if bool_decide (dq_q_state q = st) then act i;; mret tt else mret tt);;
      cleanup_loop n (i + 1) p st act
  end.

(** [qdma_device_cleanup], up to the release of the arrays. *)
Definition qdma_device_cleanup : dm H unit :=
  s ← getd;
  let n := Z.to_nat (ds_qmax s) in
  cleanup_loop n 0 PH2C Q_STATE_ONLINE (λ i, qdma_queue_stop i);;
  cleanup_loop n 0 PC2H Q_STATE_ONLINE (λ i, qdma_queue_stop (i + ds_qmax s));;
  cleanup_loop n 0 PH2C Q_STATE_ENABLED (λ i, qdma_queue_remove i);;
  cleanup_loop n 0 PC2H Q_STATE_ENABLED (λ i, qdma_queue_remove (i + ds_qmax s)).

Definition qdma_get_queue_state (id : Z) : dm H (Z + Z * Z * Z * q_state_t) :=
  d ← qdma_device_get_descq_by_id id true;
  match d with
  | None => mret (inl (- EINVAL))
  | Some r =>
      q ← locked_queue r;
      mret (inr (qc_st (dq_conf q), qc_q_type (dq_conf q), qc_qidx (dq_conf q), dq_q_state q))
  end.
End dev.

(** [qdma_device_init]: the arrays of disabled queues. *)
Definition init_pool (qbase qmax : Z) : list qdma_descq :=
  map (λ i, qdma_descq_init qbase i i) (seqZ 0 qmax).
