(* ===== verification/Intr.v ===== *)
(** * Data interrupts (qdma_intr.c)

    In direct mode an interrupt schedules the work of every queue on the list
    of its vector.  In the aggregated modes the hardware writes an entry per
    interrupt of a queue to a ring and the handler consumes the ring; the color
    of an entry tells whether it is new.  The ring in host memory is what it is
    when the handler runs. *)

From S2P Require Import Prelude Platform Bits RegIO CtxtTypes SoftCtxt SoftAccess HwAccess ResMgmt.
From S2P Require Import QueueTypes DescRing Descq DescqProc DescqConf CtxtSetup QueueLife.

(** The members of [union qdma_intr_ring] the handler reads, the same in both
    formats. *)
Record qdma_intr_ring := mk_ring_entry { ir_coal_color : Z; ir_intr_type : Z; ir_qid : Z }.

Record intr_coal_conf := mk_coal {
  ic_vec_id : Z; ic_num_entries : Z; ic_bus : Z; ic_ring : list qdma_intr_ring; ic_color : Z;
  ic_sw_cidx : Z; ic_rng_idx : Z;
}.
#[export] Instance eta_coal : Settable intr_coal_conf := λ c,
  mk_coal (ic_vec_id c) (ic_num_entries c) (ic_bus c) (ic_ring c) (ic_color c) (ic_sw_cidx c) (ic_rng_idx c).

(** What a handler does to the rest of the driver. *)
Inductive intr_event :=
  | IeRxTime (r : qref)                       (* receive time of a ping-pong queue *)
  | IeIsrTop (r : qref)                       (* the handler of the upper layer *)
  | IeWork (r : qref) (cpu : option Z)        (* the work of the queue, on a processor *)
  | IeCidx (qidx sw_cidx rng_idx : Z).        (* the consumer index register *)

(** [intr_coal_list], [prev_descq] and the events. *)
Record intr_state := mk_is { is_coal : list intr_coal_conf; is_prev : option qref; is_ev : list intr_event }.
#[export] Instance eta_intr_state : Settable intr_state := λ s, mk_is (is_coal s) (is_prev s) (is_ev s).

Section intr.
Context {H : Type}.
Variable d : dst H.
Variable qbase : Z.

(** An index outside the array gives a reference to no queue. *)
Definition qdma_device_get_descq_by_hw_qid (qidx_hw c2h : Z) : qref :=
  (if nz c2h then PC2H else PH2C, u64 (qidx_hw - qbase)).

(** What both handlers do for a queue. *)
Definition queue_events (r : qref) (q : qdma_descq) : list intr_event :=
  let c := dq_conf q in
  (if nz (qc_ping_pong_en c) && (qc_q_type c =? Q_C2H) && nz (qc_st c) then [IeRxTime r] else []) ++
  [if qc_fp_descq_isr_top c then IeIsrTop r
   else IeWork r (if dq_cpu_assigned q then Some (dq_intr_work_cpu q) else None)].

(** One entry: the queue's events, and the indices; [i] is the ring.  The color
    that is toggled is that of the first ring. *)
Definition advance (i : nat) (l : list intr_coal_conf) (e : intr_coal_conf) : list intr_coal_conf :=
  let cidx := u16 (ic_sw_cidx e + 1) in
  if cidx =? ic_num_entries e then
    alter (λ e, e <| ic_sw_cidx := 0 |>) i
      (alter (λ e, e <| ic_color := if nz (ic_color e) then 0 else 1 |>) 0%nat l)
  else alter (λ e, e <| ic_sw_cidx := cidx |>) i l.

(** The loop; [descq] is the queue of the last entry.  [None]: out of fuel, or an
    access outside an array. *)
Fixpoint aggregate_loop (fuel i : nat) (counter : Z) (descq : option qref) (s : intr_state) :
    option (option qref * intr_state) :=
  match fuel with
  | O => None
  | S fuel =>
      e ← is_coal s !! i;
      entry ← ic_ring e !! Z.to_nat counter;
      if negb (ir_coal_color entry =? ic_color e) then Some (descq, s)
      else
        let r := qdma_device_get_descq_by_hw_qid (ir_qid entry) (ir_intr_type entry) in
        q ← get_queue r d;
        let s := s <| is_prev := Some r |> <| is_ev := is_ev s ++ queue_events r q |> in
        let counter := if u16 (ic_sw_cidx e + 1) =? ic_num_entries e then 0 else counter + 1 in
        aggregate_loop fuel i counter (Some r) (s <| is_coal := advance i (is_coal s) e |>)
  end.

(** [queue_intr_cidx_update] for the ring, with the index of a queue. *)
Definition cidx_update (i : nat) (r : qref) (s : intr_state) : option intr_state :=
  e ← is_coal s !! i;
  q ← get_queue r d;
  Some (s <| is_ev := is_ev s ++ [IeCidx (qc_qidx (dq_conf q)) (ic_sw_cidx e) (ic_rng_idx e)] |>).

(** The vector of [msix[vidx]] is [vidx].  After no entry the index is written
    again with the queue of an earlier interrupt. *)
Definition data_intr_aggregate (fuel : nat) (vidx : Z) (s : intr_state) : option intr_state :=
  let i := Z.to_nat (vidx - xd_dvec_start_idx (ds_xdev d)) in
  e ← (if vidx <? xd_dvec_start_idx (ds_xdev d) then None else is_coal s !! i);
  if negb (vidx =? ic_vec_id e) then Some s
  else
    '(descq, s) ← aggregate_loop fuel i (ic_sw_cidx e) None s;
    match descq with
    | Some r => cidx_update i r s
    | None => match is_prev s with Some r => cidx_update i r s | None => Some s end
    end.

Fixpoint direct_loop (l : list qref) (s : intr_state) : option intr_state :=
  match l with
  | [] => Some s
  | r :: l => q ← get_queue r d; direct_loop l (s <| is_ev := is_ev s ++ queue_events r q |>)
  end.

Definition data_intr_direct (vidx : Z) (s : intr_state) : option intr_state :=
  l ← ds_intr d !! Z.to_nat vidx; direct_loop l s.

Definition data_intr_handler (fuel : nat) (vidx : Z) (s : intr_state) : option intr_state :=
  if intr_aggregated (ds_xdev d) then data_intr_aggregate fuel vidx s else data_intr_direct vidx s.
End intr.

(** ** Setting up the rings *)

(** [ENOMEM] when a ring cannot be allocated; there is one ring.  Without
    vectors the driver falls back to polling. *)
Definition intr_ring_setup (rngsz : Z) (bus : option Z) (x : xlnx_dma_dev) :
    Z * xlnx_dma_dev * option (list intr_coal_conf) :=
  if negb (intr_aggregated x) then (0, x, None)
  else if nz (xd_num_vecs x) then
    let num_entries := (rngsz + 1) * 512 in
    match bus with
    | None => (- ENOMEM, x, None)
    | Some bus =>
        let vec := xd_dvec_start_idx x in
        (0, x, Some [mk_coal (u16 vec) (u16 num_entries) bus
                       (replicate (Z.to_nat num_entries) (mk_ring_entry 0 0 0)) 1 0
                       (u8 (get_intr_ring_index x (u16 vec)))])
    end
  else (0, x <| xd_qdma_drv_mode := POLL_MODE |>, None).

(** The interrupt context of a ring, and its programming. *)
Definition make_intr_context (x : xlnx_dma_dev) (rngsz : Z) (e : intr_coal_conf) : qdma_indirect_intr_ctxt :=
  {| intr_valid := 1; intr_vec := ic_vec_id e; intr_baddr_4k := ic_bus e; intr_color := ic_color e;
     intr_page_size := rngsz; intr_func_id := xd_func_id x; intr_pidx := 0; intr_int_st := 0; intr_at := 0;
     intr_host_id := 0; intr_pasid := 0; intr_pasid_en := 0 |}.

Section context.
Context {dev : Type} `{HwAccess dev}.

Definition qdma_intr_context_setup (rngsz : Z) (e : intr_coal_conf) : qm (hw_state dev) Z :=
  x ← getx;
  if negb (intr_aggregated x) then mret 0
  else
    let ring_index := get_intr_ring_index x (xd_dvec_start_idx x) in
    checked (qhw (ha_indirect_intr_ctx_conf ring_index None QDMA_HW_ACCESS_CLEAR)) (
    checked (qhw (ha_indirect_intr_ctx_conf ring_index (Some (make_intr_context x rngsz e)) QDMA_HW_ACCESS_WRITE))
      (mret 0)).
End context.
