(* ===== verification/QueueLifeThms.v ===== *)
(** * Life cycle of the queues: theorems

    The operations implement the life cycle machine of the queues (disabled,
    enabled, online), on which the streaming and memory mapped queues of an
    index never mix. *)

From S2P Require Import Prelude Platform QdmaList ResMgmt SoftAccess QueueTypes.
From S2P Require Import DescRing Descq DescqProc DescqConf Threads QueueLife.

(** ** Queue operations that keep state and mode *)

Definition qview (q : qdma_descq) : q_state_t * Z := (dq_q_state q, qc_st (dq_conf q)).

Section qkeep.
Context {H : Type} `{QueueHw H}.

Definition qkeep {A} (m : qm H A) : Prop := ∀ s a t, m s = Some (a, t) → qview (s_q t) = qview (s_q s).

Lemma qkeep_ret {A} (a : A) : qkeep (mret a).
Proof. by intros s ? t [= <- <-]. Qed.
Lemma qkeep_bind {A B} (m : qm H A) (k : A → qm H B) : qkeep m → (∀ a, qkeep (k a)) → qkeep (m ≫= k).
Proof. intros Hm Hk s b t (a & s1 & H1 & H2)%qm_bind_some. by rewrite (Hk a _ _ _ H2), (Hm _ _ _ H1). Qed.
Lemma qkeep_getq : qkeep getq.
Proof. by intros s ? t [= <- <-]. Qed.
Lemma qkeep_getx : qkeep getx.
Proof. by intros s ? t [= <- <-]. Qed.
Lemma qkeep_fail {A} : qkeep (qfail (A := A)).
Proof. by intros s ? t. Qed.
Lemma qkeep_modq f : (∀ q, qview (f q) = qview q) → qkeep (modq f).
Proof. intros Hf s ? t [= <- <-]. apply Hf. Qed.
Lemma qkeep_hwcall {A} (f : H → A * H) : qkeep (hwcall f).
Proof. intros s ? t. unfold hwcall. destruct (f _). by intros [= <- <-]. Qed.
Lemma qkeep_qevent e : qkeep (qevent e).
Proof. by intros s ? t [= <- <-]. Qed.
Lemma qkeep_getreq r : qkeep (getreq r).
Proof. intros s ? t. unfold getreq. case_match; [|done]. by intros [= <- <-]. Qed.
Lemma qkeep_putreq r rq : qkeep (putreq r rq).
Proof. by intros s ? t [= <- <-]. Qed.
End qkeep.

Create HintDb qkeep.
#[export] Hint Resolve qkeep_ret qkeep_getq qkeep_getx qkeep_fail qkeep_hwcall qkeep_qevent qkeep_getreq
  qkeep_putreq : qkeep.

(** Follow the structure of an operation. *)
Ltac qkeep :=
  repeat first [solve [auto with qkeep nocore] | apply qkeep_bind; [|intros ?] | apply qkeep_modq; intros ?; by repeat case_match
               | case_match].

Section qkeep2.
Context {H : Type} `{QueueHw H}.

Lemma qkeep_lock : qkeep (H := H) lock_descq.
Proof. unfold lock_descq. qkeep. Qed.
Lemma qkeep_unlock : qkeep (H := H) unlock_descq.
Proof. unfold unlock_descq. qkeep. Qed.
Lemma qkeep_modcb r f : qkeep (H := H) (modcb r f).
Proof. unfold modcb. qkeep. Qed.
Lemma qkeep_cb_list_del r : qkeep (H := H) (cb_list_del r).
Proof. unfold cb_list_del. qkeep. Qed.
Lemma qkeep_work_queue_del r : qkeep (H := H) (qdma_work_queue_del r).
Proof. unfold qdma_work_queue_del, cb_list_del. qkeep. Qed.

Lemma qkeep_stop_requests del rs : (∀ r, qkeep (H := H) (del r)) → qkeep (stop_requests del rs).
Proof.
  intros Hd. induction rs as [|r rs IH]; simpl; [qkeep|]. apply qkeep_bind; [|done].
  unfold stop_request. apply qkeep_bind; [apply qkeep_modcb|intros _]. apply qkeep_bind; [apply qkeep_getreq|].
  intros rq. destruct (rq_fp_done rq); [apply qkeep_bind; [done|intros _]|]; apply qkeep_qevent.
Qed.

Lemma qview_thresholds x q : qview (cntr_thresholds x q) = qview q.
Proof. reflexivity. Qed.

Lemma cmpt_ring_st x c : qc_st (cmpt_ring_conf x c) = qc_st c.
Proof. unfold cmpt_ring_conf. by destruct (best_fit _ _ _ _) as [[]|]. Qed.

Lemma qview_config_complete x q : qview (qdma_descq_config_complete x q) = qview q.
Proof.
  assert (qview (config_rings x q) = qview q) as <-.
  { unfold config_rings. cbv zeta. destruct (has_cmpt q); [|done]. unfold qview. f_equal.
    etransitivity; [apply (cmpt_ring_st x)|done]. }
  unfold qdma_descq_config_complete. cbv zeta. destruct (has_cmpt _); [by rewrite qview_thresholds|done].
Qed.

Lemma qview_reconfig x c q : qview (qdma_descq_config x c true q) = qview q.
Proof. unfold qdma_descq_config. cbv zeta. cbn [negb]. by repeat case_match. Qed.

Lemma qkeep_prog_pointers rv : qkeep (H := H) (qdma_descq_prog_pointers rv).
Proof. unfold qdma_descq_prog_pointers, init_pointers, descq_cmpt_doorbell, descq_pidx_doorbell. qkeep. Qed.

Lemma qkeep_free free : qkeep free → qkeep (H := H) (qdma_descq_free_resource free).
Proof.
  intros Hf. unfold qdma_descq_free_resource. apply qkeep_bind; [apply qkeep_getq|intros q].
  apply qkeep_bind; [by case_match; [|apply qkeep_ret]|intros _]. by apply qkeep_modq.
Qed.
Lemma qkeep_alloc alloc flq free : qkeep flq → qkeep free → qkeep (H := H) (qdma_descq_alloc_resource alloc flq free).
Proof.
  intros Hf Hfree. unfold qdma_descq_alloc_resource, err_out, desc_ring_alloc. pose proof (qkeep_free free Hfree).
  assert (∀ bus, qkeep (H := H) (modq (λ q, ring_clear q <| dq_desc_bus := bus |>))) as Hr.
  { intros bus. apply qkeep_modq. intros q. unfold ring_clear. by repeat case_match. }
  assert (∀ x, qkeep (H := H) (modq (desc_alloc_irq x))) as Hi.
  { intros x. apply qkeep_modq. intros q. unfold desc_alloc_irq. by case_match. }
  qkeep; auto.
Qed.
End qkeep2.

(** ** The queues of a device *)

Section view.
Context {H : Type} `{QueueHw H}.
Implicit Types s : dst H.

Definition view s (r : qref) : option (q_state_t * Z) := qview <$> get_queue r s.

Lemma get_put_queue r r' q q0 s :
  get_queue r s = Some q0 → get_queue r' (put_queue r q s) = if decide (r' = r) then Some q else get_queue r' s.
Proof.
  destruct r as [p i], r' as [p' i']. unfold get_queue, put_queue. cbn [fst snd].
  destruct (i <? 0) eqn:Hi; [done|]. intros Hl. pose proof (lookup_lt_Some _ _ _ Hl) as Hlt.
  destruct (i' <? 0) eqn:Hi'.
  { rewrite decide_False; [done|]. intros [= -> ->]. congruence. }
  assert (Hp : pool_list p' (set_pool p (<[Z.to_nat i := q]> (pool_list p s)) s) =
    if decide (p' = p) then <[Z.to_nat i := q]> (pool_list p s) else pool_list p' s).
  { destruct p, p'; by rewrite ?decide_True, ?decide_False by done. }
  rewrite Hp. destruct (decide (p' = p)) as [->|]; [|rewrite decide_False by congruence; done].
  destruct (decide (i' = i)) as [->|].
  - by rewrite decide_True, list_lookup_insert_eq by done.
  - rewrite decide_False by congruence. rewrite list_lookup_insert_ne by lia. done.
Qed.

Lemma put_queue_same r q s : ds_qmax (put_queue r q s) = ds_qmax s ∧ ds_init_qrange (put_queue r q s) = ds_init_qrange s.
Proof. by destruct r as [[] i]. Qed.

(** The part of a device the life cycle is about is unchanged. *)
Definition keepd s (s' : dst H) : Prop :=
  (∀ r, view s' r = view s r) ∧ ds_qmax s' = ds_qmax s ∧ ds_init_qrange s' = ds_init_qrange s.

(** Only queue [r] has changed, to [v]. *)
Definition updd s r v (s' : dst H) : Prop :=
  is_Some (view s r) ∧ (∀ r', view s' r' = if decide (r' = r) then Some v else view s r') ∧
  ds_qmax s' = ds_qmax s ∧ ds_init_qrange s' = ds_init_qrange s.

Definition dkeep {A} (m : dm H A) : Prop := ∀ s a s', m s = Some (a, s') → keepd s s'.

Lemma keepd_refl s : keepd s s.
Proof. done. Qed.
Lemma keepd_trans s1 s2 s3 : keepd s1 s2 → keepd s2 s3 → keepd s1 s3.
Proof. intros (A1 & A2 & A3) (B1 & B2 & B3). split; [|split; congruence]. intros r. by rewrite B1, A1. Qed.
Lemma keepd_updd s1 s2 s3 r v : keepd s1 s2 → updd s2 r v s3 → updd s1 r v s3.
Proof.
  intros (A1 & A2 & A3) (B0 & B1 & B2 & B3). split; [by rewrite <- A1|]. split; [|split; congruence].
  intros r'. rewrite B1. case_decide; [done|]. apply A1.
Qed.
Lemma updd_keepd s1 s2 s3 r v : updd s1 r v s2 → keepd s2 s3 → updd s1 r v s3.
Proof.
  intros (A0 & A1 & A2 & A3) (B1 & B2 & B3). split; [done|]. split; [|split; congruence].
  intros r'. by rewrite B1, A1.
Qed.
Lemma updd_updd s1 s2 s3 r v w : updd s1 r v s2 → updd s2 r w s3 → updd s1 r w s3.
Proof.
  intros (A0 & A1 & A2 & A3) (B0 & B1 & B2 & B3). split; [done|]. split; [|split; congruence].
  intros r'. rewrite B1. case_decide; [done|]. rewrite A1. by rewrite decide_False.
Qed.
(** Writing back what was there. *)
Lemma updd_same s s' r v : updd s r v s' → view s r = Some v → keepd s s'.
Proof.
  intros (A0 & A1 & A2 & A3) Hv. split; [|done]. intros r'. rewrite A1. case_decide as Hd; [|done]. by rewrite Hd.
Qed.

Lemma dm_bind_some {A B} (m : dm H A) (k : A → dm H B) s b s2 :
  (m ≫= k) s = Some (b, s2) → ∃ a s1, m s = Some (a, s1) ∧ k a s1 = Some (b, s2).
Proof. unfold mbind, dm_bind. intros. case_match; [|done]. destruct p. eauto. Qed.

Lemma dkeep_ret {A} (a : A) : dkeep (mret a).
Proof. intros s ? s' [= <- <-]. apply keepd_refl. Qed.
Lemma dkeep_getd : dkeep getd.
Proof. intros s ? s' [= <- <-]. apply keepd_refl. Qed.
Lemma dkeep_bind {A B} (m : dm H A) (k : A → dm H B) : dkeep m → (∀ a, dkeep (k a)) → dkeep (m ≫= k).
Proof. intros Hm Hk s b s2 (a & s1 & H1 & H2)%dm_bind_some. eapply keepd_trans; [by eapply Hm|by eapply Hk]. Qed.
Lemma dkeep_fail {A} : dkeep (dfail (A := A)).
Proof. by intros s ? s'. Qed.

(** The effect of a queue operation on the device. *)
Lemma on_queue_run {A} r (m : qm H A) s a s' :
  on_queue r m s = Some (a, s') →
  ∃ q t, get_queue r s = Some q ∧ m (mk_qst q (ds_xdev s) (ds_reqs s) (ds_hw s) (ds_ev s)) = Some (a, t) ∧
    updd s r (qview (s_q t)) s' ∧ get_queue r s' = Some (s_q t).
Proof.
  unfold on_queue. destruct (get_queue r s) as [q|] eqn:Hq; [|done].
  destruct (m _) as [[b t]|] eqn:Hm; [|done]. intros [= <- <-]. exists q, t. split; [done|]. split; [done|].
  assert (Hg : ∀ r', get_queue r' (put_queue r (s_q t) s <| ds_xdev := s_xdev t |> <| ds_reqs := s_reqs t |>
    <| ds_hw := s_hw t |> <| ds_ev := s_ev t |>) = if decide (r' = r) then Some (s_q t) else get_queue r' s).
  { intros r'. rewrite <- (get_put_queue r r' (s_q t) q s) by done. by destruct r' as [[] ?]. }
  split; [|by rewrite Hg, decide_True]. destruct (put_queue_same r (s_q t) s) as [Hmax Hin].
  split; [unfold view; rewrite Hq; by eexists|]. split; [|done].
  intros r'. unfold view. rewrite Hg. by case_decide.
Qed.

Lemma dkeep_on_queue {A} r (m : qm H A) : qkeep m → dkeep (on_queue r m).
Proof.
  intros Hm s a s' (q & t & Hq & Hrun & Hu & _)%on_queue_run. eapply updd_same; [exact Hu|].
  unfold view. rewrite Hq. simpl. by rewrite (Hm _ _ _ Hrun).
Qed.

Lemma dkeep_modd f : (∀ s, keepd s (f s)) → dkeep (modd f).
Proof. intros Hf s ? s' [= <- <-]. apply Hf. Qed.

Lemma dkeep_dwhen b m : dkeep m → dkeep (dwhen b m).
Proof. destruct b; [done|]. intros _. apply dkeep_ret. Qed.
End view.

#[export] Hint Resolve dkeep_ret dkeep_getd dkeep_fail : qkeep.
#[export] Hint Resolve qkeep_lock qkeep_unlock qkeep_modcb qkeep_cb_list_del qkeep_work_queue_del
  qkeep_prog_pointers : qkeep.

Ltac dkeep :=
  repeat first [solve [auto with qkeep nocore] | apply dkeep_bind; [|intros ?]
               | apply dkeep_on_queue; solve [qkeep] | apply dkeep_dwhen | apply dkeep_modd; done
               | case_match].

Section ops.
Context {H : Type} `{QueueHw H}.
Implicit Types s : dst H.

Lemma locked_queue_run r s q s' :
  locked_queue r s = Some (q, s') → keepd s s' ∧ view s r = Some (qview q).
Proof.
  intros Hrun. split.
  { revert Hrun. apply dkeep_on_queue. qkeep. }
  apply on_queue_run in Hrun as (q0 & t & Hq & Hm & _).
  unfold view. rewrite Hq. unfold lock_descq, unlock_descq, mbind, qm_bind, getq, modq, mret, qm_ret in Hm.
  simpl in Hm. destruct (dq_lock q0); [done|]. by injection Hm as <- _.
Qed.

Lemma q_state_is_run r st s b s' :
  q_state_is r st s = Some (b, s') → keepd s s' ∧ ∃ v, view s r = Some v ∧ b = bool_decide (fst v = st).
Proof.
  intros Hrun. split.
  { revert Hrun. apply dkeep_on_queue. qkeep. }
  apply on_queue_run in Hrun as (q0 & t & Hq & Hm & _). exists (qview q0). unfold view. rewrite Hq.
  split; [done|]. unfold lock_descq, unlock_descq, mbind, qm_bind, getq, modq, mret, qm_ret in Hm. simpl in Hm.
  destruct (dq_lock q0); [done|]. by injection Hm as <- _.
Qed.

Lemma set_q_state_run r st s s' :
  set_q_state r st s = Some (tt, s') → ∃ st0 m, view s r = Some (st0, m) ∧ updd s r (st, m) s'.
Proof.
  intros (q0 & t & Hq & Hm & Hu & _)%on_queue_run. unfold view at 1. rewrite Hq. simpl. eexists _, _. split; [done|].
  unfold lock_descq, unlock_descq, mbind, qm_bind, getq, modq in Hm. simpl in Hm.
  destruct (dq_lock q0); [done|]. simpl in Hm. by injection Hm as <-.
Qed.

Lemma get_descq_run idx init s d s' :
  qdma_device_get_descq_by_id idx init s = Some (d, s') →
  keepd s s' ∧ ∀ r, d = Some r → id_ref (ds_qmax s) idx = Some r ∧
    (init = true → ∃ v, view s r = Some v ∧ fst v ≠ Q_STATE_DISABLED).
Proof.
  intros (s1 & s2 & [= <- <-] & Hrun)%dm_bind_some. destruct (id_ref (ds_qmax s) idx) as [r|]; cycle 1.
  { injection Hrun as <- <-. by split; [apply keepd_refl|]. }
  destruct init.
  - apply dm_bind_some in Hrun as (b & s1 & Hb & Hrun). apply q_state_is_run in Hb as [Hk (v & Hv & ->)].
    injection Hrun as <- <-. split; [done|]. intros r0. case_bool_decide as Hd; [done|]. intros [= <-].
    split; [done|]. intros _. by exists v.
  - injection Hrun as <- <-. split; [apply keepd_refl|]. intros r0 [= <-]. done.
Qed.

(** ** Modes of an index *)

Definition off (o : option (q_state_t * Z)) : Prop := ∃ m, o = Some (Q_STATE_DISABLED, m).
Definition on (o : option (q_state_t * Z)) (m : Z) : Prop := ∃ st, o = Some (st, m) ∧ st ≠ Q_STATE_DISABLED.

(** A queue of this type and mode can be added at index [i]: there is none of its
    type; an ST queue never meets a completion queue of its own or an MM queue
    of the other direction, and the other way round. *)
Definition free_for (v : qref → option (q_state_t * Z)) (i : Z) (p : pool) (st : Z) : Prop :=
  off (v (p, i)) ∧
  match p with
  | PCMPT => (∀ m, on (v (PH2C, i)) m → m = 0) ∧ (∀ m, on (v (PC2H, i)) m → m = 0)
  | PH2C => (∀ m, on (v (PC2H, i)) m → nz m = nz st) ∧ (nz st = true → off (v (PCMPT, i)))
  | PC2H => (∀ m, on (v (PH2C, i)) m → nz m = nz st) ∧ (nz st = true → off (v (PCMPT, i)))
  end.

Lemma on_qview q m : on (Some (qview q)) m ↔ dq_q_state q ≠ Q_STATE_DISABLED ∧ m = qc_st (dq_conf q).
Proof. unfold on, qview. split; [intros (st & [= <- <-] & ?); done|intros [? ->]; eauto]. Qed.
Lemma off_qview q : off (Some (qview q)) ↔ dq_q_state q = Q_STATE_DISABLED.
Proof. unfold off, qview. split; [by intros (m & [= -> _])|intros ->; eauto]. Qed.

Lemma nz_false m : nz m = false ↔ m = 0.
Proof. unfold nz. rewrite negb_false_iff. apply Z.eqb_eq. Qed.

(** What the masks of is_usable_queue decide. *)
Lemma usable_free h c w q_type st :
  0 <= q_type <= 2 →
  usable (Z.lor (Z.lor (ref_bits Q_PRESENT_H2C_MASK true h) (ref_bits Q_PRESENT_C2H_MASK true c))
                (ref_bits Q_PRESENT_CMPT_MASK false w)) q_type st = true →
  free_for (λ r, Some (qview match fst r with PH2C => h | PC2H => c | PCMPT => w end)) 0 (pool_of q_type) st.
Proof.
  intros Ht. assert (q_type = 0 ∨ q_type = 1 ∨ q_type = 2) as [-> |[-> | ->]] by lia;
    unfold ref_bits, free_for; cbn [pool_of fst snd Z.eqb Q_CMPT Q_C2H Q_H2C Pos.eqb];
    rewrite ?off_qview; intros Hus.
  all: pose proof (λ q m, proj1 (on_qview q m)) as Hon.
  all: destruct (nz st) eqn:Es, (nz (qc_st (dq_conf h))) eqn:Eh, (nz (qc_st (dq_conf c))) eqn:Ec,
    (dq_q_state h) eqn:Sh, (dq_q_state c) eqn:Sc, (dq_q_state w) eqn:Sw;
    unfold usable in Hus; rewrite ?Es in Hus; vm_compute in Hus; try discriminate Hus; clear Hus;
    (split; [done|]); split; try done;
    intros m [? ->]%Hon; try congruence; by apply nz_false.
Qed.

Lemma is_usable_run i q_type st s b s' :
  0 <= q_type <= 2 → is_usable_queue i q_type st s = Some (b, s') →
  keepd s s' ∧ (b = true → free_for (view s) i (pool_of q_type) st).
Proof.
  intros Ht. unfold is_usable_queue.
  intros (h & s1 & [K1 V1]%locked_queue_run & (c & s2 & [K2 V2]%locked_queue_run &
    (w & s3 & [K3 V3]%locked_queue_run & Hret)%dm_bind_some)%dm_bind_some)%dm_bind_some.
  injection Hret as <- <-. pose proof (keepd_trans _ _ _ K1 K2) as K12. split; [by eapply keepd_trans|].
  intros Hu. apply usable_free in Hu; [|done]. rewrite (proj1 K1) in V2. rewrite (proj1 K12) in V3.
  unfold free_for in *. cbn [fst snd] in Hu. destruct (pool_of q_type); by rewrite ?V1, ?V2, ?V3.
Qed.

(** ** The life cycle machine *)

(** The state: state and mode of every queue, and whether the queue range of the
    device was programmed. *)
Definition lstate : Type := (qref → option (q_state_t * Z)) * bool.
Definition lview s : lstate := (view s, ds_init_qrange s).

Definition moved (l l' : lstate) (r : qref) (v : q_state_t * Z) : Prop :=
  ∀ r', fst l' r' = if decide (r' = r) then Some v else fst l r'.

(** What happens to a queue; [EvLeak] is a queue that was taken and not
    configured, because the queue range of the device could not be programmed. *)
Inductive life_ev := EvIdle | EvAdd (r : qref) (st : Z) | EvLeak (r : qref) (st : Z) | EvStart (r : qref)
  | EvStop (r : qref) | EvRemove (r : qref).

Inductive life_step (l l' : lstate) : life_ev → Prop :=
  | ls_idle : (∀ r, fst l' r = fst l r) → (snd l = true → snd l' = true) → life_step l l' EvIdle
  | ls_add i p st : free_for (fst l) i p st → moved l l' (p, i) (Q_STATE_ENABLED, st) → snd l' = true →
      life_step l l' (EvAdd (p, i) st)
  | ls_leak i p st m : free_for (fst l) i p st → fst l (p, i) = Some (Q_STATE_DISABLED, m) →
      moved l l' (p, i) (Q_STATE_ENABLED, m) → snd l = false → snd l' = false →
      life_step l l' (EvLeak (p, i) st)
  | ls_start r m : fst l r = Some (Q_STATE_ENABLED, m) → moved l l' r (Q_STATE_ONLINE, m) → snd l' = snd l →
      life_step l l' (EvStart r)
  | ls_stop r m : fst l r = Some (Q_STATE_ONLINE, m) → moved l l' r (Q_STATE_ENABLED, m) → snd l' = snd l →
      life_step l l' (EvStop r)
  | ls_remove r m : fst l r = Some (Q_STATE_ENABLED, m) → moved l l' r (Q_STATE_DISABLED, m) → snd l' = snd l →
      life_step l l' (EvRemove r).

(** The outcome of an operation on a handle: an error and no change, or success
    and the event on the queue of the handle. *)
Definition op_outcome s id (ev : qref → life_ev) (rv : Z) s' : Prop :=
  rv < 0 ∧ life_step (lview s) (lview s') EvIdle ∨
  rv = 0 ∧ ∃ r, id_ref (ds_qmax s) id = Some r ∧ life_step (lview s) (lview s') (ev r).

Lemma free_for_ext v v' i p st : (∀ r, v' r = v r) → free_for v i p st → free_for v' i p st.
Proof. intros Hv. unfold free_for. destruct p; by rewrite !Hv. Qed.

Lemma life_step_ext l1 l2 l1' l2' e :
  life_step l1 l2 e → (∀ r, fst l1' r = fst l1 r) → snd l1' = snd l1 →
  (∀ r, fst l2' r = fst l2 r) → snd l2' = snd l2 → life_step l1' l2' e.
Proof.
  intros Hs Hf1 Hi1 Hf2 Hi2.
  assert (Hm : ∀ r v, moved l1 l2 r v → moved l1' l2' r v).
  { intros r v Hmv r'. rewrite Hf2, Hmv. case_decide; [done|]. by rewrite Hf1. }
  destruct Hs as [E1 E2|i p st E1 E2 E3|i p st m E1 E2 E3 E4 E5|r m E1 E2 E3|r m E1 E2 E3|r m E1 E2 E3].
  - apply ls_idle; [intros r; by rewrite Hf2, E1, Hf1|]. by rewrite Hi1, Hi2.
  - eapply ls_add; [by eapply free_for_ext|by apply Hm|congruence].
  - eapply ls_leak; [by eapply free_for_ext|by rewrite Hf1|by apply Hm|congruence..].
  - eapply ls_start; [by rewrite Hf1|by apply Hm|congruence].
  - eapply ls_stop; [by rewrite Hf1|by apply Hm|congruence].
  - eapply ls_remove; [by rewrite Hf1|by apply Hm|congruence].
Qed.

Lemma life_step_after s s1 s2 e :
  life_step (lview s) (lview s1) e → keepd s1 s2 → life_step (lview s) (lview s2) e.
Proof. intros Hs (K1 & _ & K2). by eapply life_step_ext. Qed.

Lemma life_step_before s s1 s2 e :
  keepd s s1 → life_step (lview s1) (lview s2) e → life_step (lview s) (lview s2) e.
Proof. intros (K1 & _ & K2) Hs. eapply life_step_ext; [exact Hs|symmetry; apply K1|done..]. Qed.

Lemma keepd_idle s s' : keepd s s' → life_step (lview s) (lview s') EvIdle.
Proof. intros (Hv & _ & Hi). apply ls_idle; [exact Hv|]. unfold lview. simpl. congruence. Qed.

Lemma outcome_err s id ev rv s' : rv < 0 → keepd s s' → op_outcome s id ev rv s'.
Proof. intros Hrv K. left. split; [done|]. by apply keepd_idle. Qed.
End ops.

Section refine.
Context {H : Type} `{QueueHw H}.
Implicit Types s : dst H.
Variable qdma_csr_read : xlnx_dma_dev → H → Z * (xlnx_dma_dev * H).
Variable device_set_qrange : H → Z * H.
Variable intr_legacy_setup : qm H Z.
Variable intr_legacy_clear : qm H unit.
Variable qdma_descq_context_setup : qm H Z.
Variable qdma_descq_context_clear : bool → qm H Z.
Variable dma_alloc : Z → H → option Z * H.
Variable descq_flq_alloc_resource : qm H Z.
Variable descq_flq_free : qm H unit.

(** What the code outside this component does to a queue: not its state nor its
    mode. *)
Hypothesis legacy_setup_keeps : qkeep intr_legacy_setup.
Hypothesis legacy_clear_keeps : qkeep intr_legacy_clear.
Hypothesis context_setup_keeps : qkeep qdma_descq_context_setup.
Hypothesis context_clear_keeps : ∀ b, qkeep (qdma_descq_context_clear b).
Hypothesis flq_keeps : qkeep descq_flq_alloc_resource.
Hypothesis flq_free_keeps : qkeep descq_flq_free.

Notation prep := (qdma_device_prep_q_resource qdma_csr_read device_set_qrange).
Notation add := (qdma_queue_add qdma_csr_read device_set_qrange intr_legacy_setup intr_legacy_clear).
Notation remove := (qdma_queue_remove intr_legacy_clear).
Notation start := (qdma_queue_start qdma_descq_context_setup qdma_descq_context_clear dma_alloc
                     descq_flq_alloc_resource descq_flq_free).
Notation stop := (qdma_queue_stop qdma_descq_context_clear descq_flq_free).

Lemma prep_run s rv s' :
  prep s = Some (rv, s') →
  (∀ r, view s' r = view s r) ∧ (ds_init_qrange s = true → ds_init_qrange s' = true) ∧
  (rv < 0 → ds_init_qrange s = false ∧ ds_init_qrange s' = false) ∧ (0 <= rv → ds_init_qrange s' = true) ∧
  ds_qmax s' = ds_qmax s.
Proof using.
  unfold qdma_device_prep_q_resource. intros (s0 & s1 & [= <- <-] & Hrun)%dm_bind_some.
  destruct (ds_init_qrange s) eqn:Hi. { injection Hrun as <- <-. by repeat split; try lia. }
  destruct (qdma_csr_read _ _) as [rv1 [x h]].
  apply dm_bind_some in Hrun as (u & s2 & [= <- <-] & Hrun).
  destruct (rv1 <? 0) eqn:Hrv1. { injection Hrun as <- <-. by repeat split; try lia. }
  destruct (device_set_qrange h) as [rv2 h2].
  apply dm_bind_some in Hrun as (u & s3 & [= <- <-] & Hrun).
  destruct (rv2 <? 0) eqn:Hrv2; cbn [negb dwhen] in Hrun;
    apply dm_bind_some in Hrun as (u' & s4 & [= <- <-] & [= <- <-]); by repeat split; try lia.
Qed.

Lemma dkeep_rm_count f t : dkeep (H := H) (rm_count f t).
Proof using. unfold rm_count. dkeep. Qed.

Lemma dkeep_count_queue c : dkeep (H := H) (count_queue c).
Proof using. unfold count_queue. pose proof dkeep_rm_count. dkeep. Qed.

Lemma dkeep_uncount_queue c : dkeep (H := H) (uncount_queue c).
Proof using. unfold uncount_queue. pose proof dkeep_rm_count. dkeep. Qed.

Lemma take_queue_run qconf s t s' :
  0 <= qc_q_type qconf <= 2 → qc_qidx qconf ≠ QDMA_QUEUE_IDX_INVALID → take_queue qconf s = Some (t, s') →
  match t with
  | None => keepd s s'
  | Some (r, i) => r = (pool_of (qc_q_type qconf), i) ∧ i = qc_qidx qconf ∧
      free_for (view s) i (pool_of (qc_q_type qconf)) (qc_st qconf) ∧
      ∃ m, view s r = Some (Q_STATE_DISABLED, m) ∧ updd s r (Q_STATE_ENABLED, m) s'
  end.
Proof using.
  intros Ht Hq. unfold take_queue. intros (s0 & s1 & [= <- <-] & Hrun)%dm_bind_some.
  rewrite (proj2 (Z.eqb_neq _ _)) in Hrun by done.
  apply dm_bind_some in Hrun as (b & s2 & [K Hb]%is_usable_run & Hrun); [|done].
  destruct b; [|by injection Hrun as <- <-].
  apply dm_bind_some in Hrun as ([] & s3 & (st0 & m & Hv & Hu)%set_q_state_run & [= <- <-]).
  specialize (Hb eq_refl). split; [done|]. split; [done|]. split; [done|].
  rewrite (proj1 K) in Hv. destruct Hb as [[m' Hm'] _]. rewrite Hm' in Hv. injection Hv as <- <-.
  exists m'. split; [done|]. by eapply keepd_updd.
Qed.

Lemma legacy_add_run r s rv s' :
  legacy_add intr_legacy_setup intr_legacy_clear r s = Some (rv, s') →
  keepd s s' ∧ rv = 0 ∨ rv = - EINVAL ∧ ∃ st m, view s r = Some (st, m) ∧ updd s r (Q_STATE_DISABLED, m) s'.
Proof using legacy_setup_keeps legacy_clear_keeps.
  unfold legacy_add. intros (s0 & s1 & [= <- <-] & Hrun)%dm_bind_some.
  destruct (xd_qdma_drv_mode _); try (left; injection Hrun as <- <-; split; [apply keepd_refl|done]).
  apply dm_bind_some in Hrun as (rv1 & s1 & K1%dkeep_on_queue & Hrun); [|done].
  destruct (rv1 =? 0); [left; injection Hrun as <- <-; done|]. right.
  apply dm_bind_some in Hrun as (u & s2 & K2 & Hrun).
  assert (keepd s1 s2) as K2'.
  { revert K2. destruct (0 <? rv1); simpl; [by apply dkeep_on_queue|]. intros [= _ <-]. apply keepd_refl. }
  pose proof (keepd_trans _ _ _ K1 K2') as K. clear K1 K2 K2'.
  apply dm_bind_some in Hrun as (u' & s3 & (q & t & Hq & [= <- <-] & Hu & _)%on_queue_run & [= <- <-]).
  split; [done|]. exists (dq_q_state q), (qc_st (dq_conf q)). split; [|by eapply keepd_updd].
  rewrite <- (proj1 K). unfold view. by rewrite Hq.
Qed.

(** The outcome of adding a queue. *)
Definition add_outcome s (qconf : qdma_queue_conf) (res : add_result) s' : Prop :=
  let r := (pool_of (qc_q_type qconf), qc_qidx qconf) in
  let '(rv, id, conf) := res in
  rv = 0 ∧ id_ref (ds_qmax s) id = Some r ∧ life_step (lview s) (lview s') (EvAdd r (qc_st qconf)) ∨
  rv < 0 ∧ id = QDMA_QUEUE_IDX_INVALID ∧
    ∃ e, life_step (lview s) (lview s') e ∧ e ∈ [EvIdle; EvLeak r (qc_st qconf); EvAdd r (qc_st qconf)].

Lemma add_failed s qconf rv conf s' e :
  let r := (pool_of (qc_q_type qconf), qc_qidx qconf) in
  rv < 0 → life_step (lview s) (lview s') e → e ∈ [EvIdle; EvLeak r (qc_st qconf); EvAdd r (qc_st qconf)] →
  add_outcome s qconf (rv, QDMA_QUEUE_IDX_INVALID, conf) s'.
Proof using. intros r Hrv Hs He. right. split; [done|]. split; [done|]. by exists e. Qed.

Lemma queue_handle_ref qmax qconf :
  0 <= qc_q_type qconf <= 2 → 0 <= qc_qidx qconf < qmax →
  id_ref qmax (queue_handle qmax qconf (qc_qidx qconf)) = Some (pool_of (qc_q_type qconf), qc_qidx qconf).
Proof using.
  intros Ht Hq. unfold id_ref, queue_handle.
  assert (qc_q_type qconf = 0 ∨ qc_q_type qconf = 1 ∨ qc_q_type qconf = 2) as [-> |[-> | ->]] by lia;
    cbn [Z.eqb Q_C2H Q_CMPT Pos.eqb pool_of Q_H2C]; rewrite ?(proj2 (Z.ltb_ge _ _)) by lia;
    rewrite ?(proj2 (Z.ltb_lt _ _)) by lia; do 2 f_equal; lia.
Qed.

Lemma view_nonneg s p i v : view s (p, i) = Some v → 0 <= i.
Proof using. unfold view, get_queue. cbn [snd]. destruct (i <? 0) eqn:E; [done|]. lia. Qed.

Lemma checked_idx s qconf :
  add_checks s qconf <? 0 = false → qc_qidx qconf ≠ QDMA_QUEUE_IDX_INVALID → qc_qidx qconf < ds_qmax s.
Proof using.
  intros Hc Hq%Z.eqb_neq. unfold add_checks in Hc. rewrite Hq in Hc. cbn [negb andb] in Hc.
  repeat (case_match; [by exfalso|]). lia.
Qed.

Lemma add_step qconf s res s' :
  0 <= qc_q_type qconf <= 2 → qc_qidx qconf ≠ QDMA_QUEUE_IDX_INVALID → add qconf s = Some (res, s') →
  add_outcome s qconf res s'.
Proof using legacy_setup_keeps legacy_clear_keeps.
  intros Ht Hq. unfold qdma_queue_add. intros (s0 & s1 & [= <- <-] & Hrun)%dm_bind_some.
  destruct (add_checks s qconf <? 0) eqn:Hchk.
  { injection Hrun as <- <-. eapply add_failed; [lia|by apply keepd_idle|by left]. }
  apply dm_bind_some in Hrun as (t & s1 & Htq%take_queue_run & Hrun); [|done..].
  destruct t as [[r i]|].
  2: { injection Hrun as <- <-. eapply add_failed; [done|by apply keepd_idle|by left]. }
  destruct Htq as (-> & -> & Hfree & m & Hv & Hu1). pose proof (view_nonneg _ _ _ _ Hv) as Hi0.
  pose proof (checked_idx _ _ Hchk Hq) as Hi1. clear Hchk.
  set (r := (pool_of (qc_q_type qconf), qc_qidx qconf)) in *.
  apply dm_bind_some in Hrun as (rv & s2 & (Hp1 & Hp2 & Hp3 & Hp4 & Hp5)%prep_run & Hrun).
  destruct Hu1 as (_ & Hu1 & Hm1 & Hr1).
  assert (Hv2 : ∀ r', view s2 r' = if decide (r' = r) then Some (Q_STATE_ENABLED, m) else view s r').
  { intros r'. by rewrite Hp1, Hu1. }
  destruct (rv <? 0) eqn:Hrv.
  { injection Hrun as <- <-. destruct Hp3 as [Hr2 Hr3]; [lia|].
    eapply add_failed; [lia| |by right; left].
    eapply (ls_leak _ _ (qc_qidx qconf) _ _ m); [exact Hfree|exact Hv|exact Hv2|simpl; congruence|done]. }
  specialize (Hp4 ltac:(lia)).
  apply dm_bind_some in Hrun as (rv2 & s3 & Hl%legacy_add_run & Hrun).
  destruct Hl as [[K3 ->]|(-> & st3 & m3 & Hv3 & (_ & Hu3 & _ & Hr3))]; cycle 1.
  { injection Hrun as <- <-. rewrite Hv2, decide_True in Hv3 by done. injection Hv3 as <- <-.
    eapply add_failed; [done| |by left].
    apply ls_idle; simpl; [|congruence]. intros r'. rewrite Hu3. case_decide as Hd; [by rewrite Hd|].
    by rewrite Hv2, decide_False. }
  cbn [Z.ltb Z.compare] in Hrun. apply dm_bind_some in Hrun as (s3' & s4 & [= <- <-] & Hrun).
  apply dm_bind_some in Hrun as (u & s5 & (q & t & Hq5 & [= <- <-] & (_ & Hu5 & _ & Hr5) & _)%on_queue_run & Hrun).
  assert (Hend : life_step (lview s) (lview s5) (EvAdd r (qc_st qconf))).
  { destruct K3 as (K3 & _ & Ki3). simpl in Hu5. unfold qdma_descq_config in Hu5. cbn [negb] in Hu5.
    assert (dq_q_state q = Q_STATE_ENABLED) as Hst.
    { assert (view s3 r = Some (qview q)) as Hvq by (unfold view; by rewrite Hq5).
      rewrite K3, Hv2, decide_True in Hvq by done. by injection Hvq. }
    apply ls_add; [exact Hfree| |simpl; congruence].
    intros r'. simpl. rewrite Hu5. unfold qview. simpl. rewrite Hst. fold r. case_decide; [done|].
    by rewrite K3, Hv2, decide_False. }
  apply dm_bind_some in Hrun as (rv3 & s6 & K6%dkeep_count_queue & Hrun).
  pose proof (life_step_after _ _ _ _ Hend K6) as Hend'.
  destruct (rv3 <? 0) eqn:Hrv3; injection Hrun as <- <-; [eapply add_failed; [lia|done|by right; right; left]|].
  left. split; [done|]. split; [|done]. destruct K3 as (_ & K3 & _).
  assert (ds_qmax s3 = ds_qmax s) as ->.
  { congruence. }
  by apply (queue_handle_ref (ds_qmax s) qconf).
Qed.

Lemma queue_run r s q s' : queue r s = Some (q, s') → keepd s s' ∧ view s r = Some (qview q).
Proof using.
  intros Hrun. split; [revert Hrun; apply dkeep_on_queue; qkeep|].
  apply on_queue_run in Hrun as (q0 & t & Hq & [= <- <-] & _). unfold view. by rewrite Hq.
Qed.

Lemma dkeep_put_queue r q q0 s : get_queue r s = Some q0 → qview q = qview q0 → keepd s (put_queue r q s).
Proof using.
  intros Hq Hv. destruct (put_queue_same r q s). split; [|done]. intros r'. unfold view.
  rewrite (get_put_queue _ _ _ _ _ Hq). case_decide as Hd; [|done]. rewrite Hd, Hq. simpl. by rewrite Hv.
Qed.

Lemma dkeep_thread_add r : dkeep (H := H) (thread_add r).
Proof using.
  intros s a s'. unfold thread_add. intros (s0 & s1 & [= <- <-] & Hrun)%dm_bind_some.
  apply dm_bind_some in Hrun as (q & s1 & Hq & Hrun).
  apply on_queue_run in Hq as Hq2. destruct Hq2 as (q0 & t & Hq0 & [= <- <-] & _ & Hq1).
  apply queue_run in Hq as [K _]. eapply keepd_trans; [exact K|].
  destruct (qdma_thread_add_work _ _ _) as [[t q2]|] eqn:Ht; [|done]. injection Hrun as _ <-.
  assert (qview q2 = qview q0).
  { unfold qdma_thread_add_work in Ht. destruct (xd_qdma_drv_mode _); try case_match; by simplify_eq. }
  eapply (dkeep_put_queue r q2) in Hq1 as (K1 & K2 & K3); [|done]. split; [|done]. intros r'. by rewrite <- K1.
Qed.

Lemma modd_run f s a s' : modd f s = Some (a, s') → s' = f s.
Proof using. by intros [= _ <-]. Qed.

Lemma dkeep_thread_remove r : dkeep (H := H) (thread_remove r).
Proof using.
  intros s a s'. unfold thread_remove. intros (q & s1 & Hq & ->%modd_run)%dm_bind_some.
  apply on_queue_run in Hq as Hq2. destruct Hq2 as (q0 & t & Hq0 & [= <- <-] & _ & Hq1).
  apply queue_run in Hq as [K _]. eapply keepd_trans; [exact K|].
  assert (qview (snd (qdma_thread_remove_work (ds_th s1) q0)) = qview q0) as Hv by done.
  destruct (qdma_thread_remove_work _ _) as [t2 q2]. cbn [snd] in Hv.
  apply (dkeep_put_queue r q2) in Hq1 as (K1 & K2 & K3); [|done]. split; [|done]. intros r'. by rewrite <- K1.
Qed.

Lemma dkeep_intr_list_add r vec : dkeep (H := H) (intr_list_add r vec).
Proof using. unfold intr_list_add. dkeep. Qed.
Lemma dkeep_intr_list_del r vec : dkeep (H := H) (intr_list_del r vec).
Proof using. unfold intr_list_del. dkeep. Qed.

Lemma remove_step id s rv s' : remove id s = Some (rv, s') → op_outcome s id EvRemove rv s'.
Proof using legacy_clear_keeps.
  unfold qdma_queue_remove. intros (d & s1 & [K1 Hd]%get_descq_run & Hrun)%dm_bind_some.
  destruct d as [r|]; [|injection Hrun as <- <-; by apply outcome_err].
  destruct (Hd _ eq_refl) as [Hid _]. clear Hd.
  apply dm_bind_some in Hrun as (q & s2 & [K2 Hv]%queue_run & Hrun). pose proof (keepd_trans _ _ _ K1 K2) as K12.
  case_bool_decide as Hen; cbn [negb] in Hrun; [|injection Hrun as <- <-; by apply outcome_err].
  apply dm_bind_some in Hrun as (rv2 & s3 & K3%dkeep_uncount_queue & Hrun).
  pose proof (keepd_trans _ _ _ K12 K3) as K.
  destruct (rv2 <? 0) eqn:Hrv2; [injection Hrun as <- <-; apply outcome_err; [lia|done]|].
  apply dm_bind_some in Hrun as ([] & s4 & (st & m & Hv4 & (_ & Hu & _ & Hi))%set_q_state_run & Hrun).
  assert (life_step (lview s) (lview s4) (EvRemove r)) as Hs.
  { eapply life_step_before; [exact K|]. rewrite (proj1 K), <- (proj1 K1), Hv in Hv4. injection Hv4 as <- <-.
    eapply (ls_remove _ _ r (qc_st (dq_conf q))); [|exact Hu|exact Hi].
    simpl. rewrite (proj1 K), <- (proj1 K1), Hv. unfold qview. by rewrite Hen. }
  apply dm_bind_some in Hrun as (s5 & s6 & [= <- <-] & Hrun).
  right. destruct (xd_qdma_drv_mode _); try (by injection Hrun as <- <-; eauto).
  apply dm_bind_some in Hrun as (u & s7 & K7%dkeep_on_queue & [= <- <-]); [|done].
  split; [done|]. exists r. split; [done|]. by eapply life_step_after.
Qed.

Lemma config_step id qconf s rv s' :
  qdma_queue_config id qconf s = Some (rv, s') → life_step (lview s) (lview s') EvIdle.
Proof using.
  intros Hrun. apply keepd_idle. revert Hrun. unfold qdma_queue_config.
  intros (d & s1 & [K1 _]%get_descq_run & Hrun)%dm_bind_some. eapply keepd_trans; [exact K1|]. revert Hrun.
  destruct d as [r|]; [|apply dkeep_ret]. apply dkeep_bind.
  { intros ??? [? _]%q_state_is_run. done. }
  intros en. destruct en; cbn [negb]; [|apply dkeep_ret]. apply dkeep_bind; [apply dkeep_getd|]. intros s2.
  destruct (_ =? 0); cbn [negb]; [|apply dkeep_ret]. apply dkeep_bind; [|intros; apply dkeep_ret].
  apply dkeep_on_queue, qkeep_modq. intros q. apply qview_reconfig.
Qed.

Lemma peek_run {A} r (f : qdma_descq → A) s a s' :
  on_queue r (lock_descq;; q ← getq; unlock_descq;; mret (f q)) s = Some (a, s') →
  keepd s s' ∧ ∃ q, view s r = Some (qview q) ∧ a = f q.
Proof using.
  intros Hrun. split.
  { revert Hrun. apply dkeep_on_queue. qkeep. }
  apply on_queue_run in Hrun as (q0 & t & Hq & Hm & _). unfold view. rewrite Hq.
  unfold lock_descq, unlock_descq, mbind, qm_bind, getq, modq, mret, qm_ret in Hm. simpl in Hm.
  destruct (dq_lock q0); [done|]. injection Hm as <- _. eexists. split; [|reflexivity]. done.
Qed.

Lemma start_checks_on c q : start_checks c q <? 0 = false → dq_q_state q = Q_STATE_ENABLED.
Proof using. unfold start_checks. by case_bool_decide. Qed.


Lemma start_step id s rv s' : start id s = Some (rv, s') → op_outcome s id EvStart rv s'.
Proof using context_setup_keeps context_clear_keeps flq_keeps flq_free_keeps.
  unfold qdma_queue_start. intros (d & s1 & [K1 Hd]%get_descq_run & Hrun)%dm_bind_some.
  destruct d as [r|]; [|injection Hrun as <- <-; by apply outcome_err].
  destruct (Hd _ eq_refl) as [Hid _]. clear Hd.
  apply dm_bind_some in Hrun as (s1' & s1'' & [= <- <-] & Hrun).
  apply dm_bind_some in Hrun as (rv1 & s2 & [K2 (q & Hq & ->)]%peek_run & Hrun).
  pose proof (keepd_trans _ _ _ K1 K2) as K. rewrite (proj1 K1) in Hq.
  destruct (start_checks _ q <? 0) eqn:Hc; [injection Hrun as <- <-; apply outcome_err; [lia|done]|].
  apply start_checks_on in Hc.
  apply dm_bind_some in Hrun as (u & s3 & K3%dkeep_on_queue & Hrun); cycle 1.
  { apply qkeep_modq. intros ?. apply qview_config_complete. }
  apply dm_bind_some in Hrun as (rv2 & s4 & K4%dkeep_on_queue & Hrun); [|by apply qkeep_alloc].
  pose proof (keepd_trans _ _ _ K (keepd_trans _ _ _ K3 K4)) as K'. clear K K1 K2 K3 K4.
  destruct (rv2 <? 0) eqn:Hrv2; [injection Hrun as <- <-; apply outcome_err; [lia|done]|].
  apply dm_bind_some in Hrun as (rv3 & s5 & K5%dkeep_on_queue & Hrun); cycle 1.
  { apply qkeep_bind; [apply context_setup_keeps|intros; apply qkeep_prog_pointers]. }
  pose proof (keepd_trans _ _ _ K' K5) as K. clear K' K5.
  destruct (rv3 <? 0) eqn:Hrv3.
  { apply dm_bind_some in Hrun as (u2 & s6 & K6%dkeep_on_queue & Hrun); [|apply context_clear_keeps].
    apply dm_bind_some in Hrun as (u3 & s7 & K7%dkeep_on_queue & [= <- <-]); [|by apply qkeep_free].
    apply outcome_err; [lia|]. eauto using keepd_trans. }
  apply dm_bind_some in Hrun as (q6 & s6 & [K6 _]%queue_run & Hrun).
  apply dm_bind_some in Hrun as (u7 & s7 & K7 & Hrun). apply (dkeep_dwhen _ _ (dkeep_intr_list_add _ _)) in K7.
  apply dm_bind_some in Hrun as (u8 & s8 & K8%dkeep_thread_add & Hrun).
  pose proof (keepd_trans _ _ _ K (keepd_trans _ _ _ K6 (keepd_trans _ _ _ K7 K8))) as K'.
  apply dm_bind_some in Hrun as ([] & s9 & (st & m & Hv & (_ & Hu & _ & Hi))%set_q_state_run & [= <- <-]).
  right. split; [done|]. exists r. split; [done|].
  eapply life_step_before; [exact K'|]. rewrite (proj1 K'), Hq in Hv. injection Hv as <- <-.
  eapply (ls_start _ _ r (qc_st (dq_conf q))); [|exact Hu|exact Hi].
  simpl. rewrite (proj1 K'), Hq. unfold qview. by rewrite Hc.
Qed.

Lemma stop_begin_run id s b s' :
  qdma_queue_stop_begin id s = Some (b, s') →
  keepd s s' ∧
  match b with
  | inl rv => rv < 0
  | inr (r, _) => id_ref (ds_qmax s) id = Some r ∧ ∃ m, view s r = Some (Q_STATE_ONLINE, m)
  end.
Proof using.
  unfold qdma_queue_stop_begin. intros (d & s1 & [K1 Hd]%get_descq_run & Hrun)%dm_bind_some.
  destruct d as [r|]; [|by injection Hrun as <- <-]. destruct (Hd _ eq_refl) as [Hid _]. clear Hd.
  split; [eapply keepd_trans; [exact K1|]; revert Hrun; apply dkeep_on_queue; qkeep|].
  apply on_queue_run in Hrun as (q0 & t & Hq & Hm & _).
  unfold lock_descq, unlock_descq, mbind, qm_bind, getq, modq, mret, qm_ret in Hm. simpl in Hm.
  destruct (dq_lock q0); [done|]. simpl in Hm. case_bool_decide as Hon; cbn [negb] in Hm; injection Hm as <- _; [|done].
  split; [done|]. exists (qc_st (dq_conf q0)). rewrite <- (proj1 K1). unfold view. rewrite Hq. unfold qview. simpl. by rewrite Hon.
Qed.

Lemma stop_queue_view (t t' : qst H) a :
  stop_queue t = Some (a, t') → qview (s_q t') = (Q_STATE_ENABLED, qc_st (dq_conf (s_q t))).
Proof using.
  unfold stop_queue. intros (u1 & t1 & Hl%qkeep_lock & Hrun)%qm_bind_some.
  apply qm_bind_some in Hrun as (u2 & t2 & [= _ <-] & Hrun). injection Hl as _ <-.
  match type of Hrun with ?m _ = _ => assert (qkeep m) as Hk end.
  { qkeep; apply qkeep_stop_requests; auto with qkeep. }
  by apply Hk in Hrun as ->.
Qed.

Lemma stop_finish_run r s rv s' m :
  view s r = Some (Q_STATE_ONLINE, m) → qdma_queue_stop_finish qdma_descq_context_clear descq_flq_free r s = Some (rv, s') →
  updd s r (Q_STATE_ENABLED, m) s'.
Proof using context_clear_keeps flq_free_keeps.
  intros Hv. unfold qdma_queue_stop_finish. intros (u & s1 & Hst & Hrun)%dm_bind_some.
  assert (updd s r (Q_STATE_ENABLED, m) s1) as Hu.
  { apply on_queue_run in Hst as (q & t & Hq & Hm%stop_queue_view & Hu & _). rewrite Hm in Hu.
    unfold view in Hv. rewrite Hq in Hv. by injection Hv as _ <-. }
  apply (updd_keepd _ _ _ _ _ Hu). revert Hrun. apply dkeep_bind; [apply dkeep_thread_remove|intros _].
  apply dkeep_bind; [apply dkeep_on_queue, context_clear_keeps|intros _].
  apply dkeep_bind; [apply dkeep_getd|intros x]. apply dkeep_bind; [apply dkeep_on_queue, qkeep_getq|intros q].
  apply dkeep_bind; [destruct (xd_qdma_drv_mode _); auto using dkeep_ret, dkeep_intr_list_del|intros _].
  apply dkeep_bind; [|intros; apply dkeep_ret]. apply dkeep_on_queue.
  apply qkeep_bind; [by apply qkeep_free|intros _]. by apply qkeep_modq.
Qed.

Lemma stop_step id s rv s' : stop id s = Some (rv, s') → op_outcome s id EvStop rv s'.
Proof using context_clear_keeps flq_free_keeps.
  unfold qdma_queue_stop. intros (b & s1 & [K Hb]%stop_begin_run & Hrun)%dm_bind_some.
  destruct b as [rv1|[r e]]; [injection Hrun as <- <-; by apply outcome_err|].
  destruct Hb as [Hid [m Hv]]. rewrite <- (proj1 K) in Hv. right.
  assert (rv = 0) as ->.
  { pose proof Hrun as Hr. unfold qdma_queue_stop_finish in Hr.
    do 7 (apply dm_bind_some in Hr as (? & ? & _ & Hr)). by injection Hr as <- _. }
  apply (stop_finish_run _ _ _ _ m) in Hrun as (_ & Hu & _ & Hi); [|done].
  split; [done|]. exists r. split; [done|]. eapply life_step_before; [exact K|]. by eapply (ls_stop _ _ r m).
Qed.

(** ** Operations and reachable devices *)

Inductive life_op :=
  | OpAdd (qconf : qdma_queue_conf) | OpConfig (id : Z) (qconf : qdma_queue_conf)
  | OpStart (id : Z) | OpStop (id : Z) | OpRemove (id : Z).

(** A queue type of the C enumeration, and an index of the caller's choice. *)
Definition life_op_ok (o : life_op) : Prop :=
  match o with
  | OpAdd c => 0 <= qc_q_type c <= 2 ∧ qc_qidx c ≠ QDMA_QUEUE_IDX_INVALID
  | _ => True
  end.

(** The operations with their results, and what each result means. *)
Definition life_result : Type := Z + add_result.
Definition run_life (o : life_op) s : option (life_result * dst H) :=
  match o with
  | OpAdd c => '(res, s) ← add c s; Some (inr res, s)
  | OpConfig id c => '(rv, s) ← qdma_queue_config id c s; Some (inl rv, s)
  | OpStart id => '(rv, s) ← start id s; Some (inl rv, s)
  | OpStop id => '(rv, s) ← stop id s; Some (inl rv, s)
  | OpRemove id => '(rv, s) ← remove id s; Some (inl rv, s)
  end.

Definition life_outcome s (o : life_op) (res : life_result) s' : Prop :=
  match o, res with
  | OpAdd c, inr res => add_outcome s c res s'
  | OpConfig _ _, inl _ => life_step (lview s) (lview s') EvIdle
  | OpStart id, inl rv => op_outcome s id EvStart rv s'
  | OpStop id, inl rv => op_outcome s id EvStop rv s'
  | OpRemove id, inl rv => op_outcome s id EvRemove rv s'
  | _, _ => False
  end.

(** C4. Every operation of a device that returns is one step of the life cycle
    of its queues: with the result 0 the step is the one the operation is for,
    on the queue of its handle (an enabled queue is started or removed, an
    online one stopped, and a queue is added, with the handle that denotes it,
    where none of its type is and the mode of the other queues of the index
    allows it), and with an error nothing changes, except that a failed
    qdma_queue_add may leave the queue it took.  Not covered is a
    qdma_queue_add that leaves the choice of the index to the driver
    ([life_op_ok]: the index is not QDMA_QUEUE_IDX_INVALID), where the code takes
    another queue than the one it returns ([auto_index_takes_wrong_queue]); and
    the functions outside the component are taken to change neither the state
    nor the mode of a queue ([qkeep]). *)
Theorem life_cycle_refinement o s res s' :
  life_op_ok o → run_life o s = Some (res, s') → life_outcome s o res s'.
Proof using legacy_setup_keeps legacy_clear_keeps context_setup_keeps context_clear_keeps flq_keeps flq_free_keeps.
  intros Hok. unfold run_life. destruct o as [c|id c|id|id|id]; intros ([a s1] & Hrun & [= <- <-])%bind_Some;
    [destruct Hok; by eapply add_step|by eapply config_step|by eapply start_step|
      by eapply stop_step|by eapply remove_step].
Qed.
End refine.
