(* ===== verification/QueueStop.v ===== *)
(** * Stopping a queue: the requests it fails

    What qdma_queue_stop does to the requests of the queue under the lock: all
    of them end with -ENXIO, and those with a completion callback leave the
    lists of the queue. *)

From S2P Require Import Prelude Platform SoftAccess QueueTypes Descq QueueLife.

(** Filtering depends on the elements of the list only. *)
Lemma filter_ext_in {A} (P Q : A → Prop) `{!∀ x, Decision (P x), !∀ x, Decision (Q x)} (l : list A) :
  (∀ x, x ∈ l → P x ↔ Q x) → filter P l = filter Q l.
Proof.
  induction l as [|x l IH]; intros Hl; [done|].
  assert (filter P l = filter Q l) as E by (apply IH; intros y Hy; apply Hl; by right).
  assert (P x ↔ Q x) as Hx by (apply Hl; by left).
  destruct (decide (P x)); [rewrite !filter_cons_True|rewrite !filter_cons_False]; rewrite ?E; tauto.
Qed.

Lemma filter_keep_all {A} (P : A → Prop) `{!∀ x, Decision (P x)} (l : list A) :
  (∀ x, x ∈ l → P x) → filter P l = l.
Proof.
  induction l as [|x l IH]; intros Hl; [done|]. rewrite filter_cons_True by (apply Hl; by left).
  f_equal. apply IH. intros y Hy. apply Hl. by right.
Qed.

Section stop.
Context {H : Type} `{QueueHw H}.
Implicit Types s : qst H.

(** The request has a completion callback. *)
Definition async (reqs : gmap Z qdma_request) (r : Z) : bool :=
  match reqs !! r with Some rq => rq_fp_done rq | None => false end.

Definition stopped (rq : qdma_request) : qdma_request :=
  rq <| rq_cb := rq_cb rq <| cb_done := true |> <| cb_status := - ENXIO |> |>.

Definition stop_event (reqs : gmap Z qdma_request) (r : Z) : q_event :=
  if async reqs r then EvDone r 0 (- ENXIO) else EvWake r.

(** A request leaves the lists; [dec] when it is counted in [work_req_pend]. *)
Definition unlink (dec : bool) (r : Z) (q : qdma_descq) : qdma_descq :=
  q <| dq_work_list := filter (λ x, x ≠ r) (dq_work_list q) |>
    <| dq_pend_list := filter (λ x, x ≠ r) (dq_pend_list q) |>
    <| dq_work_req_pend := if dec then u32 (dq_work_req_pend q - 1) else dq_work_req_pend q |>.

Definition stop_one (dec : bool) s (r : Z) : qst H :=
  mk_qst (if async (s_reqs s) r then unlink dec r (s_q s) else s_q s) (s_xdev s)
    (alter stopped r (s_reqs s)) (s_hw s) (s_ev s ++ [stop_event (s_reqs s) r]).

Definition stop_del (dec : bool) : Z → qm H unit := if dec then qdma_work_queue_del else cb_list_del.

Lemma alter_lookup (f : qdma_request → qdma_request) (m : gmap Z qdma_request) (r : Z) rq :
  m !! r = Some rq → alter f r m = <[r := f rq]> m.
Proof.
  intros Hr. apply map_eq. intros x. destruct (decide (x = r)) as [->|].
  - by rewrite lookup_alter_eq, Hr, lookup_insert_eq.
  - by rewrite lookup_alter_ne, lookup_insert_ne.
Qed.

Lemma stop_request_run dec s r :
  cb_linked (s_q s) r = true → is_Some (s_reqs s !! r) →
  stop_request (stop_del dec) r s = Some (tt, stop_one dec s r).
Proof.
  intros Hl [rq Hrq]. unfold stop_request, stop_one, stop_event, async, stopped.
  rewrite Hrq. unfold modcb, getreq, putreq, mbind, qm_bind. rewrite Hrq. simpl.
  rewrite lookup_insert_eq. simpl.
  rewrite (alter_lookup _ _ _ _ Hrq). destruct (rq_fp_done rq); [|done].
  destruct dec; simpl; unfold qdma_work_queue_del, cb_list_del, getq, mbind, qm_bind; simpl; rewrite Hl; done.
Qed.

Lemma stop_one_async dec s r x : async (s_reqs (stop_one dec s r)) x = async (s_reqs s) x.
Proof.
  unfold async, stop_one. simpl. destruct (decide (x = r)) as [->|].
  - rewrite lookup_alter_eq. by destruct (s_reqs s !! r).
  - by rewrite lookup_alter_ne.
Qed.

Lemma unlink_linked dec r q x : x ≠ r → cb_linked (unlink dec r q) x = cb_linked q x.
Proof.
  intros Hx. unfold cb_linked, unlink. simpl. f_equal; apply bool_decide_ext; rewrite list_elem_of_filter; naive_solver.
Qed.

Lemma stop_one_linked dec s r x : x ≠ r → cb_linked (s_q (stop_one dec s r)) x = cb_linked (s_q s) x.
Proof. intros Hx. unfold stop_one. simpl. destruct (async _ _); [by apply unlink_linked|done]. Qed.

(** All the requests of a list, one after the other. *)
Definition stop_all (dec : bool) (rs : list Z) s : qst H := fold_left (stop_one dec) rs s.

Lemma stop_requests_run dec rs : ∀ s,
  NoDup rs → (∀ r, r ∈ rs → cb_linked (s_q s) r = true ∧ is_Some (s_reqs s !! r)) →
  stop_requests (stop_del dec) rs s = Some (tt, stop_all dec rs s).
Proof.
  induction rs as [|r rs IH]; intros s Hnd Hrs; [done|]. apply NoDup_cons in Hnd as [Hr Hnd].
  destruct (Hrs r) as [Hl Hs]; [by left|]. cbn [stop_requests].
  rewrite (qm_bind_eq _ _ _ _ _ (stop_request_run dec s r Hl Hs)). apply IH; [done|].
  intros x Hx. destruct (Hrs x) as [Hxl Hxs]; [by right|]. assert (x ≠ r) by congruence.
  split; [by rewrite stop_one_linked|]. unfold stop_one. simpl. by rewrite lookup_alter_ne.
Qed.

Lemma stop_all_async dec rs x : ∀ s, async (s_reqs (stop_all dec rs s)) x = async (s_reqs s) x.
Proof. induction rs as [|r rs IH]; intros s; [done|]. simpl. by rewrite IH, stop_one_async. Qed.

Lemma stop_all_reqs dec rs x : ∀ s,
  NoDup rs → s_reqs (stop_all dec rs s) !! x = (if bool_decide (x ∈ rs) then stopped else id) <$> s_reqs s !! x.
Proof.
  induction rs as [|r rs IH]; intros s Hnd.
  { rewrite bool_decide_eq_false_2 by (by apply not_elem_of_nil). simpl. by destruct (_ !! _). }
  apply NoDup_cons in Hnd as [Hr Hnd]. simpl. rewrite IH by done. unfold stop_one. simpl.
  destruct (decide (x = r)) as [->|Hx].
  - rewrite bool_decide_eq_false_2, bool_decide_eq_true_2 by (done || by left). rewrite lookup_alter_eq.
    by destruct (s_reqs s !! r).
  - rewrite lookup_alter_ne by done. replace (bool_decide (x ∈ r :: rs)) with (bool_decide (x ∈ rs)); [done|].
    apply bool_decide_ext. rewrite elem_of_cons. naive_solver.
Qed.

Lemma stop_all_ev dec rs : ∀ s, s_ev (stop_all dec rs s) = s_ev s ++ map (stop_event (s_reqs s)) rs.
Proof.
  induction rs as [|r rs IH]; intros s; [by rewrite app_nil_r|]. simpl. rewrite IH. unfold stop_one at 1. simpl.
  rewrite <- app_assoc. do 2 f_equal. apply map_ext. intros x.
  change (alter stopped r (s_reqs s)) with (s_reqs (stop_one dec s r)).
  unfold stop_event. by rewrite stop_one_async.
Qed.

(** Both lists lose the requests of [rs] with a callback. *)
Definition stays (reqs : gmap Z qdma_request) (rs : list Z) (x : Z) : Prop := ¬ (x ∈ rs ∧ async reqs x = true).

Lemma stays_cons (reqs : gmap Z qdma_request) r rs (l : list Z) :
  filter (stays reqs rs) (if async reqs r then filter (λ x, x ≠ r) l else l) = filter (stays reqs (r :: rs)) l.
Proof.
  unfold stays. destruct (async reqs r) eqn:E.
  - rewrite list_filter_filter. apply list_filter_iff. intros x. rewrite elem_of_cons.
    destruct (decide (x = r)) as [->|Hx]; [rewrite E; tauto|tauto].
  - apply list_filter_iff. intros x. rewrite elem_of_cons.
    destruct (decide (x = r)) as [->|Hx]; [rewrite E; split; intros _ [_ Hf]; done|tauto].
Qed.

(** The requests of a list that have a callback. *)
Definition nasync (reqs : gmap Z qdma_request) (rs : list Z) : Z :=
  Z.of_nat (length (filter (λ r, async reqs r = true) rs)).

Definition stop_q (dec : bool) (reqs : gmap Z qdma_request) (rs : list Z) (q : qdma_descq) : qdma_descq :=
  q <| dq_work_list := filter (stays reqs rs) (dq_work_list q) |>
    <| dq_pend_list := filter (stays reqs rs) (dq_pend_list q) |>
    <| dq_work_req_pend := if dec then u32 (dq_work_req_pend q - nasync reqs rs) else dq_work_req_pend q |>.

Lemma stop_q_nil dec reqs q : u32 (dq_work_req_pend q) = dq_work_req_pend q → stop_q dec reqs [] q = q.
Proof.
  intros Hu. unfold stop_q, nasync. simpl. rewrite Z.sub_0_r, Hu.
  assert (∀ l : list Z, filter (stays reqs []) l = l) as Hf.
  { intros l. apply filter_keep_all. intros x _ [Hx _]. by apply not_elem_of_nil in Hx. }
  rewrite !Hf. destruct dec; by destruct q.
Qed.

Lemma u32_pred_sub c n : u32 (u32 (c - 1) - Z.of_nat n) = u32 (c - Z.of_nat (S n)).
Proof. unfold wrap. rewrite Zminus_mod_idemp_l. f_equal. lia. Qed.

Lemma stop_q_cons dec reqs r rs q :
  stop_q dec reqs rs (if async reqs r then unlink dec r q else q) = stop_q dec reqs (r :: rs) q.
Proof.
  pose proof (stays_cons reqs r rs (dq_work_list q)) as Hw. pose proof (stays_cons reqs r rs (dq_pend_list q)) as Hp.
  unfold stop_q, nasync. rewrite <- Hw, <- Hp. destruct (async reqs r) eqn:E.
  - rewrite filter_cons_True by done. destruct dec; [|done]. cbn [length]. by rewrite <- u32_pred_sub.
  - by rewrite filter_cons_False by congruence.
Qed.

Lemma stop_q_ext dec reqs reqs' rs q : (∀ x, async reqs' x = async reqs x) → stop_q dec reqs' rs q = stop_q dec reqs rs q.
Proof.
  intros He. unfold stop_q, nasync.
  rewrite (list_filter_iff (λ r, async reqs' r = true) (λ r, async reqs r = true)) by (intros; by rewrite He).
  assert (∀ l : list Z, filter (stays reqs' rs) l = filter (stays reqs rs) l) as Hk.
  { intros l. apply list_filter_iff. intros x. unfold stays. by rewrite He. }
  by rewrite !Hk.
Qed.

Lemma stop_all_q dec rs : ∀ s,
  u32 (dq_work_req_pend (s_q s)) = dq_work_req_pend (s_q s) →
  s_q (stop_all dec rs s) = stop_q dec (s_reqs s) rs (s_q s).
Proof.
  induction rs as [|r rs IH]; intros s Hu; [by rewrite stop_q_nil|]. simpl. rewrite IH.
  - rewrite <- stop_q_cons. by apply stop_q_ext, stop_one_async.
  - unfold stop_one. simpl. destruct (async _ _); [|done]. destruct dec; [|done].
    apply wrap_wrap. lia.
Qed.

(** ** The stop of a queue *)

Definition is_sync (reqs : gmap Z qdma_request) (r : Z) : Prop := async reqs r = false.
#[export] Instance is_sync_dec reqs r : Decision (is_sync reqs r) := decide (async reqs r = false).

Lemma stays_own reqs rs : filter (stays reqs rs) rs = filter (is_sync reqs) rs.
Proof.
  apply filter_ext_in. intros x Hx. unfold stays, is_sync. destruct (async reqs x); split; try done; [tauto|].
  intros _ [_ Hf]. done.
Qed.

Lemma stays_other reqs rs (l : list Z) : (∀ x, x ∈ l → x ∉ rs) → filter (stays reqs rs) l = l.
Proof. intros Hd. apply filter_keep_all. intros x Hx [Hx' _]. by apply (Hd x). Qed.

(** C29. Under the lock qdma_queue_stop ends every request of the queue, started
    or waiting, with -ENXIO: it is marked done, and in the order of the two
    lists its callback is called with no bytes or its waiter is woken up.  The
    requests with a callback leave the lists and the count of waiting requests;
    those of callers that wait stay on them. *)
Theorem stop_queue_fails_all s :
  let pend := dq_pend_list (s_q s) in let work := dq_work_list (s_q s) in
  dq_lock (s_q s) = false → NoDup (pend ++ work) → (∀ r, r ∈ pend ++ work → is_Some (s_reqs s !! r)) →
  u32 (dq_work_req_pend (s_q s)) = dq_work_req_pend (s_q s) →
  ∃ s', stop_queue s = Some (tt, s') ∧
    dq_q_state (s_q s') = Q_STATE_ENABLED ∧ dq_lock (s_q s') = false ∧
    dq_pend_list (s_q s') = filter (is_sync (s_reqs s)) pend ∧
    dq_work_list (s_q s') = filter (is_sync (s_reqs s)) work ∧
    dq_work_req_pend (s_q s') = u32 (dq_work_req_pend (s_q s) - nasync (s_reqs s) work) ∧
    s_ev s' = s_ev s ++ map (stop_event (s_reqs s)) (pend ++ work) ∧
    ∀ r, s_reqs s' !! r = (if bool_decide (r ∈ pend ++ work) then stopped else id) <$> s_reqs s !! r.
Proof.
  intros pend work Hl Hnd Hs Hu. apply NoDup_app in Hnd as (Hp & Hd & Hw).
  set (q1 := s_q s <| dq_lock := true |> <| dq_q_state := Q_STATE_ENABLED |> <| dq_q_stop_wait := false |>).
  set (s1 := s <| s_q := q1 |>).
  assert (Hr1 : stop_requests (stop_del false) pend s1 = Some (tt, stop_all false pend s1)).
  { apply stop_requests_run; [done|]. intros r Hr. split; [|apply Hs, elem_of_app; by left].
    unfold cb_linked. rewrite orb_true_iff. right. by apply bool_decide_eq_true_2. }
  pose proof (stop_all_q false pend s1 Hu) as Hq2. pose proof (λ x, stop_all_async false pend x s1) as Ha2.
  pose proof (stop_all_ev false pend s1) as He2. pose proof (λ x, stop_all_reqs false pend x s1 Hp) as Hm2.
  set (s2 := stop_all false pend s1) in *. clearbody s2.
  assert (Hpl : dq_pend_list (s_q s2) = filter (is_sync (s_reqs s)) pend).
  { rewrite Hq2. apply stays_own. }
  assert (Hwl : dq_work_list (s_q s2) = work).
  { rewrite Hq2. apply stays_other. intros x Hx Hx'. by apply (Hd x). }
  assert (Hr2 : stop_requests (stop_del true) work s2 = Some (tt, stop_all true work s2)).
  { apply stop_requests_run; [done|]. intros r Hr. split.
    - unfold cb_linked. rewrite orb_true_iff. left. apply bool_decide_eq_true_2. by rewrite Hwl.
    - rewrite Hm2. apply fmap_is_Some, Hs, elem_of_app. by right. }
  assert (Hu2 : u32 (dq_work_req_pend (s_q s2)) = dq_work_req_pend (s_q s2)) by by rewrite Hq2.
  pose proof (stop_all_q true work s2 Hu2) as Hq3. rewrite (stop_q_ext true (s_reqs s)) in Hq3 by exact Ha2.
  pose proof (stop_all_ev true work s2) as He3. pose proof (λ x, stop_all_reqs true work x s2 Hw) as Hm3.
  set (s3 := stop_all true work s2) in *. clearbody s3.
  assert (Hl3 : dq_lock (s_q s3) = true) by by rewrite Hq3, Hq2.
  exists (s3 <| s_q := s_q s3 <| dq_lock := false |> |>). split.
  { unfold stop_queue. erewrite qm_bind_eq by by apply lock_run. rewrite modq_bind, getq_bind.
    erewrite qm_bind_eq by exact Hr1. rewrite getq_bind, Hwl.
    erewrite qm_bind_eq by exact Hr2. by apply unlock_run. }
  cbn [s_q s_ev s_reqs dq_q_state dq_lock dq_pend_list dq_work_list dq_work_req_pend].
  split; [by rewrite Hq3, Hq2|]. split; [done|].
  split; [rewrite Hq3; cbn; rewrite Hpl; apply stays_other|].
  { intros x Hx Hx'. apply list_elem_of_filter in Hx as [_ Hx]. by apply (Hd x). }
  split; [rewrite Hq3; cbn; rewrite Hwl; apply stays_own|].
  split; [by rewrite Hq3, Hq2|].
  split.
  - transitivity (s_ev s3); [done|]. rewrite He3, He2, <- app_assoc, map_app. do 2 f_equal. apply map_ext. intros x. unfold stop_event. by rewrite Ha2.
  - intros r. transitivity (s_reqs s3 !! r); [done|]. rewrite Hm3, Hm2. change (s_reqs s1) with (s_reqs s).
    rewrite (bool_decide_ext (r ∈ pend ++ work) (r ∈ pend ∨ r ∈ work)) by apply elem_of_app.
    destruct (decide (r ∈ pend)) as [Hrp|Hrp], (decide (r ∈ work)) as [Hrw|Hrw].
    + by destruct (Hd r).
    + rewrite (bool_decide_eq_false_2 (r ∈ work)), (bool_decide_eq_true_2 (r ∈ pend)), bool_decide_eq_true_2 by tauto.
      by destruct (s_reqs s !! r).
    + rewrite (bool_decide_eq_true_2 (r ∈ work)), (bool_decide_eq_false_2 (r ∈ pend)), bool_decide_eq_true_2 by tauto.
      by destruct (s_reqs s !! r).
    + rewrite !bool_decide_eq_false_2 by tauto. by destruct (s_reqs s !! r).
Qed.
End stop.
