(* ===== verification/QueueLifeInv.v ===== *)
(** * Life cycle of the queues: the modes of an index, the start of a queue

    The life cycle machine keeps streaming and memory mapped queues of an index
    apart, so every device reachable from a fresh one does.  qdma_queue_start
    leaves a memory mapped queue in the initial state of the ring invariant. *)

From S2P Require Import Prelude Platform QdmaList ResMgmt SoftAccess QueueTypes.
From S2P Require Import DescRing Descq DescqProc DescqConf Threads RegIO HwAccess.
From S2P Require Import DescqInv DescqMm DescqConfThms CtxtSetup QueueLife QueueLifeThms.

(** The queues of both directions at an index have the same mode when both are
    in use, and a completion queue is never in use beside an ST queue.  Before
    the queue range is programmed no queue has been configured. *)
Record modes_ok (l : lstate) : Prop := {
  mo_dirs i mh mc : on (fst l (PH2C, i)) mh → on (fst l (PC2H, i)) mc → nz mh = nz mc;
  mo_cmpt i p m m' : on (fst l (PCMPT, i)) m' → p ≠ PCMPT → on (fst l (p, i)) m → m = 0;
  mo_init r st m : snd l = false → fst l r = Some (st, m) → m = 0;
}.

Lemma on_off o m : on o m → off o → False.
Proof. by intros (st & -> & Hst) (m' & [= -> _]). Qed.

Lemma on_moved l l' r st m r' m' :
  moved l l' r (st, m) → on (fst l' r') m' →
  if decide (r' = r) then m' = m ∧ st ≠ Q_STATE_DISABLED else on (fst l r') m'.
Proof. intros Hm Ho. rewrite Hm in Ho. case_decide; [|done]. by destruct Ho as (? & [= <- <-] & ?). Qed.

(** A queue whose mode does not change and that was in use keeps the modes. *)
Lemma modes_same l l' r st st' m :
  modes_ok l → fst l r = Some (st, m) → st ≠ Q_STATE_DISABLED → moved l l' r (st', m) → snd l' = snd l →
  modes_ok l'.
Proof.
  intros [Hd Hc Hi] Hr Hst Hm Hs.
  assert (Hon : ∀ r' m', on (fst l' r') m' → on (fst l r') m').
  { intros r' m' Ho. pose proof (on_moved _ _ _ _ _ _ _ Hm Ho) as Ho'. case_decide as Hq; [|done].
    destruct Ho' as [-> _]. rewrite Hq, Hr. by exists st. }
  split; [eauto..|]. intros r' st0 m0 Hsl Hv. rewrite Hs in Hsl. rewrite Hm in Hv. case_decide; [|by eapply Hi].
  injection Hv as _ <-. by eapply Hi.
Qed.

(** All queues are memory mapped. *)
Lemma modes_zero l : (∀ r st m, fst l r = Some (st, m) → m = 0) → modes_ok l.
Proof.
  intros Hz. assert (Ho : ∀ r m, on (fst l r) m → m = 0) by (intros r m (st & Hv & _); by eapply Hz).
  split; [|eauto..]. intros i mh mc Hh%Ho Hc%Ho. congruence.
Qed.

(** A queue that is added where it may be. *)
Lemma modes_added l l' p i st :
  modes_ok l → free_for (fst l) i p st → moved l l' (p, i) (Q_STATE_ENABLED, st) → snd l' = true → modes_ok l'.
Proof.
  intros [Hd Hc _] Hf Hm Hs. pose proof (λ r m, on_moved _ _ _ _ _ r m Hm) as Hon. clear Hm.
  destruct Hf as [Hoff Hf]. split; [| |by rewrite Hs].
  - intros j mh mc Hh%Hon. case_decide as Eh; intros Hcc%Hon; case_decide as Ec; try congruence; [| |by eapply Hd].
    + injection Eh as <- <-. destruct Hh as [-> _]. symmetry. by apply Hf.
    + injection Ec as <- <-. destruct Hcc as [-> _]. by apply Hf.
  - intros j p' m m' Hw%Hon. case_decide as Ew; intros Hp Hq%Hon; case_decide as Eq; try congruence; [| |by eapply Hc].
    + injection Ew as <- <-. destruct Hf as [Hf1 Hf2]. destruct p'; [by apply Hf1|by apply Hf2|done].
    + injection Eq as <- <-. destruct Hq as [-> _]. apply nz_false. destruct (nz st) eqn:E; [|done].
      exfalso. apply (on_off _ _ Hw). destruct p'; [by apply Hf|by apply Hf|done].
Qed.

Lemma modes_step l l' e : modes_ok l → life_step l l' e → modes_ok l'.
Proof.
  intros Hok [Hv Hs|i p st Hf Hm Hs|i p st m Hf Hv Hm Hs Hs'|r m Hv Hm Hs|r m Hv Hm Hs|r m Hv Hm Hs].
  - destruct Hok as [Hd Hc Hi]. split; intros *; rewrite ?Hv; [apply Hd|apply Hc|].
    destruct (snd l) eqn:El; [by rewrite (Hs eq_refl)|]. intros _. by apply Hi.
  - by eapply modes_added.
  - pose proof (mo_init _ Hok) as Hz. apply modes_zero. intros r st' m'. rewrite Hm.
    case_decide; [intros [= _ <-]|]; by eapply Hz.
  - by eapply modes_same.
  - by eapply modes_same.
  - by eapply modes_same.
Qed.

(** The context code of the physical function changes neither the state nor the
    mode of a queue, whatever the access table does. *)
Section contexts.
Context {dev : Type} `{HwAccess dev}.

Lemma qkeep_qhw {A} (m : hwm dev (Z * A)) : qkeep (qhw m).
Proof. intros s a t. unfold qhw. destruct (m _) as [[[rv ?] h]|]; [|done]. by intros [= <- <-]. Qed.

Lemma qkeep_checked (m k : qm (hw_state dev) Z) : qkeep m → qkeep k → qkeep (checked m k).
Proof. intros Hm Hk. unfold checked, get_error_code. qkeep. Qed.

Lemma qkeep_clear qid st type clr : qkeep (qdma_descq_context_clear qid st type clr).
Proof.
  unfold qdma_descq_context_clear.
  repeat first [apply qkeep_checked | apply qkeep_qhw | apply qkeep_ret | case_match].
Qed.

Lemma qkeep_context_setup q2v fc : qkeep (qdma_descq_context_setup q2v fc).
Proof.
  unfold qdma_descq_context_setup, qdma_descq_context_program.
  repeat first [apply qkeep_checked | apply qkeep_qhw | apply qkeep_clear | apply qkeep_ret
               | apply qkeep_getq | apply qkeep_getx | apply qkeep_bind; [|intros ?] | case_match].
Qed.

Lemma qkeep_context_clear clr : qkeep (queue_context_clear clr).
Proof. unfold queue_context_clear. apply qkeep_bind; [apply qkeep_getq|intros q; apply qkeep_clear]. Qed.
End contexts.

(** A device after [qdma_device_init]. *)
Record fresh_device {H} (qbase : Z) (s : dst H) : Prop := {
  fd_h2c : ds_h2c s = init_pool qbase (ds_qmax s);
  fd_c2h : ds_c2h s = init_pool qbase (ds_qmax s);
  fd_cmpt : ds_cmpt s = init_pool qbase (ds_qmax s);
  fd_init : ds_init_qrange s = false;
}.

Lemma fresh_view {H} `{QueueHw H} qbase (s : dst H) r v :
  fresh_device qbase s → view s r = Some v → v = (Q_STATE_DISABLED, 0).
Proof.
  intros [E1 E2 E3 _]. unfold view, get_queue. destruct (_ <? 0); [done|]. intros (q & Hq & ->)%fmap_Some.
  assert (pool_list (fst r) s = init_pool qbase (ds_qmax s)) as Hl by (by destruct (fst r)).
  rewrite Hl in Hq. apply list_elem_of_lookup_2 in Hq. unfold init_pool in Hq.
  apply list_elem_of_fmap in Hq as (i & -> & _). done.
Qed.

Section reach.
Context {H : Type} `{QueueHw H}.
Implicit Types s : dst H.
Variable qdma_csr_read : xlnx_dma_dev → H → Z * (xlnx_dma_dev * H).
Variable device_set_qrange : H → Z * H.
Variable intr_legacy_setup : qm H Z.
Variable intr_legacy_clear : qm H unit.
Variable qdma_descq_context_setup : qm H Z.
Variable qdma_descq_context_clear : bool → qm H Z.
Variable dma_alloc : Z → H → option Z * H.
Variable descq_flq_alloc_resource : qm H Z.
Variable descq_flq_free : qm H unit.
Hypothesis legacy_setup_keeps : qkeep intr_legacy_setup.
Hypothesis legacy_clear_keeps : qkeep intr_legacy_clear.
Hypothesis context_setup_keeps : qkeep qdma_descq_context_setup.
Hypothesis context_clear_keeps : ∀ b, qkeep (qdma_descq_context_clear b).
Hypothesis flq_keeps : qkeep descq_flq_alloc_resource.
Hypothesis flq_free_keeps : qkeep descq_flq_free.

Notation run_op := (run_life qdma_csr_read device_set_qrange intr_legacy_setup intr_legacy_clear
  qdma_descq_context_setup qdma_descq_context_clear dma_alloc descq_flq_alloc_resource descq_flq_free).

(** A fresh device, after operations of the library interface, adding a queue
    at an index of the driver's choice apart ([life_op_ok]), and work on its
    queues that changes neither the state nor the mode of the queue. *)
Inductive dev_reach : dst H → Prop :=
  | dr_fresh qbase s : fresh_device qbase s → dev_reach s
  | dr_op s o res s' : dev_reach s → life_op_ok o → run_op o s = Some (res, s') → dev_reach s'
  | dr_work s r (m : qm H unit) s' : dev_reach s → qkeep m → on_queue r m s = Some (tt, s') → dev_reach s'.

Lemma outcome_step s id ev rv s' : op_outcome s id ev rv s' → ∃ e, life_step (lview s) (lview s') e.
Proof using. intros [[_ Hs]|(_ & r & _ & Hs)]; eauto. Qed.

Lemma life_outcome_step s o res s' : life_outcome s o res s' → ∃ e, life_step (lview s) (lview s') e.
Proof using.
  destruct o, res as [rv|[[rv id'] c]]; simpl; try done; eauto using outcome_step.
  intros [(_ & _ & Hs)|(_ & _ & e & Hs & _)]; eauto.
Qed.

(** C20. On every device reached from a fresh one by operations in which the
    caller chooses the index of a queue it adds, the queues of an index have
    one mode: when the queues of both directions are in use both are streaming
    or both are memory mapped, and beside a completion queue in use the others
    are memory mapped.  Adding a queue at an index of the driver's choice
    (QDMA_QUEUE_IDX_INVALID) is excluded: the code checks one index and takes
    the queue of another ([auto_index_takes_wrong_queue]). *)
Theorem queue_modes_never_mix s : dev_reach s → modes_ok (lview s).
Proof using legacy_setup_keeps legacy_clear_keeps context_setup_keeps context_clear_keeps flq_keeps flq_free_keeps.
  induction 1 as [qbase s Hf|s o res s' _ IH Hok Hrun|s r m s' _ IH Hk Hrun].
  - apply modes_zero. intros r st m Hv. apply (fresh_view qbase) in Hv; [|done]. congruence.
  - apply life_cycle_refinement in Hrun; [|done..].
    apply life_outcome_step in Hrun as [e Hs]. by eapply modes_step.
  - apply (dkeep_on_queue _ _ Hk) in Hrun. eapply modes_step; [exact IH|by apply keepd_idle].
Qed.
End reach.

(** ** Starting a memory mapped queue *)

Section start.
Context {H : Type} `{DescEngine H}.
Implicit Types s : dst H.

(** What a queue operation sees of the device. *)
Definition at_queue (r : qref) s : option (qst H) :=
  (λ q, mk_qst q (ds_xdev s) (ds_reqs s) (ds_hw s) (ds_ev s)) <$> get_queue r s.

Lemma on_queue_at {A} r (m : qm H A) s a s' :
  on_queue r m s = Some (a, s') → ∃ t t', at_queue r s = Some t ∧ m t = Some (a, t') ∧ at_queue r s' = Some t'.
Proof.
  intros Hrun. pose proof Hrun as (q & t & Hq & Hm & _ & Hq')%on_queue_run.
  exists (mk_qst q (ds_xdev s) (ds_reqs s) (ds_hw s) (ds_ev s)), t. unfold at_queue. rewrite Hq, Hq'.
  split; [done|]. split; [done|]. unfold on_queue in Hrun. rewrite Hq, Hm in Hrun. injection Hrun as <-.
  by destruct t.
Qed.

(** Reading a queue under its lock changes nothing. *)
Lemma peek_at {A} r (f : qdma_descq → A) s a s' :
  on_queue r (lock_descq;; q ← getq; unlock_descq;; mret (f q)) s = Some (a, s') →
  ∃ t, at_queue r s = Some t ∧ at_queue r s' = Some t.
Proof.
  intros (t & t' & Ht & Hm & Ht')%on_queue_at. exists t. split; [done|]. rewrite Ht'. f_equal.
  unfold lock_descq, unlock_descq, mbind, qm_bind, getq, modq, mret, qm_ret in Hm. simpl in Hm.
  destruct (dq_lock (s_q t)) eqn:Hl; [done|]. simpl in Hm. injection Hm as _ <-.
  destruct t as [q ? ? ? ?]. simpl in *. f_equal. destruct q. simpl in *. by subst.
Qed.

Lemma get_descq_at id r s t d s' :
  id_ref (ds_qmax s) id = Some r → at_queue r s = Some t → qdma_device_get_descq_by_id id true s = Some (Some d, s') →
  d = r ∧ at_queue r s' = Some t.
Proof.
  intros Hid Ht. unfold qdma_device_get_descq_by_id. intros (s0 & s1 & [= <- <-] & Hrun)%dm_bind_some.
  rewrite Hid in Hrun. apply dm_bind_some in Hrun as (dis & s1 & (t0 & Ht0 & Ht1)%peek_at & Hrun).
  destruct dis; [done|]. injection Hrun as <- <-. split; [done|]. congruence.
Qed.

Lemma set_q_state_at r st s s' t :
  at_queue r s = Some t → set_q_state r st s = Some (tt, s') →
  at_queue r s' = Some (t <| s_q := s_q t <| dq_q_state := st |> |>).
Proof.
  intros Ht (t0 & t' & Ht0 & Hm & ->)%on_queue_at. rewrite Ht in Ht0. injection Ht0 as <-. f_equal.
  unfold lock_descq, unlock_descq, mbind, qm_bind, getq, modq, mret, qm_ret in Hm. simpl in Hm.
  destruct (dq_lock (s_q t)) eqn:Hl; [done|]. simpl in Hm. injection Hm as <-.
  destruct t as [q ? ? ? ?]. simpl in *. f_equal. destruct q. simpl in *. by subst.
Qed.

Lemma intr_list_add_at r vec b s s' t :
  at_queue r s = Some t → dwhen b (intr_list_add r vec) s = Some (tt, s') →
  ∃ x, at_queue r s' = Some (t <| s_xdev := x |>).
Proof.
  intros Ht. destruct b; simpl; cycle 1. { intros [= <-]. exists (s_xdev t). by destruct t. }
  unfold intr_list_add. intros (s0 & s1 & [= <- <-] & Hrun)%dm_bind_some.
  destruct (ds_intr s !! _); [|done]. injection Hrun as <-. eexists.
  unfold at_queue in *. change (get_queue r _) with (get_queue r s).
  destruct (get_queue r s) as [q|]; [|done]. injection Ht as <-. reflexivity.
Qed.

(** The fields of a queue the start changes after its ring is there. *)
Definition set_thread (q : qdma_descq) (cpu : Z) (thp assigned : bool) (st : q_state_t) : qdma_descq :=
  q <| dq_intr_work_cpu := cpu |> <| dq_cmplthp := thp |> <| dq_cpu_assigned := assigned |> <| dq_q_state := st |>.

Lemma thread_add_at r s s' t :
  at_queue r s = Some t → thread_add r s = Some (tt, s') →
  ∃ cpu thp asg, at_queue r s' = Some (t <| s_q := set_thread (s_q t) cpu thp asg (dq_q_state (s_q t)) |>).
Proof.
  intros Ht. unfold thread_add. intros (s0 & s1 & [= <- <-] & Hrun)%dm_bind_some.
  apply dm_bind_some in Hrun as (q & s1 & (t0 & t1 & Ht0 & [= <- <-] & Ht1)%on_queue_at & Hrun).
  rewrite Ht in Ht0. injection Ht0 as <-.
  destruct (qdma_thread_add_work _ _ _) as [[th q']|] eqn:Hw; [|done].
  assert (s' = put_queue r q' s1 <| ds_th := th |>) as -> by (by injection Hrun). clear Hrun.
  assert (∃ cpu thp asg, q' = set_thread (s_q t) cpu thp asg (dq_q_state (s_q t))) as (cpu & thp & asg & ->).
  { unfold qdma_thread_add_work in Hw. destruct (s_q t).
    repeat case_match; try done; injection Hw as _ <-; by do 3 eexists. }
  exists cpu, thp, asg. set (q2 := set_thread _ _ _ _ _). unfold at_queue in Ht1.
  destruct (get_queue r s1) as [q1|] eqn:Hq1; [|done]. injection Ht1 as <-.
  assert (Hg : get_queue r (put_queue r q2 s1 <| ds_th := th |>) = Some q2).
  { transitivity (get_queue r (put_queue r q2 s1)); [by destruct r as [[] ?]|].
    by rewrite (get_put_queue r r _ q1), decide_True. }
  unfold at_queue. rewrite Hg. by destruct r as [[] ?].
Qed.

Lemma fresh_set_thread n q cpu thp asg st : fresh_queue n q → fresh_queue n (set_thread q cpu thp asg st).
Proof. destruct q. by intros []. Qed.

Lemma fresh_no_requests n q : fresh_queue n q → fresh_queue n (no_requests q).
Proof. destruct q. by intros []. Qed.

(** Without a completion ring no pointers are programmed. *)
Lemma prog_pointers_mm rv t rv' t' :
  has_cmpt (s_q t) = false → qdma_descq_prog_pointers rv t = Some (rv', t') → t' = t ∧ rv' = rv.
Proof.
  intros Hc. unfold qdma_descq_prog_pointers. destruct (rv <? 0); [by intros [= <- <-]|].
  rewrite getq_bind, Hc. cbn [andb]. by intros [= <- <-].
Qed.
End start.

(** An operation that only acts on the hardware. *)
Definition only_hw {H A} (m : qm H A) : Prop := ∀ t a t', m t = Some (a, t') → t' = t <| s_hw := s_hw t' |>.

Section only_hw.
Context {H : Type}.

Lemma only_hw_ret {A} (a : A) : only_hw (H := H) (mret a).
Proof. intros [] ? ? [= <- <-]. done. Qed.
Lemma only_hw_getq : only_hw (H := H) getq.
Proof. intros [] ? ? [= <- <-]. done. Qed.
Lemma only_hw_getx : only_hw (H := H) getx.
Proof. intros [] ? ? [= <- <-]. done. Qed.
Lemma only_hw_fail {A} : only_hw (H := H) (qfail (A := A)).
Proof. done. Qed.
Lemma only_hw_bind {A B} (m : qm H A) (k : A → qm H B) : only_hw m → (∀ a, only_hw (k a)) → only_hw (m ≫= k).
Proof.
  intros Hm Hk t b t' (a & t1 & ->%Hm & ->%Hk)%qm_bind_some. by destruct t.
Qed.
End only_hw.

(** The context code of the physical function is such an operation. *)
Section context_hw.
Context {dev : Type} `{HwAccess dev}.

Lemma only_hw_qhw {A} (m : hwm dev (Z * A)) : only_hw (qhw m).
Proof. intros t a t'. unfold qhw. destruct (m _) as [[[rv ?] h]|]; [|done]. by intros [= <- <-]. Qed.

Lemma only_hw_checked (m k : qm (hw_state dev) Z) : only_hw m → only_hw k → only_hw (checked m k).
Proof.
  intros Hm Hk. unfold checked, get_error_code. apply only_hw_bind; [done|intros rv].
  repeat case_match; auto using only_hw_ret, only_hw_fail.
Qed.

Lemma context_setup_only_hw q2v fc : only_hw (qdma_descq_context_setup q2v fc).
Proof.
  unfold qdma_descq_context_setup, qdma_descq_context_program, qdma_descq_context_clear.
  repeat first [apply only_hw_checked | apply only_hw_qhw | apply only_hw_ret
               | apply only_hw_getq | apply only_hw_getx | apply only_hw_bind; [|intros ?] | case_match].
Qed.
End context_hw.

Section start_initial.
Context {H : Type} `{DescEngine H}.
Implicit Types s : dst H.
Variable qdma_descq_context_setup : qm H Z.
Variable qdma_descq_context_clear : bool → qm H Z.
Variable dma_alloc : Z → H → option Z * H.
Variable descq_flq_alloc_resource : qm H Z.
Variable descq_flq_free : qm H unit.
Hypothesis setup_only_hw : only_hw qdma_descq_context_setup.

Notation start := (qdma_queue_start qdma_descq_context_setup qdma_descq_context_clear dma_alloc
                     descq_flq_alloc_resource descq_flq_free).

Lemma prog_hw_mm t rv t' :
  has_cmpt (s_q t) = false → qdma_descq_prog_hw qdma_descq_context_setup t = Some (rv, t') →
  t' = t <| s_hw := s_hw t' |>.
Proof using setup_only_hw.
  intros Hc (rv1 & t1 & Ht1%setup_only_hw & Hrun)%qm_bind_some. rewrite Ht1 in Hrun.
  apply prog_pointers_mm in Hrun as [-> _]; [|done]. by destruct t.
Qed.

(** The part of qdma_queue_start before the hardware is programmed. *)
Lemma configured_at r s s1 rv s2 t :
  at_queue r s = Some t → startable (s_xdev t) (s_q t) →
  on_queue r (modq (qdma_descq_config_complete (s_xdev t))) s = Some (tt, s1) →
  on_queue r (qdma_descq_alloc_resource dma_alloc descq_flq_alloc_resource descq_flq_free) s1 = Some (rv, s2) →
  0 <= rv →
  ∃ t2, at_queue r s2 = Some t2 ∧ has_cmpt (s_q t2) = false ∧
    fresh_queue (arr (xd_csr_ring_sz (s_xdev t)) (qc_desc_rng_sz_idx (dq_conf (s_q t))) - 1) (s_q t2) ∧
    dq_pend_list (s_q t2) = dq_pend_list (s_q t) ∧ dq_work_list (s_q t2) = dq_work_list (s_q t) ∧
    s_reqs t2 = s_reqs t ∧ s_ev t2 = s_ev t.
Proof using.
  intros Ht Hsa (t0 & t1 & Ht0 & [= <-] & Ht1)%on_queue_at (t1' & t2 & Ht1' & Hm & Ht2)%on_queue_at Hrv.
  rewrite Ht in Ht0. injection Ht0 as <-. rewrite Ht1 in Ht1'. injection Ht1' as <-.
  exists t2. split; [done|].
  destruct (start_queue_fresh dma_alloc descq_flq_alloc_resource descq_flq_free t rv t2 Hsa) as (Hf & Hty & Hp & Hw & He);
    [by rewrite start_queue_run|done|].
  split. { apply mm_no_cmpt; [exact (fq_mm _ _ Hf)|rewrite Hty; apply Hsa]. }
  rewrite He. done.
Qed.

(** C27. A successful qdma_queue_start of a memory mapped queue makes it
    online with the descriptor ring of its configuration in the initial state
    of the ring invariant, whatever indices, credits, counters, last announced
    producer index and requests an earlier run left in it.  Requests that
    were left on its lists stay there; without them the invariant holds,
    provided the engine starts with its context cleared. *)
Theorem qdma_queue_start_initial s id r q s' :
  id_ref (ds_qmax s) id = Some r → get_queue r s = Some q → startable (ds_xdev s) q →
  start id s = Some (0, s') →
  ∃ q', get_queue r s' = Some q' ∧ dq_q_state q' = Q_STATE_ONLINE ∧
    qc_rngsz (dq_conf q') = arr (xd_csr_ring_sz (ds_xdev s)) (qc_desc_rng_sz_idx (dq_conf q)) - 1 ∧
    dq_pend_list q' = dq_pend_list q ∧ dq_work_list q' = dq_work_list q ∧
    ds_reqs s' = ds_reqs s ∧ ds_ev s' = ds_ev s ∧
    (eng (qc_rngsz (dq_conf q')) (ds_hw s') 0 0 →
     mm_inv (mk_qst (no_requests q') (ds_xdev s') (ds_reqs s') (ds_hw s') (ds_ev s')) 0 0 0).
Proof using setup_only_hw.
  intros Hid Hq Hsa. set (t := mk_qst q (ds_xdev s) (ds_reqs s) (ds_hw s) (ds_ev s)).
  assert (Ht : at_queue r s = Some t) by (unfold at_queue; by rewrite Hq).
  unfold qdma_queue_start. intros (d & s1 & Hd & Hrun)%dm_bind_some. destruct d as [d|]; [|done].
  destruct (get_descq_at _ _ _ _ _ _ Hid Ht Hd) as [-> Ht1]. clear Hd.
  apply dm_bind_some in Hrun as (s1' & s1'' & [= <- <-] & Hrun).
  apply dm_bind_some in Hrun as (rv1 & s2 & (t2 & Ht1' & Ht2)%peek_at & Hrun).
  rewrite Ht1 in Ht1'. injection Ht1' as <-. destruct (rv1 <? 0) eqn:Hrv1; [injection Hrun; lia|].
  assert (Hx : ds_xdev s1 = s_xdev t).
  { unfold at_queue in Ht1. destruct (get_queue r s1); [|done]. by injection Ht1. }
  rewrite Hx in Hrun.
  apply dm_bind_some in Hrun as ([] & s3 & Hcf & Hrun). apply dm_bind_some in Hrun as (rv2 & s4 & Hal & Hrun).
  destruct (rv2 <? 0) eqn:Hrv2; [injection Hrun; lia|].
  destruct (configured_at r s2 s3 rv2 s4 t Ht2 Hsa Hcf Hal) as (t4 & Ht4 & Hc & Hf & Hp & Hw & Hr & He); [lia|].
  apply dm_bind_some in Hrun as (rv3 & s5 & (t4' & t5 & Ht4' & Hm & Ht5)%on_queue_at & Hrun).
  rewrite Ht4 in Ht4'. injection Ht4' as <-. apply prog_hw_mm in Hm; [|done].
  destruct (rv3 <? 0) eqn:Hrv3.
  { apply dm_bind_some in Hrun as (? & ? & _ & Hrun). apply dm_bind_some in Hrun as (? & ? & _ & Hrun).
    injection Hrun. lia. }
  apply dm_bind_some in Hrun as (q6 & s6 & (t5' & t6 & Ht5' & [= <- <-] & Ht6)%on_queue_at & Hrun).
  rewrite Ht5 in Ht5'. injection Ht5' as <-.
  apply dm_bind_some in Hrun as ([] & s7 & [x Ht7]%(intr_list_add_at _ _ _ _ _ _ Ht6) & Hrun).
  apply dm_bind_some in Hrun as ([] & s8 & (cpu & thp & asg & Ht8)%(thread_add_at _ _ _ _ Ht7) & Hrun).
  apply dm_bind_some in Hrun as ([] & s9 & Ht9%(set_q_state_at _ _ _ _ _ Ht8) & [= <-]).
  set (q' := set_thread (s_q t4) cpu thp asg Q_STATE_ONLINE).
  assert (Hend : at_queue r s9 = Some (mk_qst q' x (s_reqs t) (s_hw t5) (s_ev t))).
  { rewrite Ht9, Hm. unfold q'. destruct t4 as [q4 ? ? ? ?]. simpl in *. subst. by destruct q4. }
  clear Ht9. unfold at_queue in Hend. destruct (get_queue r s9) as [q9|] eqn:Hq9; [|done].
  injection Hend as -> <- Hreqs Hhw Hev. clear Hm.
  pose proof (fresh_set_thread _ _ cpu thp asg Q_STATE_ONLINE Hf) as Hf'. fold q' in Hf'.
  exists q'. split; [done|]. split; [by destruct (s_q t4)|]. split; [apply (fq_rngsz _ _ Hf')|].
  assert (Hl : dq_pend_list q' = dq_pend_list (s_q t4) ∧ dq_work_list q' = dq_work_list (s_q t4)) by by destruct (s_q t4).
  destruct Hl as [-> ->]. do 4 (split; [done|]).
  rewrite (fq_rngsz _ _ Hf'). intros Heng. eapply fresh_inv; [by apply fresh_no_requests|done..].
Qed.
End start_initial.
