(* ===== verification/QueueLifeEx.v ===== *)
(** * Life cycle of the queues: runs on a concrete device

    A polled device with four queue indices.  The witnesses of the theorems on
    the life cycle, and runs that show where the code does not do what it means
    to. *)

From S2P Require Import Prelude Platform QdmaList ResMgmt SoftAccess QueueTypes.
From S2P Require Import DescRing Descq DescqProc DescqInv DescqCmpl DescqMm DescqConf DescqConfThms Threads.
From S2P Require Import QueueLife QueueLifeThms QueueStop QueueLifeInv DescqEx.

Notation dev := (dst prompt_sim).

(** The code outside the component: every call succeeds and changes nothing. *)
Definition lx_csr (x : xlnx_dma_dev) (h : prompt_sim) : Z * (xlnx_dma_dev * prompt_sim) := (0, (x, h)).
Definition lx_setq (h : prompt_sim) : Z * prompt_sim := (0, h).
Definition lx_setup : qm prompt_sim Z := mret 0.
Definition lx_clear : qm prompt_sim unit := mret tt.
Definition lx_ctxt : qm prompt_sim Z := mret 0.
Definition lx_ctxt_clear (_ : bool) : qm prompt_sim Z := mret 0.
Definition lx_alloc (_ : Z) (h : prompt_sim) : option Z * prompt_sim := (Some 65536, h).

Notation lx_run := (run_life lx_csr lx_setq lx_setup lx_clear lx_ctxt lx_ctxt_clear lx_alloc lx_setup lx_clear).
Notation lx_reach := (dev_reach lx_csr lx_setq lx_setup lx_clear lx_ctxt lx_ctxt_clear lx_alloc lx_setup lx_clear).

(** The resource manager with [n] queues for function 0. *)
Definition lx_rm (n : Z) : rm_state :=
  let '(_, _, s) := qdma_master_resource_create 0 0 0 64 (rm_init []) in
  let s := snd (qdma_dev_entry_create 0 0 s) in
  snd (qdma_dev_update 0 0 n (-1) s).

Definition lx_caps : dev_caps := mk_caps true true true 0 false false 0.

(** A fresh device with [qmax] indices, of which [n] may be used. *)
Definition lx_dev (m : qdma_drv_mode_t) (vecs qmax n : Z) : dev :=
  mk_dst (init_pool 0 qmax) (init_pool 0 qmax) (init_pool 0 qmax) qmax false lx_caps
    (replicate (Z.to_nat vecs) []) (lx_rm n) (mk_th [0; 0] [0; 0]) (ex_x m <| xd_num_vecs := vecs |>) ∅
    (mk_prompt 4 0 0) [].

Definition lx_after (o : life_op) (s : dev) : dev := match lx_run o s with Some (_, s) => s | None => s end.
Definition lx_ops (os : list life_op) (s : dev) : dev := fold_left (λ s o, lx_after o s) os s.

Definition lx_h2c (i : Z) : qdma_queue_conf := ex_conf <| qc_qidx := i |>.
Definition lx_c2h (i : Z) : qdma_queue_conf := ex_conf <| qc_q_type := Q_C2H |> <| qc_qidx := i |>.
Definition lx_st (c : qdma_queue_conf) : qdma_queue_conf := c <| qc_st := 1 |>.

Definition states (p : pool) (s : dev) : list q_state_t := map dq_q_state (pool_list p s).

Definition all_states (s : dev) : list (list q_state_t) := map (λ p, states p s) [PH2C; PC2H; PCMPT].

Example lx_first : lx_run (OpAdd (lx_h2c 1)) (lx_dev POLL_MODE 0 4 4) =
  Some (inr (0, 1, lx_h2c 1), lx_after (OpAdd (lx_h2c 1)) (lx_dev POLL_MODE 0 4 4)).
Proof. vm_compute. reflexivity. Qed.

Example lx_states : states PH2C (lx_ops [OpAdd (lx_h2c 1); OpStart 1] (lx_dev POLL_MODE 0 4 4)) =
  [Q_STATE_DISABLED; Q_STATE_ONLINE; Q_STATE_DISABLED; Q_STATE_DISABLED].
Proof. vm_compute. reflexivity. Qed.

(** ** Witnesses *)

Lemma lx_keep {A} (a : A) : qkeep (H := prompt_sim) (mret a).
Proof. apply qkeep_ret. Qed.

Definition lx_d0 : dev := lx_dev POLL_MODE 0 4 4.
Definition lx_d1 : dev := lx_ops [OpAdd (lx_h2c 1)] lx_d0.
Definition lx_d2 : dev := lx_after (OpStart 1) lx_d1.

Lemma life_cycle_refinement_witness :
  life_op_ok (OpStart 1) ∧ lx_run (OpStart 1) lx_d1 = Some (inl 0, lx_d2) ∧
  (∃ r, id_ref 4 1 = Some r ∧ life_step (lview lx_d1) (lview lx_d2) (EvStart r)).
Proof.
  assert (Hrun : lx_run (OpStart 1) lx_d1 = Some (inl 0, lx_d2)) by (vm_compute; reflexivity).
  split; [done|]. split; [exact Hrun|].
  destruct (life_cycle_refinement lx_csr lx_setq lx_setup lx_clear lx_ctxt lx_ctxt_clear lx_alloc lx_setup lx_clear
    (lx_keep _) (lx_keep _) (lx_keep _) (λ _, lx_keep _) (lx_keep _) (lx_keep _) (OpStart 1) lx_d1 (inl 0) lx_d2 I Hrun)
    as [[Hn _]|[_ Hs]]; [lia|exact Hs].
Defined.

(** A restart: the queue still has the indices, the announced producer index
    and a synchronous request of an earlier run. *)
Definition lx_old (q : qdma_descq) : qdma_descq :=
  q <| dq_pidx := 3 |> <| dq_cidx := 1 |> <| dq_avail := 1 |> <| dq_credit := 2 |> <| dq_work_list := [3] |>
    <| dq_work_req_pend := 4 |> <| dq_pidx_info := mk_pidx_info 3 0 |>.
Definition lx_q1 : qdma_descq := lx_old (nth 1 (ds_h2c lx_d1) (qdma_descq_init 0 0 0)).
Definition lx_restart : dev := put_queue (PH2C, 1) lx_q1 lx_d1.

Lemma qdma_queue_start_initial_witness :
  lx_run (OpStart 1) lx_restart = Some (inl 0, lx_after (OpStart 1) lx_restart) ∧
  ∃ q', get_queue (PH2C, 1) (lx_after (OpStart 1) lx_restart) = Some q' ∧ dq_work_list q' = [3] ∧
    mm_inv (mk_qst (no_requests q') (ds_xdev (lx_after (OpStart 1) lx_restart)) ∅ (mk_prompt 4 0 0) []) 0 0 0.
Proof.
  split; [vm_compute; reflexivity|].
  destruct (qdma_queue_start_initial lx_ctxt lx_ctxt_clear lx_alloc lx_setup lx_clear (only_hw_ret _)
    lx_restart 1 (PH2C, 1) lx_q1 (lx_after (OpStart 1) lx_restart)) as (q' & Hq & _ & Hn & _ & Hw & _ & _ & Hinv).
  - vm_compute. reflexivity.
  - vm_compute. reflexivity.
  - split; try (vm_compute; reflexivity); try (vm_compute; discriminate).
    + vm_compute. split; [reflexivity|discriminate].
    + left. vm_compute. reflexivity.
  - vm_compute. reflexivity.
  - exists q'. split; [exact Hq|]. split; [rewrite Hw; vm_compute; reflexivity|].
    apply Hinv. rewrite Hn. vm_compute. repeat split; discriminate.
Defined.

(** An ST queue pair, and the memory mapped completion queue of another index. *)
Definition lx_cmpt (i : Z) : qdma_queue_conf := ex_conf <| qc_q_type := Q_CMPT |> <| qc_qidx := i |>.
Definition lx_modes_ops : list life_op :=
  [OpAdd (lx_st (lx_h2c 1)); OpStart 1; OpAdd (lx_st (lx_c2h 1)); OpAdd (lx_cmpt 2)].
Definition lx_m : dev := lx_ops lx_modes_ops lx_d0.

Lemma lx_reach_ops os : ∀ s, lx_reach s → Forall life_op_ok os → lx_reach (lx_ops os s).
Proof.
  induction os as [|o os IH]; intros s Hs Hok; [done|]. apply Forall_cons in Hok as [Ho Hok].
  apply IH; [|done]. unfold lx_after. destruct (lx_run o s) as [[res s']|] eqn:Hr; [|done].
  by eapply dr_op.
Qed.

Lemma queue_modes_never_mix_witness :
  lx_reach lx_m ∧ modes_ok (lview lx_m) ∧
  all_states lx_m =
    [[Q_STATE_DISABLED; Q_STATE_ONLINE; Q_STATE_DISABLED; Q_STATE_DISABLED];
     [Q_STATE_DISABLED; Q_STATE_ENABLED; Q_STATE_DISABLED; Q_STATE_DISABLED];
     [Q_STATE_DISABLED; Q_STATE_DISABLED; Q_STATE_ENABLED; Q_STATE_DISABLED]].
Proof.
  assert (Hr : lx_reach lx_m).
  { apply lx_reach_ops; [by apply (dr_fresh _ _ _ _ _ _ _ _ _ 0)|]. repeat constructor; vm_compute; intros; discriminate. }
  split; [exact Hr|]. split; [|vm_compute; reflexivity].
  exact (queue_modes_never_mix lx_csr lx_setq lx_setup lx_clear lx_ctxt lx_ctxt_clear lx_alloc lx_setup lx_clear
    (lx_keep _) (lx_keep _) (lx_keep _) (λ _, lx_keep _) (lx_keep _) (lx_keep _) lx_m Hr).
Defined.

(** A queue with a started request and two that wait, one of them synchronous. *)
Definition lx_stop : qst prompt_sim :=
  mk_qst (ex_q0 <| dq_q_state := Q_STATE_ONLINE |> <| dq_pend_list := [1] |> <| dq_work_list := [2; 3] |>
            <| dq_work_req_pend := 2 |>) (ex_x POLL_MODE)
    (<[3 := ex_rq false 1 0 [ex_sg 4096 1]]> ex_reqs) (mk_prompt 4 0 0) [].

Lemma stop_queue_fails_all_witness :
  ∃ s', stop_queue lx_stop = Some (tt, s') ∧ dq_work_list (s_q s') = [3] ∧
    s_ev s' = [EvDone 1 0 (- ENXIO); EvDone 2 0 (- ENXIO); EvWake 3].
Proof.
  destruct (stop_queue_fails_all lx_stop) as (s' & Hr & _ & _ & _ & Hw & _ & He & _).
  - vm_compute. reflexivity.
  - apply (bool_decide_unpack _). vm_compute. exact I.
  - intros r Hr. assert (Forall (λ r, is_Some (s_reqs lx_stop !! r)) [1; 2; 3]) as Hf.
    { repeat constructor; by eexists. }
    rewrite Forall_forall in Hf. by apply Hf.
  - vm_compute. reflexivity.
  - exists s'. split; [exact Hr|]. split; [rewrite Hw|rewrite He]; vm_compute; reflexivity.
Defined.

(** The queue pair and the completion queue, and a mode that does not fit. *)
Example lx_mixed : fst <$> lx_run (OpAdd (lx_c2h 1)) (lx_ops [OpAdd (lx_st (lx_h2c 1))] lx_d0) =
  Some (inr (- EPERM, QDMA_QUEUE_IDX_INVALID, lx_c2h 1)).
Proof. vm_compute. reflexivity. Qed.

(** ** Where the code does not do what it means to *)

Definition lx_auto : life_op := OpAdd (lx_h2c QDMA_QUEUE_IDX_INVALID).

(** qdma_queue_add with an index of its own choice takes another queue than
    the one it reports once index 0 is in use: it returns handle and index 1
    and enables and configures queue 2, so that the handle it returned cannot
    be started, and with two indices it writes behind the array. *)
Theorem auto_index_takes_wrong_queue :
  let s := lx_ops [OpAdd (lx_h2c 0)] lx_d0 in
  fst <$> lx_run lx_auto s = Some (inr (0, 1, lx_h2c 1)) ∧
  states PH2C (lx_after lx_auto s) = [Q_STATE_ENABLED; Q_STATE_DISABLED; Q_STATE_ENABLED; Q_STATE_DISABLED] ∧
  fst <$> lx_run (OpStart 1) (lx_after lx_auto s) = Some (inl (- EINVAL)) ∧
  lx_run lx_auto (lx_ops [OpAdd (lx_h2c 0)] (lx_dev POLL_MODE 0 2 2)) = None.
Proof. vm_compute. repeat split. Qed.

(** A queue that was taken stays enabled when the queue range of the device
    cannot be programmed: qdma_queue_add returns the error, and the index
    cannot be added again when the device works again. *)
Theorem failed_add_keeps_queue :
  let fail := run_life lx_csr (λ h, (-5, h)) lx_setup lx_clear lx_ctxt lx_ctxt_clear lx_alloc lx_setup lx_clear
    (OpAdd (lx_h2c 1)) lx_d0 in
  match fail with
  | Some (res, s) => res = inr (-5, QDMA_QUEUE_IDX_INVALID, lx_h2c 1) ∧
      states PH2C s = [Q_STATE_DISABLED; Q_STATE_ENABLED; Q_STATE_DISABLED; Q_STATE_DISABLED] ∧
      fst <$> lx_run (OpAdd (lx_h2c 1)) s = Some (inr (- EPERM, QDMA_QUEUE_IDX_INVALID, lx_h2c 1))
  | None => False
  end.
Proof. vm_compute. repeat split. Qed.

(** In a mode with data interrupts on a device without vectors a queue can
    be started, and stopping it fails: there is no list to delete it from. *)
Theorem stop_without_vectors :
  let s := lx_ops [OpAdd (lx_h2c 1); OpStart 1] (lx_dev DIRECT_INTR_MODE 0 4 4) in
  states PH2C s = [Q_STATE_DISABLED; Q_STATE_ONLINE; Q_STATE_DISABLED; Q_STATE_DISABLED] ∧
  lx_run (OpStop 1) s = None.
Proof. vm_compute. split; reflexivity. Qed.

(** qdma_device_cleanup stops and removes the queues of both directions and
    leaves the memory mapped completion queues online. *)
Theorem cleanup_leaves_completion_queues :
  let s := lx_ops [OpAdd (lx_h2c 1); OpStart 1; OpAdd (lx_cmpt 1); OpStart 9] lx_d0 in
  all_states (match qdma_device_cleanup lx_clear lx_ctxt_clear lx_clear s with Some (_, s) => s | None => s end) =
    [replicate 4 Q_STATE_DISABLED; replicate 4 Q_STATE_DISABLED;
     [Q_STATE_DISABLED; Q_STATE_ONLINE; Q_STATE_DISABLED; Q_STATE_DISABLED]].
Proof. vm_compute. reflexivity. Qed.
