(* ===== verification/IntrThms.v ===== *)
(** * Data interrupts: theorems

    The hardware writes the entries of the interrupt ring in turn, with a color
    that changes with every round; the handler handles each entry once, in the
    order of writing, and returns. *)

From S2P Require Import Prelude Platform QdmaList ResMgmt SoftAccess QueueTypes DescRing Descq DescqProc DescqInv DescqCmpl DescqConf DescqEx Threads CtxtSetup QueueLife Intr QueueLifeThms QueueLifeEx.

(** ** The ring the hardware writes *)

Section ring.
Context (n : Z) (stream : Z → Z * Z) (Hn : 1 <= n < 65536).

(** The color of the entries of a round; the first is 1. *)
Definition gen (k : Z) : Z := 1 - (k / n) mod 2.

(** Slot [j] after [P] entries: the last of them that fell on it. *)
Definition slot (P j : Z) : qdma_intr_ring :=
  let k := P - 1 - (P - 1 - j) mod n in
  if k <? 0 then mk_ring_entry 0 0 0 else mk_ring_entry (gen k) (fst (stream k)) (snd (stream k)).

Definition ring_of (P : Z) : list qdma_intr_ring := map (slot P) (seqZ 0 n).

Lemma ring_of_lookup P j : 0 <= j < n → ring_of P !! Z.to_nat j = Some (slot P j).
Proof using.
  intros Hj. unfold ring_of. rewrite list_lookup_fmap, lookup_seqZ_lt by lia. simpl. do 2 f_equal. lia.
Qed.

Lemma gen_cases k : gen k = 0 ∨ gen k = 1.
Proof using. unfold gen. pose proof (Z.mod_pos_bound (k / n) 2). lia. Qed.

Lemma gen_flip k : gen (k + n) = 1 - gen k.
Proof using Hn.
  unfold gen. replace (k + n) with (k + 1 * n) by lia. rewrite Z.div_add by lia.
  rewrite Z.add_mod by lia. pose proof (Z.mod_pos_bound (k / n) 2).
  assert ((k / n) mod 2 = 0 ∨ (k / n) mod 2 = 1) as [-> | ->] by lia; reflexivity.
Qed.

Lemma slot_new P k : 0 <= k < P → P <= k + n →
  slot P (k mod n) = mk_ring_entry (gen k) (fst (stream k)) (snd (stream k)).
Proof using Hn.
  intros Hk Hp. unfold slot. replace ((P - 1 - k mod n) mod n) with (P - 1 - k).
  - replace (P - 1 - (P - 1 - k)) with k by lia. by rewrite (proj2 (Z.ltb_ge _ _)) by lia.
  - rewrite Zminus_mod_idemp_r. rewrite Z.mod_small; lia.
Qed.

Lemma slot_old P : 0 <= P → ir_coal_color (slot P (P mod n)) ≠ gen P.
Proof using Hn.
  intros Hp. unfold slot. replace ((P - 1 - P mod n) mod n) with (n - 1).
  - replace (P - 1 - (n - 1)) with (P - n) by lia. destruct (P - n <? 0) eqn:E.
    + simpl. unfold gen. rewrite Z.div_small by lia. done.
    + simpl. replace (gen P) with (gen (P - n + n)) by (f_equal; lia). rewrite gen_flip.
      pose proof (gen_cases (P - n)). lia.
  - rewrite Zminus_mod_idemp_r. replace (P - 1 - P) with (n - 1 + (-1) * n) by lia.
    rewrite Z.mod_add, Z.mod_small; lia.
Qed.

(** The handler has consumed [C] of [P] entries. *)
Record coal_ok (P C : Z) (e : intr_coal_conf) : Prop := {
  co_num : ic_num_entries e = n;
  co_ring : ic_ring e = ring_of P;
  co_color : ic_color e = gen C;
  co_cidx : ic_sw_cidx e = C mod n;
  co_le : 0 <= C <= P;
  co_room : P <= C + n;
}.

(** The indices after the next entry. *)
Lemma next_idx C : 0 <= C →
  u16 (C mod n + 1) = C mod n + 1 ∧
  (C mod n + 1 = n → (C + 1) mod n = 0 ∧ gen (C + 1) = 1 - gen C) ∧
  (C mod n + 1 ≠ n → (C + 1) mod n = C mod n + 1 ∧ gen (C + 1) = gen C).
Proof using Hn.
  intros Hc. pose proof (Z.mod_pos_bound C n ltac:(lia)) as Hm. pose proof (Z_div_mod_eq_full C n) as Hd.
  split; [apply wrap_small; unfold is_u; lia|]. split; intros He.
  - assert (C + 1 = (C / n + 1) * n) as -> by nia. split; [apply Z.mod_mul; lia|].
    unfold gen. rewrite Z.div_mul by lia. rewrite Z.add_mod by lia.
    pose proof (Z.mod_pos_bound (C / n) 2). 
    assert ((C / n) mod 2 = 0 ∨ (C / n) mod 2 = 1) as [-> | ->] by lia; reflexivity.
  - assert (C + 1 = C mod n + 1 + (C / n) * n) as -> by nia. split.
    + rewrite Z.mod_add, Z.mod_small by lia. done.
    + unfold gen. rewrite Z.div_add, Z.div_small by lia. done.
Qed.
End ring.

(** ** The handler *)

Section handler.
Context {H : Type} (d : dst H) (qbase n : Z) (stream : Z → Z * Z) (Hn : 1 <= n < 65536).

(** The queue of an entry, and what is done for it. *)
Definition entry_ref (k : Z) : qref :=
  qdma_device_get_descq_by_hw_qid qbase (snd (stream k)) (fst (stream k)).
Definition entry_events (k : Z) : list intr_event :=
  match get_queue (entry_ref k) d with Some q => queue_events (entry_ref k) q | None => [] end.

Definition queues_exist : Prop := ∀ k, 0 <= k → is_Some (get_queue (entry_ref k) d).

Lemma nz_toggle c : c = 0 ∨ c = 1 → (if nz c then 0 else 1) = 1 - c.
Proof using. by intros [-> | ->]. Qed.

(** One entry, then the rest. *)
Lemma advance_ok P C e : coal_ok n stream P C e → C < P →
  ∃ e', advance 0 [e] e = [e'] ∧ coal_ok n stream P (C + 1) e' ∧ ic_rng_idx e' = ic_rng_idx e ∧
    ic_vec_id e' = ic_vec_id e ∧
    (if u16 (ic_sw_cidx e + 1) =? ic_num_entries e then 0 else ic_sw_cidx e + 1) = (C + 1) mod n.
Proof using Hn.
  intros [H1 H2 H3 H4 H5 H6] Hlt. destruct (next_idx n Hn C) as (Hu & Hw & Hnw); [lia|].
  unfold advance. rewrite H4, H1, Hu. destruct (C mod n + 1 =? n) eqn:E.
  - destruct Hw as [Hc Hg]; [lia|]. eexists. split; [reflexivity|]. split; [|split; [done|]; split; [done|lia]].
    split; simpl; try done; try lia. rewrite H3, nz_toggle by apply gen_cases. lia.
  - destruct Hnw as [Hc Hg]; [lia|]. eexists. split; [reflexivity|]. split; [|split; [done|]; split; [done|lia]].
    split; simpl; try done; try lia; congruence.
Qed.

Lemma aggregate_loop_ok P m : ∀ fuel C e descq prev ev,
  queues_exist → P - C = Z.of_nat m → (m < fuel)%nat → coal_ok n stream P C e →
  ∃ e' prev', aggregate_loop d qbase fuel 0 (C mod n) descq (mk_is [e] prev ev) =
      Some (if (m =? 0)%nat then descq else Some (entry_ref (P - 1)),
            mk_is [e'] prev' (ev ++ flat_map entry_events (seqZ C (P - C)))) ∧
    coal_ok n stream P P e' ∧ ic_rng_idx e' = ic_rng_idx e ∧ ic_vec_id e' = ic_vec_id e ∧
    prev' = (if (m =? 0)%nat then prev else Some (entry_ref (P - 1))).
Proof using Hn.
  induction m as [|m IH]; intros fuel C e descq prev ev Hq Hm Hf He; (destruct fuel as [|fuel]; [lia|]);
    cbn [aggregate_loop is_coal]; change ([e] !! 0%nat) with (Some e); cbn [mbind option_bind].
  - assert (C = P) as -> by lia. exists e, prev. destruct (co_le _ _ _ _ _ He) as [Hle _].
    rewrite (co_ring _ _ _ _ _ He), ring_of_lookup by (apply Z.mod_pos_bound; lia). cbn [mbind option_bind].
    rewrite (co_color _ _ _ _ _ He), (proj2 (Z.eqb_neq _ _)) by (by apply slot_old). cbn [negb].
    rewrite Z.sub_diag, seqZ_nil by lia. cbn [flat_map]. by rewrite app_nil_r.
  - destruct (co_le _ _ _ _ _ He) as [Hle _]. pose proof (co_room _ _ _ _ _ He) as Hro.
    rewrite (co_ring _ _ _ _ _ He), ring_of_lookup by (apply Z.mod_pos_bound; lia). cbn [mbind option_bind].
    rewrite slot_new by lia. cbn [ir_coal_color ir_qid ir_intr_type].
    rewrite (co_color _ _ _ _ _ He), Z.eqb_refl. cbn [negb]. fold (entry_ref C).
    destruct (Hq C Hle) as [q Hgq]. rewrite Hgq. cbn [mbind option_bind].
    destruct (advance_ok P C e He ltac:(lia)) as (e1 & Ha & He1 & Hr1 & Hv1 & Hc1).
    cbn [is_coal set]. unfold set. cbn [is_coal is_prev is_ev]. rewrite Ha.
    rewrite (co_cidx _ _ _ _ _ He) in Hc1. rewrite (co_cidx _ _ _ _ _ He). rewrite Hc1.
    destruct (IH fuel (C + 1) e1 (Some (entry_ref C)) (Some (entry_ref C)) (ev ++ queue_events (entry_ref C) q))
      as (e' & prev' & E & He' & Hr' & Hv' & Hp'); [done|lia|lia|done|].
    exists e', prev'. rewrite E. split.
    + rewrite (seqZ_cons C) by lia. cbn [flat_map]. unfold entry_events at 2. rewrite Hgq.
      replace (P - (C + 1)) with (Z.pred (P - C)) by lia. rewrite <- app_assoc. unfold Z.succ.
      destruct m; [|done]. cbn [Nat.eqb]. by replace (P - 1) with C by lia.
    + split; [done|]. split; [congruence|]. split; [congruence|]. rewrite Hp'.
      destruct m; [|done]. cbn [Nat.eqb]. by replace (P - 1) with C by lia.
Qed.

(** The events that are work for the queues. *)
Definition is_work (ev : intr_event) : bool := match ev with IeCidx _ _ _ => false | _ => true end.
Definition work (s : intr_state) : list intr_event := List.filter is_work (is_ev s).

Lemma entry_events_work k : List.filter is_work (entry_events k) = entry_events k.
Proof using.
  unfold entry_events. destruct (get_queue _ d) as [q|]; [|done]. unfold queue_events.
  destruct (_ && _); destruct (qc_fp_descq_isr_top _); done.
Qed.

Lemma entries_work l : List.filter is_work (flat_map entry_events l) = flat_map entry_events l.
Proof using. induction l as [|k l IH]; [done|]. cbn. by rewrite List.filter_app, entry_events_work, IH. Qed.

(** What holds between the interrupts; [vidx] is the data vector. *)
Record ring_inv (vidx P C : Z) (s : intr_state) : Prop := {
  ri_coal : ∃ e, is_coal s = [e] ∧ coal_ok n stream P C e ∧ ic_vec_id e = vidx;
  ri_prev : is_prev s = if C =? 0 then None else Some (entry_ref (C - 1));
  ri_work : work s = flat_map entry_events (seqZ 0 C);
}.

Lemma handler_ok vidx P C s :
  queues_exist → vidx = xd_dvec_start_idx (ds_xdev d) → ring_inv vidx P C s →
  ∃ s', data_intr_aggregate d qbase (S (Z.to_nat n)) vidx s = Some s' ∧ ring_inv vidx P P s' ∧
    (0 < P → ∃ qidx rng, last (is_ev s') = Some (IeCidx qidx (P mod n) rng)).
Proof using Hn.
  intros Hq -> [(e & Hc & He & Hv) Hp Hw]. destruct s as [coal prev ev]. cbn [is_coal is_prev] in *. subst coal.
  destruct (co_le _ _ _ _ _ He) as [Hle0 Hle]. pose proof (co_room _ _ _ _ _ He) as Hro.
  unfold data_intr_aggregate. rewrite Z.ltb_irrefl, Z.sub_diag.
  change (Z.to_nat 0) with 0%nat. change (is_coal _ !! 0%nat) with (Some e).
  cbn [mbind option_bind]. rewrite Hv, Z.eqb_refl, (co_cidx _ _ _ _ _ He). cbn [negb].
  destruct (aggregate_loop_ok P (Z.to_nat (P - C)) (S (Z.to_nat n)) C e None prev ev)
    as (e' & prev' & E & He' & Hr' & Hv' & Hp'); [done|lia|lia|done|].
  rewrite E. clear E. cbn [mbind option_bind].
  assert (Hprev : prev' = if P =? 0 then None else Some (entry_ref (P - 1))).
  { rewrite Hp'. destruct (Z.to_nat (P - C) =? 0)%nat eqn:Em.
    - apply Nat.eqb_eq in Em. assert (P = C) as -> by lia. exact Hp.
    - apply Nat.eqb_neq in Em. by rewrite (proj2 (Z.eqb_neq _ _)) by lia. }
  assert (Hww : List.filter is_work (ev ++ flat_map entry_events (seqZ C (P - C))) =
    flat_map entry_events (seqZ 0 P)).
  { rewrite List.filter_app, entries_work. unfold work in Hw. cbn [is_ev] in Hw. rewrite Hw, <- flat_map_app.
    f_equal. pose proof (seqZ_app 0 C (P - C) Hle0 ltac:(lia)) as Hs. rewrite Z.add_0_l in Hs.
    rewrite <- Hs. f_equal. lia. }
  assert (Hinv : ∀ tl, List.filter is_work tl = [] →
    ring_inv (xd_dvec_start_idx (ds_xdev d)) P P
      (mk_is [e'] prev' ((ev ++ flat_map entry_events (seqZ C (P - C))) ++ tl))).
  { intros tl Htl. split; [exists e'; split_and!; [done..|congruence]|done|].
    unfold work. cbn [is_ev]. by rewrite List.filter_app, Hww, Htl, app_nil_r. }
  assert (Hup : 0 < P → ∃ q, cidx_update d 0 (entry_ref (P - 1))
    (mk_is [e'] prev' (ev ++ flat_map entry_events (seqZ C (P - C)))) =
    Some (mk_is [e'] prev' ((ev ++ flat_map entry_events (seqZ C (P - C))) ++
                            [IeCidx (qc_qidx (dq_conf q)) (P mod n) (ic_rng_idx e')]))).
  { intros HP. destruct (Hq (P - 1)) as [q Hgq]; [lia|]. exists q. unfold cidx_update.
    change (is_coal _ !! 0%nat) with (Some e'). cbn [mbind option_bind]. rewrite Hgq. cbn [mbind option_bind].
    by rewrite (co_cidx _ _ _ _ _ He'). }
  destruct (decide (P = 0)) as [->|HP].
  - assert (C = 0) as -> by lia. assert (prev' = None) as -> by exact Hprev.
    change (Z.to_nat (0 - 0) =? 0)%nat with true. cbn [is_prev].
    eexists. split; [reflexivity|]. split; [|lia].
    rewrite <- (app_nil_r (ev ++ _)). by apply Hinv.
  - destruct (Hup ltac:(lia)) as [q Hcu].
    assert (Hsel : (if (Z.to_nat (P - C) =? 0)%nat then None else Some (entry_ref (P - 1))) = None ∨
      (if (Z.to_nat (P - C) =? 0)%nat then None else Some (entry_ref (P - 1))) = Some (entry_ref (P - 1)))
      by (destruct (_ =? 0)%nat; tauto).
    eexists. split; [|split; [by apply (Hinv [IeCidx (qc_qidx (dq_conf q)) (P mod n) (ic_rng_idx e')])|]].
    + rewrite <- Hcu. destruct Hsel as [-> | ->]; [|done]. cbn [is_prev]. rewrite Hprev.
      by rewrite (proj2 (Z.eqb_neq _ _)).
    + intros _. eexists _, _. cbn [is_ev]. by rewrite last_snoc.
Qed.

(** The device and the driver: the hardware writes an entry when there is room,
    and the data vector's interrupt is handled. *)
Inductive ring_reach (rngsz bus : Z) : Z → Z → intr_state → Prop :=
  | rr_init x l : intr_ring_setup rngsz (Some bus) (ds_xdev d) = (0, x, Some l) →
      ring_reach rngsz bus 0 0 (mk_is l None [])
  | rr_write P C s e : ring_reach rngsz bus P C s → P < C + n → is_coal s = [e] →
      ring_reach rngsz bus (P + 1) C (s <| is_coal := [e <| ic_ring := ring_of n stream (P + 1) |>] |>)
  | rr_irq P C s s' : ring_reach rngsz bus P C s →
      data_intr_aggregate d qbase (S (Z.to_nat n)) (xd_dvec_start_idx (ds_xdev d)) s = Some s' →
      ring_reach rngsz bus P P s'.

Lemma ring_of_0 : ring_of n stream 0 = replicate (Z.to_nat n) (mk_ring_entry 0 0 0).
Proof using Hn.
  apply list_eq_same_length with (Z.to_nat n).
  - by rewrite length_replicate.
  - unfold ring_of. rewrite length_map, length_seqZ. done.
  - intros i a b Hi Ha Hb. rewrite lookup_replicate_2 in Hb by done. injection Hb as <-.
    replace i with (Z.to_nat (Z.of_nat i)) in Ha by lia. rewrite ring_of_lookup in Ha by lia.
    injection Ha as <-. unfold slot. pose proof (Z.mod_pos_bound (0 - 1 - Z.of_nat i) n).
    by rewrite (proj2 (Z.ltb_lt _ _)) by lia.
Qed.

Lemma ring_reach_inv rngsz bus P C s :
  queues_exist → n = (rngsz + 1) * 512 → is_u 16 (xd_dvec_start_idx (ds_xdev d)) →
  ring_reach rngsz bus P C s → ring_inv (xd_dvec_start_idx (ds_xdev d)) P C s.
Proof using Hn.
  intros Hq Hsz Hv. induction 1 as [x l Hs|P C s e _ IH Hlt Hc|P C s s' _ IH Hrun].
  - unfold intr_ring_setup in Hs. destruct (negb _); [done|]. destruct (nz _); [|done]. injection Hs as _ <-.
    split; [|done|done]. eexists. split; [reflexivity|]. split; [|by apply wrap_small].
    rewrite <- Hsz. split; cbn; try lia.
    + rewrite wrap_small by (unfold is_u; lia). done.
    + by rewrite ring_of_0.
    + unfold gen. by rewrite Z.div_0_l by lia.
    + by rewrite Z.mod_0_l by lia.
  - destruct IH as [(e' & Hc' & He & Hve) Hp Hw]. rewrite Hc in Hc'. injection Hc' as <-.
    split; [|done|done]. eexists. split; [reflexivity|]. split; [|done].
    destruct He as [H1 H2 H3 H4 H5 H6]. split; simpl; try done; lia.
  - destruct (handler_ok _ _ _ _ Hq eq_refl IH) as (s2 & E & Hi & _). rewrite Hrun in E. by injection E as ->.
Qed.

(** C19. Interrupt aggregation handles every entry exactly once.  Whatever
    entries the hardware has written to the ring and however the interrupts
    came in between, as long as it did not write beyond the room the consumer
    index gave it: the next interrupt of the data vector returns after at most
    a round of the ring, by then the queues of all entries written so far have
    been served once per entry in the order of writing, and the index written
    to the device is that of the next entry. *)
Theorem ring_interrupts_exactly_once rngsz bus P C s :
  queues_exist → n = (rngsz + 1) * 512 → is_u 16 (xd_dvec_start_idx (ds_xdev d)) →
  ring_reach rngsz bus P C s →
  ∃ s', data_intr_aggregate d qbase (S (Z.to_nat n)) (xd_dvec_start_idx (ds_xdev d)) s = Some s' ∧
    work s = flat_map entry_events (seqZ 0 C) ∧ work s' = flat_map entry_events (seqZ 0 P) ∧
    (0 < P → ∃ qidx rng, last (is_ev s') = Some (IeCidx qidx (P mod n) rng)).
Proof using Hn.
  intros Hq Hsz Hv Hr. pose proof (ring_reach_inv _ _ _ _ _ Hq Hsz Hv Hr) as Hi.
  destruct (handler_ok _ _ _ _ Hq eq_refl Hi) as (s' & E & [_ _ Hw] & Hl). exists s'.
  split; [done|]. split; [apply Hi|]. done.
Qed.
End handler.

(** * Data interrupts: runs on a concrete device

    The witness of the theorem on the interrupt ring, and runs that show where
    the code does not do what it means to. *)

Definition ix_dev : dev := lx_dev INDIRECT_INTR_MODE 4 4 4.
(** Entry [k] is of the H2C or C2H queue with hardware index 64 + [k] mod 4. *)
Definition ix_stream (k : Z) : Z * Z := (k mod 2, 64 + k mod 4).

Definition ix_s0 : intr_state :=
  match intr_ring_setup 0 (Some 65536) (ds_xdev ix_dev) with (_, _, Some l) => mk_is l None [] | _ => mk_is [] None [] end.
Definition ix_write (P : Z) (s : intr_state) : intr_state :=
  s <| is_coal := map (λ e, e <| ic_ring := ring_of 512 ix_stream (P + 1) |>) (is_coal s) |>.
Definition ix_irq (s : intr_state) : intr_state :=
  match data_intr_aggregate ix_dev 64 513 1 s with Some s => s | None => s end.
Definition ix_s1 : intr_state := ix_irq (ix_write 0 ix_s0).
Definition ix_s2 : intr_state := ix_write 2 (ix_write 1 ix_s1).

Lemma ix_queues : queues_exist ix_dev 64 ix_stream.
Proof.
  intros k Hk. unfold entry_ref, ix_stream, qdma_device_get_descq_by_hw_qid. cbn [fst snd].
  pose proof (Z.mod_pos_bound k 4). pose proof (Z.mod_pos_bound k 2).
  assert (k mod 4 = 0 ∨ k mod 4 = 1 ∨ k mod 4 = 2 ∨ k mod 4 = 3) as [-> |[-> |[-> | ->]]] by lia;
    assert (k mod 2 = 0 ∨ k mod 2 = 1) as [-> | ->] by lia; eexists; vm_compute; reflexivity.
Qed.

Notation ix_reach := (ring_reach ix_dev 64 512 ix_stream 0 65536).

Lemma ix_write_reach P C s :
  ix_reach P C s → P < C + 512 → length (is_coal s) = 1%nat → ix_reach (P + 1) C (ix_write P s).
Proof.
  intros Hr Hlt Hl. destruct s as [coal prev ev]. destruct coal as [|e [|]]; try done.
  by apply (rr_write _ _ _ _ _ _ P C (mk_is [e] prev ev) e Hr).
Qed.

Lemma ix_irq_reach P C s :
  ix_reach P C s → (match data_intr_aggregate ix_dev 64 513 1 s with Some _ => true | None => false end) = true →
  ix_reach P P (ix_irq s).
Proof.
  intros Hr Hs. apply (rr_irq _ _ _ _ _ _ P C s _ Hr). unfold ix_irq.
  change (S (Z.to_nat 512)) with 513%nat. change (xd_dvec_start_idx (ds_xdev ix_dev)) with 1.
  by destruct (data_intr_aggregate _ _ _ _ s).
Qed.

Lemma ix_reach2 : ix_reach 3 1 ix_s2.
Proof.
  assert (R0 : ix_reach 0 0 ix_s0) by (eapply rr_init; vm_compute; reflexivity).
  apply (ix_write_reach 2 1); [|lia|vm_compute; reflexivity].
  apply (ix_write_reach 1 1); [|lia|vm_compute; reflexivity].
  apply (ix_irq_reach 1 0); [|vm_compute; reflexivity].
  apply (ix_write_reach 0 0); [exact R0|lia|vm_compute; reflexivity].
Qed.

Lemma ring_interrupts_exactly_once_witness :
  ∃ s', data_intr_aggregate ix_dev 64 (S (Z.to_nat 512)) 1 ix_s2 = Some s' ∧
    work s' = [IeWork (PH2C, 0) None; IeWork (PC2H, 1) None; IeWork (PH2C, 2) None] ∧
    work ix_s2 = [IeWork (PH2C, 0) None].
Proof.
  destruct (ring_interrupts_exactly_once ix_dev 64 512 ix_stream ltac:(lia) 0 65536 3 1 ix_s2
    ix_queues eq_refl ltac:(vm_compute; split; [discriminate|reflexivity]) ix_reach2) as (s' & E & W & W' & _).
  exists s'. split; [exact E|]. split; [rewrite W'|rewrite W]; vm_compute; reflexivity.
Defined.

(** ** Where the code does not do what it means to *)

(** The color that changes with a round is always that of the first ring.
    With a second ring the handler of the second vector does not return once
    the hardware has filled that ring: it goes round the ring with the old
    color for ever (fuel for a thousand rounds). *)
Theorem second_ring_never_returns :
  let ring := replicate 4 (mk_ring_entry 1 0 64) in
  let s := mk_is [mk_coal 1 4 0 (replicate 4 (mk_ring_entry 0 0 0)) 1 0 0; mk_coal 2 4 0 ring 1 0 1] None [] in
  data_intr_aggregate ix_dev 64 4000 2 s = None ∧
  data_intr_aggregate ix_dev 64 5 1 (s <| is_coal := [mk_coal 1 4 0 ring 1 0 0] |>) ≠ None.
Proof. vm_compute. split; [reflexivity|discriminate]. Qed.

(** An entry with a hardware queue index outside the function's range makes
    the handler follow a pointer behind the queue array: the pointer the lookup
    returns is never NULL. *)
Theorem foreign_entry_leaves_array :
  let s := mk_is [mk_coal 1 4 0 (replicate 4 (mk_ring_entry 1 0 68)) 1 0 0] None [] in
  data_intr_aggregate ix_dev 64 100 1 s = None.
Proof. vm_compute. reflexivity. Qed.
