(* ===== verification/MboxQueue.v ===== *)
(** * The mailbox queues (qdma_mbox.c, qdma_sriov.c)

    A message is sent by putting it on the list of messages to be sent; a
    single-threaded work queue takes it from there, gives it to the hardware
    and, when an answer is expected, moves it to the list of pending requests.
    The same work queue receives messages, hands answers to the requests that
    wait for them and calls the message handler for the others.

    Senders, work queue, timer and interrupt run concurrently.  Every function
    is cut where it gives up the list lock or touches a message without it: a
    definition here is what one thread does between two such points, and the
    work queue function's position is a [wpc].  The last part puts the threads
    together to a system of steps.

    Messages live in a store; an access to a message that was freed has no
    result, like unlinking a message that is on no list.  Memory for messages
    may run out.  The hardware and the message handlers are reached through
    the interface [MboxEnd]; the physical and the virtual function are its
    instances. *)

From S2P Require Import Prelude Platform RegIO ResMgmt SoftAccess HwAccess QueueTypes.
From S2P Require Import MboxMsg MboxStruct MboxCompose MboxHandler MboxIO.

Definition EPIPE : Z := 32.
Definition QDMA_FUNC_ID_INVALID : Z := 0xFFFF.
Definition QDMA_MBOX_MSG_TIMEOUT_MS : Z := 10000.

(** [enum reset_state_t] *)
Inductive reset_state_t :=
  | RESET_STATE_IDLE
  | RESET_STATE_RECV_PF_RESET_REQ
  | RESET_STATE_PF_WAIT_FOR_BYES
  | RESET_STATE_RECV_PF_RESET_DONE
  | RESET_STATE_RECV_PF_OFFLINE_REQ
  | RESET_STATE_PF_OFFLINE_REQ_PROCESSING
  | RESET_STATE_INVALID.
#[export] Instance reset_state_eq : EqDecision reset_state_t.
Proof. solve_decision. Defined.

Definition qdma_mbox_is_irq_availabe (dev : qdma_device_type) (vivado_release : Z) (ip : qdma_ip_type) : bool :=
  bool_decide (dev = QDMA_DEVICE_SOFT) && (QDMA_VIVADO_2019_1 <=? vivado_release)
  || bool_decide (ip = QDMA_VERSAL_HARD_IP) && bool_decide (dev = QDMA_DEVICE_VERSAL_CPM5).

(** ** Data *)

(** [struct mbox_msg] *)
Record mbox_msg := mk_mbox_msg {
  m_wait_resp : bool; m_resp_op_matched : bool; m_retry_cnt : Z; m_raw : buf;
}.
#[export] Instance eta_mbox_msg : Settable mbox_msg := λ m,
  mk_mbox_msg (m_wait_resp m) (m_resp_op_matched m) (m_retry_cnt m) (m_raw m).

(** [struct qdma_vf_info] *)
Record qdma_vf_info := mk_vf_info { vi_func_id : Z; vi_qbase : Z; vi_qmax : Z }.

(** What is seen from outside: a message queued, given to the hardware, taken
    from the list unsent; a message received; a request matched with its
    answer; a waiter's return; wake-ups of other threads. *)
Inductive mbox_event :=
  | EvQueue (m : Z) (raw : buf)
  | EvSend (m : Z) (raw : buf)
  | EvLost (m : Z)
  | EvRcv (raw : buf)
  | EvAnswer (m : Z) (raw : buf)
  | EvBack (m rv : Z)
  | EvVfWake
  | EvResetWork.

(** [struct qdma_mbox], and the members of [struct xlnx_dma_dev] its functions
    use.  [mx_env] is the hardware with the state behind the handlers,
    [mx_msgs] the messages that are allocated, [mx_next] the next address the
    allocator returns, [mx_tx_work] and [mx_rx_work] say whether the work items
    are queued, [mx_timer] whether the timer runs. *)
Record qdma_mbox (E : Type) := mk_mbox {
  mx_env : E; mx_msgs : gmap Z mbox_msg; mx_next : Z; mx_mem : mem;
  mx_tx_todo_list : list Z; mx_rx_pend_list : list Z; mx_rx : buf;
  mx_send_busy : bool; mx_rx_poll : bool; mx_timer : bool;
  mx_tx_work : bool; mx_rx_work : bool; mx_offline : bool;
  mx_reset_state : reset_state_t; mx_func_id : Z; mx_func_id_parent : Z;
  mx_vf_info : list qdma_vf_info; mx_vf_count_online : Z; mx_ev : list mbox_event;
}.
Arguments mk_mbox {E} _ _ _ _ _ _ _ _ _ _ _ _ _ _ _ _ _ _ _.
Arguments mx_env {E} _.
Arguments mx_msgs {E} _.
Arguments mx_next {E} _.
Arguments mx_mem {E} _.
Arguments mx_tx_todo_list {E} _.
Arguments mx_rx_pend_list {E} _.
Arguments mx_rx {E} _.
Arguments mx_send_busy {E} _.
Arguments mx_rx_poll {E} _.
Arguments mx_timer {E} _.
Arguments mx_tx_work {E} _.
Arguments mx_rx_work {E} _.
Arguments mx_offline {E} _.
Arguments mx_reset_state {E} _.
Arguments mx_func_id {E} _.
Arguments mx_func_id_parent {E} _.
Arguments mx_vf_info {E} _.
Arguments mx_vf_count_online {E} _.
Arguments mx_ev {E} _.
#[export] Instance eta_qdma_mbox E : Settable (qdma_mbox E) := λ s,
  mk_mbox (mx_env s) (mx_msgs s) (mx_next s) (mx_mem s) (mx_tx_todo_list s) (mx_rx_pend_list s)
    (mx_rx s) (mx_send_busy s) (mx_rx_poll s) (mx_timer s) (mx_tx_work s) (mx_rx_work s)
    (mx_offline s) (mx_reset_state s) (mx_func_id s) (mx_func_id_parent s) (mx_vf_info s)
    (mx_vf_count_online s) (mx_ev s).

(** ** The hardware and the handlers *)

(** The messages of one function: which end of the mailbox it is, the mailbox
    registers, the handler (own function id, received message, response buffer;
    the result and both buffers). *)
Class MboxEnd (E : Type) := {
  me_is_vf : bool;
  me_send : buf → E → option (Z * E);
  me_rcv : buf → E → option (Z * buf * E);
  me_handle : Z → buf → buf → E → option (Z * (buf * buf) * E);
  me_disable_interrupts : E → option E;
  me_enable_interrupts : E → option E;
  me_out_status : E → option (Z * E);
  me_hw_init : E → option E;
}.

Section ends.
Context {dev : Type} `{Device dev} `{HA : !HwAccess dev}.
Definition end_state : Type := hw_state dev * rm_state.

Definition on_hw {A} (m : hwm dev A) (e : end_state) : option (A * end_state) :=
  '(a, h) ← m e.1; Some (a, (h, e.2)).
Definition on_hw_ (m : hwm dev unit) (e : end_state) : option end_state := snd <$> on_hw m e.
Definition run_handler (m : mbm dev Z) (rcv resp : buf) (e : end_state) : option (Z * (buf * buf) * end_state) :=
  '(rv, s) ← m (mk_mst e.1 e.2 rcv resp); Some (rv, (ms_rcv s, ms_resp s), (ms_hw s, ms_rm s)).
Definition mbox_end (is_vf : bool) (handle : Z → mbm dev Z) : MboxEnd end_state := {|
  me_is_vf := is_vf;
  me_send raw := on_hw (qdma_mbox_send is_vf raw);
  me_rcv raw := on_hw (qdma_mbox_rcv is_vf raw);
  me_handle fid rcv resp := run_handler (handle fid) rcv resp;
  me_disable_interrupts := on_hw_ (qdma_mbox_disable_interrupts is_vf);
  me_enable_interrupts := on_hw_ (qdma_mbox_enable_interrupts is_vf);
  me_out_status := on_hw (qdma_mbox_out_status is_vf);
  me_hw_init := on_hw_ (qdma_mbox_hw_init is_vf);
|}.

Definition pf_end (dma_device_index : Z) : MboxEnd end_state :=
  mbox_end false (qdma_mbox_pf_rcv_msg_handler dma_device_index).
Definition vf_end : MboxEnd end_state := mbox_end true (λ _, qdma_mbox_vf_rcv_msg_handler).
End ends.

(** ** The monad *)

Definition xm (E A : Type) : Type := qdma_mbox E → option (A * qdma_mbox E).
#[export] Instance xm_ret {E} : MRet (xm E) := λ A a s, Some (a, s).
#[export] Instance xm_bind {E} : MBind (xm E) := λ A B k m s,
  match m s with
  | Some (a, s) => k a s
  | None => None
  end.

Section prim.
Context {E : Type}.

Definition xfail {A} : xm E A := λ _, None.
Definition xget : xm E (qdma_mbox E) := λ s, Some (s, s).
Definition xmod (f : qdma_mbox E → qdma_mbox E) : xm E unit := λ s, Some (tt, f s).
Definition xlift {A} (o : option A) : xm E A := λ s, a ← o; Some (a, s).
Definition xevent (e : mbox_event) : xm E unit := xmod (λ s, s <| mx_ev := mx_ev s ++ [e] |>).
Definition xenv {A} (f : E → option (A * E)) : xm E A := λ s,
  '(a, e) ← f (mx_env s); Some (a, s <| mx_env := e |>).
Definition xenv_ (f : E → option E) : xm E unit := λ s,
  e ← f (mx_env s); Some (tt, s <| mx_env := e |>).

(** A message that is allocated. *)
Definition getm (m : Z) : xm E mbox_msg := λ s, x ← mx_msgs s !! m; Some (x, s).
Definition modm (m : Z) (f : mbox_msg → mbox_msg) : xm E unit :=
  x ← getm m; xmod (λ s, s <| mx_msgs := <[m := f x]> (mx_msgs s) |>).

Definition on_lists (m : Z) (s : qdma_mbox E) : bool :=
  bool_decide (m ∈ mx_tx_todo_list s) || bool_decide (m ∈ mx_rx_pend_list s).

(** [list_del(&m->list)]: the entry is on one of the lists. *)
Definition list_del (m : Z) : xm E unit :=
  getm m;;
  s ← xget;
  if on_lists m s then
    xmod (λ s, s <| mx_tx_todo_list := filter (λ x, x ≠ m) (mx_tx_todo_list s) |>
                 <| mx_rx_pend_list := filter (λ x, x ≠ m) (mx_rx_pend_list s) |>)
  else xfail.
Definition todo_add_tail (m : Z) : xm E unit :=
  getm m;;
  s ← xget;
  if on_lists m s then xfail
  else xmod (λ s, s <| mx_tx_todo_list := mx_tx_todo_list s ++ [m] |>).
Definition pend_add_tail (m : Z) : xm E unit :=
  getm m;;
  s ← xget;
  if on_lists m s then xfail
  else xmod (λ s, s <| mx_rx_pend_list := mx_rx_pend_list s ++ [m] |>).
End prim.

(** ** Messages *)

Section transport.
Context {E : Type} `{ME : !MboxEnd E}.
(** The bytes of an allocation behind [m->raw]; the declared array has 128. *)
Context (raw_size : nat).

(** The kref of a message is 1 from its allocation to its release. *)
Definition qdma_mbox_msg_alloc : xm E (option Z) :=
  s ← xget;
  let '(ok, mm) := qdma_calloc (mx_mem s) in
  xmod (λ s, s <| mx_mem := mm |>);;
  if ok then
    let m := mx_next s in
    xmod (λ s, s <| mx_next := m + 1 |>
                 <| mx_msgs := <[m := mk_mbox_msg false false 0 (replicate raw_size 0)]> (mx_msgs s) |>);;
    mret (Some m)
  else mret None.
Definition qdma_mbox_msg_free (m : Z) : xm E unit :=
  getm m;; xmod (λ s, s <| mx_msgs := delete m (mx_msgs s) |>).

(** qdma_mbox_msg_send up to the wait; [None] is "the caller waits". *)
Definition qdma_mbox_msg_send (m : Z) (wait_resp : bool) (timeout_ms : Z) : xm E (option Z) :=
  modm m (λ x, x <| m_resp_op_matched := false |> <| m_wait_resp := wait_resp |>
                 <| m_retry_cnt := u16 (timeout_ms / 1000 + 1) |>);;
  s ← xget;
  if me_is_vf && bool_decide (mx_reset_state s = RESET_STATE_INVALID) then mret (Some (- EINVAL))
  else
    todo_add_tail m;;
    x ← getm m;
    xevent (EvQueue m (m_raw x));;
    xmod (λ s, s <| mx_tx_work := true |>);;
    if wait_resp then mret None else mret (Some 0).

(** The wait is over, because the answer is there, the time is up or a signal
    came: [true] when the answer is there. *)
Definition msg_wait_over (m : Z) : xm E bool := x ← getm m; mret (m_resp_op_matched x).
(** The rest of the function when it is not. *)
Definition msg_give_up (m : Z) : xm E Z :=
  s ← xget;
  (if bool_decide (m ∈ mx_tx_todo_list s) then xevent (EvLost m) else mret tt);;
  list_del m;; mret (- EPIPE).

(** ** Sending *)

Inductive wpc :=
  | WIdle
  | WTxTop
  | WTxSend (m : Z)
  | WTxDone (m : Z)
  | WTxAnswer (m : Z)
  | WTxFail (m : Z)
  | WRxTop
  | WRxMsg
  | WRxHandle (m_snd : option Z)
  | WRxGive (m_snd : option Z)
  | WRxEnd (rv : Z).

(** mbox_tx_work.  The loop takes the first entry under the lock ... *)
Definition tx_first : xm E wpc :=
  s ← xget; mret (match mx_tx_todo_list s with [] => WIdle | m :: _ => WTxSend m end).

(** ... gives it to the hardware ... *)
Definition tx_hw_send (m : Z) : xm E wpc :=
  x ← getm m;
  rv ← xenv (me_send (m_raw x));
  if rv =? 0 then xevent (EvSend m (m_raw x));; mret (WTxDone m) else mret (WTxFail m).

(** ... takes it from the list under the lock ... *)
Definition tx_unlink (m : Z) : xm E wpc :=
  xmod (λ s, s <| mx_send_busy := false |>);; list_del m;; mret (WTxAnswer m).

(** ... and frees it or, under the lock again, lets it wait for the answer. *)
Definition tx_answer (m : Z) : xm E wpc :=
  x ← getm m;
  (if m_wait_resp x then pend_add_tail m else qdma_mbox_msg_free m);; mret WTxTop.

(** The hardware is busy: try again with the timer, messages without answer a
    limited number of times. *)
Definition tx_busy (m : Z) : xm E wpc :=
  s ← xget;
  if negb (mx_offline s) then
    x ← getm m;
    let later :=
      xmod (λ s, s <| mx_send_busy := true |> <| mx_timer := true |>);; mret WIdle in
    if m_wait_resp x then later
    else
      modm m (λ x, x <| m_retry_cnt := u16 (m_retry_cnt x - 1) |>);;
      if u16 (m_retry_cnt x - 1) =? 0 then
        xevent (EvLost m);; list_del m;; qdma_mbox_msg_free m;; mret WIdle
      else later
  else qdma_mbox_msg_free m;; mret WIdle.

(** ** Receiving *)

(** [memcpy(m_snd->raw, m_rcv->raw, MBOX_MSG_REG_MAX * sizeof(uint32_t))] *)
Definition copy_words (from to : buf) : buf := put_bytes 0 (take wire_size from) to.

(** The first entry of the pending list the message answers. *)
Fixpoint find_request (rcv : buf) (l : list Z) : xm E (option Z) :=
  match l with
  | [] => mret None
  | m :: l =>
      x ← getm m;
      b ← xlift (qdma_mbox_is_msg_response (m_raw x) rcv);
      if b : bool then modm m (λ x, x <| m_resp_op_matched := true |>);; mret (Some m)
      else find_request rcv l
  end.

Definition give_answer (m : Z) : xm E unit :=
  list_del m;;
  s ← xget;
  modm m (λ x, x <| m_raw := copy_words (mx_rx s) (m_raw x) |>);;
  xevent (EvAnswer m (mx_rx s)).

(** mbox_rcv_one_msg of a virtual function: under the lock ... *)
Definition rcv_one_vf : xm E wpc :=
  s ← xget;
  (if mx_func_id s =? mx_func_id_parent s then
     '(f, _) ← xlift (qdma_mbox_vf_func_id_get true (mx_rx s));
     '(p, _) ← xlift (qdma_mbox_vf_parent_func_id_get (mx_rx s));
     xmod (λ s, s <| mx_func_id := f |> <| mx_func_id_parent := p |>)
   else mret tt);;
  m_snd ← find_request (mx_rx s) (mx_rx_pend_list s);
  mret (WRxHandle m_snd).

(** The handler on the received message and the buffer of the response. *)
Definition call_handler (m_resp : Z) : xm E Z :=
  s ← xget;
  r ← getm m_resp;
  '(rv, (b, b')) ← xenv (me_handle (mx_func_id s) (mx_rx s) (m_raw r));
  xmod (λ s, s <| mx_rx := b |>);;
  modm m_resp (λ x, x <| m_raw := b' |>);;
  mret rv.

Definition set_reset_state (r : reset_state_t) : xm E unit := xmod (λ s, s <| mx_reset_state := r |>).
Definition send_response (m_resp : Z) : xm E unit :=
  qdma_mbox_msg_send m_resp false QDMA_MBOX_MSG_TIMEOUT_MS;; mret tt.

(** ... without it, when no request is pending, the message is a request of
    the physical function ... *)
Definition rcv_handle_vf (m_snd : option Z) : xm E wpc :=
  s ← xget;
  match mx_rx_pend_list s with
  | _ :: _ => mret (WRxGive m_snd)
  | [] =>
      m_resp ← qdma_mbox_msg_alloc;
      match m_resp with
      | None => mret WRxTop
      | Some m_resp =>
          rv ← call_handler m_resp;
          (if rv =? QDMA_MBOX_VF_RESET then
             send_response m_resp;; set_reset_state RESET_STATE_RECV_PF_RESET_REQ;; xevent EvResetWork
           else if rv =? QDMA_MBOX_PF_RESET_DONE then
             set_reset_state RESET_STATE_RECV_PF_RESET_DONE;; xevent EvVfWake;; send_response m_resp
           else if rv =? QDMA_MBOX_PF_BYE then
             send_response m_resp;; set_reset_state RESET_STATE_RECV_PF_OFFLINE_REQ;; xevent EvResetWork
           else mret tt);;
          mret (WRxGive m_snd)
      end
  end.

(** ... and under it again the request gets its answer. *)
Definition rcv_give_vf (m_snd : option Z) : xm E wpc :=
  match m_snd with Some m => give_answer m | None => mret tt end;; mret WRxTop.

(** *** The virtual functions of a physical function (qdma_sriov.c) *)

Definition xdev_sriov_vf_offline (func_id : Z) : xm E unit :=
  xmod (λ s, s <| mx_vf_count_online := u8 (mx_vf_count_online s - 1) |>
    <| mx_vf_info := map (λ vf, if vi_func_id vf =? func_id then
           mk_vf_info (if bool_decide (mx_reset_state s = RESET_STATE_IDLE)
                       then QDMA_FUNC_ID_INVALID else vi_func_id vf) 0 0
         else vf) (mx_vf_info s) |>);;
  xevent EvVfWake.

(** The first free slot. *)
Fixpoint vf_take_slot (func_id : Z) (l : list qdma_vf_info) : option (list qdma_vf_info) :=
  match l with
  | [] => None
  | vf :: l =>
      if vi_func_id vf =? QDMA_FUNC_ID_INVALID
      then Some (mk_vf_info func_id (vi_qbase vf) (vi_qmax vf) :: l)
      else cons vf <$> vf_take_slot func_id l
  end.
Definition xdev_sriov_vf_online (func_id : Z) : xm E Z :=
  xmod (λ s, s <| mx_vf_count_online := u8 (mx_vf_count_online s + 1) |>);;
  s ← xget;
  if bool_decide (mx_reset_state s = RESET_STATE_IDLE) then
    match vf_take_slot func_id (mx_vf_info s) with
    | Some l => xmod (λ s, s <| mx_vf_info := l |>);; mret 0
    | None => xevent EvVfWake;; mret (- EINVAL)
    end
  else mret 0.
Definition xdev_sriov_vf_fmap (func_id qbase qmax : Z) : xm E Z :=
  s ← xget;
  match list_find (λ vf, vi_func_id vf = func_id) (mx_vf_info s) with
  | Some (i, vf) =>
      xmod (λ s, s <| mx_vf_info := <[i := mk_vf_info (vi_func_id vf) (u16 qbase) (u16 qmax)]>
                                      (mx_vf_info s) |>);; mret 0
  | None => mret (- EINVAL)
  end.

(** mbox_rcv_one_msg of a physical function. *)
Definition rcv_one_pf : xm E wpc :=
  m_resp ← qdma_mbox_msg_alloc;
  match m_resp with
  | None => mret WRxTop
  | Some m_resp =>
      rv ← call_handler m_resp;
      s ← xget;
      (if (rv =? QDMA_MBOX_VF_OFFLINE) || (rv =? QDMA_MBOX_VF_RESET_BYE) then
         '(vf_func_id, _) ← xlift (qdma_mbox_vf_func_id_get false (mx_rx s));
         xdev_sriov_vf_offline vf_func_id;;
         if rv =? QDMA_MBOX_VF_RESET_BYE then send_response m_resp else qdma_mbox_msg_free m_resp
       else if rv =? QDMA_MBOX_VF_ONLINE then
         '(vf_func_id, _) ← xlift (qdma_mbox_vf_func_id_get false (mx_rx s));
         xdev_sriov_vf_online vf_func_id;; send_response m_resp
       else if (rv =? QDMA_MBOX_VF_RESET) || (rv =? QDMA_MBOX_PF_RESET_DONE)
               || (rv =? QDMA_MBOX_PF_BYE) then
         m_snd ← find_request (mx_rx s) (mx_rx_pend_list s);
         match m_snd with
         | Some m => give_answer m;; qdma_mbox_msg_free m
         | None => mret tt
         end;;
         qdma_mbox_msg_free m_resp
       else send_response m_resp);;
      mret WRxTop
  end.

(** mbox_rx_work: the head of its loop, with mbox_hw_rcv ... *)
Definition rx_hw_rcv : xm E wpc :=
  xmod (λ s, s <| mx_rx := put_bytes 0 (replicate wire_size 0) (mx_rx s) |>);;
  s ← xget;
  '(rv, b) ← xenv (me_rcv (mx_rx s));
  xmod (λ s, s <| mx_rx := b |>);;
  if rv =? 0 then
    if mx_offline s then mret (WRxEnd rv) else xevent (EvRcv b);; mret WRxMsg
  else mret (WRxEnd rv).

(** ... and what follows it. *)
Definition rx_end (rv : Z) : xm E wpc :=
  s ← xget;
  let mbox_stop :=
    if rv =? ERR QDMA_ERR_MBOX_ALL_ZERO_MSG then
      if me_is_vf then bool_decide (mx_reset_state s = RESET_STATE_IDLE) else true
    else mx_offline s in
  (if mx_rx_poll s then xmod (λ s, s <| mx_timer := negb mbox_stop |>)
   else if mbox_stop then xenv_ me_disable_interrupts else mret tt);;
  mret WIdle.

(** What the work queue does next, from [WIdle] the item that is queued. *)
Definition work_step (w : wpc) : xm E wpc :=
  match w with
  | WIdle =>
      s ← xget;
      if mx_tx_work s then xmod (λ s, s <| mx_tx_work := false |>);; mret WTxTop
      else if mx_rx_work s then xmod (λ s, s <| mx_rx_work := false |>);; mret WRxTop
      else mret WIdle
  | WTxTop => tx_first
  | WTxSend m => tx_hw_send m
  | WTxDone m => tx_unlink m
  | WTxAnswer m => tx_answer m
  | WTxFail m => tx_busy m
  | WRxTop => rx_hw_rcv
  | WRxMsg => if me_is_vf then rcv_one_vf else rcv_one_pf
  | WRxHandle m_snd => rcv_handle_vf m_snd
  | WRxGive m_snd => rcv_give_vf m_snd
  | WRxEnd rv => rx_end rv
  end.

(** ** Timer, interrupt, start and stop *)

Definition mbox_timer_handler : xm E unit :=
  xmod (λ s, s <| mx_timer := false |> <| mx_rx_work := mx_rx_work s || mx_rx_poll s |>
               <| mx_tx_work := mx_tx_work s || mx_send_busy s |>).
Definition mbox_intr_handler : xm E unit := xmod (λ s, s <| mx_rx_work := true |>).

Definition mailbox_off (mailbox_en : bool) : bool := negb me_is_vf && negb mailbox_en.

Definition qdma_mbox_start (mailbox_en : bool) : xm E unit :=
  if mailbox_off mailbox_en then mret tt
  else
    s ← xget;
    if mx_rx_poll s then xmod (λ s, s <| mx_timer := true |>) else xenv_ me_enable_interrupts.
Definition qdma_mbox_poll_start (mailbox_en : bool) : xm E unit :=
  if mailbox_off mailbox_en then mret tt
  else
    xmod (λ s, s <| mx_rx_poll := true |>);; xenv_ me_disable_interrupts;;
    xmod (λ s, s <| mx_timer := true |>).

(** The loop that waits until the hardware has taken the last message. *)
Fixpoint stop_wait (retry_count : nat) : xm E unit :=
  match retry_count with
  | O => mret tt
  | S n => rv ← xenv me_out_status; if rv =? 0 then mret tt else stop_wait n
  end.
(** [false]: messages are left to be sent and the function goes on waiting. *)
Definition qdma_mbox_stop (mailbox_en irq_available : bool) : xm E bool :=
  if mailbox_off mailbox_en then mret true
  else
    s ← xget;
    match mx_tx_todo_list s with
    | _ :: _ => mret false
    | [] =>
        stop_wait 100;;
        xmod (λ s, s <| mx_timer := false |>);;
        (if irq_available && negb (mx_rx_poll s) then xenv_ me_disable_interrupts else mret tt);;
        mret true
    end.

(** qdma_mbox_cleanup up to the flush of the work queue. *)
Definition qdma_mbox_cleanup : xm E unit :=
  xmod (λ s, s <| mx_timer := false |>);;
  s ← xget;
  if mx_rx_poll s then mret tt else xenv_ me_disable_interrupts.

(** Read and discard what is in the incoming message buffer, [n] times. *)
Fixpoint discard (n : nat) (b : buf) : xm E unit :=
  match n with
  | O => mret tt
  | S n => '(_, b) ← xenv (me_rcv (put_bytes 0 (replicate wire_size 0) b)); discard n b
  end.
(** qdma_mbox_init with a work queue. *)
Definition qdma_mbox_init (irq_available : bool) (mode : qdma_drv_mode_t) : xm E Z :=
  xmod (λ s, s <| mx_tx_todo_list := [] |> <| mx_rx_pend_list := [] |>);;
  discard (if me_is_vf then 1 else 256)%nat (replicate raw_size 0);;
  xenv_ me_hw_init;;
  (if irq_available && negb (bool_decide (mode = POLL_MODE)) && negb (bool_decide (mode = LEGACY_INTR_MODE))
   then xmod (λ s, s <| mx_rx_poll := false |>);; xenv_ me_enable_interrupts
   else xmod (λ s, s <| mx_rx_poll := true |>));;
  mret 0.
End transport.

(** ** The threads together *)

(** The thread that owns or sent a message: it composes the message, waits for
    the answer, has found that there is none, or is back from the call. *)
Inductive sender := SOwn | SWait | SGiveUp | SBack (rv : Z).
#[export] Instance sender_eq : EqDecision sender.
Proof. solve_decision. Defined.

Record msys (E : Type) := mk_msys { sy_mbox : qdma_mbox E; sy_work : wpc; sy_snd : gmap Z sender }.
Arguments mk_msys {E} _ _ _.
Arguments sy_mbox {E} _.
Arguments sy_work {E} _.
Arguments sy_snd {E} _.

(** What may happen next: a caller allocates and composes a message, sends it,
    stops waiting, gives up, frees the message; the work queue does its next
    piece of work; timer and interrupt. *)
Inductive mact :=
  | ANew (raw : buf)
  | ASend (m : Z) (wait_resp : bool) (timeout_ms : Z)
  | AWaitOver (m : Z)
  | AGiveUp (m : Z)
  | AFree (m : Z)
  | AWork
  | ATimer
  | AIrq.

Section system.
Context {E : Type} `{ME : !MboxEnd E} (raw_size : nat).

Definition enabled (a : mact) (s : msys E) : Prop :=
  match a with
  | ANew raw => length raw = raw_size
  | ASend m _ _ => sy_snd s !! m = Some SOwn
  | AWaitOver m => sy_snd s !! m = Some SWait
  | AGiveUp m => sy_snd s !! m = Some SGiveUp
  | AFree m => sy_snd s !! m = Some SOwn ∨ ∃ rv, sy_snd s !! m = Some (SBack rv)
  | AWork => True
  | ATimer => mx_timer (sy_mbox s) = true
  | AIrq => True
  end.

(** Run a piece of code on the mailbox. *)
Definition on_mbox {A} (m : xm E A) (s : msys E) (k : A → qdma_mbox E → msys E) : option (msys E) :=
  '(a, x) ← m (sy_mbox s); Some (k a x).

Definition set_snd (m : Z) (o : option sender) (s : msys E) (x : qdma_mbox E) : msys E :=
  mk_msys x (sy_work s) (match o with Some t => <[m := t]> (sy_snd s) | None => delete m (sy_snd s) end).

Definition mstep (a : mact) (s : msys E) : option (msys E) :=
  match a with
  | ANew raw =>
      on_mbox (m ← qdma_mbox_msg_alloc raw_size;
               match m with Some m => modm m (λ x, x <| m_raw := raw |>);; mret (Some m) | None => mret None end) s
        (λ m x, match m with Some m => set_snd m (Some SOwn) s x | None => mk_msys x (sy_work s) (sy_snd s) end)
  | ASend m w t =>
      on_mbox (rv ← qdma_mbox_msg_send m w t;
               match rv with Some rv => xevent (EvBack m rv) | None => mret tt end;; mret rv) s
        (λ rv x, set_snd m (match rv with
                            | None => Some SWait
                            | Some rv => if rv =? 0 then None else Some (SBack rv)
                            end) s x)
  | AWaitOver m =>
      on_mbox (b ← msg_wait_over m; (if b : bool then xevent (EvBack m 0) else mret tt);; mret b) s
        (λ b x, set_snd m (Some (if b : bool then SBack 0 else SGiveUp)) s x)
  | AGiveUp m => on_mbox (rv ← msg_give_up m; xevent (EvBack m rv);; mret rv) s (λ rv x, set_snd m (Some (SBack rv)) s x)
  | AFree m => on_mbox (qdma_mbox_msg_free m) s (λ _ x, set_snd m None s x)
  | AWork => on_mbox (work_step raw_size (sy_work s)) s (λ w x, mk_msys x w (sy_snd s))
  | ATimer => on_mbox mbox_timer_handler s (λ _ x, mk_msys x (sy_work s) (sy_snd s))
  | AIrq => on_mbox mbox_intr_handler s (λ _ x, mk_msys x (sy_work s) (sy_snd s))
  end.

Fixpoint msteps (l : list mact) (s : msys E) : option (msys E) :=
  match l with
  | [] => Some s
  | a :: l => s ← mstep a s; msteps l s
  end.
End system.
