(* ===== verification/MboxQueueInv.v ===== *)
(** * The mailbox queues: invariant

    Where a message may be, given what its sender and the work queue do with
    it, and what the lists and the log of events have to do with each other. *)

From S2P Require Import Prelude Platform RegIO ResMgmt SoftAccess HwAccess QueueTypes.
From S2P Require Import MboxMsg MboxStruct MboxCompose MboxHandler MboxIO MboxQueue.

(** What the hardware and the handler promise: sending and receiving return,
    the handler returns for the messages in [me_ok], buffers keep their size. *)
Class MboxEndOk (E : Type) `{MboxEnd E} (raw_size : nat) := {
  me_inv : E → Prop;
  me_ok : buf → Prop;
  me_raw_size : (wire_size ≤ raw_size)%nat;
  me_send_ok raw e : me_inv e → length raw = raw_size →
    ∃ rv e', me_send raw e = Some (rv, e') ∧ me_inv e';
  me_rcv_ok raw e : me_inv e → length raw = raw_size →
    ∃ rv b e', me_rcv raw e = Some ((rv, b), e') ∧ length b = raw_size ∧ me_inv e';
  me_handle_ok fid b b' e : me_inv e → length b = raw_size → length b' = raw_size → me_ok b →
    ∃ rv c c' e', me_handle fid b b' e = Some ((rv, (c, c')), e') ∧
      length c = raw_size ∧ length c' = raw_size ∧ me_inv e';
  me_disable_ok e : me_inv e → ∃ e', me_disable_interrupts e = Some e' ∧ me_inv e';
}.

(** ** Events *)

Definition queued (ev : list mbox_event) : list Z :=
  omap (λ e, match e with EvQueue m _ => Some m | _ => None end) ev.
Definition sent (ev : list mbox_event) : list Z :=
  omap (λ e, match e with EvSend m _ => Some m | _ => None end) ev.
Definition lost (ev : list mbox_event) : list Z :=
  omap (λ e, match e with EvLost m => Some m | _ => None end) ev.
Definition received (ev : list mbox_event) : list buf :=
  omap (λ e, match e with EvRcv b => Some b | _ => None end) ev.
Definition answers (ev : list mbox_event) : list buf :=
  omap (λ e, match e with EvAnswer _ b => Some b | _ => None end) ev.

(** The message [y] of [m] holds an answer to the request that was queued. *)
Definition answered (ev : list mbox_event) (m : Z) (y : mbox_msg) : Prop :=
  ∃ req b, EvQueue m req ∈ ev ∧ EvRcv b ∈ ev ∧ qdma_mbox_is_msg_response req b = Some true ∧
    m_raw y = copy_words b req.

Lemma answered_app ev ev' m y : answered ev m y → answered (ev ++ ev') m y.
Proof.
  intros (req & b & ? & ? & ? & ?). exists req, b. by rewrite !elem_of_app; auto.
Qed.

(** ** A message in the system *)

(** What the work queue does with a message: it sends it, has sent it and
    taken it from the list, has found it to be the request of an answer. *)
Inductive role := RNone | RTx | RAnswer | RRx.
#[export] Instance role_eq : EqDecision role.
Proof. solve_decision. Defined.

Definition role_of (w : wpc) (m : Z) : role :=
  match w with
  | WTxSend m' | WTxDone m' | WTxFail m' => if decide (m = m') then RTx else RNone
  | WTxAnswer m' => if decide (m = m') then RAnswer else RNone
  | WRxHandle (Some m') | WRxGive (Some m') => if decide (m = m') then RRx else RNone
  | _ => RNone
  end.
Definition hand (w : wpc) : option Z :=
  match w with
  | WTxSend m | WTxDone m | WTxFail m | WTxAnswer m => Some m
  | WRxHandle o | WRxGive o => o
  | _ => None
  end.

Lemma role_hand w m : hand w ≠ Some m → role_of w m = RNone.
Proof. by destruct w as [| | | | | | | |[]|[]|]; cbn; intros Hm; try (rewrite decide_False by congruence). Qed.
Lemma hand_role w m : hand w = Some m → role_of w m ≠ RNone.
Proof. destruct w as [| | | | | | | |[]|[]|]; cbn; intros [= ->]; by rewrite decide_True. Qed.

Record mview := mk_view {
  v_msg : option mbox_msg; v_todo : bool; v_pend : bool; v_role : role; v_snd : option sender;
}.
Definition view_of (msgs : gmap Z mbox_msg) (todo pend : list Z) (w : wpc) (snd : gmap Z sender)
    (m : Z) : mview :=
  mk_view (msgs !! m) (bool_decide (m ∈ todo)) (bool_decide (m ∈ pend)) (role_of w m) (snd !! m).

Definition unlinked (v : mview) : Prop := v_todo v = false ∧ v_pend v = false ∧ v_role v = RNone.

Section view.
Context (raw_size : nat).

Definition wait_ok (ev : list mbox_event) (m : Z) (y : mbox_msg) (v : mview) : Prop :=
  m_wait_resp y = true ∧
  match v_role v with
  | RNone => if m_resp_op_matched y then unlinked v ∧ answered ev m y
             else v_todo v = negb (v_pend v) ∧ EvQueue m (m_raw y) ∈ ev
  | RTx => v_todo v = true ∧ v_pend v = false ∧ m_resp_op_matched y = false ∧ EvQueue m (m_raw y) ∈ ev
  | RAnswer => v_todo v = false ∧ v_pend v = false ∧ m_resp_op_matched y = false ∧ EvQueue m (m_raw y) ∈ ev
  | RRx => v_todo v = false ∧ v_pend v = true ∧ m_resp_op_matched y = true ∧ EvQueue m (m_raw y) ∈ ev
  end.

(** A message that is nobody's and not in use has leaked. *)
Definition async_ok (ev : list mbox_event) (m : Z) (y : mbox_msg) (v : mview) : Prop :=
  unlinked v ∨
  m_wait_resp y = false ∧ v_pend v = false ∧ EvQueue m (m_raw y) ∈ ev ∧
  match v_role v with RNone | RTx => v_todo v = true | RAnswer => v_todo v = false | RRx => False end.

Definition msg_ok (ev : list mbox_event) (m : Z) (v : mview) : Prop :=
  match v_msg v with
  | None => unlinked v ∧ v_snd v = None
  | Some y =>
      length (m_raw y) = raw_size ∧
      match v_snd v with
      | Some SOwn => unlinked v ∧ m ∉ queued ev
      | Some (SBack rv) => unlinked v ∧ (rv = 0 → answered ev m y)
      | Some SWait => wait_ok ev m y v
      | Some SGiveUp => m_wait_resp y = true ∧ m_resp_op_matched y = false ∧ v_role v = RNone ∧
          v_todo v = negb (v_pend v) ∧ EvQueue m (m_raw y) ∈ ev
      | None => async_ok ev m y v
      end
  end.

(** New events do not matter, unless they queue the message. *)
Lemma msg_ok_app ev ev' m v : m ∉ queued ev' → msg_ok ev m v → msg_ok (ev ++ ev') m v.
Proof.
  intros Hn. unfold msg_ok. destruct (v_msg v) as [y|]; [|done]. intros [Hl Hs]. split; [done|].
  assert (Hq : ∀ r, EvQueue m r ∈ ev → EvQueue m r ∈ ev ++ ev') by (intros; apply elem_of_app; by left).
  destruct (v_snd v) as [[]|].
  - destruct Hs as [? Hs]. split; [done|]. unfold queued. rewrite omap_app, elem_of_app.
    unfold queued in Hn. tauto.
  - destruct Hs as [? Hs]. split; [done|].
    destruct (v_role v).
    + destruct (m_resp_op_matched y); [|naive_solver]. destruct Hs. split; [done|]. by apply answered_app.
    + naive_solver.
    + naive_solver.
    + naive_solver.
  - naive_solver.
  - destruct Hs as [? Hs]. split; [done|]. intros Hr. by apply answered_app, Hs.
  - destruct Hs as [Hs|Hs]; [by left|]. right. naive_solver.
Qed.

(** ** The invariant *)

(** The messages of the list that are not sent yet. *)
Definition unsent (w : wpc) (todo : list Z) : list Z :=
  match w with WTxDone _ => tail todo | _ => todo end.

(** The work queue holds a message it has received and not yet handled. *)
Definition holding (w : wpc) : bool :=
  match w with WRxMsg | WRxHandle (Some _) | WRxGive (Some _) => true | _ => false end.

Record minv_c (msgs : gmap Z mbox_msg) (next : Z) (todo pend : list Z) (rx : buf)
    (ev : list mbox_event) (w : wpc) (snd : gmap Z sender) : Prop := {
  mi_todo : NoDup todo;
  mi_pend : NoDup pend;
  mi_msg m : msg_ok ev m (view_of msgs todo pend w snd m);
  mi_next m : is_Some (msgs !! m) ∨ m ∈ queued ev → m < next;
  mi_head m : role_of w m = RTx → head todo = Some m;
  mi_rxm m y : role_of w m = RRx → msgs !! m = Some y → qdma_mbox_is_msg_response (m_raw y) rx = Some true;
  mi_rx : length rx = raw_size;
  mi_queued : NoDup (queued ev);
  mi_lost m : m ∈ lost ev → m ∈ queued ev;
  mi_fifo : sent ev ++ unsent w todo = filter (λ m, m ∉ lost ev) (queued ev);
  mi_answers : (answers ev ++ (if holding w then [rx] else [])) `sublist_of` received ev;
}.
End view.

(** ** Keeping the invariant *)

Ltac ev_simpl :=
  unfold queued, sent, lost, received, answers in *;
  rewrite ?omap_app; cbn [omap list_omap]; rewrite ?app_nil_r.

Lemma head_filter_ne {A} `{EqDecision A} (l : list A) (m m' : A) :
  head l = Some m → m ≠ m' → head (filter (λ x, x ≠ m') l) = Some m.
Proof. destruct l as [|x l]; [done|]. intros [= ->] Hne. by rewrite filter_cons_True. Qed.

Lemma elem_of_filter_ne {A} `{EqDecision A} (l : list A) (m m' : A) :
  m ≠ m' → m ∈ filter (λ x, x ≠ m') l ↔ m ∈ l.
Proof. intros Hm. rewrite list_elem_of_filter. naive_solver. Qed.

Lemma notin_filter_ne {A} `{EqDecision A} (l : list A) (m : A) :
  m ∉ l → filter (λ x, x ≠ m) l = l.
Proof.
  induction l as [|x l IH]; [done|]. rewrite not_elem_of_cons. intros [? ?].
  rewrite filter_cons_True by congruence. by rewrite IH.
Qed.

Section keep.
Context {raw_size : nat}.
Notation minv_c := (minv_c raw_size).
Notation msg_ok := (msg_ok raw_size).
Implicit Types (msgs : gmap Z mbox_msg) (snd : gmap Z sender) (ev : list mbox_event).

Lemma view_eq msgs msgs' todo todo' pend pend' w w' snd snd' m :
  msgs' !! m = msgs !! m → (m ∈ todo' ↔ m ∈ todo) → (m ∈ pend' ↔ m ∈ pend) →
  role_of w' m = role_of w m → snd' !! m = snd !! m →
  view_of msgs' todo' pend' w' snd' m = view_of msgs todo pend w snd m.
Proof using.
  intros Hm Ht Hp Hr Hs. unfold view_of.
  by rewrite Hm, Hr, Hs, (bool_decide_ext _ _ Ht), (bool_decide_ext _ _ Hp).
Qed.

(** A step that concerns one message. *)
Lemma msgs_frame msgs msgs' todo todo' pend pend' w w' snd snd' ev new m0 :
  (∀ m, msg_ok ev m (view_of msgs todo pend w snd m)) →
  (∀ m, m ≠ m0 → msgs' !! m = msgs !! m ∧ (m ∈ todo' ↔ m ∈ todo) ∧ (m ∈ pend' ↔ m ∈ pend) ∧
     role_of w' m = role_of w m ∧ snd' !! m = snd !! m ∧ m ∉ queued new) →
  msg_ok (ev ++ new) m0 (view_of msgs' todo' pend' w' snd' m0) →
  ∀ m, msg_ok (ev ++ new) m (view_of msgs' todo' pend' w' snd' m).
Proof using.
  intros Hok Ho H0 m. destruct (decide (m = m0)) as [->|Hne]; [done|].
  destruct (Ho m Hne) as (? & ? & ? & ? & ? & ?).
  rewrite (view_eq msgs _ todo _ pend _ w _ snd) by done. by apply msg_ok_app.
Qed.

(** What the invariant says about one message. *)
Lemma view_linked msgs next todo pend rx ev w snd m :
  minv_c msgs next todo pend rx ev w snd → m ∈ todo ∨ m ∈ pend ∨ role_of w m ≠ RNone ∨ is_Some (snd !! m) →
  ∃ y, msgs !! m = Some y ∧ length (m_raw y) = raw_size.
Proof using.
  intros HI Hl. pose proof (mi_msg _ _ _ _ _ _ _ _ _ HI m) as Hm. unfold MboxQueueInv.msg_ok, view_of in Hm; cbn in Hm.
  destruct (msgs !! m) as [y|]; [by exists y; destruct Hm|]. destruct Hm as [(H1 & H2 & H3) H4]; cbn in *.
  apply bool_decide_eq_false in H1, H2. rewrite H4 in Hl. destruct Hl as [?|[?|[?|[? ?]]]]; done.
Qed.

(** Work and events that touch no message. *)
Lemma keep_work msgs next todo pend rx ev w snd w' rx' new :
  minv_c msgs next todo pend rx ev w snd →
  (∀ m, role_of w m = role_of w' m) → (∀ m, role_of w' m ≠ RRx) → length rx' = raw_size →
  queued new = [] → sent new = [] → lost new = [] → answers new = [] →
  unsent w' todo = unsent w todo → (holding w' = true → received new = [rx']) →
  minv_c msgs next todo pend rx' (ev ++ new) w' snd.
Proof using.
  intros [] Hr Hx Hl Hq Hs Hlo Ha Hu Hh. split; try done.
  - intros m. rewrite (view_eq msgs _ todo _ pend _ w _ snd) by done. apply msg_ok_app; [|done].
    rewrite Hq. apply not_elem_of_nil.
  - intros m. unfold queued in *. rewrite omap_app, Hq, app_nil_r. apply mi_next0.
  - intros m Hm. apply mi_head0. by rewrite Hr.
  - intros m y Hm. by destruct (Hx m).
  - unfold queued in *. by rewrite omap_app, Hq, app_nil_r.
  - intros m. unfold queued, lost in *. rewrite !omap_app, Hq, Hlo, !app_nil_r. apply mi_lost0.
  - unfold queued, sent, lost in *. rewrite !omap_app, Hq, Hlo, Hs, !app_nil_r. by rewrite Hu.
  - unfold answers, received in *. rewrite !omap_app, Ha, app_nil_r.
    assert (Hal : omap (λ e, match e with EvAnswer _ b => Some b | _ => None end) ev `sublist_of`
                  omap (λ e, match e with EvRcv b => Some b | _ => None end) ev).
    { etrans; [|exact mi_answers0]. by apply sublist_inserts_r. }
    destruct (holding w').
    + rewrite Hh by done. by apply sublist_app.
    + rewrite app_nil_r. by apply sublist_inserts_r.
Qed.

(** *** Messages outside the lists *)

(** A message nobody works with. *)
Definition idle_msg (todo pend : list Z) (w : wpc) (m : Z) : Prop :=
  m ∉ todo ∧ m ∉ pend ∧ role_of w m = RNone.

Lemma unlinked_view msgs todo pend w snd m :
  idle_msg todo pend w m ↔ unlinked (view_of msgs todo pend w snd m).
Proof using. unfold idle_msg, unlinked, view_of; cbn. by rewrite !bool_decide_eq_false. Qed.

Lemma free_addr msgs next todo pend rx ev w snd m :
  minv_c msgs next todo pend rx ev w snd → msgs !! m = None →
  idle_msg todo pend w m ∧ snd !! m = None.
Proof using.
  intros HI Hm. pose proof (mi_msg _ _ _ _ _ _ _ _ _ HI m) as Hk. unfold MboxQueueInv.msg_ok in Hk.
  cbn in Hk. rewrite Hm in Hk. destruct Hk as [Hu Hs]. split; [|done]. by eapply unlinked_view.
Qed.

Lemma next_free msgs next todo pend rx ev w snd :
  minv_c msgs next todo pend rx ev w snd → msgs !! next = None ∧ next ∉ queued ev.
Proof using.
  intros HI. pose proof (mi_next _ _ _ _ _ _ _ _ _ HI next) as Hn. split.
  - apply eq_None_not_Some. intros ?. assert (next < next) by auto. lia.
  - intros ?. assert (next < next) by auto. lia.
Qed.

(** Change an idle message and who has it, or free it. *)
Lemma keep_idle msgs next todo pend rx ev w snd m o t :
  minv_c msgs next todo pend rx ev w snd → idle_msg todo pend w m → (is_Some o → m < next) →
  match o with
  | Some y => length (m_raw y) = raw_size ∧
      match t with
      | None => True
      | Some SOwn => m ∉ queued ev
      | Some (SBack rv) => rv = 0 → answered ev m y
      | Some _ => False
      end
  | None => t = None
  end →
  minv_c (partial_alter (λ _, o) m msgs) next todo pend rx ev w (partial_alter (λ _, t) m snd).
Proof using.
  intros [] (Hi1 & Hi2 & Hi3) Hlt Ho. split; try done.
  - rewrite <- (app_nil_r ev). apply (msgs_frame msgs _ todo _ pend _ w _ snd _ _ _ m); [done| |].
    + intros m' Hne. rewrite !lookup_partial_alter_ne by done. repeat split; try done. apply not_elem_of_nil.
    + rewrite app_nil_r. unfold MboxQueueInv.msg_ok, view_of; cbn.
      rewrite !lookup_partial_alter_eq, Hi3, !bool_decide_eq_false_2 by done.
      destruct o as [y|]; [|done]. destruct Ho as [Hl Ht]. split; [done|].
      destruct t as [[]|]; try done; cbn; try (by left); done.
  - intros m'. destruct (decide (m' = m)) as [->|Hne].
    + rewrite lookup_partial_alter_eq. intros [Hs|Hq]; [by apply Hlt|]. apply mi_next0. by right.
    + rewrite lookup_partial_alter_ne by done. apply mi_next0.
  - intros m' y Hr. rewrite lookup_partial_alter_ne by (intros ->; congruence). by apply mi_rxm0.
Qed.

(** A new message. *)
Lemma keep_new msgs next todo pend rx ev w snd y t :
  minv_c msgs next todo pend rx ev w snd → length (m_raw y) = raw_size → t = None ∨ t = Some SOwn →
  minv_c (<[next := y]> msgs) (next + 1) todo pend rx ev w (partial_alter (λ _, t) next snd).
Proof using.
  intros HI Hl Ht. destruct (next_free _ _ _ _ _ _ _ _ HI) as [Hn Hq].
  destruct (free_addr _ _ _ _ _ _ _ _ _ HI Hn) as [Hi Hs].
  assert (HI' : minv_c msgs (next + 1) todo pend rx ev w snd).
  { destruct HI. split; try done. intros m Hm. apply mi_next0 in Hm. lia. }
  apply (keep_idle _ _ _ _ _ _ _ _ next (Some y) t HI' Hi); [intros _; lia|].
  split; [done|]. by destruct Ht as [->| ->].
Qed.

(** Put an idle message on the list of messages to be sent. *)
Lemma keep_enqueue msgs next todo pend rx ev w snd m y :
  minv_c msgs next todo pend rx ev w snd → idle_msg todo pend w m → m < next → m ∉ queued ev →
  length (m_raw y) = raw_size → m_resp_op_matched y = false →
  minv_c (<[m := y]> msgs) next (todo ++ [m]) pend rx (ev ++ [EvQueue m (m_raw y)]) w
    (partial_alter (λ _, if m_wait_resp y then Some SWait else None) m snd).
Proof using.
  intros [] (Hi1 & Hi2 & Hi3) Hlt Hq Hl Hm. split; try done.
  - apply NoDup_app. split; [done|]. split; [|apply NoDup_singleton].
    intros x Hx. rewrite list_elem_of_singleton. by intros ->.
  - apply (msgs_frame msgs _ todo _ pend _ w _ snd _ _ _ m); [done| |].
    + intros m' Hne. rewrite lookup_insert_ne, lookup_partial_alter_ne by done.
      rewrite elem_of_app, list_elem_of_singleton. repeat split; try done; try tauto.
      cbn. by rewrite list_elem_of_singleton.
    + unfold MboxQueueInv.msg_ok, view_of; cbn. rewrite lookup_insert_eq, lookup_partial_alter_eq, Hi3.
      rewrite (bool_decide_eq_true_2 (m ∈ todo ++ [m])) by (apply elem_of_app; right; by apply list_elem_of_singleton).
      rewrite (bool_decide_eq_false_2 (m ∈ pend)) by done. split; [done|].
      assert (EvQueue m (m_raw y) ∈ ev ++ [EvQueue m (m_raw y)]).
      { apply elem_of_app. right. by apply list_elem_of_singleton. }
      destruct (m_wait_resp y) eqn:Hw.
      * split; [done|]. cbn. by rewrite Hm.
      * right. done.
  - intros m'. destruct (decide (m' = m)) as [->|Hne]; [done|]. rewrite lookup_insert_ne by done.
    ev_simpl. rewrite elem_of_app, list_elem_of_singleton. intros [?|[?|?]]; [apply mi_next0; by left|apply mi_next0; by right|done].
  - intros m' Hr. specialize (mi_head0 m' Hr). by destruct todo.
  - intros m' y' Hr. rewrite lookup_insert_ne by (intros ->; congruence). by apply mi_rxm0.
  - ev_simpl. apply NoDup_app. split; [done|]. split; [|apply NoDup_singleton].
    intros x Hx. rewrite list_elem_of_singleton. by intros ->.
  - intros m'. ev_simpl. rewrite elem_of_app. left. by apply mi_lost0.
  - ev_simpl. rewrite filter_app, filter_cons_True, filter_nil by (intros Hlo; by apply Hq, mi_lost0).
    rewrite <- mi_fifo0, <- app_assoc. f_equal. destruct w; try done. cbn.
    specialize (mi_head0 m0). cbn in mi_head0. rewrite decide_True in mi_head0 by done.
    by destruct todo; [specialize (mi_head0 eq_refl)|].
  - ev_simpl. done.
Qed.

(** *** Events that nobody counts *)

Lemma keep_event msgs next todo pend rx ev w snd new :
  minv_c msgs next todo pend rx ev w snd →
  queued new = [] → sent new = [] → lost new = [] → answers new = [] → received new = [] →
  minv_c msgs next todo pend rx (ev ++ new) w snd.
Proof using.
  intros [] Hq Hs Hlo Ha Hrc. split; try done.
  - intros m. apply msg_ok_app; [rewrite Hq; apply not_elem_of_nil|done].
  - intros m. unfold queued in *. rewrite omap_app, Hq, app_nil_r. apply mi_next0.
  - unfold queued in *. by rewrite omap_app, Hq, app_nil_r.
  - intros m. unfold queued, lost in *. rewrite !omap_app, Hq, Hlo, !app_nil_r. apply mi_lost0.
  - unfold queued, sent, lost in *. by rewrite !omap_app, Hq, Hlo, Hs, !app_nil_r.
  - unfold answers, received in *. by rewrite !omap_app, Ha, Hrc, !app_nil_r.
Qed.

(** *** A step of the work queue or the sender with one message *)

Record one_step (m0 : Z) msgs next (todo pend : list Z) (rx : buf) ev (w : wpc) snd
    msgs' (todo' pend' : list Z) new (w' : wpc) snd' : Prop := {
  os_msgs m : m ≠ m0 → msgs' !! m = msgs !! m;
  os_snd m : m ≠ m0 → snd' !! m = snd !! m;
  os_role m : m ≠ m0 → role_of w' m = role_of w m;
  os_todo m : m ≠ m0 → m ∈ todo' ↔ m ∈ todo;
  os_pend m : m ≠ m0 → m ∈ pend' ↔ m ∈ pend;
  os_nodup : NoDup todo → NoDup pend → NoDup todo' ∧ NoDup pend';
  os_ok : msg_ok (ev ++ new) m0 (view_of msgs' todo' pend' w' snd' m0);
  os_next : m0 < next;
  os_head m : role_of w' m = RTx → head todo' = Some m;
  os_rxm m y : role_of w' m = RRx → msgs' !! m = Some y →
    qdma_mbox_is_msg_response (m_raw y) rx = Some true;
  os_queued : queued new = [];
  os_lost : lost new = [] ∨ lost new = [m0] ∧ m0 ∈ queued ev;
  os_fifo : sent (ev ++ new) ++ unsent w' todo' = filter (λ m, m ∉ lost (ev ++ new)) (queued ev);
  os_answers : answers new ++ (if holding w' then [rx] else []) `sublist_of`
               (if holding w then [rx] else []);
  os_received : received new = [];
}.

Lemma keep_one msgs next todo pend rx ev w snd msgs' todo' pend' new w' snd' m0 :
  minv_c msgs next todo pend rx ev w snd →
  one_step m0 msgs next todo pend rx ev w snd msgs' todo' pend' new w' snd' →
  minv_c msgs' next todo' pend' rx (ev ++ new) w' snd'.
Proof using.
  intros [] []. destruct os_nodup0 as [Hnt Hnp]; [done|done|]. split; try done.
  - apply (msgs_frame msgs _ todo _ pend _ w _ snd _ _ _ m0); [done| |done].
    intros m Hne. rewrite os_queued0. repeat split; try by auto.
    + by apply os_todo0.
    + by apply os_todo0.
    + by apply os_pend0.
    + by apply os_pend0.
    + apply not_elem_of_nil.
  - intros m. unfold queued in *. rewrite omap_app, os_queued0, app_nil_r.
    destruct (decide (m = m0)) as [->|Hne]; [done|]. rewrite os_msgs0 by done. apply mi_next0.
  - unfold queued in *. by rewrite omap_app, os_queued0, app_nil_r.
  - intros m. unfold queued, lost in *. rewrite !omap_app, os_queued0, app_nil_r, elem_of_app.
    intros [?|Hm]; [by apply mi_lost0|]. destruct os_lost0 as [Hl|[Hl ?]]; rewrite Hl in Hm.
    + by apply elem_of_nil in Hm.
    + apply list_elem_of_singleton in Hm as ->. done.
  - rewrite os_fifo0. unfold queued in *. by rewrite omap_app, os_queued0, app_nil_r.
  - unfold answers, received in *. rewrite !omap_app, os_received0, app_nil_r, <- app_assoc.
    etrans; [|exact mi_answers0]. by apply sublist_app.
Qed.

(** The message leaves the order of sending. *)
Lemma fifo_lose (se un q lo : list Z) m :
  se ++ un = filter (λ x, x ∉ lo) q → NoDup q → m ∈ un →
  se ++ filter (λ x, x ≠ m) un = filter (λ x, x ∉ lo ++ [m]) q.
Proof using.
  intros Hf Hn Hm. assert (Hnd : NoDup (se ++ un)) by (rewrite Hf; by apply NoDup_filter).
  apply NoDup_app in Hnd as (_ & Hd & _).
  transitivity (filter (λ x, x ≠ m) (se ++ un)).
  - rewrite filter_app, (notin_filter_ne se m); [done|]. intros Hs. by apply (Hd m).
  - rewrite Hf, list_filter_filter. apply list_filter_iff. intros x.
    rewrite elem_of_app, list_elem_of_singleton. naive_solver.
Qed.

Definition sender_stays (snd : gmap Z sender) (m : Z) : Prop := snd !! m = None ∨ snd !! m = Some SWait.

(** What is known about a message the work queue takes or has. *)
Lemma know msgs next todo pend rx ev w snd m :
  minv_c msgs next todo pend rx ev w snd → sender_stays snd m →
  ¬ unlinked (view_of msgs todo pend w snd m) →
  ∃ y, msgs !! m = Some y ∧ length (m_raw y) = raw_size ∧ EvQueue m (m_raw y) ∈ ev ∧
    m_wait_resp y = bool_decide (snd !! m = Some SWait) ∧
    (m_wait_resp y = false → m ∉ pend ∧ role_of w m ≠ RRx) ∧
    match role_of w m with
    | RNone => m_wait_resp y = true → m_resp_op_matched y = false
    | RRx => m_resp_op_matched y = true
    | _ => m_wait_resp y = true → m_resp_op_matched y = false
    end ∧
    match role_of w m with
    | RNone => (m ∈ todo ↔ m ∉ pend)
    | RTx => m ∈ todo ∧ m ∉ pend
    | RAnswer => m ∉ todo ∧ m ∉ pend
    | RRx => m ∉ todo ∧ m ∈ pend
    end.
Proof using.
  intros HI Hs Hu. pose proof (mi_msg _ _ _ _ _ _ _ _ _ HI m) as Hm.
  unfold MboxQueueInv.msg_ok, view_of, wait_ok, async_ok, unlinked in Hm, Hu; cbn in Hm, Hu.
  destruct (msgs !! m) as [y|]; [|tauto]. destruct Hm as [Hl Hm]. exists y. split; [done|]. split; [done|].
  destruct Hs as [Hs|Hs]; rewrite Hs in Hm |- *.
  - destruct Hm as [Hm|(Hw & Hp & Hq & Hr)]; [tauto|]. apply bool_decide_eq_false in Hp.
    rewrite Hw. split; [done|]. split; [done|]. split; [split; [done|by intros Hr'; rewrite Hr' in Hr]|].
    split; [by destruct (role_of w m)|]. destruct (role_of w m); try done.
    + apply bool_decide_eq_true in Hr. tauto.
    + apply bool_decide_eq_true in Hr. tauto.
    + apply bool_decide_eq_false in Hr. tauto.
  - destruct Hm as [Hw Hm]. rewrite Hw, bool_decide_eq_true_2 by done.
    destruct (role_of w m).
    + destruct (m_resp_op_matched y); [tauto|]. destruct Hm as [Ht Hq].
      do 4 (split; [done|]). destruct (decide (m ∈ todo)), (decide (m ∈ pend)).
      all: rewrite ?bool_decide_eq_true_2, ?bool_decide_eq_false_2 in Ht by done; cbn in Ht; try done; tauto.
    + destruct Hm as (Ht & Hp & Hma & Hq). apply bool_decide_eq_true in Ht. apply bool_decide_eq_false in Hp. by split_and!.
    + destruct Hm as (Ht & Hp & Hma & Hq). apply bool_decide_eq_false in Ht. apply bool_decide_eq_false in Hp. by split_and!.
    + destruct Hm as (Ht & Hp & Hma & Hq). apply bool_decide_eq_false in Ht. apply bool_decide_eq_true in Hp. by split_and!.
Qed.

Lemma know_role msgs next todo pend rx ev w snd m :
  minv_c msgs next todo pend rx ev w snd → sender_stays snd m → role_of w m ≠ RNone →
  ¬ unlinked (view_of msgs todo pend w snd m).
Proof using. intros _ _ Hr (_ & _ & Hr'). done. Qed.

(** The work queue takes the first message. *)
Lemma keep_pick msgs next m l pend rx ev snd :
  minv_c msgs next (m :: l) pend rx ev WTxTop snd → sender_stays snd m →
  minv_c msgs next (m :: l) pend rx ev (WTxSend m) snd.
Proof using.
  intros HI Hs. destruct (know _ _ _ _ _ _ _ _ m HI Hs) as (y & Hy & Hl & Hq & Hw & Hwf & Hma & Hpl).
  { unfold unlinked, view_of. cbn. rewrite bool_decide_eq_true_2 by apply list_elem_of_here. by intros (? & _). }
  cbn in Hma, Hpl. assert (Hp : m ∉ pend) by (apply Hpl, list_elem_of_here).
  rewrite <- (app_nil_r ev). apply (keep_one msgs next (m :: l) pend rx ev WTxTop snd _ _ _ _ _ _ m HI).
  split; try done.
  - intros m' Hne. cbn. by rewrite decide_False.
  - rewrite app_nil_r. unfold MboxQueueInv.msg_ok, view_of, wait_ok, async_ok; cbn. rewrite decide_True by done.
    rewrite Hy, bool_decide_eq_true_2 by apply list_elem_of_here. rewrite bool_decide_eq_false_2 by done.
    split; [done|]. destruct Hs as [Hs|Hs]; rewrite Hs in Hw |- *; cbn in Hw.
    + right. by rewrite Hw.
    + rewrite Hw. auto 10.
  - apply (mi_next _ _ _ _ _ _ _ _ _ HI). left. by rewrite Hy.
  - intros m'. cbn. destruct (decide (m' = m)) as [->|]; [done|done].
  - intros m' y'. cbn. by destruct (decide (m' = m)).
  - by left.
  - rewrite !app_nil_r. apply (mi_fifo _ _ _ _ _ _ _ _ _ HI).
Qed.

(** What a message must satisfy, from where it is. *)
Lemma msg_ok_intro ev m msgs todo pend w snd y :
  msgs !! m = Some y → length (m_raw y) = raw_size → EvQueue m (m_raw y) ∈ ev →
  sender_stays snd m → m_wait_resp y = bool_decide (snd !! m = Some SWait) →
  (m_wait_resp y = false → m ∉ pend ∧ role_of w m ≠ RRx) →
  (m_wait_resp y = true → m_resp_op_matched y = bool_decide (role_of w m = RRx)) →
  match role_of w m with
  | RNone => m ∈ todo ↔ m ∉ pend
  | RTx => m ∈ todo ∧ m ∉ pend
  | RAnswer => m ∉ todo ∧ m ∉ pend
  | RRx => m ∉ todo ∧ m ∈ pend
  end →
  msg_ok ev m (view_of msgs todo pend w snd m).
Proof using.
  intros Hy Hl Hq Hs Hw Hf Ht Hp. unfold MboxQueueInv.msg_ok, view_of, wait_ok, async_ok; cbn.
  rewrite Hy. split; [done|]. destruct Hs as [Hs|Hs]; rewrite Hs in Hw |- *; cbn in Hw.
  - right. destruct (Hf Hw) as [Hnp Hr]. split; [done|]. split; [by apply bool_decide_eq_false_2|]. split; [done|].
    destruct (role_of w m); try done.
    + apply bool_decide_eq_true_2. tauto.
    + apply bool_decide_eq_true_2. tauto.
    + apply bool_decide_eq_false_2. tauto.
  - split; [done|]. rewrite (Ht Hw). destruct (role_of w m); cbn.
    + split; [|done]. destruct (decide (m ∈ pend)).
      * rewrite (bool_decide_eq_true_2 (m ∈ pend)) by done. apply bool_decide_eq_false_2. tauto.
      * rewrite (bool_decide_eq_false_2 (m ∈ pend)) by done. apply bool_decide_eq_true_2. tauto.
    + destruct Hp. by rewrite bool_decide_eq_true_2, bool_decide_eq_false_2 by done.
    + destruct Hp. by rewrite !bool_decide_eq_false_2 by done.
    + destruct Hp. by rewrite bool_decide_eq_false_2, bool_decide_eq_true_2 by done.
Qed.

Ltac roles := repeat match goal with
  | |- context [decide (?a = ?b)] => destruct (decide (a = b)); subst
  end.

Lemma ev_in ev new m r : EvQueue m r ∈ ev → EvQueue m r ∈ ev ++ new.
Proof using. intros. apply elem_of_app. by left. Qed.

Lemma live_next msgs next todo pend rx ev w snd m y :
  minv_c msgs next todo pend rx ev w snd → msgs !! m = Some y → m < next.
Proof using. intros HI Hy. apply (mi_next _ _ _ _ _ _ _ _ _ HI). left. by rewrite Hy. Qed.

(** The hardware has taken the message. *)
Lemma keep_sent msgs next todo pend rx ev snd m raw :
  minv_c msgs next todo pend rx ev (WTxSend m) snd → sender_stays snd m →
  minv_c msgs next todo pend rx (ev ++ [EvSend m raw]) (WTxDone m) snd.
Proof using.
  intros HI Hs. destruct (know _ _ _ _ _ _ _ _ m HI Hs) as (y & Hy & Hl & Hq & Hw & Hwf & Hma & Hpl).
  { eapply know_role; [done..|]. cbn. by rewrite decide_True. }
  pose proof (mi_head _ _ _ _ _ _ _ _ _ HI m) as Hh.
  cbn in Hma, Hpl, Hwf, Hh. rewrite decide_True in Hma, Hpl, Hwf, Hh by done. specialize (Hh eq_refl).
  apply (keep_one msgs next todo pend rx ev (WTxSend m) snd _ _ _ _ _ _ m HI). split; try done.
  - apply (msg_ok_intro _ _ _ _ _ _ _ y); cbn; rewrite ?decide_True by done; try done.
    by apply ev_in.
  - by apply (live_next _ _ _ _ _ _ _ _ _ _ HI Hy).
  - apply (mi_head _ _ _ _ _ _ _ _ _ HI).
  - intros m' y'. cbn. by roles.
  - by left.
  - pose proof (mi_fifo _ _ _ _ _ _ _ _ _ HI) as Hf. ev_simpl. cbn in Hf |- *.
    destruct todo as [|m' l]; [done|]. injection Hh as ->. by rewrite <- app_assoc.
Qed.

(** It has not. *)
Lemma keep_fail msgs next todo pend rx ev snd m :
  minv_c msgs next todo pend rx ev (WTxSend m) snd → sender_stays snd m →
  minv_c msgs next todo pend rx ev (WTxFail m) snd.
Proof using.
  intros [] Hs. split; try done.
Qed.

(** The message is taken from the list. *)
Lemma keep_unlink msgs next todo pend rx ev snd m :
  minv_c msgs next todo pend rx ev (WTxDone m) snd → sender_stays snd m →
  minv_c msgs next (filter (λ x, x ≠ m) todo) pend rx ev (WTxAnswer m) snd.
Proof using.
  intros HI Hs. destruct (know _ _ _ _ _ _ _ _ m HI Hs) as (y & Hy & Hl & Hq & Hw & Hwf & Hma & Hpl).
  { eapply know_role; [done..|]. cbn. by rewrite decide_True. }
  pose proof (mi_head _ _ _ _ _ _ _ _ _ HI m) as Hh.
  cbn in Hma, Hpl, Hwf, Hh. rewrite decide_True in Hma, Hpl, Hwf, Hh by done. specialize (Hh eq_refl).
  rewrite <- (app_nil_r ev). apply (keep_one msgs next todo pend rx ev (WTxDone m) snd _ _ _ _ _ _ m HI).
  split; try done.
  - intros m' Hne. cbn. by roles.
  - intros m' Hne. by apply elem_of_filter_ne.
  - intros Ht Hp. split; [by apply NoDup_filter|done].
  - rewrite app_nil_r. apply (msg_ok_intro _ _ _ _ _ _ _ y); cbn; rewrite ?decide_True by done; try done.
    + intros Hf. by destruct (Hwf Hf).
    + split; [|by apply Hpl]. rewrite list_elem_of_filter. tauto.
  - by apply (live_next _ _ _ _ _ _ _ _ _ _ HI Hy).
  - intros m'. cbn. by roles.
  - intros m' y'. cbn. by roles.
  - by left.
  - rewrite app_nil_r. rewrite <- (mi_fifo _ _ _ _ _ _ _ _ _ HI). f_equal. cbn.
    pose proof (mi_todo _ _ _ _ _ _ _ _ _ HI) as Ht. destruct todo as [|m' l]; [done|]. injection Hh as ->.
    apply NoDup_cons in Ht as [Hn _]. rewrite filter_cons_False by naive_solver. by apply notin_filter_ne.
Qed.

(** It waits for the answer. *)
Lemma keep_pend msgs next todo pend rx ev snd m y :
  minv_c msgs next todo pend rx ev (WTxAnswer m) snd → sender_stays snd m → msgs !! m = Some y →
  m_wait_resp y = true → m ∉ todo ∧ m ∉ pend ∧ minv_c msgs next todo (pend ++ [m]) rx ev WTxTop snd.
Proof using.
  intros HI Hs Hy' Hwt. destruct (know _ _ _ _ _ _ _ _ m HI Hs) as (y0 & Hy & Hl & Hq & Hw & Hwf & Hma & Hpl).
  { eapply know_role; [done..|]. cbn. by rewrite decide_True. }
  rewrite Hy' in Hy. injection Hy as <-.
  cbn in Hma, Hpl, Hwf. rewrite decide_True in Hma, Hpl, Hwf by done. destruct Hpl as [Hnt Hnp].
  split; [done|]. split; [done|].
  rewrite <- (app_nil_r ev). apply (keep_one msgs next todo pend rx ev (WTxAnswer m) snd _ _ _ _ _ _ m HI).
  split; try done.
  - intros m' Hne. cbn. by roles.
  - intros m' Hne. rewrite elem_of_app, list_elem_of_singleton. naive_solver.
  - intros Ht Hp. split; [done|]. apply NoDup_app. split; [done|]. split; [|apply NoDup_singleton].
    intros x Hx. rewrite list_elem_of_singleton. by intros ->.
  - rewrite app_nil_r. apply (msg_ok_intro _ _ _ _ _ _ _ y); cbn; try done.
    + by rewrite Hwt.
    + rewrite elem_of_app, list_elem_of_singleton. tauto.
  - by apply (live_next _ _ _ _ _ _ _ _ _ _ HI Hy').
  - by left.
  - rewrite app_nil_r. apply (mi_fifo _ _ _ _ _ _ _ _ _ HI).
Qed.

(** A message without answer is done with: nobody has it any more. *)
Lemma keep_done msgs next todo pend rx ev snd m y :
  minv_c msgs next todo pend rx ev (WTxAnswer m) snd → sender_stays snd m → msgs !! m = Some y →
  m_wait_resp y = false → minv_c (delete m msgs) next todo pend rx ev WTxTop snd.
Proof using.
  intros HI Hs Hy' Hwt. destruct (know _ _ _ _ _ _ _ _ m HI Hs) as (y0 & Hy & Hl & Hq & Hw & Hwf & Hma & Hpl).
  { eapply know_role; [done..|]. cbn. by rewrite decide_True. }
  rewrite Hy' in Hy. injection Hy as <-. rewrite Hwt in Hw. symmetry in Hw. apply bool_decide_eq_false in Hw.
  cbn in Hma, Hpl, Hwf. rewrite decide_True in Hma, Hpl, Hwf by done. destruct Hpl as [Hnt Hnp].
  rewrite <- (app_nil_r ev). apply (keep_one msgs next todo pend rx ev (WTxAnswer m) snd _ _ _ _ _ _ m HI).
  split; try done.
  - intros m' Hne. by rewrite lookup_delete_ne.
  - intros m' Hne. cbn. by roles.
  - rewrite app_nil_r. unfold MboxQueueInv.msg_ok, view_of, unlinked; cbn. rewrite lookup_delete_eq.
    rewrite !bool_decide_eq_false_2 by done. split; [done|]. by destruct Hs.
  - by apply (live_next _ _ _ _ _ _ _ _ _ _ HI Hy').
  - by left.
  - rewrite app_nil_r. apply (mi_fifo _ _ _ _ _ _ _ _ _ HI).
Qed.

(** The hardware is busy; a message without answer has a try less. *)
Lemma keep_later msgs next todo pend rx ev snd m y n :
  minv_c msgs next todo pend rx ev (WTxFail m) snd → sender_stays snd m → msgs !! m = Some y →
  minv_c (<[m := y <| m_retry_cnt := n |>]> msgs) next todo pend rx ev WIdle snd ∧
  minv_c msgs next todo pend rx ev WIdle snd.
Proof using.
  intros HI Hs Hy'. destruct (know _ _ _ _ _ _ _ _ m HI Hs) as (y0 & Hy & Hl & Hq & Hw & Hwf & Hma & Hpl).
  { eapply know_role; [done..|]. cbn. by rewrite decide_True. }
  rewrite Hy' in Hy. injection Hy as <-.
  cbn in Hma, Hpl, Hwf. rewrite decide_True in Hma, Hpl, Hwf by done.
  assert (Hgen : ∀ y', m_raw y' = m_raw y → m_wait_resp y' = m_wait_resp y →
            m_resp_op_matched y' = m_resp_op_matched y →
            minv_c (<[m := y']> msgs) next todo pend rx ev WIdle snd).
  { intros y' Hr Hw' Hm'.
    rewrite <- (app_nil_r ev). apply (keep_one msgs next todo pend rx ev (WTxFail m) snd _ _ _ _ _ _ m HI).
    split; try done.
    - intros m' Hne. by rewrite lookup_insert_ne.
    - intros m' Hne. cbn. by roles.
    - rewrite app_nil_r. apply (msg_ok_intro _ _ _ _ _ _ _ y'); cbn; rewrite ?Hr, ?Hw', ?Hm'; try done.
      + by rewrite lookup_insert_eq.
      + intros Hwf'. by destruct (Hwf Hwf').
      + tauto.
    - by apply (live_next _ _ _ _ _ _ _ _ _ _ HI Hy').
    - by left.
    - rewrite app_nil_r. apply (mi_fifo _ _ _ _ _ _ _ _ _ HI). }
  split; [by apply Hgen|]. rewrite <- (insert_id msgs m y) by done. by apply Hgen.
Qed.

(** Its tries are used up. *)
Lemma keep_drop msgs next todo pend rx ev snd m y :
  minv_c msgs next todo pend rx ev (WTxFail m) snd → sender_stays snd m → msgs !! m = Some y →
  m_wait_resp y = false →
  minv_c (delete m msgs) next (filter (λ x, x ≠ m) todo) pend rx (ev ++ [EvLost m]) WIdle snd.
Proof using.
  intros HI Hs Hy' Hwt. destruct (know _ _ _ _ _ _ _ _ m HI Hs) as (y0 & Hy & Hl & Hq & Hw & Hwf & Hma & Hpl).
  { eapply know_role; [done..|]. cbn. by rewrite decide_True. }
  rewrite Hy' in Hy. injection Hy as <-. rewrite Hwt in Hw. symmetry in Hw. apply bool_decide_eq_false in Hw.
  cbn in Hma, Hpl, Hwf. rewrite decide_True in Hma, Hpl, Hwf by done. destruct Hpl as [Hnt Hnp].
  apply (keep_one msgs next todo pend rx ev (WTxFail m) snd _ _ _ _ _ _ m HI).
  split; try done.
  - intros m' Hne. by rewrite lookup_delete_ne.
  - intros m' Hne. cbn. by roles.
  - intros m' Hne. by apply elem_of_filter_ne.
  - intros Ht Hp. split; [by apply NoDup_filter|done].
  - unfold MboxQueueInv.msg_ok, view_of, unlinked; cbn. rewrite lookup_delete_eq.
    rewrite !bool_decide_eq_false_2; [split; [done|by destruct Hs]|done|]. rewrite list_elem_of_filter. tauto.
  - by apply (live_next _ _ _ _ _ _ _ _ _ _ HI Hy').
  - right. split; [done|]. unfold queued. apply list_elem_of_omap. by exists (EvQueue m (m_raw y)).
  - ev_simpl. apply fifo_lose; [apply (mi_fifo _ _ _ _ _ _ _ _ _ HI)|apply (mi_queued _ _ _ _ _ _ _ _ _ HI)|done].
Qed.

(** *** Answers *)

(** The received message answers a pending request. *)
Lemma keep_match msgs next todo pend rx ev snd m y :
  minv_c msgs next todo pend rx ev WRxMsg snd → sender_stays snd m → m ∈ pend → msgs !! m = Some y →
  qdma_mbox_is_msg_response (m_raw y) rx = Some true →
  minv_c (<[m := y <| m_resp_op_matched := true |>]> msgs) next todo pend rx ev (WRxHandle (Some m)) snd.
Proof using.
  intros HI Hs Hm Hy' Hresp. destruct (know _ _ _ _ _ _ _ _ m HI Hs) as (y0 & Hy & Hl & Hq & Hw & Hwf & Hma & Hpl).
  { unfold unlinked, view_of. cbn. rewrite (bool_decide_eq_true_2 (m ∈ pend)) by done. by intros (_ & ? & _). }
  rewrite Hy' in Hy. injection Hy as <-. cbn in Hma, Hpl, Hwf.
  rewrite <- (app_nil_r ev). apply (keep_one msgs next todo pend rx ev WRxMsg snd _ _ _ _ _ _ m HI).
  split; try done.
  - intros m' Hne. by rewrite lookup_insert_ne.
  - intros m' Hne. cbn. by roles.
  - rewrite app_nil_r. apply (msg_ok_intro _ _ _ _ _ _ _ (y <| m_resp_op_matched := true |>)); cbn;
      rewrite ?decide_True by done; try done.
    + by rewrite lookup_insert_eq.
    + intros Hf. by destruct (Hwf Hf).
    + tauto.
  - by apply (live_next _ _ _ _ _ _ _ _ _ _ HI Hy').
  - intros m'. cbn. by roles.
  - intros m' y'. cbn. roles; [|done]. intros _. rewrite lookup_insert_eq. by intros [= <-].
  - by left.
  - rewrite app_nil_r. apply (mi_fifo _ _ _ _ _ _ _ _ _ HI).
Qed.

(** Nothing happens to it while the list is looked at again. *)
Lemma keep_hold msgs next todo pend rx ev snd m :
  minv_c msgs next todo pend rx ev (WRxHandle (Some m)) snd →
  minv_c msgs next todo pend rx ev (WRxGive (Some m)) snd.
Proof using. intros []. by split. Qed.

(** The request gets its answer. *)
Lemma keep_give msgs next todo pend rx ev snd m :
  minv_c msgs next todo pend rx ev (WRxGive (Some m)) snd → sender_stays snd m →
  ∃ y, msgs !! m = Some y ∧ m ∈ pend ∧
    minv_c (<[m := y <| m_raw := copy_words rx (m_raw y) |>]> msgs) next
      (filter (λ x, x ≠ m) todo) (filter (λ x, x ≠ m) pend) rx (ev ++ [EvAnswer m rx]) WRxTop snd.
Proof using.
  intros HI Hs. destruct (know _ _ _ _ _ _ _ _ m HI Hs) as (y & Hy & Hl & Hq & Hw & Hwf & Hma & Hpl).
  { eapply know_role; [done..|]. cbn. by rewrite decide_True. }
  pose proof (mi_rxm _ _ _ _ _ _ _ _ _ HI m y) as Hresp.
  cbn in Hma, Hpl, Hwf, Hresp. rewrite decide_True in Hma, Hpl, Hwf, Hresp by done. destruct Hpl as [Hnt Hmp].
  exists y. split; [done|]. split; [done|]. rewrite (notin_filter_ne todo) by done.
  assert (Hwt : m_wait_resp y = true) by (destruct (m_wait_resp y); [done|by destruct Hwf]).
  assert (Hse : snd !! m = Some SWait) by (rewrite Hwt in Hw; symmetry in Hw; by apply bool_decide_eq_true in Hw).
  apply (keep_one msgs next todo pend rx ev (WRxGive (Some m)) snd _ _ _ _ _ _ m HI).
  split; try done.
  - intros m' Hne. by rewrite lookup_insert_ne.
  - intros m' Hne. cbn. by roles.
  - intros m' Hne. by apply elem_of_filter_ne.
  - intros Ht Hp. split; [done|]. by apply NoDup_filter.
  - unfold MboxQueueInv.msg_ok, view_of, wait_ok, unlinked; cbn. rewrite lookup_insert_eq, Hse.
    cbn. rewrite Hma, Hwt. split.
    { unfold copy_words, put_bytes. pose proof (mi_rx _ _ _ _ _ _ _ _ _ HI) as Hrx.
      rewrite take_0, !length_app, !length_drop, !length_take, Hrx, Hl. cbn [length]. lia. }
    split; [done|]. rewrite !bool_decide_eq_false_2; [|rewrite list_elem_of_filter; tauto|done].
    split; [done|]. exists (m_raw y), rx. split; [by apply ev_in|]. split; [|by auto].
    apply elem_of_app. left. pose proof (mi_answers _ _ _ _ _ _ _ _ _ HI) as Ha. cbn in Ha.
    assert (Hr : rx ∈ received ev).
    { eapply elem_of_sublist; [|exact Ha]. apply elem_of_app. right. by apply list_elem_of_singleton. }
    unfold received in Hr. apply list_elem_of_omap in Hr as ([] & He & Hr); try done. by injection Hr as ->.
  - by apply (live_next _ _ _ _ _ _ _ _ _ _ HI Hy).
  - by left.
  - ev_simpl. apply (mi_fifo _ _ _ _ _ _ _ _ _ HI).
Qed.

(** *** The sender *)

Lemma keep_back msgs next todo pend rx ev w snd m y :
  minv_c msgs next todo pend rx ev w snd → snd !! m = Some SWait → role_of w m = RNone →
  msgs !! m = Some y →
  if m_resp_op_matched y then minv_c msgs next todo pend rx ev w (<[m := SBack 0]> snd)
  else minv_c msgs next todo pend rx ev w (<[m := SGiveUp]> snd).
Proof using.
  intros HI Hs Hr Hy. pose proof (mi_msg _ _ _ _ _ _ _ _ _ HI m) as Hm.
  unfold MboxQueueInv.msg_ok, view_of, wait_ok in Hm; cbn in Hm. rewrite Hy, Hs, Hr in Hm.
  destruct Hm as [Hl [Hw Hm]]. destruct (m_resp_op_matched y) eqn:Hma.
  - destruct Hm as [Hu Ha]. rewrite <- Hr in Hu.
    rewrite <- (insert_id msgs m y) by done. apply (keep_idle _ _ _ _ _ _ _ _ m (Some y) (Some (SBack 0))); [done| | |done].
    + unfold idle_msg. unfold unlinked in Hu. cbn in Hu. by rewrite !bool_decide_eq_false in Hu.
    + intros _. by apply (live_next _ _ _ _ _ _ _ _ _ _ HI Hy).
  - destruct Hm as [Ht Hq].
    rewrite <- (app_nil_r ev). apply (keep_one msgs next todo pend rx ev w snd _ _ _ _ _ _ m HI).
    split; try done.
    + intros m' Hne. by rewrite lookup_insert_ne.
    + rewrite app_nil_r. unfold MboxQueueInv.msg_ok, view_of; cbn. by rewrite Hy, lookup_insert_eq, Hr.
    + by apply (live_next _ _ _ _ _ _ _ _ _ _ HI Hy).
    + apply (mi_head _ _ _ _ _ _ _ _ _ HI).
    + apply (mi_rxm _ _ _ _ _ _ _ _ _ HI).
    + by left.
    + rewrite app_nil_r. apply (mi_fifo _ _ _ _ _ _ _ _ _ HI).
Qed.

(** The sender takes its message from the lists. *)
Lemma keep_give_up msgs next todo pend rx ev w snd m rv :
  minv_c msgs next todo pend rx ev w snd → snd !! m = Some SGiveUp → rv ≠ 0 →
  is_Some (msgs !! m) ∧ (m ∈ todo ∨ m ∈ pend) ∧
  minv_c msgs next (filter (λ x, x ≠ m) todo) (filter (λ x, x ≠ m) pend) rx
    (ev ++ (if bool_decide (m ∈ todo) then [EvLost m] else [])) w (<[m := SBack rv]> snd).
Proof using.
  intros HI Hs Hrv. pose proof (mi_msg _ _ _ _ _ _ _ _ _ HI m) as Hm.
  unfold MboxQueueInv.msg_ok, view_of in Hm; cbn in Hm. rewrite Hs in Hm.
  destruct (msgs !! m) as [y|] eqn:Hy; [|by destruct Hm]. destruct Hm as (Hl & Hw & Hma & Hr & Ht & Hq).
  assert (Hon : m ∈ todo ∧ m ∉ pend ∨ m ∉ todo ∧ m ∈ pend).
  { destruct (decide (m ∈ todo)), (decide (m ∈ pend)); try tauto; exfalso;
      rewrite ?bool_decide_eq_true_2, ?bool_decide_eq_false_2 in Ht by done; done. }
  split; [done|]. split; [tauto|].
  apply (keep_one msgs next todo pend rx ev w snd _ _ _ _ _ _ m HI).
  split; try done.
  - intros m' Hne. by rewrite lookup_insert_ne.
  - intros m' Hne. by apply elem_of_filter_ne.
  - intros m' Hne. by apply elem_of_filter_ne.
  - intros ? ?. split; by apply NoDup_filter.
  - unfold MboxQueueInv.msg_ok, view_of, unlinked; cbn. rewrite Hy, lookup_insert_eq, Hr. split; [done|].
    split; [|done]. rewrite !bool_decide_eq_false_2; [done|rewrite list_elem_of_filter; tauto..].
  - by apply (live_next _ _ _ _ _ _ _ _ _ _ HI Hy).
  - intros m' Hr'. apply head_filter_ne; [by apply (mi_head _ _ _ _ _ _ _ _ _ HI)|]. by intros ->; congruence.
  - apply (mi_rxm _ _ _ _ _ _ _ _ _ HI).
  - by case_bool_decide.
  - case_bool_decide; [|by left]. right. split; [done|]. unfold queued. apply list_elem_of_omap.
    by exists (EvQueue m (m_raw y)).
  - assert (Hun : unsent w (filter (λ x, x ≠ m) todo) = filter (λ x, x ≠ m) (unsent w todo) ∧
              (m ∈ todo → m ∈ unsent w todo)).
    { destruct w; try done. cbn. pose proof (mi_head _ _ _ _ _ _ _ _ _ HI m0) as Hh. cbn in Hh, Hr.
      rewrite decide_True in Hh by done. specialize (Hh eq_refl). destruct todo as [|m' l]; [done|].
      injection Hh as ->. destruct (decide (m = m0)); [done|]. rewrite filter_cons_True by congruence.
      split; [done|]. rewrite elem_of_cons. naive_solver. }
    destruct Hun as [Hun Hin]. rewrite Hun. pose proof (mi_fifo _ _ _ _ _ _ _ _ _ HI) as Hf.
    case_bool_decide; ev_simpl.
    + apply fifo_lose; [done|apply (mi_queued _ _ _ _ _ _ _ _ _ HI)|by apply Hin].
    + rewrite notin_filter_ne; [done|]. destruct w; cbn; try done. intros Hx. destruct todo; [done|]. set_solver.
  - by case_bool_decide.
  - by case_bool_decide.
Qed.
End keep.
