(* ===== verification/MboxQueueThms.v ===== *)
(** * The mailbox queues: theorems

    In every run in which no sender gives up a message while the work queue
    holds it, no thread touches a message that was freed or unlinks one that is
    on no list; messages are sent in the order in which they were queued; a
    sender that returns with success holds the answer to its request.
    Interrupted waits, which the code does not guard against, are in
    [MboxQueueEx]. *)

From S2P Require Import Prelude Platform RegIO ResMgmt SoftAccess HwAccess QueueTypes.
From S2P Require Import MboxMsg MboxStruct MboxCompose MboxHandler MboxIO MboxQueue MboxQueueInv.

Section system.
Context {E : Type} `{ME : MboxEnd E} {raw_size : nat} `{MO : !MboxEndOk E raw_size}.
Notation minv_c := (minv_c raw_size).
Implicit Types (s : msys E) (x : qdma_mbox E) (m : Z).

Definition minv_at x w snd : Prop :=
  minv_c (mx_msgs x) (mx_next x) (mx_tx_todo_list x) (mx_rx_pend_list x) (mx_rx x) (mx_ev x) w snd ∧
  me_inv (mx_env x).
Definition minv s : Prop := minv_at (sy_mbox s) (sy_work s) (sy_snd s).

(** The device is online, the sender of a message the work queue holds has not
    given it up, and a physical function waits for no answer. *)
Definition calm s : Prop :=
  mx_offline (sy_mbox s) = false ∧
  (∀ m, hand (sy_work s) = Some m → sender_stays (sy_snd s) m) ∧
  (me_is_vf = false → ∀ m, sy_snd s !! m ≠ Some SWait ∧ sy_snd s !! m ≠ Some SGiveUp).

(** The handler is called for messages it handles. *)
Definition may (a : mact) s : Prop :=
  enabled raw_size a s ∧
  (a = AWork → sy_work s = WRxMsg ∨ sy_work s = WRxHandle None → me_ok (mx_rx (sy_mbox s))).

Definition mstart s : Prop :=
  mx_msgs (sy_mbox s) = ∅ ∧ mx_tx_todo_list (sy_mbox s) = [] ∧ mx_rx_pend_list (sy_mbox s) = [] ∧
  length (mx_rx (sy_mbox s)) = raw_size ∧ mx_ev (sy_mbox s) = [] ∧ me_inv (mx_env (sy_mbox s)) ∧
  sy_work s = WIdle ∧ sy_snd s = ∅.

Inductive mreach : msys E → Prop :=
  | mreach_start s : mstart s → mreach s
  | mreach_step a s s' : mreach s → calm s → may a s → mstep raw_size a s = Some s' → mreach s'.

(** ** Running the pieces *)

Lemma xbind_eq {A B} (m : xm E A) (k : A → xm E B) x a x' :
  m x = Some (a, x') → (m ≫= k) x = k a x'.
Proof using. intros Hm. unfold mbind, xm_bind. by rewrite Hm. Qed.

Lemma getm_run m y x : mx_msgs x !! m = Some y → getm m x = Some (y, x).
Proof using. intros Hy. unfold getm. by rewrite Hy. Qed.

Lemma modm_run m f y x : mx_msgs x !! m = Some y →
  modm m f x = Some (tt, x <| mx_msgs := <[m := f y]> (mx_msgs x) |>).
Proof using. intros Hy. unfold modm. by erewrite xbind_eq by by apply getm_run. Qed.

Definition del_list (m : Z) x : qdma_mbox E :=
  x <| mx_tx_todo_list := filter (λ i, i ≠ m) (mx_tx_todo_list x) |>
    <| mx_rx_pend_list := filter (λ i, i ≠ m) (mx_rx_pend_list x) |>.

Lemma list_del_run m x : is_Some (mx_msgs x !! m) →
  m ∈ mx_tx_todo_list x ∨ m ∈ mx_rx_pend_list x → list_del m x = Some (tt, del_list m x).
Proof using.
  intros [y Hy] Hl. unfold list_del. erewrite xbind_eq by by apply getm_run.
  erewrite xbind_eq by done. unfold on_lists.
  destruct Hl as [Hl|Hl]; rewrite (bool_decide_eq_true_2 _ Hl), ?orb_true_r; done.
Qed.

Lemma off_lists m x : m ∉ mx_tx_todo_list x → m ∉ mx_rx_pend_list x → on_lists m x = false.
Proof using. intros. unfold on_lists. by rewrite !bool_decide_eq_false_2. Qed.

Lemma todo_add_run m x : is_Some (mx_msgs x !! m) → m ∉ mx_tx_todo_list x → m ∉ mx_rx_pend_list x →
  todo_add_tail m x = Some (tt, x <| mx_tx_todo_list := mx_tx_todo_list x ++ [m] |>).
Proof using.
  intros [y Hy] ??. unfold todo_add_tail. erewrite xbind_eq by by apply getm_run.
  erewrite xbind_eq by done. by rewrite off_lists.
Qed.
Lemma pend_add_run m x : is_Some (mx_msgs x !! m) → m ∉ mx_tx_todo_list x → m ∉ mx_rx_pend_list x →
  pend_add_tail m x = Some (tt, x <| mx_rx_pend_list := mx_rx_pend_list x ++ [m] |>).
Proof using.
  intros [y Hy] ??. unfold pend_add_tail. erewrite xbind_eq by by apply getm_run.
  erewrite xbind_eq by done. by rewrite off_lists.
Qed.

Lemma free_run m x : is_Some (mx_msgs x !! m) →
  qdma_mbox_msg_free m x = Some (tt, x <| mx_msgs := delete m (mx_msgs x) |>).
Proof using. intros [y Hy]. unfold qdma_mbox_msg_free. by erewrite xbind_eq by by apply getm_run. Qed.

Lemma alloc_run x :
  ∃ mm o, qdma_mbox_msg_alloc raw_size x = Some (o,
    match o with
    | Some m => x <| mx_mem := mm |> <| mx_next := m + 1 |>
                  <| mx_msgs := <[m := mk_mbox_msg false false 0 (replicate raw_size 0)]> (mx_msgs x) |>
    | None => x <| mx_mem := mm |>
    end) ∧ (o = None ∨ o = Some (mx_next x)).
Proof using.
  unfold qdma_mbox_msg_alloc. unfold mbind, xm_bind, xget. destruct (qdma_calloc (mx_mem x)) as [[] mm].
  - exists mm, (Some (mx_next x)). cbn. auto.
  - exists mm, None. cbn. auto.
Qed.

(** The message as qdma_mbox_msg_send leaves it. *)
Definition sent_msg (wait_resp : bool) (timeout_ms : Z) (y : mbox_msg) : mbox_msg :=
  y <| m_resp_op_matched := false |> <| m_wait_resp := wait_resp |>
    <| m_retry_cnt := u16 (timeout_ms / 1000 + 1) |>.

Lemma send_run m w t y x :
  mx_msgs x !! m = Some y → m ∉ mx_tx_todo_list x → m ∉ mx_rx_pend_list x →
  let y' := sent_msg w t y in
  qdma_mbox_msg_send m w t x =
    if me_is_vf && bool_decide (mx_reset_state x = RESET_STATE_INVALID)
    then Some (Some (- EINVAL), x <| mx_msgs := <[m := y']> (mx_msgs x) |>)
    else Some (if w then None else Some 0,
      x <| mx_msgs := <[m := y']> (mx_msgs x) |> <| mx_tx_todo_list := mx_tx_todo_list x ++ [m] |>
        <| mx_ev := mx_ev x ++ [EvQueue m (m_raw y')] |> <| mx_tx_work := true |>).
Proof using.
  intros Hy Ht Hp y'. unfold qdma_mbox_msg_send. erewrite xbind_eq by by apply modm_run.
  fold (sent_msg w t y). fold y'. erewrite xbind_eq by done. cbn [mx_reset_state set].
  destruct (me_is_vf && _); [done|].
  erewrite xbind_eq by (apply todo_add_run; cbn; [by rewrite lookup_insert_eq|done|done]).
  erewrite xbind_eq by (apply (getm_run _ y'); cbn; by rewrite lookup_insert_eq).
  by destruct w.
Qed.

(** ** The steps *)

Definition steps_ok (a : mact) s : Prop := ∃ s', mstep raw_size a s = Some s' ∧ (calm s' → minv s').

Lemma on_mbox_ok {A} (c : xm E A) s k a x' :
  c (sy_mbox s) = Some (a, x') → (calm (k a x') → minv (k a x')) →
  ∃ s', on_mbox c s k = Some s' ∧ (calm s' → minv s').
Proof using. intros Hc Hk. unfold on_mbox. rewrite Hc. by eexists. Qed.

Lemma new_ok raw s : minv s → length raw = raw_size → steps_ok (ANew raw) s.
Proof using.
  intros [HI He] Hl. destruct (alloc_run (sy_mbox s)) as (mm & o & Ha & Ho).
  unfold steps_ok; cbn [mstep].
  destruct Ho as [->| ->]; (eapply on_mbox_ok; [erewrite xbind_eq by exact Ha|]).
  - done.
  - intros _. by split.
  - cbv beta iota. erewrite xbind_eq; [done|]. apply modm_run; cbn. by rewrite lookup_insert_eq.
  - intros _. unfold minv, minv_at; cbn. split; [|done]. rewrite insert_insert_eq.
    by apply (keep_new _ _ _ _ _ _ _ _ _ (Some SOwn)); auto.
Qed.

Lemma idle_of msgs next todo pend rx ev w snd m t :
  minv_c msgs next todo pend rx ev w snd → snd !! m = Some t → t = SOwn ∨ (∃ rv, t = SBack rv) →
  idle_msg todo pend w m ∧ ∃ y, msgs !! m = Some y ∧ length (m_raw y) = raw_size ∧
    (t = SOwn → m ∉ queued ev).
Proof using.
  intros HI Hs Ht. pose proof (mi_msg _ _ _ _ _ _ _ _ _ HI m) as Hm.
  unfold msg_ok, view_of in Hm; cbn in Hm. rewrite Hs in Hm.
  destruct (msgs !! m) as [y|]; [|by destruct Hm]. destruct Hm as [Hl Hm].
  assert (Hu : unlinked (view_of msgs todo pend w snd m)).
  { unfold unlinked, view_of; cbn. destruct Ht as [->|[rv ->]]; by destruct Hm. }
  split; [by eapply unlinked_view|]. exists y. split; [done|]. split; [done|]. intros ->. by destruct Hm.
Qed.

Lemma send_ok m w t s : minv s → sy_snd s !! m = Some SOwn → steps_ok (ASend m w t) s.
Proof using.
  intros [HI He] Hs. destruct (idle_of _ _ _ _ _ _ _ _ _ _ HI Hs) as (Hi & y & Hy & Hl & Hq); [by left|].
  specialize (Hq eq_refl). destruct (Hi) as (Ht & Hp & Hr).
  unfold steps_ok; cbn [mstep]. pose proof (send_run m w t y (sy_mbox s) Hy Ht Hp) as Hrun.
  pose proof (live_next _ _ _ _ _ _ _ _ _ _ HI Hy) as Hlt.
  destruct (me_is_vf && _); [|destruct w]; (eapply on_mbox_ok; [erewrite xbind_eq by exact Hrun; done|]); intros _.
  - unfold minv, minv_at; cbn. split; [|done]. apply keep_event; [|done..].
    by apply (keep_idle _ _ _ _ _ _ _ _ m (Some (sent_msg w t y)) (Some (SBack (- EINVAL))));
      [done|done| |split].
  - unfold minv, minv_at; cbn. split; [|done].
    by apply (keep_enqueue _ _ _ _ _ _ _ _ m (sent_msg true t y)).
  - unfold minv, minv_at; cbn. split; [|done]. apply keep_event; [|done..].
    by apply (keep_enqueue _ _ _ _ _ _ _ _ m (sent_msg false t y)).
Qed.

Lemma wait_over_ok m s : minv s → sy_snd s !! m = Some SWait → steps_ok (AWaitOver m) s.
Proof using.
  intros [HI He] Hs. destruct (view_linked _ _ _ _ _ _ _ _ m HI) as (y & Hy & Hl).
  { right; right; right. by rewrite Hs. }
  unfold steps_ok; cbn [mstep].
  apply (on_mbox_ok _ _ _ (m_resp_op_matched y) (if m_resp_op_matched y
    then sy_mbox s <| mx_ev := mx_ev (sy_mbox s) ++ [EvBack m 0] |> else sy_mbox s)).
  { unfold msg_wait_over. erewrite xbind_eq by (erewrite xbind_eq by (by apply getm_run); done).
    by destruct (m_resp_op_matched y). }
  intros Hc.
  assert (Hr : role_of (sy_work s) m = RNone).
  { apply role_hand. intros Hh. destruct Hc as (_ & Hc & _). specialize (Hc m).
    destruct (m_resp_op_matched y); cbn in Hc; destruct (Hc Hh) as [Hx|Hx]; rewrite lookup_insert_eq in Hx; done. }
  pose proof (keep_back _ _ _ _ _ _ _ _ _ _ HI Hs Hr Hy) as HI'.
  destruct (m_resp_op_matched y) eqn:Hm; unfold minv, minv_at; cbn; (split; [|done]); [|done].
  by apply keep_event.
Qed.

Lemma give_up_ok m s : minv s → sy_snd s !! m = Some SGiveUp → steps_ok (AGiveUp m) s.
Proof using.
  intros [HI He] Hs. destruct (keep_give_up _ _ _ _ _ _ _ _ m (- EPIPE) HI Hs) as (Hy & Hon & HI'); [done|].
  unfold steps_ok; cbn [mstep]. eapply on_mbox_ok.
  { erewrite xbind_eq; [done|]. unfold msg_give_up. erewrite xbind_eq by done.
    instantiate (1 := del_list m (sy_mbox s <| mx_ev := mx_ev (sy_mbox s) ++
      (if bool_decide (m ∈ mx_tx_todo_list (sy_mbox s)) then [EvLost m] else []) |>)).
    erewrite xbind_eq; [erewrite xbind_eq; [done|]|].
    - by apply list_del_run.
    - case_bool_decide; [done|]. destruct (sy_mbox s); cbn. by rewrite app_nil_r. }
  intros _. unfold minv, minv_at; cbn. split; [|done]. by apply keep_event.
Qed.

Lemma freed_ok m s : minv s → sy_snd s !! m = Some SOwn ∨ (∃ rv, sy_snd s !! m = Some (SBack rv)) →
  steps_ok (AFree m) s.
Proof using.
  intros [HI He] Hs.
  assert (∃ t, sy_snd s !! m = Some t ∧ (t = SOwn ∨ ∃ rv, t = SBack rv)) as (t & Ht & Hto)
    by (destruct Hs as [?|[rv ?]]; eauto).
  destruct (idle_of _ _ _ _ _ _ _ _ _ _ HI Ht Hto) as (Hi & y & Hy & Hl & _).
  unfold steps_ok; cbn [mstep]. eapply on_mbox_ok; [apply free_run; by rewrite Hy|].
  intros _. unfold minv, minv_at; cbn. split; [|done].
  by apply (keep_idle _ _ _ _ _ _ _ _ m None None); [done|done|intros []|].
Qed.

(** *** Sending *)

Lemma work_move x w w' snd :
  minv_at x w snd → (∀ m, role_of w m = role_of w' m) → (∀ m, role_of w' m ≠ RRx) →
  holding w' = false → unsent w' (mx_tx_todo_list x) = unsent w (mx_tx_todo_list x) → minv_at x w' snd.
Proof using.
  intros [HI He] Hr Hx Hh Hu. split; [|done]. rewrite <- (app_nil_r (mx_ev x)).
  eapply keep_work; try done; [by eapply mi_rx|]. by rewrite Hh.
Qed.

Lemma top_ok x snd : minv_at x WTxTop snd → steps_ok AWork (mk_msys x WTxTop snd).
Proof using.
  intros HI. eapply on_mbox_ok; [reflexivity|]. cbn. intros (_ & Hc & _). cbn in Hc.
  destruct HI as [HI He]. destruct (mx_tx_todo_list x) as [|m l] eqn:Ht.
  - cbn. apply (work_move _ WTxTop); [|done..].
    split; [cbn; by rewrite Ht|done].
  - split; [|done]. cbn. rewrite Ht. apply keep_pick; [done|by apply Hc].
Qed.

Lemma hand_live x w snd m : minv_at x w snd → hand w = Some m → ∃ y, mx_msgs x !! m = Some y ∧ length (m_raw y) = raw_size.
Proof using.
  intros [HI He] Hh. eapply view_linked; [exact HI|]. right; right; left. by apply hand_role.
Qed.

Lemma tx_send_ok x snd m : minv_at x (WTxSend m) snd → sender_stays snd m →
  steps_ok AWork (mk_msys x (WTxSend m) snd).
Proof using MO.
  intros HI Hs. destruct (hand_live _ _ _ m HI) as (y & Hy & Hl); [done|]. destruct HI as [HI He].
  destruct (me_send_ok (m_raw y) (mx_env x)) as (rv & e & Hr & He'); [done..|].
  eapply (on_mbox_ok _ _ _ (if rv =? 0 then WTxDone m else WTxFail m)
    (if rv =? 0 then x <| mx_env := e |> <| mx_ev := mx_ev x ++ [EvSend m (m_raw y)] |> else x <| mx_env := e |>)).
  { cbn [sy_work sy_mbox work_step]. unfold tx_hw_send. erewrite xbind_eq by by apply getm_run.
    erewrite xbind_eq by (unfold xenv; rewrite Hr; reflexivity). by destruct (rv =? 0). }
  intros _. destruct (rv =? 0); (split; [|done]); cbn; [by apply keep_sent|by apply keep_fail].
Qed.

Lemma tx_unlink_ok x snd m : minv_at x (WTxDone m) snd → sender_stays snd m →
  steps_ok AWork (mk_msys x (WTxDone m) snd).
Proof using.
  intros HI Hs. destruct (hand_live _ _ _ m HI) as (y & Hy & Hl); [done|]. destruct HI as [HI He].
  pose proof (mi_head _ _ _ _ _ _ _ _ _ HI m) as Hh. cbn in Hh. rewrite decide_True in Hh by done.
  specialize (Hh eq_refl).
  eapply (on_mbox_ok _ _ _ (WTxAnswer m) (del_list m (x <| mx_send_busy := false |>))).
  { cbn [sy_work sy_mbox work_step]. unfold tx_unlink. erewrite xbind_eq by done.
    erewrite xbind_eq; [done|]. apply list_del_run; cbn; [by rewrite Hy|]. left.
    destruct (mx_tx_todo_list x); [done|]. injection Hh as ->. apply list_elem_of_here. }
  intros _. split; [|done]. cbn. destruct (know _ _ _ _ _ _ _ _ m HI Hs) as (y0 & _ & _ & _ & _ & _ & _ & Hpl).
  { eapply know_role; [done..|]. cbn. by rewrite decide_True. }
  cbn in Hpl. rewrite decide_True in Hpl by done. destruct Hpl as [_ Hnp].
  rewrite (notin_filter_ne (mx_rx_pend_list x)) by done. by apply keep_unlink.
Qed.

Lemma tx_answer_ok x snd m : minv_at x (WTxAnswer m) snd → sender_stays snd m →
  steps_ok AWork (mk_msys x (WTxAnswer m) snd).
Proof using.
  intros HI Hs. destruct (hand_live _ _ _ m HI) as (y & Hy & Hl); [done|]. destruct HI as [HI He].
  eapply (on_mbox_ok _ _ _ WTxTop (if m_wait_resp y then x <| mx_rx_pend_list := mx_rx_pend_list x ++ [m] |>
                                   else x <| mx_msgs := delete m (mx_msgs x) |>)).
  - cbn [sy_work sy_mbox work_step]. unfold tx_answer. erewrite xbind_eq by by apply getm_run.
    destruct (m_wait_resp y) eqn:Hw.
    + destruct (keep_pend _ _ _ _ _ _ _ _ _ HI Hs Hy Hw) as (? & ? & _).
      erewrite xbind_eq; [done|]. apply pend_add_run; [by rewrite Hy|done|done].
    + erewrite xbind_eq; [done|]. apply free_run. by rewrite Hy.
  - intros _. destruct (m_wait_resp y) eqn:Hw; (split; [|done]); cbn.
    + by destruct (keep_pend _ _ _ _ _ _ _ _ _ HI Hs Hy Hw) as (_ & _ & ?).
    + by eapply keep_done.
Qed.

Lemma tx_busy_ok x snd m : minv_at x (WTxFail m) snd → sender_stays snd m → mx_offline x = false →
  steps_ok AWork (mk_msys x (WTxFail m) snd).
Proof using.
  intros HI Hs Ho. destruct (hand_live _ _ _ m HI) as (y & Hy & Hl); [done|]. destruct HI as [HI He].
  destruct (know _ _ _ _ _ _ _ _ m HI Hs) as (y0 & _ & _ & _ & _ & _ & _ & Hpl).
  { eapply know_role; [done..|]. cbn. by rewrite decide_True. }
  cbn in Hpl. rewrite decide_True in Hpl by done.
  set (n := u16 (m_retry_cnt y - 1)). set (y' := y <| m_retry_cnt := n |>).
  set (later := λ x : qdma_mbox E, x <| mx_send_busy := true |> <| mx_timer := true |>).
  set (less := x <| mx_msgs := <[m := y']> (mx_msgs x) |>).
  set (lose := less <| mx_ev := mx_ev less ++ [EvLost m] |>).
  eapply (on_mbox_ok _ _ _ WIdle (if m_wait_resp y then later x else if n =? 0
     then (del_list m lose) <| mx_msgs := delete m (mx_msgs lose) |> else later less)).
  - cbn [sy_work sy_mbox work_step]. unfold tx_busy. erewrite xbind_eq by done. rewrite Ho. cbn [negb].
    erewrite xbind_eq by by apply getm_run. destruct (m_wait_resp y); [done|].
    erewrite xbind_eq by by apply modm_run. fold n y' less. destruct (n =? 0); [|done].
    erewrite xbind_eq by done. fold lose.
    assert (Hlive : is_Some (mx_msgs lose !! m)) by (cbn; by rewrite lookup_insert_eq).
    erewrite xbind_eq by (apply list_del_run; [done|left; cbn; tauto]).
    erewrite xbind_eq by (apply free_run; done). done.
  - intros _. destruct (keep_later _ _ _ _ _ _ _ _ y n HI Hs Hy) as [H1 H2].
    destruct (m_wait_resp y) eqn:Hw; [by split|]. destruct (n =? 0); [|by split]. split; [|done]. cbn.
    rewrite (notin_filter_ne (mx_rx_pend_list x)) by tauto. unfold y'. rewrite delete_insert_eq. by eapply keep_drop.
Qed.

(** *** Receiving *)

Lemma length_words rx b : length rx = raw_size → length (put_bytes 0 (replicate wire_size b) rx) = raw_size.
Proof using MO.
  intros Hl. pose proof me_raw_size. unfold put_bytes.
  rewrite take_0, !length_app, length_drop, !length_replicate, Hl. cbn [length]. lia.
Qed.

Lemma rx_rcv_ok x snd : minv_at x WRxTop snd → mx_offline x = false → steps_ok AWork (mk_msys x WRxTop snd).
Proof using MO.
  intros [HI He] Ho. pose proof (mi_rx _ _ _ _ _ _ _ _ _ HI) as Hrx.
  set (b0 := put_bytes 0 (replicate wire_size 0) (mx_rx x)).
  destruct (me_rcv_ok b0 (mx_env x)) as (rv & b & e & Hr & Hb & He'); [done|by apply length_words|].
  set (x1 := x <| mx_rx := b0 |> <| mx_env := e |> <| mx_rx := b |>).
  eapply (on_mbox_ok _ _ _ (if rv =? 0 then WRxMsg else WRxEnd rv)
    (if rv =? 0 then x1 <| mx_ev := mx_ev x ++ [EvRcv b] |> else x1)).
  { cbn [sy_work sy_mbox work_step]. unfold rx_hw_rcv. erewrite xbind_eq by done. fold b0.
    erewrite xbind_eq by done. erewrite xbind_eq by (unfold xenv; cbn [mx_rx mx_env set]; rewrite Hr; reflexivity).
    cbv beta iota. erewrite xbind_eq by done. destruct (rv =? 0); [|done]. unfold x1, set; cbn; by rewrite Ho. }
  intros _. destruct (rv =? 0); (split; [|done]); cbn.
  - by apply (keep_work _ _ _ _ (mx_rx x) _ WRxTop).
  - rewrite <- (app_nil_r (mx_ev x)). by apply (keep_work _ _ _ _ (mx_rx x) _ WRxTop).
Qed.

Lemma rx_end_ok x snd rv : minv_at x (WRxEnd rv) snd → steps_ok AWork (mk_msys x (WRxEnd rv) snd).
Proof using MO.
  intros HI. set (stop := if rv =? ERR QDMA_ERR_MBOX_ALL_ZERO_MSG then
      if me_is_vf then bool_decide (mx_reset_state x = RESET_STATE_IDLE) else true else mx_offline x).
  assert (∃ x', rx_end rv x = Some (WIdle, x') ∧ minv_at x' WIdle snd) as (x' & Hr & HI').
  { unfold rx_end. destruct (me_disable_ok (mx_env x)) as (e & Hd & He'); [apply HI|].
    assert (minv_at x WIdle snd) as HI' by by apply (work_move _ (WRxEnd rv)). destruct HI' as [HI' He].
    rewrite (xbind_eq _ _ _ x x) by done. fold stop.
    destruct (mx_rx_poll x); [|destruct stop].
    - eexists. split; [done|]. by split.
    - exists (x <| mx_env := e |>). split; [|by split].
      erewrite xbind_eq; [done|]. unfold xenv_. by rewrite Hd.
    - exists x. split; [done|by split]. }
  eapply on_mbox_ok; [exact Hr|]. done.
Qed.

(** The pending requests are compared with the message one after the other. *)
Lemma find_request_run rcv l x :
  (1 ≤ length rcv)%nat → (∀ m, m ∈ l → ∃ y, mx_msgs x !! m = Some y ∧ (1 ≤ length (m_raw y))%nat) →
  find_request rcv l x = Some (None, x) ∨
  ∃ m y, m ∈ l ∧ mx_msgs x !! m = Some y ∧ qdma_mbox_is_msg_response (m_raw y) rcv = Some true ∧
    find_request rcv l x = Some (Some m, x <| mx_msgs := <[m := y <| m_resp_op_matched := true |>]> (mx_msgs x) |>).
Proof using.
  intros Hrc. induction l as [|m l IH]; intros Hl; [by left|].
  destruct (Hl m) as (y & Hy & Hly); [by apply list_elem_of_here|]. cbn [find_request].
  rewrite (xbind_eq _ _ _ _ _ (getm_run _ _ _ Hy)).
  assert (∃ b, qdma_mbox_is_msg_response (m_raw y) rcv = Some b) as [b Hb].
  { unfold qdma_mbox_is_msg_response. rewrite !rd_eq by (cbn; lia). by eexists. }
  rewrite (xbind_eq _ _ _ b x) by (unfold xlift; by rewrite Hb). destruct b.
  - right. exists m, y. split; [by apply list_elem_of_here|]. split; [done|]. split; [done|].
    by rewrite (xbind_eq _ _ _ _ _ (modm_run _ _ _ _ Hy)).
  - destruct IH as [IH|(m' & y' & ? & ? & ? & ?)]; [|by left|].
    + intros m' Hm'. apply Hl. by apply list_elem_of_further.
    + right. exists m', y'. split; [by apply list_elem_of_further|done].
Qed.

Lemma pend_live x w snd m : minv_at x w snd → m ∈ mx_rx_pend_list x →
  ∃ y, mx_msgs x !! m = Some y ∧ (1 ≤ length (m_raw y))%nat.
Proof using MO.
  intros [HI _] Hm. destruct (view_linked _ _ _ _ _ _ _ _ m HI) as (y & Hy & Hl); [auto|].
  exists y. split; [done|]. pose proof me_raw_size. rewrite Hl. unfold wire_size in *. cbn in *. lia.
Qed.

Lemma rx_long x w snd : minv_at x w snd → (wire_size ≤ length (mx_rx x))%nat.
Proof using MO. intros [HI _]. rewrite (mi_rx _ _ _ _ _ _ _ _ _ HI). apply me_raw_size. Qed.

Lemma rcv_vf_ok x snd : me_is_vf = true → minv_at x WRxMsg snd → steps_ok AWork (mk_msys x WRxMsg snd).
Proof using MO.
  intros Hvf HI. pose proof (rx_long _ _ _ HI) as Hlen. unfold wire_size, MBOX_MSG_REG_MAX in Hlen.
  assert (∃ x1, (if mx_func_id x =? mx_func_id_parent x then
     '(f, _) ← xlift (qdma_mbox_vf_func_id_get true (mx_rx x));
     '(p, _) ← xlift (qdma_mbox_vf_parent_func_id_get (mx_rx x));
     xmod (λ s : qdma_mbox E, s <| mx_func_id := f |> <| mx_func_id_parent := p |>)
     else mret tt) x = Some (tt, x1) ∧ minv_at x1 WRxMsg snd ∧ mx_msgs x1 = mx_msgs x ∧
     mx_rx_pend_list x1 = mx_rx_pend_list x ∧ mx_rx x1 = mx_rx x) as (x1 & H1 & HI1 & Hm1 & Hp1 & Hr1).
  { destruct (mx_func_id x =? mx_func_id_parent x); [|by exists x].
    unfold qdma_mbox_vf_func_id_get, qdma_mbox_vf_parent_func_id_get, xlift, mbind, xm_bind, bm_bind.
    rewrite !rd_eq by (cbn; lia). by eexists. }
  destruct (find_request_run (mx_rx x) (mx_rx_pend_list x) x1) as [Hf|(m & y & Hm & Hy & Hresp & Hf)].
  { lia. }
  { intros m Hm. rewrite <- Hp1 in Hm. by eapply pend_live. }
  - eapply (on_mbox_ok _ _ _ (WRxHandle None) x1).
    + cbn [sy_work sy_mbox work_step]. rewrite Hvf. unfold rcv_one_vf.
      rewrite (xbind_eq _ _ _ x x) by done. rewrite (xbind_eq _ _ _ _ _ H1). by rewrite (xbind_eq _ _ _ _ _ Hf).
    + intros _. by apply (work_move _ WRxMsg).
  - eapply on_mbox_ok.
    + cbn [sy_work sy_mbox work_step]. rewrite Hvf. unfold rcv_one_vf.
      rewrite (xbind_eq _ _ _ x x) by done. rewrite (xbind_eq _ _ _ _ _ H1). by rewrite (xbind_eq _ _ _ _ _ Hf).
    + intros (_ & Hc & _). specialize (Hc m eq_refl). destruct HI1 as [HI1 He1].
      split; [|done]. cbn in Hc |- *. rewrite <- Hr1 in Hresp. apply keep_match; try done. by rewrite Hp1.
Qed.

(** *** Messages that are not answers *)

(** The buffer of a response between its allocation and its release. *)
Definition resp_msg m x w snd : Prop :=
  minv_at x w snd ∧ m < mx_next x ∧ snd !! m = None ∧
  ∃ y, mx_msgs x !! m = Some y ∧ length (m_raw y) = raw_size ∧ m ∉ queued (mx_ev x) ∧
    idle_msg (mx_tx_todo_list x) (mx_rx_pend_list x) w m.

Lemma snd_none (snd : gmap Z sender) m : snd !! m = None → partial_alter (λ _, None) m snd = snd.
Proof using. intros Hs. rewrite <- Hs. apply partial_alter_self. Qed.

Lemma alloc_resp x w snd : minv_at x w snd →
  ∃ o x', qdma_mbox_msg_alloc raw_size x = Some (o, x') ∧ minv_at x' w snd ∧ mx_rx x' = mx_rx x ∧
    mx_rx_pend_list x' = mx_rx_pend_list x ∧
    match o with Some m => resp_msg m x' w snd | None => True end.
Proof using.
  intros [HI He]. destruct (alloc_run x) as (mm & o & Ha & Ho). eexists o, _. split; [exact Ha|].
  destruct Ho as [->| ->]; [by split|].
  destruct (next_free _ _ _ _ _ _ _ _ HI) as [Hn Hq].
  destruct (free_addr _ _ _ _ _ _ _ _ _ HI Hn) as [Hi Hs].
  set (y := mk_mbox_msg false false 0 (replicate raw_size 0)).
  assert (HI' : minv_c (<[mx_next x := y]> (mx_msgs x)) (mx_next x + 1) (mx_tx_todo_list x)
            (mx_rx_pend_list x) (mx_rx x) (mx_ev x) w snd).
  { pose proof (keep_new _ _ _ _ _ _ _ _ y None HI) as K. rewrite snd_none in K by done.
    apply K; [apply length_replicate|by left]. }
  split; [by split|]. split; [done|]. split; [done|]. split; [by split|]. split; [cbn; lia|]. split; [done|].
  exists y. split; [cbn; by rewrite lookup_insert_eq|]. split; [apply length_replicate|]. by split.
Qed.

Lemma call_handler_run m x w snd : resp_msg m x w snd → me_ok (mx_rx x) → (∀ i, role_of w i = RNone) →
  holding w = false → ∃ rv x', call_handler m x = Some (rv, x') ∧ resp_msg m x' w snd ∧
    mx_rx_pend_list x' = mx_rx_pend_list x.
Proof using MO.
  intros ([HI He] & Hlt & Hs & y & Hy & Hl & Hq & Hi) Hok Hro Hho.
  destruct (me_handle_ok (mx_func_id x) (mx_rx x) (m_raw y) (mx_env x)) as (rv & c & c' & e & Hr & Hc & Hc' & He');
    [done|by eapply mi_rx|done|done|].
  set (y' := y <| m_raw := c' |>).
  exists rv, (x <| mx_env := e |> <| mx_rx := c |> <| mx_msgs := <[m := y']> (mx_msgs x) |>). split; [|split; [|done]].
  - unfold call_handler. rewrite (xbind_eq _ _ _ x x) by done. rewrite (xbind_eq _ _ _ _ _ (getm_run _ _ _ Hy)).
    erewrite xbind_eq by (unfold xenv; rewrite Hr; reflexivity). cbv beta iota.
    erewrite xbind_eq by done. erewrite xbind_eq by (apply (modm_run m _ y); done). done.
  - assert (HI' : minv_c (<[m := y']> (mx_msgs x)) (mx_next x) (mx_tx_todo_list x)
            (mx_rx_pend_list x) c (mx_ev x) w snd).
    { rewrite <- (snd_none snd m Hs). apply (keep_idle _ _ _ _ _ _ _ _ m (Some y') None); [|done|done|done].
      rewrite <- (app_nil_r (mx_ev x)). apply (keep_work _ _ _ _ (mx_rx x) _ w); try done.
      - intros i. by rewrite Hro.
      - by rewrite Hho. }
    split; [by split|]. split; [done|]. split; [done|]. exists y'. cbn. rewrite lookup_insert_eq. done.
Qed.

Lemma send_response_run m x w snd : resp_msg m x w snd →
  ∃ x', send_response m x = Some (tt, x') ∧ minv_at x' w snd.
Proof using.
  intros ([HI He] & Hlt & Hs & y & Hy & Hl & Hq & Hi). destruct (Hi) as (Ht & Hp & Hr).
  unfold send_response. pose proof (send_run m false QDMA_MBOX_MSG_TIMEOUT_MS y x Hy Ht Hp) as Hrun. cbv zeta in Hrun.
  set (y' := sent_msg false QDMA_MBOX_MSG_TIMEOUT_MS y) in *. rewrite <- (snd_none snd m Hs).
  destruct (me_is_vf && _); (eexists; split; [erewrite xbind_eq by exact Hrun; done|]); (split; [|done]); cbn.
  - by apply (keep_idle _ _ _ _ _ _ _ _ m (Some y') None).
  - by apply (keep_enqueue _ _ _ _ _ _ _ _ m y').
Qed.

Lemma free_resp m x w snd : resp_msg m x w snd →
  ∃ x', qdma_mbox_msg_free m x = Some (tt, x') ∧ minv_at x' w snd.
Proof using.
  intros ([HI He] & Hlt & Hs & y & Hy & Hl & Hq & Hi). eexists. split; [apply free_run; by rewrite Hy|].
  split; [|done]. cbn. rewrite <- (snd_none snd m Hs).
  by apply (keep_idle _ _ _ _ _ _ _ _ m None None); [done|done|intros []|].
Qed.

(** Changes the invariant does not see. *)
Lemma resp_msg_ext m x x' w snd : resp_msg m x w snd →
  mx_msgs x' = mx_msgs x → mx_next x' = mx_next x → mx_tx_todo_list x' = mx_tx_todo_list x →
  mx_rx_pend_list x' = mx_rx_pend_list x → mx_rx x' = mx_rx x → mx_env x' = mx_env x →
  (mx_ev x' = mx_ev x ∨ mx_ev x' = mx_ev x ++ [EvVfWake] ∨ mx_ev x' = mx_ev x ++ [EvResetWork]) →
  resp_msg m x' w snd.
Proof using.
  intros ([HI He] & Hlt & Hs & y & Hy & Hl & Hq & Hi) E1 E2 E3 E4 E5 E6 Hev.
  assert (minv_c (mx_msgs x) (mx_next x) (mx_tx_todo_list x) (mx_rx_pend_list x) (mx_rx x) (mx_ev x') w snd ∧
          queued (mx_ev x') = queued (mx_ev x)) as [HI' Hqe].
  { destruct Hev as [->|[->| ->]]; [done|..]; (split; [by apply keep_event|]); ev_simpl; done. }
  split; [split; [by rewrite E1, E2, E3, E4, E5|by rewrite E6]|]. rewrite E2. split; [done|]. split; [done|].
  exists y. by rewrite E1, E3, E4, Hqe.
Qed.

Lemma minv_at_ext x x' w snd : minv_at x w snd →
  mx_msgs x' = mx_msgs x → mx_next x' = mx_next x → mx_tx_todo_list x' = mx_tx_todo_list x →
  mx_rx_pend_list x' = mx_rx_pend_list x → mx_rx x' = mx_rx x → mx_env x' = mx_env x →
  (mx_ev x' = mx_ev x ∨ mx_ev x' = mx_ev x ++ [EvVfWake] ∨ mx_ev x' = mx_ev x ++ [EvResetWork]) →
  minv_at x' w snd.
Proof using.
  intros [HI He] E1 E2 E3 E4 E5 E6 Hev. split; [|by rewrite E6]. rewrite E1, E2, E3, E4, E5.
  destruct Hev as [->|[->| ->]]; [done|..]; by apply keep_event.
Qed.

(** Code that keeps the invariant and returns. *)
Definition xkeeps {A} (c : xm E A) x w snd : Prop := ∃ a x', c x = Some (a, x') ∧ minv_at x' w snd.

Lemma xkeeps_bind {A B} (c : xm E A) (k : A → xm E B) x w snd :
  xkeeps c x w snd → (∀ a x', c x = Some (a, x') → minv_at x' w snd → xkeeps (k a) x' w snd) → xkeeps (c ≫= k) x w snd.
Proof using. intros (a & x' & Hc & HI) Hk. unfold xkeeps. rewrite (xbind_eq _ _ _ _ _ Hc). by apply Hk. Qed.
Lemma xkeeps_after {A B} (c : xm E A) (k : A → xm E B) x a x' w snd :
  c x = Some (a, x') → xkeeps (k a) x' w snd → xkeeps (c ≫= k) x w snd.
Proof using. intros Hc. unfold xkeeps. by rewrite (xbind_eq _ _ _ _ _ Hc). Qed.
Lemma xkeeps_send m x w snd : resp_msg m x w snd → xkeeps (send_response m) x w snd.
Proof using. intros Hr. destruct (send_response_run _ _ _ _ Hr) as (x' & ? & ?). by exists tt, x'. Qed.
Lemma xkeeps_free m x w snd : resp_msg m x w snd → xkeeps (qdma_mbox_msg_free m) x w snd.
Proof using. intros Hr. destruct (free_resp _ _ _ _ Hr) as (x' & ? & ?). by exists tt, x'. Qed.
Lemma xkeeps_reset r x w snd : minv_at x w snd → xkeeps (set_reset_state r) x w snd.
Proof using. intros HI. eexists tt, _. split; [done|]. eapply minv_at_ext; [done..|by left]. Qed.
Lemma xkeeps_event e x w snd : minv_at x w snd → e = EvVfWake ∨ e = EvResetWork → xkeeps (xevent e) x w snd.
Proof using. intros HI [->| ->]; (eexists tt, _; split; [done|]); (eapply minv_at_ext; [done..|cbn; auto]). Qed.
Lemma xkeeps_ret {A} (a : A) x w snd : minv_at x w snd → xkeeps (mret a) x w snd.
Proof using. intros HI. by eexists a, x. Qed.

Lemma vf_branches m x rv snd : resp_msg m x WRxTop snd →
  xkeeps (if rv =? QDMA_MBOX_VF_RESET then
           send_response m;; set_reset_state RESET_STATE_RECV_PF_RESET_REQ;; xevent EvResetWork
         else if rv =? QDMA_MBOX_PF_RESET_DONE then
           set_reset_state RESET_STATE_RECV_PF_RESET_DONE;; xevent EvVfWake;; send_response m
         else if rv =? QDMA_MBOX_PF_BYE then
           send_response m;; set_reset_state RESET_STATE_RECV_PF_OFFLINE_REQ;; xevent EvResetWork
         else mret tt) x WRxTop snd.
Proof using.
  intros Hr. assert (Hreq : ∀ r, xkeeps (send_response m;; set_reset_state r;; xevent EvResetWork) x WRxTop snd).
  { intros r. apply xkeeps_bind; [by apply xkeeps_send|]. intros _ x1 _ HI1.
    apply xkeeps_bind; [by apply xkeeps_reset|]. intros _ x2 _ HI2. apply xkeeps_event; auto. }
  destruct (rv =? QDMA_MBOX_VF_RESET); [done|]. destruct (rv =? QDMA_MBOX_PF_RESET_DONE).
  - eapply xkeeps_after; [done|]. eapply xkeeps_after; [done|]. apply xkeeps_send. eapply resp_msg_ext; [done..|cbn; auto].
  - destruct (rv =? QDMA_MBOX_PF_BYE); [done|]. apply xkeeps_ret. apply Hr.
Qed.

Lemma handle_vf_ok x snd o : minv_at x (WRxHandle o) snd →
  (∀ m, o = Some m → sender_stays snd m) → (o = None → me_ok (mx_rx x)) →
  steps_ok AWork (mk_msys x (WRxHandle o) snd).
Proof using MO.
  intros HI Hs Hok. destruct o as [m|].
  - destruct (know _ _ _ _ _ _ _ _ m (proj1 HI)) as (y & _ & _ & _ & _ & _ & _ & Hpl); [by apply Hs| |].
    { eapply know_role; [apply HI|by apply Hs|]. cbn. by rewrite decide_True. }
    cbn in Hpl. rewrite decide_True in Hpl by done. destruct Hpl as [_ Hp].
    eapply (on_mbox_ok _ _ _ (WRxGive (Some m)) x).
    + cbn [sy_work sy_mbox work_step]. unfold rcv_handle_vf. rewrite (xbind_eq _ _ _ x x) by done.
      by destruct (mx_rx_pend_list x); [apply elem_of_nil in Hp|].
    + intros _. destruct HI. split; [by apply keep_hold|done].
  - assert (minv_at x WRxTop snd) as HI' by by apply (work_move _ (WRxHandle None)).
    assert (∃ w x', rcv_handle_vf raw_size None x = Some (w, x') ∧ minv_at x' w snd) as (w & x' & Hr & HI2).
    { unfold rcv_handle_vf. rewrite (xbind_eq _ _ _ x x) by done. destruct (mx_rx_pend_list x) as [|m l].
      - destruct (alloc_resp _ _ _ HI') as ([m|] & x1 & Ha & HI1 & Hrx & _ & Hm); rewrite (xbind_eq _ _ _ _ _ Ha).
        + destruct (call_handler_run _ _ _ _ Hm) as (rv & x2 & Hc & Hm2 & _); [rewrite Hrx; by apply Hok|done|done|].
          rewrite (xbind_eq _ _ _ _ _ Hc). destruct (vf_branches m x2 rv snd Hm2) as ([] & x3 & Hb & HI3).
          rewrite (xbind_eq _ _ _ _ _ Hb). exists (WRxGive None), x3. split; [done|]. by apply (work_move _ WRxTop).
        + by exists WRxTop, x1.
      - exists (WRxGive None), x. split; [done|]. by apply (work_move _ WRxTop). }
    by eapply on_mbox_ok; [exact Hr|].
Qed.

Lemma give_vf_ok x snd o : minv_at x (WRxGive o) snd → (∀ m, o = Some m → sender_stays snd m) →
  steps_ok AWork (mk_msys x (WRxGive o) snd).
Proof using.
  intros HI Hs. destruct o as [m|].
  - destruct HI as [HI He]. destruct (keep_give _ _ _ _ _ _ _ _ HI (Hs m eq_refl)) as (y & Hy & Hp & HI').
    eapply on_mbox_ok.
    + cbn [sy_work sy_mbox work_step]. unfold rcv_give_vf, give_answer. erewrite xbind_eq; [done|].
      erewrite xbind_eq by (apply list_del_run; [by rewrite Hy|by right]).
      erewrite xbind_eq by done. by erewrite xbind_eq by (apply (modm_run m _ y); cbn; by rewrite Hy).
    + intros _. split; [|done]. exact HI'.
  - eapply (on_mbox_ok _ _ _ WRxTop x); [done|]. intros _. by apply (work_move _ (WRxGive None)).
Qed.

(** *** A physical function *)

Lemma no_pending x w snd : minv_at x w snd → (∀ m, snd !! m ≠ Some SWait ∧ snd !! m ≠ Some SGiveUp) →
  mx_rx_pend_list x = [].
Proof using.
  intros [HI _] Hs. destruct (mx_rx_pend_list x) as [|m l] eqn:Hp; [done|]. exfalso.
  pose proof (mi_msg _ _ _ _ _ _ _ _ _ HI m) as Hm. unfold msg_ok, async_ok, unlinked, view_of in Hm; cbn in Hm.
  rewrite (bool_decide_eq_true_2 (m ∈ m :: l)) in Hm by apply list_elem_of_here.
  destruct (Hs m) as [H1 H2]. destruct (mx_msgs x !! m), (snd !! m) as [[]|]; naive_solver.
Qed.

Lemma xkeeps_offline f m x snd : resp_msg m x WRxTop snd →
  ∃ x', xdev_sriov_vf_offline f x = Some (tt, x') ∧ resp_msg m x' WRxTop snd.
Proof using. intros Hm. eexists. split; [done|]. eapply resp_msg_ext; [done..|cbn; auto]. Qed.
Lemma xkeeps_online f m x snd : resp_msg m x WRxTop snd →
  ∃ rv x', xdev_sriov_vf_online f x = Some (rv, x') ∧ resp_msg m x' WRxTop snd.
Proof using.
  intros Hm. unfold xdev_sriov_vf_online. erewrite xbind_eq by done. erewrite xbind_eq by done.
  case_bool_decide; [destruct (vf_take_slot _ _)|]; (eexists _, _; split; [done|]);
    (eapply resp_msg_ext; [done..|cbn; auto]).
Qed.
Lemma xkeeps_func_id {A} is_vf (k : Z * buf → xm E A) x w snd : minv_at x w snd →
  (∀ p, xkeeps (k p) x w snd) → xkeeps (p ← xlift (qdma_mbox_vf_func_id_get is_vf (mx_rx x)); k p) x w snd.
Proof using MO.
  intros HI Hk. pose proof (rx_long _ _ _ HI) as Hlen. unfold wire_size, MBOX_MSG_REG_MAX in Hlen.
  assert (∃ p, qdma_mbox_vf_func_id_get is_vf (mx_rx x) = Some p) as [p Hp].
  { unfold qdma_mbox_vf_func_id_get, mbind, bm_bind. destruct is_vf; rewrite !rd_eq by (cbn; lia); by eexists. }
  rewrite Hp. eapply xkeeps_after; [done|]. apply Hk.
Qed.

Lemma pf_branches m x rv snd : resp_msg m x WRxTop snd → mx_rx_pend_list x = [] →
  xkeeps (if (rv =? QDMA_MBOX_VF_OFFLINE) || (rv =? QDMA_MBOX_VF_RESET_BYE) then
           '(vf_func_id, _) ← xlift (qdma_mbox_vf_func_id_get false (mx_rx x));
           xdev_sriov_vf_offline vf_func_id;;
           if rv =? QDMA_MBOX_VF_RESET_BYE then send_response m else qdma_mbox_msg_free m
         else if rv =? QDMA_MBOX_VF_ONLINE then
           '(vf_func_id, _) ← xlift (qdma_mbox_vf_func_id_get false (mx_rx x));
           xdev_sriov_vf_online vf_func_id;; send_response m
         else if (rv =? QDMA_MBOX_VF_RESET) || (rv =? QDMA_MBOX_PF_RESET_DONE) || (rv =? QDMA_MBOX_PF_BYE) then
           m_snd ← find_request (mx_rx x) (mx_rx_pend_list x);
           match m_snd with
           | Some m' => give_answer m';; qdma_mbox_msg_free m'
           | None => mret tt
           end;;
           qdma_mbox_msg_free m
         else send_response m) x WRxTop snd.
Proof using MO.
  intros Hm Hp. match goal with |- context [if ?b then _ else _] => destruct b end.
  { apply xkeeps_func_id; [apply Hm|]. intros [f b]. destruct (xkeeps_offline f _ _ _ Hm) as (x1 & H1 & Hm1).
    eapply xkeeps_after; [exact H1|]. case_match; [by apply xkeeps_send|by apply xkeeps_free]. }
  destruct (_ =? QDMA_MBOX_VF_ONLINE).
  { apply xkeeps_func_id; [apply Hm|]. intros [f b]. destruct (xkeeps_online f _ _ _ Hm) as (r & x1 & H1 & Hm1).
    eapply xkeeps_after; [exact H1|]. by apply xkeeps_send. }
  match goal with |- context [if ?b then _ else _] => destruct b end; [|by apply xkeeps_send]. rewrite Hp.
  eapply xkeeps_after; [done|]. cbv beta iota. eapply xkeeps_after; [done|]. by apply xkeeps_free.
Qed.

Lemma rcv_pf_ok x snd : me_is_vf = false → minv_at x WRxMsg snd → me_ok (mx_rx x) →
  (∀ m, snd !! m ≠ Some SWait ∧ snd !! m ≠ Some SGiveUp) → steps_ok AWork (mk_msys x WRxMsg snd).
Proof using MO.
  intros Hpf HI Hok Hs. assert (minv_at x WRxTop snd) as HI' by by apply (work_move _ WRxMsg).
  assert (∃ w x', rcv_one_pf raw_size x = Some (w, x') ∧ minv_at x' w snd) as (w & x' & Hr & HI2).
  { unfold rcv_one_pf.
    destruct (alloc_resp _ _ _ HI') as ([m|] & x1 & Ha & HI1 & Hrx & _ & Hm); rewrite (xbind_eq _ _ _ _ _ Ha);
      [|by exists WRxTop, x1].
    destruct (call_handler_run _ _ _ _ Hm) as (rv & x2 & Hc & Hm2 & Hp2); [by rewrite Hrx|done|done|].
    rewrite (xbind_eq _ _ _ _ _ Hc). rewrite (xbind_eq _ _ _ x2 x2) by done.
    destruct (pf_branches m x2 rv snd Hm2) as ([] & x3 & Hb & HI3); [eapply no_pending, Hs; apply Hm2|].
    rewrite (xbind_eq _ _ _ _ _ Hb). by exists WRxTop, x3. }
  eapply on_mbox_ok; [|by intros _]. cbn [sy_work sy_mbox work_step]. rewrite Hpf. exact Hr.
Qed.

(** *** All of it *)

Lemma idle_ok x snd : minv_at x WIdle snd → steps_ok AWork (mk_msys x WIdle snd).
Proof using.
  intros HI.
  assert (∃ w x', work_step raw_size WIdle x = Some (w, x') ∧ minv_at x' w snd) as (w & x' & Hr & HI2).
  { cbn [work_step]. rewrite (xbind_eq _ _ _ x x) by done.
    destruct (mx_tx_work x); [|destruct (mx_rx_work x)]; (eexists _, _; split; [done|]).
    - apply (work_move _ WIdle); [|done..]. by eapply minv_at_ext; [|auto..].
    - apply (work_move _ WIdle); [|done..]. by eapply minv_at_ext; [|auto..].
    - done. }
  by eapply on_mbox_ok.
Qed.

Lemma work_ok s : minv s → calm s → may AWork s → steps_ok AWork s.
Proof using MO.
  destruct s as [x w snd]. intros HI (Ho & Hs & Hpf) [_ Hok]. specialize (Hok eq_refl).
  unfold minv in HI. cbn in *. destruct w.
  - by apply idle_ok.
  - by apply top_ok.
  - apply tx_send_ok; auto.
  - apply tx_unlink_ok; auto.
  - apply tx_answer_ok; auto.
  - apply tx_busy_ok; auto.
  - by apply rx_rcv_ok.
  - destruct me_is_vf eqn:Hvf; [by apply rcv_vf_ok|]. apply rcv_pf_ok; auto.
  - apply handle_vf_ok; [done|naive_solver|]. intros ->. auto.
  - apply give_vf_ok; [done|naive_solver].
  - by apply rx_end_ok.
Qed.

Lemma step_ok a s : minv s → calm s → may a s → steps_ok a s.
Proof using MO.
  intros HI Hc Ha. destruct a as [raw|m w t|m|m|m| | |].
  - by apply new_ok; [|apply Ha].
  - by apply send_ok; [|apply Ha].
  - by apply wait_over_ok; [|apply Ha].
  - by apply give_up_ok; [|apply Ha].
  - by apply freed_ok; [|apply Ha].
  - by apply work_ok.
  - eexists. split; [done|]. intros _. eapply minv_at_ext; [exact HI|auto..].
  - eexists. split; [done|]. intros _. eapply minv_at_ext; [exact HI|auto..].
Qed.

Lemma start_inv s : mstart s → minv s.
Proof using.
  destruct s as [x w snd]. unfold mstart, minv, minv_at; cbn. intros (-> & -> & -> & Hrx & -> & He & -> & ->).
  split; [|done]. split; try done; try apply NoDup_nil_2.
  - intros m [[? Hm]|Hm]; [by rewrite lookup_empty in Hm|by apply elem_of_nil in Hm].
Qed.

Lemma reach_inv s : mreach s → calm s → minv s.
Proof using MO.
  induction 1 as [s Hs|a s s' Hr IH Hc Ha Hst]; intros Hc'; [by apply start_inv|].
  destruct (step_ok a s (IH Hc) Hc Ha) as (s2 & Hs2 & HI). rewrite Hst in Hs2. injection Hs2 as <-. by apply HI.
Qed.

(** ** Emptying the list *)

(** The hardware takes every message. *)
Definition accepts : Prop := ∀ raw e, me_inv e → length raw = raw_size →
  ∃ e', me_send raw e = Some (0, e') ∧ me_inv e'.

Lemma work_next x w snd w' x' : work_step raw_size w x = Some (w', x') →
  mstep raw_size AWork (mk_msys x w snd) = Some (mk_msys x' w' snd).
Proof using. intros Hw. cbn [mstep]. unfold on_mbox. cbn [sy_work sy_mbox]. by rewrite Hw. Qed.

Section round.
Context (snd : gmap Z sender) (m : Z) (accept : accepts) (stays : sender_stays snd m).
Context (no_wait : me_is_vf = false → ∀ i, snd !! i ≠ Some SWait ∧ snd !! i ≠ Some SGiveUp).

(** The work queue is at [w] with message [m], [l] is left on the list, [done]
    were sent. *)
Definition at_ok w x (l sent_so_far : list Z) : Prop :=
  minv_at x w snd ∧ mx_offline x = false ∧ mx_tx_todo_list x = l ∧ sent (mx_ev x) = sent_so_far.

Lemma tx_next w w' x x' l l' d d' :
  at_ok w x l d → (∀ i, hand w = Some i ∨ hand w' = Some i → i = m) → w ≠ WRxMsg → w ≠ WRxHandle None →
  work_step raw_size w x = Some (w', x') → mx_offline x' = false → mx_tx_todo_list x' = l' → sent (mx_ev x') = d' →
  mstep raw_size AWork (mk_msys x w snd) = Some (mk_msys x' w' snd) ∧ at_ok w' x' l' d'.
Proof using MO no_wait stays.
  intros (HI & Ho & _ & _) Hh Hw1 Hw2 Hst Ho' Hl Hd. pose proof (work_next _ _ snd _ _ Hst) as Hn. split; [done|].
  split; [|done]. destruct (step_ok AWork (mk_msys x w snd)) as (s' & Hs' & HI'); [done| | |].
  - split; [done|]. split; [|done]. cbn. intros i Hi. by rewrite (Hh i) by auto.
  - split; [done|]. by intros _ [?|?].
  - rewrite Hn in Hs'. injection Hs' as <-. apply HI'.
    split; [done|]. split; [|done]. cbn. intros i Hi. by rewrite (Hh i) by auto.
Qed.

Ltac tx_step := eapply tx_next; [done|naive_solver|done|done|cbn [work_step]|..].

Lemma round_pick x l d : at_ok WTxTop x (m :: l) d →
  mstep raw_size AWork (mk_msys x WTxTop snd) = Some (mk_msys x (WTxSend m) snd) ∧ at_ok (WTxSend m) x (m :: l) d.
Proof using MO no_wait stays.
  intros Ha. destruct (Ha) as (HI & Ho & Ht & Hd). tx_step; [|done..].
  unfold tx_first. rewrite (xbind_eq _ _ _ x x) by done. by rewrite Ht.
Qed.

Lemma round_send x l d : at_ok (WTxSend m) x l d →
  ∃ x', mstep raw_size AWork (mk_msys x (WTxSend m) snd) = Some (mk_msys x' (WTxDone m) snd) ∧
    at_ok (WTxDone m) x' l (d ++ [m]).
Proof using MO accept no_wait stays.
  intros Ha. destruct (Ha) as (HI & Ho & Ht & Hd). destruct (hand_live _ _ _ m HI eq_refl) as (y & Hy & Hl).
  destruct (accept (m_raw y) (mx_env x)) as (e & He & _); [apply HI|done|].
  exists (x <| mx_env := e |> <| mx_ev := mx_ev x ++ [EvSend m (m_raw y)] |>). tx_step; [|done..|].
  - unfold tx_hw_send. rewrite (xbind_eq _ _ _ _ _ (getm_run _ _ _ Hy)).
    by erewrite xbind_eq by (unfold xenv; rewrite He; reflexivity).
  - cbn. unfold sent in *. by rewrite omap_app, Hd.
Qed.

Lemma round_unlink x l d : at_ok (WTxDone m) x (m :: l) d →
  ∃ x', mstep raw_size AWork (mk_msys x (WTxDone m) snd) = Some (mk_msys x' (WTxAnswer m) snd) ∧
    at_ok (WTxAnswer m) x' l d.
Proof using MO no_wait stays.
  intros Ha. destruct (Ha) as (HI & Ho & Ht & Hd). destruct (hand_live _ _ _ m HI eq_refl) as (y & Hy & Hl).
  exists (del_list m (x <| mx_send_busy := false |>)). tx_step; [|done| |done].
  - unfold tx_unlink. erewrite xbind_eq by done. erewrite xbind_eq; [done|]. apply list_del_run; cbn; [by rewrite Hy|].
    left. rewrite Ht. apply list_elem_of_here.
  - cbn. rewrite Ht. rewrite filter_cons_False by naive_solver.
    pose proof (mi_todo _ _ _ _ _ _ _ _ _ (proj1 HI)) as Hn. rewrite Ht in Hn.
    apply NoDup_cons in Hn as [Hn _]. by apply notin_filter_ne.
Qed.

Lemma round_answer x l d : at_ok (WTxAnswer m) x l d →
  ∃ x', mstep raw_size AWork (mk_msys x (WTxAnswer m) snd) = Some (mk_msys x' WTxTop snd) ∧ at_ok WTxTop x' l d.
Proof using MO no_wait stays.
  intros Ha. destruct (Ha) as (HI & Ho & Ht & Hd). destruct (hand_live _ _ _ m HI eq_refl) as (y & Hy & Hl).
  exists (if m_wait_resp y then x <| mx_rx_pend_list := mx_rx_pend_list x ++ [m] |>
          else x <| mx_msgs := delete m (mx_msgs x) |>).
  tx_step; [|by destruct (m_wait_resp y)..].
  unfold tx_answer. erewrite xbind_eq by by apply getm_run. destruct (m_wait_resp y) eqn:Hw.
  - destruct (keep_pend _ _ _ _ _ _ _ _ _ (proj1 HI) stays Hy Hw) as (? & ? & _).
    erewrite xbind_eq; [done|]. apply pend_add_run; [by rewrite Hy|done|done].
  - erewrite xbind_eq; [done|]. apply free_run. by rewrite Hy.
Qed.

Lemma send_round x l d : at_ok WTxTop x (m :: l) d →
  ∃ x', msteps raw_size (replicate 4 AWork) (mk_msys x WTxTop snd) = Some (mk_msys x' WTxTop snd) ∧
    at_ok WTxTop x' l (d ++ [m]).
Proof using MO accept no_wait stays.
  intros Ha. destruct (round_pick _ _ _ Ha) as [H1 Ha1]. destruct (round_send _ _ _ Ha1) as (x2 & H2 & Ha2).
  destruct (round_unlink _ _ _ Ha2) as (x3 & H3 & Ha3). destruct (round_answer _ _ _ Ha3) as (x4 & H4 & Ha4).
  exists x4. split; [|done]. cbn [replicate msteps].
  rewrite H1. cbn [mbind option_bind]. rewrite H2. cbn [mbind option_bind]. rewrite H3. cbn [mbind option_bind].
  by rewrite H4.
Qed.
End round.

Lemma msteps_app l1 l2 s s' : msteps raw_size l1 s = Some s' →
  msteps raw_size (l1 ++ l2) s = msteps raw_size l2 s'.
Proof using.
  revert s. induction l1 as [|a l1 IH]; intros s; cbn; [by intros [= ->]|].
  destruct (mstep raw_size a s); [|done]. cbn. apply IH.
Qed.

(** The whole list. *)
Lemma empty_list l : accepts → ∀ x snd d,
  (me_is_vf = false → ∀ i, snd !! i ≠ Some SWait ∧ snd !! i ≠ Some SGiveUp) → (∀ m, m ∈ l → sender_stays snd m) →
  at_ok snd WTxTop x l d →
  ∃ x', msteps raw_size (replicate (S (4 * length l)) AWork) (mk_msys x WTxTop snd) = Some (mk_msys x' WIdle snd) ∧
    mx_tx_todo_list x' = [] ∧ sent (mx_ev x') = d ++ l.
Proof using MO.
  intros Hacc. induction l as [|m l IH]; intros x snd d Hpf Hs Ha.
  - destruct Ha as (HI & Ho & Ht & Hd). exists x. rewrite app_nil_r. split; [|done].
    cbn. unfold on_mbox; cbn. unfold tx_first. rewrite (xbind_eq _ _ _ x x) by done. by rewrite Ht.
  - destruct (send_round snd m Hacc (Hs m (list_elem_of_here _ _)) Hpf _ _ _ Ha) as (x1 & H1 & Ha1).
    destruct (IH x1 snd (d ++ [m]) Hpf) as (x2 & H2 & Ht2 & Hd2); [|done|].
    { intros i Hi. apply Hs. by apply list_elem_of_further. }
    exists x2. rewrite <- app_assoc in Hd2. split; [|done].
    replace (S (4 * length (m :: l))) with (4 + S (4 * length l))%nat by (cbn [length]; lia).
    rewrite replicate_add. by rewrite (msteps_app _ _ _ _ H1).
Qed.

(** ** What is promised *)

(** C5. Every step that may happen does happen: no thread touches a message
    that was freed, unlinks one that is on no list or links one twice. *)
Theorem transport_safe a s : mreach s → calm s → may a s → is_Some (mstep raw_size a s).
Proof using MO.
  intros Hr Hc Ha. destruct (step_ok a s (reach_inv s Hr Hc) Hc Ha) as (s' & Hs & _). by rewrite Hs.
Qed.

(** C14. Messages go to the hardware in the order in which they were queued, each
    at most once: what was sent, followed by what is left on the list, is what
    was queued less what was given up unsent. *)
Theorem transport_order s : mreach s → calm s →
  let ev := mx_ev (sy_mbox s) in
  NoDup (queued ev) ∧
  sent ev ++ unsent (sy_work s) (mx_tx_todo_list (sy_mbox s)) = filter (λ m : Z, m ∉ lost ev) (queued ev).
Proof using MO.
  intros Hr Hc ev. destruct (reach_inv s Hr Hc) as [HI _]. split; [apply HI|apply (mi_fifo _ _ _ _ _ _ _ _ _ HI)].
Qed.

(** C15. In calm runs: a sender that is back from its call with success holds, in
    its message, the words of a received message whose operation code answers
    the request it had queued ([answered]); each received message is given to
    one request at most, in the order of arrival.  The code matches an answer
    to a request by the operation code only, not by the request: a sender may
    hold the answer to another request with the same code ([late_answer]).
    Outside calm runs it may return with success and hold its own request
    ([matched_before_copied]). *)
Theorem transport_answers s m : mreach s → calm s →
  let x := sy_mbox s in
  (sy_snd s !! m = Some (SBack 0) → ∃ y, mx_msgs x !! m = Some y ∧ answered (mx_ev x) m y) ∧
  answers (mx_ev x) `sublist_of` received (mx_ev x).
Proof using MO.
  intros Hr Hc x. destruct (reach_inv s Hr Hc) as [HI _]. split.
  - intros Hs. pose proof (mi_msg _ _ _ _ _ _ _ _ _ HI m) as Hm. unfold msg_ok, view_of in Hm; cbn in Hm.
    fold x in Hm. rewrite Hs in Hm. destruct (mx_msgs x !! m) as [y|]; [|by destruct Hm].
    exists y. split; [done|]. destruct Hm as (_ & _ & Ha). by apply Ha.
  - etrans; [|apply (mi_answers _ _ _ _ _ _ _ _ _ HI)]. by apply sublist_inserts_r.
Qed.

(** C36. When the hardware takes what it is given, the send work started on a list of
    [n] messages ends after [4n + 1] pieces of work with an empty list: all
    of them were sent, in their order. *)
Theorem send_work_empties s : mreach s → calm s → sy_work s = WTxTop → accepts →
  (∀ m, m ∈ mx_tx_todo_list (sy_mbox s) → sender_stays (sy_snd s) m) →
  let todo := mx_tx_todo_list (sy_mbox s) in
  ∃ s', msteps raw_size (replicate (4 * length todo + 1) AWork) s = Some s' ∧ sy_work s' = WIdle ∧
    mx_tx_todo_list (sy_mbox s') = [] ∧ sent (mx_ev (sy_mbox s')) = sent (mx_ev (sy_mbox s)) ++ todo.
Proof using MO.
  intros Hr Hc Hw Hacc Hs todo. pose proof (reach_inv s Hr Hc) as HI. destruct s as [x w snd]. cbn in *. subst w.
  destruct Hc as (Ho & _ & Hpf). rewrite Nat.add_1_r.
  destruct (empty_list todo Hacc x snd (sent (mx_ev x)) Hpf Hs) as (x' & H1 & H2 & H3); [by split|].
  eexists. split; [exact H1|]. by split_and!.
Qed.
End system.
