(* ===== verification/MboxEnds.v ===== *)
(** * The ends of the mailbox

    The mailbox registers and the message handlers of a physical and of a
    virtual function have what the mailbox queues rely on.  A virtual function
    does with the 128 bytes a message is declared with; the handlers of a
    physical function reach the last of the 152 bytes of
    [union qdma_mbox_txrx]. *)

From S2P Require Import Prelude Platform RegIO ResMgmt SoftAccess HwAccess QueueTypes.
From S2P Require Import MboxMsg MboxStruct MboxCompose MboxHandler MboxSafe MboxIO MboxThms MboxQueue MboxQueueInv.

Section ends.
Context {dev : Type} `{Device dev} `{HA : !HwAccess dev}.
Implicit Types (s : hw_state dev) (e : end_state (dev := dev)).

Lemma keeps_rd_buf b f : (f.1 + f.2 ≤ length b)%nat → keeps false (rd_buf (dev := dev) b f).
Proof using. intros Hf s Hs. rewrite rd_buf_eq by done. by eexists _, _. Qed.

Lemma keeps_send_words b base n i :
  (4 * (i + n) ≤ length b)%nat → keeps false (send_words (dev := dev) b base n i).
Proof using.
  revert i. induction n as [|n IH]; intros i Hb; cbn [send_words]; [apply keeps_ret|].
  apply keeps_bind; [apply keeps_rd_buf; cbn; lia|]. intros w.
  apply keeps_bind; [apply keeps_write|]. intros _. apply IH. lia.
Qed.

Lemma keeps_send is_vf b : (wire_size ≤ length b)%nat → keeps false (qdma_mbox_send (dev := dev) is_vf b).
Proof using.
  unfold wire_size, MBOX_MSG_REG_MAX. intros Hb. unfold qdma_mbox_send.
  apply keeps_bind; [apply keeps_rd_buf; cbn; lia|]. intros d.
  apply keeps_bind; [apply keeps_read|]. intros v. destruct (negb _); [apply keeps_ret|].
  apply keeps_bind; [destruct is_vf; [apply keeps_ret|apply keeps_write]|]. intros _.
  apply keeps_bind; [apply keeps_send_words; unfold MBOX_MSG_REG_MAX; lia|]. intros _.
  apply keeps_bind; [destruct is_vf; [apply keeps_ret|apply keeps_write]|]. intros _.
  apply keeps_bind; [apply keeps_write|]. intros _. apply keeps_ret.
Qed.

Lemma rcv_returns is_vf b s : (wire_size ≤ length b)%nat →
  ∃ rv b' s', qdma_mbox_rcv is_vf b s = Some ((rv, b'), s') ∧ length b' = length b ∧
    hw_prg_lock s' = hw_prg_lock s.
Proof using.
  destruct is_vf; [|intros Hb; destruct (qdma_mbox_rcv_source b s Hb) as (rv & b' & s' & ? & ? & ? & _); by exists rv, b', s'].
  intros Hb. unfold wire_size, MBOX_MSG_REG_MAX in Hb. unfold qdma_mbox_rcv.
  erewrite bind_hw; [|apply reg_read_eq].
  set (v := (dev_read _ (hw s)).1). set (s1 := mk_hw _ (hw_prg_lock s)).
  destruct (Z.land v M_MBOX_FN_STATUS_IN_MSG =? 0); [by exists (ERR QDMA_ERR_MBOX_NO_MSG_IN), b, s1|].
  erewrite bind_hw; [|done].
  match goal with |- ∃ rv b s', (rcv_words ?r ?base ?n ?i ?z ≫= _) ?s0 = _ ∧ _ =>
    destruct (rcv_words_returns r base n i z s0) as (b' & zz & s2 & E & L & K);
      [unfold MBOX_MSG_REG_MAX; lia|] end.
  rewrite (bind_hw _ _ _ _ _ E). erewrite bind_hw; [|done]. cbn [fst snd]. destruct zz.
  { by eexists (ERR QDMA_ERR_MBOX_ALL_ZERO_MSG), b', _. }
  erewrite bind_hw; [|apply rd_buf_eq; cbn; lia]. cbn [negb andb]. by eexists QDMA_SUCCESS, b', _.
Qed.

(** The lock of the registers is free between two accesses. *)
Definition lock_free e : Prop := hw_prg_lock e.1 = false.

Lemma on_hw_keeps {A} (m : hwm dev A) e : keeps false m → lock_free e →
  ∃ a e', on_hw m e = Some (a, e') ∧ lock_free e'.
Proof using.
  intros Hm He. destruct (Hm e.1 He) as (a & h & Eq & Hh). unfold on_hw. rewrite Eq. by eexists a, _.
Qed.
Lemma on_hw_rcv is_vf raw e : (wire_size ≤ length raw)%nat → lock_free e →
  ∃ rv b e', on_hw (qdma_mbox_rcv is_vf raw) e = Some ((rv, b), e') ∧ length b = length raw ∧ lock_free e'.
Proof using.
  intros Hl He. destruct (rcv_returns is_vf raw e.1 Hl) as (rv & b & h & Eq & Hb & Hh).
  unfold on_hw. rewrite Eq. eexists rv, b, _. split; [done|]. split; [done|]. unfold lock_free. cbn. by rewrite Hh.
Qed.
Lemma on_hw_disable is_vf e : lock_free e →
  ∃ e', on_hw_ (qdma_mbox_disable_interrupts is_vf) e = Some e' ∧ lock_free e'.
Proof using.
  intros He. destruct (on_hw_keeps (qdma_mbox_disable_interrupts is_vf) e) as (a & e' & Eq & He');
    [apply keeps_write|done|]. exists e'. unfold on_hw_. by rewrite Eq.
Qed.

(** The handler of a virtual function: a computation on messages of the size
    they are declared with. *)
Definition small_ok {A} (m : mbm dev A) : Prop := ∀ t : mbox_state dev,
  (wire_size ≤ length (ms_rcv t))%nat → (wire_size ≤ length (ms_resp t))%nat →
  ∃ a t', m t = Some (a, t') ∧ ms_hw t' = ms_hw t ∧ length (ms_rcv t') = length (ms_rcv t) ∧
    length (ms_resp t') = length (ms_resp t).

Lemma small_ret {A} (a : A) : small_ok (mret a).
Proof using. intros t _ _. by exists a, t. Qed.
Lemma small_bind {A B} (m : mbm dev A) (k : A → mbm dev B) :
  small_ok m → (∀ a, small_ok (k a)) → small_ok (m ≫= k).
Proof using.
  intros Hm Hk t Hr Hp. destruct (Hm t Hr Hp) as (a & t1 & E1 & H1 & R1 & P1).
  destruct (Hk a t1) as (b & t2 & E2 & H2 & R2 & P2); [by rewrite R1|by rewrite P1|].
  exists b, t2. unfold mbind, mbm_bind. rewrite E1. split_and!; [done|congruence..].
Qed.
Lemma small_rcv f : (f.1 + f.2 ≤ wire_size)%nat → small_ok (rcv (rd f)).
Proof using. intros Hf t Hr Hp. unfold rcv. rewrite rd_eq by lia. by eexists _, _. Qed.
Lemma small_resp f v : (f.1 + f.2 ≤ wire_size)%nat → small_ok (resp (wr f v)).
Proof using.
  intros Hf t Hr Hp. unfold resp. rewrite wr_eq by lia. eexists _, _. split; [done|].
  split_and!; [done..|]. apply length_put. lia.
Qed.

Lemma small_vf_handler : small_ok qdma_mbox_vf_rcv_msg_handler.
Proof using.
  assert (Hin : ∀ f : field, f = hdr_op ∨ f = hdr_src_func_id ∨ f = hdr_dst_func_id → (f.1 + f.2 ≤ wire_size)%nat).
  { unfold wire_size, MBOX_MSG_REG_MAX. intros f [->|[->| ->]]; cbn; lia. }
  assert (Hrep : ∀ rv, small_ok (vf_reply rv)).
  { intros rv. unfold vf_reply.
    repeat (apply small_bind; [first [apply small_rcv|apply small_resp]; auto|intros ?]). apply small_ret. }
  unfold qdma_mbox_vf_rcv_msg_handler. apply small_bind; [apply small_rcv; auto|]. intros op.
  destruct (msg_op_of op) as [[]|]; auto using small_ret.
Qed.

Lemma run_small (m : mbm dev Z) b b' e : small_ok m → (wire_size ≤ length b)%nat → (wire_size ≤ length b')%nat →
  lock_free e → ∃ rv c c' e', run_handler m b b' e = Some ((rv, (c, c')), e') ∧
    length c = length b ∧ length c' = length b' ∧ lock_free e'.
Proof using.
  intros Hm Hb Hb' He. destruct (Hm (mk_mst e.1 e.2 b b') Hb Hb') as (rv & t & Eq & Hh & Hr & Hp).
  unfold run_handler. rewrite Eq. eexists _, _, _, _. split; [done|]. split_and!; [done..|].
  unfold lock_free. cbn. by rewrite Hh.
Qed.

#[export, refine] Instance vf_end_ok : @MboxEndOk end_state vf_end wire_size :=
  {| me_inv := lock_free; me_ok _ := True; |}.
Proof.
  - done.
  - intros raw e He Hl. apply on_hw_keeps; [|done]. apply keeps_send. by rewrite Hl.
  - intros raw e He Hl. destruct (on_hw_rcv true raw e) as (rv & b & e' & ? & ? & ?); [by rewrite Hl|done|].
    exists rv, b, e'. by rewrite <- Hl.
  - intros fid b b' e He Hb Hb' _.
    destruct (run_small qdma_mbox_vf_rcv_msg_handler b b' e) as (rv & c & c' & e' & ? & ? & ? & ?);
      [apply small_vf_handler|by rewrite Hb|by rewrite Hb'|done|].
    exists rv, c, c', e'. by split_and!; [|congruence..|].
  - intros e He. by apply on_hw_disable.
Defined.

(** The handler of a physical function, with the buffers of the driver: not the
    messages that need larger ones. *)
#[export, refine] Instance pf_end_ok `{!HwAccessOk dev} (ix : Z) :
    @MboxEndOk end_state (pf_end ix) wire_size :=
  {| me_inv := lock_free; me_ok b := rings_ok b ∧ resp_size b = msg_size; |}.
Proof.
  - done.
  - intros raw e He Hl. apply on_hw_keeps; [|done]. apply keeps_send. by rewrite Hl.
  - intros raw e He Hl. destruct (on_hw_rcv false raw e) as (rv & b & e' & ? & ? & ?); [by rewrite Hl|done|].
    exists rv, b, e'. by rewrite <- Hl.
  - intros fid b b' e He Hb Hb' [Hok Hsz].
    destruct (handler_returns ix fid (mk_mst e.1 e.2 b b')) as (rv & t & Eq & Hl & Hr & Hp & _).
    { split; cbn; [done|by rewrite Hb|by rewrite Hsz, Hb'|done]. }
    exists rv, (ms_rcv t), (ms_resp t), (ms_hw t, ms_rm t).
    split; [cbn; unfold run_handler; by rewrite Eq|]. cbn in Hr, Hp. by split_and!; [congruence..|].
  - intros e He. by apply on_hw_disable.
Defined.
End ends.
