(* ===== verification/MboxQueueEx.v ===== *)
(** * The mailbox queues on a mailbox

    A mailbox that takes every message and hands out the messages it was given
    beforehand.  A virtual function asks and is answered; a physical function
    empties its list.  Then the interleavings the theorems leave out: a sender
    that stops waiting while its message is in use, a message freed twice, an
    answer given to the wrong request. *)

From S2P Require Import Prelude Platform RegIO ResMgmt SoftAccess HwAccess QueueTypes.
From S2P Require Import MboxMsg MboxStruct MboxCompose MboxHandler MboxSafe MboxIO MboxThms.
From S2P Require Import MboxQueue MboxQueueInv MboxQueueThms MboxEnds.

(** ** A mailbox *)

(** The messages, as words, that wait to be received. *)
Record mailbox := mk_mailbox { mb_in : list (list Z) }.

(** The register of the message window an address is in. *)
Definition mb_reg (a : Z) : Z := if a <? 0x2000 then a - 0x1000 else a - 0x2400.

#[export] Instance mailbox_device : Device mailbox := {|
  dev_read a d :=
    let r := mb_reg a in
    (if r =? MBOX_FN_STATUS then match mb_in d with [] => 0 | _ :: _ => 1 end
     else if (MBOX_IN_MSG_BASE <=? r) && (r <? MBOX_IN_MSG_BASE + 128)
     then nth (Z.to_nat ((r - MBOX_IN_MSG_BASE) / 4)) (default [] (head (mb_in d))) 0
     else 0, d);
  dev_write a v d :=
    if (mb_reg a =? MBOX_FN_CMD) && (v =? F_MBOX_FN_CMD_RCV) then mk_mailbox (tail (mb_in d)) else d;
  dev_delay _ d := d;
|}.

Section accept.
Context {dev : Type} `{Device dev} `{HA : !HwAccess dev}.

(** A mailbox that never says that it is busy takes every message. *)
Lemma send_accepted is_vf b s :
  (∀ d, Z.land (dev_read (u32 (get_mbox_offset is_vf + MBOX_FN_STATUS)) d).1 F_MBOX_FN_STATUS_OUT_MSG = 0) →
  (wire_size ≤ length b)%nat → hw_prg_lock s = false →
  ∃ s', qdma_mbox_send is_vf b s = Some (0, s') ∧ hw_prg_lock s' = false.
Proof using.
  unfold wire_size, MBOX_MSG_REG_MAX. intros Hst Hb Hl. unfold qdma_mbox_send.
  erewrite bind_hw; [|apply rd_buf_eq; cbn; lia]. erewrite bind_hw; [|apply reg_read_eq]. rewrite Hst.
  set (s1 := mk_hw _ _).
  change (negb (0 =? 0)) with false. cbv iota.
  match goal with |- ∃ s', (?c ≫= ?k) s1 = _ ∧ _ =>
    assert (∃ s2, c s1 = Some (tt, s2) ∧ hw_prg_lock s2 = false) as (s2 & E2 & L2) by (destruct is_vf; by eexists) end.
  rewrite (bind_hw _ _ _ _ _ E2).
  destruct (keeps_send_words b (get_mbox_offset is_vf) MBOX_MSG_REG_MAX 0 ltac:(unfold MBOX_MSG_REG_MAX; lia) s2 L2)
    as ([] & s3 & E3 & L3). rewrite (bind_hw _ _ _ _ _ E3). cbv zeta.
  match goal with |- ∃ s', (?c ≫= ?k) s3 = _ ∧ _ =>
    assert (∃ s4, c s3 = Some (tt, s4) ∧ hw_prg_lock s4 = false) as (s4 & E4 & L4) by (destruct is_vf; by eexists) end.
  rewrite (bind_hw _ _ _ _ _ E4). by eexists.
Qed.
End accept.

Lemma mailbox_idle is_vf d :
  Z.land (dev_read (u32 (get_mbox_offset (dev := mailbox) is_vf + MBOX_FN_STATUS)) d).1 F_MBOX_FN_STATUS_OUT_MSG = 0.
Proof. destruct is_vf; cbn; by destruct (mb_in d). Qed.

(** ** Runs *)

(** [calm] and [enabled] where they can be computed. *)
Section check.
Context {E : Type} `{ME : !MboxEnd E} (raw_size : nat).

Definition may_b (a : mact) (s : msys E) : bool :=
  match a with
  | ANew raw => Nat.eqb (length raw) raw_size
  | ASend m _ _ => bool_decide (sy_snd s !! m = Some SOwn)
  | AWaitOver m => bool_decide (sy_snd s !! m = Some SWait)
  | AGiveUp m => bool_decide (sy_snd s !! m = Some SGiveUp)
  | AFree m => match sy_snd s !! m with Some SOwn | Some (SBack _) => true | _ => false end
  | ATimer => mx_timer (sy_mbox s)
  | AWork | AIrq => true
  end.
Definition calm_b (s : msys E) : bool :=
  negb (mx_offline (sy_mbox s)) &&
  match hand (sy_work s) with
  | Some m => match sy_snd s !! m with None | Some SWait => true | _ => false end
  | None => true
  end &&
  (me_is_vf || bool_decide (map_Forall (λ _ t, t ≠ SWait ∧ t ≠ SGiveUp) (sy_snd s))).

Lemma calm_b_ok s : calm_b s = true → calm s.
Proof using.
  unfold calm_b. intros [[Ho Hh]%andb_prop Hp]%andb_prop. apply negb_true_iff in Ho.
  split; [done|]. split.
  - intros m Hm. rewrite Hm in Hh. unfold sender_stays. destruct (sy_snd s !! m) as [[]|]; try done; auto.
  - intros Hvf m. rewrite Hvf in Hp. apply bool_decide_eq_true in Hp.
    split; intros Hs; by destruct (Hp m _ Hs).
Qed.

Fixpoint run_calm (l : list mact) (s : msys E) : option (msys E) :=
  match l with
  | [] => Some s
  | a :: l => if calm_b s && may_b a s then s ← mstep raw_size a s; run_calm l s else None
  end.
End check.

Section reach.
Context {E : Type} `{ME : MboxEnd E} {raw_size : nat} `{MO : !MboxEndOk E raw_size}.

Lemma may_b_ok a (s : msys E) : (∀ b, me_ok b) → may_b raw_size a s = true → may a s.
Proof using.
  intros Hok Ha. split; [|intros ? ?; apply Hok]. destruct a; cbn in Ha |- *; try done; try (by apply bool_decide_eq_true in Ha).
  - by apply Nat.eqb_eq.
  - destruct (sy_snd s !! m) as [[]|]; try done; eauto.
Qed.

Lemma reach_calm l (s s' : msys E) : (∀ b, me_ok b) → mreach s → run_calm raw_size l s = Some s' → mreach s'.
Proof using.
  intros Hok. revert s. induction l as [|a l IH]; intros s Hr; cbn [run_calm]; [by intros [= <-]|].
  destruct (calm_b s && may_b raw_size a s) eqn:Hc; [|done]. apply andb_prop in Hc as [Hc Ha].
  destruct (mstep raw_size a s) as [s1|] eqn:Hs; [|done]. cbn. apply IH.
  eapply mreach_step; [done|by apply calm_b_ok|by apply may_b_ok|done].
Qed.
End reach.

(** A message of [n] bytes with an operation and a word behind its header. *)
Definition mx_raw (n : nat) (op body : Z) : buf := put (raw_word 2) body (put hdr_op op (replicate n 0)).
Definition mx_incoming (op body : Z) : list Z := words_of (mx_raw wire_size op body).
Definition mx_answer_op (op : mbox_msg_op) : Z := msg_op_val op + MBOX_MSG_OP_RSP_OFFSET.
Definition mx_request : buf := mx_raw wire_size (msg_op_val MBOX_OP_QREQ) 7.

Definition mx_begin {dev} (n : nat) (offline : bool) (d : dev) : msys (end_state (dev := dev)) :=
  mk_msys (mk_mbox (mk_hw d false, rm_init []) ∅ 0 [] [] [] (replicate n 0)
    false false false false false offline RESET_STATE_IDLE 0 0 [] 0 []) WIdle ∅.
Definition mx_start (n : nat) (offline : bool) (incoming : list (list Z)) : msys (end_state (dev := mailbox)) :=
  mx_begin n offline (mk_mailbox incoming).

Notation vf_run := (run_calm (ME := vf_end) wire_size).
Notation pf_run := (run_calm (ME := pf_end 0) wire_size).
Notation vf_steps := (msteps (ME := vf_end) wire_size).
Notation pf_steps := (msteps (ME := pf_end 0) wire_size).
Notation vf_reach := (mreach (ME := vf_end) (raw_size := wire_size)).
Notation pf_reach := (mreach (ME := pf_end 0) (raw_size := wire_size)).

Lemma mx_start_vf l : vf_reach (mx_start wire_size false l).
Proof. apply mreach_start. by split_and!. Qed.
Lemma mx_start_pf l : pf_reach (mx_start wire_size false l).
Proof. apply mreach_start. by split_and!. Qed.

(** *** A request of a virtual function and its answer *)

Definition works (n : nat) : list mact := replicate n AWork.
Definition mx_exchange : list mact :=
  [ANew mx_request; ASend 0 true QDMA_MBOX_MSG_TIMEOUT_MS] ++ works 6 ++ [AIrq] ++ works 7 ++ [AWaitOver 0].
Definition mx_after (l : list mact) (incoming : list (list Z)) : msys (end_state (dev := mailbox)) :=
  default (mx_start wire_size true []) (vf_run l (mx_start wire_size false incoming)).
Definition mx_answered : msys (end_state (dev := mailbox)) :=
  mx_after mx_exchange [mx_incoming (mx_answer_op MBOX_OP_QREQ) 9].

Lemma mx_reach l incoming : is_Some (vf_run l (mx_start wire_size false incoming)) → vf_reach (mx_after l incoming).
Proof.
  intros [s Hs]. unfold mx_after. rewrite Hs. cbn. by eapply (reach_calm l); [|apply (mx_start_vf incoming)|exact Hs].
Qed.

Lemma mx_answered_reach : vf_reach mx_answered.
Proof. apply mx_reach. eexists. vm_compute. reflexivity. Qed.
Lemma mx_answered_calm : calm (ME := vf_end) mx_answered.
Proof. apply calm_b_ok. vm_compute. reflexivity. Qed.

(** The sender is back and reads the answer's word. *)
Example exchange_result :
  (λ y, get (raw_word 2) (m_raw y)) <$> mx_msgs (sy_mbox mx_answered) !! 0 = Some 9 ∧
  sy_snd mx_answered !! 0 = Some (SBack 0) ∧ sy_work mx_answered = WIdle ∧ mx_timer (sy_mbox mx_answered) = false.
Proof. vm_compute. auto. Qed.

(** *** The theorems on runs of the mailbox *)

(** The work queue is about to give the request its answer. *)
Definition mx_giving : msys (end_state (dev := mailbox)) :=
  mx_after (take 13 mx_exchange) [mx_incoming (mx_answer_op MBOX_OP_QREQ) 9].

Lemma transport_safe_witness :
  sy_work mx_giving = WRxGive (Some 0) ∧ is_Some (mstep (ME := vf_end) wire_size AWork mx_giving).
Proof.
  split; [vm_compute; reflexivity|].
  apply (transport_safe (ME := vf_end) (raw_size := wire_size) AWork mx_giving).
  - apply mx_reach. eexists. vm_compute. reflexivity.
  - apply calm_b_ok. vm_compute. reflexivity.
  - by apply may_b_ok.
Defined.

Lemma transport_answers_witness :
  sy_snd mx_answered !! 0 = Some (SBack 0) ∧
  ∃ y, mx_msgs (sy_mbox mx_answered) !! 0 = Some y ∧ answered (mx_ev (sy_mbox mx_answered)) 0 y.
Proof.
  assert (Hs : sy_snd mx_answered !! 0 = Some (SBack 0)) by (vm_compute; reflexivity). split; [done|].
  destruct (transport_answers (ME := vf_end) (raw_size := wire_size) mx_answered 0) as [Ha _];
    [apply mx_answered_reach|apply mx_answered_calm|by apply Ha].
Defined.

(** Three messages are queued, the second is given up by its sender, the first is
    with the hardware. *)
Definition mx_order : list mact :=
  [ANew mx_request; ASend 0 false 1000; ANew mx_request; ASend 1 true 1000; ANew mx_request; ASend 2 false 1000;
   AWork; AWork; AWork; AWaitOver 1; AGiveUp 1].
Lemma transport_order_witness :
  let s := mx_after mx_order [] in
  let ev := mx_ev (sy_mbox s) in
  queued ev = [0; 1; 2] ∧ lost ev = [1] ∧ sent ev = [0] ∧
  sent ev ++ unsent (sy_work s) (mx_tx_todo_list (sy_mbox s)) = filter (λ m : Z, m ∉ lost ev) (queued ev).
Proof.
  intros s ev. do 3 (split; [vm_compute; reflexivity|]).
  apply (transport_order (ME := vf_end) (raw_size := wire_size) s).
  - apply mx_reach. eexists. vm_compute. reflexivity.
  - apply calm_b_ok. vm_compute. reflexivity.
Defined.

Lemma mailbox_accepts : accepts (ME := vf_end) (raw_size := wire_size) (E := end_state (dev := mailbox)).
Proof.
  intros raw e He Hl. destruct (send_accepted true raw e.1) as (h & Hs & Hh); [|by rewrite Hl|exact He|].
  - apply (mailbox_idle true).
  - exists (h, e.2). split; [|exact Hh]. cbn. unfold on_hw. by rewrite Hs.
Qed.

(** Two messages without answer and a request. *)
Definition mx_three : list mact :=
  [ANew mx_request; ASend 0 false 1000; ANew mx_request; ASend 1 true 1000; ANew mx_request; ASend 2 false 1000; AWork].
Lemma send_work_empties_witness :
  let s := mx_after mx_three [] in
  mx_tx_todo_list (sy_mbox s) = [0; 1; 2] ∧
  ∃ s', vf_steps (works 13) s = Some s' ∧ sy_work s' = WIdle ∧ mx_tx_todo_list (sy_mbox s') = [] ∧
    sent (mx_ev (sy_mbox s')) = sent (mx_ev (sy_mbox s)) ++ [0; 1; 2].
Proof.
  intros s. assert (Ht : mx_tx_todo_list (sy_mbox s) = [0; 1; 2]) by (vm_compute; reflexivity). split; [done|].
  destruct (send_work_empties (ME := vf_end) (raw_size := wire_size) s) as (s' & Hr & Hw & Hl & Hse).
  - apply mx_reach. eexists. vm_compute. reflexivity.
  - apply calm_b_ok. vm_compute. reflexivity.
  - vm_compute. reflexivity.
  - apply mailbox_accepts.
  - rewrite Ht. intros m Hm. unfold sender_stays. repeat (apply elem_of_cons in Hm as [->|Hm]); [| | |by apply elem_of_nil in Hm];
      vm_compute; auto.
  - rewrite Ht in Hr, Hse. exists s'. by split_and!.
Defined.

(** ** What the theorems leave out *)

(** A sender whose time is up, or that a signal interrupts, takes its message
    from the list and frees it while the work queue has it in its hands: the
    work queue then reads the freed message, or unlinks it a second time. *)
Example interrupted_before_send :
  is_Some (vf_steps ([ANew mx_request; ASend 0 true 1000] ++ works 2 ++ [AWaitOver 0; AGiveUp 0; AFree 0])
    (mx_start wire_size false [])) ∧
  vf_steps ([ANew mx_request; ASend 0 true 1000] ++ works 2 ++ [AWaitOver 0; AGiveUp 0; AFree 0; AWork])
    (mx_start wire_size false []) = None.
Proof. split; [eexists|]; vm_compute; reflexivity. Qed.
Example interrupted_after_send :
  is_Some (vf_steps ([ANew mx_request; ASend 0 true 1000] ++ works 3 ++ [AWaitOver 0; AGiveUp 0])
    (mx_start wire_size false [])) ∧
  vf_steps ([ANew mx_request; ASend 0 true 1000] ++ works 3 ++ [AWaitOver 0; AGiveUp 0; AWork])
    (mx_start wire_size false []) = None.
Proof. split; [eexists|]; vm_compute; reflexivity. Qed.

(** The mark that the answer is there is set before the answer is copied.  A
    sender that looks in between returns with success and its own request in
    the message; when it has freed it, the work queue copies into freed memory. *)
Example matched_before_copied :
  let s := mx_after (take 12 mx_exchange ++ [AWaitOver 0]) [mx_incoming (mx_answer_op MBOX_OP_QREQ) 9] in
  sy_snd s !! 0 = Some (SBack 0) ∧
  (λ y, get (raw_word 2) (m_raw y)) <$> mx_msgs (sy_mbox s) !! 0 = Some 7 ∧
  vf_steps [AFree 0; AWork; AWork] s = None.
Proof. vm_compute. auto. Qed.

(** An answer carries no number of its request: the late answer to a request
    that was given up goes to the next request of the same kind. *)
Example late_answer :
  let s := mx_after
    ([ANew mx_request; ASend 0 true 1000] ++ works 6 ++ [AWaitOver 0; AGiveUp 0; AFree 0] ++
     [ANew (mx_raw wire_size (msg_op_val MBOX_OP_QREQ) 8); ASend 1 true 1000] ++ works 6 ++ [AIrq] ++ works 7 ++
     [AWaitOver 1]) [mx_incoming (mx_answer_op MBOX_OP_QREQ) 9] in
  sent (mx_ev (sy_mbox s)) = [0; 1] ∧ sy_snd s !! 1 = Some (SBack 0) ∧
  (λ y, get (raw_word 2) (m_raw y)) <$> mx_msgs (sy_mbox s) !! 1 = Some 9.
Proof. vm_compute. auto. Qed.

(** A request of the physical function that arrives while a request of the
    virtual function waits for its answer is dropped. *)
Example request_dropped :
  let s := mx_after
    ([ANew mx_request; ASend 0 true 1000] ++ works 6 ++ [AIrq] ++ works 7)
    [mx_incoming (msg_op_val MBOX_OP_RESET_PREPARE) 0] in
  length (received (mx_ev (sy_mbox s))) = 1%nat ∧ mx_reset_state (sy_mbox s) = RESET_STATE_IDLE ∧
  mx_tx_todo_list (sy_mbox s) = [] ∧ sy_work s = WIdle.
Proof. vm_compute. auto. Qed.

(** A physical function that waits for an answer finds its message freed by the
    receiver. *)
Definition mx_reset : buf := mx_raw wire_size (msg_op_val MBOX_OP_RESET_PREPARE) 0.
Example answer_freed :
  is_Some (pf_steps ([ANew mx_reset; ASend 0 true 1000] ++ works 6 ++ [AIrq] ++ works 3)
    (mx_start wire_size false [mx_incoming (mx_answer_op MBOX_OP_RESET_PREPARE) 0])) ∧
  pf_steps ([ANew mx_reset; ASend 0 true 1000] ++ works 6 ++ [AIrq] ++ works 3 ++ [AWaitOver 0])
    (mx_start wire_size false [mx_incoming (mx_answer_op MBOX_OP_RESET_PREPARE) 0]) = None.
Proof. split; [eexists|]; vm_compute; reflexivity. Qed.

(** A mailbox that stays busy: while the device is offline, a message that is not
    taken is freed without being unlinked, and found by the next send work. *)
#[export] Instance stuck_mailbox : Device unit := {|
  dev_read _ _ := (F_MBOX_FN_STATUS_OUT_MSG, tt);
  dev_write _ _ _ := tt;
  dev_delay _ _ := tt;
|}.
Notation stuck_steps := (msteps (ME := vf_end (dev := unit)) wire_size).
Example offline_freed_linked :
  let l := [ANew mx_request; ASend 0 false 1000] ++ works 4 ++ [ANew mx_request; ASend 1 false 1000] ++ works 2 in
  (λ s, mx_tx_todo_list (sy_mbox s)) <$> stuck_steps l (mx_begin wire_size true tt) = Some [0; 1] ∧
  stuck_steps (l ++ [AWork]) (mx_begin wire_size true tt) = None.
Proof. split; vm_compute; reflexivity. Qed.
