(* ===== verification/StC2H.v ===== *)
(** * Streaming queues from card to host (qdma_st_c2h.c)

    The free list: pages the device writes packets to, the buffers cut from
    them, one for each descriptor of the ring.  The completion ring says which
    packets have arrived; reading copies them to the pages of a request and
    makes the buffers available again.

    The free list, the memory pages and the completion ring are part of the
    hardware state [c2h H] around a hardware [H], so the functions are
    computations of the queue monad and fit where the queue code calls them.
    [None] is an access outside an array or a page, to a page that was freed,
    or a loop that has not ended with the fuel given. *)

From S2P Require Import Prelude Platform SoftAccess QueueTypes DescRing Descq.

Definition S_C2H_CMPT_ENTRY_F_FORMAT : Z := 0.
Definition F_C2H_CMPT_ENTRY_F_FORMAT : Z := Z.shiftl 1 S_C2H_CMPT_ENTRY_F_FORMAT.
Definition S_C2H_CMPT_ENTRY_F_COLOR : Z := 1.
Definition F_C2H_CMPT_ENTRY_F_COLOR : Z := Z.shiftl 1 S_C2H_CMPT_ENTRY_F_COLOR.
Definition S_C2H_CMPT_ENTRY_F_ERR : Z := 2.
Definition F_C2H_CMPT_ENTRY_F_ERR : Z := Z.shiftl 1 S_C2H_CMPT_ENTRY_F_ERR.
Definition S_C2H_CMPT_ENTRY_F_DESC_USED : Z := 3.
Definition F_C2H_CMPT_ENTRY_F_DESC_USED : Z := Z.shiftl 1 S_C2H_CMPT_ENTRY_F_DESC_USED.
Definition S_C2H_CMPT_ENTRY_LENGTH : Z := 4.
Definition M_C2H_CMPT_ENTRY_LENGTH : Z := 0xFFFF.
Definition S_C2H_CMPT_ENTRY_F_EOT : Z := 20.
Definition F_C2H_CMPT_ENTRY_F_EOT : Z := Z.shiftl 1 S_C2H_CMPT_ENTRY_F_EOT.
Definition MAX_C2H_CNTR_STAGNANT_CNT : Z := 16.

(** ** Data *)

(** [struct qdma_sdesc_info], [struct qdma_sw_pg_sg].  The [next] pointers of
    the ring are [sd_next] below; a page is known by a number, 0 is NULL. *)
Record qdma_sdesc_info := mk_sdesc_info { si_valid : bool; si_sop : bool; si_eop : bool; si_cidx : Z }.
#[export] Instance eta_sdesc_info : Settable qdma_sdesc_info := λ d,
  mk_sdesc_info (si_valid d) (si_sop d) (si_eop d) (si_cidx d).
Record qdma_sw_pg_sg := mk_sw_pg_sg { pg_base : Z; pg_dma_base_addr : Z; pg_offset : Z }.
#[export] Instance eta_sw_pg_sg : Settable qdma_sw_pg_sg := λ d,
  mk_sw_pg_sg (pg_base d) (pg_dma_base_addr d) (pg_offset d).

(** [struct qdma_flq]; [fl_desc] has the addresses in the descriptors.  Arrays
    are empty when their pointers are NULL. *)
Record qdma_flq := mk_qdma_flq {
  fl_size : Z; fl_desc_buf_size : Z; fl_num_pages : Z; fl_num_pgs_mask : Z; fl_num_bufs_per_pg : Z;
  fl_alloc_idx : Z; fl_recycle_idx : Z; fl_max_pg_offset : Z; fl_buf_pg_mask : Z; fl_desc_pg_order : Z;
  fl_desc_pg_shift : Z; fl_buf_pg_shift : Z; fl_desc : list Z; fl_udd_cnt : Z; fl_pkt_cnt : Z;
  fl_pkt_dlen : Z; fl_alloc_fail : Z; fl_mapping_err : Z; fl_pidx_pend : Z;
  fl_pg_sdesc : list qdma_sw_pg_sg; fl_sdesc : list qdma_sw_sg; fl_sdesc_info : list qdma_sdesc_info;
}.
#[export] Instance eta_qdma_flq : Settable qdma_flq := λ d, mk_qdma_flq (fl_size d) (fl_desc_buf_size d)
  (fl_num_pages d) (fl_num_pgs_mask d) (fl_num_bufs_per_pg d) (fl_alloc_idx d) (fl_recycle_idx d)
  (fl_max_pg_offset d) (fl_buf_pg_mask d) (fl_desc_pg_order d) (fl_desc_pg_shift d) (fl_buf_pg_shift d)
  (fl_desc d) (fl_udd_cnt d) (fl_pkt_cnt d) (fl_pkt_dlen d) (fl_alloc_fail d) (fl_mapping_err d)
  (fl_pidx_pend d) (fl_pg_sdesc d) (fl_sdesc d) (fl_sdesc_info d).
Definition flq_zero : qdma_flq := mk_qdma_flq 0 0 0 0 0 0 0 0 0 0 0 0 [] 0 0 0 0 0 0 [] [] [].

(** [struct qdma_ul_cmpt_info]; [uc_entry] is where the entry is in the ring. *)
Record qdma_ul_cmpt_info := mk_ul_cmpt_info {
  uc_format : bool; uc_color : Z; uc_err : bool; uc_desc_used : bool; uc_eot : bool;
  uc_len : Z; uc_pidx : Z; uc_entry : Z;
}.
#[export] Instance eta_ul_cmpt_info : Settable qdma_ul_cmpt_info := λ d, mk_ul_cmpt_info (uc_format d)
  (uc_color d) (uc_err d) (uc_desc_used d) (uc_eot d) (uc_len d) (uc_pidx d) (uc_entry d).

(** A page, or a compound page: how often it is referenced, its size, its bytes. *)
Record page := mk_page { pp_refs : Z; pp_size : Z; pp_bytes : Z → Z }.
#[export] Instance eta_page : Settable page := λ d, mk_page (pp_refs d) (pp_size d) (pp_bytes d).

(** The members of struct qdma_descq and struct xlnx_dma_dev that measure the
    time of a packet's round trip. *)
Record ping_pong := mk_ping_pong {
  ping_pong_tx_time : Z; ping_pong_rx_time : Z; ping_pong_lat_min : Z; ping_pong_lat_max : Z;
  ping_pong_lat_total : Z;
}.
#[export] Instance eta_ping_pong : Settable ping_pong := λ d, mk_ping_pong (ping_pong_tx_time d)
  (ping_pong_rx_time d) (ping_pong_lat_min d) (ping_pong_lat_max d) (ping_pong_lat_total d).

(** What the device writes to host memory: the producer index in the status of
    the completion ring and the first word of the completion entry at an
    offset of the ring. *)
Class C2hHw (H : Type) := {
  cmpt_status_pidx : H → Z * H;
  cmpt_entry_word : Z → H → Z * H;
}.

(** [ch_cmpt_cur] is [desc_cmpt_cur] as an offset from the start of the ring. *)
Record c2h (H : Type) := mk_c2h {
  ch_hw : H; ch_flq : qdma_flq; ch_pages : gmap Z page; ch_next : Z; ch_mem : mem; ch_cmpt_cur : Z;
  ch_pp : ping_pong;
}.
Arguments mk_c2h {H} _ _ _ _ _ _ _.
Arguments ch_hw {H} _.
Arguments ch_flq {H} _.
Arguments ch_pages {H} _.
Arguments ch_next {H} _.
Arguments ch_mem {H} _.
Arguments ch_cmpt_cur {H} _.
Arguments ch_pp {H} _.
#[export] Instance eta_c2h H : Settable (c2h H) := λ s, mk_c2h (ch_hw s) (ch_flq s) (ch_pages s) (ch_next s)
  (ch_mem s) (ch_cmpt_cur s) (ch_pp s).

Definition on_ch {H A} (f : H → A * H) (c : c2h H) : A * c2h H :=
  let '(a, h) := f (ch_hw c) in (a, c <| ch_hw := h |>).
#[export] Instance c2h_queue_hw {H} `{QueueHw H} : QueueHw (c2h H) := {|
  queue_pidx_update qid ty i := on_ch (queue_pidx_update qid ty i);
  queue_cmpt_cidx_update qid i := on_ch (queue_cmpt_cidx_update qid i);
  desc_cmpl_status_cidx := on_ch desc_cmpl_status_cidx;
|}.

Section prim.
Context {H : Type}.

Definition getc : qm (c2h H) (c2h H) := λ s, Some (s_hw s, s).
Definition modc (f : c2h H → c2h H) : qm (c2h H) unit := λ s, Some (tt, s <| s_hw := f (s_hw s) |>).
Definition getf : qm (c2h H) qdma_flq := λ s, Some (ch_flq (s_hw s), s).
Definition modf (f : qdma_flq → qdma_flq) : qm (c2h H) unit := modc (λ c, c <| ch_flq := f (ch_flq c) |>).
Definition qlift {A} (o : option A) : qm (c2h H) A := λ s, a ← o; Some (a, s).

(** An entry of an array. *)
Definition nth_of {A} (l : list A) (i : Z) : qm (c2h H) A :=
  if i <? 0 then qfail else qlift (l !! Z.to_nat i).
Definition set_nth {A} (i : Z) (x : A) (l : list A) : list A := <[Z.to_nat i := x]> l.

Definition getpage (pg : Z) : qm (c2h H) page := c ← getc; qlift (ch_pages c !! pg).
Definition setpage (pg : Z) (p : page) : qm (c2h H) unit :=
  modc (λ c, c <| ch_pages := <[pg := p]> (ch_pages c) |>).
Definition page_ref_inc (pg : Z) : qm (c2h H) unit :=
  p ← getpage pg; setpage pg (p <| pp_refs := pp_refs p + 1 |>).
Definition put_page (pg : Z) : qm (c2h H) unit :=
  p ← getpage pg;
  if pp_refs p =? 1 then modc (λ c, c <| ch_pages := delete pg (ch_pages c) |>)
  else setpage pg (p <| pp_refs := pp_refs p - 1 |>).

(** [memcpy] of [n] bytes from offset [so] of page [src] to offset [o] of [dst]. *)
Definition copy_bytes (dst o src so n : Z) : qm (c2h H) unit :=
  if n =? 0 then mret tt
  else
    ps ← getpage src;
    pd ← getpage dst;
    if (pp_size ps <? so + n) || (pp_size pd <? o + n) || (so <? 0) || (o <? 0) then qfail
    else setpage dst (pd <| pp_bytes := λ a, if (o <=? a) && (a <? o + n) then pp_bytes ps (a - o + so)
                                             else pp_bytes pd a |>).

(** [put_page] on one page [n] times. *)
Fixpoint put_pages (n : nat) (pg : Z) : qm (c2h H) unit :=
  match n with
  | O => mret tt
  | S n => put_page pg;; put_pages n pg
  end.
End prim.

(** ** The free list *)

Section flq.
Context {H : Type} `{QueueHw H}.
(** [dma_map_page] on the whole of a new page and [dma_mapping_error]. *)
Variable dma_map_page : Z → Z.
Variable dma_mapping_error : Z → bool.

(** The entry a [next] pointer of the ring points to. *)
Definition sd_next (flq : qdma_flq) (i : Z) : Z := if i + 1 =? fl_size flq then 0 else i + 1.

Definition flq_free_one (i : Z) : qm (c2h H) unit :=
  flq ← getf;
  sg ← nth_of (fl_sdesc flq) i;
  d ← nth_of (fl_desc flq) i;
  let '(sg, d) := if sg_dma_addr sg =? 0 then (sg, d) else (sg <| sg_dma_addr := 0 |>, 0) in
  let sg := if sg_pg sg =? 0 then sg else sg <| sg_pg := 0 |> <| sg_offset := 0 |> in
  modf (λ flq, flq <| fl_sdesc := set_nth i sg (fl_sdesc flq) |> <| fl_desc := set_nth i d (fl_desc flq) |>).

Definition flq_fill_one (i : Z) : qm (c2h H) Z :=
  q ← getq;
  flq ← getf;
  if fl_num_pages flq =? 0 then mret (- EINVAL)
  else
    let buf_sz := fl_desc_buf_size flq in
    let pg_idx := Z.land (fl_alloc_idx flq) (fl_num_pgs_mask flq) in
    if fl_num_pages flq <=? pg_idx then mret (- EINVAL)
    else
      pg ← nth_of (fl_pg_sdesc flq) pg_idx;
      if pg_base pg =? 0 then mret (- EINVAL)
      else if fl_max_pg_offset flq <? u32 (pg_offset pg + buf_sz) then mret (- ENOMEM)
      else
        sg ← nth_of (fl_sdesc flq) i;
        nth_of (fl_desc flq) i;;
        let dma_addr := u64 (pg_dma_base_addr pg + pg_offset pg) in
        let sg := sg <| sg_pg := pg_base pg |> <| sg_offset := pg_offset pg |> <| sg_dma_addr := dma_addr |>
                     <| sg_len := qc_c2h_bufsz (dq_conf q) |> in
        page_ref_inc (pg_base pg);;
        let offset := u32 (pg_offset pg + buf_sz) in
        modf (λ flq, flq <| fl_sdesc := set_nth i sg (fl_sdesc flq) |>
                         <| fl_desc := set_nth i dma_addr (fl_desc flq) |>
                         <| fl_pg_sdesc := set_nth pg_idx (pg <| pg_offset := offset |>) (fl_pg_sdesc flq) |>
                         <| fl_alloc_idx := if fl_max_pg_offset flq <? u32 (offset + buf_sz)
                                            then u32 (fl_alloc_idx flq + 1) else fl_alloc_idx flq |>);;
        mret 0.

(** On the entry [k] of the page array. *)
Definition flq_unmap_page_one (k : Z) : qm (c2h H) unit :=
  flq ← getf;
  pg ← nth_of (fl_pg_sdesc flq) k;
  qwhen (nz (pg_dma_base_addr pg))
    (modf (λ flq, flq <| fl_pg_sdesc := set_nth k (pg <| pg_dma_base_addr := 0 |>) (fl_pg_sdesc flq) |>)).

(** The entries of an array that was not allocated: the first is NULL, which
    is skipped; the others are not. *)
Definition flq_free_page_one (k : Z) : qm (c2h H) unit :=
  flq ← getf;
  if (k =? 0) && bool_decide (length (fl_pg_sdesc flq) = 0%nat) then mret tt else
  pg ← nth_of (fl_pg_sdesc flq) k;
  if pg_base pg =? 0 then mret tt
  else
    let page_count := u32 (Z.shiftr (pg_offset pg) (fl_desc_pg_shift flq) + 1) in
    flq_unmap_page_one k;;
    put_pages (Z.to_nat page_count) (pg_base pg);;
    modf (λ flq, flq <| fl_pg_sdesc := set_nth k (mk_sw_pg_sg 0 0 (pg_offset pg)) (fl_pg_sdesc flq) |>).

(** [for (i = ...; i < ...; i++)] over [n] entries from [i] on. *)
Fixpoint for_entries (n : nat) (i : Z) (body : Z → qm (c2h H) unit) : qm (c2h H) unit :=
  match n with
  | O => mret tt
  | S n => body i;; for_entries n (i + 1) body
  end.
(** The same with a result that ends the loop when it is negative. *)
Fixpoint try_entries (n : nat) (i : Z) (body : Z → qm (c2h H) Z) : qm (c2h H) Z :=
  match n with
  | O => mret 0
  | S n => rv ← body i; if rv <? 0 then mret rv else try_entries n (i + 1) body
  end.

Definition descq_flq_free_page_resource : qm (c2h H) unit :=
  flq ← getf;
  for_entries (Z.to_nat (fl_num_pages flq)) 0 flq_free_page_one;;
  modf (λ _, flq_zero).

Definition descq_flq_free_resource : qm (c2h H) unit :=
  flq ← getf;
  match fl_sdesc flq with
  | [] => mret tt
  | _ =>
      for_entries (Z.to_nat (fl_size flq)) 0 flq_free_one;;
      modf (λ flq, flq <| fl_sdesc := [] |> <| fl_sdesc_info := [] |>)
  end.

(** [alloc_pages_node] with the bytes of the page as they happen to be (here
    zero), and its mapping. *)
Definition flq_fill_page_one (k : Z) : qm (c2h H) Z :=
  flq ← getf;
  c ← getc;
  nth_of (fl_pg_sdesc flq) k;;
  let '(ok, mm) := qdma_calloc (ch_mem c) in
  modc (λ c, c <| ch_mem := mm |>);;
  if negb ok then mret (- ENOMEM)
  else
    let pg := ch_next c in
    let mapping := dma_map_page pg in
    modc (λ c, c <| ch_next := pg + 1 |>);;
    setpage pg (mk_page 1 (Z.shiftl PAGE_SIZE (fl_desc_pg_order flq)) (λ _, 0));;
    if dma_mapping_error mapping then put_page pg;; mret (- EINVAL)
    else
      modf (λ flq, flq <| fl_pg_sdesc := set_nth k (mk_sw_pg_sg pg mapping 0) (fl_pg_sdesc flq) |>);;
      mret 0.

Definition sg_zero : qdma_sw_sg := mk_qdma_sw_sg 0 0 0 0.
Definition sinfo_zero : qdma_sdesc_info := mk_sdesc_info false false false 0.

(** The number of pages for the buffers of the ring. *)
Definition flq_num_pages (size num_bufs_per_pg : Z) : Z :=
  let n := get_next_powof2 (size / num_bufs_per_pg + (if size mod num_bufs_per_pg =? 0 then 0 else 1)) in
  if n <? size then u32 (Z.shiftl n 1) else n.

Definition descq_flq_alloc_resource : qm (c2h H) Z :=
  flq ← getf;
  let num_bufs_per_pg := Z.shiftr (fl_max_pg_offset flq) (fl_desc_pg_shift flq) in
  modf (λ flq, flq <| fl_num_bufs_per_pg := num_bufs_per_pg |>);;
  if num_bufs_per_pg =? 0 then mret (- EINVAL)
  else
    let num_pages := flq_num_pages (fl_size flq) num_bufs_per_pg in
    modf (λ flq, flq <| fl_num_pages := num_pages |> <| fl_num_pgs_mask := u32 (num_pages - 1) |>);;
    c ← getc;
    let '(ok, mm) := qdma_calloc (ch_mem c) in
    modc (λ c, c <| ch_mem := mm |>);;
    if negb ok then mret (- ENOMEM)
    else
      modf (λ flq, flq <| fl_pg_sdesc := replicate (Z.to_nat num_pages) (mk_sw_pg_sg 0 0 0) |>);;
      rv ← try_entries (Z.to_nat num_pages) 0 flq_fill_page_one;
      if rv <? 0 then descq_flq_free_page_resource;; mret rv
      else
        c ← getc;
        let '(ok, mm) := qdma_calloc (ch_mem c) in
        modc (λ c, c <| ch_mem := mm |>);;
        if negb ok then descq_flq_free_page_resource;; mret (- ENOMEM)
        else
          let n := Z.to_nat (fl_size flq) in
          modf (λ flq, flq <| fl_sdesc := replicate n sg_zero |> <| fl_sdesc_info := replicate n sinfo_zero |>
                           <| fl_alloc_idx := 0 |>);;
          rv ← try_entries n 0 flq_fill_one;
          if rv <? 0 then descq_flq_free_resource;; descq_flq_free_page_resource;; mret rv
          else mret 0.

(** The part of qdma_descq_alloc_resource for these queues, with the descriptor
    ring that was just allocated. *)
Definition flq_setup : qm (c2h H) Z :=
  q ← getq;
  let c := dq_conf q in
  let desc_buf_size := get_next_powof2 (qc_c2h_bufsz c) in
  let desc_pg_shift := u8 (fls desc_buf_size - 1) in
  let desc_pg_order := if desc_pg_shift <? PAGE_SHIFT then 0 else desc_pg_shift - PAGE_SHIFT in
  let buf_pg_shift := u8 (fls (qc_c2h_bufsz c) - 1) in
  modf (λ flq, flq <| fl_desc := replicate (Z.to_nat (qc_rngsz c)) 0 |> <| fl_size := qc_rngsz c |>
    <| fl_buf_pg_shift := buf_pg_shift |> <| fl_buf_pg_mask := Z.shiftl 1 buf_pg_shift - 1 |>
    <| fl_desc_buf_size := desc_buf_size |> <| fl_desc_pg_shift := desc_pg_shift |>
    <| fl_desc_pg_order := desc_pg_order |> <| fl_max_pg_offset := Z.shiftl PAGE_SIZE desc_pg_order |>);;
  descq_flq_alloc_resource.

(** *** Refilling *)

(** The first loop of flq_refill_pages: take [count] buffers back from the
    pages, starting at page [n_recycle_index]. *)
Fixpoint take_back (fuel : nat) (i count n_recycle_index : Z) (recycle : bool) : qm (c2h H) Z :=
  if count <=? i then mret n_recycle_index
  else
    match fuel with
    | O => qfail
    | S fuel =>
        q ← getq;
        flq ← getf;
        let k := Z.land n_recycle_index (fl_num_pgs_mask flq) in
        pg ← nth_of (fl_pg_sdesc flq) k;
        let free_bufs_in_pg := min_u32 (Z.shiftr (pg_offset pg) (fl_desc_pg_shift flq)) (count - i) in
        let offset := u32 (pg_offset pg - free_bufs_in_pg * fl_desc_buf_size flq) in
        modf (λ flq, flq <| fl_pg_sdesc := set_nth k (pg <| pg_offset := offset |>) (fl_pg_sdesc flq) |>);;
        (if negb recycle && negb (qc_fp_descq_c2h_packet (dq_conf q))
         then put_pages (Z.to_nat free_bufs_in_pg) (pg_base pg) else mret tt);;
        take_back fuel (i + free_bufs_in_pg) count
          (if offset =? 0 then u32 (n_recycle_index + 1) else n_recycle_index) recycle
    end.

(** Its second loop: new pages for the ones with no buffer in use. *)
Fixpoint renew_pages (fuel : nat) : qm (c2h H) unit :=
  match fuel with
  | O => qfail
  | S fuel =>
      flq ← getf;
      let k := Z.land (fl_recycle_idx flq) (fl_num_pgs_mask flq) in
      pg ← nth_of (fl_pg_sdesc flq) k;
      if nz (pg_offset pg) || (fl_recycle_idx flq =? fl_alloc_idx flq) then mret tt
      else
        flq_unmap_page_one k;;
        put_page (pg_base pg);;
        rv ← flq_fill_page_one k;
        if rv <? 0 then mret tt
        else
          modf (λ flq, flq <| fl_recycle_idx := u32 (fl_recycle_idx flq + 1) |>);;
          renew_pages fuel
  end.

Definition flq_refill_pages (fuel : nat) (count : Z) (recycle : bool) : qm (c2h H) Z :=
  flq ← getf;
  n_recycle_index ← take_back fuel 0 count (fl_recycle_idx flq) recycle;
  (if recycle then modf (λ flq, flq <| fl_recycle_idx := n_recycle_index |>) else renew_pages fuel);;
  mret 0.

(** The loop over [n] descriptors from [idx] on; [i] are done.  The result is
    the number of descriptors made available. *)
Fixpoint refill_loop (n : nat) (idx i : Z) (recycle : bool) : qm (c2h H) Z :=
  match n with
  | O => mret i
  | S n =>
      q ← getq;
      flq ← getf;
      let idx := if idx =? fl_size flq then 0 else idx in
      rv ← (if recycle then
              sg ← nth_of (fl_sdesc flq) idx;
              modf (λ flq, flq <| fl_sdesc := set_nth idx (sg <| sg_len := qc_c2h_bufsz (dq_conf q) |>)
                                                (fl_sdesc flq) |>);; mret 0
            else flq_free_one idx;; flq_fill_one idx);
      if rv <? 0 then
        modf (λ flq, if rv =? - ENOMEM then flq <| fl_alloc_fail := u64 (fl_alloc_fail flq + 1) |>
                     else flq <| fl_mapping_err := u64 (fl_mapping_err flq + 1) |>);;
        mret i
      else
        flq ← getf;
        si ← nth_of (fl_sdesc_info flq) idx;
        modf (λ flq, flq <| fl_sdesc_info := set_nth idx (mk_sdesc_info false false false (si_cidx si))
                                               (fl_sdesc_info flq) |>);;
        modq (λ q, q <| dq_avail := u32 (dq_avail q + 1) |>);;
        refill_loop n (idx + 1) (i + 1) recycle
  end.

Definition qdma_flq_refill (fuel : nat) (idx count : Z) (recycle : bool) : qm (c2h H) Z :=
  (if recycle then mret tt else flq_refill_pages fuel count recycle;; mret tt);;
  i ← refill_loop (Z.to_nat count) idx 0 recycle;
  q ← getq;
  (match dq_work_list q, dq_pend_list q with
   | [], [] =>
       modq (λ q, q <| dq_pend_list_empty := true |>);;
       qwhen (dq_q_stop_wait q) (qevent EvPendEmpty)
   | _, _ => mret tt
   end);;
  mret i.

(** ** Reading *)

(** The round trip time of a packet that carries its time of transmission. *)
Definition latency_update (pkt_tx_time : Z) (p : ping_pong) : ping_pong :=
  if pkt_tx_time =? ping_pong_tx_time p then
    let latency := u64 (ping_pong_rx_time p - pkt_tx_time) in
    let p := if (latency <? ping_pong_lat_min p) || (ping_pong_lat_min p =? 0)
             then p <| ping_pong_lat_min := latency |> else p in
    let p := if (ping_pong_lat_max p <? latency) || (ping_pong_lat_max p =? 0)
             then p <| ping_pong_lat_max := latency |> else p in
    p <| ping_pong_lat_total := u64 (ping_pong_lat_total p + latency) |>
  else p.

(** The little-endian number in [n] bytes at an offset of a page. *)
Fixpoint word_at (n : nat) (bytes : Z → Z) (o : Z) : Z :=
  match n with
  | O => 0
  | S n => bytes o + 256 * word_at n bytes (o + 1)
  end.
Definition ping_pong_check (pg o : Z) : qm (c2h H) unit :=
  q ← getq;
  qwhen (nz (qc_ping_pong_en (dq_conf q)))
    (p ← getpage pg;
     if pp_size p <? o + 8 then qfail
     else modc (λ c, c <| ch_pp := latency_update (word_at 8 (pp_bytes p) o) (ch_pp c) |>)).

(** Where a read is: what is left of the request's scatter list, the offset in
    its first entry, the index of that entry, the bytes copied. *)
Record rd_pos := mk_rd_pos { rp_tsg : list qdma_sw_sg; rp_tsgoff : Z; rp_j : Z; rp_copied : Z }.

(** The inner loop: copy [flen] bytes, the rest of the buffer [fsg] from its
    byte [foff] on.  When an entry of the scatter list is not filled, the
    buffer is used up.  The result has the new [foff]. *)
Fixpoint copy_buffer (no_memcpy : bool) (fsg : qdma_sw_sg) (flen foff : Z) (tsg : list qdma_sw_sg)
    (tsgoff j copied : Z) : qm (c2h H) (Z * rd_pos) :=
  match tsg with
  | [] => mret (foff, mk_rd_pos [] tsgoff j copied)
  | t :: tsg' =>
      if flen =? 0 then mret (foff, mk_rd_pos tsg tsgoff j copied)
      else
        let toff := u32 (sg_offset t + tsgoff) in
        let copy := min_u32 flen (sg_len t - tsgoff) in
        (if no_memcpy then mret tt else copy_bytes (sg_pg t) toff (sg_pg fsg) (sg_offset fsg + foff) copy);;
        ping_pong_check (sg_pg fsg) (sg_offset fsg);;
        let flen := flen - copy in
        let foff := u32 (foff + copy) in
        let tsgoff := u32 (tsgoff + copy) in
        let copied := u32 (copied + copy) in
        if tsgoff =? sg_len t then copy_buffer no_memcpy fsg flen foff tsg' 0 (j + 1) copied
        else mret (foff, mk_rd_pos tsg tsgoff j copied)
  end.

(** The outer loop over at most [n] buffers from [fpos] on: the number of
    buffers used up, the buffer reached and the bytes taken from it. *)
Fixpoint copy_buffers (n : nat) (no_memcpy : bool) (fpos i : Z) (p : rd_pos) :
    qm (c2h H) (Z * Z * Z * rd_pos) :=
  match n, rp_tsg p with
  | S n, _ :: _ =>
      flq ← getf;
      fsg ← nth_of (fl_sdesc flq) fpos;
      '(foff, p) ← copy_buffer no_memcpy fsg (sg_len fsg) 0 (rp_tsg p) (rp_tsgoff p) (rp_j p) (rp_copied p);
      if foff =? sg_len fsg then copy_buffers n no_memcpy (sd_next flq fpos) (i + 1) p
      else mret (i, fpos, foff, p)
  | _, _ => mret (i, fpos, 0, p)
  end.

Definition descq_st_c2h_read (r : Z) (update_pidx refill : bool) : qm (c2h H) Z :=
  q ← getq;
  flq ← getf;
  req ← getreq r;
  let cb := rq_cb req in
  let fsgcnt := ring_idx_delta (dq_pidx q) (fl_pidx_pend flq) (fl_size flq) in
  if fsgcnt =? 0 then mret 0
  else
    let tsg := drop (Z.to_nat (cb_sg_idx cb)) (rq_sgl req) in
    if nz (cb_sg_idx cb) && bool_decide (tsg = []) then mret (- EINVAL)
    else
      '(i, fpos, foff, p) ← copy_buffers (Z.to_nat fsgcnt) (rq_no_memcpy req) (fl_pidx_pend flq) 0
                              (mk_rd_pos tsg (cb_sg_offset cb) (cb_sg_idx cb) 0);
      incr_cmpl_desc_cnt i;;
      (if refill && nz i then qdma_flq_refill 0 (fl_pidx_pend flq) i true;; mret tt else mret tt);;
      modf (λ flq, flq <| fl_pidx_pend := ring_idx_incr (fl_pidx_pend flq) i (fl_size flq) |>);;
      (if nz foff then
         flq ← getf;
         fsg ← nth_of (fl_sdesc flq) fpos;
         modf (λ flq, flq <| fl_sdesc := set_nth fpos (fsg <| sg_offset := u32 (sg_offset fsg + foff) |>
                                                         <| sg_len := u32 (sg_len fsg - foff) |>)
                                           (fl_sdesc flq) |>)
       else mret tt);;
      rv ← (if nz i && update_pidx then
              flq ← getf;
              let idx := ring_idx_decr (fl_pidx_pend flq) 1 (fl_size flq) in
              modq (λ q, q <| dq_pidx_info := mk_pidx_info (u16 idx) (pri_irq_en (dq_pidx_info q)) |>);;
              descq_pidx_doorbell
            else mret 0);
      if rv <? 0 then mret (- EINVAL)
      else
        modcb r (λ cb, cb <| cb_sg_idx := rp_j p |> <| cb_sg_offset := rp_tsgoff p |>
                          <| cb_left := u32 (cb_left cb - rp_copied p) |>);;
        modf (λ flq, flq <| fl_pkt_dlen := u32 (fl_pkt_dlen flq - rp_copied p) |>);;
        mret (s32 (rp_copied p)).

(** The loop over the pending requests [l]. *)
Fixpoint read_pending (l : list Z) : qm (c2h H) unit :=
  match l with
  | [] => mret tt
  | r :: l =>
      req ← getreq r;
      if cb_left (rq_cb req) =? 0 then qdma_sgt_req_done r 0
      else
        rv ← descq_st_c2h_read r false false;
        if rv <? 0 then qdma_sgt_req_done r rv;; read_pending l
        else
          req ← getreq r;
          if cb_left (rq_cb req) =? 0 then qdma_sgt_req_done r 0;; read_pending l else mret tt
  end.
Definition qdma_c2h_packets_proc_dflt : qm (c2h H) Z :=
  q ← getq; read_pending (dq_pend_list q);; mret 0.
End flq.
