(* ===== verification/StC2HCmpt.v ===== *)
(** * Streaming queues from card to host: completions (qdma_st_c2h.c)

    The entries of the completion ring are parsed, each packet's descriptors
    are marked, the packets are read into the requests that wait, and the
    buffers are made available again.  Then the calls of the library that read
    packets. *)

From S2P Require Import Prelude Platform SoftAccess QueueTypes DescRing Descq DescqSubmit DescqConf StC2H.

(** [struct qdma_cmpl_ctrl] *)
Record qdma_cmpl_ctrl := mk_cmpl_ctrl {
  cc_cnt_th_idx : Z; cc_timer_idx : Z; cc_trigger_mode : Z; cc_en_stat_desc : Z; cc_cmpl_en_intr : Z;
}.

Section cmpt.
Context {H : Type} `{QueueHw H} `{C2hHw H}.
Variable dma_map_page : Z → Z.
Variable dma_mapping_error : Z → bool.
Notation qdma_flq_refill := (qdma_flq_refill dma_map_page dma_mapping_error).
Notation descq_st_c2h_read := (descq_st_c2h_read dma_map_page dma_mapping_error).
Notation qdma_c2h_packets_proc_dflt := (qdma_c2h_packets_proc_dflt dma_map_page dma_mapping_error).

(** ** Entries *)

Definition cmpt_next : qm (c2h H) unit :=
  q ← getq;
  modc (λ c, c <| ch_cmpt_cur := ch_cmpt_cur c + dq_cmpt_entry_len q |>);;
  let cidx := u32 (dq_cidx_cmpt q + 1) in
  if cidx =? qc_rngsz_cmpt (dq_conf q) then
    modq (λ q, q <| dq_cidx_cmpt := 0 |> <| dq_color := Z.lxor (dq_color q) 1 |>);;
    modc (λ c, c <| ch_cmpt_cur := 0 |>)
  else modq (λ q, q <| dq_cidx_cmpt := cidx |>).

Definition is_new_cmpl_entry (q : qdma_descq) (cmpl : qdma_ul_cmpt_info) : bool := uc_color cmpl =? dq_color q.

Definition cmpl_of_word (cur w : Z) : qdma_ul_cmpt_info :=
  let has f := negb (Z.land w f =? 0) in
  let format := has F_C2H_CMPT_ENTRY_F_FORMAT in
  let desc_used := has F_C2H_CMPT_ENTRY_F_DESC_USED in
  mk_ul_cmpt_info format (if has F_C2H_CMPT_ENTRY_F_COLOR then 1 else 0) (has F_C2H_CMPT_ENTRY_F_ERR)
    desc_used (has F_C2H_CMPT_ENTRY_F_EOT)
    (if negb format && desc_used then Z.land (Z.shiftr w S_C2H_CMPT_ENTRY_LENGTH) M_C2H_CMPT_ENTRY_LENGTH else 0)
    0 cur.


Definition parse_cmpl_entry : qm (c2h H) (Z * qdma_ul_cmpt_info) :=
  c ← getc;
  w ← hwcall (on_ch (cmpt_entry_word (ch_cmpt_cur c)));
  mret (0, cmpl_of_word (ch_cmpt_cur c) w).

(** The loop of get_fl_nr: how often [c2h_bufsz] goes into [l_len], and the
    rest.  The length goes down with each round. *)
Fixpoint fl_nr_loop (fuel : nat) (l_len c2h_bufsz l_fl_nr : Z) : Z * Z :=
  match fuel with
  | O => (l_fl_nr, l_len)
  | S fuel => if c2h_bufsz <=? l_len then fl_nr_loop fuel (l_len - c2h_bufsz) c2h_bufsz (l_fl_nr + 1)
              else (l_fl_nr, l_len)
  end.

(** The number of descriptors a packet uses, and the bytes in the last one. *)
Definition get_fl_nr (len c2h_bufsz pg_shift pg_mask : Z) : Z * Z :=
  if Z.land len (u32 (len - 1)) =? 0 then
    let l_fl_nr := if nz len then Z.shiftr (u32 (len + pg_mask)) pg_shift else 1 in
    let l_len := Z.land len pg_mask in
    (l_fl_nr, if l_len =? 0 then c2h_bufsz else l_len)
  else if len <=? c2h_bufsz then (1, len)
  else
    let '(l_fl_nr, l_len) := fl_nr_loop (Z.to_nat len) len c2h_bufsz 0 in
    if nz l_len then (l_fl_nr + 1, l_len) else (l_fl_nr, c2h_bufsz).

(** The handler of the upper layer for a packet: length, number of descriptors,
    the first of them, the completion entry. *)
Variable fp_descq_c2h_packet : Z → Z → option Z → option Z → qm (c2h H) Z.

(** The flags of the [n] descriptors from [i] on. *)
Fixpoint mark_valid (n : nat) (i cidx : Z) : qm (c2h H) unit :=
  match n with
  | O => mret tt
  | S n =>
      flq ← getf;
      si ← nth_of (fl_sdesc_info flq) i;
      modf (λ flq, flq <| fl_sdesc_info := set_nth i (si <| si_valid := true |> <| si_cidx := cidx |>)
                                             (fl_sdesc_info flq) |>);;
      mark_valid n (sd_next flq i) cidx
  end.
Definition mark (i : Z) (f : qdma_sdesc_info → qdma_sdesc_info) : qm (c2h H) unit :=
  flq ← getf;
  si ← nth_of (fl_sdesc_info flq) i;
  modf (λ flq, flq <| fl_sdesc_info := set_nth i (f si) (fl_sdesc_info flq) |>).

(** The result and [cmpl->pidx]. *)
Definition rcv_pkt (cmpl : qdma_ul_cmpt_info) (len : Z) : qm (c2h H) (Z * Z) :=
  q ← getq;
  flq ← getf;
  let pidx := uc_pidx cmpl in
  let rngsz := qc_rngsz (dq_conf q) in
  let '(fl_nr, l_len) := get_fl_nr len (qc_c2h_bufsz (dq_conf q)) (fl_desc_pg_shift flq)
                           (Z.shiftl 1 (fl_desc_pg_shift flq) - 1) in
  let last := ring_idx_incr pidx (fl_nr - 1) rngsz in
  let next := ring_idx_incr last 1 rngsz in
  let cidx_next := ring_idx_incr (dq_cidx_cmpt q) 1 (qc_rngsz_cmpt (dq_conf q)) in
  sg ← nth_of (fl_sdesc flq) last;
  modf (λ flq, flq <| fl_sdesc := set_nth last (sg <| sg_len := if len =? 0 then 0 else l_len |>) (fl_sdesc flq) |>);;
  if dq_avail q <? fl_nr then mret (- EBUSY, pidx)
  else
    modq (λ q, q <| dq_avail := u32 (dq_avail q - fl_nr) |>);;
    if qc_fp_descq_c2h_packet (dq_conf q) then
      rv ← fp_descq_c2h_packet len fl_nr (Some pidx)
             (if nz (qc_cmpl_udd_en (dq_conf q)) then Some (uc_entry cmpl) else None);
      if rv <? 0 then mret (rv, pidx)
      else modf (λ flq, flq <| fl_pidx_pend := next |>);; mret (0, next)
    else
      mark_valid (Z.to_nat fl_nr) pidx cidx_next;;
      mark pidx (λ si, si <| si_sop := true |>);;
      mark last (λ si, si <| si_eop := true |>);;
      modf (λ flq, flq <| fl_pkt_dlen := u32 (fl_pkt_dlen flq + len) |>
                       <| fl_udd_cnt := if nz (qc_cmpl_udd_en (dq_conf q)) then u32 (fl_udd_cnt flq + 1)
                                        else fl_udd_cnt flq |>);;
      mret (0, next).

(** Without the compile time option XMP_DISABLE_ST_C2H_CMPL. *)
Definition rcv_udd_only (cmpl : qdma_ul_cmpt_info) : qm (c2h H) Z :=
  q ← getq;
  if qc_fp_descq_c2h_packet (dq_conf q) then fp_descq_c2h_packet 0 0 None (Some (uc_entry cmpl))
  else modf (λ flq, flq <| fl_udd_cnt := u32 (fl_udd_cnt flq + 1) |>);; mret 0.

(** *** The adaptive counter *)

Definition set_counter_idx (v : Z) (i : qdma_q_cmpt_cidx_reg_info) : qdma_q_cmpt_cidx_reg_info :=
  mk_cmpt_info (cci_wrb_cidx i) v (cci_timer_idx i) (cci_trig_mode i) (cci_wrb_en i) (cci_irq_en i).
Definition set_irq_en (v : Z) (i : qdma_q_cmpt_cidx_reg_info) : qdma_q_cmpt_cidx_reg_info :=
  mk_cmpt_info (cci_wrb_cidx i) (cci_counter_idx i) (cci_timer_idx i) (cci_trig_mode i) (cci_wrb_en i) v.

Definition descq_adjust_c2h_cntr_avgs (x : xlnx_dma_dev) (q : qdma_descq) : qdma_descq :=
  let th := arr (xd_csr_c2h_cnt_th x) in
  let sorted := arr (xd_sorted_c2h_cntr x) in
  let si := dq_sorted_c2h_cntr_idx q in
  let avg := th (cci_counter_idx (dq_cmpt_cidx_info q)) in
  let opt := nz (qc_latency_optimize (dq_conf q)) in
  let hi := th (sorted (if si =? QDMA_GLOBAL_CSR_ARRAY_SZ - 1 then si else si + 1)) in
  let lo := th (sorted (if 0 <? si then si - 1 else si)) in
  q <| dq_c2h_pend_pkt_moving_avg := avg |>
    <| dq_c2h_pend_pkt_avg_thr_hi := Z.shiftr (u32 (if opt then hi + hi else avg + hi)) 1 |>
    <| dq_c2h_pend_pkt_avg_thr_lo := Z.shiftr (u32 (if opt then lo + lo else avg + lo)) 1 |>.

(** The thresholds are read into [unsigned char] variables; differences are
    [unsigned int]. *)
Definition take_counter (x : xlnx_dma_dev) (i : Z) (q : qdma_descq) : qdma_descq :=
  descq_adjust_c2h_cntr_avgs x
    (q <| dq_cmpt_cidx_info := set_counter_idx (u8 (arr (xd_sorted_c2h_cntr x) i)) (dq_cmpt_cidx_info q) |>
       <| dq_sorted_c2h_cntr_idx := i |>).

Definition descq_incr_c2h_cntr_th (x : xlnx_dma_dev) (q : qdma_descq) : qdma_descq :=
  let i := dq_sorted_c2h_cntr_idx q in
  if i =? QDMA_GLOBAL_CSR_ARRAY_SZ - 1 then q
  else
    let q := q <| dq_c2h_cntr_monitor_cnt := 0 |> in
    let val j := u8 (arr (xd_csr_c2h_cnt_th x) (u8 (arr (xd_sorted_c2h_cntr x) j))) in
    let curr := val i in
    let new := val (i + 1) in
    let avg := dq_c2h_pend_pkt_moving_avg q in
    if (avg <=? new) && (u32 (avg - curr) <=? u32 (new - avg)) then q
    else if new <? Z.shiftr (qc_rngsz (dq_conf q)) 1 then take_counter x (i + 1) q
    else q.

Definition descq_decr_c2h_cntr_th (x : xlnx_dma_dev) (budget : Z) (q : qdma_descq) : qdma_descq :=
  let i := dq_sorted_c2h_cntr_idx q in
  if i =? 0 then q
  else
    let q := q <| dq_c2h_cntr_monitor_cnt := 0 |> in
    let val j := u8 (arr (xd_csr_c2h_cnt_th x) (u8 (arr (xd_sorted_c2h_cntr x) j))) in
    let curr := val i in
    let new := val (i - 1) in
    let avg := dq_c2h_pend_pkt_moving_avg q in
    if (new <=? avg) && (u32 (curr - avg) <=? u32 (avg - new)) then q
    else if negb (nz (qc_latency_optimize (dq_conf q))) && (new <? u32 (budget - 2)) then q
    else take_counter x (i - 1) q.

Definition descq_adjust_c2h_cntr_th (x : xlnx_dma_dev) (pend budget : Z) (q : qdma_descq) : qdma_descq :=
  let avg := Z.shiftr (u32 (dq_c2h_pend_pkt_moving_avg q + pend)) 1 in
  let q := q <| dq_c2h_pend_pkt_moving_avg := avg |> in
  if dq_c2h_pend_pkt_avg_thr_hi q <=? avg then descq_incr_c2h_cntr_th x q
  else if avg <=? dq_c2h_pend_pkt_avg_thr_lo q then descq_decr_c2h_cntr_th x budget q
  else
    let cnt := u32 (dq_c2h_cntr_monitor_cnt q + 1) in
    if cnt =? MAX_C2H_CNTR_STAGNANT_CNT
    then descq_decr_c2h_cntr_th x budget (q <| dq_c2h_cntr_monitor_cnt := cnt |>) <| dq_c2h_cntr_monitor_cnt := 0 |>
    else q <| dq_c2h_cntr_monitor_cnt := cnt |>.

(** *** The completion ring *)

Definition descq_cmpl_err_check (cmpl : qdma_ul_cmpt_info) : qm (c2h H) Z :=
  q ← getq;
  if uc_format cmpl || negb (uc_desc_used cmpl) && negb (nz (qc_cmpl_udd_en (dq_conf q))) || uc_err cmpl
  then modq (λ q, q <| dq_err := true |>);; mret (- EINVAL)
  else mret 0.

(** A bypass module's parser of completion entries. *)
Variable fp_proc_ul_cmpt_entry : Z → qm (c2h H) (Z * qdma_ul_cmpt_info).
Definition bypass_cmpt (q : qdma_descq) : bool :=
  nz (qc_desc_bypass (dq_conf q)) && qc_fp_proc_ul_cmpt_entry (dq_conf q).

(** The loop over at most [n] entries.  [inl rv]: an error that stops the
    queue; [inr (proc_cnt, pidx)] otherwise. *)
Fixpoint process_entries (n : nat) (proc_cnt pidx : Z) : qm (c2h H) (Z + Z * Z) :=
  match n with
  | O => mret (inr (proc_cnt, pidx))
  | S n =>
      q ← getq;
      c ← getc;
      '(rv, cmpl) ← (if bypass_cmpt q then fp_proc_ul_cmpt_entry (ch_cmpt_cur c) else parse_cmpl_entry);
      if rv <? 0 then mret (inl rv)
      else
        rv ← descq_cmpl_err_check cmpl;
        if rv <? 0 then mret (inl rv)
        else
          q ← getq;
          if negb (is_new_cmpl_entry q cmpl) then mret (inr (proc_cnt, pidx))
          else
            let cmpl := cmpl <| uc_pidx := pidx |> in
            '(rv, pidx') ← (if uc_desc_used cmpl then rcv_pkt cmpl (uc_len cmpl)
                            else if nz (qc_cmpl_udd_en (dq_conf q))
                            then rv ← rcv_udd_only cmpl; mret (rv, uc_pidx cmpl)
                            else mret (rv, uc_pidx cmpl));
            if rv <? 0 then mret (inr (proc_cnt, pidx))
            else cmpt_next;; process_entries n (proc_cnt + 1) pidx'
  end.

Definition cmpt_doorbell : qm (c2h H) Z :=
  q ← getq; hwcall (queue_cmpt_cidx_update (qc_qidx (dq_conf q)) (dq_cmpt_cidx_info q)).

(** Interrupt moderation after [proc_cnt] entries were processed. *)
Definition moderate (read_weight proc_cnt : Z) : qm (c2h H) unit :=
  x ← getx;
  q ← getq;
  qwhen (xd_intr_moderation x && (cci_trig_mode (dq_cmpt_cidx_info q) =? TRIG_MODE_COMBO))
    (pidx_cmpt ← hwcall (on_ch cmpt_status_pidx);
     let pend := ring_idx_delta pidx_cmpt (dq_cidx_cmpt q) (qc_rngsz_cmpt (dq_conf q)) in
     modf (λ flq, flq <| fl_pkt_cnt := pend |>);;
     modq (λ q, q <| dq_cmpt_cidx_info :=
       set_irq_en (if nz read_weight && (u32 read_weight <? pend) then 0 else 1) (dq_cmpt_cidx_info q) |>);;
     qwhen (nz (qc_adaptive_rx (dq_conf q)))
       (modq (descq_adjust_c2h_cntr_th x (u32 (pend + proc_cnt)) (u32 read_weight)))).

(** What follows when entries were processed. *)
Definition deliver (fuel : nat) (pidx_cmpt pidx pidx_pend : Z) (upd_cmpl : bool) : qm (c2h H) Z :=
  q ← getq;
  let uld := qc_fp_descq_c2h_packet (dq_conf q) in
  modq (λ q, q <| dq_pidx_cmpt := pidx_cmpt |> <| dq_pidx := pidx |>
               <| dq_cmpt_cidx_info :=
                    mk_cmpt_info (u16 (dq_cidx_cmpt q)) (cci_counter_idx (dq_cmpt_cidx_info q))
                      (cci_timer_idx (dq_cmpt_cidx_info q)) (cci_trig_mode (dq_cmpt_cidx_info q))
                      (cci_wrb_en (dq_cmpt_cidx_info q)) (cci_irq_en (dq_cmpt_cidx_info q)) |>);;
  rv ← (if uld then mret 0 else cmpt_doorbell);
  if rv <? 0 then mret (- EINVAL)
  else
    (if uld then mret tt else qdma_c2h_packets_proc_dflt;; mret tt);;
    pidx_hw ← hwcall (on_ch cmpt_status_pidx);
    q ← getq;
    modf (λ flq, flq <| fl_pkt_cnt := ring_idx_delta pidx_hw (dq_cidx_cmpt q) (qc_rngsz_cmpt (dq_conf q)) |>);;
    flq ← getf;
    if fl_pidx_pend flq =? pidx_pend then mret 0
    else
      qdma_flq_refill fuel pidx_pend (ring_idx_delta (fl_pidx_pend flq) pidx_pend (fl_size flq)) (negb uld);;
      q ← getq;
      if upd_cmpl && negb (dq_q_stop_wait q) then
        flq ← getf;
        modq (λ q, q <| dq_pidx_info := mk_pidx_info (u16 (ring_idx_decr (fl_pidx_pend flq) 1 (fl_size flq)))
                                          (pri_irq_en (dq_pidx_info q)) |>);;
        ret ← (if uld then mret 0 else descq_pidx_doorbell);
        mret (if ret <? 0 then - EINVAL else 0)
      else mret 0.

Definition descq_process_completion_st_c2h (fuel : nat) (budget : Z) (upd_cmpl : bool) : qm (c2h H) Z :=
  q ← getq;
  x ← getx;
  flq ← getf;
  pidx_cmpt ← hwcall (on_ch cmpt_status_pidx);
  if dq_err q then mret (- EINVAL)
  else
    let pend := ring_idx_delta pidx_cmpt (dq_cidx_cmpt q) (qc_rngsz_cmpt (dq_conf q)) in
    if pend =? 0 then
      rv ← (if bool_decide (xd_qdma_drv_mode x = POLL_MODE) then mret 0 else cmpt_doorbell);
      mret (if rv <? 0 then - EINVAL else - ENODATA)
    else
      modf (λ flq, flq <| fl_pkt_cnt := pend |>);;
      let read_weight := budget in
      let budget := if (budget =? 0) || (pend <? budget) then pend else budget in
      res ← process_entries (Z.to_nat budget) 0 (dq_pidx q);
      match res with
      | inl rv => mret rv
      | inr (proc_cnt, pidx) =>
          modf (λ flq, flq <| fl_pkt_cnt := u32 (fl_pkt_cnt flq - proc_cnt) |>);;
          moderate read_weight proc_cnt;;
          if nz proc_cnt then deliver fuel pidx_cmpt pidx (fl_pidx_pend flq) upd_cmpl else mret 0
      end.

(** ** Calls from outside *)

(** qdma_queue_c2h_peek: packets with data, packets, bytes. *)
Definition qdma_queue_c2h_peek : qm (c2h H) (Z * Z * Z) :=
  flq ← getf; mret (fl_udd_cnt flq, fl_pkt_cnt flq, fl_pkt_dlen flq).

(** qdma_request_submit_st_c2h *)
Definition qdma_request_submit_st_c2h (r : Z) : qm (c2h H) submit_return :=
  req ← getreq r;
  modcb r (λ cb, cb <| cb_left := rq_count req |>);;
  lock_descq;;
  q ← getq;
  if dq_q_stop_wait q then unlock_descq;; mret (SubmitRet 0)
  else if negb (bool_decide (dq_q_state q = Q_STATE_ONLINE)) then unlock_descq;; mret (SubmitRet (- EINVAL))
  else
    pend_list_add_tail r;;
    descq_st_c2h_read r true true;;
    req ← getreq r;
    if cb_left (rq_cb req) =? 0 then
      cb_list_del r;; unlock_descq;; mret (SubmitRet (rq_count req))
    else
      modq (λ q, q <| dq_pend_list_empty := false |>);;
      unlock_descq;;
      qwhen (dq_cmplthp q) (qevent EvThread);;
      mret (if rq_fp_done req then SubmitRet 0 else SubmitWait).

(** qdma_queue_packet_read after the checks of the handles. *)
Definition qdma_queue_packet_read (r : Z) (cctrl : option qdma_cmpl_ctrl) : qm (c2h H) Z :=
  q ← getq;
  if negb (nz (qc_st (dq_conf q))) || negb (qc_q_type (dq_conf q) =? Q_C2H) then mret (- EINVAL)
  else
    rv ← match cctrl with
         | None => mret 0
         | Some cc =>
             lock_descq;;
             modq (λ q, q <| dq_conf := dq_conf q <| qc_cmpl_trig_mode := cc_trigger_mode cc |>
                                                 <| qc_cmpl_timer_idx := cc_timer_idx cc |>
                                                 <| qc_cmpl_cnt_th_idx := cc_cnt_th_idx cc |>
                                                 <| qc_cmpl_en_intr := cc_cmpl_en_intr cc |>
                                                 <| qc_cmpl_stat_en := cc_en_stat_desc cc |> |>
                          <| dq_cmpt_cidx_info :=
                               mk_cmpt_info (u16 (dq_cidx_cmpt q)) (cc_cnt_th_idx cc) (cc_timer_idx cc)
                                 (cc_trigger_mode cc) (cc_en_stat_desc cc) (cc_cmpl_en_intr cc) |>);;
             rv ← cmpt_doorbell;
             unlock_descq;;
             mret rv
         end;
    if rv <? 0 then mret (- EINVAL)
    else
      req ← getreq r;
      putreq r (req <| rq_cb := cb_zero |>);;
      lock_descq;;
      descq_st_c2h_read r true true;;
      unlock_descq;;
      req ← getreq r;
      mret (s32 (rq_count req - cb_left (rq_cb req))).
End cmpt.
