(* ===== verification/StC2HRead.v ===== *)
(** * Streaming queues from card to host: what a read copies

    A byte of memory is a page and an offset.  A buffer, a scatter list and the
    part of the ring that is received and not yet read are lists of bytes; a
    read copies the first bytes of one to the first of the other and goes on
    in both. *)

From S2P Require Import Prelude Platform SoftAccess QueueTypes DescRing Descq DescqSubmit StC2H.

(** ** Memory *)

Definition byte_at (pages : gmap Z page) (a : Z * Z) : option Z := (λ p, pp_bytes p a.2) <$> pages !! a.1.
Definition area (pg off len : Z) : list (Z * Z) := (λ i, (pg, off + i)) <$> seqZ 0 len.
Definition sg_area (sg : qdma_sw_sg) : list (Z * Z) := area (sg_pg sg) (sg_offset sg) (sg_len sg).

(** A byte the page store has. *)
Definition has_byte (pages : gmap Z page) (a : Z * Z) : Prop :=
  ∃ p, pages !! a.1 = Some p ∧ 0 <= a.2 < pp_size p.
(** The pages, their sizes and reference counts. *)
Definition shape (pages : gmap Z page) : gmap Z (Z * Z) := (λ p, (pp_refs p, pp_size p)) <$> pages.

(** [dst] now holds what [src] held, and nothing else has changed. *)
Definition copied (pages pages' : gmap Z page) (src dst : list (Z * Z)) : Prop :=
  shape pages' = shape pages ∧ Forall2 (λ a b, byte_at pages' b = byte_at pages a) src dst ∧
  ∀ b, b ∉ dst → byte_at pages' b = byte_at pages b.

Lemma copied_nil pages : copied pages pages [] [].
Proof. by split_and!; [|constructor|]. Qed.

Lemma copied_trans p p1 p2 s1 d1 s2 d2 :
  copied p p1 s1 d1 → copied p1 p2 s2 d2 → (∀ x, x ∈ s2 → x ∉ d1) → (∀ x, x ∈ d1 → x ∉ d2) →
  copied p p2 (s1 ++ s2) (d1 ++ d2).
Proof.
  intros (S1 & C1 & F1) (S2 & C2 & F2) Hsd Hdd. split_and!.
  - congruence.
  - apply Forall2_app.
    + apply Forall2_same_length_lookup. apply Forall2_same_length_lookup in C1 as [Hl C1]. split; [done|].
      intros i x y Hx Hy. rewrite F2; [by eapply C1|]. apply Hdd. by eapply list_elem_of_lookup_2.
    + apply Forall2_same_length_lookup. apply Forall2_same_length_lookup in C2 as [Hl C2]. split; [done|].
      intros i x y Hx Hy. rewrite (C2 i x y) by done. apply F1. apply Hsd. by eapply list_elem_of_lookup_2.
  - intros b. rewrite not_elem_of_app. intros [Hb1 Hb2]. by rewrite F2, F1.
Qed.

Lemma area_app pg off a b : 0 <= a → 0 <= b → area pg off (a + b) = area pg off a ++ area pg (off + a) b.
Proof.
  intros Ha Hb. unfold area. rewrite seqZ_app, fmap_app by lia. f_equal.
  replace (seqZ (0 + a) b) with ((λ i, a + i) <$> seqZ 0 b).
  - rewrite <- list_fmap_compose. apply list_fmap_ext. intros ? i _. cbn. f_equal. lia.
  - rewrite fmap_add_seqZ. f_equal. lia.
Qed.
Lemma area_length pg off n : length (area pg off n) = Z.to_nat n.
Proof. unfold area. by rewrite length_fmap, length_seqZ. Qed.
Lemma area_nil pg off n : n <= 0 → area pg off n = [].
Proof. intros. unfold area. by rewrite seqZ_nil. Qed.
Lemma elem_of_area pg off n a : a ∈ area pg off n ↔ a.1 = pg ∧ off <= a.2 < off + n.
Proof.
  unfold area. rewrite list_elem_of_fmap. split.
  - intros (i & -> & Hi). apply elem_of_seqZ in Hi. cbn. lia.
  - destruct a as [q o]. cbn. intros [-> Ho]. exists (o - off). rewrite elem_of_seqZ. split; [f_equal; lia|lia].
Qed.
Lemma area_take pg off n k : 0 <= k <= n → take (Z.to_nat k) (area pg off n) = area pg off k.
Proof.
  intros Hk. replace n with (k + (n - k)) by lia. rewrite area_app by lia.
  apply take_app_length'. by rewrite area_length.
Qed.
Lemma area_drop pg off n k : 0 <= k <= n → drop (Z.to_nat k) (area pg off n) = area pg (off + k) (n - k).
Proof.
  intros Hk. replace n with (k + (n - k)) at 1 by lia. rewrite area_app by lia.
  apply drop_app_length'. by rewrite area_length.
Qed.

Lemma shape_lookup pages pages' k p : shape pages' = shape pages → pages !! k = Some p →
  ∃ p', pages' !! k = Some p' ∧ pp_size p' = pp_size p ∧ pp_refs p' = pp_refs p.
Proof.
  intros Hs Hp. assert (shape pages' !! k = Some (pp_refs p, pp_size p)) as Hk.
  { rewrite Hs. unfold shape. by rewrite lookup_fmap, Hp. }
  unfold shape in Hk. rewrite lookup_fmap in Hk. destruct (pages' !! k) as [p'|]; [|done].
  injection Hk as ??. by exists p'.
Qed.
Lemma has_byte_shape pages pages' a : shape pages' = shape pages → has_byte pages a → has_byte pages' a.
Proof.
  intros Hs (p & Hp & Ho). destruct (shape_lookup _ _ _ _ Hs Hp) as (p' & Hp' & Hz & _).
  exists p'. split; [done|]. by rewrite Hz.
Qed.

Lemma has_bytes_shape pages pages' l : shape pages' = shape pages → Forall (has_byte pages) l → Forall (has_byte pages') l.
Proof. intros Hs Hl. eapply Forall_impl; [exact Hl|]. intros x. by apply has_byte_shape. Qed.

Lemma elem_of_take_list {A} (k : nat) (l : list A) x : x ∈ take k l → x ∈ l.
Proof. rewrite <- (take_drop k l) at 2. rewrite elem_of_app. auto. Qed.

(** One piece copied, then the first part of what follows. *)
Lemma copied_app p p1 p2 s1 s2 d1 d2 a b :
  copied p p1 s1 d1 → copied p1 p2 (take a s2) (take b d2) → (∀ x, x ∈ s1 ++ s2 → x ∉ d1 ++ d2) → NoDup (d1 ++ d2) →
  copied p p2 (s1 ++ take a s2) (d1 ++ take b d2).
Proof.
  intros C1 C2 Hdj (_ & Hnd & _)%NoDup_app. eapply copied_trans; [exact C1|exact C2| |].
  - intros x Hx%elem_of_take_list Hx'. apply (Hdj x); rewrite elem_of_app; auto.
  - intros x Hx Hx'%elem_of_take_list. by apply (Hnd x).
Qed.

Lemma area_page pages pg off n : 0 < n → Forall (has_byte pages) (area pg off n) →
  ∃ p, pages !! pg = Some p ∧ 0 <= off ∧ off + n <= pp_size p.
Proof.
  intros Hn Ha. rewrite Forall_forall in Ha.
  destruct (Ha (pg, off)) as (p & Hp & H1); [apply elem_of_area; cbn; lia|].
  destruct (Ha (pg, off + n - 1)) as (p' & Hp' & H2); [apply elem_of_area; cbn; lia|].
  cbn in *. rewrite Hp in Hp'. injection Hp' as <-. exists p. split; [done|lia].
Qed.

Section read.
Context {H : Type} `{QueueHw H}.
Implicit Types s : qst (c2h H).

(** Another content of the pages. *)
Definition with_pages (pages : gmap Z page) s : qst (c2h H) := s <| s_hw := s_hw s <| ch_pages := pages |> |>.
Definition pages_of s : gmap Z page := ch_pages (s_hw s).

Lemma copy_bytes_run dst o src so n s :
  0 <= n → Forall (has_byte (pages_of s)) (area src so n) → Forall (has_byte (pages_of s)) (area dst o n) →
  ∃ pages', copy_bytes dst o src so n s = Some (tt, with_pages pages' s) ∧
    copied (pages_of s) pages' (area src so n) (area dst o n).
Proof using.
  intros Hn Hs Hd. unfold copy_bytes. destruct (Z.eqb_spec n 0) as [->|Hn0].
  { exists (pages_of s). split; [by destruct s as [? ? ? []]|]. rewrite !area_nil by lia. apply copied_nil. }
  assert (Hn' : 0 < n) by lia. destruct (area_page _ _ _ _ Hn' Hs) as (ps & Hps & Hso & Hsn).
  destruct (area_page _ _ _ _ Hn' Hd) as (pd & Hpd & Hdo & Hdn).
  set (pd' := pd <| pp_bytes := λ a, if (o <=? a) && (a <? o + n) then pp_bytes ps (a - o + so) else pp_bytes pd a |>).
  exists (<[dst := pd']> (pages_of s)). split.
  - unfold getpage, qlift, mbind, qm_bind, getc. unfold pages_of in *. rewrite Hps. cbn -[Z.ltb]. rewrite Hpd. cbn -[Z.ltb].
    destruct (Z.ltb_spec (pp_size ps) (so + n)), (Z.ltb_spec (pp_size pd) (o + n)),
      (Z.ltb_spec so 0), (Z.ltb_spec o 0); try lia. done.
  - split_and!.
    + unfold shape. rewrite fmap_insert. apply insert_id. by rewrite lookup_fmap, Hpd.
    + unfold area. apply Forall2_fmap_2. apply Forall_Forall2_diag. apply Forall_forall. intros i Hi.
      apply elem_of_seqZ in Hi. unfold byte_at. cbn [fst snd]. rewrite lookup_insert_eq, Hps. cbn.
      destruct (Z.leb_spec o (o + i)), (Z.ltb_spec (o + i) (o + n)); try lia. cbn. do 2 f_equal. lia.
    + intros [q a] Hb. rewrite elem_of_area in Hb. cbn in Hb. unfold byte_at. cbn [fst snd].
      destruct (decide (q = dst)) as [->|Hq]; [|by rewrite lookup_insert_ne].
      rewrite lookup_insert_eq, Hpd. cbn. destruct (Z.leb_spec o a), (Z.ltb_spec a (o + n)); try lia; done.
Qed.

(** ** Scatter lists *)

(** The bytes of a scatter list from [off] on in its first entry. *)
Definition tail_bytes (tsg : list qdma_sw_sg) (off : Z) : list (Z * Z) :=
  match tsg with
  | [] => []
  | t :: l => area (sg_pg t) (sg_offset t + off) (sg_len t - off) ++ concat (sg_area <$> l)
  end.
Definition entry_ok (t : qdma_sw_sg) : Prop := 0 <= sg_offset t ∧ 0 <= sg_len t ∧ sg_offset t + sg_len t < 2 ^ 32.
Definition pos_ok (tsg : list qdma_sw_sg) (off : Z) : Prop :=
  Forall entry_ok tsg ∧ 0 <= off ∧ match tsg with [] => True | t :: _ => off <= sg_len t end.

Lemma tail_bytes_0 tsg : tail_bytes tsg 0 = concat (sg_area <$> tsg).
Proof using. destruct tsg as [|t l]; [done|]. cbn. unfold sg_area at 1. by rewrite Z.add_0_r, Z.sub_0_r. Qed.

Lemma tail_bytes_cons t l off : pos_ok (t :: l) off →
  tail_bytes (t :: l) off = area (sg_pg t) (sg_offset t + off) (sg_len t - off) ++ tail_bytes l 0 ∧ pos_ok l 0.
Proof using.
  intros (Ho & Hoff & Hl). apply Forall_cons in Ho as [Ht Ho]. split; [by rewrite tail_bytes_0|].
  split; [done|]. split; [lia|]. destruct l as [|t' l]; [done|]. apply Forall_cons in Ho as [[? ?] _]. lia.
Qed.

Lemma with_pages_pages p1 p2 s : with_pages p2 (with_pages p1 s) = with_pages p2 s.
Proof using. done. Qed.
Lemma with_pages_id s : with_pages (pages_of s) s = s.
Proof using. by destruct s as [? ? ? []]. Qed.

Lemma take_app_Z {A} (l1 l2 : list A) a b : Z.of_nat (length l1) = a → 0 <= b →
  take (Z.to_nat (a + b)) (l1 ++ l2) = l1 ++ take (Z.to_nat b) l2.
Proof using. intros <- Hb. rewrite Z2Nat.inj_add, Nat2Z.id by lia. by apply take_app_add'. Qed.
Lemma drop_app_Z {A} (l1 l2 : list A) a b : Z.of_nat (length l1) = a → 0 <= b →
  drop (Z.to_nat (a + b)) (l1 ++ l2) = drop (Z.to_nat b) l2.
Proof using. intros <- Hb. rewrite Z2Nat.inj_add, Nat2Z.id by lia. by apply drop_app_add'. Qed.
Lemma take_plus_Z {A} (l : list A) a b : 0 <= a → 0 <= b →
  take (Z.to_nat (a + b)) l = take (Z.to_nat a) l ++ take (Z.to_nat b) (drop (Z.to_nat a) l).
Proof using. intros. rewrite Z2Nat.inj_add by lia. by rewrite take_take_drop. Qed.
Lemma drop_plus_Z {A} (l : list A) a b : 0 <= a → 0 <= b →
  drop (Z.to_nat b) (drop (Z.to_nat a) l) = drop (Z.to_nat (a + b)) l.
Proof using. intros. rewrite drop_drop. f_equal. lia. Qed.
Lemma area_len_Z pg off n : 0 <= n → Z.of_nat (length (area pg off n)) = n.
Proof using. intros. rewrite area_length. lia. Qed.

Definition no_ping_pong s : Prop := qc_ping_pong_en (dq_conf (s_q s)) = 0.

Lemma ping_pong_run pg o s : no_ping_pong s → ping_pong_check pg o s = Some (tt, s).
Proof using. unfold no_ping_pong, ping_pong_check. intros Hp. rewrite getq_bind. by rewrite Hp. Qed.

(** One entry of the scatter list: as many bytes as both have left. *)
Lemma copy_entry_run fsg t l flen foff off j c s :
  let r := sg_len t - off in let copy := Z.min flen r in
  no_ping_pong s → 0 < flen → 0 <= foff → foff + flen < 2 ^ 32 → 0 <= c → c + copy < 2 ^ 32 → entry_ok t →
  0 <= off <= sg_len t → Forall (has_byte (pages_of s)) (area (sg_pg fsg) (sg_offset fsg + foff) flen) →
  Forall (has_byte (pages_of s)) (area (sg_pg t) (sg_offset t + off) r) →
  ∃ p1, copied (pages_of s) p1 (area (sg_pg fsg) (sg_offset fsg + foff) copy) (area (sg_pg t) (sg_offset t + off) copy) ∧
    copy_buffer false fsg flen foff (t :: l) off j c s =
    (if off + copy =? sg_len t then copy_buffer false fsg (flen - copy) (foff + copy) l 0 (j + 1) (c + copy)
     else mret (foff + copy, mk_rd_pos (t :: l) (off + copy) j (c + copy))) (with_pages p1 s).
Proof using.
  intros r copy Hpp Hfl Hfo Hfb Hc Hcb (Ht1 & Ht2 & Ht3) Hoff HA HT.
  destruct (copy_bytes_run (sg_pg t) (sg_offset t + off) (sg_pg fsg) (sg_offset fsg + foff) copy s) as (p1 & E1 & C1).
  { lia. }
  { rewrite <- (area_take _ _ flen) by lia. by apply Forall_take. }
  { rewrite <- (area_take _ _ r) by lia. by apply Forall_take. }
  exists p1. split; [exact C1|]. cbn [copy_buffer]. destruct (Z.eqb_spec flen 0); [lia|].
  unfold min_u32. fold r. rewrite (u32_small flen), (u32_small r) by lia. fold copy. rewrite !u32_small by lia.
  rewrite (qm_bind_eq _ _ _ _ _ E1). by rewrite (qm_bind_eq _ _ _ _ _ (ping_pong_run _ _ (with_pages p1 s) Hpp)).
Qed.

(** One buffer. *)
Lemma copy_buffer_ok fsg tsg : ∀ flen foff off j c s,
  let A := area (sg_pg fsg) (sg_offset fsg + foff) flen in
  let B := tail_bytes tsg off in
  let k := Z.min flen (Z.of_nat (length B)) in
  no_ping_pong s → 0 <= flen → 0 <= foff → foff + flen < 2 ^ 32 → 0 <= c → c + Z.of_nat (length B) < 2 ^ 32 →
  pos_ok tsg off → Forall (has_byte (pages_of s)) A → Forall (has_byte (pages_of s)) B → NoDup B →
  (∀ x, x ∈ A → x ∉ B) →
  ∃ pages' tsg' off' j', copy_buffer false fsg flen foff tsg off j c s =
      Some ((foff + k, mk_rd_pos tsg' off' j' (c + k)), with_pages pages' s) ∧
    copied (pages_of s) pages' (take (Z.to_nat k) A) (take (Z.to_nat k) B) ∧
    tail_bytes tsg' off' = drop (Z.to_nat k) B ∧ pos_ok tsg' off' ∧ j <= j' ∧
    tsg' = drop (Z.to_nat (j' - j)) tsg ∧ (k < flen → tsg' = []).
Proof using.
  induction tsg as [|t l IH]; intros flen foff off j c s A B k Hpp Hfl Hfo Hfb Hc Hcb Hpos HA HB Hnd Hdj.
  { assert (k = 0) as -> by (unfold k, B; cbn; lia). exists (pages_of s), [], off, j.
    rewrite with_pages_id, !Z.add_0_r, Z.sub_diag. split; [done|]. split; [apply copied_nil|]. by split_and!. }
  destruct (decide (flen = 0)) as [->|Hf0].
  { assert (k = 0) as -> by (unfold k; lia). exists (pages_of s), (t :: l), off, j.
    rewrite with_pages_id, !Z.add_0_r, Z.sub_diag. split; [done|]. split; [apply copied_nil|]. by split_and!; [..|lia]. }
  destruct (tail_bytes_cons t l off Hpos) as [HBeq Hpos'].
  destruct Hpos as (Hent & Hoff0 & Hoff). apply Forall_cons in Hent as [Ht Hent].
  set (r := sg_len t - off) in *. set (T := area (sg_pg t) (sg_offset t + off) r) in *. set (B' := tail_bytes l 0) in *.
  assert (HTl : Z.of_nat (length T) = r) by (apply area_len_Z; lia).
  assert (HBl : Z.of_nat (length B) = r + Z.of_nat (length B')) by (unfold B; rewrite HBeq, length_app; lia).
  assert (Hk0 : k = Z.min flen (r + Z.of_nat (length B'))) by (unfold k; by rewrite HBl).
  rewrite HBl in Hcb. fold B in HBeq. clearbody k B. subst B. apply Forall_app in HB as [HT HB].
  destruct (copy_entry_run fsg t l flen foff off j c s) as (p1 & C1 & E); try done; [lia..|]. rewrite E. clear E. fold r in C1 |- *.
  assert (Hsh : shape p1 = shape (pages_of s)) by apply C1. set (copy := Z.min flen r) in *.
  destruct (Z.eqb_spec (off + copy) (sg_len t)) as [Hfull|Hpart].
  - assert (Hcr : copy = r) by lia. rewrite Hcr in *.
    assert (HA2 : A = area (sg_pg fsg) (sg_offset fsg + foff) r ++ area (sg_pg fsg) (sg_offset fsg + (foff + r)) (flen - r)).
    { unfold A. rewrite Z.add_assoc, <- area_app by lia. f_equal. lia. }
    rewrite HA2 in *. apply Forall_app in HA as [_ HA].
    destruct (IH (flen - r) (foff + r) 0 (j + 1) (c + r) (with_pages p1 s)) as
      (p2 & tsg' & off' & j' & E2 & C2 & Htl & Hp & Hj & Hd & Hx); try done; try (fold B'; lia).
    { by apply (has_bytes_shape (pages_of s)). } { by apply (has_bytes_shape (pages_of s)). }
    { by apply NoDup_app in Hnd as (_ & _ & ?). }
    { intros x Hx Hx'. apply (Hdj x); rewrite elem_of_app; auto. }
    fold B' in E2, C2, Htl, Hx. set (k2 := Z.min (flen - r) (Z.of_nat (length B'))) in *.
    assert (Hk : k = r + k2) by lia. assert (0 <= k2) by lia. rewrite Hk. exists p2, tsg', off', j'.
    rewrite E2, (Z.add_assoc foff), (Z.add_assoc c). split; [done|]. rewrite !take_app_Z, drop_app_Z by (done || (apply area_len_Z; lia)).
    split; [by apply (copied_app _ p1 _ _ _ _ _ _ _ C1 C2)|]. split_and!; [done|done|lia| |intros Hlt; apply Hx; lia].
    replace (j' - j) with (1 + (j' - (j + 1))) by lia. rewrite Z2Nat.inj_add by lia. exact Hd.
  - assert (copy = flen) as Hc' by lia. assert (k = flen) as Hk by lia. rewrite Hc', Hk in *.
    exists p1, (t :: l), (off + flen), j. split; [done|].
    rewrite !take_app_le, drop_app_le by lia. unfold A, T. rewrite !area_take, area_drop by lia.
    split; [exact C1|]. split_and!; try done; try lia; [..|by rewrite Z.sub_diag].
    + unfold B'. rewrite tail_bytes_0. cbn. f_equal. f_equal; lia.
    + split; [by constructor|]. cbn. lia.
Qed.

Lemma copy_whole f tsg off j c s :
  let B := tail_bytes tsg off in
  let k := Z.min (sg_len f) (Z.of_nat (length B)) in
  no_ping_pong s → entry_ok f → 0 <= c → c + Z.of_nat (length B) < 2 ^ 32 →
  pos_ok tsg off → Forall (has_byte (pages_of s)) (sg_area f) → Forall (has_byte (pages_of s)) B → NoDup B →
  (∀ x, x ∈ sg_area f → x ∉ B) →
  ∃ pages' tsg' off' j', copy_buffer false f (sg_len f) 0 tsg off j c s =
      Some ((k, mk_rd_pos tsg' off' j' (c + k)), with_pages pages' s) ∧
    copied (pages_of s) pages' (take (Z.to_nat k) (sg_area f)) (take (Z.to_nat k) B) ∧
    tail_bytes tsg' off' = drop (Z.to_nat k) B ∧ pos_ok tsg' off' ∧ j <= j' ∧
    tsg' = drop (Z.to_nat (j' - j)) tsg.
Proof using.
  intros B k Hpp (Hf1 & Hf2 & Hf3) Hc Hcb Hpos HA HB Hnd Hdj.
  pose proof (copy_buffer_ok f tsg (sg_len f) 0 off j c s) as K. cbv zeta in K. rewrite Z.add_0_r in K.
  destruct K as (p1 & tsg' & off' & j' & E1 & C1 & Ht1 & Hp1 & Hj1 & Hd1 & _); try done; try lia.
  exists p1, tsg', off', j'. rewrite Z.add_0_l in E1. by split_and!.
Qed.

(** *** The ring *)

Definition slot (flq : qdma_flq) (i : Z) : qdma_sw_sg := default sg_zero (fl_sdesc flq !! Z.to_nat i).
(** [n] entries of the ring from [i] on, along the links. *)
Fixpoint slots (n : nat) (flq : qdma_flq) (i : Z) : list qdma_sw_sg :=
  match n with
  | O => []
  | S n => slot flq i :: slots n flq (sd_next flq i)
  end.
Definition ring_ok (flq : qdma_flq) : Prop :=
  0 < fl_size flq < 2 ^ 31 ∧ Z.of_nat (length (fl_sdesc flq)) = fl_size flq ∧
  Z.of_nat (length (fl_sdesc_info flq)) = fl_size flq.

Lemma sd_next_range flq i : 0 <= i < fl_size flq → 0 <= sd_next flq i < fl_size flq.
Proof using. unfold sd_next. intros Hi. destruct (Z.eqb_spec (i + 1) (fl_size flq)); lia. Qed.

Lemma slot_run flq i s : ring_ok flq → 0 <= i < fl_size flq → nth_of (fl_sdesc flq) i s = Some (slot flq i, s).
Proof using.
  intros (Hn & Hl & _) Hi. unfold nth_of, slot. destruct (Z.ltb_spec i 0); [lia|]. unfold qlift.
  destruct (lookup_lt_is_Some_2 (fl_sdesc flq) (Z.to_nat i)) as [x Hx]; [lia|]. by rewrite Hx.
Qed.

Lemma getf_run s : getf s = Some (ch_flq (s_hw s), s).
Proof using. done. Qed.

(** Several buffers. *)
Lemma copy_buffers_ok flq n : ring_ok flq → ∀ fpos i p s,
  let fs := slots n flq fpos in
  let A := concat (sg_area <$> fs) in
  let B := tail_bytes (rp_tsg p) (rp_tsgoff p) in
  let k := Z.min (Z.of_nat (length A)) (Z.of_nat (length B)) in
  ch_flq (s_hw s) = flq → no_ping_pong s → 0 <= fpos < fl_size flq → Forall entry_ok fs → 0 <= rp_copied p →
  rp_copied p + Z.of_nat (length B) < 2 ^ 32 → pos_ok (rp_tsg p) (rp_tsgoff p) →
  Forall (has_byte (pages_of s)) A → Forall (has_byte (pages_of s)) B → NoDup B → (∀ x, x ∈ A → x ∉ B) →
  ∃ pages' m foff p', copy_buffers n false fpos i p s =
      Some ((i + Z.of_nat m, Nat.iter m (sd_next flq) fpos, foff, p'), with_pages pages' s) ∧
    copied (pages_of s) pages' (take (Z.to_nat k) A) (take (Z.to_nat k) B) ∧
    tail_bytes (rp_tsg p') (rp_tsgoff p') = drop (Z.to_nat k) B ∧ pos_ok (rp_tsg p') (rp_tsgoff p') ∧
    rp_copied p' = rp_copied p + k ∧ rp_j p <= rp_j p' ∧
    rp_tsg p' = drop (Z.to_nat (rp_j p' - rp_j p)) (rp_tsg p) ∧ (m ≤ n)%nat ∧
    tail_bytes (drop m fs) foff = drop (Z.to_nat k) A ∧
    0 <= foff ∧ (foff ≠ 0 → ∃ f l, drop m fs = f :: l ∧ foff < sg_len f).
Proof using.
  intros Hring. induction n as [|n IH]; intros fpos i p s fs A B k Hflq Hpp Hfp Hfs Hc Hcb Hpos HA HB Hnd Hdj.
  { assert (k = 0) as -> by (unfold k, A; cbn; lia). exists (pages_of s), 0%nat, 0, p.
    rewrite with_pages_id, !Z.add_0_r, Z.sub_diag. split; [done|]. split; [apply copied_nil|]. by split_and!. }
  destruct (decide (rp_tsg p = [])) as [Hnil|Hnil].
  { assert (k = 0) as -> by (unfold k, B; rewrite Hnil; cbn; lia). exists (pages_of s), 0%nat, 0, p.
    rewrite with_pages_id, !Z.add_0_r, Z.sub_diag. split; [cbn [copy_buffers]; by rewrite Hnil|].
    split; [apply copied_nil|]. split_and!; try done; try lia. by rewrite tail_bytes_0. }
  cbn [copy_buffers]. assert (∃ t l, rp_tsg p = t :: l) as (t & l & Htl) by (destruct (rp_tsg p); eauto; done).
  rewrite Htl. rewrite (qm_bind_eq _ _ _ _ _ (getf_run s)). rewrite Hflq.
  rewrite (qm_bind_eq _ _ _ _ _ (slot_run _ _ _ Hring Hfp)).
  set (f := slot flq fpos) in *. rewrite <- Htl. apply Forall_cons in Hfs as [Hf Hfs]. destruct (Hf) as (Hf1 & Hf2 & Hf3).
  set (A2 := concat (sg_area <$> slots n flq (sd_next flq fpos))).
  assert (HAeq : A = sg_area f ++ A2) by done.
  rewrite HAeq in HA. apply Forall_app in HA as [HA1 HA2].
  assert (Hal : Z.of_nat (length (sg_area f)) = sg_len f) by (apply area_len_Z; exact Hf2).
  destruct (copy_whole f (rp_tsg p) (rp_tsgoff p) (rp_j p) (rp_copied p) s) as
    (p1 & tsg' & off' & j' & E1 & C1 & Ht1 & Hp1 & Hj1 & Hd1); try done.
  { intros x Hx. apply Hdj. rewrite HAeq, elem_of_app. by left. }
  rewrite (qm_bind_eq _ _ _ _ _ E1). cbv beta iota. fold B in C1, Ht1 |- *.
  set (k1 := Z.min (sg_len f) (Z.of_nat (length B))) in *.
  assert (Hsh : shape p1 = shape (pages_of s)) by apply C1.
  rewrite <- (take_drop (Z.to_nat k1) B) in Hnd, Hdj. rewrite HAeq in Hdj.
  destruct (Z.eqb_spec k1 (sg_len f)) as [Hk1|Hk1].
  - assert (Hdl : Z.of_nat (length (drop (Z.to_nat k1) B)) = Z.of_nat (length B) - k1) by (rewrite length_drop; lia).
    destruct (IH (sd_next flq fpos) (i + 1) (mk_rd_pos tsg' off' j' (rp_copied p + k1)) (with_pages p1 s)) as
      (p2 & m & foff & p' & E2 & C2 & Ht2 & Hp2 & Hc2 & Hj2 & Hd2 & Hm2 & Hu2 & Hf02 & Hf2');
      cbn [rp_tsg rp_tsgoff rp_j rp_copied] in *; rewrite ?Ht1; try done.
    { by apply sd_next_range. } { lia. } { lia. }
    { by apply (has_bytes_shape (pages_of s)). }
    { by apply (has_bytes_shape (pages_of s)), Forall_drop. }
    { by apply NoDup_app in Hnd as (_ & _ & ?). }
    { intros x Hx Hx'. apply (Hdj x); rewrite elem_of_app; by right. }
    rewrite Ht1 in *. fold A2 in C2, Ht2, Hu2, Hc2. rewrite Hdl in *.
    set (k2 := Z.min (Z.of_nat (length A2)) (Z.of_nat (length B) - k1)) in *.
    assert (Hkk : k = k1 + k2).
    { unfold k, k2. rewrite HAeq, length_app. lia. }
    assert (0 <= k1 ∧ 0 <= k2) as [Hk1' Hk2'] by lia.
    exists p2, (S m), foff, p'. rewrite E2, Nat.iter_succ_r. split; [do 5 f_equal; lia|].
    rewrite Hkk, HAeq. rewrite (take_plus_Z B), take_app_Z, drop_app_Z, <- (drop_plus_Z B) by lia.
    rewrite take_ge in C1 by lia. split; [by eapply copied_app|].
    split_and!; try done; try lia.
    rewrite Hd2, Hd1, drop_plus_Z by lia. f_equal. lia.
  - assert (Hk1' : k1 = Z.of_nat (length B) ∧ k1 < sg_len f) by lia. destruct Hk1' as [Hk1b Hk1l].
    assert (Hkk : k = k1).
    { unfold k. rewrite HAeq, length_app. lia. }
    exists p1, 0%nat, k1, (mk_rd_pos tsg' off' j' (rp_copied p + k1)). cbn [rp_tsg rp_tsgoff rp_j rp_copied].
    rewrite Z.add_0_r, Hkk. split; [done|]. rewrite HAeq, take_app_le, drop_app_le by lia.
    split; [exact C1|]. split_and!; try done; try lia.
    + cbn [drop fs slots tail_bytes]. fold f. fold A2. f_equal. unfold sg_area. by rewrite area_drop by lia.
    + intros _. exists f, (slots n flq (sd_next flq fpos)). done.
Qed.

(** ** Buffers made available again *)

Definition info (flq : qdma_flq) (i : Z) : qdma_sdesc_info := default sinfo_zero (fl_sdesc_info flq !! Z.to_nat i).
Definition recycle_one (bufsz i : Z) (flq : qdma_flq) : qdma_flq :=
  flq <| fl_sdesc := set_nth i (slot flq i <| sg_len := bufsz |>) (fl_sdesc flq) |>
      <| fl_sdesc_info := set_nth i (mk_sdesc_info false false false (si_cidx (info flq i))) (fl_sdesc_info flq) |>.
(** [n] buffers from [i] on *)
Fixpoint recycle (bufsz : Z) (n : nat) (i : Z) (flq : qdma_flq) : qdma_flq :=
  match n with
  | O => flq
  | S n => recycle bufsz n (sd_next flq i) (recycle_one bufsz i flq)
  end.

Lemma info_run flq i s : ring_ok flq → 0 <= i < fl_size flq → nth_of (fl_sdesc_info flq) i s = Some (info flq i, s).
Proof using.
  intros (Hn & _ & Hl) Hi. unfold nth_of, info. destruct (Z.ltb_spec i 0); [lia|]. unfold qlift.
  destruct (lookup_lt_is_Some_2 (fl_sdesc_info flq) (Z.to_nat i)) as [x Hx]; [lia|]. by rewrite Hx.
Qed.
Lemma ring_ok_recycle_one b i flq : ring_ok flq → ring_ok (recycle_one b i flq).
Proof using. intros (? & ? & ?). unfold ring_ok. cbn. unfold set_nth. by rewrite !length_insert. Qed.
Lemma recycle_frame b n : ∀ i flq, ∃ sd si, recycle b n i flq = flq <| fl_sdesc := sd |> <| fl_sdesc_info := si |>.
Proof using.
  induction n as [|n IH]; intros i flq; cbn [recycle]; [by exists (fl_sdesc flq), (fl_sdesc_info flq); destruct flq|].
  destruct (IH (sd_next flq i) (recycle_one b i flq)) as (sd & si & ->). by eexists _, _.
Qed.
Lemma recycle_size b n i flq : fl_size (recycle b n i flq) = fl_size flq.
Proof using. destruct (recycle_frame b n i flq) as (? & ? & ->). done. Qed.
Lemma ring_ok_recycle b n : ∀ i flq, ring_ok flq → ring_ok (recycle b n i flq).
Proof using.
  induction n as [|n IH]; intros i flq Hr; cbn [recycle]; [done|]. by apply IH, ring_ok_recycle_one.
Qed.

(** The [k]-th entry from [i] on. *)
Definition ring_pos (n i k : Z) : Z := (i + k) mod n.
Lemma sd_next_pos flq i : 0 <= i < fl_size flq → sd_next flq i = ring_pos (fl_size flq) i 1.
Proof using.
  intros Hi. unfold sd_next, ring_pos. rewrite mod_once by lia.
  destruct (Z.eqb_spec (i + 1) (fl_size flq)), (Z.leb_spec (fl_size flq) (i + 1)); lia.
Qed.
Lemma ring_pos_add n i j k : 0 < n → ring_pos n (ring_pos n i j) k = ring_pos n i (j + k).
Proof using. intros. unfold ring_pos. rewrite Zplus_mod_idemp_l. f_equal. lia. Qed.
Lemma ring_pos_range n i k : 0 < n → 0 <= ring_pos n i k < n.
Proof using. intros. apply Z.mod_pos_bound. lia. Qed.
Lemma ring_pos_ne n i j k : 0 < n → 0 <= j < n → 0 <= k < n → j ≠ k → ring_pos n i j ≠ ring_pos n i k.
Proof using.
  intros Hn Hj Hk Hjk He. unfold ring_pos in He.
  assert (((i + j) - (i + k)) mod n = 0) as Hz by (rewrite Zminus_mod, He, Z.sub_diag; done).
  replace (i + j - (i + k)) with (j - k) in Hz by lia. apply Z.mod_divide in Hz as [c Hc]; [|lia].
  assert (c = 0 ∨ 1 <= c ∨ c <= -1) as [->|[Hc'|Hc']] by lia; [lia|..];
    assert (- n < c * n < n) by lia; [assert (1 * n <= c * n)|assert (c * n <= -1 * n)];
    try (apply Z.mul_le_mono_nonneg_r; lia); lia.
Qed.
Lemma iter_next flq k i : 0 <= i < fl_size flq → Nat.iter k (sd_next flq) i = ring_pos (fl_size flq) i (Z.of_nat k).
Proof using.
  intros Hi. induction k as [|k IH]; cbn [Nat.iter nat_rect].
  - unfold ring_pos. rewrite Z.add_0_r. by rewrite Z.mod_small.
  - change (nat_rect _ _ _ _) with (Nat.iter k (sd_next flq) i). rewrite IH, sd_next_pos by (apply ring_pos_range; lia).
    rewrite ring_pos_add by lia. f_equal. lia.
Qed.

Lemma slot_recycle_one b i flq j : ring_ok flq → 0 <= i < fl_size flq → 0 <= j < fl_size flq →
  slot (recycle_one b i flq) j = if decide (j = i) then slot flq i <| sg_len := b |> else slot flq j.
Proof using.
  intros (Hn & Hl & _) Hi Hj. unfold slot at 1. cbn [recycle_one fl_sdesc set]. unfold set_nth. case_decide as Hd.
  - subst. rewrite list_lookup_insert_eq by lia. done.
  - rewrite list_lookup_insert_ne by lia. done.
Qed.

(** The entries outside keep what they had. *)
Lemma slot_recycle_out b n : ∀ i flq j, ring_ok flq → 0 <= i < fl_size flq → 0 <= j < fl_size flq →
  (∀ k, 0 <= k < Z.of_nat n → j ≠ ring_pos (fl_size flq) i k) → slot (recycle b n i flq) j = slot flq j.
Proof using.
  induction n as [|n IH]; intros i flq j Hr Hi Hj Ho; cbn [recycle]; [done|].
  rewrite IH; [|by apply ring_ok_recycle_one|exact (sd_next_range flq i Hi)|done|].
  - rewrite slot_recycle_one by done. rewrite decide_False; [done|]. intros ->.
    apply (Ho 0); [lia|]. unfold ring_pos. rewrite Z.add_0_r. by rewrite Z.mod_small.
  - intros k Hk. cbn [recycle_one fl_size set]. rewrite sd_next_pos, ring_pos_add by (done || destruct Hr; lia).
    apply Ho. lia.
Qed.
(** The entries inside have their length back. *)
Lemma slot_recycle_in b n : ∀ i flq k, ring_ok flq → 0 <= i < fl_size flq → 0 <= k < Z.of_nat n →
  Z.of_nat n <= fl_size flq →
  slot (recycle b n i flq) (ring_pos (fl_size flq) i k) = slot flq (ring_pos (fl_size flq) i k) <| sg_len := b |>.
Proof using.
  induction n as [|n IH]; intros i flq k Hr Hi Hk Hn; [lia|]. cbn [recycle].
  assert (Hsz : 0 < fl_size flq) by lia.
  destruct (decide (k = 0)) as [->|Hk0].
  - rewrite slot_recycle_out; [|by apply ring_ok_recycle_one|exact (sd_next_range flq i Hi)|by apply ring_pos_range|].
    + assert (ring_pos (fl_size flq) i 0 = i) as -> by (unfold ring_pos; rewrite Z.add_0_r; by apply Z.mod_small).
      rewrite slot_recycle_one by done. by rewrite decide_True.
    + intros k Hk'. cbn [recycle_one fl_size set]. rewrite sd_next_pos, ring_pos_add by done. apply ring_pos_ne; lia.
  - replace (ring_pos (fl_size flq) i k) with (ring_pos (fl_size flq) (sd_next flq i) (k - 1)).
    2:{ rewrite sd_next_pos, ring_pos_add by done. f_equal. lia. }
    rewrite (IH (sd_next flq i) (recycle_one b i flq)); [|by apply ring_ok_recycle_one|exact (sd_next_range flq i Hi)|lia|cbn; lia].
    f_equal. rewrite slot_recycle_one by (done || by apply ring_pos_range). rewrite decide_False; [done|].
    rewrite sd_next_pos, ring_pos_add by done. intros He. apply (ring_pos_ne (fl_size flq) i k 0); try lia.
    replace (1 + (k - 1)) with k in He by lia. rewrite He. unfold ring_pos. rewrite Z.add_0_r. by rewrite Z.mod_small.
Qed.

(** *** The steps of a read *)

Definition flq_of s : qdma_flq := ch_flq (s_hw s).
Definition with_flq (flq : qdma_flq) s : qst (c2h H) := s <| s_hw := s_hw s <| ch_flq := flq |> |>.
Definition ring_wrap (flq : qdma_flq) (i : Z) : Z := if i =? fl_size flq then 0 else i.

Lemma ring_wrap_next flq i : 0 <= i < fl_size flq → ring_wrap flq (i + 1) = sd_next flq i.
Proof using. done. Qed.

Lemma refill_loop_run n : ∀ idx i s,
  let bufsz := qc_c2h_bufsz (dq_conf (s_q s)) in
  ring_ok (flq_of s) → 0 <= idx <= fl_size (flq_of s) → ∃ avail,
  refill_loop n idx i true s = Some (i + Z.of_nat n,
    with_flq (recycle bufsz n (ring_wrap (flq_of s) idx) (flq_of s)) (s <| s_q := s_q s <| dq_avail := avail |> |>)) ∧
  (0 <= dq_avail (s_q s) < 2 ^ 32 → avail = u32 (dq_avail (s_q s) + Z.of_nat n)).
Proof using.
  induction n as [|n IH]; intros idx i s bufsz Hr Hi; cbn [refill_loop].
  { exists (dq_avail (s_q s)). cbn [recycle]. rewrite Z.add_0_r. split; [by destruct s as [[] ? ? [] ?]|].
    intros. rewrite Z.add_0_r. by rewrite u32_small. }
  assert (Hw : 0 <= ring_wrap (flq_of s) idx < fl_size (flq_of s)).
  { unfold ring_wrap. destruct Hr as [? _]. case_match; lia. }
  rewrite getq_bind, (qm_bind_eq _ _ _ _ _ (getf_run s)). fold (flq_of s) (ring_wrap (flq_of s) idx).
  set (k := ring_wrap (flq_of s) idx) in *.
  set (sd1 := set_nth k (slot (flq_of s) k <| sg_len := bufsz |>) (fl_sdesc (flq_of s))).
  rewrite (qm_bind_eq _ _ _ 0 (with_flq (flq_of s <| fl_sdesc := sd1 |>) s)).
  2:{ rewrite (qm_bind_eq _ _ _ _ _ (slot_run _ _ _ Hr Hw)). done. }
  change (0 <? 0) with false. cbv iota. rewrite (qm_bind_eq _ _ _ _ _ (getf_run _)).
  rewrite (qm_bind_eq _ _ _ (info (flq_of s) k) (with_flq (flq_of s <| fl_sdesc := sd1 |>) s)).
  2:{ cbn. by apply info_run. }
  set (s1 := with_flq (recycle_one bufsz k (flq_of s)) s).
  rewrite (qm_bind_eq _ _ _ tt s1) by done. rewrite (qm_bind_eq _ _ _ tt _ eq_refl).
  destruct (IH (k + 1) (i + 1) (s1 <| s_q := s_q s1 <| dq_avail := u32 (dq_avail (s_q s1) + 1) |> |>)) as (avail & -> & Ha).
  { by apply ring_ok_recycle_one. } { cbn. lia. }
  exists avail. split; [f_equal; f_equal; lia|].
  intros Hav. rewrite Ha by (apply (wrap_range 32); lia). cbn. unfold u32, Prelude.wrap.
  rewrite Zplus_mod_idemp_l. f_equal. lia.
Qed.
End read.
