(* ===== verification/StC2HThms.v ===== *)
(** * Streaming queues from card to host: what a read gives

    A read of a request moves bytes from the part of the ring that is received
    and not yet read to the part of the request's scatter list that is not yet
    filled: as many as both have, in order, and nothing else in memory changes. *)

From S2P Require Import Prelude Platform SoftAccess QueueTypes DescRing Descq DescqSubmit DescqCmpl StC2H StC2HCmpt StC2HRead.

Section thms.
Context {H : Type} `{QueueHw H}.
Implicit Types (s : qst (c2h H)) (flq : qdma_flq).

(** ** Parts of the ring *)

Lemma slots_ext flq flq' n : ∀ i, fl_size flq' = fl_size flq → 0 <= i < fl_size flq →
  (∀ k, 0 <= k < Z.of_nat n → slot flq' (ring_pos (fl_size flq) i k) = slot flq (ring_pos (fl_size flq) i k)) →
  slots n flq' i = slots n flq i.
Proof using.
  induction n as [|n IH]; intros i Hs Hi Hk; [done|]. cbn [slots].
  assert (ring_pos (fl_size flq) i 0 = i) as H0i by (unfold ring_pos; rewrite Z.add_0_r; by apply Z.mod_small).
  f_equal; [rewrite <- H0i; apply Hk; lia|].
  assert (sd_next flq' i = sd_next flq i) as -> by (unfold sd_next; by rewrite Hs).
  apply IH; [done|by apply sd_next_range|]. intros k Hk'.
  rewrite sd_next_pos, ring_pos_add by (done || lia). apply Hk. lia.
Qed.

Lemma slots_drop flq m : ∀ n i, 0 <= i < fl_size flq → (m ≤ n)%nat →
  drop m (slots n flq i) = slots (n - m) flq (ring_pos (fl_size flq) i (Z.of_nat m)).
Proof using.
  induction m as [|m IH]; intros n i Hi Hn.
  - rewrite Nat.sub_0_r. unfold ring_pos. rewrite Z.add_0_r, Z.mod_small by done. done.
  - destruct n as [|n]; [lia|]. cbn [slots drop]. rewrite IH by (lia || by apply sd_next_range).
    rewrite sd_next_pos, ring_pos_add by (done || lia). f_equal. f_equal. lia.
Qed.

Lemma slots_length n flq : ∀ i, length (slots n flq i) = n.
Proof using. induction n as [|n IH]; intros i; [done|]. cbn. by rewrite IH. Qed.

(** The buffers before the [m]-th are made available again. *)
Lemma slots_after_read b n m flq i : ring_ok flq → 0 <= i < fl_size flq → Z.of_nat n <= fl_size flq →
  (m ≤ n)%nat → slots (n - m) (recycle b m i flq) (ring_pos (fl_size flq) i (Z.of_nat m)) = drop m (slots n flq i).
Proof using.
  intros Hr Hi Hn Hm. rewrite slots_drop by done. destruct (Hr) as (Hsz & _).
  apply slots_ext; [by rewrite recycle_size|by apply ring_pos_range; lia|].
  intros k Hk. rewrite ring_pos_add by lia. apply slot_recycle_out; try done; [by apply ring_pos_range; lia|].
  intros k' Hk'. apply ring_pos_ne; lia.
Qed.

Definition trim (foff : Z) (f : qdma_sw_sg) : qdma_sw_sg :=
  f <| sg_offset := u32 (sg_offset f + foff) |> <| sg_len := u32 (sg_len f - foff) |>.
Definition trim_slot (i foff : Z) flq : qdma_flq :=
  flq <| fl_sdesc := set_nth i (trim foff (slot flq i)) (fl_sdesc flq) |>.

Lemma slot_trim i foff flq j : ring_ok flq → 0 <= i < fl_size flq → 0 <= j < fl_size flq →
  slot (trim_slot i foff flq) j = if decide (j = i) then trim foff (slot flq i) else slot flq j.
Proof using.
  intros (Hn & Hl & _) Hi Hj. unfold slot at 1. cbn [trim_slot fl_sdesc set]. unfold set_nth. destruct (decide (j = i)) as [->|Hd].
  - rewrite list_lookup_insert_eq by lia. done.
  - rewrite list_lookup_insert_ne by lia. done.
Qed.

Lemma slots_trim flq n i foff : ring_ok flq → 0 <= i < fl_size flq → (0 < n)%nat → Z.of_nat n <= fl_size flq →
  slots n (trim_slot i foff flq) i = trim foff (slot flq i) :: slots (n - 1) flq (sd_next flq i).
Proof using.
  intros Hr Hi Hn Hsz. destruct n as [|n]; [lia|]. cbn [slots]. rewrite Nat.sub_succ, Nat.sub_0_r.
  rewrite slot_trim by done. rewrite decide_True by done. f_equal.
  change (sd_next (trim_slot i foff flq) i) with (sd_next flq i).
  apply slots_ext; [done|by apply sd_next_range|]. intros k Hk.
  rewrite slot_trim by (done || (apply ring_pos_range; lia)). rewrite decide_False; [done|].
  rewrite sd_next_pos, ring_pos_add by (done || lia). intros He. apply (ring_pos_ne (fl_size flq) i (1 + k) 0); try lia.
  rewrite He. unfold ring_pos. rewrite Z.add_0_r. by rewrite Z.mod_small.
Qed.

Lemma trim_area f l foff : entry_ok f → 0 <= foff < sg_len f →
  concat (sg_area <$> trim foff f :: l) = tail_bytes (f :: l) foff.
Proof using.
  intros (? & ? & ?) ?. cbn. f_equal. unfold sg_area, trim. cbn. by rewrite !u32_small by lia.
Qed.

(** The free list after [m] buffers are used up and [foff] bytes of the next. *)
Definition flq_after_read (rf : bool) (bufsz : Z) (m : nat) (foff : Z) flq : qdma_flq :=
  let flq1 := if rf then recycle bufsz m (fl_pidx_pend flq) flq else flq in
  let flq2 := flq1 <| fl_pidx_pend := ring_idx_incr (fl_pidx_pend flq) (Z.of_nat m) (fl_size flq) |> in
  if nz foff then trim_slot (ring_pos (fl_size flq) (fl_pidx_pend flq) (Z.of_nat m)) foff flq2 else flq2.

Lemma flq_after_pend rf b m foff flq :
  fl_size (flq_after_read rf b m foff flq) = fl_size flq ∧
  fl_pidx_pend (flq_after_read rf b m foff flq) = ring_idx_incr (fl_pidx_pend flq) (Z.of_nat m) (fl_size flq) ∧
  fl_pkt_dlen (flq_after_read rf b m foff flq) = fl_pkt_dlen flq.
Proof using.
  unfold flq_after_read. destruct (recycle_frame b m (fl_pidx_pend flq) flq) as (sd & si & ->). by destruct rf, (nz foff).
Qed.

Lemma ring_ok_after rf b m foff flq : ring_ok flq → ring_ok (flq_after_read rf b m foff flq).
Proof using.
  intros Hr. pose proof (ring_ok_recycle b m (fl_pidx_pend flq) flq Hr) as Hr1.
  unfold flq_after_read, ring_ok, trim_slot, set_nth in *. destruct rf, (nz foff); cbn in *; rewrite ?length_insert; tauto.
Qed.

Lemma slots_after rf b (n m : nat) foff flq :
  let i := fl_pidx_pend flq in let j := ring_pos (fl_size flq) i (Z.of_nat m) in
  ring_ok flq → 0 <= i < fl_size flq → Z.of_nat n <= fl_size flq → (m ≤ n)%nat →
  (foff ≠ 0 → (m < n)%nat) →
  slots (n - m) (flq_after_read rf b m foff flq) j =
  match drop m (slots n flq i) with
  | f :: l => (if nz foff then trim foff f else f) :: l
  | [] => []
  end.
Proof using.
  intros i j Hr Hi Hn Hm Hf. destruct (Hr) as (Hsz & _). assert (Hj : 0 <= j < fl_size flq) by (apply ring_pos_range; lia).
  set (flq2 := (if rf then recycle b m i flq else flq) <| fl_pidx_pend := ring_idx_incr i (Z.of_nat m) (fl_size flq) |>).
  assert (Hr2 : ring_ok flq2).
  { pose proof (ring_ok_after rf b m 0 flq Hr) as Hx. exact Hx. }
  assert (Hs2 : fl_size flq2 = fl_size flq) by exact (proj1 (flq_after_pend rf b m 0 flq)).
  assert (E2 : slots (n - m) flq2 j = drop m (slots n flq i)).
  { rewrite (slots_ext (if rf then recycle b m i flq else flq) flq2); [|done|by rewrite <- Hs2 in Hj|done].
    destruct rf; [|by rewrite slots_drop]. by apply slots_after_read. }
  unfold flq_after_read. fold i flq2 j. destruct (nz foff) eqn:Hnz.
  - assert (m < n)%nat by (apply Hf; intros ->; discriminate). rewrite slots_trim by (done || lia).
    rewrite <- E2. destruct (n - m)%nat as [|k] eqn:Hk; [lia|]. cbn [slots].
    by rewrite Nat.sub_succ, Nat.sub_0_r.
  - rewrite E2. by destruct (drop m (slots n flq i)).
Qed.

Lemma unread_after rf b (n m : nat) foff flq :
  let i := fl_pidx_pend flq in
  ring_ok flq → 0 <= i < fl_size flq → Z.of_nat n <= fl_size flq → (m ≤ n)%nat →
  Forall entry_ok (slots n flq i) → 0 <= foff →
  (foff ≠ 0 → ∃ f l, drop m (slots n flq i) = f :: l ∧ foff < sg_len f) →
  concat (sg_area <$> slots (n - m) (flq_after_read rf b m foff flq) (ring_pos (fl_size flq) i (Z.of_nat m))) =
  tail_bytes (drop m (slots n flq i)) foff.
Proof using.
  intros i Hr Hi Hn Hm He H0f Hf. rewrite slots_after; try done.
  2:{ intros Hf0. destruct (Hf Hf0) as (f & l & Hd & _). apply (f_equal length) in Hd.
      rewrite length_drop, slots_length in Hd. cbn in Hd. lia. }
  fold i. destruct (nz foff) eqn:Hnz.
  - destruct Hf as (f & l & Hd & Hl); [by intros ->|]. rewrite Hd. apply trim_area; [|lia].
    apply (Forall_drop _ m) in He. rewrite Hd in He. by apply Forall_cons in He as [? _].
  - assert (foff = 0) as -> by (unfold nz in Hnz; destruct (Z.eqb_spec foff 0); [done|discriminate]).
    rewrite tail_bytes_0. by destruct (drop m (slots n flq i)).
Qed.
(** ** The read *)

Context (dma_map_page : Z → Z) (dma_mapping_error : Z → bool).
Local Abbreviation st_c2h_read := (descq_st_c2h_read dma_map_page dma_mapping_error).
Local Abbreviation flq_refill := (qdma_flq_refill dma_map_page dma_mapping_error).

Definition nr_unread s : Z := ring_idx_delta (dq_pidx (s_q s)) (fl_pidx_pend (flq_of s)) (fl_size (flq_of s)).
Definition unread_bufs s : list qdma_sw_sg := slots (Z.to_nat (nr_unread s)) (flq_of s) (fl_pidx_pend (flq_of s)).
(** What is received and not yet read. *)
Definition unread s : list (Z * Z) := concat (sg_area <$> unread_bufs s).
Definition rest_sgl (req : qdma_request) : list qdma_sw_sg := drop (Z.to_nat (cb_sg_idx (rq_cb req))) (rq_sgl req).
(** What is not yet filled of a request. *)
Definition space (req : qdma_request) : list (Z * Z) := tail_bytes (rest_sgl req) (cb_sg_offset (rq_cb req)).

Record can_read (req : qdma_request) s : Prop := {
  cr_ring : ring_ok (flq_of s);
  cr_pidx : ring_idx (fl_size (flq_of s)) (dq_pidx (s_q s));
  cr_pend : ring_idx (fl_size (flq_of s)) (fl_pidx_pend (flq_of s));
  cr_bufs : Forall entry_ok (unread_bufs s);
  cr_mem : Forall (has_byte (pages_of s)) (unread s);
  cr_plain : no_ping_pong s;
  cr_copy : rq_no_memcpy req = false;
  cr_idx : 0 <= cb_sg_idx (rq_cb req);
  cr_list : cb_sg_idx (rq_cb req) = 0 ∨ rest_sgl req ≠ [];
  cr_left : 0 <= cb_left (rq_cb req) < 2 ^ 32;
  cr_pos : pos_ok (rest_sgl req) (cb_sg_offset (rq_cb req));
  cr_space : Forall (has_byte (pages_of s)) (space req);
  cr_len : Z.of_nat (length (space req)) < 2 ^ 31;
  cr_once : NoDup (space req);
  cr_apart : ∀ x, x ∈ unread s → x ∉ space req;
}.

Lemma pend_empty_run s : ∃ e ev,
  (q ← getq;
   match dq_work_list q, dq_pend_list q with
   | [], [] =>
       modq (λ q, q <| dq_pend_list_empty := true |>);;
       qwhen (dq_q_stop_wait q) (qevent EvPendEmpty)
   | _, _ => mret tt
   end) s = Some (tt, s <| s_q := s_q s <| dq_pend_list_empty := e |> |> <| s_ev := ev |>).
Proof using.
  rewrite getq_bind.
  assert (s = s <| s_q := s_q s <| dq_pend_list_empty := dq_pend_list_empty (s_q s) |> |> <| s_ev := s_ev s |>) as Hs
    by (destruct s as [[] ? ? ? ?]; reflexivity).
  destruct (dq_work_list (s_q s)), (dq_pend_list (s_q s)); [destruct (dq_q_stop_wait (s_q s)) eqn:Hw|..];
    [eexists true, _; by rewrite modq_bind|eexists true, (s_ev s)|exists (dq_pend_list_empty (s_q s)), (s_ev s); by rewrite <- Hs..].
  by destruct s.
Qed.

(** A refill with buffers that are reused. *)
Lemma flq_refill_recycle idx n s :
  ring_ok (flq_of s) → 0 <= idx < fl_size (flq_of s) → ∃ avail e ev,
  flq_refill 0 idx (Z.of_nat n) true s = Some (Z.of_nat n,
    with_flq (recycle (qc_c2h_bufsz (dq_conf (s_q s))) n idx (flq_of s))
      (s <| s_q := s_q s <| dq_avail := avail |> <| dq_pend_list_empty := e |> |> <| s_ev := ev |>)) ∧
  (0 <= dq_avail (s_q s) < 2 ^ 32 → avail = u32 (dq_avail (s_q s) + Z.of_nat n)).
Proof using.
  intros Hr Hi. unfold qdma_flq_refill. rewrite (qm_bind_eq _ _ _ tt _ eq_refl). rewrite Nat2Z.id.
  destruct (refill_loop_run n idx 0 s) as (avail & E & Ha); [done|lia|].
  rewrite (qm_bind_eq _ _ _ _ _ E). unfold ring_wrap. destruct (Z.eqb_spec idx (fl_size (flq_of s))); [lia|].
  match goal with |- context [mbind _ getq ?s'] => destruct (pend_empty_run s') as (e & ev & E') end.
  exists avail, e, ev. split; [|exact Ha]. unfold mbind at 1, qm_bind at 1, getq at 1. unfold mbind at 1, qm_bind at 1, getq at 1 in E'. by rewrite (qm_bind_eq _ _ _ _ _ E').
Qed.

(** What the steps after the copying keep: all but the free list, counters and
    the wake-up of a stopping queue. *)
Record same_data (flq : qdma_flq) s s' : Prop := {
  sd_reqs : s_reqs s' = s_reqs s;
  sd_conf : dq_conf (s_q s') = dq_conf (s_q s);
  sd_pidx : dq_pidx (s_q s') = dq_pidx (s_q s);
  sd_pages : pages_of s' = pages_of s;
  sd_flq : flq_of s' = flq;
  sd_dev : ch_hw (s_hw s') = ch_hw (s_hw s);
}.
Definition with_dev (h : H) s : qst (c2h H) := s <| s_hw := s_hw s <| ch_hw := h |> |>.
Lemma same_data_trans f1 f2 s1 s2 s3 : same_data f1 s1 s2 → same_data f2 s2 s3 → same_data f2 s1 s3.
Proof using. intros [] []. split; congruence. Qed.

Lemma incr_cmpl_same i s : ∃ s', incr_cmpl_desc_cnt i s = Some (tt, s') ∧ same_data (flq_of s) s s'.
Proof using. destruct (incr_cmpl_desc_cnt_run s i) as (t & x & -> & _). by eexists. Qed.

Lemma refill_same (rf : bool) m idx s : ring_ok (flq_of s) → 0 <= idx < fl_size (flq_of s) → ∃ s',
  (if rf && nz (Z.of_nat m) then flq_refill 0 idx (Z.of_nat m) true;; mret tt else mret tt) s = Some (tt, s') ∧
  same_data (if rf then recycle (qc_c2h_bufsz (dq_conf (s_q s))) m idx (flq_of s) else flq_of s) s s'.
Proof using.
  intros Hr Hi. destruct rf; [|by exists s]. cbn [andb]. destruct m as [|m]; [by exists s|].
  change (nz (Z.of_nat (S m))) with true. destruct (flq_refill_recycle idx (S m) s Hr Hi) as (avail & e & ev & E & _).
  rewrite (qm_bind_eq _ _ _ _ _ E). by eexists.
Qed.

Lemma trim_same (foff fpos : Z) s : ring_ok (flq_of s) → 0 <= fpos < fl_size (flq_of s) → ∃ s',
  (if nz foff then
     flq ← getf;
     fsg ← nth_of (fl_sdesc flq) fpos;
     modf (λ flq, flq <| fl_sdesc := set_nth fpos (fsg <| sg_offset := u32 (sg_offset fsg + foff) |>
                                                     <| sg_len := u32 (sg_len fsg - foff) |>)
                                       (fl_sdesc flq) |>)
   else mret tt) s = Some (tt, s') ∧
  same_data (if nz foff then trim_slot fpos foff (flq_of s) else flq_of s) s s'.
Proof using.
  intros Hr Hi. destruct (nz foff); [|by exists s]. rewrite (qm_bind_eq _ _ _ _ _ (getf_run s)).
  fold (flq_of s). rewrite (qm_bind_eq _ _ _ _ _ (slot_run _ _ _ Hr Hi)). by eexists.
Qed.

(** The doorbell of the hardware never reports an error. *)
Definition doorbell_ok s : Prop := ∀ qid ty i, 0 <= (queue_pidx_update qid ty i (ch_hw (s_hw s)) : Z * H).1.

Lemma doorbell_same (b : bool) (f : qdma_flq → qdma_q_pidx_reg_info → qdma_q_pidx_reg_info) s : ∃ rv h s',
  (if b then
     flq ← getf;
     modq (λ q, q <| dq_pidx_info := f flq (dq_pidx_info q) |>);;
     descq_pidx_doorbell
   else mret 0) s = Some (rv, s') ∧ (doorbell_ok s → 0 <= rv) ∧ same_data (flq_of s) (with_dev h s) s'.
Proof using.
  destruct b; [|exists 0, (ch_hw (s_hw s)), s; by destruct s as [? ? ? [] ?]]. rewrite (qm_bind_eq _ _ _ _ _ (getf_run s)), modq_bind.
  unfold descq_pidx_doorbell. rewrite getq_bind. unfold hwcall.
  cbn [queue_pidx_update c2h_queue_hw]. unfold on_ch.
  match goal with |- context [@queue_pidx_update ?Hw ?i ?a ?b ?c ?d] =>
    change d with (ch_hw (s_hw s)); destruct (@queue_pidx_update Hw i a b c (ch_hw (s_hw s))) as [rv h] eqn:Eq;
    exists rv, h; eexists; split; [reflexivity|]; split; [|done];
    intros Hd; specialize (Hd a b c); by rewrite Eq in Hd end.
Qed.


(** The position after the read, for the request and for the ring. *)
Definition req_after_read (p : rd_pos) (req : qdma_request) : qdma_request :=
  req <| rq_cb := rq_cb req <| cb_sg_idx := rp_j p |> <| cb_sg_offset := rp_tsgoff p |>
                            <| cb_left := u32 (cb_left (rq_cb req) - rp_copied p) |> |>.

(** The steps of a read once [m] buffers and [foff] bytes are copied. *)
Lemma read_finish r (up rf : bool) m fpos foff p req s :
  let b := qc_c2h_bufsz (dq_conf (s_q s)) in
  let flq := flq_after_read rf b m foff (flq_of s) in
  ring_ok (flq_of s) → ring_idx (fl_size (flq_of s)) (fl_pidx_pend (flq_of s)) →
  fpos = ring_pos (fl_size (flq_of s)) (fl_pidx_pend (flq_of s)) (Z.of_nat m) →
  s_reqs s !! r = Some req →
  ∃ rv h s',
  (incr_cmpl_desc_cnt (Z.of_nat m);;
   (if rf && nz (Z.of_nat m) then flq_refill 0 (fl_pidx_pend (flq_of s)) (Z.of_nat m) true;; mret tt else mret tt);;
   modf (λ flq, flq <| fl_pidx_pend := ring_idx_incr (fl_pidx_pend flq) (Z.of_nat m) (fl_size flq) |>);;
   (if nz foff then
      flq ← getf;
      fsg ← nth_of (fl_sdesc flq) fpos;
      modf (λ flq, flq <| fl_sdesc := set_nth fpos (fsg <| sg_offset := u32 (sg_offset fsg + foff) |>
                                                      <| sg_len := u32 (sg_len fsg - foff) |>)
                                        (fl_sdesc flq) |>)
    else mret tt);;
   rv ← (if nz (Z.of_nat m) && up then
           flq ← getf;
           let idx := ring_idx_decr (fl_pidx_pend flq) 1 (fl_size flq) in
           modq (λ q, q <| dq_pidx_info := mk_pidx_info (u16 idx) (pri_irq_en (dq_pidx_info q)) |>);;
           descq_pidx_doorbell
         else mret 0);
   if rv <? 0 then mret (- EINVAL)
   else
     modcb r (λ cb, cb <| cb_sg_idx := rp_j p |> <| cb_sg_offset := rp_tsgoff p |>
                       <| cb_left := u32 (cb_left cb - rp_copied p) |>);;
     modf (λ flq, flq <| fl_pkt_dlen := u32 (fl_pkt_dlen flq - rp_copied p) |>);;
     mret (s32 (rp_copied p))) s = Some (rv, s') ∧
  (rv = s32 (rp_copied p) ∧
   same_data (flq <| fl_pkt_dlen := u32 (fl_pkt_dlen (flq_of s) - rp_copied p) |>)
     (with_dev h s <| s_reqs := <[r := req_after_read p req]> (s_reqs s) |>) s' ∨
   ¬ doorbell_ok s ∧ rv = - EINVAL ∧ same_data flq (with_dev h s) s').
Proof using.
  intros b flq Hr Hi Hf Hreq.
  destruct (incr_cmpl_same (Z.of_nat m) s) as (s1 & E1 & D1). rewrite (qm_bind_eq _ _ _ _ _ E1).
  destruct (refill_same rf m (fl_pidx_pend (flq_of s)) s1) as (s2 & E2 & D2); [by rewrite (sd_flq _ _ _ D1)..|].
  rewrite (qm_bind_eq _ _ _ _ _ E2). rewrite (qm_bind_eq _ _ _ tt _ eq_refl).
  rewrite (sd_flq _ _ _ D1), (sd_conf _ _ _ D1) in D2. fold b in D2.
  pose proof (same_data_trans _ _ _ _ _ D1 D2) as D12. clear D1 D2 E1 E2.
  pose proof (ring_ok_after rf b m 0 _ Hr) as Hr2. destruct (flq_after_pend rf b m 0 (flq_of s)) as (Hs2 & Hp2 & _).
  change (flq_after_read rf b m 0 (flq_of s)) with
    ((if rf then recycle b m (fl_pidx_pend (flq_of s)) (flq_of s) else flq_of s) <| fl_pidx_pend :=
       ring_idx_incr (fl_pidx_pend (flq_of s)) (Z.of_nat m) (fl_size (flq_of s)) |>) in Hr2, Hs2, Hp2.
  set (s3 := s2 <| s_hw := _ |>).
  assert (Hflq3 : flq_of s3 = (if rf then recycle b m (fl_pidx_pend (flq_of s)) (flq_of s) else flq_of s)
    <| fl_pidx_pend := ring_idx_incr (fl_pidx_pend (flq_of s)) (Z.of_nat m) (fl_size (flq_of s)) |>).
  { unfold s3, flq_of at 1. cbn [s_hw set ch_flq]. fold (flq_of s2). rewrite (sd_flq _ _ _ D12).
    destruct rf; [|done]. destruct (recycle_frame b m (fl_pidx_pend (flq_of s)) (flq_of s)) as (? & ? & ->). done. }
  rewrite <- Hflq3 in Hr2, Hs2, Hp2.
  destruct (trim_same foff fpos s3) as (s4 & E4 & D4); [done|rewrite Hf, Hs2; apply ring_pos_range; destruct Hr; lia|].
  rewrite (qm_bind_eq _ _ _ _ _ E4).
  destruct (doorbell_same (nz (Z.of_nat m) && up) (λ flq i, mk_pidx_info
    (u16 (ring_idx_decr (fl_pidx_pend flq) 1 (fl_size flq))) (pri_irq_en i)) s4) as (rv & h & s5 & E5 & Hrv & D5).
  assert (Hd : doorbell_ok s → doorbell_ok s4).
  { unfold doorbell_ok. rewrite (sd_dev _ _ _ D4). change (ch_hw (s_hw s3)) with (ch_hw (s_hw s2)).
    by rewrite (sd_dev _ _ _ D12). }
  rewrite (qm_bind_eq _ _ _ _ _ E5).
  assert (D : same_data flq (with_dev h s) s5).
  { assert (D3 : same_data (flq_of s3) s2 s3) by done. rewrite Hflq3, Hf in D4. rewrite (sd_flq _ _ _ D4) in D5.
    pose proof (same_data_trans _ _ _ _ _ D12 D3) as D13.
    pose proof (same_data_trans _ _ _ _ _ D13 D4) as D14. destruct D14, D5. split; try etransitivity; eassumption || done. }
  clear D12 D4 D5 E4 E5. destruct (Z.ltb_spec rv 0) as [Hneg|_].
  { exists (- EINVAL), h, s5. split; [done|]. right. split; [|done]. intros Hok. specialize (Hrv (Hd Hok)). lia. }
  rewrite (qm_bind_eq _ _ _ tt (s5 <| s_reqs := <[r := req_after_read p req]> (s_reqs s5) |>)).
  2:{ unfold modcb, getreq, putreq. rewrite qm_bind_run. rewrite (sd_reqs _ _ _ D). change (s_reqs (with_dev h s)) with (s_reqs s). rewrite Hreq. cbv beta.
      by rewrite (sd_reqs _ _ _ D). }
  exists (s32 (rp_copied p)), h. eexists. split; [reflexivity|]. left. split; [done|]. destruct D as [Dr Dc Dp Dg Df Dh]. split; try done; [cbn; by rewrite Dr|].
  change (flq_of s5 <| fl_pkt_dlen := u32 (fl_pkt_dlen (flq_of s5) - rp_copied p) |> =
    flq <| fl_pkt_dlen := u32 (fl_pkt_dlen (flq_of s) - rp_copied p) |>). rewrite Df. unfold flq.
  by rewrite (proj2 (proj2 (flq_after_pend rf b m foff (flq_of s)))).
Qed.

(** The rest of the ring is what is unread after the read. *)
Lemma unread_step rf b (m : nat) foff v s s' :
  ring_ok (flq_of s) → ring_idx (fl_size (flq_of s)) (dq_pidx (s_q s)) →
  ring_idx (fl_size (flq_of s)) (fl_pidx_pend (flq_of s)) → Forall entry_ok (unread_bufs s) → 0 <= foff →
  (m ≤ Z.to_nat (nr_unread s))%nat → (foff ≠ 0 → ∃ f l, drop m (unread_bufs s) = f :: l ∧ foff < sg_len f) →
  dq_pidx (s_q s') = dq_pidx (s_q s) → flq_of s' = flq_after_read rf b m foff (flq_of s) <| fl_pkt_dlen := v |> →
  unread s' = tail_bytes (drop m (unread_bufs s)) foff.
Proof using.
  intros Hr Hpx Hpd Hbufs Hf0 Hm Hf Hp Hflq. assert (Hn : ring_sz_ok (fl_size (flq_of s))) by apply Hr.
  pose proof Hn as Hn'. unfold ring_sz_ok in Hn'. unfold ring_idx in Hpd, Hpx.
  assert (Hnr : nr_unread s = (dq_pidx (s_q s) - fl_pidx_pend (flq_of s)) mod fl_size (flq_of s)).
  { unfold nr_unread. by rewrite ring_idx_delta_mod. }
  pose proof (Z.mod_pos_bound (dq_pidx (s_q s) - fl_pidx_pend (flq_of s)) (fl_size (flq_of s))) as Hb.
  destruct (flq_after_pend rf b m foff (flq_of s)) as (Hs & Hpe & _).
  assert (Hsz : fl_size (flq_of s') = fl_size (flq_of s)) by (by rewrite Hflq).
  assert (Hpe' : fl_pidx_pend (flq_of s') = ring_pos (fl_size (flq_of s)) (fl_pidx_pend (flq_of s)) (Z.of_nat m)).
  { rewrite Hflq. transitivity (fl_pidx_pend (flq_after_read rf b m foff (flq_of s))); [done|].
    rewrite Hpe. apply ring_idx_incr_mod; [done|done|lia]. }
  assert (Hnr' : Z.to_nat (nr_unread s') = (Z.to_nat (nr_unread s) - m)%nat).
  { unfold nr_unread at 1. rewrite Hp, Hsz, Hpe', ring_idx_delta_mod by (done || (apply ring_pos_range; lia)).
    unfold ring_pos. rewrite Zminus_mod_idemp_r, Z.sub_add_distr, <- Zminus_mod_idemp_l, <- Hnr.
    rewrite Z.mod_small; lia. }
  unfold unread, unread_bufs in *. rewrite Hnr', Hpe'.
  rewrite <- (unread_after rf b (Z.to_nat (nr_unread s)) m foff (flq_of s)) by (done || lia).
  do 2 f_equal. apply (slots_ext (flq_after_read rf b m foff (flq_of s))); [by rewrite Hsz, Hs|rewrite Hs; apply ring_pos_range; lia|].
  intros j _. by rewrite Hflq.
Qed.

Lemma same_pkt_dlen flq : flq = flq <| fl_pkt_dlen := fl_pkt_dlen flq |>.
Proof using. by destruct flq. Qed.

(** C6. A read of a request copies as many bytes as are received and unread and
    as the request has room for, the first of the one to the first of the
    other, and changes no other byte of any page, nor the references of a page;
    the ring's unread bytes are then the rest, wherever in a buffer the read
    ended and whether or not the buffers are made available again at once.
    When the doorbell accepts the new producer index, the result is the number
    copied, the request's room is also the rest, wherever in its scatter list
    the read ended, and its count of bytes left goes down by the number copied.
    When the doorbell fails, the result is -EINVAL and the request is as
    before, so the bytes copied are lost to it ([failed_doorbell_loses_bytes]).
    The request is one that copies (no_memcpy is not set), its room does not
    overlap itself or the ring's unread bytes, and the queue does not measure
    ping-pong times ([can_read]). *)
Theorem st_c2h_read_copies r (up rf : bool) req s :
  let k := Z.min (Z.of_nat (length (unread s))) (Z.of_nat (length (space req))) in
  s_reqs s !! r = Some req → can_read req s →
  ∃ rv s', st_c2h_read r up rf s = Some (rv, s') ∧ dq_pidx (s_q s') = dq_pidx (s_q s) ∧
    copied (pages_of s) (pages_of s') (take (Z.to_nat k) (unread s)) (take (Z.to_nat k) (space req)) ∧
    unread s' = drop (Z.to_nat k) (unread s) ∧
    (rv = k ∧ (∃ req', s_reqs s' = <[r := req']> (s_reqs s) ∧ space req' = drop (Z.to_nat k) (space req) ∧
       rq_sgl req' = rq_sgl req ∧ cb_left (rq_cb req') = u32 (cb_left (rq_cb req) - k)) ∨
     ¬ doorbell_ok s ∧ rv = - EINVAL ∧ s_reqs s' = s_reqs s).
Proof using.
  intros k Hreq [Hr Hpx Hpd Hbufs Hmem Hpp Hnc Hidx Hlist Hleft Hpos Hspm Hlen Hnd Hap].
  assert (Hn : ring_sz_ok (fl_size (flq_of s))) by apply Hr.
  assert (Hnr : 0 <= nr_unread s < fl_size (flq_of s)).
  { unfold nr_unread. rewrite ring_idx_delta_mod by done. apply Z.mod_pos_bound. destruct Hr. lia. }
  unfold descq_st_c2h_read. rewrite getq_bind, (qm_bind_eq _ _ _ _ _ (getf_run s)). fold (flq_of s).
  rewrite (qm_bind_eq _ _ _ req s) by (unfold getreq; by rewrite Hreq). fold (nr_unread s).
  destruct (Z.eqb_spec (nr_unread s) 0) as [H0n|H0n].
  { assert (unread s = []) as Hu by (unfold unread, unread_bufs; by rewrite H0n).
    assert (k = 0) as -> by (unfold k; rewrite Hu; cbn; lia). exists 0, s.
    do 4 (split; [done|]). left. split; [done|]. exists req. rewrite Z.sub_0_r, u32_small by done.
    split_and!; try done; by rewrite insert_id. }
  fold (rest_sgl req). assert (nz (cb_sg_idx (rq_cb req)) && bool_decide (rest_sgl req = []) = false) as ->.
  { destruct Hlist as [->|Hl]; [done|]. by rewrite bool_decide_false, andb_false_r. }
  rewrite Hnc. destruct (copy_buffers_ok (flq_of s) (Z.to_nat (nr_unread s)) Hr (fl_pidx_pend (flq_of s)) 0
    (mk_rd_pos (rest_sgl req) (cb_sg_offset (rq_cb req)) (cb_sg_idx (rq_cb req)) 0) s) as
    (p1 & m & foff & p & E & C & Ht & Hp' & Hc & Hj & Hd & Hm & Hu & Hf0 & Hf); try done;
    cbn [rp_tsg rp_tsgoff rp_j rp_copied] in *.
  { change (0 + Z.of_nat (length (space req)) < 2 ^ 32). lia. }
  fold (unread_bufs s) in C, Hu, Hf, Hc, Ht. fold (unread s) in C, Hu, Hc, Ht. fold (space req) in C, Hc, Ht, Hu. fold k in C, Hc, Ht, Hu.
  rewrite (qm_bind_eq _ _ _ _ _ E). cbv beta iota. rewrite Z.add_0_l.
  destruct (read_finish r up rf m (Nat.iter m (sd_next (flq_of s)) (fl_pidx_pend (flq_of s))) foff p req (with_pages p1 s)) as
    (rv & h & s' & E' & D); try done; [by apply iter_next|].
  rewrite Z.add_0_l in Hc. exists rv, s'. split; [exact E'|]. clear E E'.
  assert (Hs32 : s32 (rp_copied p) = k) by (rewrite Hc, s32_small; unfold k; lia). rewrite Hs32 in D.
  destruct D as [[Hrv [Dr Dc Dp Dg Df _]]|(Hdb & Hrv & [Dr Dc Dp Dg Df _])].
  - split; [exact Dp|]. split; [rewrite Dg; exact C|]. split; [rewrite <- Hu; eapply unread_step; done|].
    left. split; [done|]. exists (req_after_read p req). split; [exact Dr|]. split; [|split; [done|cbn; by rewrite Hc]].
    rewrite <- Ht. unfold space, rest_sgl. cbn. rewrite Hd. unfold rest_sgl. rewrite drop_drop. do 2 f_equal. lia.
  - split; [exact Dp|]. split; [rewrite Dg; exact C|]. split; [|by right].
    rewrite <- Hu. rewrite (same_pkt_dlen (flq_after_read _ _ _ _ _)) in Df. by eapply unread_step.
Qed.
End thms.
