(* ===== verification/StC2HPkt.v ===== *)
(** * Streaming queues from card to host: what a completion entry adds

    The number of buffers of a packet and the length of the last one; a packet
    received is appended to the unread bytes of the ring. *)

From S2P Require Import Prelude Platform SoftAccess QueueTypes DescRing Descq DescqSubmit DescqCmpl DescqConf StC2H StC2HCmpt StC2HRead StC2HThms.

(** ** The number of buffers of a packet *)

Lemma fl_nr_loop_div b fuel : ∀ l n, 0 < b → 0 <= l <= Z.of_nat fuel → fl_nr_loop fuel l b n = (n + l / b, l mod b).
Proof.
  induction fuel as [|fuel IH]; intros l n Hb Hl; cbn [fl_nr_loop].
  - assert (l = 0) as -> by lia. by rewrite Z.div_0_l, Z.mod_0_l, Z.add_0_r by lia.
  - destruct (Z.leb_spec b l).
    + rewrite IH by lia. replace l with (l - b + 1 * b) at 3 4 by lia. rewrite Z.div_add, Z.mod_add by lia. f_equal. lia.
    + by rewrite Z.div_small, Z.mod_small, Z.add_0_r by lia.
Qed.

(** What the two results have to be: [n] buffers, all but the last one full,
    hold [len] bytes. *)
Definition nr_ok (len b n l : Z) : Prop :=
  if len =? 0 then n = 1 else 1 <= n ∧ 0 < l <= b ∧ (n - 1) * b + l = len.

Lemma nr_ok_div len b : 0 < b → 0 < len →
  nr_ok len b (len / b + (if len mod b =? 0 then 0 else 1)) (if len mod b =? 0 then b else len mod b).
Proof.
  intros Hb Hl. unfold nr_ok. destruct (Z.eqb_spec len 0); [lia|].
  pose proof (Z.div_mod len b ltac:(lia)) as Hd. pose proof (Z.mod_pos_bound len b Hb).
  assert (0 <= len / b) by (apply Z.div_pos; lia). destruct (Z.eqb_spec (len mod b) 0) as [Hm|Hm].
  - assert (1 <= len / b) by (destruct (decide (len / b = 0)) as [He|]; [rewrite He in Hd|]; lia). lia.
  - lia.
Qed.

(** The lengths the code can split into buffers of [b] bytes, with the shift of
    the next power of two: all of them when [b] is a power of two, otherwise
    those that fit in one buffer or are no power of two themselves. *)
Definition splits (b sh len : Z) : Prop :=
  b = 2 ^ sh ∨ len <= b ∨ Z.land len (u32 (len - 1)) ≠ 0.

(** A packet's length is split into full buffers and a last one that is not
    empty, also for the lengths that are multiples of the buffer size: the
    branch for powers of two by shifting, when the buffer size is that of the
    shift or one buffer is enough, and the branch for all others by counting
    down. *)
Lemma nr_buf_ok len b sh :
  0 <= len < 2 ^ 16 → 0 < b < 2 ^ 16 → b <= 2 ^ sh → 0 <= sh <= 16 → splits b sh len →
  let '(n, l) := get_fl_nr len b sh (Z.shiftl 1 sh - 1) in nr_ok len b n l.
Proof.
  intros Hlen Hb Hbs Hsh Hp. unfold get_fl_nr. rewrite Z.shiftl_1_l.
  assert (0 < 2 ^ sh) by (apply Z.pow_pos_nonneg; lia). 
  assert (2 ^ sh <= 2 ^ 16) by (apply Z.pow_le_mono_r; lia).
  destruct (Z.eqb_spec (Z.land len (u32 (len - 1))) 0) as [Hpow|Hpow].
  - destruct (Z.eqb_spec len 0) as [->|Hl0]; [by unfold nr_ok|].
    assert (nz len = true) as -> by (unfold nz; by destruct (Z.eqb_spec len 0)).
    rewrite u32_small, Z.shiftr_div_pow2 by lia.
    replace (2 ^ sh - 1) with (Z.ones sh) by (rewrite Z.ones_equiv; lia). rewrite Z.land_ones by lia.
    rewrite Z.ones_equiv. destruct (decide (b = 2 ^ sh)) as [->|Hne]; cycle 1.
    { assert (len <= b) as Hle by (destruct Hp as [?|[?|?]]; [done..|lia]).
      rewrite (Z.mod_small len) by lia. rewrite (proj2 (Z.eqb_neq len 0)) by done.
      assert ((len + Z.pred (2 ^ sh)) / 2 ^ sh = 1) as -> by (symmetry; apply Z.div_unique with (len - 1); lia).
      unfold nr_ok. rewrite (proj2 (Z.eqb_neq len 0)) by done. lia. }
    clear Hp Hbs. pose proof (nr_ok_div len (2 ^ sh)) as K.
    replace ((len + Z.pred (2 ^ sh)) / 2 ^ sh) with (len / 2 ^ sh + (if len mod 2 ^ sh =? 0 then 0 else 1)).
    { apply K; lia. }
    pose proof (Z.div_mod len (2 ^ sh) ltac:(lia)). pose proof (Z.mod_pos_bound len (2 ^ sh) ltac:(lia)).
    destruct (Z.eqb_spec (len mod 2 ^ sh) 0).
    + rewrite Z.add_0_r. apply Z.div_unique with (2 ^ sh - 1); lia.
    + apply Z.div_unique with (len mod 2 ^ sh - 1); lia.
  - assert (Hl0 : len ≠ 0) by (intros ->; by apply Hpow). destruct (Z.leb_spec len b).
    { unfold nr_ok. destruct (Z.eqb_spec len 0); lia. }
    rewrite fl_nr_loop_div by lia. rewrite Z.add_0_l. pose proof (nr_ok_div len b) as K. unfold nz.
    destruct (Z.eqb_spec (len mod b) 0) as [Hm|Hm]; cbn [negb]; [rewrite Z.add_0_r in K|]; apply K; lia.
Qed.

(** A buffer size that is not a power of two, as the one of 3968 bytes in the
    default table: the shift is that of the next power of two, and a packet of
    4096 bytes is taken for one buffer, of 3968 bytes. *)
Example bufsz_3968_loses_bytes :
  get_next_powof2 3968 = 4096 ∧ fls 4096 - 1 = 12 ∧ get_fl_nr 4096 3968 12 (Z.shiftl 1 12 - 1) = (1, 3968) ∧
  ¬ nr_ok 4096 3968 1 3968.
Proof. split_and!; try reflexivity. vm_compute. intros (_ & _ & Hx). discriminate. Qed.

(** The number of buffers of [b] bytes a packet needs; one when it is empty. *)
Definition pkt_bufs (b len : Z) : Z := if len =? 0 then 1 else (len + b - 1) / b.

Lemma nr_ok_bufs len b n l : 0 < b → nr_ok len b n l → n = pkt_bufs b len.
Proof.
  intros Hb. unfold nr_ok, pkt_bufs. destruct (len =? 0); [done|]. intros (Hn & Hl & <-).
  apply Z.div_unique with (l - 1); lia.
Qed.

Lemma pkt_bufs_pos b len : 0 < b → 0 <= len → 1 <= pkt_bufs b len.
Proof.
  intros Hb Hl. unfold pkt_bufs. destruct (Z.eqb_spec len 0); [done|].
  apply Z.div_le_lower_bound; lia.
Qed.

Section pkt.
Context {H : Type} `{QueueHw H}.
Implicit Types (s : qst (c2h H)) (flq : qdma_flq).

(** ** Marking the descriptors of a packet *)

Definition same_info (flq : qdma_flq) s s' : Prop :=
  ∃ si, length si = length (fl_sdesc_info flq) ∧ s' = with_flq (flq <| fl_sdesc_info := si |>) s.

Lemma mark_run i f s : ring_ok (flq_of s) → 0 <= i < fl_size (flq_of s) →
  ∃ s', mark i f s = Some (tt, s') ∧ same_info (flq_of s) s s'.
Proof using.
  intros Hr Hi. unfold mark. rewrite (qm_bind_eq _ _ _ _ _ (getf_run s)). fold (flq_of s).
  rewrite (qm_bind_eq _ _ _ _ _ (info_run _ _ _ Hr Hi)). eexists. split; [reflexivity|]. eexists. split; [|reflexivity].
  apply length_insert.
Qed.

Lemma same_info_trans s s1 s2 : same_info (flq_of s) s s1 → same_info (flq_of s1) s1 s2 → same_info (flq_of s) s s2.
Proof using. intros (si & Hl & ->) (si' & Hl' & ->). exists si'. split; [by rewrite <- Hl|done]. Qed.
Lemma same_info_ring s s' : ring_ok (flq_of s) → same_info (flq_of s) s s' → ring_ok (flq_of s').
Proof using. intros (? & ? & ?) (si & Hl & ->). unfold ring_ok. cbn. rewrite Hl. done. Qed.
Lemma same_info_size s s' : same_info (flq_of s) s s' → fl_size (flq_of s') = fl_size (flq_of s).
Proof using. by intros (si & _ & ->). Qed.

Lemma mark_valid_run n cidx : ∀ i s, ring_ok (flq_of s) → 0 <= i < fl_size (flq_of s) →
  ∃ s', mark_valid n i cidx s = Some (tt, s') ∧ same_info (flq_of s) s s'.
Proof using.
  induction n as [|n IH]; intros i s Hr Hi; cbn [mark_valid].
  { exists s. split; [done|]. exists (fl_sdesc_info (flq_of s)). split; [done|]. by destruct s as [? ? ? [? [] ? ? ? ? ?] ?]. }
  rewrite (qm_bind_eq _ _ _ _ _ (getf_run s)). fold (flq_of s).
  rewrite (qm_bind_eq _ _ _ _ _ (info_run _ _ _ Hr Hi)). 
  set (s1 := with_flq (flq_of s <| fl_sdesc_info := set_nth i (info (flq_of s) i <| si_valid := true |> <| si_cidx := cidx |>)
    (fl_sdesc_info (flq_of s)) |>) s). rewrite (qm_bind_eq _ _ _ tt s1) by done.
  assert (D1 : same_info (flq_of s) s s1) by (eexists; split; [apply length_insert|done]).
  destruct (IH (sd_next (flq_of s) i) s1) as (s2 & E2 & D2);
    [by eapply same_info_ring|by rewrite (same_info_size _ _ D1); apply sd_next_range|].
  exists s2. split; [exact E2|by eapply same_info_trans].
Qed.

Lemma mark_packet {A} n i last cidx (k : qm (c2h H) A) s :
  ring_ok (flq_of s) → 0 <= i < fl_size (flq_of s) → 0 <= last < fl_size (flq_of s) → ∃ s',
  (mark_valid n i cidx;; mark i (λ si, si <| si_sop := true |>);;
   mark last (λ si, si <| si_eop := true |>);; k) s = k s' ∧ same_info (flq_of s) s s'.
Proof using.
  intros Hr Hi Hl. destruct (mark_valid_run n cidx i s Hr Hi) as (s1 & E1 & D1). rewrite (qm_bind_eq _ _ _ _ _ E1).
  destruct (mark_run i (λ si, si <| si_sop := true |>) s1) as (s2 & E2 & D2);
    [by eapply same_info_ring|by rewrite (same_info_size _ _ D1)|]. rewrite (qm_bind_eq _ _ _ _ _ E2).
  pose proof (same_info_trans _ _ _ D1 D2) as D.
  destruct (mark_run last (λ si, si <| si_eop := true |>) s2) as (s3 & E3 & D3);
    [by eapply same_info_ring|by rewrite (same_info_size _ _ D)|]. rewrite (qm_bind_eq _ _ _ _ _ E3).
  exists s3. split; [done|by eapply same_info_trans].
Qed.

(** ** Buffers of a packet *)

Lemma slots_snoc flq n : ∀ i, 0 <= i < fl_size flq →
  slots (S n) flq i = slots n flq i ++ [slot flq (ring_pos (fl_size flq) i (Z.of_nat n))].
Proof using.
  induction n as [|n IH]; intros i Hi.
  - cbn. unfold ring_pos. by rewrite Z.add_0_r, Z.mod_small.
  - cbn [slots app]. f_equal. specialize (IH (sd_next flq i)). cbn [slots] in IH. rewrite IH by by apply sd_next_range.
    rewrite sd_next_pos, ring_pos_add by (done || lia). do 4 f_equal. lia.
Qed.

Lemma slots_app flq a : ∀ b i, 0 <= i < fl_size flq →
  slots (a + b) flq i = slots a flq i ++ slots b flq (ring_pos (fl_size flq) i (Z.of_nat a)).
Proof using.
  intros b i Hi. rewrite <- (take_drop a (slots (a + b) flq i)). rewrite slots_drop by (done || lia).
  replace (a + b - a)%nat with b by lia. f_equal. revert i Hi.
  induction a as [|a IH]; intros i Hi; [done|]. cbn [slots Nat.add take]. f_equal. by apply IH, sd_next_range.
Qed.

Lemma area_concat_length b fs : 0 <= b → Forall (λ f, sg_len f = b) fs →
  Z.of_nat (length (concat (sg_area <$> fs))) = Z.of_nat (length fs) * b.
Proof using.
  intros Hb Hf. induction Hf as [|f fs <- Hf IH]; [done|]. cbn [fmap list_fmap concat length].
  rewrite length_app, Nat2Z.inj_add, IH. unfold sg_area at 1. rewrite area_len_Z by done. lia.
Qed.

Lemma short_last b fs x l : 0 <= l <= b → Forall (λ f, sg_len f = b) (fs ++ [x]) →
  concat (sg_area <$> fs ++ [x <| sg_len := l |>]) =
  take (Z.to_nat (Z.of_nat (length fs) * b + l)) (concat (sg_area <$> fs ++ [x])).
Proof using.
  intros Hl Hf. apply Forall_app in Hf as [Hf Hx]. apply Forall_cons in Hx as [Hx _].
  rewrite !fmap_app, !concat_app. rewrite take_app_Z by (lia || (apply area_concat_length; [lia|done])).
  f_equal. cbn. rewrite !app_nil_r. unfold sg_area. cbn. rewrite area_take by lia. done.
Qed.

(** What is received up to [p] and not yet read. *)
Definition received (p : Z) s : list (Z * Z) :=
  let flq := flq_of s in
  concat (sg_area <$> slots (Z.to_nat (ring_idx_delta p (fl_pidx_pend flq) (fl_size flq))) flq (fl_pidx_pend flq)).

Lemma received_unread s : received (dq_pidx (s_q s)) s = unread s.
Proof using. done. Qed.

(** Where in its page the device writes the buffer of a descriptor: at the bus
    address the descriptor has, whatever offset the driver keeps. *)
Context (dma_map_page : Z → Z).
Definition dst_offset flq (i : Z) : Z :=
  u64 (nth (Z.to_nat i) (fl_desc flq) 0 - dma_map_page (sg_pg (slot flq i))).

(** The bytes the device writes to the [n] buffers of [b] bytes from [i] on. *)
Fixpoint dst_bytes (b : Z) (n : nat) flq (i : Z) : list (Z * Z) :=
  match n with
  | O => []
  | S n => area (sg_pg (slot flq i)) (dst_offset flq i) b ++ dst_bytes b n flq (sd_next flq i)
  end.

(** A buffer of the whole length that is read where the device writes it. *)
Definition buf_ok (b : Z) flq (i : Z) : Prop :=
  sg_len (slot flq i) = b ∧ dst_offset flq i = sg_offset (slot flq i).

Lemma dst_bytes_slots b flq n : ∀ i, 0 <= i < fl_size flq →
  (∀ k, 0 <= k < Z.of_nat n → buf_ok b flq (ring_pos (fl_size flq) i k)) →
  dst_bytes b n flq i = concat (sg_area <$> slots n flq i).
Proof using.
  induction n as [|n IH]; intros i Hi Hk; [done|]. cbn [dst_bytes slots fmap list_fmap concat].
  destruct (Hk 0) as [Hl Ho]; [lia|]. unfold ring_pos in Hl, Ho. rewrite Z.add_0_r, Z.mod_small in Hl, Ho by done.
  unfold sg_area at 1. rewrite Hl, Ho. f_equal. apply IH; [by apply sd_next_range|].
  intros k Hk'. rewrite sd_next_pos, ring_pos_add by (done || lia). apply Hk. lia.
Qed.

Lemma dst_bytes_ext b flq flq' n : ∀ i, fl_size flq' = fl_size flq → fl_desc flq' = fl_desc flq → 0 <= i < fl_size flq →
  (∀ k, 0 <= k < Z.of_nat n → slot flq' (ring_pos (fl_size flq) i k) = slot flq (ring_pos (fl_size flq) i k)) →
  dst_bytes b n flq' i = dst_bytes b n flq i.
Proof using.
  induction n as [|n IH]; intros i Hs Hd Hi Hk; [done|]. cbn [dst_bytes].
  assert (slot flq' i = slot flq i) as He.
  { specialize (Hk 0 ltac:(lia)). unfold ring_pos in Hk. by rewrite Z.add_0_r, Z.mod_small in Hk. }
  unfold dst_offset. rewrite He, Hd. f_equal.
  assert (sd_next flq' i = sd_next flq i) as -> by (unfold sd_next; by rewrite Hs).
  apply IH; [done|done|by apply sd_next_range|]. intros k Hk'.
  rewrite sd_next_pos, ring_pos_add by (done || lia). apply Hk. lia.
Qed.

(** The buffers that are free have their whole length and are read where the
    device writes them. *)
Definition free_ok (p : Z) s : Prop :=
  ∀ k, 0 <= k < dq_avail (s_q s) →
    buf_ok (qc_c2h_bufsz (dq_conf (s_q s))) (flq_of s) (ring_pos (fl_size (flq_of s)) p k).

(** The last of [n] buffers from [i] on gets the length [l]. *)
Definition set_last (i : Z) (n : nat) (l : Z) flq : qdma_flq :=
  let last := ring_pos (fl_size flq) i (Z.of_nat n - 1) in
  flq <| fl_sdesc := set_nth last (slot flq last <| sg_len := l |>) (fl_sdesc flq) |>.

Lemma slot_set_last i n l flq j : ring_ok flq → 0 <= j < fl_size flq →
  slot (set_last i n l flq) j =
  if decide (j = ring_pos (fl_size flq) i (Z.of_nat n - 1)) then slot flq j <| sg_len := l |> else slot flq j.
Proof using.
  intros (Hn & Hl & _) Hj. pose proof (ring_pos_range (fl_size flq) i (Z.of_nat n - 1)) as Hp.
  unfold slot at 1. cbn [set_last fl_sdesc set]. unfold set_nth.
  destruct (decide (j = ring_pos (fl_size flq) i (Z.of_nat n - 1))) as [->|Hd].
  - rewrite list_lookup_insert_eq by lia. done.
  - rewrite list_lookup_insert_ne by lia. done.
Qed.

Lemma slots_set_last i n l flq b : ring_ok flq → 0 <= i < fl_size flq → (0 < n)%nat → Z.of_nat n <= fl_size flq →
  0 <= l <= b → (∀ k, 0 <= k < Z.of_nat n → sg_len (slot flq (ring_pos (fl_size flq) i k)) = b) →
  concat (sg_area <$> slots n (set_last i n l flq) i) =
  take (Z.to_nat ((Z.of_nat n - 1) * b + l)) (concat (sg_area <$> slots n flq i)).
Proof using.
  intros Hr Hi Hn Hsz Hl Hb. destruct n as [|n]; [lia|]. replace (Z.of_nat (S n) - 1) with (Z.of_nat n) by lia.
  assert (Hsz' : 0 < fl_size flq) by lia.
  rewrite !slots_snoc by done. change (fl_size (set_last i (S n) l flq)) with (fl_size flq).
  rewrite slot_set_last by (done || by apply ring_pos_range).
  replace (Z.of_nat (S n) - 1) with (Z.of_nat n) by lia. rewrite decide_True by done.
  rewrite (slots_ext flq); [|done|done|].
  - rewrite (short_last b); [by rewrite slots_length|done|]. rewrite <- slots_snoc by done.
    apply Forall_lookup_2. intros k x Hx.
    assert (k < S n)%nat as Hk by (apply lookup_lt_Some in Hx; by rewrite slots_length in Hx).
    rewrite <- (Nat.add_0_r k), <- lookup_drop, slots_drop in Hx by (done || lia).
    destruct (S n - k)%nat as [|j] eqn:Hj; [lia|]. injection Hx as <-. apply Hb. lia.
  - intros k Hk. rewrite slot_set_last by (done || by apply ring_pos_range). rewrite decide_False; [done|].
    apply ring_pos_ne; lia.
Qed.

Context (fp_descq_c2h_packet : Z → Z → option Z → option Z → qm (c2h H) Z).

Lemma ring_pos_delta n i j : ring_sz_ok n → ring_idx n i → ring_idx n j → ring_pos n j (ring_idx_delta i j n) = i.
Proof using.
  intros Hn Hi Hj. rewrite ring_idx_delta_mod by done. unfold ring_pos. rewrite Zplus_mod_idemp_r.
  replace (j + (i - j)) with i by lia. by apply Z.mod_small.
Qed.
Lemma ring_delta_pos n i j k : ring_sz_ok n → ring_idx n i → ring_idx n j → 0 <= k → ring_idx_delta i j n + k < n →
  ring_idx_delta (ring_pos n i k) j n = ring_idx_delta i j n + k.
Proof using.
  intros Hn Hi Hj Hk Hlt. assert (Hn' : 0 < n) by (unfold ring_sz_ok in Hn; lia).
  rewrite !ring_idx_delta_mod in * by (done || by apply ring_pos_range). unfold ring_pos. rewrite Zminus_mod_idemp_l.
  replace (i + k - j) with (i - j + k) by lia. rewrite <- Zplus_mod_idemp_l.
  pose proof (Z.mod_pos_bound (i - j) n Hn'). rewrite Z.mod_small; lia.
Qed.

(** The part of the result that is about the ring. *)
Lemma received_set_last pidx n l s s' b :
  let flq := flq_of s in let a := ring_idx_delta pidx (fl_pidx_pend flq) (fl_size flq) in
  ring_ok flq → ring_idx (fl_size flq) pidx → ring_idx (fl_size flq) (fl_pidx_pend flq) → (0 < n)%nat →
  a + Z.of_nat n < fl_size flq → 0 <= l <= b →
  (∀ k, 0 <= k < Z.of_nat n → sg_len (slot flq (ring_pos (fl_size flq) pidx k)) = b) →
  fl_sdesc (flq_of s') = fl_sdesc (set_last pidx n l flq) → fl_size (flq_of s') = fl_size flq →
  fl_pidx_pend (flq_of s') = fl_pidx_pend flq →
  received (ring_pos (fl_size flq) pidx (Z.of_nat n)) s' =
  received pidx s ++ take (Z.to_nat ((Z.of_nat n - 1) * b + l)) (concat (sg_area <$> slots n flq pidx)).
Proof using.
  intros flq a Hr Hpx Hpd Hn Ha Hl Hb Hsd Hs Hp. assert (Hsz : ring_sz_ok (fl_size flq)) by apply Hr.
  assert (Hs0 : 0 < fl_size flq) by apply Hr.
  assert (Ha0 : 0 <= a).
  { unfold a. rewrite ring_idx_delta_mod by done. apply Z.mod_pos_bound. done. }
  unfold received. rewrite Hs, Hp. fold flq. rewrite ring_delta_pos by (done || lia). fold a.
  rewrite Z2Nat.inj_add, Nat2Z.id by lia.
  rewrite (slots_ext (set_last pidx n l flq)); [|done|done|by intros; unfold slot; rewrite Hsd].
  rewrite slots_app by done. change (fl_size (set_last pidx n l flq)) with (fl_size flq).
  assert (Hpa : ring_pos (fl_size flq) (fl_pidx_pend flq) a = pidx) by by apply ring_pos_delta.
  rewrite Z2Nat.id, Hpa by done. rewrite fmap_app, concat_app. f_equal.
  - do 2 f_equal. apply slots_ext; [done|done|]. intros k Hk. rewrite slot_set_last by (done || by apply ring_pos_range).
    rewrite decide_False; [done|]. rewrite <- Hpa, ring_pos_add by done. apply ring_pos_ne; lia.
  - apply slots_set_last; done || lia.
Qed.

(** What receiving packets at the producer index [p] relies on and keeps. *)
Record recv_ok (p : Z) s : Prop := {
  ro_ring : ring_ok (flq_of s);
  ro_size : fl_size (flq_of s) = qc_rngsz (dq_conf (s_q s));
  ro_pidx : ring_idx (fl_size (flq_of s)) p;
  ro_pend : ring_idx (fl_size (flq_of s)) (fl_pidx_pend (flq_of s));
  ro_shift : 0 <= fl_desc_pg_shift (flq_of s) <= 16;
  ro_bufsz : 0 < qc_c2h_bufsz (dq_conf (s_q s)) < 2 ^ 16 ∧
    qc_c2h_bufsz (dq_conf (s_q s)) <= 2 ^ fl_desc_pg_shift (flq_of s);
  ro_plain : qc_fp_descq_c2h_packet (dq_conf (s_q s)) = false;
  ro_free : free_ok p s;
  ro_avail : 0 <= dq_avail (s_q s) < 2 ^ 32;
  ro_room : ring_idx_delta p (fl_pidx_pend (flq_of s)) (fl_size (flq_of s)) + dq_avail (s_q s) < fl_size (flq_of s);
}.

(** A length that fits a completion entry and that the code can split. *)
Definition len_ok s (len : Z) : Prop :=
  0 <= len < 2 ^ 16 ∧ splits (qc_c2h_bufsz (dq_conf (s_q s))) (fl_desc_pg_shift (flq_of s)) len.

Definition avail_less (n : Z) s : qst (c2h H) := s <| s_q := s_q s <| dq_avail := dq_avail (s_q s) - n |> |>.

Lemma pkt_split p len s : recv_ok p s → len_ok s len → ∃ l, let b := qc_c2h_bufsz (dq_conf (s_q s)) in
  let n := pkt_bufs b len in let l' := if len =? 0 then 0 else l in
  get_fl_nr len b (fl_desc_pg_shift (flq_of s)) (Z.shiftl 1 (fl_desc_pg_shift (flq_of s)) - 1) = (n, l) ∧
  1 <= n ∧ 0 <= l' <= b ∧ (n - 1) * b + l' = len.
Proof using.
  intros Hro [Hlen Hsp]. destruct (ro_bufsz _ _ Hro) as [Hb Hle]. pose proof (ro_shift _ _ Hro) as Hsh.
  set (sh := fl_desc_pg_shift (flq_of s)) in *. set (b := qc_c2h_bufsz (dq_conf (s_q s))) in *.
  pose proof (nr_buf_ok len b sh Hlen Hb Hle Hsh Hsp) as Hnr. cbv zeta.
  destruct (get_fl_nr len b sh (Z.shiftl 1 sh - 1)) as [n l]. exists l.
  pose proof (nr_ok_bufs _ _ _ _ (proj1 Hb) Hnr) as Hn. rewrite <- Hn. split; [done|].
  unfold nr_ok in Hnr. destruct (Z.eqb_spec len 0) as [->|]; [subst n|]; lia.
Qed.

(** The run, with the rest of the state made explicit. *)
Lemma rcv_pkt_state cmpl len s : let p := uc_pidx cmpl in let n := pkt_bufs (qc_c2h_bufsz (dq_conf (s_q s))) len in
  recv_ok p s → len_ok s len → n <= dq_avail (s_q s) → ∃ l si u d,
  0 <= l <= qc_c2h_bufsz (dq_conf (s_q s)) ∧ (n - 1) * qc_c2h_bufsz (dq_conf (s_q s)) + l = len ∧ 1 <= n ∧
  length si = length (fl_sdesc_info (flq_of s)) ∧
  rcv_pkt fp_descq_c2h_packet cmpl len s = Some ((0, ring_pos (fl_size (flq_of s)) p n),
    with_flq (set_last p (Z.to_nat n) l (flq_of s) <| fl_sdesc_info := si |> <| fl_pkt_dlen := d |> <| fl_udd_cnt := u |>)
      (avail_less n s)).
Proof using.
  intros p n Hro Hlen Hav. destruct (pkt_split p len s Hro Hlen) as (l & Hg & Hn & Hl & Hsum). fold n in Hg, Hn, Hsum.
  destruct Hro as [Hr Hsz Hpx Hpd Hsh Hbs Hfp Hfree Hav' Hroom]. set (flq := flq_of s) in *. set (conf := dq_conf (s_q s)) in *.
  assert (Hsz' : ring_sz_ok (fl_size flq)) by apply Hr. pose proof Hsz' as Hsz2. unfold ring_sz_ok in Hsz2.
  assert (Ha0 : 0 <= ring_idx_delta p (fl_pidx_pend flq) (fl_size flq)).
  { rewrite ring_idx_delta_mod by done. apply Z.mod_pos_bound. lia. }
  unfold rcv_pkt. rewrite getq_bind, (qm_bind_eq _ _ _ _ _ (getf_run s)). cbv zeta. fold (flq_of s). fold flq p conf. rewrite Hg, <- Hsz.
  set (last := ring_idx_incr p (n - 1) (fl_size flq)).
  assert (Hlast : last = ring_pos (fl_size flq) p (n - 1)) by (apply ring_idx_incr_mod; done || lia).
  assert (Hlr : 0 <= last < fl_size flq) by (rewrite Hlast; apply ring_pos_range; lia).
  assert (ring_idx_incr last 1 (fl_size flq) = ring_pos (fl_size flq) p n) as ->.
  { rewrite ring_idx_incr_mod by (done || lia). fold (ring_pos (fl_size flq) last 1). rewrite Hlast, ring_pos_add by lia. f_equal. lia. }
  rewrite (qm_bind_eq _ _ _ _ _ (slot_run _ _ _ Hr Hlr)). set (l' := if len =? 0 then 0 else l) in *.
  set (s1 := with_flq (set_last p (Z.to_nat n) l' flq) s). rewrite (qm_bind_eq _ _ _ tt s1).
  2:{ unfold s1, set_last. rewrite Z2Nat.id by lia. rewrite <- Hlast. done. }
  destruct (Z.ltb_spec (dq_avail (s_q s)) n); [lia|]. rewrite Hfp, modq_bind.
  assert (Hr1 : ring_ok (flq_of s1)).
  { destruct Hr as (? & ? & ?). unfold ring_ok, s1. cbn. unfold set_nth. by rewrite length_insert. }
  set (s2 := s1 <| s_q := _ |>).
  assert (Hs2 : s2 = with_flq (set_last p (Z.to_nat n) l' flq) (avail_less n s)).
  { unfold s2, s1, avail_less, with_flq. cbn. by rewrite u32_small by lia. }
  match goal with |- context [mbind (λ _, mbind (λ _, mbind ?k (mark last _)) _) _ s2] =>
    destruct (mark_packet (Z.to_nat n) p last (ring_idx_incr (dq_cidx_cmpt (s_q s)) 1 (qc_rngsz_cmpt conf)) (k tt) s2)
      as (s3 & -> & (si & Hsi & ->)); [done..|] end.
  exists l', si. do 2 eexists. do 3 (split; [done|]). split; [exact Hsi|]. rewrite Hs2. reflexivity.
Qed.

(** A completion entry for a packet adds the packet's bytes to what is
    received and unread: the first [len] bytes of the free buffers from the
    producer index on, as many buffers as the packet's length needs; nothing
    that was received before is touched, nor a buffer that stays free. *)
Lemma rcv_pkt_run cmpl len s : let b := qc_c2h_bufsz (dq_conf (s_q s)) in let n := pkt_bufs b len in
  let p := uc_pidx cmpl in let next := ring_pos (fl_size (flq_of s)) p n in
  recv_ok p s → len_ok s len → n <= dq_avail (s_q s) →
  ∃ flq', rcv_pkt fp_descq_c2h_packet cmpl len s = Some ((0, next), with_flq flq' (avail_less n s)) ∧
    1 <= n ∧ recv_ok next (with_flq flq' (avail_less n s)) ∧
    fl_size flq' = fl_size (flq_of s) ∧ fl_desc_pg_shift flq' = fl_desc_pg_shift (flq_of s) ∧
    fl_desc flq' = fl_desc (flq_of s) ∧
    (∀ k, n <= k < dq_avail (s_q s) →
       slot flq' (ring_pos (fl_size flq') p k) = slot (flq_of s) (ring_pos (fl_size flq') p k)) ∧
    received next (with_flq flq' (avail_less n s)) =
      received p s ++ take (Z.to_nat len) (dst_bytes b (Z.to_nat n) (flq_of s) p).
Proof using.
  intros b n p next Hro Hlen Hav. destruct (rcv_pkt_state cmpl len s Hro Hlen Hav) as (l & si & u & d & Hl & Hsum & Hn & Hsi & E).
  fold b n p next in E, Hsum, Hn, Hl. destruct Hro as [Hr Hsz Hpx Hpd Hsh Hbs Hfp Hfree Hav' Hroom]. fold p in Hpx, Hfree, Hroom.
  assert (Hsz' : ring_sz_ok (fl_size (flq_of s))) by apply Hr. pose proof Hsz' as Hsz2. unfold ring_sz_ok in Hsz2.
  assert (Ha0 : 0 <= ring_idx_delta p (fl_pidx_pend (flq_of s)) (fl_size (flq_of s))).
  { rewrite ring_idx_delta_mod by done. apply Z.mod_pos_bound. lia. }
  set (flq' := set_last _ _ _ _ <| fl_sdesc_info := si |> <| fl_pkt_dlen := d |> <| fl_udd_cnt := u |>) in E.
  assert (Hfree2 : ∀ k, n <= k < dq_avail (s_q s) →
    slot flq' (ring_pos (fl_size (flq_of s)) p k) = slot (flq_of s) (ring_pos (fl_size (flq_of s)) p k)).
  { intros k Hk. change (slot flq' ?j) with (slot (set_last p (Z.to_nat n) l (flq_of s)) j).
    rewrite slot_set_last by (done || (apply ring_pos_range; lia)). rewrite decide_False; [done|].
    rewrite Z2Nat.id by lia. apply ring_pos_ne; lia. }
  exists flq'. split; [exact E|]. split; [done|]. split; [|do 4 (split; [done|])].
  - split; try done.
    + destruct Hr as (? & ? & ?). unfold ring_ok. cbn. unfold set_nth. by rewrite length_insert, Hsi.
    + exact (ring_pos_range (fl_size (flq_of s)) p n (proj1 Hsz2)).
    + intros k Hk. cbn in Hk. change (buf_ok b flq' (ring_pos (fl_size (flq_of s)) next k)).
      unfold buf_ok, dst_offset, next. change (fl_desc flq') with (fl_desc (flq_of s)).
      rewrite ring_pos_add, Hfree2 by lia. apply Hfree. lia.
    + cbn. lia.
    + change (ring_idx_delta next (fl_pidx_pend (flq_of s)) (fl_size (flq_of s)) + (dq_avail (s_q s) - n) < fl_size (flq_of s)).
      unfold next. rewrite ring_delta_pos by (done || lia). lia.
  - unfold next. rewrite <- (Z2Nat.id n) at 1 by lia.
    rewrite (received_set_last p (Z.to_nat n) l s _ b); try done; try lia.
    + rewrite Z2Nat.id by lia. rewrite Hsum. rewrite (dst_bytes_slots b); [done|exact Hpx|].
      intros k Hk. apply Hfree. lia.
    + intros k Hk. apply Hfree. lia.
Qed.

(** *** Several entries *)

Context `{!C2hHw H} (fp_proc_ul_cmpt_entry : Z → qm (c2h H) (Z * qdma_ul_cmpt_info)).

(** The bytes the device writes packets of the lengths [lens] to: each into as
    many buffers of [b] bytes as it needs, from the descriptor [p] on, at the
    bus addresses of the descriptors. *)
Fixpoint packets (b : Z) (lens : list Z) flq (p : Z) : list (Z * Z) :=
  match lens with
  | [] => []
  | len :: lens =>
      let n := pkt_bufs b len in
      take (Z.to_nat len) (dst_bytes b (Z.to_nat n) flq p) ++ packets b lens flq (ring_pos (fl_size flq) p n)
  end.
Definition all_bufs (b : Z) (lens : list Z) : Z := foldr (λ len n, pkt_bufs b len + n) 0 lens.

(** The device has written entries for packets of these lengths, from entry
    [cidx] of a ring of [rn] entries of [el] bytes on, with the right colors. *)
Fixpoint entries (lens : list Z) (el rn cidx color : Z) (h : H) : Prop :=
  match lens with
  | [] => True
  | len :: lens =>
      (∃ w eot, cmpt_entry_word (cidx * el) h = (w, h) ∧
        cmpl_of_word (cidx * el) w = mk_ul_cmpt_info false color false true eot len 0 (cidx * el)) ∧
      if u32 (cidx + 1) =? rn then entries lens el rn 0 (Z.lxor color 1) h
      else entries lens el rn (u32 (cidx + 1)) color h
  end.
Definition entries_at (lens : list Z) s : Prop :=
  let rn := qc_rngsz_cmpt (dq_conf (s_q s)) in
  0 <= dq_cidx_cmpt (s_q s) < rn ∧ rn < 2 ^ 32 ∧
  ch_cmpt_cur (s_hw s) = dq_cidx_cmpt (s_q s) * dq_cmpt_entry_len (s_q s) ∧
  entries lens (dq_cmpt_entry_len (s_q s)) rn (dq_cidx_cmpt (s_q s)) (dq_color (s_q s)) (ch_hw (s_hw s)).

Lemma all_bufs_nonneg b lens : 0 < b → Forall (λ len, 0 <= len) lens → 0 <= all_bufs b lens.
Proof using.
  intros Hb Hl. induction Hl as [|len lens Hlen Hl IH]; [done|]. cbn. pose proof (pkt_bufs_pos b len Hb Hlen).
  unfold all_bufs in IH. lia.
Qed.

Lemma packets_ext b lens flq flq' : fl_size flq' = fl_size flq → fl_desc flq' = fl_desc flq → 0 < b →
  0 < fl_size flq → Forall (λ len, 0 <= len) lens → ∀ p, 0 <= p < fl_size flq →
  (∀ k, 0 <= k < all_bufs b lens → slot flq' (ring_pos (fl_size flq) p k) = slot flq (ring_pos (fl_size flq) p k)) →
  packets b lens flq' p = packets b lens flq p.
Proof using.
  intros Hs Hd Hb Hpos Hl. induction Hl as [|len lens Hlen Hl IH]; intros p Hp Hk; [done|]. cbn [packets].
  pose proof (pkt_bufs_pos b len Hb Hlen) as Hn. pose proof (all_bufs_nonneg b lens Hb Hl) as Hm.
  cbn [all_bufs foldr] in Hk. fold (all_bufs b lens) in Hk. rewrite Hs. f_equal.
  - f_equal. apply dst_bytes_ext; [done..|]. intros k Hk'. apply Hk. lia.
  - apply IH; [by apply ring_pos_range|]. intros k Hk'. rewrite ring_pos_add by done. apply Hk. lia.
Qed.

(** The place of the next entry. *)
Definition next_entry s : qst (c2h H) :=
  let q := s_q s in let cidx := u32 (dq_cidx_cmpt q + 1) in
  if cidx =? qc_rngsz_cmpt (dq_conf q) then
    s <| s_q := q <| dq_cidx_cmpt := 0 |> <| dq_color := Z.lxor (dq_color q) 1 |> |> <| s_hw := s_hw s <| ch_cmpt_cur := 0 |> |>
  else
    s <| s_q := q <| dq_cidx_cmpt := cidx |> |> <| s_hw := s_hw s <| ch_cmpt_cur := ch_cmpt_cur (s_hw s) + dq_cmpt_entry_len q |> |>.

Lemma cmpt_next_run s : cmpt_next s = Some (tt, next_entry s).
Proof using.
  unfold cmpt_next, next_entry. rewrite getq_bind, (qm_bind_eq _ _ _ tt _ eq_refl).
  destruct (u32 (dq_cidx_cmpt (s_q s) + 1) =? qc_rngsz_cmpt (dq_conf (s_q s))); reflexivity.
Qed.

Lemma next_entry_at len lens s : entries_at (len :: lens) s → entries_at lens (next_entry s).
Proof using.
  intros (Hc & Hrn & Hcur & _ & He). unfold entries_at, next_entry. rewrite (u32_small (dq_cidx_cmpt (s_q s) + 1)) in * by lia.
  destruct (Z.eqb_spec (dq_cidx_cmpt (s_q s) + 1) (qc_rngsz_cmpt (dq_conf (s_q s)))); cbn -[entries]; split_and!; try done; lia.
Qed.

Lemma next_entry_recv p s : recv_ok p s → recv_ok p (next_entry s).
Proof using. intros [R1 R2 R3 R4 R5 R6 R7 R8 R9 R10]. unfold next_entry. case_match; by split. Qed.

Local Abbreviation process := (process_entries fp_descq_c2h_packet fp_proc_ul_cmpt_entry).

Lemma next_entry_same s : flq_of (next_entry s) = flq_of s ∧ dq_conf (s_q (next_entry s)) = dq_conf (s_q s) ∧
  dq_avail (s_q (next_entry s)) = dq_avail (s_q s) ∧ pages_of (next_entry s) = pages_of s ∧
  s_reqs (next_entry s) = s_reqs s.
Proof using. unfold next_entry. by case_match. Qed.

(** One entry. *)
Lemma process_step len lens i cnt p s : let b := qc_c2h_bufsz (dq_conf (s_q s)) in let n := pkt_bufs b len in
  entries_at (len :: lens) s → bypass_cmpt (s_q s) = false → recv_ok p s → len_ok s len → n <= dq_avail (s_q s) →
  let next := ring_pos (fl_size (flq_of s)) p n in
  ∃ flq', process (S i) cnt p s = process i (cnt + 1) next (next_entry (with_flq flq' (avail_less n s))) ∧
    recv_ok next (with_flq flq' (avail_less n s)) ∧
    fl_size flq' = fl_size (flq_of s) ∧ fl_desc_pg_shift flq' = fl_desc_pg_shift (flq_of s) ∧
    fl_desc flq' = fl_desc (flq_of s) ∧
    (∀ k, n <= k < dq_avail (s_q s) →
       slot flq' (ring_pos (fl_size flq') p k) = slot (flq_of s) (ring_pos (fl_size flq') p k)) ∧
    received next (with_flq flq' (avail_less n s)) =
      received p s ++ take (Z.to_nat len) (dst_bytes b (Z.to_nat n) (flq_of s) p).
Proof using.
  intros b n (_ & _ & Hcur & (w & eot & Hw & Hcm) & _) Hby Hro Hlen Hav next.
  cbn [process_entries]. rewrite getq_bind, (qm_bind_eq _ _ _ (s_hw s) s) by done. rewrite Hby.
  set (cm := mk_ul_cmpt_info false (dq_color (s_q s)) false true eot len 0 (ch_cmpt_cur (s_hw s))).
  rewrite (qm_bind_eq _ _ _ (0, cm) s).
  2:{ unfold parse_cmpl_entry. rewrite (qm_bind_eq _ _ _ (s_hw s) s), (qm_bind_eq _ _ _ w s); [|..|done].
      - unfold mret, qm_ret. rewrite Hcur, Hcm. unfold cm. by rewrite Hcur.
      - unfold hwcall, on_ch. rewrite Hcur, Hw. by destruct s as [? ? ? [] ?]. }
  cbv beta iota. change (0 <? 0) with false. cbv iota.
  rewrite (qm_bind_eq _ _ _ 0 s) by done. change (0 <? 0) with false. cbv iota. rewrite getq_bind.
  unfold is_new_cmpl_entry. cbn [uc_color cm]. rewrite Z.eqb_refl. cbn [negb]. cbv zeta.
  destruct (rcv_pkt_run (mk_ul_cmpt_info false (dq_color (s_q s)) false true eot len p (ch_cmpt_cur (s_hw s))) len s Hro Hlen Hav)
    as (flq' & E & Hn & Hro' & Hs' & Hsh' & Hk & Hrc).
  exists flq'. split; [|done]. cbn [cm uc_desc_used set uc_len uc_format uc_color uc_err uc_eot uc_entry].
  rewrite (qm_bind_eq _ _ _ _ _ E). cbv beta iota. change (0 <? 0) with false. cbv iota.
  by rewrite (qm_bind_eq _ _ _ _ _ (cmpt_next_run _)).
Qed.

(** C7. Processing the completion ring with entries for packets of the lengths
    [lens] appends exactly the bytes the device wrote these packets to, taken
    at the bus addresses of the descriptors and in the order of the entries, to
    what is received and unread, wherever the rings wrap: each packet in as
    many of the free buffers as it needs; the producer index, the number of
    free buffers and the consumer index of the completion ring move by what was
    used, and no byte of memory and no request changes.  The queue has no
    packet handler of an upper layer, the free buffers are enough, have their
    whole length and are read where the device writes them (which a partial
    read breaks, [partial_read_shifts_buffer]), and each length is one the code
    can split: with a buffer size that is no power of two, as the default of
    3968 bytes, a packet longer than a buffer must not have a power of two as
    its length ([bufsz_3968_loses_bytes]). *)
Theorem completions_append lens : ∀ cnt p s, let b := qc_c2h_bufsz (dq_conf (s_q s)) in
  recv_ok p s → Forall (len_ok s) lens → all_bufs b lens <= dq_avail (s_q s) →
  entries_at lens s → bypass_cmpt (s_q s) = false →
  ∃ p' s', process (length lens) cnt p s = Some (inr (cnt + Z.of_nat (length lens), p'), s') ∧
    received p' s' = received p s ++ packets b lens (flq_of s) p ∧ recv_ok p' s' ∧
    p' = ring_pos (fl_size (flq_of s)) p (all_bufs b lens) ∧
    dq_avail (s_q s') = dq_avail (s_q s) - all_bufs b lens ∧
    pages_of s' = pages_of s ∧ s_reqs s' = s_reqs s ∧ entries_at [] s'.
Proof using.
  induction lens as [|len lens IH]; intros cnt p s b Hro Hlens Hav He Hby.
  - assert (Hp : ring_pos (fl_size (flq_of s)) p 0 = p).
    { unfold ring_pos. rewrite Z.add_0_r. apply Z.mod_small, (ro_pidx _ _ Hro). }
    exists p, s. cbn. rewrite app_nil_r, Z.add_0_r, Z.sub_0_r. split_and!; try done; apply He.
  - apply Forall_cons in Hlens as [Hlen Hlens]. cbn [all_bufs foldr] in Hav. fold (all_bufs b lens) in Hav.
    assert (Hb : 0 < b) by apply (ro_bufsz _ _ Hro).
    assert (Hl0 : Forall (λ len, 0 <= len) lens) by (eapply Forall_impl; [exact Hlens|]; intros ? [? _]; lia).
    pose proof (all_bufs_nonneg b lens Hb Hl0) as Hm.
    destruct (process_step len lens (length lens) cnt p s He Hby Hro Hlen) as
      (flq' & E & Hro' & Hs' & Hsh' & Hd' & Hk & Hrc); [fold b; lia|]. fold b in E, Hro', Hk, Hrc.
    set (n := pkt_bufs b len) in *. set (next := ring_pos (fl_size (flq_of s)) p n) in *.
    set (s1 := next_entry (with_flq flq' (avail_less n s))) in *.
    destruct (next_entry_same (with_flq flq' (avail_less n s))) as (Hflq1 & Hc1 & Hav1 & Hpg1 & Hrq1).
    fold s1 in Hflq1, Hc1, Hav1, Hpg1, Hrq1. change (flq_of s1 = flq') in Hflq1. change (dq_conf (s_q s1) = dq_conf (s_q s)) in Hc1.
    change (dq_avail (s_q s1) = dq_avail (s_q s) - n) in Hav1.
    assert (Hsz : 0 < fl_size (flq_of s)) by apply (ro_ring _ _ Hro).
    destruct (IH (cnt + 1) next s1) as (p' & s' & E' & Hr' & Hro2 & Hp' & Ha' & Hpg' & Hrq' & He').
    + by apply next_entry_recv.
    + eapply Forall_impl; [exact Hlens|]. intros l. unfold len_ok. by rewrite Hflq1, Hc1, Hsh'.
    + rewrite Hc1, Hav1. fold b. lia.
    + by apply (next_entry_at len).
    + unfold bypass_cmpt in *. by rewrite Hc1.
    + rewrite Hflq1, Hc1 in *. fold b in Hr', Hp', Ha'.
      exists p', s'. cbn [length]. rewrite E, E'. split; [do 4 f_equal; lia|].
      cbn [all_bufs foldr packets]. fold (all_bufs b lens) n next.
      assert (Hnx : received next s1 = received next (with_flq flq' (avail_less n s))) by (unfold received; by rewrite Hflq1).
      split_and!; try done; try congruence; try lia.
      * rewrite Hr', Hnx, Hrc, <- app_assoc. do 2 f_equal.
        apply packets_ext; try done; [by apply ring_pos_range|].
        intros k Hk'. unfold next. rewrite ring_pos_add by done. rewrite <- Hs'. apply Hk. lia.
      * rewrite Hp', Hs'. unfold next. by rewrite ring_pos_add.
      * by rewrite Hpg', Hpg1.
      * by rewrite Hrq', Hrq1.
Qed.
End pkt.
