(* ===== verification/StC2HAlloc.v ===== *)
(** * Streaming queues from card to host: the pages of the free list

    Every page the free list allocates is given back: by the error paths of the
    allocation and by the two functions that free the queue.  A page has one
    reference for its mapping and one for each buffer cut from it. *)

From S2P Require Import Prelude Platform SoftAccess QueueTypes DescRing Descq DescqSubmit StC2H StC2HCmpt StC2HRead StC2HThms StC2HPkt.

Section page_pool.
Context {H : Type} `{QueueHw H}.
Implicit Types (s : qst (c2h H)) (flq : qdma_flq) (pg : Z).

(** An entry of the page array. *)
Definition pg_at flq (k : nat) (e : qdma_sw_pg_sg) : Prop := fl_pg_sdesc flq !! k = Some e.
Definition owns flq pg : Prop := pg ≠ 0 ∧ ∃ k e, pg_at flq k e ∧ pg_base e = pg.

(** The pages are those of [orig] and the ones of the page array, each with its
    references. *)
Record page_pool (orig : gmap Z page) s : Prop := {
  pl_entry : ∀ k e, pg_at (flq_of s) k e → pg_base e ≠ 0 →
    orig !! pg_base e = None ∧ 0 <= pg_offset e < 2 ^ 31 ∧
    ∃ p, pages_of s !! pg_base e = Some p ∧
      pp_refs p = Z.shiftr (pg_offset e) (fl_desc_pg_shift (flq_of s)) + 1 ∧
      pp_size p = Z.shiftl PAGE_SIZE (fl_desc_pg_order (flq_of s));
  pl_distinct : ∀ k k' e e', pg_at (flq_of s) k e → pg_at (flq_of s) k' e' → pg_base e = pg_base e' →
    pg_base e ≠ 0 → k = k';
  pl_rest : ∀ pg, ¬ owns (flq_of s) pg → pages_of s !! pg = orig !! pg;
  pl_fresh : ∀ pg, ch_next (s_hw s) <= pg → pages_of s !! pg = None;
  pl_next : 0 < ch_next (s_hw s);
  pl_shift : 0 <= fl_desc_pg_shift (flq_of s);
}.

(** With no entry in use, the pages are those there were before. *)
Lemma pool_empty orig s : page_pool orig s → (∀ pg, ¬ owns (flq_of s) pg) → pages_of s = orig.
Proof using. intros Hp Ho. apply map_eq. intros pg. apply (pl_rest _ _ Hp), Ho. Qed.

Lemma put_pages_all (n : nat) pg p s : pages_of s !! pg = Some p → pp_refs p = Z.of_nat n → (0 < n)%nat →
  put_pages n pg s = Some (tt, with_pages (delete pg (pages_of s)) s).
Proof using.
  revert p s. induction n as [|n IH]; intros p s Hp Hr Hn; [lia|]. cbn [put_pages]. unfold put_page.
  assert (Hg : getpage pg s = Some (p, s)) by (unfold getpage, qlift, getc, mbind, qm_bind, pages_of in *; by rewrite Hp).
  unfold put_page. rewrite qm_bind_run, (qm_bind_eq _ _ _ _ _ Hg), Hr.
  destruct (Z.eqb_spec (Z.of_nat (S n)) 1) as [H1|H1].
  - assert (n = 0%nat) as -> by lia. done.
  - unfold setpage, modc. cbv beta iota. rewrite (IH (p <| pp_refs := Z.of_nat (S n) - 1 |>)).
    + unfold with_pages, pages_of. cbn. by rewrite delete_insert_eq.
    + unfold pages_of. cbn. by rewrite lookup_insert_eq.
    + cbn. lia.
    + lia.
Qed.

(** The entry [k] of the page array changed to [e']. *)
Definition set_pg (k : nat) (e' : qdma_sw_pg_sg) flq : qdma_flq := flq <| fl_pg_sdesc := <[k := e']> (fl_pg_sdesc flq) |>.

Lemma pg_at_set k e e' flq j x : pg_at flq k e →
  pg_at (set_pg k e' flq) j x ↔ (j = k ∧ x = e') ∨ (j ≠ k ∧ pg_at flq j x).
Proof using.
  intros He. unfold pg_at in *. cbn [set_pg fl_pg_sdesc set]. apply lookup_lt_Some in He. destruct (decide (j = k)) as [->|Hj].
  - rewrite list_lookup_insert_eq by done. naive_solver.
  - rewrite list_lookup_insert_ne by done. naive_solver.
Qed.

Lemma pg_run flq (k : nat) e s : pg_at flq k e → nth_of (fl_pg_sdesc flq) (Z.of_nat k) s = Some (e, s).
Proof using.
  intros He. unfold nth_of, qlift. destruct (Z.ltb_spec (Z.of_nat k) 0); [lia|]. rewrite Nat2Z.id.
  unfold pg_at in He. by rewrite He.
Qed.

(** ** Freeing *)

(** Another free list and other pages. *)
Definition with_pool flq (pages : gmap Z page) s : qst (c2h H) := with_flq flq (with_pages pages s).

Lemma unmap_run k e s : pg_at (flq_of s) k e →
  flq_unmap_page_one (Z.of_nat k) s = Some (tt, with_flq (set_pg k (e <| pg_dma_base_addr := 0 |>) (flq_of s)) s).
Proof using.
  intros He. unfold flq_unmap_page_one. rewrite (qm_bind_eq _ _ _ _ _ (getf_run s)). fold (flq_of s).
  rewrite (qm_bind_eq _ _ _ _ _ (pg_run _ _ _ _ He)). destruct (nz (pg_dma_base_addr e)) eqn:Hd.
  - cbn [qwhen]. unfold modf, modc, set_nth. by rewrite Nat2Z.id.
  - assert (e <| pg_dma_base_addr := 0 |> = e) as ->.
    { unfold nz in Hd. destruct e as [b d o]. cbn in *. destruct (Z.eqb_spec d 0) as [->|]; [done|discriminate]. }
    unfold set_pg. rewrite list_insert_id by exact He. by destruct s as [? ? ? [? [] ? ? ? ? ?] ?].
Qed.

Definition freed (e : qdma_sw_pg_sg) : qdma_sw_pg_sg := mk_sw_pg_sg 0 0 (pg_offset e).

Lemma free_page_one_run orig k e s : page_pool orig s → pg_at (flq_of s) k e →
  flq_free_page_one (Z.of_nat k) s =
  Some (tt, if pg_base e =? 0 then s
            else with_pool (set_pg k (freed e) (flq_of s)) (delete (pg_base e) (pages_of s)) s).
Proof using.
  intros Hp He. unfold flq_free_page_one. rewrite (qm_bind_eq _ _ _ _ _ (getf_run s)). fold (flq_of s).
  rewrite bool_decide_false, andb_false_r by (apply lookup_lt_Some in He; lia).
  rewrite (qm_bind_eq _ _ _ _ _ (pg_run _ _ _ _ He)). destruct (Z.eqb_spec (pg_base e) 0) as [|Hb]; [done|].
  destruct (pl_entry _ _ Hp _ _ He Hb) as (_ & Ho & p & Hpg & Hr & _). pose proof (pl_shift _ _ Hp) as Hsh.
  assert (Hs : 0 <= Z.shiftr (pg_offset e) (fl_desc_pg_shift (flq_of s)) <= pg_offset e).
  { rewrite Z.shiftr_div_pow2 by done. assert (0 < 2 ^ fl_desc_pg_shift (flq_of s)) by (by apply Z.pow_pos_nonneg).
    split; [apply Z.div_pos; lia|]. apply Z.div_le_upper_bound; nia. }
  rewrite u32_small, (qm_bind_eq _ _ _ _ _ (unmap_run _ _ _ He)) by lia.
  erewrite qm_bind_eq; [|apply (put_pages_all _ _ p); [exact Hpg|lia|lia]].
  unfold modf, modc, set_nth. rewrite Nat2Z.id. cbn. do 2 f_equal.
  unfold with_pool, with_flq, with_pages, set_pg. cbn. by rewrite list_insert_insert_eq.
Qed.

Lemma owns_set k e e' flq pg : pg_at flq k e → pg_base e' = 0 → pg ≠ pg_base e →
  owns (set_pg k e' flq) pg ↔ owns flq pg.
Proof using.
  intros He He' Hne. unfold owns. split; intros [H0' (j & x & Hx & Hb)]; (split; [done|]).
  - apply (pg_at_set k e) in Hx as [[-> ->]|[Hj Hx]]; [congruence| |done]. eauto.
  - exists j, x. split; [|done]. apply (pg_at_set k e); [done|]. right. split; [|done]. intros ->.
    unfold pg_at in *. congruence.
Qed.

Lemma pool_free orig k e s : page_pool orig s → pg_at (flq_of s) k e → pg_base e ≠ 0 →
  page_pool orig (with_pool (set_pg k (freed e) (flq_of s)) (delete (pg_base e) (pages_of s)) s).
Proof using.
  intros [P1 P2 P3 P4 P5 P6] He Hb. split.
  - intros j x Hx Hxb. apply (pg_at_set k e) in Hx as [[-> ->]|[Hj Hx]]; [done| |done].
    destruct (P1 _ _ Hx Hxb) as (? & ? & p & Hp & Hr). do 2 (split; [done|]). exists p. split; [|done].
    unfold pages_of. cbn. rewrite lookup_delete_ne; [exact Hp|]. intros Heq. apply Hj. by eapply P2.
  - intros j j' x x' Hx Hx' Heq Hxb. apply (pg_at_set k e) in Hx as [[-> ->]|[Hj Hx]]; [done| |done].
    apply (pg_at_set k e) in Hx' as [[-> ->]|[Hj' Hx']]; [by rewrite Heq in Hxb| |done]. by eapply P2.
  - intros pg Hpg. unfold pages_of. cbn. destruct (decide (pg = pg_base e)) as [->|Hne].
    + rewrite lookup_delete_eq. by destruct (P1 _ _ He Hb) as (-> & _).
    + rewrite lookup_delete_ne by done. apply P3. intros Ho. apply Hpg. by apply (owns_set k e).
  - intros pg Hpg. unfold pages_of. cbn. rewrite lookup_delete_None. right. by apply P4.
  - done.
  - done.
Qed.

Definition pgs flq : list qdma_sw_pg_sg := fl_pg_sdesc flq.
Definition with_pgs (l : list qdma_sw_pg_sg) (pages : gmap Z page) s : qst (c2h H) :=
  with_pool (flq_of s <| fl_pg_sdesc := l |>) pages s.
Definition clear (e : qdma_sw_pg_sg) : Prop := pg_base e = 0.

Lemma free_pages_run orig n : ∀ k s, page_pool orig s → (k + n)%nat = length (pgs (flq_of s)) →
  Forall clear (take k (pgs (flq_of s))) → ∃ l pages,
  for_entries n (Z.of_nat k) flq_free_page_one s = Some (tt, with_pgs l pages s) ∧
  page_pool orig (with_pgs l pages s) ∧ Forall clear l.
Proof using.
  induction n as [|n IH]; intros k s Hp Hk Hc; cbn [for_entries].
  - exists (pgs (flq_of s)), (pages_of s). assert (with_pgs (pgs (flq_of s)) (pages_of s) s = s) as ->.
    { by destruct s as [? ? ? [? [] ? ? ? ? ?] ?]. }
    do 2 (split; [done|]). by rewrite <- (take_ge (pgs (flq_of s)) k) by lia.
  - destruct (lookup_lt_is_Some_2 (pgs (flq_of s)) k) as [e He]; [lia|].
    rewrite (qm_bind_eq _ _ _ _ _ (free_page_one_run orig k e s Hp He)).
    replace (Z.of_nat k + 1) with (Z.of_nat (S k)) by lia. destruct (Z.eqb_spec (pg_base e) 0) as [Hb|Hb].
    + apply IH; [done|lia|]. erewrite take_S_r by exact He. apply Forall_app. by repeat constructor.
    + set (s1 := with_pool _ _ s).
      destruct (IH (S k) s1) as (l & pages & E & Hp' & Hl).
      * by apply pool_free.
      * unfold pgs. cbn. rewrite length_insert. unfold pgs in Hk. lia.
      * unfold pgs. cbn. erewrite take_S_r by (apply list_lookup_insert_eq; by eapply lookup_lt_Some).
        rewrite take_insert_ge by lia. apply Forall_app. by repeat constructor.
      * exists l, pages. done.
Qed.

Lemma clear_owns flq : Forall clear (pgs flq) → ∀ pg, ¬ owns flq pg.
Proof using.
  intros Hc pg (Hne & k & e & He & <-). rewrite Forall_lookup in Hc. by apply (Hc k e) in He.
Qed.

(** The number of entries is that of the array, or there is none. *)
Definition nr_pages_ok flq : Prop := fl_num_pages flq = Z.of_nat (length (pgs flq)).

Lemma free_page_resource_run orig s : page_pool orig s → nr_pages_ok (flq_of s) →
  descq_flq_free_page_resource s = Some (tt, with_pool flq_zero orig s).
Proof using.
  intros Hp Hn. unfold descq_flq_free_page_resource. rewrite (qm_bind_eq _ _ _ _ _ (getf_run s)). fold (flq_of s).
  rewrite Hn, Nat2Z.id.
  destruct (free_pages_run orig (length (pgs (flq_of s))) 0 s Hp) as (l & pages & E & Hp' & Hl); [done|constructor|].
  rewrite (qm_bind_eq _ _ _ _ _ E). rewrite <- (pool_empty orig _ Hp') by (by apply clear_owns). done.
Qed.

(** *** The buffers *)

Lemma free_one_run i s : ring_ok (flq_of s) → length (fl_desc (flq_of s)) = length (fl_sdesc (flq_of s)) →
  0 <= i < fl_size (flq_of s) → ∃ sd de, flq_free_one i s =
    Some (tt, with_flq (flq_of s <| fl_sdesc := sd |> <| fl_desc := de |>) s) ∧
    length sd = length (fl_sdesc (flq_of s)) ∧ length de = length (fl_desc (flq_of s)).
Proof using.
  intros Hr Hl Hi. unfold flq_free_one. rewrite (qm_bind_eq _ _ _ _ _ (getf_run s)). fold (flq_of s).
  rewrite (qm_bind_eq _ _ _ _ _ (slot_run _ _ _ Hr Hi)).
  destruct (lookup_lt_is_Some_2 (fl_desc (flq_of s)) (Z.to_nat i)) as [d Hd]; [destruct Hr as (_ & ? & _); lia|].
  rewrite (qm_bind_eq _ _ _ d s).
  2:{ unfold nth_of, qlift. destruct (Z.ltb_spec i 0); [lia|]. by rewrite Hd. }
  destruct (sg_dma_addr (slot (flq_of s) i) =? 0); cbn [fst snd];
    (do 2 eexists; split; [reflexivity|]; unfold set_nth; by rewrite !length_insert).
Qed.

Lemma free_ones_run n : ∀ i s, ring_ok (flq_of s) → length (fl_desc (flq_of s)) = length (fl_sdesc (flq_of s)) →
  0 <= i → i + Z.of_nat n <= fl_size (flq_of s) → ∃ sd de, for_entries n i flq_free_one s =
    Some (tt, with_flq (flq_of s <| fl_sdesc := sd |> <| fl_desc := de |>) s).
Proof using.
  induction n as [|n IH]; intros i s Hr Hl Hi Hn; cbn [for_entries].
  - exists (fl_sdesc (flq_of s)), (fl_desc (flq_of s)). by destruct s as [? ? ? [? [] ? ? ? ? ?] ?].
  - destruct (free_one_run i s) as (sd & de & E & Hsd & Hde); [done|done|lia|].
    rewrite (qm_bind_eq _ _ _ _ _ E). set (s1 := with_flq _ s).
    destruct (IH (i + 1) s1) as (sd' & de' & E').
    + destruct Hr as (? & ? & ?). unfold ring_ok, s1. cbn. by rewrite Hsd.
    + unfold s1. cbn. congruence.
    + lia.
    + unfold s1. cbn. lia.
    + by exists sd', de'.
Qed.

Lemma pool_ext orig s s' : page_pool orig s → pgs (flq_of s') = pgs (flq_of s) →
  fl_desc_pg_shift (flq_of s') = fl_desc_pg_shift (flq_of s) →
  fl_desc_pg_order (flq_of s') = fl_desc_pg_order (flq_of s) → pages_of s' = pages_of s →
  ch_next (s_hw s') = ch_next (s_hw s) → page_pool orig s'.
Proof using.
  intros [P1 P2 P3 P4 P5 P6] Hg Hs Ho Hp Hn.
  assert (Ha : ∀ k e, pg_at (flq_of s') k e ↔ pg_at (flq_of s) k e) by (intros; unfold pg_at, pgs in *; by rewrite Hg).
  split; rewrite ?Hn, ?Hp, ?Hs, ?Ho; try done.
  - intros k e He. by apply (P1 k), Ha.
  - intros k k' e e' He He'. apply Ha in He, He'. by eapply P2.
  - intros pg Hno. apply P3. intros (? & k & e & He & Hb). apply Hno. split; [done|]. exists k, e. by split; [apply Ha|].
Qed.

(** Both functions that free the queue, as its cleanup calls them. *)
Definition free_flq : qm (c2h H) unit := descq_flq_free_resource;; descq_flq_free_page_resource.

Lemma free_flq_run orig s : page_pool orig s → nr_pages_ok (flq_of s) →
  fl_sdesc (flq_of s) = [] ∨ ring_ok (flq_of s) ∧ length (fl_desc (flq_of s)) = length (fl_sdesc (flq_of s)) →
  free_flq s = Some (tt, with_pool flq_zero orig s).
Proof using.
  intros Hp Hn Hs. unfold free_flq, descq_flq_free_resource.
  destruct (fl_sdesc (flq_of s)) as [|d0 sd0] eqn:Hsd.
  { rewrite (qm_bind_eq _ _ _ tt s); [by apply free_page_resource_run|].
    rewrite (qm_bind_eq _ _ _ _ _ (getf_run s)). fold (flq_of s). by rewrite Hsd. }
  destruct Hs as [Hs|[Hr Hl]]; [done|]. rewrite <- Hsd in Hl.
  destruct (free_ones_run (Z.to_nat (fl_size (flq_of s))) 0 s) as (sd & de & E); [done|done|lia|destruct Hr; lia|].
  erewrite qm_bind_eq; [|rewrite (qm_bind_eq _ _ _ _ _ (getf_run s)); fold (flq_of s); rewrite Hsd;
    rewrite (qm_bind_eq _ _ _ _ _ E); reflexivity].
  erewrite free_page_resource_run; [done| |done]. by eapply pool_ext.
Qed.

(** ** Allocation *)

Context (dma_map_page : Z → Z) (dma_mapping_error : Z → bool).
Local Abbreviation fill_page := (flq_fill_page_one dma_map_page dma_mapping_error).

(** Memory is there and can be mapped. *)
Definition never_fails s : Prop := ch_mem (s_hw s) = [] ∧ ∀ m, dma_mapping_error m = false.

Lemma pool_fresh orig s : page_pool orig s → orig !! ch_next (s_hw s) = None.
Proof using.
  intros Hp. rewrite <- (pl_rest _ _ Hp); [by apply (pl_fresh _ _ Hp)|]. intros (Hne & k & e & He & Hb).
  destruct (pl_entry _ _ Hp k e He) as (_ & _ & p & Hpg & _); [by rewrite Hb|].
  rewrite Hb, (pl_fresh _ _ Hp) in Hpg; done.
Qed.

(** The next page in the entry [k]. *)
Definition page_added (k : nat) s : qst (c2h H) :=
  let pg := ch_next (s_hw s) in
  let s1 := with_pool (set_pg k (mk_sw_pg_sg pg (dma_map_page pg) 0) (flq_of s))
    (<[pg := mk_page 1 (Z.shiftl PAGE_SIZE (fl_desc_pg_order (flq_of s))) (λ _, 0)]> (pages_of s)) s in
  s1 <| s_hw := s_hw s1 <| ch_next := pg + 1 |> |>.

Lemma pool_added orig k e s : page_pool orig s → pg_at (flq_of s) k e → clear e → page_pool orig (page_added k s).
Proof using.
  intros Hp He Hc. pose proof (pool_fresh _ _ Hp) as Hf. pose proof (pl_next _ _ Hp) as Hn.
  destruct (Hp) as [P1 P2 P3 P4 P5 P6].
  assert (Hother : ∀ j x, pg_at (flq_of s) j x → pg_base x ≠ 0 → pg_base x ≠ ch_next (s_hw s)).
  { intros j x Hx Hb Heq. destruct (P1 _ _ Hx Hb) as (_ & _ & p & Hpg & _). rewrite P4 in Hpg; [done|lia]. }
  split.
  - intros j x Hx Hb. apply (pg_at_set k e) in Hx as [[-> ->]|[Hj Hx]]; [| |done].
    + split; [done|]. split; [cbn; lia|]. eexists. unfold pages_of. cbn. rewrite lookup_insert_eq. split; [done|].
      cbn. by rewrite Z.shiftr_0_l.
    + destruct (P1 _ _ Hx Hb) as (? & ? & p & Hpg & Hr). do 2 (split; [done|]). exists p. split; [|done].
      unfold pages_of. cbn. rewrite lookup_insert_ne; [done|]. intros Heq. by eapply Hother.
  - intros j j' x x' Hx Hx' Heq Hb. apply (pg_at_set k e) in Hx as [[-> ->]|[Hj Hx]]; [| |done];
      (apply (pg_at_set k e) in Hx' as [[-> ->]|[Hj' Hx']]; [| |done]); [done| | |by eapply P2].
    + cbn in Heq. symmetry in Heq. exfalso. eapply Hother; [exact Hx'| |done]. lia.
    + cbn in Heq. exfalso. by eapply Hother.
  - intros pg Ho. unfold pages_of. cbn. destruct (decide (pg = ch_next (s_hw s))) as [->|Hne].
    + exfalso. apply Ho. split; [lia|]. exists k, (mk_sw_pg_sg (ch_next (s_hw s)) (dma_map_page (ch_next (s_hw s))) 0). split; [|done]. apply (pg_at_set k e); [done|]. by left.
    + rewrite lookup_insert_ne by done. apply P3. intros (Hz & j & x & Hx & Hb). apply Ho. split; [done|].
      exists j, x. split; [|done]. apply (pg_at_set k e); [done|]. right. split; [|done]. intros ->.
      unfold pg_at, clear in *. congruence.
  - intros pg Hpg. unfold pages_of. cbn in *. rewrite lookup_insert_ne by lia. apply P4. lia.
  - cbn. lia.
  - done.
Qed.

Lemma pool_skip orig s : page_pool orig s → page_pool orig (s <| s_hw := s_hw s <| ch_next := ch_next (s_hw s) + 1 |> |>).
Proof using.
  intros [P1 P2 P3 P4 P5 P6]. split; try done; [|cbn; lia]. intros pg Hpg. apply P4. cbn in Hpg. lia.
Qed.

Lemma fill_page_run orig k e s : page_pool orig s → pg_at (flq_of s) k e → clear e → ∃ rv m s1,
  fill_page (Z.of_nat k) s = Some (rv, s1) ∧ page_pool orig s1 ∧ (never_fails s → rv = 0 ∧ m = []) ∧
  (rv = 0 ∧ s1 = page_added k (s <| s_hw := s_hw s <| ch_mem := m |> |>) ∨ rv < 0 ∧ flq_of s1 = flq_of s ∧ s_q s1 = s_q s).
Proof using.
  intros Hp He Hc. unfold flq_fill_page_one. rewrite (qm_bind_eq _ _ _ _ _ (getf_run s)). fold (flq_of s).
  rewrite (qm_bind_eq _ _ _ (s_hw s) s) by done. rewrite (qm_bind_eq _ _ _ _ _ (pg_run _ _ _ _ He)).
  destruct (qdma_calloc (ch_mem (s_hw s))) as [ok mm] eqn:Hm.
  set (s0 := s <| s_hw := s_hw s <| ch_mem := mm |> |>). rewrite (qm_bind_eq _ _ _ tt s0) by done.
  assert (Hp0 : page_pool orig s0) by by eapply pool_ext.
  assert (Hnf : never_fails s → ok = true ∧ mm = []).
  { intros [Hmem _]. rewrite Hmem in Hm. by injection Hm as <- <-. }
  destruct ok; cbn [negb].
  2:{ exists (- ENOMEM), mm, s0. split; [done|]. split; [done|]. split; [intros Hx; by destruct (Hnf Hx)|]. by right. }
  rewrite (qm_bind_eq _ _ _ tt _ eq_refl), (qm_bind_eq _ _ _ tt _ eq_refl).
  destruct (dma_mapping_error (dma_map_page (ch_next (s_hw s)))) eqn:Herr.
  - set (s1 := s0 <| s_hw := s_hw s0 <| ch_next := ch_next (s_hw s) + 1 |> |>).
    exists (- EINVAL), mm, s1. split_and!; [|..|intros [_ Hx]; by rewrite Hx in Herr|by right].
    + unfold put_page, getpage, qlift, getc, mbind, qm_bind, setpage, modc. cbn. rewrite lookup_insert_eq. cbn.
      rewrite delete_insert_eq, delete_id by (apply (pl_fresh _ _ Hp); unfold pages_of; lia). by destruct s as [? ? ? [] ?].
    + exact (pool_skip orig s0 Hp0).
  - exists 0, mm, (page_added k s0). split_and!; [|by eapply pool_added|intros Hx; by destruct (Hnf Hx)|by left].
    unfold modf, modc, set_nth. rewrite Nat2Z.id. done.
Qed.

(** The address of a page is that of its mapping. *)
Definition mapped (e : qdma_sw_pg_sg) : Prop := pg_dma_base_addr e = dma_map_page (pg_base e).
Definition fresh_entry (e : qdma_sw_pg_sg) : Prop := pg_base e ≠ 0 ∧ pg_offset e = 0 ∧ mapped e.

Lemma fill_pages_run orig n : ∀ k s, page_pool orig s → (k + n)%nat = length (pgs (flq_of s)) →
  Forall fresh_entry (take k (pgs (flq_of s))) → Forall clear (drop k (pgs (flq_of s))) → ∃ rv l s1,
  try_entries n (Z.of_nat k) fill_page s = Some (rv, s1) ∧ page_pool orig s1 ∧ s_q s1 = s_q s ∧
  flq_of s1 = flq_of s <| fl_pg_sdesc := l |> ∧ length l = length (pgs (flq_of s)) ∧
  (rv = 0 ∧ Forall fresh_entry l ∨ rv < 0) ∧ (never_fails s → rv = 0 ∧ never_fails s1).
Proof using.
  induction n as [|n IH]; intros k s Hp Hk Hf Hc; cbn [try_entries].
  - exists 0, (pgs (flq_of s)), s. do 3 (split; [done|]). split; [by destruct (flq_of s)|]. split; [done|].
    split; [|done]. left. split; [done|]. by rewrite take_ge in Hf by lia.
  - destruct (lookup_lt_is_Some_2 (pgs (flq_of s)) k) as [e He]; [lia|].
    assert (Hce : clear e) by (rewrite (drop_S _ _ _ He) in Hc; by apply Forall_cons in Hc as [? _]).
    destruct (fill_page_run orig k e s Hp He Hce) as (rv & m & s1 & E & Hp1 & Hnf & Hs1).
    rewrite (qm_bind_eq _ _ _ _ _ E). destruct Hs1 as [[-> ->]|(Hrv & Hflq & Hq)].
    + change (0 <? 0) with false. cbv iota. replace (Z.of_nat k + 1) with (Z.of_nat (S k)) by lia.
      set (e' := mk_sw_pg_sg (ch_next (s_hw s)) (dma_map_page (ch_next (s_hw s))) 0).
      set (s2 := page_added k _) in *. assert (Hpg : pgs (flq_of s2) = <[k := e']> (pgs (flq_of s))) by done.
      destruct (IH (S k) s2 Hp1) as (rv & l & s3 & E3 & Hp3 & Hq & Hflq & Hl & Hr & Hn3).
      * rewrite Hpg, length_insert. lia.
      * rewrite Hpg. erewrite take_S_r by (apply list_lookup_insert_eq; by eapply lookup_lt_Some).
        rewrite take_insert_ge by lia. apply Forall_app. split; [done|]. repeat constructor. cbn.
        pose proof (pl_next _ _ Hp). lia.
      * rewrite Hpg, drop_insert_lt by lia. rewrite (drop_S _ _ _ He) in Hc. by apply Forall_cons in Hc as [_ ?].
      * exists rv, l, s3. rewrite Hpg, length_insert in Hl. do 3 (split; [done|]). split; [by rewrite Hflq|].
        split; [done|]. split; [done|]. intros Hx. apply Hn3. destruct (Hnf Hx) as [_ ->]. by split; [|apply Hx].
    + destruct (Z.ltb_spec rv 0); [|lia]. exists rv, (pgs (flq_of s)), s1. do 3 (split; [done|]).
      split; [rewrite Hflq; by destruct (flq_of s)|]. split; [done|]. split; [by right|].
      intros Hx. destruct (Hnf Hx). lia.
Qed.

(** *** Cutting the buffers *)

Definition cut (e : qdma_sw_pg_sg) flq : qdma_sw_pg_sg := e <| pg_offset := pg_offset e + 2 ^ fl_desc_pg_shift flq |>.

Lemma pool_cut orig k e p s : page_pool orig s → pg_at (flq_of s) k e → pg_base e ≠ 0 →
  pg_offset e + 2 ^ fl_desc_pg_shift (flq_of s) < 2 ^ 31 → pages_of s !! pg_base e = Some p →
  page_pool orig (with_pool (set_pg k (cut e (flq_of s)) (flq_of s)) (<[pg_base e := p <| pp_refs := pp_refs p + 1 |>]> (pages_of s)) s).
Proof using.
  intros Hp He Hb Hlt Hpg. destruct (Hp) as [P1 P2 P3 P4 P5 P6].
  assert (Hsh : 0 < 2 ^ fl_desc_pg_shift (flq_of s)) by by apply Z.pow_pos_nonneg.
  assert (Hat : ∀ j x, pg_at (set_pg k (cut e (flq_of s)) (flq_of s)) j x → ∃ y, pg_at (flq_of s) j y ∧ pg_base y = pg_base x).
  { intros j x Hx. apply (pg_at_set k e) in Hx as [[-> ->]|[Hj Hx]]; [by exists e|by exists x|done]. }
  split; [| | | |done|done].
  - intros j x Hx Hxb. apply (pg_at_set k e) in Hx as [[-> ->]|[Hj Hx]]; [| |done].
    + destruct (P1 _ _ He Hb) as (? & Ho & p' & Hp' & Hr & Hsz). rewrite Hpg in Hp'. injection Hp' as <-.
      split; [done|]. split; [cbn; lia|]. eexists. unfold pages_of. cbn. rewrite lookup_insert_eq. split; [done|]. cbn.
      split; [|exact Hsz]. rewrite Hr, !Z.shiftr_div_pow2 by done.
      replace (pg_offset e + 2 ^ fl_desc_pg_shift (flq_of s)) with (pg_offset e + 1 * 2 ^ fl_desc_pg_shift (flq_of s)) by lia.
      rewrite Z.div_add by lia. lia.
    + destruct (P1 _ _ Hx Hxb) as (? & ? & p' & Hp' & Hr). do 2 (split; [done|]). exists p'. split; [|done].
      unfold pages_of. cbn. rewrite lookup_insert_ne; [done|]. intros Heq. apply Hj. by eapply P2.
  - intros j j' x x' Hx Hx' Heq Hxb. apply Hat in Hx as (y & Hy & Hyb), Hx' as (y' & Hy' & Hyb').
    eapply P2; [exact Hy|exact Hy'|congruence|congruence].
  - intros pg Hpg'. unfold pages_of. cbn. rewrite lookup_insert_ne.
    + apply P3. intros (Hz & j & x & Hx & Hxb). apply Hpg'. split; [done|]. destruct (decide (j = k)) as [->|Hj].
      * exists k, (cut e (flq_of s)). split; [apply (pg_at_set k e); [done|by left]|]. unfold pg_at in *. cbn. congruence.
      * exists j, x. split; [|done]. apply (pg_at_set k e); [done|by right].
    + intros <-. apply Hpg'. split; [done|]. exists k, (cut e (flq_of s)). split; [|done]. apply (pg_at_set k e); [done|by left].
  - intros pg Hpg'. unfold pages_of. cbn. rewrite lookup_insert_ne; [by apply P4|]. intros <-. by rewrite P4 in Hpg.
Qed.

(** The sizes: [per] buffers in a page. *)
Record dims (per : Z) flq : Prop := {
  dm_shift : 0 <= fl_desc_pg_shift flq;
  dm_buf : fl_desc_buf_size flq = 2 ^ fl_desc_pg_shift flq;
  dm_per : 1 <= per;
  dm_max : fl_max_pg_offset flq = per * fl_desc_buf_size flq ∧ fl_max_pg_offset flq < 2 ^ 31;
  dm_pages : nr_pages_ok flq ∧ ∃ m, 0 <= m < 31 ∧ fl_num_pages flq = 2 ^ m;
  dm_mask : fl_num_pgs_mask flq = fl_num_pages flq - 1;
  dm_room : fl_size flq <= fl_num_pages flq * per;
  dm_ring : ring_ok flq;
  dm_desc : length (fl_desc flq) = length (fl_sdesc flq);
}.

(** The buffer [j] of the ring. *)
Definition nth_buf (per bufsz : Z) flq (j : Z) (e : qdma_sw_pg_sg) : qdma_sw_sg :=
  let o := j mod per * fl_desc_buf_size flq in
  mk_qdma_sw_sg (pg_base e) o bufsz (u64 (pg_dma_base_addr e + o)).
(** The first [i] buffers are cut from the pages, page by page. *)
Record laid (per bufsz i : Z) flq : Prop := {
  ld_alloc : fl_alloc_idx flq = i / per;
  ld_pgs : ∀ k e, pg_at flq k e → pg_base e ≠ 0 ∧
    pg_offset e = Z.max 0 (Z.min (i - Z.of_nat k * per) per) * fl_desc_buf_size flq;
  ld_slot : ∀ j, 0 <= j < i → ∃ e, pg_at flq (Z.to_nat (j / per)) e ∧ slot flq j = nth_buf per bufsz flq j e ∧
    fl_desc flq !! Z.to_nat j = Some (sg_dma_addr (slot flq j));
  ld_mapped : ∀ k e, pg_at flq k e → mapped e;
}.

(** The state after one more buffer. *)
Definition filled (per bufsz i : Z) (e : qdma_sw_pg_sg) flq : qdma_flq :=
  let sg := nth_buf per bufsz flq i e in
  flq <| fl_sdesc := set_nth i sg (fl_sdesc flq) |> <| fl_desc := set_nth i (sg_dma_addr sg) (fl_desc flq) |>
      <| fl_pg_sdesc := <[Z.to_nat (i / per) := cut e flq]> (fl_pg_sdesc flq) |> <| fl_alloc_idx := (i + 1) / per |>.

Lemma div_step i per : 1 <= per → 0 <= i →
  (i + 1) / per = if i mod per =? per - 1 then i / per + 1 else i / per.
Proof using.
  intros Hp Hi. pose proof (Z.div_mod i per ltac:(lia)). pose proof (Z.mod_pos_bound i per ltac:(lia)).
  destruct (Z.eqb_spec (i mod per) (per - 1)); symmetry.
  - apply Z.div_unique with 0; lia.
  - apply Z.div_unique with (i mod per + 1); lia.
Qed.

Lemma land_page flq per i : dims per flq → 0 <= i < fl_size flq →
  Z.land (i / per) (fl_num_pgs_mask flq) = i / per ∧ 0 <= i / per < fl_num_pages flq.
Proof using.
  intros D Hi. destruct (dm_pages _ _ D) as (_ & m & Hm & Hn). pose proof (dm_per _ _ D). pose proof (dm_room _ _ D).
  assert (Hr : 0 <= i / per < fl_num_pages flq) by (split; [apply Z.div_pos; lia|apply Z.div_lt_upper_bound; lia]).
  split; [|done]. rewrite (dm_mask _ _ D), Hn. replace (2 ^ m - 1) with (Z.ones m) by (rewrite Z.ones_equiv; lia).
  rewrite Z.land_ones by lia. rewrite Z.mod_small; [done|]. by rewrite <- Hn.
Qed.

Lemma fill_one_run orig per i e s : let flq := flq_of s in let bufsz := qc_c2h_bufsz (dq_conf (s_q s)) in
  page_pool orig s → dims per flq → laid per bufsz i flq → 0 <= i < fl_size flq → fl_size flq < 2 ^ 31 →
  pg_at flq (Z.to_nat (i / per)) e →
  ∃ pages, flq_fill_one i s = Some (0, with_pool (filled per bufsz i e flq) pages s) ∧
    page_pool orig (with_pool (filled per bufsz i e flq) pages s).
Proof using.
  intros flq bufsz Hp D L Hi Hsz He. destruct (land_page flq per i D Hi) as [Hland Hpg].
  pose proof (dm_per _ _ D) as Hper. pose proof (dm_shift _ _ D) as Hsh. destruct (dm_max _ _ D) as [Hmax Hmax2].
  destruct (ld_pgs _ _ _ _ L _ _ He) as [Hb Ho]. pose proof (dm_buf _ _ D) as Hbuf.
  assert (Hbs : 0 < fl_desc_buf_size flq) by (rewrite Hbuf; by apply Z.pow_pos_nonneg).
  pose proof (Z.div_mod i per ltac:(lia)) as Hdm. pose proof (Z.mod_pos_bound i per ltac:(lia)) as Hmod.
  rewrite Z2Nat.id in Ho by lia. replace (Z.max 0 (Z.min (i - i / per * per) per)) with (i mod per) in Ho by lia.
  assert (Hle : (i mod per + 1) * fl_desc_buf_size flq <= fl_max_pg_offset flq) by (rewrite Hmax; nia).
  assert (Hle2 : 0 <= pg_offset e) by (rewrite Ho; nia).
  unfold flq_fill_one. rewrite getq_bind, (qm_bind_eq _ _ _ _ _ (getf_run s)). fold (flq_of s) flq.
  rewrite (ld_alloc _ _ _ _ L), Hland.
  destruct (Z.eqb_spec (fl_num_pages flq) 0); [lia|]. destruct (Z.leb_spec (fl_num_pages flq) (i / per)); [lia|].
  pose proof (pg_run _ _ _ s He) as Erun. rewrite Z2Nat.id in Erun by lia.
  rewrite (qm_bind_eq _ _ _ _ _ Erun). destruct (Z.eqb_spec (pg_base e) 0); [done|].
  rewrite (u32_small (pg_offset e + fl_desc_buf_size flq)) by nia.
  destruct (Z.ltb_spec (fl_max_pg_offset flq) (pg_offset e + fl_desc_buf_size flq)); [nia|].
  rewrite (qm_bind_eq _ _ _ _ _ (slot_run _ _ _ (dm_ring _ _ D) Hi)).
  destruct (lookup_lt_is_Some_2 (fl_desc flq) (Z.to_nat i)) as [d Hd].
  { rewrite (dm_desc _ _ D). destruct (dm_ring _ _ D) as (_ & Hl & _). lia. }
  rewrite (qm_bind_eq _ _ _ d s).
  2:{ unfold nth_of, qlift. destruct (Z.ltb_spec i 0); [lia|]. by rewrite Hd. }
  destruct (pl_entry _ _ Hp _ _ He Hb) as (_ & _ & p & Hpp & _).
  exists (<[pg_base e := p <| pp_refs := pp_refs p + 1 |>]> (pages_of s)).
  set (pages := <[pg_base e := _]> _).
  assert (Hal : (if fl_max_pg_offset flq <? u32 (pg_offset e + fl_desc_buf_size flq + fl_desc_buf_size flq)
                 then u32 (fl_alloc_idx flq + 1) else fl_alloc_idx flq) = (i + 1) / per).
  { assert (fl_desc_buf_size flq <= fl_max_pg_offset flq) by nia.
    rewrite div_step, u32_small, (ld_alloc _ _ _ _ L) by lia.
    destruct (Z.ltb_spec (fl_max_pg_offset flq) (pg_offset e + fl_desc_buf_size flq + fl_desc_buf_size flq)),
      (Z.eqb_spec (i mod per) (per - 1)); try done; [|nia|nia].
    rewrite u32_small; [done|]. assert (i / per <= i) by (apply Z.div_le_upper_bound; nia). lia. }
  assert (Hcut : cut e flq = e <| pg_offset := pg_offset e + fl_desc_buf_size flq |>) by (unfold cut; by rewrite Hbuf).
  split.
  - rewrite (qm_bind_eq _ _ _ tt (with_pages pages s)).
    2:{ unfold page_ref_inc, getpage, qlift, getc, setpage, modc, mbind, qm_bind. unfold pages_of in *. cbn. by rewrite Hpp. }
    rewrite (qm_bind_eq _ _ _ tt _ eq_refl).
    unfold mret, qm_ret. do 2 f_equal. unfold with_pool, with_flq, with_pages, filled, nth_buf. rewrite <- Ho, <- Hal, Hcut.
    cbn. done.
  - eapply pool_ext; [apply (pool_cut orig _ e p s Hp He Hb)|..]; try done. fold flq. rewrite <- Hbuf. lia.
Qed.

Lemma dims_filled per c i e flq : dims per flq → dims per (filled per c i e flq).
Proof using.
  intros [D1 D2 D3 D4 D5 D6 D7 (D8 & D9 & D10) D11].
  split; try done; unfold nr_pages_ok, pgs, ring_ok, set_nth in *; cbn; rewrite ?length_insert; try done.
  all: unfold set_nth; by rewrite ?length_insert.
Qed.

Lemma pages_step flq per c i e k x : dims per flq → laid per c i flq → 0 <= i < fl_size flq →
  pg_at flq (Z.to_nat (i / per)) e → pg_at (filled per c i e flq) k x →
  pg_base x ≠ 0 ∧ pg_offset x = Z.max 0 (Z.min (i + 1 - Z.of_nat k * per) per) * fl_desc_buf_size flq.
Proof using.
  intros D L Hi He Hx. destruct (land_page flq per i D Hi) as [_ Hpg]. pose proof (dm_per _ _ D) as Hper.
  pose proof (Z.div_mod i per ltac:(lia)) as Hdm. pose proof (Z.mod_pos_bound i per ltac:(lia)) as Hmod.
  change (pg_at (set_pg (Z.to_nat (i / per)) (cut e flq) flq) k x) in Hx.
  apply (pg_at_set _ e) in Hx as [[-> ->]|[Hk Hx]]; [| |done].
  - destruct (ld_pgs _ _ _ _ L _ _ He) as [Hb Ho]. split; [done|]. cbn. rewrite Ho, <- (dm_buf _ _ D).
    rewrite Z2Nat.id by lia. replace (i - i / per * per) with (i mod per) by lia.
    replace (i + 1 - i / per * per) with (i mod per + 1) by lia. 
    rewrite !(Z.min_l _ per), !Z.max_r by lia. lia.
  - destruct (ld_pgs _ _ _ _ L _ _ Hx) as [Hb Ho]. split; [done|]. rewrite Ho. f_equal.
    assert (Z.of_nat k < i / per ∨ i / per < Z.of_nat k) as [Hlt|Hlt] by lia.
    + assert ((Z.of_nat k + 1) * per <= i / per * per) by (apply Z.mul_le_mono_nonneg_r; lia). lia.
    + assert ((i / per + 1) * per <= Z.of_nat k * per) by (apply Z.mul_le_mono_nonneg_r; lia). lia.
Qed.

Lemma pg_at_filled flq per c i e j x : dims per flq → 0 <= i < fl_size flq → 
  pg_at flq (Z.to_nat (i / per)) e → pg_at flq j x →
  ∃ y, pg_at (filled per c i e flq) j y ∧ pg_base y = pg_base x ∧ pg_dma_base_addr y = pg_dma_base_addr x.
Proof using.
  intros D Hi He Hx. destruct (decide (j = Z.to_nat (i / per))) as [->|Hj].
  - exists (cut e flq). split.
    + apply (pg_at_set _ e (cut e flq) flq); [done|by left].
    + unfold pg_at in *. replace x with e by congruence. done.
  - exists x. split; [|done]. apply (pg_at_set _ e (cut e flq) flq); [done|by right].
Qed.

Lemma laid_filled flq per c i e : dims per flq → laid per c i flq → 0 <= i < fl_size flq →
  pg_at flq (Z.to_nat (i / per)) e → laid per c (i + 1) (filled per c i e flq).
Proof using.
  intros D L Hi He. destruct (dm_ring _ _ D) as (_ & Hl & _). pose proof (dm_desc _ _ D) as Hld. split.
  - done.
  - intros k x Hx. exact (pages_step flq per c i e k x D L Hi He Hx).
  - intros j Hj. destruct (decide (j = i)) as [->|Hji].
    + destruct (pg_at_filled flq per c i e _ e D Hi He He) as (y & Hy & Hyb & Hyd). exists y. split; [done|].
      assert (Hslot : slot (filled per c i e flq) i = nth_buf per c flq i e).
      { unfold slot. cbn [filled fl_sdesc set]. unfold set_nth. by rewrite list_lookup_insert_eq by lia. }
      split; [rewrite Hslot; unfold nth_buf; by rewrite Hyb, Hyd|]. rewrite Hslot. cbn [filled fl_desc set].
      unfold set_nth. by rewrite list_lookup_insert_eq by lia.
    + destruct (ld_slot _ _ _ _ L j) as (x & Hx & Hs & Hd); [lia|].
      destruct (pg_at_filled flq per c i e _ x D Hi He Hx) as (y & Hy & Hyb & Hyd). exists y. split; [done|].
      assert (Hslot : slot (filled per c i e flq) j = slot flq j).
      { unfold slot. cbn [filled fl_sdesc set]. unfold set_nth. by rewrite list_lookup_insert_ne by lia. }
      rewrite Hslot. split; [rewrite Hs; unfold nth_buf; by rewrite Hyb, Hyd|]. cbn [filled fl_desc set].
      unfold set_nth. by rewrite list_lookup_insert_ne by lia.
  - intros k x Hx. change (pg_at (set_pg (Z.to_nat (i / per)) (cut e flq) flq) k x) in Hx.
    apply (pg_at_set _ e) in Hx as [[-> ->]|[Hk Hx]]; [| |done]; [exact (ld_mapped _ _ _ _ L _ _ He)|].
    exact (ld_mapped _ _ _ _ L _ _ Hx).
Qed.

Definition same_sizes flq flq' : Prop :=
  fl_size flq' = fl_size flq ∧ fl_desc_buf_size flq' = fl_desc_buf_size flq ∧
  fl_max_pg_offset flq' = fl_max_pg_offset flq ∧ fl_desc_pg_order flq' = fl_desc_pg_order flq.

Lemma fill_ones_run orig per n : ∀ i s, let bufsz := qc_c2h_bufsz (dq_conf (s_q s)) in
  page_pool orig s → dims per (flq_of s) → laid per bufsz i (flq_of s) → 0 <= i → i + Z.of_nat n = fl_size (flq_of s) →
  ∃ s1, try_entries n i flq_fill_one s = Some (0, s1) ∧ page_pool orig s1 ∧ dims per (flq_of s1) ∧
    laid per bufsz (fl_size (flq_of s)) (flq_of s1) ∧ s_q s1 = s_q s ∧ same_sizes (flq_of s) (flq_of s1).
Proof using.
  induction n as [|n IH]; intros i s bufsz Hp D L Hi Hn; cbn [try_entries].
  - exists s. replace (fl_size (flq_of s)) with i at 1 by lia. done.
  - assert (Hi' : 0 <= i < fl_size (flq_of s)) by lia. destruct (land_page _ _ _ D Hi') as [_ Hpg].
    destruct (dm_pages _ _ D) as [Hnp _]. unfold nr_pages_ok in Hnp.
    destruct (lookup_lt_is_Some_2 (pgs (flq_of s)) (Z.to_nat (i / per))) as [e He]; [lia|].
    destruct (fill_one_run orig per i e s) as (pages & E & Hp'); try done.
    { destruct (dm_ring _ _ D) as (? & _). lia. }
    rewrite (qm_bind_eq _ _ _ _ _ E). change (0 <? 0) with false. cbv iota. set (s1 := with_pool _ _ _) in *.
    destruct (IH (i + 1) s1) as (s2 & E2 & Hp2 & D2 & L2 & Hq2 & Hs2); [done|by apply dims_filled|by apply laid_filled|lia|cbn; lia|].
    by exists s2.
Qed.

(** *** The sizes the queue's configuration gives *)

Lemma pow2_of v : 1 <= v <= 2 ^ 16 → ∃ k, 0 <= k <= 16 ∧ get_next_powof2 v = 2 ^ k ∧ v <= 2 ^ k.
Proof using.
  intros Hv. destruct (get_next_powof2_least v) as (k & Hk & He & Hle & Hmin); [lia|].
  exists k. split; [|done]. split; [done|]. apply (Hmin 16); lia.
Qed.

Lemma flq_num_pages_pow2 size per : 0 < size <= 2 ^ 16 → 1 <= per →
  (∃ m, 0 <= m < 31 ∧ flq_num_pages size per = 2 ^ m) ∧ size <= flq_num_pages size per * per.
Proof using.
  intros Hs Hp. unfold flq_num_pages.
  pose proof (Z.div_mod size per ltac:(lia)) as Hdm. pose proof (Z.mod_pos_bound size per ltac:(lia)) as Hm.
  set (v := size / per + (if size mod per =? 0 then 0 else 1)).
  assert (Hd : 0 <= size / per <= size) by (split; [apply Z.div_pos; lia|apply Z.div_le_upper_bound; nia]).
  assert (Hv : 1 <= v <= 2 ^ 16 ∧ size <= v * per).
  { unfold v. destruct (Z.eqb_spec (size mod per) 0) as [Hz|Hz].
    - assert (size / per ≠ 0) by (intros He; rewrite He in Hdm; lia). nia.
    - assert (size / per < size ∨ size / per = size ∧ per = 1) as [Hlt|[_ ->]] by nia; [nia|].
      exfalso. apply Hz. apply Z.mod_1_r. }
  destruct Hv as [Hv Hvs]. destruct (pow2_of v Hv) as (k & Hk & He & Hle). rewrite He.
  assert (2 ^ k <= 2 ^ 16) by (apply Z.pow_le_mono_r; lia).
  destruct (Z.ltb_spec (2 ^ k) size).
  - rewrite Z.shiftl_mul_pow2, u32_small by lia. split; [|nia]. exists (k + 1). split; [lia|]. rewrite Z.pow_add_r by lia. done.
  - split; [|nia]. exists k. split; [lia|done].
Qed.

Lemma pool_start pages s n : (∀ pg, ch_next (s_hw s) <= pg → pages_of s !! pg = None) → 0 < ch_next (s_hw s) →
  pages = pages_of s → 0 <= fl_desc_pg_shift (flq_of s) → pgs (flq_of s) = replicate n (mk_sw_pg_sg 0 0 0) → page_pool pages s.
Proof using.
  intros Hf Hn -> Hsh Hg. assert (Hc : ∀ k e, pg_at (flq_of s) k e → pg_base e = 0).
  { intros k e He. unfold pg_at in He. fold (pgs (flq_of s)) in He. rewrite Hg in He. by apply lookup_replicate in He as [-> _]. }
  split; try done.
  - intros k e He Hb. by apply Hc in He.
  - intros k k' e e' He _ _ Hb. by apply Hc in He.
Qed.

Record sized (per : Z) flq : Prop := {
  sz_shift : 0 <= fl_desc_pg_shift flq;
  sz_buf : fl_desc_buf_size flq = 2 ^ fl_desc_pg_shift flq;
  sz_per : 1 <= per;
  sz_max : fl_max_pg_offset flq = per * fl_desc_buf_size flq ∧ fl_max_pg_offset flq < 2 ^ 31;
  sz_size : 0 < fl_size flq <= 2 ^ 16;
  sz_desc : Z.of_nat (length (fl_desc flq)) = fl_size flq;
}.

(** The free list with its arrays, before the buffers are cut. *)
Definition arrays (per : Z) (l : list qdma_sw_pg_sg) flq : qdma_flq :=
  let n := Z.to_nat (fl_size flq) in let np := flq_num_pages (fl_size flq) per in
  flq <| fl_num_bufs_per_pg := per |> <| fl_num_pages := np |> <| fl_num_pgs_mask := u32 (np - 1) |>
      <| fl_pg_sdesc := l |> <| fl_sdesc := replicate n sg_zero |> <| fl_sdesc_info := replicate n sinfo_zero |>
      <| fl_alloc_idx := 0 |>.

Lemma arrays_dims per l flq : sized per flq → Z.of_nat (length l) = flq_num_pages (fl_size flq) per →
  dims per (arrays per l flq).
Proof using.
  intros [S1 S2 S3 S4 S5 S6] Hl. destruct (flq_num_pages_pow2 (fl_size flq) per S5 S3) as ((m & Hm & He) & Hr).
  assert (0 < 2 ^ m <= 2 ^ 30) by (split; [apply Z.pow_pos_nonneg; lia|apply Z.pow_le_mono_r; lia]).
  split; try done; cbn.
  - split; [done|]. by exists m.
  - by rewrite u32_small by lia.
  - unfold ring_ok. cbn. rewrite !length_replicate. lia.
  - rewrite length_replicate. lia.
Qed.

Lemma arrays_laid per l c flq : sized per flq → Forall fresh_entry l → laid per c 0 (arrays per l flq).
Proof using.
  intros [S1 S2 S3 S4 S5 S6] Hf. split.
  - cbn. by rewrite Z.div_0_l by lia.
  - intros k e He. unfold pg_at in He. cbn in He. rewrite Forall_lookup in Hf. destruct (Hf _ _ He) as (Hb & Ho & _).
    split; [done|]. rewrite Ho. assert (0 <= Z.of_nat k * per) by nia. rewrite Z.max_l by lia. done.
  - lia.
  - intros k e He. unfold pg_at in He. cbn in He. rewrite Forall_lookup in Hf. by destruct (Hf _ _ He) as (_ & _ & ?).
Qed.

Definition new_pages orig (per : Z) (s s1 : qst (c2h H)) : Prop :=
  page_pool orig s1 ∧ dims per (flq_of s1) ∧ laid per (qc_c2h_bufsz (dq_conf (s_q s))) (fl_size (flq_of s)) (flq_of s1) ∧
  same_sizes (flq_of s) (flq_of s1).

(** Giving up: the pages are freed. *)
Lemma alloc_gives_up orig (rv : Z) s : rv < 0 → page_pool orig s → nr_pages_ok (flq_of s) →
  ∃ s1, (descq_flq_free_page_resource;; mret rv) s = Some (rv, s1) ∧ pages_of s1 = orig.
Proof using.
  intros Hrv Hp Hn. rewrite (qm_bind_eq _ _ _ _ _ (free_page_resource_run orig s Hp Hn)). by eexists.
Qed.

(** The buffers are cut once the pages are there. *)
Definition cut_all (n : nat) : qm (c2h H) Z :=
  c ← getc;
  let '(ok, mm) := qdma_calloc (ch_mem c) in
  modc (λ c, c <| ch_mem := mm |>);;
  if negb ok then descq_flq_free_page_resource;; mret (- ENOMEM)
  else
    modf (λ flq, flq <| fl_sdesc := replicate n sg_zero |> <| fl_sdesc_info := replicate n sinfo_zero |>
                     <| fl_alloc_idx := 0 |>);;
    rv ← try_entries n 0 flq_fill_one;
    if rv <? 0 then descq_flq_free_resource;; descq_flq_free_page_resource;; mret rv
    else mret 0.

Definition paged (per : Z) (l : list qdma_sw_pg_sg) flq : qdma_flq :=
  let np := flq_num_pages (fl_size flq) per in
  flq <| fl_num_bufs_per_pg := per |> <| fl_num_pages := np |> <| fl_num_pgs_mask := u32 (np - 1) |> <| fl_pg_sdesc := l |>.

Lemma cut_all_run orig per l flq s : sized per flq → flq_of s = paged per l flq → page_pool orig s →
  Z.of_nat (length l) = flq_num_pages (fl_size flq) per → Forall fresh_entry l →
  ∃ rv s1, cut_all (Z.to_nat (fl_size flq)) s = Some (rv, s1) ∧ (never_fails s → rv = 0) ∧
    (rv = 0 ∧ page_pool orig s1 ∧ dims per (flq_of s1) ∧ laid per (qc_c2h_bufsz (dq_conf (s_q s))) (fl_size flq) (flq_of s1) ∧
       same_sizes flq (flq_of s1) ∨
     rv < 0 ∧ pages_of s1 = orig).
Proof using.
  intros Hz Hflq Hp Hl Hf. unfold cut_all. rewrite (qm_bind_eq _ _ _ (s_hw s) s) by done.
  destruct (qdma_calloc (ch_mem (s_hw s))) as [ok mm] eqn:Hm.
  set (s1 := s <| s_hw := s_hw s <| ch_mem := mm |> |>). rewrite (qm_bind_eq _ _ _ tt s1) by done.
  assert (Hp1 : page_pool orig s1) by by eapply pool_ext. destruct ok; cbn [negb].
  2:{ destruct (alloc_gives_up orig (- ENOMEM) s1) as (s2 & E & Hpg); [done|done| |].
      { change (nr_pages_ok (flq_of s)). rewrite Hflq. unfold nr_pages_ok. cbn. done. }
      exists (- ENOMEM), s2. split; [exact E|]. split; [|by right].
      intros [Hmem _]. by rewrite Hmem in Hm. }
  match goal with |- context [mbind ?k (modf ?f) s1] => set (s2 := with_flq (f (flq_of s1)) s1) end.
  rewrite (qm_bind_eq _ _ _ tt s2) by done.
  assert (Hf2 : flq_of s2 = arrays per l flq).
  { unfold s2, with_flq, flq_of at 1. cbn [s_hw set ch_flq]. change (flq_of s1) with (flq_of s). by rewrite Hflq. }
  destruct (fill_ones_run orig per (Z.to_nat (fl_size flq)) 0 s2) as (s3 & E & Hp3 & D3 & L3 & Hq3 & Hs3).
  - by eapply pool_ext.
  - rewrite Hf2. by apply arrays_dims.
  - rewrite Hf2. by apply arrays_laid.
  - lia.
  - rewrite Hf2. cbn. pose proof (sz_size _ _ Hz). lia.
  - rewrite (qm_bind_eq _ _ _ _ _ E). exists 0, s3. split; [done|]. split; [done|]. left. rewrite Hf2 in L3, Hs3. done.
Qed.

Lemma flq_alloc_run per s : sized per (flq_of s) → pgs (flq_of s) = [] →
  (∀ pg, ch_next (s_hw s) <= pg → pages_of s !! pg = None) → 0 < ch_next (s_hw s) →
  ∃ rv s1, descq_flq_alloc_resource dma_map_page dma_mapping_error s = Some (rv, s1) ∧ (never_fails s → rv = 0) ∧
    (rv = 0 ∧ new_pages (pages_of s) per s s1 ∨ rv < 0 ∧ pages_of s1 = pages_of s).
Proof using.
  intros Hz Hg Hf Hn. destruct (Hz) as [S1 S2 S3 [S4 S4'] S5 S6].
  destruct (flq_num_pages_pow2 (fl_size (flq_of s)) per S5 S3) as ((m & Hm & Hnp) & _).
  unfold descq_flq_alloc_resource. rewrite (qm_bind_eq _ _ _ _ _ (getf_run s)). fold (flq_of s). cbv zeta.
  assert (Z.shiftr (fl_max_pg_offset (flq_of s)) (fl_desc_pg_shift (flq_of s)) = per) as ->.
  { rewrite Z.shiftr_div_pow2, <- S2, S4 by done. apply Z.div_mul. rewrite S2.
    assert (0 < 2 ^ fl_desc_pg_shift (flq_of s)) by (by apply Z.pow_pos_nonneg). lia. }
  rewrite (qm_bind_eq _ _ _ tt _ eq_refl). destruct (Z.eqb_spec per 0); [lia|]. rewrite (qm_bind_eq _ _ _ tt _ eq_refl).
  fold (cut_all (Z.to_nat (fl_size (flq_of s)))). set (np := flq_num_pages (fl_size (flq_of s)) per) in *.
  match goal with |- context [mbind _ getc ?s0] => set (s1 := s0) end. rewrite (qm_bind_eq _ _ _ (s_hw s1) s1) by done.
  destruct (qdma_calloc (ch_mem (s_hw s1))) as [ok mm] eqn:Hmm.
  set (s2 := s1 <| s_hw := s_hw s1 <| ch_mem := mm |> |>). rewrite (qm_bind_eq _ _ _ tt s2) by done.
  destruct ok; cbn [negb].
  2:{ exists (- ENOMEM), s2. split; [done|]. split; [|by right]. intros [Hmem _].
      change (ch_mem (s_hw s1)) with (ch_mem (s_hw s)) in Hmm. by rewrite Hmem in Hmm. }
  set (l0 := replicate (Z.to_nat np) (mk_sw_pg_sg 0 0 0)).
  set (s3 := with_flq (flq_of s2 <| fl_pg_sdesc := l0 |>) s2). rewrite (qm_bind_eq _ _ _ tt s3) by done.
  assert (Hf3 : flq_of s3 = paged per l0 (flq_of s)) by done.
  assert (Hp3 : page_pool (pages_of s) s3) by (by apply (pool_start (pages_of s) s3 (Z.to_nat np))).
  assert (Hnp0 : 0 <= np) by (rewrite Hnp; apply Z.pow_nonneg; lia).
  assert (Hl0 : length (pgs (flq_of s3)) = Z.to_nat np) by (rewrite Hf3; apply length_replicate).
  destruct (fill_pages_run (pages_of s) (Z.to_nat np) 0 s3 Hp3) as (rv & l & s4 & E & Hp4 & Hq4 & Hf4 & Hl4 & Hr & Hnf).
  { by rewrite Hl0. } { constructor. }
  { rewrite Hf3. by apply Forall_replicate. }
  rewrite (qm_bind_eq _ _ _ _ _ E). rewrite Hl0 in Hl4. rewrite Hf3 in Hf4.
  assert (Hnf3 : never_fails s → never_fails s3).
  { intros [Hmem He]. split; [|done]. change (ch_mem (s_hw s1)) with (ch_mem (s_hw s)) in Hmm.
    rewrite Hmem in Hmm. by injection Hmm as <-. }
  destruct (Z.ltb_spec rv 0) as [Hneg|Hpos].
  - destruct (alloc_gives_up (pages_of s) rv s4 Hneg Hp4) as (s5 & E5 & Hp5).
    { rewrite Hf4. unfold nr_pages_ok. cbn. rewrite Hl4. lia. }
    exists rv, s5. split; [exact E5|]. split; [|by right]. intros Hx. by apply Hnf, Hnf3.
  - destruct Hr as [[-> Hfresh]|]; [|lia].
    destruct (cut_all_run (pages_of s) per l (flq_of s) s4) as (rv & s5 & E5 & Hn5 & Hc); try done; [lia|].
    exists rv, s5. split; [exact E5|]. split; [intros Hx; by apply Hn5, Hnf, Hnf3|].
    destruct Hc as [(? & ? & ? & L & ?)|]; [left|by right]. rewrite Hq4 in L. done.
Qed.

(** ** The buffers are apart *)

Lemma seqZ_one m : seqZ m 1 = [m].
Proof using. unfold seqZ. cbn. f_equal; lia. Qed.
Lemma NoDup_concat_seqZ {A} (f : Z → list A) (n : nat) :
  (∀ j, 0 <= j < Z.of_nat n → NoDup (f j)) →
  (∀ i j x, 0 <= i < Z.of_nat n → 0 <= j < Z.of_nat n → x ∈ f i → x ∈ f j → i = j) →
  NoDup (concat (f <$> seqZ 0 (Z.of_nat n))).
Proof using.
  induction n as [|n IH]; intros Hn Hd; [constructor|].
  replace (Z.of_nat (S n)) with (Z.of_nat n + 1) by lia. rewrite seqZ_app, fmap_app, concat_app by lia.
  apply NoDup_app. split; [apply IH; [intros; apply Hn; lia|intros i j x ??; apply Hd; lia]|].
  rewrite seqZ_one. cbn [fmap list_fmap concat]. rewrite app_nil_r, Z.add_0_l. split; [|apply Hn; lia].
  intros x Hx Hx'. apply list_elem_of_In, in_concat in Hx as (l & Hl & Hx).
  apply list_elem_of_In, list_elem_of_fmap in Hl as (j & -> & Hj). apply elem_of_seqZ in Hj.
  assert (j = Z.of_nat n); [|lia]. apply (Hd _ _ x); try lia; [by apply list_elem_of_In|done].
Qed.

Lemma NoDup_area pg off n : NoDup (area pg off n).
Proof using. unfold area. apply NoDup_fmap_2; [|apply NoDup_seqZ]. intros i j Hij. injection Hij. lia. Qed.

Lemma slots_seqZ flq (n : nat) : Z.of_nat n <= fl_size flq → slots n flq 0 = slot flq <$> seqZ 0 (Z.of_nat n).
Proof using.
  induction n as [|n IH]; intros Hn; [done|]. rewrite slots_snoc by lia. rewrite IH by lia.
  replace (Z.of_nat (S n)) with (Z.of_nat n + 1) by lia. rewrite seqZ_app, fmap_app, seqZ_one by lia. do 2 f_equal.
  cbn. unfold ring_pos. by rewrite Z.mod_small by lia.
Qed.

(** Where buffer [j] is. *)
Lemma buf_at per c n flq j x : dims per flq → laid per c n flq → 0 <= j < n → 0 <= c <= fl_desc_buf_size flq →
  x ∈ sg_area (slot flq j) → ∃ e, pg_at flq (Z.to_nat (j / per)) e ∧ x.1 = pg_base e ∧
    j mod per * fl_desc_buf_size flq <= x.2 < (j mod per + 1) * fl_desc_buf_size flq.
Proof using.
  intros D L Hj Hc Hx. destruct (ld_slot _ _ _ _ L j Hj) as (e & He & Hs & _). exists e. split; [done|].
  rewrite Hs in Hx. apply elem_of_area in Hx as [H1 H2]. cbn in H1, H2. split; [done|]. lia.
Qed.

Lemma bufs_apart orig per c s : let flq := flq_of s in page_pool orig s → dims per flq → laid per c (fl_size flq) flq →
  0 <= c <= fl_desc_buf_size flq → NoDup (concat (sg_area <$> slots (Z.to_nat (fl_size flq)) flq 0)).
Proof using.
  intros flq Hp D L Hc. destruct (dm_ring _ _ D) as ((Hs0 & _) & _). pose proof (dm_per _ _ D) as Hper.
  assert (Hbs : 0 < fl_desc_buf_size flq) by (rewrite (dm_buf _ _ D); apply Z.pow_pos_nonneg; [lia|apply (dm_shift _ _ D)]).
  rewrite slots_seqZ, <- list_fmap_compose by lia. apply NoDup_concat_seqZ; [intros; apply NoDup_area|].
  intros i j x Hi Hj Hxi Hxj. rewrite Z2Nat.id in Hi, Hj by lia.
  destruct (buf_at per c (fl_size flq) flq i x D L Hi Hc Hxi) as (e & He & H1 & H2).
  destruct (buf_at per c (fl_size flq) flq j x D L Hj Hc Hxj) as (e' & He' & H1' & H2').
  destruct (ld_pgs _ _ _ _ L _ _ He) as [Hb _].
  assert (Z.to_nat (i / per) = Z.to_nat (j / per)) as Hk by (eapply pl_distinct; [exact Hp|exact He|exact He'|congruence|done]).
  assert (0 <= i / per ∧ 0 <= j / per) as [??] by (split; apply Z.div_pos; lia).
  assert (i / per = j / per) as Hdiv by lia.
  assert (i mod per = j mod per) as Hmod by nia.
  rewrite (Z.div_mod i per), (Z.div_mod j per), Hdiv, Hmod by lia. done.
Qed.

Lemma bufs_there orig per c s : let flq := flq_of s in page_pool orig s → dims per flq → laid per c (fl_size flq) flq →
  fl_max_pg_offset flq <= Z.shiftl PAGE_SIZE (fl_desc_pg_order flq) →
  0 <= c <= fl_desc_buf_size flq → Forall (has_byte (pages_of s)) (concat (sg_area <$> slots (Z.to_nat (fl_size flq)) flq 0)).
Proof using.
  intros flq Hp D L Hmax Hc. destruct (dm_ring _ _ D) as ((Hs0 & _) & _). pose proof (dm_per _ _ D) as Hper.
  assert (Hbs : 0 < fl_desc_buf_size flq) by (rewrite (dm_buf _ _ D); apply Z.pow_pos_nonneg; [lia|apply (dm_shift _ _ D)]).
  rewrite slots_seqZ, <- list_fmap_compose by lia. apply Forall_concat, Forall_fmap, Forall_forall. intros j Hj.
  apply elem_of_seqZ in Hj. apply Forall_forall. intros x Hx.
  destruct (buf_at per c (fl_size flq) flq j x D L) as (e & He & H1 & H2); [lia|done|done|].
  destruct (ld_pgs _ _ _ _ L _ _ He) as [Hb _]. destruct (pl_entry _ _ Hp _ _ He Hb) as (_ & _ & p & Hpg & _ & Hsz).
  exists p. rewrite H1. split; [done|]. rewrite Hsz. destruct (dm_max _ _ D) as [Hm _].
  pose proof (Z.mod_pos_bound j per ltac:(lia)). assert ((j mod per + 1) * fl_desc_buf_size flq <= per * fl_desc_buf_size flq) by nia.
  fold flq. nia.
Qed.

(** ** Setting up the queue *)

(** The free list flq_setup hands to the allocation. *)
Definition setup_flq (c : qdma_queue_conf) flq : qdma_flq :=
  let desc_buf_size := get_next_powof2 (qc_c2h_bufsz c) in
  let desc_pg_shift := u8 (fls desc_buf_size - 1) in
  let desc_pg_order := if desc_pg_shift <? PAGE_SHIFT then 0 else desc_pg_shift - PAGE_SHIFT in
  let buf_pg_shift := u8 (fls (qc_c2h_bufsz c) - 1) in
  flq <| fl_desc := replicate (Z.to_nat (qc_rngsz c)) 0 |> <| fl_size := qc_rngsz c |>
    <| fl_buf_pg_shift := buf_pg_shift |> <| fl_buf_pg_mask := Z.shiftl 1 buf_pg_shift - 1 |>
    <| fl_desc_buf_size := desc_buf_size |> <| fl_desc_pg_shift := desc_pg_shift |>
    <| fl_desc_pg_order := desc_pg_order |> <| fl_max_pg_offset := Z.shiftl PAGE_SIZE desc_pg_order |>.

Lemma setup_sized c flq : 0 < qc_rngsz c <= 2 ^ 16 → 1 <= qc_c2h_bufsz c <= 2 ^ 16 →
  ∃ per, sized per (setup_flq c flq) ∧ qc_c2h_bufsz c <= fl_desc_buf_size (setup_flq c flq).
Proof using.
  intros Hr Hb. destruct (pow2_of _ Hb) as (k & Hk & He & Hle).
  assert (Hfls : u8 (fls (2 ^ k) - 1) = k).
  { unfold fls. assert (0 < 2 ^ k) by (apply Z.pow_pos_nonneg; lia). destruct (Z.eqb_spec (2 ^ k) 0); [lia|].
    rewrite Z.log2_pow2 by lia. replace (k + 1 - 1) with k by lia. apply (wrap_small 8). unfold is_u. lia. }
  assert (2 ^ k <= 2 ^ 16) by (apply Z.pow_le_mono_r; lia).
  exists (if k <? 12 then 2 ^ (12 - k) else 1). unfold setup_flq. rewrite He, Hfls. split; [|exact Hle].
  split; cbn [fl_desc_pg_shift fl_desc_buf_size fl_max_pg_offset fl_size fl_desc set]; try lia.
  - destruct (Z.ltb_spec k 12); [|lia]. assert (0 < 2 ^ (12 - k)) by (apply Z.pow_pos_nonneg; lia). lia.
  - unfold PAGE_SHIFT. destruct (Z.ltb_spec k 12).
    + split; [|done]. rewrite <- Z.pow_add_r by lia. by replace (12 - k + k) with 12 by lia.
    + rewrite Z.shiftl_mul_pow2 by lia. change PAGE_SIZE with (2 ^ 12). rewrite <- Z.pow_add_r by lia.
      replace (12 + (k - 12)) with k by lia. lia.
  - rewrite length_replicate. lia.
Qed.

(** What an allocation gives: the buffers have the configured length, their
    bytes are there, no two share one, none is in a page there was before, and
    each is where the device writes it. *)
Definition good_bufs (orig : gmap Z page) (c : qdma_queue_conf) s : Prop :=
  let bufs := slots (Z.to_nat (qc_rngsz c)) (flq_of s) 0 in
  ring_ok (flq_of s) ∧ fl_size (flq_of s) = qc_rngsz c ∧ Forall (λ b, sg_len b = qc_c2h_bufsz c) bufs ∧
  Forall (has_byte (pages_of s)) (concat (sg_area <$> bufs)) ∧ NoDup (concat (sg_area <$> bufs)) ∧
  Forall (λ b, orig !! sg_pg b = None) bufs ∧
  ∀ j, 0 <= j < qc_rngsz c → buf_ok dma_map_page (qc_c2h_bufsz c) (flq_of s) j.

(** The address in a descriptor is that of the buffer. *)
Lemma laid_buf_ok per c n flq j : dims per flq → laid per c n flq → 0 <= j < n → buf_ok dma_map_page c flq j.
Proof using.
  intros D L Hj. destruct (ld_slot _ _ _ _ L j Hj) as (e & He & Hs & Hd). unfold buf_ok, dst_offset.
  rewrite (nth_lookup_Some _ _ _ _ Hd). rewrite Hs. split; [done|]. cbn [nth_buf sg_dma_addr sg_pg sg_offset].
  rewrite (ld_mapped _ _ _ _ L _ _ He). destruct (dm_max _ _ D) as [Hmax Hmax2]. pose proof (dm_per _ _ D) as Hper.
  assert (Hbs : 0 < fl_desc_buf_size flq) by (rewrite (dm_buf _ _ D); apply Z.pow_pos_nonneg; [lia|apply (dm_shift _ _ D)]).
  pose proof (Z.mod_pos_bound j per ltac:(lia)) as Hm. set (o := j mod per * fl_desc_buf_size flq).
  assert (Ho : 0 <= o < 2 ^ 31) by (unfold o; nia). unfold u64. rewrite Zminus_mod_idemp_l.
  rewrite Z.mod_small; lia.
Qed.

Lemma new_pages_good orig per s s1 : let c := dq_conf (s_q s) in
  new_pages orig per s s1 → fl_size (flq_of s) = qc_rngsz c → 0 <= qc_c2h_bufsz c <= fl_desc_buf_size (flq_of s) →
  fl_max_pg_offset (flq_of s) <= Z.shiftl PAGE_SIZE (fl_desc_pg_order (flq_of s)) → good_bufs orig c s1.
Proof using.
  intros c (Hp & D & L & Hs1 & Hsb & Hsm & Hso) Hs Hc Hm. rewrite <- Hsb in Hc. rewrite <- Hsm, <- Hso in Hm.
  rewrite Hs in Hs1. rewrite Hs, <- Hs1 in L. unfold good_bufs. fold c in L |- *. rewrite <- Hs1.
  pose proof (dm_ring _ _ D) as Hr. assert (Hs0 : 0 < fl_size (flq_of s1)) by apply Hr.
  assert (Hall : ∀ P : qdma_sw_sg → Prop, (∀ j, 0 <= j < fl_size (flq_of s1) → P (slot (flq_of s1) j)) →
    Forall P (slots (Z.to_nat (fl_size (flq_of s1))) (flq_of s1) 0)).
  { intros P HP. rewrite slots_seqZ by lia. apply Forall_fmap, Forall_forall. intros j Hj. apply elem_of_seqZ in Hj.
    apply HP. lia. }
  do 2 (split; [done|]). split; [|split; [|split; [|split]]].
  - apply Hall. intros j Hj. destruct (ld_slot _ _ _ _ L j Hj) as (e & _ & -> & _). done.
  - by eapply bufs_there.
  - by eapply bufs_apart.
  - apply Hall. intros j Hj. destruct (ld_slot _ _ _ _ L j Hj) as (e & He & -> & _). cbn.
    destruct (ld_pgs _ _ _ _ L _ _ He) as [Hb _]. by destruct (pl_entry _ _ Hp _ _ He Hb) as (? & _).
  - intros j Hj. by eapply laid_buf_ok.
Qed.

(** C8. Setting up the free list of a queue gives every descriptor a buffer of
    the configured length in new pages, at the bus address the descriptor has,
    no two sharing a byte, and freeing it
    gives back exactly the pages that were allocated; when an allocation or a
    mapping fails on the way, every page allocated before it is given back at
    once, and without such a failure the setup succeeds. *)
Theorem free_list_pages s : let c := dq_conf (s_q s) in
  0 < qc_rngsz c <= 2 ^ 16 → 1 <= qc_c2h_bufsz c <= 2 ^ 16 → flq_of s = flq_zero →
  (∀ pg, ch_next (s_hw s) <= pg → pages_of s !! pg = None) → 0 < ch_next (s_hw s) →
  ∃ rv s1, flq_setup dma_map_page dma_mapping_error s = Some (rv, s1) ∧ (never_fails s → rv = 0) ∧
    (rv < 0 ∧ pages_of s1 = pages_of s ∨
     rv = 0 ∧ good_bufs (pages_of s) c s1 ∧
     ∃ s2, free_flq s1 = Some (tt, s2) ∧ pages_of s2 = pages_of s ∧ flq_of s2 = flq_zero).
Proof using.
  intros c Hr Hb Hz Hf Hn. unfold flq_setup. rewrite getq_bind. fold c. cbv zeta.
  set (s0 := with_flq (setup_flq c (flq_of s)) s). rewrite (qm_bind_eq _ _ _ tt s0) by done.
  destruct (setup_sized c (flq_of s) Hr Hb) as (per & Hsz & Hle).
  destruct (flq_alloc_run per s0) as (rv & s1 & E & Hnf & Hc); try done.
  { change (pgs (flq_of s) = []). by rewrite Hz. }
  exists rv, s1. split; [done|]. split; [done|]. destruct Hc as [[-> Hnew]|Hc]; [right|by left].
  split; [done|]. split; [|].
  { change c with (dq_conf (s_q s0)). eapply (new_pages_good _ _ s0); [exact Hnew|done| |done].
    change (0 <= qc_c2h_bufsz c <= fl_desc_buf_size (setup_flq c (flq_of s))). lia. }
  destruct Hnew as (Hp & D & _). eexists. split; [apply (free_flq_run (pages_of s)); [done|apply D|]|done].
  right. split; apply D.
Qed.
End page_pool.
