(* ===== verification/StC2HEx.v ===== *)
(** * Streaming queues from card to host: runs on concrete inputs

    A queue of four descriptors with buffers of 256 bytes and a device that
    writes packets to the buffers and entries to the completion ring.  The
    witnesses of the theorems, and runs that show what the code does outside
    their hypotheses. *)

From S2P Require Import Prelude Platform SoftAccess QueueTypes DescRing Descq DescqProc DescqSubmit DescqConf DescqEx StC2H StC2HCmpt StC2HRead StC2HThms StC2HPkt StC2HAlloc.

(** ** The device *)

(** The words of the completion ring by offset, the producer index in its
    status, what the doorbells were given, and what they return. *)
Record dev := mk_dev { d_words : gmap Z Z; d_status : Z; d_posted : list Z; d_cmpt : list Z; d_ret : Z }.
#[export] Instance eta_dev : Settable dev := λ d, mk_dev (d_words d) (d_status d) (d_posted d) (d_cmpt d) (d_ret d).
#[export] Instance dev_queue_hw : QueueHw dev := {|
  queue_pidx_update _ _ i d := (d_ret d, d <| d_posted := d_posted d ++ [pri_pidx i] |>);
  queue_cmpt_cidx_update _ i d := (d_ret d, d <| d_cmpt := d_cmpt d ++ [cci_wrb_cidx i] |>);
  desc_cmpl_status_cidx d := (0, d);
|}.
#[export] Instance dev_c2h_hw : C2hHw dev := {|
  cmpt_status_pidx d := (d_status d, d);
  cmpt_entry_word o d := (default 0 (d_words d !! o), d);
|}.

(** The word of an entry for a packet of a length, with a color. *)
Definition pkt_word (color len : Z) : Z :=
  F_C2H_CMPT_ENTRY_F_DESC_USED + color * F_C2H_CMPT_ENTRY_F_COLOR + Z.shiftl len S_C2H_CMPT_ENTRY_LENGTH.

Definition cx_map (pg : Z) : Z := pg * 4096.
Definition cx_err (_ : Z) : bool := false.
Definition cx_pkt (_ _ : Z) (_ _ : option Z) : qm (c2h dev) Z := qfail.
Definition cx_parse (_ : Z) : qm (c2h dev) (Z * qdma_ul_cmpt_info) := qfail.

(** ** The queue *)

Definition cx_conf : qdma_queue_conf :=
  conf_zero <| qc_st := 1 |> <| qc_q_type := Q_C2H |> <| qc_rngsz := 4 |> <| qc_rngsz_cmpt := 8 |>
            <| qc_c2h_bufsz := 256 |>.
Definition cx_queue : qdma_descq :=
  qdma_descq_config (ex_x POLL_MODE) cx_conf false (qdma_descq_init 0 0 0)
    <| dq_q_state := Q_STATE_ONLINE |> <| dq_avail := 3 |> <| dq_color := 1 |> <| dq_cmpt_entry_len := 8 |>.

(** Requests with pages of their own. *)
Definition cx_req (count : Z) (sgl : list qdma_sw_sg) : qdma_request :=
  mk_qdma_request (cb_zero <| cb_left := count |>) true 0 count 0 false false false false false 0 sgl.
Definition user_page : page := mk_page 1 4096 (λ _, 0).
Definition cx_reqs : gmap Z qdma_request :=
  <[1 := cx_req 12 [mk_qdma_sw_sg 101 0 8 0; mk_qdma_sw_sg 102 4 4 0]]>
  (<[2 := cx_req 20 [mk_qdma_sw_sg 103 0 20 0]]> (<[3 := cx_req 300 [mk_qdma_sw_sg 104 0 300 0]]> ∅)).
Definition user_pages : gmap Z page := list_to_map ((λ pg, (pg, user_page)) <$> [101; 102; 103; 104]).

Definition cs_empty : qst (c2h dev) :=
  mk_qst cx_queue (ex_x POLL_MODE) cx_reqs
    (mk_c2h (mk_dev ∅ 0 [] [] 0) flq_zero user_pages 1000 [] 0 (mk_ping_pong 0 0 0 0 0)) [].

Definition cx_run {A} (m : qm (c2h dev) A) (s : qst (c2h dev)) : qst (c2h dev) :=
  match m s with Some (_, s') => s' | None => s end.
Definition cx_result {A} (m : qm (c2h dev) A) (s : qst (c2h dev)) : option A := fst <$> m s.

Definition cs0 : qst (c2h dev) := cx_run (flq_setup cx_map cx_err) cs_empty.

(** A packet arrives: its bytes go to the buffers from [p] on, its entry to
    place [e] of the ring. *)
Definition write_byte (a : Z * Z) (b : Z) (pages : gmap Z page) : gmap Z page :=
  alter (λ p, p <| pp_bytes := λ o, if o =? a.2 then b else pp_bytes p o |>) a.1 pages.
Definition dma_write (dst : list (Z * Z)) (data : list Z) (pages : gmap Z page) : gmap Z page :=
  foldl (λ pages ab, write_byte ab.1 ab.2 pages) pages (zip dst data).
(** The device writes to the addresses it was given, which do not change when
    the driver moves the offset of a buffer. *)
Definition dma_buf (flq : qdma_flq) (i bufsz : Z) : list (Z * Z) :=
  let a := default 0 (fl_desc flq !! Z.to_nat i) in area (a / 4096) (a mod 4096) bufsz.
Definition arrive (e p color : Z) (data : list Z) (s : qst (c2h dev)) : qst (c2h dev) :=
  let flq := flq_of s in
  let d := ch_hw (s_hw s) in
  let dst := concat ((λ k, dma_buf flq (ring_pos (fl_size flq) p k) (qc_c2h_bufsz (dq_conf (s_q s)))) <$> seqZ 0 (fl_size flq)) in
  let d := d <| d_words := <[e * 8 := pkt_word color (Z.of_nat (length data))]> (d_words d) |> <| d_status := e + 1 |> in
  with_pages (dma_write dst data (pages_of s)) s <| s_hw := (s_hw s) <| ch_pages := dma_write dst data (pages_of s) |> <| ch_hw := d |> |>.

(** What a request has received. *)
Definition data_of (r n : Z) (s : qst (c2h dev)) : list Z :=
  match s_reqs s !! r with
  | Some req => take (Z.to_nat n) ((λ a, default (-1) (byte_at (pages_of s) a)) <$> concat (sg_area <$> rq_sgl req))
  | None => []
  end.

Notation cx_service := (descq_process_completion_st_c2h cx_map cx_err cx_pkt cx_parse).
Notation cx_submit := (qdma_request_submit_st_c2h cx_map cx_err).
Notation cx_packet_read := (qdma_queue_packet_read cx_map cx_err).

Example cs0_ok : cx_result (flq_setup cx_map cx_err) cs_empty = Some 0 ∧
  fl_desc (flq_of cs0) = [1000 * 4096; 1000 * 4096 + 256; 1000 * 4096 + 512; 1000 * 4096 + 768] ∧
  pp_refs <$> (pages_of cs0 !! 1000) = Some 5.
Proof. split_and!; vm_compute; reflexivity. Qed.

(** Two packets arrive, of 10 and of 20 bytes; the first request takes 12
    bytes, so two of the second packet, and the next request the others. *)
Definition pkt1 : list Z := seqZ 1 10.
Definition pkt2 : list Z := seqZ 51 20.
Definition cs2 : qst (c2h dev) := arrive 1 1 1 pkt2 (arrive 0 0 1 pkt1 cs0).
Definition cs3 := cx_run (cx_service 10 0 true) cs2.
Definition cs4 := cx_run (cx_submit 1) cs3.
Definition cs5 := cx_run (cx_submit 2) cs4.

Example two_packets : length (unread cs3) = 30%nat ∧ cx_result (cx_submit 1) cs3 = Some (SubmitRet 12) ∧
  data_of 1 12 cs4 = pkt1 ++ [51; 52] ∧ data_of 2 18 cs5 = drop 2 pkt2.
Proof. split_and!; vm_compute; reflexivity. Qed.

(** The same through the functions every request and every queue goes through:
    a request that waits is filled by the completion service.  Its callback is
    told the member [offset] of the control block as the number of bytes done,
    which reading does not move: zero. *)
Definition cs_waiting : qst (c2h dev) := cx_run (qdma_request_submit ex_fill ex_map ex_map_err (cx_submit) 0 1) cs0.
Definition cs_served : qst (c2h dev) :=
  cx_run (qdma_descq_service_cmpl_update ex_fill (cx_service 10) 0 0 true)
    (arrive 1 1 1 pkt2 (arrive 0 0 1 pkt1 cs_waiting)).
Example request_waits_for_packets :
  cx_result (qdma_request_submit ex_fill ex_map ex_map_err (cx_submit) 0 1) cs0 = Some (SubmitRet 0) ∧
  dq_pend_list (s_q cs_waiting) = [1] ∧ s_ev cs_waiting = [] ∧
  s_ev cs_served = [EvDone 1 0 0] ∧ data_of 1 12 cs_served = pkt1 ++ [51; 52] ∧ dq_pend_list (s_q cs_served) = [].
Proof. split_and!; vm_compute; reflexivity. Qed.

(** ** Witnesses *)

Definition has_byteb (pages : gmap Z page) (a : Z * Z) : bool :=
  match pages !! a.1 with Some p => (0 <=? a.2) && (a.2 <? pp_size p) | None => false end.
Lemma has_byteb_all pages l : forallb (has_byteb pages) l = true → Forall (has_byte pages) l.
Proof.
  intros Hb. apply Forall_forall. intros a Ha. rewrite forallb_forall in Hb.
  specialize (Hb a (proj1 (list_elem_of_In _ _) Ha)). unfold has_byteb in Hb. unfold has_byte.
  destruct (pages !! a.1) as [p|]; [|done]. exists p. split; [done|]. lia.
Qed.

Definition req1 : qdma_request := cx_req 12 [mk_qdma_sw_sg 101 0 8 0; mk_qdma_sw_sg 102 4 4 0].

Lemma cs3_can_read : can_read req1 cs3.
Proof.
  split.
  - unfold ring_ok. vm_compute. done.
  - unfold ring_idx. vm_compute. done.
  - unfold ring_idx. vm_compute. done.
  - assert (unread_bufs cs3 = [mk_qdma_sw_sg 1000 0 10 4096000; mk_qdma_sw_sg 1000 256 20 4096256]) as -> by (vm_compute; reflexivity).
    unfold entry_ok. repeat constructor; cbn; lia.
  - apply has_byteb_all. vm_compute. reflexivity.
  - unfold no_ping_pong. vm_compute. reflexivity.
  - reflexivity.
  - cbn. lia.
  - by left.
  - cbn. lia.
  - change (rest_sgl req1) with (rq_sgl req1). change (cb_sg_offset (rq_cb req1)) with 0. unfold pos_ok, entry_ok.
    split; [repeat constructor; cbn; lia|]. cbn. lia.
  - apply has_byteb_all. vm_compute. reflexivity.
  - vm_compute. reflexivity.
  - apply (bool_decide_unpack _). vm_compute. reflexivity.
  - apply Forall_forall. apply (bool_decide_unpack _). vm_compute. reflexivity.
Qed.

Lemma st_c2h_read_copies_witness :
  ∃ req' s', descq_st_c2h_read cx_map cx_err 1 true true cs3 = Some (12, s') ∧
    s_reqs s' = <[1 := req']> (s_reqs cs3) ∧ space req' = [] ∧ length (unread s') = 18%nat ∧ cb_left (rq_cb req') = 0.
Proof.
  destruct (st_c2h_read_copies cx_map cx_err 1 true true req1 cs3) as (rv & s' & E & _ & _ & Hu & Hc).
  - vm_compute. reflexivity.
  - exact cs3_can_read.
  - destruct Hc as [[-> (req' & Hr & Hs & _ & Hl)]|[Hd _]].
    + exists req', s'. split; [exact E|]. split; [exact Hr|]. rewrite Hu, Hs, Hl. repeat split.
    + destruct Hd. intros qid ty i. vm_compute. discriminate.
Defined.

(** Packets of 300, 0 and 40 bytes wait, on a completion ring whose next entry
    is the last one: two buffers, one, none left for the third. *)
Definition cs_wrap : qst (c2h dev) :=
  let s := arrive 0 2 0 [] (arrive 7 0 1 (seqZ 0 300) cs0) in
  s <| s_q := s_q s <| dq_cidx_cmpt := 7 |> |> <| s_hw := s_hw s <| ch_cmpt_cur := 56 |> |>.

Lemma cs_wrap_ok : recv_ok cx_map 0 cs_wrap.
Proof.
  assert (Hfree : free_ok cx_map 0 cs_wrap); cycle 1.
  { split; [..|exact Hfree| |]; unfold ring_ok, ring_idx; vm_compute; done. }
  - intros k Hk. change (dq_avail (s_q cs_wrap)) with 3 in Hk.
    assert (k = 0 ∨ k = 1 ∨ k = 2) as [->|[->| ->]] by lia; split; vm_compute; reflexivity.
Qed.

Lemma completions_append_witness :
  ∃ s', process_entries cx_pkt cx_parse 2 0 0 cs_wrap = Some (inr (2, 3), s') ∧ dq_avail (s_q s') = 0 ∧
    received 3 s' = area 1000 0 256 ++ area 1000 256 44.
Proof.
  destruct (completions_append cx_map cx_pkt cx_parse [300; 0] 0 0 cs_wrap) as (p' & s' & E & Hr & _ & Hp & Ha & _).
  - exact cs_wrap_ok.
  - assert (∀ l, 0 <= l < 2 ^ 16 → len_ok cs_wrap l) as Hl by (intros l Hl; split; [exact Hl|left; vm_compute; reflexivity]).
    repeat constructor; apply Hl; lia.
  - vm_compute. discriminate.
  - unfold entries_at. split; [vm_compute; split; [discriminate|reflexivity]|]. split; [vm_compute; reflexivity|].
    split; [vm_compute; reflexivity|]. split; [exists (pkt_word 1 300), false; split; vm_compute; reflexivity|].
    match goal with |- if ?b then _ else _ => replace b with true by (vm_compute; reflexivity) end.
    split; [exists (pkt_word 0 0), false; split; vm_compute; reflexivity|by case_match].
  - vm_compute. reflexivity.
  - exists s'. assert (p' = 3) as -> by (rewrite Hp; vm_compute; reflexivity). split; [exact E|].
    split; [rewrite Ha; vm_compute; reflexivity|]. etransitivity; [exact Hr|]. vm_compute. reflexivity.
Defined.

Lemma cs_empty_fresh pg : 1000 <= pg → pages_of cs_empty !! pg = None.
Proof.
  intros Hpg. change (user_pages !! pg = None). apply not_elem_of_list_to_map_1. rewrite <- list_fmap_compose.
  cbn. rewrite !elem_of_cons, elem_of_nil. lia.
Qed.

Lemma free_list_pages_witness : ∃ s1 s2, flq_setup cx_map cx_err cs_empty = Some (0, s1) ∧
  good_bufs cx_map user_pages cx_conf s1 ∧ free_flq s1 = Some (tt, s2) ∧ pages_of s2 = user_pages.
Proof.
  destruct (free_list_pages cx_map cx_err cs_empty) as (rv & s1 & E & Hnf & Hc).
  - change (qc_rngsz (dq_conf (s_q cs_empty))) with 4. lia.
  - change (qc_c2h_bufsz (dq_conf (s_q cs_empty))) with 256. lia.
  - reflexivity.
  - exact cs_empty_fresh.
  - change (ch_next (s_hw cs_empty)) with 1000. lia.
  - assert (rv = 0) as -> by (apply Hnf; split; reflexivity). destruct Hc as [[Hneg _]|(_ & Hg & s2 & E2 & Hp & _)]; [lia|].
    exists s1, s2. split; [exact E|]. split; [exact Hg|]. split; [exact E2|exact Hp].
Defined.

(** ** What the code does outside the hypotheses *)

(** The first allocation fails, of the page array, after the number of pages
    was stored: the cleanup of the failed allocation goes through an array
    that is not there. *)
Definition cs_no_array : qst (c2h dev) := cs_empty <| s_hw := s_hw cs_empty <| ch_mem := [false] |> |>.
Definition cx_alloc (_ : Z) (h : c2h dev) : option Z * c2h dev := (Some 65536, h).
Notation cx_alloc_resource := (qdma_descq_alloc_resource cx_alloc (flq_setup cx_map cx_err) free_flq).
Example no_page_array_then_free :
  cx_result cx_alloc_resource cs_empty = Some 0 ∧
  cx_result (flq_setup cx_map cx_err) cs_no_array = Some (- ENOMEM) ∧
  fl_num_pages (flq_of (cx_run (flq_setup cx_map cx_err) cs_no_array)) = 2 ∧
  cx_alloc_resource cs_no_array = None.
Proof. split_and!; vm_compute; reflexivity. Qed.

Definition again (r : Z) (s : qst (c2h dev)) : qst (c2h dev) :=
  s <| s_reqs := <[r := default (cx_req 0 []) (cx_reqs !! r)]> (s_reqs s) |>
    <| s_q := s_q s <| dq_pend_list := [] |> |>.
Definition cs6 := cx_run (cx_service 10 0 true) (arrive 3 3 1 [3; 3; 3; 3] (arrive 2 2 1 [2; 2; 2; 2] (again 2 cs5))).
Definition cs7 := cx_run (cx_submit 3) (again 3 cs6).
Definition cs8 := cx_run (cx_service 10 0 true) (arrive 5 1 1 [61; 62; 63; 64] (arrive 4 0 1 [41; 42; 43; 44] (again 3 cs7))).
Definition cs9 := cx_run (cx_submit 1) (again 1 cs8).

(** The second buffer was read in two parts, so its offset was moved by two
    bytes; it is never moved back when the buffer is made available again.  The
    device writes the next packet to the address in the descriptor, and the
    driver reads it from two bytes behind: it loses [61; 62] and hands out two
    bytes of the packet before. *)
Example partial_read_shifts_buffer :
  fl_desc (flq_of cs9) = fl_desc (flq_of cs0) ∧
  sg_offset <$> fl_sdesc (flq_of cs0) = [0; 256; 512; 768] ∧ sg_offset <$> fl_sdesc (flq_of cs8) = [0; 258; 512; 768] ∧
  dst_offset cx_map (flq_of cs8) 1 = 256 ∧
  data_of 3 8 cs7 = [2; 2; 2; 2; 3; 3; 3; 3] ∧ data_of 1 8 cs9 = [41; 42; 43; 44; 63; 64; 55; 56].
Proof. split_and!; vm_compute; reflexivity. Qed.

(** qdma_queue_packet_read clears the control block of the request and never
    sets the number of bytes left: with twelve bytes copied to a request of
    twelve bytes, it returns 24, and the call after it that finds nothing
    returns 12. *)
Example packet_read_counts_twice :
  cx_result (cx_packet_read 1 None) cs3 = Some 24 ∧ data_of 1 12 (cx_run (cx_packet_read 1 None) cs3) = pkt1 ++ [51; 52] ∧
  cx_result (cx_packet_read 1 None) cs0 = Some 12.
Proof. split_and!; vm_compute; reflexivity. Qed.

(** The doorbell fails after the bytes are copied and the ring has moved on:
    the request keeps its position and its bytes left, and the next read puts
    other bytes in the place of the ones copied, which are lost. *)
Definition cs3_bad : qst (c2h dev) := with_dev (ch_hw (s_hw cs3) <| d_ret := -1 |>) cs3.
Definition cs4_bad : qst (c2h dev) := cx_run (descq_st_c2h_read cx_map cx_err 1 true true) cs3_bad.
Example failed_doorbell_loses_bytes :
  cx_result (descq_st_c2h_read cx_map cx_err 1 true true) cs3_bad = Some (- EINVAL) ∧
  length (unread cs4_bad) = 18%nat ∧ s_reqs cs4_bad !! 1 = s_reqs cs3 !! 1 ∧
  data_of 1 12 (cx_run (descq_st_c2h_read cx_map cx_err 1 true false) cs4_bad) = seqZ 53 12.
Proof. split_and!; vm_compute; reflexivity. Qed.

(** An error in an entry: the packets processed before it in the same call
    stay received, but the producer index of the queue is not moved, so they
    are never read. *)
Definition err_word : Z := pkt_word 1 0 + F_C2H_CMPT_ENTRY_F_ERR.
Definition cs2_bad : qst (c2h dev) :=
  with_dev (ch_hw (s_hw cs2) <| d_words := <[8 := err_word]> (d_words (ch_hw (s_hw cs2))) |>) cs2.
Example error_entry_hides_packets :
  cx_result (cx_service 10 0 true) cs2_bad = Some (- EINVAL) ∧
  dq_avail (s_q (cx_run (cx_service 10 0 true) cs2_bad)) = 2 ∧ unread (cx_run (cx_service 10 0 true) cs2_bad) = [] ∧
  dq_err (s_q (cx_run (cx_service 10 0 true) cs2_bad)) = true.
Proof. split_and!; vm_compute; reflexivity. Qed.

(** With a packet handler of the upper layer, which releases its references to
    the pages itself, a refill replaces the pages that have no buffer in use.
    When the new page cannot be allocated, the entry keeps the page that was
    just given up: freeing the queue gives it up a second time. *)
Definition cs_uld : qst (c2h dev) :=
  cx_run (flq_setup cx_map cx_err)
    (cs_empty <| s_q := cx_queue <| dq_conf := cx_conf <| qc_rngsz := 16 |> <| qc_fp_descq_c2h_packet := true |> |> |>).
Definition cs_uld1 : qst (c2h dev) :=
  cx_run (qdma_flq_refill cx_map cx_err 32 0 15 false) (cx_run (put_pages 15 1000) cs_uld).
Definition cs_uld2 (m : list bool) : qst (c2h dev) :=
  cx_run (qdma_flq_refill cx_map cx_err 32 15 1 false)
    (cx_run (put_pages 1 1000) (cs_uld1 <| s_hw := s_hw cs_uld1 <| ch_mem := m |> |>)).
Example refill_failure_frees_twice :
  dom (pages_of (cs_uld2 [])) ∖ dom user_pages = {[1001; 1002]} ∧ cx_result free_flq (cs_uld2 []) = Some tt ∧
  pages_of (cs_uld2 [false]) !! 1000 = None ∧ pg_base <$> fl_pg_sdesc (flq_of (cs_uld2 [false])) !! 0%nat = Some 1000 ∧
  cx_result free_flq (cs_uld2 [false]) = None.
Proof. split_and!; vm_compute; reflexivity. Qed.
