(* ===== verification/ErrProc.v ===== *)
(** * Hardware errors (qdma_soft_access.c and its EQDMA and CPM variants)

    Each access layer has a table of the errors the device reports, grouped in
    blocks: the errors of a block share a status and a mask register, each has
    a bit in them, and the last entry of a block stands for all of them.
    Processing reads the status registers, logs the errors and clears what it
    has read; enabling sets bits of the mask registers.

    The four access layers have the same functions on tables of their own, so
    the functions are over a record [err_ip] here; the tables and what their
    handlers read are in a file per layer.  [ErrorUnit] is what the hardware
    documentation says of the registers. *)

From Stdlib Require Import String.
From S2P Require Import Prelude Platform Bits RegIO IndCtxt SoftCtxt SoftAccess RegList.

Definition QDMA_HW_ERR_NOT_DETECTED : Z := 1.

(** [struct qdma_hw_err_info] *)
Record hw_err_info (dev : Type) := mk_err {
  ei_idx : Z; err_name : string; mask_reg_addr : Z; stat_reg_addr : Z; leaf_err_mask : Z; global_err_mask : Z;
  hw_err_process : hwm dev unit;
}.
Arguments mk_err {dev} _ _ _ _ _ _ _.
Arguments ei_idx {dev} _.
Arguments err_name {dev} _.
Arguments mask_reg_addr {dev} _.
Arguments stat_reg_addr {dev} _.
Arguments leaf_err_mask {dev} _.
Arguments global_err_mask {dev} _.
Arguments hw_err_process {dev} _ _.

(** What differs between the access layers: the table, [hw_err_position] and
    the array of the last entries of the blocks, the blocks that exist with
    streaming only, the global registers, the number of errors, and the
    function for the attributes. *)
Record err_ip (dev : Type) := mk_err_ip {
  ip_err_info : list (hw_err_info dev); hw_err_position : list Z; all_hw_errs : list Z;
  ip_st_first : list Z; ip_st_all : list Z; ip_glbl_stat : Z; ip_glbl_mask : Z; ip_errs_all : Z;
  ip_dev_cap : hwm dev qdma_dev_attributes;
}.
Arguments mk_err_ip {dev} _ _ _ _ _ _ _ _ _.
Arguments ip_err_info {dev} _.
Arguments hw_err_position {dev} _.
Arguments all_hw_errs {dev} _.
Arguments ip_st_first {dev} _.
Arguments ip_st_all {dev} _.
Arguments ip_glbl_stat {dev} _.
Arguments ip_glbl_mask {dev} _.
Arguments ip_errs_all {dev} _.
Arguments ip_dev_cap {dev} _ _.

Definition mem_Z (x : Z) (l : list Z) : bool := existsb (Z.eqb x) l.

Section process.
Context {dev : Type} `{Device dev}.
Implicit Types ip : err_ip dev.

(** An entry of the table; the indices of the functions are below its length. *)
Definition err_dummy : hw_err_info dev := mk_err 0 "" 0 0 0 0 (mret tt).
Definition err_info ip (idx : Z) : hw_err_info dev := nth (Z.to_nat idx) (ip_err_info ip) err_dummy.

Definition hw_get_error_name ip (err_idx : Z) : option string :=
  if ip_errs_all ip <=? u32 err_idx then None else Some (err_name (err_info ip (u32 err_idx))).

(** The registers the handlers print are looked up in the register table. *)
Definition dump_reg_info (config_addrs : list Z) (reg_addr : Z) : hwm dev Z :=
  if mem_Z reg_addr config_addrs then v ← qdma_reg_read reg_addr; mret (const QDMA_SUCCESS (v : Z))
  else mret INV_PARAM.
Fixpoint dump_regs (dump : Z → hwm dev Z) (reg_list : list Z) : hwm dev unit :=
  match reg_list with
  | [] => mret tt
  | reg :: reg_list => dump reg;; dump_regs dump reg_list
  end.

(** The errors of a block from [bit] to before [last] whose bits are set. *)
Definition detected ip (err_stat bit last : Z) : list Z :=
  List.filter (λ idx, nz (Z.land err_stat (leaf_err_mask (err_info ip idx)))) (seqZ bit (last - bit)).

(** One block, and the loop over the blocks.  The result lists the indices
    of the errors that are logged. *)
Definition process_block ip (bit last : Z) : hwm dev (list Z) :=
  err_stat ← qdma_reg_read (stat_reg_addr (err_info ip bit));
  if err_stat =? 0 then mret []
  else
    hw_err_process (err_info ip bit);;
    qdma_reg_write (stat_reg_addr (err_info ip bit)) err_stat;;
    mret (detected ip err_stat bit last).
Fixpoint process_blocks ip (st : Z) (blocks : list (Z * Z)) : hwm dev (list Z) :=
  match blocks with
  | [] => mret []
  | (bit, last) :: blocks =>
      log ← (if negb (nz st) && mem_Z bit (ip_st_first ip) then mret [] else process_block ip bit last);
      log' ← process_blocks ip st blocks;
      mret (log ++ log')
  end.

Definition hw_error_process ip (dev_hndl : bool) : hwm dev (Z * list Z) :=
  if negb dev_hndl then mret (INV_PARAM, [])
  else
    dev_cap ← ip_dev_cap ip;
    glbl_err_stat ← qdma_reg_read (ip_glbl_stat ip);
    if glbl_err_stat =? 0 then mret (QDMA_HW_ERR_NOT_DETECTED, [])
    else
      log ← process_blocks ip (st_en dev_cap) (zip (hw_err_position ip) (all_hw_errs ip));
      qdma_reg_write (ip_glbl_stat ip) glbl_err_stat;;
      mret (QDMA_SUCCESS, log).

(** *** Enabling *)

Definition set_global_mask ip (e : hw_err_info dev) : hwm dev unit :=
  reg_val ← qdma_reg_read (ip_glbl_mask ip);
  qdma_reg_write (ip_glbl_mask ip) (Z.lor reg_val (FIELD_SET (global_err_mask e) 1)).
Fixpoint enable_blocks ip (st : Z) (l : list Z) : hwm dev unit :=
  match l with
  | [] => mret tt
  | idx :: l =>
      (if negb (nz st) && mem_Z idx (ip_st_all ip) then mret tt
       else
         let e := err_info ip idx in
         qdma_reg_write (mask_reg_addr e) (leaf_err_mask e);;
         set_global_mask ip e);;
      enable_blocks ip st l
  end.
Definition enable_one ip (e : hw_err_info dev) : hwm dev unit :=
  reg_val ← qdma_reg_read (mask_reg_addr e);
  qdma_reg_write (mask_reg_addr e) (Z.lor reg_val (FIELD_SET (leaf_err_mask e) 1));;
  set_global_mask ip e.

(** The first and the last index of the streaming errors. *)
Definition st_range ip : Z * Z := (hd 0 (ip_st_first ip), List.last (ip_st_all ip) 0).

Definition hw_error_enable ip (dev_hndl : bool) (err_idx : Z) : hwm dev Z :=
  if negb dev_hndl then mret INV_PARAM
  else if ip_errs_all ip <? u32 err_idx then mret INV_PARAM
  else
    dev_cap ← ip_dev_cap ip;
    if u32 err_idx =? ip_errs_all ip then
      enable_blocks ip (st_en dev_cap) (all_hw_errs ip);; mret QDMA_SUCCESS
    else if negb (nz (st_en dev_cap)) && (fst (st_range ip) <=? u32 err_idx) && (u32 err_idx <=? snd (st_range ip))
    then mret QDMA_SUCCESS
    else enable_one ip (err_info ip (u32 err_idx));; mret QDMA_SUCCESS.
End process.
