(* ===== verification/SoftErr.v ===== *)
(** * Errors of the soft IP (qdma_soft_access.c)

    The errors and their table, the registers its handlers print, and the
    functions of [ErrProc] on it. *)

From Stdlib Require Import String.
From S2P Require Import Prelude Platform Bits RegIO IndCtxt SoftReg SoftCtxt SoftAccess RegList ErrProc.

(** ** Registers and fields *)

Definition QDMA_OFFSET_RAM_SBE_STAT : Z := 0xF4.
Definition QDMA_OFFSET_RAM_DBE_STAT : Z := 0xFC.
Definition QDMA_OFFSET_GLBL_DSC_ERR_STS : Z := 0x254.
Definition QDMA_OFFSET_GLBL_DSC_ERR_LOG0 : Z := 0x25C.
Definition QDMA_OFFSET_GLBL_DSC_ERR_LOG1 : Z := 0x260.
Definition QDMA_OFFSET_GLBL_DSC_DBG_DAT0 : Z := 0x270.
Definition QDMA_OFFSET_GLBL_DSC_DBG_DAT1 : Z := 0x274.
Definition QDMA_OFFSET_GLBL_DSC_ERR_LOG2 : Z := 0x27C.
Definition QDMA_OFFSET_GLBL_TRQ_ERR_STS : Z := 0x264.
Definition QDMA_OFFSET_GLBL_TRQ_ERR_LOG : Z := 0x26C.
Definition QDMA_OFFSET_H2C_ERR_STAT : Z := 0xE00.
Definition QDMA_OFFSET_H2C_FIRST_ERR_QID : Z := 0xE08.
Definition QDMA_OFFSET_H2C_DBG_REG0 : Z := 0xE0C.
Definition QDMA_OFFSET_H2C_DBG_REG1 : Z := 0xE10.
Definition QDMA_OFFSET_H2C_DBG_REG2 : Z := 0xE14.
Definition QDMA_OFFSET_H2C_DBG_REG3 : Z := 0xE18.
Definition QDMA_OFFSET_H2C_DBG_REG4 : Z := 0xE1C.
Definition QDMA_OFFSET_C2H_ERR_STAT : Z := 0xAF0.
Definition QDMA_OFFSET_C2H_FATAL_ERR_STAT : Z := 0xAF8.
Definition QDMA_OFFSET_C2H_FIRST_ERR_QID : Z := 0xB30.
Definition QDMA_OFFSET_C2H_STAT_S_AXIS_C2H_ACCEPTED : Z := 0xA88.
Definition QDMA_OFFSET_C2H_STAT_S_AXIS_CMPT_ACCEPTED : Z := 0xA8C.
Definition QDMA_OFFSET_C2H_STAT_DESC_RSP_PKT_ACCEPTED : Z := 0xA90.
Definition QDMA_OFFSET_C2H_STAT_AXIS_PKG_CMP : Z := 0xA94.
Definition QDMA_OFFSET_C2H_STAT_DEBUG_DMA_ENG_0 : Z := 0xB1C.
Definition QDMA_OFFSET_C2H_STAT_DEBUG_DMA_ENG_1 : Z := 0xB20.
Definition QDMA_OFFSET_C2H_STAT_DEBUG_DMA_ENG_2 : Z := 0xB24.
Definition QDMA_OFFSET_C2H_STAT_DEBUG_DMA_ENG_3 : Z := 0xB28.
Definition QDMA_OFFSET_C2H_STAT_DESC_RSP_DROP_ACCEPTED : Z := 0xB10.
Definition QDMA_OFFSET_C2H_STAT_DESC_RSP_ERR_ACCEPTED : Z := 0xB14.
Definition QDMA_OFFSET_GLBL_DSC_ERR_MASK : Z := 0x258.
Definition QDMA_OFFSET_GLBL_DSC_ERR_STAT : Z := 0x254.
Definition QDMA_GLBL_DSC_ERR_POISON_MASK : Z := BIT 0.
Definition QDMA_GLBL_ERR_DSC_MASK : Z := BIT 2.
Definition QDMA_GLBL_DSC_ERR_UR_CA_MASK : Z := BIT 1.
Definition QDMA_GLBL_DSC_ERR_PARAM_MASK : Z := BIT 2.
Definition QDMA_GLBL_DSC_ERR_ADDR_MASK : Z := BIT 3.
Definition QDMA_GLBL_DSC_ERR_TAG_MASK : Z := BIT 4.
Definition QDMA_GLBL_DSC_ERR_FLR_MASK : Z := BIT 5.
Definition QDMA_GLBL_DSC_ERR_TIMEOUT_MASK : Z := BIT 9.
Definition QDMA_GLBL_DSC_ERR_DAT_POISON_MASK : Z := BIT 16.
Definition QDMA_GLBL_DSC_ERR_FLR_CANCEL_MASK : Z := BIT 19.
Definition QDMA_GLBL_DSC_ERR_DMA_MASK : Z := BIT 20.
Definition QDMA_GLBL_DSC_ERR_DSC_MASK : Z := BIT 21.
Definition QDMA_GLBL_DSC_ERR_RQ_CANCEL_MASK : Z := BIT 22.
Definition QDMA_GLBL_DSC_ERR_DBE_MASK : Z := BIT 23.
Definition QDMA_GLBL_DSC_ERR_SBE_MASK : Z := BIT 24.
Definition QDMA_GLBL_DSC_ERR_ALL_MASK : Z := 0x1F9023F.
Definition QDMA_OFFSET_GLBL_TRQ_ERR_MASK : Z := 0x268.
Definition QDMA_OFFSET_GLBL_TRQ_ERR_STAT : Z := 0x264.
Definition QDMA_GLBL_TRQ_ERR_UNMAPPED_MASK : Z := BIT 0.
Definition QDMA_GLBL_ERR_TRQ_MASK : Z := BIT 3.
Definition QDMA_GLBL_TRQ_ERR_QID_RANGE_MASK : Z := BIT 1.
Definition QDMA_GLBL_TRQ_ERR_VF_ACCESS_MASK : Z := BIT 2.
Definition QDMA_GLBL_TRQ_ERR_TCP_TIMEOUT_MASK : Z := BIT 3.
Definition QDMA_GLBL_TRQ_ERR_ALL_MASK : Z := 0xF.
Definition QDMA_OFFSET_C2H_ERR_MASK : Z := 0xAF4.
Definition QDMA_C2H_ERR_MTY_MISMATCH_MASK : Z := BIT 0.
Definition QDMA_GLBL_ERR_ST_C2H_MASK : Z := BIT 8.
Definition QDMA_C2H_ERR_LEN_MISMATCH_MASK : Z := BIT 1.
Definition QDMA_C2H_ERR_QID_MISMATCH_MASK : Z := BIT 3.
Definition QDMA_C2H_ERR_DESC_RSP_ERR_MASK : Z := BIT 4.
Definition QDMA_C2H_ERR_ENG_WPL_DATA_PAR_ERR_MASK : Z := BIT 6.
Definition QDMA_C2H_ERR_MSI_INT_FAIL_MASK : Z := BIT 7.
Definition QDMA_C2H_ERR_ERR_DESC_CNT_MASK : Z := BIT 9.
Definition QDMA_C2H_ERR_PORTID_CTXT_MISMATCH_MASK : Z := BIT 10.
Definition QDMA_C2H_ERR_PORTID_BYP_IN_MISMATCH_MASK : Z := BIT 11.
Definition QDMA_C2H_ERR_CMPT_INV_Q_ERR_MASK : Z := BIT 12.
Definition QDMA_C2H_ERR_CMPT_QFULL_ERR_MASK : Z := BIT 13.
Definition QDMA_C2H_ERR_CMPT_CIDX_ERR_MASK : Z := BIT 14.
Definition QDMA_C2H_ERR_CMPT_PRTY_ERR_MASK : Z := BIT 15.
Definition QDMA_C2H_ERR_ALL_MASK : Z := 0xFEDB.
Definition QDMA_OFFSET_C2H_FATAL_ERR_MASK : Z := 0xAFC.
Definition QDMA_C2H_FATAL_ERR_MTY_MISMATCH_MASK : Z := BIT 0.
Definition QDMA_C2H_FATAL_ERR_LEN_MISMATCH_MASK : Z := BIT 1.
Definition QDMA_C2H_FATAL_ERR_QID_MISMATCH_MASK : Z := BIT 3.
Definition QDMA_C2H_FATAL_ERR_TIMER_FIFO_RAM_RDBE_MASK : Z := BIT 4.
Definition QDMA_C2H_FATAL_ERR_PFCH_II_RAM_RDBE_MASK : Z := BIT 8.
Definition QDMA_C2H_FATAL_ERR_CMPT_CTXT_RAM_RDBE_MASK : Z := BIT 9.
Definition QDMA_C2H_FATAL_ERR_PFCH_CTXT_RAM_RDBE_MASK : Z := BIT 10.
Definition QDMA_C2H_FATAL_ERR_DESC_REQ_FIFO_RAM_RDBE_MASK : Z := BIT 11.
Definition QDMA_C2H_FATAL_ERR_INT_CTXT_RAM_RDBE_MASK : Z := BIT 12.
Definition QDMA_C2H_FATAL_ERR_CMPT_COAL_DATA_RAM_RDBE_MASK : Z := BIT 14.
Definition QDMA_C2H_FATAL_ERR_TUSER_FIFO_RAM_RDBE_MASK : Z := BIT 15.
Definition QDMA_C2H_FATAL_ERR_QID_FIFO_RAM_RDBE_MASK : Z := BIT 16.
Definition QDMA_C2H_FATAL_ERR_PAYLOAD_FIFO_RAM_RDBE_MASK : Z := BIT 17.
Definition QDMA_C2H_FATAL_ERR_WPL_DATA_PAR_MASK : Z := BIT 18.
Definition QDMA_C2H_FATAL_ERR_ALL_MASK : Z := 0x7DF1B.
Definition QDMA_OFFSET_H2C_ERR_MASK : Z := 0xE04.
Definition QDMA_H2C_ERR_ZERO_LEN_DESC_MASK : Z := BIT 0.
Definition QDMA_GLBL_ERR_ST_H2C_MASK : Z := BIT 11.
Definition QDMA_H2C_ERR_CSI_MOP_MASK : Z := BIT 1.
Definition QDMA_H2C_ERR_NO_DMA_DSC_MASK : Z := BIT 2.
Definition QDMA_H2C_ERR_SBE_MASK : Z := BIT 3.
Definition QDMA_H2C_ERR_DBE_MASK : Z := BIT 4.
Definition QDMA_H2C_ERR_ALL_MASK : Z := 0x1F.
Definition QDMA_OFFSET_RAM_SBE_MASK : Z := 0xF0.
Definition QDMA_SBE_ERR_MI_H2C0_DAT_MASK : Z := BIT 0.
Definition QDMA_GLBL_ERR_RAM_SBE_MASK : Z := BIT 0.
Definition QDMA_SBE_ERR_MI_C2H0_DAT_MASK : Z := BIT 4.
Definition QDMA_SBE_ERR_H2C_RD_BRG_DAT_MASK : Z := BIT 9.
Definition QDMA_SBE_ERR_H2C_WR_BRG_DAT_MASK : Z := BIT 10.
Definition QDMA_SBE_ERR_C2H_RD_BRG_DAT_MASK : Z := BIT 11.
Definition QDMA_SBE_ERR_C2H_WR_BRG_DAT_MASK : Z := BIT 12.
Definition QDMA_SBE_ERR_FUNC_MAP_MASK : Z := BIT 13.
Definition QDMA_SBE_ERR_DSC_HW_CTXT_MASK : Z := BIT 14.
Definition QDMA_SBE_ERR_DSC_CRD_RCV_MASK : Z := BIT 15.
Definition QDMA_SBE_ERR_DSC_SW_CTXT_MASK : Z := BIT 16.
Definition QDMA_SBE_ERR_DSC_CPLI_MASK : Z := BIT 17.
Definition QDMA_SBE_ERR_DSC_CPLD_MASK : Z := BIT 18.
Definition QDMA_SBE_ERR_PASID_CTXT_RAM_MASK : Z := BIT 19.
Definition QDMA_SBE_ERR_TIMER_FIFO_RAM_MASK : Z := BIT 20.
Definition QDMA_SBE_ERR_PAYLOAD_FIFO_RAM_MASK : Z := BIT 21.
Definition QDMA_SBE_ERR_QID_FIFO_RAM_MASK : Z := BIT 22.
Definition QDMA_SBE_ERR_TUSER_FIFO_RAM_MASK : Z := BIT 23.
Definition QDMA_SBE_ERR_WRB_COAL_DATA_RAM_MASK : Z := BIT 24.
Definition QDMA_SBE_ERR_INT_QID2VEC_RAM_MASK : Z := BIT 25.
Definition QDMA_SBE_ERR_INT_CTXT_RAM_MASK : Z := BIT 26.
Definition QDMA_SBE_ERR_DESC_REQ_FIFO_RAM_MASK : Z := BIT 27.
Definition QDMA_SBE_ERR_PFCH_CTXT_RAM_MASK : Z := BIT 28.
Definition QDMA_SBE_ERR_WRB_CTXT_RAM_MASK : Z := BIT 29.
Definition QDMA_SBE_ERR_PFCH_LL_RAM_MASK : Z := BIT 30.
Definition QDMA_SBE_ERR_H2C_PEND_FIFO_MASK : Z := BIT 31.
Definition QDMA_SBE_ERR_ALL_MASK : Z := 0xFFFFFF11.
Definition QDMA_OFFSET_RAM_DBE_MASK : Z := 0xF8.
Definition QDMA_DBE_ERR_MI_H2C0_DAT_MASK : Z := BIT 0.
Definition QDMA_GLBL_ERR_RAM_DBE_MASK : Z := BIT 1.
Definition QDMA_DBE_ERR_MI_C2H0_DAT_MASK : Z := BIT 4.
Definition QDMA_DBE_ERR_H2C_RD_BRG_DAT_MASK : Z := BIT 9.
Definition QDMA_DBE_ERR_H2C_WR_BRG_DAT_MASK : Z := BIT 10.
Definition QDMA_DBE_ERR_C2H_RD_BRG_DAT_MASK : Z := BIT 11.
Definition QDMA_DBE_ERR_C2H_WR_BRG_DAT_MASK : Z := BIT 12.
Definition QDMA_DBE_ERR_FUNC_MAP_MASK : Z := BIT 13.
Definition QDMA_DBE_ERR_DSC_HW_CTXT_MASK : Z := BIT 14.
Definition QDMA_DBE_ERR_DSC_CRD_RCV_MASK : Z := BIT 15.
Definition QDMA_DBE_ERR_DSC_SW_CTXT_MASK : Z := BIT 16.
Definition QDMA_DBE_ERR_DSC_CPLI_MASK : Z := BIT 17.
Definition QDMA_DBE_ERR_DSC_CPLD_MASK : Z := BIT 18.
Definition QDMA_DBE_ERR_PASID_CTXT_RAM_MASK : Z := BIT 19.
Definition QDMA_DBE_ERR_TIMER_FIFO_RAM_MASK : Z := BIT 20.
Definition QDMA_DBE_ERR_PAYLOAD_FIFO_RAM_MASK : Z := BIT 21.
Definition QDMA_DBE_ERR_QID_FIFO_RAM_MASK : Z := BIT 22.
Definition QDMA_DBE_ERR_TUSER_FIFO_RAM_MASK : Z := BIT 23.
Definition QDMA_DBE_ERR_WRB_COAL_DATA_RAM_MASK : Z := BIT 24.
Definition QDMA_DBE_ERR_INT_QID2VEC_RAM_MASK : Z := BIT 25.
Definition QDMA_DBE_ERR_INT_CTXT_RAM_MASK : Z := BIT 26.
Definition QDMA_DBE_ERR_DESC_REQ_FIFO_RAM_MASK : Z := BIT 27.
Definition QDMA_DBE_ERR_PFCH_CTXT_RAM_MASK : Z := BIT 28.
Definition QDMA_DBE_ERR_WRB_CTXT_RAM_MASK : Z := BIT 29.
Definition QDMA_DBE_ERR_PFCH_LL_RAM_MASK : Z := BIT 30.
Definition QDMA_DBE_ERR_H2C_PEND_FIFO_MASK : Z := BIT 31.
Definition QDMA_DBE_ERR_ALL_MASK : Z := 0xFFFFFF11.
Definition QDMA_OFFSET_GLBL_ERR_STAT : Z := 0x248.
Definition QDMA_OFFSET_GLBL_ERR_MASK : Z := 0x24C.

(** ** The errors *)

(** [enum qdma_error_idx] *)
Inductive qdma_error_idx :=
  | QDMA_DSC_ERR_POISON | QDMA_DSC_ERR_UR_CA | QDMA_DSC_ERR_PARAM | QDMA_DSC_ERR_ADDR | QDMA_DSC_ERR_TAG
  | QDMA_DSC_ERR_FLR | QDMA_DSC_ERR_TIMEOUT | QDMA_DSC_ERR_DAT_POISON | QDMA_DSC_ERR_FLR_CANCEL | QDMA_DSC_ERR_DMA
  | QDMA_DSC_ERR_DSC | QDMA_DSC_ERR_RQ_CANCEL | QDMA_DSC_ERR_DBE | QDMA_DSC_ERR_SBE | QDMA_DSC_ERR_ALL
  | QDMA_TRQ_ERR_UNMAPPED | QDMA_TRQ_ERR_QID_RANGE | QDMA_TRQ_ERR_VF_ACCESS | QDMA_TRQ_ERR_TCP_TIMEOUT
  | QDMA_TRQ_ERR_ALL | QDMA_ST_C2H_ERR_MTY_MISMATCH | QDMA_ST_C2H_ERR_LEN_MISMATCH | QDMA_ST_C2H_ERR_QID_MISMATCH
  | QDMA_ST_C2H_ERR_DESC_RSP_ERR | QDMA_ST_C2H_ERR_ENG_WPL_DATA_PAR_ERR | QDMA_ST_C2H_ERR_MSI_INT_FAIL
  | QDMA_ST_C2H_ERR_ERR_DESC_CNT | QDMA_ST_C2H_ERR_PORTID_CTXT_MISMATCH | QDMA_ST_C2H_ERR_PORTID_BYP_IN_MISMATCH
  | QDMA_ST_C2H_ERR_CMPT_INV_Q_ERR | QDMA_ST_C2H_ERR_CMPT_QFULL_ERR | QDMA_ST_C2H_ERR_CMPT_CIDX_ERR
  | QDMA_ST_C2H_ERR_CMPT_PRTY_ERR | QDMA_ST_C2H_ERR_ALL | QDMA_ST_FATAL_ERR_MTY_MISMATCH
  | QDMA_ST_FATAL_ERR_LEN_MISMATCH | QDMA_ST_FATAL_ERR_QID_MISMATCH | QDMA_ST_FATAL_ERR_TIMER_FIFO_RAM_RDBE
  | QDMA_ST_FATAL_ERR_PFCH_II_RAM_RDBE | QDMA_ST_FATAL_ERR_CMPT_CTXT_RAM_RDBE | QDMA_ST_FATAL_ERR_PFCH_CTXT_RAM_RDBE
  | QDMA_ST_FATAL_ERR_DESC_REQ_FIFO_RAM_RDBE | QDMA_ST_FATAL_ERR_INT_CTXT_RAM_RDBE
  | QDMA_ST_FATAL_ERR_CMPT_COAL_DATA_RAM_RDBE | QDMA_ST_FATAL_ERR_TUSER_FIFO_RAM_RDBE
  | QDMA_ST_FATAL_ERR_QID_FIFO_RAM_RDBE | QDMA_ST_FATAL_ERR_PAYLOAD_FIFO_RAM_RDBE | QDMA_ST_FATAL_ERR_WPL_DATA_PAR
  | QDMA_ST_FATAL_ERR_ALL | QDMA_ST_H2C_ERR_ZERO_LEN_DESC | QDMA_ST_H2C_ERR_CSI_MOP | QDMA_ST_H2C_ERR_NO_DMA_DSC
  | QDMA_ST_H2C_ERR_SBE | QDMA_ST_H2C_ERR_DBE | QDMA_ST_H2C_ERR_ALL | QDMA_SBE_ERR_MI_H2C0_DAT
  | QDMA_SBE_ERR_MI_C2H0_DAT | QDMA_SBE_ERR_H2C_RD_BRG_DAT | QDMA_SBE_ERR_H2C_WR_BRG_DAT
  | QDMA_SBE_ERR_C2H_RD_BRG_DAT | QDMA_SBE_ERR_C2H_WR_BRG_DAT | QDMA_SBE_ERR_FUNC_MAP | QDMA_SBE_ERR_DSC_HW_CTXT
  | QDMA_SBE_ERR_DSC_CRD_RCV | QDMA_SBE_ERR_DSC_SW_CTXT | QDMA_SBE_ERR_DSC_CPLI | QDMA_SBE_ERR_DSC_CPLD
  | QDMA_SBE_ERR_PASID_CTXT_RAM | QDMA_SBE_ERR_TIMER_FIFO_RAM | QDMA_SBE_ERR_PAYLOAD_FIFO_RAM
  | QDMA_SBE_ERR_QID_FIFO_RAM | QDMA_SBE_ERR_TUSER_FIFO_RAM | QDMA_SBE_ERR_WRB_COAL_DATA_RAM
  | QDMA_SBE_ERR_INT_QID2VEC_RAM | QDMA_SBE_ERR_INT_CTXT_RAM | QDMA_SBE_ERR_DESC_REQ_FIFO_RAM
  | QDMA_SBE_ERR_PFCH_CTXT_RAM | QDMA_SBE_ERR_WRB_CTXT_RAM | QDMA_SBE_ERR_PFCH_LL_RAM | QDMA_SBE_ERR_H2C_PEND_FIFO
  | QDMA_SBE_ERR_ALL | QDMA_DBE_ERR_MI_H2C0_DAT | QDMA_DBE_ERR_MI_C2H0_DAT | QDMA_DBE_ERR_H2C_RD_BRG_DAT
  | QDMA_DBE_ERR_H2C_WR_BRG_DAT | QDMA_DBE_ERR_C2H_RD_BRG_DAT | QDMA_DBE_ERR_C2H_WR_BRG_DAT | QDMA_DBE_ERR_FUNC_MAP
  | QDMA_DBE_ERR_DSC_HW_CTXT | QDMA_DBE_ERR_DSC_CRD_RCV | QDMA_DBE_ERR_DSC_SW_CTXT | QDMA_DBE_ERR_DSC_CPLI
  | QDMA_DBE_ERR_DSC_CPLD | QDMA_DBE_ERR_PASID_CTXT_RAM | QDMA_DBE_ERR_TIMER_FIFO_RAM | QDMA_DBE_ERR_PAYLOAD_FIFO_RAM
  | QDMA_DBE_ERR_QID_FIFO_RAM | QDMA_DBE_ERR_TUSER_FIFO_RAM | QDMA_DBE_ERR_WRB_COAL_DATA_RAM
  | QDMA_DBE_ERR_INT_QID2VEC_RAM | QDMA_DBE_ERR_INT_CTXT_RAM | QDMA_DBE_ERR_DESC_REQ_FIFO_RAM
  | QDMA_DBE_ERR_PFCH_CTXT_RAM | QDMA_DBE_ERR_WRB_CTXT_RAM | QDMA_DBE_ERR_PFCH_LL_RAM | QDMA_DBE_ERR_H2C_PEND_FIFO
  | QDMA_DBE_ERR_ALL | QDMA_ERRS_ALL.
Definition qdma_error_idx_val (e : qdma_error_idx) : Z :=
  match e with
  | QDMA_DSC_ERR_POISON => 0 | QDMA_DSC_ERR_UR_CA => 1 | QDMA_DSC_ERR_PARAM => 2 | QDMA_DSC_ERR_ADDR => 3
  | QDMA_DSC_ERR_TAG => 4 | QDMA_DSC_ERR_FLR => 5 | QDMA_DSC_ERR_TIMEOUT => 6 | QDMA_DSC_ERR_DAT_POISON => 7
  | QDMA_DSC_ERR_FLR_CANCEL => 8 | QDMA_DSC_ERR_DMA => 9 | QDMA_DSC_ERR_DSC => 10 | QDMA_DSC_ERR_RQ_CANCEL => 11
  | QDMA_DSC_ERR_DBE => 12 | QDMA_DSC_ERR_SBE => 13 | QDMA_DSC_ERR_ALL => 14 | QDMA_TRQ_ERR_UNMAPPED => 15
  | QDMA_TRQ_ERR_QID_RANGE => 16 | QDMA_TRQ_ERR_VF_ACCESS => 17 | QDMA_TRQ_ERR_TCP_TIMEOUT => 18
  | QDMA_TRQ_ERR_ALL => 19 | QDMA_ST_C2H_ERR_MTY_MISMATCH => 20 | QDMA_ST_C2H_ERR_LEN_MISMATCH => 21
  | QDMA_ST_C2H_ERR_QID_MISMATCH => 22 | QDMA_ST_C2H_ERR_DESC_RSP_ERR => 23
  | QDMA_ST_C2H_ERR_ENG_WPL_DATA_PAR_ERR => 24 | QDMA_ST_C2H_ERR_MSI_INT_FAIL => 25
  | QDMA_ST_C2H_ERR_ERR_DESC_CNT => 26 | QDMA_ST_C2H_ERR_PORTID_CTXT_MISMATCH => 27
  | QDMA_ST_C2H_ERR_PORTID_BYP_IN_MISMATCH => 28 | QDMA_ST_C2H_ERR_CMPT_INV_Q_ERR => 29
  | QDMA_ST_C2H_ERR_CMPT_QFULL_ERR => 30 | QDMA_ST_C2H_ERR_CMPT_CIDX_ERR => 31 | QDMA_ST_C2H_ERR_CMPT_PRTY_ERR => 32
  | QDMA_ST_C2H_ERR_ALL => 33 | QDMA_ST_FATAL_ERR_MTY_MISMATCH => 34 | QDMA_ST_FATAL_ERR_LEN_MISMATCH => 35
  | QDMA_ST_FATAL_ERR_QID_MISMATCH => 36 | QDMA_ST_FATAL_ERR_TIMER_FIFO_RAM_RDBE => 37
  | QDMA_ST_FATAL_ERR_PFCH_II_RAM_RDBE => 38 | QDMA_ST_FATAL_ERR_CMPT_CTXT_RAM_RDBE => 39
  | QDMA_ST_FATAL_ERR_PFCH_CTXT_RAM_RDBE => 40 | QDMA_ST_FATAL_ERR_DESC_REQ_FIFO_RAM_RDBE => 41
  | QDMA_ST_FATAL_ERR_INT_CTXT_RAM_RDBE => 42 | QDMA_ST_FATAL_ERR_CMPT_COAL_DATA_RAM_RDBE => 43
  | QDMA_ST_FATAL_ERR_TUSER_FIFO_RAM_RDBE => 44 | QDMA_ST_FATAL_ERR_QID_FIFO_RAM_RDBE => 45
  | QDMA_ST_FATAL_ERR_PAYLOAD_FIFO_RAM_RDBE => 46 | QDMA_ST_FATAL_ERR_WPL_DATA_PAR => 47
  | QDMA_ST_FATAL_ERR_ALL => 48 | QDMA_ST_H2C_ERR_ZERO_LEN_DESC => 49 | QDMA_ST_H2C_ERR_CSI_MOP => 50
  | QDMA_ST_H2C_ERR_NO_DMA_DSC => 51 | QDMA_ST_H2C_ERR_SBE => 52 | QDMA_ST_H2C_ERR_DBE => 53
  | QDMA_ST_H2C_ERR_ALL => 54 | QDMA_SBE_ERR_MI_H2C0_DAT => 55 | QDMA_SBE_ERR_MI_C2H0_DAT => 56
  | QDMA_SBE_ERR_H2C_RD_BRG_DAT => 57 | QDMA_SBE_ERR_H2C_WR_BRG_DAT => 58 | QDMA_SBE_ERR_C2H_RD_BRG_DAT => 59
  | QDMA_SBE_ERR_C2H_WR_BRG_DAT => 60 | QDMA_SBE_ERR_FUNC_MAP => 61 | QDMA_SBE_ERR_DSC_HW_CTXT => 62
  | QDMA_SBE_ERR_DSC_CRD_RCV => 63 | QDMA_SBE_ERR_DSC_SW_CTXT => 64 | QDMA_SBE_ERR_DSC_CPLI => 65
  | QDMA_SBE_ERR_DSC_CPLD => 66 | QDMA_SBE_ERR_PASID_CTXT_RAM => 67 | QDMA_SBE_ERR_TIMER_FIFO_RAM => 68
  | QDMA_SBE_ERR_PAYLOAD_FIFO_RAM => 69 | QDMA_SBE_ERR_QID_FIFO_RAM => 70 | QDMA_SBE_ERR_TUSER_FIFO_RAM => 71
  | QDMA_SBE_ERR_WRB_COAL_DATA_RAM => 72 | QDMA_SBE_ERR_INT_QID2VEC_RAM => 73 | QDMA_SBE_ERR_INT_CTXT_RAM => 74
  | QDMA_SBE_ERR_DESC_REQ_FIFO_RAM => 75 | QDMA_SBE_ERR_PFCH_CTXT_RAM => 76 | QDMA_SBE_ERR_WRB_CTXT_RAM => 77
  | QDMA_SBE_ERR_PFCH_LL_RAM => 78 | QDMA_SBE_ERR_H2C_PEND_FIFO => 79 | QDMA_SBE_ERR_ALL => 80
  | QDMA_DBE_ERR_MI_H2C0_DAT => 81 | QDMA_DBE_ERR_MI_C2H0_DAT => 82 | QDMA_DBE_ERR_H2C_RD_BRG_DAT => 83
  | QDMA_DBE_ERR_H2C_WR_BRG_DAT => 84 | QDMA_DBE_ERR_C2H_RD_BRG_DAT => 85 | QDMA_DBE_ERR_C2H_WR_BRG_DAT => 86
  | QDMA_DBE_ERR_FUNC_MAP => 87 | QDMA_DBE_ERR_DSC_HW_CTXT => 88 | QDMA_DBE_ERR_DSC_CRD_RCV => 89
  | QDMA_DBE_ERR_DSC_SW_CTXT => 90 | QDMA_DBE_ERR_DSC_CPLI => 91 | QDMA_DBE_ERR_DSC_CPLD => 92
  | QDMA_DBE_ERR_PASID_CTXT_RAM => 93 | QDMA_DBE_ERR_TIMER_FIFO_RAM => 94 | QDMA_DBE_ERR_PAYLOAD_FIFO_RAM => 95
  | QDMA_DBE_ERR_QID_FIFO_RAM => 96 | QDMA_DBE_ERR_TUSER_FIFO_RAM => 97 | QDMA_DBE_ERR_WRB_COAL_DATA_RAM => 98
  | QDMA_DBE_ERR_INT_QID2VEC_RAM => 99 | QDMA_DBE_ERR_INT_CTXT_RAM => 100 | QDMA_DBE_ERR_DESC_REQ_FIFO_RAM => 101
  | QDMA_DBE_ERR_PFCH_CTXT_RAM => 102 | QDMA_DBE_ERR_WRB_CTXT_RAM => 103 | QDMA_DBE_ERR_PFCH_LL_RAM => 104
  | QDMA_DBE_ERR_H2C_PEND_FIFO => 105 | QDMA_DBE_ERR_ALL => 106 | QDMA_ERRS_ALL => 107
  end.
Coercion qdma_error_idx_val : qdma_error_idx >-> Z.

Section ip.
Context {dev : Type} `{Device dev}.

Definition qdma_dump_reg_info (reg_addr : Z) : hwm dev Z := dump_reg_info (xr_addr <$> qdma_config_regs) reg_addr.
Definition soft_dump_regs (reg_list : list Z) : hwm dev unit := dump_regs qdma_dump_reg_info reg_list.


(** What the handlers of the blocks read. *)
Definition qdma_hw_ram_sbe_err_process : hwm dev unit :=
  soft_dump_regs [QDMA_OFFSET_RAM_SBE_STAT].
Definition qdma_hw_ram_dbe_err_process : hwm dev unit :=
  soft_dump_regs [QDMA_OFFSET_RAM_DBE_STAT].
Definition qdma_hw_desc_err_process : hwm dev unit :=
  soft_dump_regs [QDMA_OFFSET_GLBL_DSC_ERR_STS; QDMA_OFFSET_GLBL_DSC_ERR_LOG0; QDMA_OFFSET_GLBL_DSC_ERR_LOG1;
    QDMA_OFFSET_GLBL_DSC_DBG_DAT0; QDMA_OFFSET_GLBL_DSC_DBG_DAT1; QDMA_OFFSET_GLBL_DSC_ERR_LOG2].
Definition qdma_hw_trq_err_process : hwm dev unit :=
  soft_dump_regs [QDMA_OFFSET_GLBL_TRQ_ERR_STS; QDMA_OFFSET_GLBL_TRQ_ERR_LOG].
Definition qdma_hw_st_h2c_err_process : hwm dev unit :=
  soft_dump_regs [QDMA_OFFSET_H2C_ERR_STAT; QDMA_OFFSET_H2C_FIRST_ERR_QID; QDMA_OFFSET_H2C_DBG_REG0; QDMA_OFFSET_H2C_DBG_REG1;
    QDMA_OFFSET_H2C_DBG_REG2; QDMA_OFFSET_H2C_DBG_REG3; QDMA_OFFSET_H2C_DBG_REG4].
Definition qdma_hw_st_c2h_err_process : hwm dev unit :=
  soft_dump_regs [QDMA_OFFSET_C2H_ERR_STAT; QDMA_OFFSET_C2H_FATAL_ERR_STAT; QDMA_OFFSET_C2H_FIRST_ERR_QID;
    QDMA_OFFSET_C2H_STAT_S_AXIS_C2H_ACCEPTED; QDMA_OFFSET_C2H_STAT_S_AXIS_CMPT_ACCEPTED;
    QDMA_OFFSET_C2H_STAT_DESC_RSP_PKT_ACCEPTED; QDMA_OFFSET_C2H_STAT_AXIS_PKG_CMP;
    QDMA_OFFSET_C2H_STAT_DEBUG_DMA_ENG_0; QDMA_OFFSET_C2H_STAT_DEBUG_DMA_ENG_1; QDMA_OFFSET_C2H_STAT_DEBUG_DMA_ENG_2;
    QDMA_OFFSET_C2H_STAT_DEBUG_DMA_ENG_3; QDMA_OFFSET_C2H_STAT_DESC_RSP_DROP_ACCEPTED;
    QDMA_OFFSET_C2H_STAT_DESC_RSP_ERR_ACCEPTED].

(** The table, block by block. *)
Definition soft_dsc_err_info : list (hw_err_info dev) :=
  [
    mk_err QDMA_DSC_ERR_POISON "Poison error"
      QDMA_OFFSET_GLBL_DSC_ERR_MASK QDMA_OFFSET_GLBL_DSC_ERR_STAT QDMA_GLBL_DSC_ERR_POISON_MASK QDMA_GLBL_ERR_DSC_MASK qdma_hw_desc_err_process;
    mk_err QDMA_DSC_ERR_UR_CA "Unsupported request or completer aborted error"
      QDMA_OFFSET_GLBL_DSC_ERR_MASK QDMA_OFFSET_GLBL_DSC_ERR_STAT QDMA_GLBL_DSC_ERR_UR_CA_MASK QDMA_GLBL_ERR_DSC_MASK qdma_hw_desc_err_process;
    mk_err QDMA_DSC_ERR_PARAM "Parameter mismatch error"
      QDMA_OFFSET_GLBL_DSC_ERR_MASK QDMA_OFFSET_GLBL_DSC_ERR_STAT QDMA_GLBL_DSC_ERR_PARAM_MASK QDMA_GLBL_ERR_DSC_MASK qdma_hw_desc_err_process;
    mk_err QDMA_DSC_ERR_ADDR "Address mismatch error"
      QDMA_OFFSET_GLBL_DSC_ERR_MASK QDMA_OFFSET_GLBL_DSC_ERR_STAT QDMA_GLBL_DSC_ERR_ADDR_MASK QDMA_GLBL_ERR_DSC_MASK qdma_hw_desc_err_process;
    mk_err QDMA_DSC_ERR_TAG "Unexpected tag error"
      QDMA_OFFSET_GLBL_DSC_ERR_MASK QDMA_OFFSET_GLBL_DSC_ERR_STAT QDMA_GLBL_DSC_ERR_TAG_MASK QDMA_GLBL_ERR_DSC_MASK qdma_hw_desc_err_process;
    mk_err QDMA_DSC_ERR_FLR "FLR error"
      QDMA_OFFSET_GLBL_DSC_ERR_MASK QDMA_OFFSET_GLBL_DSC_ERR_STAT QDMA_GLBL_DSC_ERR_FLR_MASK QDMA_GLBL_ERR_DSC_MASK qdma_hw_desc_err_process;
    mk_err QDMA_DSC_ERR_TIMEOUT "Timed out error"
      QDMA_OFFSET_GLBL_DSC_ERR_MASK QDMA_OFFSET_GLBL_DSC_ERR_STAT QDMA_GLBL_DSC_ERR_TIMEOUT_MASK QDMA_GLBL_ERR_DSC_MASK qdma_hw_desc_err_process;
    mk_err QDMA_DSC_ERR_DAT_POISON "Poison data error"
      QDMA_OFFSET_GLBL_DSC_ERR_MASK QDMA_OFFSET_GLBL_DSC_ERR_STAT QDMA_GLBL_DSC_ERR_DAT_POISON_MASK QDMA_GLBL_ERR_DSC_MASK qdma_hw_desc_err_process;
    mk_err QDMA_DSC_ERR_FLR_CANCEL "Descriptor fetch cancelled due to FLR error"
      QDMA_OFFSET_GLBL_DSC_ERR_MASK QDMA_OFFSET_GLBL_DSC_ERR_STAT QDMA_GLBL_DSC_ERR_FLR_CANCEL_MASK QDMA_GLBL_ERR_DSC_MASK qdma_hw_desc_err_process;
    mk_err QDMA_DSC_ERR_DMA "DMA engine error"
      QDMA_OFFSET_GLBL_DSC_ERR_MASK QDMA_OFFSET_GLBL_DSC_ERR_STAT QDMA_GLBL_DSC_ERR_DMA_MASK QDMA_GLBL_ERR_DSC_MASK qdma_hw_desc_err_process;
    mk_err QDMA_DSC_ERR_DSC "Invalid PIDX update error"
      QDMA_OFFSET_GLBL_DSC_ERR_MASK QDMA_OFFSET_GLBL_DSC_ERR_STAT QDMA_GLBL_DSC_ERR_DSC_MASK QDMA_GLBL_ERR_DSC_MASK qdma_hw_desc_err_process;
    mk_err QDMA_DSC_ERR_RQ_CANCEL "Descriptor fetch cancelled due to disable register status error"
      QDMA_OFFSET_GLBL_DSC_ERR_MASK QDMA_OFFSET_GLBL_DSC_ERR_STAT QDMA_GLBL_DSC_ERR_RQ_CANCEL_MASK QDMA_GLBL_ERR_DSC_MASK qdma_hw_desc_err_process;
    mk_err QDMA_DSC_ERR_DBE "UNC_ERR_RAM_DBE error"
      QDMA_OFFSET_GLBL_DSC_ERR_MASK QDMA_OFFSET_GLBL_DSC_ERR_STAT QDMA_GLBL_DSC_ERR_DBE_MASK QDMA_GLBL_ERR_DSC_MASK qdma_hw_desc_err_process;
    mk_err QDMA_DSC_ERR_SBE "UNC_ERR_RAM_SBE error"
      QDMA_OFFSET_GLBL_DSC_ERR_MASK QDMA_OFFSET_GLBL_DSC_ERR_STAT QDMA_GLBL_DSC_ERR_SBE_MASK QDMA_GLBL_ERR_DSC_MASK qdma_hw_desc_err_process;
    mk_err QDMA_DSC_ERR_ALL "All Descriptor errors"
      QDMA_OFFSET_GLBL_DSC_ERR_MASK QDMA_OFFSET_GLBL_DSC_ERR_STAT QDMA_GLBL_DSC_ERR_ALL_MASK QDMA_GLBL_ERR_DSC_MASK qdma_hw_desc_err_process
  ].
Definition soft_trq_err_info : list (hw_err_info dev) :=
  [
    mk_err QDMA_TRQ_ERR_UNMAPPED "Access targeted unmapped register space error"
      QDMA_OFFSET_GLBL_TRQ_ERR_MASK QDMA_OFFSET_GLBL_TRQ_ERR_STAT QDMA_GLBL_TRQ_ERR_UNMAPPED_MASK QDMA_GLBL_ERR_TRQ_MASK qdma_hw_trq_err_process;
    mk_err QDMA_TRQ_ERR_QID_RANGE "Qid range error"
      QDMA_OFFSET_GLBL_TRQ_ERR_MASK QDMA_OFFSET_GLBL_TRQ_ERR_STAT QDMA_GLBL_TRQ_ERR_QID_RANGE_MASK QDMA_GLBL_ERR_TRQ_MASK qdma_hw_trq_err_process;
    mk_err QDMA_TRQ_ERR_VF_ACCESS "Invalid VF access error"
      QDMA_OFFSET_GLBL_TRQ_ERR_MASK QDMA_OFFSET_GLBL_TRQ_ERR_STAT QDMA_GLBL_TRQ_ERR_VF_ACCESS_MASK QDMA_GLBL_ERR_TRQ_MASK qdma_hw_trq_err_process;
    mk_err QDMA_TRQ_ERR_TCP_TIMEOUT "Timeout on request error"
      QDMA_OFFSET_GLBL_TRQ_ERR_MASK QDMA_OFFSET_GLBL_TRQ_ERR_STAT QDMA_GLBL_TRQ_ERR_TCP_TIMEOUT_MASK QDMA_GLBL_ERR_TRQ_MASK qdma_hw_trq_err_process;
    mk_err QDMA_TRQ_ERR_ALL "All TRQ errors"
      QDMA_OFFSET_GLBL_TRQ_ERR_MASK QDMA_OFFSET_GLBL_TRQ_ERR_STAT QDMA_GLBL_TRQ_ERR_ALL_MASK QDMA_GLBL_ERR_TRQ_MASK qdma_hw_trq_err_process
  ].
Definition soft_st_c2h_err_info : list (hw_err_info dev) :=
  [
    mk_err QDMA_ST_C2H_ERR_MTY_MISMATCH "MTY mismatch error"
      QDMA_OFFSET_C2H_ERR_MASK QDMA_OFFSET_C2H_ERR_STAT QDMA_C2H_ERR_MTY_MISMATCH_MASK QDMA_GLBL_ERR_ST_C2H_MASK qdma_hw_st_c2h_err_process;
    mk_err QDMA_ST_C2H_ERR_LEN_MISMATCH "Packet length mismatch error"
      QDMA_OFFSET_C2H_ERR_MASK QDMA_OFFSET_C2H_ERR_STAT QDMA_C2H_ERR_LEN_MISMATCH_MASK QDMA_GLBL_ERR_ST_C2H_MASK qdma_hw_st_c2h_err_process;
    mk_err QDMA_ST_C2H_ERR_QID_MISMATCH "Qid mismatch error"
      QDMA_OFFSET_C2H_ERR_MASK QDMA_OFFSET_C2H_ERR_STAT QDMA_C2H_ERR_QID_MISMATCH_MASK QDMA_GLBL_ERR_ST_C2H_MASK qdma_hw_st_c2h_err_process;
    mk_err QDMA_ST_C2H_ERR_DESC_RSP_ERR "Descriptor error bit set"
      QDMA_OFFSET_C2H_ERR_MASK QDMA_OFFSET_C2H_ERR_STAT QDMA_C2H_ERR_DESC_RSP_ERR_MASK QDMA_GLBL_ERR_ST_C2H_MASK qdma_hw_st_c2h_err_process;
    mk_err QDMA_ST_C2H_ERR_ENG_WPL_DATA_PAR_ERR "Data parity error"
      QDMA_OFFSET_C2H_ERR_MASK QDMA_OFFSET_C2H_ERR_STAT QDMA_C2H_ERR_ENG_WPL_DATA_PAR_ERR_MASK QDMA_GLBL_ERR_ST_C2H_MASK qdma_hw_st_c2h_err_process;
    mk_err QDMA_ST_C2H_ERR_MSI_INT_FAIL "MSI got a fail response error"
      QDMA_OFFSET_C2H_ERR_MASK QDMA_OFFSET_C2H_ERR_STAT QDMA_C2H_ERR_MSI_INT_FAIL_MASK QDMA_GLBL_ERR_ST_C2H_MASK qdma_hw_st_c2h_err_process;
    mk_err QDMA_ST_C2H_ERR_ERR_DESC_CNT "Descriptor count error"
      QDMA_OFFSET_C2H_ERR_MASK QDMA_OFFSET_C2H_ERR_STAT QDMA_C2H_ERR_ERR_DESC_CNT_MASK QDMA_GLBL_ERR_ST_C2H_MASK qdma_hw_st_c2h_err_process;
    mk_err QDMA_ST_C2H_ERR_PORTID_CTXT_MISMATCH "Port id in packet and pfetch ctxt mismatch error"
      QDMA_OFFSET_C2H_ERR_MASK QDMA_OFFSET_C2H_ERR_STAT QDMA_C2H_ERR_PORTID_CTXT_MISMATCH_MASK QDMA_GLBL_ERR_ST_C2H_MASK qdma_hw_st_c2h_err_process;
    mk_err QDMA_ST_C2H_ERR_PORTID_BYP_IN_MISMATCH "Port id in packet and bypass interface mismatch error"
      QDMA_OFFSET_C2H_ERR_MASK QDMA_OFFSET_C2H_ERR_STAT QDMA_C2H_ERR_PORTID_BYP_IN_MISMATCH_MASK QDMA_GLBL_ERR_ST_C2H_MASK qdma_hw_st_c2h_err_process;
    mk_err QDMA_ST_C2H_ERR_CMPT_INV_Q_ERR "Writeback on invalid queue error"
      QDMA_OFFSET_C2H_ERR_MASK QDMA_OFFSET_C2H_ERR_STAT QDMA_C2H_ERR_CMPT_INV_Q_ERR_MASK QDMA_GLBL_ERR_ST_C2H_MASK qdma_hw_st_c2h_err_process;
    mk_err QDMA_ST_C2H_ERR_CMPT_QFULL_ERR "Completion queue gets full error"
      QDMA_OFFSET_C2H_ERR_MASK QDMA_OFFSET_C2H_ERR_STAT QDMA_C2H_ERR_CMPT_QFULL_ERR_MASK QDMA_GLBL_ERR_ST_C2H_MASK qdma_hw_st_c2h_err_process;
    mk_err QDMA_ST_C2H_ERR_CMPT_CIDX_ERR "Bad CIDX update by the software error"
      QDMA_OFFSET_C2H_ERR_MASK QDMA_OFFSET_C2H_ERR_STAT QDMA_C2H_ERR_CMPT_CIDX_ERR_MASK QDMA_GLBL_ERR_ST_C2H_MASK qdma_hw_st_c2h_err_process;
    mk_err QDMA_ST_C2H_ERR_CMPT_PRTY_ERR "C2H completion Parity error"
      QDMA_OFFSET_C2H_ERR_MASK QDMA_OFFSET_C2H_ERR_STAT QDMA_C2H_ERR_CMPT_PRTY_ERR_MASK QDMA_GLBL_ERR_ST_C2H_MASK qdma_hw_st_c2h_err_process;
    mk_err QDMA_ST_C2H_ERR_ALL "All C2h errors"
      QDMA_OFFSET_C2H_ERR_MASK QDMA_OFFSET_C2H_ERR_STAT QDMA_C2H_ERR_ALL_MASK QDMA_GLBL_ERR_ST_C2H_MASK qdma_hw_st_c2h_err_process
  ].
Definition soft_st_fatal_err_info : list (hw_err_info dev) :=
  [
    mk_err QDMA_ST_FATAL_ERR_MTY_MISMATCH "Fatal MTY mismatch error"
      QDMA_OFFSET_C2H_FATAL_ERR_MASK QDMA_OFFSET_C2H_FATAL_ERR_STAT QDMA_C2H_FATAL_ERR_MTY_MISMATCH_MASK QDMA_GLBL_ERR_ST_C2H_MASK qdma_hw_st_c2h_err_process;
    mk_err QDMA_ST_FATAL_ERR_LEN_MISMATCH "Fatal Len mismatch error"
      QDMA_OFFSET_C2H_FATAL_ERR_MASK QDMA_OFFSET_C2H_FATAL_ERR_STAT QDMA_C2H_FATAL_ERR_LEN_MISMATCH_MASK QDMA_GLBL_ERR_ST_C2H_MASK qdma_hw_st_c2h_err_process;
    mk_err QDMA_ST_FATAL_ERR_QID_MISMATCH "Fatal Qid mismatch error"
      QDMA_OFFSET_C2H_FATAL_ERR_MASK QDMA_OFFSET_C2H_FATAL_ERR_STAT QDMA_C2H_FATAL_ERR_QID_MISMATCH_MASK QDMA_GLBL_ERR_ST_C2H_MASK qdma_hw_st_c2h_err_process;
    mk_err QDMA_ST_FATAL_ERR_TIMER_FIFO_RAM_RDBE "RAM double bit fatal error"
      QDMA_OFFSET_C2H_FATAL_ERR_MASK QDMA_OFFSET_C2H_FATAL_ERR_STAT QDMA_C2H_FATAL_ERR_TIMER_FIFO_RAM_RDBE_MASK QDMA_GLBL_ERR_ST_C2H_MASK qdma_hw_st_c2h_err_process;
    mk_err QDMA_ST_FATAL_ERR_PFCH_II_RAM_RDBE "RAM double bit fatal error"
      QDMA_OFFSET_C2H_FATAL_ERR_MASK QDMA_OFFSET_C2H_FATAL_ERR_STAT QDMA_C2H_FATAL_ERR_PFCH_II_RAM_RDBE_MASK QDMA_GLBL_ERR_ST_C2H_MASK qdma_hw_st_c2h_err_process;
    mk_err QDMA_ST_FATAL_ERR_CMPT_CTXT_RAM_RDBE "RAM double bit fatal error"
      QDMA_OFFSET_C2H_FATAL_ERR_MASK QDMA_OFFSET_C2H_FATAL_ERR_STAT QDMA_C2H_FATAL_ERR_CMPT_CTXT_RAM_RDBE_MASK QDMA_GLBL_ERR_ST_C2H_MASK qdma_hw_st_c2h_err_process;
    mk_err QDMA_ST_FATAL_ERR_PFCH_CTXT_RAM_RDBE "RAM double bit fatal error"
      QDMA_OFFSET_C2H_FATAL_ERR_MASK QDMA_OFFSET_C2H_FATAL_ERR_STAT QDMA_C2H_FATAL_ERR_PFCH_CTXT_RAM_RDBE_MASK QDMA_GLBL_ERR_ST_C2H_MASK qdma_hw_st_c2h_err_process;
    mk_err QDMA_ST_FATAL_ERR_DESC_REQ_FIFO_RAM_RDBE "RAM double bit fatal error"
      QDMA_OFFSET_C2H_FATAL_ERR_MASK QDMA_OFFSET_C2H_FATAL_ERR_STAT QDMA_C2H_FATAL_ERR_DESC_REQ_FIFO_RAM_RDBE_MASK QDMA_GLBL_ERR_ST_C2H_MASK qdma_hw_st_c2h_err_process;
    mk_err QDMA_ST_FATAL_ERR_INT_CTXT_RAM_RDBE "RAM double bit fatal error"
      QDMA_OFFSET_C2H_FATAL_ERR_MASK QDMA_OFFSET_C2H_FATAL_ERR_STAT QDMA_C2H_FATAL_ERR_INT_CTXT_RAM_RDBE_MASK QDMA_GLBL_ERR_ST_C2H_MASK qdma_hw_st_c2h_err_process;
    mk_err QDMA_ST_FATAL_ERR_CMPT_COAL_DATA_RAM_RDBE "RAM double bit fatal error"
      QDMA_OFFSET_C2H_FATAL_ERR_MASK QDMA_OFFSET_C2H_FATAL_ERR_STAT QDMA_C2H_FATAL_ERR_CMPT_COAL_DATA_RAM_RDBE_MASK QDMA_GLBL_ERR_ST_C2H_MASK qdma_hw_st_c2h_err_process;
    mk_err QDMA_ST_FATAL_ERR_TUSER_FIFO_RAM_RDBE "RAM double bit fatal error"
      QDMA_OFFSET_C2H_FATAL_ERR_MASK QDMA_OFFSET_C2H_FATAL_ERR_STAT QDMA_C2H_FATAL_ERR_TUSER_FIFO_RAM_RDBE_MASK QDMA_GLBL_ERR_ST_C2H_MASK qdma_hw_st_c2h_err_process;
    mk_err QDMA_ST_FATAL_ERR_QID_FIFO_RAM_RDBE "RAM double bit fatal error"
      QDMA_OFFSET_C2H_FATAL_ERR_MASK QDMA_OFFSET_C2H_FATAL_ERR_STAT QDMA_C2H_FATAL_ERR_QID_FIFO_RAM_RDBE_MASK QDMA_GLBL_ERR_ST_C2H_MASK qdma_hw_st_c2h_err_process;
    mk_err QDMA_ST_FATAL_ERR_PAYLOAD_FIFO_RAM_RDBE "RAM double bit fatal error"
      QDMA_OFFSET_C2H_FATAL_ERR_MASK QDMA_OFFSET_C2H_FATAL_ERR_STAT QDMA_C2H_FATAL_ERR_PAYLOAD_FIFO_RAM_RDBE_MASK QDMA_GLBL_ERR_ST_C2H_MASK qdma_hw_st_c2h_err_process;
    mk_err QDMA_ST_FATAL_ERR_WPL_DATA_PAR "RAM double bit fatal error"
      QDMA_OFFSET_C2H_FATAL_ERR_MASK QDMA_OFFSET_C2H_FATAL_ERR_STAT QDMA_C2H_FATAL_ERR_WPL_DATA_PAR_MASK QDMA_GLBL_ERR_ST_C2H_MASK qdma_hw_st_c2h_err_process;
    mk_err QDMA_ST_FATAL_ERR_ALL "All fatal errors"
      QDMA_OFFSET_C2H_FATAL_ERR_MASK QDMA_OFFSET_C2H_FATAL_ERR_STAT QDMA_C2H_FATAL_ERR_ALL_MASK QDMA_GLBL_ERR_ST_C2H_MASK qdma_hw_st_c2h_err_process
  ].
Definition soft_st_h2c_err_info : list (hw_err_info dev) :=
  [
    mk_err QDMA_ST_H2C_ERR_ZERO_LEN_DESC "Zero length descriptor error"
      QDMA_OFFSET_H2C_ERR_MASK QDMA_OFFSET_H2C_ERR_STAT QDMA_H2C_ERR_ZERO_LEN_DESC_MASK QDMA_GLBL_ERR_ST_H2C_MASK qdma_hw_st_h2c_err_process;
    mk_err QDMA_ST_H2C_ERR_CSI_MOP "Non EOP descriptor received error"
      QDMA_OFFSET_H2C_ERR_MASK QDMA_OFFSET_H2C_ERR_STAT QDMA_H2C_ERR_CSI_MOP_MASK QDMA_GLBL_ERR_ST_H2C_MASK qdma_hw_st_h2c_err_process;
    mk_err QDMA_ST_H2C_ERR_NO_DMA_DSC "No DMA descriptor received error"
      QDMA_OFFSET_H2C_ERR_MASK QDMA_OFFSET_H2C_ERR_STAT QDMA_H2C_ERR_NO_DMA_DSC_MASK QDMA_GLBL_ERR_ST_H2C_MASK qdma_hw_st_h2c_err_process;
    mk_err QDMA_ST_H2C_ERR_SBE "Single bit error detected on H2C-ST data error"
      QDMA_OFFSET_H2C_ERR_MASK QDMA_OFFSET_H2C_ERR_STAT QDMA_H2C_ERR_SBE_MASK QDMA_GLBL_ERR_ST_H2C_MASK qdma_hw_st_h2c_err_process;
    mk_err QDMA_ST_H2C_ERR_DBE "Double bit error detected on H2C-ST data error"
      QDMA_OFFSET_H2C_ERR_MASK QDMA_OFFSET_H2C_ERR_STAT QDMA_H2C_ERR_DBE_MASK QDMA_GLBL_ERR_ST_H2C_MASK qdma_hw_st_h2c_err_process;
    mk_err QDMA_ST_H2C_ERR_ALL "All H2C errors"
      QDMA_OFFSET_H2C_ERR_MASK QDMA_OFFSET_H2C_ERR_STAT QDMA_H2C_ERR_ALL_MASK QDMA_GLBL_ERR_ST_H2C_MASK qdma_hw_st_h2c_err_process
  ].
Definition soft_sbe_err_info : list (hw_err_info dev) :=
  [
    mk_err QDMA_SBE_ERR_MI_H2C0_DAT "H2C MM data buffer single bit ECC error"
      QDMA_OFFSET_RAM_SBE_MASK QDMA_OFFSET_RAM_SBE_STAT QDMA_SBE_ERR_MI_H2C0_DAT_MASK QDMA_GLBL_ERR_RAM_SBE_MASK qdma_hw_ram_sbe_err_process;
    mk_err QDMA_SBE_ERR_MI_C2H0_DAT "C2H MM data buffer single bit ECC error"
      QDMA_OFFSET_RAM_SBE_MASK QDMA_OFFSET_RAM_SBE_STAT QDMA_SBE_ERR_MI_C2H0_DAT_MASK QDMA_GLBL_ERR_RAM_SBE_MASK qdma_hw_ram_sbe_err_process;
    mk_err QDMA_SBE_ERR_H2C_RD_BRG_DAT "Bridge master read single bit ECC error"
      QDMA_OFFSET_RAM_SBE_MASK QDMA_OFFSET_RAM_SBE_STAT QDMA_SBE_ERR_H2C_RD_BRG_DAT_MASK QDMA_GLBL_ERR_RAM_SBE_MASK qdma_hw_ram_sbe_err_process;
    mk_err QDMA_SBE_ERR_H2C_WR_BRG_DAT "Bridge master write single bit ECC error"
      QDMA_OFFSET_RAM_SBE_MASK QDMA_OFFSET_RAM_SBE_STAT QDMA_SBE_ERR_H2C_WR_BRG_DAT_MASK QDMA_GLBL_ERR_RAM_SBE_MASK qdma_hw_ram_sbe_err_process;
    mk_err QDMA_SBE_ERR_C2H_RD_BRG_DAT "Bridge slave read data buffer single bit ECC error"
      QDMA_OFFSET_RAM_SBE_MASK QDMA_OFFSET_RAM_SBE_STAT QDMA_SBE_ERR_C2H_RD_BRG_DAT_MASK QDMA_GLBL_ERR_RAM_SBE_MASK qdma_hw_ram_sbe_err_process;
    mk_err QDMA_SBE_ERR_C2H_WR_BRG_DAT "Bridge slave write data buffer single bit ECC error"
      QDMA_OFFSET_RAM_SBE_MASK QDMA_OFFSET_RAM_SBE_STAT QDMA_SBE_ERR_C2H_WR_BRG_DAT_MASK QDMA_GLBL_ERR_RAM_SBE_MASK qdma_hw_ram_sbe_err_process;
    mk_err QDMA_SBE_ERR_FUNC_MAP "Function map RAM single bit ECC error"
      QDMA_OFFSET_RAM_SBE_MASK QDMA_OFFSET_RAM_SBE_STAT QDMA_SBE_ERR_FUNC_MAP_MASK QDMA_GLBL_ERR_RAM_SBE_MASK qdma_hw_ram_sbe_err_process;
    mk_err QDMA_SBE_ERR_DSC_HW_CTXT "Descriptor engine hardware context RAM single bit ECC error"
      QDMA_OFFSET_RAM_SBE_MASK QDMA_OFFSET_RAM_SBE_STAT QDMA_SBE_ERR_DSC_HW_CTXT_MASK QDMA_GLBL_ERR_RAM_SBE_MASK qdma_hw_ram_sbe_err_process;
    mk_err QDMA_SBE_ERR_DSC_CRD_RCV "Descriptor engine receive credit context RAM single bit ECC error"
      QDMA_OFFSET_RAM_SBE_MASK QDMA_OFFSET_RAM_SBE_STAT QDMA_SBE_ERR_DSC_CRD_RCV_MASK QDMA_GLBL_ERR_RAM_SBE_MASK qdma_hw_ram_sbe_err_process;
    mk_err QDMA_SBE_ERR_DSC_SW_CTXT "Descriptor engine software context RAM single bit ECC error"
      QDMA_OFFSET_RAM_SBE_MASK QDMA_OFFSET_RAM_SBE_STAT QDMA_SBE_ERR_DSC_SW_CTXT_MASK QDMA_GLBL_ERR_RAM_SBE_MASK qdma_hw_ram_sbe_err_process;
    mk_err QDMA_SBE_ERR_DSC_CPLI "Descriptor engine fetch completion information RAM single bit ECC error"
      QDMA_OFFSET_RAM_SBE_MASK QDMA_OFFSET_RAM_SBE_STAT QDMA_SBE_ERR_DSC_CPLI_MASK QDMA_GLBL_ERR_RAM_SBE_MASK qdma_hw_ram_sbe_err_process;
    mk_err QDMA_SBE_ERR_DSC_CPLD "Descriptor engine fetch completion data RAM single bit ECC error"
      QDMA_OFFSET_RAM_SBE_MASK QDMA_OFFSET_RAM_SBE_STAT QDMA_SBE_ERR_DSC_CPLD_MASK QDMA_GLBL_ERR_RAM_SBE_MASK qdma_hw_ram_sbe_err_process;
    mk_err QDMA_SBE_ERR_PASID_CTXT_RAM "PASID configuration RAM single bit ECC error"
      QDMA_OFFSET_RAM_SBE_MASK QDMA_OFFSET_RAM_SBE_STAT QDMA_SBE_ERR_PASID_CTXT_RAM_MASK QDMA_GLBL_ERR_RAM_SBE_MASK qdma_hw_ram_sbe_err_process;
    mk_err QDMA_SBE_ERR_TIMER_FIFO_RAM "Timer fifo RAM single bit ECC error"
      QDMA_OFFSET_RAM_SBE_MASK QDMA_OFFSET_RAM_SBE_STAT QDMA_SBE_ERR_TIMER_FIFO_RAM_MASK QDMA_GLBL_ERR_RAM_SBE_MASK qdma_hw_ram_sbe_err_process;
    mk_err QDMA_SBE_ERR_PAYLOAD_FIFO_RAM "C2H ST payload RAM single bit ECC error"
      QDMA_OFFSET_RAM_SBE_MASK QDMA_OFFSET_RAM_SBE_STAT QDMA_SBE_ERR_PAYLOAD_FIFO_RAM_MASK QDMA_GLBL_ERR_RAM_SBE_MASK qdma_hw_ram_sbe_err_process;
    mk_err QDMA_SBE_ERR_QID_FIFO_RAM "C2H ST QID FIFO RAM single bit ECC error"
      QDMA_OFFSET_RAM_SBE_MASK QDMA_OFFSET_RAM_SBE_STAT QDMA_SBE_ERR_QID_FIFO_RAM_MASK QDMA_GLBL_ERR_RAM_SBE_MASK qdma_hw_ram_sbe_err_process;
    mk_err QDMA_SBE_ERR_TUSER_FIFO_RAM "C2H ST TUSER RAM single bit ECC error"
      QDMA_OFFSET_RAM_SBE_MASK QDMA_OFFSET_RAM_SBE_STAT QDMA_SBE_ERR_TUSER_FIFO_RAM_MASK QDMA_GLBL_ERR_RAM_SBE_MASK qdma_hw_ram_sbe_err_process;
    mk_err QDMA_SBE_ERR_WRB_COAL_DATA_RAM "Completion Coalescing RAM single bit ECC error"
      QDMA_OFFSET_RAM_SBE_MASK QDMA_OFFSET_RAM_SBE_STAT QDMA_SBE_ERR_WRB_COAL_DATA_RAM_MASK QDMA_GLBL_ERR_RAM_SBE_MASK qdma_hw_ram_sbe_err_process;
    mk_err QDMA_SBE_ERR_INT_QID2VEC_RAM "Interrupt QID2VEC RAM single bit ECC error"
      QDMA_OFFSET_RAM_SBE_MASK QDMA_OFFSET_RAM_SBE_STAT QDMA_SBE_ERR_INT_QID2VEC_RAM_MASK QDMA_GLBL_ERR_RAM_SBE_MASK qdma_hw_ram_sbe_err_process;
    mk_err QDMA_SBE_ERR_INT_CTXT_RAM "Interrupt context RAM single bit ECC error"
      QDMA_OFFSET_RAM_SBE_MASK QDMA_OFFSET_RAM_SBE_STAT QDMA_SBE_ERR_INT_CTXT_RAM_MASK QDMA_GLBL_ERR_RAM_SBE_MASK qdma_hw_ram_sbe_err_process;
    mk_err QDMA_SBE_ERR_DESC_REQ_FIFO_RAM "C2H ST descriptor request RAM single bit ECC error"
      QDMA_OFFSET_RAM_SBE_MASK QDMA_OFFSET_RAM_SBE_STAT QDMA_SBE_ERR_DESC_REQ_FIFO_RAM_MASK QDMA_GLBL_ERR_RAM_SBE_MASK qdma_hw_ram_sbe_err_process;
    mk_err QDMA_SBE_ERR_PFCH_CTXT_RAM "C2H ST prefetch RAM single bit ECC error"
      QDMA_OFFSET_RAM_SBE_MASK QDMA_OFFSET_RAM_SBE_STAT QDMA_SBE_ERR_PFCH_CTXT_RAM_MASK QDMA_GLBL_ERR_RAM_SBE_MASK qdma_hw_ram_sbe_err_process;
    mk_err QDMA_SBE_ERR_WRB_CTXT_RAM "C2H ST completion context RAM single bit ECC error"
      QDMA_OFFSET_RAM_SBE_MASK QDMA_OFFSET_RAM_SBE_STAT QDMA_SBE_ERR_WRB_CTXT_RAM_MASK QDMA_GLBL_ERR_RAM_SBE_MASK qdma_hw_ram_sbe_err_process;
    mk_err QDMA_SBE_ERR_PFCH_LL_RAM "C2H ST prefetch list RAM single bit ECC error"
      QDMA_OFFSET_RAM_SBE_MASK QDMA_OFFSET_RAM_SBE_STAT QDMA_SBE_ERR_PFCH_LL_RAM_MASK QDMA_GLBL_ERR_RAM_SBE_MASK qdma_hw_ram_sbe_err_process;
    mk_err QDMA_SBE_ERR_H2C_PEND_FIFO "H2C ST pending fifo RAM single bit ECC error"
      QDMA_OFFSET_RAM_SBE_MASK QDMA_OFFSET_RAM_SBE_STAT QDMA_SBE_ERR_H2C_PEND_FIFO_MASK QDMA_GLBL_ERR_RAM_SBE_MASK qdma_hw_ram_sbe_err_process;
    mk_err QDMA_SBE_ERR_ALL "All SBE errors"
      QDMA_OFFSET_RAM_SBE_MASK QDMA_OFFSET_RAM_SBE_STAT QDMA_SBE_ERR_ALL_MASK QDMA_GLBL_ERR_RAM_SBE_MASK qdma_hw_ram_sbe_err_process
  ].
Definition soft_dbe_err_info : list (hw_err_info dev) :=
  [
    mk_err QDMA_DBE_ERR_MI_H2C0_DAT "H2C MM data buffer double bit ECC error"
      QDMA_OFFSET_RAM_DBE_MASK QDMA_OFFSET_RAM_DBE_STAT QDMA_DBE_ERR_MI_H2C0_DAT_MASK QDMA_GLBL_ERR_RAM_DBE_MASK qdma_hw_ram_dbe_err_process;
    mk_err QDMA_DBE_ERR_MI_C2H0_DAT "C2H MM data buffer double bit ECC error"
      QDMA_OFFSET_RAM_DBE_MASK QDMA_OFFSET_RAM_DBE_STAT QDMA_DBE_ERR_MI_C2H0_DAT_MASK QDMA_GLBL_ERR_RAM_DBE_MASK qdma_hw_ram_dbe_err_process;
    mk_err QDMA_DBE_ERR_H2C_RD_BRG_DAT "Bridge master read double bit ECC error"
      QDMA_OFFSET_RAM_DBE_MASK QDMA_OFFSET_RAM_DBE_STAT QDMA_DBE_ERR_H2C_RD_BRG_DAT_MASK QDMA_GLBL_ERR_RAM_DBE_MASK qdma_hw_ram_dbe_err_process;
    mk_err QDMA_DBE_ERR_H2C_WR_BRG_DAT "Bridge master write double bit ECC error"
      QDMA_OFFSET_RAM_DBE_MASK QDMA_OFFSET_RAM_DBE_STAT QDMA_DBE_ERR_H2C_WR_BRG_DAT_MASK QDMA_GLBL_ERR_RAM_DBE_MASK qdma_hw_ram_dbe_err_process;
    mk_err QDMA_DBE_ERR_C2H_RD_BRG_DAT "Bridge slave read data buffer double bit ECC error"
      QDMA_OFFSET_RAM_DBE_MASK QDMA_OFFSET_RAM_DBE_STAT QDMA_DBE_ERR_C2H_RD_BRG_DAT_MASK QDMA_GLBL_ERR_RAM_DBE_MASK qdma_hw_ram_dbe_err_process;
    mk_err QDMA_DBE_ERR_C2H_WR_BRG_DAT "Bridge slave write data buffer double bit ECC error"
      QDMA_OFFSET_RAM_DBE_MASK QDMA_OFFSET_RAM_DBE_STAT QDMA_DBE_ERR_C2H_WR_BRG_DAT_MASK QDMA_GLBL_ERR_RAM_DBE_MASK qdma_hw_ram_dbe_err_process;
    mk_err QDMA_DBE_ERR_FUNC_MAP "Function map RAM double bit ECC error"
      QDMA_OFFSET_RAM_DBE_MASK QDMA_OFFSET_RAM_DBE_STAT QDMA_DBE_ERR_FUNC_MAP_MASK QDMA_GLBL_ERR_RAM_DBE_MASK qdma_hw_ram_dbe_err_process;
    mk_err QDMA_DBE_ERR_DSC_HW_CTXT "Descriptor engine hardware context RAM double bit ECC error"
      QDMA_OFFSET_RAM_DBE_MASK QDMA_OFFSET_RAM_DBE_STAT QDMA_DBE_ERR_DSC_HW_CTXT_MASK QDMA_GLBL_ERR_RAM_DBE_MASK qdma_hw_ram_dbe_err_process;
    mk_err QDMA_DBE_ERR_DSC_CRD_RCV "Descriptor engine receive credit context RAM double bit ECC error"
      QDMA_OFFSET_RAM_DBE_MASK QDMA_OFFSET_RAM_DBE_STAT QDMA_DBE_ERR_DSC_CRD_RCV_MASK QDMA_GLBL_ERR_RAM_DBE_MASK qdma_hw_ram_dbe_err_process;
    mk_err QDMA_DBE_ERR_DSC_SW_CTXT "Descriptor engine software context RAM double bit ECC error"
      QDMA_OFFSET_RAM_DBE_MASK QDMA_OFFSET_RAM_DBE_STAT QDMA_DBE_ERR_DSC_SW_CTXT_MASK QDMA_GLBL_ERR_RAM_DBE_MASK qdma_hw_ram_dbe_err_process;
    mk_err QDMA_DBE_ERR_DSC_CPLI "Descriptor engine fetch completion information RAM double bit ECC error"
      QDMA_OFFSET_RAM_DBE_MASK QDMA_OFFSET_RAM_DBE_STAT QDMA_DBE_ERR_DSC_CPLI_MASK QDMA_GLBL_ERR_RAM_DBE_MASK qdma_hw_ram_dbe_err_process;
    mk_err QDMA_DBE_ERR_DSC_CPLD "Descriptor engine fetch completion data RAM double bit ECC error"
      QDMA_OFFSET_RAM_DBE_MASK QDMA_OFFSET_RAM_DBE_STAT QDMA_DBE_ERR_DSC_CPLD_MASK QDMA_GLBL_ERR_RAM_DBE_MASK qdma_hw_ram_dbe_err_process;
    mk_err QDMA_DBE_ERR_PASID_CTXT_RAM "PASID configuration RAM double bit ECC error"
      QDMA_OFFSET_RAM_DBE_MASK QDMA_OFFSET_RAM_DBE_STAT QDMA_DBE_ERR_PASID_CTXT_RAM_MASK QDMA_GLBL_ERR_RAM_DBE_MASK qdma_hw_ram_dbe_err_process;
    mk_err QDMA_DBE_ERR_TIMER_FIFO_RAM "Timer fifo RAM double bit ECC error"
      QDMA_OFFSET_RAM_DBE_MASK QDMA_OFFSET_RAM_DBE_STAT QDMA_DBE_ERR_TIMER_FIFO_RAM_MASK QDMA_GLBL_ERR_RAM_DBE_MASK qdma_hw_ram_dbe_err_process;
    mk_err QDMA_DBE_ERR_PAYLOAD_FIFO_RAM "C2H ST payload RAM double bit ECC error"
      QDMA_OFFSET_RAM_DBE_MASK QDMA_OFFSET_RAM_DBE_STAT QDMA_DBE_ERR_PAYLOAD_FIFO_RAM_MASK QDMA_GLBL_ERR_RAM_DBE_MASK qdma_hw_ram_dbe_err_process;
    mk_err QDMA_DBE_ERR_QID_FIFO_RAM "C2H ST QID FIFO RAM double bit ECC error"
      QDMA_OFFSET_RAM_DBE_MASK QDMA_OFFSET_RAM_DBE_STAT QDMA_DBE_ERR_QID_FIFO_RAM_MASK QDMA_GLBL_ERR_RAM_DBE_MASK qdma_hw_ram_dbe_err_process;
    mk_err QDMA_DBE_ERR_TUSER_FIFO_RAM "C2H ST TUSER RAM double bit ECC error"
      QDMA_OFFSET_RAM_DBE_MASK QDMA_OFFSET_RAM_DBE_STAT QDMA_DBE_ERR_TUSER_FIFO_RAM_MASK QDMA_GLBL_ERR_RAM_DBE_MASK qdma_hw_ram_dbe_err_process;
    mk_err QDMA_DBE_ERR_WRB_COAL_DATA_RAM "Completion Coalescing RAM double bit ECC error"
      QDMA_OFFSET_RAM_DBE_MASK QDMA_OFFSET_RAM_DBE_STAT QDMA_DBE_ERR_WRB_COAL_DATA_RAM_MASK QDMA_GLBL_ERR_RAM_DBE_MASK qdma_hw_ram_dbe_err_process;
    mk_err QDMA_DBE_ERR_INT_QID2VEC_RAM "Interrupt QID2VEC RAM double bit ECC error"
      QDMA_OFFSET_RAM_DBE_MASK QDMA_OFFSET_RAM_DBE_STAT QDMA_DBE_ERR_INT_QID2VEC_RAM_MASK QDMA_GLBL_ERR_RAM_DBE_MASK qdma_hw_ram_dbe_err_process;
    mk_err QDMA_DBE_ERR_INT_CTXT_RAM "Interrupt context RAM double bit ECC error"
      QDMA_OFFSET_RAM_DBE_MASK QDMA_OFFSET_RAM_DBE_STAT QDMA_DBE_ERR_INT_CTXT_RAM_MASK QDMA_GLBL_ERR_RAM_DBE_MASK qdma_hw_ram_dbe_err_process;
    mk_err QDMA_DBE_ERR_DESC_REQ_FIFO_RAM "C2H ST descriptor request RAM double bit ECC error"
      QDMA_OFFSET_RAM_DBE_MASK QDMA_OFFSET_RAM_DBE_STAT QDMA_DBE_ERR_DESC_REQ_FIFO_RAM_MASK QDMA_GLBL_ERR_RAM_DBE_MASK qdma_hw_ram_dbe_err_process;
    mk_err QDMA_DBE_ERR_PFCH_CTXT_RAM "C2H ST prefetch RAM double bit ECC error"
      QDMA_OFFSET_RAM_DBE_MASK QDMA_OFFSET_RAM_DBE_STAT QDMA_DBE_ERR_PFCH_CTXT_RAM_MASK QDMA_GLBL_ERR_RAM_DBE_MASK qdma_hw_ram_dbe_err_process;
    mk_err QDMA_DBE_ERR_WRB_CTXT_RAM "C2H ST completion context RAM double bit ECC error"
      QDMA_OFFSET_RAM_DBE_MASK QDMA_OFFSET_RAM_DBE_STAT QDMA_DBE_ERR_WRB_CTXT_RAM_MASK QDMA_GLBL_ERR_RAM_DBE_MASK qdma_hw_ram_dbe_err_process;
    mk_err QDMA_DBE_ERR_PFCH_LL_RAM "C2H ST prefetch list RAM double bit ECC error"
      QDMA_OFFSET_RAM_DBE_MASK QDMA_OFFSET_RAM_DBE_STAT QDMA_DBE_ERR_PFCH_LL_RAM_MASK QDMA_GLBL_ERR_RAM_DBE_MASK qdma_hw_ram_dbe_err_process;
    mk_err QDMA_DBE_ERR_H2C_PEND_FIFO "H2C pending fifo RAM double bit ECC error"
      QDMA_OFFSET_RAM_DBE_MASK QDMA_OFFSET_RAM_DBE_STAT QDMA_DBE_ERR_H2C_PEND_FIFO_MASK QDMA_GLBL_ERR_RAM_DBE_MASK qdma_hw_ram_dbe_err_process;
    mk_err QDMA_DBE_ERR_ALL "All DBE errors"
      QDMA_OFFSET_RAM_DBE_MASK QDMA_OFFSET_RAM_DBE_STAT QDMA_DBE_ERR_ALL_MASK QDMA_GLBL_ERR_RAM_DBE_MASK qdma_hw_ram_dbe_err_process
  ].
Definition qdma_err_info : list (hw_err_info dev) :=
  soft_dsc_err_info ++ soft_trq_err_info ++ soft_st_c2h_err_info ++ soft_st_fatal_err_info ++ soft_st_h2c_err_info ++ soft_sbe_err_info ++ soft_dbe_err_info.

Definition soft_hw_err_position : list Z :=
  [QDMA_DSC_ERR_POISON : Z; QDMA_TRQ_ERR_UNMAPPED : Z; QDMA_ST_C2H_ERR_MTY_MISMATCH : Z;
    QDMA_ST_FATAL_ERR_MTY_MISMATCH : Z; QDMA_ST_H2C_ERR_ZERO_LEN_DESC : Z; QDMA_SBE_ERR_MI_H2C0_DAT : Z;
    QDMA_DBE_ERR_MI_H2C0_DAT : Z].
Definition soft_all_hw_errs : list Z :=
  [QDMA_DSC_ERR_ALL : Z; QDMA_TRQ_ERR_ALL : Z; QDMA_ST_C2H_ERR_ALL : Z; QDMA_ST_FATAL_ERR_ALL : Z;
    QDMA_ST_H2C_ERR_ALL : Z; QDMA_SBE_ERR_ALL : Z; QDMA_DBE_ERR_ALL : Z].

Definition soft_err_ip : err_ip dev :=
  mk_err_ip qdma_err_info soft_hw_err_position soft_all_hw_errs
    [QDMA_ST_C2H_ERR_MTY_MISMATCH : Z; QDMA_ST_FATAL_ERR_MTY_MISMATCH : Z; QDMA_ST_H2C_ERR_ZERO_LEN_DESC : Z] [QDMA_ST_C2H_ERR_ALL : Z; QDMA_ST_FATAL_ERR_ALL : Z; QDMA_ST_H2C_ERR_ALL : Z]
    QDMA_OFFSET_GLBL_ERR_STAT QDMA_OFFSET_GLBL_ERR_MASK QDMA_ERRS_ALL get_dev_cap.

Definition qdma_hw_get_error_name (err_idx : Z) : option string :=
  hw_get_error_name soft_err_ip err_idx.
Definition qdma_hw_error_process (dev_hndl : bool) : hwm dev (Z * list Z) :=
  hw_error_process soft_err_ip dev_hndl.
Definition qdma_hw_error_enable (dev_hndl : bool) (err_idx : Z) : hwm dev Z :=
  hw_error_enable soft_err_ip dev_hndl err_idx.
End ip.
