(* ===== verification/Cpm5Err.v ===== *)
(** * Errors of the CPM5 (eqdma_cpm5_access.c)

    The errors and their table, the registers its handlers print, and the
    functions of [ErrProc] on it. *)

From Stdlib Require Import String.
From S2P Require Import Prelude Platform Bits RegIO IndCtxt SoftReg SoftCtxt SoftAccess RegList ErrProc.

(** ** Registers and fields *)

Definition EQDMA_CPM5_RAM_SBE_STS_A_ADDR : Z := 0xF4.
Definition EQDMA_CPM5_RAM_SBE_STS_1_A_ADDR : Z := 0xE4.
Definition EQDMA_CPM5_RAM_DBE_STS_A_ADDR : Z := 0xFC.
Definition EQDMA_CPM5_RAM_DBE_STS_1_A_ADDR : Z := 0xEC.
Definition EQDMA_CPM5_GLBL_DSC_ERR_STS_ADDR : Z := 0x254.
Definition EQDMA_CPM5_GLBL_DSC_ERR_LOG0_ADDR : Z := 0x25C.
Definition EQDMA_CPM5_GLBL_DSC_ERR_LOG1_ADDR : Z := 0x260.
Definition EQDMA_CPM5_GLBL_DSC_DBG_DAT0_ADDR : Z := 0x270.
Definition EQDMA_CPM5_GLBL_DSC_DBG_DAT1_ADDR : Z := 0x274.
Definition EQDMA_CPM5_GLBL_DSC_ERR_LOG2_ADDR : Z := 0x27c.
Definition EQDMA_CPM5_GLBL_TRQ_ERR_STS_ADDR : Z := 0x264.
Definition EQDMA_CPM5_GLBL_TRQ_ERR_LOG_ADDR : Z := 0x26C.
Definition EQDMA_CPM5_H2C_ERR_STAT_ADDR : Z := 0xE00.
Definition EQDMA_CPM5_H2C_FIRST_ERR_QID_ADDR : Z := 0xE08.
Definition EQDMA_CPM5_H2C_DBG_REG0_ADDR : Z := 0xE0C.
Definition EQDMA_CPM5_H2C_DBG_REG1_ADDR : Z := 0xE10.
Definition EQDMA_CPM5_H2C_DBG_REG2_ADDR : Z := 0xE14.
Definition EQDMA_CPM5_H2C_DBG_REG3_ADDR : Z := 0xE18.
Definition EQDMA_CPM5_H2C_DBG_REG4_ADDR : Z := 0xE1C.
Definition EQDMA_CPM5_C2H_ERR_STAT_ADDR : Z := 0xAF0.
Definition EQDMA_CPM5_C2H_FATAL_ERR_STAT_ADDR : Z := 0xAF8.
Definition EQDMA_CPM5_C2H_FIRST_ERR_QID_ADDR : Z := 0xB30.
Definition EQDMA_CPM5_C2H_STAT_S_AXIS_C2H_ACCEPTED_ADDR : Z := 0xA88.
Definition EQDMA_CPM5_C2H_STAT_S_AXIS_WRB_ACCEPTED_ADDR : Z := 0xA8C.
Definition EQDMA_CPM5_C2H_STAT_DESC_RSP_PKT_ACCEPTED_ADDR : Z := 0xA90.
Definition EQDMA_CPM5_C2H_STAT_AXIS_PKG_CMP_ADDR : Z := 0xA94.
Definition EQDMA_CPM5_C2H_STAT_DBG_DMA_ENG_0_ADDR : Z := 0xB1C.
Definition EQDMA_CPM5_C2H_STAT_DBG_DMA_ENG_1_ADDR : Z := 0xB20.
Definition EQDMA_CPM5_C2H_STAT_DBG_DMA_ENG_2_ADDR : Z := 0xB24.
Definition EQDMA_CPM5_C2H_STAT_DBG_DMA_ENG_3_ADDR : Z := 0xB28.
Definition EQDMA_CPM5_C2H_STAT_DESC_RSP_DROP_ACCEPTED_ADDR : Z := 0xB10.
Definition EQDMA_CPM5_C2H_STAT_DESC_RSP_ERR_ACCEPTED_ADDR : Z := 0xB14.
Definition EQDMA_CPM5_C2H_MM_STATUS_ADDR : Z := 0x1040.
Definition EQDMA_CPM5_C2H_MM_CMPL_DESC_CNT_ADDR : Z := 0x1048.
Definition EQDMA_CPM5_C2H_MM_ERR_CODE_ADDR : Z := 0x1058.
Definition EQDMA_CPM5_C2H_MM_ERR_INFO_ADDR : Z := 0x105C.
Definition EQDMA_CPM5_C2H_MM_DBG_ADDR : Z := 0x10E8.
Definition EQDMA_CPM5_H2C_MM_STATUS_ADDR : Z := 0x1240.
Definition EQDMA_CPM5_H2C_MM_CMPL_DESC_CNT_ADDR : Z := 0x1248.
Definition EQDMA_CPM5_H2C_MM_ERR_CODE_ADDR : Z := 0x1258.
Definition EQDMA_CPM5_H2C_MM_ERR_INFO_ADDR : Z := 0x125C.
Definition EQDMA_CPM5_H2C_MM_DBG_ADDR : Z := 0x12E8.
Definition EQDMA_CPM5_GLBL_DSC_ERR_MSK_ADDR : Z := 0x258.
Definition GLBL_DSC_ERR_STS_POISON_MASK : Z := BIT 1.
Definition GLBL_ERR_STAT_ERR_DSC_MASK : Z := BIT 2.
Definition GLBL_DSC_ERR_STS_UR_CA_MASK : Z := BIT 2.
Definition GLBL_DSC_ERR_STS_BCNT_MASK : Z := BIT 3.
Definition GLBL_DSC_ERR_STS_PARAM_MASK : Z := BIT 4.
Definition GLBL_DSC_ERR_STS_ADDR_MASK : Z := BIT 5.
Definition GLBL_DSC_ERR_STS_TAG_MASK : Z := BIT 6.
Definition GLBL_DSC_ERR_STS_FLR_MASK : Z := BIT 8.
Definition GLBL_DSC_ERR_STS_TIMEOUT_MASK : Z := BIT 9.
Definition GLBL_DSC_ERR_STS_DAT_POISON_MASK : Z := BIT 16.
Definition GLBL_DSC_ERR_STS_FLR_CANCEL_MASK : Z := BIT 19.
Definition GLBL_DSC_ERR_STS_DMA_MASK : Z := BIT 20.
Definition GLBL_DSC_ERR_STS_DSC_MASK : Z := BIT 21.
Definition GLBL_DSC_ERR_STS_RQ_CANCEL_MASK : Z := BIT 22.
Definition GLBL_DSC_ERR_STS_DBE_MASK : Z := BIT 23.
Definition GLBL_DSC_ERR_STS_SBE_MASK : Z := BIT 24.
Definition GLBL_DSC_ERR_STS_PORT_ID_MASK : Z := BIT 25.
Definition EQDMA_CPM5_GLBL_DSC_ERR_ALL_MASK : Z := 0x1F9037E.
Definition EQDMA_CPM5_GLBL_TRQ_ERR_MSK_ADDR : Z := 0x268.
Definition GLBL_TRQ_ERR_STS_CSR_UNMAPPED_MASK : Z := BIT 0.
Definition GLBL_ERR_STAT_ERR_TRQ_MASK : Z := BIT 3.
Definition GLBL_TRQ_ERR_STS_VF_ACCESS_ERR_MASK : Z := BIT 1.
Definition GLBL_TRQ_ERR_STS_TCP_CSR_TIMEOUT_MASK : Z := BIT 3.
Definition GLBL_TRQ_ERR_STS_QSPC_UNMAPPED_MASK : Z := BIT 4.
Definition GLBL_TRQ_ERR_STS_QID_RANGE_MASK : Z := BIT 5.
Definition GLBL_TRQ_ERR_STS_TCP_QSPC_TIMEOUT_MASK : Z := BIT 7.
Definition EQDMA_CPM5_GLBL_TRQ_ERR_ALL_MASK : Z := 0xB3.
Definition EQDMA_CPM5_C2H_ERR_MASK_ADDR : Z := 0xAF4.
Definition C2H_ERR_STAT_MTY_MISMATCH_MASK : Z := BIT 0.
Definition GLBL_ERR_STAT_ERR_C2H_ST_MASK : Z := BIT 8.
Definition C2H_ERR_STAT_LEN_MISMATCH_MASK : Z := BIT 1.
Definition C2H_ERR_STAT_SH_CMPT_DSC_ERR_MASK : Z := BIT 2.
Definition C2H_ERR_STAT_QID_MISMATCH_MASK : Z := BIT 3.
Definition C2H_ERR_STAT_DESC_RSP_ERR_MASK : Z := BIT 4.
Definition C2H_ERR_STAT_ENG_WPL_DATA_PAR_ERR_MASK : Z := BIT 6.
Definition C2H_ERR_STAT_MSI_INT_FAIL_MASK : Z := BIT 7.
Definition C2H_ERR_STAT_ERR_DESC_CNT_MASK : Z := BIT 9.
Definition C2H_ERR_STAT_PORT_ID_CTXT_MISMATCH_MASK : Z := BIT 10.
Definition C2H_ERR_STAT_WRB_INV_Q_ERR_MASK : Z := BIT 12.
Definition C2H_ERR_STAT_WRB_QFULL_ERR_MASK : Z := BIT 13.
Definition C2H_ERR_STAT_WRB_CIDX_ERR_MASK : Z := BIT 14.
Definition C2H_ERR_STAT_WRB_PRTY_ERR_MASK : Z := BIT 15.
Definition C2H_ERR_STAT_AVL_RING_DSC_ERR_MASK : Z := BIT 16.
Definition C2H_ERR_STAT_HDR_ECC_UNC_ERR_MASK : Z := BIT 17.
Definition C2H_ERR_STAT_HDR_ECC_COR_ERR_MASK : Z := BIT 18.
Definition C2H_ERR_STAT_WRB_PORT_ID_ERR_MASK : Z := BIT 20.
Definition EQDMA_CPM5_C2H_ERR_ALL_MASK : Z := 0x3F6DF.
Definition EQDMA_CPM5_C2H_FATAL_ERR_MASK_ADDR : Z := 0xAFC.
Definition C2H_FATAL_ERR_STAT_MTY_MISMATCH_MASK : Z := BIT 0.
Definition C2H_FATAL_ERR_STAT_LEN_MISMATCH_MASK : Z := BIT 1.
Definition C2H_FATAL_ERR_STAT_QID_MISMATCH_MASK : Z := BIT 3.
Definition C2H_FATAL_ERR_STAT_TIMER_FIFO_RAM_RDBE_MASK : Z := GENMASK 7 4.
Definition C2H_FATAL_ERR_STAT_PFCH_LL_RAM_RDBE_MASK : Z := BIT 8.
Definition C2H_FATAL_ERR_STAT_WRB_CTXT_RAM_RDBE_MASK : Z := BIT 9.
Definition C2H_FATAL_ERR_STAT_PFCH_CTXT_RAM_RDBE_MASK : Z := BIT 10.
Definition C2H_FATAL_ERR_STAT_DESC_REQ_FIFO_RAM_RDBE_MASK : Z := BIT 11.
Definition C2H_FATAL_ERR_STAT_INT_CTXT_RAM_RDBE_MASK : Z := BIT 12.
Definition C2H_FATAL_ERR_STAT_WRB_COAL_DATA_RAM_RDBE_MASK : Z := BIT 14.
Definition C2H_FATAL_ERR_STAT_CMPT_FIFO_RAM_RDBE_MASK : Z := BIT 15.
Definition C2H_FATAL_ERR_STAT_QID_FIFO_RAM_RDBE_MASK : Z := BIT 16.
Definition C2H_FATAL_ERR_STAT_PLD_FIFO_RAM_RDBE_MASK : Z := BIT 17.
Definition C2H_FATAL_ERR_STAT_WPL_DATA_PAR_ERR_MASK : Z := BIT 18.
Definition C2H_FATAL_ERR_STAT_AVL_RING_FIFO_RAM_RDBE_MASK : Z := BIT 19.
Definition C2H_FATAL_ERR_STAT_HDR_ECC_UNC_ERR_MASK : Z := BIT 20.
Definition EQDMA_CPM5_C2H_FATAL_ERR_ALL_MASK : Z := 0x1FDF1B.
Definition EQDMA_CPM5_H2C_ERR_MASK_ADDR : Z := 0xE04.
Definition H2C_ERR_STAT_ZERO_LEN_DS_MASK : Z := BIT 0.
Definition GLBL_ERR_STAT_ERR_H2C_ST_MASK : Z := BIT 16.
Definition H2C_ERR_STAT_SDI_MRKR_REQ_MOP_ERR_MASK : Z := BIT 1.
Definition H2C_ERR_STAT_NO_DMA_DS_MASK : Z := BIT 2.
Definition H2C_ERR_STAT_SBE_MASK : Z := BIT 4.
Definition H2C_ERR_STAT_DBE_MASK : Z := BIT 3.
Definition H2C_ERR_STAT_PAR_ERR_MASK : Z := BIT 5.
Definition EQDMA_CPM5_H2C_ERR_ALL_MASK : Z := 0x3F.
Definition EQDMA_CPM5_RAM_SBE_MSK_1_A_ADDR : Z := 0xE0.
Definition RAM_SBE_STS_1_A_RC_RRQ_EVEN_RAM_MASK : Z := BIT 0.
Definition GLBL_ERR_STAT_ERR_RAM_SBE_MASK : Z := BIT 0.
Definition RAM_SBE_STS_1_A_TAG_ODD_RAM_MASK : Z := BIT 1.
Definition RAM_SBE_STS_1_A_TAG_EVEN_RAM_MASK : Z := BIT 2.
Definition RAM_SBE_STS_1_A_PFCH_CTXT_CAM_RAM_0_MASK : Z := BIT 3.
Definition RAM_SBE_STS_1_A_PFCH_CTXT_CAM_RAM_1_MASK : Z := BIT 4.
Definition EQDMA_CPM5_SBE_ERR_ALL_MASK : Z := 0xFFFFFFFF.
Definition EQDMA_CPM5_RAM_SBE_MSK_A_ADDR : Z := 0xF0.
Definition RAM_SBE_STS_A_MI_H2C0_DAT_MASK : Z := BIT 0.
Definition RAM_SBE_STS_A_MI_H2C1_DAT_MASK : Z := BIT 1.
Definition RAM_SBE_STS_A_MI_H2C2_DAT_MASK : Z := BIT 2.
Definition RAM_SBE_STS_A_MI_H2C3_DAT_MASK : Z := BIT 3.
Definition RAM_SBE_STS_A_MI_C2H0_DAT_MASK : Z := BIT 4.
Definition RAM_SBE_STS_A_MI_C2H1_DAT_MASK : Z := BIT 5.
Definition RAM_SBE_STS_A_MI_C2H2_DAT_MASK : Z := BIT 6.
Definition RAM_SBE_STS_A_MI_C2H3_DAT_MASK : Z := BIT 7.
Definition RAM_SBE_STS_A_H2C_RD_BRG_DAT_MASK : Z := BIT 8.
Definition RAM_SBE_STS_A_H2C_WR_BRG_DAT_MASK : Z := BIT 9.
Definition RAM_SBE_STS_A_C2H_RD_BRG_DAT_MASK : Z := BIT 10.
Definition RAM_SBE_STS_A_C2H_WR_BRG_DAT_MASK : Z := BIT 11.
Definition RAM_SBE_STS_A_FUNC_MAP_MASK : Z := BIT 12.
Definition RAM_SBE_STS_A_DSC_HW_CTXT_MASK : Z := BIT 13.
Definition RAM_SBE_STS_A_DSC_CRD_RCV_MASK : Z := BIT 14.
Definition RAM_SBE_STS_A_DSC_SW_CTXT_MASK : Z := BIT 15.
Definition RAM_SBE_STS_A_DSC_CPLI_MASK : Z := BIT 16.
Definition RAM_SBE_STS_A_DSC_CPLD_MASK : Z := BIT 17.
Definition RAM_SBE_STS_A_MI_TL_SLV_FIFO_RAM_MASK : Z := BIT 18.
Definition RAM_SBE_STS_A_TIMER_FIFO_RAM_MASK : Z := GENMASK 22 19.
Definition RAM_SBE_STS_A_QID_FIFO_RAM_MASK : Z := BIT 23.
Definition RAM_SBE_STS_A_WRB_COAL_DATA_RAM_MASK : Z := BIT 24.
Definition RAM_SBE_STS_A_INT_CTXT_RAM_MASK : Z := BIT 25.
Definition RAM_SBE_STS_A_DESC_REQ_FIFO_RAM_MASK : Z := BIT 26.
Definition RAM_SBE_STS_A_PFCH_CTXT_RAM_MASK : Z := BIT 27.
Definition RAM_SBE_STS_A_WRB_CTXT_RAM_MASK : Z := BIT 28.
Definition RAM_SBE_STS_A_PFCH_LL_RAM_MASK : Z := BIT 29.
Definition RAM_SBE_STS_A_PEND_FIFO_RAM_MASK : Z := BIT 30.
Definition RAM_SBE_STS_A_RC_RRQ_ODD_RAM_MASK : Z := BIT 31.
Definition EQDMA_CPM5_RAM_DBE_MSK_1_A_ADDR : Z := 0xE8.
Definition RAM_DBE_STS_1_A_RC_RRQ_EVEN_RAM_MASK : Z := BIT 0.
Definition GLBL_ERR_STAT_ERR_RAM_DBE_MASK : Z := BIT 1.
Definition RAM_DBE_STS_1_A_TAG_ODD_RAM_MASK : Z := BIT 1.
Definition RAM_DBE_STS_1_A_TAG_EVEN_RAM_MASK : Z := BIT 2.
Definition RAM_DBE_STS_1_A_PFCH_CTXT_CAM_RAM_0_MASK : Z := BIT 3.
Definition EQDMA_CPM5_DBE_ERR_ALL_MASK : Z := 0xFFFFFFFF.
Definition EQDMA_CPM5_RAM_DBE_MSK_A_ADDR : Z := 0xF8.
Definition RAM_DBE_STS_A_MI_H2C0_DAT_MASK : Z := BIT 0.
Definition RAM_DBE_STS_A_MI_H2C1_DAT_MASK : Z := BIT 1.
Definition RAM_DBE_STS_A_MI_H2C2_DAT_MASK : Z := BIT 2.
Definition RAM_DBE_STS_A_MI_H2C3_DAT_MASK : Z := BIT 3.
Definition RAM_DBE_STS_A_MI_C2H0_DAT_MASK : Z := BIT 4.
Definition RAM_DBE_STS_A_MI_C2H1_DAT_MASK : Z := BIT 5.
Definition RAM_DBE_STS_A_MI_C2H2_DAT_MASK : Z := BIT 6.
Definition RAM_DBE_STS_A_MI_C2H3_DAT_MASK : Z := BIT 7.
Definition RAM_DBE_STS_A_H2C_RD_BRG_DAT_MASK : Z := BIT 8.
Definition RAM_DBE_STS_A_H2C_WR_BRG_DAT_MASK : Z := BIT 9.
Definition RAM_DBE_STS_A_C2H_RD_BRG_DAT_MASK : Z := BIT 10.
Definition RAM_DBE_STS_A_C2H_WR_BRG_DAT_MASK : Z := BIT 11.
Definition RAM_DBE_STS_A_FUNC_MAP_MASK : Z := BIT 12.
Definition RAM_DBE_STS_A_DSC_HW_CTXT_MASK : Z := BIT 13.
Definition RAM_DBE_STS_A_DSC_CRD_RCV_MASK : Z := BIT 14.
Definition RAM_DBE_STS_A_DSC_SW_CTXT_MASK : Z := BIT 15.
Definition RAM_DBE_STS_A_DSC_CPLI_MASK : Z := BIT 16.
Definition RAM_DBE_STS_A_DSC_CPLD_MASK : Z := BIT 17.
Definition RAM_DBE_STS_A_MI_TL_SLV_FIFO_RAM_MASK : Z := BIT 18.
Definition RAM_DBE_STS_A_TIMER_FIFO_RAM_MASK : Z := GENMASK 22 19.
Definition RAM_DBE_STS_A_QID_FIFO_RAM_MASK : Z := BIT 23.
Definition RAM_DBE_STS_A_WRB_COAL_DATA_RAM_MASK : Z := BIT 24.
Definition RAM_DBE_STS_A_INT_CTXT_RAM_MASK : Z := BIT 25.
Definition RAM_DBE_STS_A_DESC_REQ_FIFO_RAM_MASK : Z := BIT 26.
Definition RAM_DBE_STS_A_PFCH_CTXT_RAM_MASK : Z := BIT 27.
Definition RAM_DBE_STS_A_WRB_CTXT_RAM_MASK : Z := BIT 28.
Definition RAM_DBE_STS_A_PFCH_LL_RAM_MASK : Z := BIT 29.
Definition RAM_DBE_STS_A_PEND_FIFO_RAM_MASK : Z := BIT 30.
Definition RAM_DBE_STS_A_RC_RRQ_ODD_RAM_MASK : Z := BIT 31.
Definition EQDMA_CPM5_C2H_MM_ERR_CODE_ENABLE_MASK_ADDR : Z := 0x1054.
Definition C2H_MM_ERR_CODE_ENABLE_WR_SLV_ERR_MASK : Z := BIT 0.
Definition GLBL_ERR_STAT_ERR_C2H_MM_0_MASK : Z := BIT 6.
Definition C2H_MM_ERR_CODE_ENABLE_RD_SLV_ERR_MASK : Z := BIT 1.
Definition C2H_MM_ERR_CODE_ENABLE_WR_FLR_MASK : Z := BIT 28.
Definition C2H_MM_ERR_CODE_ENABLE_WR_UR_MASK : Z := BIT 29.
Definition C2H_MM_ERR_CODE_ENABLE_WR_UC_RAM_MASK : Z := BIT 30.
Definition EQDMA_CPM5_MM_C2H_ERR_ALL_MASK : Z := 0x70000003.
Definition EQDMA_CPM5_H2C_MM_ERR_CODE_ENABLE_MASK_ADDR : Z := 0x1254.
Definition H2C_MM_ERR_CODE_ENABLE_RD_HRD_POISON_ERR_MASK : Z := BIT 1.
Definition GLBL_ERR_STAT_ERR_H2C_MM_0_MASK : Z := BIT 4.
Definition H2C_MM_ERR_CODE_ENABLE_RD_UR_CA_MASK : Z := BIT 2.
Definition H2C_MM_ERR_CODE_ENABLE_RD_HDR_BYTE_ERR_MASK : Z := BIT 3.
Definition H2C_MM_ERR_CODE_ENABLE_RD_HDR_PARA_MASK : Z := BIT 4.
Definition H2C_MM_ERR_CODE_ENABLE_RD_HDR_ADR_ERR_MASK : Z := BIT 5.
Definition H2C_MM_ERR_CODE_ENABLE_RD_FLR_ERR_MASK : Z := BIT 8.
Definition H2C_MM_ERR_CODE_ENABLE_RD_DAT_POISON_ERR_MASK : Z := BIT 16.
Definition H2C_MM_ERR_CODE_ENABLE_RD_RQ_DIS_ERR_MASK : Z := BIT 22.
Definition H2C_MM_ERR_CODE_ENABLE_WR_DEC_ERR_MASK : Z := BIT 28.
Definition H2C_MM_ERR_CODE_ENABLE_WR_SLV_ERR_MASK : Z := BIT 29.
Definition EQDMA_CPM5_MM_H2C0_ERR_ALL_MASK : Z := 0x3041013E.
Definition EQDMA_CPM5_GLBL_ERR_STAT_ADDR : Z := 0x248.
Definition EQDMA_CPM5_GLBL_ERR_MASK_ADDR : Z := 0x24C.
Definition EQDMA_CPM5_GLBL2_DBG_MODE_EN_MASK : Z := BIT 4.
Definition EQDMA_CPM5_GLBL2_MAILBOX_EN_MASK : Z := BIT 0.
Definition GLBL2_CHANNEL_MDMA_C2H_ST_MASK : Z := BIT 17.
Definition EQDMA_CPM5_CMPT_CONTEXT_NUM_WORDS : Z := 6.
Definition EQDMA_CPM5_GLBL2_MISC_CAP_ADDR : Z := 0x134.
Definition EQDMA_CPM5_GLBL2_CHANNEL_CAP_ADDR : Z := 0x120.
Definition GLBL2_CHANNEL_MDMA_H2C_ST_MASK : Z := BIT 16.
Definition GLBL2_CHANNEL_MDMA_H2C_ENG_MASK : Z := GENMASK 3 0.
Definition EQDMA_CPM5_HW_CONTEXT_NUM_WORDS : Z := 2.
Definition GLBL2_CHANNEL_CAP_MULTIQ_MAX_MASK : Z := GENMASK 11 0.
Definition EQDMA_CPM5_GLBL2_FLR_PRESENT_MASK : Z := BIT 1.
Definition EQDMA_CPM5_GLBL2_CHANNEL_MDMA_ADDR : Z := 0x118.
Definition EQDMA_CPM5_SW_CONTEXT_NUM_WORDS : Z := 8.
Definition EQDMA_CPM5_GLBL2_DESC_ENG_MODE_MASK : Z := GENMASK 3 2.
Definition GLBL2_CHANNEL_MDMA_C2H_ENG_MASK : Z := GENMASK 11 8.

(** ** The errors *)

(** The addresses in the register table [eqdma_cpm5_config_regs] (eqdma_cpm5_reg_dump.c). *)
Definition eqdma_cpm5_config_addrs : list Z :=
  [0x00; 0x08; 0x0c; 0x10; 0x014; 0x18; 0x1c; 0x20; 0x40; 0x44; 0x4c; 0x68; 0x80; 0xa0; 0xe0; 0xe4; 0xe8; 0xec;
    0xf0; 0xf4; 0xf8; 0xfc; 0x100; 0x114; 0x118; 0x11c; 0x120; 0x128; 0x130; 0x134; 0x1b8; 0x1bc; 0x1c0; 0x1c4;
    0x1c8; 0x1cc; 0x1d0; 0x1d4; 0x1f4; 0x1f8; 0x1fc; 0x204; 0x208; 0x20c; 0x210; 0x214; 0x218; 0x21c; 0x220; 0x224;
    0x228; 0x22c; 0x230; 0x234; 0x238; 0x23c; 0x240; 0x248; 0x24c; 0x250; 0x254; 0x258; 0x25c; 0x260; 0x264; 0x268;
    0x26c; 0x270; 0x274; 0x278; 0x27c; 0x2c4; 0x2c8; 0x308; 0x30c; 0x314; 0x804; 0x824; 0x844; 0xa00; 0xa40; 0xa88;
    0xa8c; 0xa90; 0xa94; 0xa98; 0xa9c; 0xaa0; 0xaa4; 0xaa8; 0xaac; 0xab0; 0xaf0; 0xaf4; 0xaf8; 0xafc; 0xb00; 0xb04;
    0xb08; 0xa80; 0xa84; 0xb0c; 0xb10; 0xb14; 0xb18; 0xb1c; 0xb20; 0xb24; 0xb28; 0xb2c; 0xb30; 0xb34; 0xb38; 0xb3c;
    0xb40; 0xb44; 0xb48; 0xb4c; 0xb50; 0xb54; 0xb58; 0xb5c; 0xb60; 0xb64; 0xb68; 0xb6c; 0xb70; 0xb74; 0xb78; 0xb7c;
    0xb80; 0xb84; 0xb88; 0xb8c; 0xb90; 0xb94; 0xb98; 0xb9c; 0xba0; 0xba4; 0xba8; 0xbac; 0xbb0; 0xbb4; 0xbb8; 0xbbc;
    0xbc0; 0xbc4; 0xbc8; 0xbcc; 0xbd0; 0xbd4; 0xbd8; 0xbdc; 0xbe0; 0xbe4; 0xbe8; 0xbec; 0xbf0; 0xbf4; 0xbf8; 0xbfc;
    0xe00; 0xe04; 0xe08; 0xe0c; 0xe10; 0xe14; 0xe18; 0xe1c; 0xe20; 0xe24; 0xe28; 0xe2c; 0x1004; 0x1040; 0x1048;
    0x1054; 0x1058; 0x105c; 0x10c0; 0x10c4; 0x10c8; 0x10cc; 0x10d0; 0x10e8; 0x1204; 0x1240; 0x1248; 0x1254; 0x1258;
    0x125c; 0x12c0; 0x12c4; 0x12c8; 0x12cc; 0x12d0; 0x12e8; 0x1400; 0x1404; 0x1408; 0x140c; 0x1500; 0x1800; 0x1804;
    0x1808; 0x180c; 0x1810; 0x1814; 0x1818].
(** [enum eqdma_cpm5_error_idx] *)
Inductive eqdma_cpm5_error_idx :=
  | EQDMA_CPM5_DSC_ERR_POISON | EQDMA_CPM5_DSC_ERR_UR_CA | EQDMA_CPM5_DSC_ERR_BCNT | EQDMA_CPM5_DSC_ERR_PARAM
  | EQDMA_CPM5_DSC_ERR_ADDR | EQDMA_CPM5_DSC_ERR_TAG | EQDMA_CPM5_DSC_ERR_FLR | EQDMA_CPM5_DSC_ERR_TIMEOUT
  | EQDMA_CPM5_DSC_ERR_DAT_POISON | EQDMA_CPM5_DSC_ERR_FLR_CANCEL | EQDMA_CPM5_DSC_ERR_DMA | EQDMA_CPM5_DSC_ERR_DSC
  | EQDMA_CPM5_DSC_ERR_RQ_CANCEL | EQDMA_CPM5_DSC_ERR_DBE | EQDMA_CPM5_DSC_ERR_SBE | EQDMA_CPM5_DSC_ERR_PORT_ID
  | EQDMA_CPM5_DSC_ERR_ALL | EQDMA_CPM5_TRQ_ERR_CSR_UNMAPPED | EQDMA_CPM5_TRQ_ERR_VF_ACCESS
  | EQDMA_CPM5_TRQ_ERR_TCP_CSR_TIMEOUT | EQDMA_CPM5_TRQ_ERR_QSPC_UNMAPPED | EQDMA_CPM5_TRQ_ERR_QID_RANGE
  | EQDMA_CPM5_TRQ_ERR_TCP_QSPC_TIMEOUT | EQDMA_CPM5_TRQ_ERR_ALL | EQDMA_CPM5_ST_C2H_ERR_MTY_MISMATCH
  | EQDMA_CPM5_ST_C2H_ERR_LEN_MISMATCH | EQDMA_CPM5_ST_C2H_ERR_SH_CMPT_DSC | EQDMA_CPM5_ST_C2H_ERR_QID_MISMATCH
  | EQDMA_CPM5_ST_C2H_ERR_DESC_RSP_ERR | EQDMA_CPM5_ST_C2H_ERR_ENG_WPL_DATA_PAR_ERR
  | EQDMA_CPM5_ST_C2H_ERR_MSI_INT_FAIL | EQDMA_CPM5_ST_C2H_ERR_ERR_DESC_CNT
  | EQDMA_CPM5_ST_C2H_ERR_PORTID_CTXT_MISMATCH | EQDMA_CPM5_ST_C2H_ERR_CMPT_INV_Q_ERR
  | EQDMA_CPM5_ST_C2H_ERR_CMPT_QFULL_ERR | EQDMA_CPM5_ST_C2H_ERR_CMPT_CIDX_ERR | EQDMA_CPM5_ST_C2H_ERR_CMPT_PRTY_ERR
  | EQDMA_CPM5_ST_C2H_ERR_AVL_RING_DSC | EQDMA_CPM5_ST_C2H_ERR_HDR_ECC_UNC | EQDMA_CPM5_ST_C2H_ERR_HDR_ECC_COR
  | EQDMA_CPM5_ST_C2H_ERR_WRB_PORT_ID_ERR | EQDMA_CPM5_ST_C2H_ERR_ALL | EQDMA_CPM5_ST_FATAL_ERR_MTY_MISMATCH
  | EQDMA_CPM5_ST_FATAL_ERR_LEN_MISMATCH | EQDMA_CPM5_ST_FATAL_ERR_QID_MISMATCH
  | EQDMA_CPM5_ST_FATAL_ERR_TIMER_FIFO_RAM_RDBE | EQDMA_CPM5_ST_FATAL_ERR_PFCH_II_RAM_RDBE
  | EQDMA_CPM5_ST_FATAL_ERR_CMPT_CTXT_RAM_RDBE | EQDMA_CPM5_ST_FATAL_ERR_PFCH_CTXT_RAM_RDBE
  | EQDMA_CPM5_ST_FATAL_ERR_DESC_REQ_FIFO_RAM_RDBE | EQDMA_CPM5_ST_FATAL_ERR_INT_CTXT_RAM_RDBE
  | EQDMA_CPM5_ST_FATAL_ERR_CMPT_COAL_DATA_RAM_RDBE | EQDMA_CPM5_ST_FATAL_ERR_CMPT_FIFO_RAM_RDBE
  | EQDMA_CPM5_ST_FATAL_ERR_QID_FIFO_RAM_RDBE | EQDMA_CPM5_ST_FATAL_ERR_PAYLOAD_FIFO_RAM_RDBE
  | EQDMA_CPM5_ST_FATAL_ERR_WPL_DATA_PAR | EQDMA_CPM5_ST_FATAL_ERR_AVL_RING_FIFO_RAM_RDBE
  | EQDMA_CPM5_ST_FATAL_ERR_HDR_ECC_UNC | EQDMA_CPM5_ST_FATAL_ERR_ALL | EQDMA_CPM5_ST_H2C_ERR_ZERO_LEN_DESC
  | EQDMA_CPM5_ST_H2C_ERR_SDI_MRKR_REQ_MOP | EQDMA_CPM5_ST_H2C_ERR_NO_DMA_DSC | EQDMA_CPM5_ST_H2C_ERR_SBE
  | EQDMA_CPM5_ST_H2C_ERR_DBE | EQDMA_CPM5_ST_H2C_ERR_PAR | EQDMA_CPM5_ST_H2C_ERR_ALL
  | EQDMA_CPM5_SBE_1_ERR_RC_RRQ_EVEN_RAM | EQDMA_CPM5_SBE_1_ERR_TAG_ODD_RAM | EQDMA_CPM5_SBE_1_ERR_TAG_EVEN_RAM
  | EQDMA_CPM5_SBE_1_ERR_PFCH_CTXT_CAM_RAM_0 | EQDMA_CPM5_SBE_1_ERR_PFCH_CTXT_CAM_RAM_1 | EQDMA_CPM5_SBE_1_ERR_ALL
  | EQDMA_CPM5_SBE_ERR_MI_H2C0_DAT | EQDMA_CPM5_SBE_ERR_MI_H2C1_DAT | EQDMA_CPM5_SBE_ERR_MI_H2C2_DAT
  | EQDMA_CPM5_SBE_ERR_MI_H2C3_DAT | EQDMA_CPM5_SBE_ERR_MI_C2H0_DAT | EQDMA_CPM5_SBE_ERR_MI_C2H1_DAT
  | EQDMA_CPM5_SBE_ERR_MI_C2H2_DAT | EQDMA_CPM5_SBE_ERR_MI_C2H3_DAT | EQDMA_CPM5_SBE_ERR_H2C_RD_BRG_DAT
  | EQDMA_CPM5_SBE_ERR_H2C_WR_BRG_DAT | EQDMA_CPM5_SBE_ERR_C2H_RD_BRG_DAT | EQDMA_CPM5_SBE_ERR_C2H_WR_BRG_DAT
  | EQDMA_CPM5_SBE_ERR_FUNC_MAP | EQDMA_CPM5_SBE_ERR_DSC_HW_CTXT | EQDMA_CPM5_SBE_ERR_DSC_CRD_RCV
  | EQDMA_CPM5_SBE_ERR_DSC_SW_CTXT | EQDMA_CPM5_SBE_ERR_DSC_CPLI | EQDMA_CPM5_SBE_ERR_DSC_CPLD
  | EQDMA_CPM5_SBE_ERR_MI_TL_SLV_FIFO_RAM | EQDMA_CPM5_SBE_ERR_TIMER_FIFO_RAM | EQDMA_CPM5_SBE_ERR_QID_FIFO_RAM
  | EQDMA_CPM5_SBE_ERR_WRB_COAL_DATA_RAM | EQDMA_CPM5_SBE_ERR_INT_CTXT_RAM | EQDMA_CPM5_SBE_ERR_DESC_REQ_FIFO_RAM
  | EQDMA_CPM5_SBE_ERR_PFCH_CTXT_RAM | EQDMA_CPM5_SBE_ERR_WRB_CTXT_RAM | EQDMA_CPM5_SBE_ERR_PFCH_LL_RAM
  | EQDMA_CPM5_SBE_ERR_PEND_FIFO_RAM | EQDMA_CPM5_SBE_ERR_RC_RRQ_ODD_RAM | EQDMA_CPM5_SBE_ERR_ALL
  | EQDMA_CPM5_DBE_1_ERR_RC_RRQ_EVEN_RAM | EQDMA_CPM5_DBE_1_ERR_TAG_ODD_RAM | EQDMA_CPM5_DBE_1_ERR_TAG_EVEN_RAM
  | EQDMA_CPM5_DBE_1_ERR_PFCH_CTXT_CAM_RAM_0 | EQDMA_CPM5_DBE_1_ERR_PFCH_CTXT_CAM_RAM_1 | EQDMA_CPM5_DBE_1_ERR_ALL
  | EQDMA_CPM5_DBE_ERR_MI_H2C0_DAT | EQDMA_CPM5_DBE_ERR_MI_H2C1_DAT | EQDMA_CPM5_DBE_ERR_MI_H2C2_DAT
  | EQDMA_CPM5_DBE_ERR_MI_H2C3_DAT | EQDMA_CPM5_DBE_ERR_MI_C2H0_DAT | EQDMA_CPM5_DBE_ERR_MI_C2H1_DAT
  | EQDMA_CPM5_DBE_ERR_MI_C2H2_DAT | EQDMA_CPM5_DBE_ERR_MI_C2H3_DAT | EQDMA_CPM5_DBE_ERR_H2C_RD_BRG_DAT
  | EQDMA_CPM5_DBE_ERR_H2C_WR_BRG_DAT | EQDMA_CPM5_DBE_ERR_C2H_RD_BRG_DAT | EQDMA_CPM5_DBE_ERR_C2H_WR_BRG_DAT
  | EQDMA_CPM5_DBE_ERR_FUNC_MAP | EQDMA_CPM5_DBE_ERR_DSC_HW_CTXT | EQDMA_CPM5_DBE_ERR_DSC_CRD_RCV
  | EQDMA_CPM5_DBE_ERR_DSC_SW_CTXT | EQDMA_CPM5_DBE_ERR_DSC_CPLI | EQDMA_CPM5_DBE_ERR_DSC_CPLD
  | EQDMA_CPM5_DBE_ERR_MI_TL_SLV_FIFO_RAM | EQDMA_CPM5_DBE_ERR_TIMER_FIFO_RAM | EQDMA_CPM5_DBE_ERR_QID_FIFO_RAM
  | EQDMA_CPM5_DBE_ERR_WRB_COAL_DATA_RAM | EQDMA_CPM5_DBE_ERR_INT_CTXT_RAM | EQDMA_CPM5_DBE_ERR_DESC_REQ_FIFO_RAM
  | EQDMA_CPM5_DBE_ERR_PFCH_CTXT_RAM | EQDMA_CPM5_DBE_ERR_WRB_CTXT_RAM | EQDMA_CPM5_DBE_ERR_PFCH_LL_RAM
  | EQDMA_CPM5_DBE_ERR_PEND_FIFO_RAM | EQDMA_CPM5_DBE_ERR_RC_RRQ_ODD_RAM | EQDMA_CPM5_DBE_ERR_ALL
  | EQDMA_CPM5_MM_C2H_WR_SLR_ERR | EQDMA_CPM5_MM_C2H_RD_SLR_ERR | EQDMA_CPM5_MM_C2H_WR_FLR_ERR
  | EQDMA_CPM5_MM_C2H_UR_ERR | EQDMA_CPM5_MM_C2H_WR_UC_RAM_ERR | EQDMA_CPM5_MM_C2H_ERR_ALL
  | EQDMA_CPM5_MM_H2C0_RD_HDR_POISON_ERR | EQDMA_CPM5_MM_H2C0_RD_UR_CA_ERR | EQDMA_CPM5_MM_H2C0_RD_HDR_BYTE_ERR
  | EQDMA_CPM5_MM_H2C0_RD_HDR_PARAM_ERR | EQDMA_CPM5_MM_H2C0_RD_HDR_ADR_ERR | EQDMA_CPM5_MM_H2C0_RD_FLR_ERR
  | EQDMA_CPM5_MM_H2C0_RD_DAT_POISON_ERR | EQDMA_CPM5_MM_H2C0_RD_RQ_DIS_ERR | EQDMA_CPM5_MM_H2C0_WR_DEC_ERR
  | EQDMA_CPM5_MM_H2C0_WR_SLV_ERR | EQDMA_CPM5_MM_H2C0_ERR_ALL | EQDMA_CPM5_ERRS_ALL.
Definition eqdma_cpm5_error_idx_val (e : eqdma_cpm5_error_idx) : Z :=
  match e with
  | EQDMA_CPM5_DSC_ERR_POISON => 0 | EQDMA_CPM5_DSC_ERR_UR_CA => 1 | EQDMA_CPM5_DSC_ERR_BCNT => 2
  | EQDMA_CPM5_DSC_ERR_PARAM => 3 | EQDMA_CPM5_DSC_ERR_ADDR => 4 | EQDMA_CPM5_DSC_ERR_TAG => 5
  | EQDMA_CPM5_DSC_ERR_FLR => 6 | EQDMA_CPM5_DSC_ERR_TIMEOUT => 7 | EQDMA_CPM5_DSC_ERR_DAT_POISON => 8
  | EQDMA_CPM5_DSC_ERR_FLR_CANCEL => 9 | EQDMA_CPM5_DSC_ERR_DMA => 10 | EQDMA_CPM5_DSC_ERR_DSC => 11
  | EQDMA_CPM5_DSC_ERR_RQ_CANCEL => 12 | EQDMA_CPM5_DSC_ERR_DBE => 13 | EQDMA_CPM5_DSC_ERR_SBE => 14
  | EQDMA_CPM5_DSC_ERR_PORT_ID => 15 | EQDMA_CPM5_DSC_ERR_ALL => 16 | EQDMA_CPM5_TRQ_ERR_CSR_UNMAPPED => 17
  | EQDMA_CPM5_TRQ_ERR_VF_ACCESS => 18 | EQDMA_CPM5_TRQ_ERR_TCP_CSR_TIMEOUT => 19
  | EQDMA_CPM5_TRQ_ERR_QSPC_UNMAPPED => 20 | EQDMA_CPM5_TRQ_ERR_QID_RANGE => 21
  | EQDMA_CPM5_TRQ_ERR_TCP_QSPC_TIMEOUT => 22 | EQDMA_CPM5_TRQ_ERR_ALL => 23
  | EQDMA_CPM5_ST_C2H_ERR_MTY_MISMATCH => 24 | EQDMA_CPM5_ST_C2H_ERR_LEN_MISMATCH => 25
  | EQDMA_CPM5_ST_C2H_ERR_SH_CMPT_DSC => 26 | EQDMA_CPM5_ST_C2H_ERR_QID_MISMATCH => 27
  | EQDMA_CPM5_ST_C2H_ERR_DESC_RSP_ERR => 28 | EQDMA_CPM5_ST_C2H_ERR_ENG_WPL_DATA_PAR_ERR => 29
  | EQDMA_CPM5_ST_C2H_ERR_MSI_INT_FAIL => 30 | EQDMA_CPM5_ST_C2H_ERR_ERR_DESC_CNT => 31
  | EQDMA_CPM5_ST_C2H_ERR_PORTID_CTXT_MISMATCH => 32 | EQDMA_CPM5_ST_C2H_ERR_CMPT_INV_Q_ERR => 33
  | EQDMA_CPM5_ST_C2H_ERR_CMPT_QFULL_ERR => 34 | EQDMA_CPM5_ST_C2H_ERR_CMPT_CIDX_ERR => 35
  | EQDMA_CPM5_ST_C2H_ERR_CMPT_PRTY_ERR => 36 | EQDMA_CPM5_ST_C2H_ERR_AVL_RING_DSC => 37
  | EQDMA_CPM5_ST_C2H_ERR_HDR_ECC_UNC => 38 | EQDMA_CPM5_ST_C2H_ERR_HDR_ECC_COR => 39
  | EQDMA_CPM5_ST_C2H_ERR_WRB_PORT_ID_ERR => 40 | EQDMA_CPM5_ST_C2H_ERR_ALL => 41
  | EQDMA_CPM5_ST_FATAL_ERR_MTY_MISMATCH => 42 | EQDMA_CPM5_ST_FATAL_ERR_LEN_MISMATCH => 43
  | EQDMA_CPM5_ST_FATAL_ERR_QID_MISMATCH => 44 | EQDMA_CPM5_ST_FATAL_ERR_TIMER_FIFO_RAM_RDBE => 45
  | EQDMA_CPM5_ST_FATAL_ERR_PFCH_II_RAM_RDBE => 46 | EQDMA_CPM5_ST_FATAL_ERR_CMPT_CTXT_RAM_RDBE => 47
  | EQDMA_CPM5_ST_FATAL_ERR_PFCH_CTXT_RAM_RDBE => 48 | EQDMA_CPM5_ST_FATAL_ERR_DESC_REQ_FIFO_RAM_RDBE => 49
  | EQDMA_CPM5_ST_FATAL_ERR_INT_CTXT_RAM_RDBE => 50 | EQDMA_CPM5_ST_FATAL_ERR_CMPT_COAL_DATA_RAM_RDBE => 51
  | EQDMA_CPM5_ST_FATAL_ERR_CMPT_FIFO_RAM_RDBE => 52 | EQDMA_CPM5_ST_FATAL_ERR_QID_FIFO_RAM_RDBE => 53
  | EQDMA_CPM5_ST_FATAL_ERR_PAYLOAD_FIFO_RAM_RDBE => 54 | EQDMA_CPM5_ST_FATAL_ERR_WPL_DATA_PAR => 55
  | EQDMA_CPM5_ST_FATAL_ERR_AVL_RING_FIFO_RAM_RDBE => 56 | EQDMA_CPM5_ST_FATAL_ERR_HDR_ECC_UNC => 57
  | EQDMA_CPM5_ST_FATAL_ERR_ALL => 58 | EQDMA_CPM5_ST_H2C_ERR_ZERO_LEN_DESC => 59
  | EQDMA_CPM5_ST_H2C_ERR_SDI_MRKR_REQ_MOP => 60 | EQDMA_CPM5_ST_H2C_ERR_NO_DMA_DSC => 61
  | EQDMA_CPM5_ST_H2C_ERR_SBE => 62 | EQDMA_CPM5_ST_H2C_ERR_DBE => 63 | EQDMA_CPM5_ST_H2C_ERR_PAR => 64
  | EQDMA_CPM5_ST_H2C_ERR_ALL => 65 | EQDMA_CPM5_SBE_1_ERR_RC_RRQ_EVEN_RAM => 66
  | EQDMA_CPM5_SBE_1_ERR_TAG_ODD_RAM => 67 | EQDMA_CPM5_SBE_1_ERR_TAG_EVEN_RAM => 68
  | EQDMA_CPM5_SBE_1_ERR_PFCH_CTXT_CAM_RAM_0 => 69 | EQDMA_CPM5_SBE_1_ERR_PFCH_CTXT_CAM_RAM_1 => 70
  | EQDMA_CPM5_SBE_1_ERR_ALL => 71 | EQDMA_CPM5_SBE_ERR_MI_H2C0_DAT => 72 | EQDMA_CPM5_SBE_ERR_MI_H2C1_DAT => 73
  | EQDMA_CPM5_SBE_ERR_MI_H2C2_DAT => 74 | EQDMA_CPM5_SBE_ERR_MI_H2C3_DAT => 75
  | EQDMA_CPM5_SBE_ERR_MI_C2H0_DAT => 76 | EQDMA_CPM5_SBE_ERR_MI_C2H1_DAT => 77
  | EQDMA_CPM5_SBE_ERR_MI_C2H2_DAT => 78 | EQDMA_CPM5_SBE_ERR_MI_C2H3_DAT => 79
  | EQDMA_CPM5_SBE_ERR_H2C_RD_BRG_DAT => 80 | EQDMA_CPM5_SBE_ERR_H2C_WR_BRG_DAT => 81
  | EQDMA_CPM5_SBE_ERR_C2H_RD_BRG_DAT => 82 | EQDMA_CPM5_SBE_ERR_C2H_WR_BRG_DAT => 83
  | EQDMA_CPM5_SBE_ERR_FUNC_MAP => 84 | EQDMA_CPM5_SBE_ERR_DSC_HW_CTXT => 85 | EQDMA_CPM5_SBE_ERR_DSC_CRD_RCV => 86
  | EQDMA_CPM5_SBE_ERR_DSC_SW_CTXT => 87 | EQDMA_CPM5_SBE_ERR_DSC_CPLI => 88 | EQDMA_CPM5_SBE_ERR_DSC_CPLD => 89
  | EQDMA_CPM5_SBE_ERR_MI_TL_SLV_FIFO_RAM => 90 | EQDMA_CPM5_SBE_ERR_TIMER_FIFO_RAM => 91
  | EQDMA_CPM5_SBE_ERR_QID_FIFO_RAM => 92 | EQDMA_CPM5_SBE_ERR_WRB_COAL_DATA_RAM => 93
  | EQDMA_CPM5_SBE_ERR_INT_CTXT_RAM => 94 | EQDMA_CPM5_SBE_ERR_DESC_REQ_FIFO_RAM => 95
  | EQDMA_CPM5_SBE_ERR_PFCH_CTXT_RAM => 96 | EQDMA_CPM5_SBE_ERR_WRB_CTXT_RAM => 97
  | EQDMA_CPM5_SBE_ERR_PFCH_LL_RAM => 98 | EQDMA_CPM5_SBE_ERR_PEND_FIFO_RAM => 99
  | EQDMA_CPM5_SBE_ERR_RC_RRQ_ODD_RAM => 100 | EQDMA_CPM5_SBE_ERR_ALL => 101
  | EQDMA_CPM5_DBE_1_ERR_RC_RRQ_EVEN_RAM => 102 | EQDMA_CPM5_DBE_1_ERR_TAG_ODD_RAM => 103
  | EQDMA_CPM5_DBE_1_ERR_TAG_EVEN_RAM => 104 | EQDMA_CPM5_DBE_1_ERR_PFCH_CTXT_CAM_RAM_0 => 105
  | EQDMA_CPM5_DBE_1_ERR_PFCH_CTXT_CAM_RAM_1 => 106 | EQDMA_CPM5_DBE_1_ERR_ALL => 107
  | EQDMA_CPM5_DBE_ERR_MI_H2C0_DAT => 108 | EQDMA_CPM5_DBE_ERR_MI_H2C1_DAT => 109
  | EQDMA_CPM5_DBE_ERR_MI_H2C2_DAT => 110 | EQDMA_CPM5_DBE_ERR_MI_H2C3_DAT => 111
  | EQDMA_CPM5_DBE_ERR_MI_C2H0_DAT => 112 | EQDMA_CPM5_DBE_ERR_MI_C2H1_DAT => 113
  | EQDMA_CPM5_DBE_ERR_MI_C2H2_DAT => 114 | EQDMA_CPM5_DBE_ERR_MI_C2H3_DAT => 115
  | EQDMA_CPM5_DBE_ERR_H2C_RD_BRG_DAT => 116 | EQDMA_CPM5_DBE_ERR_H2C_WR_BRG_DAT => 117
  | EQDMA_CPM5_DBE_ERR_C2H_RD_BRG_DAT => 118 | EQDMA_CPM5_DBE_ERR_C2H_WR_BRG_DAT => 119
  | EQDMA_CPM5_DBE_ERR_FUNC_MAP => 120 | EQDMA_CPM5_DBE_ERR_DSC_HW_CTXT => 121
  | EQDMA_CPM5_DBE_ERR_DSC_CRD_RCV => 122 | EQDMA_CPM5_DBE_ERR_DSC_SW_CTXT => 123
  | EQDMA_CPM5_DBE_ERR_DSC_CPLI => 124 | EQDMA_CPM5_DBE_ERR_DSC_CPLD => 125
  | EQDMA_CPM5_DBE_ERR_MI_TL_SLV_FIFO_RAM => 126 | EQDMA_CPM5_DBE_ERR_TIMER_FIFO_RAM => 127
  | EQDMA_CPM5_DBE_ERR_QID_FIFO_RAM => 128 | EQDMA_CPM5_DBE_ERR_WRB_COAL_DATA_RAM => 129
  | EQDMA_CPM5_DBE_ERR_INT_CTXT_RAM => 130 | EQDMA_CPM5_DBE_ERR_DESC_REQ_FIFO_RAM => 131
  | EQDMA_CPM5_DBE_ERR_PFCH_CTXT_RAM => 132 | EQDMA_CPM5_DBE_ERR_WRB_CTXT_RAM => 133
  | EQDMA_CPM5_DBE_ERR_PFCH_LL_RAM => 134 | EQDMA_CPM5_DBE_ERR_PEND_FIFO_RAM => 135
  | EQDMA_CPM5_DBE_ERR_RC_RRQ_ODD_RAM => 136 | EQDMA_CPM5_DBE_ERR_ALL => 137 | EQDMA_CPM5_MM_C2H_WR_SLR_ERR => 138
  | EQDMA_CPM5_MM_C2H_RD_SLR_ERR => 139 | EQDMA_CPM5_MM_C2H_WR_FLR_ERR => 140 | EQDMA_CPM5_MM_C2H_UR_ERR => 141
  | EQDMA_CPM5_MM_C2H_WR_UC_RAM_ERR => 142 | EQDMA_CPM5_MM_C2H_ERR_ALL => 143
  | EQDMA_CPM5_MM_H2C0_RD_HDR_POISON_ERR => 144 | EQDMA_CPM5_MM_H2C0_RD_UR_CA_ERR => 145
  | EQDMA_CPM5_MM_H2C0_RD_HDR_BYTE_ERR => 146 | EQDMA_CPM5_MM_H2C0_RD_HDR_PARAM_ERR => 147
  | EQDMA_CPM5_MM_H2C0_RD_HDR_ADR_ERR => 148 | EQDMA_CPM5_MM_H2C0_RD_FLR_ERR => 149
  | EQDMA_CPM5_MM_H2C0_RD_DAT_POISON_ERR => 150 | EQDMA_CPM5_MM_H2C0_RD_RQ_DIS_ERR => 151
  | EQDMA_CPM5_MM_H2C0_WR_DEC_ERR => 152 | EQDMA_CPM5_MM_H2C0_WR_SLV_ERR => 153 | EQDMA_CPM5_MM_H2C0_ERR_ALL => 154
  | EQDMA_CPM5_ERRS_ALL => 155
  end.
Coercion eqdma_cpm5_error_idx_val : eqdma_cpm5_error_idx >-> Z.

Section ip.
Context {dev : Type} `{Device dev}.

Definition eqdma_cpm5_get_device_attributes (dev_hndl : bool) (dev_info : option qdma_dev_attributes) :
    hwm dev (Z * option qdma_dev_attributes) :=
  match dev_hndl, dev_info with
  | true, Some _ =>
    pfs ← qdma_reg_read QDMA_OFFSET_GLBL2_PF_BARLITE_INT;
    qs ← qdma_reg_read EQDMA_CPM5_GLBL2_CHANNEL_CAP_ADDR;
    misc ← qdma_reg_read EQDMA_CPM5_GLBL2_MISC_CAP_ADDR;
    mdma ← qdma_reg_read EQDMA_CPM5_GLBL2_CHANNEL_MDMA_ADDR;
    mret (QDMA_SUCCESS, Some
      {| num_pfs :=
      u8 (FIELD_GET QDMA_GLBL2_PF0_BAR_MAP_MASK pfs);
         num_qs := (let n := u16 (FIELD_GET GLBL2_CHANNEL_CAP_MULTIQ_MAX_MASK qs) in if n =? 0xFFF then n + 1 else n);
         mailbox_en := FIELD_GET EQDMA_CPM5_GLBL2_MAILBOX_EN_MASK misc;
         flr_present := FIELD_GET EQDMA_CPM5_GLBL2_FLR_PRESENT_MASK misc;
         mm_cmpt_en := 0;
         debug_mode := FIELD_GET EQDMA_CPM5_GLBL2_DBG_MODE_EN_MASK misc; desc_eng_mode := FIELD_GET EQDMA_CPM5_GLBL2_DESC_ENG_MODE_MASK misc;
         st_en := b2z (nz (FIELD_GET GLBL2_CHANNEL_MDMA_C2H_ST_MASK mdma) && nz (FIELD_GET GLBL2_CHANNEL_MDMA_H2C_ST_MASK mdma));
         mm_en := b2z (nz (FIELD_GET GLBL2_CHANNEL_MDMA_C2H_ENG_MASK mdma) && nz (FIELD_GET GLBL2_CHANNEL_MDMA_H2C_ENG_MASK mdma));
         mm_channel_max := 2; qid2vec_ctx := 0; cmpt_ovf_chk_dis := 1; mailbox_intr := 1; sw_desc_64b := 1;
         cmpt_desc_64b := 1; dynamic_bar := 1; legacy_intr := 1; cmpt_trig_count_timer := 1 |})
  | _, _ => mret (INV_PARAM, dev_info)
  end.
Definition eqdma_cpm5_get_dev_cap : hwm dev qdma_dev_attributes :=
  r ← eqdma_cpm5_get_device_attributes true (Some attr_uninit); mret (default attr_uninit r.2).

Definition eqdma_cpm5_dump_reg_info (reg_addr : Z) : hwm dev Z :=
  eqdma_cpm5_get_dev_cap;; dump_reg_info eqdma_cpm5_config_addrs reg_addr.
Definition cpm5_dump_regs (reg_list : list Z) : hwm dev unit := dump_regs eqdma_cpm5_dump_reg_info reg_list.

(** The context registers of this layer and the code around them are those of
    the soft IP. *)
Definition eqdma_cpm5_indirect_reg_read (sel : ind_ctxt_cmd_sel) (hw_qid : Z) (cnt : nat) : hwm dev (Z * list Z) :=
  qdma_indirect_reg_read sel hw_qid cnt.

(** The contexts of the first queue with an error are read to be printed. *)
Definition eqdma_cpm5_hw_err_dump_ctxt_info (first_err_qid_reg : Z) (en_st c2h : bool) : hwm dev unit :=
  first_err_qid ← qdma_reg_read first_err_qid_reg;
  eqdma_cpm5_indirect_reg_read (if c2h then QDMA_CTXT_SEL_SW_C2H else QDMA_CTXT_SEL_SW_H2C) (u16 first_err_qid)
    (Z.to_nat EQDMA_CPM5_SW_CONTEXT_NUM_WORDS);;
  eqdma_cpm5_indirect_reg_read (if c2h then QDMA_CTXT_SEL_HW_C2H else QDMA_CTXT_SEL_HW_H2C) (u16 first_err_qid)
    (Z.to_nat EQDMA_CPM5_HW_CONTEXT_NUM_WORDS);;
  if en_st && c2h then
    eqdma_cpm5_indirect_reg_read QDMA_CTXT_SEL_CMPT (u16 first_err_qid) (Z.to_nat EQDMA_CPM5_CMPT_CONTEXT_NUM_WORDS);; mret tt
  else mret tt.


(** What the handlers of the blocks read. *)
Definition eqdma_cpm5_hw_ram_sbe_err_process : hwm dev unit :=
  cpm5_dump_regs [EQDMA_CPM5_RAM_SBE_STS_A_ADDR; EQDMA_CPM5_RAM_SBE_STS_1_A_ADDR].
Definition eqdma_cpm5_hw_ram_dbe_err_process : hwm dev unit :=
  cpm5_dump_regs [EQDMA_CPM5_RAM_DBE_STS_A_ADDR; EQDMA_CPM5_RAM_DBE_STS_1_A_ADDR].
Definition eqdma_cpm5_hw_desc_err_process : hwm dev unit :=
  cpm5_dump_regs [EQDMA_CPM5_GLBL_DSC_ERR_STS_ADDR; EQDMA_CPM5_GLBL_DSC_ERR_LOG0_ADDR; EQDMA_CPM5_GLBL_DSC_ERR_LOG1_ADDR;
    EQDMA_CPM5_GLBL_DSC_DBG_DAT0_ADDR; EQDMA_CPM5_GLBL_DSC_DBG_DAT1_ADDR; EQDMA_CPM5_GLBL_DSC_ERR_LOG2_ADDR].
Definition eqdma_cpm5_hw_trq_err_process : hwm dev unit :=
  cpm5_dump_regs [EQDMA_CPM5_GLBL_TRQ_ERR_STS_ADDR; EQDMA_CPM5_GLBL_TRQ_ERR_LOG_ADDR].
Definition eqdma_cpm5_hw_st_h2c_err_process : hwm dev unit :=
  cpm5_dump_regs [EQDMA_CPM5_H2C_ERR_STAT_ADDR; EQDMA_CPM5_H2C_FIRST_ERR_QID_ADDR; EQDMA_CPM5_H2C_DBG_REG0_ADDR;
    EQDMA_CPM5_H2C_DBG_REG1_ADDR; EQDMA_CPM5_H2C_DBG_REG2_ADDR; EQDMA_CPM5_H2C_DBG_REG3_ADDR;
    EQDMA_CPM5_H2C_DBG_REG4_ADDR];;
  eqdma_cpm5_hw_err_dump_ctxt_info EQDMA_CPM5_H2C_FIRST_ERR_QID_ADDR true true.
Definition eqdma_cpm5_hw_st_c2h_err_process : hwm dev unit :=
  cpm5_dump_regs [EQDMA_CPM5_C2H_ERR_STAT_ADDR; EQDMA_CPM5_C2H_FATAL_ERR_STAT_ADDR; EQDMA_CPM5_C2H_FIRST_ERR_QID_ADDR;
    EQDMA_CPM5_C2H_STAT_S_AXIS_C2H_ACCEPTED_ADDR; EQDMA_CPM5_C2H_STAT_S_AXIS_WRB_ACCEPTED_ADDR;
    EQDMA_CPM5_C2H_STAT_DESC_RSP_PKT_ACCEPTED_ADDR; EQDMA_CPM5_C2H_STAT_AXIS_PKG_CMP_ADDR;
    EQDMA_CPM5_C2H_STAT_DBG_DMA_ENG_0_ADDR; EQDMA_CPM5_C2H_STAT_DBG_DMA_ENG_1_ADDR;
    EQDMA_CPM5_C2H_STAT_DBG_DMA_ENG_2_ADDR; EQDMA_CPM5_C2H_STAT_DBG_DMA_ENG_3_ADDR;
    EQDMA_CPM5_C2H_STAT_DESC_RSP_DROP_ACCEPTED_ADDR; EQDMA_CPM5_C2H_STAT_DESC_RSP_ERR_ACCEPTED_ADDR];;
  eqdma_cpm5_hw_err_dump_ctxt_info EQDMA_CPM5_C2H_FIRST_ERR_QID_ADDR true true.
Definition eqdma_cpm5_mm_c2h0_err_process : hwm dev unit :=
  cpm5_dump_regs [EQDMA_CPM5_C2H_MM_STATUS_ADDR; EQDMA_CPM5_C2H_MM_CMPL_DESC_CNT_ADDR; EQDMA_CPM5_C2H_MM_ERR_CODE_ADDR;
    EQDMA_CPM5_C2H_MM_ERR_INFO_ADDR; EQDMA_CPM5_C2H_MM_DBG_ADDR];;
  eqdma_cpm5_hw_err_dump_ctxt_info EQDMA_CPM5_C2H_MM_ERR_INFO_ADDR false true.
Definition eqdma_cpm5_mm_h2c0_err_process : hwm dev unit :=
  cpm5_dump_regs [EQDMA_CPM5_H2C_MM_STATUS_ADDR; EQDMA_CPM5_H2C_MM_CMPL_DESC_CNT_ADDR; EQDMA_CPM5_H2C_MM_ERR_CODE_ADDR;
    EQDMA_CPM5_H2C_MM_ERR_INFO_ADDR; EQDMA_CPM5_H2C_MM_DBG_ADDR];;
  eqdma_cpm5_hw_err_dump_ctxt_info EQDMA_CPM5_H2C_MM_ERR_INFO_ADDR false true.

(** The table, block by block. *)
Definition cpm5_dsc_err_info : list (hw_err_info dev) :=
  [
    mk_err EQDMA_CPM5_DSC_ERR_POISON "Poison error"
      EQDMA_CPM5_GLBL_DSC_ERR_MSK_ADDR EQDMA_CPM5_GLBL_DSC_ERR_STS_ADDR GLBL_DSC_ERR_STS_POISON_MASK GLBL_ERR_STAT_ERR_DSC_MASK eqdma_cpm5_hw_desc_err_process;
    mk_err EQDMA_CPM5_DSC_ERR_UR_CA "Unsupported request or completer aborted error"
      EQDMA_CPM5_GLBL_DSC_ERR_MSK_ADDR EQDMA_CPM5_GLBL_DSC_ERR_STS_ADDR GLBL_DSC_ERR_STS_UR_CA_MASK GLBL_ERR_STAT_ERR_DSC_MASK eqdma_cpm5_hw_desc_err_process;
    mk_err EQDMA_CPM5_DSC_ERR_BCNT "Unexpected Byte count in completion error"
      EQDMA_CPM5_GLBL_DSC_ERR_MSK_ADDR EQDMA_CPM5_GLBL_DSC_ERR_STS_ADDR GLBL_DSC_ERR_STS_BCNT_MASK GLBL_ERR_STAT_ERR_DSC_MASK eqdma_cpm5_hw_desc_err_process;
    mk_err EQDMA_CPM5_DSC_ERR_PARAM "Parameter mismatch error"
      EQDMA_CPM5_GLBL_DSC_ERR_MSK_ADDR EQDMA_CPM5_GLBL_DSC_ERR_STS_ADDR GLBL_DSC_ERR_STS_PARAM_MASK GLBL_ERR_STAT_ERR_DSC_MASK eqdma_cpm5_hw_desc_err_process;
    mk_err EQDMA_CPM5_DSC_ERR_ADDR "Address mismatch error"
      EQDMA_CPM5_GLBL_DSC_ERR_MSK_ADDR EQDMA_CPM5_GLBL_DSC_ERR_STS_ADDR GLBL_DSC_ERR_STS_ADDR_MASK GLBL_ERR_STAT_ERR_DSC_MASK eqdma_cpm5_hw_desc_err_process;
    mk_err EQDMA_CPM5_DSC_ERR_TAG "Unexpected tag error"
      EQDMA_CPM5_GLBL_DSC_ERR_MSK_ADDR EQDMA_CPM5_GLBL_DSC_ERR_STS_ADDR GLBL_DSC_ERR_STS_TAG_MASK GLBL_ERR_STAT_ERR_DSC_MASK eqdma_cpm5_hw_desc_err_process;
    mk_err EQDMA_CPM5_DSC_ERR_FLR "FLR error"
      EQDMA_CPM5_GLBL_DSC_ERR_MSK_ADDR EQDMA_CPM5_GLBL_DSC_ERR_STS_ADDR GLBL_DSC_ERR_STS_FLR_MASK GLBL_ERR_STAT_ERR_DSC_MASK eqdma_cpm5_hw_desc_err_process;
    mk_err EQDMA_CPM5_DSC_ERR_TIMEOUT "Timed out error"
      EQDMA_CPM5_GLBL_DSC_ERR_MSK_ADDR EQDMA_CPM5_GLBL_DSC_ERR_STS_ADDR GLBL_DSC_ERR_STS_TIMEOUT_MASK GLBL_ERR_STAT_ERR_DSC_MASK eqdma_cpm5_hw_desc_err_process;
    mk_err EQDMA_CPM5_DSC_ERR_DAT_POISON "Poison data error"
      EQDMA_CPM5_GLBL_DSC_ERR_MSK_ADDR EQDMA_CPM5_GLBL_DSC_ERR_STS_ADDR GLBL_DSC_ERR_STS_DAT_POISON_MASK GLBL_ERR_STAT_ERR_DSC_MASK eqdma_cpm5_hw_desc_err_process;
    mk_err EQDMA_CPM5_DSC_ERR_FLR_CANCEL "Descriptor fetch cancelled due to FLR error"
      EQDMA_CPM5_GLBL_DSC_ERR_MSK_ADDR EQDMA_CPM5_GLBL_DSC_ERR_STS_ADDR GLBL_DSC_ERR_STS_FLR_CANCEL_MASK GLBL_ERR_STAT_ERR_DSC_MASK eqdma_cpm5_hw_desc_err_process;
    mk_err EQDMA_CPM5_DSC_ERR_DMA "DMA engine error"
      EQDMA_CPM5_GLBL_DSC_ERR_MSK_ADDR EQDMA_CPM5_GLBL_DSC_ERR_STS_ADDR GLBL_DSC_ERR_STS_DMA_MASK GLBL_ERR_STAT_ERR_DSC_MASK eqdma_cpm5_hw_desc_err_process;
    mk_err EQDMA_CPM5_DSC_ERR_DSC "Invalid PIDX update error"
      EQDMA_CPM5_GLBL_DSC_ERR_MSK_ADDR EQDMA_CPM5_GLBL_DSC_ERR_STS_ADDR GLBL_DSC_ERR_STS_DSC_MASK GLBL_ERR_STAT_ERR_DSC_MASK eqdma_cpm5_hw_desc_err_process;
    mk_err EQDMA_CPM5_DSC_ERR_RQ_CANCEL "Descriptor fetch cancelled due to disable register status error"
      EQDMA_CPM5_GLBL_DSC_ERR_MSK_ADDR EQDMA_CPM5_GLBL_DSC_ERR_STS_ADDR GLBL_DSC_ERR_STS_RQ_CANCEL_MASK GLBL_ERR_STAT_ERR_DSC_MASK eqdma_cpm5_hw_desc_err_process;
    mk_err EQDMA_CPM5_DSC_ERR_DBE "UNC_ERR_RAM_DBE error"
      EQDMA_CPM5_GLBL_DSC_ERR_MSK_ADDR EQDMA_CPM5_GLBL_DSC_ERR_STS_ADDR GLBL_DSC_ERR_STS_DBE_MASK GLBL_ERR_STAT_ERR_DSC_MASK eqdma_cpm5_hw_desc_err_process;
    mk_err EQDMA_CPM5_DSC_ERR_SBE "UNC_ERR_RAM_SBE error"
      EQDMA_CPM5_GLBL_DSC_ERR_MSK_ADDR EQDMA_CPM5_GLBL_DSC_ERR_STS_ADDR GLBL_DSC_ERR_STS_SBE_MASK GLBL_ERR_STAT_ERR_DSC_MASK eqdma_cpm5_hw_desc_err_process;
    mk_err EQDMA_CPM5_DSC_ERR_PORT_ID "Port ID Error"
      EQDMA_CPM5_GLBL_DSC_ERR_MSK_ADDR EQDMA_CPM5_GLBL_DSC_ERR_STS_ADDR GLBL_DSC_ERR_STS_PORT_ID_MASK GLBL_ERR_STAT_ERR_DSC_MASK eqdma_cpm5_hw_desc_err_process;
    mk_err EQDMA_CPM5_DSC_ERR_ALL "All Descriptor errors"
      EQDMA_CPM5_GLBL_DSC_ERR_MSK_ADDR EQDMA_CPM5_GLBL_DSC_ERR_STS_ADDR EQDMA_CPM5_GLBL_DSC_ERR_ALL_MASK GLBL_ERR_STAT_ERR_DSC_MASK eqdma_cpm5_hw_desc_err_process
  ].
Definition cpm5_trq_err_info : list (hw_err_info dev) :=
  [
    mk_err EQDMA_CPM5_TRQ_ERR_CSR_UNMAPPED "Access targeted unmapped register space via CSR pathway error"
      EQDMA_CPM5_GLBL_TRQ_ERR_MSK_ADDR EQDMA_CPM5_GLBL_TRQ_ERR_STS_ADDR GLBL_TRQ_ERR_STS_CSR_UNMAPPED_MASK GLBL_ERR_STAT_ERR_TRQ_MASK eqdma_cpm5_hw_trq_err_process;
    mk_err EQDMA_CPM5_TRQ_ERR_VF_ACCESS "VF attempted to access Global register space or Function map"
      EQDMA_CPM5_GLBL_TRQ_ERR_MSK_ADDR EQDMA_CPM5_GLBL_TRQ_ERR_STS_ADDR GLBL_TRQ_ERR_STS_VF_ACCESS_ERR_MASK GLBL_ERR_STAT_ERR_TRQ_MASK eqdma_cpm5_hw_trq_err_process;
    mk_err EQDMA_CPM5_TRQ_ERR_TCP_CSR_TIMEOUT "Timeout on request to dma internal csr register"
      EQDMA_CPM5_GLBL_TRQ_ERR_MSK_ADDR EQDMA_CPM5_GLBL_TRQ_ERR_STS_ADDR GLBL_TRQ_ERR_STS_TCP_CSR_TIMEOUT_MASK GLBL_ERR_STAT_ERR_TRQ_MASK eqdma_cpm5_hw_trq_err_process;
    mk_err EQDMA_CPM5_TRQ_ERR_QSPC_UNMAPPED "Access targeted unmapped register via queue space pathway"
      EQDMA_CPM5_GLBL_TRQ_ERR_MSK_ADDR EQDMA_CPM5_GLBL_TRQ_ERR_STS_ADDR GLBL_TRQ_ERR_STS_QSPC_UNMAPPED_MASK GLBL_ERR_STAT_ERR_TRQ_MASK eqdma_cpm5_hw_trq_err_process;
    mk_err EQDMA_CPM5_TRQ_ERR_QID_RANGE "Qid range error"
      EQDMA_CPM5_GLBL_TRQ_ERR_MSK_ADDR EQDMA_CPM5_GLBL_TRQ_ERR_STS_ADDR GLBL_TRQ_ERR_STS_QID_RANGE_MASK GLBL_ERR_STAT_ERR_TRQ_MASK eqdma_cpm5_hw_trq_err_process;
    mk_err EQDMA_CPM5_TRQ_ERR_TCP_QSPC_TIMEOUT "Timeout on request to dma internal queue space register"
      EQDMA_CPM5_GLBL_TRQ_ERR_MSK_ADDR EQDMA_CPM5_GLBL_TRQ_ERR_STS_ADDR GLBL_TRQ_ERR_STS_TCP_QSPC_TIMEOUT_MASK GLBL_ERR_STAT_ERR_TRQ_MASK eqdma_cpm5_hw_trq_err_process;
    mk_err EQDMA_CPM5_TRQ_ERR_ALL "All TRQ errors"
      EQDMA_CPM5_GLBL_TRQ_ERR_MSK_ADDR EQDMA_CPM5_GLBL_TRQ_ERR_STS_ADDR EQDMA_CPM5_GLBL_TRQ_ERR_ALL_MASK GLBL_ERR_STAT_ERR_TRQ_MASK eqdma_cpm5_hw_trq_err_process
  ].
Definition cpm5_st_c2h_err_info : list (hw_err_info dev) :=
  [
    mk_err EQDMA_CPM5_ST_C2H_ERR_MTY_MISMATCH "MTY mismatch error"
      EQDMA_CPM5_C2H_ERR_MASK_ADDR EQDMA_CPM5_C2H_ERR_STAT_ADDR C2H_ERR_STAT_MTY_MISMATCH_MASK GLBL_ERR_STAT_ERR_C2H_ST_MASK eqdma_cpm5_hw_st_c2h_err_process;
    mk_err EQDMA_CPM5_ST_C2H_ERR_LEN_MISMATCH "Packet length mismatch error"
      EQDMA_CPM5_C2H_ERR_MASK_ADDR EQDMA_CPM5_C2H_ERR_STAT_ADDR C2H_ERR_STAT_LEN_MISMATCH_MASK GLBL_ERR_STAT_ERR_C2H_ST_MASK eqdma_cpm5_hw_st_c2h_err_process;
    mk_err EQDMA_CPM5_ST_C2H_ERR_SH_CMPT_DSC "A Shared CMPT queue has encountered a descriptor error"
      EQDMA_CPM5_C2H_ERR_MASK_ADDR EQDMA_CPM5_C2H_ERR_STAT_ADDR C2H_ERR_STAT_SH_CMPT_DSC_ERR_MASK GLBL_ERR_STAT_ERR_C2H_ST_MASK eqdma_cpm5_hw_st_c2h_err_process;
    mk_err EQDMA_CPM5_ST_C2H_ERR_QID_MISMATCH "Qid mismatch error"
      EQDMA_CPM5_C2H_ERR_MASK_ADDR EQDMA_CPM5_C2H_ERR_STAT_ADDR C2H_ERR_STAT_QID_MISMATCH_MASK GLBL_ERR_STAT_ERR_C2H_ST_MASK eqdma_cpm5_hw_st_c2h_err_process;
    mk_err EQDMA_CPM5_ST_C2H_ERR_DESC_RSP_ERR "Descriptor error bit set"
      EQDMA_CPM5_C2H_ERR_MASK_ADDR EQDMA_CPM5_C2H_ERR_STAT_ADDR C2H_ERR_STAT_DESC_RSP_ERR_MASK GLBL_ERR_STAT_ERR_C2H_ST_MASK eqdma_cpm5_hw_st_c2h_err_process;
    mk_err EQDMA_CPM5_ST_C2H_ERR_ENG_WPL_DATA_PAR_ERR "Data parity error"
      EQDMA_CPM5_C2H_ERR_MASK_ADDR EQDMA_CPM5_C2H_ERR_STAT_ADDR C2H_ERR_STAT_ENG_WPL_DATA_PAR_ERR_MASK GLBL_ERR_STAT_ERR_C2H_ST_MASK eqdma_cpm5_hw_st_c2h_err_process;
    mk_err EQDMA_CPM5_ST_C2H_ERR_MSI_INT_FAIL "MSI got a fail response error"
      EQDMA_CPM5_C2H_ERR_MASK_ADDR EQDMA_CPM5_C2H_ERR_STAT_ADDR C2H_ERR_STAT_MSI_INT_FAIL_MASK GLBL_ERR_STAT_ERR_C2H_ST_MASK eqdma_cpm5_hw_st_c2h_err_process;
    mk_err EQDMA_CPM5_ST_C2H_ERR_ERR_DESC_CNT "Descriptor count error"
      EQDMA_CPM5_C2H_ERR_MASK_ADDR EQDMA_CPM5_C2H_ERR_STAT_ADDR C2H_ERR_STAT_ERR_DESC_CNT_MASK GLBL_ERR_STAT_ERR_C2H_ST_MASK eqdma_cpm5_hw_st_c2h_err_process;
    mk_err EQDMA_CPM5_ST_C2H_ERR_PORTID_CTXT_MISMATCH "Port id in packet and pfetch ctxt mismatch error"
      EQDMA_CPM5_C2H_ERR_MASK_ADDR EQDMA_CPM5_C2H_ERR_STAT_ADDR C2H_ERR_STAT_PORT_ID_CTXT_MISMATCH_MASK GLBL_ERR_STAT_ERR_C2H_ST_MASK eqdma_cpm5_hw_st_c2h_err_process;
    mk_err EQDMA_CPM5_ST_C2H_ERR_CMPT_INV_Q_ERR "Writeback on invalid queue error"
      EQDMA_CPM5_C2H_ERR_MASK_ADDR EQDMA_CPM5_C2H_ERR_STAT_ADDR C2H_ERR_STAT_WRB_INV_Q_ERR_MASK GLBL_ERR_STAT_ERR_C2H_ST_MASK eqdma_cpm5_hw_st_c2h_err_process;
    mk_err EQDMA_CPM5_ST_C2H_ERR_CMPT_QFULL_ERR "Completion queue gets full error"
      EQDMA_CPM5_C2H_ERR_MASK_ADDR EQDMA_CPM5_C2H_ERR_STAT_ADDR C2H_ERR_STAT_WRB_QFULL_ERR_MASK GLBL_ERR_STAT_ERR_C2H_ST_MASK eqdma_cpm5_hw_st_c2h_err_process;
    mk_err EQDMA_CPM5_ST_C2H_ERR_CMPT_CIDX_ERR "Bad CIDX update by the software error"
      EQDMA_CPM5_C2H_ERR_MASK_ADDR EQDMA_CPM5_C2H_ERR_STAT_ADDR C2H_ERR_STAT_WRB_CIDX_ERR_MASK GLBL_ERR_STAT_ERR_C2H_ST_MASK eqdma_cpm5_hw_st_c2h_err_process;
    mk_err EQDMA_CPM5_ST_C2H_ERR_CMPT_PRTY_ERR "C2H completion Parity error"
      EQDMA_CPM5_C2H_ERR_MASK_ADDR EQDMA_CPM5_C2H_ERR_STAT_ADDR C2H_ERR_STAT_WRB_PRTY_ERR_MASK GLBL_ERR_STAT_ERR_C2H_ST_MASK eqdma_cpm5_hw_st_c2h_err_process;
    mk_err EQDMA_CPM5_ST_C2H_ERR_AVL_RING_DSC "Available ring fetch returns descriptor with error"
      EQDMA_CPM5_C2H_ERR_MASK_ADDR EQDMA_CPM5_C2H_ERR_STAT_ADDR C2H_ERR_STAT_AVL_RING_DSC_ERR_MASK GLBL_ERR_STAT_ERR_C2H_ST_MASK eqdma_cpm5_hw_st_c2h_err_process;
    mk_err EQDMA_CPM5_ST_C2H_ERR_HDR_ECC_UNC "multi-bit ecc error on c2h packet header"
      EQDMA_CPM5_C2H_ERR_MASK_ADDR EQDMA_CPM5_C2H_ERR_STAT_ADDR C2H_ERR_STAT_HDR_ECC_UNC_ERR_MASK GLBL_ERR_STAT_ERR_C2H_ST_MASK eqdma_cpm5_hw_st_c2h_err_process;
    mk_err EQDMA_CPM5_ST_C2H_ERR_HDR_ECC_COR "single-bit ecc error on c2h packet header"
      EQDMA_CPM5_C2H_ERR_MASK_ADDR EQDMA_CPM5_C2H_ERR_STAT_ADDR C2H_ERR_STAT_HDR_ECC_COR_ERR_MASK GLBL_ERR_STAT_ERR_C2H_ST_MASK eqdma_cpm5_hw_st_c2h_err_process;
    mk_err EQDMA_CPM5_ST_C2H_ERR_WRB_PORT_ID_ERR "Port ID error"
      EQDMA_CPM5_C2H_ERR_MASK_ADDR EQDMA_CPM5_C2H_ERR_STAT_ADDR C2H_ERR_STAT_WRB_PORT_ID_ERR_MASK GLBL_ERR_STAT_ERR_C2H_ST_MASK eqdma_cpm5_hw_st_c2h_err_process;
    mk_err EQDMA_CPM5_ST_C2H_ERR_ALL "All C2h errors"
      EQDMA_CPM5_C2H_ERR_MASK_ADDR EQDMA_CPM5_C2H_ERR_STAT_ADDR EQDMA_CPM5_C2H_ERR_ALL_MASK GLBL_ERR_STAT_ERR_C2H_ST_MASK eqdma_cpm5_hw_st_c2h_err_process
  ].
Definition cpm5_st_fatal_err_info : list (hw_err_info dev) :=
  [
    mk_err EQDMA_CPM5_ST_FATAL_ERR_MTY_MISMATCH "Fatal MTY mismatch error"
      EQDMA_CPM5_C2H_FATAL_ERR_MASK_ADDR EQDMA_CPM5_C2H_FATAL_ERR_STAT_ADDR C2H_FATAL_ERR_STAT_MTY_MISMATCH_MASK GLBL_ERR_STAT_ERR_C2H_ST_MASK eqdma_cpm5_hw_st_c2h_err_process;
    mk_err EQDMA_CPM5_ST_FATAL_ERR_LEN_MISMATCH "Fatal Len mismatch error"
      EQDMA_CPM5_C2H_FATAL_ERR_MASK_ADDR EQDMA_CPM5_C2H_FATAL_ERR_STAT_ADDR C2H_FATAL_ERR_STAT_LEN_MISMATCH_MASK GLBL_ERR_STAT_ERR_C2H_ST_MASK eqdma_cpm5_hw_st_c2h_err_process;
    mk_err EQDMA_CPM5_ST_FATAL_ERR_QID_MISMATCH "Fatal Qid mismatch error"
      EQDMA_CPM5_C2H_FATAL_ERR_MASK_ADDR EQDMA_CPM5_C2H_FATAL_ERR_STAT_ADDR C2H_FATAL_ERR_STAT_QID_MISMATCH_MASK GLBL_ERR_STAT_ERR_C2H_ST_MASK eqdma_cpm5_hw_st_c2h_err_process;
    mk_err EQDMA_CPM5_ST_FATAL_ERR_TIMER_FIFO_RAM_RDBE "RAM double bit fatal error"
      EQDMA_CPM5_C2H_FATAL_ERR_MASK_ADDR EQDMA_CPM5_C2H_FATAL_ERR_STAT_ADDR C2H_FATAL_ERR_STAT_TIMER_FIFO_RAM_RDBE_MASK GLBL_ERR_STAT_ERR_C2H_ST_MASK eqdma_cpm5_hw_st_c2h_err_process;
    mk_err EQDMA_CPM5_ST_FATAL_ERR_PFCH_II_RAM_RDBE "RAM double bit fatal error"
      EQDMA_CPM5_C2H_FATAL_ERR_MASK_ADDR EQDMA_CPM5_C2H_FATAL_ERR_STAT_ADDR C2H_FATAL_ERR_STAT_PFCH_LL_RAM_RDBE_MASK GLBL_ERR_STAT_ERR_C2H_ST_MASK eqdma_cpm5_hw_st_c2h_err_process;
    mk_err EQDMA_CPM5_ST_FATAL_ERR_CMPT_CTXT_RAM_RDBE "RAM double bit fatal error"
      EQDMA_CPM5_C2H_FATAL_ERR_MASK_ADDR EQDMA_CPM5_C2H_FATAL_ERR_STAT_ADDR C2H_FATAL_ERR_STAT_WRB_CTXT_RAM_RDBE_MASK GLBL_ERR_STAT_ERR_C2H_ST_MASK eqdma_cpm5_hw_st_c2h_err_process;
    mk_err EQDMA_CPM5_ST_FATAL_ERR_PFCH_CTXT_RAM_RDBE "RAM double bit fatal error"
      EQDMA_CPM5_C2H_FATAL_ERR_MASK_ADDR EQDMA_CPM5_C2H_FATAL_ERR_STAT_ADDR C2H_FATAL_ERR_STAT_PFCH_CTXT_RAM_RDBE_MASK GLBL_ERR_STAT_ERR_C2H_ST_MASK eqdma_cpm5_hw_st_c2h_err_process;
    mk_err EQDMA_CPM5_ST_FATAL_ERR_DESC_REQ_FIFO_RAM_RDBE "RAM double bit fatal error"
      EQDMA_CPM5_C2H_FATAL_ERR_MASK_ADDR EQDMA_CPM5_C2H_FATAL_ERR_STAT_ADDR C2H_FATAL_ERR_STAT_DESC_REQ_FIFO_RAM_RDBE_MASK GLBL_ERR_STAT_ERR_C2H_ST_MASK eqdma_cpm5_hw_st_c2h_err_process;
    mk_err EQDMA_CPM5_ST_FATAL_ERR_INT_CTXT_RAM_RDBE "RAM double bit fatal error"
      EQDMA_CPM5_C2H_FATAL_ERR_MASK_ADDR EQDMA_CPM5_C2H_FATAL_ERR_STAT_ADDR C2H_FATAL_ERR_STAT_INT_CTXT_RAM_RDBE_MASK GLBL_ERR_STAT_ERR_C2H_ST_MASK eqdma_cpm5_hw_st_c2h_err_process;
    mk_err EQDMA_CPM5_ST_FATAL_ERR_CMPT_COAL_DATA_RAM_RDBE "RAM double bit fatal error"
      EQDMA_CPM5_C2H_FATAL_ERR_MASK_ADDR EQDMA_CPM5_C2H_FATAL_ERR_STAT_ADDR C2H_FATAL_ERR_STAT_WRB_COAL_DATA_RAM_RDBE_MASK GLBL_ERR_STAT_ERR_C2H_ST_MASK eqdma_cpm5_hw_st_c2h_err_process;
    mk_err EQDMA_CPM5_ST_FATAL_ERR_CMPT_FIFO_RAM_RDBE "RAM double bit fatal error"
      EQDMA_CPM5_C2H_FATAL_ERR_MASK_ADDR EQDMA_CPM5_C2H_FATAL_ERR_STAT_ADDR C2H_FATAL_ERR_STAT_CMPT_FIFO_RAM_RDBE_MASK GLBL_ERR_STAT_ERR_C2H_ST_MASK eqdma_cpm5_hw_st_c2h_err_process;
    mk_err EQDMA_CPM5_ST_FATAL_ERR_QID_FIFO_RAM_RDBE "RAM double bit fatal error"
      EQDMA_CPM5_C2H_FATAL_ERR_MASK_ADDR EQDMA_CPM5_C2H_FATAL_ERR_STAT_ADDR C2H_FATAL_ERR_STAT_QID_FIFO_RAM_RDBE_MASK GLBL_ERR_STAT_ERR_C2H_ST_MASK eqdma_cpm5_hw_st_c2h_err_process;
    mk_err EQDMA_CPM5_ST_FATAL_ERR_PAYLOAD_FIFO_RAM_RDBE "RAM double bit fatal error"
      EQDMA_CPM5_C2H_FATAL_ERR_MASK_ADDR EQDMA_CPM5_C2H_FATAL_ERR_STAT_ADDR C2H_FATAL_ERR_STAT_PLD_FIFO_RAM_RDBE_MASK GLBL_ERR_STAT_ERR_C2H_ST_MASK eqdma_cpm5_hw_st_c2h_err_process;
    mk_err EQDMA_CPM5_ST_FATAL_ERR_WPL_DATA_PAR "RAM double bit fatal error"
      EQDMA_CPM5_C2H_FATAL_ERR_MASK_ADDR EQDMA_CPM5_C2H_FATAL_ERR_STAT_ADDR C2H_FATAL_ERR_STAT_WPL_DATA_PAR_ERR_MASK GLBL_ERR_STAT_ERR_C2H_ST_MASK eqdma_cpm5_hw_st_c2h_err_process;
    mk_err EQDMA_CPM5_ST_FATAL_ERR_AVL_RING_FIFO_RAM_RDBE "RAM double bit fatal error"
      EQDMA_CPM5_C2H_FATAL_ERR_MASK_ADDR EQDMA_CPM5_C2H_FATAL_ERR_STAT_ADDR C2H_FATAL_ERR_STAT_AVL_RING_FIFO_RAM_RDBE_MASK GLBL_ERR_STAT_ERR_C2H_ST_MASK eqdma_cpm5_hw_st_c2h_err_process;
    mk_err EQDMA_CPM5_ST_FATAL_ERR_HDR_ECC_UNC "RAM double bit fatal error"
      EQDMA_CPM5_C2H_FATAL_ERR_MASK_ADDR EQDMA_CPM5_C2H_FATAL_ERR_STAT_ADDR C2H_FATAL_ERR_STAT_HDR_ECC_UNC_ERR_MASK GLBL_ERR_STAT_ERR_C2H_ST_MASK eqdma_cpm5_hw_st_c2h_err_process;
    mk_err EQDMA_CPM5_ST_FATAL_ERR_ALL "All fatal errors"
      EQDMA_CPM5_C2H_FATAL_ERR_MASK_ADDR EQDMA_CPM5_C2H_FATAL_ERR_STAT_ADDR EQDMA_CPM5_C2H_FATAL_ERR_ALL_MASK GLBL_ERR_STAT_ERR_C2H_ST_MASK eqdma_cpm5_hw_st_c2h_err_process
  ].
Definition cpm5_st_h2c_err_info : list (hw_err_info dev) :=
  [
    mk_err EQDMA_CPM5_ST_H2C_ERR_ZERO_LEN_DESC "Zero length descriptor error"
      EQDMA_CPM5_H2C_ERR_MASK_ADDR EQDMA_CPM5_H2C_ERR_STAT_ADDR H2C_ERR_STAT_ZERO_LEN_DS_MASK GLBL_ERR_STAT_ERR_H2C_ST_MASK eqdma_cpm5_hw_st_h2c_err_process;
    mk_err EQDMA_CPM5_ST_H2C_ERR_SDI_MRKR_REQ_MOP "A non-EOP descriptor received"
      EQDMA_CPM5_H2C_ERR_MASK_ADDR EQDMA_CPM5_H2C_ERR_STAT_ADDR H2C_ERR_STAT_SDI_MRKR_REQ_MOP_ERR_MASK GLBL_ERR_STAT_ERR_H2C_ST_MASK eqdma_cpm5_hw_st_h2c_err_process;
    mk_err EQDMA_CPM5_ST_H2C_ERR_NO_DMA_DSC "No DMA descriptor received error"
      EQDMA_CPM5_H2C_ERR_MASK_ADDR EQDMA_CPM5_H2C_ERR_STAT_ADDR H2C_ERR_STAT_NO_DMA_DS_MASK GLBL_ERR_STAT_ERR_H2C_ST_MASK eqdma_cpm5_hw_st_h2c_err_process;
    mk_err EQDMA_CPM5_ST_H2C_ERR_SBE "Single bit error detected on H2C-ST data error"
      EQDMA_CPM5_H2C_ERR_MASK_ADDR EQDMA_CPM5_H2C_ERR_STAT_ADDR H2C_ERR_STAT_SBE_MASK GLBL_ERR_STAT_ERR_H2C_ST_MASK eqdma_cpm5_hw_st_h2c_err_process;
    mk_err EQDMA_CPM5_ST_H2C_ERR_DBE "Double bit error detected on H2C-ST data error"
      EQDMA_CPM5_H2C_ERR_MASK_ADDR EQDMA_CPM5_H2C_ERR_STAT_ADDR H2C_ERR_STAT_DBE_MASK GLBL_ERR_STAT_ERR_H2C_ST_MASK eqdma_cpm5_hw_st_h2c_err_process;
    mk_err EQDMA_CPM5_ST_H2C_ERR_PAR "Internal data parity error"
      EQDMA_CPM5_H2C_ERR_MASK_ADDR EQDMA_CPM5_H2C_ERR_STAT_ADDR H2C_ERR_STAT_PAR_ERR_MASK GLBL_ERR_STAT_ERR_H2C_ST_MASK eqdma_cpm5_hw_st_h2c_err_process;
    mk_err EQDMA_CPM5_ST_H2C_ERR_ALL "All H2C errors"
      EQDMA_CPM5_H2C_ERR_MASK_ADDR EQDMA_CPM5_H2C_ERR_STAT_ADDR EQDMA_CPM5_H2C_ERR_ALL_MASK GLBL_ERR_STAT_ERR_H2C_ST_MASK eqdma_cpm5_hw_st_h2c_err_process
  ].
Definition cpm5_sbe_1_err_info : list (hw_err_info dev) :=
  [
    mk_err EQDMA_CPM5_SBE_1_ERR_RC_RRQ_EVEN_RAM "RC RRQ Even RAM single bit ECC error."
      EQDMA_CPM5_RAM_SBE_MSK_1_A_ADDR EQDMA_CPM5_RAM_SBE_STS_1_A_ADDR RAM_SBE_STS_1_A_RC_RRQ_EVEN_RAM_MASK GLBL_ERR_STAT_ERR_RAM_SBE_MASK eqdma_cpm5_hw_ram_sbe_err_process;
    mk_err EQDMA_CPM5_SBE_1_ERR_TAG_ODD_RAM "Tag Odd Ram single bit ECC error."
      EQDMA_CPM5_RAM_SBE_MSK_1_A_ADDR EQDMA_CPM5_RAM_SBE_STS_1_A_ADDR RAM_SBE_STS_1_A_TAG_ODD_RAM_MASK GLBL_ERR_STAT_ERR_RAM_SBE_MASK eqdma_cpm5_hw_ram_sbe_err_process;
    mk_err EQDMA_CPM5_SBE_1_ERR_TAG_EVEN_RAM "Tag Even Ram single bit ECC error."
      EQDMA_CPM5_RAM_SBE_MSK_1_A_ADDR EQDMA_CPM5_RAM_SBE_STS_1_A_ADDR RAM_SBE_STS_1_A_TAG_EVEN_RAM_MASK GLBL_ERR_STAT_ERR_RAM_SBE_MASK eqdma_cpm5_hw_ram_sbe_err_process;
    mk_err EQDMA_CPM5_SBE_1_ERR_PFCH_CTXT_CAM_RAM_0 "Pfch Ctxt CAM RAM 0 single bit ECC error."
      EQDMA_CPM5_RAM_SBE_MSK_1_A_ADDR EQDMA_CPM5_RAM_SBE_STS_1_A_ADDR RAM_SBE_STS_1_A_PFCH_CTXT_CAM_RAM_0_MASK GLBL_ERR_STAT_ERR_RAM_SBE_MASK eqdma_cpm5_hw_ram_sbe_err_process;
    mk_err EQDMA_CPM5_SBE_1_ERR_PFCH_CTXT_CAM_RAM_1 "Pfch Ctxt CAM RAM 1 single bit ECC error."
      EQDMA_CPM5_RAM_SBE_MSK_1_A_ADDR EQDMA_CPM5_RAM_SBE_STS_1_A_ADDR RAM_SBE_STS_1_A_PFCH_CTXT_CAM_RAM_1_MASK GLBL_ERR_STAT_ERR_RAM_SBE_MASK eqdma_cpm5_hw_ram_sbe_err_process;
    mk_err EQDMA_CPM5_SBE_1_ERR_ALL "All SBE Errors."
      EQDMA_CPM5_RAM_SBE_MSK_1_A_ADDR EQDMA_CPM5_RAM_SBE_STS_1_A_ADDR EQDMA_CPM5_SBE_ERR_ALL_MASK GLBL_ERR_STAT_ERR_RAM_SBE_MASK eqdma_cpm5_hw_ram_sbe_err_process
  ].
Definition cpm5_sbe_err_info : list (hw_err_info dev) :=
  [
    mk_err EQDMA_CPM5_SBE_ERR_MI_H2C0_DAT "H2C MM data buffer single bit ECC error"
      EQDMA_CPM5_RAM_SBE_MSK_A_ADDR EQDMA_CPM5_RAM_SBE_STS_A_ADDR RAM_SBE_STS_A_MI_H2C0_DAT_MASK GLBL_ERR_STAT_ERR_RAM_SBE_MASK eqdma_cpm5_hw_ram_sbe_err_process;
    mk_err EQDMA_CPM5_SBE_ERR_MI_H2C1_DAT "H2C MM data buffer single bit ECC error"
      EQDMA_CPM5_RAM_SBE_MSK_A_ADDR EQDMA_CPM5_RAM_SBE_STS_A_ADDR RAM_SBE_STS_A_MI_H2C1_DAT_MASK GLBL_ERR_STAT_ERR_RAM_SBE_MASK eqdma_cpm5_hw_ram_sbe_err_process;
    mk_err EQDMA_CPM5_SBE_ERR_MI_H2C2_DAT "H2C MM data buffer single bit ECC error"
      EQDMA_CPM5_RAM_SBE_MSK_A_ADDR EQDMA_CPM5_RAM_SBE_STS_A_ADDR RAM_SBE_STS_A_MI_H2C2_DAT_MASK GLBL_ERR_STAT_ERR_RAM_SBE_MASK eqdma_cpm5_hw_ram_sbe_err_process;
    mk_err EQDMA_CPM5_SBE_ERR_MI_H2C3_DAT "H2C MM data buffer single bit ECC error"
      EQDMA_CPM5_RAM_SBE_MSK_A_ADDR EQDMA_CPM5_RAM_SBE_STS_A_ADDR RAM_SBE_STS_A_MI_H2C3_DAT_MASK GLBL_ERR_STAT_ERR_RAM_SBE_MASK eqdma_cpm5_hw_ram_sbe_err_process;
    mk_err EQDMA_CPM5_SBE_ERR_MI_C2H0_DAT "C2H MM data buffer single bit ECC error"
      EQDMA_CPM5_RAM_SBE_MSK_A_ADDR EQDMA_CPM5_RAM_SBE_STS_A_ADDR RAM_SBE_STS_A_MI_C2H0_DAT_MASK GLBL_ERR_STAT_ERR_RAM_SBE_MASK eqdma_cpm5_hw_ram_sbe_err_process;
    mk_err EQDMA_CPM5_SBE_ERR_MI_C2H1_DAT "C2H MM data buffer single bit ECC error"
      EQDMA_CPM5_RAM_SBE_MSK_A_ADDR EQDMA_CPM5_RAM_SBE_STS_A_ADDR RAM_SBE_STS_A_MI_C2H1_DAT_MASK GLBL_ERR_STAT_ERR_RAM_SBE_MASK eqdma_cpm5_hw_ram_sbe_err_process;
    mk_err EQDMA_CPM5_SBE_ERR_MI_C2H2_DAT "C2H MM data buffer single bit ECC error"
      EQDMA_CPM5_RAM_SBE_MSK_A_ADDR EQDMA_CPM5_RAM_SBE_STS_A_ADDR RAM_SBE_STS_A_MI_C2H2_DAT_MASK GLBL_ERR_STAT_ERR_RAM_SBE_MASK eqdma_cpm5_hw_ram_sbe_err_process;
    mk_err EQDMA_CPM5_SBE_ERR_MI_C2H3_DAT "C2H MM data buffer single bit ECC error"
      EQDMA_CPM5_RAM_SBE_MSK_A_ADDR EQDMA_CPM5_RAM_SBE_STS_A_ADDR RAM_SBE_STS_A_MI_C2H3_DAT_MASK GLBL_ERR_STAT_ERR_RAM_SBE_MASK eqdma_cpm5_hw_ram_sbe_err_process;
    mk_err EQDMA_CPM5_SBE_ERR_H2C_RD_BRG_DAT "Bridge master read single bit ECC error"
      EQDMA_CPM5_RAM_SBE_MSK_A_ADDR EQDMA_CPM5_RAM_SBE_STS_A_ADDR RAM_SBE_STS_A_H2C_RD_BRG_DAT_MASK GLBL_ERR_STAT_ERR_RAM_SBE_MASK eqdma_cpm5_hw_ram_sbe_err_process;
    mk_err EQDMA_CPM5_SBE_ERR_H2C_WR_BRG_DAT "Bridge master write single bit ECC error"
      EQDMA_CPM5_RAM_SBE_MSK_A_ADDR EQDMA_CPM5_RAM_SBE_STS_A_ADDR RAM_SBE_STS_A_H2C_WR_BRG_DAT_MASK GLBL_ERR_STAT_ERR_RAM_SBE_MASK eqdma_cpm5_hw_ram_sbe_err_process;
    mk_err EQDMA_CPM5_SBE_ERR_C2H_RD_BRG_DAT "Bridge slave read data buffer single bit ECC error"
      EQDMA_CPM5_RAM_SBE_MSK_A_ADDR EQDMA_CPM5_RAM_SBE_STS_A_ADDR RAM_SBE_STS_A_C2H_RD_BRG_DAT_MASK GLBL_ERR_STAT_ERR_RAM_SBE_MASK eqdma_cpm5_hw_ram_sbe_err_process;
    mk_err EQDMA_CPM5_SBE_ERR_C2H_WR_BRG_DAT "Bridge slave write data buffer single bit ECC error"
      EQDMA_CPM5_RAM_SBE_MSK_A_ADDR EQDMA_CPM5_RAM_SBE_STS_A_ADDR RAM_SBE_STS_A_C2H_WR_BRG_DAT_MASK GLBL_ERR_STAT_ERR_RAM_SBE_MASK eqdma_cpm5_hw_ram_sbe_err_process;
    mk_err EQDMA_CPM5_SBE_ERR_FUNC_MAP "Function map RAM single bit ECC error"
      EQDMA_CPM5_RAM_SBE_MSK_A_ADDR EQDMA_CPM5_RAM_SBE_STS_A_ADDR RAM_SBE_STS_A_FUNC_MAP_MASK GLBL_ERR_STAT_ERR_RAM_SBE_MASK eqdma_cpm5_hw_ram_sbe_err_process;
    mk_err EQDMA_CPM5_SBE_ERR_DSC_HW_CTXT "Descriptor engine hardware context RAM single bit ECC error"
      EQDMA_CPM5_RAM_SBE_MSK_A_ADDR EQDMA_CPM5_RAM_SBE_STS_A_ADDR RAM_SBE_STS_A_DSC_HW_CTXT_MASK GLBL_ERR_STAT_ERR_RAM_SBE_MASK eqdma_cpm5_hw_ram_sbe_err_process;
    mk_err EQDMA_CPM5_SBE_ERR_DSC_CRD_RCV "Descriptor engine receive credit context RAM single bit ECC error"
      EQDMA_CPM5_RAM_SBE_MSK_A_ADDR EQDMA_CPM5_RAM_SBE_STS_A_ADDR RAM_SBE_STS_A_DSC_CRD_RCV_MASK GLBL_ERR_STAT_ERR_RAM_SBE_MASK eqdma_cpm5_hw_ram_sbe_err_process;
    mk_err EQDMA_CPM5_SBE_ERR_DSC_SW_CTXT "Descriptor engine software context RAM single bit ECC error"
      EQDMA_CPM5_RAM_SBE_MSK_A_ADDR EQDMA_CPM5_RAM_SBE_STS_A_ADDR RAM_SBE_STS_A_DSC_SW_CTXT_MASK GLBL_ERR_STAT_ERR_RAM_SBE_MASK eqdma_cpm5_hw_ram_sbe_err_process;
    mk_err EQDMA_CPM5_SBE_ERR_DSC_CPLI "Descriptor engine fetch completion information RAM single bit ECC error"
      EQDMA_CPM5_RAM_SBE_MSK_A_ADDR EQDMA_CPM5_RAM_SBE_STS_A_ADDR RAM_SBE_STS_A_DSC_CPLI_MASK GLBL_ERR_STAT_ERR_RAM_SBE_MASK eqdma_cpm5_hw_ram_sbe_err_process;
    mk_err EQDMA_CPM5_SBE_ERR_DSC_CPLD "Descriptor engine fetch completion data RAM single bit ECC error"
      EQDMA_CPM5_RAM_SBE_MSK_A_ADDR EQDMA_CPM5_RAM_SBE_STS_A_ADDR RAM_SBE_STS_A_DSC_CPLD_MASK GLBL_ERR_STAT_ERR_RAM_SBE_MASK eqdma_cpm5_hw_ram_sbe_err_process;
    mk_err EQDMA_CPM5_SBE_ERR_MI_TL_SLV_FIFO_RAM "TL Slavle FIFO RAM single bit ECC error"
      EQDMA_CPM5_RAM_SBE_MSK_A_ADDR EQDMA_CPM5_RAM_SBE_STS_A_ADDR RAM_SBE_STS_A_MI_TL_SLV_FIFO_RAM_MASK GLBL_ERR_STAT_ERR_RAM_SBE_MASK eqdma_cpm5_hw_ram_sbe_err_process;
    mk_err EQDMA_CPM5_SBE_ERR_TIMER_FIFO_RAM "Timer fifo RAM single bit ECC error"
      EQDMA_CPM5_RAM_SBE_MSK_A_ADDR EQDMA_CPM5_RAM_SBE_STS_A_ADDR RAM_SBE_STS_A_TIMER_FIFO_RAM_MASK GLBL_ERR_STAT_ERR_RAM_SBE_MASK eqdma_cpm5_hw_ram_sbe_err_process;
    mk_err EQDMA_CPM5_SBE_ERR_QID_FIFO_RAM "C2H ST QID FIFO RAM single bit ECC error"
      EQDMA_CPM5_RAM_SBE_MSK_A_ADDR EQDMA_CPM5_RAM_SBE_STS_A_ADDR RAM_SBE_STS_A_QID_FIFO_RAM_MASK GLBL_ERR_STAT_ERR_RAM_SBE_MASK eqdma_cpm5_hw_ram_sbe_err_process;
    mk_err EQDMA_CPM5_SBE_ERR_WRB_COAL_DATA_RAM "Writeback Coalescing RAM single bit ECC error"
      EQDMA_CPM5_RAM_SBE_MSK_A_ADDR EQDMA_CPM5_RAM_SBE_STS_A_ADDR RAM_SBE_STS_A_WRB_COAL_DATA_RAM_MASK GLBL_ERR_STAT_ERR_RAM_SBE_MASK eqdma_cpm5_hw_ram_sbe_err_process;
    mk_err EQDMA_CPM5_SBE_ERR_INT_CTXT_RAM "Interrupt context RAM single bit ECC error"
      EQDMA_CPM5_RAM_SBE_MSK_A_ADDR EQDMA_CPM5_RAM_SBE_STS_A_ADDR RAM_SBE_STS_A_INT_CTXT_RAM_MASK GLBL_ERR_STAT_ERR_RAM_SBE_MASK eqdma_cpm5_hw_ram_sbe_err_process;
    mk_err EQDMA_CPM5_SBE_ERR_DESC_REQ_FIFO_RAM "C2H ST descriptor request RAM single bit ECC error"
      EQDMA_CPM5_RAM_SBE_MSK_A_ADDR EQDMA_CPM5_RAM_SBE_STS_A_ADDR RAM_SBE_STS_A_DESC_REQ_FIFO_RAM_MASK GLBL_ERR_STAT_ERR_RAM_SBE_MASK eqdma_cpm5_hw_ram_sbe_err_process;
    mk_err EQDMA_CPM5_SBE_ERR_PFCH_CTXT_RAM "C2H ST prefetch RAM single bit ECC error"
      EQDMA_CPM5_RAM_SBE_MSK_A_ADDR EQDMA_CPM5_RAM_SBE_STS_A_ADDR RAM_SBE_STS_A_PFCH_CTXT_RAM_MASK GLBL_ERR_STAT_ERR_RAM_SBE_MASK eqdma_cpm5_hw_ram_sbe_err_process;
    mk_err EQDMA_CPM5_SBE_ERR_WRB_CTXT_RAM "C2H ST completion context RAM single bit ECC error"
      EQDMA_CPM5_RAM_SBE_MSK_A_ADDR EQDMA_CPM5_RAM_SBE_STS_A_ADDR RAM_SBE_STS_A_WRB_CTXT_RAM_MASK GLBL_ERR_STAT_ERR_RAM_SBE_MASK eqdma_cpm5_hw_ram_sbe_err_process;
    mk_err EQDMA_CPM5_SBE_ERR_PFCH_LL_RAM "C2H ST prefetch list RAM single bit ECC error"
      EQDMA_CPM5_RAM_SBE_MSK_A_ADDR EQDMA_CPM5_RAM_SBE_STS_A_ADDR RAM_SBE_STS_A_PFCH_LL_RAM_MASK GLBL_ERR_STAT_ERR_RAM_SBE_MASK eqdma_cpm5_hw_ram_sbe_err_process;
    mk_err EQDMA_CPM5_SBE_ERR_PEND_FIFO_RAM "Pend FIFO RAM single bit ECC error"
      EQDMA_CPM5_RAM_SBE_MSK_A_ADDR EQDMA_CPM5_RAM_SBE_STS_A_ADDR RAM_SBE_STS_A_PEND_FIFO_RAM_MASK GLBL_ERR_STAT_ERR_RAM_SBE_MASK eqdma_cpm5_hw_ram_sbe_err_process;
    mk_err EQDMA_CPM5_SBE_ERR_RC_RRQ_ODD_RAM "RC RRQ Odd RAM single bit ECC error."
      EQDMA_CPM5_RAM_SBE_MSK_A_ADDR EQDMA_CPM5_RAM_SBE_STS_A_ADDR RAM_SBE_STS_A_RC_RRQ_ODD_RAM_MASK GLBL_ERR_STAT_ERR_RAM_SBE_MASK eqdma_cpm5_hw_ram_sbe_err_process;
    mk_err EQDMA_CPM5_SBE_ERR_ALL "All SBE errors"
      EQDMA_CPM5_RAM_SBE_MSK_A_ADDR EQDMA_CPM5_RAM_SBE_STS_A_ADDR EQDMA_CPM5_SBE_ERR_ALL_MASK GLBL_ERR_STAT_ERR_RAM_SBE_MASK eqdma_cpm5_hw_ram_sbe_err_process
  ].
Definition cpm5_dbe_1_err_info : list (hw_err_info dev) :=
  [
    mk_err EQDMA_CPM5_DBE_1_ERR_RC_RRQ_EVEN_RAM "RC RRQ Odd RAM double bit ECC error."
      EQDMA_CPM5_RAM_DBE_MSK_1_A_ADDR EQDMA_CPM5_RAM_DBE_STS_1_A_ADDR RAM_DBE_STS_1_A_RC_RRQ_EVEN_RAM_MASK GLBL_ERR_STAT_ERR_RAM_DBE_MASK eqdma_cpm5_hw_ram_dbe_err_process;
    mk_err EQDMA_CPM5_DBE_1_ERR_TAG_ODD_RAM "Tag Odd Ram double bit ECC error."
      EQDMA_CPM5_RAM_DBE_MSK_1_A_ADDR EQDMA_CPM5_RAM_DBE_STS_1_A_ADDR RAM_DBE_STS_1_A_TAG_ODD_RAM_MASK GLBL_ERR_STAT_ERR_RAM_DBE_MASK eqdma_cpm5_hw_ram_dbe_err_process;
    mk_err EQDMA_CPM5_DBE_1_ERR_TAG_EVEN_RAM "Tag Even Ram double bit ECC error."
      EQDMA_CPM5_RAM_DBE_MSK_1_A_ADDR EQDMA_CPM5_RAM_DBE_STS_1_A_ADDR RAM_DBE_STS_1_A_TAG_EVEN_RAM_MASK GLBL_ERR_STAT_ERR_RAM_DBE_MASK eqdma_cpm5_hw_ram_dbe_err_process;
    mk_err EQDMA_CPM5_DBE_1_ERR_PFCH_CTXT_CAM_RAM_0 "Pfch Ctxt CAM RAM 0 double bit ECC error."
      EQDMA_CPM5_RAM_DBE_MSK_1_A_ADDR EQDMA_CPM5_RAM_DBE_STS_1_A_ADDR RAM_DBE_STS_1_A_PFCH_CTXT_CAM_RAM_0_MASK GLBL_ERR_STAT_ERR_RAM_DBE_MASK eqdma_cpm5_hw_ram_dbe_err_process;
    mk_err EQDMA_CPM5_DBE_1_ERR_PFCH_CTXT_CAM_RAM_1 "Pfch Ctxt CAM RAM double bit ECC error."
      EQDMA_CPM5_RAM_DBE_MSK_1_A_ADDR EQDMA_CPM5_RAM_DBE_STS_1_A_ADDR RAM_DBE_STS_1_A_PFCH_CTXT_CAM_RAM_0_MASK GLBL_ERR_STAT_ERR_RAM_DBE_MASK eqdma_cpm5_hw_ram_dbe_err_process;
    mk_err EQDMA_CPM5_DBE_1_ERR_ALL "All DBE errors"
      EQDMA_CPM5_RAM_DBE_MSK_1_A_ADDR EQDMA_CPM5_RAM_DBE_STS_1_A_ADDR EQDMA_CPM5_DBE_ERR_ALL_MASK GLBL_ERR_STAT_ERR_RAM_DBE_MASK eqdma_cpm5_hw_ram_dbe_err_process
  ].
Definition cpm5_dbe_err_info : list (hw_err_info dev) :=
  [
    mk_err EQDMA_CPM5_DBE_ERR_MI_H2C0_DAT "H2C MM data buffer double bit ECC error"
      EQDMA_CPM5_RAM_DBE_MSK_A_ADDR EQDMA_CPM5_RAM_DBE_STS_A_ADDR RAM_DBE_STS_A_MI_H2C0_DAT_MASK GLBL_ERR_STAT_ERR_RAM_DBE_MASK eqdma_cpm5_hw_ram_dbe_err_process;
    mk_err EQDMA_CPM5_DBE_ERR_MI_H2C1_DAT "H2C MM data buffer double bit ECC error"
      EQDMA_CPM5_RAM_DBE_MSK_A_ADDR EQDMA_CPM5_RAM_DBE_STS_A_ADDR RAM_DBE_STS_A_MI_H2C1_DAT_MASK GLBL_ERR_STAT_ERR_RAM_DBE_MASK eqdma_cpm5_hw_ram_dbe_err_process;
    mk_err EQDMA_CPM5_DBE_ERR_MI_H2C2_DAT "H2C MM data buffer double bit ECC error"
      EQDMA_CPM5_RAM_DBE_MSK_A_ADDR EQDMA_CPM5_RAM_DBE_STS_A_ADDR RAM_DBE_STS_A_MI_H2C2_DAT_MASK GLBL_ERR_STAT_ERR_RAM_DBE_MASK eqdma_cpm5_hw_ram_dbe_err_process;
    mk_err EQDMA_CPM5_DBE_ERR_MI_H2C3_DAT "H2C MM data buffer double bit ECC error"
      EQDMA_CPM5_RAM_DBE_MSK_A_ADDR EQDMA_CPM5_RAM_DBE_STS_A_ADDR RAM_DBE_STS_A_MI_H2C3_DAT_MASK GLBL_ERR_STAT_ERR_RAM_DBE_MASK eqdma_cpm5_hw_ram_dbe_err_process;
    mk_err EQDMA_CPM5_DBE_ERR_MI_C2H0_DAT "C2H MM data buffer double bit ECC error"
      EQDMA_CPM5_RAM_DBE_MSK_A_ADDR EQDMA_CPM5_RAM_DBE_STS_A_ADDR RAM_DBE_STS_A_MI_C2H0_DAT_MASK GLBL_ERR_STAT_ERR_RAM_DBE_MASK eqdma_cpm5_hw_ram_dbe_err_process;
    mk_err EQDMA_CPM5_DBE_ERR_MI_C2H1_DAT "C2H MM data buffer double bit ECC error"
      EQDMA_CPM5_RAM_DBE_MSK_A_ADDR EQDMA_CPM5_RAM_DBE_STS_A_ADDR RAM_DBE_STS_A_MI_C2H1_DAT_MASK GLBL_ERR_STAT_ERR_RAM_DBE_MASK eqdma_cpm5_hw_ram_dbe_err_process;
    mk_err EQDMA_CPM5_DBE_ERR_MI_C2H2_DAT "C2H MM data buffer double bit ECC error"
      EQDMA_CPM5_RAM_DBE_MSK_A_ADDR EQDMA_CPM5_RAM_DBE_STS_A_ADDR RAM_DBE_STS_A_MI_C2H2_DAT_MASK GLBL_ERR_STAT_ERR_RAM_DBE_MASK eqdma_cpm5_hw_ram_dbe_err_process;
    mk_err EQDMA_CPM5_DBE_ERR_MI_C2H3_DAT "C2H MM data buffer double bit ECC error"
      EQDMA_CPM5_RAM_DBE_MSK_A_ADDR EQDMA_CPM5_RAM_DBE_STS_A_ADDR RAM_DBE_STS_A_MI_C2H3_DAT_MASK GLBL_ERR_STAT_ERR_RAM_DBE_MASK eqdma_cpm5_hw_ram_dbe_err_process;
    mk_err EQDMA_CPM5_DBE_ERR_H2C_RD_BRG_DAT "Bridge master read double bit ECC error"
      EQDMA_CPM5_RAM_DBE_MSK_A_ADDR EQDMA_CPM5_RAM_DBE_STS_A_ADDR RAM_DBE_STS_A_H2C_RD_BRG_DAT_MASK GLBL_ERR_STAT_ERR_RAM_DBE_MASK eqdma_cpm5_hw_ram_dbe_err_process;
    mk_err EQDMA_CPM5_DBE_ERR_H2C_WR_BRG_DAT "Bridge master write double bit ECC error"
      EQDMA_CPM5_RAM_DBE_MSK_A_ADDR EQDMA_CPM5_RAM_DBE_STS_A_ADDR RAM_DBE_STS_A_H2C_WR_BRG_DAT_MASK GLBL_ERR_STAT_ERR_RAM_DBE_MASK eqdma_cpm5_hw_ram_dbe_err_process;
    mk_err EQDMA_CPM5_DBE_ERR_C2H_RD_BRG_DAT "Bridge slave read data buffer double bit ECC error"
      EQDMA_CPM5_RAM_DBE_MSK_A_ADDR EQDMA_CPM5_RAM_DBE_STS_A_ADDR RAM_DBE_STS_A_C2H_RD_BRG_DAT_MASK GLBL_ERR_STAT_ERR_RAM_DBE_MASK eqdma_cpm5_hw_ram_dbe_err_process;
    mk_err EQDMA_CPM5_DBE_ERR_C2H_WR_BRG_DAT "Bridge slave write data buffer double bit ECC error"
      EQDMA_CPM5_RAM_DBE_MSK_A_ADDR EQDMA_CPM5_RAM_DBE_STS_A_ADDR RAM_DBE_STS_A_C2H_WR_BRG_DAT_MASK GLBL_ERR_STAT_ERR_RAM_DBE_MASK eqdma_cpm5_hw_ram_dbe_err_process;
    mk_err EQDMA_CPM5_DBE_ERR_FUNC_MAP "Function map RAM double bit ECC error"
      EQDMA_CPM5_RAM_DBE_MSK_A_ADDR EQDMA_CPM5_RAM_DBE_STS_A_ADDR RAM_DBE_STS_A_FUNC_MAP_MASK GLBL_ERR_STAT_ERR_RAM_DBE_MASK eqdma_cpm5_hw_ram_dbe_err_process;
    mk_err EQDMA_CPM5_DBE_ERR_DSC_HW_CTXT "Descriptor engine hardware context RAM double bit ECC error"
      EQDMA_CPM5_RAM_DBE_MSK_A_ADDR EQDMA_CPM5_RAM_DBE_STS_A_ADDR RAM_DBE_STS_A_DSC_HW_CTXT_MASK GLBL_ERR_STAT_ERR_RAM_DBE_MASK eqdma_cpm5_hw_ram_dbe_err_process;
    mk_err EQDMA_CPM5_DBE_ERR_DSC_CRD_RCV "Descriptor engine receive credit context RAM double bit ECC error"
      EQDMA_CPM5_RAM_DBE_MSK_A_ADDR EQDMA_CPM5_RAM_DBE_STS_A_ADDR RAM_DBE_STS_A_DSC_CRD_RCV_MASK GLBL_ERR_STAT_ERR_RAM_DBE_MASK eqdma_cpm5_hw_ram_dbe_err_process;
    mk_err EQDMA_CPM5_DBE_ERR_DSC_SW_CTXT "Descriptor engine software context RAM double bit ECC error"
      EQDMA_CPM5_RAM_DBE_MSK_A_ADDR EQDMA_CPM5_RAM_DBE_STS_A_ADDR RAM_DBE_STS_A_DSC_SW_CTXT_MASK GLBL_ERR_STAT_ERR_RAM_DBE_MASK eqdma_cpm5_hw_ram_dbe_err_process;
    mk_err EQDMA_CPM5_DBE_ERR_DSC_CPLI "Descriptor engine fetch completion information RAM double bit ECC error"
      EQDMA_CPM5_RAM_DBE_MSK_A_ADDR EQDMA_CPM5_RAM_DBE_STS_A_ADDR RAM_DBE_STS_A_DSC_CPLI_MASK GLBL_ERR_STAT_ERR_RAM_DBE_MASK eqdma_cpm5_hw_ram_dbe_err_process;
    mk_err EQDMA_CPM5_DBE_ERR_DSC_CPLD "Descriptor engine fetch completion data RAM double bit ECC error"
      EQDMA_CPM5_RAM_DBE_MSK_A_ADDR EQDMA_CPM5_RAM_DBE_STS_A_ADDR RAM_DBE_STS_A_DSC_CPLD_MASK GLBL_ERR_STAT_ERR_RAM_DBE_MASK eqdma_cpm5_hw_ram_dbe_err_process;
    mk_err EQDMA_CPM5_DBE_ERR_MI_TL_SLV_FIFO_RAM "TL Slave FIFO RAM double bit ECC error"
      EQDMA_CPM5_RAM_DBE_MSK_A_ADDR EQDMA_CPM5_RAM_DBE_STS_A_ADDR RAM_DBE_STS_A_MI_TL_SLV_FIFO_RAM_MASK GLBL_ERR_STAT_ERR_RAM_DBE_MASK eqdma_cpm5_hw_ram_dbe_err_process;
    mk_err EQDMA_CPM5_DBE_ERR_TIMER_FIFO_RAM "Timer fifo RAM double bit ECC error"
      EQDMA_CPM5_RAM_DBE_MSK_A_ADDR EQDMA_CPM5_RAM_DBE_STS_A_ADDR RAM_DBE_STS_A_TIMER_FIFO_RAM_MASK GLBL_ERR_STAT_ERR_RAM_DBE_MASK eqdma_cpm5_hw_ram_dbe_err_process;
    mk_err EQDMA_CPM5_DBE_ERR_QID_FIFO_RAM "C2H ST QID FIFO RAM double bit ECC error"
      EQDMA_CPM5_RAM_DBE_MSK_A_ADDR EQDMA_CPM5_RAM_DBE_STS_A_ADDR RAM_DBE_STS_A_QID_FIFO_RAM_MASK GLBL_ERR_STAT_ERR_RAM_DBE_MASK eqdma_cpm5_hw_ram_dbe_err_process;
    mk_err EQDMA_CPM5_DBE_ERR_WRB_COAL_DATA_RAM "Writeback Coalescing RAM double bit ECC error"
      EQDMA_CPM5_RAM_DBE_MSK_A_ADDR EQDMA_CPM5_RAM_DBE_STS_A_ADDR RAM_DBE_STS_A_WRB_COAL_DATA_RAM_MASK GLBL_ERR_STAT_ERR_RAM_DBE_MASK eqdma_cpm5_hw_ram_dbe_err_process;
    mk_err EQDMA_CPM5_DBE_ERR_INT_CTXT_RAM "Interrupt context RAM double bit ECC error"
      EQDMA_CPM5_RAM_DBE_MSK_A_ADDR EQDMA_CPM5_RAM_DBE_STS_A_ADDR RAM_DBE_STS_A_INT_CTXT_RAM_MASK GLBL_ERR_STAT_ERR_RAM_DBE_MASK eqdma_cpm5_hw_ram_dbe_err_process;
    mk_err EQDMA_CPM5_DBE_ERR_DESC_REQ_FIFO_RAM "C2H ST descriptor request RAM double bit ECC error"
      EQDMA_CPM5_RAM_DBE_MSK_A_ADDR EQDMA_CPM5_RAM_DBE_STS_A_ADDR RAM_DBE_STS_A_DESC_REQ_FIFO_RAM_MASK GLBL_ERR_STAT_ERR_RAM_DBE_MASK eqdma_cpm5_hw_ram_dbe_err_process;
    mk_err EQDMA_CPM5_DBE_ERR_PFCH_CTXT_RAM "C2H ST prefetch RAM double bit ECC error"
      EQDMA_CPM5_RAM_DBE_MSK_A_ADDR EQDMA_CPM5_RAM_DBE_STS_A_ADDR RAM_DBE_STS_A_PFCH_CTXT_RAM_MASK GLBL_ERR_STAT_ERR_RAM_DBE_MASK eqdma_cpm5_hw_ram_dbe_err_process;
    mk_err EQDMA_CPM5_DBE_ERR_WRB_CTXT_RAM "C2H ST completion context RAM double bit ECC error"
      EQDMA_CPM5_RAM_DBE_MSK_A_ADDR EQDMA_CPM5_RAM_DBE_STS_A_ADDR RAM_DBE_STS_A_WRB_CTXT_RAM_MASK GLBL_ERR_STAT_ERR_RAM_DBE_MASK eqdma_cpm5_hw_ram_dbe_err_process;
    mk_err EQDMA_CPM5_DBE_ERR_PFCH_LL_RAM "C2H ST prefetch list RAM double bit ECC error"
      EQDMA_CPM5_RAM_DBE_MSK_A_ADDR EQDMA_CPM5_RAM_DBE_STS_A_ADDR RAM_DBE_STS_A_PFCH_LL_RAM_MASK GLBL_ERR_STAT_ERR_RAM_DBE_MASK eqdma_cpm5_hw_ram_dbe_err_process;
    mk_err EQDMA_CPM5_DBE_ERR_PEND_FIFO_RAM "Pend FIFO RAM double bit ECC error"
      EQDMA_CPM5_RAM_DBE_MSK_A_ADDR EQDMA_CPM5_RAM_DBE_STS_A_ADDR RAM_DBE_STS_A_PEND_FIFO_RAM_MASK GLBL_ERR_STAT_ERR_RAM_DBE_MASK eqdma_cpm5_hw_ram_dbe_err_process;
    mk_err EQDMA_CPM5_DBE_ERR_RC_RRQ_ODD_RAM "RC RRQ Odd RAM double bit ECC error."
      EQDMA_CPM5_RAM_DBE_MSK_A_ADDR EQDMA_CPM5_RAM_DBE_STS_A_ADDR RAM_DBE_STS_A_RC_RRQ_ODD_RAM_MASK GLBL_ERR_STAT_ERR_RAM_DBE_MASK eqdma_cpm5_hw_ram_dbe_err_process;
    mk_err EQDMA_CPM5_DBE_ERR_ALL "All DBE errors"
      EQDMA_CPM5_RAM_DBE_MSK_A_ADDR EQDMA_CPM5_RAM_DBE_STS_A_ADDR EQDMA_CPM5_DBE_ERR_ALL_MASK GLBL_ERR_STAT_ERR_RAM_DBE_MASK eqdma_cpm5_hw_ram_dbe_err_process
  ].
Definition cpm5_mm_c2h_err_info : list (hw_err_info dev) :=
  [
    mk_err EQDMA_CPM5_MM_C2H_WR_SLR_ERR "MM C2H0 WR SLV Error"
      EQDMA_CPM5_C2H_MM_ERR_CODE_ENABLE_MASK_ADDR EQDMA_CPM5_C2H_MM_STATUS_ADDR C2H_MM_ERR_CODE_ENABLE_WR_SLV_ERR_MASK GLBL_ERR_STAT_ERR_C2H_MM_0_MASK eqdma_cpm5_mm_c2h0_err_process;
    mk_err EQDMA_CPM5_MM_C2H_RD_SLR_ERR "MM C2H0 RD SLV Error"
      EQDMA_CPM5_C2H_MM_ERR_CODE_ENABLE_MASK_ADDR EQDMA_CPM5_C2H_MM_STATUS_ADDR C2H_MM_ERR_CODE_ENABLE_RD_SLV_ERR_MASK GLBL_ERR_STAT_ERR_C2H_MM_0_MASK eqdma_cpm5_mm_c2h0_err_process;
    mk_err EQDMA_CPM5_MM_C2H_WR_FLR_ERR "MM C2H0 WR FLR Error"
      EQDMA_CPM5_C2H_MM_ERR_CODE_ENABLE_MASK_ADDR EQDMA_CPM5_C2H_MM_STATUS_ADDR C2H_MM_ERR_CODE_ENABLE_WR_FLR_MASK GLBL_ERR_STAT_ERR_C2H_MM_0_MASK eqdma_cpm5_mm_c2h0_err_process;
    mk_err EQDMA_CPM5_MM_C2H_UR_ERR "MM C2H0 Unsupported Request Error"
      EQDMA_CPM5_C2H_MM_ERR_CODE_ENABLE_MASK_ADDR EQDMA_CPM5_C2H_MM_STATUS_ADDR C2H_MM_ERR_CODE_ENABLE_WR_UR_MASK GLBL_ERR_STAT_ERR_C2H_MM_0_MASK eqdma_cpm5_mm_c2h0_err_process;
    mk_err EQDMA_CPM5_MM_C2H_WR_UC_RAM_ERR "MM C2H0 Write Uncorrectable RAM Error"
      EQDMA_CPM5_C2H_MM_ERR_CODE_ENABLE_MASK_ADDR EQDMA_CPM5_C2H_MM_STATUS_ADDR C2H_MM_ERR_CODE_ENABLE_WR_UC_RAM_MASK GLBL_ERR_STAT_ERR_C2H_MM_0_MASK eqdma_cpm5_mm_c2h0_err_process;
    mk_err EQDMA_CPM5_MM_C2H_ERR_ALL "All MM C2H Errors"
      EQDMA_CPM5_C2H_MM_ERR_CODE_ENABLE_MASK_ADDR EQDMA_CPM5_C2H_MM_STATUS_ADDR EQDMA_CPM5_MM_C2H_ERR_ALL_MASK GLBL_ERR_STAT_ERR_C2H_MM_0_MASK eqdma_cpm5_hw_desc_err_process
  ].
Definition cpm5_mm_h2c0_err_info : list (hw_err_info dev) :=
  [
    mk_err EQDMA_CPM5_MM_H2C0_RD_HDR_POISON_ERR "MM H2C0 Read cmpt header pison Error"
      EQDMA_CPM5_H2C_MM_ERR_CODE_ENABLE_MASK_ADDR EQDMA_CPM5_H2C_MM_STATUS_ADDR H2C_MM_ERR_CODE_ENABLE_RD_HRD_POISON_ERR_MASK GLBL_ERR_STAT_ERR_H2C_MM_0_MASK eqdma_cpm5_mm_h2c0_err_process;
    mk_err EQDMA_CPM5_MM_H2C0_RD_UR_CA_ERR "MM H2C0 Read cmpt unsupported request Error"
      EQDMA_CPM5_H2C_MM_ERR_CODE_ENABLE_MASK_ADDR EQDMA_CPM5_H2C_MM_STATUS_ADDR H2C_MM_ERR_CODE_ENABLE_RD_UR_CA_MASK GLBL_ERR_STAT_ERR_H2C_MM_0_MASK eqdma_cpm5_mm_h2c0_err_process;
    mk_err EQDMA_CPM5_MM_H2C0_RD_HDR_BYTE_ERR "MM H2C0 Read cmpt hdr byte cnt Error"
      EQDMA_CPM5_H2C_MM_ERR_CODE_ENABLE_MASK_ADDR EQDMA_CPM5_H2C_MM_STATUS_ADDR H2C_MM_ERR_CODE_ENABLE_RD_HDR_BYTE_ERR_MASK GLBL_ERR_STAT_ERR_H2C_MM_0_MASK eqdma_cpm5_mm_h2c0_err_process;
    mk_err EQDMA_CPM5_MM_H2C0_RD_HDR_PARAM_ERR "MM H2C0 Read cmpt hdr param mismatch Error"
      EQDMA_CPM5_H2C_MM_ERR_CODE_ENABLE_MASK_ADDR EQDMA_CPM5_H2C_MM_STATUS_ADDR H2C_MM_ERR_CODE_ENABLE_RD_HDR_PARA_MASK GLBL_ERR_STAT_ERR_H2C_MM_0_MASK eqdma_cpm5_mm_h2c0_err_process;
    mk_err EQDMA_CPM5_MM_H2C0_RD_HDR_ADR_ERR "MM H2C0 Read cmpt hdr address mismatch Error"
      EQDMA_CPM5_H2C_MM_ERR_CODE_ENABLE_MASK_ADDR EQDMA_CPM5_H2C_MM_STATUS_ADDR H2C_MM_ERR_CODE_ENABLE_RD_HDR_ADR_ERR_MASK GLBL_ERR_STAT_ERR_H2C_MM_0_MASK eqdma_cpm5_mm_h2c0_err_process;
    mk_err EQDMA_CPM5_MM_H2C0_RD_FLR_ERR "MM H2C0 Read flr Error"
      EQDMA_CPM5_H2C_MM_ERR_CODE_ENABLE_MASK_ADDR EQDMA_CPM5_H2C_MM_STATUS_ADDR H2C_MM_ERR_CODE_ENABLE_RD_FLR_ERR_MASK GLBL_ERR_STAT_ERR_H2C_MM_0_MASK eqdma_cpm5_mm_h2c0_err_process;
    mk_err EQDMA_CPM5_MM_H2C0_RD_DAT_POISON_ERR "MM H2C0 Read data poison Error"
      EQDMA_CPM5_H2C_MM_ERR_CODE_ENABLE_MASK_ADDR EQDMA_CPM5_H2C_MM_STATUS_ADDR H2C_MM_ERR_CODE_ENABLE_RD_DAT_POISON_ERR_MASK GLBL_ERR_STAT_ERR_H2C_MM_0_MASK eqdma_cpm5_mm_h2c0_err_process;
    mk_err EQDMA_CPM5_MM_H2C0_RD_RQ_DIS_ERR "MM H2C0 Read request disable Error"
      EQDMA_CPM5_H2C_MM_ERR_CODE_ENABLE_MASK_ADDR EQDMA_CPM5_H2C_MM_STATUS_ADDR H2C_MM_ERR_CODE_ENABLE_RD_RQ_DIS_ERR_MASK GLBL_ERR_STAT_ERR_H2C_MM_0_MASK eqdma_cpm5_mm_h2c0_err_process;
    mk_err EQDMA_CPM5_MM_H2C0_WR_DEC_ERR "MM H2C0 Write desc Error"
      EQDMA_CPM5_H2C_MM_ERR_CODE_ENABLE_MASK_ADDR EQDMA_CPM5_H2C_MM_STATUS_ADDR H2C_MM_ERR_CODE_ENABLE_WR_DEC_ERR_MASK GLBL_ERR_STAT_ERR_H2C_MM_0_MASK eqdma_cpm5_mm_h2c0_err_process;
    mk_err EQDMA_CPM5_MM_H2C0_WR_SLV_ERR "MM H2C0 Write slv Error"
      EQDMA_CPM5_H2C_MM_ERR_CODE_ENABLE_MASK_ADDR EQDMA_CPM5_H2C_MM_STATUS_ADDR H2C_MM_ERR_CODE_ENABLE_WR_SLV_ERR_MASK GLBL_ERR_STAT_ERR_H2C_MM_0_MASK eqdma_cpm5_mm_h2c0_err_process;
    mk_err EQDMA_CPM5_MM_H2C0_ERR_ALL "All MM H2C Errors"
      EQDMA_CPM5_H2C_MM_ERR_CODE_ENABLE_MASK_ADDR EQDMA_CPM5_H2C_MM_STATUS_ADDR EQDMA_CPM5_MM_H2C0_ERR_ALL_MASK GLBL_ERR_STAT_ERR_H2C_MM_0_MASK eqdma_cpm5_hw_desc_err_process
  ].
Definition eqdma_cpm5_err_info : list (hw_err_info dev) :=
  cpm5_dsc_err_info ++ cpm5_trq_err_info ++ cpm5_st_c2h_err_info ++ cpm5_st_fatal_err_info ++ cpm5_st_h2c_err_info ++ cpm5_sbe_1_err_info ++ cpm5_sbe_err_info ++ cpm5_dbe_1_err_info ++ cpm5_dbe_err_info ++ cpm5_mm_c2h_err_info ++ cpm5_mm_h2c0_err_info.

Definition cpm5_hw_err_position : list Z :=
  [EQDMA_CPM5_DSC_ERR_POISON : Z; EQDMA_CPM5_TRQ_ERR_CSR_UNMAPPED : Z; EQDMA_CPM5_ST_C2H_ERR_MTY_MISMATCH : Z;
    EQDMA_CPM5_ST_FATAL_ERR_MTY_MISMATCH : Z; EQDMA_CPM5_ST_H2C_ERR_ZERO_LEN_DESC : Z;
    EQDMA_CPM5_SBE_1_ERR_RC_RRQ_EVEN_RAM : Z; EQDMA_CPM5_SBE_ERR_MI_H2C0_DAT : Z;
    EQDMA_CPM5_DBE_1_ERR_RC_RRQ_EVEN_RAM : Z; EQDMA_CPM5_DBE_ERR_MI_H2C0_DAT : Z; EQDMA_CPM5_MM_C2H_WR_SLR_ERR : Z;
    EQDMA_CPM5_MM_H2C0_RD_HDR_POISON_ERR : Z].
Definition cpm5_all_hw_errs : list Z :=
  [EQDMA_CPM5_DSC_ERR_ALL : Z; EQDMA_CPM5_TRQ_ERR_ALL : Z; EQDMA_CPM5_ST_C2H_ERR_ALL : Z;
    EQDMA_CPM5_ST_FATAL_ERR_ALL : Z; EQDMA_CPM5_ST_H2C_ERR_ALL : Z; EQDMA_CPM5_SBE_1_ERR_ALL : Z;
    EQDMA_CPM5_SBE_ERR_ALL : Z; EQDMA_CPM5_DBE_1_ERR_ALL : Z; EQDMA_CPM5_DBE_ERR_ALL : Z;
    EQDMA_CPM5_MM_C2H_ERR_ALL : Z; EQDMA_CPM5_MM_H2C0_ERR_ALL : Z].

Definition cpm5_err_ip : err_ip dev :=
  mk_err_ip eqdma_cpm5_err_info cpm5_hw_err_position cpm5_all_hw_errs
    [EQDMA_CPM5_ST_C2H_ERR_MTY_MISMATCH : Z; EQDMA_CPM5_ST_FATAL_ERR_MTY_MISMATCH : Z;
    EQDMA_CPM5_ST_H2C_ERR_ZERO_LEN_DESC : Z] [EQDMA_CPM5_ST_C2H_ERR_ALL : Z; EQDMA_CPM5_ST_FATAL_ERR_ALL : Z; EQDMA_CPM5_ST_H2C_ERR_ALL : Z]
    EQDMA_CPM5_GLBL_ERR_STAT_ADDR EQDMA_CPM5_GLBL_ERR_MASK_ADDR EQDMA_CPM5_ERRS_ALL eqdma_cpm5_get_dev_cap.

Definition eqdma_cpm5_hw_get_error_name (err_idx : Z) : option string :=
  hw_get_error_name cpm5_err_ip err_idx.
Definition eqdma_cpm5_hw_error_process (dev_hndl : bool) : hwm dev (Z * list Z) :=
  hw_error_process cpm5_err_ip dev_hndl.
Definition eqdma_cpm5_hw_error_enable (dev_hndl : bool) (err_idx : Z) : hwm dev Z :=
  hw_error_enable cpm5_err_ip dev_hndl err_idx.
End ip.
