(* ===== verification/Cpm4Err.v ===== *)
(** * Errors of the CPM4 (qdma_cpm4_access.c)

    The errors and their table, the registers its handlers print, and the
    functions of [ErrProc] on it. *)

From Stdlib Require Import String.
From S2P Require Import Prelude Platform Bits RegIO IndCtxt SoftReg SoftCtxt SoftAccess RegList ErrProc.

(** ** Registers and fields *)

Definition QDMA_CPM4_RAM_SBE_STS_A_ADDR : Z := 0xF4.
Definition QDMA_CPM4_RAM_DBE_STS_A_ADDR : Z := 0xFC.
Definition QDMA_CPM4_GLBL_DSC_ERR_STS_ADDR : Z := 0x254.
Definition QDMA_CPM4_GLBL_DSC_ERR_LOG0_ADDR : Z := 0x25C.
Definition QDMA_CPM4_GLBL_DSC_ERR_LOG1_ADDR : Z := 0x260.
Definition QDMA_CPM4_GLBL_DSC_DBG_DAT0_ADDR : Z := 0x270.
Definition QDMA_CPM4_GLBL_DSC_DBG_DAT1_ADDR : Z := 0x274.
Definition QDMA_CPM4_GLBL_TRQ_ERR_STS_ADDR : Z := 0x264.
Definition QDMA_CPM4_GLBL_TRQ_ERR_LOG_ADDR : Z := 0x26C.
Definition QDMA_CPM4_H2C_ERR_STAT_ADDR : Z := 0xE00.
Definition QDMA_CPM4_H2C_FIRST_ERR_QID_ADDR : Z := 0xE08.
Definition QDMA_CPM4_H2C_DBG_REG0_ADDR : Z := 0xE0C.
Definition QDMA_CPM4_H2C_DBG_REG1_ADDR : Z := 0xE10.
Definition QDMA_CPM4_H2C_DBG_REG2_ADDR : Z := 0xE14.
Definition QDMA_CPM4_H2C_DBG_REG3_ADDR : Z := 0xE18.
Definition QDMA_CPM4_H2C_DBG_REG4_ADDR : Z := 0xE1C.
Definition QDMA_CPM4_C2H_ERR_STAT_ADDR : Z := 0xAF0.
Definition QDMA_CPM4_C2H_FATAL_ERR_STAT_ADDR : Z := 0xAF8.
Definition QDMA_CPM4_C2H_FIRST_ERR_QID_ADDR : Z := 0xB30.
Definition QDMA_CPM4_C2H_STAT_S_AXIS_C2H_ACCEPTED_ADDR : Z := 0xA88.
Definition QDMA_CPM4_C2H_STAT_S_AXIS_WRB_ACCEPTED_ADDR : Z := 0xA8C.
Definition QDMA_CPM4_C2H_STAT_DESC_RSP_PKT_ACCEPTED_ADDR : Z := 0xA90.
Definition QDMA_CPM4_C2H_STAT_AXIS_PKG_CMP_ADDR : Z := 0xA94.
Definition QDMA_CPM4_C2H_STAT_DBG_DMA_ENG_0_ADDR : Z := 0xB1C.
Definition QDMA_CPM4_C2H_STAT_DBG_DMA_ENG_1_ADDR : Z := 0xB20.
Definition QDMA_CPM4_C2H_STAT_DBG_DMA_ENG_2_ADDR : Z := 0xB24.
Definition QDMA_CPM4_C2H_STAT_DBG_DMA_ENG_3_ADDR : Z := 0xB28.
Definition QDMA_CPM4_C2H_STAT_DESC_RSP_DROP_ACCEPTED_ADDR : Z := 0xB10.
Definition QDMA_CPM4_C2H_STAT_DESC_RSP_ERR_ACCEPTED_ADDR : Z := 0xB14.
Definition QDMA_CPM4_GLBL_DSC_ERR_MSK_ADDR : Z := 0x258.
Definition GLBL_DSC_ERR_STS_POISON_MASK : Z := BIT 0.
Definition GLBL_ERR_STAT_ERR_DSC_MASK : Z := BIT 2.
Definition GLBL_DSC_ERR_STS_UR_CA_MASK : Z := BIT 1.
Definition GLBL_DSC_ERR_STS_PARAM_MASK : Z := BIT 2.
Definition GLBL_DSC_ERR_STS_ADDR_MASK : Z := BIT 3.
Definition GLBL_DSC_ERR_STS_TAG_MASK : Z := BIT 4.
Definition GLBL_DSC_ERR_STS_FLR_MASK : Z := BIT 5.
Definition GLBL_DSC_ERR_STS_TIMEOUT_MASK : Z := BIT 9.
Definition GLBL_DSC_ERR_STS_DAT_POISON_MASK : Z := BIT 16.
Definition GLBL_DSC_ERR_STS_FLR_CANCEL_MASK : Z := BIT 19.
Definition GLBL_DSC_ERR_STS_DMA_MASK : Z := BIT 20.
Definition GLBL_DSC_ERR_STS_DSC_MASK : Z := BIT 21.
Definition GLBL_DSC_ERR_STS_RQ_CANCEL_MASK : Z := BIT 22.
Definition GLBL_DSC_ERR_STS_DBE_MASK : Z := BIT 23.
Definition GLBL_DSC_ERR_STS_SBE_MASK : Z := BIT 24.
Definition QDMA_CPM4_DBE_ERR_ALL_MASK : Z := 0xFFFFFFFF.
Definition QDMA_CPM4_GLBL_TRQ_ERR_MSK_ADDR : Z := 0x268.
Definition GLBL_TRQ_ERR_STS_UNMAPPED_MASK : Z := BIT 0.
Definition GLBL_ERR_STAT_ERR_TRQ_MASK : Z := BIT 3.
Definition GLBL_TRQ_ERR_STS_QID_RANGE_MASK : Z := BIT 1.
Definition GLBL_TRQ_ERR_STS_VF_ACCESS_ERR_MASK : Z := BIT 2.
Definition GLBL_TRQ_ERR_STS_TCP_TIMEOUT_MASK : Z := BIT 3.
Definition QDMA_CPM4_GLBL_TRQ_ERR_ALL_MASK : Z := 0xB3.
Definition QDMA_CPM4_C2H_ERR_MASK_ADDR : Z := 0xAF4.
Definition C2H_ERR_STAT_MTY_MISMATCH_MASK : Z := BIT 0.
Definition GLBL_ERR_STAT_ERR_C2H_ST_MASK : Z := BIT 8.
Definition C2H_ERR_STAT_LEN_MISMATCH_MASK : Z := BIT 1.
Definition C2H_ERR_STAT_QID_MISMATCH_MASK : Z := BIT 3.
Definition C2H_ERR_STAT_DESC_RSP_ERR_MASK : Z := BIT 4.
Definition C2H_ERR_STAT_ENG_WPL_DATA_PAR_ERR_MASK : Z := BIT 6.
Definition C2H_ERR_STAT_MSI_INT_FAIL_MASK : Z := BIT 7.
Definition C2H_ERR_STAT_ERR_DESC_CNT_MASK : Z := BIT 9.
Definition C2H_ERR_STAT_PORT_ID_CTXT_MISMATCH_MASK : Z := BIT 10.
Definition C2H_ERR_STAT_WRB_INV_Q_ERR_MASK : Z := BIT 12.
Definition C2H_ERR_STAT_WRB_QFULL_ERR_MASK : Z := BIT 13.
Definition C2H_ERR_STAT_WRB_CIDX_ERR_MASK : Z := BIT 14.
Definition C2H_ERR_STAT_WRB_PRTY_ERR_MASK : Z := BIT 15.
Definition QDMA_CPM4_C2H_ERR_ALL_MASK : Z := 0x3F6DF.
Definition QDMA_CPM4_C2H_FATAL_ERR_MASK_ADDR : Z := 0xAFC.
Definition C2H_FATAL_ERR_STAT_MTY_MISMATCH_MASK : Z := BIT 0.
Definition C2H_FATAL_ERR_STAT_LEN_MISMATCH_MASK : Z := BIT 1.
Definition C2H_FATAL_ERR_STAT_QID_MISMATCH_MASK : Z := BIT 3.
Definition C2H_FATAL_ERR_STAT_TIMER_FIFO_RAM_RDBE_MASK : Z := GENMASK 7 4.
Definition C2H_FATAL_ERR_STAT_PFCH_LL_RAM_RDBE_MASK : Z := BIT 8.
Definition C2H_FATAL_ERR_STAT_WRB_CTXT_RAM_RDBE_MASK : Z := BIT 9.
Definition C2H_FATAL_ERR_STAT_PFCH_CTXT_RAM_RDBE_MASK : Z := BIT 10.
Definition C2H_FATAL_ERR_STAT_DESC_REQ_FIFO_RAM_RDBE_MASK : Z := BIT 11.
Definition C2H_FATAL_ERR_STAT_INT_CTXT_RAM_RDBE_MASK : Z := BIT 12.
Definition C2H_FATAL_ERR_STAT_INT_QID2VEC_RAM_RDBE_MASK : Z := BIT 13.
Definition C2H_FATAL_ERR_STAT_WRB_COAL_DATA_RAM_RDBE_MASK : Z := BIT 14.
Definition C2H_FATAL_ERR_STAT_TUSER_FIFO_RAM_RDBE_MASK : Z := BIT 15.
Definition C2H_FATAL_ERR_STAT_QID_FIFO_RAM_RDBE_MASK : Z := BIT 16.
Definition C2H_FATAL_ERR_STAT_PLD_FIFO_RAM_RDBE_MASK : Z := BIT 17.
Definition C2H_FATAL_ERR_STAT_WPL_DATA_PAR_ERR_MASK : Z := BIT 18.
Definition QDMA_CPM4_C2H_FATAL_ERR_ALL_MASK : Z := 0x1FDF1B.
Definition QDMA_CPM4_H2C_ERR_MASK_ADDR : Z := 0xE04.
Definition H2C_ERR_STAT_ZERO_LEN_DS_MASK : Z := BIT 0.
Definition GLBL_ERR_STAT_ERR_H2C_ST_MASK : Z := BIT 11.
Definition H2C_ERR_STAT_SDI_MRKR_REQ_MOP_ERR_MASK : Z := BIT 1.
Definition H2C_ERR_STAT_NO_DMA_DS_MASK : Z := BIT 2.
Definition H2C_ERR_STAT_DBE_MASK : Z := BIT 3.
Definition H2C_ERR_STAT_SBE_MASK : Z := BIT 4.
Definition QDMA_CPM4_H2C_ERR_ALL_MASK : Z := 0x3F.
Definition QDMA_CPM4_RAM_SBE_MSK_A_ADDR : Z := 0xF0.
Definition RAM_SBE_STS_A_MI_H2C0_DAT_MASK : Z := BIT 0.
Definition GLBL_ERR_STAT_ERR_RAM_SBE_MASK : Z := BIT 0.
Definition RAM_SBE_STS_A_MI_C2H0_DAT_MASK : Z := BIT 4.
Definition RAM_SBE_STS_A_H2C_RD_BRG_DAT_MASK : Z := BIT 9.
Definition RAM_SBE_STS_A_H2C_WR_BRG_DAT_MASK : Z := BIT 10.
Definition RAM_SBE_STS_A_C2H_RD_BRG_DAT_MASK : Z := BIT 11.
Definition RAM_SBE_STS_A_C2H_WR_BRG_DAT_MASK : Z := BIT 12.
Definition RAM_SBE_STS_A_FUNC_MAP_MASK : Z := BIT 13.
Definition RAM_SBE_STS_A_DSC_HW_CTXT_MASK : Z := BIT 14.
Definition RAM_SBE_STS_A_DSC_CRD_RCV_MASK : Z := BIT 15.
Definition RAM_SBE_STS_A_DSC_SW_CTXT_MASK : Z := BIT 16.
Definition RAM_SBE_STS_A_DSC_CPLI_MASK : Z := BIT 17.
Definition RAM_SBE_STS_A_DSC_CPLD_MASK : Z := BIT 18.
Definition RAM_SBE_STS_A_PASID_CTXT_RAM_MASK : Z := BIT 19.
Definition RAM_SBE_STS_A_TIMER_FIFO_RAM_MASK : Z := BIT 20.
Definition RAM_SBE_STS_A_PLD_FIFO_RAM_MASK : Z := BIT 21.
Definition RAM_SBE_STS_A_QID_FIFO_RAM_MASK : Z := BIT 22.
Definition RAM_SBE_STS_A_TUSER_FIFO_RAM_MASK : Z := BIT 23.
Definition RAM_SBE_STS_A_WRB_COAL_DATA_RAM_MASK : Z := BIT 24.
Definition RAM_SBE_STS_A_INT_QID2VEC_RAM_MASK : Z := BIT 25.
Definition RAM_SBE_STS_A_INT_CTXT_RAM_MASK : Z := BIT 26.
Definition RAM_SBE_STS_A_DESC_REQ_FIFO_RAM_MASK : Z := BIT 27.
Definition RAM_SBE_STS_A_PFCH_CTXT_RAM_MASK : Z := BIT 28.
Definition RAM_SBE_STS_A_WRB_CTXT_RAM_MASK : Z := BIT 29.
Definition RAM_SBE_STS_A_PFCH_LL_RAM_MASK : Z := BIT 30.
Definition QDMA_CPM4_SBE_ERR_ALL_MASK : Z := 0xFFFFFFFF.
Definition QDMA_CPM4_RAM_DBE_MSK_A_ADDR : Z := 0xF8.
Definition RAM_DBE_STS_A_MI_H2C0_DAT_MASK : Z := BIT 0.
Definition GLBL_ERR_STAT_ERR_RAM_DBE_MASK : Z := BIT 1.
Definition RAM_DBE_STS_A_MI_C2H0_DAT_MASK : Z := BIT 4.
Definition RAM_DBE_STS_A_H2C_RD_BRG_DAT_MASK : Z := BIT 9.
Definition RAM_DBE_STS_A_H2C_WR_BRG_DAT_MASK : Z := BIT 10.
Definition RAM_DBE_STS_A_C2H_RD_BRG_DAT_MASK : Z := BIT 11.
Definition RAM_DBE_STS_A_C2H_WR_BRG_DAT_MASK : Z := BIT 12.
Definition RAM_DBE_STS_A_FUNC_MAP_MASK : Z := BIT 13.
Definition RAM_DBE_STS_A_DSC_HW_CTXT_MASK : Z := BIT 14.
Definition RAM_DBE_STS_A_DSC_CRD_RCV_MASK : Z := BIT 15.
Definition RAM_DBE_STS_A_DSC_SW_CTXT_MASK : Z := BIT 16.
Definition RAM_DBE_STS_A_DSC_CPLI_MASK : Z := BIT 17.
Definition RAM_DBE_STS_A_DSC_CPLD_MASK : Z := BIT 18.
Definition RAM_DBE_STS_A_PASID_CTXT_RAM_MASK : Z := BIT 19.
Definition RAM_DBE_STS_A_TIMER_FIFO_RAM_MASK : Z := BIT 20.
Definition RAM_DBE_STS_A_PLD_FIFO_RAM_MASK : Z := BIT 21.
Definition RAM_DBE_STS_A_QID_FIFO_RAM_MASK : Z := BIT 22.
Definition RAM_DBE_STS_A_WRB_COAL_DATA_RAM_MASK : Z := BIT 24.
Definition RAM_DBE_STS_A_INT_QID2VEC_RAM_MASK : Z := BIT 25.
Definition RAM_DBE_STS_A_INT_CTXT_RAM_MASK : Z := BIT 26.
Definition RAM_DBE_STS_A_DESC_REQ_FIFO_RAM_MASK : Z := BIT 27.
Definition RAM_DBE_STS_A_PFCH_CTXT_RAM_MASK : Z := BIT 28.
Definition RAM_DBE_STS_A_WRB_CTXT_RAM_MASK : Z := BIT 29.
Definition RAM_DBE_STS_A_PFCH_LL_RAM_MASK : Z := BIT 30.
Definition QDMA_CPM4_GLBL_ERR_STAT_ADDR : Z := 0x248.
Definition QDMA_CPM4_GLBL_ERR_MASK_ADDR : Z := 0x24C.
Definition GLBL2_CHANNEL_CAP_MULTIQ_MAX_MASK : Z := GENMASK 11 0.
Definition GLBL2_PF_BARLITE_INT_PF0_BAR_MAP_MASK : Z := GENMASK 5 0.
Definition GLBL2_PF_BARLITE_INT_PF3_BAR_MAP_MASK : Z := GENMASK 23 18.
Definition GLBL2_CHANNEL_MDMA_H2C_ST_MASK : Z := BIT 16.
Definition GLBL2_CHANNEL_MDMA_C2H_ENG_MASK : Z := BIT 8.
Definition QDMA_CPM4_GLBL2_CHANNEL_MDMA_ADDR : Z := 0x118.
Definition GLBL2_CHANNEL_MDMA_H2C_ENG_MASK : Z := BIT 0.
Definition QDMA_CPM4_GLBL2_MISC_CAP_ADDR : Z := 0x134.
Definition GLBL2_PF_BARLITE_INT_PF1_BAR_MAP_MASK : Z := GENMASK 11 6.
Definition QDMA_CPM4_GLBL2_PF_BARLITE_INT_ADDR : Z := 0x104.
Definition QDMA_CPM4_GLBL2_CHANNEL_CAP_ADDR : Z := 0x120.
Definition GLBL2_PF_BARLITE_INT_PF2_BAR_MAP_MASK : Z := GENMASK 17 12.
Definition GLBL2_CHANNEL_MDMA_C2H_ST_MASK : Z := BIT 17.

(** ** The errors *)

(** The addresses in the register table [qdma_cpm4_config_regs] (qdma_cpm4_reg_dump.c). *)
Definition qdma_cpm4_config_addrs : list Z :=
  [0x00; 0x04; 0x08; 0x0c; 0x10; 0x014; 0x18; 0x1c; 0x40; 0x44; 0x4c; 0x80; 0x84; 0x88; 0x8c; 0x90; 0x94; 0x98;
    0x9c; 0xf0; 0xf4; 0xf8; 0xfc; 0x100; 0x104; 0x108; 0x10c; 0x110; 0x114; 0x118; 0x11c; 0x120; 0x128; 0x12c;
    0x130; 0x134; 0x1b8; 0x1bc; 0x1c0; 0x1c4; 0x1c8; 0x1cc; 0x204; 0x208; 0x20c; 0x210; 0x214; 0x218; 0x21c; 0x220;
    0x224; 0x228; 0x22c; 0x230; 0x234; 0x238; 0x23c; 0x240; 0x248; 0x24c; 0x250; 0x254; 0x258; 0x25c; 0x260; 0x264;
    0x268; 0x26c; 0x270; 0x274; 0x400; 0x404; 0x408; 0x40c; 0x410; 0x414; 0x418; 0x41c; 0x420; 0x424; 0x428; 0x42c;
    0x430; 0x434; 0x438; 0x43c; 0x440; 0x444; 0x448; 0x44c; 0x450; 0x454; 0x458; 0x45c; 0x460; 0x464; 0x468; 0x46c;
    0x470; 0x474; 0x478; 0x47c; 0x480; 0x484; 0x488; 0x48c; 0x490; 0x494; 0x498; 0x49c; 0x4a0; 0x4a4; 0x4a8; 0x4ac;
    0x4b0; 0x4b4; 0x4b8; 0x4bc; 0x4d0; 0x4d4; 0x4d8; 0x4dc; 0x4e0; 0x4e4; 0x4e8; 0x4ec; 0x4f0; 0x4f4; 0x4f8; 0x4fc;
    0x500; 0x504; 0x508; 0x50c; 0x510; 0x514; 0x518; 0x51c; 0x520; 0x524; 0x528; 0x52c; 0x530; 0x534; 0x538; 0x53c;
    0x540; 0x544; 0x548; 0x54c; 0x550; 0x554; 0x558; 0x55c; 0x560; 0x564; 0x568; 0x56c; 0x570; 0x574; 0x578; 0x57c;
    0x580; 0x584; 0x588; 0x58c; 0x590; 0x594; 0x598; 0x59c; 0x5a0; 0x5a4; 0x5a8; 0x5ac; 0x5b0; 0x5b4; 0x5b8; 0x5bc;
    0x5c0; 0x5c4; 0x5c8; 0x5cc; 0x5d0; 0x5d4; 0x5d8; 0x5dc; 0x5e0; 0x5e4; 0x5e8; 0x5ec; 0x5f0; 0x5f4; 0x5f8; 0x5fc;
    0x600; 0x604; 0x608; 0x60c; 0x610; 0x614; 0x618; 0x61c; 0x620; 0x624; 0x628; 0x62c; 0x630; 0x634; 0x638; 0x63c;
    0x640; 0x644; 0x648; 0x64c; 0x650; 0x654; 0x658; 0x65c; 0x660; 0x664; 0x668; 0x66c; 0x670; 0x674; 0x678; 0x67c;
    0x680; 0x684; 0x688; 0x68c; 0x690; 0x694; 0x698; 0x69c; 0x6a0; 0x6a4; 0x6a8; 0x6ac; 0x6b0; 0x6b4; 0x6b8; 0x6bc;
    0x6d0; 0x6d4; 0x6d8; 0x6dc; 0x6e0; 0x6e4; 0x6e8; 0x6ec; 0x6f0; 0x6f4; 0x6f8; 0x6fc; 0x700; 0x704; 0x708; 0x70c;
    0x710; 0x714; 0x718; 0x71c; 0x720; 0x734; 0x748; 0x74c; 0x750; 0x754; 0x758; 0x75c; 0x760; 0x764; 0x768; 0x76c;
    0x770; 0x774; 0x778; 0x77c; 0x780; 0x784; 0x788; 0x78c; 0x790; 0x794; 0x798; 0x79c; 0x7a0; 0x7a4; 0x7a8; 0x7ac;
    0x7b0; 0x7b4; 0x7b8; 0x7bc; 0x7c0; 0x7c4; 0x7c8; 0x7cc; 0x7d0; 0x7d4; 0x7d8; 0x7dc; 0x7e0; 0x7e4; 0x7e8; 0x7ec;
    0x7f0; 0x7f4; 0x7f8; 0x7fc; 0x804; 0x808; 0x80c; 0x810; 0x814; 0x818; 0x81c; 0x820; 0x824; 0xa00; 0xa04; 0xa08;
    0xa0c; 0xa10; 0xa14; 0xa18; 0xa1c; 0xa20; 0xa24; 0xa28; 0xa2c; 0xa30; 0xa34; 0xa38; 0xa3c; 0xa40; 0xa44; 0xa48;
    0xa4c; 0xa50; 0xa54; 0xa58; 0xa5c; 0xa60; 0xa64; 0xa68; 0xa6c; 0xa70; 0xa74; 0xa78; 0xa7c; 0xa80; 0xa84; 0xa88;
    0xa8c; 0xa90; 0xa94; 0xa98; 0xa9c; 0xaa0; 0xaa4; 0xaa8; 0xaac; 0xab0; 0xab4; 0xab8; 0xabc; 0xac0; 0xac4; 0xac8;
    0xacc; 0xad0; 0xad4; 0xad8; 0xae0; 0xae4; 0xae8; 0xaec; 0xaf0; 0xaf4; 0xaf8; 0xafc; 0xb00; 0xb04; 0xb08; 0xb0c;
    0xb10; 0xb14; 0xb18; 0xb1c; 0xb20; 0xb24; 0xb28; 0xb2c; 0xb30; 0xb34; 0xb38; 0xb3c; 0xb40; 0xb44; 0xb48; 0xb4c;
    0xb50; 0xb54; 0xb58; 0xb5c; 0xb60; 0xb64; 0xb68; 0xb6c; 0xb70; 0xb74; 0xb78; 0xb7c; 0xb80; 0xb84; 0xb88; 0xb8c;
    0xb90; 0xb94; 0xb98; 0xb9c; 0xba0; 0xba4; 0xba8; 0xe00; 0xe04; 0xe08; 0xe0c; 0xe10; 0xe14; 0xe18; 0xe1c; 0xe20;
    0x1004; 0x1008; 0x1040; 0x1048; 0x1054; 0x1058; 0x105c; 0x10c0; 0x10c4; 0x10c8; 0x10cc; 0x10d0; 0x10e8; 0x1204;
    0x1208; 0x120c; 0x1240; 0x1248; 0x1254; 0x1258; 0x125c; 0x12c0; 0x12c4; 0x12c8; 0x12cc; 0x12d0; 0x12e8; 0x2400;
    0x2404; 0x2408; 0x240c; 0x2410].
(** [enum qdma_cpm4_error_idx] *)
Inductive qdma_cpm4_error_idx :=
  | QDMA_CPM4_DSC_ERR_POISON | QDMA_CPM4_DSC_ERR_UR_CA | QDMA_CPM4_DSC_ERR_PARAM | QDMA_CPM4_DSC_ERR_ADDR
  | QDMA_CPM4_DSC_ERR_TAG | QDMA_CPM4_DSC_ERR_FLR | QDMA_CPM4_DSC_ERR_TIMEOUT | QDMA_CPM4_DSC_ERR_DAT_POISON
  | QDMA_CPM4_DSC_ERR_FLR_CANCEL | QDMA_CPM4_DSC_ERR_DMA | QDMA_CPM4_DSC_ERR_DSC | QDMA_CPM4_DSC_ERR_RQ_CANCEL
  | QDMA_CPM4_DSC_ERR_DBE | QDMA_CPM4_DSC_ERR_SBE | QDMA_CPM4_DSC_ERR_ALL | QDMA_CPM4_TRQ_ERR_UNMAPPED
  | QDMA_CPM4_TRQ_ERR_QID_RANGE | QDMA_CPM4_TRQ_ERR_VF_ACCESS_ERR | QDMA_CPM4_TRQ_ERR_TCP_TIMEOUT
  | QDMA_CPM4_TRQ_ERR_ALL | QDMA_CPM4_ST_C2H_ERR_MTY_MISMATCH | QDMA_CPM4_ST_C2H_ERR_LEN_MISMATCH
  | QDMA_CPM4_ST_C2H_ERR_QID_MISMATCH | QDMA_CPM4_ST_C2H_ERR_DESC_RSP_ERR | QDMA_CPM4_ST_C2H_ERR_ENG_WPL_DATA_PAR_ERR
  | QDMA_CPM4_ST_C2H_ERR_MSI_INT_FAIL | QDMA_CPM4_ST_C2H_ERR_ERR_DESC_CNT | QDMA_CPM4_ST_C2H_ERR_PORTID_CTXT_MISMATCH
  | QDMA_CPM4_ST_C2H_ERR_PORTID_BYP_IN_MISMATCH | QDMA_CPM4_ST_C2H_ERR_WRB_INV_Q_ERR
  | QDMA_CPM4_ST_C2H_ERR_WRB_QFULL_ERR | QDMA_CPM4_ST_C2H_ERR_WRB_CIDX_ERR | QDMA_CPM4_ST_C2H_ERR_WRB_PRTY_ERR
  | QDMA_CPM4_ST_C2H_ERR_ALL | QDMA_CPM4_ST_FATAL_ERR_MTY_MISMATCH | QDMA_CPM4_ST_FATAL_ERR_LEN_MISMATCH
  | QDMA_CPM4_ST_FATAL_ERR_QID_MISMATCH | QDMA_CPM4_ST_FATAL_ERR_TIMER_FIFO_RAM_RDBE
  | QDMA_CPM4_ST_FATAL_ERR_PFCH_II_RAM_RDBE | QDMA_CPM4_ST_FATAL_ERR_WRB_CTXT_RAM_RDBE
  | QDMA_CPM4_ST_FATAL_ERR_PFCH_CTXT_RAM_RDBE | QDMA_CPM4_ST_FATAL_ERR_DESC_REQ_FIFO_RAM_RDBE
  | QDMA_CPM4_ST_FATAL_ERR_INT_CTXT_RAM_RDBE | QDMA_CPM4_ST_FATAL_ERR_INT_QID2VEC_RAM_RDBE
  | QDMA_CPM4_ST_FATAL_ERR_WRB_COAL_DATA_RAM_RDBE | QDMA_CPM4_ST_FATAL_ERR_TUSER_FIFO_RAM_RDBE
  | QDMA_CPM4_ST_FATAL_ERR_QID_FIFO_RAM_RDBE | QDMA_CPM4_ST_FATAL_ERR_PAYLOAD_FIFO_RAM_RDBE
  | QDMA_CPM4_ST_FATAL_ERR_WPL_DATA_PAR_ERR | QDMA_CPM4_ST_FATAL_ERR_ALL | QDMA_CPM4_ST_H2C_ERR_ZERO_LEN_DESC_ERR
  | QDMA_CPM4_ST_H2C_ERR_SDI_MRKR_REQ_MOP_ERR | QDMA_CPM4_ST_H2C_ERR_NO_DMA_DSC | QDMA_CPM4_ST_H2C_ERR_DBE
  | QDMA_CPM4_ST_H2C_ERR_SBE | QDMA_CPM4_ST_H2C_ERR_ALL | QDMA_CPM4_SBE_ERR_MI_H2C0_DAT
  | QDMA_CPM4_SBE_ERR_MI_C2H0_DAT | QDMA_CPM4_SBE_ERR_H2C_RD_BRG_DAT | QDMA_CPM4_SBE_ERR_H2C_WR_BRG_DAT
  | QDMA_CPM4_SBE_ERR_C2H_RD_BRG_DAT | QDMA_CPM4_SBE_ERR_C2H_WR_BRG_DAT | QDMA_CPM4_SBE_ERR_FUNC_MAP
  | QDMA_CPM4_SBE_ERR_DSC_HW_CTXT | QDMA_CPM4_SBE_ERR_DSC_CRD_RCV | QDMA_CPM4_SBE_ERR_DSC_SW_CTXT
  | QDMA_CPM4_SBE_ERR_DSC_CPLI | QDMA_CPM4_SBE_ERR_DSC_CPLD | QDMA_CPM4_SBE_ERR_PASID_CTXT_RAM
  | QDMA_CPM4_SBE_ERR_TIMER_FIFO_RAM | QDMA_CPM4_SBE_ERR_PAYLOAD_FIFO_RAM | QDMA_CPM4_SBE_ERR_QID_FIFO_RAM
  | QDMA_CPM4_SBE_ERR_TUSER_FIFO_RAM | QDMA_CPM4_SBE_ERR_WRB_COAL_DATA_RAM | QDMA_CPM4_SBE_ERR_INT_QID2VEC_RAM
  | QDMA_CPM4_SBE_ERR_INT_CTXT_RAM | QDMA_CPM4_SBE_ERR_DESC_REQ_FIFO_RAM | QDMA_CPM4_SBE_ERR_PFCH_CTXT_RAM
  | QDMA_CPM4_SBE_ERR_WRB_CTXT_RAM | QDMA_CPM4_SBE_ERR_PFCH_LL_RAM | QDMA_CPM4_SBE_ERR_ALL
  | QDMA_CPM4_DBE_ERR_MI_H2C0_DAT | QDMA_CPM4_DBE_ERR_MI_C2H0_DAT | QDMA_CPM4_DBE_ERR_H2C_RD_BRG_DAT
  | QDMA_CPM4_DBE_ERR_H2C_WR_BRG_DAT | QDMA_CPM4_DBE_ERR_C2H_RD_BRG_DAT | QDMA_CPM4_DBE_ERR_C2H_WR_BRG_DAT
  | QDMA_CPM4_DBE_ERR_FUNC_MAP | QDMA_CPM4_DBE_ERR_DSC_HW_CTXT | QDMA_CPM4_DBE_ERR_DSC_CRD_RCV
  | QDMA_CPM4_DBE_ERR_DSC_SW_CTXT | QDMA_CPM4_DBE_ERR_DSC_CPLI | QDMA_CPM4_DBE_ERR_DSC_CPLD
  | QDMA_CPM4_DBE_ERR_PASID_CTXT_RAM | QDMA_CPM4_DBE_ERR_TIMER_FIFO_RAM | QDMA_CPM4_DBE_ERR_PAYLOAD_FIFO_RAM
  | QDMA_CPM4_DBE_ERR_QID_FIFO_RAM | QDMA_CPM4_DBE_ERR_WRB_COAL_DATA_RAM | QDMA_CPM4_DBE_ERR_INT_QID2VEC_RAM
  | QDMA_CPM4_DBE_ERR_INT_CTXT_RAM | QDMA_CPM4_DBE_ERR_DESC_REQ_FIFO_RAM | QDMA_CPM4_DBE_ERR_PFCH_CTXT_RAM
  | QDMA_CPM4_DBE_ERR_WRB_CTXT_RAM | QDMA_CPM4_DBE_ERR_PFCH_LL_RAM | QDMA_CPM4_DBE_ERR_ALL | QDMA_CPM4_ERRS_ALL.
Definition qdma_cpm4_error_idx_val (e : qdma_cpm4_error_idx) : Z :=
  match e with
  | QDMA_CPM4_DSC_ERR_POISON => 0 | QDMA_CPM4_DSC_ERR_UR_CA => 1 | QDMA_CPM4_DSC_ERR_PARAM => 2
  | QDMA_CPM4_DSC_ERR_ADDR => 3 | QDMA_CPM4_DSC_ERR_TAG => 4 | QDMA_CPM4_DSC_ERR_FLR => 5
  | QDMA_CPM4_DSC_ERR_TIMEOUT => 6 | QDMA_CPM4_DSC_ERR_DAT_POISON => 7 | QDMA_CPM4_DSC_ERR_FLR_CANCEL => 8
  | QDMA_CPM4_DSC_ERR_DMA => 9 | QDMA_CPM4_DSC_ERR_DSC => 10 | QDMA_CPM4_DSC_ERR_RQ_CANCEL => 11
  | QDMA_CPM4_DSC_ERR_DBE => 12 | QDMA_CPM4_DSC_ERR_SBE => 13 | QDMA_CPM4_DSC_ERR_ALL => 14
  | QDMA_CPM4_TRQ_ERR_UNMAPPED => 15 | QDMA_CPM4_TRQ_ERR_QID_RANGE => 16 | QDMA_CPM4_TRQ_ERR_VF_ACCESS_ERR => 17
  | QDMA_CPM4_TRQ_ERR_TCP_TIMEOUT => 18 | QDMA_CPM4_TRQ_ERR_ALL => 19 | QDMA_CPM4_ST_C2H_ERR_MTY_MISMATCH => 20
  | QDMA_CPM4_ST_C2H_ERR_LEN_MISMATCH => 21 | QDMA_CPM4_ST_C2H_ERR_QID_MISMATCH => 22
  | QDMA_CPM4_ST_C2H_ERR_DESC_RSP_ERR => 23 | QDMA_CPM4_ST_C2H_ERR_ENG_WPL_DATA_PAR_ERR => 24
  | QDMA_CPM4_ST_C2H_ERR_MSI_INT_FAIL => 25 | QDMA_CPM4_ST_C2H_ERR_ERR_DESC_CNT => 26
  | QDMA_CPM4_ST_C2H_ERR_PORTID_CTXT_MISMATCH => 27 | QDMA_CPM4_ST_C2H_ERR_PORTID_BYP_IN_MISMATCH => 28
  | QDMA_CPM4_ST_C2H_ERR_WRB_INV_Q_ERR => 29 | QDMA_CPM4_ST_C2H_ERR_WRB_QFULL_ERR => 30
  | QDMA_CPM4_ST_C2H_ERR_WRB_CIDX_ERR => 31 | QDMA_CPM4_ST_C2H_ERR_WRB_PRTY_ERR => 32
  | QDMA_CPM4_ST_C2H_ERR_ALL => 33 | QDMA_CPM4_ST_FATAL_ERR_MTY_MISMATCH => 34
  | QDMA_CPM4_ST_FATAL_ERR_LEN_MISMATCH => 35 | QDMA_CPM4_ST_FATAL_ERR_QID_MISMATCH => 36
  | QDMA_CPM4_ST_FATAL_ERR_TIMER_FIFO_RAM_RDBE => 37 | QDMA_CPM4_ST_FATAL_ERR_PFCH_II_RAM_RDBE => 38
  | QDMA_CPM4_ST_FATAL_ERR_WRB_CTXT_RAM_RDBE => 39 | QDMA_CPM4_ST_FATAL_ERR_PFCH_CTXT_RAM_RDBE => 40
  | QDMA_CPM4_ST_FATAL_ERR_DESC_REQ_FIFO_RAM_RDBE => 41 | QDMA_CPM4_ST_FATAL_ERR_INT_CTXT_RAM_RDBE => 42
  | QDMA_CPM4_ST_FATAL_ERR_INT_QID2VEC_RAM_RDBE => 43 | QDMA_CPM4_ST_FATAL_ERR_WRB_COAL_DATA_RAM_RDBE => 44
  | QDMA_CPM4_ST_FATAL_ERR_TUSER_FIFO_RAM_RDBE => 45 | QDMA_CPM4_ST_FATAL_ERR_QID_FIFO_RAM_RDBE => 46
  | QDMA_CPM4_ST_FATAL_ERR_PAYLOAD_FIFO_RAM_RDBE => 47 | QDMA_CPM4_ST_FATAL_ERR_WPL_DATA_PAR_ERR => 48
  | QDMA_CPM4_ST_FATAL_ERR_ALL => 49 | QDMA_CPM4_ST_H2C_ERR_ZERO_LEN_DESC_ERR => 50
  | QDMA_CPM4_ST_H2C_ERR_SDI_MRKR_REQ_MOP_ERR => 51 | QDMA_CPM4_ST_H2C_ERR_NO_DMA_DSC => 52
  | QDMA_CPM4_ST_H2C_ERR_DBE => 53 | QDMA_CPM4_ST_H2C_ERR_SBE => 54 | QDMA_CPM4_ST_H2C_ERR_ALL => 55
  | QDMA_CPM4_SBE_ERR_MI_H2C0_DAT => 56 | QDMA_CPM4_SBE_ERR_MI_C2H0_DAT => 57
  | QDMA_CPM4_SBE_ERR_H2C_RD_BRG_DAT => 58 | QDMA_CPM4_SBE_ERR_H2C_WR_BRG_DAT => 59
  | QDMA_CPM4_SBE_ERR_C2H_RD_BRG_DAT => 60 | QDMA_CPM4_SBE_ERR_C2H_WR_BRG_DAT => 61
  | QDMA_CPM4_SBE_ERR_FUNC_MAP => 62 | QDMA_CPM4_SBE_ERR_DSC_HW_CTXT => 63 | QDMA_CPM4_SBE_ERR_DSC_CRD_RCV => 64
  | QDMA_CPM4_SBE_ERR_DSC_SW_CTXT => 65 | QDMA_CPM4_SBE_ERR_DSC_CPLI => 66 | QDMA_CPM4_SBE_ERR_DSC_CPLD => 67
  | QDMA_CPM4_SBE_ERR_PASID_CTXT_RAM => 68 | QDMA_CPM4_SBE_ERR_TIMER_FIFO_RAM => 69
  | QDMA_CPM4_SBE_ERR_PAYLOAD_FIFO_RAM => 70 | QDMA_CPM4_SBE_ERR_QID_FIFO_RAM => 71
  | QDMA_CPM4_SBE_ERR_TUSER_FIFO_RAM => 72 | QDMA_CPM4_SBE_ERR_WRB_COAL_DATA_RAM => 73
  | QDMA_CPM4_SBE_ERR_INT_QID2VEC_RAM => 74 | QDMA_CPM4_SBE_ERR_INT_CTXT_RAM => 75
  | QDMA_CPM4_SBE_ERR_DESC_REQ_FIFO_RAM => 76 | QDMA_CPM4_SBE_ERR_PFCH_CTXT_RAM => 77
  | QDMA_CPM4_SBE_ERR_WRB_CTXT_RAM => 78 | QDMA_CPM4_SBE_ERR_PFCH_LL_RAM => 79 | QDMA_CPM4_SBE_ERR_ALL => 80
  | QDMA_CPM4_DBE_ERR_MI_H2C0_DAT => 81 | QDMA_CPM4_DBE_ERR_MI_C2H0_DAT => 82
  | QDMA_CPM4_DBE_ERR_H2C_RD_BRG_DAT => 83 | QDMA_CPM4_DBE_ERR_H2C_WR_BRG_DAT => 84
  | QDMA_CPM4_DBE_ERR_C2H_RD_BRG_DAT => 85 | QDMA_CPM4_DBE_ERR_C2H_WR_BRG_DAT => 86
  | QDMA_CPM4_DBE_ERR_FUNC_MAP => 87 | QDMA_CPM4_DBE_ERR_DSC_HW_CTXT => 88 | QDMA_CPM4_DBE_ERR_DSC_CRD_RCV => 89
  | QDMA_CPM4_DBE_ERR_DSC_SW_CTXT => 90 | QDMA_CPM4_DBE_ERR_DSC_CPLI => 91 | QDMA_CPM4_DBE_ERR_DSC_CPLD => 92
  | QDMA_CPM4_DBE_ERR_PASID_CTXT_RAM => 93 | QDMA_CPM4_DBE_ERR_TIMER_FIFO_RAM => 94
  | QDMA_CPM4_DBE_ERR_PAYLOAD_FIFO_RAM => 95 | QDMA_CPM4_DBE_ERR_QID_FIFO_RAM => 96
  | QDMA_CPM4_DBE_ERR_WRB_COAL_DATA_RAM => 97 | QDMA_CPM4_DBE_ERR_INT_QID2VEC_RAM => 98
  | QDMA_CPM4_DBE_ERR_INT_CTXT_RAM => 99 | QDMA_CPM4_DBE_ERR_DESC_REQ_FIFO_RAM => 100
  | QDMA_CPM4_DBE_ERR_PFCH_CTXT_RAM => 101 | QDMA_CPM4_DBE_ERR_WRB_CTXT_RAM => 102
  | QDMA_CPM4_DBE_ERR_PFCH_LL_RAM => 103 | QDMA_CPM4_DBE_ERR_ALL => 104 | QDMA_CPM4_ERRS_ALL => 105
  end.
Coercion qdma_cpm4_error_idx_val : qdma_cpm4_error_idx >-> Z.

Section ip.
Context {dev : Type} `{Device dev}.

Definition qdma_cpm4_get_device_attributes (dev_hndl : bool) (dev_info : option qdma_dev_attributes) :
    hwm dev (Z * option qdma_dev_attributes) :=
  match dev_hndl, dev_info with
  | true, Some _ =>
    pfs ← qdma_reg_read QDMA_CPM4_GLBL2_PF_BARLITE_INT_ADDR;
    qs ← qdma_reg_read QDMA_CPM4_GLBL2_CHANNEL_CAP_ADDR;
    misc ← qdma_reg_read QDMA_CPM4_GLBL2_MISC_CAP_ADDR;
    mdma ← qdma_reg_read QDMA_CPM4_GLBL2_CHANNEL_MDMA_ADDR;
    mret (QDMA_SUCCESS, Some
      {| num_pfs :=
      b2z (nz (FIELD_GET GLBL2_PF_BARLITE_INT_PF0_BAR_MAP_MASK pfs)) + b2z (nz (FIELD_GET GLBL2_PF_BARLITE_INT_PF1_BAR_MAP_MASK pfs)) +
      b2z (nz (FIELD_GET GLBL2_PF_BARLITE_INT_PF2_BAR_MAP_MASK pfs)) + b2z (nz (FIELD_GET GLBL2_PF_BARLITE_INT_PF3_BAR_MAP_MASK pfs));
         num_qs := u16 (FIELD_GET GLBL2_CHANNEL_CAP_MULTIQ_MAX_MASK qs);
         mailbox_en := FIELD_GET QDMA_GLBL2_MAILBOX_EN_MASK misc;
         flr_present := FIELD_GET QDMA_GLBL2_FLR_PRESENT_MASK misc;
         mm_cmpt_en := 0;
         debug_mode := 0; desc_eng_mode := 0;
         st_en := b2z (nz (FIELD_GET GLBL2_CHANNEL_MDMA_C2H_ST_MASK mdma) && nz (FIELD_GET GLBL2_CHANNEL_MDMA_H2C_ST_MASK mdma));
         mm_en := b2z (nz (FIELD_GET GLBL2_CHANNEL_MDMA_C2H_ENG_MASK mdma) && nz (FIELD_GET GLBL2_CHANNEL_MDMA_H2C_ENG_MASK mdma));
         mm_channel_max := 2; qid2vec_ctx := 1; cmpt_ovf_chk_dis := 0; mailbox_intr := 0; sw_desc_64b := 0;
         cmpt_desc_64b := 0; dynamic_bar := 0; legacy_intr := 0; cmpt_trig_count_timer := 0 |})
  | _, _ => mret (INV_PARAM, dev_info)
  end.
Definition qdma_cpm4_get_dev_cap : hwm dev qdma_dev_attributes :=
  r ← qdma_cpm4_get_device_attributes true (Some attr_uninit); mret (default attr_uninit r.2).

Definition qdma_cpm4_dump_reg_info (reg_addr : Z) : hwm dev Z := dump_reg_info qdma_cpm4_config_addrs reg_addr.
Definition cpm4_dump_regs (reg_list : list Z) : hwm dev unit := dump_regs qdma_cpm4_dump_reg_info reg_list.


(** What the handlers of the blocks read. *)
Definition qdma_cpm4_hw_ram_sbe_err_process : hwm dev unit :=
  cpm4_dump_regs [QDMA_CPM4_RAM_SBE_STS_A_ADDR].
Definition qdma_cpm4_hw_ram_dbe_err_process : hwm dev unit :=
  cpm4_dump_regs [QDMA_CPM4_RAM_DBE_STS_A_ADDR].
Definition qdma_cpm4_hw_desc_err_process : hwm dev unit :=
  cpm4_dump_regs [QDMA_CPM4_GLBL_DSC_ERR_STS_ADDR; QDMA_CPM4_GLBL_DSC_ERR_LOG0_ADDR; QDMA_CPM4_GLBL_DSC_ERR_LOG1_ADDR;
    QDMA_CPM4_GLBL_DSC_DBG_DAT0_ADDR; QDMA_CPM4_GLBL_DSC_DBG_DAT1_ADDR].
Definition qdma_cpm4_hw_trq_err_process : hwm dev unit :=
  cpm4_dump_regs [QDMA_CPM4_GLBL_TRQ_ERR_STS_ADDR; QDMA_CPM4_GLBL_TRQ_ERR_LOG_ADDR].
Definition qdma_cpm4_hw_st_h2c_err_process : hwm dev unit :=
  cpm4_dump_regs [QDMA_CPM4_H2C_ERR_STAT_ADDR; QDMA_CPM4_H2C_FIRST_ERR_QID_ADDR; QDMA_CPM4_H2C_DBG_REG0_ADDR;
    QDMA_CPM4_H2C_DBG_REG1_ADDR; QDMA_CPM4_H2C_DBG_REG2_ADDR; QDMA_CPM4_H2C_DBG_REG3_ADDR;
    QDMA_CPM4_H2C_DBG_REG4_ADDR].
Definition qdma_cpm4_hw_st_c2h_err_process : hwm dev unit :=
  cpm4_dump_regs [QDMA_CPM4_C2H_ERR_STAT_ADDR; QDMA_CPM4_C2H_FATAL_ERR_STAT_ADDR; QDMA_CPM4_C2H_FIRST_ERR_QID_ADDR;
    QDMA_CPM4_C2H_STAT_S_AXIS_C2H_ACCEPTED_ADDR; QDMA_CPM4_C2H_STAT_S_AXIS_WRB_ACCEPTED_ADDR;
    QDMA_CPM4_C2H_STAT_DESC_RSP_PKT_ACCEPTED_ADDR; QDMA_CPM4_C2H_STAT_AXIS_PKG_CMP_ADDR;
    QDMA_CPM4_C2H_STAT_DBG_DMA_ENG_0_ADDR; QDMA_CPM4_C2H_STAT_DBG_DMA_ENG_1_ADDR;
    QDMA_CPM4_C2H_STAT_DBG_DMA_ENG_2_ADDR; QDMA_CPM4_C2H_STAT_DBG_DMA_ENG_3_ADDR;
    QDMA_CPM4_C2H_STAT_DESC_RSP_DROP_ACCEPTED_ADDR; QDMA_CPM4_C2H_STAT_DESC_RSP_ERR_ACCEPTED_ADDR].

(** The table, block by block. *)
Definition cpm4_dsc_err_info : list (hw_err_info dev) :=
  [
    mk_err QDMA_CPM4_DSC_ERR_POISON "Poison error"
      QDMA_CPM4_GLBL_DSC_ERR_MSK_ADDR QDMA_CPM4_GLBL_DSC_ERR_STS_ADDR GLBL_DSC_ERR_STS_POISON_MASK GLBL_ERR_STAT_ERR_DSC_MASK qdma_cpm4_hw_desc_err_process;
    mk_err QDMA_CPM4_DSC_ERR_UR_CA "Unsupported request or completer aborted error"
      QDMA_CPM4_GLBL_DSC_ERR_MSK_ADDR QDMA_CPM4_GLBL_DSC_ERR_STS_ADDR GLBL_DSC_ERR_STS_UR_CA_MASK GLBL_ERR_STAT_ERR_DSC_MASK qdma_cpm4_hw_desc_err_process;
    mk_err QDMA_CPM4_DSC_ERR_PARAM "Parameter mismatch error"
      QDMA_CPM4_GLBL_DSC_ERR_MSK_ADDR QDMA_CPM4_GLBL_DSC_ERR_STS_ADDR GLBL_DSC_ERR_STS_PARAM_MASK GLBL_ERR_STAT_ERR_DSC_MASK qdma_cpm4_hw_desc_err_process;
    mk_err QDMA_CPM4_DSC_ERR_ADDR "Address mismatch error"
      QDMA_CPM4_GLBL_DSC_ERR_MSK_ADDR QDMA_CPM4_GLBL_DSC_ERR_STS_ADDR GLBL_DSC_ERR_STS_ADDR_MASK GLBL_ERR_STAT_ERR_DSC_MASK qdma_cpm4_hw_desc_err_process;
    mk_err QDMA_CPM4_DSC_ERR_TAG "Unexpected tag error"
      QDMA_CPM4_GLBL_DSC_ERR_MSK_ADDR QDMA_CPM4_GLBL_DSC_ERR_STS_ADDR GLBL_DSC_ERR_STS_TAG_MASK GLBL_ERR_STAT_ERR_DSC_MASK qdma_cpm4_hw_desc_err_process;
    mk_err QDMA_CPM4_DSC_ERR_FLR "FLR error"
      QDMA_CPM4_GLBL_DSC_ERR_MSK_ADDR QDMA_CPM4_GLBL_DSC_ERR_STS_ADDR GLBL_DSC_ERR_STS_FLR_MASK GLBL_ERR_STAT_ERR_DSC_MASK qdma_cpm4_hw_desc_err_process;
    mk_err QDMA_CPM4_DSC_ERR_TIMEOUT "Timed out error"
      QDMA_CPM4_GLBL_DSC_ERR_MSK_ADDR QDMA_CPM4_GLBL_DSC_ERR_STS_ADDR GLBL_DSC_ERR_STS_TIMEOUT_MASK GLBL_ERR_STAT_ERR_DSC_MASK qdma_cpm4_hw_desc_err_process;
    mk_err QDMA_CPM4_DSC_ERR_DAT_POISON "Poison data error"
      QDMA_CPM4_GLBL_DSC_ERR_MSK_ADDR QDMA_CPM4_GLBL_DSC_ERR_STS_ADDR GLBL_DSC_ERR_STS_DAT_POISON_MASK GLBL_ERR_STAT_ERR_DSC_MASK qdma_cpm4_hw_desc_err_process;
    mk_err QDMA_CPM4_DSC_ERR_FLR_CANCEL "Descriptor fetch cancelled due to FLR error"
      QDMA_CPM4_GLBL_DSC_ERR_MSK_ADDR QDMA_CPM4_GLBL_DSC_ERR_STS_ADDR GLBL_DSC_ERR_STS_FLR_CANCEL_MASK GLBL_ERR_STAT_ERR_DSC_MASK qdma_cpm4_hw_desc_err_process;
    mk_err QDMA_CPM4_DSC_ERR_DMA "DMA engine error"
      QDMA_CPM4_GLBL_DSC_ERR_MSK_ADDR QDMA_CPM4_GLBL_DSC_ERR_STS_ADDR GLBL_DSC_ERR_STS_DMA_MASK GLBL_ERR_STAT_ERR_DSC_MASK qdma_cpm4_hw_desc_err_process;
    mk_err QDMA_CPM4_DSC_ERR_DSC "Invalid PIDX update error"
      QDMA_CPM4_GLBL_DSC_ERR_MSK_ADDR QDMA_CPM4_GLBL_DSC_ERR_STS_ADDR GLBL_DSC_ERR_STS_DSC_MASK GLBL_ERR_STAT_ERR_DSC_MASK qdma_cpm4_hw_desc_err_process;
    mk_err QDMA_CPM4_DSC_ERR_RQ_CANCEL "Descriptor fetch cancelled due to disable register status error"
      QDMA_CPM4_GLBL_DSC_ERR_MSK_ADDR QDMA_CPM4_GLBL_DSC_ERR_STS_ADDR GLBL_DSC_ERR_STS_RQ_CANCEL_MASK GLBL_ERR_STAT_ERR_DSC_MASK qdma_cpm4_hw_desc_err_process;
    mk_err QDMA_CPM4_DSC_ERR_DBE "UNC_ERR_RAM_DBE error"
      QDMA_CPM4_GLBL_DSC_ERR_MSK_ADDR QDMA_CPM4_GLBL_DSC_ERR_STS_ADDR GLBL_DSC_ERR_STS_DBE_MASK GLBL_ERR_STAT_ERR_DSC_MASK qdma_cpm4_hw_desc_err_process;
    mk_err QDMA_CPM4_DSC_ERR_SBE "UNC_ERR_RAM_SBE error"
      QDMA_CPM4_GLBL_DSC_ERR_MSK_ADDR QDMA_CPM4_GLBL_DSC_ERR_STS_ADDR GLBL_DSC_ERR_STS_SBE_MASK GLBL_ERR_STAT_ERR_DSC_MASK qdma_cpm4_hw_desc_err_process;
    mk_err QDMA_CPM4_DSC_ERR_ALL "All Descriptor errors"
      QDMA_CPM4_GLBL_DSC_ERR_MSK_ADDR QDMA_CPM4_GLBL_DSC_ERR_STS_ADDR QDMA_CPM4_DBE_ERR_ALL_MASK GLBL_ERR_STAT_ERR_DSC_MASK qdma_cpm4_hw_desc_err_process
  ].
Definition cpm4_trq_err_info : list (hw_err_info dev) :=
  [
    mk_err QDMA_CPM4_TRQ_ERR_UNMAPPED "Access targeted unmapped register space via CSR pathway error"
      QDMA_CPM4_GLBL_TRQ_ERR_MSK_ADDR QDMA_CPM4_GLBL_TRQ_ERR_STS_ADDR GLBL_TRQ_ERR_STS_UNMAPPED_MASK GLBL_ERR_STAT_ERR_TRQ_MASK qdma_cpm4_hw_trq_err_process;
    mk_err QDMA_CPM4_TRQ_ERR_QID_RANGE "Qid range error"
      QDMA_CPM4_GLBL_TRQ_ERR_MSK_ADDR QDMA_CPM4_GLBL_TRQ_ERR_STS_ADDR GLBL_TRQ_ERR_STS_QID_RANGE_MASK GLBL_ERR_STAT_ERR_TRQ_MASK qdma_cpm4_hw_trq_err_process;
    mk_err QDMA_CPM4_TRQ_ERR_VF_ACCESS_ERR "VF attempted to access Global register space or Function map"
      QDMA_CPM4_GLBL_TRQ_ERR_MSK_ADDR QDMA_CPM4_GLBL_TRQ_ERR_STS_ADDR GLBL_TRQ_ERR_STS_VF_ACCESS_ERR_MASK GLBL_ERR_STAT_ERR_TRQ_MASK qdma_cpm4_hw_trq_err_process;
    mk_err QDMA_CPM4_TRQ_ERR_TCP_TIMEOUT "Timeout on request to dma internal csr register"
      QDMA_CPM4_GLBL_TRQ_ERR_MSK_ADDR QDMA_CPM4_GLBL_TRQ_ERR_STS_ADDR GLBL_TRQ_ERR_STS_TCP_TIMEOUT_MASK GLBL_ERR_STAT_ERR_TRQ_MASK qdma_cpm4_hw_trq_err_process;
    mk_err QDMA_CPM4_TRQ_ERR_ALL "All TRQ errors"
      QDMA_CPM4_GLBL_TRQ_ERR_MSK_ADDR QDMA_CPM4_GLBL_TRQ_ERR_STS_ADDR QDMA_CPM4_GLBL_TRQ_ERR_ALL_MASK GLBL_ERR_STAT_ERR_TRQ_MASK qdma_cpm4_hw_trq_err_process
  ].
Definition cpm4_st_c2h_err_info : list (hw_err_info dev) :=
  [
    mk_err QDMA_CPM4_ST_C2H_ERR_MTY_MISMATCH "MTY mismatch error"
      QDMA_CPM4_C2H_ERR_MASK_ADDR QDMA_CPM4_C2H_ERR_STAT_ADDR C2H_ERR_STAT_MTY_MISMATCH_MASK GLBL_ERR_STAT_ERR_C2H_ST_MASK qdma_cpm4_hw_st_c2h_err_process;
    mk_err QDMA_CPM4_ST_C2H_ERR_LEN_MISMATCH "Packet length mismatch error"
      QDMA_CPM4_C2H_ERR_MASK_ADDR QDMA_CPM4_C2H_ERR_STAT_ADDR C2H_ERR_STAT_LEN_MISMATCH_MASK GLBL_ERR_STAT_ERR_C2H_ST_MASK qdma_cpm4_hw_st_c2h_err_process;
    mk_err QDMA_CPM4_ST_C2H_ERR_QID_MISMATCH "Qid mismatch error"
      QDMA_CPM4_C2H_ERR_MASK_ADDR QDMA_CPM4_C2H_ERR_STAT_ADDR C2H_ERR_STAT_QID_MISMATCH_MASK GLBL_ERR_STAT_ERR_C2H_ST_MASK qdma_cpm4_hw_st_c2h_err_process;
    mk_err QDMA_CPM4_ST_C2H_ERR_DESC_RSP_ERR "Descriptor error bit set"
      QDMA_CPM4_C2H_ERR_MASK_ADDR QDMA_CPM4_C2H_ERR_STAT_ADDR C2H_ERR_STAT_DESC_RSP_ERR_MASK GLBL_ERR_STAT_ERR_C2H_ST_MASK qdma_cpm4_hw_st_c2h_err_process;
    mk_err QDMA_CPM4_ST_C2H_ERR_ENG_WPL_DATA_PAR_ERR "Data parity error"
      QDMA_CPM4_C2H_ERR_MASK_ADDR QDMA_CPM4_C2H_ERR_STAT_ADDR C2H_ERR_STAT_ENG_WPL_DATA_PAR_ERR_MASK GLBL_ERR_STAT_ERR_C2H_ST_MASK qdma_cpm4_hw_st_c2h_err_process;
    mk_err QDMA_CPM4_ST_C2H_ERR_MSI_INT_FAIL "MSI got a fail response error"
      QDMA_CPM4_C2H_ERR_MASK_ADDR QDMA_CPM4_C2H_ERR_STAT_ADDR C2H_ERR_STAT_MSI_INT_FAIL_MASK GLBL_ERR_STAT_ERR_C2H_ST_MASK qdma_cpm4_hw_st_c2h_err_process;
    mk_err QDMA_CPM4_ST_C2H_ERR_ERR_DESC_CNT "Descriptor count error"
      QDMA_CPM4_C2H_ERR_MASK_ADDR QDMA_CPM4_C2H_ERR_STAT_ADDR C2H_ERR_STAT_ERR_DESC_CNT_MASK GLBL_ERR_STAT_ERR_C2H_ST_MASK qdma_cpm4_hw_st_c2h_err_process;
    mk_err QDMA_CPM4_ST_C2H_ERR_PORTID_CTXT_MISMATCH "Port id in packet and pfetch ctxt mismatch error"
      QDMA_CPM4_C2H_ERR_MASK_ADDR QDMA_CPM4_C2H_ERR_STAT_ADDR C2H_ERR_STAT_PORT_ID_CTXT_MISMATCH_MASK GLBL_ERR_STAT_ERR_C2H_ST_MASK qdma_cpm4_hw_st_c2h_err_process;
    mk_err QDMA_CPM4_ST_C2H_ERR_PORTID_BYP_IN_MISMATCH "Port id in packet and bypass in mismatch error"
      QDMA_CPM4_C2H_ERR_MASK_ADDR QDMA_CPM4_C2H_ERR_STAT_ADDR C2H_ERR_STAT_PORT_ID_CTXT_MISMATCH_MASK GLBL_ERR_STAT_ERR_C2H_ST_MASK qdma_cpm4_hw_st_c2h_err_process;
    mk_err QDMA_CPM4_ST_C2H_ERR_WRB_INV_Q_ERR "Writeback on invalid queue error"
      QDMA_CPM4_C2H_ERR_MASK_ADDR QDMA_CPM4_C2H_ERR_STAT_ADDR C2H_ERR_STAT_WRB_INV_Q_ERR_MASK GLBL_ERR_STAT_ERR_C2H_ST_MASK qdma_cpm4_hw_st_c2h_err_process;
    mk_err QDMA_CPM4_ST_C2H_ERR_WRB_QFULL_ERR "Completion queue gets full error"
      QDMA_CPM4_C2H_ERR_MASK_ADDR QDMA_CPM4_C2H_ERR_STAT_ADDR C2H_ERR_STAT_WRB_QFULL_ERR_MASK GLBL_ERR_STAT_ERR_C2H_ST_MASK qdma_cpm4_hw_st_c2h_err_process;
    mk_err QDMA_CPM4_ST_C2H_ERR_WRB_CIDX_ERR "Bad CIDX update by the software error"
      QDMA_CPM4_C2H_ERR_MASK_ADDR QDMA_CPM4_C2H_ERR_STAT_ADDR C2H_ERR_STAT_WRB_CIDX_ERR_MASK GLBL_ERR_STAT_ERR_C2H_ST_MASK qdma_cpm4_hw_st_c2h_err_process;
    mk_err QDMA_CPM4_ST_C2H_ERR_WRB_PRTY_ERR "C2H completion Parity error"
      QDMA_CPM4_C2H_ERR_MASK_ADDR QDMA_CPM4_C2H_ERR_STAT_ADDR C2H_ERR_STAT_WRB_PRTY_ERR_MASK GLBL_ERR_STAT_ERR_C2H_ST_MASK qdma_cpm4_hw_st_c2h_err_process;
    mk_err QDMA_CPM4_ST_C2H_ERR_ALL "All C2h errors"
      QDMA_CPM4_C2H_ERR_MASK_ADDR QDMA_CPM4_C2H_ERR_STAT_ADDR QDMA_CPM4_C2H_ERR_ALL_MASK GLBL_ERR_STAT_ERR_C2H_ST_MASK qdma_cpm4_hw_st_c2h_err_process
  ].
Definition cpm4_st_fatal_err_info : list (hw_err_info dev) :=
  [
    mk_err QDMA_CPM4_ST_FATAL_ERR_MTY_MISMATCH "Fatal MTY mismatch error"
      QDMA_CPM4_C2H_FATAL_ERR_MASK_ADDR QDMA_CPM4_C2H_FATAL_ERR_STAT_ADDR C2H_FATAL_ERR_STAT_MTY_MISMATCH_MASK GLBL_ERR_STAT_ERR_C2H_ST_MASK qdma_cpm4_hw_st_c2h_err_process;
    mk_err QDMA_CPM4_ST_FATAL_ERR_LEN_MISMATCH "Fatal Len mismatch error"
      QDMA_CPM4_C2H_FATAL_ERR_MASK_ADDR QDMA_CPM4_C2H_FATAL_ERR_STAT_ADDR C2H_FATAL_ERR_STAT_LEN_MISMATCH_MASK GLBL_ERR_STAT_ERR_C2H_ST_MASK qdma_cpm4_hw_st_c2h_err_process;
    mk_err QDMA_CPM4_ST_FATAL_ERR_QID_MISMATCH "Fatal Qid mismatch error"
      QDMA_CPM4_C2H_FATAL_ERR_MASK_ADDR QDMA_CPM4_C2H_FATAL_ERR_STAT_ADDR C2H_FATAL_ERR_STAT_QID_MISMATCH_MASK GLBL_ERR_STAT_ERR_C2H_ST_MASK qdma_cpm4_hw_st_c2h_err_process;
    mk_err QDMA_CPM4_ST_FATAL_ERR_TIMER_FIFO_RAM_RDBE "RAM double bit fatal error"
      QDMA_CPM4_C2H_FATAL_ERR_MASK_ADDR QDMA_CPM4_C2H_FATAL_ERR_STAT_ADDR C2H_FATAL_ERR_STAT_TIMER_FIFO_RAM_RDBE_MASK GLBL_ERR_STAT_ERR_C2H_ST_MASK qdma_cpm4_hw_st_c2h_err_process;
    mk_err QDMA_CPM4_ST_FATAL_ERR_PFCH_II_RAM_RDBE "RAM double bit fatal error"
      QDMA_CPM4_C2H_FATAL_ERR_MASK_ADDR QDMA_CPM4_C2H_FATAL_ERR_STAT_ADDR C2H_FATAL_ERR_STAT_PFCH_LL_RAM_RDBE_MASK GLBL_ERR_STAT_ERR_C2H_ST_MASK qdma_cpm4_hw_st_c2h_err_process;
    mk_err QDMA_CPM4_ST_FATAL_ERR_WRB_CTXT_RAM_RDBE "RAM double bit fatal error"
      QDMA_CPM4_C2H_FATAL_ERR_MASK_ADDR QDMA_CPM4_C2H_FATAL_ERR_STAT_ADDR C2H_FATAL_ERR_STAT_WRB_CTXT_RAM_RDBE_MASK GLBL_ERR_STAT_ERR_C2H_ST_MASK qdma_cpm4_hw_st_c2h_err_process;
    mk_err QDMA_CPM4_ST_FATAL_ERR_PFCH_CTXT_RAM_RDBE "RAM double bit fatal error"
      QDMA_CPM4_C2H_FATAL_ERR_MASK_ADDR QDMA_CPM4_C2H_FATAL_ERR_STAT_ADDR C2H_FATAL_ERR_STAT_PFCH_CTXT_RAM_RDBE_MASK GLBL_ERR_STAT_ERR_C2H_ST_MASK qdma_cpm4_hw_st_c2h_err_process;
    mk_err QDMA_CPM4_ST_FATAL_ERR_DESC_REQ_FIFO_RAM_RDBE "RAM double bit fatal error"
      QDMA_CPM4_C2H_FATAL_ERR_MASK_ADDR QDMA_CPM4_C2H_FATAL_ERR_STAT_ADDR C2H_FATAL_ERR_STAT_DESC_REQ_FIFO_RAM_RDBE_MASK GLBL_ERR_STAT_ERR_C2H_ST_MASK qdma_cpm4_hw_st_c2h_err_process;
    mk_err QDMA_CPM4_ST_FATAL_ERR_INT_CTXT_RAM_RDBE "RAM double bit fatal error"
      QDMA_CPM4_C2H_FATAL_ERR_MASK_ADDR QDMA_CPM4_C2H_FATAL_ERR_STAT_ADDR C2H_FATAL_ERR_STAT_INT_CTXT_RAM_RDBE_MASK GLBL_ERR_STAT_ERR_C2H_ST_MASK qdma_cpm4_hw_st_c2h_err_process;
    mk_err QDMA_CPM4_ST_FATAL_ERR_INT_QID2VEC_RAM_RDBE "RAM double bit fatal error"
      QDMA_CPM4_C2H_FATAL_ERR_MASK_ADDR QDMA_CPM4_C2H_FATAL_ERR_STAT_ADDR C2H_FATAL_ERR_STAT_INT_QID2VEC_RAM_RDBE_MASK GLBL_ERR_STAT_ERR_C2H_ST_MASK qdma_cpm4_hw_st_c2h_err_process;
    mk_err QDMA_CPM4_ST_FATAL_ERR_WRB_COAL_DATA_RAM_RDBE "RAM double bit fatal error"
      QDMA_CPM4_C2H_FATAL_ERR_MASK_ADDR QDMA_CPM4_C2H_FATAL_ERR_STAT_ADDR C2H_FATAL_ERR_STAT_WRB_COAL_DATA_RAM_RDBE_MASK GLBL_ERR_STAT_ERR_C2H_ST_MASK qdma_cpm4_hw_st_c2h_err_process;
    mk_err QDMA_CPM4_ST_FATAL_ERR_TUSER_FIFO_RAM_RDBE "RAM double bit fatal error"
      QDMA_CPM4_C2H_FATAL_ERR_MASK_ADDR QDMA_CPM4_C2H_FATAL_ERR_STAT_ADDR C2H_FATAL_ERR_STAT_TUSER_FIFO_RAM_RDBE_MASK GLBL_ERR_STAT_ERR_C2H_ST_MASK qdma_cpm4_hw_st_c2h_err_process;
    mk_err QDMA_CPM4_ST_FATAL_ERR_QID_FIFO_RAM_RDBE "RAM double bit fatal error"
      QDMA_CPM4_C2H_FATAL_ERR_MASK_ADDR QDMA_CPM4_C2H_FATAL_ERR_STAT_ADDR C2H_FATAL_ERR_STAT_QID_FIFO_RAM_RDBE_MASK GLBL_ERR_STAT_ERR_C2H_ST_MASK qdma_cpm4_hw_st_c2h_err_process;
    mk_err QDMA_CPM4_ST_FATAL_ERR_PAYLOAD_FIFO_RAM_RDBE "RAM double bit fatal error"
      QDMA_CPM4_C2H_FATAL_ERR_MASK_ADDR QDMA_CPM4_C2H_FATAL_ERR_STAT_ADDR C2H_FATAL_ERR_STAT_PLD_FIFO_RAM_RDBE_MASK GLBL_ERR_STAT_ERR_C2H_ST_MASK qdma_cpm4_hw_st_c2h_err_process;
    mk_err QDMA_CPM4_ST_FATAL_ERR_WPL_DATA_PAR_ERR "RAM double bit fatal error"
      QDMA_CPM4_C2H_FATAL_ERR_MASK_ADDR QDMA_CPM4_C2H_FATAL_ERR_STAT_ADDR C2H_FATAL_ERR_STAT_WPL_DATA_PAR_ERR_MASK GLBL_ERR_STAT_ERR_C2H_ST_MASK qdma_cpm4_hw_st_c2h_err_process;
    mk_err QDMA_CPM4_ST_FATAL_ERR_ALL "All fatal errors"
      QDMA_CPM4_C2H_FATAL_ERR_MASK_ADDR QDMA_CPM4_C2H_FATAL_ERR_STAT_ADDR QDMA_CPM4_C2H_FATAL_ERR_ALL_MASK GLBL_ERR_STAT_ERR_C2H_ST_MASK qdma_cpm4_hw_st_c2h_err_process
  ].
Definition cpm4_st_h2c_err_info : list (hw_err_info dev) :=
  [
    mk_err QDMA_CPM4_ST_H2C_ERR_ZERO_LEN_DESC_ERR "Zero length descriptor error"
      QDMA_CPM4_H2C_ERR_MASK_ADDR QDMA_CPM4_H2C_ERR_STAT_ADDR H2C_ERR_STAT_ZERO_LEN_DS_MASK GLBL_ERR_STAT_ERR_H2C_ST_MASK qdma_cpm4_hw_st_h2c_err_process;
    mk_err QDMA_CPM4_ST_H2C_ERR_SDI_MRKR_REQ_MOP_ERR "A non-EOP descriptor received"
      QDMA_CPM4_H2C_ERR_MASK_ADDR QDMA_CPM4_H2C_ERR_STAT_ADDR H2C_ERR_STAT_SDI_MRKR_REQ_MOP_ERR_MASK GLBL_ERR_STAT_ERR_H2C_ST_MASK qdma_cpm4_hw_st_h2c_err_process;
    mk_err QDMA_CPM4_ST_H2C_ERR_NO_DMA_DSC "No DMA descriptor received error"
      QDMA_CPM4_H2C_ERR_MASK_ADDR QDMA_CPM4_H2C_ERR_STAT_ADDR H2C_ERR_STAT_NO_DMA_DS_MASK GLBL_ERR_STAT_ERR_H2C_ST_MASK qdma_cpm4_hw_st_h2c_err_process;
    mk_err QDMA_CPM4_ST_H2C_ERR_DBE "Double bit error detected on H2C-ST data error"
      QDMA_CPM4_H2C_ERR_MASK_ADDR QDMA_CPM4_H2C_ERR_STAT_ADDR H2C_ERR_STAT_DBE_MASK GLBL_ERR_STAT_ERR_H2C_ST_MASK qdma_cpm4_hw_st_h2c_err_process;
    mk_err QDMA_CPM4_ST_H2C_ERR_SBE "Single bit error detected on H2C-ST data error"
      QDMA_CPM4_H2C_ERR_MASK_ADDR QDMA_CPM4_H2C_ERR_STAT_ADDR H2C_ERR_STAT_SBE_MASK GLBL_ERR_STAT_ERR_H2C_ST_MASK qdma_cpm4_hw_st_h2c_err_process;
    mk_err QDMA_CPM4_ST_H2C_ERR_ALL "All H2C errors"
      QDMA_CPM4_H2C_ERR_MASK_ADDR QDMA_CPM4_H2C_ERR_STAT_ADDR QDMA_CPM4_H2C_ERR_ALL_MASK GLBL_ERR_STAT_ERR_H2C_ST_MASK qdma_cpm4_hw_st_h2c_err_process
  ].
Definition cpm4_sbe_err_info : list (hw_err_info dev) :=
  [
    mk_err QDMA_CPM4_SBE_ERR_MI_H2C0_DAT "H2C MM data buffer single bit ECC error"
      QDMA_CPM4_RAM_SBE_MSK_A_ADDR QDMA_CPM4_RAM_SBE_STS_A_ADDR RAM_SBE_STS_A_MI_H2C0_DAT_MASK GLBL_ERR_STAT_ERR_RAM_SBE_MASK qdma_cpm4_hw_ram_sbe_err_process;
    mk_err QDMA_CPM4_SBE_ERR_MI_C2H0_DAT "C2H MM data buffer single bit ECC error"
      QDMA_CPM4_RAM_SBE_MSK_A_ADDR QDMA_CPM4_RAM_SBE_STS_A_ADDR RAM_SBE_STS_A_MI_C2H0_DAT_MASK GLBL_ERR_STAT_ERR_RAM_SBE_MASK qdma_cpm4_hw_ram_sbe_err_process;
    mk_err QDMA_CPM4_SBE_ERR_H2C_RD_BRG_DAT "Bridge master read single bit ECC error"
      QDMA_CPM4_RAM_SBE_MSK_A_ADDR QDMA_CPM4_RAM_SBE_STS_A_ADDR RAM_SBE_STS_A_H2C_RD_BRG_DAT_MASK GLBL_ERR_STAT_ERR_RAM_SBE_MASK qdma_cpm4_hw_ram_sbe_err_process;
    mk_err QDMA_CPM4_SBE_ERR_H2C_WR_BRG_DAT "Bridge master write single bit ECC error"
      QDMA_CPM4_RAM_SBE_MSK_A_ADDR QDMA_CPM4_RAM_SBE_STS_A_ADDR RAM_SBE_STS_A_H2C_WR_BRG_DAT_MASK GLBL_ERR_STAT_ERR_RAM_SBE_MASK qdma_cpm4_hw_ram_sbe_err_process;
    mk_err QDMA_CPM4_SBE_ERR_C2H_RD_BRG_DAT "Bridge slave read data buffer single bit ECC error"
      QDMA_CPM4_RAM_SBE_MSK_A_ADDR QDMA_CPM4_RAM_SBE_STS_A_ADDR RAM_SBE_STS_A_C2H_RD_BRG_DAT_MASK GLBL_ERR_STAT_ERR_RAM_SBE_MASK qdma_cpm4_hw_ram_sbe_err_process;
    mk_err QDMA_CPM4_SBE_ERR_C2H_WR_BRG_DAT "Bridge slave write data buffer single bit ECC error"
      QDMA_CPM4_RAM_SBE_MSK_A_ADDR QDMA_CPM4_RAM_SBE_STS_A_ADDR RAM_SBE_STS_A_C2H_WR_BRG_DAT_MASK GLBL_ERR_STAT_ERR_RAM_SBE_MASK qdma_cpm4_hw_ram_sbe_err_process;
    mk_err QDMA_CPM4_SBE_ERR_FUNC_MAP "Function map RAM single bit ECC error"
      QDMA_CPM4_RAM_SBE_MSK_A_ADDR QDMA_CPM4_RAM_SBE_STS_A_ADDR RAM_SBE_STS_A_FUNC_MAP_MASK GLBL_ERR_STAT_ERR_RAM_SBE_MASK qdma_cpm4_hw_ram_sbe_err_process;
    mk_err QDMA_CPM4_SBE_ERR_DSC_HW_CTXT "Descriptor engine hardware context RAM single bit ECC error"
      QDMA_CPM4_RAM_SBE_MSK_A_ADDR QDMA_CPM4_RAM_SBE_STS_A_ADDR RAM_SBE_STS_A_DSC_HW_CTXT_MASK GLBL_ERR_STAT_ERR_RAM_SBE_MASK qdma_cpm4_hw_ram_sbe_err_process;
    mk_err QDMA_CPM4_SBE_ERR_DSC_CRD_RCV "Descriptor engine receive credit context RAM single bit ECC error"
      QDMA_CPM4_RAM_SBE_MSK_A_ADDR QDMA_CPM4_RAM_SBE_STS_A_ADDR RAM_SBE_STS_A_DSC_CRD_RCV_MASK GLBL_ERR_STAT_ERR_RAM_SBE_MASK qdma_cpm4_hw_ram_sbe_err_process;
    mk_err QDMA_CPM4_SBE_ERR_DSC_SW_CTXT "Descriptor engine software context RAM single bit ECC error"
      QDMA_CPM4_RAM_SBE_MSK_A_ADDR QDMA_CPM4_RAM_SBE_STS_A_ADDR RAM_SBE_STS_A_DSC_SW_CTXT_MASK GLBL_ERR_STAT_ERR_RAM_SBE_MASK qdma_cpm4_hw_ram_sbe_err_process;
    mk_err QDMA_CPM4_SBE_ERR_DSC_CPLI "Descriptor engine fetch completion information RAM single bit ECC error"
      QDMA_CPM4_RAM_SBE_MSK_A_ADDR QDMA_CPM4_RAM_SBE_STS_A_ADDR RAM_SBE_STS_A_DSC_CPLI_MASK GLBL_ERR_STAT_ERR_RAM_SBE_MASK qdma_cpm4_hw_ram_sbe_err_process;
    mk_err QDMA_CPM4_SBE_ERR_DSC_CPLD "Descriptor engine fetch completion data RAM single bit ECC error"
      QDMA_CPM4_RAM_SBE_MSK_A_ADDR QDMA_CPM4_RAM_SBE_STS_A_ADDR RAM_SBE_STS_A_DSC_CPLD_MASK GLBL_ERR_STAT_ERR_RAM_SBE_MASK qdma_cpm4_hw_ram_sbe_err_process;
    mk_err QDMA_CPM4_SBE_ERR_PASID_CTXT_RAM "Pasid ctxt FIFO RAM single bit ECC error"
      QDMA_CPM4_RAM_SBE_MSK_A_ADDR QDMA_CPM4_RAM_SBE_STS_A_ADDR RAM_SBE_STS_A_PASID_CTXT_RAM_MASK GLBL_ERR_STAT_ERR_RAM_SBE_MASK qdma_cpm4_hw_ram_sbe_err_process;
    mk_err QDMA_CPM4_SBE_ERR_TIMER_FIFO_RAM "Timer fifo RAM single bit ECC error"
      QDMA_CPM4_RAM_SBE_MSK_A_ADDR QDMA_CPM4_RAM_SBE_STS_A_ADDR RAM_SBE_STS_A_TIMER_FIFO_RAM_MASK GLBL_ERR_STAT_ERR_RAM_SBE_MASK qdma_cpm4_hw_ram_sbe_err_process;
    mk_err QDMA_CPM4_SBE_ERR_PAYLOAD_FIFO_RAM "C2H ST payload FIFO RAM single bit ECC error"
      QDMA_CPM4_RAM_SBE_MSK_A_ADDR QDMA_CPM4_RAM_SBE_STS_A_ADDR RAM_SBE_STS_A_PLD_FIFO_RAM_MASK GLBL_ERR_STAT_ERR_RAM_SBE_MASK qdma_cpm4_hw_ram_sbe_err_process;
    mk_err QDMA_CPM4_SBE_ERR_QID_FIFO_RAM "C2H ST QID FIFO RAM single bit ECC error"
      QDMA_CPM4_RAM_SBE_MSK_A_ADDR QDMA_CPM4_RAM_SBE_STS_A_ADDR RAM_SBE_STS_A_QID_FIFO_RAM_MASK GLBL_ERR_STAT_ERR_RAM_SBE_MASK qdma_cpm4_hw_ram_sbe_err_process;
    mk_err QDMA_CPM4_SBE_ERR_TUSER_FIFO_RAM "C2H ST TUSER FIFO RAM single bit ECC error"
      QDMA_CPM4_RAM_SBE_MSK_A_ADDR QDMA_CPM4_RAM_SBE_STS_A_ADDR RAM_SBE_STS_A_TUSER_FIFO_RAM_MASK GLBL_ERR_STAT_ERR_RAM_SBE_MASK qdma_cpm4_hw_ram_sbe_err_process;
    mk_err QDMA_CPM4_SBE_ERR_WRB_COAL_DATA_RAM "Writeback Coalescing RAM single bit ECC error"
      QDMA_CPM4_RAM_SBE_MSK_A_ADDR QDMA_CPM4_RAM_SBE_STS_A_ADDR RAM_SBE_STS_A_WRB_COAL_DATA_RAM_MASK GLBL_ERR_STAT_ERR_RAM_SBE_MASK qdma_cpm4_hw_ram_sbe_err_process;
    mk_err QDMA_CPM4_SBE_ERR_INT_QID2VEC_RAM "Interrupt QID2VEC RAM single bit ECC error"
      QDMA_CPM4_RAM_SBE_MSK_A_ADDR QDMA_CPM4_RAM_SBE_STS_A_ADDR RAM_SBE_STS_A_INT_QID2VEC_RAM_MASK GLBL_ERR_STAT_ERR_RAM_SBE_MASK qdma_cpm4_hw_ram_sbe_err_process;
    mk_err QDMA_CPM4_SBE_ERR_INT_CTXT_RAM "Interrupt context RAM single bit ECC error"
      QDMA_CPM4_RAM_SBE_MSK_A_ADDR QDMA_CPM4_RAM_SBE_STS_A_ADDR RAM_SBE_STS_A_INT_CTXT_RAM_MASK GLBL_ERR_STAT_ERR_RAM_SBE_MASK qdma_cpm4_hw_ram_sbe_err_process;
    mk_err QDMA_CPM4_SBE_ERR_DESC_REQ_FIFO_RAM "C2H ST descriptor request RAM single bit ECC error"
      QDMA_CPM4_RAM_SBE_MSK_A_ADDR QDMA_CPM4_RAM_SBE_STS_A_ADDR RAM_SBE_STS_A_DESC_REQ_FIFO_RAM_MASK GLBL_ERR_STAT_ERR_RAM_SBE_MASK qdma_cpm4_hw_ram_sbe_err_process;
    mk_err QDMA_CPM4_SBE_ERR_PFCH_CTXT_RAM "C2H ST prefetch RAM single bit ECC error"
      QDMA_CPM4_RAM_SBE_MSK_A_ADDR QDMA_CPM4_RAM_SBE_STS_A_ADDR RAM_SBE_STS_A_PFCH_CTXT_RAM_MASK GLBL_ERR_STAT_ERR_RAM_SBE_MASK qdma_cpm4_hw_ram_sbe_err_process;
    mk_err QDMA_CPM4_SBE_ERR_WRB_CTXT_RAM "C2H ST completion context RAM single bit ECC error"
      QDMA_CPM4_RAM_SBE_MSK_A_ADDR QDMA_CPM4_RAM_SBE_STS_A_ADDR RAM_SBE_STS_A_WRB_CTXT_RAM_MASK GLBL_ERR_STAT_ERR_RAM_SBE_MASK qdma_cpm4_hw_ram_sbe_err_process;
    mk_err QDMA_CPM4_SBE_ERR_PFCH_LL_RAM "C2H ST prefetch list RAM single bit ECC error"
      QDMA_CPM4_RAM_SBE_MSK_A_ADDR QDMA_CPM4_RAM_SBE_STS_A_ADDR RAM_SBE_STS_A_PFCH_LL_RAM_MASK GLBL_ERR_STAT_ERR_RAM_SBE_MASK qdma_cpm4_hw_ram_sbe_err_process;
    mk_err QDMA_CPM4_SBE_ERR_ALL "All SBE errors"
      QDMA_CPM4_RAM_SBE_MSK_A_ADDR QDMA_CPM4_RAM_SBE_STS_A_ADDR QDMA_CPM4_SBE_ERR_ALL_MASK GLBL_ERR_STAT_ERR_RAM_SBE_MASK qdma_cpm4_hw_ram_sbe_err_process
  ].
Definition cpm4_dbe_err_info : list (hw_err_info dev) :=
  [
    mk_err QDMA_CPM4_DBE_ERR_MI_H2C0_DAT "H2C MM data buffer single bit ECC error"
      QDMA_CPM4_RAM_DBE_MSK_A_ADDR QDMA_CPM4_RAM_DBE_STS_A_ADDR RAM_DBE_STS_A_MI_H2C0_DAT_MASK GLBL_ERR_STAT_ERR_RAM_DBE_MASK qdma_cpm4_hw_ram_dbe_err_process;
    mk_err QDMA_CPM4_DBE_ERR_MI_C2H0_DAT "C2H MM data buffer single bit ECC error"
      QDMA_CPM4_RAM_DBE_MSK_A_ADDR QDMA_CPM4_RAM_DBE_STS_A_ADDR RAM_DBE_STS_A_MI_C2H0_DAT_MASK GLBL_ERR_STAT_ERR_RAM_DBE_MASK qdma_cpm4_hw_ram_dbe_err_process;
    mk_err QDMA_CPM4_DBE_ERR_H2C_RD_BRG_DAT "Bridge master read single bit ECC error"
      QDMA_CPM4_RAM_DBE_MSK_A_ADDR QDMA_CPM4_RAM_DBE_STS_A_ADDR RAM_DBE_STS_A_H2C_RD_BRG_DAT_MASK GLBL_ERR_STAT_ERR_RAM_DBE_MASK qdma_cpm4_hw_ram_dbe_err_process;
    mk_err QDMA_CPM4_DBE_ERR_H2C_WR_BRG_DAT "Bridge master write single bit ECC error"
      QDMA_CPM4_RAM_DBE_MSK_A_ADDR QDMA_CPM4_RAM_DBE_STS_A_ADDR RAM_DBE_STS_A_H2C_WR_BRG_DAT_MASK GLBL_ERR_STAT_ERR_RAM_DBE_MASK qdma_cpm4_hw_ram_dbe_err_process;
    mk_err QDMA_CPM4_DBE_ERR_C2H_RD_BRG_DAT "Bridge slave read data buffer single bit ECC error"
      QDMA_CPM4_RAM_DBE_MSK_A_ADDR QDMA_CPM4_RAM_DBE_STS_A_ADDR RAM_DBE_STS_A_C2H_RD_BRG_DAT_MASK GLBL_ERR_STAT_ERR_RAM_DBE_MASK qdma_cpm4_hw_ram_dbe_err_process;
    mk_err QDMA_CPM4_DBE_ERR_C2H_WR_BRG_DAT "Bridge slave write data buffer single bit ECC error"
      QDMA_CPM4_RAM_DBE_MSK_A_ADDR QDMA_CPM4_RAM_DBE_STS_A_ADDR RAM_DBE_STS_A_C2H_WR_BRG_DAT_MASK GLBL_ERR_STAT_ERR_RAM_DBE_MASK qdma_cpm4_hw_ram_dbe_err_process;
    mk_err QDMA_CPM4_DBE_ERR_FUNC_MAP "Function map RAM single bit ECC error"
      QDMA_CPM4_RAM_DBE_MSK_A_ADDR QDMA_CPM4_RAM_DBE_STS_A_ADDR RAM_DBE_STS_A_FUNC_MAP_MASK GLBL_ERR_STAT_ERR_RAM_DBE_MASK qdma_cpm4_hw_ram_dbe_err_process;
    mk_err QDMA_CPM4_DBE_ERR_DSC_HW_CTXT "Descriptor engine hardware context RAM single bit ECC error"
      QDMA_CPM4_RAM_DBE_MSK_A_ADDR QDMA_CPM4_RAM_DBE_STS_A_ADDR RAM_DBE_STS_A_DSC_HW_CTXT_MASK GLBL_ERR_STAT_ERR_RAM_DBE_MASK qdma_cpm4_hw_ram_dbe_err_process;
    mk_err QDMA_CPM4_DBE_ERR_DSC_CRD_RCV "Descriptor engine receive credit context RAM single bit ECC error"
      QDMA_CPM4_RAM_DBE_MSK_A_ADDR QDMA_CPM4_RAM_DBE_STS_A_ADDR RAM_DBE_STS_A_DSC_CRD_RCV_MASK GLBL_ERR_STAT_ERR_RAM_DBE_MASK qdma_cpm4_hw_ram_dbe_err_process;
    mk_err QDMA_CPM4_DBE_ERR_DSC_SW_CTXT "Descriptor engine software context RAM single bit ECC error"
      QDMA_CPM4_RAM_DBE_MSK_A_ADDR QDMA_CPM4_RAM_DBE_STS_A_ADDR RAM_DBE_STS_A_DSC_SW_CTXT_MASK GLBL_ERR_STAT_ERR_RAM_DBE_MASK qdma_cpm4_hw_ram_dbe_err_process;
    mk_err QDMA_CPM4_DBE_ERR_DSC_CPLI "Descriptor engine fetch completion information RAM single bit ECC error"
      QDMA_CPM4_RAM_DBE_MSK_A_ADDR QDMA_CPM4_RAM_DBE_STS_A_ADDR RAM_DBE_STS_A_DSC_CPLI_MASK GLBL_ERR_STAT_ERR_RAM_DBE_MASK qdma_cpm4_hw_ram_dbe_err_process;
    mk_err QDMA_CPM4_DBE_ERR_DSC_CPLD "Descriptor engine fetch completion data RAM single bit ECC error"
      QDMA_CPM4_RAM_DBE_MSK_A_ADDR QDMA_CPM4_RAM_DBE_STS_A_ADDR RAM_DBE_STS_A_DSC_CPLD_MASK GLBL_ERR_STAT_ERR_RAM_DBE_MASK qdma_cpm4_hw_ram_dbe_err_process;
    mk_err QDMA_CPM4_DBE_ERR_PASID_CTXT_RAM "PASID CTXT RAM single bit ECC error"
      QDMA_CPM4_RAM_DBE_MSK_A_ADDR QDMA_CPM4_RAM_DBE_STS_A_ADDR RAM_DBE_STS_A_PASID_CTXT_RAM_MASK GLBL_ERR_STAT_ERR_RAM_DBE_MASK qdma_cpm4_hw_ram_dbe_err_process;
    mk_err QDMA_CPM4_DBE_ERR_TIMER_FIFO_RAM "Timer fifo RAM single bit ECC error"
      QDMA_CPM4_RAM_DBE_MSK_A_ADDR QDMA_CPM4_RAM_DBE_STS_A_ADDR RAM_DBE_STS_A_TIMER_FIFO_RAM_MASK GLBL_ERR_STAT_ERR_RAM_DBE_MASK qdma_cpm4_hw_ram_dbe_err_process;
    mk_err QDMA_CPM4_DBE_ERR_PAYLOAD_FIFO_RAM "Payload fifo RAM single bit ECC error"
      QDMA_CPM4_RAM_DBE_MSK_A_ADDR QDMA_CPM4_RAM_DBE_STS_A_ADDR RAM_DBE_STS_A_PLD_FIFO_RAM_MASK GLBL_ERR_STAT_ERR_RAM_DBE_MASK qdma_cpm4_hw_ram_dbe_err_process;
    mk_err QDMA_CPM4_DBE_ERR_QID_FIFO_RAM "C2H ST QID FIFO RAM single bit ECC error"
      QDMA_CPM4_RAM_DBE_MSK_A_ADDR QDMA_CPM4_RAM_DBE_STS_A_ADDR RAM_DBE_STS_A_QID_FIFO_RAM_MASK GLBL_ERR_STAT_ERR_RAM_DBE_MASK qdma_cpm4_hw_ram_dbe_err_process;
    mk_err QDMA_CPM4_DBE_ERR_WRB_COAL_DATA_RAM "Writeback Coalescing RAM single bit ECC error"
      QDMA_CPM4_RAM_DBE_MSK_A_ADDR QDMA_CPM4_RAM_DBE_STS_A_ADDR RAM_DBE_STS_A_WRB_COAL_DATA_RAM_MASK GLBL_ERR_STAT_ERR_RAM_DBE_MASK qdma_cpm4_hw_ram_dbe_err_process;
    mk_err QDMA_CPM4_DBE_ERR_INT_QID2VEC_RAM "QID2VEC RAM single bit ECC error"
      QDMA_CPM4_RAM_DBE_MSK_A_ADDR QDMA_CPM4_RAM_DBE_STS_A_ADDR RAM_DBE_STS_A_INT_QID2VEC_RAM_MASK GLBL_ERR_STAT_ERR_RAM_DBE_MASK qdma_cpm4_hw_ram_dbe_err_process;
    mk_err QDMA_CPM4_DBE_ERR_INT_CTXT_RAM "Interrupt context RAM single bit ECC error"
      QDMA_CPM4_RAM_DBE_MSK_A_ADDR QDMA_CPM4_RAM_DBE_STS_A_ADDR RAM_DBE_STS_A_INT_CTXT_RAM_MASK GLBL_ERR_STAT_ERR_RAM_DBE_MASK qdma_cpm4_hw_ram_dbe_err_process;
    mk_err QDMA_CPM4_DBE_ERR_DESC_REQ_FIFO_RAM "C2H ST descriptor request RAM single bit ECC error"
      QDMA_CPM4_RAM_DBE_MSK_A_ADDR QDMA_CPM4_RAM_DBE_STS_A_ADDR RAM_DBE_STS_A_DESC_REQ_FIFO_RAM_MASK GLBL_ERR_STAT_ERR_RAM_DBE_MASK qdma_cpm4_hw_ram_dbe_err_process;
    mk_err QDMA_CPM4_DBE_ERR_PFCH_CTXT_RAM "C2H ST prefetch RAM single bit ECC error"
      QDMA_CPM4_RAM_DBE_MSK_A_ADDR QDMA_CPM4_RAM_DBE_STS_A_ADDR RAM_DBE_STS_A_PFCH_CTXT_RAM_MASK GLBL_ERR_STAT_ERR_RAM_DBE_MASK qdma_cpm4_hw_ram_dbe_err_process;
    mk_err QDMA_CPM4_DBE_ERR_WRB_CTXT_RAM "C2H ST completion context RAM single bit ECC error"
      QDMA_CPM4_RAM_DBE_MSK_A_ADDR QDMA_CPM4_RAM_DBE_STS_A_ADDR RAM_DBE_STS_A_WRB_CTXT_RAM_MASK GLBL_ERR_STAT_ERR_RAM_DBE_MASK qdma_cpm4_hw_ram_dbe_err_process;
    mk_err QDMA_CPM4_DBE_ERR_PFCH_LL_RAM "C2H ST prefetch list RAM single bit ECC error"
      QDMA_CPM4_RAM_DBE_MSK_A_ADDR QDMA_CPM4_RAM_DBE_STS_A_ADDR RAM_DBE_STS_A_PFCH_LL_RAM_MASK GLBL_ERR_STAT_ERR_RAM_DBE_MASK qdma_cpm4_hw_ram_dbe_err_process;
    mk_err QDMA_CPM4_DBE_ERR_ALL "All DBE errors"
      QDMA_CPM4_RAM_DBE_MSK_A_ADDR QDMA_CPM4_RAM_DBE_STS_A_ADDR QDMA_CPM4_DBE_ERR_ALL_MASK GLBL_ERR_STAT_ERR_RAM_DBE_MASK qdma_cpm4_hw_ram_dbe_err_process
  ].
Definition qdma_cpm4_err_info : list (hw_err_info dev) :=
  cpm4_dsc_err_info ++ cpm4_trq_err_info ++ cpm4_st_c2h_err_info ++ cpm4_st_fatal_err_info ++ cpm4_st_h2c_err_info ++ cpm4_sbe_err_info ++ cpm4_dbe_err_info.

Definition cpm4_hw_err_position : list Z :=
  [QDMA_CPM4_DSC_ERR_POISON : Z; QDMA_CPM4_TRQ_ERR_UNMAPPED : Z; QDMA_CPM4_ST_C2H_ERR_MTY_MISMATCH : Z;
    QDMA_CPM4_ST_FATAL_ERR_MTY_MISMATCH : Z; QDMA_CPM4_ST_H2C_ERR_ZERO_LEN_DESC_ERR : Z;
    QDMA_CPM4_SBE_ERR_MI_H2C0_DAT : Z; QDMA_CPM4_DBE_ERR_MI_H2C0_DAT : Z].
Definition cpm4_all_hw_errs : list Z :=
  [QDMA_CPM4_DSC_ERR_ALL : Z; QDMA_CPM4_TRQ_ERR_ALL : Z; QDMA_CPM4_ST_C2H_ERR_ALL : Z;
    QDMA_CPM4_ST_FATAL_ERR_ALL : Z; QDMA_CPM4_ST_H2C_ERR_ALL : Z; QDMA_CPM4_SBE_ERR_ALL : Z;
    QDMA_CPM4_DBE_ERR_ALL : Z].

Definition cpm4_err_ip : err_ip dev :=
  mk_err_ip qdma_cpm4_err_info cpm4_hw_err_position cpm4_all_hw_errs
    [QDMA_CPM4_ST_C2H_ERR_MTY_MISMATCH : Z; QDMA_CPM4_ST_FATAL_ERR_MTY_MISMATCH : Z;
    QDMA_CPM4_ST_H2C_ERR_ZERO_LEN_DESC_ERR : Z] [QDMA_CPM4_ST_C2H_ERR_ALL : Z; QDMA_CPM4_ST_FATAL_ERR_ALL : Z; QDMA_CPM4_ST_H2C_ERR_ALL : Z]
    QDMA_CPM4_GLBL_ERR_STAT_ADDR QDMA_CPM4_GLBL_ERR_MASK_ADDR QDMA_CPM4_ERRS_ALL qdma_cpm4_get_dev_cap.

Definition qdma_cpm4_hw_get_error_name (err_idx : Z) : option string :=
  hw_get_error_name cpm4_err_ip err_idx.
Definition qdma_cpm4_hw_error_process (dev_hndl : bool) : hwm dev (Z * list Z) :=
  hw_error_process cpm4_err_ip dev_hndl.
Definition qdma_cpm4_hw_error_enable (dev_hndl : bool) (err_idx : Z) : hwm dev Z :=
  hw_error_enable cpm4_err_ip dev_hndl err_idx.
End ip.
