(* ===== verification/ErrThms.v ===== *)
(** * Hardware errors: none is lost

    A status register remembers the errors raised until they are cleared by
    writing ones.  Errors may be raised at every access of the driver, so what
    the registers hold is stated together with the list of what was raised.
    Processing logs every error it clears; enabling sets the mask registers to
    what the table says. *)

From Stdlib Require Import String.
From S2P Require Import Prelude Platform Bits RegIO IndCtxt SoftCtxt SoftAccess RegList ErrProc.

(** ** What the hardware promises *)

(** From [d] to [d'] the errors [new] were raised; [f] is what the registers
    would hold without them. *)
Definition evolves {dev} (reg : dev → Z → Z) (raised : dev → list (Z * Z)) (status plain : list Z)
    (f : Z → Z) (new : list (Z * Z)) (d d' : dev) : Prop :=
  raised d' = raised d ++ new ∧ Forall (λ e, e.1 ∈ status) new ∧
  ∀ a i, a ∈ status ++ plain → 0 <= i →
    Z.testbit (reg d' a) i = Z.testbit (f a) i || bool_decide ((a, i) ∈ new).

(** Status registers are cleared by writing ones, [plain] registers keep what
    is written to them; nothing is said of the others. *)
Class ErrorUnit (dev : Type) `{Device dev} (status plain : list Z) := {
  eu_reg : dev → Z → Z;
  eu_raised : dev → list (Z * Z);
  eu_width : ∀ d a, 0 <= eu_reg d a < 2 ^ 32;
  eu_read : ∀ a d, (a ∈ status ++ plain → (dev_read a d).1 = eu_reg d a) ∧
    ∃ new, evolves eu_reg eu_raised status plain (eu_reg d) new d (dev_read a d).2;
  eu_write : ∀ a v d, 0 <= v < 2 ^ 32 → ∃ new,
    evolves eu_reg eu_raised status plain
      (λ b, if b =? a then if bool_decide (a ∈ status) then Z.ldiff (eu_reg d a) v else v else eu_reg d b)
      new d (dev_write a v d);
  eu_delay : ∀ us d, ∃ new, evolves eu_reg eu_raised status plain (eu_reg d) new d (dev_delay us d);
}.

(** ** What the tables have to satisfy *)

Section table.
Context {dev : Type}.
Implicit Types ip : err_ip dev.

Definition block_list ip : list (Z * Z) := zip (hw_err_position ip) (all_hw_errs ip).
Definition ip_status ip : list Z := ip_glbl_stat ip :: ((λ b, stat_reg_addr (err_info ip b.1)) <$> block_list ip).
Definition ip_plain ip : list Z := ip_glbl_mask ip :: ((λ b, mask_reg_addr (err_info ip b.2)) <$> block_list ip).

(** The streaming errors. *)
Definition st_error ip (idx : Z) : bool :=
  existsb (λ b, (b.1 <=? idx) && (idx <=? b.2) && mem_Z b.1 (ip_st_first ip)) (block_list ip).

(** The blocks follow one another and cover the table, the registers of an
    entry are those of its block, and no two blocks share a register. *)
Definition block_check ip (b : Z * Z) : bool :=
  (0 <=? b.1) && (b.1 <? b.2) && (b.2 <? ip_errs_all ip) &&
  forallb (λ idx, (ei_idx (err_info ip idx) =? idx) &&
    (stat_reg_addr (err_info ip idx) =? stat_reg_addr (err_info ip b.1)) &&
    (mask_reg_addr (err_info ip idx) =? mask_reg_addr (err_info ip b.2)) &&
    bool_decide (st_error ip idx = mem_Z b.1 (ip_st_first ip))) (seqZ b.1 (b.2 - b.1 + 1)).
Definition ip_check ip : bool :=
  bool_decide (length (hw_err_position ip) = length (all_hw_errs ip)) &&
  bool_decide (concat ((λ b, seqZ b.1 (b.2 - b.1 + 1)) <$> block_list ip) = seqZ 0 (ip_errs_all ip)) &&
  (Z.of_nat (length (ip_err_info ip)) =? ip_errs_all ip) && (ip_errs_all ip <? 2 ^ 32) &&
  forallb (block_check ip) (block_list ip) &&
  bool_decide (NoDup (ip_status ip ++ ip_plain ip)) &&
  forallb (λ a, (0 <=? a) && (a <? 2 ^ 32)) (ip_status ip ++ ip_plain ip) &&
  negb (mem_Z QDMA_OFFSET_IND_CTXT_CMD (ip_status ip ++ ip_plain ip)).
End table.

(** ** The registers *)

Section err.
Context {dev : Type} `{Device dev} (status plain : list Z) `{!ErrorUnit dev status plain}.
Hypothesis addr_ok : Forall (λ a, 0 <= a < 2 ^ 32) (status ++ plain).
Hypothesis apart : ∀ a, a ∈ status → a ∉ plain.
Implicit Types (d : dev) (s : hw_state dev) (ip : err_ip dev).

Notation evo := (evolves eu_reg eu_raised status plain).
Notation reg s a := (eu_reg (hw s) a).

Lemma u32_addr a : a ∈ status ++ plain → u32 a = a.
Proof using addr_ok. intros Ha. rewrite Forall_forall in addr_ok. apply u32_small. by apply addr_ok. Qed.

Lemma bool_decide_app (x : Z * Z) l1 l2 :
  bool_decide (x ∈ l1 ++ l2) = bool_decide (x ∈ l1) || bool_decide (x ∈ l2).
Proof using.
  rewrite <- bool_decide_or. apply bool_decide_ext, elem_of_app.
Qed.

Lemma evolves_trans f d1 n1 d2 n2 d3 : evo f n1 d1 d2 → evo (eu_reg d2) n2 d2 d3 → evo f (n1 ++ n2) d1 d3.
Proof using.
  intros (Hr1 & Hs1 & Hb1) (Hr2 & Hs2 & Hb2). split; [by rewrite Hr2, Hr1, app_assoc|].
  split; [by apply Forall_app|]. intros a i Ha Hi. rewrite Hb2, Hb1 by done.
  by rewrite bool_decide_app, orb_assoc.
Qed.

(** ** Computations that leave the registers alone *)

(** From lock [b] to lock [b'], whatever errors are raised on the way. *)
Definition calm {A} (b b' : bool) (m : hwm dev A) : Prop :=
  ∀ s, hw_prg_lock s = b → ∃ a s' new, m s = Some (a, s') ∧ hw_prg_lock s' = b' ∧
    evo (eu_reg (hw s)) new (hw s) (hw s').

Lemma evolves_refl d : evo (eu_reg d) [] d d.
Proof using.
  split; [by rewrite app_nil_r|]. split; [constructor|]. intros a i _ _.
  by rewrite bool_decide_eq_false_2, orb_false_r by apply not_elem_of_nil.
Qed.

Lemma calm_ret {A} b (a : A) : calm b b (mret a).
Proof using. intros s Hs. exists a, s, []. split; [done|]. split; [done|]. apply evolves_refl. Qed.
Lemma calm_bind {A B} b1 b2 b3 (m : hwm dev A) (k : A → hwm dev B) :
  calm b1 b2 m → (∀ a, calm b2 b3 (k a)) → calm b1 b3 (m ≫= k).
Proof using.
  intros Hm Hk s Hs. destruct (Hm s Hs) as (a & s1 & n1 & E1 & Hs1 & V1).
  destruct (Hk a s1 Hs1) as (c & s2 & n2 & E2 & Hs2 & V2). exists c, s2, (n1 ++ n2).
  unfold mbind, hwm_bind. rewrite E1, E2. split; [done|]. split; [done|]. by eapply evolves_trans.
Qed.
Lemma calm_read b a : calm b b (qdma_reg_read a).
Proof using.
  intros s Hs. unfold qdma_reg_read. destruct (eu_read (u32 a) (hw s)) as (_ & new & V).
  destruct (dev_read _ _) as [v d']. by exists v, (mk_hw d' (hw_prg_lock s)), new.
Qed.
Lemma calm_delay b us : calm b b (qdma_udelay us).
Proof using.
  intros s Hs. destruct (eu_delay us (hw s)) as (new & V).
  by exists tt, (mk_hw (dev_delay us (hw s)) (hw_prg_lock s)), new.
Qed.
Lemma u32_range v : 0 <= u32 v < 2 ^ 32.
Proof using. apply Z.mod_pos_bound. lia. Qed.
(** A register that is neither a status nor a plain one. *)
Lemma calm_write b a v : u32 a ∉ status ++ plain → calm b b (qdma_reg_write a v).
Proof using.
  intros Ha s Hs. destruct (eu_write (u32 a) (u32 v) (hw s) (u32_range v)) as (new & Hr & Hn & Hb).
  exists tt, (mk_hw (dev_write (u32 a) (u32 v) (hw s)) (hw_prg_lock s)), new.
  split; [done|]. split; [done|]. split; [done|]. split; [done|].
  intros c i Hc Hi. rewrite Hb by done. destruct (Z.eqb_spec c (u32 a)) as [->|]; [done|done].
Qed.
Lemma calm_lock : calm false true qdma_reg_access_lock.
Proof using.
  intros s Hs. unfold qdma_reg_access_lock. rewrite Hs. exists 0, (mk_hw (hw s) true), [].
  split; [done|]. split; [done|]. apply evolves_refl.
Qed.
Lemma calm_release b : calm b false qdma_reg_access_release.
Proof using.
  intros s Hs. exists 0, (mk_hw (hw s) false), []. split; [done|]. split; [done|]. apply evolves_refl.
Qed.
Lemma calm_if {A} b b' (c : bool) (m1 m2 : hwm dev A) : calm b b' m1 → calm b b' m2 → calm b b' (if c then m1 else m2).
Proof using. by destruct c. Qed.

Lemma calm_monitor_loop b n a mask v us : calm b b (monitor_loop n a mask v us).
Proof using.
  induction n as [|n IH]; cbn [monitor_loop]; [apply calm_ret|].
  eapply calm_bind; [apply calm_read|]. intros w. apply calm_if; [apply calm_ret|].
  eapply calm_bind; [apply calm_delay|]. done.
Qed.
Lemma calm_monitor b a mask v us t : calm b b (hw_monitor_reg a mask v us t).
Proof using.
  eapply calm_bind; [apply calm_monitor_loop|]. intros [].
  - apply calm_ret.
  - eapply calm_bind; [apply calm_read|]. intros w. apply calm_if; apply calm_ret.
Qed.
Lemma calm_read_words b a n : calm b b (read_words a n).
Proof using.
  revert a. induction n as [|n IH]; intros a; [apply calm_ret|]. cbn [read_words].
  eapply calm_bind; [apply calm_read|]. intros v. eapply calm_bind; [apply IH|]. intros l. apply calm_ret.
Qed.
Lemma calm_indirect_read sel qid n :
  QDMA_OFFSET_IND_CTXT_CMD ∉ status ++ plain → calm false false (qdma_indirect_reg_read sel qid n).
Proof using.
  intros Hc. eapply calm_bind; [apply calm_lock|]. intros _. eapply calm_bind; [by apply calm_write|]. intros _.
  eapply calm_bind; [apply calm_monitor|]. intros rv. apply calm_if.
  - eapply calm_bind; [apply calm_release|]. intros _. apply calm_ret.
  - eapply calm_bind; [apply calm_read_words|]. intros l.
    eapply calm_bind; [apply calm_release|]. intros _. apply calm_ret.
Qed.
Lemma calm_dump l a : calm false false (dump_reg_info l a).
Proof using.
  apply calm_if; [|apply calm_ret]. eapply calm_bind; [apply calm_read|]. intros v. apply calm_ret.
Qed.
Lemma calm_dump_regs dump l : (∀ a, calm false false (dump a)) → calm false false (dump_regs dump l).
Proof using.
  intros Hd. induction l as [|a l IH]; [apply calm_ret|]. eapply calm_bind; [apply Hd|]. intros _. exact IH.
Qed.

(** ** Processing *)

Definition stat ip (p : Z) : Z := stat_reg_addr (err_info ip p).
Definition leaf_bit ip (idx i : Z) : bool := Z.testbit (leaf_err_mask (err_info ip idx)) i.
(** A block that is looked at. *)
Definition served (st : Z) ip (p : Z) : bool := nz st || negb (mem_Z p (ip_st_first ip)).

(** A bit of the status register of an error that is set or gets set while the
    driver works. *)
Definition seen d (new : list (Z * Z)) (a i : Z) : Prop := Z.testbit (eu_reg d a) i = true ∨ (a, i) ∈ new.

Lemma land_bit v m : 0 <= v → nz (Z.land v m) = true ↔ ∃ i, 0 <= i ∧ Z.testbit v i = true ∧ Z.testbit m i = true.
Proof using.
  intros Hv. unfold nz. rewrite negb_true_iff, Z.eqb_neq. split.
  - intros Hn. assert (0 <= Z.land v m) by (apply Z.land_nonneg; auto).
    exists (Z.log2 (Z.land v m)). split; [apply Z.log2_nonneg|].
    apply andb_true_iff. rewrite <- Z.land_spec. apply Z.bit_log2. lia.
  - intros (i & _ & H1 & H2) E. assert (Z.testbit (Z.land v m) i = false) by (rewrite E; apply Z.testbit_0_l).
    rewrite Z.land_spec, H1, H2 in *. done.
Qed.

Lemma elem_of_detected ip v p l idx : 0 <= v → idx ∈ detected ip v p l ↔
  p <= idx < l ∧ ∃ i, 0 <= i ∧ Z.testbit v i = true ∧ leaf_bit ip idx i = true.
Proof using.
  intros Hv. unfold detected. rewrite list_elem_of_In, filter_In, <- list_elem_of_In, elem_of_seqZ, land_bit by done.
  split; intros [? ?]; (split; [lia|done]).
Qed.

(** What the log of some blocks says. *)
Record reported ip (st : Z) (blocks : list (Z * Z)) (log : list Z) d (new : list (Z * Z)) d' : Prop := {
  rep_all : ∀ p l idx i, (p, l) ∈ blocks → served st ip p = true → p <= idx < l → 0 <= i → leaf_bit ip idx i = true →
    seen d new (stat ip p) i → idx ∈ log ∨ Z.testbit (eu_reg d' (stat ip p)) i = true;
  rep_only : ∀ idx, idx ∈ log → ∃ p l i, (p, l) ∈ blocks ∧ served st ip p = true ∧ p <= idx < l ∧ 0 <= i ∧
    leaf_bit ip idx i = true ∧ seen d new (stat ip p) i;
  rep_clear : ∀ p l i, (p, l) ∈ blocks → served st ip p = true → 0 <= i →
    Z.testbit (eu_reg d' (stat ip p)) i = true → (stat ip p, i) ∈ new;
  rep_frame : ∀ a i, a ∈ status ++ plain → (∀ p l, (p, l) ∈ blocks → served st ip p = true → a ≠ stat ip p) → 0 <= i →
    Z.testbit (eu_reg d' a) i = Z.testbit (eu_reg d a) i || bool_decide ((a, i) ∈ new);
}.

Definition returns {A} (m : hwm dev A) s (Q : A → list (Z * Z) → dev → Prop) : Prop :=
  ∃ a s' new, m s = Some (a, s') ∧ hw_prg_lock s' = false ∧ eu_raised (hw s') = eu_raised (hw s) ++ new ∧
    Forall (λ e, e.1 ∈ status) new ∧ Q a new (hw s').

Lemma bit_width d a i : 0 <= i → Z.testbit (eu_reg d a) i = true → i < 32.
Proof using.
  intros Hi Hb. destruct (Z.lt_ge_cases i 32); [done|]. exfalso.
  pose proof (eu_width d a). rewrite Z.testbit_eqb in Hb by done.
  rewrite Z.div_small in Hb; [done|]. split; [lia|]. assert (2 ^ 32 <= 2 ^ i) by (apply Z.pow_le_mono_r; lia). lia.
Qed.

Lemma orb_bool_decide b P `{Decision P} : b || bool_decide P = true ↔ b = true ∨ P.
Proof using. by rewrite orb_true_iff, bool_decide_eq_true. Qed.

(** A block with no bit set, and one whose bits are logged and cleared. *)
Lemma process_block_run ip st p l s : served st ip p = true → stat ip p ∈ status →
  calm false false (hw_err_process (err_info ip p)) → hw_prg_lock s = false →
  returns (process_block ip p l) s (λ log new d', reported ip st [(p, l)] log (hw s) new d').
Proof using All.
  intros Hsv Hst Hp Hl. set (a := stat ip p) in *.
  assert (Ha : a ∈ status ++ plain) by (apply elem_of_app; auto).
  assert (Hv : 0 <= reg s a) by apply eu_width.
  destruct (calm_read false a s Hl) as (v & s1 & n1 & E1 & Hl1 & V1).
  assert (v = reg s a) as ->.
  { unfold qdma_reg_read in E1. destruct (eu_read (u32 a) (hw s)) as (Hr & _). rewrite u32_addr in * by done.
    specialize (Hr Ha). destruct (dev_read a (hw s)) as [w d']. by injection E1 as <- <-. }
  unfold process_block. fold a. unfold returns, mbind, hwm_bind. fold (stat ip p). fold a. rewrite E1.
  destruct V1 as (Hr1 & Hs1 & Hb1). destruct (Z.eqb_spec (reg s a) 0) as [E0|E0].
  - exists [], s1, n1. do 4 (split; [done|]). split.
    + intros p' l' idx i [= -> ->]%list_elem_of_singleton _ Hidx Hi Hleaf [Hb|Hb]; right; fold a.
      * fold a in Hb. by rewrite E0, Z.testbit_0_l in Hb.
      * rewrite Hb1 by done. apply orb_bool_decide. by right.
    + by intros idx ?%not_elem_of_nil.
    + intros p' l' i [= -> ->]%list_elem_of_singleton _ Hi. fold a. rewrite Hb1 by done. rewrite E0, Z.testbit_0_l. apply bool_decide_eq_true.
    + intros b i Hb _ Hi. by apply Hb1.
  - destruct (Hp s1 Hl1) as ([] & s2 & n2 & E2 & Hl2 & Hr2 & Hs2 & Hb2). rewrite E2.
    pose proof (eu_width (hw s) a) as Hw.
    unfold qdma_reg_write. rewrite u32_addr, (u32_small (reg s a)) by (done || lia).
    destruct (eu_write a (reg s a) (hw s2)) as (n3 & Hr3 & Hs3 & Hb3); [done|].
    exists (detected ip (reg s a) p l), (mk_hw (dev_write a (reg s a) (hw s2)) (hw_prg_lock s2)), (n1 ++ n2 ++ n3).
    split; [done|]. split; [done|]. split; [cbn; by rewrite Hr3, Hr2, Hr1, !app_assoc|].
    split; [by rewrite !Forall_app|]. cbn [hw].
    assert (Hown : ∀ i, 0 <= i → Z.testbit (eu_reg (dev_write a (reg s a) (hw s2)) a) i =
      bool_decide ((a, i) ∈ n1 ++ n2) && negb (Z.testbit (reg s a) i) || bool_decide ((a, i) ∈ n3)).
    { intros i Hi. rewrite Hb3 by done. rewrite Z.eqb_refl, bool_decide_eq_true_2 by done. f_equal.
      rewrite Z.ldiff_spec, Hb2, Hb1 by done.
      rewrite (bool_decide_ext ((a, i) ∈ n1 ++ n2) ((a, i) ∈ n1 ∨ (a, i) ∈ n2)) by apply elem_of_app.
      rewrite bool_decide_or. by destruct (Z.testbit (reg s a) i), (bool_decide ((a, i) ∈ n1)), (bool_decide ((a, i) ∈ n2)). }
    split.
    + intros p' l' idx i [= -> ->]%list_elem_of_singleton _ Hidx Hi Hleaf Hb. fold a in Hb |- *. rewrite elem_of_detected by done.
      destruct (Z.testbit (reg s a) i) eqn:Ev; [left; by eauto|right]. rewrite Hown, Ev, andb_true_r by done.
      destruct Hb as [Hb|Hb]; [congruence|]. apply orb_bool_decide. rewrite bool_decide_eq_true.
      rewrite !elem_of_app in *. tauto.
    + intros idx (Hidx & i & Hi & Hv' & Hleaf)%elem_of_detected; [|done].
      exists p, l, i. split; [by apply list_elem_of_singleton|]. do 4 (split; [done|]). by left.
    + intros p' l' i [= -> ->]%list_elem_of_singleton _ Hi. fold a. rewrite Hown by done.
      rewrite orb_bool_decide, andb_true_iff, bool_decide_eq_true, !elem_of_app. tauto.
    + intros b i Hb Hne Hi. assert (b ≠ a) as Hba by (apply (Hne p l); [by apply list_elem_of_singleton|done]).
      rewrite Hb3 by done. destruct (Z.eqb_spec b a); [done|]. rewrite Hb2, Hb1 by done.
      rewrite !(bool_decide_app). by rewrite !orb_assoc.
Qed.

(** Blocks with status registers of their own are served one after the other. *)
Lemma reported_cons ip st p l blocks log1 log2 d1 d2 d3 n1 n2 :
  stat ip p ∉ (λ b, stat ip b.1) <$> blocks → Forall (λ b, stat ip b.1 ∈ status) ((p, l) :: blocks) →
  reported ip st [(p, l)] log1 d1 n1 d2 → reported ip st blocks log2 d2 n2 d3 →
  reported ip st ((p, l) :: blocks) (log1 ++ log2) d1 (n1 ++ n2) d3.
Proof using.
  intros Hnew Hst [A1 O1 C1 F1] [A2 O2 C2 F2].
  assert (Hin : ∀ q m, (q, m) ∈ blocks → stat ip q ≠ stat ip p).
  { intros q m Hq E. apply Hnew. rewrite <- E. apply list_elem_of_fmap. by exists (q, m). }
  assert (Hmem : ∀ q m, (q, m) ∈ (p, l) :: blocks → stat ip q ∈ status ++ plain).
  { intros q m Hq. rewrite Forall_forall in Hst. apply elem_of_app. left. apply (Hst _ Hq). }
  assert (Hp : ∀ i, 0 <= i → Z.testbit (eu_reg d3 (stat ip p)) i =
    Z.testbit (eu_reg d2 (stat ip p)) i || bool_decide ((stat ip p, i) ∈ n2)).
  { intros i Hi. apply F2; [apply (Hmem p l), list_elem_of_here| |done]. intros q m Hq _ E. by apply (Hin q m). }
  assert (Hq2 : ∀ q m i, (q, m) ∈ blocks → 0 <= i → Z.testbit (eu_reg d2 (stat ip q)) i =
    Z.testbit (eu_reg d1 (stat ip q)) i || bool_decide ((stat ip q, i) ∈ n1)).
  { intros q m i Hq Hi. apply F1; [by apply (Hmem q m), list_elem_of_further| |done].
    intros p' l' [= -> ->]%list_elem_of_singleton _. by apply (Hin q m). }
  assert (Hseen : ∀ q m i, (q, m) ∈ blocks → 0 <= i → seen d1 (n1 ++ n2) (stat ip q) i ↔ seen d2 n2 (stat ip q) i).
  { intros q m i Hq Hi. unfold seen. rewrite (Hq2 q m), orb_bool_decide, elem_of_app by done. tauto. }
  split.
  - intros q m idx i [[= -> ->]|Hq]%elem_of_cons Hsv Hidx Hi Hleaf Hb.
    + rewrite Hp, orb_bool_decide, elem_of_app by done.
      assert (seen d1 n1 (stat ip p) i ∨ (stat ip p, i) ∈ n2) as [Hb'|]; [|destruct (A1 p l idx i); try tauto; by apply list_elem_of_singleton|tauto].
      unfold seen in *. rewrite elem_of_app in Hb. tauto.
    + rewrite elem_of_app. destruct (A2 q m idx i) as [|]; try tauto. by apply (Hseen q m).
  - intros idx [Hlog|Hlog]%elem_of_app.
    + destruct (O1 idx Hlog) as (p' & l' & i & [= -> ->]%list_elem_of_singleton & Hsv & Hidx & Hi & Hleaf & Hb).
      exists p, l, i. split; [apply list_elem_of_here|]. do 4 (split; [done|]).
      unfold seen in *. rewrite elem_of_app. tauto.
    + destruct (O2 idx Hlog) as (q & m & i & Hq & Hsv & Hidx & Hi & Hleaf & Hb).
      exists q, m, i. split; [by apply list_elem_of_further|]. do 4 (split; [done|]). by apply (Hseen q m).
  - intros q m i [[= -> ->]|Hq]%elem_of_cons Hsv Hi; rewrite elem_of_app.
    + rewrite Hp, orb_bool_decide by done. intros [Hb|]; [left|by right].
      by apply (C1 p l i); [apply list_elem_of_singleton|..].
    + intros Hb. right. by apply (C2 q m i).
  - intros a i Ha Hne Hi. rewrite F2, F1 by (done || (intros q m Hq; apply (Hne q m); rewrite elem_of_cons;
      (apply list_elem_of_singleton in Hq; by left) || by right)).
    by rewrite bool_decide_app, orb_assoc.
Qed.

Lemma reported_skip ip st p l blocks log d1 d2 n : served st ip p = false →
  reported ip st blocks log d1 n d2 → reported ip st ((p, l) :: blocks) log d1 n d2.
Proof using.
  intros Hsv [A O C F]. split.
  - intros q m idx i [[= -> ->]|Hq]%elem_of_cons Hsv'; [congruence|]. by apply (A q m).
  - intros idx Hlog. destruct (O idx Hlog) as (q & m & i & Hq & ?). exists q, m, i. by split; [apply list_elem_of_further|].
  - intros q m i [[= -> ->]|Hq]%elem_of_cons Hsv'; [congruence|]. by apply (C q m).
  - intros a i Ha Hne. apply F; [done|]. intros q m Hq. apply (Hne q m). by apply list_elem_of_further.
Qed.

Lemma reported_nil ip st d : reported ip st [] [] d [] d.
Proof using.
  split; [by intros ???? ?%not_elem_of_nil|by intros ? ?%not_elem_of_nil|by intros ??? ?%not_elem_of_nil|].
  intros a i _ _ _. by rewrite bool_decide_eq_false_2, orb_false_r by apply not_elem_of_nil.
Qed.

Lemma process_blocks_run ip st blocks :
  Forall (λ b, stat ip b.1 ∈ status ∧ calm false false (hw_err_process (err_info ip b.1))) blocks →
  NoDup ((λ b, stat ip b.1) <$> blocks) → ∀ s, hw_prg_lock s = false →
  returns (process_blocks ip st blocks) s (λ log new d', reported ip st blocks log (hw s) new d').
Proof using All.
  intros Hok. induction blocks as [|[p l] blocks IH]; intros Hnd s Hl.
  { exists [], s, []. split; [done|]. split; [done|]. split; [by rewrite app_nil_r|]. split; [constructor|]. apply reported_nil. }
  apply Forall_cons in Hok as [[Hst Hc] Hok]. cbn in Hst, Hc. apply NoDup_cons in Hnd as [Hni Hnd].
  cbn [process_blocks]. change (negb (nz st) && mem_Z p (ip_st_first ip)) with (negb (nz st) && mem_Z p (ip_st_first ip)).
  destruct (served st ip p) eqn:Hsv; unfold served in Hsv.
  - replace (negb (nz st) && mem_Z p (ip_st_first ip)) with false by (by destruct (nz st), (mem_Z p (ip_st_first ip))).
    destruct (process_block_run ip st p l s) as (log1 & s1 & n1 & E1 & Hl1 & Hr1 & Hs1 & R1); [done..|].
    destruct (IH Hok Hnd s1 Hl1) as (log2 & s2 & n2 & E2 & Hl2 & Hr2 & Hs2 & R2).
    exists (log1 ++ log2), s2, (n1 ++ n2). unfold mbind, hwm_bind. rewrite E1, E2.
    split; [done|]. split; [done|]. split; [by rewrite Hr2, Hr1, app_assoc|]. split; [by apply Forall_app|].
    eapply reported_cons; [exact Hni| |exact R1|exact R2]. constructor; [done|]. by eapply Forall_impl; [exact Hok|]; intros ? [].
  - replace (negb (nz st) && mem_Z p (ip_st_first ip)) with true by (by destruct (nz st), (mem_Z p (ip_st_first ip))).
    destruct (IH Hok Hnd s Hl) as (log2 & s2 & n2 & E2 & Hl2 & Hr2 & Hs2 & R2).
    exists log2, s2, n2. unfold mbind, hwm_bind. cbn. unfold mbind, hwm_bind in E2. rewrite E2.
    do 4 (split; [done|]). by apply reported_skip.
Qed.

End err.

(** Handlers read registers and contexts one after the other. *)
Ltac calm_step := first
  [ apply calm_ret | apply calm_read | apply calm_delay | apply calm_dump | apply calm_indirect_read
  | apply calm_dump_regs; intros ? | apply calm_if | apply (calm_bind _ _ false false false); [|intros ?] ].
Ltac calm_tac := repeat calm_step.

(** ** An access layer *)

Section ip.
Context {dev : Type} `{Device dev} (ip : err_ip dev) `{!ErrorUnit dev (ip_status ip) (ip_plain ip)}.
Notation reg s a := (eu_reg (hw s) a).

(** Its handlers and the function for the attributes read registers and contexts. *)
Definition ip_calm : Prop := calm (ip_status ip) (ip_plain ip) false false (ip_dev_cap ip) ∧
  Forall (λ e, calm (ip_status ip) (ip_plain ip) false false (hw_err_process e)) (ip_err_info ip).

Hypothesis Hok : ip_check ip = true.
Hypothesis Hcalm : ip_calm.

Lemma ip_check_spec :
  length (hw_err_position ip) = length (all_hw_errs ip) ∧
  concat ((λ b, seqZ b.1 (b.2 - b.1 + 1)) <$> block_list ip) = seqZ 0 (ip_errs_all ip) ∧
  Z.of_nat (length (ip_err_info ip)) = ip_errs_all ip ∧ ip_errs_all ip < 2 ^ 32 ∧
  Forall (λ b, block_check ip b = true) (block_list ip) ∧
  NoDup (ip_status ip ++ ip_plain ip) ∧ Forall (λ a, 0 <= a < 2 ^ 32) (ip_status ip ++ ip_plain ip).
Proof using Hok.
  unfold ip_check in Hok. rewrite !andb_true_iff, !bool_decide_eq_true, Z.eqb_eq, Z.ltb_lt in Hok.
  destruct Hok as (((((((H1 & H2) & H3) & H4) & H5) & H6) & H7) & _). do 4 (split; [done|]).
  split; [by apply Forall_forall; rewrite forallb_forall in H5; intros b ?%list_elem_of_In; apply H5|].
  split; [done|]. apply Forall_forall. rewrite forallb_forall in H7. intros a Ha%list_elem_of_In%H7. lia.
Qed.

Lemma in_block p l idx : (p, l) ∈ block_list ip → p <= idx <= l →
  0 <= p ∧ p < l < ip_errs_all ip ∧ stat ip idx = stat ip p ∧
  mask_reg_addr (err_info ip idx) = mask_reg_addr (err_info ip l) ∧ st_error ip idx = mem_Z p (ip_st_first ip).
Proof using Hok.
  intros Hb Hidx. destruct ip_check_spec as (_ & _ & _ & _ & Hbl & _). rewrite Forall_forall in Hbl.
  specialize (Hbl _ Hb). unfold block_check in Hbl. cbn [fst snd] in Hbl.
  rewrite !andb_true_iff, forallb_forall, Z.leb_le, !Z.ltb_lt in Hbl. destruct Hbl as (((? & ?) & ?) & Hall).
  specialize (Hall idx). rewrite <- list_elem_of_In, elem_of_seqZ, !andb_true_iff, !Z.eqb_eq, bool_decide_eq_true in Hall.
  destruct Hall as (((_ & Hs) & Hm) & Hst); [lia|]. by repeat split.
Qed.

(** Every index belongs to a block. *)
Lemma block_of idx : 0 <= idx < ip_errs_all ip → ∃ p l, (p, l) ∈ block_list ip ∧ p <= idx <= l.
Proof using Hok.
  intros Hi. destruct ip_check_spec as (_ & Hc & _). assert (Hin : idx ∈ seqZ 0 (ip_errs_all ip)) by (apply elem_of_seqZ; lia).
  rewrite <- Hc, list_elem_of_In, in_concat in Hin. destruct Hin as (r & Hr%list_elem_of_In & Hx%list_elem_of_In).
  apply list_elem_of_fmap in Hr as ([p l] & -> & Hb). exists p, l. split; [done|]. apply elem_of_seqZ in Hx. cbn in Hx. lia.
Qed.

Lemma block_last p l : (p, l) ∈ block_list ip → l ∈ all_hw_errs ip.
Proof using. by intros ?%elem_of_zip_r. Qed.

(** *** What is logged *)

Definition served_err (st idx : Z) : bool := nz st || negb (st_error ip idx).

(** An error of the table that is raised before or during the call is logged
    or still in its register; only such errors are logged; what is in the
    registers afterwards was raised during the call. *)
Record logged (st : Z) (log : list Z) (d : dev) (new : list (Z * Z)) (d' : dev) : Prop := {
  log_all : ∀ idx i, 0 <= idx < ip_errs_all ip → idx ∉ all_hw_errs ip → served_err st idx = true → 0 <= i →
    leaf_bit ip idx i = true → seen _ _ d new (stat ip idx) i → idx ∈ log ∨ Z.testbit (eu_reg d' (stat ip idx)) i = true;
  log_only : ∀ idx, idx ∈ log → 0 <= idx < ip_errs_all ip ∧ served_err st idx = true ∧
    ∃ i, 0 <= i ∧ leaf_bit ip idx i = true ∧ seen _ _ d new (stat ip idx) i;
  log_clear : ∀ idx i, 0 <= idx < ip_errs_all ip → served_err st idx = true → 0 <= i →
    Z.testbit (eu_reg d' (stat ip idx)) i = true → (stat ip idx, i) ∈ new;
}.

Lemma ip_addr_ok : Forall (λ a, 0 <= a < 2 ^ 32) (ip_status ip ++ ip_plain ip).
Proof using Hok. by destruct ip_check_spec as (_ & _ & _ & _ & _ & _ & ?). Qed.
Lemma ip_apart a : a ∈ ip_status ip → a ∉ ip_plain ip.
Proof using Hok. destruct ip_check_spec as (_ & _ & _ & _ & _ & (_ & Hx & _)%NoDup_app & _). apply Hx. Qed.

Lemma served_block st p l idx : (p, l) ∈ block_list ip → p <= idx <= l → served st ip p = served_err st idx.
Proof using Hok.
  intros Hb Hi. unfold served, served_err. by destruct (in_block p l idx Hb Hi) as (_ & _ & _ & _ & ->).
Qed.

Lemma stat_block p l : (p, l) ∈ block_list ip → stat ip p ∈ ip_status ip ∧ stat ip p ≠ ip_glbl_stat ip.
Proof using Hok.
  intros Hb. assert (Hin : stat ip p ∈ (λ b, stat_reg_addr (err_info ip b.1)) <$> block_list ip).
  { apply list_elem_of_fmap. by exists (p, l). }
  split; [by apply elem_of_cons; right|]. destruct ip_check_spec as (_ & _ & _ & _ & _ & (Hn & _)%NoDup_app & _).
  apply NoDup_cons in Hn as [Hn _]. by intros E; rewrite E in Hin.
Qed.

(** From what the loop says, with what is raised before and after it. *)
Lemma logged_of_reported st log d1 d2 d3 d4 n1 n2 n3 :
  (∀ p l i, (p, l) ∈ block_list ip → 0 <= i → Z.testbit (eu_reg d2 (stat ip p)) i = Z.testbit (eu_reg d1 (stat ip p)) i || bool_decide ((stat ip p, i) ∈ n1)) →
  reported (ip_status ip) (ip_plain ip) ip st (block_list ip) log d2 n2 d3 →
  (∀ p l i, (p, l) ∈ block_list ip → 0 <= i → Z.testbit (eu_reg d4 (stat ip p)) i = Z.testbit (eu_reg d3 (stat ip p)) i || bool_decide ((stat ip p, i) ∈ n3)) →
  logged st log d1 (n1 ++ n2 ++ n3) d4.
Proof using Hok.
  intros H12 [A O C _] H34.
  assert (Hseen : ∀ p l i, (p, l) ∈ block_list ip → 0 <= i →
    seen _ _ d1 (n1 ++ n2 ++ n3) (stat ip p) i ↔ seen _ _ d2 n2 (stat ip p) i ∨ (stat ip p, i) ∈ n3).
  { intros p l i Hb Hi. unfold seen. rewrite (H12 p l), orb_bool_decide, !elem_of_app by done. tauto. }
  split.
  - intros idx i Hidx Hna Hsv Hi Hleaf Hb. destruct (block_of idx Hidx) as (p & l & Hpl & Hi1).
    destruct (in_block p l idx Hpl Hi1) as (_ & _ & Es & _). rewrite Es in *.
    assert (idx ≠ l) by (intros ->; by apply Hna, (block_last p)).
    rewrite (H34 p l), orb_bool_decide by done. apply (Hseen p l) in Hb as [Hb|]; [|tauto|done..].
    destruct (A p l idx i) as [|]; try tauto; [by rewrite (served_block st p l idx)|lia].
  - intros idx Hlog. destruct (O idx Hlog) as (p & l & i & Hpl & Hsv & Hi1 & Hi & Hleaf & Hb).
    destruct (in_block p l idx Hpl ltac:(lia)) as (Hp & Hl & Es & _). split; [lia|].
    split; [by rewrite <- (served_block st p l idx) by (done || lia)|]. exists i. split; [done|]. split; [done|].
    rewrite Es. apply (Hseen p l); tauto.
  - intros idx i Hidx Hsv Hi Hb. destruct (block_of idx Hidx) as (p & l & Hpl & Hi1).
    destruct (in_block p l idx Hpl Hi1) as (_ & _ & Es & _). rewrite Es, (H34 p l), orb_bool_decide in * by done.
    rewrite !elem_of_app. destruct Hb as [Hb|]; [|tauto]. right; left.
    apply (C p l i); [done|by rewrite (served_block st p l idx)|done..].
Qed.

Lemma calm_blocks : Forall (λ b, stat ip b.1 ∈ ip_status ip ∧
  calm (ip_status ip) (ip_plain ip) false false (hw_err_process (err_info ip b.1))) (block_list ip).
Proof using Hok Hcalm.
  apply Forall_forall. intros [p l] Hb. cbn. split; [by apply (stat_block p l)|].
  destruct (in_block p l p Hb) as (Hp & Hl & _); [|]. { destruct ip_check_spec as (_ & _ & _ & _ & Hbl & _).
    rewrite Forall_forall in Hbl. specialize (Hbl _ Hb). unfold block_check in Hbl. cbn in Hbl. lia. }
  destruct Hcalm as [_ Hall]. rewrite Forall_forall in Hall. apply Hall. unfold err_info.
  apply list_elem_of_In, nth_In. destruct ip_check_spec as (_ & _ & Hlen & _). lia.
Qed.

Lemma process_logs s : hw_prg_lock s = false → ∃ rv log s' new cap s1,
  hw_error_process ip true s = Some ((rv, log), s') ∧ hw_prg_lock s' = false ∧
  eu_raised (hw s') = eu_raised (hw s) ++ new ∧ ip_dev_cap ip s = Some (cap, s1) ∧
  (rv = QDMA_HW_ERR_NOT_DETECTED ∧ log = [] ∧ reg s (ip_glbl_stat ip) = 0 ∧
     (∀ a i, a ∈ ip_status ip → 0 <= i → Z.testbit (reg s' a) i = Z.testbit (reg s a) i || bool_decide ((a, i) ∈ new)) ∨
   rv = QDMA_SUCCESS ∧ logged (st_en cap) log (hw s) new (hw s') ∧
     ∀ i, 0 <= i → Z.testbit (reg s' (ip_glbl_stat ip)) i = true → (ip_glbl_stat ip, i) ∈ new).
Proof using Hok Hcalm.
  intros Hl. set (g := ip_glbl_stat ip). pose proof ip_addr_ok as Hu.
  assert (Hg : g ∈ ip_status ip ++ ip_plain ip) by (apply elem_of_app; left; apply elem_of_cons; by left).
  destruct (proj1 Hcalm s Hl) as (cap & s1 & n1 & E1 & Hl1 & V1).
  destruct (calm_read (ip_status ip) (ip_plain ip) false g s1 Hl1) as (v & s2 & n2 & E2 & Hl2 & V2).
  assert (v = reg s1 g) as ->.
  { unfold qdma_reg_read in E2. destruct (eu_read (u32 g) (hw s1)) as (Hr & _). rewrite (u32_addr (ip_status ip) (ip_plain ip)) in * by done.
    specialize (Hr Hg). destruct (dev_read g (hw s1)) as [w d']. by injection E2 as <- <-. }
  pose proof (evolves_trans _ _ _ _ _ _ _ _ V1 V2) as (Hr12 & _ & Hb12).
  unfold hw_error_process. cbn [negb]. unfold mbind, hwm_bind. rewrite E1. fold g. rewrite E2.
  destruct (Z.eqb_spec (reg s1 g) 0) as [E0|E0].
  - exists QDMA_HW_ERR_NOT_DETECTED, [], s2, (n1 ++ n2), cap, s1. do 4 (split; [done|]). left. do 2 (split; [done|]).
    destruct V1 as (_ & _ & Hb1). split.
    + apply Z.bits_inj'. intros i Hi. specialize (Hb1 g i Hg Hi). rewrite E0, Z.testbit_0_l in *.
      by destruct (Z.testbit (reg s g) i).
    + intros a i Ha Hi. apply Hb12; [by apply elem_of_app; left|done].
  - destruct (process_blocks_run (ip_status ip) (ip_plain ip) Hu ip_apart ip (st_en cap) (block_list ip) calm_blocks) with s2
      as (log & s3 & n3 & E3 & Hl3 & Hr3 & _ & R3); [|done|].
    { destruct ip_check_spec as (_ & _ & _ & _ & _ & (Hn & _)%NoDup_app & _). by apply NoDup_cons in Hn as [_ ?]. }
    unfold block_list in E3. rewrite E3. unfold qdma_reg_write.
    rewrite (u32_addr (ip_status ip) (ip_plain ip)), (u32_small (reg s1 g)) by (done || apply eu_width).
    destruct (eu_write g (reg s1 g) (hw s3)) as (n4 & Hr4 & _ & Hb4); [apply eu_width|].
    eexists QDMA_SUCCESS, log, _, ((n1 ++ n2) ++ n3 ++ n4), cap, s1. split; [done|]. split; [done|].
    split; [cbn; by rewrite Hr4, Hr3, Hr12, !app_assoc|]. split; [done|]. right. split; [done|]. cbn [hw]. split.
    + eapply logged_of_reported; [|exact R3|].
      * intros p l i Hb Hi. apply Hb12; [|done]. apply elem_of_app. left. by apply (stat_block p l).
      * intros p l i Hb Hi. destruct (stat_block p l Hb) as [Hs Hne]. rewrite Hb4 by (done || (apply elem_of_app; by left)).
        by destruct (Z.eqb_spec (stat ip p) g).
    + intros i Hi. rewrite Hb4, Z.eqb_refl by done. rewrite bool_decide_eq_true_2 by (apply elem_of_cons; by left).
      destruct R3 as [_ _ _ F3], V2 as (_ & _ & Hb2). rewrite Z.ldiff_spec, F3, Hb2 by
        (done || (intros p l Hb _ E; by apply (stat_block p l Hb))).
      rewrite !elem_of_app. intros Hbit. destruct (Z.testbit (reg s1 g) i); rewrite ?andb_true_r, ?andb_false_r in Hbit.
      * right; right. by apply bool_decide_eq_true in Hbit.
      * apply orb_bool_decide in Hbit as [Hbit|]; [|tauto]. apply orb_bool_decide in Hbit as [Hbit|]; [|tauto].
        left; right. by apply bool_decide_eq_true in Hbit.
Qed.
End ip.

(** * Hardware errors: enabling

    Enabling all errors gives the mask register of every block the mask of the
    block's last entry and sets the block's bit in the global mask; enabling
    one error adds its bit.  What the status registers hold is not touched,
    and neither are the masks of other blocks. *)

Section store.
Context {dev : Type} `{Device dev} (status plain : list Z) `{!ErrorUnit dev status plain}.
Hypothesis addr_ok : Forall (λ a, 0 <= a < 2 ^ 32) (status ++ plain).
Hypothesis apart : ∀ a, a ∈ status → a ∉ plain.
Implicit Types (d : dev) (s : hw_state dev).

(** The status registers lose nothing. *)
Definition keeps (new : list (Z * Z)) d d' : Prop :=
  eu_raised d' = eu_raised d ++ new ∧ Forall (λ e, e.1 ∈ status) new ∧
  ∀ a i, a ∈ status → 0 <= i → Z.testbit (eu_reg d' a) i = Z.testbit (eu_reg d a) i || bool_decide ((a, i) ∈ new).

Lemma keeps_refl d : keeps [] d d.
Proof using.
  split; [by rewrite app_nil_r|]. split; [constructor|]. intros a i _ _.
  by rewrite bool_decide_eq_false_2, orb_false_r by apply not_elem_of_nil.
Qed.
Lemma keeps_trans d1 n1 d2 n2 d3 : keeps n1 d1 d2 → keeps n2 d2 d3 → keeps (n1 ++ n2) d1 d3.
Proof using.
  intros (Hr1 & Hs1 & Hb1) (Hr2 & Hs2 & Hb2). split; [by rewrite Hr2, Hr1, app_assoc|].
  split; [by apply Forall_app|]. intros a i Ha Hi. by rewrite Hb2, Hb1, bool_decide_app, orb_assoc.
Qed.

(** The computation returns [x] and leaves the plain registers as [f] says. *)
Definition stores {A} (m : hwm dev A) s (x : A) (f : Z → Z) : Prop := ∃ s' new,
  m s = Some (x, s') ∧ hw_prg_lock s' = hw_prg_lock s ∧ keeps new (hw s) (hw s') ∧
  ∀ a, a ∈ plain → eu_reg (hw s') a = f a.

Lemma evolves_plain f new d d' a : evolves eu_reg eu_raised status plain f new d d' → a ∈ plain → eu_reg d' a = f a.
Proof using apart.
  intros (_ & Hs & Hb) Ha. apply Z.bits_inj'. intros i Hi. rewrite Hb by (done || (apply elem_of_app; by right)).
  rewrite bool_decide_eq_false_2, orb_false_r; [done|]. rewrite Forall_forall in Hs. intros Hin%Hs. by apply (apart a).
Qed.
Lemma evolves_keeps f new d d' : (∀ a, a ∈ status → f a = eu_reg d a) →
  evolves eu_reg eu_raised status plain f new d d' → keeps new d d'.
Proof using.
  intros Hf (Hr & Hs & Hb). do 2 (split; [done|]). intros a i Ha Hi.
  by rewrite Hb, Hf by (done || (apply elem_of_app; by left)).
Qed.

Lemma calm_stores {A} (m : hwm dev A) s : hw_prg_lock s = false → calm status plain false false m →
  ∃ x, stores m s x (eu_reg (hw s)).
Proof using apart.
  intros Hl Hm. destruct (Hm s Hl) as (x & s' & new & E & Hl' & V). exists x, s', new. split; [done|].
  split; [congruence|]. split; [by eapply evolves_keeps|]. intros a. by eapply evolves_plain.
Qed.

Lemma stores_bind {A B} (m : hwm dev A) (k : A → hwm dev B) s x y f g : stores m s x f →
  (∀ s', hw_prg_lock s' = hw_prg_lock s → (∀ a, a ∈ plain → eu_reg (hw s') a = f a) → stores (k x) s' y g) →
  stores (m ≫= k) s y g.
Proof using.
  intros (s1 & n1 & E1 & Hl1 & V1 & P1) Hk. destruct (Hk s1 Hl1 P1) as (s2 & n2 & E2 & Hl2 & V2 & P2).
  exists s2, (n1 ++ n2). unfold mbind, hwm_bind. rewrite E1, E2. split; [done|]. split; [congruence|].
  split; [by eapply keeps_trans|done].
Qed.
Lemma stores_ret {A} (x : A) s f : (∀ a, a ∈ plain → eu_reg (hw s) a = f a) → stores (mret x) s x f.
Proof using. intros Hf. exists s, []. do 2 (split; [done|]). split; [apply keeps_refl|done]. Qed.
Lemma stores_ext {A} (m : hwm dev A) s x f g : (∀ a, a ∈ plain → f a = g a) → stores m s x f → stores m s x g.
Proof using.
  intros Hfg (s' & n & E & Hl & V & P). exists s', n. do 3 (split; [done|]). intros a Ha. by rewrite P, Hfg.
Qed.

Lemma stores_read a s : a ∈ plain → stores (qdma_reg_read a) s (eu_reg (hw s) a) (eu_reg (hw s)).
Proof using addr_ok apart.
  intros Ha. assert (Ha' : a ∈ status ++ plain) by (apply elem_of_app; by right).
  unfold stores, qdma_reg_read. rewrite (u32_addr status plain) by done.
  destruct (eu_read a (hw s)) as (Hr & new & V). specialize (Hr Ha'). destruct (dev_read a (hw s)) as [v d'].
  cbn in Hr, V. subst v. exists (mk_hw d' (hw_prg_lock s)), new. do 2 (split; [done|]).
  split; [by eapply evolves_keeps|]. intros c. by eapply evolves_plain.
Qed.
Lemma stores_write a v s : a ∈ plain → 0 <= v < 2 ^ 32 →
  stores (qdma_reg_write a v) s tt (λ c, if c =? a then v else eu_reg (hw s) c).
Proof using addr_ok apart.
  intros Ha Hv. assert (Ha' : a ∈ status ++ plain) by (apply elem_of_app; by right).
  unfold stores, qdma_reg_write. rewrite (u32_addr status plain), (u32_small v) by done.
  destruct (eu_write a v (hw s) Hv) as (new & V). exists (mk_hw (dev_write a v (hw s)) (hw_prg_lock s)), new.
  rewrite bool_decide_eq_false_2 in V by (intros Hs; by apply (apart a)). do 2 (split; [done|]). split.
  - eapply evolves_keeps; [|exact V]. intros c Hc. cbv beta. destruct (Z.eqb_spec c a) as [->|]; [|done]. by apply apart in Hc.
  - intros c Hc. exact (evolves_plain _ _ _ _ c V Hc).
Qed.

Lemma lor_width x y : 0 <= x < 2 ^ 32 → 0 <= y < 2 ^ 32 → 0 <= Z.lor x y < 2 ^ 32.
Proof using.
  intros Hx Hy. split; [apply Z.lor_nonneg; lia|]. destruct (Z.eq_dec (Z.lor x y) 0) as [->|Hn]; [done|].
  apply Z.log2_lt_pow2; [assert (0 <= Z.lor x y) by (apply Z.lor_nonneg; lia); lia|]. rewrite Z.log2_lor by lia.
  apply Z.max_lub_lt; [destruct (Z.eq_dec x 0) as [->|]|destruct (Z.eq_dec y 0) as [->|]]; try done; apply Z.log2_lt_pow2; lia.
Qed.

End store.

(** ** The masks of a list of blocks *)

Section masks.
Context {dev : Type}.
Implicit Types ip : err_ip dev.

Definition glbl_bits ip (idx : Z) : Z := FIELD_SET (global_err_mask (err_info ip idx)) 1.
(** What enabling an error writes: the lowest bit of its mask. *)
Definition leaf_set ip (idx : Z) : Z := FIELD_SET (leaf_err_mask (err_info ip idx)) 1.
Definition mask_of ip (idx : Z) : Z := mask_reg_addr (err_info ip idx).
(** A block, given by its last entry, that is enabled. *)
Definition served_last (st : Z) ip (l : Z) : bool := nz st || negb (mem_Z l (ip_st_all ip)).

Definition enable_step ip (st idx : Z) (f : Z → Z) : Z → Z :=
  if served_last st ip idx then
    λ c, if c =? ip_glbl_mask ip then Z.lor (f (ip_glbl_mask ip)) (glbl_bits ip idx)
         else if c =? mask_of ip idx then leaf_err_mask (err_info ip idx) else f c
  else f.
Fixpoint enabled_masks ip (st : Z) (l : list Z) (f : Z → Z) : Z → Z :=
  match l with
  | [] => f
  | idx :: l => enabled_masks ip st l (enable_step ip st idx f)
  end.

(** The masks are words, the errors of a block have one bit in the global
    mask, and the last entries of the streaming blocks are those of
    [ip_st_all]. *)
Definition mask_check ip : bool :=
  forallb (λ e, (0 <=? leaf_err_mask e) && (leaf_err_mask e <? 2 ^ 32) &&
    (FIELD_SET (global_err_mask e) 1 =? global_err_mask e) &&
    (0 <? global_err_mask e) && (global_err_mask e <? 2 ^ 32)) (ip_err_info ip) &&
  forallb (λ b, bool_decide (mem_Z b.2 (ip_st_all ip) = mem_Z b.1 (ip_st_first ip)) &&
    forallb (λ idx, (0 <? leaf_set ip idx) && (leaf_set ip idx <? 2 ^ 32) &&
      (global_err_mask (err_info ip idx) =? global_err_mask (err_info ip b.2))) (seqZ b.1 (b.2 - b.1 + 1))) (block_list ip) &&
  forallb (λ idx, bool_decide ((fst (st_range ip) <=? idx) && (idx <=? snd (st_range ip)) = st_error ip idx))
    (seqZ 0 (ip_errs_all ip)).

Lemma enabled_global ip st l f i :
  Z.testbit (enabled_masks ip st l f (ip_glbl_mask ip)) i =
  Z.testbit (f (ip_glbl_mask ip)) i || existsb (λ idx, served_last st ip idx && Z.testbit (glbl_bits ip idx) i) l.
Proof.
  revert f. induction l as [|idx l IH]; intros f; cbn; [by rewrite orb_false_r|]. rewrite IH. unfold enable_step.
  destruct (served_last st ip idx); [|done]. by rewrite Z.eqb_refl, Z.lor_spec, orb_assoc.
Qed.
Lemma enabled_other ip st l f c : c ≠ ip_glbl_mask ip → (∀ idx, idx ∈ l → served_last st ip idx = true → c ≠ mask_of ip idx) →
  enabled_masks ip st l f c = f c.
Proof.
  intros Hg. revert f. induction l as [|idx l IH]; intros f Hc; [done|]. cbn. rewrite IH by (intros; apply Hc; [by apply list_elem_of_further|done]).
  unfold enable_step. destruct (served_last st ip idx) eqn:Hs; [|done]. destruct (Z.eqb_spec c (ip_glbl_mask ip)); [done|].
  destruct (Z.eqb_spec c (mask_of ip idx)); [|done]. by destruct (Hc idx); [apply list_elem_of_here|..].
Qed.
Lemma enabled_mask ip st l f idx : idx ∈ l → served_last st ip idx = true → NoDup (mask_of ip <$> l) →
  mask_of ip idx ≠ ip_glbl_mask ip → enabled_masks ip st l f (mask_of ip idx) = leaf_err_mask (err_info ip idx).
Proof.
  intros Hin Hs Hnd Hg. revert f. induction l as [|j l IH]; intros f; [by apply not_elem_of_nil in Hin|].
  cbn in Hnd. apply NoDup_cons in Hnd as [Hj Hnd]. cbn [enabled_masks]. apply elem_of_cons in Hin as [->|Hin]; [|by apply IH].
  rewrite enabled_other; [|done|].
  - unfold enable_step. rewrite Hs, Z.eqb_refl. by destruct (Z.eqb_spec (mask_of ip j) (ip_glbl_mask ip)).
  - intros k Hk _ E. apply Hj. rewrite E. by apply list_elem_of_fmap_2.
Qed.
Lemma enabled_ext ip st (P : Z → Prop) l f g : P (ip_glbl_mask ip) → (∀ c, P c → f c = g c) →
  ∀ c, P c → enabled_masks ip st l f c = enabled_masks ip st l g c.
Proof.
  intros Hg. revert f g. induction l as [|idx l IH]; intros f g Hfg c Hc; [by apply Hfg|]. cbn. apply IH; [|done].
  intros k Hk. unfold enable_step. destruct (served_last st ip idx); [|by apply Hfg].
  rewrite (Hfg _ Hg), (Hfg _ Hk). done.
Qed.
End masks.

Section ip.
Context {dev : Type} `{Device dev} (ip : err_ip dev) `{!ErrorUnit dev (ip_status ip) (ip_plain ip)}.
Notation reg s a := (eu_reg (hw s) a).
Hypothesis Hok : ip_check ip = true.
Hypothesis Hmask : mask_check ip = true.
Hypothesis Hcalm : ip_calm ip.

Lemma glbl_plain : ip_glbl_mask ip ∈ ip_plain ip.
Proof using. apply elem_of_cons. by left. Qed.
Lemma last_plain p l : (p, l) ∈ block_list ip → mask_of ip l ∈ ip_plain ip.
Proof using. intros Hb. apply elem_of_cons. right. apply list_elem_of_fmap. by exists (p, l). Qed.
Lemma block_lasts : (snd <$> block_list ip) = all_hw_errs ip.
Proof using Hok.
  destruct (ip_check_spec ip Hok) as (Hlen & _). unfold block_list. apply snd_zip. lia.
Qed.
Lemma plain_nodup : mask_of ip <$> all_hw_errs ip = (λ b, mask_of ip b.2) <$> block_list ip ∧
  NoDup (mask_of ip <$> all_hw_errs ip) ∧ ip_glbl_mask ip ∉ (mask_of ip <$> all_hw_errs ip).
Proof using Hok.
  assert (E : mask_of ip <$> all_hw_errs ip = (λ b, mask_of ip b.2) <$> block_list ip)
    by (rewrite <- block_lasts, <- list_fmap_compose; done).
  split; [done|]. rewrite E. destruct (ip_check_spec ip Hok) as (_ & _ & _ & _ & _ & (_ & _ & Hn)%NoDup_app & _).
  by apply NoDup_cons in Hn as [? ?].
Qed.

Lemma entry_check idx : 0 <= idx < ip_errs_all ip → 0 <= leaf_err_mask (err_info ip idx) < 2 ^ 32 ∧
  glbl_bits ip idx = global_err_mask (err_info ip idx) ∧ 0 < global_err_mask (err_info ip idx) < 2 ^ 32.
Proof using Hok Hmask.
  intros Hi. destruct (ip_check_spec ip Hok) as (_ & _ & Hlen & _). unfold mask_check in Hmask.
  rewrite !andb_true_iff in Hmask. destruct Hmask as ((Hall & _) & _). rewrite forallb_forall in Hall.
  assert (Hin : In (err_info ip idx) (ip_err_info ip)) by (apply nth_In; lia).
  apply Hall in Hin. unfold glbl_bits. lia.
Qed.
Lemma last_range l : l ∈ all_hw_errs ip → 0 <= l < ip_errs_all ip.
Proof using Hok.
  rewrite <- block_lasts. intros ([p l'] & -> & Hb)%list_elem_of_fmap. cbn.
  destruct (ip_check_spec ip Hok) as (_ & _ & _ & _ & Hbl & _). rewrite Forall_forall in Hbl.
  specialize (Hbl _ Hb). unfold block_check in Hbl. cbn in Hbl. lia.
Qed.
Lemma last_in_plain l : l ∈ all_hw_errs ip → mask_of ip l ∈ ip_plain ip.
Proof using Hok. rewrite <- block_lasts. intros ([p l'] & -> & Hb)%list_elem_of_fmap. by apply (last_plain p). Qed.

Notation sto := (stores (ip_status ip) (ip_plain ip)).

Lemma set_global_tail idx s f : 0 <= idx < ip_errs_all ip →
  (∀ c, c ∈ ip_plain ip → (if c =? ip_glbl_mask ip then Z.lor (reg s (ip_glbl_mask ip)) (glbl_bits ip idx) else reg s c) = f c) →
  sto (set_global_mask ip (err_info ip idx)) s tt f.
Proof using Hok Hmask.
  intros Hi Hf. destruct (entry_check idx Hi) as (_ & Eg & Hg). unfold set_global_mask. fold (glbl_bits ip idx).
  eapply stores_bind; [apply stores_read; [by apply ip_addr_ok|by apply ip_apart|apply glbl_plain]|]. intros s1 Hl1 P1.
  eapply stores_ext; [|apply stores_write; [by apply ip_addr_ok|by apply ip_apart|apply glbl_plain|
    apply lor_width; [apply eu_width|lia]]].
  intros c Hc. cbn beta. rewrite <- Hf by done. by destruct (Z.eqb_spec c (ip_glbl_mask ip)); [|apply P1].
Qed.

Lemma enable_blocks_run st l s : (∀ idx, idx ∈ l → idx ∈ all_hw_errs ip) → hw_prg_lock s = false →
  sto (enable_blocks ip st l) s tt (enabled_masks ip st l (eu_reg (hw s))).
Proof using Hok Hmask.
  revert s. induction l as [|idx l IH]; intros s Hin Hl; cbn [enable_blocks enabled_masks]; [by apply stores_ret|].
  assert (Hi : idx ∈ all_hw_errs ip) by (apply Hin, list_elem_of_here).
  assert (Htl : ∀ k, k ∈ l → k ∈ all_hw_errs ip) by (intros k Hk; by apply Hin, list_elem_of_further).
  assert (Hrest : ∀ s', hw_prg_lock s' = hw_prg_lock s →
    (∀ c, c ∈ ip_plain ip → reg s' c = enable_step ip st idx (eu_reg (hw s)) c) →
    sto (enable_blocks ip st l) s' tt (enabled_masks ip st l (enable_step ip st idx (eu_reg (hw s))))).
  { intros s' Hl' P. eapply stores_ext; [|apply IH; [done|congruence]].
    apply (enabled_ext ip st (.∈ ip_plain ip)); [apply glbl_plain|done]. }
  destruct (served_last st ip idx) eqn:Hsv.
  - assert (negb (nz st) && mem_Z idx (ip_st_all ip) = false) as ->.
    { unfold served_last in Hsv. by destruct (nz st), (mem_Z idx (ip_st_all ip)). }
    apply last_range in Hi as Hr. destruct (entry_check idx Hr) as (Hw & _).
    eapply stores_bind; [|exact Hrest]. unfold enable_step. rewrite Hsv.
    eapply stores_bind; [apply stores_write; [by apply ip_addr_ok|by apply ip_apart|by apply last_in_plain|done]|].
    intros s1 Hl1 P1. apply set_global_tail; [done|]. intros c Hc. rewrite !P1 by (done || apply glbl_plain).
    fold (mask_of ip idx). destruct (Z.eqb_spec (ip_glbl_mask ip) (mask_of ip idx)) as [E|]; [|done].
    destruct plain_nodup as (_ & _ & Hn). destruct Hn. rewrite E. by apply list_elem_of_fmap_2.
  - assert (negb (nz st) && mem_Z idx (ip_st_all ip) = true) as ->.
    { unfold served_last in Hsv. by destruct (nz st), (mem_Z idx (ip_st_all ip)). }
    apply (stores_bind _ _ _ _ _ tt _ (eu_reg (hw s))); [by apply stores_ret|]. intros s' Hl' P.
    apply Hrest; [done|]. intros c Hc. unfold enable_step. rewrite Hsv. by apply P.
Qed.

Lemma mask_check_block p l : (p, l) ∈ block_list ip → mem_Z l (ip_st_all ip) = mem_Z p (ip_st_first ip) ∧
  ∀ idx, p <= idx <= l → 0 < leaf_set ip idx < 2 ^ 32 ∧ global_err_mask (err_info ip idx) = global_err_mask (err_info ip l).
Proof using Hmask.
  intros Hb. unfold mask_check in Hmask. rewrite !andb_true_iff in Hmask. destruct Hmask as ((_ & Hbl) & _).
  rewrite forallb_forall in Hbl. apply list_elem_of_In, Hbl in Hb. cbn in Hb. rewrite andb_true_iff, bool_decide_eq_true in Hb.
  destruct Hb as [Hs Hb]. split; [done|]. intros idx Hi. rewrite forallb_forall in Hb.
  specialize (Hb idx). rewrite <- list_elem_of_In, elem_of_seqZ, !andb_true_iff, Z.eqb_eq in Hb.
  destruct Hb as ((? & ?) & ?); [lia|]. split; [lia|done].
Qed.
Lemma mask_check_range idx : 0 <= idx < ip_errs_all ip →
  (fst (st_range ip) <=? idx) && (idx <=? snd (st_range ip)) = st_error ip idx.
Proof using Hmask.
  intros Hi. unfold mask_check in Hmask. rewrite !andb_true_iff in Hmask. destruct Hmask as (_ & Hall).
  rewrite forallb_forall in Hall. specialize (Hall idx). rewrite <- list_elem_of_In, elem_of_seqZ, bool_decide_eq_true in Hall.
  apply Hall. lia.
Qed.
Lemma block_range p l : (p, l) ∈ block_list ip → 0 <= p < l ∧ l < ip_errs_all ip.
Proof using Hok.
  intros Hb. destruct (ip_check_spec ip Hok) as (_ & _ & _ & _ & Hbl & _). rewrite Forall_forall in Hbl.
  specialize (Hbl _ Hb). unfold block_check in Hbl. cbn in Hbl. lia.
Qed.
Lemma served_last_err st p l : (p, l) ∈ block_list ip → served_last st ip l = served_err ip st l.
Proof using Hok Hmask.
  intros Hb. apply block_range in Hb as Hr. destruct (mask_check_block p l Hb) as [E _].
  destruct (in_block ip Hok p l l Hb ltac:(lia)) as (_ & _ & _ & _ & Es). unfold served_last, served_err. by rewrite E, Es.
Qed.
Lemma elem_of_lasts l : l ∈ all_hw_errs ip ↔ ∃ p, (p, l) ∈ block_list ip.
Proof using Hok.
  rewrite <- block_lasts, list_elem_of_fmap. split; [intros ([p l'] & -> & Hb); by exists p|intros (p & Hb); by exists (p, l)].
Qed.

(** *** All errors *)

(** From [d] to [d'] the blocks get their masks. *)
Record all_enabled (st : Z) (d d' : dev) : Prop := {
  en_mask : ∀ p l, (p, l) ∈ block_list ip → eu_reg d' (mask_of ip l) =
    if served_err ip st l then leaf_err_mask (err_info ip l) else eu_reg d (mask_of ip l);
  en_glbl : ∀ i, 0 <= i → Z.testbit (eu_reg d' (ip_glbl_mask ip)) i = true ↔
    Z.testbit (eu_reg d (ip_glbl_mask ip)) i = true ∨
    ∃ p l, (p, l) ∈ block_list ip ∧ served_err ip st l = true ∧ Z.testbit (global_err_mask (err_info ip l)) i = true;
}.

Lemma all_enabled_masks st d d' : (∀ c, c ∈ ip_plain ip → eu_reg d' c = enabled_masks ip st (all_hw_errs ip) (eu_reg d) c) →
  all_enabled st d d'.
Proof using Hok Hmask.
  intros P. destruct plain_nodup as (_ & Hnd & Hng). split.
  - intros p l Hb. assert (Hl : l ∈ all_hw_errs ip) by (apply elem_of_lasts; by exists p).
    rewrite P by by apply last_in_plain. rewrite <- (served_last_err st p) by done.
    assert (Hg : mask_of ip l ≠ ip_glbl_mask ip) by (intros E; apply Hng; rewrite <- E; by apply list_elem_of_fmap_2).
    destruct (served_last st ip l) eqn:Hs; [by apply enabled_mask|]. apply enabled_other; [done|].
    intros k Hk Hs' E. assert (k = l) as ->; [|congruence].
    assert (Hinj : ∀ (ls : list Z), NoDup (mask_of ip <$> ls) → k ∈ ls → l ∈ ls → k = l).
    { clear -E. induction ls as [|x ls IH]; cbn; [by intros _ ?%not_elem_of_nil|]. intros [Hx Hn]%NoDup_cons.
      rewrite !elem_of_cons. intros [->|Hk] [->|Hl]; [done|..|by apply IH]; destruct Hx;
        [rewrite <- E|rewrite E]; by apply list_elem_of_fmap_2. }
    by apply (Hinj (all_hw_errs ip)).
  - intros i Hi. rewrite P, enabled_global, orb_true_iff, existsb_exists by apply glbl_plain. apply or_iff_compat_l.
    setoid_rewrite <- list_elem_of_In. setoid_rewrite andb_true_iff. split.
    + intros (l & Hl & Hs & Hb). apply last_range in Hl as Hr. destruct (entry_check l Hr) as (_ & Eg & _).
      apply elem_of_lasts in Hl as [p Hp]. exists p, l. rewrite <- (served_last_err st p), <- Eg by done. done.
    + intros (p & l & Hp & Hs & Hb). exists l. assert (Hl : l ∈ all_hw_errs ip) by (apply elem_of_lasts; by exists p).
      apply last_range in Hl as Hr. destruct (entry_check l Hr) as (_ & Eg & _).
      by rewrite (served_last_err st p), Eg by done.
Qed.

(** *** One error *)

Record one_enabled (st idx : Z) (d d' : dev) : Prop := {
  one_mask : eu_reg d' (mask_of ip idx) =
    if served_err ip st idx then Z.lor (eu_reg d (mask_of ip idx)) (leaf_set ip idx) else eu_reg d (mask_of ip idx);
  one_glbl : eu_reg d' (ip_glbl_mask ip) =
    if served_err ip st idx then Z.lor (eu_reg d (ip_glbl_mask ip)) (global_err_mask (err_info ip idx)) else eu_reg d (ip_glbl_mask ip);
  one_rest : ∀ a, a ∈ ip_plain ip → a ≠ mask_of ip idx → a ≠ ip_glbl_mask ip → eu_reg d' a = eu_reg d a;
}.

Lemma enable_one_run idx s : 0 <= idx < ip_errs_all ip → hw_prg_lock s = false →
  sto (enable_one ip (err_info ip idx)) s tt (λ c,
    if c =? ip_glbl_mask ip then Z.lor (reg s (ip_glbl_mask ip)) (global_err_mask (err_info ip idx))
    else if c =? mask_of ip idx then Z.lor (reg s (mask_of ip idx)) (leaf_set ip idx) else reg s c).
Proof using Hok Hmask.
  intros Hi Hl. destruct (block_of ip Hok idx Hi) as (p & l & Hb & Hpl).
  destruct (mask_check_block p l Hb) as [_ Hone]. destruct (Hone idx Hpl) as [Hls _]. destruct (entry_check idx Hi) as (Hw & Eg & Hg).
  destruct (in_block ip Hok p l idx Hb Hpl) as (_ & _ & _ & Em & _). fold (mask_of ip idx) (mask_of ip l) in Em.
  assert (Hm : mask_of ip idx ∈ ip_plain ip) by (rewrite Em; by apply (last_plain p)).
  unfold enable_one. fold (mask_of ip idx) (leaf_set ip idx).
  eapply stores_bind; [apply stores_read; [by apply ip_addr_ok|by apply ip_apart|done]|]. intros s1 Hl1 P1.
  eapply stores_bind; [apply stores_write; [by apply ip_addr_ok|by apply ip_apart|done|
    apply lor_width; [apply eu_width|lia]]|]. intros s2 Hl2 P2.
  apply set_global_tail; [done|]. intros c Hc. rewrite !P2 by (done || apply glbl_plain). rewrite Eg.
  destruct plain_nodup as (_ & _ & Hng). assert (Hgm : ip_glbl_mask ip ≠ mask_of ip idx).
  { intros E. apply Hng. rewrite E, Em. apply list_elem_of_fmap_2, elem_of_lasts. by exists p. }
  destruct (Z.eqb_spec (ip_glbl_mask ip) (mask_of ip idx)); [done|]. rewrite P1 by apply glbl_plain.
  destruct (c =? ip_glbl_mask ip); [done|]. destruct (c =? mask_of ip idx); [done|]. by apply P1.
Qed.

(** *** The function *)

Lemma enable_all_run s : hw_prg_lock s = false → ∃ s' new cap s1,
  hw_error_enable ip true (ip_errs_all ip) s = Some (QDMA_SUCCESS, s') ∧ hw_prg_lock s' = false ∧
  keeps (ip_status ip) (ip_plain ip) new (hw s) (hw s') ∧ ip_dev_cap ip s = Some (cap, s1) ∧
  all_enabled (st_en cap) (hw s) (hw s').
Proof using Hok Hmask Hcalm.
  intros Hl. destruct (calm_stores (ip_status ip) (ip_plain ip) (ip_apart ip Hok) _ s Hl (proj1 Hcalm))
    as (cap & s1 & n1 & E1 & Hl1 & V1 & P1).
  destruct (enable_blocks_run (st_en cap) (all_hw_errs ip) s1) as (s2 & n2 & E2 & Hl2 & V2 & P2); [done|congruence|].
  destruct (ip_check_spec ip Hok) as (_ & _ & Hlen & Hw & _).
  exists s2, (n1 ++ n2), cap, s1. unfold hw_error_enable. rewrite (u32_small (ip_errs_all ip)), Z.ltb_irrefl by lia.
  cbn [negb]. unfold mbind, hwm_bind. rewrite E1, Z.eqb_refl. rewrite E2. split; [done|]. split; [congruence|].
  split; [by eapply keeps_trans|]. split; [done|]. apply all_enabled_masks. intros c Hc. rewrite P2 by done.
  by apply (enabled_ext ip _ (.∈ ip_plain ip)); [apply glbl_plain|..].
Qed.

Lemma enable_err_run idx s : 0 <= idx < ip_errs_all ip → hw_prg_lock s = false → ∃ s' new cap s1,
  hw_error_enable ip true idx s = Some (QDMA_SUCCESS, s') ∧ hw_prg_lock s' = false ∧
  keeps (ip_status ip) (ip_plain ip) new (hw s) (hw s') ∧ ip_dev_cap ip s = Some (cap, s1) ∧
  one_enabled (st_en cap) idx (hw s) (hw s').
Proof using Hok Hmask Hcalm.
  intros Hi Hl. destruct (calm_stores (ip_status ip) (ip_plain ip) (ip_apart ip Hok) _ s Hl (proj1 Hcalm))
    as (cap & s1 & n1 & E1 & Hl1 & V1 & P1).
  destruct (ip_check_spec ip Hok) as (_ & _ & _ & Hw & _).
  unfold hw_error_enable. rewrite (u32_small idx) by lia. rewrite (proj2 (Z.ltb_ge _ _)) by lia. cbn [negb].
  unfold mbind, hwm_bind. rewrite E1. rewrite (proj2 (Z.eqb_neq _ _)) by lia.
  rewrite <- andb_assoc, mask_check_range by done.
  destruct (block_of ip Hok idx Hi) as (p & l & Hb & Hpl).
  destruct (in_block ip Hok p l idx Hb Hpl) as (_ & _ & _ & Em & _). fold (mask_of ip idx) (mask_of ip l) in Em.
  assert (Hm : mask_of ip idx ∈ ip_plain ip) by (rewrite Em; by apply (last_plain p)).
  destruct (negb (nz (st_en cap)) && st_error ip idx) eqn:Eb.
  - exists s1, n1, cap, s1. split; [done|]. split; [congruence|]. do 2 (split; [done|]).
    assert (served_err ip (st_en cap) idx = false) as Hs by (unfold served_err; by destruct (nz (st_en cap)), (st_error ip idx)).
    split; rewrite ?Hs, ?P1 by (done || apply glbl_plain); [done..|]. intros a Ha _ _. by apply P1.
  - destruct (enable_one_run idx s1) as (s2 & n2 & E2 & Hl2 & V2 & P2); [done..|congruence|].
    exists s2, (n1 ++ n2), cap, s1. rewrite E2. split; [done|]. split; [congruence|].
    split; [by eapply keeps_trans|]. split; [done|].
    assert (served_err ip (st_en cap) idx = true) as Hs by (unfold served_err; by destruct (nz (st_en cap)), (st_error ip idx)).
    assert (Hgm : mask_of ip idx ≠ ip_glbl_mask ip).
    { intros E. destruct plain_nodup as (_ & _ & Hng). apply Hng. rewrite <- E, Em. apply list_elem_of_fmap_2, elem_of_lasts. by exists p. }
    split; rewrite ?Hs, ?P2, ?Z.eqb_refl by (done || apply glbl_plain).
    + destruct (Z.eqb_spec (mask_of ip idx) (ip_glbl_mask ip)); [done|]. by rewrite P1.
    + by rewrite P1 by apply glbl_plain.
    + intros a Ha Ha1 Ha2. rewrite P2 by done. destruct (Z.eqb_spec a (ip_glbl_mask ip)); [done|].
      destruct (Z.eqb_spec a (mask_of ip idx)); [done|]. by apply P1.
Qed.
End ip.
