(* ===== verification/ErrIntr.v ===== *)
(** * Vectors, the error interrupt and the error monitor (qdma_intr.c, qdma_device.c, xdev.c)

    The vectors of a function are shared out in the order mailbox, user, error,
    data.  The interrupt of the errors is sent to the vector found in that
    table; without interrupts a delayed work looks for errors every second. *)

From stdpp Require Import relations.
From S2P Require Import Prelude Platform Bits RegIO IndCtxt SoftCtxt SoftAccess RegList QueueTypes HwAccess DescRing CtxtSetup Intr ErrProc ErrThms.

(** ** Vectors *)

Inductive intr_type_list := INTR_TYPE_ERROR | INTR_TYPE_USER | INTR_TYPE_DATA | INTR_TYPE_MBOX.
#[export] Instance intr_type_list_eq_dec : EqDecision intr_type_list.
Proof. solve_decision. Defined.

(** What [intr_setup] reads: the configuration, [pci_msix_vec_count], and
    [qdma_mbox_is_irq_availabe]. *)
Record vec_conf := mk_vec_conf {
  vc_drv_mode : qdma_drv_mode_t; vc_msix_count : Z; vc_msix_qvec_max : Z; vc_user_msix_qvec_max : Z;
  vc_data_msix_qvec_max : Z; vc_master_pf : bool; vc_mbox_irq : bool;
}.
(** [vs_map]: [intr_type] and [intr_vec_index] in [dev_intr_info_list], [None]
    before and after its life; [vs_irqs]: the vectors with a handler. *)
Record vec_state := mk_vecs {
  vs_num_vecs : Z; vs_dvec_start_idx : Z; vs_map : option (list (intr_type_list * Z)); vs_irqs : list Z;
  vs_msix : bool; vs_flag_irq : bool;
}.
#[export] Instance eta_vec_state : Settable vec_state := λ s,
  mk_vecs (vs_num_vecs s) (vs_dvec_start_idx s) (vs_map s) (vs_irqs s) (vs_msix s) (vs_flag_irq s).

Section vectors.
(** Allocations of the two arrays, [pci_enable_msix_exact] and [request_irq]. *)
Context (alloc_msix alloc_info : bool) (enable_rv : Z) (irq_rv : Z → Z).

(** The type is set before the vector is requested. *)
Definition intr_vector_setup (idx : Z) (type : intr_type_list) (s : vec_state) : Z * vec_state :=
  let s := s <| vs_map := (λ l, <[Z.to_nat idx := (type, idx)]> l) <$> vs_map s |> in
  if nz (irq_rv idx) then (irq_rv idx, s) else (0, s <| vs_irqs := vs_irqs s ++ [idx] |>).

(** The setups one after the other, up to the first that fails; also the number of
    those that succeeded. *)
Fixpoint setup_vectors (idx : Z) (types : list intr_type_list) (s : vec_state) : Z * Z * vec_state :=
  match types with
  | [] => (0, idx, s)
  | type :: types =>
      let '(rv, s) := intr_vector_setup idx type s in
      if nz rv then (rv, idx, s) else setup_vectors (idx + 1) types s
  end.

(** [while (--i >= 0) free_irq] *)
Fixpoint free_irqs (i : nat) (irqs : list Z) : list Z :=
  match i with
  | O => irqs
  | S i => free_irqs i (List.filter (λ v, negb (v =? Z.of_nat i)) irqs)
  end.

Definition cleanup_irq (rv i : Z) (s : vec_state) : Z * vec_state :=
  (rv, s <| vs_irqs := free_irqs (Z.to_nat i) (vs_irqs s) |> <| vs_msix := false |> <| vs_num_vecs := 0 |> <| vs_map := None |>).

(** The vectors before those for data. *)
Definition fixed_vectors (c : vec_conf) : list intr_type_list :=
  (if vc_mbox_irq c then [INTR_TYPE_MBOX] else []) ++
  replicate (Z.to_nat (vc_user_msix_qvec_max c)) INTR_TYPE_USER ++
  (if vc_master_pf c then [INTR_TYPE_ERROR] else []).

Definition num_vecs_req (c : vec_conf) : Z :=
  vc_user_msix_qvec_max c + vc_data_msix_qvec_max c + b2z (vc_master_pf c) + b2z (vc_mbox_irq c).

(** The vectors are requested one after the other. *)
Definition assign_vectors (c : vec_conf) (s : vec_state) : Z * vec_state :=
  let '(rv, i, s) := setup_vectors 0 (fixed_vectors c) s in
  if nz rv then cleanup_irq rv i s
  else
    let s := s <| vs_dvec_start_idx := i |> in
    let '(rv, i, s) := setup_vectors i (replicate (Z.to_nat (vs_num_vecs s - i)) INTR_TYPE_DATA) s in
    if nz rv then cleanup_irq rv i s else (0, s <| vs_flag_irq := true |>).

Definition intr_setup (c : vec_conf) (s : vec_state) : Z * vec_state :=
  if bool_decide (vc_drv_mode c = POLL_MODE ∨ vc_drv_mode c = LEGACY_INTR_MODE) then (0, s)
  else if vc_msix_count c =? 0 then (0, s)
  else if vc_data_msix_qvec_max c =? 0 then (- EINVAL, s)
  else
    let s := s <| vs_num_vecs := Z.min (vc_msix_count c) (vc_msix_qvec_max c) |> in
    if vs_num_vecs s <? num_vecs_req c then (- EINVAL, s)
    else if negb alloc_msix then (- ENOMEM, s)
    else if negb alloc_info then (- ENOMEM, s)
    else
      let s := s <| vs_map := Some (replicate (Z.to_nat (vs_num_vecs s)) (INTR_TYPE_ERROR, 0)) |> in
      if enable_rv <? 0 then (enable_rv, s <| vs_map := None |>)
      else assign_vectors c (s <| vs_msix := true |>).
End vectors.

Definition intr_teardown (s : vec_state) : vec_state :=
  s <| vs_irqs := free_irqs (Z.to_nat (vs_num_vecs s)) (vs_irqs s) |>
    <| vs_msix := if nz (vs_num_vecs s) then false else vs_msix s |> <| vs_map := None |>.

(** The index of the first vector of a type; 0 when there is none. *)
Fixpoint vec_index_loop (type : intr_type_list) (l : list (intr_type_list * Z)) : Z :=
  match l with
  | [] => 0
  | (t, i) :: l => if bool_decide (t = type) then u8 i else vec_index_loop type l
  end.
Definition get_intr_vec_index (s : vec_state) (type : intr_type_list) : Z :=
  vec_index_loop type (default [] (vs_map s)).

(** *** What is assigned *)

(** The table when the vectors from [idx] on have these types. *)
Fixpoint numbered (idx : Z) (types : list intr_type_list) : list (intr_type_list * Z) :=
  match types with
  | [] => []
  | t :: types => (t, idx) :: numbered (idx + 1) types
  end.

Lemma numbered_length idx types : length (numbered idx types) = length types.
Proof. revert idx. induction types as [|t types IH]; intros idx; cbn; [done|by rewrite IH]. Qed.
Lemma numbered_app idx l1 l2 : numbered idx (l1 ++ l2) = numbered idx l1 ++ numbered (idx + Z.of_nat (length l1)) l2.
Proof.
  revert idx. induction l1 as [|t l1 IH]; intros idx; cbn; [by rewrite Z.add_0_r|]. rewrite IH. do 3 f_equal. lia.
Qed.
Lemma seqZ_snoc a n : 0 <= n → seqZ a (n + 1) = seqZ a n ++ [a + n].
Proof. intros Hn. rewrite seqZ_app by lia. done. Qed.

Lemma setup_vectors_run irq_rv types : ∀ idx s rv i s', 0 <= idx →
  setup_vectors irq_rv idx types s = (rv, i, s') →
  idx <= i ∧ vs_irqs s' = vs_irqs s ++ seqZ idx (i - idx) ∧ vs_num_vecs s' = vs_num_vecs s ∧ vs_msix s' = vs_msix s ∧
  vs_dvec_start_idx s' = vs_dvec_start_idx s ∧
  (rv = 0 → i = idx + Z.of_nat (length types) ∧ (∀ k, idx <= k < i → irq_rv k = 0) ∧
     ∀ l1 l2 l3, vs_map s = Some (l1 ++ l2 ++ l3) → idx = Z.of_nat (length l1) → length l2 = length types →
       vs_map s' = Some (l1 ++ numbered idx types ++ l3)).
Proof.
  induction types as [|t types IH]; intros idx s rv i s' Hi E; cbn in E.
  { injection E as <- <- <-. rewrite Z.sub_diag. split; [lia|]. split; [by rewrite app_nil_r|]. do 3 (split; [done|]).
    intros _. split; [cbn; lia|]. split; [lia|]. intros l1 [|] l3 Hm _ Hl; [done|done]. }
  unfold intr_vector_setup in E. destruct (nz (irq_rv idx)) eqn:Hn.
  { rewrite Hn in E. injection E as <- <- <-. rewrite Z.sub_diag. cbn. split; [lia|]. split; [by rewrite app_nil_r|].
    do 3 (split; [done|]). intros E. rewrite E in Hn. done. }
  change (nz 0) with false in E. cbn iota in E. apply IH in E as (Hle & Hq & Hv & Hx & Hd & Hok); [|lia]. cbn in Hq, Hv, Hx, Hd, Hok.
  split; [lia|]. split.
  { rewrite Hq, <- app_assoc. f_equal. replace (i - idx) with (1 + (i - (idx + 1))) by lia.
    by rewrite seqZ_app by lia. }
  do 3 (split; [done|]). intros Hrv. destruct (Hok Hrv) as (-> & Hz & Hm). split; [cbn; lia|]. split.
  { intros k Hk. destruct (decide (k = idx)) as [->|]; [|apply Hz; lia]. unfold nz in Hn. by destruct (Z.eqb_spec (irq_rv idx) 0). }
  intros l1 [|x l2] l3 Em Hl1 Hl2; [done|]. rewrite Em in Hm. cbn in Hm. cbn.
  rewrite (cons_middle _ l1), app_assoc. apply (Hm (l1 ++ [(t, idx)]) l2 l3); [|rewrite length_app; cbn; lia|cbn in Hl2; lia].
  rewrite <- app_assoc. f_equal. rewrite insert_app_r_alt by lia. f_equal.
  replace (Z.to_nat idx - length l1)%nat with 0%nat by lia. done.
Qed.

Lemma free_irqs_elem i irqs v : v ∈ free_irqs i irqs ↔ v ∈ irqs ∧ ¬ (0 <= v < Z.of_nat i).
Proof.
  revert irqs. induction i as [|i IH]; intros irqs; cbn [free_irqs]; [split; [intros; split; [done|lia]|by intros []]|].
  rewrite IH, list_elem_of_In, filter_In, <- list_elem_of_In, negb_true_iff, Z.eqb_neq. split; [intros ((? & ?) & ?)|intros (? & ?)];
    (split; [try split; try done; lia|lia] || (split; [done|lia])).
Qed.
Lemma free_irqs_all n : 0 <= n → free_irqs (Z.to_nat n) (seqZ 0 n) = [].
Proof.
  intros Hn. destruct (free_irqs (Z.to_nat n) (seqZ 0 n)) as [|v l] eqn:E; [done|]. exfalso.
  assert (Hv : v ∈ free_irqs (Z.to_nat n) (seqZ 0 n)) by (rewrite E; apply list_elem_of_here).
  apply free_irqs_elem in Hv as [Hv Hn']. apply elem_of_seqZ in Hv. lia.
Qed.

Lemma vec_index_numbered type pre post idx : type ∉ pre →
  vec_index_loop type (numbered idx (pre ++ type :: post)) = u8 (idx + Z.of_nat (length pre)).
Proof.
  revert idx. induction pre as [|t pre IH]; intros idx Hn; cbn.
  - by rewrite bool_decide_eq_true_2, Z.add_0_r.
  - rewrite not_elem_of_cons in Hn. rewrite bool_decide_eq_false_2 by naive_solver. rewrite IH by tauto. f_equal. lia.
Qed.

(** The assignment of the vectors. *)
Record vectors_assigned (c : vec_conf) (s : vec_state) : Prop := {
  va_num : vs_num_vecs s = Z.min (vc_msix_count c) (vc_msix_qvec_max c);
  va_map : vs_map s = Some (numbered 0 (fixed_vectors c ++
    replicate (Z.to_nat (vs_num_vecs s - vs_dvec_start_idx s)) INTR_TYPE_DATA));
  va_start : vs_dvec_start_idx s = Z.of_nat (length (fixed_vectors c));
  va_data : vs_dvec_start_idx s + vc_data_msix_qvec_max c <= vs_num_vecs s;
  va_irqs : vs_irqs s = seqZ 0 (vs_num_vecs s);
  va_msix : vs_msix s = true; va_flag : vs_flag_irq s = true;
}.
(** Nothing is held. *)
Record no_vectors (s : vec_state) : Prop := { nv_map : vs_map s = None; nv_irqs : vs_irqs s = []; nv_msix : vs_msix s = false }.

Definition vec_conf_ok (c : vec_conf) : Prop := 0 <= vc_msix_count c ∧ 0 <= vc_user_msix_qvec_max c ∧ 0 <= vc_data_msix_qvec_max c.

Lemma fixed_vectors_length c : 0 <= vc_user_msix_qvec_max c →
  Z.of_nat (length (fixed_vectors c)) = num_vecs_req c - vc_data_msix_qvec_max c.
Proof.
  intros Hu. unfold fixed_vectors, num_vecs_req. rewrite !length_app, length_replicate.
  destruct (vc_mbox_irq c), (vc_master_pf c); cbn; lia.
Qed.

Lemma cleanup_irq_run rv i s irqs : vs_irqs s = irqs → irqs = seqZ 0 i → 0 <= i → ∃ s', cleanup_irq rv i s = (rv, s') ∧ no_vectors s'.
Proof.
  intros Hq -> Hi. eexists. split; [reflexivity|]. split; cbn; [done| |done]. rewrite Hq. by apply free_irqs_all.
Qed.

Lemma assign_vectors_run irq_rv c s rv s' : vec_conf_ok c → num_vecs_req c <= vs_num_vecs s → vs_irqs s = [] → vs_msix s = true →
  vs_num_vecs s = Z.min (vc_msix_count c) (vc_msix_qvec_max c) →
  vs_map s = Some (replicate (Z.to_nat (vs_num_vecs s)) (INTR_TYPE_ERROR, 0)) →
  assign_vectors irq_rv c s = (rv, s') → (rv = 0 → vectors_assigned c s') ∧ (rv ≠ 0 → no_vectors s').
Proof.
  intros (Hm & Hu & Hd) Hreq Hq Hx Hnum Hmap E. pose proof (fixed_vectors_length c Hu) as Hfix. unfold assign_vectors in E.
  destruct (setup_vectors irq_rv 0 (fixed_vectors c) s) as [[rv1 i1] s1] eqn:E1.
  apply setup_vectors_run in E1 as (Hi1 & Hq1 & Hv1 & Hx1 & Hd1 & Hok1); [|lia]. rewrite Hq, Z.sub_0_r in Hq1. cbn in Hq1.
  destruct (nz rv1) eqn:Hn1; unfold nz in Hn1.
  { destruct (cleanup_irq_run rv1 i1 s1 _ Hq1 eq_refl Hi1) as (s2 & E2 & Hs2). rewrite E2 in E. injection E as <- <-.
    split; [intros ->; done|done]. }
  assert (rv1 = 0) as -> by lia. destruct (Hok1 eq_refl) as (-> & _ & Hm1). rewrite Z.add_0_l in *.
  set (k := length (fixed_vectors c)) in *. set (rest := Z.to_nat (vs_num_vecs s - Z.of_nat k)).
  assert (Hsplit : replicate (Z.to_nat (vs_num_vecs s)) (INTR_TYPE_ERROR, 0) =
    [] ++ replicate k (INTR_TYPE_ERROR, 0) ++ replicate rest (INTR_TYPE_ERROR, 0))
    by (cbn; rewrite <- replicate_add; f_equal; lia).
  rewrite Hmap, Hsplit in Hm1. specialize (Hm1 _ _ _ eq_refl eq_refl (length_replicate _ _)). cbn in Hm1.
  cbv zeta in E. cbn [vs_num_vecs] in E. set (s1' := s1 <| vs_dvec_start_idx := Z.of_nat k |>) in *.
  change (vs_num_vecs s1') with (vs_num_vecs s1) in E. rewrite Hv1 in E. fold rest in E.
  destruct (setup_vectors irq_rv (Z.of_nat k) (replicate rest INTR_TYPE_DATA) s1') as [[rv2 i2] s2] eqn:E2.
  apply setup_vectors_run in E2 as (Hi2 & Hq2 & Hv2 & Hx2 & Hd2 & Hok2); [|lia]. subst s1'. cbn in Hq2, Hv2, Hx2, Hd2, Hok2.
  assert (Hirqs : vs_irqs s2 = seqZ 0 i2).
  { rewrite Hq2, Hq1. replace i2 with (Z.of_nat k + (i2 - Z.of_nat k)) at 2 by lia. rewrite seqZ_app by lia. do 2 f_equal; lia. }
  destruct (nz rv2) eqn:Hn2; unfold nz in Hn2.
  { destruct (cleanup_irq_run rv2 i2 s2 _ Hirqs eq_refl) as (s3 & E3 & Hs3); [lia|]. rewrite E3 in E. injection E as <- <-.
    split; [intros ->; done|done]. }
  assert (rv2 = 0) as -> by lia. destruct (Hok2 eq_refl) as (Hi2' & _ & Hm2). rewrite length_replicate in Hi2', Hm2.
  injection E as <- <-. split; [intros _|done].
  assert (Hlen : i2 = vs_num_vecs s2) by (rewrite Hv2, Hv1; lia).
  split; cbn; [by rewrite Hv2, Hv1| |by rewrite Hd2|rewrite Hd2, Hv2, Hv1; lia|by rewrite Hirqs, Hlen|by rewrite Hx2, Hx1|done].
  rewrite Hd2, Hv2, Hv1. fold rest. rewrite numbered_app. fold k. cbn in Hm2.
  rewrite <- (app_nil_r (numbered _ (replicate rest _))). apply (Hm2 _ (replicate rest (INTR_TYPE_ERROR, 0)) []).
  - by rewrite app_nil_r.
  - rewrite numbered_length. done.
  - by rewrite length_replicate.
Qed.

Lemma intr_setup_run am ai erv irq_rv c s rv s' : vec_conf_ok c → no_vectors s →
  vc_drv_mode c ≠ POLL_MODE → vc_drv_mode c ≠ LEGACY_INTR_MODE → vc_msix_count c ≠ 0 →
  intr_setup am ai erv irq_rv c s = (rv, s') → 
  (rv = 0 → vectors_assigned c s') ∧ (rv ≠ 0 → no_vectors s').
Proof.
  intros Hc [Hm Hq Hx] Hp Hl Hz E. unfold intr_setup in E.
  rewrite bool_decide_eq_false_2 in E by tauto. rewrite (proj2 (Z.eqb_neq _ 0)) in E by done.
  destruct (vc_data_msix_qvec_max c =? 0); [by injection E as <- <-|].
  cbv zeta in E. set (s1 := s <| vs_num_vecs := _ |>) in E.
  assert (Hn1 : no_vectors s1) by done.
  destruct (vs_num_vecs s1 <? num_vecs_req c) eqn:Hreq; [by injection E as <- <-|].
  destruct am; [|by injection E as <- <-]. destruct ai; [|by injection E as <- <-]. cbn [negb] in E.
  destruct (erv <? 0) eqn:He; [injection E as <- <-; split; [lia|done]|].
  apply assign_vectors_run in E; try done. cbn in Hreq |- *. lia.
Qed.

(** Tearing the vectors down gives everything back. *)
Lemma intr_teardown_run c s : vec_conf_ok c → vc_data_msix_qvec_max c ≠ 0 → vectors_assigned c s → no_vectors (intr_teardown s).
Proof.
  intros (Hm & Hu & Hd) Hd0 [H1 H2 H3 H4 H5 H6 H7]. assert (0 <= vs_num_vecs s) by lia.
  split; cbn; [done|by rewrite H5, free_irqs_all|]. assert (nz (vs_num_vecs s) = true) as ->; [|done].
  unfold nz. apply negb_true_iff, Z.eqb_neq. lia.
Qed.

Lemma error_vector c s : vectors_assigned c s → vc_master_pf c = true →
  get_intr_vec_index s INTR_TYPE_ERROR = u8 (vs_dvec_start_idx s - 1).
Proof.
  intros [_ Hmap Hst _ _ _ _] Hm. unfold get_intr_vec_index. rewrite Hmap. cbn [default].
  unfold fixed_vectors in *. rewrite Hm in *. set (pre := if vc_mbox_irq c then _ else _) in *.
  set (us := replicate (Z.to_nat _) INTR_TYPE_USER) in *. cbv beta in *.
  replace ((pre ++ us ++ [INTR_TYPE_ERROR]) ++ replicate (Z.to_nat (vs_num_vecs s - vs_dvec_start_idx s)) INTR_TYPE_DATA)
    with ((pre ++ us) ++ INTR_TYPE_ERROR :: replicate (Z.to_nat (vs_num_vecs s - vs_dvec_start_idx s)) INTR_TYPE_DATA)
    by (by rewrite <- !app_assoc).
  unfold id. rewrite vec_index_numbered.
  - f_equal. rewrite Hst, !length_app. cbn. lia.
  - rewrite elem_of_app. intros [Hp|[E _]%elem_of_replicate]; [|done]. unfold pre in Hp.
    destruct (vc_mbox_irq c); [by apply list_elem_of_singleton in Hp|by apply not_elem_of_nil in Hp].
Qed.

Lemma numbered_lookup idx l1 t l2 :
  numbered idx (l1 ++ t :: l2) !! length l1 = Some (t, idx + Z.of_nat (length l1)).
Proof.
  rewrite numbered_app, lookup_app_r by (rewrite numbered_length; lia).
  by rewrite numbered_length, Nat.sub_diag.
Qed.

(** The entry before the first vector for data is that of the errors. *)
Lemma error_entry c s : vectors_assigned c s → vc_master_pf c = true → 0 < vs_dvec_start_idx s ∧
  default [] (vs_map s) !! Z.to_nat (vs_dvec_start_idx s - 1) = Some (INTR_TYPE_ERROR, vs_dvec_start_idx s - 1).
Proof.
  intros [_ Hmap Hst _ _ _ _] Hm. rewrite Hmap. cbn [default]. unfold id, fixed_vectors in *. rewrite Hm in *.
  set (pre := (if vc_mbox_irq c then _ else _) : list intr_type_list) in *.
  set (us := replicate (Z.to_nat _) INTR_TYPE_USER) in *.
  rewrite app_assoc, length_app in Hst. cbn in Hst. split; [lia|].
  rewrite app_assoc, <- (app_assoc (pre ++ us)). cbn [app].
  replace (vs_dvec_start_idx s - 1) with (Z.of_nat (length (pre ++ us))) by lia.
  rewrite Nat2Z.id. apply numbered_lookup.
Qed.

(** C38. In polled and legacy mode, and on a device without MSI-X vectors,
    [intr_setup] returns 0 and does nothing.  Otherwise: when it succeeds the
    vectors are those of the configuration in their order, every one has its
    handler, at least the configured number is for data, the error interrupt of
    the master function finds its own vector (the index is returned in eight
    bits, so it has to be below 256), and tearing down gives everything back;
    when it fails nothing is held. *)
Theorem vectors_all_or_nothing alloc_msix alloc_info enable_rv irq_rv c s rv s' : vec_conf_ok c → no_vectors s →
  intr_setup alloc_msix alloc_info enable_rv irq_rv c s = (rv, s') →
  let off := vc_drv_mode c = POLL_MODE ∨ vc_drv_mode c = LEGACY_INTR_MODE ∨ vc_msix_count c = 0 in
  (off → rv = 0 ∧ s' = s) ∧
  (rv = 0 → ¬ off → vectors_assigned c s' ∧ no_vectors (intr_teardown s') ∧
     (vc_master_pf c = true → let v := get_intr_vec_index s' INTR_TYPE_ERROR in
        v = u8 (vs_dvec_start_idx s' - 1) ∧
        (vs_dvec_start_idx s' <= 256 →
           default [] (vs_map s') !! Z.to_nat v = Some (INTR_TYPE_ERROR, v)))) ∧
  (rv ≠ 0 → no_vectors s').
Proof.
  intros Hc Hs E off. unfold off in *.
  assert (Hoff : off → rv = 0 ∧ s' = s).
  { unfold off, intr_setup in *. intros Ho. destruct (bool_decide _) eqn:Eb; [by injection E as <- <-|].
    apply bool_decide_eq_false in Eb. destruct Ho as [?|[?|Hz]]; [tauto|tauto|].
    rewrite (proj2 (Z.eqb_eq _ 0)) in E by done. by injection E as <- <-. }
  split; [done|]. destruct (decide off) as [Ho|Hn].
  { destruct (Hoff Ho) as [-> ->]. split; [intros _ Hn; by destruct Hn|done]. }
  unfold off in Hn. assert (Hd : rv = 0 → vc_data_msix_qvec_max c ≠ 0).
  { intros -> E0. unfold intr_setup in E. rewrite bool_decide_eq_false_2, (proj2 (Z.eqb_neq _ 0)) in E by tauto.
    by rewrite E0 in E. }
  destruct (intr_setup_run _ _ _ _ _ _ _ _ Hc Hs ltac:(tauto) ltac:(tauto) ltac:(tauto) E) as [Hok Hfail].
  split; [|done]. intros Hrv _. specialize (Hok Hrv). split; [done|]. split; [by apply (intr_teardown_run c); auto|].
  intros Hm. pose proof (error_vector _ _ Hok Hm) as Hv. destruct (error_entry _ _ Hok Hm) as [Hpos He].
  split; [done|]. intros H256. rewrite Hv, wrap_small; [done|]. unfold is_u. change (2 ^ 8) with 256. lia.
Qed.

(** ** The error interrupt *)

Definition QDMA_OFFSET_GLBL_ERR_INT : Z := 0xB04.
Definition QDMA_GLBL_ERR_FUNC_MASK : Z := GENMASK 7 0.
Definition QDMA_GLBL_ERR_VEC_MASK : Z := GENMASK 22 12.
Definition QDMA_GLBL_ERR_ARM_MASK : Z := BIT 24.

Section intr.
Context {dev : Type} `{Device dev}.

Definition qdma_hw_error_intr_setup (dev_hndl : bool) (func_id err_intr_index : Z) : hwm dev Z :=
  if negb dev_hndl then mret INV_PARAM
  else
    qdma_reg_write QDMA_OFFSET_GLBL_ERR_INT
      (Z.lor (FIELD_SET QDMA_GLBL_ERR_FUNC_MASK func_id) (FIELD_SET QDMA_GLBL_ERR_VEC_MASK err_intr_index));;
    mret QDMA_SUCCESS.
Definition qdma_hw_error_intr_rearm (dev_hndl : bool) : hwm dev Z :=
  if negb dev_hndl then mret INV_PARAM
  else
    reg_val ← qdma_reg_read QDMA_OFFSET_GLBL_ERR_INT;
    qdma_reg_write QDMA_OFFSET_GLBL_ERR_INT (Z.lor reg_val (FIELD_SET QDMA_GLBL_ERR_ARM_MASK 1));;
    mret QDMA_SUCCESS.

Definition qdma_err_intr_setup (func_id : Z) (v : vec_state) : hwm dev Z :=
  rv ← qdma_hw_error_intr_setup true func_id (get_intr_vec_index v INTR_TYPE_ERROR);
  mret (if rv <? 0 then - EINVAL else 0).

(** The last part of [qdma_device_interrupt_setup]. *)
Definition error_interrupts (ip : err_ip dev) (func_id : Z) (v : vec_state) : hwm dev Z :=
  rv ← qdma_err_intr_setup func_id v;
  if rv <? 0 then mret (- EINVAL)
  else
    rv ← hw_error_enable ip true (ip_errs_all ip);
    if rv <? 0 then mret (- EINVAL)
    else
      rv ← qdma_hw_error_intr_rearm true;
      mret (if rv <? 0 then - EINVAL else rv).

(** The interrupt handler; the list of what is logged. *)
Definition error_intr_handler (ip : err_ip dev) : hwm dev (list Z) :=
  '(rv, log) ← hw_error_process ip true;
  qdma_hw_error_intr_rearm true;;
  mret log.
End intr.

Section armed.
Context {dev : Type} `{Device dev} (ip : err_ip dev) `{!ErrorUnit dev (ip_status ip) (ip_plain ip)}.
Hypothesis Hok : ip_check ip = true.
Hypothesis Hmask : mask_check ip = true.
Hypothesis Hcalm : ip_calm ip.
Hypothesis Hint : QDMA_OFFSET_GLBL_ERR_INT ∉ ip_status ip ++ ip_plain ip.
Notation quiet m := (calm (ip_status ip) (ip_plain ip) false false m).

Lemma rearm_calm : quiet (qdma_hw_error_intr_rearm true).
Proof using Hint.
  apply (calm_bind _ _ false false false); [apply calm_read|]. intros v.
  apply (calm_bind _ _ false false false); [by apply calm_write|]. intros _. apply calm_ret.
Qed.
Lemma err_intr_setup_calm func_id v : quiet (qdma_err_intr_setup func_id v).
Proof using Hint.
  apply (calm_bind _ _ false false false); [|intros; apply calm_ret].
  apply (calm_bind _ _ false false false); [by apply calm_write|]. intros _. apply calm_ret.
Qed.

Lemma all_enabled_proper st d1 d2 d3 d4 :
  (∀ a, a ∈ ip_plain ip → eu_reg d2 a = eu_reg d1 a) → (∀ a, a ∈ ip_plain ip → eu_reg d4 a = eu_reg d3 a) →
  all_enabled ip st d2 d3 → all_enabled ip st d1 d4.
Proof using.
  intros H12 H34 [M G]. split.
  - intros p l Hb. rewrite H34, (M p l Hb), H12 by by apply (last_plain ip p). done.
  - intros i Hi. rewrite H34, <- (H12 (ip_glbl_mask ip)) by apply glbl_plain. by apply G.
Qed.

(** The vector is set, the masks are those of the table, the interrupt is armed. *)
Lemma error_interrupts_run func_id v s : hw_prg_lock s = false → ∃ s' new s0 cap s1,
  error_interrupts ip func_id v s = Some (0, s') ∧ hw_prg_lock s' = false ∧
  keeps (ip_status ip) (ip_plain ip) new (hw s) (hw s') ∧
  qdma_err_intr_setup func_id v s = Some (0, s0) ∧ ip_dev_cap ip s0 = Some (cap, s1) ∧
  all_enabled ip (st_en cap) (hw s) (hw s').
Proof using Hok Hmask Hcalm Hint.
  intros Hl. pose proof (ip_apart ip Hok) as Hap.
  destruct (calm_stores _ _ Hap _ s Hl (err_intr_setup_calm func_id v)) as (r0 & s0 & n0 & E0 & Hl0 & V0 & P0).
  assert (r0 = 0) as -> by (cbn in E0; by injection E0 as <- _).
  destruct (enable_all_run ip Hok Hmask Hcalm s0) as (s2 & n2 & cap & s1 & E2 & Hl2 & V2 & Ec & A2); [congruence|].
  destruct (calm_stores _ _ Hap _ s2 Hl2 rearm_calm) as (r3 & s3 & n3 & E3 & Hl3 & V3 & P3).
  assert (r3 = 0) as ->.
  { unfold qdma_hw_error_intr_rearm, mbind, hwm_bind in E3. cbn [negb] in E3. unfold qdma_reg_read in E3.
    destruct (dev_read _ _) as [w d']. by injection E3 as <- _. }
  exists s3, ((n0 ++ n2) ++ n3), s0, cap, s1. unfold error_interrupts, mbind, hwm_bind. rewrite E0. cbn [Z.ltb Z.compare].
  rewrite E2. change (QDMA_SUCCESS <? 0) with false. cbv beta iota. rewrite E3. split; [done|]. split; [congruence|].
  split; [eapply keeps_trans; [by eapply keeps_trans|done]|]. do 2 (split; [done|]). by eapply all_enabled_proper.
Qed.

(** What is logged by the handler: re-arming loses nothing. *)
Lemma logged_later st log d new d' n d'' : keeps (ip_status ip) (ip_plain ip) n d' d'' →
  logged ip st log d new d' → logged ip st log d (new ++ n) d''.
Proof using Hok.
  intros (_ & _ & Hb) [A O C].
  assert (Hst : ∀ idx, 0 <= idx < ip_errs_all ip → stat ip idx ∈ ip_status ip).
  { intros idx Hi. destruct (block_of ip Hok idx Hi) as (p & l & Hpl & Hi1).
    destruct (in_block ip Hok p l idx Hpl Hi1) as (_ & _ & -> & _). by apply (stat_block ip Hok p l). }
  split.
  - intros idx i Hi Hn Hs Hi0 Hleaf Hsee. rewrite Hb by auto. unfold seen in Hsee. rewrite elem_of_app in Hsee.
    destruct (bool_decide ((stat ip idx, i) ∈ n)) eqn:En; [right; apply orb_true_r|]. apply bool_decide_eq_false in En.
    rewrite orb_false_r. apply A; try done. unfold seen. tauto.
  - intros idx Hlog. destruct (O idx Hlog) as (Hi & Hs & i & Hi0 & Hleaf & Hsee). split; [done|]. split; [done|].
    exists i. split; [done|]. split; [done|]. unfold seen in *. rewrite elem_of_app. tauto.
  - intros idx i Hi Hs Hi0. rewrite Hb, orb_bool_decide, elem_of_app by auto. intros [Hbit|]; [left; by apply C|by right].
Qed.

Lemma error_intr_handler_run s : hw_prg_lock s = false → ∃ log s' new cap s1,
  error_intr_handler ip s = Some (log, s') ∧ hw_prg_lock s' = false ∧ ip_dev_cap ip s = Some (cap, s1) ∧
  eu_raised (hw s') = eu_raised (hw s) ++ new ∧
  (log = [] ∧ eu_reg (hw s) (ip_glbl_stat ip) = 0 ∧ (∀ a i, a ∈ ip_status ip → 0 <= i →
     Z.testbit (eu_reg (hw s') a) i = Z.testbit (eu_reg (hw s) a) i || bool_decide ((a, i) ∈ new)) ∨
   logged ip (st_en cap) log (hw s) new (hw s')).
Proof using Hok Hmask Hcalm Hint.
  intros Hl. pose proof (ip_apart ip Hok) as Hap.
  destruct (process_logs ip Hok Hcalm s Hl) as (rv & log & s' & new & cap & s1 & E & Hl' & Hr & Ec & Hcase).
  destruct (calm_stores _ _ Hap _ s' Hl' rearm_calm) as (r2 & s2 & n2 & E2 & Hl2 & V2 & P2).
  pose proof V2 as (Hr2 & _ & Hb2).
  exists log, s2, (new ++ n2), cap, s1. unfold error_intr_handler, mbind, hwm_bind. rewrite E. cbv beta iota. rewrite E2.
  split; [done|]. split; [congruence|]. split; [done|]. split; [by rewrite Hr2, Hr, app_assoc|].
  destruct Hcase as [(-> & -> & Hz & Hb)|(-> & Hlog & _)]; [left|right; by eapply logged_later].
  do 2 (split; [done|]). intros a i Ha Hi. by rewrite Hb2, Hb, bool_decide_app, orb_assoc.
Qed.
End armed.

(** ** [qdma_device_interrupt_setup] *)

Section setup.
Context {dev : Type} `{Device dev} `{HwAccess dev}.

(** Also the rings.  Without rings the mode becomes direct interrupts. *)
Definition qdma_device_interrupt_setup (ip : err_ip dev) (master_pf : bool) (rngsz : Z) (bus : option Z) (v : vec_state) :
    qm (hw_state dev) (Z * option (list intr_coal_conf)) :=
  x ← getx;
  r ← (if bool_decide (xd_qdma_drv_mode x = INDIRECT_INTR_MODE ∨ xd_qdma_drv_mode x = AUTO_MODE) then
         let '(rv, x, coal) := intr_ring_setup rngsz bus x in
         modx (const x);;
         if nz rv then mret (- EINVAL, None)
         else match coal with
              | Some (e :: _) => rv ← qdma_intr_context_setup rngsz e; mret (rv, coal)
              | _ => modx (λ x, x <| xd_qdma_drv_mode := DIRECT_INTR_MODE |>);; mret (0, None)
              end
       else mret (0, None));
  if nz (fst r) then mret r
  else
    x ← getx;
    if negb (bool_decide (xd_qdma_drv_mode x = POLL_MODE)) && negb (bool_decide (xd_qdma_drv_mode x = LEGACY_INTR_MODE)) && master_pf
    then rv ← qhw (rv ← error_interrupts ip (xd_func_id x) v; mret (rv, tt)); mret (rv, snd r)
    else mret r.

(** [intr_ring_setup] falls back to polling when there are no vectors; the
    caller makes it direct interrupts, for which there is no vector. *)
Lemma no_vectors_no_polling ip rngsz bus v s : xd_num_vecs (s_xdev s) = 0 → xd_qdma_drv_mode (s_xdev s) = INDIRECT_INTR_MODE →
  (intr_ring_setup rngsz bus (s_xdev s)).1.2 = s_xdev s <| xd_qdma_drv_mode := POLL_MODE |> ∧
  ∃ s', qdma_device_interrupt_setup ip false rngsz bus v s = Some ((0, None), s') ∧
    xd_qdma_drv_mode (s_xdev s') = DIRECT_INTR_MODE ∧ xd_num_vecs (s_xdev s') = 0.
Proof.
  intros Hn Hm. unfold qdma_device_interrupt_setup. rewrite getx_bind, Hm.
  unfold intr_ring_setup, intr_aggregated. rewrite Hm, Hn. split; [done|]. by eexists.
Qed.
End setup.

(** * The error monitor and its end (xdev.c)

    In polled mode a delayed work looks for errors every second and queues
    itself again; taking the device offline cancels it.  The two run on
    different processors, so they are processes that take steps in any order.
    A delayed work is pending from when it is queued until it starts to run;
    [cancel_delayed_work_sync] removes a pending work, refuses to queue it, and
    waits while it runs. *)

(** The work ([qdma_err_mon]) and the part of [qdma_device_offline] that
    cancels it, by the call they are at. *)
Inductive mon_pc := WIdle | WLock | WTest | WProcess | WSchedule | WUnlock.
Inductive off_pc := OLock | OCancelFlag | OCancelWork | OWait | OUnlock | ODone.
Inductive holder := HMon | HOff.

(** [m_canceling]: [cancel_delayed_work_sync] is active; [m_log]: the calls of
    [qdma_hw_error_process], with where the other process was. *)
Record mon_state := mk_mon {
  err_mon_cancel : bool; err_lock : option holder; m_pending : bool; m_canceling : bool;
  m_work : mon_pc; m_off : off_pc; m_log : list off_pc;
}.
#[export] Instance eta_mon_state : Settable mon_state := λ s,
  mk_mon (err_mon_cancel s) (err_lock s) (m_pending s) (m_canceling s) (m_work s) (m_off s) (m_log s).
#[export] Instance mon_pc_eq_dec : EqDecision mon_pc.
Proof. solve_decision. Defined.
#[export] Instance off_pc_eq_dec : EqDecision off_pc.
Proof. solve_decision. Defined.

Inductive mon_step : mon_state → mon_state → Prop :=
  (* the timer of the work *)
  | MonStart s : m_pending s = true → m_work s = WIdle →
      mon_step s (s <| m_pending := false |> <| m_work := WLock |>)
  | MonLock s : m_work s = WLock → err_lock s = None →
      mon_step s (s <| err_lock := Some HMon |> <| m_work := WTest |>)
  | MonTest s : m_work s = WTest →
      mon_step s (s <| m_work := if err_mon_cancel s then WUnlock else WProcess |>)
  | MonProcess s : m_work s = WProcess →
      mon_step s (s <| m_log := m_log s ++ [m_off s] |> <| m_work := WSchedule |>)
  | MonSchedule s : m_work s = WSchedule →
      mon_step s (s <| m_pending := m_pending s || negb (m_canceling s) |> <| m_work := WUnlock |>)
  | MonUnlock s : m_work s = WUnlock →
      mon_step s (s <| err_lock := None |> <| m_work := WIdle |>)
  (* going offline *)
  | OffLock s : m_off s = OLock → err_lock s = None →
      mon_step s (s <| err_lock := Some HOff |> <| m_off := OCancelFlag |>)
  | OffFlag s : m_off s = OCancelFlag →
      mon_step s (s <| err_mon_cancel := true |> <| m_off := OCancelWork |>)
  | OffCancel s : m_off s = OCancelWork →
      mon_step s (s <| m_canceling := true |> <| m_pending := false |> <| m_off := OWait |>)
  | OffWait s : m_off s = OWait → m_work s = WIdle →
      mon_step s (s <| m_canceling := false |> <| m_off := OUnlock |>)
  | OffUnlock s : m_off s = OUnlock →
      mon_step s (s <| err_lock := None |> <| m_off := ODone |>).

(** What [qdma_device_online] leaves. *)
Definition mon_init : mon_state := mk_mon false None true false WIdle OLock [].

Definition mon_holds (pc : mon_pc) : bool := match pc with WIdle | WLock => false | _ => true end.
Definition off_holds (pc : off_pc) : bool := match pc with OLock | ODone => false | _ => true end.
(** Past the store of the flag. *)
Definition off_flagged (pc : off_pc) : bool := match pc with OLock | OCancelFlag => false | _ => true end.
Definition off_over (pc : off_pc) : bool := match pc with OUnlock | ODone => true | _ => false end.

(** The lock is held by the process that is inside; the work tests the flag
    inside, so it is not past the test once the flag is set; the work is gone
    once the cancel has returned. *)
Definition mon_past (pc : mon_pc) : bool := match pc with WProcess | WSchedule => true | _ => false end.
Definition idle (s : mon_state) : bool := negb (m_pending s) && bool_decide (m_work s = WIdle).

Record mon_inv (s : mon_state) : Prop := {
  inv_lock : err_lock s = if mon_holds (m_work s) then Some HMon else if off_holds (m_off s) then Some HOff else None;
  inv_one : mon_holds (m_work s) && off_holds (m_off s) = false;
  inv_flag : err_mon_cancel s = off_flagged (m_off s);
  inv_past : implb (mon_past (m_work s)) (negb (err_mon_cancel s)) = true;
  inv_gone : implb (off_over (m_off s)) (idle s) = true;
  inv_wait : implb (bool_decide (m_off s = OWait)) (negb (m_pending s)) = true;
  inv_log : Forall (λ pc, pc = OLock) (m_log s);
}.

Lemma mon_inv_init : mon_inv mon_init.
Proof. by split. Qed.

Lemma mon_inv_step s s' : mon_step s s' → mon_inv s → mon_inv s'.
Proof.
  intros Hs [I1 I2 I3 I4 I5 I6 I7]. destruct s as [cancel lock pend canc w o lg]. unfold idle in *.
  cbn [err_mon_cancel err_lock m_pending m_canceling m_work m_off m_log] in *. subst lock cancel.
  inversion Hs; subst; cbn in *; subst; try (destruct o; try done); try (destruct w; try done); destruct pend; try done;
    split; try done; by apply Forall_app; split; [|by constructor].
Qed.
Lemma mon_inv_reach s : rtc mon_step mon_init s → mon_inv s.
Proof.
  intros Hr. pose proof mon_inv_init as Hi. revert Hi. induction Hr as [|x y z Hs _ IH]; [done|]. intros Hi.
  apply IH. by eapply mon_inv_step.
Qed.

Definition stuck (s : mon_state) : Prop := ∀ s', ¬ mon_step s s'.
(** The work waits for the lock, whose holder waits for the work. *)
Definition deadlocked (s : mon_state) : Prop := m_off s = OWait ∧ m_work s = WLock ∧ err_lock s = Some HOff.

Lemma deadlocked_stuck s : mon_inv s → deadlocked s → stuck s.
Proof.
  intros Hi (Ho & Hw & Hl) s' Hs. inversion Hs; subst; congruence.
Qed.

Lemma step_of s : mon_inv s → m_off s ≠ ODone → ¬ deadlocked s → ∃ s', mon_step s s'.
Proof.
  intros [I1 I2 _ _ _ _ _] Hd Hn. unfold deadlocked in Hn.
  destruct (m_work s) eqn:Ew; [|..|eexists; by apply MonTest|eexists; by apply MonProcess|eexists; by apply MonSchedule
    |eexists; by apply MonUnlock].
  - destruct (m_off s) eqn:Eo; [eexists; by apply OffLock|eexists; by apply OffFlag|eexists; by apply OffCancel
      |eexists; by apply OffWait|eexists; by apply OffUnlock|done].
  - destruct (m_off s) eqn:Eo; [eexists; by apply MonLock|eexists; by apply OffFlag|eexists; by apply OffCancel
      | |eexists; by apply OffUnlock|done].
    destruct Hn. by rewrite I1.
Qed.

Lemma stuck_iff s : mon_inv s → (m_off s = ODone → stuck s) → stuck s ↔ m_off s = ODone ∨ deadlocked s.
Proof.
  intros Hi Hdone. split.
  - intros Hst. destruct (decide (m_off s = ODone)); [by left|right].
    assert (Hdec : deadlocked s ∨ ¬ deadlocked s).
    { unfold deadlocked. destruct (decide (m_off s = OWait)); [|tauto]. destruct (decide (m_work s = WLock)); [|tauto].
      left. destruct Hi as [I1 _ _ _ _ _ _]. rewrite I1. by rewrite e, e0. }
    destruct Hdec; [done|]. exfalso. destruct (step_of s) as [s' Hs]; [done..|]. by apply (Hst s').
  - intros [Hd|Hd]; [by apply Hdone|by apply deadlocked_stuck].
Qed.

(** The steps left once going offline has the lock. *)
Definition steps_left (s : mon_state) : nat :=
  match m_off s with
  | OLock => 0 | OCancelFlag => 4 | OCancelWork => 3 | OWait => 2 | OUnlock => 1 | ODone => 0
  end + (if m_pending s then 1 else 0).

Lemma steps_left_dec s s' : mon_inv s → m_off s ≠ OLock → mon_step s s' →
  m_off s' ≠ OLock ∧ (steps_left s' < steps_left s)%nat.
Proof.
  intros [I1 I2 I3 I4 I5 I6 I7] Ho Hs. unfold steps_left, idle in *. destruct s as [cancel lock pend canc w o lg].
  cbn [err_mon_cancel err_lock m_pending m_canceling m_work m_off m_log] in *. subst lock cancel.
  inversion Hs; subst; cbn in *; subst; try (destruct o; try done); try (destruct w; try done);
    try (destruct pend; try done); (split; [done|lia]).
Qed.

(** The steps of the work until it gives the lock back. *)
Definition steps_to_free (s : mon_state) : nat :=
  match m_work s with WTest => 4 | WProcess => 3 | WSchedule => 2 | WUnlock => 1 | WIdle | WLock => 0 end.

Lemma steps_to_free_dec s s' : mon_inv s → m_off s = OLock → err_lock s ≠ None → mon_step s s' →
  (steps_to_free s' < steps_to_free s)%nat.
Proof.
  intros [I1 I2 _ I4 _ _ _] Ho Hl Hs. unfold steps_to_free. destruct s as [cancel lock pend canc w o lg].
  cbn [err_mon_cancel err_lock m_pending m_canceling m_work m_off m_log] in *. subst lock o.
  inversion Hs; subst; cbn in *; subst; try done; try lia. destruct cancel; cbn; lia.
Qed.

(** Runs without an end. *)
Definition endless (run : nat → mon_state) : Prop := ∀ n, mon_step (run n) (run (S n)).

Lemma endless_reach run : endless run → rtc mon_step mon_init (run O) → ∀ n, mon_inv (run n).
Proof.
  intros He Hr n. apply mon_inv_reach. induction n as [|n IH]; [done|]. eapply rtc_r; [exact IH|apply He].
Qed.

(** An endless run never gets beyond the lock. *)
Lemma endless_waits run : endless run → (∀ n, mon_inv (run n)) → ∀ n, m_off (run n) = OLock.
Proof.
  intros He Hi n. destruct (decide (m_off (run n) = OLock)) as [|Ho]; [done|exfalso].
  assert (Hk : ∀ k, m_off (run (n + k)%nat) ≠ OLock ∧ (steps_left (run (n + k)%nat) + k ≤ steps_left (run n))%nat).
  { induction k as [|k [IHo IHk]]; [rewrite Nat.add_0_r; split; [done|lia]|]. rewrite Nat.add_succ_r.
    destruct (steps_left_dec (run (n + k)%nat) (run (S (n + k))%nat)) as [? ?]; [done..|]. split; [done|lia]. }
  destruct (Hk (S (steps_left (run n)))) as [_ ?]. lia.
Qed.

Lemma endless_frees run : endless run → (∀ n, mon_inv (run n)) → ∀ n, ∃ k, (n ≤ k ≤ n + 4)%nat ∧ err_lock (run k) = None.
Proof.
  intros He Hi n. assert (Hm : (steps_to_free (run n) ≤ 4)%nat) by (unfold steps_to_free; case_match; lia).
  revert Hm. generalize 4%nat. intros m. revert n. induction m as [|m IH]; intros n Hm;
    (destruct (err_lock (run n)) eqn:El; [|exists n; split; [lia|done]]);
    pose proof (steps_to_free_dec (run n) (run (S n)) (Hi n) (endless_waits run He Hi n) ltac:(by rewrite El) (He n)) as Hd;
    [lia|]. destruct (IH (S n)) as (k & Hk & Hf); [lia|]. exists k. split; [lia|done].
Qed.

(** C37. In every order of the steps the calls that look for errors are made
    before going offline takes the lock; when going offline has finished, the
    work neither runs nor is queued and no step is left.  A run that cannot go
    on has finished, or the work waits for the lock while the holder of the
    lock waits for the work.  Once going offline has the lock at most five steps
    are left.  A run that goes on for ever has going offline waiting for the
    lock all the time although the lock is free again and again, within any five
    states: with a lock that is granted to a waiting process at last every
    run therefore ends, finished or in that deadlock. *)
Theorem monitor_stops s : rtc mon_step mon_init s →
  Forall (λ pc, pc = OLock) (m_log s) ∧
  (m_off s = ODone → m_work s = WIdle ∧ m_pending s = false ∧ err_lock s = None ∧ stuck s) ∧
  (stuck s ↔ m_off s = ODone ∨ deadlocked s) ∧
  (m_off s ≠ OLock → ∀ n s', nsteps mon_step n s s' → (n ≤ 5)%nat) ∧
  (∀ run, run O = s → endless run →
     ∀ n, m_off (run n) = OLock ∧ ∃ k, (n ≤ k ≤ n + 4)%nat ∧ err_lock (run k) = None).
Proof.
  intros Hr. pose proof (mon_inv_reach _ Hr) as Hi. split; [by destruct Hi|]. assert (Hdone : m_off s = ODone →
    m_work s = WIdle ∧ m_pending s = false ∧ err_lock s = None ∧ stuck s).
  { destruct Hi as [I1 _ _ _ I5 _ _]. intros Hd. rewrite Hd in *. cbn in I5. unfold idle in I5.
    apply andb_true_iff in I5 as [Hp%negb_true_iff Hw%bool_decide_eq_true]. rewrite Hw in *. cbn in I1.
    do 3 (split; [done|]). intros s' Hs. inversion Hs; subst; congruence. }
  split; [done|]. split; [apply stuck_iff; [done|]; intros ?; by apply Hdone|]. split.
  - intros Ho n s' Hn. assert (steps_left s ≤ 5)%nat by (unfold steps_left; repeat case_match; lia).
    assert (n + steps_left s' ≤ steps_left s)%nat; [|lia]. clear Hr Hdone.
    induction Hn as [x|n x y z Hs _ IH]; [lia|]. destruct (steps_left_dec _ _ Hi Ho Hs).
    pose proof (IH (mon_inv_step _ _ Hs Hi)). intuition lia.
  - intros run <- He n. pose proof (endless_reach run He Hr) as Hinv.
    split; [by apply endless_waits|by apply endless_frees].
Qed.


Definition run_normal : mon_state := mk_mon true None false false WIdle ODone [OLock].
Definition run_deadlock : mon_state := mk_mon true (Some HOff) false true WLock OWait [].

(** One look for errors, then offline. *)
Lemma run_normal_reached : rtc mon_step mon_init run_normal.
Proof.
  eapply rtc_l; [by apply MonStart|]. eapply rtc_l; [by apply MonLock|]. eapply rtc_l; [by apply MonTest|].
  eapply rtc_l; [by apply MonProcess|]. eapply rtc_l; [by apply MonSchedule|]. eapply rtc_l; [by apply MonUnlock|].
  eapply rtc_l; [by apply OffLock|]. eapply rtc_l; [by apply OffFlag|]. eapply rtc_l; [by apply OffCancel|].
  eapply rtc_l; [by apply OffWait|]. eapply rtc_l; [by apply OffUnlock|]. done.
Qed.
Lemma monitor_stops_witness : rtc mon_step mon_init run_normal ∧ Forall (λ pc, pc = OLock) (m_log run_normal).
Proof. split; [exact run_normal_reached|]. exact (proj1 (monitor_stops run_normal run_normal_reached)). Defined.

(** The timer fires between the lock and the cancel. *)
Lemma offline_deadlocks : rtc mon_step mon_init run_deadlock ∧ deadlocked run_deadlock ∧ stuck run_deadlock.
Proof.
  assert (Hr : rtc mon_step mon_init run_deadlock).
  { eapply rtc_l; [by apply OffLock|]. eapply rtc_l; [by apply MonStart|]. eapply rtc_l; [by apply OffFlag|].
    eapply rtc_l; [by apply OffCancel|]. done. }
  split; [done|]. split; [done|]. apply deadlocked_stuck; [by apply mon_inv_reach|done].
Qed.
