(* ===== verification/ErrIps.v ===== *)
(** * Hardware errors of the four access layers *)

From Stdlib Require Import String.
From S2P Require Import Prelude Platform Bits RegIO IndCtxt SoftReg SoftCtxt SoftAccess RegList QueueTypes ErrProc SoftErr EqdmaErr Cpm5Err Cpm4Err ErrThms ErrIntr.

Section layers.
Context {dev : Type} `{Device dev}.
Implicit Types ip : err_ip dev.

Definition err_layers : list (err_ip dev) := [soft_err_ip; eqdma_err_ip; cpm5_err_ip; cpm4_err_ip].

Lemma soft_check : ip_check soft_err_ip = true ∧ mask_check soft_err_ip = true.
Proof. split; vm_compute; reflexivity. Qed.
Lemma eqdma_check : ip_check eqdma_err_ip = true ∧ mask_check eqdma_err_ip = true.
Proof. split; vm_compute; reflexivity. Qed.
Lemma cpm5_check : ip_check cpm5_err_ip = true ∧ mask_check cpm5_err_ip = true.
Proof. split; vm_compute; reflexivity. Qed.
Lemma cpm4_check : ip_check cpm4_err_ip = true ∧ mask_check cpm4_err_ip = true.
Proof. split; vm_compute; reflexivity. Qed.

Lemma no_cmd_of ip : ip_check ip = true → QDMA_OFFSET_IND_CTXT_CMD ∉ ip_status ip ++ ip_plain ip.
Proof.
  unfold ip_check. rewrite !andb_true_iff, negb_true_iff. intros [_ Hn] Hin. unfold mem_Z in Hn.
  rewrite <- not_true_iff_false, existsb_exists in Hn. apply Hn. exists QDMA_OFFSET_IND_CTXT_CMD.
  by rewrite <- list_elem_of_In, Z.eqb_refl.
Qed.

(** *** What the handlers do to the registers *)

Section calm.
Context (status plain : list Z) `{!ErrorUnit dev status plain}.
Hypothesis no_cmd : QDMA_OFFSET_IND_CTXT_CMD ∉ status ++ plain.
Notation quiet m := (calm status plain false false m).

Lemma get_dev_cap_calm : quiet get_dev_cap.
Proof using. unfold get_dev_cap, qdma_get_device_attributes. calm_tac. Qed.
Lemma cpm4_get_dev_cap_calm : quiet qdma_cpm4_get_dev_cap.
Proof using. unfold qdma_cpm4_get_dev_cap, qdma_cpm4_get_device_attributes. calm_tac. Qed.
Lemma eqdma_get_dev_cap_calm : quiet eqdma_get_dev_cap.
Proof using. unfold eqdma_get_dev_cap, eqdma_get_device_attributes. calm_tac. Qed.
Lemma cpm5_get_dev_cap_calm : quiet eqdma_cpm5_get_dev_cap.
Proof using. unfold eqdma_cpm5_get_dev_cap, eqdma_cpm5_get_device_attributes. calm_tac. Qed.

Lemma soft_dump_regs_calm l : quiet (soft_dump_regs l).
Proof using. apply calm_dump_regs. intros a. apply calm_dump. Qed.
Lemma cpm4_dump_regs_calm l : quiet (cpm4_dump_regs l).
Proof using. apply calm_dump_regs. intros a. apply calm_dump. Qed.
Lemma eqdma_dump_regs_calm l : quiet (eqdma_dump_regs l).
Proof using.
  apply calm_dump_regs. intros a. eapply calm_bind; [apply eqdma_get_dev_cap_calm|]. intros _. apply calm_dump.
Qed.
Lemma cpm5_dump_regs_calm l : quiet (cpm5_dump_regs l).
Proof using.
  apply calm_dump_regs. intros a. eapply calm_bind; [apply cpm5_get_dev_cap_calm|]. intros _. apply calm_dump.
Qed.
Lemma eqdma_dump_ctxt_calm r en_st c2h : quiet (eqdma_hw_err_dump_ctxt_info r en_st c2h).
Proof using no_cmd. unfold eqdma_hw_err_dump_ctxt_info, eqdma_indirect_reg_read. calm_tac; exact no_cmd. Qed.
Lemma cpm5_dump_ctxt_calm r en_st c2h : quiet (eqdma_cpm5_hw_err_dump_ctxt_info r en_st c2h).
Proof using no_cmd. unfold eqdma_cpm5_hw_err_dump_ctxt_info, eqdma_cpm5_indirect_reg_read. calm_tac; exact no_cmd. Qed.
End calm.

Ltac handler := cbn [hw_err_process]; first
  [ apply soft_dump_regs_calm | apply cpm4_dump_regs_calm | apply eqdma_dump_regs_calm | apply cpm5_dump_regs_calm
  | eapply calm_bind; [first [apply eqdma_dump_regs_calm|apply cpm5_dump_regs_calm]|intros _;
      first [apply eqdma_dump_ctxt_calm|apply cpm5_dump_ctxt_calm]; assumption] ].
Ltac handlers := repeat (apply Forall_cons; split; [handler|]); constructor.

Lemma soft_calm `{!ErrorUnit dev (ip_status soft_err_ip) (ip_plain soft_err_ip)} : ip_calm soft_err_ip.
Proof. split; [apply get_dev_cap_calm|handlers]. Qed.
Lemma cpm4_calm `{!ErrorUnit dev (ip_status cpm4_err_ip) (ip_plain cpm4_err_ip)} : ip_calm cpm4_err_ip.
Proof. split; [apply cpm4_get_dev_cap_calm|handlers]. Qed.
Lemma eqdma_calm `{!ErrorUnit dev (ip_status eqdma_err_ip) (ip_plain eqdma_err_ip)} : ip_calm eqdma_err_ip.
Proof.
  pose proof (no_cmd_of eqdma_err_ip (proj1 eqdma_check)). split; [apply eqdma_get_dev_cap_calm|handlers].
Qed.
Lemma cpm5_calm `{!ErrorUnit dev (ip_status cpm5_err_ip) (ip_plain cpm5_err_ip)} : ip_calm cpm5_err_ip.
Proof.
  pose proof (no_cmd_of cpm5_err_ip (proj1 cpm5_check)). split; [apply cpm5_get_dev_cap_calm|handlers].
Qed.

(** *** Any of them *)

Lemma layer_ok ip : ip ∈ err_layers → ip_check ip = true ∧ mask_check ip = true.
Proof.
  unfold err_layers. rewrite !elem_of_cons.
  intros [->|[->|[->|[->|?%not_elem_of_nil]]]]; [apply soft_check|apply eqdma_check|apply cpm5_check|apply cpm4_check|done].
Qed.
Lemma layer_calm ip `{!ErrorUnit dev (ip_status ip) (ip_plain ip)} : ip ∈ err_layers → ip_calm ip.
Proof.
  unfold err_layers. rewrite !elem_of_cons. intros [E|[E|[E|[E|?%not_elem_of_nil]]]]; [..|done]; revert ErrorUnit0; rewrite E; intros ?;
    [apply soft_calm|apply eqdma_calm|apply cpm5_calm|apply cpm4_calm].
Qed.
Lemma layer_int ip : ip ∈ err_layers → QDMA_OFFSET_GLBL_ERR_INT ∉ ip_status ip ++ ip_plain ip.
Proof.
  unfold err_layers. rewrite !elem_of_cons.
  intros [->|[->|[->|[->|?%not_elem_of_nil]]]]; [..|done];
    (intros Hin; apply list_elem_of_In in Hin; revert Hin; vm_compute; intros Hin;
     repeat (destruct Hin as [Hin|Hin]; [discriminate Hin|]); exact Hin).
Qed.

(** C9. Processing returns in each of the four access layers, whatever errors
    are raised while it works.  If no error was pending nothing is logged and
    nothing is cleared.  Otherwise the account is that of the layer's own
    table, in which an error is an entry with a mask of status bits: an entry,
    of a block that is looked at, with a bit that was set or is raised
    meanwhile is logged, or the bit is still in the status register; an entry
    is logged only if a bit of its mask was raised; and what the status
    registers hold afterwards was raised meanwhile.  A status bit that is in
    the mask of no entry is cleared without being logged, and entries that
    share a bit are logged together: both happen where the tables give an
    entry the mask of another ([eqdma_same_bit], [cpm4_same_bit]). *)
Theorem no_error_lost (ip : err_ip dev) `{!ErrorUnit dev (ip_status ip) (ip_plain ip)} (s : hw_state dev) :
  ip ∈ err_layers → hw_prg_lock s = false → ∃ rv log s' new cap s1,
  hw_error_process ip true s = Some ((rv, log), s') ∧ hw_prg_lock s' = false ∧
  eu_raised (hw s') = eu_raised (hw s) ++ new ∧ ip_dev_cap ip s = Some (cap, s1) ∧
  (rv = QDMA_HW_ERR_NOT_DETECTED ∧ log = [] ∧ eu_reg (hw s) (ip_glbl_stat ip) = 0 ∧
     (∀ a i, a ∈ ip_status ip → 0 <= i →
        Z.testbit (eu_reg (hw s') a) i = Z.testbit (eu_reg (hw s) a) i || bool_decide ((a, i) ∈ new)) ∨
   rv = QDMA_SUCCESS ∧ logged ip (st_en cap) log (hw s) new (hw s') ∧
     ∀ i, 0 <= i → Z.testbit (eu_reg (hw s') (ip_glbl_stat ip)) i = true → (ip_glbl_stat ip, i) ∈ new).
Proof. intros Hin. apply process_logs; [by apply layer_ok|by apply layer_calm]. Qed.

(** C39. Setting up the error interrupt succeeds in each of the four access
    layers: afterwards the mask register of every block that is looked at is
    the mask of its last entry, the masks of the others are as before, the
    global mask has gained the bits of these blocks, and the status registers
    have lost nothing. *)
Theorem error_interrupts_set_masks (ip : err_ip dev) `{!ErrorUnit dev (ip_status ip) (ip_plain ip)} (s : hw_state dev) func_id v :
  ip ∈ err_layers → hw_prg_lock s = false → ∃ s' new s0 cap s1,
  error_interrupts ip func_id v s = Some (0, s') ∧ hw_prg_lock s' = false ∧
  keeps (ip_status ip) (ip_plain ip) new (hw s) (hw s') ∧
  qdma_err_intr_setup func_id v s = Some (0, s0) ∧ ip_dev_cap ip s0 = Some (cap, s1) ∧
  all_enabled ip (st_en cap) (hw s) (hw s').
Proof.
  intros Hin. destruct (layer_ok ip Hin). apply error_interrupts_run; try done; [by apply layer_calm|by apply layer_int].
Qed.

(** Enabling one error. *)
Lemma one_error_enabled (ip : err_ip dev) `{!ErrorUnit dev (ip_status ip) (ip_plain ip)} idx (s : hw_state dev) :
  ip ∈ err_layers → 0 <= idx < ip_errs_all ip → hw_prg_lock s = false → ∃ s' new cap s1,
  hw_error_enable ip true idx s = Some (QDMA_SUCCESS, s') ∧ hw_prg_lock s' = false ∧
  keeps (ip_status ip) (ip_plain ip) new (hw s) (hw s') ∧ ip_dev_cap ip s = Some (cap, s1) ∧
  one_enabled ip (st_en cap) idx (hw s) (hw s').
Proof. intros Hin. destruct (layer_ok ip Hin). apply enable_err_run; try done. by apply layer_calm. Qed.

Lemma handler_logs (ip : err_ip dev) `{!ErrorUnit dev (ip_status ip) (ip_plain ip)} (s : hw_state dev) :
  ip ∈ err_layers → hw_prg_lock s = false → ∃ log s' new cap s1,
  error_intr_handler ip s = Some (log, s') ∧ hw_prg_lock s' = false ∧ ip_dev_cap ip s = Some (cap, s1) ∧
  eu_raised (hw s') = eu_raised (hw s) ++ new ∧
  (log = [] ∧ eu_reg (hw s) (ip_glbl_stat ip) = 0 ∧ (∀ a i, a ∈ ip_status ip → 0 <= i →
     Z.testbit (eu_reg (hw s') a) i = Z.testbit (eu_reg (hw s) a) i || bool_decide ((a, i) ∈ new)) ∨
   logged ip (st_en cap) log (hw s) new (hw s')).
Proof. intros Hin. destruct (layer_ok ip Hin). apply error_intr_handler_run; try done; [by apply layer_calm|by apply layer_int]. Qed.
End layers.

(** * Hardware errors: a device and examples

    A simulated device that raises errors at the accesses of the driver as a
    schedule says, for the witnesses; and what the tables of the access layers
    do not say as they mean to. *)

(** ** The device *)

(** The status registers of the soft IP. *)
Definition err_status : list Z := [584; 596; 612; 2800; 2808; 3584; 244; 252].
Definition err_plain : list Z := [588; 600; 616; 2804; 2812; 3588; 240; 248].

Record err_sim := mk_es { es_regs : gmap Z Z; es_raised : list (Z * Z); es_sched : list (list (Z * Z)) }.
Definition es_reg (d : err_sim) (a : Z) : Z := u32 (default 0 (es_regs d !! a)).

Definition es_ok (e : Z * Z) : bool := mem_Z (fst e) err_status && (0 <=? snd e) && (snd e <? 32).
(** The value of a register when errors are raised. *)
Definition es_bits (a : Z) (new : list (Z * Z)) : Z :=
  foldr Z.lor 0 ((λ e, if (fst e =? a) && es_ok e then Z.shiftl 1 (snd e) else 0) <$> new).
Definition es_raise (new : list (Z * Z)) (d : err_sim) : err_sim :=
  let new := List.filter es_ok new in
  mk_es (foldr (λ a m, <[a := Z.lor (es_reg d a) (es_bits a new)]> m) (es_regs d) err_status) (es_raised d ++ new) (es_sched d).
Definition es_step (d : err_sim) : err_sim :=
  match es_sched d with
  | [] => d
  | new :: sched => es_raise new (mk_es (es_regs d) (es_raised d) sched)
  end.
Definition es_write (a v : Z) (d : err_sim) : err_sim :=
  mk_es (<[a := if mem_Z a err_status then Z.ldiff (es_reg d a) v else v]> (es_regs d)) (es_raised d) (es_sched d).

#[export] Instance err_sim_device : Device err_sim := {|
  dev_read a d := (es_reg d a, es_step d);
  dev_write a v d := es_step (es_write a v d);
  dev_delay _ d := es_step d;
|}.

Lemma mem_Z_elem x l : mem_Z x l = bool_decide (x ∈ l).
Proof.
  apply eq_iff_eq_true. unfold mem_Z. rewrite existsb_exists, bool_decide_eq_true. setoid_rewrite <- list_elem_of_In.
  split; [intros (y & Hy & E%Z.eqb_eq); by subst|intros Hx; exists x; by rewrite Z.eqb_refl].
Qed.

Lemma es_bits_spec a new i : 0 <= i → Z.testbit (es_bits a new) i = bool_decide ((a, i) ∈ List.filter es_ok new).
Proof.
  intros Hi. unfold es_bits. induction new as [|[b j] new IH]; cbn [fmap list_fmap foldr List.filter].
  { by rewrite Z.testbit_0_l, bool_decide_eq_false_2 by apply not_elem_of_nil. }
  rewrite Z.lor_spec, IH. cbn [fst snd]. destruct (es_ok (b, j)) eqn:Hok; rewrite ?andb_true_r, ?andb_false_r.
  - assert (Hj : 0 <= j) by (unfold es_ok in Hok; cbn in Hok; lia).
    rewrite (bool_decide_ext ((a, i) ∈ (b, j) :: List.filter es_ok new) ((b =? a = true ∧ j = i) ∨ (a, i) ∈ List.filter es_ok new)).
    + rewrite bool_decide_or. f_equal. destruct (Z.eqb_spec b a) as [->|Hn].
      * rewrite Z.shiftl_spec by done. destruct (decide (j = i)) as [->|Hne].
        -- by rewrite Z.sub_diag, bool_decide_eq_true_2.
        -- rewrite bool_decide_eq_false_2 by tauto. destruct (Z.lt_ge_cases (i - j) 0); [by rewrite Z.testbit_neg_r|].
           apply Z.bits_above_log2; [lia|]. cbn. lia.
      * rewrite Z.testbit_0_l, bool_decide_eq_false_2; [done|]. intros [? _]. done.
    + rewrite elem_of_cons, Z.eqb_eq. naive_solver.
  - by rewrite Z.testbit_0_l.
Qed.
Lemma foldr_insert_lookup (f : Z → Z) (m : gmap Z Z) l b :
  foldr (λ a m, <[a := f a]> m) m l !! b = if bool_decide (b ∈ l) then Some (f b) else m !! b.
Proof.
  induction l as [|a l IH]; cbn [foldr]; [by rewrite bool_decide_eq_false_2 by apply not_elem_of_nil|].
  destruct (decide (a = b)) as [->|Hn].
  - by rewrite lookup_insert_eq, bool_decide_eq_true_2 by apply list_elem_of_here.
  - rewrite lookup_insert_ne, IH by done. rewrite (bool_decide_ext (b ∈ l) (b ∈ a :: l)); [done|]. rewrite elem_of_cons. naive_solver.
Qed.

Lemma es_reg_width d a : 0 <= es_reg d a < 2 ^ 32.
Proof. apply Z.mod_pos_bound. lia. Qed.
Lemma es_bits_width a new : 0 <= es_bits a new < 2 ^ 32.
Proof.
  unfold es_bits. induction new as [|[b j] new IH]; cbn [fmap list_fmap foldr]; [done|]. apply lor_width; [|done].
  cbn [fst snd]. destruct ((b =? a) && es_ok (b, j)) eqn:E; [|done]. rewrite andb_true_iff in E. destruct E as [_ E].
  unfold es_ok in E. cbn in E. rewrite Z.shiftl_1_l. split; [apply Z.pow_nonneg; lia|apply Z.pow_lt_mono_r; lia].
Qed.
Lemma es_filter_idem new : List.filter es_ok (List.filter es_ok new) = List.filter es_ok new.
Proof.
  induction new as [|e new IH]; cbn; [done|]. destruct (es_ok e) eqn:E; [cbn; by rewrite E, IH|done].
Qed.
Lemma es_filter_status new : Forall (λ e, e.1 ∈ err_status) (List.filter es_ok new).
Proof.
  apply Forall_forall. intros e He%list_elem_of_In. apply filter_In in He as [_ He]. unfold es_ok in He.
  rewrite !andb_true_iff, mem_Z_elem, bool_decide_eq_true in He. tauto.
Qed.

Lemma es_raise_spec new d : es_raised (es_raise new d) = es_raised d ++ List.filter es_ok new ∧
  ∀ a i, 0 <= i → Z.testbit (es_reg (es_raise new d) a) i = Z.testbit (es_reg d a) i || bool_decide ((a, i) ∈ List.filter es_ok new).
Proof.
  split; [done|]. intros a i Hi. unfold es_raise, es_reg at 1. cbn [es_regs]. rewrite foldr_insert_lookup.
  destruct (bool_decide (a ∈ err_status)) eqn:Ha.
  - cbn [default]. unfold id. rewrite u32_small by (apply lor_width; [apply es_reg_width|apply es_bits_width]).
    by rewrite Z.lor_spec, es_bits_spec, es_filter_idem.
  - fold (es_reg d a). rewrite (bool_decide_eq_false_2 ((a, i) ∈ _)), orb_false_r; [done|].
    intros Hin. pose proof (es_filter_status new) as Hf. rewrite Forall_forall in Hf. apply Hf in Hin. cbn in Hin.
    by rewrite bool_decide_eq_true_2 in Ha.
Qed.
Lemma es_step_spec d : ∃ new, es_raised (es_step d) = es_raised d ++ new ∧ Forall (λ e, e.1 ∈ err_status) new ∧
  ∀ a i, 0 <= i → Z.testbit (es_reg (es_step d) a) i = Z.testbit (es_reg d a) i || bool_decide ((a, i) ∈ new).
Proof.
  unfold es_step. destruct (es_sched d) as [|new sched].
  - exists []. rewrite app_nil_r. do 2 (split; [done|]). intros a i _.
    by rewrite bool_decide_eq_false_2, orb_false_r by apply not_elem_of_nil.
  - exists (List.filter es_ok new). destruct (es_raise_spec new (mk_es (es_regs d) (es_raised d) sched)) as [Hr Hb].
    split; [done|]. split; [apply es_filter_status|]. intros a i Hi. by rewrite Hb.
Qed.

Lemma es_write_spec a v d b : 0 <= v < 2 ^ 32 → es_reg (es_write a v d) b =
  if b =? a then if bool_decide (a ∈ err_status) then Z.ldiff (es_reg d a) v else v else es_reg d b.
Proof.
  intros Hv. unfold es_write, es_reg at 1. cbn [es_regs]. destruct (Z.eqb_spec b a) as [->|Hn].
  - rewrite lookup_insert_eq, mem_Z_elem. cbn [default]. unfold id. destruct (bool_decide (a ∈ err_status)); [|by apply u32_small].
    unfold es_reg. rewrite !(wrap_land_ones 32) by lia. apply Z.bits_inj'. intros i _.
    rewrite Z.land_spec, Z.ldiff_spec, Z.land_spec. by destruct (Z.testbit (Z.ones 32) i); rewrite ?andb_true_r, ?andb_false_r.
  - by rewrite lookup_insert_ne by done.
Qed.

(** The device keeps the promise. *)
#[export] Instance err_sim_unit : ErrorUnit err_sim err_status err_plain.
Proof.
  refine {| eu_reg := es_reg; eu_raised := es_raised; eu_width := es_reg_width |}.
  - intros a d. split; [done|]. destruct (es_step_spec d) as (new & Hr & Hs & Hb). exists new.
    split; [done|]. split; [done|]. intros b i _ Hi. by apply Hb.
  - intros a v d Hv. destruct (es_step_spec (es_write a v d)) as (new & Hr & Hs & Hb). exists new.
    split; [done|]. split; [done|]. intros b i _ Hi. rewrite <- es_write_spec by done. by apply Hb.
  - intros us d. destruct (es_step_spec d) as (new & Hr & Hs & Hb). exists new.
    split; [done|]. split; [done|]. intros b i _ Hi. by apply Hb.
Defined.
Definition soft_unit : ErrorUnit err_sim (ip_status soft_err_ip) (ip_plain soft_err_ip) := err_sim_unit.

(** ** The claims on the device *)

(** A poisoned descriptor is pending; while the driver works a request that is
    not supported is answered to the descriptor engine. *)
Definition es0 : err_sim := mk_es {[584 := 4; 596 := 1]} [] [[]; []; []; []; []; []; [(584, 2); (596, 1)]].
Definition st0 : hw_state err_sim := mk_hw es0 false.

Definition final {A} (r : option (A * hw_state err_sim)) (regs : list Z) : option (A * list Z) :=
  match r with Some (a, s) => Some (a, es_reg (hw s) <$> regs) | None => None end.

(** The first error is logged and cleared; the second waits with its bit. *)
Example pending_logged : final (qdma_hw_error_process true st0) [584; 596] = Some ((QDMA_SUCCESS, [QDMA_DSC_ERR_POISON : Z]), [0; 2]).
Proof. vm_compute. reflexivity. Qed.

Lemma soft_layer : (soft_err_ip : err_ip err_sim) ∈ err_layers.
Proof. apply elem_of_cons. by left. Qed.
Lemma eqdma_layer : (eqdma_err_ip : err_ip err_sim) ∈ err_layers.
Proof. apply elem_of_cons. right. apply elem_of_cons. by left. Qed.

Lemma no_error_lost_witness : ∃ rv log s' new, qdma_hw_error_process true st0 = Some ((rv, log), s') ∧
  hw_prg_lock s' = false ∧ es_raised (hw s') = es_raised (hw st0) ++ new.
Proof.
  destruct (@no_error_lost err_sim _ soft_err_ip soft_unit st0 soft_layer eq_refl)
    as (rv & log & s' & new & cap & s1 & E & Hl & Hr & _).
  exists rv, log, s', new. exact (conj E (conj Hl Hr)).
Defined.

(** Vectors for the mailbox, two user interrupts, errors and data. *)
Definition vc0 : vec_conf := mk_vec_conf DIRECT_INTR_MODE 8 8 2 3 true true.
Definition vs0 : vec_state := mk_vecs 0 0 None [] false false.
Definition vs1 : vec_state := snd (intr_setup true true 0 (const 0) vc0 vs0).
Example vectors_shared : fst <$> default [] (vs_map vs1) =
  [INTR_TYPE_MBOX; INTR_TYPE_USER; INTR_TYPE_USER; INTR_TYPE_ERROR; INTR_TYPE_DATA; INTR_TYPE_DATA; INTR_TYPE_DATA; INTR_TYPE_DATA].
Proof. reflexivity. Qed.
Example vectors_given_back : vs_irqs (intr_teardown vs1) = [] ∧
  vs_irqs (snd (intr_setup true true 0 (λ i, if i =? 5 then - EINVAL else 0) vc0 vs0)) = [].
Proof. vm_compute. done. Qed.

(** The interrupt of function 0 goes to vector 3 and is armed; the descriptor
    errors are unmasked. *)
Example interrupt_armed : final (error_interrupts soft_err_ip 0 vs1 st0) [0xB04; 600; 588] =
  Some (0, [0x1003000; QDMA_GLBL_DSC_ERR_ALL_MASK; 0xF]).
Proof. vm_compute. reflexivity. Qed.

Lemma error_interrupts_set_masks_witness : ∃ s', error_interrupts soft_err_ip 0 vs1 st0 = Some (0, s') ∧ hw_prg_lock s' = false.
Proof.
  destruct (@error_interrupts_set_masks err_sim _ soft_err_ip soft_unit st0 0 vs1 soft_layer eq_refl)
    as (s' & new & s0 & cap & s1 & E & Hl & _).
  exists s'. exact (conj E Hl).
Defined.

Lemma vectors_all_or_nothing_witness : vectors_assigned vc0 vs1 ∧
  default [] (vs_map vs1) !! 3%nat = Some (INTR_TYPE_ERROR, 3).
Proof.
  assert (Hc : vec_conf_ok vc0) by (repeat split; discriminate).
  assert (Hn : no_vectors vs0) by (by split).
  assert (E : intr_setup true true 0 (const 0) vc0 vs0 = (0, vs1)) by (vm_compute; reflexivity).
  assert (Ho : ¬ (vc_drv_mode vc0 = POLL_MODE ∨ vc_drv_mode vc0 = LEGACY_INTR_MODE ∨ vc_msix_count vc0 = 0))
    by (intros [H|[H|H]]; discriminate H).
  destruct (vectors_all_or_nothing true true 0 (const 0) vc0 vs0 0 vs1 Hc Hn E) as (_ & Hok & _).
  destruct (Hok eq_refl Ho) as (Ha & _ & Hv). split; [exact Ha|].
  apply (proj2 (Hv eq_refl)). vm_compute. discriminate.
Defined.

(** ** What the tables do not say *)

Section tables.
Context {dev : Type} `{Device dev}.
Notation leaf ip idx := (leaf_err_mask (err_info ip idx)).

(** Named errors with a bit that enabling all errors leaves masked. *)
Definition left_masked (ip : err_ip dev) : list string :=
  concat ((λ b, (λ idx, err_name (err_info ip idx)) <$>
    List.filter (λ idx, nz (Z.ldiff (leaf ip idx) (leaf ip (snd b)))) (seqZ (fst b) (snd b - fst b))) <$> block_list ip).
(** Pairs of errors of a block with the same bit. *)
Definition same_bit (ip : err_ip dev) : list (string * string) :=
  concat ((λ b, concat ((λ i, (λ j, (err_name (err_info ip i), err_name (err_info ip j))) <$>
    List.filter (λ j, (i <? j) && nz (Z.land (leaf ip i) (leaf ip j))) (seqZ (fst b) (snd b - fst b))) <$>
    seqZ (fst b) (snd b - fst b))) <$> block_list ip).
(** Named errors of which enabling the error unmasks a part. *)
Definition half_enabled (ip : err_ip dev) : list string :=
  concat ((λ b, (λ idx, err_name (err_info ip idx)) <$>
    List.filter (λ idx, negb (leaf_set ip idx =? leaf ip idx)) (seqZ (fst b) (snd b - fst b))) <$> block_list ip).
End tables.

Notation layer := (err_ip err_sim).

(** Errors that have an entry and stay masked when all are enabled. *)
Example eqdma_left_masked : left_masked (eqdma_err_ip : layer) =
  ["Port ID Error"; "Timeout on request to dma internal csr register"; "single-bit ecc error on c2h packet header";
   "Port ID error"; "RAM double bit fatal error"]%string ∧
  left_masked (cpm5_err_ip : layer) = left_masked (eqdma_err_ip : layer).
Proof. vm_compute. done. Qed.
Example cpm4_left_masked : left_masked (cpm4_err_ip : layer) =
  ["VF attempted to access Global register space or Function map"; "Timeout on request to dma internal csr register";
   "RAM double bit fatal error"; "RAM double bit fatal error"]%string.
Proof. vm_compute. reflexivity. Qed.
Example soft_none_masked : left_masked (soft_err_ip : layer) = [].
Proof. vm_compute. reflexivity. Qed.

(** Two entries with one bit: when it is set both errors are logged. *)
Example eqdma_same_bit : same_bit (eqdma_err_ip : layer) =
  [("Pfch Ctxt CAM RAM 0 double bit ECC error.", "Pfch Ctxt CAM RAM double bit ECC error.")]%string.
Proof. vm_compute. reflexivity. Qed.
Example cpm4_same_bit : same_bit (cpm4_err_ip : layer) =
  [("Port id in packet and pfetch ctxt mismatch error", "Port id in packet and bypass in mismatch error")]%string.
Proof. vm_compute. reflexivity. Qed.

(** [FIELD_SET(mask, 1)] of a mask of several bits is its lowest bit: of these
    errors, and of all the groups, enabling the index enables a part. *)
Example eqdma_half_enabled : half_enabled (eqdma_err_ip : layer) =
  ["RAM double bit fatal error"; "Timer fifo RAM single bit ECC error"; "Timer fifo RAM double bit ECC error"]%string.
Proof. vm_compute. reflexivity. Qed.
Example group_enables_one_bit :
  final (qdma_hw_error_enable true QDMA_DSC_ERR_ALL st0) [600] = Some (QDMA_SUCCESS, [1]) ∧
  QDMA_GLBL_DSC_ERR_ALL_MASK = 0x1F9023F.
Proof. vm_compute. done. Qed.

(** The group of the descriptor errors of CPM4 has the mask of another group. *)
Example cpm4_descriptor_group : leaf_err_mask (err_info (cpm4_err_ip : layer) QDMA_CPM4_DSC_ERR_ALL) = 0xFFFFFFFF ∧
  leaf_err_mask (err_info (cpm4_err_ip : layer) QDMA_CPM4_DSC_ERR_ALL) = QDMA_CPM4_DBE_ERR_ALL_MASK.
Proof. vm_compute. done. Qed.
