(* ===== verification/EqdmaAccess.v ===== *)
(** * Access layer of the EQDMA soft IP (eqdma_soft_access.c)

    What [qdma_hw_access_init] installs for this IP: the contexts, packed into
    more words than the soft IP's, the register list of virtual functions, the
    default configuration; and that what is packed is what is unpacked.  Errors
    and attributes are in [EqdmaErr]. *)

From S2P Require Import Prelude Platform Bits RegIO IndCtxt SoftReg SoftCtxt SoftCtxtThms SoftAccess RegList ErrProc EqdmaErr CtxtTypes.

(** ** Registers and fields *)

Definition EQDMA_FMAP_CTXT_W0_QID_MASK : Z := GENMASK 10 0.
Definition EQDMA_FMAP_CTXT_W1_QID_MAX_MASK : Z := GENMASK 11 0.
Definition EQDMA_FMAP_NUM_WORDS : Z := 2.
Definition EQDMA_SW_CTXT_PASID_GET_L_MASK : Z := GENMASK 11 0.
Definition EQDMA_SW_CTXT_PASID_GET_H_MASK : Z := GENMASK 21 12.
Definition EQDMA_SW_CTXT_VIRTIO_DSC_BASE_GET_L_MASK : Z := GENMASK_ULL 20 0.
Definition EQDMA_SW_CTXT_VIRTIO_DSC_BASE_GET_M_MASK : Z := GENMASK_ULL 52 21.
Definition EQDMA_SW_CTXT_VIRTIO_DSC_BASE_GET_H_MASK : Z := GENMASK_ULL 63 53.
Definition SW_IND_CTXT_DATA_W0_PIDX_MASK : Z := GENMASK 15 0.
Definition SW_IND_CTXT_DATA_W0_IRQ_ARM_MASK : Z := BIT 16.
Definition SW_IND_CTXT_DATA_W0_FNC_MASK : Z := GENMASK 28 17.
Definition SW_IND_CTXT_DATA_W1_QEN_MASK : Z := BIT 0.
Definition SW_IND_CTXT_DATA_W1_FCRD_EN_MASK : Z := BIT 1.
Definition SW_IND_CTXT_DATA_W1_WBI_CHK_MASK : Z := BIT 2.
Definition SW_IND_CTXT_DATA_W1_WBI_INTVL_EN_MASK : Z := BIT 3.
Definition SW_IND_CTXT_DATA_W1_AT_MASK : Z := BIT 4.
Definition SW_IND_CTXT_DATA_W1_FETCH_MAX_MASK : Z := GENMASK 8 5.
Definition SW_IND_CTXT_DATA_W1_RNG_SZ_MASK : Z := GENMASK 15 12.
Definition SW_IND_CTXT_DATA_W1_DSC_SZ_MASK : Z := GENMASK 17 16.
Definition SW_IND_CTXT_DATA_W1_BYPASS_MASK : Z := BIT 18.
Definition SW_IND_CTXT_DATA_W1_MM_CHN_MASK : Z := BIT 19.
Definition SW_IND_CTXT_DATA_W1_WBK_EN_MASK : Z := BIT 20.
Definition SW_IND_CTXT_DATA_W1_IRQ_EN_MASK : Z := BIT 21.
Definition SW_IND_CTXT_DATA_W1_PORT_ID_MASK : Z := GENMASK 24 22.
Definition SW_IND_CTXT_DATA_W1_IRQ_NO_LAST_MASK : Z := BIT 25.
Definition SW_IND_CTXT_DATA_W1_ERR_MASK : Z := GENMASK 27 26.
Definition SW_IND_CTXT_DATA_W1_ERR_WB_SENT_MASK : Z := BIT 28.
Definition SW_IND_CTXT_DATA_W1_IRQ_REQ_MASK : Z := BIT 29.
Definition SW_IND_CTXT_DATA_W1_MRKR_DIS_MASK : Z := BIT 30.
Definition SW_IND_CTXT_DATA_W1_IS_MM_MASK : Z := BIT 31.
Definition SW_IND_CTXT_DATA_W4_VEC_MASK : Z := GENMASK 10 0.
Definition SW_IND_CTXT_DATA_W4_INT_AGGR_MASK : Z := BIT 11.
Definition SW_IND_CTXT_DATA_W4_DIS_INTR_ON_VF_MASK : Z := BIT 12.
Definition SW_IND_CTXT_DATA_W4_VIRTIO_EN_MASK : Z := BIT 13.
Definition SW_IND_CTXT_DATA_W4_PACK_BYP_OUT_MASK : Z := BIT 14.
Definition SW_IND_CTXT_DATA_W4_IRQ_BYP_MASK : Z := BIT 15.
Definition SW_IND_CTXT_DATA_W4_HOST_ID_MASK : Z := GENMASK 19 16.
Definition SW_IND_CTXT_DATA_W4_PASID_L_MASK : Z := GENMASK 31 20.
Definition SW_IND_CTXT_DATA_W5_PASID_H_MASK : Z := GENMASK 9 0.
Definition SW_IND_CTXT_DATA_W5_PASID_EN_MASK : Z := BIT 10.
Definition SW_IND_CTXT_DATA_W5_VIRTIO_DSC_BASE_L_MASK : Z := GENMASK 31 11.
Definition SW_IND_CTXT_DATA_W6_VIRTIO_DSC_BASE_M_MASK : Z := GENMASK 31 0.
Definition SW_IND_CTXT_DATA_W7_VIRTIO_DSC_BASE_H_MASK : Z := GENMASK 10 0.
Definition PREFETCH_CTXT_DATA_W0_BYPASS_MASK : Z := BIT 0.
Definition PREFETCH_CTXT_DATA_W0_BUF_SZ_IDX_MASK : Z := GENMASK 4 1.
Definition PREFETCH_CTXT_DATA_W0_PORT_ID_MASK : Z := GENMASK 7 5.
Definition PREFETCH_CTXT_DATA_W0_NUM_PFCH_MASK : Z := GENMASK 15 10.
Definition PREFETCH_CTXT_DATA_W0_VAR_DESC_MASK : Z := BIT 8.
Definition PREFETCH_CTXT_DATA_W0_ERR_MASK : Z := BIT 26.
Definition PREFETCH_CTXT_DATA_W0_PFCH_EN_MASK : Z := BIT 27.
Definition PREFETCH_CTXT_DATA_W0_PFCH_MASK : Z := BIT 28.
Definition PREFETCH_CTXT_DATA_W0_SW_CRDT_L_MASK : Z := GENMASK 31 29.
Definition PREFETCH_CTXT_DATA_W1_SW_CRDT_H_MASK : Z := GENMASK 12 0.
Definition PREFETCH_CTXT_DATA_W1_VALID_MASK : Z := BIT 13.
Definition EQDMA_PFETCH_CONTEXT_NUM_WORDS : Z := 2.
Definition EQDMA_COMPL_CTXT_BADDR_HIGH_L_MASK : Z := GENMASK_ULL 37 6.
Definition EQDMA_COMPL_CTXT_BADDR_HIGH_H_MASK : Z := GENMASK_ULL 63 38.
Definition EQDMA_COMPL_CTXT_BADDR_LOW_MASK : Z := GENMASK_ULL 5 2.
Definition EQDMA_CMPL_CTXT_PASID_GET_L_MASK : Z := GENMASK 8 0.
Definition EQDMA_CMPL_CTXT_PASID_GET_H_MASK : Z := GENMASK 21 9.
Definition CMPL_CTXT_DATA_W0_EN_STAT_DESC_MASK : Z := BIT 0.
Definition CMPL_CTXT_DATA_W0_EN_INT_MASK : Z := BIT 1.
Definition CMPL_CTXT_DATA_W0_TRIG_MODE_MASK : Z := GENMASK 4 2.
Definition CMPL_CTXT_DATA_W0_FNC_ID_MASK : Z := GENMASK 16 5.
Definition CMPL_CTXT_DATA_W0_CNTER_IX_MASK : Z := GENMASK 20 17.
Definition CMPL_CTXT_DATA_W0_TIMER_IX_MASK : Z := GENMASK 24 21.
Definition CMPL_CTXT_DATA_W0_INT_ST_MASK : Z := GENMASK 26 25.
Definition CMPL_CTXT_DATA_W0_COLOR_MASK : Z := BIT 27.
Definition CMPL_CTXT_DATA_W0_QSIZE_IX_MASK : Z := GENMASK 31 28.
Definition CMPL_CTXT_DATA_W1_BADDR4_HIGH_L_MASK : Z := GENMASK 31 0.
Definition CMPL_CTXT_DATA_W2_BADDR4_HIGH_H_MASK : Z := GENMASK 25 0.
Definition CMPL_CTXT_DATA_W2_DESC_SIZE_MASK : Z := GENMASK 27 26.
Definition CMPL_CTXT_DATA_W2_PIDX_L_MASK : Z := GENMASK 31 28.
Definition CMPL_CTXT_DATA_W3_PIDX_H_MASK : Z := GENMASK 11 0.
Definition CMPL_CTXT_DATA_W3_CIDX_MASK : Z := GENMASK 27 12.
Definition CMPL_CTXT_DATA_W3_VALID_MASK : Z := BIT 28.
Definition CMPL_CTXT_DATA_W3_ERR_MASK : Z := GENMASK 30 29.
Definition CMPL_CTXT_DATA_W3_USER_TRIG_PEND_MASK : Z := BIT 31.
Definition CMPL_CTXT_DATA_W4_TIMER_RUNNING_MASK : Z := BIT 0.
Definition CMPL_CTXT_DATA_W4_FULL_UPD_MASK : Z := BIT 1.
Definition CMPL_CTXT_DATA_W4_OVF_CHK_DIS_MASK : Z := BIT 2.
Definition CMPL_CTXT_DATA_W4_AT_MASK : Z := BIT 3.
Definition CMPL_CTXT_DATA_W4_VEC_MASK : Z := GENMASK 14 4.
Definition CMPL_CTXT_DATA_W4_INT_AGGR_MASK : Z := BIT 15.
Definition CMPL_CTXT_DATA_W4_DIS_INTR_ON_VF_MASK : Z := BIT 16.
Definition CMPL_CTXT_DATA_W4_VIO_MASK : Z := BIT 17.
Definition CMPL_CTXT_DATA_W4_DIR_C2H_MASK : Z := BIT 18.
Definition CMPL_CTXT_DATA_W4_HOST_ID_MASK : Z := GENMASK 22 19.
Definition CMPL_CTXT_DATA_W4_PASID_L_MASK : Z := GENMASK 31 23.
Definition CMPL_CTXT_DATA_W5_PASID_H_MASK : Z := GENMASK 12 0.
Definition CMPL_CTXT_DATA_W5_PASID_EN_MASK : Z := BIT 13.
Definition CMPL_CTXT_DATA_W5_BADDR4_LOW_MASK : Z := GENMASK 17 14.
Definition CMPL_CTXT_DATA_W5_VIO_EOP_MASK : Z := BIT 18.
Definition CMPL_CTXT_DATA_W5_SH_CMPT_MASK : Z := BIT 19.
Definition HW_IND_CTXT_DATA_W0_CIDX_MASK : Z := GENMASK 15 0.
Definition HW_IND_CTXT_DATA_W0_CRD_USE_MASK : Z := GENMASK 31 16.
Definition HW_IND_CTXT_DATA_W1_DSC_PND_MASK : Z := BIT 8.
Definition HW_IND_CTXT_DATA_W1_IDL_STP_B_MASK : Z := BIT 9.
Definition HW_IND_CTXT_DATA_W1_EVT_PND_MASK : Z := BIT 10.
Definition CRED_CTXT_DATA_W0_CREDT_MASK : Z := GENMASK 15 0.
Definition EQDMA_CR_CONTEXT_NUM_WORDS : Z := 1.
Definition EQDMA_INTR_CTXT_PASID_GET_L_MASK : Z := GENMASK 8 0.
Definition EQDMA_INTR_CTXT_PASID_GET_H_MASK : Z := GENMASK 21 9.
Definition INTR_CTXT_DATA_W0_VALID_MASK : Z := BIT 0.
Definition INTR_CTXT_DATA_W0_VEC_MASK : Z := GENMASK 11 1.
Definition INTR_CTXT_DATA_W0_INT_ST_MASK : Z := BIT 13.
Definition INTR_CTXT_DATA_W0_COLOR_MASK : Z := BIT 14.
Definition INTR_CTXT_DATA_W0_BADDR_4K_L_MASK : Z := GENMASK 31 15.
Definition INTR_CTXT_DATA_W1_BADDR_4K_M_MASK : Z := GENMASK 31 0.
Definition INTR_CTXT_DATA_W2_BADDR_4K_H_MASK : Z := GENMASK 2 0.
Definition INTR_CTXT_DATA_W2_PAGE_SIZE_MASK : Z := GENMASK 5 3.
Definition INTR_CTXT_DATA_W2_PIDX_MASK : Z := GENMASK 17 6.
Definition INTR_CTXT_DATA_W2_AT_MASK : Z := BIT 18.
Definition INTR_CTXT_DATA_W2_HOST_ID_MASK : Z := GENMASK 22 19.
Definition INTR_CTXT_DATA_W2_PASID_L_MASK : Z := GENMASK 31 23.
Definition INTR_CTXT_DATA_W3_PASID_H_MASK : Z := GENMASK 12 0.
Definition INTR_CTXT_DATA_W3_PASID_EN_MASK : Z := BIT 13.
Definition INTR_CTXT_DATA_W3_FUNC_MASK : Z := GENMASK 29 18.
Definition EQDMA_IND_INTR_CONTEXT_NUM_WORDS : Z := 4.
Definition EQDMA_REG_GROUP_1_START_ADDR : Z := 0x000.
Definition EQDMA_REG_GROUP_2_START_ADDR : Z := 0x804.
Definition EQDMA_REG_GROUP_3_START_ADDR : Z := 0xB00.
Definition EQDMA_REG_GROUP_4_START_ADDR : Z := 0x5014.
Definition EQDMA_OFFSET_VF_USER_BAR : Z := 0x5018.
Definition EQDMA_OFFSET_GLBL2_PF_BARLITE_EXT : Z := 0x10C.
Definition EQDMA_OFFSET_VF_VERSION : Z := 0x5014.
Definition EQDMA_GLBL2_IP_VERSION_MASK : Z := GENMASK 23 20.
Definition EQDMA_GLBL2_VF_IP_VERSION_MASK : Z := GENMASK 7 4.
Definition EQDMA_IP_VERSION_4 : Z := 1.
Definition GLBL_DSC_CFG_MAXFETCH_MASK : Z := GENMASK 5 3.
Definition GLBL_DSC_CFG_WB_ACC_INT_MASK : Z := GENMASK 2 0.
Definition EQDMA_IP_VERSION_5 : Z := 2.
Definition GLBL_DSC_CFG_H2C_UODSC_LIMIT_MASK : Z := GENMASK 19 10.
Definition EQDMA5_DEFAULT_H2C_UODSC_LIMIT : Z := 4.
Definition EQDMA5_DEFAULT_MAX_DSC_FETCH : Z := 3.
Definition EQDMA5_DEFAULT_WRB_INT : Z := QDMA_WRB_INTERVAL_128.
Definition H2C_REQ_THROT_PCIE_DATA_THRESH_MASK : Z := GENMASK 17 0.
Definition EQDMA_H2C_THROT_DATA_THRESH : Z := 0x5000.
Definition H2C_REQ_THROT_PCIE_EN_DATA_MASK : Z := BIT 18.
Definition EQDMA_THROT_EN_DATA : Z := 1.
Definition H2C_REQ_THROT_PCIE_MASK : Z := GENMASK 30 19.
Definition EQDMA_H2C_THROT_REQ_THRESH : Z := 0xC0.
Definition H2C_REQ_THROT_PCIE_EN_REQ_MASK : Z := BIT 31.
Definition EQDMA_THROT_EN_REQ : Z := 0.
Definition EQDMA5_H2C_THROT_DATA_THRESH : Z := 0x5000.
Definition EQDMA5_THROT_EN_DATA : Z := 1.
Definition EQDMA5_H2C_THROT_REQ_THRESH : Z := 0xC0.
Definition EQDMA5_THROT_EN_REQ : Z := 1.
Definition EQDMA_GLBL_RNG_SZ_1_ADDR : Z := 0x204.
Definition EQDMA_C2H_CNT_TH_ADDR : Z := 0xA40.
Definition EQDMA_C2H_TIMER_CNT_ADDR : Z := 0xA00.
Definition EQDMA_GLBL_DSC_CFG_ADDR : Z := 0x250.
Definition EQDMA_C2H_BUF_SZ_ADDR : Z := 0xAB0.
Definition EQDMA_C2H_PFCH_CACHE_DEPTH_ADDR : Z := 0xBE0.
Definition C2H_PFCH_CACHE_DEPTH_MASK : Z := GENMASK 7 0.
Definition EQDMA_C2H_PFCH_CFG_1_ADDR : Z := 0xA80.
Definition C2H_PFCH_CFG_1_QCNT_MASK : Z := GENMASK 15 0.
Definition C2H_PFCH_CFG_1_EVT_QCNT_TH_MASK : Z := GENMASK 31 16.
Definition EQDMA_C2H_PFCH_CFG_2_ADDR : Z := 0xA84.
Definition C2H_PFCH_CFG_2_FENCE_MASK : Z := BIT 31.
Definition EQDMA_C2H_INT_TIMER_TICK_ADDR : Z := 0xB0C.
Definition EQDMA_C2H_WRB_COAL_BUF_DEPTH_ADDR : Z := 0xBE4.
Definition EQDMA_C2H_WRB_COAL_CFG_ADDR : Z := 0xB50.
Definition C2H_WRB_COAL_CFG_TICK_CNT_MASK : Z := GENMASK 13 2.
Definition C2H_WRB_COAL_CFG_TICK_VAL_MASK : Z := GENMASK 25 14.
Definition C2H_WRB_COAL_CFG_MAX_BUF_SZ_MASK : Z := GENMASK 31 26.
Definition EQDMA_H2C_REQ_THROT_PCIE_ADDR : Z := 0xE24.

(** ** Register list

    The table, with [is_debug_reg] next to each entry; it has no end marker, so
    the bound [num_regs - 1] of the loops leaves its last register out. *)

Definition eqdma_config_regs : list (xreg_info * Z) :=
  [
    (mk_xreg 0x00 1 QDMA_MM_ST_MODE QDMA_REG_READ_PF_ONLY, 0); (* CFG_BLK_IDENTIFIER *)
    (mk_xreg 0x08 1 QDMA_MM_ST_MODE QDMA_REG_READ_PF_ONLY, 0); (* CFG_BLK_PCIE_MAX_PLD_SIZE *)
    (mk_xreg 0x0c 1 QDMA_MM_ST_MODE QDMA_REG_READ_PF_ONLY, 0); (* CFG_BLK_PCIE_MAX_READ_REQ_SIZE *)
    (mk_xreg 0x10 1 QDMA_MM_ST_MODE QDMA_REG_READ_PF_ONLY, 0); (* CFG_BLK_SYSTEM_ID *)
    (mk_xreg 0x014 1 QDMA_MM_ST_MODE QDMA_REG_READ_PF_ONLY, 0); (* CFG_BLK_MSIX_ENABLE *)
    (mk_xreg 0x18 1 QDMA_MM_ST_MODE QDMA_REG_READ_PF_ONLY, 0); (* CFG_PCIE_DATA_WIDTH *)
    (mk_xreg 0x1c 1 QDMA_MM_ST_MODE QDMA_REG_READ_PF_ONLY, 0); (* CFG_PCIE_CTL *)
    (mk_xreg 0x20 1 QDMA_MM_ST_MODE QDMA_REG_READ_PF_ONLY, 0); (* CFG_BLK_MSI_ENABLE *)
    (mk_xreg 0x40 1 QDMA_MM_ST_MODE QDMA_REG_READ_PF_ONLY, 0); (* CFG_AXI_USER_MAX_PLD_SIZE *)
    (mk_xreg 0x44 1 QDMA_MM_ST_MODE QDMA_REG_READ_PF_ONLY, 0); (* CFG_AXI_USER_MAX_READ_REQ_SIZE *)
    (mk_xreg 0x4c 1 QDMA_MM_ST_MODE QDMA_REG_READ_PF_ONLY, 0); (* CFG_BLK_MISC_CTL *)
    (mk_xreg 0x68 1 QDMA_MM_ST_MODE QDMA_REG_READ_PF_ONLY, 0); (* CFG_PL_CRED_CTL *)
    (mk_xreg 0x80 1 QDMA_MM_ST_MODE QDMA_REG_READ_PF_ONLY, 0); (* CFG_BLK_SCRATCH *)
    (mk_xreg 0xa0 1 QDMA_MM_ST_MODE QDMA_REG_READ_PF_ONLY, 0); (* CFG_GIC *)
    (mk_xreg 0xe0 1 QDMA_MM_ST_MODE QDMA_REG_READ_PF_ONLY, 0); (* RAM_SBE_MSK_1_A *)
    (mk_xreg 0xe4 1 QDMA_MM_ST_MODE QDMA_REG_READ_PF_ONLY, 0); (* RAM_SBE_STS_1_A *)
    (mk_xreg 0xe8 1 QDMA_MM_ST_MODE QDMA_REG_READ_PF_ONLY, 0); (* RAM_DBE_MSK_1_A *)
    (mk_xreg 0xec 1 QDMA_MM_ST_MODE QDMA_REG_READ_PF_ONLY, 0); (* RAM_DBE_STS_1_A *)
    (mk_xreg 0xf0 1 QDMA_MM_ST_MODE QDMA_REG_READ_PF_ONLY, 0); (* RAM_SBE_MSK_A *)
    (mk_xreg 0xf4 1 QDMA_MM_ST_MODE QDMA_REG_READ_PF_ONLY, 0); (* RAM_SBE_STS_A *)
    (mk_xreg 0xf8 1 QDMA_MM_ST_MODE QDMA_REG_READ_PF_ONLY, 0); (* RAM_DBE_MSK_A *)
    (mk_xreg 0xfc 1 QDMA_MM_ST_MODE QDMA_REG_READ_PF_ONLY, 0); (* RAM_DBE_STS_A *)
    (mk_xreg 0x100 1 QDMA_MM_ST_MODE QDMA_REG_READ_PF_ONLY, 0); (* GLBL2_IDENTIFIER *)
    (mk_xreg 0x114 1 QDMA_MM_ST_MODE QDMA_REG_READ_PF_ONLY, 0); (* GLBL2_CHANNEL_INST *)
    (mk_xreg 0x118 1 QDMA_MM_ST_MODE QDMA_REG_READ_PF_ONLY, 0); (* GLBL2_CHANNEL_MDMA *)
    (mk_xreg 0x11c 1 QDMA_MM_ST_MODE QDMA_REG_READ_PF_ONLY, 0); (* GLBL2_CHANNEL_STRM *)
    (mk_xreg 0x120 1 QDMA_MM_ST_MODE QDMA_REG_READ_PF_ONLY, 0); (* GLBL2_CHANNEL_CAP *)
    (mk_xreg 0x128 1 QDMA_MM_ST_MODE QDMA_REG_READ_PF_ONLY, 0); (* GLBL2_CHANNEL_PASID_CAP *)
    (mk_xreg 0x130 1 QDMA_MM_ST_MODE QDMA_REG_READ_PF_ONLY, 0); (* GLBL2_SYSTEM_ID *)
    (mk_xreg 0x134 1 QDMA_MM_ST_MODE QDMA_REG_READ_PF_ONLY, 0); (* GLBL2_MISC_CAP *)
    (mk_xreg 0x158 1 QDMA_MM_ST_MODE QDMA_REG_READ_PF_ONLY, 0); (* GLBL2_RRQ_BRG_THROT *)
    (mk_xreg 0x15c 1 QDMA_MM_ST_MODE QDMA_REG_READ_PF_ONLY, 0); (* GLBL2_RRQ_PCIE_THROT *)
    (mk_xreg 0x160 1 QDMA_MM_ST_MODE QDMA_REG_READ_PF_ONLY, 0); (* GLBL2_RRQ_AXIMM_THROT *)
    (mk_xreg 0x164 1 QDMA_MM_ST_MODE QDMA_REG_READ_PF_ONLY, 0); (* GLBL2_RRQ_PCIE_LAT0 *)
    (mk_xreg 0x168 1 QDMA_MM_ST_MODE QDMA_REG_READ_PF_ONLY, 0); (* GLBL2_RRQ_PCIE_LAT1 *)
    (mk_xreg 0x16c 1 QDMA_MM_ST_MODE QDMA_REG_READ_PF_ONLY, 0); (* GLBL2_RRQ_AXIMM_LAT0 *)
    (mk_xreg 0x170 1 QDMA_MM_ST_MODE QDMA_REG_READ_PF_ONLY, 0); (* GLBL2_RRQ_AXIMM_LAT1 *)
    (mk_xreg 0x1b8 1 QDMA_MM_ST_MODE QDMA_REG_READ_PF_ONLY, 0); (* GLBL2_DBG_PCIE_RQ0 *)
    (mk_xreg 0x1bc 1 QDMA_MM_ST_MODE QDMA_REG_READ_PF_ONLY, 0); (* GLBL2_DBG_PCIE_RQ1 *)
    (mk_xreg 0x1c0 1 QDMA_MM_ST_MODE QDMA_REG_READ_PF_ONLY, 0); (* GLBL2_DBG_AXIMM_WR0 *)
    (mk_xreg 0x1c4 1 QDMA_MM_ST_MODE QDMA_REG_READ_PF_ONLY, 0); (* GLBL2_DBG_AXIMM_WR1 *)
    (mk_xreg 0x1c8 1 QDMA_MM_ST_MODE QDMA_REG_READ_PF_ONLY, 0); (* GLBL2_DBG_AXIMM_RD0 *)
    (mk_xreg 0x1cc 1 QDMA_MM_ST_MODE QDMA_REG_READ_PF_ONLY, 0); (* GLBL2_DBG_AXIMM_RD1 *)
    (mk_xreg 0x1d0 1 QDMA_MM_ST_MODE QDMA_REG_READ_PF_ONLY, 0); (* GLBL2_DBG_FAB0 *)
    (mk_xreg 0x1d4 1 QDMA_MM_ST_MODE QDMA_REG_READ_PF_ONLY, 0); (* GLBL2_DBG_FAB1 *)
    (mk_xreg 0x1f4 1 QDMA_MM_ST_MODE QDMA_REG_READ_PF_ONLY, 0); (* GLBL2_DBG_MATCH_SEL *)
    (mk_xreg 0x1f8 1 QDMA_MM_ST_MODE QDMA_REG_READ_PF_ONLY, 0); (* GLBL2_DBG_MATCH_MSK *)
    (mk_xreg 0x1fc 1 QDMA_MM_ST_MODE QDMA_REG_READ_PF_ONLY, 0); (* GLBL2_DBG_MATCH_PAT *)
    (mk_xreg 0x204 1 QDMA_MM_ST_MODE QDMA_REG_READ_PF_VF, 0); (* GLBL_RNG_SZ_1 *)
    (mk_xreg 0x208 1 QDMA_MM_ST_MODE QDMA_REG_READ_PF_VF, 0); (* GLBL_RNG_SZ_2 *)
    (mk_xreg 0x20c 1 QDMA_MM_ST_MODE QDMA_REG_READ_PF_VF, 0); (* GLBL_RNG_SZ_3 *)
    (mk_xreg 0x210 1 QDMA_MM_ST_MODE QDMA_REG_READ_PF_VF, 0); (* GLBL_RNG_SZ_4 *)
    (mk_xreg 0x214 1 QDMA_MM_ST_MODE QDMA_REG_READ_PF_VF, 0); (* GLBL_RNG_SZ_5 *)
    (mk_xreg 0x218 1 QDMA_MM_ST_MODE QDMA_REG_READ_PF_VF, 0); (* GLBL_RNG_SZ_6 *)
    (mk_xreg 0x21c 1 QDMA_MM_ST_MODE QDMA_REG_READ_PF_VF, 0); (* GLBL_RNG_SZ_7 *)
    (mk_xreg 0x220 1 QDMA_MM_ST_MODE QDMA_REG_READ_PF_VF, 0); (* GLBL_RNG_SZ_8 *)
    (mk_xreg 0x224 1 QDMA_MM_ST_MODE QDMA_REG_READ_PF_VF, 0); (* GLBL_RNG_SZ_9 *)
    (mk_xreg 0x228 1 QDMA_MM_ST_MODE QDMA_REG_READ_PF_VF, 0); (* GLBL_RNG_SZ_A *)
    (mk_xreg 0x22c 1 QDMA_MM_ST_MODE QDMA_REG_READ_PF_VF, 0); (* GLBL_RNG_SZ_B *)
    (mk_xreg 0x230 1 QDMA_MM_ST_MODE QDMA_REG_READ_PF_VF, 0); (* GLBL_RNG_SZ_C *)
    (mk_xreg 0x234 1 QDMA_MM_ST_MODE QDMA_REG_READ_PF_VF, 0); (* GLBL_RNG_SZ_D *)
    (mk_xreg 0x238 1 QDMA_MM_ST_MODE QDMA_REG_READ_PF_VF, 0); (* GLBL_RNG_SZ_E *)
    (mk_xreg 0x23c 1 QDMA_MM_ST_MODE QDMA_REG_READ_PF_VF, 0); (* GLBL_RNG_SZ_F *)
    (mk_xreg 0x240 1 QDMA_MM_ST_MODE QDMA_REG_READ_PF_VF, 0); (* GLBL_RNG_SZ_10 *)
    (mk_xreg 0x248 1 QDMA_MM_ST_MODE QDMA_REG_READ_PF_VF, 0); (* GLBL_ERR_STAT *)
    (mk_xreg 0x24c 1 QDMA_MM_ST_MODE QDMA_REG_READ_PF_VF, 0); (* GLBL_ERR_MASK *)
    (mk_xreg 0x250 1 QDMA_MM_ST_MODE QDMA_REG_READ_PF_VF, 0); (* GLBL_DSC_CFG *)
    (mk_xreg 0x254 1 QDMA_MM_ST_MODE QDMA_REG_READ_PF_VF, 0); (* GLBL_DSC_ERR_STS *)
    (mk_xreg 0x258 1 QDMA_MM_ST_MODE QDMA_REG_READ_PF_VF, 0); (* GLBL_DSC_ERR_MSK *)
    (mk_xreg 0x25c 1 QDMA_MM_ST_MODE QDMA_REG_READ_PF_VF, 0); (* GLBL_DSC_ERR_LOG0 *)
    (mk_xreg 0x260 1 QDMA_MM_ST_MODE QDMA_REG_READ_PF_VF, 0); (* GLBL_DSC_ERR_LOG1 *)
    (mk_xreg 0x264 1 QDMA_MM_ST_MODE QDMA_REG_READ_PF_VF, 0); (* GLBL_TRQ_ERR_STS *)
    (mk_xreg 0x268 1 QDMA_MM_ST_MODE QDMA_REG_READ_PF_VF, 0); (* GLBL_TRQ_ERR_MSK *)
    (mk_xreg 0x26c 1 QDMA_MM_ST_MODE QDMA_REG_READ_PF_VF, 0); (* GLBL_TRQ_ERR_LOG *)
    (mk_xreg 0x270 1 QDMA_MM_ST_MODE QDMA_REG_READ_PF_VF, 0); (* GLBL_DSC_DBG_DAT0 *)
    (mk_xreg 0x274 1 QDMA_MM_ST_MODE QDMA_REG_READ_PF_VF, 0); (* GLBL_DSC_DBG_DAT1 *)
    (mk_xreg 0x278 1 QDMA_MM_ST_MODE QDMA_REG_READ_PF_VF, 0); (* GLBL_DSC_DBG_CTL *)
    (mk_xreg 0x27c 1 QDMA_MM_ST_MODE QDMA_REG_READ_PF_VF, 0); (* GLBL_DSC_ERR_LOG2 *)
    (mk_xreg 0x2c4 1 QDMA_MM_ST_MODE QDMA_REG_READ_PF_VF, 0); (* GLBL_GLBL_INTERRUPT_CFG *)
    (mk_xreg 0x2c8 1 QDMA_MM_ST_MODE QDMA_REG_READ_PF_VF, 0); (* GLBL_VCH_HOST_PROFILE *)
    (mk_xreg 0x308 1 QDMA_MM_ST_MODE QDMA_REG_READ_PF_VF, 0); (* GLBL_BRIDGE_HOST_PROFILE *)
    (mk_xreg 0x30c 1 QDMA_MM_ST_MODE QDMA_REG_READ_PF_VF, 0); (* AXIMM_IRQ_DEST_ADDR *)
    (mk_xreg 0x314 1 QDMA_MM_ST_MODE QDMA_REG_READ_PF_VF, 0); (* FAB_ERR_LOG *)
    (mk_xreg 0x318 1 QDMA_MM_ST_MODE QDMA_REG_READ_PF_ONLY, 0); (* GLBL_REQ_ERR_STS *)
    (mk_xreg 0x31c 1 QDMA_MM_ST_MODE QDMA_REG_READ_PF_ONLY, 0); (* GLBL_REQ_ERR_MSK *)
    (mk_xreg 0x320 1 QDMA_MM_ST_MODE QDMA_REG_READ_PF_ONLY, 0); (* GLBL_DSC_DBG_LAT0_A *)
    (mk_xreg 0x324 1 QDMA_MM_ST_MODE QDMA_REG_READ_PF_ONLY, 0); (* GLBL_DSC_DBG_LAT1_A *)
    (mk_xreg 0x328 1 QDMA_MM_ST_MODE QDMA_REG_READ_PF_ONLY, 0); (* GLBL_DSC_CRD_CTR0_A *)
    (mk_xreg 0x32c 1 QDMA_MM_ST_MODE QDMA_REG_READ_PF_ONLY, 0); (* GLBL_DSC_CRD_CTR1_A *)
    (mk_xreg 0x330 1 QDMA_MM_ST_MODE QDMA_REG_READ_PF_ONLY, 0); (* GLBL_DSC_CRD_CTR2_A *)
    (mk_xreg 0x334 1 QDMA_MM_ST_MODE QDMA_REG_READ_PF_ONLY, 0); (* GLBL_DSC_CRD_CTR3_A *)
    (mk_xreg 0x338 1 QDMA_MM_ST_MODE QDMA_REG_READ_PF_ONLY, 0); (* GLBL_DSC_IMM_CRD_CTR0_A *)
    (mk_xreg 0x33c 1 QDMA_MM_ST_MODE QDMA_REG_READ_PF_ONLY, 0); (* GLBL_DSC_IMM_CRD_CTR1_A *)
    (mk_xreg 0x340 1 QDMA_MM_ST_MODE QDMA_REG_READ_PF_ONLY, 0); (* GLBL_DSC_IMM_CRD_CTR2_A *)
    (mk_xreg 0x344 1 QDMA_MM_ST_MODE QDMA_REG_READ_PF_ONLY, 0); (* GLBL_DSC_IMM_CRD_CTR3_A *)
    (mk_xreg 0x348 1 QDMA_MM_ST_MODE QDMA_REG_READ_PF_ONLY, 0); (* GLBL_DSC_H2C_OUT_CTR0_A *)
    (mk_xreg 0x34c 1 QDMA_MM_ST_MODE QDMA_REG_READ_PF_ONLY, 0); (* GLBL_DSC_H2C_OUT_CTR1_A *)
    (mk_xreg 0x350 1 QDMA_MM_ST_MODE QDMA_REG_READ_PF_ONLY, 0); (* GLBL_DSC_H2C_OUT_CTR2_A *)
    (mk_xreg 0x354 1 QDMA_MM_ST_MODE QDMA_REG_READ_PF_ONLY, 0); (* GLBL_DSC_H2C_OUT_CTR3_A *)
    (mk_xreg 0x358 1 QDMA_MM_ST_MODE QDMA_REG_READ_PF_ONLY, 0); (* GLBL_DSC_C2H_OUT_CTR0_A *)
    (mk_xreg 0x35c 1 QDMA_MM_ST_MODE QDMA_REG_READ_PF_ONLY, 0); (* GLBL_DSC_C2H_OUT_CTR1_A *)
    (mk_xreg 0x360 1 QDMA_MM_ST_MODE QDMA_REG_READ_PF_ONLY, 0); (* GLBL_DSC_C2H_OUT_CTR2_A *)
    (mk_xreg 0x364 1 QDMA_MM_ST_MODE QDMA_REG_READ_PF_ONLY, 0); (* GLBL_DSC_C2H_OUT_CTR3_A *)
    (mk_xreg 0x368 1 QDMA_MM_ST_MODE QDMA_REG_READ_PF_ONLY, 0); (* T *)
    (mk_xreg 0x36c 1 QDMA_MM_ST_MODE QDMA_REG_READ_PF_ONLY, 0); (* GLBL_PERF_CNTR_CTL_A1 *)
    (mk_xreg 0x370 1 QDMA_MM_ST_MODE QDMA_REG_READ_PF_ONLY, 0); (* GLBL_FREE_CNT_A0 *)
    (mk_xreg 0x374 1 QDMA_MM_ST_MODE QDMA_REG_READ_PF_ONLY, 0); (* GLBL_FREE_CNT_A1 *)
    (mk_xreg 0x378 1 QDMA_MM_ST_MODE QDMA_REG_READ_PF_ONLY, 0); (* GLBL_AXIS_H2C_CNT_A0 *)
    (mk_xreg 0x37c 1 QDMA_MM_ST_MODE QDMA_REG_READ_PF_ONLY, 0); (* GLBL_AXIS_H2C_CNT_A1 *)
    (mk_xreg 0x380 1 QDMA_MM_ST_MODE QDMA_REG_READ_PF_ONLY, 0); (* GLBL_AXIS_H2C_CNT_A2 *)
    (mk_xreg 0x384 1 QDMA_MM_ST_MODE QDMA_REG_READ_PF_ONLY, 0); (* GLBL_AXIS_H2C_CNT_A3 *)
    (mk_xreg 0x388 1 QDMA_MM_ST_MODE QDMA_REG_READ_PF_ONLY, 0); (* GLBL_AXIS_H2C_CNT_A4 *)
    (mk_xreg 0x38c 1 QDMA_MM_ST_MODE QDMA_REG_READ_PF_ONLY, 0); (* GLBL_AXIS_H2C_CNT_A5 *)
    (mk_xreg 0x390 1 QDMA_MM_ST_MODE QDMA_REG_READ_PF_ONLY, 0); (* GLBL_AXIS_C2H_CNT_A0 *)
    (mk_xreg 0x394 1 QDMA_MM_ST_MODE QDMA_REG_READ_PF_ONLY, 0); (* GLBL_AXIS_C2H_CNT_A1 *)
    (mk_xreg 0x398 1 QDMA_MM_ST_MODE QDMA_REG_READ_PF_ONLY, 0); (* GLBL_AXIS_C2H_CNT_A2 *)
    (mk_xreg 0x39c 1 QDMA_MM_ST_MODE QDMA_REG_READ_PF_ONLY, 0); (* GLBL_AXIS_C2H_CNT_A3 *)
    (mk_xreg 0x3a0 1 QDMA_MM_ST_MODE QDMA_REG_READ_PF_ONLY, 0); (* GLBL_AXIS_C2H_CNT_A4 *)
    (mk_xreg 0x3a4 1 QDMA_MM_ST_MODE QDMA_REG_READ_PF_ONLY, 0); (* GLBL_AXIS_C2H_CNT_A5 *)
    (mk_xreg 0x3a8 1 QDMA_MM_ST_MODE QDMA_REG_READ_PF_ONLY, 0); (* GLBL_M_AXI_WR_CNT_A0 *)
    (mk_xreg 0x3ac 1 QDMA_MM_ST_MODE QDMA_REG_READ_PF_ONLY, 0); (* GLBL_M_AXI_WR_CNT_A1 *)
    (mk_xreg 0x3b0 1 QDMA_MM_ST_MODE QDMA_REG_READ_PF_ONLY, 0); (* GLBL_M_AXI_WR_CNT_A2 *)
    (mk_xreg 0x3b4 1 QDMA_MM_ST_MODE QDMA_REG_READ_PF_ONLY, 0); (* GLBL_M_AXI_WR_CNT_A3 *)
    (mk_xreg 0x3b8 1 QDMA_MM_ST_MODE QDMA_REG_READ_PF_ONLY, 0); (* GLBL_M_AXI_WR_CNT_A4 *)
    (mk_xreg 0x3bc 1 QDMA_MM_ST_MODE QDMA_REG_READ_PF_ONLY, 0); (* GLBL_M_AXI_WR_CNT_A5 *)
    (mk_xreg 0x3c0 1 QDMA_MM_ST_MODE QDMA_REG_READ_PF_ONLY, 0); (* GLBL_M_AXI_RD_CNT_A0 *)
    (mk_xreg 0x3c4 1 QDMA_MM_ST_MODE QDMA_REG_READ_PF_ONLY, 0); (* GLBL_M_AXI_RD_CNT_A1 *)
    (mk_xreg 0x3c8 1 QDMA_MM_ST_MODE QDMA_REG_READ_PF_ONLY, 0); (* GLBL_M_AXI_RD_CNT_A2 *)
    (mk_xreg 0x3cc 1 QDMA_MM_ST_MODE QDMA_REG_READ_PF_ONLY, 0); (* GLBL_M_AXI_RD_CNT_A3 *)
    (mk_xreg 0x3d0 1 QDMA_MM_ST_MODE QDMA_REG_READ_PF_ONLY, 0); (* GLBL_M_AXI_RD_CNT_A4 *)
    (mk_xreg 0x3d4 1 QDMA_MM_ST_MODE QDMA_REG_READ_PF_ONLY, 0); (* GLBL_M_AXI_RD_CNT_A5 *)
    (mk_xreg 0x3d8 1 QDMA_MM_ST_MODE QDMA_REG_READ_PF_ONLY, 0); (* GLBL_M_AXIB_WR_CNT_A0 *)
    (mk_xreg 0x3dc 1 QDMA_MM_ST_MODE QDMA_REG_READ_PF_ONLY, 0); (* GLBL_M_AXIB_WR_CNT_A1 *)
    (mk_xreg 0x3e0 1 QDMA_MM_ST_MODE QDMA_REG_READ_PF_ONLY, 0); (* GLBL_M_AXIB_WR_CNT_A2 *)
    (mk_xreg 0x3e4 1 QDMA_MM_ST_MODE QDMA_REG_READ_PF_ONLY, 0); (* GLBL_M_AXIB_WR_CNT_A3 *)
    (mk_xreg 0x3e8 1 QDMA_MM_ST_MODE QDMA_REG_READ_PF_ONLY, 0); (* GLBL_M_AXIB_WR_CNT_A4 *)
    (mk_xreg 0x3ec 1 QDMA_MM_ST_MODE QDMA_REG_READ_PF_ONLY, 0); (* GLBL_M_AXIB_WR_CNT_A5 *)
    (mk_xreg 0x3f0 1 QDMA_MM_ST_MODE QDMA_REG_READ_PF_ONLY, 0); (* GLBL_M_AXIB_RD_CNT_A0 *)
    (mk_xreg 0x3f4 1 QDMA_MM_ST_MODE QDMA_REG_READ_PF_ONLY, 0); (* GLBL_M_AXIB_RD_CNT_A1 *)
    (mk_xreg 0x3f8 1 QDMA_MM_ST_MODE QDMA_REG_READ_PF_ONLY, 0); (* GLBL_M_AXIB_RD_CNT_A2 *)
    (mk_xreg 0x3fc 1 QDMA_MM_ST_MODE QDMA_REG_READ_PF_ONLY, 0); (* GLBL_M_AXIB_RD_CNT_A3 *)
    (mk_xreg 0x400 1 QDMA_MM_ST_MODE QDMA_REG_READ_PF_ONLY, 0); (* GLBL_M_AXIB_RD_CNT_A4 *)
    (mk_xreg 0x404 1 QDMA_MM_ST_MODE QDMA_REG_READ_PF_ONLY, 0); (* GLBL_M_AXIB_RD_CNT_A5 *)
    (mk_xreg 0x408 1 QDMA_MM_ST_MODE QDMA_REG_READ_PF_ONLY, 0); (* GLBL_S_AXI_WR_CNT_A0 *)
    (mk_xreg 0x40c 1 QDMA_MM_ST_MODE QDMA_REG_READ_PF_ONLY, 0); (* GLBL_S_AXI_WR_CNT_A1 *)
    (mk_xreg 0x410 1 QDMA_MM_ST_MODE QDMA_REG_READ_PF_ONLY, 0); (* GLBL_S_AXI_WR_CNT_A2 *)
    (mk_xreg 0x414 1 QDMA_MM_ST_MODE QDMA_REG_READ_PF_ONLY, 0); (* GLBL_S_AXI_WR_CNT_A3 *)
    (mk_xreg 0x418 1 QDMA_MM_ST_MODE QDMA_REG_READ_PF_ONLY, 0); (* GLBL_S_AXI_WR_CNT_A4 *)
    (mk_xreg 0x41c 1 QDMA_MM_ST_MODE QDMA_REG_READ_PF_ONLY, 0); (* GLBL_S_AXI_WR_CNT_A5 *)
    (mk_xreg 0x420 1 QDMA_MM_ST_MODE QDMA_REG_READ_PF_ONLY, 0); (* GLBL_S_AXI_RD_CNT_A0 *)
    (mk_xreg 0x424 1 QDMA_MM_ST_MODE QDMA_REG_READ_PF_ONLY, 0); (* GLBL_S_AXI_RD_CNT_A1 *)
    (mk_xreg 0x428 1 QDMA_MM_ST_MODE QDMA_REG_READ_PF_ONLY, 0); (* GLBL_S_AXI_RD_CNT_A2 *)
    (mk_xreg 0x42c 1 QDMA_MM_ST_MODE QDMA_REG_READ_PF_ONLY, 0); (* GLBL_S_AXI_RD_CNT_A3 *)
    (mk_xreg 0x430 1 QDMA_MM_ST_MODE QDMA_REG_READ_PF_ONLY, 0); (* GLBL_S_AXI_RD_CNT_A4 *)
    (mk_xreg 0x434 1 QDMA_MM_ST_MODE QDMA_REG_READ_PF_ONLY, 0); (* GLBL_S_AXI_RD_CNT_A5 *)
    (mk_xreg 0x438 1 QDMA_MM_ST_MODE QDMA_REG_READ_PF_ONLY, 0); (* GLBL_S_AXIS_CMP_CNT_A0 *)
    (mk_xreg 0x43c 1 QDMA_MM_ST_MODE QDMA_REG_READ_PF_ONLY, 0); (* GLBL_S_AXIS_CMP_CNT_A1 *)
    (mk_xreg 0x440 1 QDMA_MM_ST_MODE QDMA_REG_READ_PF_ONLY, 0); (* GLBL_S_AXIS_CMP_CNT_A2 *)
    (mk_xreg 0x444 1 QDMA_MM_ST_MODE QDMA_REG_READ_PF_ONLY, 0); (* GLBL_S_AXIS_CMP_CNT_A3 *)
    (mk_xreg 0x448 1 QDMA_MM_ST_MODE QDMA_REG_READ_PF_ONLY, 0); (* GLBL_S_AXIS_CMP_CNT_A4 *)
    (mk_xreg 0x44c 1 QDMA_MM_ST_MODE QDMA_REG_READ_PF_ONLY, 0); (* GLBL_S_AXIS_CMP_CNT_A5 *)
    (mk_xreg 0x804 1 QDMA_MM_ST_MODE QDMA_REG_READ_PF_ONLY, 0); (* IND_CTXT_DATA *)
    (mk_xreg 0x824 1 QDMA_MM_ST_MODE QDMA_REG_READ_PF_ONLY, 0); (* IND_CTXT_MASK *)
    (mk_xreg 0x844 1 QDMA_MM_ST_MODE QDMA_REG_READ_PF_ONLY, 0); (* IND_CTXT_CMD *)
    (mk_xreg 0xa00 1 QDMA_COMPLETION_MODE QDMA_REG_READ_PF_ONLY, 0); (* C2H_TIMER_CNT *)
    (mk_xreg 0xa40 1 QDMA_COMPLETION_MODE QDMA_REG_READ_PF_ONLY, 0); (* C2H_CNT_TH *)
    (mk_xreg 0xa80 1 QDMA_ST_MODE QDMA_REG_READ_PF_VF, 0); (* C2H_PFCH_CFG_1 *)
    (mk_xreg 0xa84 1 QDMA_ST_MODE QDMA_REG_READ_PF_VF, 0); (* C2H_PFCH_CFG_2 *)
    (mk_xreg 0xa88 1 QDMA_ST_MODE QDMA_REG_READ_PF_VF, 1); (* C2H_STAT_S_AXIS_C2H_ACCEPTED *)
    (mk_xreg 0xa8c 1 QDMA_ST_MODE QDMA_REG_READ_PF_VF, 1); (* C2H_STAT_S_AXIS_WRB_ACCEPTED *)
    (mk_xreg 0xa90 1 QDMA_ST_MODE QDMA_REG_READ_PF_VF, 1); (* C2H_STAT_DESC_RSP_PKT_ACCEPTED *)
    (mk_xreg 0xa94 1 QDMA_ST_MODE QDMA_REG_READ_PF_VF, 1); (* C2H_STAT_AXIS_PKG_CMP *)
    (mk_xreg 0xa98 1 QDMA_ST_MODE QDMA_REG_READ_PF_ONLY, 1); (* C2H_STAT_DESC_RSP_ACCEPTED *)
    (mk_xreg 0xa9c 1 QDMA_ST_MODE QDMA_REG_READ_PF_ONLY, 1); (* C2H_STAT_DESC_RSP_CMP *)
    (mk_xreg 0xaa0 1 QDMA_ST_MODE QDMA_REG_READ_PF_ONLY, 1); (* C2H_STAT_WRQ_OUT *)
    (mk_xreg 0xaa4 1 QDMA_ST_MODE QDMA_REG_READ_PF_ONLY, 1); (* C2H_STAT_WPL_REN_ACCEPTED *)
    (mk_xreg 0xaa8 1 QDMA_ST_MODE QDMA_REG_READ_PF_ONLY, 1); (* C2H_STAT_TOTAL_WRQ_LEN *)
    (mk_xreg 0xaac 1 QDMA_ST_MODE QDMA_REG_READ_PF_ONLY, 1); (* C2H_STAT_TOTAL_WPL_LEN *)
    (mk_xreg 0xab0 1 QDMA_ST_MODE QDMA_REG_READ_PF_ONLY, 0); (* C2H_BUF_SZ *)
    (mk_xreg 0xaf0 1 QDMA_ST_MODE QDMA_REG_READ_PF_VF, 0); (* C2H_ERR_STAT *)
    (mk_xreg 0xaf4 1 QDMA_ST_MODE QDMA_REG_READ_PF_VF, 0); (* C2H_ERR_MASK *)
    (mk_xreg 0xaf8 1 QDMA_ST_MODE QDMA_REG_READ_PF_VF, 0); (* C2H_FATAL_ERR_STAT *)
    (mk_xreg 0xafc 1 QDMA_ST_MODE QDMA_REG_READ_PF_VF, 0); (* C2H_FATAL_ERR_MASK *)
    (mk_xreg 0xb00 1 QDMA_ST_MODE QDMA_REG_READ_PF_VF, 0); (* C2H_FATAL_ERR_ENABLE *)
    (mk_xreg 0xb04 1 QDMA_ST_MODE QDMA_REG_READ_PF_VF, 0); (* GLBL_ERR_INT *)
    (mk_xreg 0xb08 1 QDMA_ST_MODE QDMA_REG_READ_PF_ONLY, 0); (* C2H_PFCH_CFG *)
    (mk_xreg 0xb0c 1 QDMA_ST_MODE QDMA_REG_READ_PF_ONLY, 0); (* C2H_INT_TIMER_TICK *)
    (mk_xreg 0xb10 1 QDMA_ST_MODE QDMA_REG_READ_PF_VF, 1); (* C2H_STAT_DESC_RSP_DROP_ACCEPTED *)
    (mk_xreg 0xb14 1 QDMA_ST_MODE QDMA_REG_READ_PF_VF, 1); (* C2H_STAT_DESC_RSP_ERR_ACCEPTED *)
    (mk_xreg 0xb18 1 QDMA_ST_MODE QDMA_REG_READ_PF_ONLY, 1); (* C2H_STAT_DESC_REQ *)
    (mk_xreg 0xb1c 1 QDMA_ST_MODE QDMA_REG_READ_PF_ONLY, 1); (* C2H_STAT_DBG_DMA_ENG_0 *)
    (mk_xreg 0xb20 1 QDMA_ST_MODE QDMA_REG_READ_PF_ONLY, 1); (* C2H_STAT_DBG_DMA_ENG_1 *)
    (mk_xreg 0xb24 1 QDMA_ST_MODE QDMA_REG_READ_PF_ONLY, 1); (* C2H_STAT_DBG_DMA_ENG_2 *)
    (mk_xreg 0xb28 1 QDMA_ST_MODE QDMA_REG_READ_PF_ONLY, 1); (* C2H_STAT_DBG_DMA_ENG_3 *)
    (mk_xreg 0xb2c 1 QDMA_ST_MODE QDMA_REG_READ_PF_ONLY, 0); (* C2H_DBG_PFCH_ERR_CTXT *)
    (mk_xreg 0xb30 1 QDMA_ST_MODE QDMA_REG_READ_PF_VF, 0); (* C2H_FIRST_ERR_QID *)
    (mk_xreg 0xb34 1 QDMA_ST_MODE QDMA_REG_READ_PF_ONLY, 1); (* STAT_NUM_WRB_IN *)
    (mk_xreg 0xb38 1 QDMA_ST_MODE QDMA_REG_READ_PF_ONLY, 1); (* STAT_NUM_WRB_OUT *)
    (mk_xreg 0xb3c 1 QDMA_ST_MODE QDMA_REG_READ_PF_ONLY, 1); (* STAT_NUM_WRB_DRP *)
    (mk_xreg 0xb40 1 QDMA_ST_MODE QDMA_REG_READ_PF_ONLY, 1); (* STAT_NUM_STAT_DESC_OUT *)
    (mk_xreg 0xb44 1 QDMA_ST_MODE QDMA_REG_READ_PF_ONLY, 0); (* STAT_NUM_DSC_CRDT_SENT *)
    (mk_xreg 0xb48 1 QDMA_ST_MODE QDMA_REG_READ_PF_ONLY, 0); (* STAT_NUM_FCH_DSC_RCVD *)
    (mk_xreg 0xb4c 1 QDMA_ST_MODE QDMA_REG_READ_PF_ONLY, 0); (* STAT_NUM_BYP_DSC_RCVD *)
    (mk_xreg 0xb50 1 QDMA_ST_MODE QDMA_REG_READ_PF_ONLY, 0); (* C2H_WRB_COAL_CFG *)
    (mk_xreg 0xb54 1 QDMA_ST_MODE QDMA_REG_READ_PF_VF, 0); (* C2H_INTR_H2C_REQ *)
    (mk_xreg 0xb58 1 QDMA_ST_MODE QDMA_REG_READ_PF_VF, 0); (* C2H_INTR_C2H_MM_REQ *)
    (mk_xreg 0xb5c 1 QDMA_ST_MODE QDMA_REG_READ_PF_VF, 0); (* C2H_INTR_ERR_INT_REQ *)
    (mk_xreg 0xb60 1 QDMA_ST_MODE QDMA_REG_READ_PF_VF, 0); (* C2H_INTR_C2H_ST_REQ *)
    (mk_xreg 0xb64 1 QDMA_ST_MODE QDMA_REG_READ_PF_ONLY, 0); (* C2H_INTR_H2C_ERR_C2H_MM_MSIX_ACK *)
    (mk_xreg 0xb68 1 QDMA_ST_MODE QDMA_REG_READ_PF_ONLY, 0); (* C2H_INTR_H2C_ERR_C2H_MM_MSIX_FAIL *)
    (mk_xreg 0xb6c 1 QDMA_ST_MODE QDMA_REG_READ_PF_ONLY, 0); (* C2H_INTR_H2C_ERR_C2H_MM_MSIX_NO_MSIX *)
    (mk_xreg 0xb70 1 QDMA_ST_MODE QDMA_REG_READ_PF_ONLY, 0); (* C2H_INTR_H2C_ERR_C2H_MM_CTXT_INVAL *)
    (mk_xreg 0xb74 1 QDMA_ST_MODE QDMA_REG_READ_PF_VF, 0); (* C2H_INTR_C2H_ST_MSIX_ACK *)
    (mk_xreg 0xb78 1 QDMA_ST_MODE QDMA_REG_READ_PF_VF, 0); (* C2H_INTR_C2H_ST_MSIX_FAIL *)
    (mk_xreg 0xb7c 1 QDMA_ST_MODE QDMA_REG_READ_PF_ONLY, 0); (* C2H_INTR_C2H_ST_NO_MSIX *)
    (mk_xreg 0xb80 1 QDMA_ST_MODE QDMA_REG_READ_PF_ONLY, 0); (* C2H_INTR_C2H_ST_CTXT_INVAL *)
    (mk_xreg 0xb84 1 QDMA_ST_MODE QDMA_REG_READ_PF_ONLY, 0); (* C2H_STAT_WR_CMP *)
    (mk_xreg 0xb88 1 QDMA_ST_MODE QDMA_REG_READ_PF_ONLY, 0); (* C2H_STAT_DBG_DMA_ENG_4 *)
    (mk_xreg 0xb8c 1 QDMA_ST_MODE QDMA_REG_READ_PF_ONLY, 0); (* C2H_STAT_DBG_DMA_ENG_5 *)
    (mk_xreg 0xb90 1 QDMA_ST_MODE QDMA_REG_READ_PF_ONLY, 0); (* C2H_DBG_PFCH_QID *)
    (mk_xreg 0xb94 1 QDMA_ST_MODE QDMA_REG_READ_PF_ONLY, 0); (* C2H_DBG_PFCH *)
    (mk_xreg 0xb98 1 QDMA_ST_MODE QDMA_REG_READ_PF_ONLY, 0); (* C2H_INT_DBG *)
    (mk_xreg 0xb9c 1 QDMA_ST_MODE QDMA_REG_READ_PF_ONLY, 0); (* C2H_STAT_IMM_ACCEPTED *)
    (mk_xreg 0xba0 1 QDMA_ST_MODE QDMA_REG_READ_PF_ONLY, 0); (* C2H_STAT_MARKER_ACCEPTED *)
    (mk_xreg 0xba4 1 QDMA_ST_MODE QDMA_REG_READ_PF_ONLY, 0); (* C2H_STAT_DISABLE_CMP_ACCEPTED *)
    (mk_xreg 0xba8 1 QDMA_ST_MODE QDMA_REG_READ_PF_ONLY, 0); (* C2H_PLD_FIFO_CRDT_CNT *)
    (mk_xreg 0xbac 1 QDMA_ST_MODE QDMA_REG_READ_PF_ONLY, 0); (* C2H_INTR_DYN_REQ *)
    (mk_xreg 0xbb0 1 QDMA_ST_MODE QDMA_REG_READ_PF_ONLY, 0); (* C2H_INTR_DYN_MISC *)
    (mk_xreg 0xbb4 1 QDMA_ST_MODE QDMA_REG_READ_PF_ONLY, 0); (* C2H_DROP_LEN_MISMATCH *)
    (mk_xreg 0xbb8 1 QDMA_ST_MODE QDMA_REG_READ_PF_ONLY, 0); (* C2H_DROP_DESC_RSP_LEN *)
    (mk_xreg 0xbbc 1 QDMA_ST_MODE QDMA_REG_READ_PF_ONLY, 0); (* C2H_DROP_QID_FIFO_LEN *)
    (mk_xreg 0xbc0 1 QDMA_ST_MODE QDMA_REG_READ_PF_ONLY, 0); (* C2H_DROP_PLD_CNT *)
    (mk_xreg 0xbc4 1 QDMA_ST_MODE QDMA_REG_READ_PF_ONLY, 0); (* C2H_CMPT_FORMAT_0 *)
    (mk_xreg 0xbc8 1 QDMA_ST_MODE QDMA_REG_READ_PF_ONLY, 0); (* C2H_CMPT_FORMAT_1 *)
    (mk_xreg 0xbcc 1 QDMA_ST_MODE QDMA_REG_READ_PF_ONLY, 0); (* C2H_CMPT_FORMAT_2 *)
    (mk_xreg 0xbd0 1 QDMA_ST_MODE QDMA_REG_READ_PF_ONLY, 0); (* C2H_CMPT_FORMAT_3 *)
    (mk_xreg 0xbd4 1 QDMA_ST_MODE QDMA_REG_READ_PF_ONLY, 0); (* C2H_CMPT_FORMAT_4 *)
    (mk_xreg 0xbd8 1 QDMA_ST_MODE QDMA_REG_READ_PF_ONLY, 0); (* C2H_CMPT_FORMAT_5 *)
    (mk_xreg 0xbdc 1 QDMA_ST_MODE QDMA_REG_READ_PF_ONLY, 0); (* C2H_CMPT_FORMAT_6 *)
    (mk_xreg 0xbe0 1 QDMA_ST_MODE QDMA_REG_READ_PF_ONLY, 0); (* C2H_PFCH_CACHE_DEPTH *)
    (mk_xreg 0xbe4 1 QDMA_ST_MODE QDMA_REG_READ_PF_ONLY, 0); (* C2H_WRB_COAL_BUF_DEPTH *)
    (mk_xreg 0xbe8 1 QDMA_ST_MODE QDMA_REG_READ_PF_ONLY, 0); (* C2H_PFCH_CRDT *)
    (mk_xreg 0xbec 1 QDMA_ST_MODE QDMA_REG_READ_PF_ONLY, 1); (* C2H_STAT_HAS_CMPT_ACCEPTED *)
    (mk_xreg 0xbf0 1 QDMA_ST_MODE QDMA_REG_READ_PF_ONLY, 1); (* C2H_STAT_HAS_PLD_ACCEPTED *)
    (mk_xreg 0xbf4 1 QDMA_ST_MODE QDMA_REG_READ_PF_ONLY, 0); (* C2H_PLD_PKT_ID *)
    (mk_xreg 0xbf8 1 QDMA_ST_MODE QDMA_REG_READ_PF_ONLY, 0); (* C2H_PLD_PKT_ID_1 *)
    (mk_xreg 0xbfc 1 QDMA_ST_MODE QDMA_REG_READ_PF_ONLY, 0); (* C2H_DROP_PLD_CNT_1 *)
    (mk_xreg 0xe00 1 QDMA_ST_MODE QDMA_REG_READ_PF_VF, 0); (* H2C_ERR_STAT *)
    (mk_xreg 0xe04 1 QDMA_ST_MODE QDMA_REG_READ_PF_VF, 0); (* H2C_ERR_MASK *)
    (mk_xreg 0xe08 1 QDMA_ST_MODE QDMA_REG_READ_PF_VF, 0); (* H2C_FIRST_ERR_QID *)
    (mk_xreg 0xe0c 1 QDMA_ST_MODE QDMA_REG_READ_PF_ONLY, 1); (* H2C_DBG_REG0 *)
    (mk_xreg 0xe10 1 QDMA_ST_MODE QDMA_REG_READ_PF_ONLY, 1); (* H2C_DBG_REG1 *)
    (mk_xreg 0xe14 1 QDMA_ST_MODE QDMA_REG_READ_PF_ONLY, 1); (* H2C_DBG_REG2 *)
    (mk_xreg 0xe18 1 QDMA_ST_MODE QDMA_REG_READ_PF_ONLY, 1); (* H2C_DBG_REG3 *)
    (mk_xreg 0xe1c 1 QDMA_ST_MODE QDMA_REG_READ_PF_ONLY, 1); (* H2C_DBG_REG4 *)
    (mk_xreg 0xe20 1 QDMA_ST_MODE QDMA_REG_READ_PF_VF, 0); (* H2C_FATAL_ERR_EN *)
    (mk_xreg 0xe24 1 QDMA_ST_MODE QDMA_REG_READ_PF_ONLY, 0); (* H2C_REQ_THROT_PCIE *)
    (mk_xreg 0xe28 1 QDMA_ST_MODE QDMA_REG_READ_PF_ONLY, 1); (* H2C_ALN_DBG_REG0 *)
    (mk_xreg 0xe2c 1 QDMA_ST_MODE QDMA_REG_READ_PF_ONLY, 0); (* H2C_REQ_THROT_AXIMM *)
    (mk_xreg 0x1004 1 QDMA_MM_MODE QDMA_REG_READ_PF_ONLY, 0); (* C2H_MM_CTL *)
    (mk_xreg 0x1040 1 QDMA_MM_MODE QDMA_REG_READ_PF_ONLY, 0); (* C2H_MM_STATUS *)
    (mk_xreg 0x1048 1 QDMA_MM_MODE QDMA_REG_READ_PF_ONLY, 0); (* C2H_MM_CMPL_DESC_CNT *)
    (mk_xreg 0x1054 1 QDMA_MM_MODE QDMA_REG_READ_PF_ONLY, 0); (* C2H_MM_ERR_CODE_ENABLE_MASK *)
    (mk_xreg 0x1058 1 QDMA_MM_MODE QDMA_REG_READ_PF_ONLY, 0); (* C2H_MM_ERR_CODE *)
    (mk_xreg 0x105c 1 QDMA_MM_MODE QDMA_REG_READ_PF_ONLY, 0); (* C2H_MM_ERR_INFO *)
    (mk_xreg 0x10c0 1 QDMA_MM_MODE QDMA_REG_READ_PF_ONLY, 0); (* C2H_MM_PERF_MON_CTL *)
    (mk_xreg 0x10c4 1 QDMA_MM_MODE QDMA_REG_READ_PF_ONLY, 0); (* C2H_MM_PERF_MON_CYCLE_CNT0 *)
    (mk_xreg 0x10c8 1 QDMA_MM_MODE QDMA_REG_READ_PF_ONLY, 0); (* C2H_MM_PERF_MON_CYCLE_CNT1 *)
    (mk_xreg 0x10cc 1 QDMA_MM_MODE QDMA_REG_READ_PF_ONLY, 0); (* C2H_MM_PERF_MON_DATA_CNT0 *)
    (mk_xreg 0x10d0 1 QDMA_MM_MODE QDMA_REG_READ_PF_ONLY, 0); (* C2H_MM_PERF_MON_DATA_CNT1 *)
    (mk_xreg 0x10e8 1 QDMA_MM_MODE QDMA_REG_READ_PF_ONLY, 0); (* C2H_MM_DBG *)
    (mk_xreg 0x1204 1 QDMA_MM_MODE QDMA_REG_READ_PF_ONLY, 0); (* H2C_MM_CTL *)
    (mk_xreg 0x1240 1 QDMA_MM_MODE QDMA_REG_READ_PF_ONLY, 0); (* H2C_MM_STATUS *)
    (mk_xreg 0x1248 1 QDMA_MM_MODE QDMA_REG_READ_PF_ONLY, 0); (* H2C_MM_CMPL_DESC_CNT *)
    (mk_xreg 0x1254 1 QDMA_MM_MODE QDMA_REG_READ_PF_ONLY, 0); (* H2C_MM_ERR_CODE_ENABLE_MASK *)
    (mk_xreg 0x1258 1 QDMA_MM_MODE QDMA_REG_READ_PF_ONLY, 0); (* H2C_MM_ERR_CODE *)
    (mk_xreg 0x125c 1 QDMA_MM_MODE QDMA_REG_READ_PF_ONLY, 0); (* H2C_MM_ERR_INFO *)
    (mk_xreg 0x12c0 1 QDMA_MM_MODE QDMA_REG_READ_PF_ONLY, 0); (* H2C_MM_PERF_MON_CTL *)
    (mk_xreg 0x12c4 1 QDMA_MM_MODE QDMA_REG_READ_PF_ONLY, 0); (* H2C_MM_PERF_MON_CYCLE_CNT0 *)
    (mk_xreg 0x12c8 1 QDMA_MM_MODE QDMA_REG_READ_PF_ONLY, 0); (* H2C_MM_PERF_MON_CYCLE_CNT1 *)
    (mk_xreg 0x12cc 1 QDMA_MM_MODE QDMA_REG_READ_PF_ONLY, 0); (* H2C_MM_PERF_MON_DATA_CNT0 *)
    (mk_xreg 0x12d0 1 QDMA_MM_MODE QDMA_REG_READ_PF_ONLY, 0); (* H2C_MM_PERF_MON_DATA_CNT1 *)
    (mk_xreg 0x12e8 1 QDMA_MM_MODE QDMA_REG_READ_PF_ONLY, 0); (* H2C_MM_DBG *)
    (mk_xreg 0x12ec 1 QDMA_MM_MODE QDMA_REG_READ_PF_ONLY, 0); (* H2C_MM_DATA_THROTTLE *)
    (mk_xreg 0x1400 1 QDMA_ST_MODE QDMA_REG_READ_PF_ONLY, 0); (* C2H_CRDT_COAL_CFG_1 *)
    (mk_xreg 0x1404 1 QDMA_ST_MODE QDMA_REG_READ_PF_ONLY, 0); (* C2H_CRDT_COAL_CFG_2 *)
    (mk_xreg 0x1408 1 QDMA_ST_MODE QDMA_REG_READ_PF_ONLY, 0); (* C2H_PFCH_BYP_QID *)
    (mk_xreg 0x140c 1 QDMA_ST_MODE QDMA_REG_READ_PF_ONLY, 0); (* C2H_PFCH_BYP_TAG *)
    (mk_xreg 0x1410 1 QDMA_ST_MODE QDMA_REG_READ_PF_ONLY, 0); (* C2H_WATER_MARK *)
    (mk_xreg 0x1450 1 QDMA_ST_MODE QDMA_REG_READ_PF_ONLY, 0); (* C2H_NOTIFY_EMPTY *)
    (mk_xreg 0x1454 1 QDMA_ST_MODE QDMA_REG_READ_PF_ONLY, 0); (* C2H_STAT_S_AXIS_C2H_ACCEPTED_1 *)
    (mk_xreg 0x1458 1 QDMA_ST_MODE QDMA_REG_READ_PF_ONLY, 0); (* C2H_STAT_S_AXIS_WRB_ACCEPTED_1 *)
    (mk_xreg 0x145c 1 QDMA_ST_MODE QDMA_REG_READ_PF_ONLY, 0); (* C2H_STAT_DESC_RSP_PKT_ACCEPTED_1 *)
    (mk_xreg 0x1460 1 QDMA_ST_MODE QDMA_REG_READ_PF_ONLY, 0); (* C2H_STAT_AXIS_PKG_CMP_1 *)
    (mk_xreg 0x1464 1 QDMA_ST_MODE QDMA_REG_READ_PF_ONLY, 0); (* C2H_STAT_S_AXIS_WRB_ACCEPTED_2 *)
    (mk_xreg 0x1468 1 QDMA_ST_MODE QDMA_REG_READ_PF_ONLY, 0); (* C2H_ST_PLD_FIFO_DEPTH *)
    (mk_xreg 0x146c 1 QDMA_ST_MODE QDMA_REG_READ_PF_ONLY, 0); (* C2H_STAT_DBG_DMA_ENG_6 *)
    (mk_xreg 0x1470 1 QDMA_ST_MODE QDMA_REG_READ_PF_ONLY, 0); (* C2H_STAT_DBG_DMA_ENG_7 *)
    (mk_xreg 0x1474 1 QDMA_ST_MODE QDMA_REG_READ_PF_ONLY, 0); (* C2H_STAT_PCIE_CMP_1 *)
    (mk_xreg 0x1478 1 QDMA_ST_MODE QDMA_REG_READ_PF_ONLY, 0); (* C2H_PLD_FIFO_ALMOST_FULL *)
    (mk_xreg 0x147c 1 QDMA_ST_MODE QDMA_REG_READ_PF_ONLY, 0); (* PFCH_CFG_3 *)
    (mk_xreg 0x1480 1 QDMA_ST_MODE QDMA_REG_READ_PF_ONLY, 0); (* CMPT_CFG_0 *)
    (mk_xreg 0x1484 1 QDMA_ST_MODE QDMA_REG_READ_PF_ONLY, 0) ]. (* PFCH_CFG_4 *)

Definition eqdma_listed_regs : list (xreg_info * Z) := removelast eqdma_config_regs.

(** Returns the return value and [*reg_entry]. *)
Definition eqdma_get_reg_entry (reg_addr : Z) : Z * Z :=
  match find_addr reg_addr eqdma_listed_regs.*1 O with
  | Some i => (0, Z.of_nat i)
  | None => (INV_PARAM, -1)
  end.

Definition eqdma_group_start (reg_rd_group : Z) : option Z :=
  if reg_rd_group =? 0 then Some EQDMA_REG_GROUP_1_START_ADDR
  else if reg_rd_group =? 1 then Some EQDMA_REG_GROUP_2_START_ADDR
  else if reg_rd_group =? 2 then Some EQDMA_REG_GROUP_3_START_ADDR
  else if reg_rd_group =? 3 then Some EQDMA_REG_GROUP_4_START_ADDR
  else None.

Section access.
Context {dev : Type} `{Device dev}.

(** The context registers of this layer and the code around them are those of
    the soft IP; [eqdma_indirect_reg_read] is in [EqdmaErr]. *)
Definition eqdma_indirect_reg_invalidate (sel : ind_ctxt_cmd_sel) (hw_qid : Z) : hwm dev Z :=
  qdma_indirect_reg_invalidate sel hw_qid.
Definition eqdma_indirect_reg_clear (sel : ind_ctxt_cmd_sel) (hw_qid : Z) : hwm dev Z :=
  qdma_indirect_reg_clear sel hw_qid.
Definition eqdma_indirect_reg_write (sel : ind_ctxt_cmd_sel) (hw_qid : Z) (data : list Z) : hwm dev Z :=
  qdma_indirect_reg_write sel hw_qid data.

(** ** Function map *)

Definition eqdma_fmap_words (ctxt : qdma_fmap_cfg) : list Z :=
  [FIELD_SET EQDMA_FMAP_CTXT_W0_QID_MASK (fmap_qbase ctxt);
   FIELD_SET EQDMA_FMAP_CTXT_W1_QID_MAX_MASK (fmap_qmax ctxt)].

Definition eqdma_fmap_of_words (ws : list Z) : qdma_fmap_cfg :=
  let w0 := word ws 0 in let w1 := word ws 1 in
  {| fmap_qbase := u16 (FIELD_GET EQDMA_FMAP_CTXT_W0_QID_MASK w0);
     fmap_qmax := u16 (FIELD_GET EQDMA_FMAP_CTXT_W1_QID_MAX_MASK w1) |}.

Definition eqdma_fmap_context_write (dev_hndl : bool) (func_id : Z) (ctxt : option qdma_fmap_cfg) : hwm dev Z :=
  match dev_hndl, ctxt with
  | true, Some ctxt => eqdma_indirect_reg_write QDMA_CTXT_SEL_FMAP func_id (eqdma_fmap_words ctxt)
  | _, _ => mret INV_PARAM
  end.

Definition eqdma_fmap_context_read (dev_hndl : bool) (func_id : Z) (ctxt : option qdma_fmap_cfg) :
    hwm dev (Z * option qdma_fmap_cfg) :=
  match dev_hndl, ctxt with
  | true, Some old =>
      r ← eqdma_indirect_reg_read QDMA_CTXT_SEL_FMAP func_id (Z.to_nat EQDMA_FMAP_NUM_WORDS);
      if r.1 <? 0 then mret (r.1, Some old) else mret (QDMA_SUCCESS, Some (eqdma_fmap_of_words r.2))
  | _, _ => mret (INV_PARAM, ctxt)
  end.

Definition eqdma_fmap_context_clear (dev_hndl : bool) (func_id : Z) : hwm dev Z :=
  if negb dev_hndl then mret INV_PARAM else eqdma_indirect_reg_clear QDMA_CTXT_SEL_FMAP func_id.

Definition eqdma_fmap_conf (dev_hndl : bool) (func_id : Z) (ctxt : option qdma_fmap_cfg)
    (access_type : qdma_hw_access_type) : hwm dev (Z * option qdma_fmap_cfg) :=
  match access_type with
  | QDMA_HW_ACCESS_READ => eqdma_fmap_context_read dev_hndl func_id ctxt
  | QDMA_HW_ACCESS_WRITE => rv ← eqdma_fmap_context_write dev_hndl func_id ctxt; mret (rv, ctxt)
  | QDMA_HW_ACCESS_CLEAR => rv ← eqdma_fmap_context_clear dev_hndl func_id; mret (rv, ctxt)
  | QDMA_HW_ACCESS_INVALIDATE | QDMA_HW_ACCESS_MAX => mret (INV_PARAM, ctxt)
  end.

(** ** Software context *)

Definition eqdma_sw_words (ctxt : qdma_descq_sw_ctxt) : list Z :=
  let pasid_l := FIELD_GET EQDMA_SW_CTXT_PASID_GET_L_MASK (sw_pasid ctxt) in
  let pasid_h := FIELD_GET EQDMA_SW_CTXT_PASID_GET_H_MASK (sw_pasid ctxt) in
  let virtio_desc_base_l := u32 (FIELD_GET EQDMA_SW_CTXT_VIRTIO_DSC_BASE_GET_L_MASK (sw_virtio_dsc_base ctxt)) in
  let virtio_desc_base_m := u32 (FIELD_GET EQDMA_SW_CTXT_VIRTIO_DSC_BASE_GET_M_MASK (sw_virtio_dsc_base ctxt)) in
  let virtio_desc_base_h := u32 (FIELD_GET EQDMA_SW_CTXT_VIRTIO_DSC_BASE_GET_H_MASK (sw_virtio_dsc_base ctxt)) in
  [FIELD_SET SW_IND_CTXT_DATA_W0_PIDX_MASK (sw_pidx ctxt) .|
   FIELD_SET SW_IND_CTXT_DATA_W0_IRQ_ARM_MASK (sw_irq_arm ctxt) .|
   FIELD_SET SW_IND_CTXT_DATA_W0_FNC_MASK (sw_fnc_id ctxt);
   FIELD_SET SW_IND_CTXT_DATA_W1_QEN_MASK (sw_qen ctxt) .|
   FIELD_SET SW_IND_CTXT_DATA_W1_FCRD_EN_MASK (sw_frcd_en ctxt) .|
   FIELD_SET SW_IND_CTXT_DATA_W1_WBI_CHK_MASK (sw_wbi_chk ctxt) .|
   FIELD_SET SW_IND_CTXT_DATA_W1_WBI_INTVL_EN_MASK (sw_wbi_intvl_en ctxt) .|
   FIELD_SET SW_IND_CTXT_DATA_W1_AT_MASK (sw_at ctxt) .|
   FIELD_SET SW_IND_CTXT_DATA_W1_FETCH_MAX_MASK (sw_fetch_max ctxt) .|
   FIELD_SET SW_IND_CTXT_DATA_W1_RNG_SZ_MASK (sw_rngsz_idx ctxt) .|
   FIELD_SET SW_IND_CTXT_DATA_W1_DSC_SZ_MASK (sw_desc_sz ctxt) .|
   FIELD_SET SW_IND_CTXT_DATA_W1_BYPASS_MASK (sw_bypass ctxt) .|
   FIELD_SET SW_IND_CTXT_DATA_W1_MM_CHN_MASK (sw_mm_chn ctxt) .|
   FIELD_SET SW_IND_CTXT_DATA_W1_WBK_EN_MASK (sw_wbk_en ctxt) .|
   FIELD_SET SW_IND_CTXT_DATA_W1_IRQ_EN_MASK (sw_irq_en ctxt) .|
   FIELD_SET SW_IND_CTXT_DATA_W1_PORT_ID_MASK (sw_port_id ctxt) .|
   FIELD_SET SW_IND_CTXT_DATA_W1_IRQ_NO_LAST_MASK (sw_irq_no_last ctxt) .|
   FIELD_SET SW_IND_CTXT_DATA_W1_ERR_MASK (sw_err ctxt) .|
   FIELD_SET SW_IND_CTXT_DATA_W1_ERR_WB_SENT_MASK (sw_err_wb_sent ctxt) .|
   FIELD_SET SW_IND_CTXT_DATA_W1_IRQ_REQ_MASK (sw_irq_req ctxt) .|
   FIELD_SET SW_IND_CTXT_DATA_W1_MRKR_DIS_MASK (sw_mrkr_dis ctxt) .|
   FIELD_SET SW_IND_CTXT_DATA_W1_IS_MM_MASK (sw_is_mm ctxt);
   Z.land (sw_ring_bs_addr ctxt) 0xffffffff;
   Z.land (Z.shiftr (sw_ring_bs_addr ctxt) 32) 0xffffffff;
   FIELD_SET SW_IND_CTXT_DATA_W4_VEC_MASK (sw_vec ctxt) .|
   FIELD_SET SW_IND_CTXT_DATA_W4_INT_AGGR_MASK (sw_intr_aggr ctxt) .|
   FIELD_SET SW_IND_CTXT_DATA_W4_DIS_INTR_ON_VF_MASK (sw_dis_intr_on_vf ctxt) .|
   FIELD_SET SW_IND_CTXT_DATA_W4_VIRTIO_EN_MASK (sw_virtio_en ctxt) .|
   FIELD_SET SW_IND_CTXT_DATA_W4_PACK_BYP_OUT_MASK (sw_pack_byp_out ctxt) .|
   FIELD_SET SW_IND_CTXT_DATA_W4_IRQ_BYP_MASK (sw_irq_byp ctxt) .|
   FIELD_SET SW_IND_CTXT_DATA_W4_HOST_ID_MASK (sw_host_id ctxt) .|
   FIELD_SET SW_IND_CTXT_DATA_W4_PASID_L_MASK pasid_l;
   FIELD_SET SW_IND_CTXT_DATA_W5_PASID_H_MASK pasid_h .|
   FIELD_SET SW_IND_CTXT_DATA_W5_PASID_EN_MASK (sw_pasid_en ctxt) .|
   FIELD_SET SW_IND_CTXT_DATA_W5_VIRTIO_DSC_BASE_L_MASK virtio_desc_base_l;
   FIELD_SET SW_IND_CTXT_DATA_W6_VIRTIO_DSC_BASE_M_MASK virtio_desc_base_m;
   FIELD_SET SW_IND_CTXT_DATA_W7_VIRTIO_DSC_BASE_H_MASK virtio_desc_base_h].

Definition eqdma_sw_of_words (ws : list Z) : qdma_descq_sw_ctxt :=
  let w0 := word ws 0 in let w1 := word ws 1 in let w2 := word ws 2 in
  let w3 := word ws 3 in let w4 := word ws 4 in let w5 := word ws 5 in
  let w6 := word ws 6 in
  let pasid_l := FIELD_GET SW_IND_CTXT_DATA_W4_PASID_L_MASK w4 in
  let pasid_h := FIELD_GET SW_IND_CTXT_DATA_W5_PASID_H_MASK w5 in
  let virtio_desc_base_l := FIELD_GET SW_IND_CTXT_DATA_W5_VIRTIO_DSC_BASE_L_MASK w5 in
  let virtio_desc_base_m := FIELD_GET SW_IND_CTXT_DATA_W6_VIRTIO_DSC_BASE_M_MASK w6 in
  let virtio_desc_base_h := FIELD_GET SW_IND_CTXT_DATA_W7_VIRTIO_DSC_BASE_H_MASK w6 in
  {| sw_pidx := u16 (FIELD_GET SW_IND_CTXT_DATA_W0_PIDX_MASK w0);
     sw_irq_arm := u8 (FIELD_GET SW_IND_CTXT_DATA_W0_IRQ_ARM_MASK w0);
     sw_fnc_id := u8 (FIELD_GET SW_IND_CTXT_DATA_W0_FNC_MASK w0);
     sw_qen := u8 (FIELD_GET SW_IND_CTXT_DATA_W1_QEN_MASK w1);
     sw_frcd_en := u8 (FIELD_GET SW_IND_CTXT_DATA_W1_FCRD_EN_MASK w1);
     sw_wbi_chk := u8 (FIELD_GET SW_IND_CTXT_DATA_W1_WBI_CHK_MASK w1);
     sw_wbi_intvl_en := u8 (FIELD_GET SW_IND_CTXT_DATA_W1_WBI_INTVL_EN_MASK w1);
     sw_at := u8 (FIELD_GET SW_IND_CTXT_DATA_W1_AT_MASK w1);
     sw_fetch_max := u8 (FIELD_GET SW_IND_CTXT_DATA_W1_FETCH_MAX_MASK w1);
     sw_rngsz_idx := u8 (FIELD_GET SW_IND_CTXT_DATA_W1_RNG_SZ_MASK w1);
     sw_desc_sz := u8 (FIELD_GET SW_IND_CTXT_DATA_W1_DSC_SZ_MASK w1);
     sw_bypass := u8 (FIELD_GET SW_IND_CTXT_DATA_W1_BYPASS_MASK w1);
     sw_mm_chn := u8 (FIELD_GET SW_IND_CTXT_DATA_W1_MM_CHN_MASK w1);
     sw_wbk_en := u8 (FIELD_GET SW_IND_CTXT_DATA_W1_WBK_EN_MASK w1);
     sw_irq_en := u8 (FIELD_GET SW_IND_CTXT_DATA_W1_IRQ_EN_MASK w1);
     sw_port_id := u8 (FIELD_GET SW_IND_CTXT_DATA_W1_PORT_ID_MASK w1);
     sw_irq_no_last := u8 (FIELD_GET SW_IND_CTXT_DATA_W1_IRQ_NO_LAST_MASK w1);
     sw_err := u8 (FIELD_GET SW_IND_CTXT_DATA_W1_ERR_MASK w1);
     sw_err_wb_sent := u8 (FIELD_GET SW_IND_CTXT_DATA_W1_ERR_WB_SENT_MASK w1);
     sw_irq_req := u8 (FIELD_GET SW_IND_CTXT_DATA_W1_IRQ_REQ_MASK w1);
     sw_mrkr_dis := u8 (FIELD_GET SW_IND_CTXT_DATA_W1_MRKR_DIS_MASK w1);
     sw_is_mm := u8 (FIELD_GET SW_IND_CTXT_DATA_W1_IS_MM_MASK w1);
     sw_ring_bs_addr := Z.lor (Z.shiftl w3 32) w2;
     sw_vec := u16 (FIELD_GET SW_IND_CTXT_DATA_W4_VEC_MASK w4);
     sw_intr_aggr := u8 (FIELD_GET SW_IND_CTXT_DATA_W4_INT_AGGR_MASK w4);
     sw_dis_intr_on_vf := u8 (FIELD_GET SW_IND_CTXT_DATA_W4_DIS_INTR_ON_VF_MASK w4);
     sw_virtio_en := u8 (FIELD_GET SW_IND_CTXT_DATA_W4_VIRTIO_EN_MASK w4);
     sw_pack_byp_out := u8 (FIELD_GET SW_IND_CTXT_DATA_W4_PACK_BYP_OUT_MASK w4);
     sw_irq_byp := u8 (FIELD_GET SW_IND_CTXT_DATA_W4_IRQ_BYP_MASK w4);
     sw_host_id := u8 (FIELD_GET SW_IND_CTXT_DATA_W4_HOST_ID_MASK w4);
     sw_pasid_en := u8 (FIELD_GET SW_IND_CTXT_DATA_W5_PASID_EN_MASK w5);
     sw_pasid := FIELD_SET EQDMA_SW_CTXT_PASID_GET_L_MASK pasid_l .|
       FIELD_SET EQDMA_SW_CTXT_PASID_GET_H_MASK pasid_h;
     sw_virtio_dsc_base := FIELD_SET EQDMA_SW_CTXT_VIRTIO_DSC_BASE_GET_L_MASK virtio_desc_base_l .|
       FIELD_SET EQDMA_SW_CTXT_VIRTIO_DSC_BASE_GET_M_MASK virtio_desc_base_m .|
       FIELD_SET EQDMA_SW_CTXT_VIRTIO_DSC_BASE_GET_H_MASK virtio_desc_base_h |}.

Definition eqdma_sw_context_write (dev_hndl : bool) (c2h hw_qid : Z) (ctxt : option qdma_descq_sw_ctxt) : hwm dev Z :=
  match dev_hndl, ctxt with
  | true, Some ctxt => eqdma_indirect_reg_write (sw_sel c2h) hw_qid (eqdma_sw_words ctxt)
  | _, _ => mret INV_PARAM
  end.

Definition eqdma_sw_context_read (dev_hndl : bool) (c2h hw_qid : Z) (ctxt : option qdma_descq_sw_ctxt) :
    hwm dev (Z * option qdma_descq_sw_ctxt) :=
  match dev_hndl, ctxt with
  | true, Some old =>
      r ← eqdma_indirect_reg_read (sw_sel c2h) hw_qid (Z.to_nat EQDMA_SW_CONTEXT_NUM_WORDS);
      if r.1 <? 0 then mret (r.1, Some old) else mret (QDMA_SUCCESS, Some (eqdma_sw_of_words r.2))
  | _, _ => mret (INV_PARAM, ctxt)
  end.

Definition eqdma_sw_context_clear (dev_hndl : bool) (c2h hw_qid : Z) : hwm dev Z :=
  if negb dev_hndl then mret INV_PARAM else eqdma_indirect_reg_clear (sw_sel c2h) hw_qid.

Definition eqdma_sw_context_invalidate (dev_hndl : bool) (c2h hw_qid : Z) : hwm dev Z :=
  if negb dev_hndl then mret INV_PARAM else eqdma_indirect_reg_invalidate (sw_sel c2h) hw_qid.

Definition eqdma_sw_ctx_conf (dev_hndl : bool) (c2h hw_qid : Z) (ctxt : option qdma_descq_sw_ctxt)
    (access_type : qdma_hw_access_type) : hwm dev (Z * option qdma_descq_sw_ctxt) :=
  match access_type with
  | QDMA_HW_ACCESS_READ => eqdma_sw_context_read dev_hndl c2h hw_qid ctxt
  | QDMA_HW_ACCESS_WRITE => rv ← eqdma_sw_context_write dev_hndl c2h hw_qid ctxt; mret (rv, ctxt)
  | QDMA_HW_ACCESS_CLEAR => rv ← eqdma_sw_context_clear dev_hndl c2h hw_qid; mret (rv, ctxt)
  | QDMA_HW_ACCESS_INVALIDATE => rv ← eqdma_sw_context_invalidate dev_hndl c2h hw_qid; mret (rv, ctxt)
  | QDMA_HW_ACCESS_MAX => mret (INV_PARAM, ctxt)
  end.

(** ** Prefetch context *)

Definition eqdma_pfetch_words (ctxt : qdma_descq_prefetch_ctxt) : list Z :=
  let sw_crdt_l := FIELD_GET QDMA_PFTCH_CTXT_SW_CRDT_GET_L_MASK (pf_sw_crdt ctxt) in
  let sw_crdt_h := FIELD_GET QDMA_PFTCH_CTXT_SW_CRDT_GET_H_MASK (pf_sw_crdt ctxt) in
  [FIELD_SET PREFETCH_CTXT_DATA_W0_BYPASS_MASK (pf_bypass ctxt) .|
   FIELD_SET PREFETCH_CTXT_DATA_W0_BUF_SZ_IDX_MASK (pf_bufsz_idx ctxt) .|
   FIELD_SET PREFETCH_CTXT_DATA_W0_PORT_ID_MASK (pf_port_id ctxt) .|
   FIELD_SET PREFETCH_CTXT_DATA_W0_NUM_PFCH_MASK (pf_num_pftch ctxt) .|
   FIELD_SET PREFETCH_CTXT_DATA_W0_VAR_DESC_MASK (pf_var_desc ctxt) .|
   FIELD_SET PREFETCH_CTXT_DATA_W0_ERR_MASK (pf_err ctxt) .|
   FIELD_SET PREFETCH_CTXT_DATA_W0_PFCH_EN_MASK (pf_pfch_en ctxt) .|
   FIELD_SET PREFETCH_CTXT_DATA_W0_PFCH_MASK (pf_pfch ctxt) .|
   FIELD_SET PREFETCH_CTXT_DATA_W0_SW_CRDT_L_MASK sw_crdt_l;
   FIELD_SET PREFETCH_CTXT_DATA_W1_SW_CRDT_H_MASK sw_crdt_h .|
   FIELD_SET PREFETCH_CTXT_DATA_W1_VALID_MASK (pf_valid ctxt)].

Definition eqdma_pfetch_of_words (ws : list Z) : qdma_descq_prefetch_ctxt :=
  let w0 := word ws 0 in let w1 := word ws 1 in
  let sw_crdt_l := FIELD_GET PREFETCH_CTXT_DATA_W0_SW_CRDT_L_MASK w0 in
  let sw_crdt_h := FIELD_GET PREFETCH_CTXT_DATA_W1_SW_CRDT_H_MASK w1 in
  {| pf_bypass := u8 (FIELD_GET PREFETCH_CTXT_DATA_W0_BYPASS_MASK w0);
     pf_bufsz_idx := u8 (FIELD_GET PREFETCH_CTXT_DATA_W0_BUF_SZ_IDX_MASK w0);
     pf_num_pftch := u16 (FIELD_GET PREFETCH_CTXT_DATA_W0_NUM_PFCH_MASK w0);
     pf_port_id := u8 (FIELD_GET PREFETCH_CTXT_DATA_W0_PORT_ID_MASK w0);
     pf_var_desc := u8 (FIELD_GET PREFETCH_CTXT_DATA_W0_VAR_DESC_MASK w0);
     pf_err := u8 (FIELD_GET PREFETCH_CTXT_DATA_W0_ERR_MASK w0);
     pf_pfch_en := u8 (FIELD_GET PREFETCH_CTXT_DATA_W0_PFCH_EN_MASK w0);
     pf_pfch := u8 (FIELD_GET PREFETCH_CTXT_DATA_W0_PFCH_MASK w0);
     pf_valid := u8 (FIELD_GET PREFETCH_CTXT_DATA_W1_VALID_MASK w1);
     pf_sw_crdt := u16 (FIELD_SET QDMA_PFTCH_CTXT_SW_CRDT_GET_L_MASK sw_crdt_l .|
       FIELD_SET QDMA_PFTCH_CTXT_SW_CRDT_GET_H_MASK sw_crdt_h) |}.

Definition eqdma_pfetch_context_write (dev_hndl : bool) (hw_qid : Z) (ctxt : option qdma_descq_prefetch_ctxt) : hwm dev Z :=
  match dev_hndl, ctxt with
  | true, Some ctxt => eqdma_indirect_reg_write QDMA_CTXT_SEL_PFTCH hw_qid (eqdma_pfetch_words ctxt)
  | _, _ => mret INV_PARAM
  end.

Definition eqdma_pfetch_context_read (dev_hndl : bool) (hw_qid : Z) (ctxt : option qdma_descq_prefetch_ctxt) :
    hwm dev (Z * option qdma_descq_prefetch_ctxt) :=
  match dev_hndl, ctxt with
  | true, Some old =>
      r ← eqdma_indirect_reg_read QDMA_CTXT_SEL_PFTCH hw_qid (Z.to_nat EQDMA_PFETCH_CONTEXT_NUM_WORDS);
      if r.1 <? 0 then mret (r.1, Some old) else mret (QDMA_SUCCESS, Some (eqdma_pfetch_of_words r.2))
  | _, _ => mret (INV_PARAM, ctxt)
  end.

Definition eqdma_pfetch_context_clear (dev_hndl : bool) (hw_qid : Z) : hwm dev Z :=
  if negb dev_hndl then mret INV_PARAM else eqdma_indirect_reg_clear QDMA_CTXT_SEL_PFTCH hw_qid.

Definition eqdma_pfetch_context_invalidate (dev_hndl : bool) (hw_qid : Z) : hwm dev Z :=
  if negb dev_hndl then mret INV_PARAM else eqdma_indirect_reg_invalidate QDMA_CTXT_SEL_PFTCH hw_qid.

Definition eqdma_pfetch_ctx_conf (dev_hndl : bool) (hw_qid : Z) (ctxt : option qdma_descq_prefetch_ctxt)
    (access_type : qdma_hw_access_type) : hwm dev (Z * option qdma_descq_prefetch_ctxt) :=
  match access_type with
  | QDMA_HW_ACCESS_READ => eqdma_pfetch_context_read dev_hndl hw_qid ctxt
  | QDMA_HW_ACCESS_WRITE => rv ← eqdma_pfetch_context_write dev_hndl hw_qid ctxt; mret (rv, ctxt)
  | QDMA_HW_ACCESS_CLEAR => rv ← eqdma_pfetch_context_clear dev_hndl hw_qid; mret (rv, ctxt)
  | QDMA_HW_ACCESS_INVALIDATE => rv ← eqdma_pfetch_context_invalidate dev_hndl hw_qid; mret (rv, ctxt)
  | QDMA_HW_ACCESS_MAX => mret (INV_PARAM, ctxt)
  end.

(** ** Completion context *)

Definition eqdma_cmpt_words (ctxt : qdma_descq_cmpt_ctxt) : list Z :=
  let baddr4_high_l := u32 (FIELD_GET EQDMA_COMPL_CTXT_BADDR_HIGH_L_MASK (cmpt_bs_addr ctxt)) in
  let baddr4_high_h := u32 (FIELD_GET EQDMA_COMPL_CTXT_BADDR_HIGH_H_MASK (cmpt_bs_addr ctxt)) in
  let baddr4_low := u32 (FIELD_GET EQDMA_COMPL_CTXT_BADDR_LOW_MASK (cmpt_bs_addr ctxt)) in
  let pidx_l := FIELD_GET QDMA_COMPL_CTXT_PIDX_GET_L_MASK (cmpt_pidx ctxt) in
  let pidx_h := FIELD_GET QDMA_COMPL_CTXT_PIDX_GET_H_MASK (cmpt_pidx ctxt) in
  let pasid_l := FIELD_GET EQDMA_CMPL_CTXT_PASID_GET_L_MASK (cmpt_pasid ctxt) in
  let pasid_h := FIELD_GET EQDMA_CMPL_CTXT_PASID_GET_H_MASK (cmpt_pasid ctxt) in
  [FIELD_SET CMPL_CTXT_DATA_W0_EN_STAT_DESC_MASK (cmpt_en_stat_desc ctxt) .|
   FIELD_SET CMPL_CTXT_DATA_W0_EN_INT_MASK (cmpt_en_int ctxt) .|
   FIELD_SET CMPL_CTXT_DATA_W0_TRIG_MODE_MASK (cmpt_trig_mode ctxt) .|
   FIELD_SET CMPL_CTXT_DATA_W0_FNC_ID_MASK (cmpt_fnc_id ctxt) .|
   FIELD_SET CMPL_CTXT_DATA_W0_CNTER_IX_MASK (cmpt_counter_idx ctxt) .|
   FIELD_SET CMPL_CTXT_DATA_W0_TIMER_IX_MASK (cmpt_timer_idx ctxt) .|
   FIELD_SET CMPL_CTXT_DATA_W0_INT_ST_MASK (cmpt_in_st ctxt) .|
   FIELD_SET CMPL_CTXT_DATA_W0_COLOR_MASK (cmpt_color ctxt) .|
   FIELD_SET CMPL_CTXT_DATA_W0_QSIZE_IX_MASK (cmpt_ringsz_idx ctxt);
   FIELD_SET CMPL_CTXT_DATA_W1_BADDR4_HIGH_L_MASK baddr4_high_l;
   FIELD_SET CMPL_CTXT_DATA_W2_BADDR4_HIGH_H_MASK baddr4_high_h .|
   FIELD_SET CMPL_CTXT_DATA_W2_DESC_SIZE_MASK (cmpt_desc_sz ctxt) .|
   FIELD_SET CMPL_CTXT_DATA_W2_PIDX_L_MASK pidx_l;
   FIELD_SET CMPL_CTXT_DATA_W3_PIDX_H_MASK pidx_h .|
   FIELD_SET CMPL_CTXT_DATA_W3_CIDX_MASK (cmpt_cidx ctxt) .|
   FIELD_SET CMPL_CTXT_DATA_W3_VALID_MASK (cmpt_valid ctxt) .|
   FIELD_SET CMPL_CTXT_DATA_W3_ERR_MASK (cmpt_err ctxt) .|
   FIELD_SET CMPL_CTXT_DATA_W3_USER_TRIG_PEND_MASK (cmpt_user_trig_pend ctxt);
   FIELD_SET CMPL_CTXT_DATA_W4_TIMER_RUNNING_MASK (cmpt_timer_running ctxt) .|
   FIELD_SET CMPL_CTXT_DATA_W4_FULL_UPD_MASK (cmpt_full_upd ctxt) .|
   FIELD_SET CMPL_CTXT_DATA_W4_OVF_CHK_DIS_MASK (cmpt_ovf_chk_dis ctxt) .|
   FIELD_SET CMPL_CTXT_DATA_W4_AT_MASK (cmpt_at ctxt) .|
   FIELD_SET CMPL_CTXT_DATA_W4_VEC_MASK (cmpt_vec ctxt) .|
   FIELD_SET CMPL_CTXT_DATA_W4_INT_AGGR_MASK (cmpt_int_aggr ctxt) .|
   FIELD_SET CMPL_CTXT_DATA_W4_DIS_INTR_ON_VF_MASK (cmpt_dis_intr_on_vf ctxt) .|
   FIELD_SET CMPL_CTXT_DATA_W4_VIO_MASK (cmpt_vio ctxt) .|
   FIELD_SET CMPL_CTXT_DATA_W4_DIR_C2H_MASK (cmpt_dir_c2h ctxt) .|
   FIELD_SET CMPL_CTXT_DATA_W4_HOST_ID_MASK (cmpt_host_id ctxt) .|
   FIELD_SET CMPL_CTXT_DATA_W4_PASID_L_MASK pasid_l;
   FIELD_SET CMPL_CTXT_DATA_W5_PASID_H_MASK pasid_h .|
   FIELD_SET CMPL_CTXT_DATA_W5_PASID_EN_MASK (cmpt_pasid_en ctxt) .|
   FIELD_SET CMPL_CTXT_DATA_W5_BADDR4_LOW_MASK baddr4_low .|
   FIELD_SET CMPL_CTXT_DATA_W5_VIO_EOP_MASK (cmpt_vio_eop ctxt) .|
   FIELD_SET CMPL_CTXT_DATA_W5_SH_CMPT_MASK (cmpt_sh_cmpt ctxt)].

Definition eqdma_cmpt_of_words (ws : list Z) : qdma_descq_cmpt_ctxt :=
  let w0 := word ws 0 in let w1 := word ws 1 in let w2 := word ws 2 in
  let w3 := word ws 3 in let w4 := word ws 4 in let w5 := word ws 5 in
  let baddr4_high_l := FIELD_GET CMPL_CTXT_DATA_W1_BADDR4_HIGH_L_MASK w1 in
  let baddr4_high_h := FIELD_GET CMPL_CTXT_DATA_W2_BADDR4_HIGH_H_MASK w2 in
  let pidx_l := FIELD_GET CMPL_CTXT_DATA_W2_PIDX_L_MASK w2 in
  let pidx_h := FIELD_GET CMPL_CTXT_DATA_W3_PIDX_H_MASK w3 in
  let pasid_l := FIELD_GET CMPL_CTXT_DATA_W4_PASID_L_MASK w4 in
  let pasid_h := u32 (FIELD_GET CMPL_CTXT_DATA_W5_PASID_H_MASK w5) in
  let baddr4_low := u8 (FIELD_GET CMPL_CTXT_DATA_W5_BADDR4_LOW_MASK w5) in
  {| cmpt_en_stat_desc := u8 (FIELD_GET CMPL_CTXT_DATA_W0_EN_STAT_DESC_MASK w0);
     cmpt_en_int := u8 (FIELD_GET CMPL_CTXT_DATA_W0_EN_INT_MASK w0);
     cmpt_trig_mode := u8 (FIELD_GET CMPL_CTXT_DATA_W0_TRIG_MODE_MASK w0);
     cmpt_fnc_id := u8 (FIELD_GET CMPL_CTXT_DATA_W0_FNC_ID_MASK w0);
     cmpt_counter_idx := u8 (FIELD_GET CMPL_CTXT_DATA_W0_CNTER_IX_MASK w0);
     cmpt_timer_idx := u8 (FIELD_GET CMPL_CTXT_DATA_W0_TIMER_IX_MASK w0);
     cmpt_in_st := u8 (FIELD_GET CMPL_CTXT_DATA_W0_INT_ST_MASK w0);
     cmpt_color := u8 (FIELD_GET CMPL_CTXT_DATA_W0_COLOR_MASK w0);
     cmpt_ringsz_idx := u8 (FIELD_GET CMPL_CTXT_DATA_W0_QSIZE_IX_MASK w0);
     cmpt_desc_sz := u8 (FIELD_GET CMPL_CTXT_DATA_W2_DESC_SIZE_MASK w2);
     cmpt_cidx := u16 (FIELD_GET CMPL_CTXT_DATA_W3_CIDX_MASK w3);
     cmpt_valid := u8 (FIELD_GET CMPL_CTXT_DATA_W3_VALID_MASK w3);
     cmpt_err := u8 (FIELD_GET CMPL_CTXT_DATA_W3_ERR_MASK w3);
     cmpt_user_trig_pend := u8 (FIELD_GET CMPL_CTXT_DATA_W3_USER_TRIG_PEND_MASK w3);
     cmpt_timer_running := u8 (FIELD_GET CMPL_CTXT_DATA_W4_TIMER_RUNNING_MASK w4);
     cmpt_full_upd := u8 (FIELD_GET CMPL_CTXT_DATA_W4_FULL_UPD_MASK w4);
     cmpt_ovf_chk_dis := u8 (FIELD_GET CMPL_CTXT_DATA_W4_OVF_CHK_DIS_MASK w4);
     cmpt_at := u8 (FIELD_GET CMPL_CTXT_DATA_W4_AT_MASK w4);
     cmpt_vec := u16 (FIELD_GET CMPL_CTXT_DATA_W4_VEC_MASK w4);
     cmpt_int_aggr := u8 (FIELD_GET CMPL_CTXT_DATA_W4_INT_AGGR_MASK w4);
     cmpt_dis_intr_on_vf := u8 (FIELD_GET CMPL_CTXT_DATA_W4_DIS_INTR_ON_VF_MASK w4);
     cmpt_vio := u8 (FIELD_GET CMPL_CTXT_DATA_W4_VIO_MASK w4);
     cmpt_dir_c2h := u8 (FIELD_GET CMPL_CTXT_DATA_W4_DIR_C2H_MASK w4);
     cmpt_host_id := u8 (FIELD_GET CMPL_CTXT_DATA_W4_HOST_ID_MASK w4);
     cmpt_pasid_en := u8 (FIELD_GET CMPL_CTXT_DATA_W5_PASID_EN_MASK w5);
     cmpt_vio_eop := u8 (FIELD_GET CMPL_CTXT_DATA_W5_VIO_EOP_MASK w5);
     cmpt_sh_cmpt := u8 (FIELD_GET CMPL_CTXT_DATA_W5_SH_CMPT_MASK w5);
     cmpt_bs_addr := FIELD_SET EQDMA_COMPL_CTXT_BADDR_HIGH_L_MASK baddr4_high_l .|
       FIELD_SET EQDMA_COMPL_CTXT_BADDR_HIGH_H_MASK baddr4_high_h .|
       FIELD_SET EQDMA_COMPL_CTXT_BADDR_LOW_MASK baddr4_low;
     cmpt_pasid := FIELD_SET EQDMA_CMPL_CTXT_PASID_GET_L_MASK pasid_l .|
       FIELD_SET EQDMA_CMPL_CTXT_PASID_GET_H_MASK pasid_h;
     cmpt_pidx := u16 (FIELD_SET QDMA_COMPL_CTXT_PIDX_GET_L_MASK pidx_l .|
       FIELD_SET QDMA_COMPL_CTXT_PIDX_GET_H_MASK pidx_h) |}.

Definition eqdma_cmpt_context_write (dev_hndl : bool) (hw_qid : Z) (ctxt : option qdma_descq_cmpt_ctxt) : hwm dev Z :=
  match dev_hndl, ctxt with
  | true, Some ctxt =>
      if cmpt_trig_mode ctxt >? QDMA_CMPT_UPDATE_TRIG_MODE_TMR_CNTR then mret INV_PARAM
      else eqdma_indirect_reg_write QDMA_CTXT_SEL_CMPT hw_qid (eqdma_cmpt_words ctxt)
  | _, _ => mret INV_PARAM
  end.

Definition eqdma_cmpt_context_read (dev_hndl : bool) (hw_qid : Z) (ctxt : option qdma_descq_cmpt_ctxt) :
    hwm dev (Z * option qdma_descq_cmpt_ctxt) :=
  match dev_hndl, ctxt with
  | true, Some old =>
      r ← eqdma_indirect_reg_read QDMA_CTXT_SEL_CMPT hw_qid (Z.to_nat EQDMA_CMPT_CONTEXT_NUM_WORDS);
      if r.1 <? 0 then mret (r.1, Some old) else mret (QDMA_SUCCESS, Some (eqdma_cmpt_of_words r.2))
  | _, _ => mret (INV_PARAM, ctxt)
  end.

Definition eqdma_cmpt_context_clear (dev_hndl : bool) (hw_qid : Z) : hwm dev Z :=
  if negb dev_hndl then mret INV_PARAM else eqdma_indirect_reg_clear QDMA_CTXT_SEL_CMPT hw_qid.

Definition eqdma_cmpt_context_invalidate (dev_hndl : bool) (hw_qid : Z) : hwm dev Z :=
  if negb dev_hndl then mret INV_PARAM else eqdma_indirect_reg_invalidate QDMA_CTXT_SEL_CMPT hw_qid.

Definition eqdma_cmpt_ctx_conf (dev_hndl : bool) (hw_qid : Z) (ctxt : option qdma_descq_cmpt_ctxt)
    (access_type : qdma_hw_access_type) : hwm dev (Z * option qdma_descq_cmpt_ctxt) :=
  match access_type with
  | QDMA_HW_ACCESS_READ => eqdma_cmpt_context_read dev_hndl hw_qid ctxt
  | QDMA_HW_ACCESS_WRITE => rv ← eqdma_cmpt_context_write dev_hndl hw_qid ctxt; mret (rv, ctxt)
  | QDMA_HW_ACCESS_CLEAR => rv ← eqdma_cmpt_context_clear dev_hndl hw_qid; mret (rv, ctxt)
  | QDMA_HW_ACCESS_INVALIDATE => rv ← eqdma_cmpt_context_invalidate dev_hndl hw_qid; mret (rv, ctxt)
  | QDMA_HW_ACCESS_MAX => mret (INV_PARAM, ctxt)
  end.

(** ** Hardware context *)

Definition eqdma_hw_of_words (ws : list Z) : qdma_descq_hw_ctxt :=
  let w0 := word ws 0 in let w1 := word ws 1 in
  {| hwc_cidx := u16 (FIELD_GET HW_IND_CTXT_DATA_W0_CIDX_MASK w0);
     hwc_crd_use := u16 (FIELD_GET HW_IND_CTXT_DATA_W0_CRD_USE_MASK w0);
     hwc_dsc_pend := u8 (FIELD_GET HW_IND_CTXT_DATA_W1_DSC_PND_MASK w1);
     hwc_idl_stp_b := u8 (FIELD_GET HW_IND_CTXT_DATA_W1_IDL_STP_B_MASK w1);
     hwc_evt_pnd := u8 (FIELD_GET HW_IND_CTXT_DATA_W1_EVT_PND_MASK w1);
     hwc_fetch_pnd := u8 (FIELD_GET HW_IND_CTXT_DATA_W1_DSC_PND_MASK w1) |}.

Definition eqdma_hw_context_read (dev_hndl : bool) (c2h hw_qid : Z) (ctxt : option qdma_descq_hw_ctxt) :
    hwm dev (Z * option qdma_descq_hw_ctxt) :=
  match dev_hndl, ctxt with
  | true, Some old =>
      r ← eqdma_indirect_reg_read (hw_sel c2h) hw_qid (Z.to_nat EQDMA_HW_CONTEXT_NUM_WORDS);
      if r.1 <? 0 then mret (r.1, Some old) else mret (QDMA_SUCCESS, Some (eqdma_hw_of_words r.2))
  | _, _ => mret (INV_PARAM, ctxt)
  end.

Definition eqdma_hw_context_clear (dev_hndl : bool) (c2h hw_qid : Z) : hwm dev Z :=
  if negb dev_hndl then mret INV_PARAM else eqdma_indirect_reg_clear (hw_sel c2h) hw_qid.

Definition eqdma_hw_context_invalidate (dev_hndl : bool) (c2h hw_qid : Z) : hwm dev Z :=
  if negb dev_hndl then mret INV_PARAM else eqdma_indirect_reg_invalidate (hw_sel c2h) hw_qid.

Definition eqdma_hw_ctx_conf (dev_hndl : bool) (c2h hw_qid : Z) (ctxt : option qdma_descq_hw_ctxt)
    (access_type : qdma_hw_access_type) : hwm dev (Z * option qdma_descq_hw_ctxt) :=
  if c2h >? 1 then mret (INV_PARAM, ctxt)
  else
  match access_type with
    | QDMA_HW_ACCESS_READ => eqdma_hw_context_read dev_hndl c2h hw_qid ctxt
    | QDMA_HW_ACCESS_CLEAR => rv ← eqdma_hw_context_clear dev_hndl c2h hw_qid; mret (rv, ctxt)
    | QDMA_HW_ACCESS_INVALIDATE => rv ← eqdma_hw_context_invalidate dev_hndl c2h hw_qid; mret (rv, ctxt)
    | QDMA_HW_ACCESS_WRITE | QDMA_HW_ACCESS_MAX => mret (INV_PARAM, ctxt)
    end.

(** ** Credit context *)

Definition eqdma_credit_of_words (ws : list Z) : qdma_descq_credit_ctxt :=
  let w0 := word ws 0 in
  {| cr_credit := FIELD_GET CRED_CTXT_DATA_W0_CREDT_MASK w0 |}.

Definition eqdma_credit_context_read (dev_hndl : bool) (c2h hw_qid : Z) (ctxt : option qdma_descq_credit_ctxt) :
    hwm dev (Z * option qdma_descq_credit_ctxt) :=
  match dev_hndl, ctxt with
  | true, Some old =>
      r ← eqdma_indirect_reg_read (cr_sel c2h) hw_qid (Z.to_nat EQDMA_CR_CONTEXT_NUM_WORDS);
      if r.1 <? 0 then mret (r.1, Some old) else mret (QDMA_SUCCESS, Some (eqdma_credit_of_words r.2))
  | _, _ => mret (INV_PARAM, ctxt)
  end.

Definition eqdma_credit_context_clear (dev_hndl : bool) (c2h hw_qid : Z) : hwm dev Z :=
  if negb dev_hndl then mret INV_PARAM else eqdma_indirect_reg_clear (cr_sel c2h) hw_qid.

Definition eqdma_credit_context_invalidate (dev_hndl : bool) (c2h hw_qid : Z) : hwm dev Z :=
  if negb dev_hndl then mret INV_PARAM else eqdma_indirect_reg_invalidate (cr_sel c2h) hw_qid.

Definition eqdma_credit_ctx_conf (dev_hndl : bool) (c2h hw_qid : Z) (ctxt : option qdma_descq_credit_ctxt)
    (access_type : qdma_hw_access_type) : hwm dev (Z * option qdma_descq_credit_ctxt) :=
  if c2h >? 1 then mret (INV_PARAM, ctxt)
  else
  match access_type with
    | QDMA_HW_ACCESS_READ => eqdma_credit_context_read dev_hndl c2h hw_qid ctxt
    | QDMA_HW_ACCESS_CLEAR => rv ← eqdma_credit_context_clear dev_hndl c2h hw_qid; mret (rv, ctxt)
    | QDMA_HW_ACCESS_INVALIDATE => rv ← eqdma_credit_context_invalidate dev_hndl c2h hw_qid; mret (rv, ctxt)
    | QDMA_HW_ACCESS_WRITE | QDMA_HW_ACCESS_MAX => mret (INV_PARAM, ctxt)
    end.

(** ** Interrupt aggregation context *)

Definition eqdma_intr_words (ctxt : qdma_indirect_intr_ctxt) : list Z :=
  let baddr_l := u32 (FIELD_GET QDMA_INTR_CTXT_BADDR_GET_L_MASK (intr_baddr_4k ctxt)) in
  let baddr_m := u32 (FIELD_GET QDMA_INTR_CTXT_BADDR_GET_M_MASK (intr_baddr_4k ctxt)) in
  let baddr_h := u32 (FIELD_GET QDMA_INTR_CTXT_BADDR_GET_H_MASK (intr_baddr_4k ctxt)) in
  let pasid_l := FIELD_GET EQDMA_INTR_CTXT_PASID_GET_L_MASK (intr_pasid ctxt) in
  let pasid_h := FIELD_GET EQDMA_INTR_CTXT_PASID_GET_H_MASK (intr_pasid ctxt) in
  [FIELD_SET INTR_CTXT_DATA_W0_VALID_MASK (intr_valid ctxt) .|
   FIELD_SET INTR_CTXT_DATA_W0_VEC_MASK (intr_vec ctxt) .|
   FIELD_SET INTR_CTXT_DATA_W0_INT_ST_MASK (intr_int_st ctxt) .|
   FIELD_SET INTR_CTXT_DATA_W0_COLOR_MASK (intr_color ctxt) .|
   FIELD_SET INTR_CTXT_DATA_W0_BADDR_4K_L_MASK baddr_l;
   FIELD_SET INTR_CTXT_DATA_W1_BADDR_4K_M_MASK baddr_m;
   FIELD_SET INTR_CTXT_DATA_W2_BADDR_4K_H_MASK baddr_h .|
   FIELD_SET INTR_CTXT_DATA_W2_PAGE_SIZE_MASK (intr_page_size ctxt) .|
   FIELD_SET INTR_CTXT_DATA_W2_PIDX_MASK (intr_pidx ctxt) .|
   FIELD_SET INTR_CTXT_DATA_W2_AT_MASK (intr_at ctxt) .|
   FIELD_SET INTR_CTXT_DATA_W2_HOST_ID_MASK (intr_host_id ctxt) .|
   FIELD_SET INTR_CTXT_DATA_W2_PASID_L_MASK pasid_l;
   FIELD_SET INTR_CTXT_DATA_W3_PASID_H_MASK pasid_h .|
   FIELD_SET INTR_CTXT_DATA_W3_PASID_EN_MASK (intr_pasid_en ctxt) .|
   FIELD_SET INTR_CTXT_DATA_W3_FUNC_MASK (intr_func_id ctxt)].

Definition eqdma_intr_of_words (ws : list Z) : qdma_indirect_intr_ctxt :=
  let w0 := word ws 0 in let w1 := word ws 1 in let w2 := word ws 2 in
  let w3 := word ws 3 in
  let baddr_l := FIELD_GET INTR_CTXT_DATA_W0_BADDR_4K_L_MASK w0 in
  let baddr_m := FIELD_GET INTR_CTXT_DATA_W1_BADDR_4K_M_MASK w1 in
  let baddr_h := FIELD_GET INTR_CTXT_DATA_W2_BADDR_4K_H_MASK w2 in
  let pasid_l := u8 (FIELD_GET INTR_CTXT_DATA_W2_PASID_L_MASK w2) in
  let pasid_h := FIELD_GET INTR_CTXT_DATA_W3_PASID_H_MASK w3 in
  {| intr_valid := u8 (FIELD_GET INTR_CTXT_DATA_W0_VALID_MASK w0);
     intr_vec := u16 (FIELD_GET INTR_CTXT_DATA_W0_VEC_MASK w0);
     intr_int_st := u8 (FIELD_GET INTR_CTXT_DATA_W0_INT_ST_MASK w0);
     intr_color := u8 (FIELD_GET INTR_CTXT_DATA_W0_COLOR_MASK w0);
     intr_page_size := u8 (FIELD_GET INTR_CTXT_DATA_W2_PAGE_SIZE_MASK w2);
     intr_pidx := u16 (FIELD_GET INTR_CTXT_DATA_W2_PIDX_MASK w2);
     intr_at := u8 (FIELD_GET INTR_CTXT_DATA_W2_AT_MASK w2);
     intr_host_id := u8 (FIELD_GET INTR_CTXT_DATA_W2_HOST_ID_MASK w2);
     intr_pasid_en := u8 (FIELD_GET INTR_CTXT_DATA_W3_PASID_EN_MASK w3);
     intr_func_id := u16 (FIELD_GET INTR_CTXT_DATA_W3_FUNC_MASK w3);
     intr_baddr_4k := FIELD_SET QDMA_INTR_CTXT_BADDR_GET_L_MASK baddr_l .|
       FIELD_SET QDMA_INTR_CTXT_BADDR_GET_M_MASK baddr_m .|
       FIELD_SET QDMA_INTR_CTXT_BADDR_GET_H_MASK baddr_h;
     intr_pasid := FIELD_SET EQDMA_INTR_CTXT_PASID_GET_L_MASK pasid_l .|
       FIELD_SET EQDMA_INTR_CTXT_PASID_GET_H_MASK pasid_h |}.

Definition eqdma_indirect_intr_context_write (dev_hndl : bool) (ring_index : Z) (ctxt : option qdma_indirect_intr_ctxt) : hwm dev Z :=
  match dev_hndl, ctxt with
  | true, Some ctxt => eqdma_indirect_reg_write QDMA_CTXT_SEL_INT_COAL ring_index (eqdma_intr_words ctxt)
  | _, _ => mret INV_PARAM
  end.

Definition eqdma_indirect_intr_context_read (dev_hndl : bool) (ring_index : Z) (ctxt : option qdma_indirect_intr_ctxt) :
    hwm dev (Z * option qdma_indirect_intr_ctxt) :=
  match dev_hndl, ctxt with
  | true, Some old =>
      r ← eqdma_indirect_reg_read QDMA_CTXT_SEL_INT_COAL ring_index (Z.to_nat EQDMA_IND_INTR_CONTEXT_NUM_WORDS);
      if r.1 <? 0 then mret (r.1, Some old) else mret (QDMA_SUCCESS, Some (eqdma_intr_of_words r.2))
  | _, _ => mret (INV_PARAM, ctxt)
  end.

Definition eqdma_indirect_intr_context_clear (dev_hndl : bool) (ring_index : Z) : hwm dev Z :=
  if negb dev_hndl then mret INV_PARAM else eqdma_indirect_reg_clear QDMA_CTXT_SEL_INT_COAL ring_index.

Definition eqdma_indirect_intr_context_invalidate (dev_hndl : bool) (ring_index : Z) : hwm dev Z :=
  if negb dev_hndl then mret INV_PARAM else eqdma_indirect_reg_invalidate QDMA_CTXT_SEL_INT_COAL ring_index.

Definition eqdma_indirect_intr_ctx_conf (dev_hndl : bool) (ring_index : Z) (ctxt : option qdma_indirect_intr_ctxt)
    (access_type : qdma_hw_access_type) : hwm dev (Z * option qdma_indirect_intr_ctxt) :=
  match access_type with
  | QDMA_HW_ACCESS_READ => eqdma_indirect_intr_context_read dev_hndl ring_index ctxt
  | QDMA_HW_ACCESS_WRITE => rv ← eqdma_indirect_intr_context_write dev_hndl ring_index ctxt; mret (rv, ctxt)
  | QDMA_HW_ACCESS_CLEAR => rv ← eqdma_indirect_intr_context_clear dev_hndl ring_index; mret (rv, ctxt)
  | QDMA_HW_ACCESS_INVALIDATE =>
      rv ← eqdma_indirect_intr_context_invalidate dev_hndl ring_index; mret (rv, ctxt)
  | QDMA_HW_ACCESS_MAX => mret (INV_PARAM, ctxt)
  end.

(** ** Reading the registers of a group *)

Definition eqdma_read_reg_list (dev_hndl : bool) (is_vf reg_rd_group : Z) (reg_list : bool) :
    hwm dev (Z * option (list qdma_reg_data)) :=
  if is_vf =? 0 then mret (NOT_SUPPORTED, None)
  else if negb dev_hndl then mret (INV_PARAM, None)
  else if negb reg_list then mret (INV_PARAM, None)
  else
    dev_cap ← eqdma_get_dev_cap;
    match eqdma_group_start reg_rd_group with
    | None => mret (INV_PARAM, None)
    | Some reg_start_addr =>
        let '(rv, reg_index) := eqdma_get_reg_entry reg_start_addr in
        if rv <? 0 then mret (rv, None)
        else
          l ← read_dbg_regs dev_cap (drop (Z.to_nat reg_index) eqdma_listed_regs) QDMA_MAX_REGISTER_DUMP;
          mret (rv, Some l)
    end.

(** ** Context memory *)

Definition eqdma_init_ctxt_memory (dev_hndl : bool) : hwm dev Z :=
  if negb dev_hndl then mret INV_PARAM
  else
    dev_info ← eqdma_get_dev_cap;
    rv ← clear_ctxts (init_list dev_info);
    if rv <? 0 then mret rv
    else clear_fmaps (qids_below (num_pfs dev_info));; mret QDMA_SUCCESS.

(** ** User BAR *)

(** The shift is by less than 32: [func_id] is at most 5. *)
Definition eqdma_get_user_bar (dev_hndl : bool) (is_vf func_id : Z) (user_bar : option Z) :
    hwm dev (Z * option Z) :=
  let reg_addr := if nz is_vf then EQDMA_OFFSET_VF_USER_BAR else EQDMA_OFFSET_GLBL2_PF_BARLITE_EXT in
  match dev_hndl, user_bar with
  | true, Some _ =>
      user_bar_id ← qdma_reg_read reg_addr;
      let user_bar_id := Z.land (Z.shiftr user_bar_id (6 * func_id)) 0x3F in
      match find_bar user_bar_id 0 (Z.to_nat QDMA_BAR_NUM) with
      | Some bar => mret (QDMA_SUCCESS, Some bar)
      | None => mret (ERR QDMA_ERR_HWACC_BAR_NOT_FOUND, Some 0)
      end
  | _, _ => mret (INV_PARAM, user_bar)
  end.

(** ** Default configuration *)

(** Returns the return value and [*ip_version]. *)
Definition eqdma_get_ip_version (dev_hndl : bool) (is_vf : Z) (ip_version : Z) : hwm dev (Z * Z) :=
  let reg_addr := if nz is_vf then EQDMA_OFFSET_VF_VERSION else EQDMA_GLBL2_MISC_CAP_ADDR in
  if negb dev_hndl then mret (INV_PARAM, ip_version)
  else
    ver_reg_val ← qdma_reg_read reg_addr;
    if negb (nz is_vf) then mret (QDMA_SUCCESS, FIELD_GET EQDMA_GLBL2_IP_VERSION_MASK ver_reg_val)
    else mret (QDMA_SUCCESS, FIELD_GET EQDMA_GLBL2_VF_IP_VERSION_MASK ver_reg_val).

(** The writeback interval and the fetch limits, and the H2C throttle, of a
    version of the IP; [None]: the version is not known. *)
Definition eqdma_dsc_cfg (eqdma_ip_version : Z) : option Z :=
  if eqdma_ip_version =? EQDMA_IP_VERSION_4 then
    Some (FIELD_SET GLBL_DSC_CFG_MAXFETCH_MASK DEFAULT_MAX_DSC_FETCH .|
          FIELD_SET GLBL_DSC_CFG_WB_ACC_INT_MASK DEFAULT_WRB_INT)
  else if eqdma_ip_version =? EQDMA_IP_VERSION_5 then
    Some (FIELD_SET GLBL_DSC_CFG_H2C_UODSC_LIMIT_MASK EQDMA5_DEFAULT_H2C_UODSC_LIMIT .|
          FIELD_SET GLBL_DSC_CFG_MAXFETCH_MASK EQDMA5_DEFAULT_MAX_DSC_FETCH .|
          FIELD_SET GLBL_DSC_CFG_WB_ACC_INT_MASK EQDMA5_DEFAULT_WRB_INT)
  else None.

Definition eqdma_h2c_throttle (eqdma_ip_version : Z) : option Z :=
  if eqdma_ip_version =? EQDMA_IP_VERSION_4 then
    Some (FIELD_SET H2C_REQ_THROT_PCIE_DATA_THRESH_MASK EQDMA_H2C_THROT_DATA_THRESH .|
          FIELD_SET H2C_REQ_THROT_PCIE_EN_DATA_MASK EQDMA_THROT_EN_DATA .|
          FIELD_SET H2C_REQ_THROT_PCIE_MASK EQDMA_H2C_THROT_REQ_THRESH .|
          FIELD_SET H2C_REQ_THROT_PCIE_EN_REQ_MASK EQDMA_THROT_EN_REQ)
  else if eqdma_ip_version =? EQDMA_IP_VERSION_5 then
    Some (FIELD_SET H2C_REQ_THROT_PCIE_DATA_THRESH_MASK EQDMA5_H2C_THROT_DATA_THRESH .|
          FIELD_SET H2C_REQ_THROT_PCIE_EN_DATA_MASK EQDMA5_THROT_EN_DATA .|
          FIELD_SET H2C_REQ_THROT_PCIE_MASK EQDMA5_H2C_THROT_REQ_THRESH .|
          FIELD_SET H2C_REQ_THROT_PCIE_EN_REQ_MASK EQDMA5_THROT_EN_REQ)
  else None.

Definition eqdma_set_default_global_csr (dev_hndl : bool) : hwm dev Z :=
  if negb dev_hndl then mret INV_PARAM
  else
    dev_cap ← eqdma_get_dev_cap;
    r ← eqdma_get_ip_version true 0 0;
    if negb (r.1 =? QDMA_SUCCESS) then mret r.1
    else
      let eqdma_ip_version := r.2 in
      qdma_write_csr_values EQDMA_GLBL_RNG_SZ_1_ADDR 0 rng_sz;;
      rv ←
        (if st_or_mm_cmpt dev_cap then
           qdma_write_csr_values EQDMA_C2H_CNT_TH_ADDR 0 cnt_th;;
           qdma_write_csr_values EQDMA_C2H_TIMER_CNT_ADDR 0 tmr_cnt;;
           match eqdma_dsc_cfg eqdma_ip_version with
           | Some reg_val => qdma_reg_write EQDMA_GLBL_DSC_CFG_ADDR reg_val;; mret QDMA_SUCCESS
           | None => mret INV_PARAM
           end
         else mret QDMA_SUCCESS);
      if rv <? 0 then mret rv
      else if nz (st_en dev_cap) then
        qdma_write_csr_values EQDMA_C2H_BUF_SZ_ADDR 0 buf_sz;;
        reg_val ← qdma_reg_read EQDMA_C2H_PFCH_CACHE_DEPTH_ADDR;
        let cfg_val := FIELD_GET C2H_PFCH_CACHE_DEPTH_MASK reg_val in
        qdma_reg_write EQDMA_C2H_PFCH_CFG_1_ADDR
          (FIELD_SET C2H_PFCH_CFG_1_QCNT_MASK (Z.shiftr cfg_val 2) .|
           FIELD_SET C2H_PFCH_CFG_1_EVT_QCNT_TH_MASK (u32 (Z.shiftr cfg_val 2 - 4)));;
        reg_val ← qdma_reg_read EQDMA_C2H_PFCH_CFG_2_ADDR;
        qdma_reg_write EQDMA_C2H_PFCH_CFG_2_ADDR (reg_val .| FIELD_SET C2H_PFCH_CFG_2_FENCE_MASK 1);;
        qdma_reg_write EQDMA_C2H_INT_TIMER_TICK_ADDR DEFAULT_C2H_INTR_TIMER_TICK;;
        cfg_val ← qdma_reg_read EQDMA_C2H_WRB_COAL_BUF_DEPTH_ADDR;
        qdma_reg_write EQDMA_C2H_WRB_COAL_CFG_ADDR
          (FIELD_SET C2H_WRB_COAL_CFG_TICK_CNT_MASK DEFAULT_CMPT_COAL_TIMER_CNT .|
           FIELD_SET C2H_WRB_COAL_CFG_TICK_VAL_MASK DEFAULT_CMPT_COAL_TIMER_TICK .|
           FIELD_SET C2H_WRB_COAL_CFG_MAX_BUF_SZ_MASK cfg_val);;
        match eqdma_h2c_throttle eqdma_ip_version with
        | Some reg_val => qdma_reg_write EQDMA_H2C_REQ_THROT_PCIE_ADDR reg_val;; mret QDMA_SUCCESS
        | None => mret INV_PARAM
        end
      else mret QDMA_SUCCESS.
End access.

(** ** Contexts the hardware can hold

    A value fits its field; the completion and interrupt rings are aligned. *)

Record eqdma_fmap_wf (c : qdma_fmap_cfg) : Prop := {
  eff_qbase : fits EQDMA_FMAP_CTXT_W0_QID_MASK (fmap_qbase c);
  eff_qmax : fits EQDMA_FMAP_CTXT_W1_QID_MAX_MASK (fmap_qmax c);
}.

Record eqdma_sw_wf (c : qdma_descq_sw_ctxt) : Prop := {
  esf_addr : is_u 64 (sw_ring_bs_addr c);
  esf_fnc8 : is_u 8 (sw_fnc_id c);
  esf_pasid : is_u 22 (sw_pasid c);
  esf_virtio : is_u 64 (sw_virtio_dsc_base c);
  esf_pidx : fits SW_IND_CTXT_DATA_W0_PIDX_MASK (sw_pidx c);
  esf_irq_arm : fits SW_IND_CTXT_DATA_W0_IRQ_ARM_MASK (sw_irq_arm c);
  esf_fnc_id : fits SW_IND_CTXT_DATA_W0_FNC_MASK (sw_fnc_id c);
  esf_qen : fits SW_IND_CTXT_DATA_W1_QEN_MASK (sw_qen c);
  esf_frcd_en : fits SW_IND_CTXT_DATA_W1_FCRD_EN_MASK (sw_frcd_en c);
  esf_wbi_chk : fits SW_IND_CTXT_DATA_W1_WBI_CHK_MASK (sw_wbi_chk c);
  esf_wbi_intvl_en : fits SW_IND_CTXT_DATA_W1_WBI_INTVL_EN_MASK (sw_wbi_intvl_en c);
  esf_at : fits SW_IND_CTXT_DATA_W1_AT_MASK (sw_at c);
  esf_fetch_max : fits SW_IND_CTXT_DATA_W1_FETCH_MAX_MASK (sw_fetch_max c);
  esf_rngsz_idx : fits SW_IND_CTXT_DATA_W1_RNG_SZ_MASK (sw_rngsz_idx c);
  esf_desc_sz : fits SW_IND_CTXT_DATA_W1_DSC_SZ_MASK (sw_desc_sz c);
  esf_bypass : fits SW_IND_CTXT_DATA_W1_BYPASS_MASK (sw_bypass c);
  esf_mm_chn : fits SW_IND_CTXT_DATA_W1_MM_CHN_MASK (sw_mm_chn c);
  esf_wbk_en : fits SW_IND_CTXT_DATA_W1_WBK_EN_MASK (sw_wbk_en c);
  esf_irq_en : fits SW_IND_CTXT_DATA_W1_IRQ_EN_MASK (sw_irq_en c);
  esf_port_id : fits SW_IND_CTXT_DATA_W1_PORT_ID_MASK (sw_port_id c);
  esf_irq_no_last : fits SW_IND_CTXT_DATA_W1_IRQ_NO_LAST_MASK (sw_irq_no_last c);
  esf_err : fits SW_IND_CTXT_DATA_W1_ERR_MASK (sw_err c);
  esf_err_wb_sent : fits SW_IND_CTXT_DATA_W1_ERR_WB_SENT_MASK (sw_err_wb_sent c);
  esf_irq_req : fits SW_IND_CTXT_DATA_W1_IRQ_REQ_MASK (sw_irq_req c);
  esf_mrkr_dis : fits SW_IND_CTXT_DATA_W1_MRKR_DIS_MASK (sw_mrkr_dis c);
  esf_is_mm : fits SW_IND_CTXT_DATA_W1_IS_MM_MASK (sw_is_mm c);
  esf_vec : fits SW_IND_CTXT_DATA_W4_VEC_MASK (sw_vec c);
  esf_intr_aggr : fits SW_IND_CTXT_DATA_W4_INT_AGGR_MASK (sw_intr_aggr c);
  esf_dis_intr_on_vf : fits SW_IND_CTXT_DATA_W4_DIS_INTR_ON_VF_MASK (sw_dis_intr_on_vf c);
  esf_virtio_en : fits SW_IND_CTXT_DATA_W4_VIRTIO_EN_MASK (sw_virtio_en c);
  esf_pack_byp_out : fits SW_IND_CTXT_DATA_W4_PACK_BYP_OUT_MASK (sw_pack_byp_out c);
  esf_irq_byp : fits SW_IND_CTXT_DATA_W4_IRQ_BYP_MASK (sw_irq_byp c);
  esf_host_id : fits SW_IND_CTXT_DATA_W4_HOST_ID_MASK (sw_host_id c);
  esf_pasid_en : fits SW_IND_CTXT_DATA_W5_PASID_EN_MASK (sw_pasid_en c);
}.

Record eqdma_pfetch_wf (c : qdma_descq_prefetch_ctxt) : Prop := {
  epf_crdt : is_u 16 (pf_sw_crdt c);
  epf_bypass : fits PREFETCH_CTXT_DATA_W0_BYPASS_MASK (pf_bypass c);
  epf_bufsz_idx : fits PREFETCH_CTXT_DATA_W0_BUF_SZ_IDX_MASK (pf_bufsz_idx c);
  epf_port_id : fits PREFETCH_CTXT_DATA_W0_PORT_ID_MASK (pf_port_id c);
  epf_num_pftch : fits PREFETCH_CTXT_DATA_W0_NUM_PFCH_MASK (pf_num_pftch c);
  epf_var_desc : fits PREFETCH_CTXT_DATA_W0_VAR_DESC_MASK (pf_var_desc c);
  epf_err : fits PREFETCH_CTXT_DATA_W0_ERR_MASK (pf_err c);
  epf_pfch_en : fits PREFETCH_CTXT_DATA_W0_PFCH_EN_MASK (pf_pfch_en c);
  epf_pfch : fits PREFETCH_CTXT_DATA_W0_PFCH_MASK (pf_pfch c);
  epf_valid : fits PREFETCH_CTXT_DATA_W1_VALID_MASK (pf_valid c);
}.

Record eqdma_cmpt_wf (c : qdma_descq_cmpt_ctxt) : Prop := {
  ecf_addr : is_u 64 (cmpt_bs_addr c);
  ecf_align : cmpt_bs_addr c mod 4 = 0;
  ecf_pidx : is_u 16 (cmpt_pidx c);
  ecf_fnc8 : is_u 8 (cmpt_fnc_id c);
  ecf_pasid : is_u 22 (cmpt_pasid c);
  ecf_trig : cmpt_trig_mode c <= QDMA_CMPT_UPDATE_TRIG_MODE_TMR_CNTR;
  ecf_en_stat_desc : fits CMPL_CTXT_DATA_W0_EN_STAT_DESC_MASK (cmpt_en_stat_desc c);
  ecf_en_int : fits CMPL_CTXT_DATA_W0_EN_INT_MASK (cmpt_en_int c);
  ecf_trig_mode : fits CMPL_CTXT_DATA_W0_TRIG_MODE_MASK (cmpt_trig_mode c);
  ecf_fnc_id : fits CMPL_CTXT_DATA_W0_FNC_ID_MASK (cmpt_fnc_id c);
  ecf_counter_idx : fits CMPL_CTXT_DATA_W0_CNTER_IX_MASK (cmpt_counter_idx c);
  ecf_timer_idx : fits CMPL_CTXT_DATA_W0_TIMER_IX_MASK (cmpt_timer_idx c);
  ecf_in_st : fits CMPL_CTXT_DATA_W0_INT_ST_MASK (cmpt_in_st c);
  ecf_color : fits CMPL_CTXT_DATA_W0_COLOR_MASK (cmpt_color c);
  ecf_ringsz_idx : fits CMPL_CTXT_DATA_W0_QSIZE_IX_MASK (cmpt_ringsz_idx c);
  ecf_desc_sz : fits CMPL_CTXT_DATA_W2_DESC_SIZE_MASK (cmpt_desc_sz c);
  ecf_cidx : fits CMPL_CTXT_DATA_W3_CIDX_MASK (cmpt_cidx c);
  ecf_valid : fits CMPL_CTXT_DATA_W3_VALID_MASK (cmpt_valid c);
  ecf_err : fits CMPL_CTXT_DATA_W3_ERR_MASK (cmpt_err c);
  ecf_user_trig_pend : fits CMPL_CTXT_DATA_W3_USER_TRIG_PEND_MASK (cmpt_user_trig_pend c);
  ecf_timer_running : fits CMPL_CTXT_DATA_W4_TIMER_RUNNING_MASK (cmpt_timer_running c);
  ecf_full_upd : fits CMPL_CTXT_DATA_W4_FULL_UPD_MASK (cmpt_full_upd c);
  ecf_ovf_chk_dis : fits CMPL_CTXT_DATA_W4_OVF_CHK_DIS_MASK (cmpt_ovf_chk_dis c);
  ecf_at : fits CMPL_CTXT_DATA_W4_AT_MASK (cmpt_at c);
  ecf_vec : fits CMPL_CTXT_DATA_W4_VEC_MASK (cmpt_vec c);
  ecf_int_aggr : fits CMPL_CTXT_DATA_W4_INT_AGGR_MASK (cmpt_int_aggr c);
  ecf_dis_intr_on_vf : fits CMPL_CTXT_DATA_W4_DIS_INTR_ON_VF_MASK (cmpt_dis_intr_on_vf c);
  ecf_vio : fits CMPL_CTXT_DATA_W4_VIO_MASK (cmpt_vio c);
  ecf_dir_c2h : fits CMPL_CTXT_DATA_W4_DIR_C2H_MASK (cmpt_dir_c2h c);
  ecf_host_id : fits CMPL_CTXT_DATA_W4_HOST_ID_MASK (cmpt_host_id c);
  ecf_pasid_en : fits CMPL_CTXT_DATA_W5_PASID_EN_MASK (cmpt_pasid_en c);
  ecf_vio_eop : fits CMPL_CTXT_DATA_W5_VIO_EOP_MASK (cmpt_vio_eop c);
  ecf_sh_cmpt : fits CMPL_CTXT_DATA_W5_SH_CMPT_MASK (cmpt_sh_cmpt c);
}.

Record eqdma_intr_wf (c : qdma_indirect_intr_ctxt) : Prop := {
  eif_addr : is_u 64 (intr_baddr_4k c);
  eif_align : intr_baddr_4k c mod 4096 = 0;
  eif_pasid : is_u 22 (intr_pasid c);
  eif_valid : fits INTR_CTXT_DATA_W0_VALID_MASK (intr_valid c);
  eif_vec : fits INTR_CTXT_DATA_W0_VEC_MASK (intr_vec c);
  eif_int_st : fits INTR_CTXT_DATA_W0_INT_ST_MASK (intr_int_st c);
  eif_color : fits INTR_CTXT_DATA_W0_COLOR_MASK (intr_color c);
  eif_page_size : fits INTR_CTXT_DATA_W2_PAGE_SIZE_MASK (intr_page_size c);
  eif_pidx : fits INTR_CTXT_DATA_W2_PIDX_MASK (intr_pidx c);
  eif_at : fits INTR_CTXT_DATA_W2_AT_MASK (intr_at c);
  eif_host_id : fits INTR_CTXT_DATA_W2_HOST_ID_MASK (intr_host_id c);
  eif_pasid_en : fits INTR_CTXT_DATA_W3_PASID_EN_MASK (intr_pasid_en c);
  eif_func_id : fits INTR_CTXT_DATA_W3_FUNC_MASK (intr_func_id c);
}.

(** What is read back: the top eleven bits of the virtio base come from the
    sixth word instead of the seventh. *)
Definition eqdma_sw_held (c : qdma_descq_sw_ctxt) : qdma_descq_sw_ctxt :=
  mk_sw (sw_ring_bs_addr c) (sw_vec c) (sw_pidx c) (sw_irq_arm c) (sw_fnc_id c) (sw_qen c) (sw_frcd_en c)
    (sw_wbi_chk c) (sw_wbi_intvl_en c) (sw_at c) (sw_fetch_max c) (sw_rngsz_idx c) (sw_desc_sz c)
    (sw_bypass c) (sw_mm_chn c) (sw_wbk_en c) (sw_irq_en c) (sw_port_id c) (sw_irq_no_last c) (sw_err c)
    (sw_err_wb_sent c) (sw_irq_req c) (sw_mrkr_dis c) (sw_is_mm c) (sw_intr_aggr c) (sw_pasid_en c)
    (sw_dis_intr_on_vf c) (sw_virtio_en c) (sw_pack_byp_out c) (sw_irq_byp c) (sw_host_id c) (sw_pasid c)
    (virtio_base_read (sw_virtio_dsc_base c)).

(** What is read back: bit 8 of the PASID is lost in a cast to eight bits. *)
Definition eqdma_intr_held (c : qdma_indirect_intr_ctxt) : qdma_indirect_intr_ctxt :=
  mk_intr (intr_baddr_4k c) (intr_vec c) (intr_pidx c) (intr_valid c) (intr_int_st c) (intr_color c)
    (intr_page_size c) (intr_at c) (intr_host_id c) (Z.ldiff (intr_pasid c) 0x100) (intr_pasid_en c)
    (intr_func_id c).

Lemma eqdma_fmap_of_words_words c ws :
  eqdma_fmap_wf c → (∀ i, (i < 2)%nat → word ws i = u32 (word (eqdma_fmap_words c) i)) →
  eqdma_fmap_of_words ws = c.
Proof.
  destruct c; intros [] Hw; simpl in *. unfold eqdma_fmap_of_words. rewrite !Hw by lia.
  unfold word, eqdma_fmap_words. simpl default. f_equal; fields; by wraps.
Qed.

Lemma eqdma_sw_of_words_words c ws :
  eqdma_sw_wf c → (∀ i, (i < 8)%nat → word ws i = u32 (word (eqdma_sw_words c) i)) →
  eqdma_sw_of_words ws = eqdma_sw_held c.
Proof.
  intros [] Hw. unfold eqdma_sw_of_words, eqdma_sw_held. rewrite !Hw by lia.
  unfold word, eqdma_sw_words. simpl default.
  part_fits EQDMA_SW_CTXT_PASID_GET_L_MASK SW_IND_CTXT_DATA_W4_PASID_L_MASK (sw_pasid c).
  part_fits EQDMA_SW_CTXT_PASID_GET_H_MASK SW_IND_CTXT_DATA_W5_PASID_H_MASK (sw_pasid c).
  part_fits EQDMA_SW_CTXT_VIRTIO_DSC_BASE_GET_L_MASK SW_IND_CTXT_DATA_W5_VIRTIO_DSC_BASE_L_MASK
    (sw_virtio_dsc_base c).
  part_fits EQDMA_SW_CTXT_VIRTIO_DSC_BASE_GET_M_MASK SW_IND_CTXT_DATA_W6_VIRTIO_DSC_BASE_M_MASK
    (sw_virtio_dsc_base c).
  f_equal; fields; wraps; fields; wraps; try reflexivity.
  - by apply addr64_split.
  - by rewrite (FIELD_split2 _ _ 22) by (done || mask_compute).
  - by apply virtio_parts.
Qed.

Lemma eqdma_pfetch_of_words_words c ws :
  eqdma_pfetch_wf c → (∀ i, (i < 2)%nat → word ws i = u32 (word (eqdma_pfetch_words c) i)) →
  eqdma_pfetch_of_words ws = c.
Proof.
  intros [] Hw. transitivity (pfetch_keep c c); [|apply pfetch_keep_refl].
  unfold eqdma_pfetch_of_words, pfetch_keep. rewrite !Hw by lia.
  unfold word, eqdma_pfetch_words. simpl default.
  part_fits QDMA_PFTCH_CTXT_SW_CRDT_GET_L_MASK PREFETCH_CTXT_DATA_W0_SW_CRDT_L_MASK
    (pf_sw_crdt c).
  part_fits QDMA_PFTCH_CTXT_SW_CRDT_GET_H_MASK PREFETCH_CTXT_DATA_W1_SW_CRDT_H_MASK
    (pf_sw_crdt c).
  f_equal; fields; wraps; try reflexivity.
  rewrite (FIELD_split2 _ _ 16) by (done || mask_compute). by wraps.
Qed.

Lemma eqdma_cmpt_of_words_words c ws :
  eqdma_cmpt_wf c → (∀ i, (i < 6)%nat → word ws i = u32 (word (eqdma_cmpt_words c) i)) →
  eqdma_cmpt_of_words ws = c.
Proof.
  intros [] Hw. transitivity (cmpt_keep c c); [|apply cmpt_keep_refl].
  unfold eqdma_cmpt_of_words, cmpt_keep. rewrite !Hw by lia.
  unfold word, eqdma_cmpt_words. simpl default.
  part_fits EQDMA_COMPL_CTXT_BADDR_HIGH_L_MASK CMPL_CTXT_DATA_W1_BADDR4_HIGH_L_MASK
    (cmpt_bs_addr c).
  part_fits EQDMA_COMPL_CTXT_BADDR_HIGH_H_MASK CMPL_CTXT_DATA_W2_BADDR4_HIGH_H_MASK
    (cmpt_bs_addr c).
  part_fits EQDMA_COMPL_CTXT_BADDR_LOW_MASK CMPL_CTXT_DATA_W5_BADDR4_LOW_MASK
    (cmpt_bs_addr c).
  part_fits QDMA_COMPL_CTXT_PIDX_GET_L_MASK CMPL_CTXT_DATA_W2_PIDX_L_MASK
    (cmpt_pidx c).
  part_fits QDMA_COMPL_CTXT_PIDX_GET_H_MASK CMPL_CTXT_DATA_W3_PIDX_H_MASK
    (cmpt_pidx c).
  part_fits EQDMA_CMPL_CTXT_PASID_GET_L_MASK CMPL_CTXT_DATA_W4_PASID_L_MASK
    (cmpt_pasid c).
  part_fits EQDMA_CMPL_CTXT_PASID_GET_H_MASK CMPL_CTXT_DATA_W5_PASID_H_MASK
    (cmpt_pasid c).
  f_equal; fields; wraps; fields; wraps; try reflexivity.
  - rewrite !FIELD_SET_GET, <- !Z.land_lor_distr_r by mask_compute.
    by apply (land_low_mask 2); [lia|done..|mask_compute].
  - rewrite (FIELD_split2 _ _ 16) by (done || mask_compute). by wraps.
  - by rewrite (FIELD_split2 _ _ 22) by (done || mask_compute).
Qed.

Lemma eqdma_intr_of_words_words c ws :
  eqdma_intr_wf c → (∀ i, (i < 4)%nat → word ws i = u32 (word (eqdma_intr_words c) i)) →
  eqdma_intr_of_words ws = eqdma_intr_held c.
Proof.
  intros [] Hw. unfold eqdma_intr_of_words, eqdma_intr_held. rewrite !Hw by lia.
  unfold word, eqdma_intr_words. simpl default.
  part_fits QDMA_INTR_CTXT_BADDR_GET_L_MASK INTR_CTXT_DATA_W0_BADDR_4K_L_MASK (intr_baddr_4k c).
  part_fits QDMA_INTR_CTXT_BADDR_GET_M_MASK INTR_CTXT_DATA_W1_BADDR_4K_M_MASK (intr_baddr_4k c).
  part_fits QDMA_INTR_CTXT_BADDR_GET_H_MASK INTR_CTXT_DATA_W2_BADDR_4K_H_MASK (intr_baddr_4k c).
  part_fits EQDMA_INTR_CTXT_PASID_GET_L_MASK INTR_CTXT_DATA_W2_PASID_L_MASK (intr_pasid c).
  part_fits EQDMA_INTR_CTXT_PASID_GET_H_MASK INTR_CTXT_DATA_W3_PASID_H_MASK (intr_pasid c).
  f_equal; fields; wraps; fields; wraps; try reflexivity.
  - rewrite !FIELD_SET_GET, <- !Z.land_lor_distr_r by mask_compute.
    by apply (land_low_mask 12); [lia|done..|mask_compute].
  - by apply pasid_parts.
Qed.
