(* ===== verification/Cpm4Access.v ===== *)
(** * Access layer of the hard IP of Versal CPM4 (qdma_cpm4_access.c)

    What [qdma_hw_access_init] installs for this IP.  It differs from the
    others: four data registers in the indirect block, a function map in plain
    registers, the vectors of a queue in an entry of their own, doorbells at
    other offsets.  Errors and attributes are in [Cpm4Err]. *)

From S2P Require Import Prelude Platform Bits RegIO IndCtxt SoftReg SoftCtxt SoftCtxtThms SoftAccess RegList ErrProc Cpm4Err CtxtTypes.

(** ** Registers and fields *)

Definition QDMA_CPM4_IND_CTXT_CMD_ADDR : Z := 0x824.
Definition IND_CTXT_CMD_BUSY_MASK : Z := BIT 0.
Definition QDMA_CPM4_IND_CTXT_DATA_3_ADDR : Z := 0x804.
Definition QDMA_CPM4_QID2VEC_H2C_VECTOR : Z := GENMASK 16 9.
Definition QDMA_CPM4_QID2VEC_H2C_COAL_EN : Z := BIT 17.
Definition C2H_QID2VEC_MAP_C2H_VECTOR_MASK : Z := GENMASK 7 0.
Definition C2H_QID2VEC_MAP_C2H_EN_COAL_MASK : Z := BIT 8.
Definition QDMA_CPM4_QID2VEC_CONTEXT_NUM_WORDS : Z := 1.
Definition QDMA_CPM4_TRQ_SEL_FMAP_0_ADDR : Z := 0x400.
Definition QDMA_CPM4_REG_TRQ_SEL_FMAP_STEP : Z := 4.
Definition TRQ_SEL_FMAP_0_QID_BASE_MASK : Z := GENMASK 10 0.
Definition TRQ_SEL_FMAP_0_QID_MAX_MASK : Z := GENMASK 22 11.
Definition SW_IND_CTXT_DATA_W0_PIDX_MASK : Z := GENMASK 15 0.
Definition SW_IND_CTXT_DATA_W0_IRQ_ARM_MASK : Z := BIT 16.
Definition SW_IND_CTXT_DATA_W1_QEN_MASK : Z := BIT 0.
Definition SW_IND_CTXT_DATA_W1_FCRD_EN_MASK : Z := BIT 1.
Definition SW_IND_CTXT_DATA_W1_WBI_CHK_MASK : Z := BIT 2.
Definition SW_IND_CTXT_DATA_W1_WBI_INTVL_EN_MASK : Z := BIT 3.
Definition SW_IND_CTXT_DATA_W1_FNC_ID_MASK : Z := GENMASK 11 4.
Definition SW_IND_CTXT_DATA_W1_RNG_SZ_MASK : Z := GENMASK 15 12.
Definition SW_IND_CTXT_DATA_W1_DSC_SZ_MASK : Z := GENMASK 17 16.
Definition SW_IND_CTXT_DATA_W1_BYPASS_MASK : Z := BIT 18.
Definition SW_IND_CTXT_DATA_W1_MM_CHN_MASK : Z := BIT 19.
Definition SW_IND_CTXT_DATA_W1_WBK_EN_MASK : Z := BIT 20.
Definition SW_IND_CTXT_DATA_W1_IRQ_EN_MASK : Z := BIT 21.
Definition SW_IND_CTXT_DATA_W1_PORT_ID_MASK : Z := GENMASK 24 22.
Definition SW_IND_CTXT_DATA_W1_IRQ_NO_LAST_MASK : Z := BIT 25.
Definition SW_IND_CTXT_DATA_W1_ERR_MASK : Z := GENMASK 27 26.
Definition SW_IND_CTXT_DATA_W1_ERR_WB_SENT_MASK : Z := BIT 28.
Definition SW_IND_CTXT_DATA_W1_IRQ_REQ_MASK : Z := BIT 29.
Definition SW_IND_CTXT_DATA_W1_MRKR_DIS_MASK : Z := BIT 30.
Definition SW_IND_CTXT_DATA_W1_IS_MM_MASK : Z := BIT 31.
Definition QDMA_NUM_RING_SIZES : Z := 16.
Definition QDMA_CPM4_SW_CONTEXT_NUM_WORDS : Z := 4.
Definition PREFETCH_CTXT_DATA_W0_BYPASS_MASK : Z := BIT 0.
Definition PREFETCH_CTXT_DATA_W0_BUF_SIZE_IDX_MASK : Z := GENMASK 4 1.
Definition PREFETCH_CTXT_DATA_W0_PORT_ID_MASK : Z := GENMASK 7 5.
Definition PREFETCH_CTXT_DATA_W0_ERR_MASK : Z := BIT 26.
Definition PREFETCH_CTXT_DATA_W0_PFCH_EN_MASK : Z := BIT 27.
Definition PREFETCH_CTXT_DATA_W0_PFCH_MASK : Z := BIT 28.
Definition PREFETCH_CTXT_DATA_W0_SW_CRDT_L_MASK : Z := GENMASK 31 29.
Definition PREFETCH_CTXT_DATA_W1_SW_CRDT_H_MASK : Z := GENMASK 12 0.
Definition PREFETCH_CTXT_DATA_W1_VALID_MASK : Z := BIT 13.
Definition QDMA_CPM4_PFETCH_CONTEXT_NUM_WORDS : Z := 2.
Definition QDMA_CPM4_COMPL_CTXT_BADDR_GET_L_MASK : Z := GENMASK_ULL 9 6.
Definition QDMA_CPM4_COMPL_CTXT_BADDR_GET_M_MASK : Z := GENMASK_ULL 41 10.
Definition QDMA_CPM4_COMPL_CTXT_BADDR_GET_H_MASK : Z := GENMASK_ULL 63 42.
Definition QDMA_CPM4_COMPL_CTXT_PIDX_GET_L_MASK : Z := GENMASK 7 0.
Definition QDMA_CPM4_COMPL_CTXT_PIDX_GET_H_MASK : Z := GENMASK 15 8.
Definition CMPL_CTXT_DATA_W0_EN_STAT_DESC_MASK : Z := BIT 0.
Definition CMPL_CTXT_DATA_W0_EN_INT_MASK : Z := BIT 1.
Definition CMPL_CTXT_DATA_W0_TRIG_MODE_MASK : Z := GENMASK 4 2.
Definition CMPL_CTXT_DATA_W0_FNC_ID_MASK : Z := GENMASK 12 5.
Definition CMPL_CTXT_DATA_W0_CNTER_IDX_MASK : Z := GENMASK 16 13.
Definition CMPL_CTXT_DATA_W0_TIMER_IDX_MASK : Z := GENMASK 20 17.
Definition CMPL_CTXT_DATA_W0_INT_ST_MASK : Z := GENMASK 22 21.
Definition CMPL_CTXT_DATA_W0_COLOR_MASK : Z := BIT 23.
Definition CMPL_CTXT_DATA_W0_QSIZE_IDX_MASK : Z := GENMASK 27 24.
Definition CMPL_CTXT_DATA_W0_BADDR_64_L_MASK : Z := GENMASK 31 28.
Definition CMPL_CTXT_DATA_W1_BADDR_64_M_MASK : Z := GENMASK 31 0.
Definition CMPL_CTXT_DATA_W2_BADDR_64_H_MASK : Z := GENMASK 21 0.
Definition CMPL_CTXT_DATA_W2_DESC_SIZE_MASK : Z := GENMASK 23 22.
Definition CMPL_CTXT_DATA_W2_PIDX_L_MASK : Z := GENMASK 31 24.
Definition CMPL_CTXT_DATA_W3_PIDX_H_MASK : Z := GENMASK 7 0.
Definition CMPL_CTXT_DATA_W3_CIDX_MASK : Z := GENMASK 23 8.
Definition CMPL_CTXT_DATA_W3_VALID_MASK : Z := BIT 24.
Definition CMPL_CTXT_DATA_W3_ERR_MASK : Z := GENMASK 26 25.
Definition CMPL_CTXT_DATA_W3_USER_TRIG_PEND_MASK : Z := BIT 27.
Definition CMPL_CTXT_DATA_W3_TIMER_RUNNING_MASK : Z := BIT 28.
Definition CMPL_CTXT_DATA_W3_FULL_UPD_MASK : Z := BIT 29.
Definition QDMA_NUM_C2H_COUNTERS : Z := 16.
Definition QDMA_NUM_C2H_TIMERS : Z := 16.
Definition QDMA_CPM4_CMPT_CONTEXT_NUM_WORDS : Z := 4.
Definition HW_IND_CTXT_DATA_W0_CIDX_MASK : Z := GENMASK 15 0.
Definition HW_IND_CTXT_DATA_W0_CRD_USE_MASK : Z := GENMASK 31 16.
Definition HW_IND_CTXT_DATA_W1_DSC_PND_MASK : Z := BIT 8.
Definition HW_IND_CTXT_DATA_W1_IDL_STP_B_MASK : Z := BIT 9.
Definition HW_IND_CTXT_DATA_W1_FETCH_PND_MASK : Z := BIT 10.
Definition QDMA_CPM4_HW_CONTEXT_NUM_WORDS : Z := 2.
Definition CRED_CTXT_DATA_W0_CREDT_MASK : Z := GENMASK 15 0.
Definition QDMA_CPM4_CR_CONTEXT_NUM_WORDS : Z := 1.
Definition QDMA_CPM4_INTR_CTXT_BADDR_GET_L_MASK : Z := GENMASK_ULL 34 12.
Definition QDMA_CPM4_INTR_CTXT_BADDR_GET_H_MASK : Z := GENMASK_ULL 63 35.
Definition INTR_CTXT_DATA_W0_VALID_MASK : Z := BIT 0.
Definition INTR_CTXT_DATA_W0_VEC_MASK : Z := GENMASK 5 1.
Definition INTR_CTXT_DATA_W0_INT_ST_MASK : Z := BIT 7.
Definition INTR_CTXT_DATA_W0_COLOR_MASK : Z := BIT 8.
Definition INTR_CTXT_DATA_W0_BADDR_4K_L_MASK : Z := GENMASK 31 9.
Definition INTR_CTXT_DATA_W1_BADDR_4K_H_MASK : Z := GENMASK 28 0.
Definition INTR_CTXT_DATA_W1_PAGE_SIZE_MASK : Z := GENMASK 31 29.
Definition INTR_CTXT_DATA_W2_PIDX_MASK : Z := GENMASK 11 0.
Definition QDMA_CPM4_IND_INTR_CONTEXT_NUM_WORDS : Z := 3.
Definition QDMA_CPM4_REG_GROUP_1_START_ADDR : Z := 0x000.
Definition QDMA_CPM4_REG_GROUP_2_START_ADDR : Z := 0x400.
Definition QDMA_CPM4_REG_GROUP_3_START_ADDR : Z := 0xB00.
Definition QDMA_CPM4_REG_GROUP_4_START_ADDR : Z := 0x1014.
Definition QDMA_CPM4_GLBL_RNG_SZ_1_ADDR : Z := 0x204.
Definition QDMA_CPM4_C2H_CNT_TH_1_ADDR : Z := 0xA40.
Definition QDMA_CPM4_C2H_TIMER_CNT_1_ADDR : Z := 0xA00.
Definition QDMA_CPM4_GLBL_DSC_CFG_ADDR : Z := 0x250.
Definition GLBL_DSC_CFG_MAXFETCH_MASK : Z := GENMASK 5 3.
Definition GLBL_DSC_CFG_WB_ACC_INT_MASK : Z := GENMASK 2 0.
Definition QDMA_CPM4_C2H_BUF_SZ_0_ADDR : Z := 0xAB0.
Definition QDMA_CPM4_C2H_PFCH_CFG_ADDR : Z := 0xB08.
Definition C2H_PFCH_CFG_FL_TH_MASK : Z := GENMASK 7 0.
Definition QDMA_CPM4_DEFAULT_PFCH_STOP_THRESH : Z := 256.
Definition C2H_PFCH_CFG_NUM_MASK : Z := GENMASK 15 8.
Definition C2H_PFCH_CFG_QCNT_MASK : Z := GENMASK 24 16.
Definition DEFAULT_PFCH_MAX_Q_CNT : Z := 16.
Definition C2H_PFCH_CFG_EVT_QCNT_TH_MASK : Z := GENMASK 31 25.
Definition QDMA_CPM4_C2H_INT_TIMER_TICK_ADDR : Z := 0xB0C.
Definition QDMA_CPM4_C2H_WRB_COAL_CFG_ADDR : Z := 0xB50.
Definition C2H_WRB_COAL_CFG_TICK_CNT_MASK : Z := GENMASK 13 2.
Definition C2H_WRB_COAL_CFG_TICK_VAL_MASK : Z := GENMASK 25 14.
Definition C2H_WRB_COAL_CFG_MAX_BUF_SZ_MASK : Z := GENMASK 31 26.
Definition DEFAULT_CMPT_COAL_MAX_BUF_SZ : Z := 32.
Definition QDMA_CPM4_OFFSET_DMAP_SEL_C2H_DSC_PIDX : Z := 0x6408.
Definition QDMA_CPM4_OFFSET_DMAP_SEL_H2C_DSC_PIDX : Z := 0x6404.
Definition QDMA_CPM4_OFFSET_VF_DMAP_SEL_C2H_DSC_PIDX : Z := 0x3008.
Definition QDMA_CPM4_OFFSET_VF_DMAP_SEL_H2C_DSC_PIDX : Z := 0x3004.
Definition QDMA_CPM4_DMA_SEL_DESC_PIDX_MASK : Z := GENMASK 15 0.
Definition QDMA_CPM4_DMA_SEL_IRQ_EN_MASK : Z := BIT 16.
Definition QDMA_CPM4_OFFSET_VF_DMAP_SEL_CMPT_CIDX : Z := 0x300C.
Definition QDMA_CPM4_OFFSET_DMAP_SEL_CMPT_CIDX : Z := 0x640C.
Definition QDMA_CPM4_DMAP_SEL_CMPT_WRB_CIDX_MASK : Z := GENMASK 15 0.
Definition QDMA_CPM4_DMAP_SEL_CMPT_CNT_THRESH_MASK : Z := GENMASK 19 16.
Definition QDMA_CPM4_DMAP_SEL_CMPT_TMR_CNT_MASK : Z := GENMASK 23 20.
Definition QDMA_CPM4_DMAP_SEL_CMPT_TRG_MODE_MASK : Z := GENMASK 26 24.
Definition QDMA_CPM4_DMAP_SEL_CMPT_STS_DESC_EN_MASK : Z := BIT 27.
Definition QDMA_CPM4_DMAP_SEL_CMPT_IRQ_EN_MASK : Z := BIT 28.
Definition QDMA_CPM4_OFFSET_VF_DMAP_SEL_INT_CIDX : Z := 0x3000.
Definition QDMA_CPM4_OFFSET_DMAP_SEL_INT_CIDX : Z := 0x6400.
Definition QDMA_CPM4_DMA_SEL_INT_SW_CIDX_MASK : Z := GENMASK 15 0.
Definition QDMA_CPM4_DMA_SEL_INT_RING_IDX_MASK : Z := GENMASK 23 16.
Definition QDMA_CPM4_GLBL2_PF_BARLITE_EXT_ADDR : Z := 0x10C.
Definition QDMA_CPM4_VF_USER_BAR_ID : Z := 2.
Definition QDMA_DESC_SIZE_32B : Z := 2.
Definition QDMA_DESC_SIZE_64B : Z := 3.
Definition QDMA_INDIRECT_INTR_RING_SIZE_32KB : Z := 7.

(** ** Register list

    The table has no end marker, so the bound [num_regs - 1] of the loops
    leaves its last register out. *)

Definition qdma_cpm4_config_regs : list xreg_info :=
  [
    mk_xreg 0x00 1 QDMA_MM_ST_MODE QDMA_REG_READ_PF_ONLY; (* CFG_BLK_IDENTIFIER *)
    mk_xreg 0x04 1 QDMA_MM_ST_MODE QDMA_REG_READ_PF_ONLY; (* CFG_BLK_BUSDEV *)
    mk_xreg 0x08 1 QDMA_MM_ST_MODE QDMA_REG_READ_PF_ONLY; (* CFG_BLK_PCIE_MAX_PLD_SIZE *)
    mk_xreg 0x0c 1 QDMA_MM_ST_MODE QDMA_REG_READ_PF_ONLY; (* CFG_BLK_PCIE_MAX_READ_REQ_SIZE *)
    mk_xreg 0x10 1 QDMA_MM_ST_MODE QDMA_REG_READ_PF_ONLY; (* CFG_BLK_SYSTEM_ID *)
    mk_xreg 0x014 1 QDMA_MM_ST_MODE QDMA_REG_READ_PF_ONLY; (* CFG_BLK_MSI_ENABLE *)
    mk_xreg 0x18 1 QDMA_MM_ST_MODE QDMA_REG_READ_PF_ONLY; (* CFG_PCIE_DATA_WIDTH *)
    mk_xreg 0x1c 1 QDMA_MM_ST_MODE QDMA_REG_READ_PF_ONLY; (* CFG_PCIE_CTL *)
    mk_xreg 0x40 1 QDMA_MM_ST_MODE QDMA_REG_READ_PF_ONLY; (* CFG_AXI_USER_MAX_PLD_SIZE *)
    mk_xreg 0x44 1 QDMA_MM_ST_MODE QDMA_REG_READ_PF_ONLY; (* CFG_AXI_USER_MAX_READ_REQ_SIZE *)
    mk_xreg 0x4c 1 QDMA_MM_ST_MODE QDMA_REG_READ_PF_ONLY; (* CFG_BLK_MISC_CTL *)
    mk_xreg 0x80 1 QDMA_MM_ST_MODE QDMA_REG_READ_PF_ONLY; (* CFG_BLK_SCRATCH_0 *)
    mk_xreg 0x84 1 QDMA_MM_ST_MODE QDMA_REG_READ_PF_ONLY; (* CFG_BLK_SCRATCH_1 *)
    mk_xreg 0x88 1 QDMA_MM_ST_MODE QDMA_REG_READ_PF_ONLY; (* CFG_BLK_SCRATCH_2 *)
    mk_xreg 0x8c 1 QDMA_MM_ST_MODE QDMA_REG_READ_PF_ONLY; (* CFG_BLK_SCRATCH_3 *)
    mk_xreg 0x90 1 QDMA_MM_ST_MODE QDMA_REG_READ_PF_ONLY; (* CFG_BLK_SCRATCH_4 *)
    mk_xreg 0x94 1 QDMA_MM_ST_MODE QDMA_REG_READ_PF_ONLY; (* CFG_BLK_SCRATCH_5 *)
    mk_xreg 0x98 1 QDMA_MM_ST_MODE QDMA_REG_READ_PF_ONLY; (* CFG_BLK_SCRATCH_6 *)
    mk_xreg 0x9c 1 QDMA_MM_ST_MODE QDMA_REG_READ_PF_ONLY; (* CFG_BLK_SCRATCH_7 *)
    mk_xreg 0xf0 1 QDMA_MM_ST_MODE QDMA_REG_READ_PF_ONLY; (* RAM_SBE_MSK_A *)
    mk_xreg 0xf4 1 QDMA_MM_ST_MODE QDMA_REG_READ_PF_ONLY; (* RAM_SBE_STS_A *)
    mk_xreg 0xf8 1 QDMA_MM_ST_MODE QDMA_REG_READ_PF_ONLY; (* RAM_DBE_MSK_A *)
    mk_xreg 0xfc 1 QDMA_MM_ST_MODE QDMA_REG_READ_PF_ONLY; (* RAM_DBE_STS_A *)
    mk_xreg 0x100 1 QDMA_MM_ST_MODE QDMA_REG_READ_PF_ONLY; (* GLBL2_IDENTIFIER *)
    mk_xreg 0x104 1 QDMA_MM_ST_MODE QDMA_REG_READ_PF_ONLY; (* GLBL2_PF_BARLITE_INT *)
    mk_xreg 0x108 1 QDMA_MM_ST_MODE QDMA_REG_READ_PF_ONLY; (* GLBL2_PF_VF_BARLITE_INT *)
    mk_xreg 0x10c 1 QDMA_MM_ST_MODE QDMA_REG_READ_PF_ONLY; (* GLBL2_PF_BARLITE_EXT *)
    mk_xreg 0x110 1 QDMA_MM_ST_MODE QDMA_REG_READ_PF_ONLY; (* GLBL2_PF_VF_BARLITE_EXT *)
    mk_xreg 0x114 1 QDMA_MM_ST_MODE QDMA_REG_READ_PF_ONLY; (* GLBL2_CHANNEL_INST *)
    mk_xreg 0x118 1 QDMA_MM_ST_MODE QDMA_REG_READ_PF_ONLY; (* GLBL2_CHANNEL_MDMA *)
    mk_xreg 0x11c 1 QDMA_MM_ST_MODE QDMA_REG_READ_PF_ONLY; (* GLBL2_CHANNEL_STRM *)
    mk_xreg 0x120 1 QDMA_MM_ST_MODE QDMA_REG_READ_PF_ONLY; (* GLBL2_CHANNEL_CAP *)
    mk_xreg 0x128 1 QDMA_MM_ST_MODE QDMA_REG_READ_PF_ONLY; (* GLBL2_CHANNEL_PASID_CAP *)
    mk_xreg 0x12c 1 QDMA_MM_ST_MODE QDMA_REG_READ_PF_ONLY; (* GLBL2_CHANNEL_FUNC_RET *)
    mk_xreg 0x130 1 QDMA_MM_ST_MODE QDMA_REG_READ_PF_ONLY; (* GLBL2_SYSTEM_ID *)
    mk_xreg 0x134 1 QDMA_MM_ST_MODE QDMA_REG_READ_PF_ONLY; (* GLBL2_MISC_CAP *)
    mk_xreg 0x1b8 1 QDMA_MM_ST_MODE QDMA_REG_READ_PF_ONLY; (* GLBL2_DBG_PCIE_RQ0 *)
    mk_xreg 0x1bc 1 QDMA_MM_ST_MODE QDMA_REG_READ_PF_ONLY; (* GLBL2_DBG_PCIE_RQ1 *)
    mk_xreg 0x1c0 1 QDMA_MM_ST_MODE QDMA_REG_READ_PF_ONLY; (* GLBL2_DBG_AXIMM_WR0 *)
    mk_xreg 0x1c4 1 QDMA_MM_ST_MODE QDMA_REG_READ_PF_ONLY; (* GLBL2_DBG_AXIMM_WR1 *)
    mk_xreg 0x1c8 1 QDMA_MM_ST_MODE QDMA_REG_READ_PF_ONLY; (* GLBL2_DBG_AXIMM_RD0 *)
    mk_xreg 0x1cc 1 QDMA_MM_ST_MODE QDMA_REG_READ_PF_ONLY; (* GLBL2_DBG_AXIMM_RD1 *)
    mk_xreg 0x204 1 QDMA_MM_ST_MODE QDMA_REG_READ_PF_VF; (* GLBL_RNG_SZ_1 *)
    mk_xreg 0x208 1 QDMA_MM_ST_MODE QDMA_REG_READ_PF_VF; (* GLBL_RNG_SZ_2 *)
    mk_xreg 0x20c 1 QDMA_MM_ST_MODE QDMA_REG_READ_PF_VF; (* GLBL_RNG_SZ_3 *)
    mk_xreg 0x210 1 QDMA_MM_ST_MODE QDMA_REG_READ_PF_VF; (* GLBL_RNG_SZ_4 *)
    mk_xreg 0x214 1 QDMA_MM_ST_MODE QDMA_REG_READ_PF_VF; (* GLBL_RNG_SZ_5 *)
    mk_xreg 0x218 1 QDMA_MM_ST_MODE QDMA_REG_READ_PF_VF; (* GLBL_RNG_SZ_6 *)
    mk_xreg 0x21c 1 QDMA_MM_ST_MODE QDMA_REG_READ_PF_VF; (* GLBL_RNG_SZ_7 *)
    mk_xreg 0x220 1 QDMA_MM_ST_MODE QDMA_REG_READ_PF_VF; (* GLBL_RNG_SZ_8 *)
    mk_xreg 0x224 1 QDMA_MM_ST_MODE QDMA_REG_READ_PF_VF; (* GLBL_RNG_SZ_9 *)
    mk_xreg 0x228 1 QDMA_MM_ST_MODE QDMA_REG_READ_PF_VF; (* GLBL_RNG_SZ_A *)
    mk_xreg 0x22c 1 QDMA_MM_ST_MODE QDMA_REG_READ_PF_VF; (* GLBL_RNG_SZ_B *)
    mk_xreg 0x230 1 QDMA_MM_ST_MODE QDMA_REG_READ_PF_VF; (* GLBL_RNG_SZ_C *)
    mk_xreg 0x234 1 QDMA_MM_ST_MODE QDMA_REG_READ_PF_VF; (* GLBL_RNG_SZ_D *)
    mk_xreg 0x238 1 QDMA_MM_ST_MODE QDMA_REG_READ_PF_VF; (* GLBL_RNG_SZ_E *)
    mk_xreg 0x23c 1 QDMA_MM_ST_MODE QDMA_REG_READ_PF_VF; (* GLBL_RNG_SZ_F *)
    mk_xreg 0x240 1 QDMA_MM_ST_MODE QDMA_REG_READ_PF_VF; (* GLBL_RNG_SZ_10 *)
    mk_xreg 0x248 1 QDMA_MM_ST_MODE QDMA_REG_READ_PF_VF; (* GLBL_ERR_STAT *)
    mk_xreg 0x24c 1 QDMA_MM_ST_MODE QDMA_REG_READ_PF_VF; (* GLBL_ERR_MASK *)
    mk_xreg 0x250 1 QDMA_MM_ST_MODE QDMA_REG_READ_PF_VF; (* GLBL_DSC_CFG *)
    mk_xreg 0x254 1 QDMA_MM_ST_MODE QDMA_REG_READ_PF_VF; (* GLBL_DSC_ERR_STS *)
    mk_xreg 0x258 1 QDMA_MM_ST_MODE QDMA_REG_READ_PF_VF; (* GLBL_DSC_ERR_MSK *)
    mk_xreg 0x25c 1 QDMA_MM_ST_MODE QDMA_REG_READ_PF_VF; (* GLBL_DSC_ERR_LOG0 *)
    mk_xreg 0x260 1 QDMA_MM_ST_MODE QDMA_REG_READ_PF_VF; (* GLBL_DSC_ERR_LOG1 *)
    mk_xreg 0x264 1 QDMA_MM_ST_MODE QDMA_REG_READ_PF_VF; (* GLBL_TRQ_ERR_STS *)
    mk_xreg 0x268 1 QDMA_MM_ST_MODE QDMA_REG_READ_PF_VF; (* GLBL_TRQ_ERR_MSK *)
    mk_xreg 0x26c 1 QDMA_MM_ST_MODE QDMA_REG_READ_PF_VF; (* GLBL_TRQ_ERR_LOG *)
    mk_xreg 0x270 1 QDMA_MM_ST_MODE QDMA_REG_READ_PF_VF; (* GLBL_DSC_DBG_DAT0 *)
    mk_xreg 0x274 1 QDMA_MM_ST_MODE QDMA_REG_READ_PF_VF; (* GLBL_DSC_DBG_DAT1 *)
    mk_xreg 0x400 1 QDMA_MM_ST_MODE QDMA_REG_READ_PF_ONLY; (* TRQ_SEL_FMAP_0 *)
    mk_xreg 0x404 1 QDMA_MM_ST_MODE QDMA_REG_READ_PF_ONLY; (* TRQ_SEL_FMAP_1 *)
    mk_xreg 0x408 1 QDMA_MM_ST_MODE QDMA_REG_READ_PF_ONLY; (* TRQ_SEL_FMAP_2 *)
    mk_xreg 0x40c 1 QDMA_MM_ST_MODE QDMA_REG_READ_PF_ONLY; (* TRQ_SEL_FMAP_3 *)
    mk_xreg 0x410 1 QDMA_MM_ST_MODE QDMA_REG_READ_PF_ONLY; (* TRQ_SEL_FMAP_4 *)
    mk_xreg 0x414 1 QDMA_MM_ST_MODE QDMA_REG_READ_PF_ONLY; (* TRQ_SEL_FMAP_5 *)
    mk_xreg 0x418 1 QDMA_MM_ST_MODE QDMA_REG_READ_PF_ONLY; (* TRQ_SEL_FMAP_6 *)
    mk_xreg 0x41c 1 QDMA_MM_ST_MODE QDMA_REG_READ_PF_ONLY; (* TRQ_SEL_FMAP_7 *)
    mk_xreg 0x420 1 QDMA_MM_ST_MODE QDMA_REG_READ_PF_ONLY; (* TRQ_SEL_FMAP_8 *)
    mk_xreg 0x424 1 QDMA_MM_ST_MODE QDMA_REG_READ_PF_ONLY; (* TRQ_SEL_FMAP_9 *)
    mk_xreg 0x428 1 QDMA_MM_ST_MODE QDMA_REG_READ_PF_ONLY; (* TRQ_SEL_FMAP_A *)
    mk_xreg 0x42c 1 QDMA_MM_ST_MODE QDMA_REG_READ_PF_ONLY; (* TRQ_SEL_FMAP_B *)
    mk_xreg 0x430 1 QDMA_MM_ST_MODE QDMA_REG_READ_PF_ONLY; (* TRQ_SEL_FMAP_D *)
    mk_xreg 0x434 1 QDMA_MM_ST_MODE QDMA_REG_READ_PF_ONLY; (* TRQ_SEL_FMAP_E *)
    mk_xreg 0x438 1 QDMA_MM_ST_MODE QDMA_REG_READ_PF_ONLY; (* TRQ_SEL_FMAP_F *)
    mk_xreg 0x43c 1 QDMA_MM_ST_MODE QDMA_REG_READ_PF_ONLY; (* TRQ_SEL_FMAP_10 *)
    mk_xreg 0x440 1 QDMA_MM_ST_MODE QDMA_REG_READ_PF_ONLY; (* TRQ_SEL_FMAP_11 *)
    mk_xreg 0x444 1 QDMA_MM_ST_MODE QDMA_REG_READ_PF_ONLY; (* TRQ_SEL_FMAP_12 *)
    mk_xreg 0x448 1 QDMA_MM_ST_MODE QDMA_REG_READ_PF_ONLY; (* TRQ_SEL_FMAP_13 *)
    mk_xreg 0x44c 1 QDMA_MM_ST_MODE QDMA_REG_READ_PF_ONLY; (* TRQ_SEL_FMAP_14 *)
    mk_xreg 0x450 1 QDMA_MM_ST_MODE QDMA_REG_READ_PF_ONLY; (* TRQ_SEL_FMAP_15 *)
    mk_xreg 0x454 1 QDMA_MM_ST_MODE QDMA_REG_READ_PF_ONLY; (* TRQ_SEL_FMAP_16 *)
    mk_xreg 0x458 1 QDMA_MM_ST_MODE QDMA_REG_READ_PF_ONLY; (* TRQ_SEL_FMAP_17 *)
    mk_xreg 0x45c 1 QDMA_MM_ST_MODE QDMA_REG_READ_PF_ONLY; (* TRQ_SEL_FMAP_18 *)
    mk_xreg 0x460 1 QDMA_MM_ST_MODE QDMA_REG_READ_PF_ONLY; (* TRQ_SEL_FMAP_19 *)
    mk_xreg 0x464 1 QDMA_MM_ST_MODE QDMA_REG_READ_PF_ONLY; (* TRQ_SEL_FMAP_1A *)
    mk_xreg 0x468 1 QDMA_MM_ST_MODE QDMA_REG_READ_PF_ONLY; (* TRQ_SEL_FMAP_1B *)
    mk_xreg 0x46c 1 QDMA_MM_ST_MODE QDMA_REG_READ_PF_ONLY; (* TRQ_SEL_FMAP_1C *)
    mk_xreg 0x470 1 QDMA_MM_ST_MODE QDMA_REG_READ_PF_ONLY; (* TRQ_SEL_FMAP_1D *)
    mk_xreg 0x474 1 QDMA_MM_ST_MODE QDMA_REG_READ_PF_ONLY; (* TRQ_SEL_FMAP_1E *)
    mk_xreg 0x478 1 QDMA_MM_ST_MODE QDMA_REG_READ_PF_ONLY; (* TRQ_SEL_FMAP_1F *)
    mk_xreg 0x47c 1 QDMA_MM_ST_MODE QDMA_REG_READ_PF_ONLY; (* TRQ_SEL_FMAP_20 *)
    mk_xreg 0x480 1 QDMA_MM_ST_MODE QDMA_REG_READ_PF_ONLY; (* TRQ_SEL_FMAP_21 *)
    mk_xreg 0x484 1 QDMA_MM_ST_MODE QDMA_REG_READ_PF_ONLY; (* TRQ_SEL_FMAP_22 *)
    mk_xreg 0x488 1 QDMA_MM_ST_MODE QDMA_REG_READ_PF_ONLY; (* TRQ_SEL_FMAP_23 *)
    mk_xreg 0x48c 1 QDMA_MM_ST_MODE QDMA_REG_READ_PF_ONLY; (* TRQ_SEL_FMAP_24 *)
    mk_xreg 0x490 1 QDMA_MM_ST_MODE QDMA_REG_READ_PF_ONLY; (* TRQ_SEL_FMAP_25 *)
    mk_xreg 0x494 1 QDMA_MM_ST_MODE QDMA_REG_READ_PF_ONLY; (* TRQ_SEL_FMAP_26 *)
    mk_xreg 0x498 1 QDMA_MM_ST_MODE QDMA_REG_READ_PF_ONLY; (* TRQ_SEL_FMAP_27 *)
    mk_xreg 0x49c 1 QDMA_MM_ST_MODE QDMA_REG_READ_PF_ONLY; (* TRQ_SEL_FMAP_28 *)
    mk_xreg 0x4a0 1 QDMA_MM_ST_MODE QDMA_REG_READ_PF_ONLY; (* TRQ_SEL_FMAP_29 *)
    mk_xreg 0x4a4 1 QDMA_MM_ST_MODE QDMA_REG_READ_PF_ONLY; (* TRQ_SEL_FMAP_2A *)
    mk_xreg 0x4a8 1 QDMA_MM_ST_MODE QDMA_REG_READ_PF_ONLY; (* TRQ_SEL_FMAP_2B *)
    mk_xreg 0x4ac 1 QDMA_MM_ST_MODE QDMA_REG_READ_PF_ONLY; (* TRQ_SEL_FMAP_2C *)
    mk_xreg 0x4b0 1 QDMA_MM_ST_MODE QDMA_REG_READ_PF_ONLY; (* TRQ_SEL_FMAP_2D *)
    mk_xreg 0x4b4 1 QDMA_MM_ST_MODE QDMA_REG_READ_PF_ONLY; (* TRQ_SEL_FMAP_2E *)
    mk_xreg 0x4b8 1 QDMA_MM_ST_MODE QDMA_REG_READ_PF_ONLY; (* TRQ_SEL_FMAP_2F *)
    mk_xreg 0x4bc 1 QDMA_MM_ST_MODE QDMA_REG_READ_PF_ONLY; (* TRQ_SEL_FMAP_30 *)
    mk_xreg 0x4d0 1 QDMA_MM_ST_MODE QDMA_REG_READ_PF_ONLY; (* TRQ_SEL_FMAP_31 *)
    mk_xreg 0x4d4 1 QDMA_MM_ST_MODE QDMA_REG_READ_PF_ONLY; (* TRQ_SEL_FMAP_32 *)
    mk_xreg 0x4d8 1 QDMA_MM_ST_MODE QDMA_REG_READ_PF_ONLY; (* TRQ_SEL_FMAP_33 *)
    mk_xreg 0x4dc 1 QDMA_MM_ST_MODE QDMA_REG_READ_PF_ONLY; (* TRQ_SEL_FMAP_34 *)
    mk_xreg 0x4e0 1 QDMA_MM_ST_MODE QDMA_REG_READ_PF_ONLY; (* TRQ_SEL_FMAP_35 *)
    mk_xreg 0x4e4 1 QDMA_MM_ST_MODE QDMA_REG_READ_PF_ONLY; (* TRQ_SEL_FMAP_36 *)
    mk_xreg 0x4e8 1 QDMA_MM_ST_MODE QDMA_REG_READ_PF_ONLY; (* TRQ_SEL_FMAP_37 *)
    mk_xreg 0x4ec 1 QDMA_MM_ST_MODE QDMA_REG_READ_PF_ONLY; (* TRQ_SEL_FMAP_38 *)
    mk_xreg 0x4f0 1 QDMA_MM_ST_MODE QDMA_REG_READ_PF_ONLY; (* TRQ_SEL_FMAP_39 *)
    mk_xreg 0x4f4 1 QDMA_MM_ST_MODE QDMA_REG_READ_PF_ONLY; (* TRQ_SEL_FMAP_3A *)
    mk_xreg 0x4f8 1 QDMA_MM_ST_MODE QDMA_REG_READ_PF_ONLY; (* TRQ_SEL_FMAP_3B *)
    mk_xreg 0x4fc 1 QDMA_MM_ST_MODE QDMA_REG_READ_PF_ONLY; (* TRQ_SEL_FMAP_3C *)
    mk_xreg 0x500 1 QDMA_MM_ST_MODE QDMA_REG_READ_PF_ONLY; (* TRQ_SEL_FMAP_3D *)
    mk_xreg 0x504 1 QDMA_MM_ST_MODE QDMA_REG_READ_PF_ONLY; (* TRQ_SEL_FMAP_3E *)
    mk_xreg 0x508 1 QDMA_MM_ST_MODE QDMA_REG_READ_PF_ONLY; (* TRQ_SEL_FMAP_3F *)
    mk_xreg 0x50c 1 QDMA_MM_ST_MODE QDMA_REG_READ_PF_ONLY; (* TRQ_SEL_FMAP_40 *)
    mk_xreg 0x510 1 QDMA_MM_ST_MODE QDMA_REG_READ_PF_ONLY; (* TRQ_SEL_FMAP_41 *)
    mk_xreg 0x514 1 QDMA_MM_ST_MODE QDMA_REG_READ_PF_ONLY; (* TRQ_SEL_FMAP_42 *)
    mk_xreg 0x518 1 QDMA_MM_ST_MODE QDMA_REG_READ_PF_ONLY; (* TRQ_SEL_FMAP_43 *)
    mk_xreg 0x51c 1 QDMA_MM_ST_MODE QDMA_REG_READ_PF_ONLY; (* TRQ_SEL_FMAP_44 *)
    mk_xreg 0x520 1 QDMA_MM_ST_MODE QDMA_REG_READ_PF_ONLY; (* TRQ_SEL_FMAP_45 *)
    mk_xreg 0x524 1 QDMA_MM_ST_MODE QDMA_REG_READ_PF_ONLY; (* TRQ_SEL_FMAP_46 *)
    mk_xreg 0x528 1 QDMA_MM_ST_MODE QDMA_REG_READ_PF_ONLY; (* TRQ_SEL_FMAP_47 *)
    mk_xreg 0x52c 1 QDMA_MM_ST_MODE QDMA_REG_READ_PF_ONLY; (* TRQ_SEL_FMAP_48 *)
    mk_xreg 0x530 1 QDMA_MM_ST_MODE QDMA_REG_READ_PF_ONLY; (* TRQ_SEL_FMAP_49 *)
    mk_xreg 0x534 1 QDMA_MM_ST_MODE QDMA_REG_READ_PF_ONLY; (* TRQ_SEL_FMAP_4A *)
    mk_xreg 0x538 1 QDMA_MM_ST_MODE QDMA_REG_READ_PF_ONLY; (* TRQ_SEL_FMAP_4B *)
    mk_xreg 0x53c 1 QDMA_MM_ST_MODE QDMA_REG_READ_PF_ONLY; (* TRQ_SEL_FMAP_4C *)
    mk_xreg 0x540 1 QDMA_MM_ST_MODE QDMA_REG_READ_PF_ONLY; (* TRQ_SEL_FMAP_4D *)
    mk_xreg 0x544 1 QDMA_MM_ST_MODE QDMA_REG_READ_PF_ONLY; (* TRQ_SEL_FMAP_4E *)
    mk_xreg 0x548 1 QDMA_MM_ST_MODE QDMA_REG_READ_PF_ONLY; (* TRQ_SEL_FMAP_4F *)
    mk_xreg 0x54c 1 QDMA_MM_ST_MODE QDMA_REG_READ_PF_ONLY; (* TRQ_SEL_FMAP_50 *)
    mk_xreg 0x550 1 QDMA_MM_ST_MODE QDMA_REG_READ_PF_ONLY; (* TRQ_SEL_FMAP_51 *)
    mk_xreg 0x554 1 QDMA_MM_ST_MODE QDMA_REG_READ_PF_ONLY; (* TRQ_SEL_FMAP_52 *)
    mk_xreg 0x558 1 QDMA_MM_ST_MODE QDMA_REG_READ_PF_ONLY; (* TRQ_SEL_FMAP_53 *)
    mk_xreg 0x55c 1 QDMA_MM_ST_MODE QDMA_REG_READ_PF_ONLY; (* TRQ_SEL_FMAP_54 *)
    mk_xreg 0x560 1 QDMA_MM_ST_MODE QDMA_REG_READ_PF_ONLY; (* TRQ_SEL_FMAP_55 *)
    mk_xreg 0x564 1 QDMA_MM_ST_MODE QDMA_REG_READ_PF_ONLY; (* TRQ_SEL_FMAP_56 *)
    mk_xreg 0x568 1 QDMA_MM_ST_MODE QDMA_REG_READ_PF_ONLY; (* TRQ_SEL_FMAP_57 *)
    mk_xreg 0x56c 1 QDMA_MM_ST_MODE QDMA_REG_READ_PF_ONLY; (* TRQ_SEL_FMAP_58 *)
    mk_xreg 0x570 1 QDMA_MM_ST_MODE QDMA_REG_READ_PF_ONLY; (* TRQ_SEL_FMAP_59 *)
    mk_xreg 0x574 1 QDMA_MM_ST_MODE QDMA_REG_READ_PF_ONLY; (* TRQ_SEL_FMAP_5A *)
    mk_xreg 0x578 1 QDMA_MM_ST_MODE QDMA_REG_READ_PF_ONLY; (* TRQ_SEL_FMAP_5B *)
    mk_xreg 0x57c 1 QDMA_MM_ST_MODE QDMA_REG_READ_PF_ONLY; (* TRQ_SEL_FMAP_5C *)
    mk_xreg 0x580 1 QDMA_MM_ST_MODE QDMA_REG_READ_PF_ONLY; (* TRQ_SEL_FMAP_5D *)
    mk_xreg 0x584 1 QDMA_MM_ST_MODE QDMA_REG_READ_PF_ONLY; (* TRQ_SEL_FMAP_5E *)
    mk_xreg 0x588 1 QDMA_MM_ST_MODE QDMA_REG_READ_PF_ONLY; (* TRQ_SEL_FMAP_5F *)
    mk_xreg 0x58c 1 QDMA_MM_ST_MODE QDMA_REG_READ_PF_ONLY; (* TRQ_SEL_FMAP_60 *)
    mk_xreg 0x590 1 QDMA_MM_ST_MODE QDMA_REG_READ_PF_ONLY; (* TRQ_SEL_FMAP_61 *)
    mk_xreg 0x594 1 QDMA_MM_ST_MODE QDMA_REG_READ_PF_ONLY; (* TRQ_SEL_FMAP_62 *)
    mk_xreg 0x598 1 QDMA_MM_ST_MODE QDMA_REG_READ_PF_ONLY; (* TRQ_SEL_FMAP_63 *)
    mk_xreg 0x59c 1 QDMA_MM_ST_MODE QDMA_REG_READ_PF_ONLY; (* TRQ_SEL_FMAP_64 *)
    mk_xreg 0x5a0 1 QDMA_MM_ST_MODE QDMA_REG_READ_PF_ONLY; (* TRQ_SEL_FMAP_65 *)
    mk_xreg 0x5a4 1 QDMA_MM_ST_MODE QDMA_REG_READ_PF_ONLY; (* TRQ_SEL_FMAP_66 *)
    mk_xreg 0x5a8 1 QDMA_MM_ST_MODE QDMA_REG_READ_PF_ONLY; (* TRQ_SEL_FMAP_67 *)
    mk_xreg 0x5ac 1 QDMA_MM_ST_MODE QDMA_REG_READ_PF_ONLY; (* TRQ_SEL_FMAP_68 *)
    mk_xreg 0x5b0 1 QDMA_MM_ST_MODE QDMA_REG_READ_PF_ONLY; (* TRQ_SEL_FMAP_69 *)
    mk_xreg 0x5b4 1 QDMA_MM_ST_MODE QDMA_REG_READ_PF_ONLY; (* TRQ_SEL_FMAP_6A *)
    mk_xreg 0x5b8 1 QDMA_MM_ST_MODE QDMA_REG_READ_PF_ONLY; (* TRQ_SEL_FMAP_6B *)
    mk_xreg 0x5bc 1 QDMA_MM_ST_MODE QDMA_REG_READ_PF_ONLY; (* TRQ_SEL_FMAP_6C *)
    mk_xreg 0x5c0 1 QDMA_MM_ST_MODE QDMA_REG_READ_PF_ONLY; (* TRQ_SEL_FMAP_6D *)
    mk_xreg 0x5c4 1 QDMA_MM_ST_MODE QDMA_REG_READ_PF_ONLY; (* TRQ_SEL_FMAP_6E *)
    mk_xreg 0x5c8 1 QDMA_MM_ST_MODE QDMA_REG_READ_PF_ONLY; (* TRQ_SEL_FMAP_6F *)
    mk_xreg 0x5cc 1 QDMA_MM_ST_MODE QDMA_REG_READ_PF_ONLY; (* TRQ_SEL_FMAP_70 *)
    mk_xreg 0x5d0 1 QDMA_MM_ST_MODE QDMA_REG_READ_PF_ONLY; (* TRQ_SEL_FMAP_71 *)
    mk_xreg 0x5d4 1 QDMA_MM_ST_MODE QDMA_REG_READ_PF_ONLY; (* TRQ_SEL_FMAP_72 *)
    mk_xreg 0x5d8 1 QDMA_MM_ST_MODE QDMA_REG_READ_PF_ONLY; (* TRQ_SEL_FMAP_73 *)
    mk_xreg 0x5dc 1 QDMA_MM_ST_MODE QDMA_REG_READ_PF_ONLY; (* TRQ_SEL_FMAP_74 *)
    mk_xreg 0x5e0 1 QDMA_MM_ST_MODE QDMA_REG_READ_PF_ONLY; (* TRQ_SEL_FMAP_75 *)
    mk_xreg 0x5e4 1 QDMA_MM_ST_MODE QDMA_REG_READ_PF_ONLY; (* TRQ_SEL_FMAP_76 *)
    mk_xreg 0x5e8 1 QDMA_MM_ST_MODE QDMA_REG_READ_PF_ONLY; (* TRQ_SEL_FMAP_77 *)
    mk_xreg 0x5ec 1 QDMA_MM_ST_MODE QDMA_REG_READ_PF_ONLY; (* TRQ_SEL_FMAP_78 *)
    mk_xreg 0x5f0 1 QDMA_MM_ST_MODE QDMA_REG_READ_PF_ONLY; (* TRQ_SEL_FMAP_79 *)
    mk_xreg 0x5f4 1 QDMA_MM_ST_MODE QDMA_REG_READ_PF_ONLY; (* TRQ_SEL_FMAP_7A *)
    mk_xreg 0x5f8 1 QDMA_MM_ST_MODE QDMA_REG_READ_PF_ONLY; (* TRQ_SEL_FMAP_7B *)
    mk_xreg 0x5fc 1 QDMA_MM_ST_MODE QDMA_REG_READ_PF_ONLY; (* TRQ_SEL_FMAP_7C *)
    mk_xreg 0x600 1 QDMA_MM_ST_MODE QDMA_REG_READ_PF_ONLY; (* TRQ_SEL_FMAP_7D *)
    mk_xreg 0x604 1 QDMA_MM_ST_MODE QDMA_REG_READ_PF_ONLY; (* TRQ_SEL_FMAP_7E *)
    mk_xreg 0x608 1 QDMA_MM_ST_MODE QDMA_REG_READ_PF_ONLY; (* TRQ_SEL_FMAP_7F *)
    mk_xreg 0x60c 1 QDMA_MM_ST_MODE QDMA_REG_READ_PF_ONLY; (* TRQ_SEL_FMAP_80 *)
    mk_xreg 0x610 1 QDMA_MM_ST_MODE QDMA_REG_READ_PF_ONLY; (* TRQ_SEL_FMAP_81 *)
    mk_xreg 0x614 1 QDMA_MM_ST_MODE QDMA_REG_READ_PF_ONLY; (* TRQ_SEL_FMAP_82 *)
    mk_xreg 0x618 1 QDMA_MM_ST_MODE QDMA_REG_READ_PF_ONLY; (* TRQ_SEL_FMAP_83 *)
    mk_xreg 0x61c 1 QDMA_MM_ST_MODE QDMA_REG_READ_PF_ONLY; (* TRQ_SEL_FMAP_84 *)
    mk_xreg 0x620 1 QDMA_MM_ST_MODE QDMA_REG_READ_PF_ONLY; (* TRQ_SEL_FMAP_85 *)
    mk_xreg 0x624 1 QDMA_MM_ST_MODE QDMA_REG_READ_PF_ONLY; (* TRQ_SEL_FMAP_86 *)
    mk_xreg 0x628 1 QDMA_MM_ST_MODE QDMA_REG_READ_PF_ONLY; (* TRQ_SEL_FMAP_87 *)
    mk_xreg 0x62c 1 QDMA_MM_ST_MODE QDMA_REG_READ_PF_ONLY; (* TRQ_SEL_FMAP_88 *)
    mk_xreg 0x630 1 QDMA_MM_ST_MODE QDMA_REG_READ_PF_ONLY; (* TRQ_SEL_FMAP_89 *)
    mk_xreg 0x634 1 QDMA_MM_ST_MODE QDMA_REG_READ_PF_ONLY; (* TRQ_SEL_FMAP_8A *)
    mk_xreg 0x638 1 QDMA_MM_ST_MODE QDMA_REG_READ_PF_ONLY; (* TRQ_SEL_FMAP_8B *)
    mk_xreg 0x63c 1 QDMA_MM_ST_MODE QDMA_REG_READ_PF_ONLY; (* TRQ_SEL_FMAP_8C *)
    mk_xreg 0x640 1 QDMA_MM_ST_MODE QDMA_REG_READ_PF_ONLY; (* TRQ_SEL_FMAP_8D *)
    mk_xreg 0x644 1 QDMA_MM_ST_MODE QDMA_REG_READ_PF_ONLY; (* TRQ_SEL_FMAP_8E *)
    mk_xreg 0x648 1 QDMA_MM_ST_MODE QDMA_REG_READ_PF_ONLY; (* TRQ_SEL_FMAP_8F *)
    mk_xreg 0x64c 1 QDMA_MM_ST_MODE QDMA_REG_READ_PF_ONLY; (* TRQ_SEL_FMAP_90 *)
    mk_xreg 0x650 1 QDMA_MM_ST_MODE QDMA_REG_READ_PF_ONLY; (* TRQ_SEL_FMAP_91 *)
    mk_xreg 0x654 1 QDMA_MM_ST_MODE QDMA_REG_READ_PF_ONLY; (* TRQ_SEL_FMAP_92 *)
    mk_xreg 0x658 1 QDMA_MM_ST_MODE QDMA_REG_READ_PF_ONLY; (* TRQ_SEL_FMAP_93 *)
    mk_xreg 0x65c 1 QDMA_MM_ST_MODE QDMA_REG_READ_PF_ONLY; (* TRQ_SEL_FMAP_94 *)
    mk_xreg 0x660 1 QDMA_MM_ST_MODE QDMA_REG_READ_PF_ONLY; (* TRQ_SEL_FMAP_95 *)
    mk_xreg 0x664 1 QDMA_MM_ST_MODE QDMA_REG_READ_PF_ONLY; (* TRQ_SEL_FMAP_96 *)
    mk_xreg 0x668 1 QDMA_MM_ST_MODE QDMA_REG_READ_PF_ONLY; (* TRQ_SEL_FMAP_97 *)
    mk_xreg 0x66c 1 QDMA_MM_ST_MODE QDMA_REG_READ_PF_ONLY; (* TRQ_SEL_FMAP_98 *)
    mk_xreg 0x670 1 QDMA_MM_ST_MODE QDMA_REG_READ_PF_ONLY; (* TRQ_SEL_FMAP_99 *)
    mk_xreg 0x674 1 QDMA_MM_ST_MODE QDMA_REG_READ_PF_ONLY; (* TRQ_SEL_FMAP_9A *)
    mk_xreg 0x678 1 QDMA_MM_ST_MODE QDMA_REG_READ_PF_ONLY; (* TRQ_SEL_FMAP_9B *)
    mk_xreg 0x67c 1 QDMA_MM_ST_MODE QDMA_REG_READ_PF_ONLY; (* TRQ_SEL_FMAP_9C *)
    mk_xreg 0x680 1 QDMA_MM_ST_MODE QDMA_REG_READ_PF_ONLY; (* TRQ_SEL_FMAP_9D *)
    mk_xreg 0x684 1 QDMA_MM_ST_MODE QDMA_REG_READ_PF_ONLY; (* TRQ_SEL_FMAP_9E *)
    mk_xreg 0x688 1 QDMA_MM_ST_MODE QDMA_REG_READ_PF_ONLY; (* TRQ_SEL_FMAP_9F *)
    mk_xreg 0x68c 1 QDMA_MM_ST_MODE QDMA_REG_READ_PF_ONLY; (* TRQ_SEL_FMAP_A0 *)
    mk_xreg 0x690 1 QDMA_MM_ST_MODE QDMA_REG_READ_PF_ONLY; (* TRQ_SEL_FMAP_A1 *)
    mk_xreg 0x694 1 QDMA_MM_ST_MODE QDMA_REG_READ_PF_ONLY; (* TRQ_SEL_FMAP_A2 *)
    mk_xreg 0x698 1 QDMA_MM_ST_MODE QDMA_REG_READ_PF_ONLY; (* TRQ_SEL_FMAP_A3 *)
    mk_xreg 0x69c 1 QDMA_MM_ST_MODE QDMA_REG_READ_PF_ONLY; (* TRQ_SEL_FMAP_A4 *)
    mk_xreg 0x6a0 1 QDMA_MM_ST_MODE QDMA_REG_READ_PF_ONLY; (* TRQ_SEL_FMAP_A5 *)
    mk_xreg 0x6a4 1 QDMA_MM_ST_MODE QDMA_REG_READ_PF_ONLY; (* TRQ_SEL_FMAP_A6 *)
    mk_xreg 0x6a8 1 QDMA_MM_ST_MODE QDMA_REG_READ_PF_ONLY; (* TRQ_SEL_FMAP_A7 *)
    mk_xreg 0x6ac 1 QDMA_MM_ST_MODE QDMA_REG_READ_PF_ONLY; (* TRQ_SEL_FMAP_A8 *)
    mk_xreg 0x6b0 1 QDMA_MM_ST_MODE QDMA_REG_READ_PF_ONLY; (* TRQ_SEL_FMAP_A9 *)
    mk_xreg 0x6b4 1 QDMA_MM_ST_MODE QDMA_REG_READ_PF_ONLY; (* TRQ_SEL_FMAP_AA *)
    mk_xreg 0x6b8 1 QDMA_MM_ST_MODE QDMA_REG_READ_PF_ONLY; (* TRQ_SEL_FMAP_AB *)
    mk_xreg 0x6bc 1 QDMA_MM_ST_MODE QDMA_REG_READ_PF_ONLY; (* TRQ_SEL_FMAP_AC *)
    mk_xreg 0x6d0 1 QDMA_MM_ST_MODE QDMA_REG_READ_PF_ONLY; (* TRQ_SEL_FMAP_AD *)
    mk_xreg 0x6d4 1 QDMA_MM_ST_MODE QDMA_REG_READ_PF_ONLY; (* TRQ_SEL_FMAP_AE *)
    mk_xreg 0x6d8 1 QDMA_MM_ST_MODE QDMA_REG_READ_PF_ONLY; (* TRQ_SEL_FMAP_AF *)
    mk_xreg 0x6dc 1 QDMA_MM_ST_MODE QDMA_REG_READ_PF_ONLY; (* TRQ_SEL_FMAP_B0 *)
    mk_xreg 0x6e0 1 QDMA_MM_ST_MODE QDMA_REG_READ_PF_ONLY; (* TRQ_SEL_FMAP_B1 *)
    mk_xreg 0x6e4 1 QDMA_MM_ST_MODE QDMA_REG_READ_PF_ONLY; (* TRQ_SEL_FMAP_B2 *)
    mk_xreg 0x6e8 1 QDMA_MM_ST_MODE QDMA_REG_READ_PF_ONLY; (* TRQ_SEL_FMAP_B3 *)
    mk_xreg 0x6ec 1 QDMA_MM_ST_MODE QDMA_REG_READ_PF_ONLY; (* TRQ_SEL_FMAP_B4 *)
    mk_xreg 0x6f0 1 QDMA_MM_ST_MODE QDMA_REG_READ_PF_ONLY; (* TRQ_SEL_FMAP_B5 *)
    mk_xreg 0x6f4 1 QDMA_MM_ST_MODE QDMA_REG_READ_PF_ONLY; (* TRQ_SEL_FMAP_B6 *)
    mk_xreg 0x6f8 1 QDMA_MM_ST_MODE QDMA_REG_READ_PF_ONLY; (* TRQ_SEL_FMAP_B7 *)
    mk_xreg 0x6fc 1 QDMA_MM_ST_MODE QDMA_REG_READ_PF_ONLY; (* TRQ_SEL_FMAP_B8 *)
    mk_xreg 0x700 1 QDMA_MM_ST_MODE QDMA_REG_READ_PF_ONLY; (* TRQ_SEL_FMAP_B9 *)
    mk_xreg 0x704 1 QDMA_MM_ST_MODE QDMA_REG_READ_PF_ONLY; (* TRQ_SEL_FMAP_BA *)
    mk_xreg 0x708 1 QDMA_MM_ST_MODE QDMA_REG_READ_PF_ONLY; (* TRQ_SEL_FMAP_BB *)
    mk_xreg 0x70c 1 QDMA_MM_ST_MODE QDMA_REG_READ_PF_ONLY; (* TRQ_SEL_FMAP_BC *)
    mk_xreg 0x710 1 QDMA_MM_ST_MODE QDMA_REG_READ_PF_ONLY; (* TRQ_SEL_FMAP_BD *)
    mk_xreg 0x714 1 QDMA_MM_ST_MODE QDMA_REG_READ_PF_ONLY; (* TRQ_SEL_FMAP_BE *)
    mk_xreg 0x718 1 QDMA_MM_ST_MODE QDMA_REG_READ_PF_ONLY; (* TRQ_SEL_FMAP_BF *)
    mk_xreg 0x71c 1 QDMA_MM_ST_MODE QDMA_REG_READ_PF_ONLY; (* TRQ_SEL_FMAP_C0 *)
    mk_xreg 0x720 1 QDMA_MM_ST_MODE QDMA_REG_READ_PF_ONLY; (* TRQ_SEL_FMAP_C1 *)
    mk_xreg 0x734 1 QDMA_MM_ST_MODE QDMA_REG_READ_PF_ONLY; (* TRQ_SEL_FMAP_C2 *)
    mk_xreg 0x748 1 QDMA_MM_ST_MODE QDMA_REG_READ_PF_ONLY; (* TRQ_SEL_FMAP_C3 *)
    mk_xreg 0x74c 1 QDMA_MM_ST_MODE QDMA_REG_READ_PF_ONLY; (* TRQ_SEL_FMAP_C4 *)
    mk_xreg 0x750 1 QDMA_MM_ST_MODE QDMA_REG_READ_PF_ONLY; (* TRQ_SEL_FMAP_C5 *)
    mk_xreg 0x754 1 QDMA_MM_ST_MODE QDMA_REG_READ_PF_ONLY; (* TRQ_SEL_FMAP_C6 *)
    mk_xreg 0x758 1 QDMA_MM_ST_MODE QDMA_REG_READ_PF_ONLY; (* TRQ_SEL_FMAP_C7 *)
    mk_xreg 0x75c 1 QDMA_MM_ST_MODE QDMA_REG_READ_PF_ONLY; (* TRQ_SEL_FMAP_C8 *)
    mk_xreg 0x760 1 QDMA_MM_ST_MODE QDMA_REG_READ_PF_ONLY; (* TRQ_SEL_FMAP_C9 *)
    mk_xreg 0x764 1 QDMA_MM_ST_MODE QDMA_REG_READ_PF_ONLY; (* TRQ_SEL_FMAP_CA *)
    mk_xreg 0x768 1 QDMA_MM_ST_MODE QDMA_REG_READ_PF_ONLY; (* TRQ_SEL_FMAP_CB *)
    mk_xreg 0x76c 1 QDMA_MM_ST_MODE QDMA_REG_READ_PF_ONLY; (* TRQ_SEL_FMAP_CC *)
    mk_xreg 0x770 1 QDMA_MM_ST_MODE QDMA_REG_READ_PF_ONLY; (* TRQ_SEL_FMAP_CD *)
    mk_xreg 0x774 1 QDMA_MM_ST_MODE QDMA_REG_READ_PF_ONLY; (* TRQ_SEL_FMAP_CE *)
    mk_xreg 0x778 1 QDMA_MM_ST_MODE QDMA_REG_READ_PF_ONLY; (* TRQ_SEL_FMAP_CF *)
    mk_xreg 0x77c 1 QDMA_MM_ST_MODE QDMA_REG_READ_PF_ONLY; (* TRQ_SEL_FMAP_D0 *)
    mk_xreg 0x780 1 QDMA_MM_ST_MODE QDMA_REG_READ_PF_ONLY; (* TRQ_SEL_FMAP_D1 *)
    mk_xreg 0x784 1 QDMA_MM_ST_MODE QDMA_REG_READ_PF_ONLY; (* TRQ_SEL_FMAP_D2 *)
    mk_xreg 0x788 1 QDMA_MM_ST_MODE QDMA_REG_READ_PF_ONLY; (* TRQ_SEL_FMAP_D3 *)
    mk_xreg 0x78c 1 QDMA_MM_ST_MODE QDMA_REG_READ_PF_ONLY; (* TRQ_SEL_FMAP_D4 *)
    mk_xreg 0x790 1 QDMA_MM_ST_MODE QDMA_REG_READ_PF_ONLY; (* TRQ_SEL_FMAP_D5 *)
    mk_xreg 0x794 1 QDMA_MM_ST_MODE QDMA_REG_READ_PF_ONLY; (* TRQ_SEL_FMAP_D6 *)
    mk_xreg 0x798 1 QDMA_MM_ST_MODE QDMA_REG_READ_PF_ONLY; (* TRQ_SEL_FMAP_D7 *)
    mk_xreg 0x79c 1 QDMA_MM_ST_MODE QDMA_REG_READ_PF_ONLY; (* TRQ_SEL_FMAP_D8 *)
    mk_xreg 0x7a0 1 QDMA_MM_ST_MODE QDMA_REG_READ_PF_ONLY; (* TRQ_SEL_FMAP_D9 *)
    mk_xreg 0x7a4 1 QDMA_MM_ST_MODE QDMA_REG_READ_PF_ONLY; (* TRQ_SEL_FMAP_DA *)
    mk_xreg 0x7a8 1 QDMA_MM_ST_MODE QDMA_REG_READ_PF_ONLY; (* TRQ_SEL_FMAP_DB *)
    mk_xreg 0x7ac 1 QDMA_MM_ST_MODE QDMA_REG_READ_PF_ONLY; (* TRQ_SEL_FMAP_DC *)
    mk_xreg 0x7b0 1 QDMA_MM_ST_MODE QDMA_REG_READ_PF_ONLY; (* TRQ_SEL_FMAP_DD *)
    mk_xreg 0x7b4 1 QDMA_MM_ST_MODE QDMA_REG_READ_PF_ONLY; (* TRQ_SEL_FMAP_DE *)
    mk_xreg 0x7b8 1 QDMA_MM_ST_MODE QDMA_REG_READ_PF_ONLY; (* TRQ_SEL_FMAP_DF *)
    mk_xreg 0x7bc 1 QDMA_MM_ST_MODE QDMA_REG_READ_PF_ONLY; (* TRQ_SEL_FMAP_E0 *)
    mk_xreg 0x7c0 1 QDMA_MM_ST_MODE QDMA_REG_READ_PF_ONLY; (* TRQ_SEL_FMAP_E1 *)
    mk_xreg 0x7c4 1 QDMA_MM_ST_MODE QDMA_REG_READ_PF_ONLY; (* TRQ_SEL_FMAP_E2 *)
    mk_xreg 0x7c8 1 QDMA_MM_ST_MODE QDMA_REG_READ_PF_ONLY; (* TRQ_SEL_FMAP_E3 *)
    mk_xreg 0x7cc 1 QDMA_MM_ST_MODE QDMA_REG_READ_PF_ONLY; (* TRQ_SEL_FMAP_E4 *)
    mk_xreg 0x7d0 1 QDMA_MM_ST_MODE QDMA_REG_READ_PF_ONLY; (* TRQ_SEL_FMAP_E5 *)
    mk_xreg 0x7d4 1 QDMA_MM_ST_MODE QDMA_REG_READ_PF_ONLY; (* TRQ_SEL_FMAP_E6 *)
    mk_xreg 0x7d8 1 QDMA_MM_ST_MODE QDMA_REG_READ_PF_ONLY; (* TRQ_SEL_FMAP_E7 *)
    mk_xreg 0x7dc 1 QDMA_MM_ST_MODE QDMA_REG_READ_PF_ONLY; (* TRQ_SEL_FMAP_E8 *)
    mk_xreg 0x7e0 1 QDMA_MM_ST_MODE QDMA_REG_READ_PF_ONLY; (* TRQ_SEL_FMAP_E9 *)
    mk_xreg 0x7e4 1 QDMA_MM_ST_MODE QDMA_REG_READ_PF_ONLY; (* TRQ_SEL_FMAP_EA *)
    mk_xreg 0x7e8 1 QDMA_MM_ST_MODE QDMA_REG_READ_PF_ONLY; (* TRQ_SEL_FMAP_EB *)
    mk_xreg 0x7ec 1 QDMA_MM_ST_MODE QDMA_REG_READ_PF_ONLY; (* TRQ_SEL_FMAP_EC *)
    mk_xreg 0x7f0 1 QDMA_MM_ST_MODE QDMA_REG_READ_PF_ONLY; (* TRQ_SEL_FMAP_ED *)
    mk_xreg 0x7f4 1 QDMA_MM_ST_MODE QDMA_REG_READ_PF_ONLY; (* TRQ_SEL_FMAP_EE *)
    mk_xreg 0x7f8 1 QDMA_MM_ST_MODE QDMA_REG_READ_PF_ONLY; (* TRQ_SEL_FMAP_EF *)
    mk_xreg 0x7fc 1 QDMA_MM_ST_MODE QDMA_REG_READ_PF_ONLY; (* TRQ_SEL_FMAP_F0 *)
    mk_xreg 0x804 1 QDMA_MM_ST_MODE QDMA_REG_READ_PF_ONLY; (* IND_CTXT_DATA_3 *)
    mk_xreg 0x808 1 QDMA_MM_ST_MODE QDMA_REG_READ_PF_ONLY; (* IND_CTXT_DATA_2 *)
    mk_xreg 0x80c 1 QDMA_MM_ST_MODE QDMA_REG_READ_PF_ONLY; (* IND_CTXT_DATA_1 *)
    mk_xreg 0x810 1 QDMA_MM_ST_MODE QDMA_REG_READ_PF_ONLY; (* IND_CTXT_DATA_0 *)
    mk_xreg 0x814 1 QDMA_MM_ST_MODE QDMA_REG_READ_PF_ONLY; (* IND_CTXT3 *)
    mk_xreg 0x818 1 QDMA_MM_ST_MODE QDMA_REG_READ_PF_ONLY; (* IND_CTXT2 *)
    mk_xreg 0x81c 1 QDMA_MM_ST_MODE QDMA_REG_READ_PF_ONLY; (* IND_CTXT1 *)
    mk_xreg 0x820 1 QDMA_MM_ST_MODE QDMA_REG_READ_PF_ONLY; (* IND_CTXT0 *)
    mk_xreg 0x824 1 QDMA_MM_ST_MODE QDMA_REG_READ_PF_ONLY; (* IND_CTXT_CMD *)
    mk_xreg 0xa00 1 QDMA_COMPLETION_MODE QDMA_REG_READ_PF_ONLY; (* C2H_TIMER_CNT_1 *)
    mk_xreg 0xa04 1 QDMA_COMPLETION_MODE QDMA_REG_READ_PF_ONLY; (* C2H_TIMER_CNT_2 *)
    mk_xreg 0xa08 1 QDMA_COMPLETION_MODE QDMA_REG_READ_PF_ONLY; (* C2H_TIMER_CNT_3 *)
    mk_xreg 0xa0c 1 QDMA_COMPLETION_MODE QDMA_REG_READ_PF_ONLY; (* C2H_TIMER_CNT_4 *)
    mk_xreg 0xa10 1 QDMA_COMPLETION_MODE QDMA_REG_READ_PF_ONLY; (* C2H_TIMER_CNT_5 *)
    mk_xreg 0xa14 1 QDMA_COMPLETION_MODE QDMA_REG_READ_PF_ONLY; (* C2H_TIMER_CNT_6 *)
    mk_xreg 0xa18 1 QDMA_COMPLETION_MODE QDMA_REG_READ_PF_ONLY; (* C2H_TIMER_CNT_7 *)
    mk_xreg 0xa1c 1 QDMA_COMPLETION_MODE QDMA_REG_READ_PF_ONLY; (* C2H_TIMER_CNT_8 *)
    mk_xreg 0xa20 1 QDMA_COMPLETION_MODE QDMA_REG_READ_PF_ONLY; (* C2H_TIMER_CNT_9 *)
    mk_xreg 0xa24 1 QDMA_COMPLETION_MODE QDMA_REG_READ_PF_ONLY; (* C2H_TIMER_CNT_A *)
    mk_xreg 0xa28 1 QDMA_COMPLETION_MODE QDMA_REG_READ_PF_ONLY; (* C2H_TIMER_CNT_B *)
    mk_xreg 0xa2c 1 QDMA_COMPLETION_MODE QDMA_REG_READ_PF_ONLY; (* C2H_TIMER_CNT_C *)
    mk_xreg 0xa30 1 QDMA_COMPLETION_MODE QDMA_REG_READ_PF_ONLY; (* C2H_TIMER_CNT_D *)
    mk_xreg 0xa34 1 QDMA_COMPLETION_MODE QDMA_REG_READ_PF_ONLY; (* C2H_TIMER_CNT_E *)
    mk_xreg 0xa38 1 QDMA_COMPLETION_MODE QDMA_REG_READ_PF_ONLY; (* C2H_TIMER_CNT_F *)
    mk_xreg 0xa3c 1 QDMA_COMPLETION_MODE QDMA_REG_READ_PF_ONLY; (* C2H_TIMER_CNT_10 *)
    mk_xreg 0xa40 1 QDMA_COMPLETION_MODE QDMA_REG_READ_PF_ONLY; (* C2H_CNT_TH_1 *)
    mk_xreg 0xa44 1 QDMA_COMPLETION_MODE QDMA_REG_READ_PF_ONLY; (* C2H_CNT_TH_2 *)
    mk_xreg 0xa48 1 QDMA_COMPLETION_MODE QDMA_REG_READ_PF_ONLY; (* C2H_CNT_TH_3 *)
    mk_xreg 0xa4c 1 QDMA_COMPLETION_MODE QDMA_REG_READ_PF_ONLY; (* C2H_CNT_TH_4 *)
    mk_xreg 0xa50 1 QDMA_COMPLETION_MODE QDMA_REG_READ_PF_ONLY; (* C2H_CNT_TH_5 *)
    mk_xreg 0xa54 1 QDMA_COMPLETION_MODE QDMA_REG_READ_PF_ONLY; (* C2H_CNT_TH_6 *)
    mk_xreg 0xa58 1 QDMA_COMPLETION_MODE QDMA_REG_READ_PF_ONLY; (* C2H_CNT_TH_7 *)
    mk_xreg 0xa5c 1 QDMA_COMPLETION_MODE QDMA_REG_READ_PF_ONLY; (* C2H_CNT_TH_8 *)
    mk_xreg 0xa60 1 QDMA_COMPLETION_MODE QDMA_REG_READ_PF_ONLY; (* C2H_CNT_TH_9 *)
    mk_xreg 0xa64 1 QDMA_COMPLETION_MODE QDMA_REG_READ_PF_ONLY; (* C2H_CNT_TH_A *)
    mk_xreg 0xa68 1 QDMA_COMPLETION_MODE QDMA_REG_READ_PF_ONLY; (* C2H_CNT_TH_B *)
    mk_xreg 0xa6c 1 QDMA_COMPLETION_MODE QDMA_REG_READ_PF_ONLY; (* C2H_CNT_TH_C *)
    mk_xreg 0xa70 1 QDMA_COMPLETION_MODE QDMA_REG_READ_PF_ONLY; (* C2H_CNT_TH_D *)
    mk_xreg 0xa74 1 QDMA_COMPLETION_MODE QDMA_REG_READ_PF_ONLY; (* C2H_CNT_TH_E *)
    mk_xreg 0xa78 1 QDMA_COMPLETION_MODE QDMA_REG_READ_PF_ONLY; (* C2H_CNT_TH_F *)
    mk_xreg 0xa7c 1 QDMA_COMPLETION_MODE QDMA_REG_READ_PF_ONLY; (* C2H_CNT_TH_10 *)
    mk_xreg 0xa80 1 QDMA_MM_ST_MODE QDMA_REG_READ_PF_ONLY; (* C2H_QID2VEC_MAP_QID *)
    mk_xreg 0xa84 1 QDMA_MM_ST_MODE QDMA_REG_READ_PF_ONLY; (* C2H_QID2VEC_MAP *)
    mk_xreg 0xa88 1 QDMA_ST_MODE QDMA_REG_READ_PF_VF; (* C2H_STAT_S_AXIS_C2H_ACCEPTED *)
    mk_xreg 0xa8c 1 QDMA_ST_MODE QDMA_REG_READ_PF_VF; (* C2H_STAT_S_AXIS_WRB_ACCEPTED *)
    mk_xreg 0xa90 1 QDMA_ST_MODE QDMA_REG_READ_PF_VF; (* C2H_STAT_DESC_RSP_PKT_ACCEPTED *)
    mk_xreg 0xa94 1 QDMA_ST_MODE QDMA_REG_READ_PF_VF; (* C2H_STAT_AXIS_PKG_CMP *)
    mk_xreg 0xa98 1 QDMA_ST_MODE QDMA_REG_READ_PF_ONLY; (* C2H_STAT_DESC_RSP_ACCEPTED *)
    mk_xreg 0xa9c 1 QDMA_ST_MODE QDMA_REG_READ_PF_ONLY; (* C2H_STAT_DESC_RSP_CMP *)
    mk_xreg 0xaa0 1 QDMA_ST_MODE QDMA_REG_READ_PF_ONLY; (* C2H_STAT_WRQ_OUT *)
    mk_xreg 0xaa4 1 QDMA_ST_MODE QDMA_REG_READ_PF_ONLY; (* C2H_STAT_WPL_REN_ACCEPTED *)
    mk_xreg 0xaa8 1 QDMA_ST_MODE QDMA_REG_READ_PF_ONLY; (* C2H_STAT_TOTAL_WRQ_LEN *)
    mk_xreg 0xaac 1 QDMA_ST_MODE QDMA_REG_READ_PF_ONLY; (* C2H_STAT_TOTAL_WPL_LEN *)
    mk_xreg 0xab0 1 QDMA_ST_MODE QDMA_REG_READ_PF_ONLY; (* C2H_BUF_SZ_0 *)
    mk_xreg 0xab4 1 QDMA_ST_MODE QDMA_REG_READ_PF_ONLY; (* C2H_BUF_SZ_1 *)
    mk_xreg 0xab8 1 QDMA_ST_MODE QDMA_REG_READ_PF_ONLY; (* C2H_BUF_SZ_2 *)
    mk_xreg 0xabc 1 QDMA_ST_MODE QDMA_REG_READ_PF_ONLY; (* C2H_BUF_SZ_3 *)
    mk_xreg 0xac0 1 QDMA_ST_MODE QDMA_REG_READ_PF_ONLY; (* C2H_BUF_SZ_4 *)
    mk_xreg 0xac4 1 QDMA_ST_MODE QDMA_REG_READ_PF_ONLY; (* C2H_BUF_SZ_5 *)
    mk_xreg 0xac8 1 QDMA_ST_MODE QDMA_REG_READ_PF_ONLY; (* C2H_BUF_SZ_7 *)
    mk_xreg 0xacc 1 QDMA_ST_MODE QDMA_REG_READ_PF_ONLY; (* C2H_BUF_SZ_8 *)
    mk_xreg 0xad0 1 QDMA_ST_MODE QDMA_REG_READ_PF_ONLY; (* C2H_BUF_SZ_9 *)
    mk_xreg 0xad4 1 QDMA_ST_MODE QDMA_REG_READ_PF_ONLY; (* C2H_BUF_SZ_10 *)
    mk_xreg 0xad8 1 QDMA_ST_MODE QDMA_REG_READ_PF_ONLY; (* C2H_BUF_SZ_11 *)
    mk_xreg 0xae0 1 QDMA_ST_MODE QDMA_REG_READ_PF_ONLY; (* C2H_BUF_SZ_12 *)
    mk_xreg 0xae4 1 QDMA_ST_MODE QDMA_REG_READ_PF_ONLY; (* C2H_BUF_SZ_13 *)
    mk_xreg 0xae8 1 QDMA_ST_MODE QDMA_REG_READ_PF_ONLY; (* C2H_BUF_SZ_14 *)
    mk_xreg 0xaec 1 QDMA_ST_MODE QDMA_REG_READ_PF_ONLY; (* C2H_BUF_SZ_15 *)
    mk_xreg 0xaf0 1 QDMA_ST_MODE QDMA_REG_READ_PF_VF; (* C2H_ERR_STAT *)
    mk_xreg 0xaf4 1 QDMA_ST_MODE QDMA_REG_READ_PF_VF; (* C2H_ERR_MASK *)
    mk_xreg 0xaf8 1 QDMA_ST_MODE QDMA_REG_READ_PF_VF; (* C2H_FATAL_ERR_STAT *)
    mk_xreg 0xafc 1 QDMA_ST_MODE QDMA_REG_READ_PF_VF; (* C2H_FATAL_ERR_MASK *)
    mk_xreg 0xb00 1 QDMA_ST_MODE QDMA_REG_READ_PF_VF; (* C2H_FATAL_ERR_ENABLE *)
    mk_xreg 0xb04 1 QDMA_ST_MODE QDMA_REG_READ_PF_VF; (* GLBL_ERR_INT *)
    mk_xreg 0xb08 1 QDMA_ST_MODE QDMA_REG_READ_PF_ONLY; (* C2H_PFCH_CFG *)
    mk_xreg 0xb0c 1 QDMA_ST_MODE QDMA_REG_READ_PF_ONLY; (* C2H_INT_TIMER_TICK *)
    mk_xreg 0xb10 1 QDMA_ST_MODE QDMA_REG_READ_PF_VF; (* C2H_STAT_DESC_RSP_DROP_ACCEPTED *)
    mk_xreg 0xb14 1 QDMA_ST_MODE QDMA_REG_READ_PF_VF; (* C2H_STAT_DESC_RSP_ERR_ACCEPTED *)
    mk_xreg 0xb18 1 QDMA_ST_MODE QDMA_REG_READ_PF_ONLY; (* C2H_STAT_DESC_REQ *)
    mk_xreg 0xb1c 1 QDMA_ST_MODE QDMA_REG_READ_PF_ONLY; (* C2H_STAT_DBG_DMA_ENG_0 *)
    mk_xreg 0xb20 1 QDMA_ST_MODE QDMA_REG_READ_PF_ONLY; (* C2H_STAT_DBG_DMA_ENG_1 *)
    mk_xreg 0xb24 1 QDMA_ST_MODE QDMA_REG_READ_PF_ONLY; (* C2H_STAT_DBG_DMA_ENG_2 *)
    mk_xreg 0xb28 1 QDMA_ST_MODE QDMA_REG_READ_PF_ONLY; (* C2H_STAT_DBG_DMA_ENG_3 *)
    mk_xreg 0xb2c 1 QDMA_ST_MODE QDMA_REG_READ_PF_ONLY; (* C2H_DBG_PFCH_ERR_CTXT *)
    mk_xreg 0xb30 1 QDMA_ST_MODE QDMA_REG_READ_PF_VF; (* C2H_FIRST_ERR_QID *)
    mk_xreg 0xb34 1 QDMA_ST_MODE QDMA_REG_READ_PF_ONLY; (* STAT_NUM_WRB_IN *)
    mk_xreg 0xb38 1 QDMA_ST_MODE QDMA_REG_READ_PF_ONLY; (* STAT_NUM_WRB_OUT *)
    mk_xreg 0xb3c 1 QDMA_ST_MODE QDMA_REG_READ_PF_ONLY; (* STAT_NUM_WRB_DRP *)
    mk_xreg 0xb40 1 QDMA_ST_MODE QDMA_REG_READ_PF_ONLY; (* STAT_NUM_STAT_DESC_OUT *)
    mk_xreg 0xb44 1 QDMA_ST_MODE QDMA_REG_READ_PF_ONLY; (* STAT_NUM_DSC_CRDT_SENT *)
    mk_xreg 0xb48 1 QDMA_ST_MODE QDMA_REG_READ_PF_ONLY; (* STAT_NUM_FCH_DSC_RCVD *)
    mk_xreg 0xb4c 1 QDMA_ST_MODE QDMA_REG_READ_PF_ONLY; (* STAT_NUM_BYP_DSC_RCVD *)
    mk_xreg 0xb50 1 QDMA_ST_MODE QDMA_REG_READ_PF_ONLY; (* C2H_WRB_COAL_CFG *)
    mk_xreg 0xb54 1 QDMA_ST_MODE QDMA_REG_READ_PF_VF; (* C2H_INTR_H2C_REQ *)
    mk_xreg 0xb58 1 QDMA_ST_MODE QDMA_REG_READ_PF_VF; (* C2H_INTR_C2H_MM_REQ *)
    mk_xreg 0xb5c 1 QDMA_ST_MODE QDMA_REG_READ_PF_VF; (* C2H_INTR_ERR_INT_REQ *)
    mk_xreg 0xb60 1 QDMA_ST_MODE QDMA_REG_READ_PF_VF; (* C2H_INTR_C2H_ST_REQ *)
    mk_xreg 0xb64 1 QDMA_ST_MODE QDMA_REG_READ_PF_ONLY; (* C2H_INTR_H2C_ERR_C2H_MM_MSIX_ACK *)
    mk_xreg 0xb68 1 QDMA_ST_MODE QDMA_REG_READ_PF_ONLY; (* C2H_INTR_H2C_ERR_C2H_MM_MSIX_FAIL *)
    mk_xreg 0xb6c 1 QDMA_ST_MODE QDMA_REG_READ_PF_ONLY; (* C2H_INTR_H2C_ERR_C2H_MM_MSIX_NO_MSIX *)
    mk_xreg 0xb70 1 QDMA_ST_MODE QDMA_REG_READ_PF_ONLY; (* C2H_INTR_H2C_ERR_C2H_MM_CTXT_INVAL *)
    mk_xreg 0xb74 1 QDMA_ST_MODE QDMA_REG_READ_PF_VF; (* C2H_INTR_C2H_ST_MSIX_ACK *)
    mk_xreg 0xb78 1 QDMA_ST_MODE QDMA_REG_READ_PF_VF; (* C2H_INTR_C2H_ST_MSIX_FAIL *)
    mk_xreg 0xb7c 1 QDMA_ST_MODE QDMA_REG_READ_PF_ONLY; (* C2H_INTR_C2H_ST_NO_MSIX *)
    mk_xreg 0xb80 1 QDMA_ST_MODE QDMA_REG_READ_PF_ONLY; (* C2H_INTR_C2H_ST_CTXT_INVAL *)
    mk_xreg 0xb84 1 QDMA_ST_MODE QDMA_REG_READ_PF_ONLY; (* C2H_STAT_WR_CMP *)
    mk_xreg 0xb88 1 QDMA_ST_MODE QDMA_REG_READ_PF_ONLY; (* C2H_STAT_DBG_DMA_ENG_4 *)
    mk_xreg 0xb8c 1 QDMA_ST_MODE QDMA_REG_READ_PF_ONLY; (* C2H_STAT_DBG_DMA_ENG_5 *)
    mk_xreg 0xb90 1 QDMA_ST_MODE QDMA_REG_READ_PF_ONLY; (* C2H_DBG_PFCH_QID *)
    mk_xreg 0xb94 1 QDMA_ST_MODE QDMA_REG_READ_PF_ONLY; (* C2H_DBG_PFCH *)
    mk_xreg 0xb98 1 QDMA_ST_MODE QDMA_REG_READ_PF_ONLY; (* C2H_INT_DBG *)
    mk_xreg 0xb9c 1 QDMA_ST_MODE QDMA_REG_READ_PF_ONLY; (* C2H_STAT_IMM_ACCEPTED *)
    mk_xreg 0xba0 1 QDMA_ST_MODE QDMA_REG_READ_PF_ONLY; (* C2H_STAT_MARKER_ACCEPTED *)
    mk_xreg 0xba4 1 QDMA_ST_MODE QDMA_REG_READ_PF_ONLY; (* C2H_STAT_DISABLE_CMP_ACCEPTED *)
    mk_xreg 0xba8 1 QDMA_ST_MODE QDMA_REG_READ_PF_ONLY; (* C2H_PLD_FIFO_CRDT_CNT *)
    mk_xreg 0xe00 1 QDMA_ST_MODE QDMA_REG_READ_PF_VF; (* H2C_ERR_STAT *)
    mk_xreg 0xe04 1 QDMA_ST_MODE QDMA_REG_READ_PF_VF; (* H2C_ERR_MASK *)
    mk_xreg 0xe08 1 QDMA_ST_MODE QDMA_REG_READ_PF_VF; (* H2C_FIRST_ERR_QID *)
    mk_xreg 0xe0c 1 QDMA_ST_MODE QDMA_REG_READ_PF_ONLY; (* H2C_DBG_REG0 *)
    mk_xreg 0xe10 1 QDMA_ST_MODE QDMA_REG_READ_PF_ONLY; (* H2C_DBG_REG1 *)
    mk_xreg 0xe14 1 QDMA_ST_MODE QDMA_REG_READ_PF_ONLY; (* H2C_DBG_REG2 *)
    mk_xreg 0xe18 1 QDMA_ST_MODE QDMA_REG_READ_PF_ONLY; (* H2C_DBG_REG3 *)
    mk_xreg 0xe1c 1 QDMA_ST_MODE QDMA_REG_READ_PF_ONLY; (* H2C_DBG_REG4 *)
    mk_xreg 0xe20 1 QDMA_ST_MODE QDMA_REG_READ_PF_VF; (* H2C_FATAL_ERR_EN *)
    mk_xreg 0x1004 1 QDMA_MM_MODE QDMA_REG_READ_PF_ONLY; (* C2H_CHANNEL_CTL *)
    mk_xreg 0x1008 1 QDMA_MM_MODE QDMA_REG_READ_PF_ONLY; (* C2H_CHANNEL_CTL_1 *)
    mk_xreg 0x1040 1 QDMA_MM_MODE QDMA_REG_READ_PF_ONLY; (* C2H_MM_STATUS *)
    mk_xreg 0x1048 1 QDMA_MM_MODE QDMA_REG_READ_PF_ONLY; (* C2H_CHANNEL_CMPL_DESC_CNT *)
    mk_xreg 0x1054 1 QDMA_MM_MODE QDMA_REG_READ_PF_ONLY; (* C2H_MM_ERR_CODE_ENABLE_MASK *)
    mk_xreg 0x1058 1 QDMA_MM_MODE QDMA_REG_READ_PF_ONLY; (* C2H_MM_ERR_CODE *)
    mk_xreg 0x105c 1 QDMA_MM_MODE QDMA_REG_READ_PF_ONLY; (* C2H_MM_ERR_INFO *)
    mk_xreg 0x10c0 1 QDMA_MM_MODE QDMA_REG_READ_PF_ONLY; (* C2H_MM_PERF_MON_CTL *)
    mk_xreg 0x10c4 1 QDMA_MM_MODE QDMA_REG_READ_PF_ONLY; (* C2H_MM_PERF_MON_CYCLE_CNT0 *)
    mk_xreg 0x10c8 1 QDMA_MM_MODE QDMA_REG_READ_PF_ONLY; (* C2H_MM_PERF_MON_CYCLE_CNT1 *)
    mk_xreg 0x10cc 1 QDMA_MM_MODE QDMA_REG_READ_PF_ONLY; (* C2H_MM_PERF_MON_DATA_CNT0 *)
    mk_xreg 0x10d0 1 QDMA_MM_MODE QDMA_REG_READ_PF_ONLY; (* C2H_MM_PERF_MON_DATA_CNT1 *)
    mk_xreg 0x10e8 1 QDMA_MM_MODE QDMA_REG_READ_PF_ONLY; (* C2H_MM_DBG *)
    mk_xreg 0x1204 1 QDMA_MM_MODE QDMA_REG_READ_PF_ONLY; (* H2C_CHANNEL_CTL *)
    mk_xreg 0x1208 1 QDMA_MM_MODE QDMA_REG_READ_PF_ONLY; (* H2C_CHANNEL_CTL_1 *)
    mk_xreg 0x120c 1 QDMA_MM_MODE QDMA_REG_READ_PF_ONLY; (* H2C_CHANNEL_CTL_2 *)
    mk_xreg 0x1240 1 QDMA_MM_MODE QDMA_REG_READ_PF_ONLY; (* H2C_MM_STATUS *)
    mk_xreg 0x1248 1 QDMA_MM_MODE QDMA_REG_READ_PF_ONLY; (* H2C_CHANNEL_CMPL_DESC_CNT *)
    mk_xreg 0x1254 1 QDMA_MM_MODE QDMA_REG_READ_PF_ONLY; (* H2C_MM_ERR_CODE_ENABLE_MASK *)
    mk_xreg 0x1258 1 QDMA_MM_MODE QDMA_REG_READ_PF_ONLY; (* H2C_MM_ERR_CODE *)
    mk_xreg 0x125c 1 QDMA_MM_MODE QDMA_REG_READ_PF_ONLY; (* H2C_MM_ERR_INFO *)
    mk_xreg 0x12c0 1 QDMA_MM_MODE QDMA_REG_READ_PF_ONLY; (* H2C_MM_PERF_MON_CTL *)
    mk_xreg 0x12c4 1 QDMA_MM_MODE QDMA_REG_READ_PF_ONLY; (* H2C_MM_PERF_MON_CYCLE_CNT0 *)
    mk_xreg 0x12c8 1 QDMA_MM_MODE QDMA_REG_READ_PF_ONLY; (* H2C_MM_PERF_MON_CYCLE_CNT1 *)
    mk_xreg 0x12cc 1 QDMA_MM_MODE QDMA_REG_READ_PF_ONLY; (* H2C_MM_PERF_MON_DATA_CNT0 *)
    mk_xreg 0x12d0 1 QDMA_MM_MODE QDMA_REG_READ_PF_ONLY; (* H2C_MM_PERF_MON_DATA_CNT1 *)
    mk_xreg 0x12e8 1 QDMA_MM_MODE QDMA_REG_READ_PF_ONLY; (* H2C_MM_DBG *)
    mk_xreg 0x2400 1 QDMA_MAILBOX QDMA_REG_READ_PF_ONLY; (* FUNC_STATUS_REG *)
    mk_xreg 0x2404 1 QDMA_MAILBOX QDMA_REG_READ_PF_ONLY; (* FUNC_CMD_REG *)
    mk_xreg 0x2408 1 QDMA_MAILBOX QDMA_REG_READ_PF_ONLY; (* FUNC_INTERRUPT_VECTOR_REG *)
    mk_xreg 0x240c 1 QDMA_MAILBOX QDMA_REG_READ_PF_ONLY; (* TARGET_FUNC_REG *)
    mk_xreg 0x2410 1 QDMA_MAILBOX QDMA_REG_READ_PF_ONLY ]. (* FUNC_INTERRUPT_CTL_REG *)

Definition qdma_cpm4_listed_regs : list xreg_info := removelast qdma_cpm4_config_regs.

(** Returns the return value and [*reg_entry]. *)
Definition qdma_cpm4_get_reg_entry (reg_addr : Z) : Z * Z :=
  match find_addr reg_addr qdma_cpm4_listed_regs O with
  | Some i => (0, Z.of_nat i)
  | None => (INV_PARAM, -1)
  end.

Definition qdma_cpm4_group_start (reg_rd_group : Z) : option Z :=
  if reg_rd_group =? 0 then Some QDMA_CPM4_REG_GROUP_1_START_ADDR
  else if reg_rd_group =? 1 then Some QDMA_CPM4_REG_GROUP_2_START_ADDR
  else if reg_rd_group =? 2 then Some QDMA_CPM4_REG_GROUP_3_START_ADDR
  else if reg_rd_group =? 3 then Some QDMA_CPM4_REG_GROUP_4_START_ADDR
  else None.

(** ** Indirect access

    Four data and four mask registers, then the command, whose queue id has
    eleven bits. *)

Definition QDMA_CPM4_IND_CTXT_DATA_NUM_REGS : nat := 4.
Definition CPM4_CMD_QID_MASK : Z := GENMASK 17 7.

(** [union qdma_cpm4_ind_ctxt_cmd]: busy:1, sel:4, op:2, qid:11. *)
Definition qdma_cpm4_ind_ctxt_cmd (sel : ind_ctxt_cmd_sel) (op : ind_ctxt_cmd_op) (qid : Z) : Z :=
  FIELD_SET CPM4_CMD_QID_MASK qid .| FIELD_SET CMD_OP_MASK (op_val op) .| FIELD_SET CMD_SEL_MASK (sel_val sel).

(** [struct qdma_cpm4_indirect_ctxt_regs] as nine words. *)
Definition qdma_cpm4_indirect_ctxt_regs (sel : ind_ctxt_cmd_sel) (hw_qid : Z) (data : list Z) : list Z :=
  ((λ index, default 0 (data !! index)) <$> seq 0 QDMA_CPM4_IND_CTXT_DATA_NUM_REGS) ++
  replicate QDMA_CPM4_IND_CTXT_DATA_NUM_REGS 0xFFFFFFFF ++
  [qdma_cpm4_ind_ctxt_cmd sel QDMA_CTXT_CMD_WR hw_qid].

Section access.
Context {dev : Type} `{Device dev}.

Definition cpm4_monitor_busy : hwm dev Z :=
  hw_monitor_reg QDMA_CPM4_IND_CTXT_CMD_ADDR IND_CTXT_CMD_BUSY_MASK 0
    QDMA_REG_POLL_DFLT_INTERVAL_US QDMA_REG_POLL_DFLT_TIMEOUT_US.

Definition qdma_cpm4_indirect_reg_invalidate (sel : ind_ctxt_cmd_sel) (hw_qid : Z) : hwm dev Z :=
  qdma_reg_access_lock;;
  qdma_reg_write QDMA_CPM4_IND_CTXT_CMD_ADDR (qdma_cpm4_ind_ctxt_cmd sel QDMA_CTXT_CMD_INV hw_qid);;
  rv ← cpm4_monitor_busy;
  if negb (rv =? 0) then
    qdma_reg_access_release;; mret (ERR QDMA_ERR_HWACC_BUSY_TIMEOUT)
  else qdma_reg_access_release;; mret QDMA_SUCCESS.

Definition qdma_cpm4_indirect_reg_clear (sel : ind_ctxt_cmd_sel) (hw_qid : Z) : hwm dev Z :=
  qdma_reg_access_lock;;
  qdma_reg_write QDMA_CPM4_IND_CTXT_CMD_ADDR (qdma_cpm4_ind_ctxt_cmd sel QDMA_CTXT_CMD_CLR hw_qid);;
  rv ← cpm4_monitor_busy;
  if negb (rv =? 0) then
    qdma_reg_access_release;; mret (ERR QDMA_ERR_HWACC_BUSY_TIMEOUT)
  else qdma_reg_access_release;; mret QDMA_SUCCESS.

Definition qdma_cpm4_indirect_reg_read (sel : ind_ctxt_cmd_sel) (hw_qid : Z) (cnt : nat) :
    hwm dev (Z * list Z) :=
  qdma_reg_access_lock;;
  qdma_reg_write QDMA_CPM4_IND_CTXT_CMD_ADDR (qdma_cpm4_ind_ctxt_cmd sel QDMA_CTXT_CMD_RD hw_qid);;
  rv ← cpm4_monitor_busy;
  if negb (rv =? 0) then
    qdma_reg_access_release;; mret (ERR QDMA_ERR_HWACC_BUSY_TIMEOUT, replicate cnt 0)
  else
    data ← read_words QDMA_CPM4_IND_CTXT_DATA_3_ADDR cnt;
    qdma_reg_access_release;; mret (QDMA_SUCCESS, data).

Definition qdma_cpm4_indirect_reg_write (sel : ind_ctxt_cmd_sel) (hw_qid : Z) (data : list Z) : hwm dev Z :=
  qdma_reg_access_lock;;
  write_words QDMA_CPM4_IND_CTXT_DATA_3_ADDR (qdma_cpm4_indirect_ctxt_regs sel hw_qid data);;
  rv ← cpm4_monitor_busy;
  if negb (rv =? 0) then
    qdma_reg_access_release;; mret (ERR QDMA_ERR_HWACC_BUSY_TIMEOUT)
  else qdma_reg_access_release;; mret QDMA_SUCCESS.

(** ** Vectors of a queue

    This hardware keeps the vectors of a queue apart from its contexts, in the
    entry where the others keep the function map. *)

Definition qdma_cpm4_qid2vec_write (dev_hndl : bool) (c2h hw_qid : Z) (ctxt : option qdma_qid2vec) : hwm dev Z :=
  match dev_hndl, ctxt with
  | true, Some ctxt =>
      r ← qdma_cpm4_indirect_reg_read QDMA_CTXT_SEL_FMAP hw_qid 1;
      if r.1 <? 0 then mret r.1
      else
        let qid2vec := word r.2 0 in
        let qid2vec :=
          if nz c2h then
            Z.land qid2vec (QDMA_CPM4_QID2VEC_H2C_VECTOR .| QDMA_CPM4_QID2VEC_H2C_COAL_EN) .|
            (FIELD_SET C2H_QID2VEC_MAP_C2H_VECTOR_MASK (q2v_c2h_vector ctxt) .|
             FIELD_SET C2H_QID2VEC_MAP_C2H_EN_COAL_MASK (q2v_c2h_en_coal ctxt))
          else
            Z.land qid2vec (C2H_QID2VEC_MAP_C2H_VECTOR_MASK .| C2H_QID2VEC_MAP_C2H_EN_COAL_MASK) .|
            (FIELD_SET QDMA_CPM4_QID2VEC_H2C_VECTOR (q2v_h2c_vector ctxt) .|
             FIELD_SET QDMA_CPM4_QID2VEC_H2C_COAL_EN (q2v_h2c_en_coal ctxt)) in
        qdma_cpm4_indirect_reg_write QDMA_CTXT_SEL_FMAP hw_qid [qid2vec]
  | _, _ => mret INV_PARAM
  end.

Definition qdma_cpm4_qid2vec_read (dev_hndl : bool) (c2h hw_qid : Z) (ctxt : option qdma_qid2vec) :
    hwm dev (Z * option qdma_qid2vec) :=
  match dev_hndl, ctxt with
  | true, Some old =>
      r ← qdma_cpm4_indirect_reg_read QDMA_CTXT_SEL_FMAP hw_qid
            (Z.to_nat QDMA_CPM4_QID2VEC_CONTEXT_NUM_WORDS);
      if r.1 <? 0 then mret (r.1, Some old)
      else
        let w0 := word r.2 0 in
        mret (QDMA_SUCCESS, Some
          (if nz c2h then
             {| q2v_c2h_vector := u8 (FIELD_GET C2H_QID2VEC_MAP_C2H_VECTOR_MASK w0);
                q2v_c2h_en_coal := u8 (FIELD_GET C2H_QID2VEC_MAP_C2H_EN_COAL_MASK w0);
                q2v_h2c_vector := q2v_h2c_vector old; q2v_h2c_en_coal := q2v_h2c_en_coal old |}
           else
             {| q2v_c2h_vector := q2v_c2h_vector old; q2v_c2h_en_coal := q2v_c2h_en_coal old;
                q2v_h2c_vector := u8 (FIELD_GET QDMA_CPM4_QID2VEC_H2C_VECTOR w0);
                q2v_h2c_en_coal := u8 (FIELD_GET QDMA_CPM4_QID2VEC_H2C_COAL_EN w0) |}))
  | _, _ => mret (INV_PARAM, ctxt)
  end.

Definition qdma_cpm4_qid2vec_clear (dev_hndl : bool) (hw_qid : Z) : hwm dev Z :=
  if negb dev_hndl then mret INV_PARAM else qdma_cpm4_indirect_reg_clear QDMA_CTXT_SEL_FMAP hw_qid.

Definition qdma_cpm4_qid2vec_invalidate (dev_hndl : bool) (hw_qid : Z) : hwm dev Z :=
  if negb dev_hndl then mret INV_PARAM else qdma_cpm4_indirect_reg_invalidate QDMA_CTXT_SEL_FMAP hw_qid.

Definition qdma_cpm4_qid2vec_conf (dev_hndl : bool) (c2h hw_qid : Z) (ctxt : option qdma_qid2vec)
    (access_type : qdma_hw_access_type) : hwm dev (Z * option qdma_qid2vec) :=
  match access_type with
  | QDMA_HW_ACCESS_READ => qdma_cpm4_qid2vec_read dev_hndl c2h hw_qid ctxt
  | QDMA_HW_ACCESS_WRITE => rv ← qdma_cpm4_qid2vec_write dev_hndl c2h hw_qid ctxt; mret (rv, ctxt)
  | QDMA_HW_ACCESS_CLEAR => rv ← qdma_cpm4_qid2vec_clear dev_hndl hw_qid; mret (rv, ctxt)
  | QDMA_HW_ACCESS_INVALIDATE => rv ← qdma_cpm4_qid2vec_invalidate dev_hndl hw_qid; mret (rv, ctxt)
  | QDMA_HW_ACCESS_MAX => mret (INV_PARAM, ctxt)
  end.

(** ** Function map

    A register per function, written and read directly. *)

Definition cpm4_fmap_addr (func_id : Z) : Z :=
  QDMA_CPM4_TRQ_SEL_FMAP_0_ADDR + func_id * QDMA_CPM4_REG_TRQ_SEL_FMAP_STEP.

Definition qdma_cpm4_fmap_write (dev_hndl : bool) (func_id : Z) (config : option qdma_fmap_cfg) : hwm dev Z :=
  match dev_hndl, config with
  | true, Some config =>
      qdma_reg_write (cpm4_fmap_addr func_id)
        (FIELD_SET TRQ_SEL_FMAP_0_QID_BASE_MASK (fmap_qbase config) .|
         FIELD_SET TRQ_SEL_FMAP_0_QID_MAX_MASK (fmap_qmax config));;
      mret QDMA_SUCCESS
  | _, _ => mret INV_PARAM
  end.

Definition qdma_cpm4_fmap_read (dev_hndl : bool) (func_id : Z) (config : option qdma_fmap_cfg) :
    hwm dev (Z * option qdma_fmap_cfg) :=
  match dev_hndl, config with
  | true, Some _ =>
      fmap ← qdma_reg_read (cpm4_fmap_addr func_id);
      mret (QDMA_SUCCESS, Some {| fmap_qbase := u16 (FIELD_GET TRQ_SEL_FMAP_0_QID_BASE_MASK fmap);
                                  fmap_qmax := u16 (FIELD_GET TRQ_SEL_FMAP_0_QID_MAX_MASK fmap) |})
  | _, _ => mret (INV_PARAM, config)
  end.

Definition qdma_cpm4_fmap_clear (dev_hndl : bool) (func_id : Z) : hwm dev Z :=
  if negb dev_hndl then mret INV_PARAM
  else qdma_reg_write (cpm4_fmap_addr func_id) 0;; mret QDMA_SUCCESS.

Definition qdma_cpm4_fmap_conf (dev_hndl : bool) (func_id : Z) (config : option qdma_fmap_cfg)
    (access_type : qdma_hw_access_type) : hwm dev (Z * option qdma_fmap_cfg) :=
  match access_type with
  | QDMA_HW_ACCESS_READ => qdma_cpm4_fmap_read dev_hndl func_id config
  | QDMA_HW_ACCESS_WRITE => rv ← qdma_cpm4_fmap_write dev_hndl func_id config; mret (rv, config)
  | QDMA_HW_ACCESS_CLEAR => rv ← qdma_cpm4_fmap_clear dev_hndl func_id; mret (rv, config)
  | QDMA_HW_ACCESS_INVALIDATE | QDMA_HW_ACCESS_MAX => mret (INV_PARAM, config)
  end.

(** ** Software context *)

Definition qdma_cpm4_sw_words (ctxt : qdma_descq_sw_ctxt) : list Z :=
  [FIELD_SET SW_IND_CTXT_DATA_W0_PIDX_MASK (sw_pidx ctxt) .|
   FIELD_SET SW_IND_CTXT_DATA_W0_IRQ_ARM_MASK (sw_irq_arm ctxt);
   FIELD_SET SW_IND_CTXT_DATA_W1_QEN_MASK (sw_qen ctxt) .|
   FIELD_SET SW_IND_CTXT_DATA_W1_FCRD_EN_MASK (sw_frcd_en ctxt) .|
   FIELD_SET SW_IND_CTXT_DATA_W1_WBI_CHK_MASK (sw_wbi_chk ctxt) .|
   FIELD_SET SW_IND_CTXT_DATA_W1_WBI_INTVL_EN_MASK (sw_wbi_intvl_en ctxt) .|
   FIELD_SET SW_IND_CTXT_DATA_W1_FNC_ID_MASK (sw_fnc_id ctxt) .|
   FIELD_SET SW_IND_CTXT_DATA_W1_RNG_SZ_MASK (sw_rngsz_idx ctxt) .|
   FIELD_SET SW_IND_CTXT_DATA_W1_DSC_SZ_MASK (sw_desc_sz ctxt) .|
   FIELD_SET SW_IND_CTXT_DATA_W1_BYPASS_MASK (sw_bypass ctxt) .|
   FIELD_SET SW_IND_CTXT_DATA_W1_MM_CHN_MASK (sw_mm_chn ctxt) .|
   FIELD_SET SW_IND_CTXT_DATA_W1_WBK_EN_MASK (sw_wbk_en ctxt) .|
   FIELD_SET SW_IND_CTXT_DATA_W1_IRQ_EN_MASK (sw_irq_en ctxt) .|
   FIELD_SET SW_IND_CTXT_DATA_W1_PORT_ID_MASK (sw_port_id ctxt) .|
   FIELD_SET SW_IND_CTXT_DATA_W1_IRQ_NO_LAST_MASK (sw_irq_no_last ctxt) .|
   FIELD_SET SW_IND_CTXT_DATA_W1_ERR_MASK (sw_err ctxt) .|
   FIELD_SET SW_IND_CTXT_DATA_W1_ERR_WB_SENT_MASK (sw_err_wb_sent ctxt) .|
   FIELD_SET SW_IND_CTXT_DATA_W1_IRQ_REQ_MASK (sw_irq_req ctxt) .|
   FIELD_SET SW_IND_CTXT_DATA_W1_MRKR_DIS_MASK (sw_mrkr_dis ctxt) .|
   FIELD_SET SW_IND_CTXT_DATA_W1_IS_MM_MASK (sw_is_mm ctxt);
   Z.land (sw_ring_bs_addr ctxt) 0xffffffff;
   Z.land (Z.shiftr (sw_ring_bs_addr ctxt) 32) 0xffffffff].

Definition qdma_cpm4_sw_of_words (ws : list Z) (old : qdma_descq_sw_ctxt) : qdma_descq_sw_ctxt :=
  let w0 := word ws 0 in let w1 := word ws 1 in let w2 := word ws 2 in
  let w3 := word ws 3 in
  {| sw_pidx := u16 (FIELD_GET SW_IND_CTXT_DATA_W0_PIDX_MASK w0);
     sw_irq_arm := u8 (FIELD_GET SW_IND_CTXT_DATA_W0_IRQ_ARM_MASK w0);
     sw_qen := u8 (FIELD_GET SW_IND_CTXT_DATA_W1_QEN_MASK w1);
     sw_frcd_en := u8 (FIELD_GET SW_IND_CTXT_DATA_W1_FCRD_EN_MASK w1);
     sw_wbi_chk := u8 (FIELD_GET SW_IND_CTXT_DATA_W1_WBI_CHK_MASK w1);
     sw_wbi_intvl_en := u8 (FIELD_GET SW_IND_CTXT_DATA_W1_WBI_INTVL_EN_MASK w1);
     sw_fnc_id := u8 (FIELD_GET SW_IND_CTXT_DATA_W1_FNC_ID_MASK w1);
     sw_rngsz_idx := u8 (FIELD_GET SW_IND_CTXT_DATA_W1_RNG_SZ_MASK w1);
     sw_desc_sz := u8 (FIELD_GET SW_IND_CTXT_DATA_W1_DSC_SZ_MASK w1);
     sw_bypass := u8 (FIELD_GET SW_IND_CTXT_DATA_W1_BYPASS_MASK w1);
     sw_mm_chn := u8 (FIELD_GET SW_IND_CTXT_DATA_W1_MM_CHN_MASK w1);
     sw_wbk_en := u8 (FIELD_GET SW_IND_CTXT_DATA_W1_WBK_EN_MASK w1);
     sw_irq_en := u8 (FIELD_GET SW_IND_CTXT_DATA_W1_IRQ_EN_MASK w1);
     sw_port_id := u8 (FIELD_GET SW_IND_CTXT_DATA_W1_PORT_ID_MASK w1);
     sw_irq_no_last := u8 (FIELD_GET SW_IND_CTXT_DATA_W1_IRQ_NO_LAST_MASK w1);
     sw_err := u8 (FIELD_GET SW_IND_CTXT_DATA_W1_ERR_MASK w1);
     sw_err_wb_sent := u8 (FIELD_GET SW_IND_CTXT_DATA_W1_ERR_WB_SENT_MASK w1);
     sw_irq_req := u8 (FIELD_GET SW_IND_CTXT_DATA_W1_IRQ_REQ_MASK w1);
     sw_mrkr_dis := u8 (FIELD_GET SW_IND_CTXT_DATA_W1_MRKR_DIS_MASK w1);
     sw_is_mm := u8 (FIELD_GET SW_IND_CTXT_DATA_W1_IS_MM_MASK w1);
     sw_ring_bs_addr := Z.lor (Z.shiftl w3 32) w2;
     sw_vec := sw_vec old;
     sw_at := sw_at old;
     sw_fetch_max := sw_fetch_max old;
     sw_intr_aggr := sw_intr_aggr old;
     sw_pasid_en := sw_pasid_en old;
     sw_dis_intr_on_vf := sw_dis_intr_on_vf old;
     sw_virtio_en := sw_virtio_en old;
     sw_pack_byp_out := sw_pack_byp_out old;
     sw_irq_byp := sw_irq_byp old;
     sw_host_id := sw_host_id old;
     sw_pasid := sw_pasid old;
     sw_virtio_dsc_base := sw_virtio_dsc_base old |}.

Definition qdma_cpm4_sw_context_write (dev_hndl : bool) (c2h hw_qid : Z) (ctxt : option qdma_descq_sw_ctxt) : hwm dev Z :=
  match dev_hndl, ctxt with
  | true, Some ctxt =>
      if (sw_desc_sz ctxt >? QDMA_DESC_SIZE_64B) || (sw_rngsz_idx ctxt >=? QDMA_NUM_RING_SIZES)
      then mret INV_PARAM
      else qdma_cpm4_indirect_reg_write (sw_sel c2h) hw_qid (qdma_cpm4_sw_words ctxt)
  | _, _ => mret INV_PARAM
  end.

(** [ctxt->vec = ...; ctxt->intr_aggr = ...] *)
Definition cpm4_sw_set_vec (c : qdma_descq_sw_ctxt) (vec intr_aggr : Z) : qdma_descq_sw_ctxt :=
  {| sw_ring_bs_addr := sw_ring_bs_addr c; sw_vec := vec; sw_pidx := sw_pidx c;
     sw_irq_arm := sw_irq_arm c; sw_fnc_id := sw_fnc_id c; sw_qen := sw_qen c;
     sw_frcd_en := sw_frcd_en c; sw_wbi_chk := sw_wbi_chk c; sw_wbi_intvl_en := sw_wbi_intvl_en c;
     sw_at := sw_at c; sw_fetch_max := sw_fetch_max c; sw_rngsz_idx := sw_rngsz_idx c;
     sw_desc_sz := sw_desc_sz c; sw_bypass := sw_bypass c; sw_mm_chn := sw_mm_chn c;
     sw_wbk_en := sw_wbk_en c; sw_irq_en := sw_irq_en c; sw_port_id := sw_port_id c;
     sw_irq_no_last := sw_irq_no_last c; sw_err := sw_err c; sw_err_wb_sent := sw_err_wb_sent c;
     sw_irq_req := sw_irq_req c; sw_mrkr_dis := sw_mrkr_dis c; sw_is_mm := sw_is_mm c;
     sw_intr_aggr := intr_aggr; sw_pasid_en := sw_pasid_en c; sw_dis_intr_on_vf := sw_dis_intr_on_vf c;
     sw_virtio_en := sw_virtio_en c; sw_pack_byp_out := sw_pack_byp_out c; sw_irq_byp := sw_irq_byp c;
     sw_host_id := sw_host_id c; sw_pasid := sw_pasid c; sw_virtio_dsc_base := sw_virtio_dsc_base c |}.

Definition qdma_cpm4_sw_context_read (dev_hndl : bool) (c2h hw_qid : Z) (ctxt : option qdma_descq_sw_ctxt) :
    hwm dev (Z * option qdma_descq_sw_ctxt) :=
  match dev_hndl, ctxt with
  | true, Some old =>
      r ← qdma_cpm4_indirect_reg_read (sw_sel c2h) hw_qid (Z.to_nat QDMA_CPM4_SW_CONTEXT_NUM_WORDS);
      if r.1 <? 0 then mret (r.1, Some old)
      else
        let ctxt := qdma_cpm4_sw_of_words r.2 old in
        q ← qdma_cpm4_qid2vec_read true c2h hw_qid (Some (mk_qid2vec 0 0 0 0));
        if q.1 <? 0 then mret (q.1, Some ctxt)
        else
          let qid2vec_ctxt := default (mk_qid2vec 0 0 0 0) q.2 in
          mret (QDMA_SUCCESS, Some
            (if nz c2h then cpm4_sw_set_vec ctxt (q2v_c2h_vector qid2vec_ctxt) (q2v_c2h_en_coal qid2vec_ctxt)
             else cpm4_sw_set_vec ctxt (q2v_h2c_vector qid2vec_ctxt) (q2v_h2c_en_coal qid2vec_ctxt)))
  | _, _ => mret (INV_PARAM, ctxt)
  end.

Definition qdma_cpm4_sw_context_clear (dev_hndl : bool) (c2h hw_qid : Z) : hwm dev Z :=
  if negb dev_hndl then mret INV_PARAM else qdma_cpm4_indirect_reg_clear (sw_sel c2h) hw_qid.

Definition qdma_cpm4_sw_context_invalidate (dev_hndl : bool) (c2h hw_qid : Z) : hwm dev Z :=
  if negb dev_hndl then mret INV_PARAM else qdma_cpm4_indirect_reg_invalidate (sw_sel c2h) hw_qid.

Definition qdma_cpm4_sw_ctx_conf (dev_hndl : bool) (c2h hw_qid : Z) (ctxt : option qdma_descq_sw_ctxt)
    (access_type : qdma_hw_access_type) : hwm dev (Z * option qdma_descq_sw_ctxt) :=
  match access_type with
  | QDMA_HW_ACCESS_READ => qdma_cpm4_sw_context_read dev_hndl c2h hw_qid ctxt
  | QDMA_HW_ACCESS_WRITE => rv ← qdma_cpm4_sw_context_write dev_hndl c2h hw_qid ctxt; mret (rv, ctxt)
  | QDMA_HW_ACCESS_CLEAR => rv ← qdma_cpm4_sw_context_clear dev_hndl c2h hw_qid; mret (rv, ctxt)
  | QDMA_HW_ACCESS_INVALIDATE => rv ← qdma_cpm4_sw_context_invalidate dev_hndl c2h hw_qid; mret (rv, ctxt)
  | QDMA_HW_ACCESS_MAX => mret (INV_PARAM, ctxt)
  end.

(** ** Prefetch context *)

Definition qdma_cpm4_pfetch_words (ctxt : qdma_descq_prefetch_ctxt) : list Z :=
  let sw_crdt_l := FIELD_GET QDMA_PFTCH_CTXT_SW_CRDT_GET_L_MASK (pf_sw_crdt ctxt) in
  let sw_crdt_h := FIELD_GET QDMA_PFTCH_CTXT_SW_CRDT_GET_H_MASK (pf_sw_crdt ctxt) in
  [FIELD_SET PREFETCH_CTXT_DATA_W0_BYPASS_MASK (pf_bypass ctxt) .|
   FIELD_SET PREFETCH_CTXT_DATA_W0_BUF_SIZE_IDX_MASK (pf_bufsz_idx ctxt) .|
   FIELD_SET PREFETCH_CTXT_DATA_W0_PORT_ID_MASK (pf_port_id ctxt) .|
   FIELD_SET PREFETCH_CTXT_DATA_W0_ERR_MASK (pf_err ctxt) .|
   FIELD_SET PREFETCH_CTXT_DATA_W0_PFCH_EN_MASK (pf_pfch_en ctxt) .|
   FIELD_SET PREFETCH_CTXT_DATA_W0_PFCH_MASK (pf_pfch ctxt) .|
   FIELD_SET PREFETCH_CTXT_DATA_W0_SW_CRDT_L_MASK sw_crdt_l;
   FIELD_SET PREFETCH_CTXT_DATA_W1_SW_CRDT_H_MASK sw_crdt_h .|
   FIELD_SET PREFETCH_CTXT_DATA_W1_VALID_MASK (pf_valid ctxt)].

Definition qdma_cpm4_pfetch_of_words (ws : list Z) (old : qdma_descq_prefetch_ctxt) : qdma_descq_prefetch_ctxt :=
  let w0 := word ws 0 in let w1 := word ws 1 in
  let sw_crdt_l := u32 (FIELD_GET PREFETCH_CTXT_DATA_W0_SW_CRDT_L_MASK w0) in
  let sw_crdt_h := u32 (FIELD_GET PREFETCH_CTXT_DATA_W1_SW_CRDT_H_MASK w1) in
  {| pf_bypass := u8 (FIELD_GET PREFETCH_CTXT_DATA_W0_BYPASS_MASK w0);
     pf_bufsz_idx := u8 (FIELD_GET PREFETCH_CTXT_DATA_W0_BUF_SIZE_IDX_MASK w0);
     pf_port_id := u8 (FIELD_GET PREFETCH_CTXT_DATA_W0_PORT_ID_MASK w0);
     pf_err := u8 (FIELD_GET PREFETCH_CTXT_DATA_W0_ERR_MASK w0);
     pf_pfch_en := u8 (FIELD_GET PREFETCH_CTXT_DATA_W0_PFCH_EN_MASK w0);
     pf_pfch := u8 (FIELD_GET PREFETCH_CTXT_DATA_W0_PFCH_MASK w0);
     pf_valid := u8 (FIELD_GET PREFETCH_CTXT_DATA_W1_VALID_MASK w1);
     pf_sw_crdt := u16 (FIELD_SET QDMA_PFTCH_CTXT_SW_CRDT_GET_L_MASK sw_crdt_l .|
       FIELD_SET QDMA_PFTCH_CTXT_SW_CRDT_GET_H_MASK sw_crdt_h);
     pf_var_desc := pf_var_desc old;
     pf_num_pftch := pf_num_pftch old |}.

Definition qdma_cpm4_pfetch_context_write (dev_hndl : bool) (hw_qid : Z) (ctxt : option qdma_descq_prefetch_ctxt) : hwm dev Z :=
  match dev_hndl, ctxt with
  | true, Some ctxt => qdma_cpm4_indirect_reg_write QDMA_CTXT_SEL_PFTCH hw_qid (qdma_cpm4_pfetch_words ctxt)
  | _, _ => mret INV_PARAM
  end.

Definition qdma_cpm4_pfetch_context_read (dev_hndl : bool) (hw_qid : Z) (ctxt : option qdma_descq_prefetch_ctxt) :
    hwm dev (Z * option qdma_descq_prefetch_ctxt) :=
  match dev_hndl, ctxt with
  | true, Some old =>
      r ← qdma_cpm4_indirect_reg_read QDMA_CTXT_SEL_PFTCH hw_qid (Z.to_nat QDMA_CPM4_PFETCH_CONTEXT_NUM_WORDS);
      if r.1 <? 0 then mret (r.1, Some old)
      else mret (QDMA_SUCCESS, Some (qdma_cpm4_pfetch_of_words r.2 old))
  | _, _ => mret (INV_PARAM, ctxt)
  end.

Definition qdma_cpm4_pfetch_context_clear (dev_hndl : bool) (hw_qid : Z) : hwm dev Z :=
  if negb dev_hndl then mret INV_PARAM else qdma_cpm4_indirect_reg_clear QDMA_CTXT_SEL_PFTCH hw_qid.

Definition qdma_cpm4_pfetch_context_invalidate (dev_hndl : bool) (hw_qid : Z) : hwm dev Z :=
  if negb dev_hndl then mret INV_PARAM else qdma_cpm4_indirect_reg_invalidate QDMA_CTXT_SEL_PFTCH hw_qid.

Definition qdma_cpm4_pfetch_ctx_conf (dev_hndl : bool) (hw_qid : Z) (ctxt : option qdma_descq_prefetch_ctxt)
    (access_type : qdma_hw_access_type) : hwm dev (Z * option qdma_descq_prefetch_ctxt) :=
  match access_type with
  | QDMA_HW_ACCESS_READ => qdma_cpm4_pfetch_context_read dev_hndl hw_qid ctxt
  | QDMA_HW_ACCESS_WRITE => rv ← qdma_cpm4_pfetch_context_write dev_hndl hw_qid ctxt; mret (rv, ctxt)
  | QDMA_HW_ACCESS_CLEAR => rv ← qdma_cpm4_pfetch_context_clear dev_hndl hw_qid; mret (rv, ctxt)
  | QDMA_HW_ACCESS_INVALIDATE => rv ← qdma_cpm4_pfetch_context_invalidate dev_hndl hw_qid; mret (rv, ctxt)
  | QDMA_HW_ACCESS_MAX => mret (INV_PARAM, ctxt)
  end.

(** ** Completion context *)

Definition qdma_cpm4_cmpt_words (ctxt : qdma_descq_cmpt_ctxt) : list Z :=
  let baddr_l := u32 (FIELD_GET QDMA_CPM4_COMPL_CTXT_BADDR_GET_L_MASK (cmpt_bs_addr ctxt)) in
  let baddr_m := u32 (FIELD_GET QDMA_CPM4_COMPL_CTXT_BADDR_GET_M_MASK (cmpt_bs_addr ctxt)) in
  let baddr_h := u32 (FIELD_GET QDMA_CPM4_COMPL_CTXT_BADDR_GET_H_MASK (cmpt_bs_addr ctxt)) in
  let pidx_l := FIELD_GET QDMA_CPM4_COMPL_CTXT_PIDX_GET_L_MASK (cmpt_pidx ctxt) in
  let pidx_h := FIELD_GET QDMA_CPM4_COMPL_CTXT_PIDX_GET_H_MASK (cmpt_pidx ctxt) in
  [FIELD_SET CMPL_CTXT_DATA_W0_EN_STAT_DESC_MASK (cmpt_en_stat_desc ctxt) .|
   FIELD_SET CMPL_CTXT_DATA_W0_EN_INT_MASK (cmpt_en_int ctxt) .|
   FIELD_SET CMPL_CTXT_DATA_W0_TRIG_MODE_MASK (cmpt_trig_mode ctxt) .|
   FIELD_SET CMPL_CTXT_DATA_W0_FNC_ID_MASK (cmpt_fnc_id ctxt) .|
   FIELD_SET CMPL_CTXT_DATA_W0_CNTER_IDX_MASK (cmpt_counter_idx ctxt) .|
   FIELD_SET CMPL_CTXT_DATA_W0_TIMER_IDX_MASK (cmpt_timer_idx ctxt) .|
   FIELD_SET CMPL_CTXT_DATA_W0_INT_ST_MASK (cmpt_in_st ctxt) .|
   FIELD_SET CMPL_CTXT_DATA_W0_COLOR_MASK (cmpt_color ctxt) .|
   FIELD_SET CMPL_CTXT_DATA_W0_QSIZE_IDX_MASK (cmpt_ringsz_idx ctxt) .|
   FIELD_SET CMPL_CTXT_DATA_W0_BADDR_64_L_MASK baddr_l;
   FIELD_SET CMPL_CTXT_DATA_W1_BADDR_64_M_MASK baddr_m;
   FIELD_SET CMPL_CTXT_DATA_W2_BADDR_64_H_MASK baddr_h .|
   FIELD_SET CMPL_CTXT_DATA_W2_DESC_SIZE_MASK (cmpt_desc_sz ctxt) .|
   FIELD_SET CMPL_CTXT_DATA_W2_PIDX_L_MASK pidx_l;
   FIELD_SET CMPL_CTXT_DATA_W3_PIDX_H_MASK pidx_h .|
   FIELD_SET CMPL_CTXT_DATA_W3_CIDX_MASK (cmpt_cidx ctxt) .|
   FIELD_SET CMPL_CTXT_DATA_W3_VALID_MASK (cmpt_valid ctxt) .|
   FIELD_SET CMPL_CTXT_DATA_W3_ERR_MASK (cmpt_err ctxt) .|
   FIELD_SET CMPL_CTXT_DATA_W3_USER_TRIG_PEND_MASK (cmpt_user_trig_pend ctxt) .|
   FIELD_SET CMPL_CTXT_DATA_W3_TIMER_RUNNING_MASK (cmpt_timer_running ctxt) .|
   FIELD_SET CMPL_CTXT_DATA_W3_FULL_UPD_MASK (cmpt_full_upd ctxt)].

Definition qdma_cpm4_cmpt_of_words (ws : list Z) (old : qdma_descq_cmpt_ctxt) : qdma_descq_cmpt_ctxt :=
  let w0 := word ws 0 in let w1 := word ws 1 in let w2 := word ws 2 in
  let w3 := word ws 3 in
  let baddr_l := FIELD_GET CMPL_CTXT_DATA_W0_BADDR_64_L_MASK w0 in
  let baddr_m := FIELD_GET CMPL_CTXT_DATA_W1_BADDR_64_M_MASK w1 in
  let baddr_h := FIELD_GET CMPL_CTXT_DATA_W2_BADDR_64_H_MASK w2 in
  let pidx_l := FIELD_GET CMPL_CTXT_DATA_W2_PIDX_L_MASK w2 in
  let pidx_h := FIELD_GET CMPL_CTXT_DATA_W3_PIDX_H_MASK w3 in
  {| cmpt_en_stat_desc := u8 (FIELD_GET CMPL_CTXT_DATA_W0_EN_STAT_DESC_MASK w0);
     cmpt_en_int := u8 (FIELD_GET CMPL_CTXT_DATA_W0_EN_INT_MASK w0);
     cmpt_trig_mode := u8 (FIELD_GET CMPL_CTXT_DATA_W0_TRIG_MODE_MASK w0);
     cmpt_fnc_id := u8 (FIELD_GET CMPL_CTXT_DATA_W0_FNC_ID_MASK w0);
     cmpt_counter_idx := u8 (FIELD_GET CMPL_CTXT_DATA_W0_CNTER_IDX_MASK w0);
     cmpt_timer_idx := u8 (FIELD_GET CMPL_CTXT_DATA_W0_TIMER_IDX_MASK w0);
     cmpt_in_st := u8 (FIELD_GET CMPL_CTXT_DATA_W0_INT_ST_MASK w0);
     cmpt_color := u8 (FIELD_GET CMPL_CTXT_DATA_W0_COLOR_MASK w0);
     cmpt_ringsz_idx := u8 (FIELD_GET CMPL_CTXT_DATA_W0_QSIZE_IDX_MASK w0);
     cmpt_desc_sz := u8 (FIELD_GET CMPL_CTXT_DATA_W2_DESC_SIZE_MASK w2);
     cmpt_cidx := u16 (FIELD_GET CMPL_CTXT_DATA_W3_CIDX_MASK w3);
     cmpt_valid := u8 (FIELD_GET CMPL_CTXT_DATA_W3_VALID_MASK w3);
     cmpt_err := u8 (FIELD_GET CMPL_CTXT_DATA_W3_ERR_MASK w3);
     cmpt_user_trig_pend := u8 (FIELD_GET CMPL_CTXT_DATA_W3_USER_TRIG_PEND_MASK w3);
     cmpt_timer_running := u8 (FIELD_GET CMPL_CTXT_DATA_W3_TIMER_RUNNING_MASK w3);
     cmpt_full_upd := u8 (FIELD_GET CMPL_CTXT_DATA_W3_FULL_UPD_MASK w3);
     cmpt_bs_addr := FIELD_SET QDMA_CPM4_COMPL_CTXT_BADDR_GET_L_MASK baddr_l .|
       FIELD_SET QDMA_CPM4_COMPL_CTXT_BADDR_GET_M_MASK baddr_m .|
       FIELD_SET QDMA_CPM4_COMPL_CTXT_BADDR_GET_H_MASK baddr_h;
     cmpt_pidx := u16 (FIELD_SET QDMA_CPM4_COMPL_CTXT_PIDX_GET_L_MASK pidx_l .|
       FIELD_SET QDMA_CPM4_COMPL_CTXT_PIDX_GET_H_MASK pidx_h);
     cmpt_vec := cmpt_vec old;
     cmpt_ovf_chk_dis := cmpt_ovf_chk_dis old;
     cmpt_at := cmpt_at old;
     cmpt_int_aggr := cmpt_int_aggr old;
     cmpt_dis_intr_on_vf := cmpt_dis_intr_on_vf old;
     cmpt_vio := cmpt_vio old;
     cmpt_dir_c2h := cmpt_dir_c2h old;
     cmpt_host_id := cmpt_host_id old;
     cmpt_pasid := cmpt_pasid old;
     cmpt_pasid_en := cmpt_pasid_en old;
     cmpt_vio_eop := cmpt_vio_eop old;
     cmpt_sh_cmpt := cmpt_sh_cmpt old |}.

Definition qdma_cpm4_cmpt_context_write (dev_hndl : bool) (hw_qid : Z) (ctxt : option qdma_descq_cmpt_ctxt) : hwm dev Z :=
  match dev_hndl, ctxt with
  | true, Some ctxt =>
      if (cmpt_desc_sz ctxt >? QDMA_DESC_SIZE_32B) || (cmpt_ringsz_idx ctxt >=? QDMA_NUM_RING_SIZES) ||
         (cmpt_counter_idx ctxt >=? QDMA_NUM_C2H_COUNTERS) || (cmpt_timer_idx ctxt >=? QDMA_NUM_C2H_TIMERS) ||
         (cmpt_trig_mode ctxt >? QDMA_CMPT_UPDATE_TRIG_MODE_TMR_CNTR)
      then mret INV_PARAM
      else qdma_cpm4_indirect_reg_write QDMA_CTXT_SEL_CMPT hw_qid (qdma_cpm4_cmpt_words ctxt)
  | _, _ => mret INV_PARAM
  end.

Definition qdma_cpm4_cmpt_context_read (dev_hndl : bool) (hw_qid : Z) (ctxt : option qdma_descq_cmpt_ctxt) :
    hwm dev (Z * option qdma_descq_cmpt_ctxt) :=
  match dev_hndl, ctxt with
  | true, Some old =>
      r ← qdma_cpm4_indirect_reg_read QDMA_CTXT_SEL_CMPT hw_qid (Z.to_nat QDMA_CPM4_CMPT_CONTEXT_NUM_WORDS);
      if r.1 <? 0 then mret (r.1, Some old)
      else mret (QDMA_SUCCESS, Some (qdma_cpm4_cmpt_of_words r.2 old))
  | _, _ => mret (INV_PARAM, ctxt)
  end.

Definition qdma_cpm4_cmpt_context_clear (dev_hndl : bool) (hw_qid : Z) : hwm dev Z :=
  if negb dev_hndl then mret INV_PARAM else qdma_cpm4_indirect_reg_clear QDMA_CTXT_SEL_CMPT hw_qid.

Definition qdma_cpm4_cmpt_context_invalidate (dev_hndl : bool) (hw_qid : Z) : hwm dev Z :=
  if negb dev_hndl then mret INV_PARAM else qdma_cpm4_indirect_reg_invalidate QDMA_CTXT_SEL_CMPT hw_qid.

Definition qdma_cpm4_cmpt_ctx_conf (dev_hndl : bool) (hw_qid : Z) (ctxt : option qdma_descq_cmpt_ctxt)
    (access_type : qdma_hw_access_type) : hwm dev (Z * option qdma_descq_cmpt_ctxt) :=
  if negb dev_hndl then mret (INV_PARAM, ctxt)
  else
  match access_type with
    | QDMA_HW_ACCESS_READ => qdma_cpm4_cmpt_context_read dev_hndl hw_qid ctxt
    | QDMA_HW_ACCESS_WRITE => rv ← qdma_cpm4_cmpt_context_write dev_hndl hw_qid ctxt; mret (rv, ctxt)
    | QDMA_HW_ACCESS_CLEAR => rv ← qdma_cpm4_cmpt_context_clear dev_hndl hw_qid; mret (rv, ctxt)
    | QDMA_HW_ACCESS_INVALIDATE => rv ← qdma_cpm4_cmpt_context_invalidate dev_hndl hw_qid; mret (rv, ctxt)
    | QDMA_HW_ACCESS_MAX => mret (INV_PARAM, ctxt)
    end.

(** ** Hardware context *)

Definition qdma_cpm4_hw_of_words (ws : list Z) (old : qdma_descq_hw_ctxt) : qdma_descq_hw_ctxt :=
  let w0 := word ws 0 in let w1 := word ws 1 in
  {| hwc_cidx := u16 (FIELD_GET HW_IND_CTXT_DATA_W0_CIDX_MASK w0);
     hwc_crd_use := u16 (FIELD_GET HW_IND_CTXT_DATA_W0_CRD_USE_MASK w0);
     hwc_dsc_pend := u8 (FIELD_GET HW_IND_CTXT_DATA_W1_DSC_PND_MASK w1);
     hwc_idl_stp_b := u8 (FIELD_GET HW_IND_CTXT_DATA_W1_IDL_STP_B_MASK w1);
     hwc_fetch_pnd := u8 (FIELD_GET HW_IND_CTXT_DATA_W1_FETCH_PND_MASK w1);
     hwc_evt_pnd := hwc_evt_pnd old |}.

Definition qdma_cpm4_hw_context_read (dev_hndl : bool) (c2h hw_qid : Z) (ctxt : option qdma_descq_hw_ctxt) :
    hwm dev (Z * option qdma_descq_hw_ctxt) :=
  match dev_hndl, ctxt with
  | true, Some old =>
      r ← qdma_cpm4_indirect_reg_read (hw_sel c2h) hw_qid (Z.to_nat QDMA_CPM4_HW_CONTEXT_NUM_WORDS);
      if r.1 <? 0 then mret (r.1, Some old)
      else mret (QDMA_SUCCESS, Some (qdma_cpm4_hw_of_words r.2 old))
  | _, _ => mret (INV_PARAM, ctxt)
  end.

Definition qdma_cpm4_hw_context_clear (dev_hndl : bool) (c2h hw_qid : Z) : hwm dev Z :=
  if negb dev_hndl then mret INV_PARAM else qdma_cpm4_indirect_reg_clear (hw_sel c2h) hw_qid.

Definition qdma_cpm4_hw_context_invalidate (dev_hndl : bool) (c2h hw_qid : Z) : hwm dev Z :=
  if negb dev_hndl then mret INV_PARAM else qdma_cpm4_indirect_reg_invalidate (hw_sel c2h) hw_qid.

Definition qdma_cpm4_hw_ctx_conf (dev_hndl : bool) (c2h hw_qid : Z) (ctxt : option qdma_descq_hw_ctxt)
    (access_type : qdma_hw_access_type) : hwm dev (Z * option qdma_descq_hw_ctxt) :=
  match access_type with
  | QDMA_HW_ACCESS_READ => qdma_cpm4_hw_context_read dev_hndl c2h hw_qid ctxt
  | QDMA_HW_ACCESS_CLEAR => rv ← qdma_cpm4_hw_context_clear dev_hndl c2h hw_qid; mret (rv, ctxt)
  | QDMA_HW_ACCESS_INVALIDATE => rv ← qdma_cpm4_hw_context_invalidate dev_hndl c2h hw_qid; mret (rv, ctxt)
  | QDMA_HW_ACCESS_WRITE | QDMA_HW_ACCESS_MAX => mret (INV_PARAM, ctxt)
  end.

(** ** Credit context *)

Definition qdma_cpm4_credit_of_words (ws : list Z) : qdma_descq_credit_ctxt :=
  let w0 := word ws 0 in
  {| cr_credit := FIELD_GET CRED_CTXT_DATA_W0_CREDT_MASK w0 |}.

Definition qdma_cpm4_credit_context_read (dev_hndl : bool) (c2h hw_qid : Z) (ctxt : option qdma_descq_credit_ctxt) :
    hwm dev (Z * option qdma_descq_credit_ctxt) :=
  match dev_hndl, ctxt with
  | true, Some old =>
      r ← qdma_cpm4_indirect_reg_read (cr_sel c2h) hw_qid (Z.to_nat QDMA_CPM4_CR_CONTEXT_NUM_WORDS);
      if r.1 <? 0 then mret (r.1, Some old)
      else mret (QDMA_SUCCESS, Some (qdma_cpm4_credit_of_words r.2))
  | _, _ => mret (INV_PARAM, ctxt)
  end.

Definition qdma_cpm4_credit_context_clear (dev_hndl : bool) (c2h hw_qid : Z) : hwm dev Z :=
  if negb dev_hndl then mret INV_PARAM else qdma_cpm4_indirect_reg_clear (cr_sel c2h) hw_qid.

Definition qdma_cpm4_credit_context_invalidate (dev_hndl : bool) (c2h hw_qid : Z) : hwm dev Z :=
  if negb dev_hndl then mret INV_PARAM else qdma_cpm4_indirect_reg_invalidate (cr_sel c2h) hw_qid.

Definition qdma_cpm4_credit_ctx_conf (dev_hndl : bool) (c2h hw_qid : Z) (ctxt : option qdma_descq_credit_ctxt)
    (access_type : qdma_hw_access_type) : hwm dev (Z * option qdma_descq_credit_ctxt) :=
  match access_type with
  | QDMA_HW_ACCESS_READ => qdma_cpm4_credit_context_read dev_hndl c2h hw_qid ctxt
  | QDMA_HW_ACCESS_CLEAR => rv ← qdma_cpm4_credit_context_clear dev_hndl c2h hw_qid; mret (rv, ctxt)
  | QDMA_HW_ACCESS_INVALIDATE => rv ← qdma_cpm4_credit_context_invalidate dev_hndl c2h hw_qid; mret (rv, ctxt)
  | QDMA_HW_ACCESS_WRITE | QDMA_HW_ACCESS_MAX => mret (INV_PARAM, ctxt)
  end.

(** ** Interrupt aggregation context *)

Definition qdma_cpm4_intr_words (ctxt : qdma_indirect_intr_ctxt) : list Z :=
  let baddr_l := u32 (FIELD_GET QDMA_CPM4_INTR_CTXT_BADDR_GET_L_MASK (intr_baddr_4k ctxt)) in
  let baddr_h := u32 (FIELD_GET QDMA_CPM4_INTR_CTXT_BADDR_GET_H_MASK (intr_baddr_4k ctxt)) in
  [FIELD_SET INTR_CTXT_DATA_W0_VALID_MASK (intr_valid ctxt) .|
   FIELD_SET INTR_CTXT_DATA_W0_VEC_MASK (intr_vec ctxt) .|
   FIELD_SET INTR_CTXT_DATA_W0_INT_ST_MASK (intr_int_st ctxt) .|
   FIELD_SET INTR_CTXT_DATA_W0_COLOR_MASK (intr_color ctxt) .|
   FIELD_SET INTR_CTXT_DATA_W0_BADDR_4K_L_MASK baddr_l;
   FIELD_SET INTR_CTXT_DATA_W1_BADDR_4K_H_MASK baddr_h .|
   FIELD_SET INTR_CTXT_DATA_W1_PAGE_SIZE_MASK (intr_page_size ctxt);
   FIELD_SET INTR_CTXT_DATA_W2_PIDX_MASK (intr_pidx ctxt)].

Definition qdma_cpm4_intr_of_words (ws : list Z) (old : qdma_indirect_intr_ctxt) : qdma_indirect_intr_ctxt :=
  let w0 := word ws 0 in let w1 := word ws 1 in let w2 := word ws 2 in
  let baddr_l := FIELD_GET INTR_CTXT_DATA_W0_BADDR_4K_L_MASK w0 in
  let baddr_h := FIELD_GET INTR_CTXT_DATA_W1_BADDR_4K_H_MASK w1 in
  {| intr_valid := u8 (FIELD_GET INTR_CTXT_DATA_W0_VALID_MASK w0);
     intr_vec := u16 (FIELD_GET INTR_CTXT_DATA_W0_VEC_MASK w0);
     intr_int_st := u8 (FIELD_GET INTR_CTXT_DATA_W0_INT_ST_MASK w0);
     intr_color := u8 (FIELD_GET INTR_CTXT_DATA_W0_COLOR_MASK w0);
     intr_page_size := u8 (FIELD_GET INTR_CTXT_DATA_W1_PAGE_SIZE_MASK w1);
     intr_pidx := u16 (FIELD_GET INTR_CTXT_DATA_W2_PIDX_MASK w2);
     intr_baddr_4k := FIELD_SET QDMA_CPM4_INTR_CTXT_BADDR_GET_L_MASK baddr_l .|
       FIELD_SET QDMA_CPM4_INTR_CTXT_BADDR_GET_H_MASK baddr_h;
     intr_at := intr_at old;
     intr_host_id := intr_host_id old;
     intr_pasid := intr_pasid old;
     intr_pasid_en := intr_pasid_en old;
     intr_func_id := intr_func_id old |}.

Definition qdma_cpm4_indirect_intr_context_write (dev_hndl : bool) (ring_index : Z) (ctxt : option qdma_indirect_intr_ctxt) : hwm dev Z :=
  match dev_hndl, ctxt with
  | true, Some ctxt =>
      if intr_page_size ctxt >? QDMA_INDIRECT_INTR_RING_SIZE_32KB
      then mret INV_PARAM
      else qdma_cpm4_indirect_reg_write QDMA_CTXT_SEL_INT_COAL ring_index (qdma_cpm4_intr_words ctxt)
  | _, _ => mret INV_PARAM
  end.

Definition qdma_cpm4_indirect_intr_context_read (dev_hndl : bool) (ring_index : Z) (ctxt : option qdma_indirect_intr_ctxt) :
    hwm dev (Z * option qdma_indirect_intr_ctxt) :=
  match dev_hndl, ctxt with
  | true, Some old =>
      r ← qdma_cpm4_indirect_reg_read QDMA_CTXT_SEL_INT_COAL ring_index (Z.to_nat QDMA_CPM4_IND_INTR_CONTEXT_NUM_WORDS);
      if r.1 <? 0 then mret (r.1, Some old)
      else mret (QDMA_SUCCESS, Some (qdma_cpm4_intr_of_words r.2 old))
  | _, _ => mret (INV_PARAM, ctxt)
  end.

Definition qdma_cpm4_indirect_intr_context_clear (dev_hndl : bool) (ring_index : Z) : hwm dev Z :=
  if negb dev_hndl then mret INV_PARAM else qdma_cpm4_indirect_reg_clear QDMA_CTXT_SEL_INT_COAL ring_index.

Definition qdma_cpm4_indirect_intr_context_invalidate (dev_hndl : bool) (ring_index : Z) : hwm dev Z :=
  if negb dev_hndl then mret INV_PARAM else qdma_cpm4_indirect_reg_invalidate QDMA_CTXT_SEL_INT_COAL ring_index.

Definition qdma_cpm4_indirect_intr_ctx_conf (dev_hndl : bool) (ring_index : Z) (ctxt : option qdma_indirect_intr_ctxt)
    (access_type : qdma_hw_access_type) : hwm dev (Z * option qdma_indirect_intr_ctxt) :=
  match access_type with
  | QDMA_HW_ACCESS_READ => qdma_cpm4_indirect_intr_context_read dev_hndl ring_index ctxt
  | QDMA_HW_ACCESS_WRITE =>
      rv ← qdma_cpm4_indirect_intr_context_write dev_hndl ring_index ctxt; mret (rv, ctxt)
  | QDMA_HW_ACCESS_CLEAR => rv ← qdma_cpm4_indirect_intr_context_clear dev_hndl ring_index; mret (rv, ctxt)
  | QDMA_HW_ACCESS_INVALIDATE =>
      rv ← qdma_cpm4_indirect_intr_context_invalidate dev_hndl ring_index; mret (rv, ctxt)
  | QDMA_HW_ACCESS_MAX => mret (INV_PARAM, ctxt)
  end.

(** ** Reading the registers of a group

    The loop starts at the head of the table whatever the group: [reg_index]
    only shortens it. *)

Definition qdma_cpm4_read_reg_list (dev_hndl : bool) (is_vf reg_rd_slot : Z) (reg_list : bool) :
    hwm dev (Z * option (list qdma_reg_data)) :=
  if is_vf =? 0 then mret (NOT_SUPPORTED, None)
  else if negb dev_hndl then mret (INV_PARAM, None)
  else if negb reg_list then mret (INV_PARAM, None)
  else
    dev_cap ← qdma_cpm4_get_dev_cap;
    match qdma_cpm4_group_start reg_rd_slot with
    | None => mret (INV_PARAM, None)
    | Some reg_start_addr =>
        let '(rv, reg_index) := qdma_cpm4_get_reg_entry reg_start_addr in
        if rv <? 0 then mret (rv, None)
        else
          l ← read_regs dev_cap
                (take (length qdma_cpm4_listed_regs - Z.to_nat reg_index) qdma_cpm4_listed_regs)
                QDMA_MAX_REGISTER_DUMP;
          mret (rv, Some l)
    end.

(** ** Context memory *)

Fixpoint cpm4_clear_ctxts (l : list (ind_ctxt_cmd_sel * Z)) : hwm dev Z :=
  match l with
  | [] => mret QDMA_SUCCESS
  | (sel, qid) :: l =>
      rv ← qdma_cpm4_indirect_reg_clear sel qid;
      if rv <? 0 then mret rv else cpm4_clear_ctxts l
  end.

Fixpoint cpm4_clear_fmaps (l : list Z) : hwm dev () :=
  match l with
  | [] => mret tt
  | i :: l => qdma_cpm4_fmap_clear true i;; cpm4_clear_fmaps l
  end.

Definition qdma_cpm4_init_ctxt_memory (dev_hndl : bool) : hwm dev Z :=
  if negb dev_hndl then mret INV_PARAM
  else
    dev_info ← qdma_cpm4_get_dev_cap;
    rv ← cpm4_clear_ctxts (init_list dev_info);
    if rv <? 0 then mret rv
    else cpm4_clear_fmaps (qids_below (num_pfs dev_info));; mret 0.

(** ** Default configuration *)

Definition qdma_cpm4_set_default_global_csr (dev_hndl : bool) : hwm dev Z :=
  if negb dev_hndl then mret INV_PARAM
  else
    dev_cap ← qdma_cpm4_get_dev_cap;
    qdma_write_csr_values QDMA_CPM4_GLBL_RNG_SZ_1_ADDR 0 rng_sz;;
    (if st_or_mm_cmpt dev_cap then
       qdma_write_csr_values QDMA_CPM4_C2H_CNT_TH_1_ADDR 0 cnt_th;;
       qdma_write_csr_values QDMA_CPM4_C2H_TIMER_CNT_1_ADDR 0 tmr_cnt;;
       qdma_reg_write QDMA_CPM4_GLBL_DSC_CFG_ADDR
         (FIELD_SET GLBL_DSC_CFG_MAXFETCH_MASK DEFAULT_MAX_DSC_FETCH .|
          FIELD_SET GLBL_DSC_CFG_WB_ACC_INT_MASK DEFAULT_WRB_INT)
     else mret tt);;
    (if nz (st_en dev_cap) then
       qdma_write_csr_values QDMA_CPM4_C2H_BUF_SZ_0_ADDR 0 buf_sz;;
       qdma_reg_write QDMA_CPM4_C2H_PFCH_CFG_ADDR
         (FIELD_SET C2H_PFCH_CFG_FL_TH_MASK QDMA_CPM4_DEFAULT_PFCH_STOP_THRESH .|
          FIELD_SET C2H_PFCH_CFG_NUM_MASK DEFAULT_PFCH_NUM_ENTRIES_PER_Q .|
          FIELD_SET C2H_PFCH_CFG_QCNT_MASK DEFAULT_PFCH_MAX_Q_CNT .|
          FIELD_SET C2H_PFCH_CFG_EVT_QCNT_TH_MASK DEFAULT_C2H_INTR_TIMER_TICK);;
       qdma_reg_write QDMA_CPM4_C2H_INT_TIMER_TICK_ADDR DEFAULT_C2H_INTR_TIMER_TICK;;
       qdma_reg_write QDMA_CPM4_C2H_WRB_COAL_CFG_ADDR
         (FIELD_SET C2H_WRB_COAL_CFG_TICK_CNT_MASK DEFAULT_CMPT_COAL_TIMER_CNT .|
          FIELD_SET C2H_WRB_COAL_CFG_TICK_VAL_MASK DEFAULT_CMPT_COAL_TIMER_TICK .|
          FIELD_SET C2H_WRB_COAL_CFG_MAX_BUF_SZ_MASK DEFAULT_CMPT_COAL_MAX_BUF_SZ)
     else mret tt);;
    mret QDMA_SUCCESS.

(** ** Doorbells *)

Definition cpm4_pidx_reg_addr (is_vf qid is_c2h : Z) : Z :=
  (if negb (nz is_vf) then
     if nz is_c2h then QDMA_CPM4_OFFSET_DMAP_SEL_C2H_DSC_PIDX else QDMA_CPM4_OFFSET_DMAP_SEL_H2C_DSC_PIDX
   else if nz is_c2h then QDMA_CPM4_OFFSET_VF_DMAP_SEL_C2H_DSC_PIDX
        else QDMA_CPM4_OFFSET_VF_DMAP_SEL_H2C_DSC_PIDX) + qid * QDMA_PIDX_STEP.

Definition qdma_cpm4_queue_pidx_update (dev_hndl : bool) (is_vf qid is_c2h : Z)
    (reg_info : option qdma_q_pidx_reg_info) : hwm dev Z :=
  match dev_hndl, reg_info with
  | true, Some reg_info =>
      qdma_reg_write (cpm4_pidx_reg_addr is_vf qid is_c2h)
        (FIELD_SET QDMA_CPM4_DMA_SEL_DESC_PIDX_MASK (pri_pidx reg_info) .|
         FIELD_SET QDMA_CPM4_DMA_SEL_IRQ_EN_MASK (pri_irq_en reg_info));;
      mret QDMA_SUCCESS
  | _, _ => mret INV_PARAM
  end.

Definition cpm4_cmpt_cidx_reg_addr (is_vf qid : Z) : Z :=
  (if nz is_vf then QDMA_CPM4_OFFSET_VF_DMAP_SEL_CMPT_CIDX else QDMA_CPM4_OFFSET_DMAP_SEL_CMPT_CIDX) +
  qid * QDMA_CMPT_CIDX_STEP.

Definition qdma_cpm4_queue_cmpt_cidx_update (dev_hndl : bool) (is_vf qid : Z)
    (reg_info : option qdma_q_cmpt_cidx_reg_info) : hwm dev Z :=
  match dev_hndl, reg_info with
  | true, Some reg_info =>
      qdma_reg_write (cpm4_cmpt_cidx_reg_addr is_vf qid)
        (FIELD_SET QDMA_CPM4_DMAP_SEL_CMPT_WRB_CIDX_MASK (cci_wrb_cidx reg_info) .|
         FIELD_SET QDMA_CPM4_DMAP_SEL_CMPT_CNT_THRESH_MASK (cci_counter_idx reg_info) .|
         FIELD_SET QDMA_CPM4_DMAP_SEL_CMPT_TMR_CNT_MASK (cci_timer_idx reg_info) .|
         FIELD_SET QDMA_CPM4_DMAP_SEL_CMPT_TRG_MODE_MASK (cci_trig_mode reg_info) .|
         FIELD_SET QDMA_CPM4_DMAP_SEL_CMPT_STS_DESC_EN_MASK (cci_wrb_en reg_info) .|
         FIELD_SET QDMA_CPM4_DMAP_SEL_CMPT_IRQ_EN_MASK (cci_irq_en reg_info));;
      mret QDMA_SUCCESS
  | _, _ => mret INV_PARAM
  end.

Definition cpm4_intr_cidx_reg_addr (is_vf qid : Z) : Z :=
  (if nz is_vf then QDMA_CPM4_OFFSET_VF_DMAP_SEL_INT_CIDX else QDMA_CPM4_OFFSET_DMAP_SEL_INT_CIDX) +
  qid * QDMA_INT_CIDX_STEP.

Definition qdma_cpm4_queue_intr_cidx_update (dev_hndl : bool) (is_vf qid : Z)
    (reg_info : option qdma_intr_cidx_reg_info) : hwm dev Z :=
  match dev_hndl, reg_info with
  | true, Some reg_info =>
      qdma_reg_write (cpm4_intr_cidx_reg_addr is_vf qid)
        (FIELD_SET QDMA_CPM4_DMA_SEL_INT_SW_CIDX_MASK (ici_sw_cidx reg_info) .|
         FIELD_SET QDMA_CPM4_DMA_SEL_INT_RING_IDX_MASK (ici_rng_idx reg_info));;
      mret QDMA_SUCCESS
  | _, _ => mret INV_PARAM
  end.

(** ** User BAR *)

(** The shift is by less than 32: [func_id] is at most 5. *)
Definition qdma_cmp_get_user_bar (dev_hndl : bool) (is_vf func_id : Z) (user_bar : option Z) :
    hwm dev (Z * option Z) :=
  match dev_hndl, user_bar with
  | true, Some _ =>
      if negb (nz is_vf) then
        user_bar_id ← qdma_reg_read QDMA_CPM4_GLBL2_PF_BARLITE_EXT_ADDR;
        let user_bar_id := Z.land (Z.shiftr user_bar_id (6 * func_id)) 0x3F in
        match find_bar user_bar_id 0 (Z.to_nat QDMA_BAR_NUM) with
        | Some bar => mret (QDMA_SUCCESS, Some bar)
        | None => mret (ERR QDMA_ERR_HWACC_BAR_NOT_FOUND, Some 0)
        end
      else mret (QDMA_SUCCESS, Some QDMA_CPM4_VF_USER_BAR_ID)
  | _, _ => mret (INV_PARAM, user_bar)
  end.
End access.
