(* ===== verification/HwInit.v ===== *)
(** * Choosing an access layer, and what every layer promises

    [qdma_hw_access_init] (qdma_access_common.c) reads the identification and
    version registers and fills the access table with the functions of the soft
    IP, of the CPM4, of the CPM5 or of the EQDMA.  The first part models it and
    shows which table each device gets and that every table is one the mailbox
    handlers can rely on.  The second part states what programming a context
    promises over the layers that share the indirect block, once for every kind
    of context, and proves it from what each layer packs. *)

From Stdlib Require Import String.
From S2P Require Import Prelude Platform Bits RegIO IndCtxt SoftReg SoftCtxt SoftCtxtThms SoftAccess.
From S2P Require Import ResMgmt MboxMsg MboxStruct MboxCompose MboxHandler MboxSafe MboxThms.
From S2P Require Import RegList HwAccess ErrProc EqdmaErr Cpm5Err Cpm4Err EqdmaAccess Cpm5Access Cpm4Access CtxtTypes.

(** ** Registers *)

Definition QDMA_OFFSET_CONFIG_BLOCK_ID : Z := 0x0.
Definition QDMA_CONFIG_BLOCK_ID_MASK : Z := GENMASK 31 16.
Definition QDMA_OFFSET_VF_VERSION : Z := 0x1014.
Definition QDMA_MAGIC_NUMBER : Z := 0x1fd3.
Definition QDMA_GLBL2_DEVICE_ID_MASK : Z := GENMASK 31 28.
Definition QDMA_GLBL2_VIVADO_RELEASE_MASK : Z := GENMASK 27 24.
Definition QDMA_GLBL2_VERSAL_IP_MASK : Z := GENMASK 23 20.
Definition QDMA_GLBL2_RTL_VERSION_MASK : Z := GENMASK 19 16.
Definition QDMA_GLBL2_VF_UNIQUE_ID_MASK : Z := GENMASK 31 16.
Definition QDMA_GLBL2_VF_DEVICE_ID_MASK : Z := GENMASK 15 12.
Definition QDMA_GLBL2_VF_VIVADO_RELEASE_MASK : Z := GENMASK 11 8.
Definition QDMA_GLBL2_VF_VERSAL_IP_MASK : Z := GENMASK 7 4.
Definition QDMA_GLBL2_VF_RTL_VERSION_MASK : Z := GENMASK 3 0.
Definition EQDMA_OFFSET_MBOX_BASE_PF : Z := 0x22400.
Definition EQDMA_OFFSET_MBOX_BASE_VF : Z := 0x5000.
Definition EQDMA_CPM5_OFFSET_MBOX_BASE_PF : Z := 0x42400.

(** [enum qdma_ip], [enum qdma_rtl_version] *)
Inductive qdma_ip := QDMA_OR_VERSAL_IP | EQDMA_IP | EQDMA_CPM5_IP.
Inductive qdma_rtl_version := QDMA_RTL_BASE | QDMA_RTL_PATCH | QDMA_RTL_NONE.

(** [struct qdma_hw_version_info]; a string is [None] while it is not written. *)
Record qdma_hw_version_info := mk_version_info {
  vi_rtl_version : qdma_rtl_version; vi_vivado_release : Z;
  vi_ip_type : qdma_ip_type; vi_device_type : qdma_device_type;
  vi_rtl_version_str : option string; vi_vivado_release_id_str : option string;
  vi_device_type_str : option string; vi_ip_type_str : option string;
}.

(** ** Names *)

Definition qdma_get_rtl_version (rtl_version : qdma_rtl_version) : option string :=
  match rtl_version with
  | QDMA_RTL_PATCH => Some "RTL Patch"%string
  | QDMA_RTL_BASE => Some "RTL Base"%string
  | QDMA_RTL_NONE => None
  end.

Definition qdma_get_device_type (device_type : qdma_device_type) : option string :=
  match device_type with
  | QDMA_DEVICE_SOFT => Some "Soft IP"%string
  | QDMA_DEVICE_VERSAL_CPM4 => Some "Versal CPM4 Hard IP"%string
  | QDMA_DEVICE_VERSAL_CPM5 => Some "Versal Hard CPM5"%string
  | QDMA_DEVICE_NONE => None
  end.

Definition qdma_get_vivado_release_id (vivado_release_id : Z) : option string :=
  if vivado_release_id =? QDMA_VIVADO_2018_3 then Some "vivado 2018.3"%string
  else if vivado_release_id =? QDMA_VIVADO_2019_1 then Some "vivado 2019.1"%string
  else if vivado_release_id =? QDMA_VIVADO_2019_2 then Some "vivado 2019.2"%string
  else if vivado_release_id =? QDMA_VIVADO_2020_1 then Some "vivado 2020.1"%string
  else if vivado_release_id =? QDMA_VIVADO_2020_2 then Some "vivado 2020.2"%string
  else if vivado_release_id =? QDMA_VIVADO_2021_1 then Some "vivado 2021.1"%string
  else if vivado_release_id =? QDMA_VIVADO_2022_1 then Some "vivado 2022.1"%string
  else None.

(** ** What the version register says *)

Definition rtl_version_of (rtl_version : Z) : qdma_rtl_version :=
  if rtl_version =? 0 then QDMA_RTL_BASE else if rtl_version =? 1 then QDMA_RTL_PATCH else QDMA_RTL_NONE.

Definition device_type_of (device_type : Z) : qdma_device_type :=
  if device_type =? 0 then QDMA_DEVICE_SOFT
  else if device_type =? 1 then QDMA_DEVICE_VERSAL_CPM4
  else if device_type =? 2 then QDMA_DEVICE_VERSAL_CPM5
  else QDMA_DEVICE_NONE.

Definition ip_type_of (device_type : qdma_device_type) (ip_type : Z) : qdma_ip_type :=
  match device_type with
  | QDMA_DEVICE_SOFT =>
      if ip_type =? 0 then QDMA_SOFT_IP
      else if (ip_type =? 1) || (ip_type =? 2) then EQDMA_SOFT_IP
      else QDMA_NONE_IP
  | _ =>
      if ip_type =? 0 then QDMA_VERSAL_HARD_IP
      else if ip_type =? 1 then QDMA_VERSAL_SOFT_IP
      else QDMA_NONE_IP
  end.

Definition vivado_release_of (ip : qdma_ip_type) (device_type : qdma_device_type) (id : Z) : Z :=
  match ip, device_type with
  | QDMA_SOFT_IP, _ =>
      if id =? 0 then QDMA_VIVADO_2018_3 else if id =? 1 then QDMA_VIVADO_2019_1
      else if id =? 2 then QDMA_VIVADO_2019_2 else QDMA_VIVADO_NONE
  | EQDMA_SOFT_IP, _ =>
      if id =? 0 then QDMA_VIVADO_2020_1 else if id =? 1 then QDMA_VIVADO_2020_2
      else if id =? 2 then QDMA_VIVADO_2022_1 else QDMA_VIVADO_NONE
  | _, QDMA_DEVICE_VERSAL_CPM5 =>
      if id =? 0 then QDMA_VIVADO_2021_1 else if id =? 1 then QDMA_VIVADO_2022_1 else QDMA_VIVADO_NONE
  | _, _ => if id =? 0 then QDMA_VIVADO_2019_2 else QDMA_VIVADO_NONE
  end.

(** [qdma_strncpy], when there is a name; every name is shorter than the
    buffers ([QDMA_HW_VERSION_STRING_LEN]). *)
Definition str_set (old : option string) (version_str : option string) : option string :=
  match version_str with Some s => Some s | None => old end.

Section init.
Context {dev : Type} `{Device dev}.

(** Build option [EQDMA_CPM5_VF_GT_256Q_SUPPORTED]. *)
Variable vf_gt_256q : bool.

Definition EQDMA_CPM5_OFFSET_VF_VERSION : Z := if vf_gt_256q then 0x21014 else 0x5014.
Definition EQDMA_CPM5_OFFSET_MBOX_BASE_VF : Z := if vf_gt_256q then 0x21000 else 0x5000.

Definition qdma_get_ip_type (dev_hndl : bool) (is_vf : Z) (ip_type : qdma_ip_type) : hwm dev (option string) :=
  if negb dev_hndl then mret None
  else
    match ip_type with
    | QDMA_VERSAL_HARD_IP => mret (Some "Versal Hard IP"%string)
    | QDMA_VERSAL_SOFT_IP => mret (Some "Versal Soft IP"%string)
    | QDMA_SOFT_IP => mret (Some "QDMA Soft IP"%string)
    | EQDMA_SOFT_IP =>
        r ← eqdma_get_ip_version true is_vf 0;
        if negb (r.1 =? QDMA_SUCCESS) then mret None
        else if r.2 =? EQDMA_IP_VERSION_4 then mret (Some "EQDMA4.0 Soft IP"%string)
        else if r.2 =? EQDMA_IP_VERSION_5 then mret (Some "EQDMA5.0 Soft IP"%string)
        else mret None
    | QDMA_NONE_IP => mret None
    end.

Definition qdma_fetch_version_details (dev_hndl : bool) (is_vf version_reg_val : Z)
    (old : qdma_hw_version_info) : hwm dev qdma_hw_version_info :=
  if negb dev_hndl then mret old
  else
    let get pf vf := FIELD_GET (if nz is_vf then vf else pf) version_reg_val in
    let rtl_version := rtl_version_of (get QDMA_GLBL2_RTL_VERSION_MASK QDMA_GLBL2_VF_RTL_VERSION_MASK) in
    let vivado_release_id := get QDMA_GLBL2_VIVADO_RELEASE_MASK QDMA_GLBL2_VF_VIVADO_RELEASE_MASK in
    let device_type := device_type_of (get QDMA_GLBL2_DEVICE_ID_MASK QDMA_GLBL2_VF_DEVICE_ID_MASK) in
    let ip_type := ip_type_of device_type (get QDMA_GLBL2_VERSAL_IP_MASK QDMA_GLBL2_VF_VERSAL_IP_MASK) in
    ip_str ← qdma_get_ip_type dev_hndl is_vf ip_type;
    let vivado_release := vivado_release_of ip_type device_type vivado_release_id in
    mret (mk_version_info rtl_version vivado_release ip_type device_type
      (str_set (vi_rtl_version_str old) (qdma_get_rtl_version rtl_version))
      (str_set (vi_vivado_release_id_str old) (qdma_get_vivado_release_id vivado_release))
      (str_set (vi_device_type_str old) (qdma_get_device_type device_type))
      (str_set (vi_ip_type_str old) ip_str)).

(** The three functions differ in the register. *)
Definition get_version_at (reg_addr : Z) (dev_hndl : bool) (is_vf : Z) (version_info : qdma_hw_version_info) :
    hwm dev (Z * qdma_hw_version_info) :=
  if negb dev_hndl then mret (INV_PARAM, version_info)
  else
    reg_val ← qdma_reg_read reg_addr;
    vi ← qdma_fetch_version_details dev_hndl is_vf reg_val version_info;
    mret (QDMA_SUCCESS, vi).

Definition qdma_get_version (dev_hndl : bool) (is_vf : Z) :=
  get_version_at (if nz is_vf then QDMA_OFFSET_VF_VERSION else QDMA_OFFSET_GLBL2_MISC_CAP) dev_hndl is_vf.
Definition eqdma_get_version (dev_hndl : bool) (is_vf : Z) :=
  get_version_at (if nz is_vf then EQDMA_OFFSET_VF_VERSION else EQDMA_GLBL2_MISC_CAP_ADDR) dev_hndl is_vf.
Definition eqdma_cpm5_get_version (dev_hndl : bool) (is_vf : Z) :=
  get_version_at (if nz is_vf then EQDMA_CPM5_OFFSET_VF_VERSION else EQDMA_CPM5_GLBL2_MISC_CAP_ADDR)
    dev_hndl is_vf.

(** Returns the return value and [*ip]. *)
Definition qdma_is_config_bar (dev_hndl : bool) (is_vf : Z) (ip : qdma_ip) : hwm dev (Z * qdma_ip) :=
  let reg_addr := if nz is_vf then QDMA_OFFSET_VF_VERSION else QDMA_OFFSET_CONFIG_BLOCK_ID in
  if negb dev_hndl then mret (INV_PARAM, ip)
  else
    let config_block ip reg_val :=
      if negb (FIELD_GET QDMA_CONFIG_BLOCK_ID_MASK reg_val =? QDMA_MAGIC_NUMBER)
      then mret (ERR QDMA_ERR_HWACC_INV_CONFIG_BAR, ip)
      else mret (QDMA_SUCCESS, ip) in
    reg_val ← qdma_reg_read reg_addr;
    if nz is_vf then
      if negb (FIELD_GET QDMA_GLBL2_VF_UNIQUE_ID_MASK reg_val =? QDMA_MAGIC_NUMBER) then
        let '(ip, reg_addr) :=
          if vf_gt_256q then (EQDMA_CPM5_IP, EQDMA_CPM5_OFFSET_VF_VERSION)
          else (EQDMA_IP, EQDMA_OFFSET_VF_VERSION) in
        reg_val ← qdma_reg_read reg_addr;
        config_block ip reg_val
      else mret (QDMA_SUCCESS, QDMA_OR_VERSAL_IP)
    else config_block ip reg_val.

(** ** The tables

    The members the mailbox handlers use.  No layer but the soft IP's installs
    [qdma_global_csr_conf]. *)

Definition qdma_cpm4_hw_access : HwAccess dev := {|
  ha_mbox_base_pf := QDMA_OFFSET_MBOX_BASE_PF;
  ha_mbox_base_vf := QDMA_OFFSET_MBOX_BASE_VF;
  ha_fmap_conf := qdma_cpm4_fmap_conf true;
  ha_sw_ctx_conf := qdma_cpm4_sw_ctx_conf true;
  ha_pfetch_ctx_conf := qdma_cpm4_pfetch_ctx_conf true;
  ha_cmpt_ctx_conf := qdma_cpm4_cmpt_ctx_conf true;
  ha_hw_ctx_conf := qdma_cpm4_hw_ctx_conf true;
  ha_credit_ctx_conf := qdma_cpm4_credit_ctx_conf true;
  ha_indirect_intr_ctx_conf := qdma_cpm4_indirect_intr_ctx_conf true;
  ha_global_csr_conf := qdma_global_csr_conf true;
  ha_get_device_attributes := qdma_cpm4_get_device_attributes true;
  ha_read_reg_list is_vf slot := qdma_cpm4_read_reg_list true is_vf slot true;
|}.

Definition eqdma_cpm5_hw_access : HwAccess dev := {|
  ha_mbox_base_pf := EQDMA_CPM5_OFFSET_MBOX_BASE_PF;
  ha_mbox_base_vf := EQDMA_CPM5_OFFSET_MBOX_BASE_VF;
  ha_fmap_conf := eqdma_cpm5_fmap_conf true;
  ha_sw_ctx_conf := eqdma_cpm5_sw_ctx_conf true;
  ha_pfetch_ctx_conf := eqdma_cpm5_pfetch_ctx_conf true;
  ha_cmpt_ctx_conf := eqdma_cpm5_cmpt_ctx_conf true;
  ha_hw_ctx_conf := eqdma_cpm5_hw_ctx_conf true;
  ha_credit_ctx_conf := eqdma_cpm5_credit_ctx_conf true;
  ha_indirect_intr_ctx_conf := eqdma_cpm5_indirect_intr_ctx_conf true;
  ha_global_csr_conf := qdma_global_csr_conf true;
  ha_get_device_attributes := eqdma_cpm5_get_device_attributes true;
  ha_read_reg_list is_vf group := eqdma_cpm5_read_reg_list true is_vf group true;
|}.

Definition eqdma_hw_access : HwAccess dev := {|
  ha_mbox_base_pf := EQDMA_OFFSET_MBOX_BASE_PF;
  ha_mbox_base_vf := EQDMA_OFFSET_MBOX_BASE_VF;
  ha_fmap_conf := eqdma_fmap_conf true;
  ha_sw_ctx_conf := eqdma_sw_ctx_conf true;
  ha_pfetch_ctx_conf := eqdma_pfetch_ctx_conf true;
  ha_cmpt_ctx_conf := eqdma_cmpt_ctx_conf true;
  ha_hw_ctx_conf := eqdma_hw_ctx_conf true;
  ha_credit_ctx_conf := eqdma_credit_ctx_conf true;
  ha_indirect_intr_ctx_conf := eqdma_indirect_intr_ctx_conf true;
  ha_global_csr_conf := qdma_global_csr_conf true;
  ha_get_device_attributes := eqdma_get_device_attributes true;
  ha_read_reg_list is_vf group := eqdma_read_reg_list true is_vf group true;
|}.

(** What the three conditionals of [qdma_hw_access_init] leave installed. *)
Definition hw_access_for (v : qdma_hw_version_info) : HwAccess dev :=
  match vi_ip_type v, vi_device_type v with
  | QDMA_VERSAL_HARD_IP, QDMA_DEVICE_VERSAL_CPM4 => qdma_cpm4_hw_access
  | QDMA_VERSAL_HARD_IP, QDMA_DEVICE_VERSAL_CPM5 => eqdma_cpm5_hw_access
  | EQDMA_SOFT_IP, _ => eqdma_hw_access
  | _, _ => soft_hw_access
  end.

(** [version_info] on the stack, not initialised. *)
Definition version_info_uninit : qdma_hw_version_info :=
  mk_version_info QDMA_RTL_NONE 0 QDMA_NONE_IP QDMA_DEVICE_NONE None None None None.

(** Returns the return value and [*hw_access].  The log message evaluates
    [qdma_get_ip_type], which reads a register. *)
Definition qdma_hw_access_init (dev_hndl : bool) (is_vf : Z) (hw_access : option (HwAccess dev)) :
    hwm dev (Z * option (HwAccess dev)) :=
  match dev_hndl, hw_access with
  | true, Some old =>
      r ← qdma_is_config_bar true is_vf EQDMA_IP;
      if negb (r.1 =? QDMA_SUCCESS) then mret (r.1, Some old)
      else
        let get_version :=
          match r.2 with
          | EQDMA_IP => eqdma_get_version
          | EQDMA_CPM5_IP => eqdma_cpm5_get_version
          | QDMA_OR_VERSAL_IP => qdma_get_version
          end in
        v ← get_version true is_vf version_info_uninit;
        if negb (v.1 =? QDMA_SUCCESS) then mret (v.1, Some soft_hw_access)
        else
          qdma_get_ip_type true is_vf (vi_ip_type v.2);;
          mret (QDMA_SUCCESS, Some (hw_access_for v.2))
  | _, _ => mret (INV_PARAM, hw_access)
  end.

(** ** Every table is one the handlers can rely on *)

Lemma keeps_cpm4_poll {A} (k : Z → hwm dev A) (m : hwm dev ()) :
  keeps true m → (∀ rv, releases (k rv)) → releases (m;; cpm4_monitor_busy ≫= k).
Proof using.
  intros Hm Hk. apply releases_bind; [done|]. intros _. apply releases_bind; [|done].
  apply keeps_monitor.
Qed.

Lemma keeps_cpm4_invalidate sel qid : keeps false (qdma_cpm4_indirect_reg_invalidate sel qid).
Proof using.
  apply keeps_critical. intros _. apply keeps_cpm4_poll; [apply keeps_write|].
  intros rv. apply releases_if; apply releases_return.
Qed.

Lemma keeps_cpm4_clear sel qid : keeps false (qdma_cpm4_indirect_reg_clear sel qid).
Proof using.
  apply keeps_critical. intros _. apply keeps_cpm4_poll; [apply keeps_write|].
  intros rv. apply releases_if; apply releases_return.
Qed.

Lemma keeps_cpm4_write sel qid data : keeps false (qdma_cpm4_indirect_reg_write sel qid data).
Proof using.
  apply keeps_critical. intros _. apply keeps_cpm4_poll; [apply keeps_write_words|].
  intros rv. apply releases_if; apply releases_return.
Qed.

Lemma keeps_cpm4_read sel qid cnt : keeps false (qdma_cpm4_indirect_reg_read sel qid cnt).
Proof using.
  apply keeps_critical. intros _. apply keeps_cpm4_poll; [apply keeps_write|].
  intros rv. apply releases_if; [apply releases_return|].
  apply releases_bind; [apply keeps_read_words|]. intros l. apply releases_return.
Qed.

#[local] Hint Resolve keeps_cpm4_invalidate keeps_cpm4_clear keeps_cpm4_write keeps_cpm4_read
  keeps_csr_conf keeps_read_regs : qdma.

Lemma keeps_dbg_regs b cap l n : keeps b (read_dbg_regs cap l n).
Proof using.
  intros s Hs. destruct (keeps_read_regs b cap (dbg_shown cap l) n s Hs) as (r & s' & E & Hs').
  exists r, s'. by rewrite read_dbg_regs_shown.
Qed.

Lemma dbg_regs_le cap l n s r s' : read_dbg_regs cap l n s = Some (r, s') → (length r ≤ n)%nat.
Proof using. rewrite read_dbg_regs_shown. apply read_regs_le. Qed.

#[local] Hint Resolve keeps_dbg_regs : qdma.

(** The three readers have one shape: a few registers, then the list. *)
Ltac reg_list_le rd le :=
  intros v g s rv l s'; unfold rd;
  match goal with |- (if ?c then _ else _) _ = _ → _ => destruct c; [done|] end; cbn [negb];
  unfold mbind, hwm_bind;
  match goal with |- match ?m with _ => _ end = _ → _ => destruct m as [[cap s1]|]; [|done] end;
  match goal with |- match ?o with _ => _ end _ = _ → _ => destruct o as [a|]; [|done] end;
  match goal with |- (let '(_, _) := ?p in _) _ = _ → _ => destruct p as [rv0 ix] end;
  match goal with |- (if ?c then _ else _) _ = _ → _ => destruct c; [done|] end;
  match goal with |- match ?m with _ => _ end = _ → _ => destruct m as [[l' s2]|] eqn:E; [|done] end;
  intros [= <- <- <-]; by eapply le.

Lemma eqdma_reg_list_bound v g s rv l s' :
  eqdma_read_reg_list true v g true s = Some ((rv, Some l), s') → (length l ≤ QDMA_MAX_REGISTER_DUMP)%nat.
Proof using. revert v g s rv l s'. reg_list_le @eqdma_read_reg_list dbg_regs_le. Qed.
Lemma cpm5_reg_list_bound v g s rv l s' :
  eqdma_cpm5_read_reg_list true v g true s = Some ((rv, Some l), s') → (length l ≤ QDMA_MAX_REGISTER_DUMP)%nat.
Proof using. revert v g s rv l s'. reg_list_le @eqdma_cpm5_read_reg_list dbg_regs_le. Qed.
Lemma cpm4_reg_list_bound v g s rv l s' :
  qdma_cpm4_read_reg_list true v g true s = Some ((rv, Some l), s') → (length l ≤ QDMA_MAX_REGISTER_DUMP)%nat.
Proof using. revert v g s rv l s'. reg_list_le @qdma_cpm4_read_reg_list read_regs_le. Qed.

Create HintDb layer_ops.
#[local] Hint Unfold eqdma_sw_ctx_conf eqdma_sw_context_read eqdma_sw_context_write
  eqdma_sw_context_clear eqdma_sw_context_invalidate eqdma_pfetch_ctx_conf eqdma_pfetch_context_read
  eqdma_pfetch_context_write eqdma_pfetch_context_clear eqdma_pfetch_context_invalidate
  eqdma_cmpt_ctx_conf eqdma_cmpt_context_read eqdma_cmpt_context_write eqdma_cmpt_context_clear
  eqdma_cmpt_context_invalidate eqdma_hw_ctx_conf eqdma_hw_context_read eqdma_hw_context_clear
  eqdma_hw_context_invalidate eqdma_credit_ctx_conf eqdma_credit_context_read eqdma_credit_context_clear
  eqdma_credit_context_invalidate eqdma_indirect_intr_ctx_conf eqdma_indirect_intr_context_read
  eqdma_indirect_intr_context_write eqdma_indirect_intr_context_clear
  eqdma_indirect_intr_context_invalidate eqdma_get_device_attributes eqdma_get_dev_cap eqdma_fmap_conf
  eqdma_fmap_context_read eqdma_fmap_context_write eqdma_fmap_context_clear eqdma_indirect_reg_read
  eqdma_indirect_reg_write eqdma_indirect_reg_clear eqdma_indirect_reg_invalidate eqdma_read_reg_list : layer_ops.
#[local] Hint Unfold eqdma_cpm5_sw_ctx_conf eqdma_cpm5_sw_context_read eqdma_cpm5_sw_context_write
  eqdma_cpm5_sw_context_clear eqdma_cpm5_sw_context_invalidate eqdma_cpm5_pfetch_ctx_conf
  eqdma_cpm5_pfetch_context_read eqdma_cpm5_pfetch_context_write eqdma_cpm5_pfetch_context_clear
  eqdma_cpm5_pfetch_context_invalidate eqdma_cpm5_cmpt_ctx_conf eqdma_cpm5_cmpt_context_read
  eqdma_cpm5_cmpt_context_write eqdma_cpm5_cmpt_context_clear eqdma_cpm5_cmpt_context_invalidate
  eqdma_cpm5_hw_ctx_conf eqdma_cpm5_hw_context_read eqdma_cpm5_hw_context_clear
  eqdma_cpm5_hw_context_invalidate eqdma_cpm5_credit_ctx_conf eqdma_cpm5_credit_context_read
  eqdma_cpm5_credit_context_clear eqdma_cpm5_credit_context_invalidate eqdma_cpm5_indirect_intr_ctx_conf
  eqdma_cpm5_indirect_intr_context_read eqdma_cpm5_indirect_intr_context_write
  eqdma_cpm5_indirect_intr_context_clear eqdma_cpm5_indirect_intr_context_invalidate
  eqdma_cpm5_get_device_attributes eqdma_cpm5_get_dev_cap eqdma_cpm5_fmap_conf
  eqdma_cpm5_fmap_context_read eqdma_cpm5_fmap_context_write eqdma_cpm5_fmap_context_clear
  eqdma_cpm5_indirect_reg_read eqdma_cpm5_indirect_reg_write eqdma_cpm5_indirect_reg_clear
  eqdma_cpm5_indirect_reg_invalidate eqdma_cpm5_read_reg_list : layer_ops.
#[local] Hint Unfold qdma_cpm4_sw_ctx_conf qdma_cpm4_sw_context_read qdma_cpm4_sw_context_write
  qdma_cpm4_sw_context_clear qdma_cpm4_sw_context_invalidate qdma_cpm4_pfetch_ctx_conf
  qdma_cpm4_pfetch_context_read qdma_cpm4_pfetch_context_write qdma_cpm4_pfetch_context_clear
  qdma_cpm4_pfetch_context_invalidate qdma_cpm4_cmpt_ctx_conf qdma_cpm4_cmpt_context_read
  qdma_cpm4_cmpt_context_write qdma_cpm4_cmpt_context_clear qdma_cpm4_cmpt_context_invalidate
  qdma_cpm4_hw_ctx_conf qdma_cpm4_hw_context_read qdma_cpm4_hw_context_clear
  qdma_cpm4_hw_context_invalidate qdma_cpm4_credit_ctx_conf qdma_cpm4_credit_context_read
  qdma_cpm4_credit_context_clear qdma_cpm4_credit_context_invalidate qdma_cpm4_indirect_intr_ctx_conf
  qdma_cpm4_indirect_intr_context_read qdma_cpm4_indirect_intr_context_write
  qdma_cpm4_indirect_intr_context_clear qdma_cpm4_indirect_intr_context_invalidate
  qdma_cpm4_get_device_attributes qdma_cpm4_get_dev_cap qdma_cpm4_fmap_conf qdma_cpm4_fmap_read
  qdma_cpm4_fmap_write qdma_cpm4_fmap_clear qdma_cpm4_qid2vec_read qdma_cpm4_read_reg_list : layer_ops.

Ltac conf_keeps := autounfold with layer_ops; keeps_tac.

Lemma eqdma_hw_access_ok : @HwAccessOk dev eqdma_hw_access.
Proof using.
  split; cbn [eqdma_hw_access ha_fmap_conf ha_sw_ctx_conf ha_pfetch_ctx_conf ha_cmpt_ctx_conf
    ha_hw_ctx_conf ha_credit_ctx_conf ha_indirect_intr_ctx_conf ha_global_csr_conf
    ha_get_device_attributes ha_read_reg_list]; intros; try (by conf_keeps). by eapply eqdma_reg_list_bound.
Qed.

Lemma eqdma_cpm5_hw_access_ok : @HwAccessOk dev eqdma_cpm5_hw_access.
Proof using.
  split; cbn [eqdma_cpm5_hw_access ha_fmap_conf ha_sw_ctx_conf ha_pfetch_ctx_conf ha_cmpt_ctx_conf
    ha_hw_ctx_conf ha_credit_ctx_conf ha_indirect_intr_ctx_conf ha_global_csr_conf
    ha_get_device_attributes ha_read_reg_list]; intros; try (by conf_keeps). by eapply cpm5_reg_list_bound.
Qed.

Lemma qdma_cpm4_hw_access_ok : @HwAccessOk dev qdma_cpm4_hw_access.
Proof using.
  split; cbn [qdma_cpm4_hw_access ha_fmap_conf ha_sw_ctx_conf ha_pfetch_ctx_conf ha_cmpt_ctx_conf
    ha_hw_ctx_conf ha_credit_ctx_conf ha_indirect_intr_ctx_conf ha_global_csr_conf
    ha_get_device_attributes ha_read_reg_list]; intros; try (by conf_keeps). by eapply cpm4_reg_list_bound.
Qed.

Lemma table_for_ok v : @HwAccessOk dev (hw_access_for v).
Proof using.
  unfold hw_access_for. destruct (vi_ip_type v), (vi_device_type v);
    auto using eqdma_hw_access_ok, eqdma_cpm5_hw_access_ok, qdma_cpm4_hw_access_ok, soft_hw_access_ok.
Qed.

(** Reading the version: always done, whatever is read. *)
Lemma get_ip_type_runs is_vf ip s :
  ∃ r s', qdma_get_ip_type true is_vf ip s = Some (r, s') ∧ hw_prg_lock s' = hw_prg_lock s.
Proof using.
  assert (keeps (hw_prg_lock s) (qdma_get_ip_type true is_vf ip)) as Hk.
  { unfold qdma_get_ip_type, eqdma_get_ip_version. destruct ip; cbn [negb]; keeps_tac. }
  by destruct (Hk s eq_refl) as (r & s' & ? & ?); exists r, s'.
Qed.

Lemma get_version_runs a is_vf vi s :
  ∃ v s', get_version_at a true is_vf vi s = Some ((QDMA_SUCCESS, v), s') ∧
    hw_prg_lock s' = hw_prg_lock s.
Proof using.
  unfold get_version_at, mbind, hwm_bind, qdma_reg_read. cbn [negb].
  destruct (dev_read (u32 a) (hw s)) as [w d1]. unfold qdma_fetch_version_details. cbn [negb].
  unfold mbind, hwm_bind.
  match goal with |- context [qdma_get_ip_type true is_vf ?ip ?s1] =>
    destruct (get_ip_type_runs is_vf ip s1) as (r & s2 & -> & Hs2) end.
  by eexists _, s2.
Qed.

Lemma is_config_bar_runs is_vf ip s :
  ∃ rv ip' s', qdma_is_config_bar true is_vf ip s = Some ((rv, ip'), s') ∧
    hw_prg_lock s' = hw_prg_lock s ∧ (rv = QDMA_SUCCESS ∨ rv = ERR QDMA_ERR_HWACC_INV_CONFIG_BAR).
Proof using.
  unfold qdma_is_config_bar, mbind, hwm_bind, qdma_reg_read. cbn [negb].
  destruct (dev_read _ (hw s)) as [w d1].
  destruct (nz is_vf); [destruct (negb _); [destruct vf_gt_256q|]|];
    try destruct (dev_read _ _) as [w2 d2]; try destruct (negb _);
    eexists _, _, _; (split; [done|]); (split; [done|]); (by left) || by right.
Qed.

(** C11. For every device, whatever its registers hold, and either build of
    the driver: [qdma_hw_access_init] returns, with the register lock free.
    Either it fails with -QDMA_ERR_HWACC_INV_CONFIG_BAR and the access table is
    the caller's, or it succeeds with a table on which the mailbox handler can
    be run: every function of it gives the register lock back, and a message of
    a virtual function is handled through it without an access outside the
    buffers of the driver, the two exceptions of the handler apart (a context
    read that includes the completion context needs a response of the size of
    the union; an interrupt message is taken to name no more rings than its
    arrays hold). *)
Theorem hw_access_init_table_ok is_vf (old : HwAccess dev) s :
  hw_prg_lock s = false →
  ∃ rv t s', qdma_hw_access_init true is_vf (Some old) s = Some ((rv, Some t), s') ∧
    hw_prg_lock s' = false ∧
    (rv = ERR QDMA_ERR_HWACC_INV_CONFIG_BAR ∧ t = old ∨
     rv = QDMA_SUCCESS ∧ @HwAccessOk dev t ∧
     ∀ rm rcv resp ix fid, (msg_size ≤ length rcv)%nat → (resp_size rcv ≤ length resp)%nat → rings_ok rcv →
       ∃ ret m, @qdma_mbox_pf_rcv_msg_handler dev t ix fid (mk_mst s' rm rcv resp) = Some (ret, m) ∧
         hw_prg_lock (ms_hw m) = false).
Proof using.
  intros Hl. unfold qdma_hw_access_init. unfold mbind at 1, hwm_bind at 1.
  destruct (is_config_bar_runs is_vf EQDMA_IP s) as (rv & ip & s1 & -> & Hs1 & [-> | ->]); cycle 1.
  { exists (ERR QDMA_ERR_HWACC_INV_CONFIG_BAR), old, s1. split; [done|]. split; [congruence|by left]. }
  cbn [fst snd negb Z.eqb QDMA_SUCCESS]. unfold mbind, hwm_bind.
  assert (∃ v s2, (match ip with
      | EQDMA_IP => eqdma_get_version
      | EQDMA_CPM5_IP => eqdma_cpm5_get_version
      | QDMA_OR_VERSAL_IP => qdma_get_version
      end true is_vf version_info_uninit s1) = Some ((QDMA_SUCCESS, v), s2) ∧
      hw_prg_lock s2 = hw_prg_lock s1) as (v & s2 & -> & Hs2) by (destruct ip; apply get_version_runs).
  cbn [fst snd negb Z.eqb QDMA_SUCCESS].
  destruct (get_ip_type_runs is_vf (vi_ip_type v) s2) as (r & s3 & -> & Hs3).
  exists QDMA_SUCCESS, (hw_access_for v), s3. split; [done|]. split; [congruence|]. right. split; [done|].
  split; [apply table_for_ok|]. intros rm rcv resp ix fid Hr Hp Hn.
  destruct (@handler_returns dev (hw_access_for v) (table_for_ok v) ix fid (mk_mst s3 rm rcv resp))
    as (ret & m & E & Hm & _); [by split; cbn; [congruence|..]|].
  exists ret, m. split; [done|]. exact Hm.
Qed.
End init.

(** ** Which table a device gets *)

Section which.
Context {dev : Type} `{Device dev}.
Variable vf_gt_256q : bool.
Hypothesis reads_are_pure : ∀ a (d : dev), (dev_read a d).2 = d.

Definition reg_at (a : Z) (d : dev) : Z := (dev_read a d).1.

(** The sixteen bits that identify the function. *)
Definition has_magic (w : Z) : bool := (w / 2 ^ 16) mod 2 ^ 16 =? QDMA_MAGIC_NUMBER.

(** The version word of a function of the device; none when the BAR is not the
    configuration BAR. *)
Definition version_word (vf : bool) (d : dev) : option Z :=
  if vf then
    let w := reg_at 0x1014 d in
    let w' := reg_at (if vf_gt_256q then 0x21014 else 0x5014) d in
    if has_magic w then Some w else if has_magic w' then Some w' else None
  else if has_magic (reg_at 0 d) then Some (reg_at 0x134 d) else None.

(** The table for a version word, from its device and IP fields. *)
Definition table_of (vf : bool) (w : Z) : HwAccess dev :=
  let device := (w / 2 ^ (if vf then 12 else 28)) mod 16 in
  let ip := (w / 2 ^ (if vf then 4 else 20)) mod 16 in
  if (device =? 0) && ((ip =? 1) || (ip =? 2)) then eqdma_hw_access
  else if (device =? 1) && (ip =? 0) then qdma_cpm4_hw_access
  else if (device =? 2) && (ip =? 0) then eqdma_cpm5_hw_access vf_gt_256q
  else soft_hw_access.

Lemma FIELD_GET_div m w :
  mask_ok m = true → FIELD_GET m w = (w / 2 ^ FIELD_SHIFT m) mod 2 ^ mask_width m.
Proof using.
  intros Hm. rewrite FIELD_GET_eq by done. apply mask_ok_spec in Hm as (_ & ? & ?).
  by rewrite Z.land_ones, Z.shiftr_div_pow2 by done.
Qed.

Lemma read_pure a (s : hw_state dev) : qdma_reg_read a s = Some (reg_at (u32 a) (hw s), s).
Proof using reads_are_pure.
  unfold qdma_reg_read, reg_at. pose proof (reads_are_pure (u32 a) (hw s)) as Hp.
  destruct (dev_read (u32 a) (hw s)) as [v d]. simpl in Hp. subst d. by destruct s.
Qed.

Lemma get_ip_type_pure is_vf ip (s : hw_state dev) : ∃ r, qdma_get_ip_type true is_vf ip s = Some (r, s).
Proof using reads_are_pure.
  unfold qdma_get_ip_type, eqdma_get_ip_version. destruct ip; cbn [negb]; try by eexists.
  unfold mbind, hwm_bind. rewrite read_pure.
  destruct (negb (nz is_vf)); cbn; repeat case_match; by eexists.
Qed.

Lemma table_of_word (vf : bool) w :
  let device := device_type_of (FIELD_GET (if vf then QDMA_GLBL2_VF_DEVICE_ID_MASK
                                           else QDMA_GLBL2_DEVICE_ID_MASK) w) in
  let ip := ip_type_of device (FIELD_GET (if vf then QDMA_GLBL2_VF_VERSAL_IP_MASK
                                          else QDMA_GLBL2_VERSAL_IP_MASK) w) in
  ∀ v, vi_device_type v = device → vi_ip_type v = ip →
    hw_access_for vf_gt_256q v = table_of vf w.
Proof using.
  intros device ip v Hd Hi. unfold hw_access_for, table_of. rewrite Hi, Hd. subst device ip.
  rewrite !FIELD_GET_div by (destruct vf; mask_compute).
  replace (FIELD_SHIFT (if vf then QDMA_GLBL2_VF_DEVICE_ID_MASK else QDMA_GLBL2_DEVICE_ID_MASK))
    with (if vf then 12 else 28) by by destruct vf.
  replace (FIELD_SHIFT (if vf then QDMA_GLBL2_VF_VERSAL_IP_MASK else QDMA_GLBL2_VERSAL_IP_MASK))
    with (if vf then 4 else 20) by by destruct vf.
  replace (mask_width (if vf then QDMA_GLBL2_VF_DEVICE_ID_MASK else QDMA_GLBL2_DEVICE_ID_MASK))
    with 4 by by destruct vf.
  replace (mask_width (if vf then QDMA_GLBL2_VF_VERSAL_IP_MASK else QDMA_GLBL2_VERSAL_IP_MASK))
    with 4 by by destruct vf.
  change (2 ^ 4) with 16.
  generalize ((w / 2 ^ (if vf then 12 else 28)) mod 16), ((w / 2 ^ (if vf then 4 else 20)) mod 16).
  intros a b. unfold device_type_of, ip_type_of.
  destruct (Z.eqb_spec a 0) as [->|Ha0]; [|destruct (Z.eqb_spec a 1) as [->|Ha1];
    [|destruct (Z.eqb_spec a 2) as [->|Ha2]]]; destruct (Z.eqb_spec b 0) as [->|Hb0];
    try done; cbn [andb orb]; by destruct (b =? 1), (b =? 2).
Qed.

Lemma get_version_pure a is_vf vi (s : hw_state dev) :
  ∃ v, get_version_at a true is_vf vi s = Some ((QDMA_SUCCESS, v), s) ∧
    hw_access_for vf_gt_256q v = table_of (nz is_vf) (reg_at (u32 a) (hw s)).
Proof using reads_are_pure.
  unfold get_version_at, qdma_fetch_version_details. cbn [negb]. unfold mbind, hwm_bind.
  rewrite read_pure. cbv beta zeta.
  match goal with |- context [qdma_get_ip_type true is_vf ?ip s] =>
    destruct (get_ip_type_pure is_vf ip s) as (r & ->) end.
  eexists. split; [done|]. by eapply table_of_word.
Qed.

Lemma magic_field w :
  (FIELD_GET QDMA_CONFIG_BLOCK_ID_MASK w =? QDMA_MAGIC_NUMBER) = has_magic w.
Proof using. by rewrite FIELD_GET_div by mask_compute. Qed.

(** The version register each of the three functions reads. *)
Definition version_addr (ip : qdma_ip) (vf : bool) : Z :=
  match ip with
  | EQDMA_IP => if vf then EQDMA_OFFSET_VF_VERSION else EQDMA_GLBL2_MISC_CAP_ADDR
  | EQDMA_CPM5_IP => if vf then EQDMA_CPM5_OFFSET_VF_VERSION vf_gt_256q else EQDMA_CPM5_GLBL2_MISC_CAP_ADDR
  | QDMA_OR_VERSAL_IP => if vf then QDMA_OFFSET_VF_VERSION else QDMA_OFFSET_GLBL2_MISC_CAP
  end.

(** The bar is accepted exactly when there is a version word, and the register
    chosen then holds it. *)
Lemma is_config_bar_pure is_vf (s : hw_state dev) :
  ∃ ip, qdma_is_config_bar vf_gt_256q true is_vf EQDMA_IP s =
    Some ((if version_word (nz is_vf) (hw s) is Some _ then QDMA_SUCCESS
           else ERR QDMA_ERR_HWACC_INV_CONFIG_BAR, ip), s) ∧
    ∀ w, version_word (nz is_vf) (hw s) = Some w →
      reg_at (u32 (version_addr ip (nz is_vf))) (hw s) = w.
Proof using reads_are_pure.
  unfold qdma_is_config_bar, version_word, version_addr. cbn [negb]. unfold mbind, hwm_bind. rewrite read_pure.
  change QDMA_GLBL2_VF_UNIQUE_ID_MASK with QDMA_CONFIG_BLOCK_ID_MASK.
  destruct (nz is_vf); cbv beta iota zeta; rewrite magic_field.
  - change (u32 QDMA_OFFSET_VF_VERSION) with 0x1014.
    destruct (has_magic (reg_at 0x1014 (hw s))); cbn [negb].
    { exists QDMA_OR_VERSAL_IP. split; [done|]. by intros w [= <-]. }
    exists (if vf_gt_256q then EQDMA_CPM5_IP else EQDMA_IP).
    destruct vf_gt_256q; rewrite read_pure, magic_field; unfold EQDMA_CPM5_OFFSET_VF_VERSION.
    + change (u32 0x21014) with 0x21014. destruct (has_magic (reg_at 0x21014 (hw s))); cbn [negb];
        (split; [done|]); by (intros ? ?; simplify_eq).
    + change (u32 EQDMA_OFFSET_VF_VERSION) with 0x5014.
      destruct (has_magic (reg_at 0x5014 (hw s))); cbn [negb]; (split; [done|]); by (intros ? ?; simplify_eq).
  - change (u32 QDMA_OFFSET_CONFIG_BLOCK_ID) with 0. exists EQDMA_IP.
    destruct (has_magic (reg_at 0 (hw s))); cbn [negb]; (split; [done|]); by (intros ? ?; simplify_eq).
Qed.

(** C40. On a device whose registers can be read without changing it,
    [qdma_hw_access_init] changes nothing, and the table a function gets is
    determined by its version word: the EQDMA table for the soft device with IP
    4 or 5, the CPM4 and CPM5 tables for the hard IP of those devices, the soft
    IP's for everything else; a BAR without the magic number is refused and the
    caller's table kept.  The version word of a physical function is register
    0x134; that of a virtual function is register 0x1014 when it carries the
    magic number and the EQDMA (or CPM5) version register otherwise. *)
Theorem hw_access_init_which is_vf (old : HwAccess dev) s :
  qdma_hw_access_init vf_gt_256q true is_vf (Some old) s =
  Some (match version_word (nz is_vf) (hw s) with
        | Some w => (QDMA_SUCCESS, Some (table_of (nz is_vf) w))
        | None => (ERR QDMA_ERR_HWACC_INV_CONFIG_BAR, Some old)
        end, s).
Proof using reads_are_pure.
  destruct (is_config_bar_pure is_vf s) as (ip & E & Hw).
  unfold qdma_hw_access_init, mbind, hwm_bind. rewrite E.
  destruct (version_word (nz is_vf) (hw s)) as [w|]; [|done]. specialize (Hw w eq_refl). subst w.
  destruct (get_version_pure (version_addr ip (nz is_vf)) is_vf version_info_uninit s) as (v & Ev & <-).
  destruct (get_ip_type_pure is_vf (vi_ip_type v) s) as (r & Er).
  cbn [fst snd negb Z.eqb QDMA_SUCCESS]. unfold eqdma_get_version, eqdma_cpm5_get_version, qdma_get_version.
  destruct ip; cbn [version_addr] in Ev; rewrite Ev; cbn [fst snd negb Z.eqb QDMA_SUCCESS]; by rewrite Er.
Qed.
End which.

(** ** Layers and kinds of context *)

Inductive access_layer := SOFT_LAYER | EQDMA_LAYER | CPM5_LAYER.

(** A kind of context, with its direction where there is one. *)
Inductive ctx_kind :=
  | FMAP | SW (c2h : bool) | PFETCH | CMPT | INTR_AGGR | HW (c2h : bool) | CREDIT (c2h : bool).

Definition ctx_type (k : ctx_kind) : Type :=
  match k with
  | FMAP => qdma_fmap_cfg | SW _ => qdma_descq_sw_ctxt | PFETCH => qdma_descq_prefetch_ctxt
  | CMPT => qdma_descq_cmpt_ctxt | INTR_AGGR => qdma_indirect_intr_ctxt
  | HW _ => qdma_descq_hw_ctxt | CREDIT _ => qdma_descq_credit_ctxt
  end.

Definition ctx_sel (k : ctx_kind) : ind_ctxt_cmd_sel :=
  match k with
  | FMAP => QDMA_CTXT_SEL_FMAP | SW c2h => sw_sel (Z.b2z c2h) | PFETCH => QDMA_CTXT_SEL_PFTCH
  | CMPT => QDMA_CTXT_SEL_CMPT | INTR_AGGR => QDMA_CTXT_SEL_INT_COAL
  | HW c2h => hw_sel (Z.b2z c2h) | CREDIT c2h => cr_sel (Z.b2z c2h)
  end.

(** The function of the layer's table for the kind. *)
Definition ctx_conf {dev : Type} `{Device dev} (l : access_layer) (k : ctx_kind) :
    Z → option (ctx_type k) → qdma_hw_access_type → hwm dev (Z * option (ctx_type k)) :=
  match k with
  | FMAP => match l with
      | SOFT_LAYER => qdma_fmap_conf true | EQDMA_LAYER => eqdma_fmap_conf true
      | CPM5_LAYER => eqdma_cpm5_fmap_conf true end
  | SW c2h => match l with
      | SOFT_LAYER => qdma_sw_ctx_conf true (Z.b2z c2h) | EQDMA_LAYER => eqdma_sw_ctx_conf true (Z.b2z c2h)
      | CPM5_LAYER => eqdma_cpm5_sw_ctx_conf true (Z.b2z c2h) end
  | PFETCH => match l with
      | SOFT_LAYER => qdma_pfetch_ctx_conf true | EQDMA_LAYER => eqdma_pfetch_ctx_conf true
      | CPM5_LAYER => eqdma_cpm5_pfetch_ctx_conf true end
  | CMPT => match l with
      | SOFT_LAYER => qdma_cmpt_ctx_conf true | EQDMA_LAYER => eqdma_cmpt_ctx_conf true
      | CPM5_LAYER => eqdma_cpm5_cmpt_ctx_conf true end
  | INTR_AGGR => match l with
      | SOFT_LAYER => qdma_indirect_intr_ctx_conf true | EQDMA_LAYER => eqdma_indirect_intr_ctx_conf true
      | CPM5_LAYER => eqdma_cpm5_indirect_intr_ctx_conf true end
  | HW c2h => match l with
      | SOFT_LAYER => qdma_hw_ctx_conf true (Z.b2z c2h) | EQDMA_LAYER => eqdma_hw_ctx_conf true (Z.b2z c2h)
      | CPM5_LAYER => eqdma_cpm5_hw_ctx_conf true (Z.b2z c2h) end
  | CREDIT c2h => match l with
      | SOFT_LAYER => qdma_credit_ctx_conf true (Z.b2z c2h)
      | EQDMA_LAYER => eqdma_credit_ctx_conf true (Z.b2z c2h)
      | CPM5_LAYER => eqdma_cpm5_credit_ctx_conf true (Z.b2z c2h) end
  end.

(** ** What a layer packs and unpacks *)

(** The words a read of the kind fetches. *)
Definition ctx_count (l : access_layer) (k : ctx_kind) : nat :=
  match k, l with
  | SW _, SOFT_LAYER | CMPT, SOFT_LAYER => 5 | SW _, _ => 8 | CMPT, _ => 6
  | INTR_AGGR, SOFT_LAYER => 3 | INTR_AGGR, _ => 4
  | CREDIT _, _ => 1 | FMAP, _ | PFETCH, _ | HW _, _ => 2
  end.

Definition ctx_words (l : access_layer) (k : ctx_kind) : ctx_type k → list Z :=
  match k with
  | FMAP => match l with
      | SOFT_LAYER => fmap_words | EQDMA_LAYER => eqdma_fmap_words | CPM5_LAYER => eqdma_cpm5_fmap_words end
  | SW _ => match l with
      | SOFT_LAYER => sw_words | EQDMA_LAYER => eqdma_sw_words | CPM5_LAYER => eqdma_cpm5_sw_words end
  | PFETCH => match l with
      | SOFT_LAYER => pfetch_words | EQDMA_LAYER => eqdma_pfetch_words
      | CPM5_LAYER => eqdma_cpm5_pfetch_words end
  | CMPT => match l with
      | SOFT_LAYER => cmpt_words | EQDMA_LAYER => eqdma_cmpt_words | CPM5_LAYER => eqdma_cpm5_cmpt_words end
  | INTR_AGGR => match l with
      | SOFT_LAYER => intr_words | EQDMA_LAYER => eqdma_intr_words | CPM5_LAYER => eqdma_cpm5_intr_words end
  | HW _ | CREDIT _ => λ _, []
  end.

(** What is read from the words, over what the caller's structure held. *)
Definition ctx_of_words (l : access_layer) (k : ctx_kind) : list Z → ctx_type k → ctx_type k :=
  match k with
  | FMAP => λ ws _, match l with
      | SOFT_LAYER => fmap_of_words ws | EQDMA_LAYER => eqdma_fmap_of_words ws
      | CPM5_LAYER => eqdma_cpm5_fmap_of_words ws end
  | SW _ => λ ws old, match l with
      | SOFT_LAYER => sw_of_words ws old | EQDMA_LAYER => eqdma_sw_of_words ws
      | CPM5_LAYER => eqdma_cpm5_sw_of_words ws end
  | PFETCH => λ ws old, match l with
      | SOFT_LAYER => pfetch_of_words ws old | EQDMA_LAYER => eqdma_pfetch_of_words ws
      | CPM5_LAYER => eqdma_cpm5_pfetch_of_words ws end
  | CMPT => λ ws old, match l with
      | SOFT_LAYER => cmpt_of_words ws old | EQDMA_LAYER => eqdma_cmpt_of_words ws
      | CPM5_LAYER => eqdma_cpm5_cmpt_of_words ws end
  | INTR_AGGR => λ ws old, match l with
      | SOFT_LAYER => intr_of_words ws old | EQDMA_LAYER => eqdma_intr_of_words ws
      | CPM5_LAYER => eqdma_cpm5_intr_of_words ws end
  | HW _ => λ ws _, match l with
      | SOFT_LAYER => hw_of_words ws | EQDMA_LAYER => eqdma_hw_of_words ws
      | CPM5_LAYER => eqdma_cpm5_hw_of_words ws end
  | CREDIT _ => λ ws _, match l with
      | SOFT_LAYER => cr_of_words ws | EQDMA_LAYER => eqdma_credit_of_words ws
      | CPM5_LAYER => eqdma_cpm5_credit_of_words ws end
  end.

(** The contexts a layer can hold; the hardware's own contexts and the
    credits are not written by the driver. *)
Definition ctx_wf (l : access_layer) (k : ctx_kind) : ctx_type k → Prop :=
  match k with
  | FMAP => match l with
      | SOFT_LAYER => fmap_wf | EQDMA_LAYER => eqdma_fmap_wf | CPM5_LAYER => eqdma_cpm5_fmap_wf end
  | SW _ => match l with
      | SOFT_LAYER => sw_wf | EQDMA_LAYER => eqdma_sw_wf | CPM5_LAYER => eqdma_cpm5_sw_wf end
  | PFETCH => match l with
      | SOFT_LAYER => pfetch_wf | EQDMA_LAYER => eqdma_pfetch_wf | CPM5_LAYER => eqdma_cpm5_pfetch_wf end
  | CMPT => match l with
      | SOFT_LAYER => cmpt_wf | EQDMA_LAYER => eqdma_cmpt_wf | CPM5_LAYER => eqdma_cpm5_cmpt_wf end
  | INTR_AGGR => match l with
      | SOFT_LAYER => intr_wf | EQDMA_LAYER => eqdma_intr_wf | CPM5_LAYER => eqdma_cpm5_intr_wf end
  | HW _ | CREDIT _ => λ _, False
  end.

(** What is read back of [c] into a structure that held [old]: the soft IP
    has fewer fields and leaves the others alone; the two other layers alter
    the virtio base and the PASID of an interrupt ring. *)
Definition ctx_held (l : access_layer) (k : ctx_kind) : ctx_type k → ctx_type k → ctx_type k :=
  match k with
  | SW _ => λ old c, match l with
      | SOFT_LAYER => sw_keep old c | EQDMA_LAYER => eqdma_sw_held c | CPM5_LAYER => eqdma_cpm5_sw_held c end
  | PFETCH => λ old c, if l is SOFT_LAYER then pfetch_keep old c else c
  | CMPT => λ old c, if l is SOFT_LAYER then cmpt_keep old c else c
  | INTR_AGGR => λ old c, match l with
      | SOFT_LAYER => intr_keep old c | EQDMA_LAYER => eqdma_intr_held c
      | CPM5_LAYER => eqdma_cpm5_intr_held c end
  | FMAP | HW _ | CREDIT _ => λ _ c, c
  end.

Lemma ctx_count_le l k : (ctx_count l k <= 8)%nat.
Proof. destruct l, k; simpl; lia. Qed.

Lemma ctx_of_words_words l k c old ws :
  ctx_wf l k c → (∀ i, (i < ctx_count l k)%nat → word ws i = u32 (word (ctx_words l k c) i)) →
  ctx_of_words l k ws old = ctx_held l k old c.
Proof.
  destruct k, l; simpl; try done; eauto using fmap_of_words_words, sw_of_words_words,
    pfetch_of_words_words, cmpt_of_words_words, intr_of_words_words, eqdma_fmap_of_words_words,
    eqdma_sw_of_words_words, eqdma_pfetch_of_words_words, eqdma_cmpt_of_words_words,
    eqdma_intr_of_words_words, eqdma_cpm5_fmap_of_words_words, eqdma_cpm5_sw_of_words_words,
    eqdma_cpm5_pfetch_of_words_words, eqdma_cpm5_cmpt_of_words_words,
    eqdma_cpm5_intr_of_words_words.
Qed.

Section layers.
Context {dev : Type} `{TimelyDevice dev}.
Implicit Types s : hw_state dev.

(** Reading and writing through a layer are the indirect operations on the
    selector of the kind. *)
Lemma ctx_conf_read l k qid old :
  ctx_conf (dev := dev) l k qid (Some old) QDMA_HW_ACCESS_READ =
  (r ← qdma_indirect_reg_read (ctx_sel k) qid (ctx_count l k);
   if r.1 <? 0 then mret (r.1, Some old)
   else mret (QDMA_SUCCESS, Some (ctx_of_words l k r.2 old))).
Proof using. by destruct l, k as [|[]| | | |[]|[]]. Qed.

Lemma ctx_conf_write l k qid c :
  ctx_wf l k c →
  ctx_conf (dev := dev) l k qid (Some c) QDMA_HW_ACCESS_WRITE =
  (rv ← qdma_indirect_reg_write (ctx_sel k) qid (ctx_words l k c); mret (rv, Some c)).
Proof using.
  destruct k as [|[]| | | |[]|[]], l; try done; intros Hwf; cbn [ctx_conf].
  - unfold qdma_cmpt_ctx_conf, qdma_cmpt_context_write. pose proof (cmf_trig _ Hwf).
    by replace (cmpt_trig_mode c >? _) with false by lia.
  - unfold eqdma_cmpt_ctx_conf, eqdma_cmpt_context_write. pose proof (ecf_trig _ Hwf).
    by replace (cmpt_trig_mode c >? _) with false by lia.
  - unfold eqdma_cpm5_cmpt_ctx_conf, eqdma_cpm5_cmpt_context_write. pose proof (xcf_trig _ Hwf).
    by replace (cmpt_trig_mode c >? _) with false by lia.
Qed.

(** C10. Whichever access layer is installed (soft IP, EQDMA or CPM5) and
    whichever context is programmed (function map, software context of either
    direction, prefetch, completion, interrupt ring): the call succeeds, the
    same context read back afterwards is the one programmed as that layer holds
    it, the device is idle with the register lock free, and any other context
    (another queue or function of the 4096, or another kind, the hardware's
    own and the credits included) reads the same as before. *)
Theorem ctx_conf_roundtrip l k s qid c old :
  idle s → ctx_wf l k c →
  ∃ s1 s2,
    ctx_conf l k qid (Some c) QDMA_HW_ACCESS_WRITE s = Some ((QDMA_SUCCESS, Some c), s1) ∧
    ctx_conf l k qid (Some old) QDMA_HW_ACCESS_READ s1 =
      Some ((QDMA_SUCCESS, Some (ctx_held l k old c)), s2) ∧ idle s2 ∧
    ∀ k' qid' old', k' ≠ k ∨ cmd_qid qid' ≠ cmd_qid qid →
      ∃ c' s3 s4,
        ctx_conf l k' qid' (Some old') QDMA_HW_ACCESS_READ s = Some ((QDMA_SUCCESS, Some c'), s3) ∧
        ctx_conf l k' qid' (Some old') QDMA_HW_ACCESS_READ s1 = Some ((QDMA_SUCCESS, Some c'), s4).
Proof using Type*.
  intros Hs Hwf.
  destruct (write_then_read (ctx_sel k) qid (ctx_words l k c) _ s Hs (ctx_count_le l k))
    as (s1 & s2 & ws & E1 & E2 & Hs2 & Hw).
  exists s1, s2. rewrite ctx_conf_write, ctx_conf_read by done. unfold mbind, hwm_bind.
  rewrite E1, E2. split_and!; [done| |done|].
  { simpl. by rewrite (ctx_of_words_words l k c). }
  intros k' qid' old' Hne.
  destruct (write_read_other (ctx_sel k) qid (ctx_words l k c) (ctx_sel k') qid' _ s Hs
    (ctx_count_le l k')) as (s1' & s3 & s4 & ws' & E1' & E3 & E4).
  { destruct Hne as [Hne|]; [left|by right]. intros E. apply Hne.
    by destruct k as [|[]| | | |[]|[]], k' as [|[]| | | |[]|[]]. }
  rewrite E1 in E1'. simplify_eq. rewrite !ctx_conf_read. unfold mbind, hwm_bind.
  rewrite E3, E4. by eexists _, _, _.
Qed.
End layers.

(** ** Instances *)

Lemma sim_reads_pure a (d : sim) : (dev_read a d).2 = d.
Proof. cbn. by destruct (sim_decode a). Qed.

(** The EQDMA with IP 4.0, seen from a virtual function. *)
Definition eqdma_vf_device : sim := mk_sim (λ _, 0) (λ _, 0) (λ _ _ _, 0) 0
  (λ a, if a =? 0x5014 then 0x1fd30010 else 0).

Lemma hw_access_init_which_witness :
  qdma_hw_access_init false true 1 (Some soft_hw_access) (mk_hw eqdma_vf_device false) =
  Some ((QDMA_SUCCESS, Some eqdma_hw_access), mk_hw eqdma_vf_device false).
Proof. exact (hw_access_init_which false sim_reads_pure 1 soft_hw_access (mk_hw eqdma_vf_device false)). Defined.

Lemma hw_access_init_table_ok_witness :
  let s := mk_hw eqdma_vf_device false in
  ∃ rv t s', qdma_hw_access_init false true 1 (Some soft_hw_access) s = Some ((rv, Some t), s') ∧
    hw_prg_lock s' = false ∧
    (rv = ERR QDMA_ERR_HWACC_INV_CONFIG_BAR ∧ t = soft_hw_access ∨
     rv = QDMA_SUCCESS ∧ @HwAccessOk sim t ∧
     ∀ rm rcv resp ix fid, (msg_size ≤ length rcv)%nat → (resp_size rcv ≤ length resp)%nat → rings_ok rcv →
       ∃ ret m, @qdma_mbox_pf_rcv_msg_handler sim t ix fid (mk_mst s' rm rcv resp) = Some (ret, m) ∧
         hw_prg_lock (ms_hw m) = false).
Proof.
  apply (hw_access_init_table_ok false 1 soft_hw_access (mk_hw eqdma_vf_device false)). reflexivity.
Defined.

(** A BAR that is not the configuration BAR. *)
Example wrong_bar_refused :
  qdma_hw_access_init false true 0 (Some soft_hw_access) (mk_hw sim_init false) =
  Some ((ERR QDMA_ERR_HWACC_INV_CONFIG_BAR, Some soft_hw_access), mk_hw sim_init false).
Proof. reflexivity. Qed.

(** A context with every field the EQDMA layer adds in use. *)
Definition eqdma_sw_example : qdma_descq_sw_ctxt :=
  mk_sw 0x123456789000 5 1024 1 3 1 1 1 1 0 7 9 2 0 0 1 1 3 0 0 0 0 0 0 1 1 0 1 1 0 2 0x2ABCDE
    0x8123456789ABCDEF.

Lemma ctx_conf_roundtrip_witness :
  let s := mk_hw sim_init false in
  ∃ s1 s2,
    ctx_conf EQDMA_LAYER (SW true) 77 (Some eqdma_sw_example) QDMA_HW_ACCESS_WRITE s =
      Some ((QDMA_SUCCESS, Some eqdma_sw_example), s1) ∧
    ctx_conf EQDMA_LAYER (SW true) 77 (Some sw_zero) QDMA_HW_ACCESS_READ s1 =
      Some ((QDMA_SUCCESS, Some (eqdma_sw_held eqdma_sw_example)), s2) ∧ idle s2 ∧
    ∀ k' qid' old', k' ≠ SW true ∨ cmd_qid qid' ≠ cmd_qid 77 →
      ∃ c' s3 s4,
        ctx_conf EQDMA_LAYER k' qid' (Some old') QDMA_HW_ACCESS_READ s =
          Some ((QDMA_SUCCESS, Some c'), s3) ∧
        ctx_conf EQDMA_LAYER k' qid' (Some old') QDMA_HW_ACCESS_READ s1 =
          Some ((QDMA_SUCCESS, Some c'), s4).
Proof.
  apply (ctx_conf_roundtrip EQDMA_LAYER (SW true) (mk_hw sim_init false) 77 eqdma_sw_example sw_zero
    sim_idle).
  constructor; mask_compute.
Defined.

(** The virtio base of that context is read back with its top bits wrong. *)
Example eqdma_virtio_base_altered :
  sw_virtio_dsc_base (eqdma_sw_held eqdma_sw_example) ≠ sw_virtio_dsc_base eqdma_sw_example.
Proof. vm_compute. discriminate. Qed.

(** ** What the layers do differently from each other *)

(** A device with every engine. *)
Definition all_engines : sim := mk_sim (λ _, 0) (λ _, 0) (λ _ _ _, 0) 0
  (λ a, if a =? 0x118 then 0x30101 else if a =? 0x134 then 1 else 0).

(** The registers listed for a virtual function. *)
Definition listed {A} (r : option ((Z * option (list qdma_reg_data)) * A)) : option (list Z) :=
  match r with Some ((_, Some l), _) => Some l.*1 | _ => None end.

(** The CPM4 layer reads the same registers for the first three groups: the
    first register of group 3 is at 0xB00, what is read starts at 0x204. *)
Example cpm4_groups_alike :
  let read slot := listed (qdma_cpm4_read_reg_list true 1 slot true (mk_hw all_engines false)) in
  read 1 = read 0 ∧ read 2 = read 0 ∧ (read 2 ≫= head) = Some 0x204.
Proof. vm_compute. done. Qed.

(** The EQDMA layer reads the registers from the group's first on. *)
Example eqdma_groups_differ :
  let read slot := listed (eqdma_read_reg_list true 1 slot true (mk_hw all_engines false)) in
  (read 0 ≫= head) = Some 0x204 ∧ (read 1 ≫= head) = Some 0xa80.
Proof. vm_compute. done. Qed.

(** The first register of group 4 is in neither table. *)
Example group_4_not_listed :
  qdma_cpm4_get_reg_entry QDMA_CPM4_REG_GROUP_4_START_ADDR = (INV_PARAM, -1) ∧
  eqdma_get_reg_entry EQDMA_REG_GROUP_4_START_ADDR = (INV_PARAM, -1).
Proof. vm_compute. done. Qed.

(** A function map at queue 2048 is read back as one at queue 0 on the CPM5. *)
Example cpm5_fmap_base_truncated :
  eqdma_cpm5_fmap_of_words (eqdma_cpm5_fmap_words (mk_fmap 2048 32)) = mk_fmap 0 32.
Proof. reflexivity. Qed.

(** The interrupt ring of a PASID with bit 8 set is read back without it. *)
Example eqdma_intr_pasid_bit_lost :
  intr_pasid (eqdma_intr_of_words (eqdma_intr_words (mk_intr 0 0 0 0 0 0 0 0 0 0x100 0 0))) = 0.
Proof. reflexivity. Qed.
